(* ===== verification/_CoqProject ===== *)
-Q . S2P
Prelude.v
Text.v
Buffer.v
Types.v
Wire.v
Packets.v
Timer.v
Topic.v
Client.v
Sim.v
Transport.v
Publish.v
Subscribe.v
Unsubscribe.v
Connect.v
Yield.v
WorldFrame.v
Api.v
Tls.v
Stack.v
Json.v
Jsmn.v
JsmnGrammar.v
ShadowJson.v
ShadowParse.v
ShadowRecords.v
Shadow.v
ShadowFrame.v
ShadowClient.v
ShadowTls.v
Threads.v
SecureElement.v
Mias.v
MbedtlsSe.v
SeFrame.v
MiasKeys.v
SeTls.v
Modem.v
SeStack.v
Usart.v
Shield.v
ShieldStack.v
Board.v
Pcsc.v
Sample.v
