(* ===== verification/Prelude.v ===== *)
(** * A verified model of the AWS IoT device client with Trust Onboard

    ** The program

    The repository is an MQTT client for small devices (the AWS IoT device SDK for
    embedded C), extended so that the keys of the TLS connection lie in a secure element
    of the SIM. Its parts, from the bottom up:

    - the timer of Linux ([platform/linux/common/timer.c]);
    - the TLS network layer ([platform/linux/mbedtls/network_mbedtls_wrapper.c]), which
      calls the vendored mbedTLS and the secure element;
    - the MQTT client ([src/aws_iot_mqtt_client*.c]): packets, transport, connection,
      publish, subscribe, unsubscribe, yield with keep alive and reconnection;
    - the secure element ([external_libs/gemalto]): commands and responses
      ([SEInterface.cpp]), applets ([Applet.cpp]), its files ([MF.cpp]), keys and objects
      ([MIAS.cpp]), their use for keys of mbedTLS ([mbedtls_se.c]), and the three ways
      to it: a modem on a serial line ([platform/concept_board]), the modem of a shield with
      its serial ports ([platform/connect_shield]), a card reader ([platform/pcsc]);
    - the JSON tokenizer ([external_libs/jsmn]) and readers of JSON values
      ([src/aws_iot_json_utils.c]);
    - the thing shadow ([src/aws_iot_shadow*.c]): documents, records of requests and
      subscriptions, handlers of messages, the interface for applications;
    - the program itself ([samples/linux/aws/subscribe_publish_cpp_sample.cpp]): it opens the
      modem, connects with the keys of the secure element, subscribes and publishes.

    The build that is modelled is the one of the samples for Linux: one thread
    ([_ENABLE_THREAD_SUPPORT_] undefined; [Threads] models the build with it), little endian bit fields, 64-bit [size_t], the
    constants of [samples/linux/aws/aws_iot_config.h], mbedTLS with the secure element, all
    compiled as C++. The shield and the card reader belong to other builds; their files are
    modelled as they are.

    ** Files

    - [Prelude]: outcomes, the state monad [M], weakest preconditions ([wp]), results
      ([returns]), invariants ([keeps]), fuel ([fuelled]), machine integers, bit fields.
    - [Buffer], [Types]: byte buffers with bounds, error codes, parameter structures,
      pointers and the memory of the application, C strings.
    - [Wire], [Packets]: encoding of lengths, headers and all MQTT packets.
    - [Timer]; [Topic]: timers; matching of topic filters.
    - [Client]: the client object, the interfaces [Platform] (clock, network, memory) and
      [Application] (handlers), client states, packet identifiers.
    - [Transport]: sending, reading, delivery, the read cycle, waiting for a packet.
    - [Publish], [Subscribe], [Unsubscribe], [Connect], [Yield]: one file per operation.
    - [Api]: sequences of calls of the application on the whole client; [WorldFrame]: what
      its operations do to the world around it.
    - [Tls]: the TLS network layer over an interface to mbedTLS with stated laws.
    - [Stack]: the client running on the TLS layer.
    - [Json], [Jsmn], [JsmnGrammar]: readers of values; the tokenizer; the JSON grammar
      it is compared with.
    - [Text]: the bytes of literals.
    - [ShadowJson], [ShadowParse]: writing and reading shadow documents.
    - [ShadowRecords], [Shadow]: records, handlers, actions and interface of the shadow,
      over an interface to the client ([Mqtt], [MqttConnection]); [ShadowFrame]: what they
      do to the client below.
    - [ShadowClient]: the client as the implementation of that interface, the shadow as its
      application, on any platform; [ShadowTls]: the same on the TLS layer.
    - [Threads]: the client with thread support. Its functions carry the suffix [_mt]; a
      call is a program whose instructions access the shared state, the mutexes of
      [platform/linux/pthread] and the network, and the threads take turns ([step]).
    - [SecureElement]: exchange of commands, applets and files of the secure element over an
      interface to the card ([Card]); [Mias]: its keys, signatures and objects;
      [MbedtlsSe]: certificates and keys for mbedTLS; [SeFrame]: what all these operations
      keep, whatever the card does; [MiasKeys]: the containers of the applet, their table and
      their directory on the card, and the certificate and key in a container.
    - [SeTls]: the TLS layer of [Tls] on a library that gets the certificate and the key from
      the secure element and has it sign during the handshake.
    - [Modem], [SeStack]: the connection to the secure element through a modem on a
      serial line; what holds for a card holds behind a connection that passes exchanges on
      ([Passes]); keys and certificates read through the modem.
    - [Usart], [Shield], [ShieldStack]: the serial ports of the shield and their ring
      buffers; the recognition of the modem's answers and the commands for it; keys and
      certificates read through it. [Board]: the delays, the clock and the pins of the
      shield, and the network interface in front of its sockets. [Pcsc]: keys and
      certificates read through a card reader.
    - [Sample]: the program with its callbacks, its messages and what it prints, on the client
      over any platform.
    - [Sim], [ShadowRecords.Demo], [ShadowClient.StackDemo], [ShadowTls.TlsDemo],
      [MbedtlsSe.Demo], [MiasKeys.CardDemo], [SeTls.SeTlsDemo], [SeStack.ModemDemo],
      [ShieldStack.ShieldDemo], [Pcsc.ReaderDemo], [Sample.SampleDemo]: simulated environments
      the concrete runs use.

    Definitions have the names of the functions they translate; a loop is a [Fixpoint]
    named after its function, and a part of a long function that has a name of its own is
    mapped to the lines of that part.

    ** How code is modelled

    A function that can fail or change state is a computation [M S A]: it takes a state
    and returns a value with the next state, or stops. It stops with [Fault] where the C
    program has undefined behaviour (an access outside of an array, a null pointer, an
    uninitialized variable, a conversion out of range), so a theorem that a computation
    returns says that none of this happens. Return codes are ordinary values. Integers
    are [Z] with the conversions [u8], [u16], [u32], [size_t] where C converts. Arrays are
    lists of bytes; a C string is the part of an array before its first null. Pointers of
    the application are symbolic ([ptr]); they are read through its memory at the time of
    the access, so aliasing between the buffers of the client and what it delivers is in
    the model. The arrays of the shadow and the local arrays of its functions, while they
    exist, have addresses in [ShadowClient]. Callbacks of the application are members of a class, run on the whole
    state, and may call the client or the shadow again.

    ** Fuel

    Loops whose number of iterations depends on the network, on the clock or on callbacks
    take fuel and stop with [OutOfFuel]. [Transport.wait_for_read_terminates],
    [ShadowRecords.settling_ends] and [ShadowRecords.delta_loop_terminates] show how much
    is enough; [Transport.send_packet_terminates] does so for sending. All other loops are
    structural on the data they read. A handler of the shadow calls the client, which
    delivers further messages while it waits: [ShadowClient.stack_app] bounds the depth of
    this nesting, which the code leaves to the stack of the device, and the theorems hold
    for every bound; [Sample.sample_app] does the same for the handlers of lost connections, and
    the loop of the program is given the number of its iterations. Theorems about what a call returns hold for every
    amount of fuel; those about the secure element need as much as the card asks for
    further exchanges, and as the file has bytes.

    ** Theorems

    - Whole client ([Api]): the sizes and ranges of the client and its resting state hold
      after any sequence of calls; a refused call changes nothing.
    - Operations ([Connect] to [Yield]): what success means on the wire and in which order
      ([Transport.awaited] is a wait that ends with its packet), what each error leaves,
      the keep alive on each branch, the back-off of reconnection. What subscribe and
      unsubscribe do to the table of handlers is stated for handlers that change it
      themselves within a relation while the call waits ([Transport.handlers_within]).
    - Transport and packets: exactly one packet is read at a time; messages reach exactly
      the matching handlers, as long as the handlers keep the table and the bytes of the
      topic ([Transport.handlers_keep_delivery]); a wait ends if its read cycles do;
      encodings are those of MQTT and are inverted by the readers; deserializing
      arbitrary bytes stays inside of the buffer for packets that end inside of it, with
      room for an identifier if their QoS calls for one. Topic filters are compared with
      the wildcards of MQTT 3.1.1 section 4.7.1; the rule of section 4.7.2 for names
      starting with '$' is not implemented by the code.
    - Threads: a publish, a subscribe or a yield per thread on an idle client, while no
      message arrives, no error of the connection occurs and every ping that is due is
      sent. In every interleaving the accesses of the calls are not mixed, there is no
      deadlock, and the client ends idle when threads block. Lost connections are not
      covered; messages and unsubscribes break the guarantees, as examples show.
    - TLS: what a write and a read transfer, that a reported connection was verified; and
      a publish over TLS as a whole ([Stack]).
    - Secure element: a key or certificate is parsed from exactly the bytes of its file
      after the PIN was accepted; signatures are those of the card; the buffers of the
      interface are never left; the channel is closed. The same is shown for the
      ways through both modems and the reader, for files and signatures. What the card does is described by
      relations between its states ([exchange], [holds_file], [card_signs]).
    - Containers and TLS: the certificate and the key of a container are those that the files
      of the card tell, for a certificate that is not compressed and a name with 14 readable
      bytes ([MiasKeys]); an established connection has presented this certificate
      and used this key to the end of the handshake ([SeTls]).
    - Serial ports: in any order of interrupts and calls the ring buffers are bounded
      queues.
    - JSON: the tokenizer is memory safe on every text and produces exactly the tokens of
      the grammar on every JSON text; integers are read back as printed.
    - Shadow: documents are exactly the JSON objects meant, client tokens are found again,
      the static variables stay well formed under any calls and messages, responses
      complete exactly the request with their token, old changes are discarded.
    - Shadow and client together: both are well formed and the client is at rest after any
      calls and messages; an update over TLS sends exactly its MQTT message.
    - The program ([Sample]): its messages are announced in order and in the number meant; its
      client is well formed however it ends; its payloads are JSON texts that the readers of
      the repository read back.

    Several theorems state a defect of the code together with what holds; the manifest
    lists these findings.

    ** Not modelled

    mbedTLS (vendored) is an interface with laws in [Tls] and [SeTls]; connecting,
    disconnecting and the timers are not part of [Threads], and the reads of the state
    without a mutex are taken as atomic there; interrupts come between the calls of [Usart],
    not within one; the certificate callback of the TLS layer and debug printing have no effect on the state, and
    what is printed is modelled for the program only; a signal ends the program by
    [Sample.intHandler] at any point, which is not an event of its runs; floating-point
    conversions of the C library are parameters; tests call the functions that are modelled.
    The C branches and wrappers of the secure element are not part of the build.
    [USE_GAT_RESPONSE] is not defined. *)
From stdpp Require Export ssreflect gmap list.
From Stdlib Require Export ZArith Lia.

#[export] Set Default Goal Selector "!".

Declare Scope iot_scope.
Delimit Scope iot_scope with iot.
Global Open Scope Z_scope.

(** ** Outcomes of a C computation *)

(** The ways a computation can fail to produce a value. A [Fault] is undefined
    behaviour of the C program (an access outside an array, a null dereference, the use
    of an uninitialized variable, a conversion whose result its type cannot represent, a
    division by zero);
    [OutOfFuel] marks a loop whose iteration budget was used up. *)
Inductive fault := OobRead | OobWrite | NullDeref | UninitRead | BadConversion | DivByZero | IntOverflow.
Inductive exn := Fault (f : fault) | OutOfFuel.

Inductive outcome (A : Type) := Ret (a : A) | Exn (e : exn).
Arguments Ret {A} a.
Arguments Exn {A} e.

#[export] Instance fault_eq_dec : EqDecision fault.
Proof. solve_decision. Defined.
#[export] Instance exn_eq_dec : EqDecision exn.
Proof. solve_decision. Defined.

#[export] Instance outcome_ret : MRet outcome := @Ret.
#[export] Instance outcome_bind : MBind outcome := fun A B f o =>
  match o with Ret a => f a | Exn e => Exn e end.

(** State passing with outcomes: the state [S] is threaded through a computation. *)
Definition M (S A : Type) : Type := S -> outcome (A * S).

#[export] Instance M_ret S : MRet (M S) := fun A a s => Ret (a, s).
#[export] Instance M_bind S : MBind (M S) := fun A B f m s =>
  match m s with Ret (a, s') => f a s' | Exn e => Exn e end.

Definition raise {S A} (e : exn) : M S A := fun _ => Exn e.
Definition get {S} : M S S := fun s => Ret (s, s).
Definition put {S} (s : S) : M S unit := fun _ => Ret (tt, s).
Definition gets {S A} (f : S -> A) : M S A := fun s => Ret (f s, s).
Definition modify {S} (f : S -> S) : M S unit := fun s => Ret (tt, f s).
Definition lift_option {S A} (e : exn) (o : option A) : M S A :=
  match o with Some a => mret a | None => raise e end.
Definition lift_outcome {S A} (o : outcome A) : M S A := fun s =>
  match o with Ret a => Ret (a, s) | Exn e => Exn e end.

(** ** Weakest preconditions

    [wp E m Q s] holds when running [m] from [s] either returns a value and a
    state that satisfy [Q] or stops with an exception that [E] allows. *)
Definition wp {S A} (E : exn -> Prop) (m : M S A) (Q : A -> S -> Prop) (s : S) : Prop :=
  match m s with Ret (a, s') => Q a s' | Exn e => E e end.

(** Exceptions allowed: none, running out of fuel only, any. *)
Definition no_exn (e : exn) : Prop := False.
Definition fuel_only (e : exn) : Prop := e = OutOfFuel.
Definition any_exn (e : exn) : Prop := True.

Section Wp.
Context {S : Type} (E : exn -> Prop).

Lemma wp_ret {A} (a : A) (Q : A -> S -> Prop) s : Q a s -> wp E (mret a) Q s.
Proof. done. Qed.

Lemma wp_bind {A B} (m : M S A) (k : A -> M S B) Q s :
  wp E m (fun a s' => wp E (k a) Q s') s -> wp E (m ≫= k) Q s.
Proof. rw /wp /mbind /M_bind. by destruct (m s) as [[a s']|e]. Qed.

Lemma wp_mono {A} (m : M S A) (P Q : A -> S -> Prop) s :
  wp E m P s -> (forall a s', P a s' -> Q a s') -> wp E m Q s.
Proof. rw /wp. destruct (m s) as [[a s']|e]; eauto. Qed.

Lemma wp_conj {A} (m : M S A) (P Q : A -> S -> Prop) s :
  wp E m P s -> wp E m Q s -> wp E m (fun a s' => P a s' /\ Q a s') s.
Proof. rw /wp. by destruct (m s) as [[a s']|e]. Qed.

Lemma wp_raise {A} e (Q : A -> S -> Prop) s : E e -> wp E (raise e) Q s.
Proof. done. Qed.

Lemma wp_get (Q : S -> S -> Prop) s : Q s s -> wp E get Q s.
Proof. done. Qed.

Lemma wp_gets {A} (f : S -> A) (Q : A -> S -> Prop) s : Q (f s) s -> wp E (gets f) Q s.
Proof. done. Qed.

Lemma wp_put s0 (Q : unit -> S -> Prop) s : Q tt s0 -> wp E (put s0) Q s.
Proof. done. Qed.

Lemma wp_modify f (Q : unit -> S -> Prop) s : Q tt (f s) -> wp E (modify f) Q s.
Proof. done. Qed.

Lemma wp_lift_outcome {A} (o : outcome A) (Q : A -> S -> Prop) s :
  match o with Ret a => Q a s | Exn e => E e end -> wp E (lift_outcome o) Q s.
Proof. by destruct o. Qed.

Lemma wp_known {A} (m : M S A) (Q : A -> S -> Prop) s a s' :
  m s = Ret (a, s') -> Q a s' -> wp E m Q s.
Proof. rw /wp. by intros ->. Qed.

Lemma wp_run {A} (m : M S A) Q s a s' : m s = Ret (a, s') -> wp E m Q s -> Q a s'.
Proof. rw /wp. by intros ->. Qed.
End Wp.

(** Turn a goal about the result of the run [H] into a weakest precondition. *)
Ltac by_wp H :=
  lazymatch type of H with
  | ?m ?s = Ret (?a, ?s') => pattern a, s'; refine (wp_run any_exn m _ s a s' H _); clear H; try clear a; try clear s'
  end.

Lemma wp_exn_mono {S A} (E E' : exn -> Prop) (m : M S A) Q s :
  (forall e, E e -> E' e) -> wp E m Q s -> wp E' m Q s.
Proof. rw /wp. destruct (m s) as [[a s']|e]; eauto. Qed.

(** A computation with no exception allowed returns. *)
Lemma wp_no_exn_run {S A} (m : M S A) Q s :
  wp no_exn m Q s -> exists a s', m s = Ret (a, s') /\ Q a s'.
Proof. rw /wp. destruct (m s) as [[a s']|e]; [eauto|done]. Qed.

(** Running a bind whose first part is known. *)
Lemma bind_run {S A B} (m : M S A) (k : A -> M S B) s a s' :
  m s = Ret (a, s') -> (m ≫= k) s = k a s'.
Proof. rw /mbind /M_bind. by intros ->. Qed.

Lemma bind_step {S A B} (m : M S A) (k : A -> M S B) s a s' r :
  m s = Ret (a, s') -> k a s' = r -> (m ≫= k) s = r.
Proof. intros Hm <-. by apply bind_run. Qed.

Lemma bind_exn {S A B} (m : M S A) (k : A -> M S B) s e :
  m s = Exn e -> (m ≫= k) s = Exn e.
Proof. rw /mbind /M_bind. by intros ->. Qed.

Lemma bind_inv {S A B} (m : M S A) (k : A -> M S B) s b s'' :
  (m ≫= k) s = Ret (b, s'') -> exists a s', m s = Ret (a, s') /\ k a s' = Ret (b, s'').
Proof. rw /mbind /M_bind. destruct (m s) as [[a s']|e]; [eauto|done]. Qed.

Lemma lift_outcome_inv {S A} (o : outcome A) (s s' : S) a :
  lift_outcome o s = Ret (a, s') -> o = Ret a /\ s' = s.
Proof. rw /lift_outcome. destruct o; naive_solver. Qed.

Lemma lift_option_inv {S A} e (o : option A) (s s' : S) a :
  lift_option e o s = Ret (a, s') -> o = Some a /\ s' = s.
Proof. rw /lift_option. destruct o; [|done]. by intros [= -> ->]. Qed.

(** One step of a weakest-precondition proof. *)
Ltac wp_step :=
  match goal with
  | |- wp _ (_ ≫= _) _ _ => apply wp_bind
  | |- wp _ (mret _) _ _ => apply wp_ret
  | |- wp _ (gets _) _ _ => apply wp_gets
  | |- wp _ get _ _ => apply wp_get
  | |- wp _ (put _) _ _ => apply wp_put
  | |- wp _ (modify _) _ _ => apply wp_modify
  | |- wp _ (raise _) _ _ => apply wp_raise
  | |- wp _ (lift_outcome _) _ _ => apply wp_lift_outcome
  end.
Ltac wp_steps := repeat (wp_step; cbn beta).

(** ** Results of a computation

    [returns P m]: every value [m] returns, from any state, satisfies [P]. *)
Definition returns {S A} (P : A -> Prop) (m : M S A) : Prop := forall s, wp any_exn m (fun a _ => P a) s.

Lemma returns_ret {S A} (P : A -> Prop) (a : A) : P a -> returns (S := S) P (mret a).
Proof. intros Ha s. by apply wp_ret. Qed.
Lemma returns_raise {S A} (P : A -> Prop) e : returns (S := S) P (raise e).
Proof. done. Qed.
Lemma returns_bind {S A B} (P : A -> Prop) (Q : B -> Prop) (m : M S A) (k : A -> M S B) :
  returns P m -> (forall a, P a -> returns Q (k a)) -> returns Q (m ≫= k).
Proof. intros Hm Hk s. apply wp_bind. eapply wp_mono; [apply Hm|]. intros a s'. by intros Ha%Hk. Qed.
(** The result of the first part does not matter. *)
Lemma returns_any {S A B} (Q : B -> Prop) (m : M S A) (k : A -> M S B) :
  (forall a, returns Q (k a)) -> returns Q (m ≫= k).
Proof.
  intros Hk s. apply wp_bind. rw /wp. destruct (m s) as [[a s']|]; [apply Hk|done].
Qed.
Lemma returns_outcome {S A} (P : A -> Prop) (o : outcome A) :
  (forall a, o = Ret a -> P a) -> returns (S := S) P (lift_outcome o).
Proof. intros Ho s. apply wp_lift_outcome. destruct o; auto. done. Qed.

(** Follow the control flow; what a bind returns is looked up in the context and the
    database [iot]. *)
Ltac returns_step :=
  match goal with
  | |- forall _, returns _ _ => intros ?
  | |- returns _ (mret _) => apply returns_ret
  | |- returns _ (raise _) => apply returns_raise
  | |- returns _ (if ?x then _ else _) => destruct x
  | |- returns _ (match ?x with _ => _ end) => destruct x
  | |- returns _ (_ ≫= _) => first [eapply returns_bind; [solve [eauto with iot]|intros ? ?]|apply returns_any; intros ?]
  | |- returns _ _ => solve [eauto with iot]
  end.
Ltac returns_auto := repeat (cbv beta iota zeta; returns_step).

(** ** Invariants of a computation

    [keeps I m]: from every state with [I], whenever [m] returns the state has [I]. *)
Definition keeps {S A} (I : S -> Prop) (m : M S A) : Prop := forall s, I s -> wp any_exn m (fun _ s' => I s') s.

Section Keeps.
Context {S : Type} (I : S -> Prop).

Lemma keeps_ret {A} (a : A) : keeps I (mret a).
Proof. by intros s Hs. Qed.
Lemma keeps_raise {A} e : keeps I (raise (A := A) e).
Proof. done. Qed.
Lemma keeps_get {B} (k : S -> M S B) : (forall s, I s -> keeps I (k s)) -> keeps I (get ≫= k).
Proof. intros Hk s Hs. by apply wp_bind, wp_get, Hk. Qed.
Lemma keeps_gets {A B} (f : S -> A) (P : A -> Prop) (k : A -> M S B) :
  (forall s, I s -> P (f s)) -> (forall a, P a -> keeps I (k a)) -> keeps I (gets f ≫= k).
Proof. intros Hf Hk s Hs. apply wp_bind, wp_gets, Hk; [by apply Hf|done]. Qed.
Lemma keeps_modify (f : S -> S) : (forall s, I s -> I (f s)) -> keeps I (modify f).
Proof. intros Hf s Hs. by apply wp_modify, Hf. Qed.
Lemma keeps_lift_option {A} e (o : option A) : keeps I (lift_option e o).
Proof. by destruct o; intros s Hs. Qed.
Lemma keeps_lift_outcome {A} (o : outcome A) : keeps I (lift_outcome o).
Proof. intros s Hs. apply wp_lift_outcome. by destruct o. Qed.

(** A bind whose first part returns values with [P]. *)
Lemma keeps_bind_post {A B} (P : A -> Prop) (m : M S A) (k : A -> M S B) :
  (forall s, I s -> wp any_exn m (fun a s' => I s' /\ P a) s) -> (forall a, P a -> keeps I (k a)) -> keeps I (m ≫= k).
Proof.
  intros Hm Hk s Hs. apply wp_bind. eapply wp_mono; [by apply Hm|]. intros a s' [Hs' Ha]. by apply Hk.
Qed.
Lemma keeps_bind {A B} (m : M S A) (k : A -> M S B) :
  keeps I m -> (forall a, keeps I (k a)) -> keeps I (m ≫= k).
Proof. intros Hm Hk s Hs. apply wp_bind. eapply wp_mono; [by apply Hm|]. intros a s' Hs'. by apply Hk. Qed.
Lemma keeps_conj {A} (J : S -> Prop) (m : M S A) : keeps I m -> keeps J m -> keeps (fun s => I s /\ J s) m.
Proof. intros HI HJ s [H1 H2]. apply wp_conj; [by apply HI|by apply HJ]. Qed.
(** A lifted value satisfies the facts known about it. *)
Lemma keeps_bind_option {A B} e (o : option A) (k : A -> M S B) :
  (forall a, o = Some a -> keeps I (k a)) -> keeps I (lift_option e o ≫= k).
Proof. intros Hk s Hs. apply wp_bind. destruct o as [a|]; [|done]. by apply Hk. Qed.
Lemma keeps_bind_outcome {A B} (o : outcome A) (k : A -> M S B) :
  (forall a, o = Ret a -> keeps I (k a)) -> keeps I (lift_outcome o ≫= k).
Proof. intros Hk s Hs. apply wp_bind, wp_lift_outcome. destruct o as [a|]; [|done]. by apply Hk. Qed.
End Keeps.

(** Follow the control flow; the parts are looked up in the context and the database
    [iot]. *)
Ltac keeps_step :=
  match goal with
  | |- forall _, keeps _ _ => intros ?
  | |- keeps _ (mret _) => apply keeps_ret
  | |- keeps _ (raise _) => apply keeps_raise
  | |- keeps _ (if ?x then _ else _) => destruct x eqn:?
  | |- keeps _ (match ?x with _ => _ end) => destruct x eqn:?
  | |- keeps _ (lift_option _ _ ≫= _) => apply keeps_bind_option; intros ? ?
  | |- keeps _ (lift_outcome _ ≫= _) => apply keeps_bind_outcome; intros ? ?
  | |- keeps _ (lift_option _ _) => apply keeps_lift_option
  | |- keeps _ (lift_outcome _) => apply keeps_lift_outcome
  | |- keeps _ (_ ≫= _) => first [eapply keeps_bind_post; [solve [eauto with iot]|intros ? ?]|apply keeps_bind; [|intros ?]]
  | |- keeps _ _ => solve [eauto with iot]
  end.
Ltac keeps_auto := repeat (cbv beta iota zeta; keeps_step).

(** ** Computations that stay within their fuel *)

Definition in_fuel {A} (o : outcome A) : Prop := o <> Exn OutOfFuel.
Definition fuelled {S A} (m : M S A) : Prop := forall s, in_fuel (m s).

Lemma in_fuel_bind {A B} (o : outcome A) (k : A -> outcome B) :
  in_fuel o -> (forall a, in_fuel (k a)) -> in_fuel (o ≫= k).
Proof. rw /in_fuel. by destruct o as [a|e]; cbn; [|intros He _; intros [= ->]]. Qed.
Lemma fuelled_bind {S A B} (m : M S A) (k : A -> M S B) :
  fuelled m -> (forall a, fuelled (k a)) -> fuelled (m ≫= k).
Proof.
  intros Hm Hk s. specialize (Hm s). rw /mbind /M_bind. rw /in_fuel in Hm |- *.
  destruct (m s) as [[a s']|e]; [apply Hk|]. by intros [= ->].
Qed.
Lemma fuelled_lift_outcome {S A} (o : outcome A) : in_fuel o -> fuelled (S := S) (lift_outcome o).
Proof. intros Ho s. rw /lift_outcome /in_fuel. destruct o; [done|]. by intros [= ->]. Qed.
Lemma fuelled_lift_option {S A} f (o : option A) : fuelled (S := S) (lift_option (Fault f) o).
Proof. by destruct o. Qed.

(** Follow the control flow, with the database [fuel] for the parts. *)
Create HintDb fuel discriminated.
Ltac fuel_step :=
  match goal with
  | |- forall _, _ => intros ?
  | |- in_fuel (_ ≫= _) => apply in_fuel_bind
  | |- in_fuel (if ?x then _ else _) => destruct x
  | |- in_fuel (match ?x with _ => _ end) => destruct x
  | |- fuelled (_ ≫= _) => apply fuelled_bind
  | |- fuelled (if ?x then _ else _) => destruct x
  | |- fuelled (match ?x with _ => _ end) => destruct x
  | |- fuelled (lift_outcome _) => apply fuelled_lift_outcome
  | |- fuelled (lift_option _ _) => apply fuelled_lift_option
  | |- _ => solve [eauto with fuel]
  | |- in_fuel _ => done
  | |- fuelled _ => intros ?; done
  end.
Ltac fuel_auto := repeat (cbv beta iota zeta; fuel_step).

(** Inverting a run that returned: every [x ← m; k] in a hypothesis is split
    into the run of [m] and the run of [k]. *)
Ltac run_inv :=
  repeat match goal with
  | H : (_ ≫= _) _ = Ret (_, _) |- _ =>
      let a := fresh "a" in let s := fresh "s" in let Hm := fresh "Hrun" in
      apply bind_inv in H as (a & s & Hm & H)
  | H : mret _ _ = Ret (_, _) |- _ => rw /mret /M_ret in H; simplify_eq
  | H : gets _ _ = Ret (_, _) |- _ => rw /gets in H; simplify_eq
  | H : get _ = Ret (_, _) |- _ => rw /get in H; simplify_eq
  | H : put _ _ = Ret (_, _) |- _ => rw /put in H; simplify_eq
  | H : modify _ _ = Ret (_, _) |- _ => rw /modify in H; simplify_eq
  | H : raise _ _ = Ret (_, _) |- _ => discriminate H
  end.

(** ** Machine integers

    The target of the samples is Linux on a 64-bit machine: [size_t] has 64 bits.
    A value of an unsigned type of width [w] is a [Z] in [[0, 2^w)]; the
    functions below are the conversions C makes on assignment. *)
Definition u8 (z : Z) : Z := z mod 2 ^ 8.
Definition u16 (z : Z) : Z := z mod 2 ^ 16.
Definition u32 (z : Z) : Z := z mod 2 ^ 32.
Definition size_t (z : Z) : Z := z mod 2 ^ 64.

Definition is_u8 (z : Z) : Prop := 0 <= z < 2 ^ 8.
Definition is_u16 (z : Z) : Prop := 0 <= z < 2 ^ 16.
Definition is_u32 (z : Z) : Prop := 0 <= z < 2 ^ 32.
Definition is_size (z : Z) : Prop := 0 <= z < 2 ^ 64.

(** A byte string: every element is the value of an [unsigned char]. *)
Definition bytes_ok (l : list Z) : Prop := Forall is_u8 l.

Create HintDb iot discriminated.
Create HintDb width discriminated.

Lemma u8_range z : is_u8 (u8 z).
Proof. by apply Z.mod_pos_bound. Qed.
Lemma u16_range z : is_u16 (u16 z).
Proof. by apply Z.mod_pos_bound. Qed.
Lemma u32_range z : is_u32 (u32 z).
Proof. by apply Z.mod_pos_bound. Qed.
Lemma size_t_range z : is_size (size_t z).
Proof. by apply Z.mod_pos_bound. Qed.
#[export] Hint Resolve u8_range u16_range u32_range size_t_range : width.

Lemma u8_small z : is_u8 z -> u8 z = z.
Proof. apply Z.mod_small. Qed.
Lemma u16_small z : is_u16 z -> u16 z = z.
Proof. apply Z.mod_small. Qed.
Lemma u32_small z : is_u32 z -> u32 z = z.
Proof. apply Z.mod_small. Qed.
Lemma size_t_small z : is_size z -> size_t z = z.
Proof. apply Z.mod_small. Qed.

Lemma is_u16_u32 z : is_u16 z -> is_u32 z.
Proof. rw /is_u16 /is_u32. lia. Qed.
Lemma is_u32_size z : is_u32 z -> is_size z.
Proof. rw /is_u32 /is_size. lia. Qed.
#[export] Hint Resolve is_u16_u32 is_u32_size : width.

(** [width] unfolds the ranges and leaves linear arithmetic. *)
Ltac width := unfold is_u8, is_u16, is_u32, is_size in *; lia.

(** Remove the conversions to 32 bits that do not change their argument, innermost
    first. *)
Ltac u32_norm :=
  repeat match goal with
  | |- context [u32 ?z] =>
      lazymatch z with context [u32 _] => fail | _ => rw (u32_small z); [|width] end
  end.

Lemma bytes_ok_app l1 l2 : bytes_ok (l1 ++ l2) <-> bytes_ok l1 /\ bytes_ok l2.
Proof. apply Forall_app. Qed.
Lemma bytes_ok_take n l : bytes_ok l -> bytes_ok (take n l).
Proof. apply Forall_take. Qed.
Lemma bytes_ok_drop n l : bytes_ok l -> bytes_ok (drop n l).
Proof. apply Forall_drop. Qed.
Lemma bytes_ok_lookup l i b : bytes_ok l -> l !! i = Some b -> is_u8 b.
Proof. intros Hl Hi. by eapply Forall_lookup_1. Qed.
#[export] Hint Resolve bytes_ok_take bytes_ok_drop : width.

Lemma lookup_app_add {A} (l1 l2 : list A) i : (l1 ++ l2) !! (length l1 + i)%nat = l2 !! i.
Proof. rw lookup_app_r; [f_equal; lia|lia]. Qed.

(** A decidable property of bytes is checked on the 256 of them. *)
Lemma u8_forall (P : Z -> bool) : forallb P (seqZ 0 256) = true -> forall b, is_u8 b -> P b = true.
Proof.
  intros HP b Hb. eapply (proj1 (forallb_forall P (seqZ 0 256))); [done|].
  apply list_elem_of_In, elem_of_seqZ. width.
Qed.

(** Bit fields of an integer: [bf_get lo w z] is the field of [w] bits from bit
    [lo] up, [bf_set lo w v z] assigns [v] (truncated to [w] bits) to it. *)
Definition bf_get (lo w z : Z) : Z := Z.land (Z.shiftr z lo) (Z.ones w).
Definition bf_set (lo w v z : Z) : Z :=
  Z.lor (Z.ldiff z (Z.shiftl (Z.ones w) lo)) (Z.shiftl (Z.land v (Z.ones w)) lo).

Lemma testbit_ones_lt w i : 0 <= w -> 0 <= i -> Z.testbit (Z.ones w) i = bool_decide (i < w).
Proof.
  intros Hw Hi. rw Z.testbit_ones_nonneg; [|lia|lia].
  case_bool_decide; [by apply Z.ltb_lt|by apply Z.ltb_ge; lia].
Qed.

Lemma bf_get_testbit lo w z i : 0 <= lo -> 0 <= w -> 0 <= i ->
  Z.testbit (bf_get lo w z) i = bool_decide (i < w) && Z.testbit z (i + lo).
Proof.
  intros. rw /bf_get Z.land_spec Z.shiftr_spec // testbit_ones_lt //.
  by rw andb_comm.
Qed.

Lemma bf_set_testbit lo w v z i : 0 <= lo -> 0 <= w -> 0 <= i ->
  Z.testbit (bf_set lo w v z) i =
    if bool_decide (lo <= i < lo + w) then Z.testbit v (i - lo) else Z.testbit z i.
Proof.
  intros Hlo Hw Hi. rw /bf_set Z.lor_spec Z.ldiff_spec.
  destruct (decide (lo <= i)) as [Hle|Hgt].
  - rw !Z.shiftl_spec // Z.land_spec testbit_ones_lt; [|lia|lia].
    case_bool_decide; case_bool_decide; try lia; simpl.
    + by rw andb_false_r andb_true_r.
    + by rw andb_true_r andb_false_r orb_false_r.
  - rw bool_decide_false; [|lia].
    rw !Z.shiftl_spec_low; [|lia|lia]. by rw andb_true_r orb_false_r.
Qed.

Lemma bf_get_set_same lo w v z : 0 <= lo -> 0 <= w -> 0 <= v < 2 ^ w ->
  bf_get lo w (bf_set lo w v z) = v.
Proof.
  intros Hlo Hw Hv. apply Z.bits_inj'. intros i Hi.
  rw bf_get_testbit // bf_set_testbit; [|lia..].
  destruct (decide (i < w)) as [Hlt|Hge].
  - rw !bool_decide_true; [|lia|lia]. simpl. f_equal. lia.
  - rw bool_decide_false //. simpl. symmetry.
    rw Z.testbit_eqb // Z.div_small //.
    split; [lia|]. eapply Z.lt_le_trans; [apply Hv|]. apply Z.pow_le_mono_r; lia.
Qed.

Lemma bf_get_set_other lo w lo' w' v z : 0 <= lo -> 0 <= w -> 0 <= lo' -> 0 <= w' ->
  lo + w <= lo' \/ lo' + w' <= lo ->
  bf_get lo w (bf_set lo' w' v z) = bf_get lo w z.
Proof.
  intros ???? Hdisj. apply Z.bits_inj'. intros i Hi.
  rw !bf_get_testbit // bf_set_testbit; [|lia..].
  case_bool_decide; simpl; [|done]. rw bool_decide_false //; lia.
Qed.

Lemma bf_get_range lo w z : 0 <= w -> 0 <= bf_get lo w z < 2 ^ w.
Proof. intros. rw /bf_get Z.land_ones //. apply Z.mod_pos_bound. lia. Qed.

Lemma bf_set_range lo w v z n : 0 <= lo -> 0 <= w -> lo + w <= n ->
  0 <= z < 2 ^ n -> 0 <= bf_set lo w v z < 2 ^ n.
Proof.
  intros Hlo Hw Hn Hz.
  assert (bf_set lo w v z = bf_get 0 n (bf_set lo w v z)) as ->.
  { apply Z.bits_inj'. intros i Hi. rw bf_get_testbit; [|lia..].
    replace (i + 0) with i by lia. rw bf_set_testbit //.
    destruct (decide (i < n)); [by rw (bool_decide_true (i < n))|].
    rw (bool_decide_false (i < n)) //= bool_decide_false; [|lia].
    rw Z.testbit_eqb // Z.div_small //.
    split; [lia|]. eapply Z.lt_le_trans; [apply Hz|]. apply Z.pow_le_mono_r; lia. }
  apply bf_get_range. lia.
Qed.
