(* ===== verification/Text.v ===== *)
(** * Character strings

    The bytes of the literals that the definitions use, decimal and hexadecimal digits. *)
From Stdlib Require Import Ascii String.
From S2P Require Import Prelude.

(** The bytes of a literal. *)
Definition bytes (s : string) : list Z := (fun a => Z.of_nat (nat_of_ascii a)) <$> list_ascii_of_string s.

(** ** Decimal output of the C library *)

(** The characters of the decimal digits of [n], at most [fuel] of them. *)
Fixpoint decimal_loop (fuel : nat) (n : Z) (acc : list Z) : list Z :=
  match fuel with
  | O => acc
  | S fuel' =>
      let acc := 48 + n mod 10 :: acc in
      if n / 10 =? 0 then acc else decimal_loop fuel' (n / 10) acc
  end.

(** [%i], [%d] and [%u] of an integer of at most 32 bits. *)
Definition print_int (z : Z) : list Z :=
  if z <? 0 then 45 :: decimal_loop 10 (- z) [] else decimal_loop 10 z [].

(** The value of decimal digits, and their characters. *)
Definition digits_value (ds : list Z) : Z := fold_left (fun a d => a * 10 + d) ds 0.
Definition digits_text (ds : list Z) : list Z := (fun d => 48 + d) <$> ds.
Definition digits_ok (ds : list Z) : Prop := ds <> [] /\ Forall (fun d => 0 <= d < 10) ds.

(** Canonical: no leading zero. *)
Definition canonical (ds : list Z) : Prop := digits_ok ds /\ (head ds = Some 0 -> ds = [0]).

Lemma digits_nonzero ds : digits_ok ds -> Forall (fun b => b <> 0) (digits_text ds).
Proof. intros [_ Hds]. apply Forall_fmap. eapply Forall_impl; [exact Hds|]. intros d Hd. rw /compose. intros Heq. cbn in Hd. lia. Qed.

Lemma digits_value_snoc ds d : digits_value (ds ++ [d]) = digits_value ds * 10 + d.
Proof. by rw /digits_value fold_left_app. Qed.

Ltac div_lia := Z.to_euclidean_division_equations; lia.

Lemma decimal_loop_digits fuel n acc : 0 <= n < 10 ^ Z.of_nat (S fuel) ->
  exists ds, canonical ds /\ digits_value ds = n /\ decimal_loop (S fuel) n acc = digits_text ds ++ acc.
Proof.
  revert n acc. induction fuel as [|fuel IH]; intros n acc Hn; remember (S _) as f eqn:Hf.
  - assert (n mod 10 = n /\ n / 10 = 0) as [Hm Hd] by (subst f; change (10 ^ Z.of_nat 1) with 10 in Hn; div_lia).
    subst f. cbn [decimal_loop]. rw Hd Hm /=. exists [n]. repeat split; try done.
    + by repeat constructor; div_lia.
    + cbn. congruence.
  - subst f. rw Nat2Z.inj_succ Z.pow_succ_r in Hn; [|div_lia].
    cbn [decimal_loop]. destruct (n / 10 =? 0) eqn:Hd.
    + apply Z.eqb_eq in Hd. assert (n mod 10 = n) as -> by div_lia. exists [n]. repeat split; try done.
      * by repeat constructor; div_lia.
      * cbn. congruence.
    + apply Z.eqb_neq in Hd. edestruct (IH (n / 10) (48 + n mod 10 :: acc)) as (ds & Hcan & Hv & Heq); [div_lia|].
      cbn [decimal_loop] in Heq. rw Heq. exists (ds ++ [n mod 10]). repeat split.
      * intros Hnil. by destruct ds.
      * apply Forall_app. split; [by destruct Hcan as [[_ ?] _]|]. by repeat constructor; div_lia.
      * intros Hh. destruct ds as [|d ds]; [by destruct Hcan as [[? _] _]|]. cbn in Hh. injection Hh as ->.
        destruct Hcan as [_ Hz]. specialize (Hz eq_refl). rw Hz in Hv. cbn in Hv. div_lia.
      * rw digits_value_snoc Hv. div_lia.
      * by rw /digits_text fmap_app -app_assoc.
Qed.

Lemma print_int_digits z : Z.abs z < 10 ^ 10 ->
  exists ds, canonical ds /\ digits_value ds = Z.abs z /\
    print_int z = (if z <? 0 then [45] else []) ++ digits_text ds.
Proof.
  intros Hz. destruct (decimal_loop_digits 9 (Z.abs z) []) as (ds & Hcan & Hv & Heq); [lia|].
  exists ds. split_and!; [done|done|]. rw app_nil_r in Heq. rw -Heq /print_int.
  destruct (z <? 0) eqn:Hs; cbn [app]; do 2 f_equal; lia.
Qed.

(** ** Hexadecimal digits *)

Definition hex_digit (d c : Z) : Z :=
  let d := u8 (Z.shiftl d 4) in
  if (48 <=? c) && (c <=? 57) then Z.lor d (c - 48)
  else if (97 <=? c) && (c <=? 102) then Z.lor d (c - 97 + 10)
  else if (65 <=? c) && (c <=? 70) then Z.lor d (c - 65 + 10)
  else d.
(** The digits are read in pairs; a last single one is followed by the final null. *)
Fixpoint hex_string_2_bytes_array (hexstr : list Z) : list Z :=
  match hexstr with
  | a :: b :: hexstr' => hex_digit (hex_digit 0 a) b :: hex_string_2_bytes_array hexstr'
  | [a] => [hex_digit (hex_digit 0 a) 0]
  | [] => []
  end.

(** The digits of [bs], in upper case or not. *)
Definition hex_char (upper : bool) (d : Z) : Z := if d <? 10 then 48 + d else if upper then 55 + d else 87 + d.
Definition hex_text (upper : bool) (bs : list Z) : list Z := b ← bs; [hex_char upper (b / 16); hex_char upper (b mod 16)].

Lemma hex_digit_char d upper : (d < 16)%nat -> hex_digit 0 (hex_char upper (Z.of_nat d)) = Z.of_nat d.
Proof. intros Hd. do 16 (destruct d as [|d]; [by destruct upper|]). lia. Qed.
Lemma hex_byte h l upper : (h < 16)%nat -> (l < 16)%nat ->
  hex_digit (hex_digit 0 (hex_char upper (Z.of_nat h))) (hex_char upper (Z.of_nat l)) = Z.of_nat h * 16 + Z.of_nat l.
Proof.
  intros Hh Hl. rw hex_digit_char //. do 16 (destruct h as [|h]; [do 16 (destruct l as [|l]; [by destruct upper|]); lia|]). lia.
Qed.

(** A name of a file is read as it was written. *)
Lemma hex_read upper bs : Forall is_u8 bs -> hex_string_2_bytes_array (hex_text upper bs) = bs.
Proof.
  induction 1 as [|b bs Hb _ IH]; [done|]. rw /hex_text bind_cons -/(hex_text upper bs). cbn [app hex_string_2_bytes_array]. rw IH. f_equal.
  pose proof (Z.div_mod b 16 ltac:(lia)). pose proof (Z.mod_pos_bound b 16 ltac:(lia)).
  assert (0 <= b / 16 < 16) as Hq by (rw /is_u8 in Hb; split; [apply Z.div_pos|apply Z.div_lt_upper_bound]; lia).
  pose proof (hex_byte (Z.to_nat (b / 16)) (Z.to_nat (b mod 16)) upper ltac:(lia) ltac:(lia)) as Hx.
  rw !Z2Nat.id in Hx; lia.
Qed.
Lemma hex_text_length upper bs : length (hex_text upper bs) = (2 * length bs)%nat.
Proof. induction bs as [|b bs IH]; [done|]. rw /hex_text bind_cons -/(hex_text upper bs) length_app IH. cbn. lia. Qed.
Lemma hex_text_nonzero upper bs : Forall is_u8 bs -> Forall (fun c => c <> 0) (hex_text upper bs).
Proof.
  induction 1 as [|b bs Hb _ IH]; [constructor|]. rw /hex_text bind_cons -/(hex_text upper bs). apply Forall_app. split; [|done].
  assert (forall d, 0 <= d -> hex_char upper d <> 0) as Hd by (intros d ?; rw /hex_char; repeat case_match; lia).
  rw /is_u8 in Hb. repeat constructor; apply Hd; [apply Z.div_pos; lia|apply Z.mod_pos_bound; lia].
Qed.
