(* ===== verification/Buffer.v ===== *)
(** * Byte buffers and the cursors that walk over them

    The serializers and deserializers of the client receive an array and move a
    local pointer [ptr] over it. A [cursor] is such an array with the offset of
    the pointer; every access outside the array is a [Fault].

    [emits m bs a] and [reads m bs a] are the two specifications the packet
    layer is built from: a writer that replaces the next bytes by [bs] and
    returns [a], a reader that consumes [bs] and returns [a]. Both compose along
    the bind of the monad, so a whole packet is described by the concatenation of
    its fields. *)
From S2P Require Import Prelude.

Record cursor := Cursor { cur_buf : list Z; cur_ptr : nat }.

(** [p[off] = b] for the array the cursor walks over. *)
Definition store (off : nat) (b : Z) : M cursor unit := fun c =>
  if decide (off < length (cur_buf c))%nat
  then Ret (tt, Cursor (<[off := b]> (cur_buf c)) (cur_ptr c))
  else Exn (Fault OobWrite).

(** [memcpy(p + off, bs, n)] where [bs] holds the [n] source bytes. *)
Definition store_bytes (off : nat) (bs : list Z) : M cursor unit := fun c =>
  if decide (off + length bs <= length (cur_buf c))%nat
  then Ret (tt, Cursor (take off (cur_buf c) ++ bs ++ drop (off + length bs) (cur_buf c)) (cur_ptr c))
  else Exn (Fault OobWrite).

(** [p[off]]. *)
Definition load (off : nat) : M cursor Z := fun c =>
  match cur_buf c !! off with Some b => Ret (b, c) | None => Exn (Fault OobRead) end.

(** [ptr += n]. *)
Definition advance (n : nat) : M cursor unit :=
  modify (fun c => Cursor (cur_buf c) (cur_ptr c + n)).

(** ** Writers *)

Definition emits {A} (m : M cursor A) (bs : list Z) (a : A) : Prop :=
  forall pre old post, length old = length bs ->
    m (Cursor (pre ++ old ++ post) (length pre)) =
    Ret (a, Cursor (pre ++ bs ++ post) (length pre + length bs)).

Lemma emits_ret {A} (a : A) : emits (mret a) [] a.
Proof.
  intros pre old post Hlen. apply nil_length_inv in Hlen as ->. rw /mret /M_ret /=.
  by rw Nat.add_0_r.
Qed.

Lemma emits_bind {A B} (m : M cursor A) (k : A -> M cursor B) bs bs' a b :
  emits m bs a -> emits (k a) bs' b -> emits (m ≫= k) (bs ++ bs') b.
Proof.
  intros Hm Hk pre old post. rw length_app. intros Hlen.
  pose proof (Hm pre (take (length bs) old) (drop (length bs) old ++ post)) as Hm'.
  rw -(take_drop (length bs) old) -app_assoc.
  erewrite bind_run; [|apply Hm'; rw length_take; lia].
  pose proof (Hk (pre ++ bs) (drop (length bs) old) post) as Hk'.
  rw length_app -!app_assoc in Hk'. rw -app_assoc Hk'; [do 3 f_equal; lia|].
  rw length_drop. lia.
Qed.

(** A writer that leaves the pointer where it is and returns how far to move it. *)
Lemma store_emits pre x post b :
  store (length pre) b (Cursor (pre ++ x :: post) (length pre)) =
  Ret (tt, Cursor (pre ++ b :: post) (length pre)).
Proof.
  rw /store /=. rw decide_True; [|rw length_app /=; lia].
  by rw insert_app_r_alt // Nat.sub_diag.
Qed.

Lemma store_bytes_emits pre old post bs :
  length old = length bs ->
  store_bytes (length pre) bs (Cursor (pre ++ old ++ post) (length pre)) =
  Ret (tt, Cursor (pre ++ bs ++ post) (length pre)).
Proof.
  intros Hlen. rw /store_bytes /=. rw decide_True; [|rw !length_app; lia].
  rw take_app_length (app_assoc pre old) drop_app_length' //.
  by rw length_app Hlen.
Qed.

(** ** Readers *)

Definition reads {A} (m : M cursor A) (bs : list Z) (a : A) : Prop :=
  forall pre post,
    m (Cursor (pre ++ bs ++ post) (length pre)) =
    Ret (a, Cursor (pre ++ bs ++ post) (length pre + length bs)).

Lemma reads_ret {A} (a : A) : reads (mret a) [] a.
Proof. intros pre post. by rw /mret /M_ret /= Nat.add_0_r. Qed.

Lemma reads_bind {A B} (m : M cursor A) (k : A -> M cursor B) bs bs' a b :
  reads m bs a -> reads (k a) bs' b -> reads (m ≫= k) (bs ++ bs') b.
Proof.
  intros Hm Hk pre post.
  erewrite bind_run; [|rw -app_assoc; apply Hm].
  pose proof (Hk (pre ++ bs) post) as Hk'. rw length_app -!app_assoc in Hk'.
  rw Hk' length_app -app_assoc. do 3 f_equal. lia.
Qed.

Lemma load_reads pre x post (p : nat) :
  load (length pre) (Cursor (pre ++ x :: post) p) = Ret (x, Cursor (pre ++ x :: post) p).
Proof. rw /load /=. by rw list_lookup_middle. Qed.

(** ** Frame facts that hold on every buffer *)

Lemma load_inv off c b c' : load off c = Ret (b, c') -> cur_buf c !! off = Some b /\ c' = c.
Proof. rw /load. case_match; naive_solver. Qed.

Lemma load_ok off c : (off < length (cur_buf c))%nat -> exists b, load off c = Ret (b, c).
Proof.
  intros Hoff. rw /load. destruct (lookup_lt_is_Some_2 _ _ Hoff) as [b ->]. by exists b.
Qed.

Lemma wp_load E off (Q : Z -> cursor -> Prop) c :
  (off < length (cur_buf c))%nat -> (forall b, cur_buf c !! off = Some b -> Q b c) ->
  wp E (load off) Q c.
Proof.
  intros Hoff HQ. destruct (load_ok off c Hoff) as [b Hb].
  eapply wp_known; [done|]. apply HQ. by apply load_inv in Hb as [? _].
Qed.

Lemma wp_advance E n (Q : unit -> cursor -> Prop) c :
  Q tt (Cursor (cur_buf c) (cur_ptr c + n)) -> wp E (advance n) Q c.
Proof. done. Qed.
