(* ===== verification/Types.v ===== *)
(** * Data types, error codes and configuration of the client

    Types of [include/aws_iot_error.h], [include/aws_iot_mqtt_client.h] and
    [include/aws_iot_mqtt_client_common_internal.h], with the configuration of
    [samples/linux/aws/aws_iot_config.h]. *)
From S2P Require Import Prelude.

(** ** Error codes *)
Inductive IoT_Error_t :=
  | NETWORK_PHYSICAL_LAYER_CONNECTED
  | NETWORK_MANUALLY_DISCONNECTED
  | NETWORK_ATTEMPTING_RECONNECT
  | NETWORK_RECONNECTED
  | MQTT_NOTHING_TO_READ
  | MQTT_CONNACK_CONNECTION_ACCEPTED
  | SUCCESS
  | FAILURE
  | NULL_VALUE_ERROR
  | TCP_CONNECTION_ERROR
  | SSL_CONNECTION_ERROR
  | TCP_SETUP_ERROR
  | NETWORK_SSL_CONNECT_TIMEOUT_ERROR
  | NETWORK_SSL_WRITE_ERROR
  | NETWORK_SSL_INIT_ERROR
  | NETWORK_SSL_CERT_ERROR
  | NETWORK_SSL_WRITE_TIMEOUT_ERROR
  | NETWORK_SSL_READ_TIMEOUT_ERROR
  | NETWORK_SSL_READ_ERROR
  | NETWORK_DISCONNECTED_ERROR
  | NETWORK_RECONNECT_TIMED_OUT_ERROR
  | NETWORK_ALREADY_CONNECTED_ERROR
  | NETWORK_MBEDTLS_ERR_CTR_DRBG_ENTROPY_SOURCE_FAILED
  | NETWORK_SSL_UNKNOWN_ERROR
  | NETWORK_PHYSICAL_LAYER_DISCONNECTED
  | NETWORK_X509_ROOT_CRT_PARSE_ERROR
  | NETWORK_X509_DEVICE_CRT_PARSE_ERROR
  | NETWORK_PK_PRIVATE_KEY_PARSE_ERROR
  | NETWORK_ERR_NET_SOCKET_FAILED
  | NETWORK_ERR_NET_UNKNOWN_HOST
  | NETWORK_ERR_NET_CONNECT_FAILED
  | NETWORK_SSL_NOTHING_TO_READ
  | MQTT_CONNECTION_ERROR
  | MQTT_CONNECT_TIMEOUT_ERROR
  | MQTT_REQUEST_TIMEOUT_ERROR
  | MQTT_UNEXPECTED_CLIENT_STATE_ERROR
  | MQTT_CLIENT_NOT_IDLE_ERROR
  | MQTT_RX_MESSAGE_PACKET_TYPE_INVALID_ERROR
  | MQTT_RX_BUFFER_TOO_SHORT_ERROR
  | MQTT_TX_BUFFER_TOO_SHORT_ERROR
  | MQTT_MAX_SUBSCRIPTIONS_REACHED_ERROR
  | MQTT_DECODE_REMAINING_LENGTH_ERROR
  | MQTT_CONNACK_UNKNOWN_ERROR
  | MQTT_CONNACK_UNACCEPTABLE_PROTOCOL_VERSION_ERROR
  | MQTT_CONNACK_IDENTIFIER_REJECTED_ERROR
  | MQTT_CONNACK_SERVER_UNAVAILABLE_ERROR
  | MQTT_CONNACK_BAD_USERDATA_ERROR
  | MQTT_CONNACK_NOT_AUTHORIZED_ERROR
  | JSON_PARSE_ERROR
  | SHADOW_WAIT_FOR_PUBLISH
  | SHADOW_JSON_BUFFER_TRUNCATED
  | SHADOW_JSON_ERROR
  | MUTEX_INIT_ERROR
  | MUTEX_LOCK_ERROR
  | MUTEX_UNLOCK_ERROR
  | MUTEX_DESTROY_ERROR.

(** The value of each enumerator. *)
Definition IoT_Error_val (e : IoT_Error_t) : Z :=
  match e with
  | NETWORK_PHYSICAL_LAYER_CONNECTED => 6
  | NETWORK_MANUALLY_DISCONNECTED => 5
  | NETWORK_ATTEMPTING_RECONNECT => 4
  | NETWORK_RECONNECTED => 3
  | MQTT_NOTHING_TO_READ => 2
  | MQTT_CONNACK_CONNECTION_ACCEPTED => 1
  | SUCCESS => 0
  | FAILURE => -1
  | NULL_VALUE_ERROR => -2
  | TCP_CONNECTION_ERROR => -3
  | SSL_CONNECTION_ERROR => -4
  | TCP_SETUP_ERROR => -5
  | NETWORK_SSL_CONNECT_TIMEOUT_ERROR => -6
  | NETWORK_SSL_WRITE_ERROR => -7
  | NETWORK_SSL_INIT_ERROR => -8
  | NETWORK_SSL_CERT_ERROR => -9
  | NETWORK_SSL_WRITE_TIMEOUT_ERROR => -10
  | NETWORK_SSL_READ_TIMEOUT_ERROR => -11
  | NETWORK_SSL_READ_ERROR => -12
  | NETWORK_DISCONNECTED_ERROR => -13
  | NETWORK_RECONNECT_TIMED_OUT_ERROR => -14
  | NETWORK_ALREADY_CONNECTED_ERROR => -15
  | NETWORK_MBEDTLS_ERR_CTR_DRBG_ENTROPY_SOURCE_FAILED => -16
  | NETWORK_SSL_UNKNOWN_ERROR => -17
  | NETWORK_PHYSICAL_LAYER_DISCONNECTED => -18
  | NETWORK_X509_ROOT_CRT_PARSE_ERROR => -19
  | NETWORK_X509_DEVICE_CRT_PARSE_ERROR => -20
  | NETWORK_PK_PRIVATE_KEY_PARSE_ERROR => -21
  | NETWORK_ERR_NET_SOCKET_FAILED => -22
  | NETWORK_ERR_NET_UNKNOWN_HOST => -23
  | NETWORK_ERR_NET_CONNECT_FAILED => -24
  | NETWORK_SSL_NOTHING_TO_READ => -25
  | MQTT_CONNECTION_ERROR => -26
  | MQTT_CONNECT_TIMEOUT_ERROR => -27
  | MQTT_REQUEST_TIMEOUT_ERROR => -28
  | MQTT_UNEXPECTED_CLIENT_STATE_ERROR => -29
  | MQTT_CLIENT_NOT_IDLE_ERROR => -30
  | MQTT_RX_MESSAGE_PACKET_TYPE_INVALID_ERROR => -31
  | MQTT_RX_BUFFER_TOO_SHORT_ERROR => -32
  | MQTT_TX_BUFFER_TOO_SHORT_ERROR => -33
  | MQTT_MAX_SUBSCRIPTIONS_REACHED_ERROR => -34
  | MQTT_DECODE_REMAINING_LENGTH_ERROR => -35
  | MQTT_CONNACK_UNKNOWN_ERROR => -36
  | MQTT_CONNACK_UNACCEPTABLE_PROTOCOL_VERSION_ERROR => -37
  | MQTT_CONNACK_IDENTIFIER_REJECTED_ERROR => -38
  | MQTT_CONNACK_SERVER_UNAVAILABLE_ERROR => -39
  | MQTT_CONNACK_BAD_USERDATA_ERROR => -40
  | MQTT_CONNACK_NOT_AUTHORIZED_ERROR => -41
  | JSON_PARSE_ERROR => -42
  | SHADOW_WAIT_FOR_PUBLISH => -43
  | SHADOW_JSON_BUFFER_TRUNCATED => -44
  | SHADOW_JSON_ERROR => -45
  | MUTEX_INIT_ERROR => -46
  | MUTEX_LOCK_ERROR => -47
  | MUTEX_UNLOCK_ERROR => -48
  | MUTEX_DESTROY_ERROR => -49
  end.

#[export] Instance IoT_Error_val_inj : Inj (=) (=) IoT_Error_val.
Proof. intros x y. by destruct x, y. Qed.

#[export] Instance IoT_Error_eq_dec : EqDecision IoT_Error_t.
Proof.
  refine (fun x y => cast_if (decide (IoT_Error_val x = IoT_Error_val y)));
    [by apply (inj IoT_Error_val)|congruence].
Defined.

(** The codes that do not report a lost connection or an attempt to restore it. *)
Definition plain_code (rc : IoT_Error_t) : bool :=
  match rc with NETWORK_DISCONNECTED_ERROR | NETWORK_ATTEMPTING_RECONNECT => false | _ => true end.

(** A computation that goes on only after [SUCCESS], and succeeds. *)
Lemma guard_success {S} (rc : IoT_Error_t) (k : M S IoT_Error_t) s s' :
  (if decide (SUCCESS <> rc) then mret rc else k) s = Ret (SUCCESS, s') ->
  rc = SUCCESS /\ k s = Ret (SUCCESS, s').
Proof.
  case_decide as H; intros Hrun; [injection Hrun as -> _; by destruct H|].
  by split.
Qed.

(** Decide the tests [if(SUCCESS != rc)] whose [rc] is known. *)
Ltac rc_simpl :=
  cbv beta iota;
  repeat match goal with
  | |- context [decide (?a <> ?a)] =>
      let H := fresh in destruct (decide (a <> a)) as [H|_]; [by destruct H|]
  | |- context [decide (SUCCESS <> ?b)] =>
      is_constructor b; let H := fresh in destruct (decide (SUCCESS <> b)) as [_|H]; [|by destruct H]
  end.

(** ** Message types and quality of service *)
Inductive MessageTypes :=
  | UNKNOWN | CONNECT | CONNACK | PUBLISH | PUBACK | PUBREC | PUBREL | PUBCOMP
  | SUBSCRIBE | SUBACK | UNSUBSCRIBE | UNSUBACK | PINGREQ | PINGRESP | DISCONNECT.

Definition MessageTypes_val (t : MessageTypes) : Z :=
  match t with
  | UNKNOWN => -1 | CONNECT => 1 | CONNACK => 2 | PUBLISH => 3 | PUBACK => 4
  | PUBREC => 5 | PUBREL => 6 | PUBCOMP => 7 | SUBSCRIBE => 8 | SUBACK => 9
  | UNSUBSCRIBE => 10 | UNSUBACK => 11 | PINGREQ => 12 | PINGRESP => 13
  | DISCONNECT => 14
  end.

#[export] Instance MessageTypes_eq_dec : EqDecision MessageTypes.
Proof. solve_decision. Defined.

(** [QoS] has the enumerators [QOS0] and [QOS1], but the code casts two-bit
    fields and received bytes to it, so that other values occur: it is kept as an
    integer. *)
Definition QoS : Type := Z.
Definition QOS0 : QoS := 0.
Definition QOS1 : QoS := 1.

(** ** Client states *)
Inductive ClientState :=
  | CLIENT_STATE_INVALID
  | CLIENT_STATE_INITIALIZED
  | CLIENT_STATE_CONNECTING
  | CLIENT_STATE_CONNECTED_IDLE
  | CLIENT_STATE_CONNECTED_YIELD_IN_PROGRESS
  | CLIENT_STATE_CONNECTED_PUBLISH_IN_PROGRESS
  | CLIENT_STATE_CONNECTED_SUBSCRIBE_IN_PROGRESS
  | CLIENT_STATE_CONNECTED_UNSUBSCRIBE_IN_PROGRESS
  | CLIENT_STATE_CONNECTED_RESUBSCRIBE_IN_PROGRESS
  | CLIENT_STATE_CONNECTED_WAIT_FOR_CB_RETURN
  | CLIENT_STATE_DISCONNECTING
  | CLIENT_STATE_DISCONNECTED_ERROR
  | CLIENT_STATE_DISCONNECTED_MANUALLY
  | CLIENT_STATE_PENDING_RECONNECT.

#[export] Instance ClientState_eq_dec : EqDecision ClientState.
Proof. solve_decision. Defined.

(** ** Pointers

    The addresses the client handles: null, an address of application memory, or
    an address inside the client's own receive buffer (incoming topics and
    payloads are not copied out of it). *)
Inductive ptr := NULL | App (a : Z) | RxBuf (off : nat).

#[export] Instance ptr_eq_dec : EqDecision ptr.
Proof. solve_decision. Defined.

(** Application memory: the bytes readable from an address up to the end of the
    object it points into; [None] for an address that is not valid. *)
Definition memory : Type := Z -> option (list Z).

Definition deref (mem : memory) (rx : list Z) (p : ptr) : option (list Z) :=
  match p with
  | NULL => None
  | App a => mem a
  | RxBuf off => if decide (off <= length rx)%nat then Some (drop off rx) else None
  end.

(** The [n] bytes at [p], as [memcpy] or [strncmp] read them. *)
Definition mem_bytes (mem : memory) (rx : list Z) (p : ptr) (n : nat) : option (list Z) :=
  bs ← deref mem rx p;
  if decide (n <= length bs)%nat then Some (take n bs) else None.

(** The characters before the first NUL byte of an object, if it has one. *)
Fixpoint cstring (bs : list Z) : option (list Z) :=
  match bs with
  | [] => None
  | b :: bs' => if decide (b = 0) then Some [] else cons b <$> cstring bs'
  end.

(** The C string at [p]. *)
Definition mem_cstring (mem : memory) (rx : list Z) (p : ptr) : option (list Z) :=
  deref mem rx p ≫= cstring.

(** ** String comparison of the C library *)

(** [strncmp(a, b, n) == 0] on the bytes readable from the two addresses. *)
Fixpoint strncmp_eq (n : nat) (a b : list Z) : outcome bool :=
  match n with
  | O => Ret true
  | S n' =>
      match a, b with
      | x :: a', y :: b' =>
          if negb (x =? y) then Ret false
          else if x =? 0 then Ret true
          else strncmp_eq n' a' b'
      | _, _ => Exn (Fault OobRead)
      end
  end.

(** [strcmp(a, b) == 0]. *)
Fixpoint strcmp_eq (a b : list Z) : outcome bool :=
  match a, b with
  | x :: a', y :: b' =>
      if negb (x =? y) then Ret false
      else if x =? 0 then Ret true
      else strcmp_eq a' b'
  | _, _ => Exn (Fault OobRead)
  end.

Lemma cstring_spec bs f : cstring bs = Some f -> exists rest, bs = f ++ 0 :: rest /\ Forall (fun b => b <> 0) f.
Proof.
  revert f. induction bs as [|b bs IH]; intros f; cbn [cstring]; [done|].
  case_decide as Hb; [intros [= <-]; subst; by exists bs|].
  destruct (cstring bs) as [g|]; [|done]. intros [= <-].
  destruct (IH g eq_refl) as (rest & -> & Hg). exists rest. split; [done|by constructor].
Qed.

(** An array with a NUL byte holds a C string. *)
Lemma cstring_app a rest tail : Forall (fun b => b <> 0) a -> cstring rest = Some tail ->
  cstring (a ++ rest) = Some (a ++ tail).
Proof.
  intros Ha Hr. induction Ha as [|b a Hb _ IH]; [done|]. cbn [app cstring]. case_decide; [done|]. by rw IH.
Qed.
Lemma cstring_terminated bs : 0 ∈ bs -> exists t, cstring bs = Some t.
Proof.
  induction bs as [|b bs IH]; [by intros ?%elem_of_nil|]. cbn [cstring]. case_decide as Hb; [by exists []|].
  intros [H0|H0]%elem_of_cons; [done|]. destruct (IH H0) as [t ->]. by exists (b :: t).
Qed.

Lemma strcmp_eq_spec a b f g : cstring a = Some f -> cstring b = Some g ->
  strcmp_eq a b = Ret (bool_decide (f = g)).
Proof.
  revert b f g. induction a as [|x a IH]; intros [|y b] f g; cbn [cstring strcmp_eq]; try done.
  destruct (Z.eqb_spec x y) as [->|Hne]; cbn [negb].
  - destruct (decide (y = 0)) as [->|Hy]; [intros [= <-] [= <-]; done|].
    destruct (cstring a) as [f'|]; [|done]. destruct (cstring b) as [g'|] eqn:Hcb; [|done].
    intros [= <-] [= <-]. rw (proj2 (Z.eqb_neq y 0)) //. rw (IH b f' g') //.
    f_equal. apply bool_decide_ext. naive_solver.
  - intros Hf Hg. rw bool_decide_false //. intros ->.
    do 2 case_decide; destruct (cstring a), (cstring b); naive_solver.
Qed.

(** A comparison with a C string that comes to a result needs only the one text. *)
Lemma strcmp_eq_returned a b g r : cstring b = Some g -> strcmp_eq a b = Ret r ->
  r = bool_decide (cstring a = Some g).
Proof.
  revert b g r. induction a as [|x a IH]; intros [|y b] g r; cbn [cstring strcmp_eq]; try done.
  destruct (Z.eqb_spec x y) as [->|Hne]; cbn [negb].
  - destruct (decide (y = 0)) as [->|Hy]; [intros [= <-] [= <-]; done|].
    destruct (cstring b) as [g'|] eqn:Hcb; [|done]. intros [= <-].
    rw (proj2 (Z.eqb_neq y 0)) //. intros Hr. rw (IH b g' r) //. apply bool_decide_ext.
    destruct (cstring a); naive_solver.
  - intros Hg [= <-]. rw bool_decide_false //.
    do 2 case_decide; destruct (cstring a), (cstring b); naive_solver.
Qed.

Lemma strncmp_eq_spec n rest f junk :
  Forall (fun b => b <> 0) n -> length f = length n ->
  strncmp_eq (length n) (n ++ rest) (f ++ junk) = Ret (bool_decide (f = n)).
Proof.
  revert f. induction n as [|x n IH]; intros [|y f] Hn Hlen; try done; cbn [length strncmp_eq app].
  apply Forall_cons in Hn as [Hx Hn]. destruct (Z.eqb_spec x y) as [->|Hne]; simpl.
  - rw (proj2 (Z.eqb_neq y 0) Hx) IH //; [|by injection Hlen].
    f_equal. apply bool_decide_ext. split; [by intros ->|by intros [= ->]].
  - rw bool_decide_false //. congruence.
Qed.

(** ** Parameter structures *)
Record IoT_Publish_Message_Params := MsgParams {
  msg_qos : QoS;
  msg_isRetained : Z;
  msg_isDup : Z;
  msg_id : Z;
  msg_payload : ptr;
  msg_payloadLen : Z }.

(** [MQTT_Ver_t] is an enumeration with one value. *)
Definition MQTT_3_1_1 : Z := 4.

Record IoT_MQTT_Will_Options := WillOptions {
  will_pTopicName : ptr;
  will_topicNameLen : Z;
  will_pMessage : ptr;
  will_msgLen : Z;
  will_isRetained : bool;
  will_qos : QoS }.

Record IoT_Client_Connect_Params := ConnectParams {
  MQTTVersion : Z;
  pClientID : ptr;
  clientIDLen : Z;
  keepAliveIntervalInSec : Z;
  isCleanSession : bool;
  isWillMsgPresent : bool;
  will : IoT_MQTT_Will_Options;
  pUsername : ptr;
  usernameLen : Z;
  pPassword : ptr;
  passwordLen : Z }.

Definition IoT_MQTT_Will_Options_Initializer : IoT_MQTT_Will_Options :=
  WillOptions NULL 0 NULL 0 false QOS0.

Definition IoT_Client_Connect_Params_initializer : IoT_Client_Connect_Params :=
  ConnectParams MQTT_3_1_1 NULL 0 60 true false IoT_MQTT_Will_Options_Initializer
    NULL 0 NULL 0.

(** A callback is a function pointer of the application: null or an address. *)
Definition handler : Type := option Z.

Record IoT_Client_Init_Params := InitParams {
  enableAutoReconnect : bool;
  pHostURL : ptr;
  port : Z;
  pRootCALocation : ptr;
  pDeviceCertLocation : ptr;
  pDevicePrivateKeyLocation : ptr;
  mqttPacketTimeout_ms : Z;
  mqttCommandTimeout_ms : Z;
  tlsHandshakeTimeout_ms : Z;
  isSSLHostnameVerify : bool;
  init_disconnectHandler : handler;
  init_disconnectHandlerData : ptr }.

(** ** Configuration *)
Definition MAX_PACKET_ID : Z := 65535.
Definition AWS_IOT_MQTT_TX_BUF_LEN : Z := 512.
Definition AWS_IOT_MQTT_RX_BUF_LEN : Z := 512.
Definition AWS_IOT_MQTT_NUM_SUBSCRIBE_HANDLERS : nat := 5.
Definition AWS_IOT_MQTT_MIN_RECONNECT_WAIT_INTERVAL : Z := 1000.
Definition AWS_IOT_MQTT_MAX_RECONNECT_WAIT_INTERVAL : Z := 128000.
