(* ===== verification/Wire.v ===== *)
(** * Wire primitives

    The encoding primitives of [src/aws_iot_mqtt_client_common_internal.c]: the
    variable-length "remaining length" field, 16-bit integers, characters,
    strings, and the fixed header byte. *)
From S2P Require Import Prelude Buffer Types.

Definition MAX_NO_OF_REMAINING_LENGTH_BYTES : Z := 4.

(** ** Remaining length *)

(** The loop of the encoder; [outLen] counts the bytes written at [buf], which is
    the cursor's pointer and is not moved. *)
Fixpoint write_len_loop (fuel : nat) (outLen : nat) (length : Z) : M cursor Z :=
  match fuel with
  | O => raise OutOfFuel
  | S fuel' =>
      let encodedByte := u8 (length mod 128) in
      let length' := length / 128 in
      let encodedByte' := if 0 <? length' then Z.lor encodedByte 128 else encodedByte in
      base ← gets cur_ptr;
      _ ← store (base + outLen) encodedByte';
      if 0 <? length' then write_len_loop fuel' (outLen + 1) length'
      else mret (size_t (Z.of_nat (outLen + 1)))
  end.

(** A [uint32_t] has at most five base-128 digits. *)
Definition aws_iot_mqtt_internal_write_len_to_buffer (length : Z) : M cursor Z :=
  write_len_loop 5 0 length.

(** The loop of the decoder over a buffer; [len] counts the bytes read. The
    results are the return code, [*decodedLen] and [*readBytesLen]. *)
Fixpoint decode_len_loop (fuel : nat) (multiplier len decodedLen readBytesLen : Z) :
    M cursor (IoT_Error_t * Z * Z) :=
  match fuel with
  | O => raise OutOfFuel
  | S fuel' =>
      let len' := u32 (len + 1) in
      if MAX_NO_OF_REMAINING_LENGTH_BYTES <? len'
      then mret (MQTT_DECODE_REMAINING_LENGTH_ERROR, decodedLen, readBytesLen)
      else
        p ← gets cur_ptr;
        encodedByte ← load p;
        _ ← advance 1;
        let decodedLen' := u32 (decodedLen + Z.land encodedByte 127 * multiplier) in
        let multiplier' := u32 (multiplier * 128) in
        if Z.land encodedByte 128 =? 0 then mret (SUCCESS, decodedLen', len')
        else decode_len_loop fuel' multiplier' len' decodedLen' readBytesLen
  end.

(** [buf] is passed by value: the caller's pointer does not move. *)
Definition aws_iot_mqtt_internal_decode_remaining_length_from_buffer (readBytesLen : Z) :
    M cursor (IoT_Error_t * Z * Z) :=
  p ← gets cur_ptr;
  r ← decode_len_loop 5 1 0 0 readBytesLen;
  _ ← modify (fun c => Cursor (cur_buf c) p);
  mret r.

Definition aws_iot_mqtt_internal_get_final_packet_length_from_remaining_length (rem_len : Z) : Z :=
  let rem_len := u32 (rem_len + 1) in
  if rem_len <? 128 then u32 (rem_len + 1)
  else if rem_len <? 16384 then u32 (rem_len + 2)
  else if rem_len <? 2097152 then u32 (rem_len + 3)
  else u32 (rem_len + 4).

(** ** Integers, characters and strings *)

Definition aws_iot_mqtt_internal_read_uint16_t : M cursor Z :=
  p ← gets cur_ptr;
  firstByte ← load p;
  secondByte ← load (p + 1);
  _ ← advance 2;
  mret (u16 (secondByte + 256 * firstByte)).

Definition aws_iot_mqtt_internal_write_uint_16 (anInt : Z) : M cursor unit :=
  p ← gets cur_ptr;
  _ ← store p (u8 (anInt / 256));
  _ ← advance 1;
  p ← gets cur_ptr;
  _ ← store p (u8 (anInt mod 256));
  advance 1.

Definition aws_iot_mqtt_internal_read_char : M cursor Z :=
  p ← gets cur_ptr;
  c ← load p;
  _ ← advance 1;
  mret c.

Definition aws_iot_mqtt_internal_write_char (c : Z) : M cursor unit :=
  p ← gets cur_ptr;
  _ ← store p c;
  advance 1.

(** [string] is the memory the pointer argument designates: the bytes that can be
    read from it, [None] for a pointer that cannot be dereferenced. *)
Definition aws_iot_mqtt_internal_write_utf8_string (string : option (list Z)) (stringLen : Z) :
    M cursor unit :=
  _ ← aws_iot_mqtt_internal_write_uint_16 stringLen;
  if 0 <? stringLen then
    src ← lift_option (Fault NullDeref) string;
    if decide (stringLen <= Z.of_nat (length src)) then
      p ← gets cur_ptr;
      _ ← store_bytes p (take (Z.to_nat stringLen) src);
      advance (Z.to_nat stringLen)
    else raise (Fault OobRead)
  else mret tt.

(** ** The fixed header *)

(** The union [MQTTHeader] (without [REVERSED]): the byte, and its bit fields. *)
Definition MQTTHeader : Type := Z.
Definition hdr_retain (h : MQTTHeader) : Z := bf_get 0 1 h.
Definition hdr_qos (h : MQTTHeader) : Z := bf_get 1 2 h.
Definition hdr_dup (h : MQTTHeader) : Z := bf_get 3 1 h.
Definition hdr_type (h : MQTTHeader) : Z := bf_get 4 4 h.

(** [pHeader] points at a header or is null ([None]). The switch covers every
    enumerator, so its [default] branch has no counterpart. The results are the
    return code and the header as the function leaves it. *)
Definition aws_iot_mqtt_internal_init_header (pHeader : option MQTTHeader)
    (message_type : MessageTypes) (qos : QoS) (dup retained : Z) :
    IoT_Error_t * option MQTTHeader :=
  match pHeader with
  | None => (NULL_VALUE_ERROR, None)
  | Some _ =>
      let h := 0 in
      match message_type with
      | UNKNOWN => (FAILURE, Some h)
      | _ =>
          let h := bf_set 4 4 (match message_type with
                               | UNKNOWN => 0
                               | CONNECT => 0x01
                               | CONNACK => 0x02
                               | PUBLISH => 0x03
                               | PUBACK => 0x04
                               | PUBREC => 0x05
                               | PUBREL => 0x06
                               | PUBCOMP => 0x07
                               | SUBSCRIBE => 0x08
                               | SUBACK => 0x09
                               | UNSUBSCRIBE => 0x0A
                               | UNSUBACK => 0x0B
                               | PINGREQ => 0x0C
                               | PINGRESP => 0x0D
                               | DISCONNECT => 0x0E
                               end) h in
          let h := bf_set 3 1 (if 1 =? dup then 0x01 else 0x00) h in
          let h := bf_set 1 2 (if qos =? QOS0 then 0x00 else if qos =? QOS1 then 0x01 else 0x00) h in
          let h := bf_set 0 1 (if 1 =? retained then 0x01 else 0x00) h in
          (SUCCESS, Some h)
      end
  end.

(** ** Reference encodings *)

(** The remaining-length field of MQTT 3.1.1 section 2.2.3: base-128 digits, least
    significant first, bit 7 set on every digit but the last. *)
Fixpoint rl_bytes (fuel : nat) (n : Z) : list Z :=
  match fuel with
  | O => []
  | S fuel' => if n <? 128 then [n] else (n mod 128 + 128) :: rl_bytes fuel' (n / 128)
  end.
Definition remaining_length_bytes (n : Z) : list Z := rl_bytes 5 n.

Definition uint16_bytes (n : Z) : list Z := [n / 256; n mod 256].
Definition utf8_bytes (s : list Z) : list Z := uint16_bytes (Z.of_nat (length s)) ++ s.

(** The header byte of section 2.2.1. *)
Definition header_byte (t qos dup retained : Z) : Z := 16 * t + 8 * dup + 2 * qos + retained.

(** ** Facts about bytes *)

Lemma lor_128 x : 0 <= x < 128 -> Z.lor x 128 = x + 128.
Proof.
  intros Hx. assert (is_u8 x) as Hb by width.
  pose proof (u8_forall (fun x => bool_decide (x < 128 -> Z.lor x 128 = x + 128)) eq_refl x Hb) as H.
  apply bool_decide_eq_true in H. apply H. lia.
Qed.

Lemma land_127 x : Z.land x 127 = x mod 128.
Proof. apply (Z.land_ones x 7). lia. Qed.

Lemma land_128 x : is_u8 x -> (Z.land x 128 =? 0) = (x <? 128).
Proof.
  intros Hx. apply eqb_prop.
  by apply (u8_forall (fun x => eqb (Z.land x 128 =? 0) (x <? 128)) eq_refl x).
Qed.

(** ** The encoder of the remaining length *)

Lemma rl_bytes_length fuel n : (0 < fuel)%nat ->
  (1 <= length (rl_bytes fuel n) <= fuel)%nat.
Proof.
  intros Hf. revert n. induction fuel as [|fuel IH]; [lia|]. intros n. simpl.
  case_match; simpl; [lia|].
  destruct fuel as [|fuel]; [simpl; lia|]. specialize (IH ltac:(lia) (n / 128)). lia.
Qed.

Lemma rl_bytes_ok fuel n : 0 <= n -> bytes_ok (rl_bytes fuel n).
Proof.
  revert n. induction fuel as [|fuel IH]; intros n Hn; [constructor|]. simpl.
  case_match.
  - repeat constructor; width.
  - constructor; [|apply IH; by apply Z.div_pos].
    pose proof (Z.mod_pos_bound n 128). width.
Qed.

(** The number of digits is the one given by the size classes of the format. *)
Lemma remaining_length_bytes_length n : 0 <= n < 2 ^ 32 ->
  Z.of_nat (length (remaining_length_bytes n)) =
    if n <? 128 then 1 else if n <? 16384 then 2 else if n <? 2097152 then 3
    else if n <? 268435456 then 4 else 5.
Proof.
  intros Hn. rw /remaining_length_bytes /=.
  repeat (case_match; simpl;
    repeat match goal with
    | H : (_ <? _) = true |- _ => apply Z.ltb_lt in H
    | H : (_ <? _) = false |- _ => apply Z.ltb_ge in H
    end); Z.to_euclidean_division_equations; lia.
Qed.

Lemma digits_left fuel n : 128 <= n -> n < 128 * 128 ^ Z.of_nat fuel -> (0 < fuel)%nat.
Proof. destruct fuel; [simpl; lia|lia]. Qed.

Lemma write_len_loop_spec fuel n : (0 < fuel)%nat -> 0 <= n < 128 ^ Z.of_nat fuel ->
  forall pre done old post,
  length old = length (rl_bytes fuel n) ->
  (length done + fuel < 10)%nat ->
  write_len_loop fuel (length done) n (Cursor (pre ++ done ++ old ++ post) (length pre)) =
  Ret (Z.of_nat (length done + length (rl_bytes fuel n)),
       Cursor (pre ++ done ++ rl_bytes fuel n ++ post) (length pre)).
Proof.
  revert n. induction fuel as [|fuel IH]; intros n Hf Hn pre done old post Hlen Hsmall; [lia|].
  rw Nat2Z.inj_succ Z.pow_succ_r in Hn; [|lia].
  pose proof (Z.mod_pos_bound n 128 ltac:(lia)) as Hmod.
  assert (Hq : (0 <? n / 128) = negb (n <? 128)).
  { destruct (Z.ltb_spec n 128); simpl.
    - apply Z.ltb_ge. rw Z.div_small //; lia.
    - apply Z.ltb_lt. by apply Z.div_str_pos. }
  simpl in *. rw /gets /mbind /M_bind /=.
  destruct old as [|x old]; [exfalso; case_match; discriminate|].
  replace (length pre + length done)%nat with (length (pre ++ done)) by (rw length_app; lia).
  rw (app_assoc pre done). simpl.
  rw /store /=. rw decide_True; [|rw !length_app /=; lia].
  rw insert_app_r_alt // Nat.sub_diag /= Hq (u8_small (n mod 128)); [|width].
  destruct (Z.ltb_spec n 128) as [Hlt|Hge]; simpl in *.
  - simplify_eq. destruct old; [|done]. rw /mret /M_ret size_t_small; [|width].
    rw Z.mod_small; [by rw -!app_assoc|lia].
  - simplify_eq. rw lor_128 //.
    assert (0 < fuel)%nat by (eapply digits_left; [eassumption|lia]).
    specialize (IH (n / 128)).
    replace (length done + 1)%nat with (length (done ++ [n mod 128 + 128])) by (rw length_app; done).
    replace ((pre ++ done) ++ n mod 128 + 128 :: old ++ post)
      with (pre ++ (done ++ [n mod 128 + 128]) ++ old ++ post)
      by (rw -!app_assoc; done).
    rw IH //.
    + rw length_app -!app_assoc /=. do 3 f_equal. lia.
    + split; [apply Z.div_pos; lia|]. apply Z.div_lt_upper_bound; lia.
    + rw length_app /=. lia.
Qed.

Lemma write_len_to_buffer_spec n pre old post : is_u32 n ->
  length old = length (remaining_length_bytes n) ->
  aws_iot_mqtt_internal_write_len_to_buffer n (Cursor (pre ++ old ++ post) (length pre)) =
  Ret (Z.of_nat (length (remaining_length_bytes n)),
       Cursor (pre ++ remaining_length_bytes n ++ post) (length pre)).
Proof. intros Hn Hlen. apply (write_len_loop_spec 5 n) with (done := []); simpl; [lia|width|done|lia]. Qed.

(** [ptr += aws_iot_mqtt_internal_write_len_to_buffer(ptr, len)], as every
    serializer writes it. *)
Definition write_remaining_length (len : Z) : M cursor unit :=
  n ← aws_iot_mqtt_internal_write_len_to_buffer len;
  advance (Z.to_nat n).

Lemma write_remaining_length_emits n : is_u32 n ->
  emits (write_remaining_length n) (remaining_length_bytes n) tt.
Proof.
  intros Hn pre old post Hlen. rw /write_remaining_length.
  erewrite bind_run; [|apply (write_len_loop_spec 5 n) with (done := []); simpl; [lia|width|done|lia]].
  rw /advance /modify Nat2Z.id. done.
Qed.

Lemma write_char_emits b : emits (aws_iot_mqtt_internal_write_char b) [b] tt.
Proof.
  intros pre old post Hlen. destruct old as [|x [|]]; try done. simpl.
  rw /aws_iot_mqtt_internal_write_char. erewrite bind_run; [|done].
  erewrite bind_run; [|apply store_emits]. done.
Qed.

Lemma write_uint_16_emits n : is_u16 n ->
  emits (aws_iot_mqtt_internal_write_uint_16 n) (uint16_bytes n) tt.
Proof.
  intros Hn pre old post Hlen. destruct old as [|x [|y [|]]]; try done. simpl.
  rw /aws_iot_mqtt_internal_write_uint_16.
  erewrite bind_run; [|done]. erewrite bind_run; [|apply store_emits].
  erewrite bind_run; [|done]. erewrite bind_run; [|done]. simpl.
  pose proof (store_emits (pre ++ [u8 (n / 256)]) y post (u8 (n mod 256))) as Hst.
  rw length_app -!app_assoc /= in Hst.
  erewrite bind_run; [|exact Hst].
  rw /advance /modify /= /uint16_bytes.
  rw !u8_small //.
  - by rw -Nat.add_assoc.
  - pose proof (Z.mod_pos_bound n 256). width.
  - split; [apply Z.div_pos; width|apply Z.div_lt_upper_bound; width].
Qed.

Lemma write_utf8_string_emits src (s : list Z) n :
  n = Z.of_nat (length s) -> is_u16 n -> take (length s) src = s ->
  emits (aws_iot_mqtt_internal_write_utf8_string (Some src) n) (utf8_bytes s) tt.
Proof.
  intros -> Hn Hsrc. rw /aws_iot_mqtt_internal_write_utf8_string /utf8_bytes.
  eapply emits_bind; [by apply write_uint_16_emits|].
  destruct s as [|b s].
  { apply emits_ret. }
  rw (proj2 (Z.ltb_lt _ _)); [|simpl; lia].
  intros pre old post Hlen. rw Nat2Z.id.
  erewrite bind_run; [|done]. rw decide_True.
  2:{ apply (f_equal length) in Hsrc. rw length_take in Hsrc. lia. }
  erewrite bind_run; [|done]. rw Hsrc.
  erewrite bind_run; [|by apply store_bytes_emits]. done.
Qed.

(** ** The decoders *)

Lemma read_char_reads b : reads aws_iot_mqtt_internal_read_char [b] b.
Proof.
  intros pre post. rw /aws_iot_mqtt_internal_read_char.
  erewrite bind_run; [|done]. erewrite bind_run; [|apply load_reads]. done.
Qed.

Lemma read_uint16_t_reads n : is_u16 n ->
  reads aws_iot_mqtt_internal_read_uint16_t (uint16_bytes n) n.
Proof.
  intros Hn pre post. rw /aws_iot_mqtt_internal_read_uint16_t /uint16_bytes /=.
  erewrite bind_run; [|done]. simpl.
  erewrite bind_run; [|apply load_reads].
  pose proof (load_reads (pre ++ [n / 256]) (n mod 256) post (length pre)) as Hl.
  rw length_app -!app_assoc /= in Hl.
  erewrite bind_run; [|exact Hl]. rw /advance /modify /= /mbind /M_bind /mret /M_ret.
  rw u16_small.
  - do 2 f_equal. rw {3}(Z.div_mod n 256) //. lia.
  - pose proof (Z.div_mod n 256). width.
Qed.

Lemma decode_len_loop_spec fuel n r0 : (0 < fuel)%nat -> 0 <= n < 128 ^ Z.of_nat fuel ->
  forall k acc pre post,
  0 <= k -> k + Z.of_nat fuel <= 4 -> 0 <= acc < 128 ^ k ->
  decode_len_loop (S fuel) (128 ^ k) k acc r0
    (Cursor (pre ++ rl_bytes fuel n ++ post) (length pre)) =
  Ret ((SUCCESS, acc + n * 128 ^ k, k + Z.of_nat (length (rl_bytes fuel n))),
       Cursor (pre ++ rl_bytes fuel n ++ post) (length pre + length (rl_bytes fuel n))).
Proof.
  revert n. induction fuel as [|fuel IH]; intros n Hf Hn k acc pre post Hk Hkf Hacc; [lia|].
  rw Nat2Z.inj_succ in Hn, Hkf.
  assert (Hpow : 128 ^ k * 128 ^ Z.succ (Z.of_nat fuel) <= 2 ^ 28).
  { rw -Z.pow_add_r; [|lia..]. change (2 ^ 28) with (128 ^ 4). apply Z.pow_le_mono_r; lia. }
  assert (Hk1 : 0 < 128 ^ k) by (apply Z.pow_pos_nonneg; lia).
  remember (S fuel) as f eqn:Hfuel. cbn [decode_len_loop].
  rw u32_small; [|width].
  rw (proj2 (Z.ltb_ge _ _)); [|rw /MAX_NO_OF_REMAINING_LENGTH_BYTES; lia].
  erewrite bind_run; [|done]. subst f. cbn [rl_bytes].
  destruct (Z.ltb_spec n 128) as [Hlt|Hge]; cbn [app length cur_ptr].
  - erewrite bind_run; [|apply load_reads]. erewrite bind_run; [|done]. cbn [cur_buf cur_ptr].
    rw land_128; [|width]. rw (proj2 (Z.ltb_lt _ _)) // land_127 (Z.mod_small n); [|lia].
    rw /mret /M_ret u32_small //.
    assert (n * 128 ^ k <= 127 * 128 ^ k) by (apply Z.mul_le_mono_nonneg_r; lia).
    assert (128 ^ k <= 128 ^ 3) by (apply Z.pow_le_mono_r; lia). width.
  - pose proof (Z.mod_pos_bound n 128 ltac:(lia)) as Hmod.
    erewrite bind_run; [|apply load_reads]. erewrite bind_run; [|done]. cbn [cur_buf cur_ptr].
    rw land_128; [|width]. rw (proj2 (Z.ltb_ge _ _)); [|lia].
    rw land_127.
    replace ((n mod 128 + 128) mod 128) with (n mod 128)
      by (rw -Zplus_mod_idemp_r Z_mod_same_full Z.add_0_r Z.mod_mod //).
    assert (128 ^ k <= 128 ^ 3) by (apply Z.pow_le_mono_r; lia).
    assert (n mod 128 * 128 ^ k <= 127 * 128 ^ k) by (apply Z.mul_le_mono_nonneg_r; lia).
    rw !u32_small; [|width..].
    replace (128 ^ k * 128) with (128 ^ (k + 1)) by (rw Z.pow_add_r; lia).
    rw Z.pow_succ_r in Hn; [|lia].
    assert (0 < fuel)%nat by (eapply digits_left; [eassumption|lia]).
    pose proof (IH (n / 128)) as IH'.
    specialize (IH' ltac:(done)).
    specialize (IH' ltac:(split; [apply Z.div_pos; lia|]; apply Z.div_lt_upper_bound;
                          lia)).
    specialize (IH' (k + 1) (acc + n mod 128 * 128 ^ k) (pre ++ [n mod 128 + 128]) post).
    rw length_app -!app_assoc in IH'. cbn [app length] in IH'.
    rw IH'; [|lia|lia|].
    + assert (acc + n mod 128 * 128 ^ k + n / 128 * 128 ^ (k + 1) = acc + n * 128 ^ k) as ->.
      { rw Z.pow_add_r; [|lia..]. pose proof (Z.div_mod n 128 ltac:(lia)). nia. }
      cbn [length]. rw Nat2Z.inj_succ -Nat.add_assoc. by rw -Z.add_assoc Z.add_1_l.
    + rw Z.pow_add_r; [|lia..]. nia.
Qed.

Lemma rl_bytes_more fuel n : 0 <= n < 128 ^ Z.of_nat fuel -> (0 < fuel)%nat ->
  rl_bytes (S fuel) n = rl_bytes fuel n.
Proof.
  revert n. induction fuel as [|fuel IH]; intros n Hn Hf; [lia|].
  rw Nat2Z.inj_succ Z.pow_succ_r in Hn; [|lia].
  remember (S fuel) as f eqn:Hfuel. cbn [rl_bytes]. subst f. cbn [rl_bytes].
  destruct (Z.ltb_spec n 128); [done|]. f_equal. apply IH.
  - split; [apply Z.div_pos; lia|apply Z.div_lt_upper_bound; lia].
  - eapply digits_left; [eassumption|lia].
Qed.

(** Decoding an encoded length gives it back and leaves the pointer alone. *)
Lemma decode_remaining_length_spec n r0 pre post : 0 <= n < 2 ^ 28 ->
  aws_iot_mqtt_internal_decode_remaining_length_from_buffer r0
    (Cursor (pre ++ remaining_length_bytes n ++ post) (length pre)) =
  Ret ((SUCCESS, n, Z.of_nat (length (remaining_length_bytes n))),
       Cursor (pre ++ remaining_length_bytes n ++ post) (length pre)).
Proof.
  intros Hn. rw /remaining_length_bytes (rl_bytes_more 4); [|simpl; lia|lia].
  rw /aws_iot_mqtt_internal_decode_remaining_length_from_buffer.
  erewrite bind_run; [|done]. cbn [cur_ptr].
  pose proof (decode_len_loop_spec 4 n r0 ltac:(lia) ltac:(simpl; lia) 0 0 pre post) as Hd.
  rw Z.pow_0_r Z.mul_1_r !Z.add_0_l in Hd.
  erewrite bind_run; [|apply Hd; lia]. done.
Qed.

(** One iteration of the decoder, for a byte within the first four. *)
Lemma decode_len_step fuel mult k acc r0 c b :
  0 <= k < 4 -> is_u8 b -> cur_buf c !! cur_ptr c = Some b ->
  decode_len_loop (S fuel) mult k acc r0 c =
  if b <? 128
  then Ret ((SUCCESS, u32 (acc + Z.land b 127 * mult), k + 1), Cursor (cur_buf c) (cur_ptr c + 1))
  else decode_len_loop fuel (u32 (mult * 128)) (k + 1) (u32 (acc + Z.land b 127 * mult)) r0
         (Cursor (cur_buf c) (cur_ptr c + 1)).
Proof.
  intros Hk Hb Hl. cbn [decode_len_loop]. rw u32_small; [|width].
  rw (proj2 (Z.ltb_ge _ _)); [|rw /MAX_NO_OF_REMAINING_LENGTH_BYTES; lia].
  erewrite bind_run; [|done]. erewrite bind_run; [|rw /load Hl; done].
  erewrite bind_run; [|done]. rw land_128 //. by destruct (b <? 128).
Qed.

(** The decoder on arbitrary bytes: it reads at most four of them and never
    leaves the buffer when four are there. *)
Lemma decode_len_loop_safe fuel k mult acc r0 c :
  bytes_ok (cur_buf c) -> 0 <= k <= 4 -> 4 < k + Z.of_nat fuel ->
  mult = 128 ^ k -> 0 <= acc < 128 ^ k ->
  (cur_ptr c + Z.to_nat (4 - k) <= length (cur_buf c))%nat ->
  wp no_exn (decode_len_loop fuel mult k acc r0)
    (fun '(rc, d, n) c' => cur_buf c' = cur_buf c /\
       (rc = MQTT_DECODE_REMAINING_LENGTH_ERROR \/
        rc = SUCCESS /\ k < n <= 4 /\ 0 <= d < 128 ^ n)) c.
Proof.
  revert k mult acc c. induction fuel as [|fuel IH]; intros k mult acc c Hok Hk Hfuel -> Hacc Hlen; [lia|].
  cbn [decode_len_loop]. rw u32_small; [|width].
  destruct (Z.ltb_spec MAX_NO_OF_REMAINING_LENGTH_BYTES (k + 1)) as [Hbad|Hgood].
  { wp_steps. auto. }
  rw /MAX_NO_OF_REMAINING_LENGTH_BYTES in Hgood.
  wp_steps. apply wp_load; [lia|]. intros b Hlook.
  pose proof (bytes_ok_lookup _ _ _ Hok Hlook) as Hb8.
  pose proof (Z.mod_pos_bound b 128 ltac:(lia)) as Hmod.
  assert (Hk1 : 0 < 128 ^ k) by (apply Z.pow_pos_nonneg; lia).
  assert (128 ^ k <= 128 ^ 3) by (apply Z.pow_le_mono_r; lia).
  assert (H7 : b mod 128 * 128 ^ k <= 127 * 128 ^ k) by (apply Z.mul_le_mono_nonneg_r; lia).
  assert (Hpow : 128 ^ (k + 1) = 128 ^ k * 128) by (rw Z.pow_add_r; lia).
  wp_steps. apply wp_advance. cbn beta.
  rw land_127 !u32_small; [|width..].
  destruct (Z.land b 128 =? 0); [wp_steps; simpl; split; [done|]; right; split; [done|]; lia|].
  rw -Hpow. eapply wp_mono; [apply (IH (k + 1)); simpl; try lia; done|].
  intros [[rc d] n] c' [-> Hcase]. split; [done|].
  destruct Hcase as [?|[-> ?]]; [by left|right; split; [done|lia]].
Qed.

Lemma decode_remaining_length_safe r0 c :
  bytes_ok (cur_buf c) -> (cur_ptr c + 4 <= length (cur_buf c))%nat ->
  wp no_exn (aws_iot_mqtt_internal_decode_remaining_length_from_buffer r0)
    (fun '(rc, d, n) c' => c' = c /\
       (rc = MQTT_DECODE_REMAINING_LENGTH_ERROR \/
        rc = SUCCESS /\ 1 <= n <= 4 /\ 0 <= d < 128 ^ n)) c.
Proof.
  intros Hok Hlen. rw /aws_iot_mqtt_internal_decode_remaining_length_from_buffer.
  wp_steps. eapply wp_mono.
  { apply (decode_len_loop_safe 5 0 1 0 r0 c); simpl; try lia; done. }
  intros [[rc d] n] c' [Hbuf Hcase]. wp_steps. destruct c as [buf p]; simpl in *; subst buf.
  split; [done|]. destruct Hcase as [?|[-> ?]]; [by left|right; split; [done|lia]].
Qed.

(** ** Packet length *)

Lemma get_final_packet_length_bounds n : 0 <= n < 2 ^ 28 ->
  let total := 1 + Z.of_nat (length (remaining_length_bytes n)) + n in
  let final := aws_iot_mqtt_internal_get_final_packet_length_from_remaining_length n in
  total <= final <= total + 1.
Proof.
  intros Hn. simpl. rw remaining_length_bytes_length; [|lia].
  rw /aws_iot_mqtt_internal_get_final_packet_length_from_remaining_length.
  rw (u32_small (n + 1)); [|width].
  repeat (case_match;
    repeat match goal with
    | H : (_ <? _) = true |- _ => apply Z.ltb_lt in H
    | H : (_ <? _) = false |- _ => apply Z.ltb_ge in H
    end); try lia; rw u32_small; width.
Qed.

(** Whatever the remaining length, a packet admitted into a buffer of at most
    [2^28] bytes fits into it. *)
Lemma final_packet_length_fits n size : is_u32 n -> 0 <= size <= 2 ^ 28 -> n < 2 ^ 32 - 8 ->
  aws_iot_mqtt_internal_get_final_packet_length_from_remaining_length n <= size ->
  n < 2 ^ 28 /\ 1 + Z.of_nat (length (remaining_length_bytes n)) + n <= size.
Proof.
  intros Hn Hsize Hbig Hfit.
  assert (n < 2 ^ 28).
  { move: Hfit. rw /aws_iot_mqtt_internal_get_final_packet_length_from_remaining_length.
    rw (u32_small (n + 1)); [|width].
    repeat case_match; rw u32_small; width. }
  split; [done|]. pose proof (get_final_packet_length_bounds n). width.
Qed.

(** ** The header byte *)

Lemma init_header_spec t qos dup ret : t <> UNKNOWN ->
  aws_iot_mqtt_internal_init_header (Some 0) t qos dup ret =
  (SUCCESS, Some (header_byte (MessageTypes_val t) (if qos =? 1 then 1 else 0)
                    (if dup =? 1 then 1 else 0) (if ret =? 1 then 1 else 0))).
Proof.
  intros Ht. rw /aws_iot_mqtt_internal_init_header /QOS0 /QOS1.
  assert (Hq : (if qos =? 0 then 0 else if qos =? 1 then 1 else 0) = (if qos =? 1 then 1 else 0)).
  { destruct (Z.eqb_spec qos 0) as [->|]; done. }
  rw Hq (Z.eqb_sym 1 dup) (Z.eqb_sym 1 ret).
  destruct (qos =? 1), (dup =? 1), (ret =? 1); destruct t; done.
Qed.

Lemma header_byte_fields t qos dup ret :
  0 <= t < 16 -> 0 <= qos < 4 -> 0 <= dup < 2 -> 0 <= ret < 2 ->
  let h := header_byte t qos dup ret in
  hdr_type h = t /\ hdr_qos h = qos /\ hdr_dup h = dup /\ hdr_retain h = ret /\ is_u8 h.
Proof.
  intros Ht Hq Hd Hr. rw /hdr_type /hdr_qos /hdr_dup /hdr_retain /bf_get /header_byte.
  rw !Z.land_ones; [|lia..]. rw !Z.shiftr_div_pow2; [|lia..]. simpl.
  rw /is_u8. repeat split; Z.to_euclidean_division_equations; lia.
Qed.

(** ** Properties *)

(** Encoding a remaining length below 2^28 into a buffer with room for it and
    decoding it at the same address gives the length back, reports the number of
    bytes the encoder wrote, and changes no other byte of the buffer. *)
Theorem remaining_length_roundtrip n pre old post r0 :
  0 <= n < 2 ^ 28 -> length old = length (remaining_length_bytes n) ->
  exists k c',
    aws_iot_mqtt_internal_write_len_to_buffer n (Cursor (pre ++ old ++ post) (length pre)) = Ret (k, c') /\
    aws_iot_mqtt_internal_decode_remaining_length_from_buffer r0 c' = Ret ((SUCCESS, n, k), c') /\
    c' = Cursor (pre ++ remaining_length_bytes n ++ post) (length pre) /\
    k = Z.of_nat (length old).
Proof.
  intros Hn Hlen. eexists _, _. split.
  { apply (write_len_loop_spec 5 n) with (done := []); simpl; try lia; done. }
  split; [by apply decode_remaining_length_spec|]. split; [done|]. by rw Hlen.
Qed.

Lemma remaining_length_roundtrip_witness :
  exists k c',
    aws_iot_mqtt_internal_write_len_to_buffer 321 (Cursor ([7] ++ [0; 0] ++ [9]) 1) = Ret (k, c') /\
    aws_iot_mqtt_internal_decode_remaining_length_from_buffer 0 c' = Ret ((SUCCESS, 321, k), c') /\
    c' = Cursor ([7] ++ [193; 2] ++ [9]) 1 /\ k = 2.
Proof. apply (remaining_length_roundtrip 321 [7] [0; 0] [9] 0); [lia|reflexivity]. Defined.

(** On any four readable bytes the length decoder returns: either the
    malformed-length error, exactly when all four bytes carry the continuation bit,
    or a value that the bytes it consumed can represent. It never reads further and
    moves neither the pointer nor the buffer. *)
Theorem remaining_length_decode_total pre b0 b1 b2 b3 post r0 :
  bytes_ok (pre ++ [b0; b1; b2; b3] ++ post) ->
  let c := Cursor (pre ++ [b0; b1; b2; b3] ++ post) (length pre) in
  exists rc d n,
    aws_iot_mqtt_internal_decode_remaining_length_from_buffer r0 c = Ret ((rc, d, n), c) /\
    (rc = MQTT_DECODE_REMAINING_LENGTH_ERROR <-> Forall (fun b => 128 <= b) [b0; b1; b2; b3]) /\
    (rc <> MQTT_DECODE_REMAINING_LENGTH_ERROR -> rc = SUCCESS /\ 1 <= n <= 4 /\ 0 <= d < 128 ^ n).
Proof.
  intros Hok c.
  destruct (wp_no_exn_run _ _ _ (decode_remaining_length_safe r0 c Hok ltac:(simpl; rw !length_app /=; lia)))
    as ([[rc d] n] & c' & Hrun & -> & Hcase).
  exists rc, d, n. split; [done|]. split; [|destruct Hcase; tauto].
  move: Hok. rw !bytes_ok_app. intros (_ & Hb & _).
  rw /bytes_ok !Forall_cons in Hb. destruct Hb as (? & ? & ? & ? & _).
  move: Hrun. subst c. rw /aws_iot_mqtt_internal_decode_remaining_length_from_buffer.
  erewrite bind_run; [|done]. cbn [app cur_ptr].
  repeat setoid_rewrite Forall_cons. rw Forall_nil.
  rw /mbind /M_bind /mret /M_ret.
  rw (decode_len_step _ _ _ _ _ _ b0); [|lia|done|apply list_lookup_middle; done].
  destruct (Z.ltb_spec b0 128); [intros ?; simplify_eq/=; split; [done|lia]|]. cbn [cur_buf cur_ptr].
  rw (decode_len_step _ _ _ _ _ _ b1); [|lia|done|by rw /= (lookup_app_add pre _ 1)].
  destruct (Z.ltb_spec b1 128); [intros ?; simplify_eq/=; split; [done|lia]|]. cbn [cur_buf cur_ptr].
  rw (decode_len_step _ _ _ _ _ _ b2); [|lia|done|by rw /= -!Nat.add_assoc (lookup_app_add pre _ 2)].
  destruct (Z.ltb_spec b2 128); [intros ?; simplify_eq/=; split; [done|lia]|]. cbn [cur_buf cur_ptr].
  rw (decode_len_step _ _ _ _ _ _ b3); [|lia|done|by rw /= -!Nat.add_assoc (lookup_app_add pre _ 3)].
  destruct (Z.ltb_spec b3 128); intros ?; simplify_eq/=; split; done || lia.
Qed.

Lemma remaining_length_decode_total_witness :
  let c := Cursor ([0x30] ++ [0xff; 0xff; 0xff; 0x80] ++ []) 1 in
  exists rc d n,
    aws_iot_mqtt_internal_decode_remaining_length_from_buffer 0 c = Ret ((rc, d, n), c) /\
    (rc = MQTT_DECODE_REMAINING_LENGTH_ERROR <-> Forall (fun b => 128 <= b) [0xff; 0xff; 0xff; 0x80]) /\
    (rc <> MQTT_DECODE_REMAINING_LENGTH_ERROR -> rc = SUCCESS /\ 1 <= n <= 4 /\ 0 <= d < 128 ^ n).
Proof.
  apply (remaining_length_decode_total [0x30] 0xff 0xff 0xff 0x80 [] 0).
  repeat constructor; lia.
Defined.

(** The packet length computed before serializing is never smaller than the
    length of the packet that is then written, and exceeds it by at most one byte
    (the size classes are tested after the header byte has been added). *)
Theorem final_packet_length_sound n : 0 <= n < 2 ^ 28 ->
  let total := 1 + Z.of_nat (length (remaining_length_bytes n)) + n in
  total <= aws_iot_mqtt_internal_get_final_packet_length_from_remaining_length n <= total + 1 /\
  (aws_iot_mqtt_internal_get_final_packet_length_from_remaining_length n = total + 1 <->
   n = 127 \/ n = 16383 \/ n = 2097151).
Proof.
  intros Hn. pose proof (get_final_packet_length_bounds n Hn) as Hb. split; [done|].
  clear Hb. simpl. rw remaining_length_bytes_length; [|lia].
  rw /aws_iot_mqtt_internal_get_final_packet_length_from_remaining_length.
  rw (u32_small (n + 1)); [|width].
  repeat (case_match;
    repeat match goal with
    | H : (_ <? _) = true |- _ => apply Z.ltb_lt in H
    | H : (_ <? _) = false |- _ => apply Z.ltb_ge in H
    end); try lia; rw u32_small; width.
Qed.

Lemma final_packet_length_sound_witness :
  let total := 1 + Z.of_nat (length (remaining_length_bytes 127)) + 127 in
  total <= aws_iot_mqtt_internal_get_final_packet_length_from_remaining_length 127 <= total + 1 /\
  (aws_iot_mqtt_internal_get_final_packet_length_from_remaining_length 127 = total + 1 <->
   127 = 127 \/ 127 = 16383 \/ 127 = 2097151).
Proof. apply (final_packet_length_sound 127). lia. Defined.
