(* ===== verification/Packets.v ===== *)
(** * MQTT control packets

    The packet serializers and deserializers, spread in the source over
    [src/aws_iot_mqtt_client_connect.c] (CONNECT, CONNACK),
    [src/aws_iot_mqtt_client_publish.c] (PUBLISH, acknowledgements),
    [src/aws_iot_mqtt_client_subscribe.c] (SUBSCRIBE, SUBACK),
    [src/aws_iot_mqtt_client_unsubscribe.c] (UNSUBSCRIBE, UNSUBACK) and
    [src/aws_iot_mqtt_client_common_internal.c] (packets without payload).

    A buffer argument is [None] when the pointer is null. The boolean [outs] of a
    deserializer says whether all its output pointers are non-null; the outputs
    themselves are passed in with the values the variables have before the call
    and returned with the values they have after it. *)
From S2P Require Import Prelude Buffer Types Wire.

(** The memory designated by the pointers of the arguments. *)
Definition source : Type := ptr -> option (list Z).

(** ** Serializers *)

Record ser_out := SerOut {
  so_rc : IoT_Error_t;
  so_buf : option (list Z);
  so_len : option Z }.

(** Run the body of a serializer on the whole buffer and report the length. *)
Definition run_serializer (buf : list Z) (body : M cursor unit) (width : Z -> Z) : outcome ser_out :=
  '(_, c) ← body (Cursor buf 0);
  Ret (SerOut SUCCESS (Some (cur_buf c)) (Some (width (Z.of_nat (cur_ptr c))))).

Definition aws_iot_mqtt_internal_serialize_zero (pTxBuf : option (list Z)) (txBufLen : Z)
    (packetType : MessageTypes) (pSerializedLength : option Z) : outcome ser_out :=
  match pTxBuf, pSerializedLength with
  | Some buf, Some _ =>
      if decide (4 > txBufLen) then
        Ret (SerOut MQTT_TX_BUFFER_TOO_SHORT_ERROR pTxBuf pSerializedLength)
      else
        let '(rc, header) := aws_iot_mqtt_internal_init_header (Some 0) packetType QOS0 0 0 in
        if decide (SUCCESS <> rc) then Ret (SerOut rc pTxBuf pSerializedLength)
        else run_serializer buf
          (_ ← aws_iot_mqtt_internal_write_char (default 0 header);
           write_remaining_length 0) u32
  | _, _ => Ret (SerOut NULL_VALUE_ERROR pTxBuf pSerializedLength)
  end.

(** *** CONNECT *)

Definition _aws_iot_get_connect_packet_length (p : IoT_Client_Connect_Params) : Z :=
  let len := 10 in
  let len := u32 (len + clientIDLen p + 2) in
  let len := if isWillMsgPresent p
             then u32 (len + will_topicNameLen (will p) + 2 + will_msgLen (will p) + 2) else len in
  let len := if decide (pUsername p <> NULL) then u32 (len + usernameLen p + 2) else len in
  if decide (pPassword p <> NULL) then u32 (len + passwordLen p + 2) else len.

(** The union [MQTT_Connect_Header_Flags] (without [REVERSED]). *)
Definition MQTT_Connect_Header_Flags : Type := Z.
Definition set_cleansession (v : Z) (f : MQTT_Connect_Header_Flags) := bf_set 1 1 v f.
Definition set_will (v : Z) (f : MQTT_Connect_Header_Flags) := bf_set 2 1 v f.
Definition set_willQoS (v : Z) (f : MQTT_Connect_Header_Flags) := bf_set 3 2 v f.
Definition set_willRetain (v : Z) (f : MQTT_Connect_Header_Flags) := bf_set 5 1 v f.
Definition set_password (v : Z) (f : MQTT_Connect_Header_Flags) := bf_set 6 1 v f.
Definition set_username (v : Z) (f : MQTT_Connect_Header_Flags) := bf_set 7 1 v f.

(** The flags as the serializer builds them. *)
Definition connect_flags (p : IoT_Client_Connect_Params) : MQTT_Connect_Header_Flags :=
  let flags := 0 in
  let flags := set_cleansession (if isCleanSession p then 1 else 0) flags in
  let flags := set_will (if isWillMsgPresent p then 1 else 0) flags in
  let flags := if isWillMsgPresent p then
                 set_willRetain (if will_isRetained (will p) then 1 else 0)
                   (set_willQoS (will_qos (will p)) flags)
               else flags in
  let flags := if decide (pUsername p <> NULL) then set_username 1 flags else flags in
  if decide (pPassword p <> NULL) then set_password 1 flags else flags.

(** The characters of the protocol name "MQTT" (with its terminator). *)
Definition mqtt_name : list Z := [77; 81; 84; 84; 0].

Definition serialize_connect_body (src : source) (p : IoT_Client_Connect_Params)
    (header : MQTTHeader) (len : Z) : M cursor unit :=
  _ ← aws_iot_mqtt_internal_write_char header;
  _ ← write_remaining_length len;
  _ ← aws_iot_mqtt_internal_write_utf8_string (Some mqtt_name) 4;
  _ ← aws_iot_mqtt_internal_write_char (u8 (MQTTVersion p));
  let flags := connect_flags p in
  _ ← aws_iot_mqtt_internal_write_char flags;
  _ ← aws_iot_mqtt_internal_write_uint_16 (keepAliveIntervalInSec p);
  _ ← (if decide (pClientID p = NULL) then aws_iot_mqtt_internal_write_uint_16 0
       else aws_iot_mqtt_internal_write_utf8_string (src (pClientID p)) (clientIDLen p));
  _ ← (if isWillMsgPresent p then
         _ ← aws_iot_mqtt_internal_write_utf8_string (src (will_pTopicName (will p)))
               (will_topicNameLen (will p));
         aws_iot_mqtt_internal_write_utf8_string (src (will_pMessage (will p)))
               (will_msgLen (will p))
       else mret tt);
  _ ← (if decide (bf_get 7 1 flags <> 0) then
         aws_iot_mqtt_internal_write_utf8_string (src (pUsername p)) (usernameLen p)
       else mret tt);
  if decide (bf_get 6 1 flags <> 0) then
    aws_iot_mqtt_internal_write_utf8_string (src (pPassword p)) (passwordLen p)
  else mret tt.

Definition _aws_iot_mqtt_serialize_connect (src : source) (pTxBuf : option (list Z))
    (txBufLen : Z) (pConnectParams : option IoT_Client_Connect_Params)
    (pSerializedLen : option Z) : outcome ser_out :=
  match pTxBuf, pConnectParams, pSerializedLen with
  | Some buf, Some p, Some _ =>
      if decide (pClientID p = NULL /\ 0 <> clientIDLen p) then
        Ret (SerOut NULL_VALUE_ERROR pTxBuf pSerializedLen)
      else if decide (pClientID p <> NULL /\ 0 = clientIDLen p) then
        Ret (SerOut NULL_VALUE_ERROR pTxBuf pSerializedLen)
      else if decide (MQTTVersion p <> MQTT_3_1_1) then
        Ret (SerOut MQTT_CONNACK_UNACCEPTABLE_PROTOCOL_VERSION_ERROR pTxBuf pSerializedLen)
      else
        let len := _aws_iot_get_connect_packet_length p in
        if decide (aws_iot_mqtt_internal_get_final_packet_length_from_remaining_length len > txBufLen)
        then Ret (SerOut MQTT_TX_BUFFER_TOO_SHORT_ERROR pTxBuf pSerializedLen)
        else
          let '(rc, header) := aws_iot_mqtt_internal_init_header (Some 0) CONNECT QOS0 0 0 in
          if decide (SUCCESS <> rc) then Ret (SerOut rc pTxBuf pSerializedLen)
          else run_serializer buf (serialize_connect_body src p (default 0 header) len) size_t
  | _, _, _ => Ret (SerOut NULL_VALUE_ERROR pTxBuf pSerializedLen)
  end.

(** *** PUBLISH and acknowledgements *)

Definition serialize_publish_body (header : MQTTHeader) (rem_len : Z) (qos : QoS) (packetId : Z)
    (topic : option (list Z)) (topicNameLen : Z) (payload : list Z) (payloadLen : Z) :
    M cursor unit :=
  _ ← aws_iot_mqtt_internal_write_char header;
  _ ← write_remaining_length rem_len;
  _ ← aws_iot_mqtt_internal_write_utf8_string topic topicNameLen;
  _ ← (if decide (qos > 0) then aws_iot_mqtt_internal_write_uint_16 packetId else mret tt);
  if decide (payloadLen <= Z.of_nat (length payload)) then
    p ← gets cur_ptr;
    _ ← store_bytes p (take (Z.to_nat payloadLen) payload);
    advance (Z.to_nat payloadLen)
  else raise (Fault OobRead).

Definition _aws_iot_mqtt_internal_serialize_publish (src : source) (pTxBuf : option (list Z))
    (txBufLen : Z) (dup : Z) (qos : QoS) (retained packetId : Z) (pTopicName : ptr)
    (topicNameLen : Z) (pPayload : ptr) (payloadLen : Z) (pSerializedLen : option Z) :
    outcome ser_out :=
  match pTxBuf, pSerializedLen with
  | Some buf, Some _ =>
      if decide (pPayload = NULL) then Ret (SerOut NULL_VALUE_ERROR pTxBuf pSerializedLen)
      else
        let rem_len := u32 (size_t (topicNameLen + payloadLen + 2)) in
        let rem_len := if decide (qos > 0) then u32 (rem_len + 2) else rem_len in
        if decide (aws_iot_mqtt_internal_get_final_packet_length_from_remaining_length rem_len > txBufLen)
        then Ret (SerOut MQTT_TX_BUFFER_TOO_SHORT_ERROR pTxBuf pSerializedLen)
        else
          let '(rc, header) := aws_iot_mqtt_internal_init_header (Some 0) PUBLISH qos dup retained in
          if decide (SUCCESS <> rc) then Ret (SerOut rc pTxBuf pSerializedLen)
          else match src pPayload with
               | None => Exn (Fault OobRead)
               | Some payload =>
                   run_serializer buf
                     (serialize_publish_body (default 0 header) rem_len qos packetId
                        (src pTopicName) topicNameLen payload payloadLen) u32
               end
  | _, _ => Ret (SerOut NULL_VALUE_ERROR pTxBuf pSerializedLen)
  end.

Definition aws_iot_mqtt_internal_serialize_ack (pTxBuf : option (list Z)) (txBufLen : Z)
    (msgType : MessageTypes) (dup packetId : Z) (pSerializedLen : option Z) : outcome ser_out :=
  match pTxBuf, pSerializedLen with
  | Some buf, Some _ =>
      if decide (4 > txBufLen) then
        Ret (SerOut MQTT_TX_BUFFER_TOO_SHORT_ERROR pTxBuf pSerializedLen)
      else
        let requestQoS := if decide (PUBREL = msgType) then QOS1 else QOS0 in
        let '(rc, header) := aws_iot_mqtt_internal_init_header (Some 0) msgType requestQoS dup 0 in
        if decide (SUCCESS <> rc) then Ret (SerOut rc pTxBuf pSerializedLen)
        else run_serializer buf
          (_ ← aws_iot_mqtt_internal_write_char (default 0 header);
           _ ← write_remaining_length 2;
           aws_iot_mqtt_internal_write_uint_16 packetId) u32
  | _, _ => Ret (SerOut NULL_VALUE_ERROR pTxBuf pSerializedLen)
  end.

(** *** SUBSCRIBE and UNSUBSCRIBE *)

(** The parallel arrays of the arguments, entry by entry: topic filter, its length
    and (for SUBSCRIBE) the requested QoS. [topicCount] is the length of the list. *)
Record subscription := Sub { sub_topic : ptr; sub_topicLen : Z; sub_qos : QoS }.

Definition subscribe_rem_len (topics : list subscription) : Z :=
  foldl (fun rem_len t => u32 (rem_len + u32 (sub_topicLen t + 2 + 1))) 2 topics.

Fixpoint serialize_subscribe_topics (src : source) (topics : list subscription) : M cursor unit :=
  match topics with
  | [] => mret tt
  | t :: topics' =>
      _ ← aws_iot_mqtt_internal_write_utf8_string (src (sub_topic t)) (sub_topicLen t);
      _ ← aws_iot_mqtt_internal_write_char (u8 (sub_qos t));
      serialize_subscribe_topics src topics'
  end.

Definition _aws_iot_mqtt_serialize_subscribe (src : source) (pTxBuf : option (list Z))
    (txBufLen dup packetId : Z) (topics : list subscription) (pSerializedLen : option Z) :
    outcome ser_out :=
  match pTxBuf, pSerializedLen with
  | Some buf, Some _ =>
      let rem_len := subscribe_rem_len topics in
      if decide (aws_iot_mqtt_internal_get_final_packet_length_from_remaining_length rem_len > txBufLen)
      then Ret (SerOut MQTT_TX_BUFFER_TOO_SHORT_ERROR pTxBuf pSerializedLen)
      else
        let '(rc, header) := aws_iot_mqtt_internal_init_header (Some 0) SUBSCRIBE QOS1 dup 0 in
        if decide (SUCCESS <> rc) then Ret (SerOut rc pTxBuf pSerializedLen)
        else run_serializer buf
          (_ ← aws_iot_mqtt_internal_write_char (default 0 header);
           _ ← write_remaining_length rem_len;
           _ ← aws_iot_mqtt_internal_write_uint_16 packetId;
           serialize_subscribe_topics src topics) u32
  | _, _ => Ret (SerOut NULL_VALUE_ERROR pTxBuf pSerializedLen)
  end.

Definition unsubscribe_rem_len (topics : list (ptr * Z)) : Z :=
  foldl (fun rem_len t => u32 (rem_len + u32 (t.2 + 2))) 2 topics.

Fixpoint serialize_unsubscribe_topics (src : source) (topics : list (ptr * Z)) : M cursor unit :=
  match topics with
  | [] => mret tt
  | (topic, len) :: topics' =>
      _ ← aws_iot_mqtt_internal_write_utf8_string (src topic) len;
      serialize_unsubscribe_topics src topics'
  end.

(** This serializer does not test its pointers. *)
Definition _aws_iot_mqtt_serialize_unsubscribe (src : source) (buf : list Z)
    (txBufLen dup packetId : Z) (topics : list (ptr * Z)) (pSerializedLen : Z) :
    outcome ser_out :=
  let rem_len := unsubscribe_rem_len topics in
  if decide (aws_iot_mqtt_internal_get_final_packet_length_from_remaining_length rem_len > txBufLen)
  then Ret (SerOut MQTT_TX_BUFFER_TOO_SHORT_ERROR (Some buf) (Some pSerializedLen))
  else
    let '(rc, header) := aws_iot_mqtt_internal_init_header (Some 0) UNSUBSCRIBE QOS1 dup 0 in
    if decide (SUCCESS <> rc) then Ret (SerOut rc (Some buf) (Some pSerializedLen))
    else run_serializer buf
      (_ ← aws_iot_mqtt_internal_write_char (default 0 header);
       _ ← write_remaining_length rem_len;
       _ ← aws_iot_mqtt_internal_write_uint_16 packetId;
       serialize_unsubscribe_topics src topics) u32.

(** ** Deserializers *)

(** Run a deserializer on a buffer: it does not change it. *)
Definition run_deserializer {A} (buf : list Z) (body : M cursor A) : outcome A :=
  '(a, _) ← body (Cursor buf 0); Ret a.

(** *** CONNACK *)

(** The union [MQTT_Connack_Header_Flags] (without [REVERSED]): seven unused bits
    come first, so that the flag is the most significant bit. *)
Definition connack_sessionpresent (flags : Z) : Z := bf_get 7 1 flags.

Definition connack_return_code (c : Z) : IoT_Error_t :=
  match c with
  | 0 => MQTT_CONNACK_CONNECTION_ACCEPTED
  | 1 => MQTT_CONNACK_UNACCEPTABLE_PROTOCOL_VERSION_ERROR
  | 2 => MQTT_CONNACK_IDENTIFIER_REJECTED_ERROR
  | 3 => MQTT_CONNACK_SERVER_UNAVAILABLE_ERROR
  | 4 => MQTT_CONNACK_BAD_USERDATA_ERROR
  | 5 => MQTT_CONNACK_NOT_AUTHORIZED_ERROR
  | _ => MQTT_CONNACK_UNKNOWN_ERROR
  end.

Record connack_out := ConnackOut { co_sessionPresent : Z; co_connackRc : IoT_Error_t }.

Definition _aws_iot_mqtt_deserialize_connack (outs : bool) (o : connack_out)
    (pRxBuf : option (list Z)) (rxBufLen : Z) : outcome (IoT_Error_t * connack_out) :=
  match pRxBuf, outs with
  | Some buf, true =>
      if decide (4 > rxBufLen) then Ret (MQTT_RX_BUFFER_TOO_SHORT_ERROR, o)
      else run_deserializer buf (
        header ← aws_iot_mqtt_internal_read_char;
        if decide (MessageTypes_val CONNACK <> hdr_type header) then mret (FAILURE, o)
        else
          '(rc, decodedLen, readBytesLen) ←
            aws_iot_mqtt_internal_decode_remaining_length_from_buffer 0;
          if decide (SUCCESS <> rc) then mret (rc, o)
          else
            _ ← advance (Z.to_nat readBytesLen);
            if decide (2 <> decodedLen) then mret (MQTT_DECODE_REMAINING_LENGTH_ERROR, o)
            else
              flags ← aws_iot_mqtt_internal_read_char;
              connack_rc_char ← aws_iot_mqtt_internal_read_char;
              mret (SUCCESS, ConnackOut (connack_sessionpresent flags)
                               (connack_return_code connack_rc_char)))
  | _, _ => Ret (NULL_VALUE_ERROR, o)
  end.

(** *** PUBLISH *)

(** The string is returned as the offset of its first character. *)
Definition _aws_iot_mqtt_read_string_with_len (stringVar : ptr) (stringLen : Z) (enddata : nat) :
    M cursor (IoT_Error_t * ptr * Z) :=
  p ← gets cur_ptr;
  if decide (Z.of_nat enddata - Z.of_nat p > 1) then
    stringLen ← aws_iot_mqtt_internal_read_uint16_t;
    p ← gets cur_ptr;
    if decide (p + Z.to_nat stringLen <= enddata)%nat then
      _ ← advance (Z.to_nat stringLen);
      mret (SUCCESS, RxBuf p, stringLen)
    else mret (FAILURE, stringVar, stringLen)
  else mret (FAILURE, stringVar, stringLen).

Record publish_out := PublishOut {
  po_dup : Z; po_qos : QoS; po_retained : Z; po_packetId : Z;
  po_topicName : ptr; po_topicNameLen : Z;
  po_payload : ptr; po_payloadLen : Z }.

Definition aws_iot_mqtt_internal_deserialize_publish (outs : bool) (o : publish_out)
    (buf : list Z) (rxBufLen : Z) : outcome (IoT_Error_t * publish_out) :=
  if negb outs then Ret (FAILURE, o)
  else if decide (4 > rxBufLen) then Ret (MQTT_RX_BUFFER_TOO_SHORT_ERROR, o)
  else run_deserializer buf (
    header ← aws_iot_mqtt_internal_read_char;
    if decide (MessageTypes_val PUBLISH <> hdr_type header) then mret (FAILURE, o)
    else
      let o := PublishOut (hdr_dup header) (hdr_qos header) (hdr_retain header)
                 (po_packetId o) (po_topicName o) (po_topicNameLen o)
                 (po_payload o) (po_payloadLen o) in
      '(rc, decodedLen, readBytesLen) ←
        aws_iot_mqtt_internal_decode_remaining_length_from_buffer 0;
      if decide (SUCCESS <> rc) then mret (rc, o)
      else
        _ ← advance (Z.to_nat readBytesLen);
        curData ← gets cur_ptr;
        let endData := (curData + Z.to_nat decodedLen)%nat in
        '(rc, topic, topicLen) ←
          _aws_iot_mqtt_read_string_with_len (po_topicName o) (po_topicNameLen o) endData;
        let o := PublishOut (po_dup o) (po_qos o) (po_retained o) (po_packetId o)
                   topic topicLen (po_payload o) (po_payloadLen o) in
        curData ← gets cur_ptr;
        if decide (SUCCESS <> rc \/ 0 > Z.of_nat endData - Z.of_nat curData) then mret (FAILURE, o)
        else
          packetId ← (if decide (QOS0 <> po_qos o) then aws_iot_mqtt_internal_read_uint16_t
                      else mret (po_packetId o));
          curData ← gets cur_ptr;
          mret (SUCCESS,
                PublishOut (po_dup o) (po_qos o) (po_retained o) packetId topic topicLen
                  (RxBuf curData) (size_t (Z.of_nat endData - Z.of_nat curData)))).

(** *** Acknowledgements *)

Record ack_out := AckOut { ao_packetType : Z; ao_dup : Z; ao_packetId : Z }.

Definition aws_iot_mqtt_internal_deserialize_ack (outs : bool) (o : ack_out)
    (pRxBuf : option (list Z)) (rxBuflen : Z) : outcome (IoT_Error_t * ack_out) :=
  match pRxBuf, outs with
  | Some buf, true =>
      if decide (4 > rxBuflen) then Ret (MQTT_RX_BUFFER_TOO_SHORT_ERROR, o)
      else run_deserializer buf (
        header ← aws_iot_mqtt_internal_read_char;
        let o := AckOut (hdr_type header) (hdr_dup header) (ao_packetId o) in
        '(rc, decodedLen, readBytesLen) ←
          aws_iot_mqtt_internal_decode_remaining_length_from_buffer 0;
        if decide (SUCCESS <> rc) then mret (rc, o)
        else
          _ ← advance (Z.to_nat readBytesLen);
          if decide (decodedLen < 2) then mret (FAILURE, o)
          else
            packetId ← aws_iot_mqtt_internal_read_uint16_t;
            mret (SUCCESS, AckOut (ao_packetType o) (ao_dup o) packetId))
  | _, _ => Ret (NULL_VALUE_ERROR, o)
  end.

(** *** SUBACK and UNSUBACK *)

Record suback_out := SubackOut { sa_packetId : Z; sa_count : Z; sa_grantedQoSs : list QoS }.

(** The loop over the granted QoS bytes. The caller's array has
    [length (sa_grantedQoSs o)] elements; writing behind it is a fault. *)
Fixpoint suback_loop (fuel : nat) (endData : nat) (maxExpectedQoSCount : Z) (o : suback_out) :
    M cursor (IoT_Error_t * suback_out) :=
  curData ← gets cur_ptr;
  if decide (curData < endData)%nat then
    match fuel with
    | O => raise OutOfFuel
    | S fuel' =>
        if decide (sa_count o > maxExpectedQoSCount) then mret (FAILURE, o)
        else
          q ← aws_iot_mqtt_internal_read_char;
          if decide (sa_count o < Z.of_nat (length (sa_grantedQoSs o))) then
            suback_loop fuel' endData maxExpectedQoSCount
              (SubackOut (sa_packetId o) (u32 (sa_count o + 1))
                 (<[Z.to_nat (sa_count o) := q]> (sa_grantedQoSs o)))
          else raise (Fault OobWrite)
    end
  else mret (SUCCESS, o).

Definition _aws_iot_mqtt_deserialize_suback (outs : bool) (maxExpectedQoSCount : Z)
    (o : suback_out) (buf : list Z) (rxBufLen : Z) : outcome (IoT_Error_t * suback_out) :=
  if negb outs then Ret (NULL_VALUE_ERROR, o)
  else if decide (5 > rxBufLen) then Ret (MQTT_RX_BUFFER_TOO_SHORT_ERROR, o)
  else run_deserializer buf (
    header ← aws_iot_mqtt_internal_read_char;
    if decide (MessageTypes_val SUBACK <> hdr_type header) then mret (FAILURE, o)
    else
      '(decodeRc, decodedLen, readBytesLen) ←
        aws_iot_mqtt_internal_decode_remaining_length_from_buffer 0;
      if decide (SUCCESS <> decodeRc) then mret (decodeRc, o)
      else
        _ ← advance (Z.to_nat readBytesLen);
        curData ← gets cur_ptr;
        let endData := (curData + Z.to_nat decodedLen)%nat in
        if decide (Z.of_nat endData - Z.of_nat curData < 2) then mret (FAILURE, o)
        else
          packetId ← aws_iot_mqtt_internal_read_uint16_t;
          suback_loop (Z.to_nat decodedLen) endData maxExpectedQoSCount
            (SubackOut packetId 0 (sa_grantedQoSs o))).

Definition _aws_iot_mqtt_deserialize_unsuback (pPacketId : Z) (pRxBuf : option (list Z))
    (rxBufLen : Z) : outcome (IoT_Error_t * Z) :=
  '(rc, o) ← aws_iot_mqtt_internal_deserialize_ack true (AckOut 0 0 pPacketId) pRxBuf rxBufLen;
  let rc := if decide (SUCCESS = rc /\ MessageTypes_val UNSUBACK <> ao_packetType o)
            then FAILURE else rc in
  Ret (rc, ao_packetId o).

(** ** Reference encodings

    The packets of MQTT 3.1.1, section 3: fixed header, remaining length, body. *)

Definition frame (header : Z) (body : list Z) : list Z :=
  header :: remaining_length_bytes (Z.of_nat (length body)) ++ body.

Definition zero_packet (t : MessageTypes) : list Z := frame (header_byte (MessageTypes_val t) 0 0 0) [].

Definition publish_body (qos id : Z) (topic payload : list Z) : list Z :=
  utf8_bytes topic ++ (if decide (qos > 0) then uint16_bytes id else []) ++ payload.
Definition publish_packet (dup qos retained id : Z) (topic payload : list Z) : list Z :=
  frame (header_byte 3 qos dup retained) (publish_body qos id topic payload).

Definition ack_packet (t : MessageTypes) (dup id : Z) : list Z :=
  frame (header_byte (MessageTypes_val t) (if decide (t = PUBREL) then 1 else 0) dup 0) (uint16_bytes id).

(** The logical content of a CONNECT packet; [None] for an absent field. *)
Record connect_msg := ConnectMsg {
  cm_cleanSession : bool;
  cm_keepAlive : Z;
  cm_clientId : list Z;
  cm_will : option (list Z * list Z * bool * QoS);
  cm_username : option (list Z);
  cm_password : option (list Z) }.

Definition b2z (b : bool) : Z := if b then 1 else 0.

Definition connect_flags_byte (m : connect_msg) : Z :=
  2 * b2z (cm_cleanSession m) +
  match cm_will m with None => 0 | Some (_, _, r, q) => 4 + 8 * q + 32 * b2z r end +
  64 * b2z (bool_decide (is_Some (cm_password m))) +
  128 * b2z (bool_decide (is_Some (cm_username m))).

Definition connect_body (m : connect_msg) : list Z :=
  utf8_bytes [77; 81; 84; 84] ++ [4; connect_flags_byte m] ++
  uint16_bytes (cm_keepAlive m) ++ utf8_bytes (cm_clientId m) ++
  match cm_will m with None => [] | Some (t, p, _, _) => utf8_bytes t ++ utf8_bytes p end ++
  from_option utf8_bytes [] (cm_username m) ++ from_option utf8_bytes [] (cm_password m).
Definition connect_packet (m : connect_msg) : list Z := frame (header_byte 1 0 0 0) (connect_body m).

Definition topic_entry_bytes (t : list Z * QoS) : list Z := utf8_bytes t.1 ++ [t.2].
Definition subscribe_body (id : Z) (topics : list (list Z * QoS)) : list Z :=
  uint16_bytes id ++ flat_map topic_entry_bytes topics.
Definition subscribe_packet (dup id : Z) (topics : list (list Z * QoS)) : list Z :=
  frame (header_byte 8 1 dup 0) (subscribe_body id topics).

Definition unsubscribe_body (id : Z) (topics : list (list Z)) : list Z :=
  uint16_bytes id ++ flat_map utf8_bytes topics.
Definition unsubscribe_packet (dup id : Z) (topics : list (list Z)) : list Z :=
  frame (header_byte 10 1 dup 0) (unsubscribe_body id topics).

(** Packets the broker sends. *)
Definition connack_packet (flags rc : Z) : list Z := frame (header_byte 2 0 0 0) [flags; rc].
Definition suback_packet (id : Z) (granted : list Z) : list Z :=
  frame (header_byte 9 0 0 0) (uint16_bytes id ++ granted).

(** ** Lemmas *)

Lemma length_uint16_bytes n : length (uint16_bytes n) = 2%nat.
Proof. done. Qed.
Lemma length_utf8_bytes s : length (utf8_bytes s) = (2 + length s)%nat.
Proof. done. Qed.

Lemma length_frame h body :
  Z.of_nat (length (frame h body)) =
    1 + Z.of_nat (length (remaining_length_bytes (Z.of_nat (length body)))) + Z.of_nat (length body).
Proof. rw /frame /= length_app. lia. Qed.

Lemma emits_eq {A} (m : M cursor A) bs bs' a : bs = bs' -> emits m bs a -> emits m bs' a.
Proof. by intros ->. Qed.

(** The part of a serializer every packet shares. *)
Lemma emits_frame h n body (k : M cursor unit) :
  n = Z.of_nat (length body) -> is_u32 n -> emits k body tt ->
  emits (_ ← aws_iot_mqtt_internal_write_char h; _ ← write_remaining_length n; k) (frame h body) tt.
Proof.
  intros Hn Hu Hk. eapply (emits_eq _ ([h] ++ remaining_length_bytes n ++ body)).
  { by rw Hn. }
  eapply emits_bind; [apply write_char_emits|].
  eapply emits_bind; [by apply write_remaining_length_emits|done].
Qed.

Lemma run_serializer_spec buf body w bs :
  emits body bs tt -> (length bs <= length buf)%nat ->
  run_serializer buf body w =
  Ret (SerOut SUCCESS (Some (bs ++ drop (length bs) buf)) (Some (w (Z.of_nat (length bs))))).
Proof.
  intros Hb Hlen. rw /run_serializer.
  pose proof (Hb [] (take (length bs) buf) (drop (length bs) buf)) as Hrun.
  rw /= take_drop in Hrun. rw /mbind /outcome_bind Hrun //.
  rw length_take. lia.
Qed.

(** A packet whose final length was admitted fits into the buffer. *)
Lemma frame_fits h body (buf : list Z) size :
  size = Z.of_nat (length buf) -> size <= 2 ^ 28 -> Z.of_nat (length body) < 2 ^ 32 - 8 ->
  ~ aws_iot_mqtt_internal_get_final_packet_length_from_remaining_length (Z.of_nat (length body)) > size ->
  (length (frame h body) <= length buf)%nat /\ Z.of_nat (length body) < 2 ^ 28.
Proof.
  intros -> Hsize Hbody Hfit.
  destruct (final_packet_length_fits (Z.of_nat (length body)) (Z.of_nat (length buf))) as [Hsmall Htot];
    [width|lia|lia|lia|].
  split; [|done]. pose proof (length_frame h body). lia.
Qed.

(** [bs] is what the pointer [p] designates in memory, [n] bytes of it. *)
Definition designates (src : source) (p : ptr) (n : Z) (bs : list Z) : Prop :=
  n = Z.of_nat (length bs) /\ exists rest, src p = Some (bs ++ rest).

Lemma designates_emits src p n bs : is_u16 n -> designates src p n bs ->
  emits (aws_iot_mqtt_internal_write_utf8_string (src p) n) (utf8_bytes bs) tt.
Proof.
  intros Hn (Hlen & rest & Hsrc). rw Hsrc.
  apply write_utf8_string_emits; [done|done|]. by rw take_app_length.
Qed.
#[export] Hint Resolve emits_ret write_char_emits write_uint_16_emits designates_emits : iot.

Lemma designates_payload_emits src p n bs payload :
  designates src p n bs -> src p = Some payload ->
  emits (if decide (n <= Z.of_nat (length payload)) then
           p ← gets cur_ptr; _ ← store_bytes p (take (Z.to_nat n) payload); advance (Z.to_nat n)
         else raise (Fault OobRead)) bs tt.
Proof.
  intros (-> & rest & Hsrc) Hp. simplify_eq.
  rw decide_True; [|rw length_app; lia]. rw Nat2Z.id take_app_length.
  intros pre old post Hlen. erewrite bind_run; [|done].
  erewrite bind_run; [|by apply store_bytes_emits]. done.
Qed.

(** What a serializer does with a buffer: it refuses, leaving it untouched, when the
    packet might not fit, and otherwise writes exactly the packet at its start. *)
Definition ser_spec (buf : list Z) (l0 header : Z) (body : list Z) : ser_out :=
  if decide (aws_iot_mqtt_internal_get_final_packet_length_from_remaining_length
               (Z.of_nat (length body)) > Z.of_nat (length buf))
  then SerOut MQTT_TX_BUFFER_TOO_SHORT_ERROR (Some buf) (Some l0)
  else SerOut SUCCESS (Some (frame header body ++ drop (length (frame header body)) buf))
         (Some (Z.of_nat (length (frame header body)))).

Lemma ser_spec_run buf l0 header body n k w :
  Z.of_nat (length buf) <= 2 ^ 28 -> Z.of_nat (length body) < 2 ^ 32 - 8 ->
  n = Z.of_nat (length body) -> emits k body tt -> (forall z, is_u32 z -> w z = z) ->
  (if decide (aws_iot_mqtt_internal_get_final_packet_length_from_remaining_length n >
              Z.of_nat (length buf))
   then Ret (SerOut MQTT_TX_BUFFER_TOO_SHORT_ERROR (Some buf) (Some l0))
   else run_serializer buf
          (_ ← aws_iot_mqtt_internal_write_char header; _ ← write_remaining_length n; k) w) =
  Ret (ser_spec buf l0 header body).
Proof.
  intros Hsize Hbody -> Hk Hw. rw /ser_spec. case_decide as Hfit; [done|].
  destruct (frame_fits header body buf _ eq_refl Hsize Hbody Hfit) as [Hlen Hsmall].
  erewrite run_serializer_spec; [|apply emits_frame; [done|width|done]|done].
  rw Hw //. width.
Qed.

(** What the arguments of a publish designate. *)
Record publish_args (src : source) (qos id : Z) (pTopicName : ptr) (topicNameLen : Z)
    (pPayload : ptr) (payloadLen : Z) (topic payload : list Z) : Prop := {
  pa_topic : designates src pTopicName topicNameLen topic;
  pa_topicLen : is_u16 topicNameLen;
  pa_payload : designates src pPayload payloadLen payload;
  pa_payloadLen : payloadLen < 2 ^ 31;
  pa_notnull : pPayload <> NULL;
  pa_qos : qos = QOS0 \/ qos = QOS1;
  pa_id : is_u16 id }.

Lemma serialize_publish_spec src buf dup qos ret id pT tl pP pl topic payload l0 :
  Z.of_nat (length buf) <= 2 ^ 28 -> 0 <= dup <= 1 -> 0 <= ret <= 1 ->
  publish_args src qos id pT tl pP pl topic payload ->
  _aws_iot_mqtt_internal_serialize_publish src (Some buf) (Z.of_nat (length buf))
    dup qos ret id pT tl pP pl (Some l0) =
  Ret (ser_spec buf l0 (header_byte 3 qos dup ret) (publish_body qos id topic payload)).
Proof.
  intros Hsize Hdup Hret [Htopic Htl Hpay Hpl Hnn Hqos Hid].
  rw /_aws_iot_mqtt_internal_serialize_publish decide_False // init_header_spec //.
  assert ((if qos =? 1 then 1 else 0) = qos) as -> by (by destruct Hqos as [-> | ->]).
  assert ((if dup =? 1 then 1 else 0) = dup) as -> by (destruct (Z.eqb_spec dup 1); lia).
  assert ((if ret =? 1 then 1 else 0) = ret) as -> by (destruct (Z.eqb_spec ret 1); lia).
  rc_simpl. destruct Hpay as (Hplen & rest & Hsrc). rw Hsrc. change (default 0 (Some ?x)) with x.
  set (body := publish_body qos id topic payload).
  destruct Htopic as (Htlen & trest & Htsrc).
  assert (Hn : (if decide (qos > 0) then u32 (u32 (size_t (tl + pl + 2)) + 2)
                else u32 (size_t (tl + pl + 2))) = Z.of_nat (length body)).
  { rw (size_t_small (tl + pl + 2)); [|width]. rw (u32_small (tl + pl + 2)); [|width].
    subst body. rw /publish_body length_app length_utf8_bytes length_app.
    case_decide; rw ?length_uint16_bytes /=; [rw u32_small; width|lia]. }
  rw Hn. apply (ser_spec_run buf l0 _ body); [done| |done| |by apply u32_small].
  { rw -Hn. case_decide; [|rw (size_t_small (tl + pl + 2)); [|width]];
      rw ?(size_t_small (tl + pl + 2)); try width;
      rw ?(u32_small (tl + pl + 2)); try width. rw u32_small; width. }
  subst body. rw /publish_body.
  eapply emits_bind; [apply designates_emits; [done|by split; eauto]|].
  eapply emits_bind; [by case_decide; auto with iot|].
  eapply designates_payload_emits; [split; eauto|done].
Qed.

Lemma serialize_zero_spec buf t l0 : t <> UNKNOWN -> 4 <= Z.of_nat (length buf) ->
  aws_iot_mqtt_internal_serialize_zero (Some buf) (Z.of_nat (length buf)) t (Some l0) =
  Ret (SerOut SUCCESS (Some (zero_packet t ++ drop 2 buf)) (Some 2)).
Proof.
  intros Ht Hlen. rw /aws_iot_mqtt_internal_serialize_zero.
  rw decide_False; [|lia]. rw init_header_spec //. rc_simpl.
  erewrite (run_serializer_spec _ _ _ (zero_packet t)); [done| |simpl; lia].
  eapply emits_bind with (bs := [_]); [apply write_char_emits|].
  by apply (write_remaining_length_emits 0).
Qed.

Lemma serialize_ack_spec buf t dup id l0 : t <> UNKNOWN -> 4 <= Z.of_nat (length buf) ->
  0 <= dup <= 1 -> is_u16 id ->
  aws_iot_mqtt_internal_serialize_ack (Some buf) (Z.of_nat (length buf)) t dup id (Some l0) =
  Ret (SerOut SUCCESS (Some (ack_packet t dup id ++ drop 4 buf)) (Some 4)).
Proof.
  intros Ht Hlen Hdup Hid. rw /aws_iot_mqtt_internal_serialize_ack.
  rw decide_False; [|lia]. rw init_header_spec //. rc_simpl.
  erewrite (run_serializer_spec _ _ _ (ack_packet t dup id)); [done| |simpl; lia].
  assert ((if dup =? 1 then 1 else 0) = dup) as -> by (destruct (Z.eqb_spec dup 1); lia).
  rw /ack_packet. repeat case_decide; simplify_eq; apply emits_frame; by auto with iot.
Qed.

(** How the connect parameters represent the content of a CONNECT packet. *)
Definition string_arg (src : source) (p : ptr) (n : Z) (s : list Z) : Prop :=
  is_u16 n /\ designates src p n s.
Definition optional_arg (src : source) (p : ptr) (n : Z) (o : option (list Z)) : Prop :=
  match o with None => p = NULL | Some s => p <> NULL /\ string_arg src p n s end.

Record connect_args (src : source) (p : IoT_Client_Connect_Params) (m : connect_msg) : Prop := {
  ca_version : MQTTVersion p = MQTT_3_1_1;
  ca_clean : isCleanSession p = cm_cleanSession m;
  ca_keepAlive : keepAliveIntervalInSec p = cm_keepAlive m;
  ca_keepAlive16 : is_u16 (cm_keepAlive m);
  ca_clientId : pClientID p = NULL /\ clientIDLen p = 0 /\ cm_clientId m = [] \/
                pClientID p <> NULL /\ clientIDLen p <> 0 /\
                string_arg src (pClientID p) (clientIDLen p) (cm_clientId m);
  ca_will : match cm_will m with
            | None => isWillMsgPresent p = false
            | Some (t, w, r, q) =>
                isWillMsgPresent p = true /\ will_isRetained (will p) = r /\
                will_qos (will p) = q /\ 0 <= q < 4 /\
                string_arg src (will_pTopicName (will p)) (will_topicNameLen (will p)) t /\
                string_arg src (will_pMessage (will p)) (will_msgLen (will p)) w
            end;
  ca_username : optional_arg src (pUsername p) (usernameLen p) (cm_username m);
  ca_password : optional_arg src (pPassword p) (passwordLen p) (cm_password m) }.

Lemma optional_arg_null src p n o : optional_arg src p n o ->
  bool_decide (p <> NULL) = bool_decide (is_Some o).
Proof.
  intros Ho. apply bool_decide_ext. destruct o as [s|]; simpl in *.
  - destruct Ho as [? _]. split; [by eauto|done].
  - subst. split; [done|by intros [? ?]].
Qed.

Lemma connect_flags_spec src p m : connect_args src p m -> connect_flags p = connect_flags_byte m.
Proof.
  intros [_ Hclean _ _ _ Hwill Huser Hpass]. rw /connect_flags /connect_flags_byte.
  rw -(optional_arg_null _ _ _ _ Huser) -(optional_arg_null _ _ _ _ Hpass) Hclean.
  rw !bool_decide_decide.
  destruct (cm_will m) as [[[[t w] r] q]|].
  - destruct Hwill as (-> & -> & -> & Hq & _).
    assert (q = 0 \/ q = 1 \/ q = 2 \/ q = 3) as Hqs by lia.
    repeat case_decide; destruct Hqs as [-> | [-> | [-> | ->]]], (cm_cleanSession m), r; done.
  - rw Hwill. repeat case_decide; by destruct (cm_cleanSession m).
Qed.

Lemma connect_flags_bits m :
  0 <= match cm_will m with None => 0 | Some (_, _, _, q) => q end < 4 ->
  bf_get 7 1 (connect_flags_byte m) = b2z (bool_decide (is_Some (cm_username m))) /\
  bf_get 6 1 (connect_flags_byte m) = b2z (bool_decide (is_Some (cm_password m))) /\
  is_u8 (connect_flags_byte m).
Proof.
  intros Hq. rw /connect_flags_byte.
  destruct (bool_decide (is_Some (cm_username m))), (bool_decide (is_Some (cm_password m))),
    (cm_cleanSession m), (cm_will m) as [[[[t w] r] q]|]; try (by repeat split);
    (assert (q = 0 \/ q = 1 \/ q = 2 \/ q = 3) as Hqs by lia);
    destruct Hqs as [-> | [-> | [-> | ->]]], r; by repeat split.
Qed.

Lemma connect_packet_length_spec src p m : connect_args src p m ->
  _aws_iot_get_connect_packet_length p = Z.of_nat (length (connect_body m)) /\
  Z.of_nat (length (connect_body m)) < 2 ^ 20.
Proof.
  intros [_ _ _ _ Hcid Hwill Huser Hpass].
  assert (Hc : clientIDLen p = Z.of_nat (length (cm_clientId m)) /\ is_u16 (clientIDLen p)).
  { destruct Hcid as [(_ & -> & ->)|(_ & _ & ? & ? & _)]; [split; [done|width]|done]. }
  destruct Hc as [Hc Hc16].
  rw /_aws_iot_get_connect_packet_length /connect_body.
  rw length_app length_utf8_bytes length_app length_app length_uint16_bytes
    length_app length_utf8_bytes length_app length_app.
  rw (u32_small (10 + clientIDLen p + 2)); [|width].
  assert (Hw : match cm_will m with None => isWillMsgPresent p = false
               | Some (t, w, _, _) => isWillMsgPresent p = true /\
                   will_topicNameLen (will p) = Z.of_nat (length t) /\ is_u16 (will_topicNameLen (will p)) /\
                   will_msgLen (will p) = Z.of_nat (length w) /\ is_u16 (will_msgLen (will p)) end).
  { destruct (cm_will m) as [[[[t w] r] q]|]; [|done].
    destruct Hwill as (? & _ & _ & _ & (? & ? & _) & (? & ? & _)). done. }
  clear Hwill Hcid.
  destruct (cm_username m) as [u|], (cm_password m) as [pw|]; simpl in Huser, Hpass;
    repeat match goal with
    | H : _ /\ string_arg _ _ _ _ |- _ => destruct H as (? & ? & ? & _)
    end;
    (destruct (cm_will m) as [[[[t w] r] q]|]; [destruct Hw as (-> & ? & ? & ? & ?)|rw Hw]);
    repeat case_decide; try done; simpl; rw ?length_app ?length_utf8_bytes ?length_uint16_bytes;
    u32_norm; width.
Qed.

Lemma serialize_connect_spec src buf p m l0 :
  Z.of_nat (length buf) <= 2 ^ 28 -> connect_args src p m ->
  _aws_iot_mqtt_serialize_connect src (Some buf) (Z.of_nat (length buf)) (Some p) (Some l0) =
  Ret (ser_spec buf l0 (header_byte 1 0 0 0) (connect_body m)).
Proof.
  intros Hsize Hargs. pose proof (connect_packet_length_spec _ _ _ Hargs) as [Hlen Hshort].
  pose proof (connect_flags_spec _ _ _ Hargs) as Hflags.
  destruct Hargs as [Hver Hclean Hka Hka16 Hcid Hwill Huser Hpass].
  rw /_aws_iot_mqtt_serialize_connect decide_False; [|destruct Hcid; intuition congruence].
  rw decide_False; [|destruct Hcid; intuition congruence].
  rw decide_False; [|by intros []]. rw init_header_spec //. rc_simpl.
  change (default 0 (Some ?x)) with x. rw Hlen.
  apply (ser_spec_run buf l0 _ (connect_body m)); [done|lia|done| |].
  2:{ intros z Hz. apply size_t_small. auto with width. }
  destruct (connect_flags_bits m) as (Hb7 & Hb6 & Hb8).
  { destruct (cm_will m) as [[[[t w] r] q]|]; [tauto|lia]. }
  rw Hflags. cbv zeta. rw Hb7 Hb6 Hver /connect_body.
  eapply emits_bind; [by apply (write_utf8_string_emits mqtt_name)|].
  eapply emits_bind with (bs := [4]); [apply write_char_emits|].
  eapply emits_bind with (bs := [_]); [apply write_char_emits|].
  eapply emits_bind; [rw Hka; by apply write_uint_16_emits|].
  eapply emits_bind.
  { destruct Hcid as [(-> & _ & ->)|(Hnn & _ & ? & ?)].
    - case_decide; [|done]. by apply (write_uint_16_emits 0).
    - case_decide; [done|]. by apply designates_emits. }
  eapply emits_bind.
  { destruct (cm_will m) as [[[[t w] r] q]|].
    - destruct Hwill as (-> & _ & _ & _ & [] & []).
      eapply emits_bind; by apply designates_emits.
    - rw Hwill. apply emits_ret. }
  eapply emits_bind.
  { destruct (cm_username m) as [u|]; simpl in *.
    - destruct Huser as (_ & ? & ?). by apply designates_emits.
    - apply emits_ret. }
  destruct (cm_password m) as [pw|]; simpl in *.
  - destruct Hpass as (_ & ? & ?). by apply designates_emits.
  - apply emits_ret.
Qed.

(** How the parallel arrays of a subscribe call represent the requested
    subscriptions, and those of an unsubscribe call the topic filters. *)
Definition subscribe_args (src : source) : list subscription -> list (list Z * QoS) -> Prop :=
  Forall2 (fun t m => string_arg src (sub_topic t) (sub_topicLen t) m.1 /\
                      sub_qos t = m.2 /\ is_u8 m.2).
Definition unsubscribe_args (src : source) : list (ptr * Z) -> list (list Z) -> Prop :=
  Forall2 (fun t m => string_arg src t.1 t.2 m).

Lemma subscribe_rem_len_spec src topics ms acc :
  subscribe_args src topics ms -> 0 <= acc ->
  acc + Z.of_nat (length (flat_map topic_entry_bytes ms)) < 2 ^ 32 ->
  foldl (fun rem_len t => u32 (rem_len + u32 (sub_topicLen t + 2 + 1))) acc topics =
  acc + Z.of_nat (length (flat_map topic_entry_bytes ms)).
Proof.
  intros Hargs. revert acc. induction Hargs as [|t m topics ms Ht _ IH]; intros acc Hacc Hlen.
  { simpl in *. lia. }
  cbn [foldl flat_map] in *.
  destruct Ht as ((Ht16 & Htl & _) & _ & _).
  rw length_app {1}/topic_entry_bytes length_app length_utf8_bytes in Hlen. cbn [length] in Hlen.
  rw length_app {1}/topic_entry_bytes length_app length_utf8_bytes. cbn [length].
  rw (u32_small (sub_topicLen t + 2 + 1)); [|width]. rw u32_small; [|width].
  rw IH; lia.
Qed.

Lemma serialize_subscribe_topics_emits src topics ms :
  subscribe_args src topics ms ->
  emits (serialize_subscribe_topics src topics)
    (flat_map topic_entry_bytes ms) tt.
Proof.
  induction 1 as [|t m topics ms ((? & ?) & Hq & Hu) _ IH];
    cbn [flat_map serialize_subscribe_topics]; [apply emits_ret|].
  rw Hq u8_small // {1}/topic_entry_bytes -app_assoc. eapply emits_bind; [by apply designates_emits|].
  by apply (emits_bind _ _ [m.2] _ tt); [apply write_char_emits|].
Qed.

Lemma serialize_subscribe_spec src buf dup id topics ms l0 :
  Z.of_nat (length buf) <= 2 ^ 28 -> 0 <= dup <= 1 -> is_u16 id ->
  subscribe_args src topics ms -> Z.of_nat (length (subscribe_body id ms)) < 2 ^ 32 - 8 ->
  _aws_iot_mqtt_serialize_subscribe src (Some buf) (Z.of_nat (length buf)) dup id topics (Some l0) =
  Ret (ser_spec buf l0 (header_byte 8 1 dup 0) (subscribe_body id ms)).
Proof.
  intros Hsize Hdup Hid Hargs Hlen. rw /_aws_iot_mqtt_serialize_subscribe init_header_spec //.
  assert ((if dup =? 1 then 1 else 0) = dup) as -> by (destruct (Z.eqb_spec dup 1); lia).
  rc_simpl. apply ser_spec_run; [done|done| | |by apply u32_small].
  - rw /subscribe_rem_len. move: Hlen. rw /subscribe_body length_app length_uint16_bytes. intros Hlen.
    rw (subscribe_rem_len_spec src _ ms); [lia|done|lia|lia].
  - eapply emits_bind; [by apply write_uint_16_emits|by apply serialize_subscribe_topics_emits].
Qed.

Lemma unsubscribe_rem_len_spec src topics ms acc :
  unsubscribe_args src topics ms -> 0 <= acc ->
  acc + Z.of_nat (length (flat_map utf8_bytes ms)) < 2 ^ 32 ->
  foldl (fun rem_len (t : ptr * Z) => u32 (rem_len + u32 (t.2 + 2))) acc topics =
  acc + Z.of_nat (length (flat_map utf8_bytes ms)).
Proof.
  intros Hargs. revert acc. induction Hargs as [|t m topics ms Ht _ IH]; intros acc Hacc Hlen.
  { simpl in *. lia. }
  cbn [foldl flat_map] in *.
  destruct Ht as (Ht16 & Htl & _).
  rw length_app length_utf8_bytes in Hlen. rw length_app length_utf8_bytes.
  rw (u32_small (t.2 + 2)); [|width]. rw u32_small; [|width]. rw IH; lia.
Qed.

Lemma serialize_unsubscribe_topics_emits src topics ms :
  unsubscribe_args src topics ms ->
  emits (serialize_unsubscribe_topics src topics) (flat_map utf8_bytes ms) tt.
Proof.
  induction 1 as [|[p n] m topics ms (? & ?) _ IH]; cbn [flat_map]; [apply emits_ret|].
  eapply emits_bind; [by apply designates_emits|done].
Qed.

Lemma serialize_unsubscribe_spec src buf dup id topics ms l0 :
  Z.of_nat (length buf) <= 2 ^ 28 -> 0 <= dup <= 1 -> is_u16 id ->
  unsubscribe_args src topics ms -> Z.of_nat (length (unsubscribe_body id ms)) < 2 ^ 32 - 8 ->
  _aws_iot_mqtt_serialize_unsubscribe src buf (Z.of_nat (length buf)) dup id topics l0 =
  Ret (ser_spec buf l0 (header_byte 10 1 dup 0) (unsubscribe_body id ms)).
Proof.
  intros Hsize Hdup Hid Hargs Hlen. rw /_aws_iot_mqtt_serialize_unsubscribe init_header_spec //.
  assert ((if dup =? 1 then 1 else 0) = dup) as -> by (destruct (Z.eqb_spec dup 1); lia).
  rc_simpl. apply ser_spec_run; [done|done| | |by apply u32_small].
  - rw /unsubscribe_rem_len. move: Hlen. rw /unsubscribe_body length_app length_uint16_bytes. intros Hlen.
    rw (unsubscribe_rem_len_spec src _ ms); [lia|done|lia|lia].
  - eapply emits_bind; [by apply write_uint_16_emits|by apply serialize_unsubscribe_topics_emits].
Qed.

(** ** Reading packets back *)

Lemma frame_app h body post :
  frame h body ++ post =
  (h :: remaining_length_bytes (Z.of_nat (length body))) ++ body ++ post.
Proof. by rw /frame /= -app_assoc. Qed.

(** The first steps of every deserializer on a well-formed frame: the header byte,
    the remaining length and the move of the pointer to the body. *)
Lemma read_frame_header {A} h body post (k : Z -> M cursor A) :
  (header ← aws_iot_mqtt_internal_read_char; k header) (Cursor (frame h body ++ post) 0) =
  k h (Cursor ([h] ++ remaining_length_bytes (Z.of_nat (length body)) ++ body ++ post) 1).
Proof.
  rw /frame /= -app_assoc. erewrite bind_run; [|apply (read_char_reads h [])]. done.
Qed.

Lemma read_frame_length {A} h body post r0 (k : IoT_Error_t * Z * Z -> M cursor A) :
  Z.of_nat (length body) < 2 ^ 28 ->
  let rl := remaining_length_bytes (Z.of_nat (length body)) in
  (r ← aws_iot_mqtt_internal_decode_remaining_length_from_buffer r0; k r)
    (Cursor ([h] ++ rl ++ body ++ post) 1) =
  k (SUCCESS, Z.of_nat (length body), Z.of_nat (length rl)) (Cursor ([h] ++ rl ++ body ++ post) 1).
Proof.
  intros Hlen rl. erewrite bind_run; [|apply (decode_remaining_length_spec _ r0 [h])]; [done|lia].
Qed.

Lemma advance_frame {A} h rl body post (k : unit -> M cursor A) :
  (u ← advance (Z.to_nat (Z.of_nat (length rl))); k u) (Cursor ([h] ++ rl ++ body ++ post) 1) =
  k tt (Cursor ((h :: rl) ++ body ++ post) (length (h :: rl))).
Proof. rw Nat2Z.id. by erewrite bind_run. Qed.

Lemma deserialize_ack_spec t dup qos id post l o :
  0 <= t < 16 -> 0 <= qos < 4 -> 0 <= dup < 2 -> is_u16 id -> 4 <= l ->
  aws_iot_mqtt_internal_deserialize_ack true o
    (Some (frame (header_byte t qos dup 0) (uint16_bytes id) ++ post)) l =
  Ret (SUCCESS, AckOut t dup id).
Proof.
  intros Ht Hq Hd Hid Hl. rw /aws_iot_mqtt_internal_deserialize_ack decide_False; [|lia].
  destruct (header_byte_fields t qos dup 0) as (Htype & _ & Hdup & _); [lia..|].
  rw /run_deserializer read_frame_header Htype Hdup read_frame_length; [|done].
  rc_simpl. rw advance_frame.
  erewrite bind_run; [|by apply read_uint16_t_reads]. done.
Qed.

Lemma deserialize_connack_spec flags c post l o : 4 <= l ->
  _aws_iot_mqtt_deserialize_connack true o (Some (connack_packet flags c ++ post)) l =
  Ret (SUCCESS, ConnackOut (bf_get 7 1 flags) (connack_return_code c)).
Proof.
  intros Hl. rw /_aws_iot_mqtt_deserialize_connack decide_False; [|lia].
  reflexivity.
Qed.

(** The code of a CONNACK packet that was decoded comes from a byte of it; no byte
    gives [SUCCESS]. *)
Lemma deserialize_connack_code o buf l o' :
  _aws_iot_mqtt_deserialize_connack true o (Some buf) l = Ret (SUCCESS, o') ->
  exists c, co_connackRc o' = connack_return_code c.
Proof.
  rw /_aws_iot_mqtt_deserialize_connack. case_decide; [done|]. rw /run_deserializer. intros Hrun.
  match type of Hrun with (mbind _ ?x) = _ => destruct x as [[r cur]|] eqn:Hbody; [|done] end.
  injection Hrun as ->. apply bind_inv in Hbody as (h & c1 & _ & Hbody). case_decide; [done|].
  apply bind_inv in Hbody as ([[rc dl] rl] & c2 & _ & Hbody). case_decide as Hrc; [by injection Hbody as -> _ _|].
  apply bind_inv in Hbody as (u & c3 & _ & Hbody). case_decide; [done|].
  apply bind_inv in Hbody as (f & c4 & _ & Hbody). apply bind_inv in Hbody as (b & c5 & _ & Hbody).
  injection Hbody as <- _. by exists b.
Qed.

Lemma connack_return_code_nonzero c : connack_return_code c <> SUCCESS.
Proof. rw /connack_return_code. by repeat case_match. Qed.

Lemma read_string_with_len_spec s0 n0 pre s rest enddata :
  Z.of_nat (length s) < 2 ^ 16 -> (length pre + 2 + length s <= enddata)%nat ->
  _aws_iot_mqtt_read_string_with_len s0 n0 enddata
    (Cursor (pre ++ utf8_bytes s ++ rest) (length pre)) =
  Ret ((SUCCESS, RxBuf (length pre + 2), Z.of_nat (length s)),
       Cursor (pre ++ utf8_bytes s ++ rest) (length pre + length (utf8_bytes s))).
Proof.
  intros Hs Hend. rw /_aws_iot_mqtt_read_string_with_len.
  erewrite bind_run; [|done]. cbn [cur_ptr]. rw decide_True; [|lia].
  rw {1}/utf8_bytes -app_assoc.
  erewrite bind_run; [|apply read_uint16_t_reads; width].
  erewrite bind_run; [|done]. cbn [cur_ptr]. rw length_uint16_bytes Nat2Z.id.
  rw decide_True; [|lia]. erewrite bind_run; [|done]. cbn [cur_buf cur_ptr].
  rw /mret /M_ret length_utf8_bytes. do 3 f_equal. lia.
Qed.

Lemma mem_bytes_at mem pre bs post buf off n :
  buf = pre ++ bs ++ post -> off = length pre -> n = length bs ->
  mem_bytes mem buf (RxBuf off) n = Some bs.
Proof.
  intros -> -> ->. rw /mem_bytes /deref decide_True; [|rw length_app; lia]. simpl.
  rw drop_app_length decide_True; [|rw length_app; lia]. by rw take_app_length.
Qed.

Lemma publish_out_eq dup qos ret id t t' tl p p' pl pl' :
  t = t' -> p = p' -> pl = pl' ->
  PublishOut dup qos ret id (RxBuf t) tl (RxBuf p) pl =
  PublishOut dup qos ret id (RxBuf t') tl (RxBuf p') pl'.
Proof. congruence. Qed.

Lemma deserialize_publish_spec dup qos ret id topic payload post l o :
  0 <= dup < 2 -> 0 <= qos < 4 -> 0 <= ret < 2 -> is_u16 id ->
  Z.of_nat (length topic) < 2 ^ 16 -> 4 <= l ->
  Z.of_nat (length (publish_body qos id topic payload)) < 2 ^ 28 ->
  let rl := length (remaining_length_bytes (Z.of_nat (length (publish_body qos id topic payload)))) in
  let t_off := (1 + rl + 2)%nat in
  let p_off := (t_off + length topic + (if decide (qos > 0)%Z then 2 else 0))%nat in
  aws_iot_mqtt_internal_deserialize_publish true o
    (frame (header_byte 3 qos dup ret) (publish_body qos id topic payload) ++ post) l =
  Ret (SUCCESS, PublishOut dup qos ret (if decide (qos > 0) then id else po_packetId o)
                  (RxBuf t_off) (Z.of_nat (length topic)) (RxBuf p_off) (Z.of_nat (length payload))).
Proof.
  intros Hd Hq Hr Hid Ht Hl Hbody. cbv zeta.
  rw /aws_iot_mqtt_internal_deserialize_publish decide_False; [|lia].
  destruct (header_byte_fields 3 qos dup ret) as (Htype & Hqos & Hdup & Hret & _); [lia..|].
  rw /negb /run_deserializer read_frame_header Htype Hdup Hqos Hret. change (MessageTypes_val PUBLISH) with 3. rc_simpl.
  rw read_frame_length //. rc_simpl. rw advance_frame.
  set (rl := remaining_length_bytes _). set (h := header_byte _ _ _ _).
  erewrite bind_run; [|done]. cbn [cur_ptr].
  rw Nat2Z.id. set (mid := if decide (qos > 0) then uint16_bytes id else []).
  assert (length (publish_body qos id topic payload) =
          (2 + length topic + length mid + length payload)%nat) as ->.
  { rw /publish_body length_app length_utf8_bytes length_app -/mid. lia. }
  assert (publish_body qos id topic payload ++ post = utf8_bytes topic ++ mid ++ payload ++ post) as ->.
  { by rw /publish_body -app_assoc -app_assoc. }
  erewrite bind_run; [|apply read_string_with_len_spec; [done|lia]].
  cbn [po_dup po_qos po_retained po_packetId po_payload po_payloadLen].
  erewrite bind_run; [|done]. cbn [cur_ptr]. rw length_utf8_bytes.
  rw decide_False; [|intros [[]|]; [done|lia]].
  assert (Hread : (if decide (QOS0 <> qos) then aws_iot_mqtt_internal_read_uint16_t
                   else mret (po_packetId o))
            (Cursor (((h :: rl) ++ utf8_bytes topic) ++ mid ++ payload ++ post)
               (length ((h :: rl) ++ utf8_bytes topic))) =
          Ret (if decide (qos > 0) then id else po_packetId o,
            Cursor (((h :: rl) ++ utf8_bytes topic) ++ mid ++ payload ++ post)
               (length ((h :: rl) ++ utf8_bytes topic) + length mid))).
  { subst mid. assert (QOS0 <> qos <-> qos > 0) as Hiff by (unfold QOS0, QoS; lia).
    destruct (decide (QOS0 <> qos)), (decide (qos > 0)); try tauto; [by apply read_uint16_t_reads|by apply (reads_ret (po_packetId o))]. }
  rw length_app length_utf8_bytes -app_assoc in Hread.
  erewrite bind_run; [|apply Hread]. erewrite bind_run; [|done]. cbn [cur_ptr].
  rw /mret /M_ret /mbind /outcome_bind. rw size_t_small; [|move: Hbody; rw /publish_body !length_app; width].
  assert (Hmid : length mid = if decide (qos > 0) then 2%nat else 0%nat) by (subst mid; by destruct (decide (qos > 0))).
  rw Hmid. cbn [length]. do 2 f_equal. apply publish_out_eq; lia.
Qed.

(** The SUBACK loop on the granted bytes [g], after [w] of them have been stored. *)
Lemma suback_loop_spec g : forall fuel m id w rest pre post,
  (length g <= fuel)%nat -> 0 <= m < 2 ^ 31 -> Z.of_nat (length w) <= m + 1 ->
  m + 1 <= Z.of_nat (length (w ++ rest)) ->
  exists c',
  suback_loop fuel (length pre + length g) m (SubackOut id (Z.of_nat (length w)) (w ++ rest))
    (Cursor (pre ++ g ++ post) (length pre)) =
  if decide (Z.of_nat (length w + length g) <= m + 1)
  then Ret ((SUCCESS, SubackOut id (Z.of_nat (length w + length g)) (w ++ g ++ drop (length g) rest)), c')
  else Ret ((FAILURE, SubackOut id (m + 1)
              (w ++ take (Z.to_nat (m + 1) - length w) g ++ drop (Z.to_nat (m + 1) - length w) rest)), c').
Proof.
  induction g as [|q g IH]; intros fuel m id w rest pre post Hf Hm Hw Hroom; cbn [length] in *.
  - exists (Cursor (pre ++ post) (length pre)).
    rw !Nat.add_0_r. destruct (decide _) as [_|Hbad]; [|lia].
    rw drop_0 /=. destruct fuel; cbn [suback_loop];
      (erewrite bind_run; [|done]); cbn [cur_ptr]; case_decide; done || lia.
  - destruct fuel as [|fuel]; [lia|]. cbn [suback_loop].
    erewrite bind_run; [|done]. cbn [cur_ptr]. rw decide_True; [|lia]. cbn [sa_count].
    destruct (decide (Z.of_nat (length w) > m)) as [Hfull|Hmore].
    { eexists. destruct (decide _) as [Hbad|_]; [lia|].
      replace (Z.to_nat (m + 1) - length w)%nat with 0%nat by lia.
      rw take_0 drop_0 /=. by replace (m + 1) with (Z.of_nat (length w)) by lia. }
    change (q :: g) with ([q] ++ g). rw -app_assoc.
    erewrite bind_run; [|apply read_char_reads]. cbn [sa_count sa_packetId sa_grantedQoSs].
    rw decide_True; [|lia]. rw Nat2Z.id u32_small; [|width].
    destruct rest as [|r rest]; [rw app_nil_r in Hroom; lia|].
    rw insert_app_r_alt // Nat.sub_diag. cbn [list_insert insert].
    destruct (IH fuel m id (w ++ [q]) rest (pre ++ [q]) post) as [c' IH'];
      [lia|done|rw length_app /=; lia|move: Hroom; rw !length_app /=; lia|].
    exists c'. move: IH'. rw !length_app /= -!app_assoc /=.
    replace (Z.of_nat (length w) + 1) with (Z.of_nat (length w + 1)) by lia.
    replace (length pre + S (length g))%nat with (length pre + 1 + length g)%nat by lia.
    replace (length w + S (length g))%nat with (length w + 1 + length g)%nat by lia.
    intros Heq. etrans; [exact Heq|]. destruct (decide _) as [Hfit|Hno]; [done|].
    assert (Hk : (Z.to_nat (m + 1) - length w = S (Z.to_nat (m + 1) - (length w + 1)))%nat) by lia.
    by rw Hk.
Qed.

(** SUBACK packets: as many granted bytes as the caller allows (one more than
    [maxExpectedQoSCount]) are stored, a longer packet is refused. *)
Lemma deserialize_suback_spec id granted qoss m post l o :
  is_u16 id -> 0 <= m < 2 ^ 31 -> m + 1 <= Z.of_nat (length qoss) -> 5 <= l ->
  Z.of_nat (length granted) < 2 ^ 28 - 2 -> sa_grantedQoSs o = qoss ->
  exists o',
  _aws_iot_mqtt_deserialize_suback true m o (suback_packet id granted ++ post) l =
  Ret (if decide (Z.of_nat (length granted) <= m + 1) then SUCCESS else FAILURE, o') /\
  sa_packetId o' = id /\ length (sa_grantedQoSs o') = length qoss /\
  (Z.of_nat (length granted) <= m + 1 ->
   sa_count o' = Z.of_nat (length granted) /\
   sa_grantedQoSs o' = granted ++ drop (length granted) qoss).
Proof.
  intros Hid Hm Hroom Hl Hg Ho. rw /_aws_iot_mqtt_deserialize_suback decide_False; [|lia].
  set (body := uint16_bytes id ++ granted).
  assert (Hb : length body = (2 + length granted)%nat) by (by subst body; rw length_app).
  rw /negb /run_deserializer /suback_packet -/body read_frame_header.
  change (MessageTypes_val SUBACK) with (hdr_type (header_byte 9 0 0 0)). rc_simpl.
  rw read_frame_length; [|lia]. rc_simpl. rw advance_frame.
  set (h := header_byte _ _ _ _). set (rl := remaining_length_bytes _).
  erewrite bind_run; [|done]. cbn [cur_ptr]. rw Nat2Z.id decide_False; [|lia].
  subst body. rw -app_assoc. erewrite bind_run; [|by apply read_uint16_t_reads].
  destruct (suback_loop_spec granted (length (uint16_bytes id ++ granted)) m id [] qoss
              ((h :: rl) ++ uint16_bytes id) post) as [c' Hloop];
    [lia|done|simpl; lia|done|].
  rw -app_assoc !length_app length_uint16_bytes in Hloop.
  rw length_app length_uint16_bytes Ho.
  replace (length (h :: rl) + 2 + length granted)%nat
    with (length (h :: rl) + (2 + length granted))%nat in Hloop by lia.
  change (SubackOut id 0 qoss) with (SubackOut id (Z.of_nat (length (A:=Z) [])) ([] ++ qoss)).
  rw Hloop Nat.add_0_l Nat.sub_0_r.
  clear Hloop. destruct (decide (Z.of_nat (length granted) <= m + 1)) as [Hfit|Hno]; (eexists; split; [reflexivity|]); cbn [sa_packetId sa_grantedQoSs sa_count];
    (split; [done|]); (split; [|intros; try done]).
  - cbn [app]. rw length_app length_drop. unfold QoS in *. lia.
  - cbn [app]. rw length_app length_take length_drop. unfold QoS in *. lia.
Qed.

(** ** Reading arbitrary bytes *)

Lemma wp_read_char E (Q : Z -> cursor -> Prop) c :
  (cur_ptr c < length (cur_buf c))%nat ->
  (forall b, cur_buf c !! cur_ptr c = Some b -> Q b (Cursor (cur_buf c) (cur_ptr c + 1))) ->
  wp E aws_iot_mqtt_internal_read_char Q c.
Proof.
  intros Hlt HQ. rw /aws_iot_mqtt_internal_read_char. wp_steps.
  apply wp_load; [done|]. intros b Hb. wp_steps. apply wp_advance. wp_steps. by apply HQ.
Qed.

Lemma wp_read_uint16_t E (Q : Z -> cursor -> Prop) c :
  (cur_ptr c + 2 <= length (cur_buf c))%nat ->
  (forall n, is_u16 n -> Q n (Cursor (cur_buf c) (cur_ptr c + 2))) ->
  wp E aws_iot_mqtt_internal_read_uint16_t Q c.
Proof.
  intros Hlt HQ. rw /aws_iot_mqtt_internal_read_uint16_t. wp_steps.
  apply wp_load; [lia|]. intros b1 _. wp_steps. apply wp_load; [lia|]. intros b2 _. wp_steps.
  apply wp_advance. wp_steps. apply HQ, u16_range.
Qed.

(** The packet announced by the length field at offset 1 ends, with [slack] more
    bytes, inside the buffer. *)
Definition packet_inside (buf : list Z) (slack : Z) : Prop :=
  forall d n c, aws_iot_mqtt_internal_decode_remaining_length_from_buffer 0 (Cursor buf 1) =
                Ret ((SUCCESS, d, n), c) ->
                1 + n + d + slack <= Z.of_nat (length buf).

Lemma wp_decode_inside buf slack (Q : IoT_Error_t * Z * Z -> cursor -> Prop) :
  bytes_ok buf -> (5 <= length buf)%nat -> packet_inside buf slack ->
  (forall d n, 1 <= n <= 4 -> 0 <= d < 2 ^ 28 -> 1 + n + d + slack <= Z.of_nat (length buf) ->
     Q (SUCCESS, d, n) (Cursor buf 1)) ->
  (forall d n, Q (MQTT_DECODE_REMAINING_LENGTH_ERROR, d, n) (Cursor buf 1)) ->
  wp no_exn (aws_iot_mqtt_internal_decode_remaining_length_from_buffer 0) Q (Cursor buf 1).
Proof.
  intros Hok Hlen Hin HS HE.
  destruct (wp_no_exn_run _ _ _ (decode_remaining_length_safe 0 (Cursor buf 1) Hok ltac:(simpl; lia)))
    as ([[rc d] n] & c' & Hrun & -> & Hcase).
  eapply wp_known; [done|]. destruct Hcase as [->|(-> & Hn & Hd)]; [done|].
  apply HS; [done| |by eapply Hin].
  assert (128 ^ n <= 128 ^ 4) by (apply Z.pow_le_mono_r; lia). lia.
Qed.

Lemma wp_read_string_with_len s0 n0 enddata (Q : IoT_Error_t * ptr * Z -> cursor -> Prop) c :
  (cur_ptr c <= enddata <= length (cur_buf c))%nat ->
  (forall p n, (p <= enddata)%nat -> Q (FAILURE, s0, n) (Cursor (cur_buf c) p)) ->
  (forall p n, is_u16 n -> p = (cur_ptr c + 2)%nat -> (p + Z.to_nat n <= enddata)%nat ->
     Q (SUCCESS, RxBuf p, n) (Cursor (cur_buf c) (p + Z.to_nat n))) ->
  wp no_exn (_aws_iot_mqtt_read_string_with_len s0 n0 enddata) Q c.
Proof.
  intros Hend HF HS. rw /_aws_iot_mqtt_read_string_with_len. wp_steps.
  case_decide; [|wp_steps; destruct c; apply HF; simpl in *; lia].
  wp_steps. apply wp_read_uint16_t; [lia|]. intros n Hn. wp_steps. cbn [cur_ptr].
  case_decide; wp_steps; [apply wp_advance; wp_steps; cbn [cur_ptr]; by apply HS|].
  apply HF. lia.
Qed.

(** Where a deserialized PUBLISH leaves its topic and payload. *)
Definition publish_in_bounds (size : Z) (o : publish_out) : Prop :=
  exists t p, po_topicName o = RxBuf t /\ po_payload o = RxBuf p /\
    Z.of_nat t + po_topicNameLen o <= Z.of_nat p <= size /\
    (Z.of_nat p + po_payloadLen o <= size \/
     po_qos o <> QOS0 /\ 2 ^ 64 - 2 <= po_payloadLen o < 2 ^ 64).

(** The bytes behind the packet that the deserializer may read: those of a packet
    identifier, when the packet has a QoS that calls for one but no room for it. *)
Definition identifier_room (buf : list Z) : Z :=
  if decide (hdr_qos (default 0 (buf !! 0%nat)) = QOS0) then 0 else 2.

Lemma deserialize_publish_safe buf l o :
  bytes_ok buf -> (5 <= length buf)%nat -> packet_inside buf (identifier_room buf) ->
  exists rc o', aws_iot_mqtt_internal_deserialize_publish true o buf l = Ret (rc, o') /\
    (rc = SUCCESS -> publish_in_bounds (Z.of_nat (length buf)) o').
Proof.
  intros Hok Hlen Hin. assert (Hpos : 0 <= identifier_room buf) by (rw /identifier_room; by case_decide).
  rw /aws_iot_mqtt_internal_deserialize_publish /negb.
  case_decide; [by eexists _, _|].
  rw /run_deserializer. match goal with |- context [?m (Cursor buf 0)] => set (body := m) end.
  enough (wp no_exn body (fun '(rc, o') _ => rc = SUCCESS -> publish_in_bounds (Z.of_nat (length buf)) o')
            (Cursor buf 0)) as Hwp.
  { destruct (wp_no_exn_run _ _ _ Hwp) as ([rc o'] & c' & -> & HQ). by exists rc, o'. }
  subst body. wp_steps. apply wp_read_char; [simpl; lia|]. intros h Hh. cbn [cur_buf cur_ptr] in *.
  case_decide; [by wp_steps|]. wp_steps.
  apply (wp_decode_inside _ (identifier_room buf)); [done|done|done| |by intros d n; case_decide; wp_steps].
  intros d n Hn Hd Hroom. case_decide; [done|]. wp_steps. apply wp_advance. cbn [cur_buf cur_ptr].
  wp_steps. cbn [cur_ptr po_topicName po_topicNameLen]. apply wp_read_string_with_len; cbn [cur_ptr cur_buf].
  { lia. }
  { intros p k Hp. wp_steps. case_decide as Hbad; [by wp_steps|]. exfalso. apply Hbad. by left. }
  intros p k Hk -> Hp. wp_steps. cbn [cur_ptr po_qos po_dup po_retained po_packetId].
  rw decide_False; [|intros [?|?]; [done|lia]].
  destruct (decide (QOS0 <> hdr_qos h)) as [Hq|Hq].
  - assert (Hid : identifier_room buf = 2) by (rw /identifier_room Hh; case_decide; simpl in *; congruence).
    wp_steps. apply wp_read_uint16_t; cbn [cur_ptr cur_buf]; [lia|]. intros id _. wp_steps.
    cbn [cur_ptr]. intros _. eexists _, _. split; [done|]. split; [done|].
    cbn [po_topicNameLen po_qos po_payloadLen]. split; [lia|].
    set (gap := Z.of_nat _ - Z.of_nat _).
    destruct (decide (0 <= gap)) as [Hgap|Hgap].
    + left. rw size_t_small; [|subst gap; width]. subst gap. lia.
    + right. split; [congruence|]. assert (-2 <= gap < 0) by (subst gap; lia).
      rw /size_t. rw -(Z.mod_add gap 1) //. rw Z.mod_small; lia.
  - wp_steps. cbn [cur_ptr]. intros _. eexists _, _. split; [done|]. split; [done|].
    cbn [po_topicNameLen po_qos po_payloadLen]. split; [lia|]. left.
    rw size_t_small; [|width]. lia.
Qed.

(** Acknowledgements are read within the first seven bytes. *)
Lemma deserialize_ack_safe buf l o : bytes_ok buf -> (7 <= length buf)%nat ->
  exists rc o', aws_iot_mqtt_internal_deserialize_ack true o (Some buf) l = Ret (rc, o').
Proof.
  intros Hok Hlen. rw /aws_iot_mqtt_internal_deserialize_ack. case_decide; [by eexists _, _|].
  rw /run_deserializer. match goal with |- context [?m (Cursor buf 0)] => set (body := m) end.
  enough (wp no_exn body (fun _ _ => True) (Cursor buf 0)) as Hwp.
  { destruct (wp_no_exn_run _ _ _ Hwp) as ([rc o'] & c' & -> & HQ). by exists rc, o'. }
  subst body. wp_steps. apply wp_read_char; [simpl; lia|]. intros h _. cbn [cur_buf cur_ptr].
  wp_steps. eapply wp_mono; [apply decode_remaining_length_safe; simpl; [done|lia]|].
  intros [[rc d] n] c [-> Hcase]. case_decide as Hrc; [by wp_steps|].
  destruct Hcase as [->|(-> & Hn & _)]; [done|].
  wp_steps. apply wp_advance. case_decide; [by wp_steps|]. wp_steps.
  apply wp_read_uint16_t; [simpl; lia|]. intros id _. by wp_steps.
Qed.

Lemma suback_loop_safe fuel : forall endData m o c,
  (endData <= length (cur_buf c))%nat -> (endData - cur_ptr c <= fuel)%nat ->
  0 <= m < 2 ^ 31 -> 0 <= sa_count o -> m + 1 <= Z.of_nat (length (sa_grantedQoSs o)) ->
  sa_count o <= m + 1 ->
  wp no_exn (suback_loop fuel endData m o)
    (fun '(rc, o') _ => 0 <= sa_count o' <= m + 1 /\ sa_packetId o' = sa_packetId o /\
       length (sa_grantedQoSs o') = length (sa_grantedQoSs o)) c.
Proof.
  induction fuel as [|fuel IH]; intros endData m o c Hend Hf Hm Hc Hroom Hcount; cbn [suback_loop]; wp_steps.
  { case_decide; [lia|]. by wp_steps. }
  case_decide; [|by wp_steps]. case_decide; [by wp_steps|]. wp_steps.
  apply wp_read_char; [lia|]. intros q _. rw decide_True; [|lia].
  eapply wp_mono; [apply IH; cbn [cur_buf cur_ptr sa_count sa_grantedQoSs]; try lia|].
  - apply u32_range.
  - by rw length_insert.
  - rw u32_small; width.
  - intros [rc o'] c'. cbn [sa_packetId sa_grantedQoSs]. by rw length_insert.
Qed.

(** ** Serializers keep the length of the buffer *)

Definition keeps_length {A} (m : M cursor A) : Prop :=
  forall c, wp any_exn m (fun _ c' => length (cur_buf c') = length (cur_buf c)) c.

Lemma keeps_length_ret {A} (a : A) : keeps_length (mret a).
Proof. done. Qed.
Lemma keeps_length_bind {A B} (m : M cursor A) (k : A -> M cursor B) :
  keeps_length m -> (forall a, keeps_length (k a)) -> keeps_length (m ≫= k).
Proof.
  intros Hm Hk c. apply wp_bind. eapply wp_mono; [apply Hm|]. intros a c' <-. apply Hk.
Qed.
Lemma keeps_length_raise {A} e : keeps_length (A := A) (raise e).
Proof. done. Qed.
Lemma keeps_length_gets {A} (f : cursor -> A) : keeps_length (gets f).
Proof. done. Qed.
Lemma keeps_length_advance n : keeps_length (advance n).
Proof. done. Qed.
Lemma keeps_length_store off b : keeps_length (store off b).
Proof. intros c. rw /store /wp. case_decide; [|done]. by rw /= length_insert. Qed.
Lemma keeps_length_store_bytes off bs : keeps_length (store_bytes off bs).
Proof.
  intros c. rw /store_bytes /wp. case_decide; [|done]. cbn [cur_buf].
  rw !length_app length_take length_drop. lia.
Qed.
Lemma keeps_length_lift {A} e (o : option A) : keeps_length (lift_option e o).
Proof. by destruct o. Qed.
#[export] Hint Resolve keeps_length_ret keeps_length_bind keeps_length_raise keeps_length_gets
  keeps_length_advance keeps_length_store keeps_length_store_bytes keeps_length_lift : iot.

Ltac keeps_length :=
  repeat first
    [ progress intros
    | apply keeps_length_bind | apply keeps_length_ret | apply keeps_length_raise
    | apply keeps_length_gets | apply keeps_length_advance | apply keeps_length_store
    | apply keeps_length_store_bytes | apply keeps_length_lift
    | match goal with |- keeps_length (if ?x then _ else _) => destruct x end
    | solve [eauto with iot] ].

Lemma keeps_length_write_char b : keeps_length (aws_iot_mqtt_internal_write_char b).
Proof. rw /aws_iot_mqtt_internal_write_char. keeps_length. Qed.
Lemma keeps_length_write_uint_16 n : keeps_length (aws_iot_mqtt_internal_write_uint_16 n).
Proof. rw /aws_iot_mqtt_internal_write_uint_16. keeps_length. Qed.
Lemma keeps_length_write_utf8_string s n : keeps_length (aws_iot_mqtt_internal_write_utf8_string s n).
Proof. rw /aws_iot_mqtt_internal_write_utf8_string. pose proof keeps_length_write_uint_16. keeps_length. Qed.
Lemma keeps_length_write_len_loop fuel k n : keeps_length (write_len_loop fuel k n).
Proof. revert k n. induction fuel as [|fuel IH]; intros k n; cbn [write_len_loop]; keeps_length. Qed.
Lemma keeps_length_write_remaining_length n : keeps_length (write_remaining_length n).
Proof.
  rw /write_remaining_length /aws_iot_mqtt_internal_write_len_to_buffer.
  pose proof keeps_length_write_len_loop. keeps_length.
Qed.
#[export] Hint Resolve keeps_length_write_char keeps_length_write_uint_16 keeps_length_write_utf8_string
  keeps_length_write_len_loop keeps_length_write_remaining_length : iot.

Lemma keeps_length_subscribe_topics src ts : keeps_length (serialize_subscribe_topics src ts).
Proof. induction ts; simpl; keeps_length. Qed.
Lemma keeps_length_unsubscribe_topics src ts : keeps_length (serialize_unsubscribe_topics src ts).
Proof. induction ts as [|[? ?] ts IH]; simpl; keeps_length. Qed.
Lemma keeps_length_connect_body src p h n : keeps_length (serialize_connect_body src p h n).
Proof. rw /serialize_connect_body. cbv zeta. keeps_length. Qed.
Lemma keeps_length_publish_body h n q id t tl p pl : keeps_length (serialize_publish_body h n q id t tl p pl).
Proof. rw /serialize_publish_body. keeps_length. Qed.
#[export] Hint Resolve keeps_length_subscribe_topics keeps_length_unsubscribe_topics
  keeps_length_connect_body keeps_length_publish_body : iot.

(** A serializer applied to a buffer leaves a buffer of the same length. *)
Definition ser_length (n : nat) (r : outcome ser_out) : Prop :=
  match r with
  | Ret o => match so_buf o with Some b => length b = n | None => True end
  | Exn _ => True
  end.

Lemma run_serializer_length buf body w : keeps_length body -> ser_length (length buf) (run_serializer buf body w).
Proof.
  intros Hb. specialize (Hb (Cursor buf 0)). move: Hb.
  rw /run_serializer /wp /mbind /outcome_bind. by destruct (body _) as [[[] c]|].
Qed.

Ltac ser_length :=
  repeat first
    [ done
    | match goal with
      | |- ser_length _ (if ?x then _ else _) => destruct x
      | |- ser_length _ (match ?x with _ => _ end) => destruct x
      | |- ser_length _ (let '_ := ?x in _) => destruct x
      end
    | apply run_serializer_length; keeps_length ].

Lemma serialize_zero_length buf n t l : ser_length (length buf) (aws_iot_mqtt_internal_serialize_zero (Some buf) n t l).
Proof. rw /aws_iot_mqtt_internal_serialize_zero. ser_length. Qed.
Lemma serialize_connect_length src buf n p l :
  ser_length (length buf) (_aws_iot_mqtt_serialize_connect src (Some buf) n p l).
Proof. rw /_aws_iot_mqtt_serialize_connect. ser_length. Qed.
Lemma serialize_publish_length src buf n d q r id t tl p pl l :
  ser_length (length buf) (_aws_iot_mqtt_internal_serialize_publish src (Some buf) n d q r id t tl p pl l).
Proof. rw /_aws_iot_mqtt_internal_serialize_publish. ser_length. Qed.
Lemma serialize_ack_length buf n t d id l :
  ser_length (length buf) (aws_iot_mqtt_internal_serialize_ack (Some buf) n t d id l).
Proof. rw /aws_iot_mqtt_internal_serialize_ack. ser_length. Qed.
Lemma serialize_subscribe_length src buf n d id ts l :
  ser_length (length buf) (_aws_iot_mqtt_serialize_subscribe src (Some buf) n d id ts l).
Proof. rw /_aws_iot_mqtt_serialize_subscribe. ser_length. Qed.
Lemma serialize_unsubscribe_length src buf n d id ts l :
  ser_length (length buf) (_aws_iot_mqtt_serialize_unsubscribe src buf n d id ts l).
Proof. rw /_aws_iot_mqtt_serialize_unsubscribe. ser_length. Qed.
#[export] Hint Resolve serialize_zero_length serialize_connect_length serialize_publish_length
  serialize_ack_length serialize_subscribe_length serialize_unsubscribe_length : iot.

(** ** Return codes *)

Lemma decode_returns n :
  returns (fun r => plain_code (r.1.1)) (aws_iot_mqtt_internal_decode_remaining_length_from_buffer n).
Proof.
  rw /aws_iot_mqtt_internal_decode_remaining_length_from_buffer.
  assert (Hloop : forall f a b c d, returns (fun r => plain_code (r.1.1)) (decode_len_loop f a b c d)).
  { induction f as [|f IH]; intros; cbn [decode_len_loop]; returns_auto; done. }
  apply returns_any. intros p. eapply returns_bind; [apply Hloop|]. intros r Hr. by returns_auto.
Qed.

Lemma run_deserializer_returns {A} (P : A -> Prop) buf (body : M cursor A) a :
  returns P body -> run_deserializer buf body = Ret a -> P a.
Proof.
  intros Hb. specialize (Hb (Cursor buf 0)). rw /run_deserializer. move: Hb. rw /wp.
  destruct (body _) as [[b c]|]; [|done]. cbn. by intros Hb [= <-].
Qed.

Lemma deserialize_publish_codes o buf l rc o' :
  aws_iot_mqtt_internal_deserialize_publish true o buf l = Ret (rc, o') -> plain_code rc.
Proof.
  rw /aws_iot_mqtt_internal_deserialize_publish. cbn [negb]. case_decide; [by intros [= <- _]|].
  intros Hrun. apply (run_deserializer_returns (fun r => plain_code (r.1))) in Hrun; [done|].
  pose proof decode_returns. returns_auto; done.
Qed.

(** ** Properties *)

(** A CONNECT packet is refused, with the buffer untouched, when it might not
    fit; otherwise exactly the MQTT encoding of the connect parameters (client
    identifier, will, user name, password, keep alive, flags) is written at the
    start of the buffer and its length reported. *)
Theorem serialize_connect_correct src buf p m l0 :
  Z.of_nat (length buf) <= 2 ^ 28 -> connect_args src p m ->
  _aws_iot_mqtt_serialize_connect src (Some buf) (Z.of_nat (length buf)) (Some p) (Some l0) =
  Ret (if decide (aws_iot_mqtt_internal_get_final_packet_length_from_remaining_length
                    (Z.of_nat (length (connect_body m))) > Z.of_nat (length buf))
       then SerOut MQTT_TX_BUFFER_TOO_SHORT_ERROR (Some buf) (Some l0)
       else SerOut SUCCESS (Some (connect_packet m ++ drop (length (connect_packet m)) buf))
              (Some (Z.of_nat (length (connect_packet m))))).
Proof. intros Hsize Hargs. by rw (serialize_connect_spec src buf p m). Qed.

(** Application memory with a client identifier, a will and a user name. *)
Definition demo_source : source := fun p =>
  match p with
  | App 1 => Some [100; 101; 118; 0]
  | App 2 => Some [103; 47; 119; 0]
  | App 3 => Some [98; 121; 101; 33; 0]
  | App 4 => Some [117; 115; 114; 0]
  | _ => None
  end.
Definition demo_connect : IoT_Client_Connect_Params :=
  ConnectParams MQTT_3_1_1 (App 1) 3 600 true true (WillOptions (App 2) 3 (App 3) 4 true 1)
    (App 4) 3 NULL 0.
Definition demo_connect_msg : connect_msg :=
  ConnectMsg true 600 [100; 101; 118] (Some ([103; 47; 119], [98; 121; 101; 33], true, 1))
    (Some [117; 115; 114]) None.

Ltac designate := split; [unfold is_u16; simpl; lia|]; split; [reflexivity|]; eexists; reflexivity.

Lemma demo_connect_args : connect_args demo_source demo_connect demo_connect_msg.
Proof.
  constructor; try reflexivity.
  - rw /is_u16 /=. lia.
  - right. split; [done|]. split; [done|]. designate.
  - simpl. repeat (split; [done || lia|]). split; designate.
  - split; [done|]. designate.
Qed.

Lemma serialize_connect_correct_witness :
  _aws_iot_mqtt_serialize_connect demo_source (Some (replicate 40 0)) 40 (Some demo_connect) (Some 0) =
  Ret (SerOut SUCCESS (Some (connect_packet demo_connect_msg ++ replicate 7 0)) (Some 33)).
Proof.
  apply (serialize_connect_correct demo_source (replicate 40 0) demo_connect demo_connect_msg 0);
    [simpl; lia|apply demo_connect_args].
Defined.

(** C14: a PUBLISH packet that the serializer accepts is read back by the
    deserializer: same flags, QoS, identifier (at QoS 1), and the topic and payload
    pointers it returns designate, in the receive buffer, exactly the bytes that were
    sent. *)
Theorem publish_roundtrip src buf dup qos ret id pT tl pP pl topic payload l0 o :
  Z.of_nat (length buf) <= 2 ^ 28 -> 0 <= dup <= 1 -> 0 <= ret <= 1 ->
  publish_args src qos id pT tl pP pl topic payload ->
  aws_iot_mqtt_internal_get_final_packet_length_from_remaining_length
    (Z.of_nat (length (publish_body qos id topic payload))) <= Z.of_nat (length buf) ->
  exists buf' len o',
    _aws_iot_mqtt_internal_serialize_publish src (Some buf) (Z.of_nat (length buf))
      dup qos ret id pT tl pP pl (Some l0) = Ret (SerOut SUCCESS (Some buf') (Some len)) /\
    aws_iot_mqtt_internal_deserialize_publish true o buf' len = Ret (SUCCESS, o') /\
    po_dup o' = dup /\ po_qos o' = qos /\ po_retained o' = ret /\
    (qos = QOS1 -> po_packetId o' = id) /\ (qos = QOS0 -> po_packetId o' = po_packetId o) /\
    mem_bytes (fun _ => None) buf' (po_topicName o') (Z.to_nat (po_topicNameLen o')) = Some topic /\
    mem_bytes (fun _ => None) buf' (po_payload o') (Z.to_nat (po_payloadLen o')) = Some payload.
Proof.
  intros Hsize Hdup Hret Hargs Hfit. pose proof Hargs as [(Htl & _) Htl16 (Hpl & _) Hpl31 _ Hqos Hid].
  set (body := publish_body qos id topic payload) in *.
  assert (Hbody : Z.of_nat (length body) < 2 ^ 32 - 8).
  { subst body. rw /publish_body length_app length_utf8_bytes length_app.
    case_decide; rw ?length_uint16_bytes /=; width. }
  destruct (frame_fits (header_byte 3 qos dup ret) body buf _ eq_refl Hsize Hbody) as [Hlen Hsmall]; [lia|].
  eexists _, _, _. split.
  { rw (serialize_publish_spec src buf dup qos ret id pT tl pP pl topic payload l0) //.
    rw /ser_spec decide_False; [done|]. rw -/body. lia. }
  assert (Hq : 0 <= qos < 4) by (rw /QOS0 /QOS1 in Hqos; lia).
  assert (Hlen4 : 4 <= Z.of_nat (length (frame (header_byte 3 qos dup ret) body))).
  { rw length_frame remaining_length_bytes_length; [|lia].
    assert (2 <= Z.of_nat (length body)); [|destruct (_ <? _); [lia|]; repeat case_match; lia].
    subst body. rw /publish_body length_app length_utf8_bytes. lia. }
  split; [apply deserialize_publish_spec; [lia|lia|lia|done|width|done|done]|].
  cbn [po_dup po_qos po_retained po_packetId po_topicName po_topicNameLen po_payload po_payloadLen].
  split; [done|]. split; [done|]. split; [done|].
  split; [by intros ->|]. split; [by intros ->|]. rw !Nat2Z.id. fold body.
  assert (Hbuf : forall post, frame (header_byte 3 qos dup ret) body ++ post =
    (header_byte 3 qos dup ret :: remaining_length_bytes (Z.of_nat (length body))) ++
    uint16_bytes (Z.of_nat (length topic)) ++ topic ++
    (if decide (qos > 0) then uint16_bytes id else []) ++ payload ++ post).
  { intros post. rw frame_app. subst body. by rw /publish_body /utf8_bytes -!app_assoc. }
  rw Hbuf. split.
  - eapply mem_bytes_at; [by rw app_assoc|rw length_app /=; lia|done].
  - eapply mem_bytes_at; [by rw 3!app_assoc| |done].
    rw !length_app /=. case_decide; simpl; lia.
Qed.

Lemma publish_roundtrip_witness :
  exists buf' len o',
    _aws_iot_mqtt_internal_serialize_publish demo_source (Some (replicate 20 0)) 20
      1 QOS1 0 77 (App 2) 3 (App 3) 4 (Some 0) = Ret (SerOut SUCCESS (Some buf') (Some len)) /\
    aws_iot_mqtt_internal_deserialize_publish true (PublishOut 0 0 0 0 NULL 0 NULL 0) buf' len =
      Ret (SUCCESS, o') /\
    po_dup o' = 1 /\ po_qos o' = QOS1 /\ po_retained o' = 0 /\
    (QOS1 = QOS1 -> po_packetId o' = 77) /\ (QOS1 = QOS0 -> po_packetId o' = 0) /\
    mem_bytes (fun _ => None) buf' (po_topicName o') (Z.to_nat (po_topicNameLen o')) =
      Some [103; 47; 119] /\
    mem_bytes (fun _ => None) buf' (po_payload o') (Z.to_nat (po_payloadLen o')) =
      Some [98; 121; 101; 33].
Proof.
  apply (publish_roundtrip demo_source (replicate 20 0) 1 QOS1 0 77 (App 2) 3 (App 3) 4
           [103; 47; 119] [98; 121; 101; 33] 0 (PublishOut 0 0 0 0 NULL 0 NULL 0));
    [simpl; lia|lia|lia| |vm_compute; congruence].
  constructor; [split; [done|by eexists]|width|split; [done|by eexists]|lia|done|by right|width].
Defined.

(** SUBSCRIBE and UNSUBSCRIBE packets are refused, with the buffer untouched,
    when they might not fit; otherwise exactly the MQTT encoding of the packet
    identifier and the topic filters (with the requested QoS bytes) is written. *)
Theorem serialize_subscriptions_correct src buf dup id topics ms utopics us l0 :
  Z.of_nat (length buf) <= 2 ^ 28 -> 0 <= dup <= 1 -> is_u16 id ->
  subscribe_args src topics ms -> Z.of_nat (length (subscribe_body id ms)) < 2 ^ 32 - 8 ->
  unsubscribe_args src utopics us -> Z.of_nat (length (unsubscribe_body id us)) < 2 ^ 32 - 8 ->
  _aws_iot_mqtt_serialize_subscribe src (Some buf) (Z.of_nat (length buf)) dup id topics (Some l0) =
    Ret (ser_spec buf l0 (header_byte 8 1 dup 0) (subscribe_body id ms)) /\
  _aws_iot_mqtt_serialize_unsubscribe src buf (Z.of_nat (length buf)) dup id utopics l0 =
    Ret (ser_spec buf l0 (header_byte 10 1 dup 0) (unsubscribe_body id us)).
Proof. intros. split; [by apply serialize_subscribe_spec|by apply serialize_unsubscribe_spec]. Qed.

Lemma serialize_subscriptions_correct_witness :
  _aws_iot_mqtt_serialize_subscribe demo_source (Some (replicate 20 0)) 20 0 9 [Sub (App 2) 3 QOS1] (Some 0) =
    Ret (SerOut SUCCESS (Some (subscribe_packet 0 9 [([103; 47; 119], 1)] ++ replicate 10 0)) (Some 10)) /\
  _aws_iot_mqtt_serialize_unsubscribe demo_source (replicate 20 0) 20 0 9 [(App 2, 3)] 0 =
    Ret (SerOut SUCCESS (Some (unsubscribe_packet 0 9 [[103; 47; 119]] ++ replicate 11 0)) (Some 9)).
Proof.
  apply (serialize_subscriptions_correct demo_source (replicate 20 0) 0 9 [Sub (App 2) 3 QOS1]
           [([103; 47; 119], 1)] [(App 2, 3)] [[103; 47; 119]] 0); try (simpl; lia); try width.
  - constructor; [|constructor]. split; [designate|]. split; [done|]. unfold is_u8. simpl. lia.
  - constructor; [|constructor]. designate.
Defined.

(** Acknowledgements written by the client are read back with their type,
    duplicate flag and identifier, and the deserializer of acknowledgements returns
    on any receive buffer of at least seven bytes. *)
Theorem ack_roundtrip buf t dup id l0 o rx l :
  t <> UNKNOWN -> 4 <= Z.of_nat (length buf) -> 0 <= dup <= 1 -> is_u16 id ->
  bytes_ok rx -> (7 <= length rx)%nat ->
  (exists buf',
    aws_iot_mqtt_internal_serialize_ack (Some buf) (Z.of_nat (length buf)) t dup id (Some l0) =
      Ret (SerOut SUCCESS (Some buf') (Some 4)) /\
    length buf' = length buf /\ drop 4 buf' = drop 4 buf /\
    aws_iot_mqtt_internal_deserialize_ack true o (Some buf') 4 =
      Ret (SUCCESS, AckOut (MessageTypes_val t) dup id)) /\
  (exists rc o', aws_iot_mqtt_internal_deserialize_ack true o (Some rx) l = Ret (rc, o')).
Proof.
  intros Ht Hlen Hdup Hid Hrx Hrxlen. split; [|by apply deserialize_ack_safe].
  eexists. split; [by apply serialize_ack_spec|].
  split; [rw /= length_drop; lia|]. split; [done|].
  apply (deserialize_ack_spec (MessageTypes_val t)); [|by case_decide|lia|done|done].
  by destruct t.
Qed.

Lemma ack_roundtrip_witness :
  (exists buf',
    aws_iot_mqtt_internal_serialize_ack (Some [9; 9; 9; 9; 9]) 5 PUBREL 0 258 (Some 0) =
      Ret (SerOut SUCCESS (Some buf') (Some 4)) /\
    length buf' = 5%nat /\ drop 4 buf' = [9] /\
    aws_iot_mqtt_internal_deserialize_ack true (AckOut 0 0 0) (Some buf') 4 =
      Ret (SUCCESS, AckOut 6 0 258)) /\
  (exists rc o', aws_iot_mqtt_internal_deserialize_ack true (AckOut 0 0 0)
     (Some (replicate 7 255)) 7 = Ret (rc, o')).
Proof.
  apply (ack_roundtrip [9; 9; 9; 9; 9] PUBREL 0 258 0 (AckOut 0 0 0) (replicate 7 255) 7);
    [done|simpl; lia|lia|width| |simpl; lia].
  repeat constructor; width.
Defined.

(** The SUBACK deserializer stores the granted QoS of every filter when the
    packet has at most [maxExpectedQoSCount + 1] of them, refuses a longer packet,
    and never writes behind an array of [maxExpectedQoSCount + 1] entries. *)
Theorem suback_decoded id granted qoss m post l o :
  is_u16 id -> 0 <= m < 2 ^ 31 -> m + 1 <= Z.of_nat (length qoss) -> 5 <= l ->
  Z.of_nat (length granted) < 2 ^ 28 - 2 -> sa_grantedQoSs o = qoss ->
  exists o',
  _aws_iot_mqtt_deserialize_suback true m o (suback_packet id granted ++ post) l =
  Ret (if decide (Z.of_nat (length granted) <= m + 1) then SUCCESS else FAILURE, o') /\
  sa_packetId o' = id /\ length (sa_grantedQoSs o') = length qoss /\
  (Z.of_nat (length granted) <= m + 1 ->
   sa_count o' = Z.of_nat (length granted) /\
   sa_grantedQoSs o' = granted ++ drop (length granted) qoss).
Proof. intros. by apply deserialize_suback_spec. Qed.

Lemma suback_decoded_witness :
  exists o',
  _aws_iot_mqtt_deserialize_suback true 1 (SubackOut 0 0 [0; 0; 0]) (suback_packet 5 [1; 0; 1] ++ [7]) 7 =
  Ret (FAILURE, o') /\
  sa_packetId o' = 5 /\ length (sa_grantedQoSs o') = 3%nat /\
  (Z.of_nat 3 <= 1 + 1 -> sa_count o' = 3 /\ sa_grantedQoSs o' = [1; 0; 1]).
Proof.
  apply (suback_decoded 5 [1; 0; 1] [0; 0; 0] 1 [7] 7 (SubackOut 0 0 [0; 0; 0]));
    [width|lia|simpl; lia|lia|simpl; lia|done].
Defined.

(** C17: deserializing a received PUBLISH is memory safe on arbitrary bytes, in a buffer
    of at least five bytes, as long as the packet announced by its length field lies
    inside the buffer and, when its QoS is not 0, ends at least two bytes before the
    end of the buffer: the function returns, and on success the topic lies in the
    buffer before the payload and the payload inside the buffer, except for a packet
    with QoS 1 or more that has no room for its identifier, whose payload length wraps
    around. *)
Theorem publish_deserialize_safe buf l o :
  bytes_ok buf -> (5 <= length buf)%nat -> packet_inside buf (identifier_room buf) ->
  exists rc o', aws_iot_mqtt_internal_deserialize_publish true o buf l = Ret (rc, o') /\
    (rc = SUCCESS -> publish_in_bounds (Z.of_nat (length buf)) o').
Proof. apply deserialize_publish_safe. Qed.

(** A packet at QoS 0 that fills the buffer. *)
Lemma publish_deserialize_safe_witness :
  exists rc o', aws_iot_mqtt_internal_deserialize_publish true (PublishOut 0 0 0 0 NULL 0 NULL 0)
      [0x30; 4; 0; 1; 65; 66] 6 = Ret (rc, o') /\
    (rc = SUCCESS -> publish_in_bounds 6 o').
Proof.
  apply (publish_deserialize_safe [0x30; 4; 0; 1; 65; 66] 6); [repeat constructor; width|simpl; lia|].
  intros d n c Hrun. vm_compute in Hrun. injection Hrun as <- <- _. vm_compute. done.
Defined.

