(* ===== verification/Timer.v ===== *)
(** * Timers

    The Linux timer of [platform/linux/common/timer.c]: a timer is the absolute time
    at which it ends. The current time is what [gettimeofday] stored in [now]; the
    arithmetic is that of the [timeradd] and [timersub] macros of <sys/time.h>. *)
From S2P Require Import Prelude.

Record timeval := Timeval { tv_sec : Z; tv_usec : Z }.

Record Timer := MkTimer { end_time : timeval }.

#[export] Instance timeval_eq_dec : EqDecision timeval.
Proof. solve_decision. Defined.

Definition timeradd (a b : timeval) : timeval :=
  let sec := tv_sec a + tv_sec b in
  let usec := tv_usec a + tv_usec b in
  if 1000000 <=? usec then Timeval (sec + 1) (usec - 1000000) else Timeval sec usec.

Definition timersub (a b : timeval) : timeval :=
  let sec := tv_sec a - tv_sec b in
  let usec := tv_usec a - tv_usec b in
  if usec <? 0 then Timeval (sec - 1) (usec + 1000000) else Timeval sec usec.

Definition has_timer_expired (now : timeval) (timer : Timer) : bool :=
  let res := timersub (end_time timer) now in
  (tv_sec res <? 0) || ((tv_sec res =? 0) && (tv_usec res <=? 0)).

Definition countdown_ms (now : timeval) (timeout : Z) : Timer :=
  let interval := Timeval (timeout / 1000) (timeout mod 1000 * 1000) in
  MkTimer (timeradd now interval).

Definition left_ms (now : timeval) (timer : Timer) : Z :=
  let result_ms := 0 in
  let res := timersub (end_time timer) now in
  if 0 <=? tv_sec res then u32 (tv_sec res * 1000 + tv_usec res / 1000) else result_ms.

Definition countdown_sec (now : timeval) (timeout : Z) : Timer :=
  let interval := Timeval timeout 0 in
  MkTimer (timeradd now interval).

Definition init_timer : Timer := MkTimer (Timeval 0 0).

(** ** Specification: time in microseconds *)

Definition usecs (t : timeval) : Z := tv_sec t * 1000000 + tv_usec t.
Definition tv_valid (t : timeval) : Prop := 0 <= tv_usec t < 1000000.

Lemma timeradd_spec a b : tv_valid a -> tv_valid b ->
  usecs (timeradd a b) = usecs a + usecs b /\ tv_valid (timeradd a b).
Proof.
  rw /tv_valid /timeradd /usecs. intros Ha Hb.
  destruct (Z.leb_spec 1000000 (tv_usec a + tv_usec b)); simpl; lia.
Qed.

Lemma timersub_spec a b : tv_valid a -> tv_valid b ->
  usecs (timersub a b) = usecs a - usecs b /\ tv_valid (timersub a b).
Proof.
  rw /tv_valid /timersub /usecs. intros Ha Hb.
  destruct (Z.ltb_spec (tv_usec a - tv_usec b) 0); simpl; lia.
Qed.

Lemma has_timer_expired_spec now t : tv_valid now -> tv_valid (end_time t) ->
  has_timer_expired now t = bool_decide (usecs (end_time t) <= usecs now).
Proof.
  intros Hn He. destruct (timersub_spec (end_time t) now He Hn) as [Hu Hv].
  rw /has_timer_expired. move: Hu Hv. rw {1}/usecs /tv_valid.
  set (r := timersub (end_time t) now). intros Hu Hv.
  case_bool_decide; destruct (Z.ltb_spec (tv_sec r) 0), (Z.eqb_spec (tv_sec r) 0),
    (Z.leb_spec (tv_usec r) 0); simpl; try done; lia.
Qed.

Lemma left_ms_spec now t : tv_valid now -> tv_valid (end_time t) ->
  left_ms now t = u32 (Z.max 0 ((usecs (end_time t) - usecs now) / 1000)).
Proof.
  intros Hn He. destruct (timersub_spec (end_time t) now He Hn) as [Hu Hv].
  rw /left_ms -Hu. move: Hv. rw /usecs /tv_valid. set (r := timersub (end_time t) now). intros Hv.
  destruct (Z.leb_spec 0 (tv_sec r)) as [Hs|Hs].
  - f_equal. replace (tv_sec r * 1000000 + tv_usec r) with (tv_usec r + tv_sec r * 1000 * 1000) by lia.
    rw Z.div_add //. pose proof (Z.div_pos (tv_usec r) 1000). lia.
  - rw Z.max_l //. Z.to_euclidean_division_equations. lia.
Qed.

Lemma countdown_ms_spec now timeout : tv_valid now -> 0 <= timeout ->
  usecs (end_time (countdown_ms now timeout)) = usecs now + timeout * 1000 /\
  tv_valid (end_time (countdown_ms now timeout)).
Proof.
  intros Hn Ht. rw /countdown_ms /=.
  destruct (timeradd_spec now (Timeval (timeout / 1000) (timeout mod 1000 * 1000)) Hn) as [Hu Hv].
  { rw /tv_valid /=. pose proof (Z.mod_pos_bound timeout 1000). lia. }
  split; [|done]. rw Hu /usecs /=. pose proof (Z.div_mod timeout 1000). lia.
Qed.

Lemma countdown_sec_spec now timeout : tv_valid now ->
  usecs (end_time (countdown_sec now timeout)) = usecs now + timeout * 1000000 /\
  tv_valid (end_time (countdown_sec now timeout)).
Proof.
  intros Hn. rw /countdown_sec /=.
  destruct (timeradd_spec now (Timeval timeout 0) Hn) as [Hu Hv]; [done|].
  split; [|done]. rw Hu /usecs /=. lia.
Qed.

(** A timer that expired stays expired while the clock does not go back. *)
Lemma has_timer_expired_mono now now' t : tv_valid now -> tv_valid now' -> usecs now <= usecs now' ->
  has_timer_expired now t = true -> has_timer_expired now' t = true.
Proof.
  rw /tv_valid /usecs /has_timer_expired /timersub. intros Hn Hn' Hle.
  destruct t as [[S U]], now as [s u], now' as [s' u']; cbn [tv_sec tv_usec end_time] in *.
  destruct (Z.ltb_spec (U - u) 0), (Z.ltb_spec (U - u') 0); cbn [tv_sec tv_usec];
    rw !orb_true_iff !andb_true_iff !Z.ltb_lt !Z.eqb_eq !Z.leb_le; lia.
Qed.

(** ** Properties *)

(** A timer started with [countdown_ms] expires exactly when its timeout has
    passed on the clock, and before that [left_ms] is the number of whole
    milliseconds left (never more than the timeout while the clock does not go
    back). *)
Theorem countdown_ms_correct now now' timeout :
  tv_valid now -> tv_valid now' -> is_u32 timeout -> usecs now <= usecs now' ->
  let t := countdown_ms now timeout in
  (has_timer_expired now' t = true <-> timeout * 1000 <= usecs now' - usecs now) /\
  left_ms now' t = Z.max 0 ((timeout * 1000 - (usecs now' - usecs now)) / 1000) /\
  left_ms now' t <= timeout.
Proof.
  intros Hn Hn' Ht Hle t. destruct (countdown_ms_spec now timeout Hn ltac:(width)) as [Hu Hv].
  assert (Hleft : left_ms now' t = Z.max 0 ((timeout * 1000 - (usecs now' - usecs now)) / 1000) /\
                  left_ms now' t <= timeout).
  { rw left_ms_spec // Hu.
    replace (usecs now + timeout * 1000 - usecs now')
      with (timeout * 1000 - (usecs now' - usecs now)) by lia.
    set (x := (timeout * 1000 - (usecs now' - usecs now)) / 1000).
    assert (x <= timeout) by (subst x; Z.to_euclidean_division_equations; lia).
    rw u32_small; [|width]. rw /is_u32 in Ht. lia. }
  split; [|done]. rw has_timer_expired_spec // bool_decide_eq_true Hu. lia.
Qed.

Lemma countdown_ms_correct_witness :
  let t := countdown_ms (Timeval 10 999999) 1500 in
  (has_timer_expired (Timeval 12 400000) t = true <-> 1500 * 1000 <= 12400000 - 10999999) /\
  left_ms (Timeval 12 400000) t = Z.max 0 ((1500 * 1000 - (12400000 - 10999999)) / 1000) /\
  left_ms (Timeval 12 400000) t <= 1500.
Proof.
  apply (countdown_ms_correct (Timeval 10 999999) (Timeval 12 400000) 1500);
    unfold tv_valid, is_u32, usecs; simpl; lia.
Defined.
