(* ===== verification/Topic.v ===== *)
(** * Topic matching

    The function [_aws_iot_mqtt_internal_is_topic_matched] of
    [src/aws_iot_mqtt_client_common_internal.c], which decides whether the topic
    name of an incoming message matches the topic filter of a subscription, and its
    specification level by level. *)
From S2P Require Import Prelude Types.

Definition chr_hash : Z := 35.   (* '#' *)
Definition chr_plus : Z := 43.   (* '+' *)
Definition chr_slash : Z := 47.  (* '/' *)

(** The inner loop of a '+': the name is skipped up to its next separator. *)
Fixpoint skip_level (n : list Z) : list Z :=
  match n with
  | [] => []
  | x :: n' => if x =? chr_slash then n else skip_level n'
  end.

(** The loop. [f] holds the bytes from [curf] to the end of the object the filter is
    stored in (it is read up to its NUL), [n] the characters from [curn] to
    [curn_end]; the result is the value of the test after the loop. *)
Fixpoint match_loop (f n : list Z) : outcome bool :=
  match f with
  | [] => Exn (Fault OobRead)
  | c :: f' =>
      match n with
      | [] => Ret (c =? 0)
      | x :: n' =>
          if c =? 0 then Ret false
          else if (x =? chr_slash) && negb (c =? chr_slash) then Ret false
          else if negb (c =? chr_plus) && negb (c =? chr_hash) && negb (c =? x) then Ret false
          else if c =? chr_plus then match_loop f' (skip_level n')
          else if c =? chr_hash then match_loop f' []
          else match_loop f' n'
      end
  end.

(** A null pointer makes the function return [NULL_VALUE_ERROR] as a character,
    which is not zero. *)
Definition _aws_iot_mqtt_internal_is_topic_matched (pTopicFilter pTopicName : option (list Z)) :
    outcome Z :=
  match pTopicFilter, pTopicName with
  | Some f, Some n =>
      b ← match_loop f n;
      Ret (if b : bool then 1 else 0)
  | _, _ => Ret (IoT_Error_val NULL_VALUE_ERROR)
  end.

(** ** Specification *)

(** The levels of a topic: the parts between its separators. *)
Fixpoint levels (s : list Z) : list (list Z) :=
  match s with
  | [] => [[]]
  | x :: s' =>
      if x =? chr_slash then [] :: levels s'
      else match levels s' with
           | l :: ls => (x :: l) :: ls
           | [] => [[x]]
           end
  end.

(** A filter is well formed when a wildcard is the only character of its level and
    '#' is the last level. *)
Definition literal_level (l : list Z) : Prop :=
  Forall (fun c => c <> chr_plus /\ c <> chr_hash /\ c <> 0) l.
Fixpoint wf_filter (fs : list (list Z)) : Prop :=
  match fs with
  | [] => True
  | f :: fs' => (f = [chr_plus] \/ f = [chr_hash] /\ fs' = [] \/ literal_level f) /\ wf_filter fs'
  end.

(** Level-wise matching: a literal level matches itself, '+' any level that is not
    empty, '#' everything that follows provided its first level is not empty. *)
Fixpoint levels_match (fs ns : list (list Z)) : bool :=
  match fs, ns with
  | [], [] => true
  | f :: fs', n :: ns' =>
      if decide (f = [chr_plus]) then negb (bool_decide (n = [])) && levels_match fs' ns'
      else if decide (f = [chr_hash]) then negb (bool_decide (n = []))
      else bool_decide (f = n) && levels_match fs' ns'
  | _, _ => false
  end.

(** The matching of MQTT 3.1.1 section 4.7.1: wildcards also match empty levels, and
    '#' also matches its parent level. *)
Fixpoint mqtt_match (fs ns : list (list Z)) : bool :=
  match fs, ns with
  | [], [] => true
  | f :: fs', [] => bool_decide (f = [chr_hash])
  | f :: fs', n :: ns' =>
      if decide (f = [chr_hash]) then true
      else if decide (f = [chr_plus]) then mqtt_match fs' ns'
      else bool_decide (f = n) && mqtt_match fs' ns'
  | [], _ :: _ => false
  end.

(** ** Lemmas *)

Definition slash_free (l : list Z) : Prop := Forall (fun c => c <> chr_slash) l.

(** The text that follows a level. *)
Definition tail_text (ls : list (list Z)) : list Z := flat_map (cons chr_slash) ls.

Lemma levels_text s : exists l ls, levels s = l :: ls /\ s = l ++ tail_text ls /\
  slash_free l /\ Forall slash_free ls.
Proof.
  induction s as [|x s (l & ls & Heq & Hs & Hl & Hls)]; cbn [levels].
  { exists [], []. repeat split; constructor. }
  destruct (Z.eqb_spec x chr_slash) as [->|Hx].
  - exists [], (l :: ls). rw Heq. simpl. repeat split; [by rw {1}Hs|constructor|by constructor].
  - rw Heq. exists (x :: l), ls. simpl. repeat split; [by rw {1}Hs|by constructor|done].
Qed.

(** Texts that begin where a level ends. *)
Definition level_end (s : list Z) : Prop := s = [] \/ exists s', s = chr_slash :: s'.

Lemma tail_text_end ls : level_end (tail_text ls).
Proof. destruct ls as [|l ls]; [by left|right; by eexists]. Qed.

Lemma skip_level_spec n rest : slash_free n -> level_end rest -> skip_level (n ++ rest) = rest.
Proof.
  intros Hn Hr. induction Hn as [|x n Hx _ IH]; simpl.
  - destruct Hr as [->|[s' ->]]; done.
  - destruct (Z.eqb_spec x chr_slash); [done|apply IH].
Qed.

(** What the loop does with a literal level. *)
Lemma match_loop_literal f : forall n frest nrest,
  literal_level f -> slash_free f -> slash_free n -> level_end nrest ->
  (exists s, frest = 0 :: s) \/ (exists s, frest = chr_slash :: s) ->
  match_loop (f ++ frest) (n ++ nrest) =
  if decide (f = n) then match_loop frest nrest else Ret false.
Proof.
  induction f as [|c f IH]; intros n frest nrest Hlit Hf Hn Hnr Hfr.
  - destruct n as [|x n]; [done|]. apply Forall_cons in Hn as [Hx _]. simpl app.
    destruct Hfr as [[s ->]|[s ->]]; cbn [match_loop]; [done|].
    destruct (Z.eqb_spec x chr_slash); [done|].
    destruct (Z.eqb_spec chr_slash x); [congruence|done].
  - apply Forall_cons in Hlit as [(Hplus & Hhash & H0) Hlit]. apply Forall_cons in Hf as [Hcs Hf].
    assert (Hc : (c =? 0) = false /\ (c =? chr_plus) = false /\ (c =? chr_hash) = false /\
                 (c =? chr_slash) = false) by (rw !Z.eqb_neq; done).
    destruct Hc as (Hc0 & Hc1 & Hc2 & Hc3).
    destruct n as [|x n]; simpl app; cbn [match_loop].
    + destruct Hnr as [->|[s ->]]; [by rw Hc0|]. rw Hc0 Hc3 /=. done.
    + apply Forall_cons in Hn as [Hx Hn]. rw Hc0 Hc1 Hc2 Hc3 (proj2 (Z.eqb_neq x chr_slash) Hx) /=.
      destruct (Z.eqb_spec c x) as [->|Hne]; simpl.
      * rw IH //. destruct (decide (f = n)) as [->|Hfn]; [by rw decide_True|].
        rw decide_False //. congruence.
      * rw decide_False //. congruence.
Qed.

(** One level: whatever follows matches as [Hrest] says. *)
Lemma match_loop_level f fs n ns junk :
  wf_filter (f :: fs) -> slash_free f -> slash_free n ->
  match_loop (tail_text fs ++ 0 :: junk) (tail_text ns) = Ret (levels_match fs ns) ->
  match_loop (f ++ tail_text fs ++ 0 :: junk) (n ++ tail_text ns) = Ret (levels_match (f :: fs) (n :: ns)).
Proof.
  intros [Hwf _] Hf Hn Hrest. pose proof (tail_text_end ns) as Hend. cbn [levels_match].
  destruct Hwf as [->|[[-> ->]|Hlit]].
  - destruct n as [|x n]; simpl.
    + by destruct Hend as [->|[s ->]].
    + apply Forall_cons in Hn as [Hx Hn]. rw (proj2 (Z.eqb_neq x chr_slash) Hx) /=.
      by rw skip_level_spec.
  - destruct n as [|x n]; simpl.
    + by destruct Hend as [->|[s ->]].
    + apply Forall_cons in Hn as [Hx Hn]. by rw (proj2 (Z.eqb_neq x chr_slash) Hx).
  - rw decide_False; [|intros ->; by apply Forall_cons in Hlit as [(? & ? & ?) _]].
    rw decide_False; [|intros ->; by apply Forall_cons in Hlit as [(? & ? & ?) _]].
    rw match_loop_literal //.
    + destruct (decide (f = n)); [by rw bool_decide_true|by rw bool_decide_false].
    + destruct fs; [left|right]; by eexists.
Qed.

Lemma match_loop_text fs : forall f n ns junk,
  wf_filter (f :: fs) -> Forall slash_free (f :: fs) -> Forall slash_free (n :: ns) ->
  match_loop (f ++ tail_text fs ++ 0 :: junk) (n ++ tail_text ns) = Ret (levels_match (f :: fs) (n :: ns)).
Proof.
  induction fs as [|f2 fs IH]; intros f n ns junk Hwf Hf Hn;
    apply Forall_cons in Hf as [Hf Hfs]; apply Forall_cons in Hn as [Hn Hns];
    apply match_loop_level; try done; destruct ns as [|n2 ns]; try done.
  cbn [tail_text flat_map app]. rw -!app_assoc.
  change (match_loop (chr_slash :: ?a) (chr_slash :: ?b)) with (match_loop a b).
  apply IH; [apply Hwf|done|done].
Qed.

Lemma is_topic_matched_levels f n junk : wf_filter (levels f) ->
  _aws_iot_mqtt_internal_is_topic_matched (Some (f ++ 0 :: junk)) (Some n) =
  Ret (if levels_match (levels f) (levels n) then 1 else 0).
Proof.
  destruct (levels_text f) as (lf & lfs & Hf & -> & Hlf & Hlfs).
  destruct (levels_text n) as (ln & lns & Hn & -> & Hln & Hlns).
  rw Hf Hn. intros Hwf. rw /_aws_iot_mqtt_internal_is_topic_matched -app_assoc.
  rw match_loop_text //; by constructor.
Qed.

(** The code never matches more than MQTT does. *)
Lemma levels_match_mqtt fs : forall ns, levels_match fs ns = true -> mqtt_match fs ns = true.
Proof.
  induction fs as [|f fs IH]; intros [|n ns]; cbn [levels_match mqtt_match]; try done.
  destruct (decide (f = [chr_plus])) as [->|Hp].
  - intros [_ ?]%andb_prop. by apply IH.
  - destruct (decide (f = [chr_hash])); [done|].
    intros [? ?]%andb_prop. apply andb_true_intro. auto.
Qed.

(** Where no level of the name is empty, the only difference is the parent level of
    a trailing '#'. *)
Lemma mqtt_match_levels fs : forall ns, wf_filter fs -> Forall (fun l => l <> []) ns ->
  mqtt_match fs ns = true ->
  levels_match fs ns = true \/ exists gs, fs = gs ++ [[chr_hash]] /\ levels_match gs ns = true.
Proof.
  induction fs as [|f fs IH]; intros [|n ns] Hwf Hns; cbn [levels_match mqtt_match]; try by auto.
  - case_bool_decide; [subst|done]. intros _. right. exists []. split; [|done].
    destruct Hwf as [[?|[[_ ->]|Hl]] _]; [done|done|].
    by apply Forall_cons in Hl as [(? & ? & ?) _].
  - apply Forall_cons in Hns as [Hn Hns]. destruct Hwf as [_ Hwf].
    destruct (decide (f = [chr_hash])) as [->|Hh].
    { intros _. left. by rw bool_decide_false. }
    destruct (decide (f = [chr_plus])) as [->|Hp].
    + rw bool_decide_false //. intros Hm. destruct (IH ns Hwf Hns Hm) as [?|(gs & -> & Hg)]; [by left|].
      right. exists ([chr_plus] :: gs). split; [done|]. cbn [levels_match].
      by rw bool_decide_false.
    + intros [Hfn Hm]%andb_prop. destruct (IH ns Hwf Hns Hm) as [?|(gs & -> & Hg)].
      { left. by apply andb_true_intro. }
      right. exists (f :: gs). split; [done|]. cbn [levels_match].
      rw decide_False // decide_False //. by apply andb_true_intro.
Qed.

(** ** Properties *)

(** C15: on a well-formed filter (stored as a C string) the character loop decides
    exactly the level-wise matching: it terminates within the filter, a literal
    level matches itself, '+' one level that is not empty and '#' all remaining
    levels when the first of them is not empty. *)
Theorem is_topic_matched_correct f n junk : wf_filter (levels f) ->
  _aws_iot_mqtt_internal_is_topic_matched (Some (f ++ 0 :: junk)) (Some n) =
  Ret (if levels_match (levels f) (levels n) then 1 else 0).
Proof. apply is_topic_matched_levels. Qed.

(** The filter "a/+/#" and the name "a/b/c/d". *)
Lemma is_topic_matched_correct_witness :
  _aws_iot_mqtt_internal_is_topic_matched (Some [97; 47; 43; 47; 35; 0; 88])
    (Some [97; 47; 98; 47; 99; 47; 100]) = Ret 1.
Proof.
  apply (is_topic_matched_correct [97; 47; 43; 47; 35] [97; 47; 98; 47; 99; 47; 100] [88]).
  split; [right; right; by repeat constructor|]. split; [by left|]. split; [by right; left|done].
Defined.

(** C16: against the matching of levels and wildcards of MQTT 3.1.1, section 4.7.1, for
    well-formed filters. For any name the loop never reports a match that these rules
    do not have; for names without empty levels it misses only matches of a filter
    "x/#" with a name that "x" matches, the parent level. The rule of section 4.7.2,
    by which filters that start with a wildcard do not match names that start with
    '$', is not part of [mqtt_match], and the code does not have it either
    ([dollar_matched] below). *)
Theorem is_topic_matched_mqtt f n junk : wf_filter (levels f) ->
  exists r, _aws_iot_mqtt_internal_is_topic_matched (Some (f ++ 0 :: junk)) (Some n) = Ret r /\
    (r <> 0 -> mqtt_match (levels f) (levels n) = true) /\
    (Forall (fun l => l <> []) (levels n) -> r = 0 -> mqtt_match (levels f) (levels n) = true ->
     exists gs, levels f = gs ++ [[chr_hash]] /\ levels_match gs (levels n) = true).
Proof.
  intros Hwf. eexists. split; [by apply is_topic_matched_levels|].
  pose proof (levels_match_mqtt (levels f) (levels n)) as Hsound.
  split; [by destruct (levels_match _ _); auto|].
  intros Hne Hr Hm. destruct (mqtt_match_levels _ _ Hwf Hne Hm) as [Heq|?]; [|done].
  rw Heq in Hr. done.
Qed.

(** The filter "a/#" and the name "a". *)
Lemma is_topic_matched_mqtt_witness :
  exists r, _aws_iot_mqtt_internal_is_topic_matched (Some [97; 47; 35; 0]) (Some [97]) = Ret r /\
    (r <> 0 -> mqtt_match (levels [97; 47; 35]) (levels [97]) = true) /\
    (Forall (fun l => l <> []) (levels [97]) -> r = 0 ->
     mqtt_match (levels [97; 47; 35]) (levels [97]) = true ->
     exists gs, levels [97; 47; 35] = gs ++ [[chr_hash]] /\ levels_match gs (levels [97]) = true).
Proof.
  apply (is_topic_matched_mqtt [97; 47; 35] [97] []).
  split; [right; right; by repeat constructor|]. split; [by right; left|done].
Defined.

(** The filter "#" matches the reserved name "$aws/x", and "+/x" matches it too. *)
Example dollar_matched :
  _aws_iot_mqtt_internal_is_topic_matched (Some [35; 0]) (Some [36; 97; 119; 115; 47; 120]) = Ret 1 /\
  _aws_iot_mqtt_internal_is_topic_matched (Some [43; 47; 120; 0]) (Some [36; 97; 119; 115; 47; 120]) = Ret 1.
Proof. split; reflexivity. Qed.
