(* ===== verification/Client.v ===== *)
(** * The client object and its platform

    The structures of [include/aws_iot_mqtt_client.h] and the operations of
    [src/aws_iot_mqtt_client.c]. What the client obtains from its platform (clock,
    application memory, the TLS network of [include/network_interface.h]) and from
    the application (its callbacks) are the classes [Platform] and [Application]:
    the client is modelled and proved against these interfaces. *)
From S2P Require Import Prelude Types Timer.

(** ** State *)

Record MessageHandlers := MkHandler {
  mh_topicName : ptr;
  mh_topicNameLen : Z;
  mh_qos : QoS;
  mh_pApplicationHandler : handler;
  mh_pApplicationHandlerData : ptr }.

Record ClientStatus := MkStatus {
  clientState : ClientState;
  isPingOutstanding : bool;
  isAutoReconnectEnabled : bool }.

Record ClientData := MkData {
  nextPacketId : Z;
  packetTimeoutMs : Z;
  commandTimeoutMs : Z;
  keepAliveInterval : Z;
  currentReconnectWaitInterval : Z;
  counterNetworkDisconnected : Z;
  writeBufSize : Z;
  readBufSize : Z;
  writeBuf : list Z;
  readBuf : list Z;
  options : IoT_Client_Connect_Params;
  messageHandlers : list MessageHandlers;
  disconnectHandler : handler;
  disconnectHandlerData : ptr }.

(** The member [networkStack] is part of the platform. *)
Record AWS_IoT_Client := MkClient {
  pingTimer : Timer;
  reconnectDelayTimer : Timer;
  clientStatus : ClientStatus;
  clientData : ClientData }.

(** The client and the rest of the world. *)
Record sys (W : Type) := Sys { client : AWS_IoT_Client; world : W }.
Arguments Sys {W} client world.
Arguments client {W} s.
Arguments world {W} s.

(** The argument [AWS_IoT_Client *pClient]: null or the client. *)
Inductive client_ptr := NullClient | TheClient.
#[export] Instance client_ptr_eq_dec : EqDecision client_ptr.
Proof. solve_decision. Defined.

(** ** Updates of single members *)

Section Updates.
Definition upd_status (f : ClientStatus -> ClientStatus) (c : AWS_IoT_Client) :=
  MkClient (pingTimer c) (reconnectDelayTimer c) (f (clientStatus c)) (clientData c).
Definition upd_data (f : ClientData -> ClientData) (c : AWS_IoT_Client) :=
  MkClient (pingTimer c) (reconnectDelayTimer c) (clientStatus c) (f (clientData c)).
Definition set_pingTimer (t : Timer) (c : AWS_IoT_Client) :=
  MkClient t (reconnectDelayTimer c) (clientStatus c) (clientData c).
Definition set_reconnectDelayTimer (t : Timer) (c : AWS_IoT_Client) :=
  MkClient (pingTimer c) t (clientStatus c) (clientData c).

Definition set_clientState (st : ClientState) : AWS_IoT_Client -> AWS_IoT_Client :=
  upd_status (fun s => MkStatus st (isPingOutstanding s) (isAutoReconnectEnabled s)).
Definition set_isPingOutstanding (b : bool) : AWS_IoT_Client -> AWS_IoT_Client :=
  upd_status (fun s => MkStatus (clientState s) b (isAutoReconnectEnabled s)).
Definition set_isAutoReconnectEnabled (b : bool) : AWS_IoT_Client -> AWS_IoT_Client :=
  upd_status (fun s => MkStatus (clientState s) (isPingOutstanding s) b).

Definition set_nextPacketId (z : Z) : AWS_IoT_Client -> AWS_IoT_Client := upd_data (fun d =>
  MkData z (packetTimeoutMs d) (commandTimeoutMs d) (keepAliveInterval d)
    (currentReconnectWaitInterval d) (counterNetworkDisconnected d) (writeBufSize d) (readBufSize d)
    (writeBuf d) (readBuf d) (options d) (messageHandlers d) (disconnectHandler d) (disconnectHandlerData d)).
Definition set_keepAliveInterval (z : Z) : AWS_IoT_Client -> AWS_IoT_Client := upd_data (fun d =>
  MkData (nextPacketId d) (packetTimeoutMs d) (commandTimeoutMs d) z
    (currentReconnectWaitInterval d) (counterNetworkDisconnected d) (writeBufSize d) (readBufSize d)
    (writeBuf d) (readBuf d) (options d) (messageHandlers d) (disconnectHandler d) (disconnectHandlerData d)).
Definition set_currentReconnectWaitInterval (z : Z) : AWS_IoT_Client -> AWS_IoT_Client := upd_data (fun d =>
  MkData (nextPacketId d) (packetTimeoutMs d) (commandTimeoutMs d) (keepAliveInterval d)
    z (counterNetworkDisconnected d) (writeBufSize d) (readBufSize d)
    (writeBuf d) (readBuf d) (options d) (messageHandlers d) (disconnectHandler d) (disconnectHandlerData d)).
Definition set_counterNetworkDisconnected (z : Z) : AWS_IoT_Client -> AWS_IoT_Client := upd_data (fun d =>
  MkData (nextPacketId d) (packetTimeoutMs d) (commandTimeoutMs d) (keepAliveInterval d)
    (currentReconnectWaitInterval d) z (writeBufSize d) (readBufSize d)
    (writeBuf d) (readBuf d) (options d) (messageHandlers d) (disconnectHandler d) (disconnectHandlerData d)).
Definition set_writeBuf (b : list Z) : AWS_IoT_Client -> AWS_IoT_Client := upd_data (fun d =>
  MkData (nextPacketId d) (packetTimeoutMs d) (commandTimeoutMs d) (keepAliveInterval d)
    (currentReconnectWaitInterval d) (counterNetworkDisconnected d) (writeBufSize d) (readBufSize d)
    b (readBuf d) (options d) (messageHandlers d) (disconnectHandler d) (disconnectHandlerData d)).
Definition set_readBuf (b : list Z) : AWS_IoT_Client -> AWS_IoT_Client := upd_data (fun d =>
  MkData (nextPacketId d) (packetTimeoutMs d) (commandTimeoutMs d) (keepAliveInterval d)
    (currentReconnectWaitInterval d) (counterNetworkDisconnected d) (writeBufSize d) (readBufSize d)
    (writeBuf d) b (options d) (messageHandlers d) (disconnectHandler d) (disconnectHandlerData d)).
Definition set_options (o : IoT_Client_Connect_Params) : AWS_IoT_Client -> AWS_IoT_Client := upd_data (fun d =>
  MkData (nextPacketId d) (packetTimeoutMs d) (commandTimeoutMs d) (keepAliveInterval d)
    (currentReconnectWaitInterval d) (counterNetworkDisconnected d) (writeBufSize d) (readBufSize d)
    (writeBuf d) (readBuf d) o (messageHandlers d) (disconnectHandler d) (disconnectHandlerData d)).
Definition set_messageHandlers (h : list MessageHandlers) : AWS_IoT_Client -> AWS_IoT_Client := upd_data (fun d =>
  MkData (nextPacketId d) (packetTimeoutMs d) (commandTimeoutMs d) (keepAliveInterval d)
    (currentReconnectWaitInterval d) (counterNetworkDisconnected d) (writeBufSize d) (readBufSize d)
    (writeBuf d) (readBuf d) (options d) h (disconnectHandler d) (disconnectHandlerData d)).
Definition set_disconnectHandler (h : handler) (p : ptr) : AWS_IoT_Client -> AWS_IoT_Client := upd_data (fun d =>
  MkData (nextPacketId d) (packetTimeoutMs d) (commandTimeoutMs d) (keepAliveInterval d)
    (currentReconnectWaitInterval d) (counterNetworkDisconnected d) (writeBufSize d) (readBufSize d)
    (writeBuf d) (readBuf d) (options d) (messageHandlers d) h p).
End Updates.

(** ** Interfaces *)

(** A read stores the bytes [rd_bytes] at the start of the destination, and sets
    [*read_len] only when [rd_len] is some value. *)
Record read_result := ReadResult { rd_rc : IoT_Error_t; rd_bytes : list Z; rd_len : option Z }.

(** What the client obtains from its platform: the clock, the memory of the
    application, and the function pointers of [struct Network], each acting on the
    world. A read is given the number of bytes wanted, a write the bytes from the
    start address to the end of the array it lies in and the number of them to send. *)
Class Platform (W : Type) := {
  gettimeofday : M W timeval;
  app_memory : W -> memory;
  iot_tls_init : IoT_Client_Init_Params -> M W IoT_Error_t;
  net_connect : M W IoT_Error_t;
  net_read : Z -> Timer -> M W read_result;
  net_write : list Z -> Z -> Timer -> M W (IoT_Error_t * option Z);
  net_disconnect : M W IoT_Error_t;
  net_isConnected : M W IoT_Error_t;
  net_destroy : M W IoT_Error_t }.

(** The callbacks of the application, by address: message handlers and disconnect
    handlers. They run on the client and may call its operations; a message handler
    returns the message parameters as it leaves them. *)
Class Application (W : Type) := {
  app_handler : Z -> ptr -> Z -> IoT_Publish_Message_Params -> ptr ->
                M (sys W) IoT_Publish_Message_Params;
  app_disconnect_handler : Z -> ptr -> M (sys W) unit }.

(** ** Access to the state *)

Section State.
Context {W : Type} `{Platform W}.

Definition get_client : M (sys W) AWS_IoT_Client := gets client.
Definition mod_client (f : AWS_IoT_Client -> AWS_IoT_Client) : M (sys W) unit :=
  modify (fun s => Sys (f (client s)) (world s)).
Definition on_world {A} (m : M W A) : M (sys W) A := fun s =>
  match m (world s) with
  | Ret (a, w) => Ret (a, Sys (client s) w)
  | Exn e => Exn e
  end.

(** The memory the pointer arguments of the client designate. *)
Definition get_source : M (sys W) (ptr -> option (list Z)) :=
  gets (fun s => deref (app_memory (world s)) (readBuf (clientData (client s)))).

Definition expired (t : Timer) : M (sys W) bool :=
  now ← on_world gettimeofday; mret (has_timer_expired now t).
Definition start_ms (timeout : Z) : M (sys W) Timer :=
  now ← on_world gettimeofday; mret (countdown_ms now timeout).
Definition start_sec (timeout : Z) : M (sys W) Timer :=
  now ← on_world gettimeofday; mret (countdown_sec now timeout).

(** A serializer is run on the write buffer. *)
Definition put_writeBuf (buf : option (list Z)) : M (sys W) unit :=
  match buf with Some b => mod_client (set_writeBuf b) | None => mret tt end.

(** ** Operations *)

Definition aws_iot_mqtt_get_client_state (pClient : client_ptr) : M (sys W) ClientState :=
  match pClient with
  | NullClient => mret CLIENT_STATE_INVALID
  | TheClient => c ← get_client; mret (clientState (clientStatus c))
  end.

Definition aws_iot_mqtt_set_client_state (pClient : client_ptr)
    (expectedCurrentState newState : ClientState) : M (sys W) IoT_Error_t :=
  match pClient with
  | NullClient => mret NULL_VALUE_ERROR
  | TheClient =>
      st ← aws_iot_mqtt_get_client_state TheClient;
      if decide (expectedCurrentState = st) then
        _ ← mod_client (set_clientState newState);
        mret SUCCESS
      else mret MQTT_UNEXPECTED_CLIENT_STATE_ERROR
  end.

(** The options as the assignments leave them. *)
Definition copied_options (n : IoT_Client_Connect_Params) : IoT_Client_Connect_Params :=
  {| isWillMsgPresent := isWillMsgPresent n;
     MQTTVersion := MQTTVersion n;
     pClientID := pClientID n;
     clientIDLen := clientIDLen n;
     pUsername := pUsername n;
     usernameLen := usernameLen n;
     pPassword := pUsername n;
     passwordLen := passwordLen n;
     will := {| will_pTopicName := will_pTopicName (will n);
                will_topicNameLen := will_topicNameLen (will n);
                will_pMessage := will_pMessage (will n);
                will_msgLen := will_msgLen (will n);
                will_qos := will_qos (will n);
                will_isRetained := will_isRetained (will n) |};
     keepAliveIntervalInSec := keepAliveIntervalInSec n;
     isCleanSession := isCleanSession n |}.

Definition aws_iot_mqtt_set_connect_params (pClient : client_ptr)
    (pNewConnectParams : option IoT_Client_Connect_Params) : M (sys W) IoT_Error_t :=
  match pClient, pNewConnectParams with
  | TheClient, Some n =>
      _ ← mod_client (set_options (copied_options n));
      mret SUCCESS
  | _, _ => mret NULL_VALUE_ERROR
  end.

(** The members of a message handler that initialization resets; the length is
    left as it is. *)
Definition reset_handler (h : MessageHandlers) : MessageHandlers :=
  {| mh_topicName := NULL; mh_topicNameLen := mh_topicNameLen h; mh_qos := QOS0;
     mh_pApplicationHandler := None; mh_pApplicationHandlerData := NULL |}.

Definition init_data (p : IoT_Client_Init_Params) (d : ClientData) : ClientData :=
  {| nextPacketId := 1;
     packetTimeoutMs := mqttPacketTimeout_ms p;
     commandTimeoutMs := mqttCommandTimeout_ms p;
     keepAliveInterval := keepAliveInterval d;
     currentReconnectWaitInterval := currentReconnectWaitInterval d;
     counterNetworkDisconnected := 0;
     writeBufSize := AWS_IOT_MQTT_TX_BUF_LEN;
     readBufSize := AWS_IOT_MQTT_RX_BUF_LEN;
     writeBuf := writeBuf d;
     readBuf := readBuf d;
     options := options d;
     messageHandlers := reset_handler <$> messageHandlers d;
     disconnectHandler := init_disconnectHandler p;
     disconnectHandlerData := init_disconnectHandlerData p |}.

Definition aws_iot_mqtt_init (pClient : client_ptr) (pInitParams : option IoT_Client_Init_Params) :
    M (sys W) IoT_Error_t :=
  match pClient, pInitParams with
  | TheClient, Some p =>
      if decide (pHostURL p = NULL \/ 0 = port p \/ pRootCALocation p = NULL \/
                 pDevicePrivateKeyLocation p = NULL \/ pDeviceCertLocation p = NULL)
      then mret NULL_VALUE_ERROR
      else
        _ ← mod_client (upd_data (init_data p));
        rc ← aws_iot_mqtt_set_connect_params TheClient (Some IoT_Client_Connect_Params_initializer);
        if decide (SUCCESS <> rc) then mret rc
        else
          _ ← mod_client (set_isPingOutstanding false);
          _ ← mod_client (set_isAutoReconnectEnabled (enableAutoReconnect p));
          rc ← on_world (iot_tls_init p);
          if decide (SUCCESS <> rc) then
            _ ← mod_client (set_clientState CLIENT_STATE_INVALID);
            mret rc
          else
            _ ← mod_client (set_pingTimer init_timer);
            _ ← mod_client (set_reconnectDelayTimer init_timer);
            _ ← mod_client (set_clientState CLIENT_STATE_INITIALIZED);
            mret SUCCESS
  | _, _ => mret NULL_VALUE_ERROR
  end.

(** The arithmetic of the packet identifiers. *)
Definition next_packet_id (id : Z) : Z := u16 (if MAX_PACKET_ID =? id then 1 else id + 1).

(** The functions without a null test are given the client itself. *)
Definition aws_iot_mqtt_get_next_packet_id : M (sys W) Z :=
  c ← get_client;
  let id := next_packet_id (nextPacketId (clientData c)) in
  _ ← mod_client (set_nextPacketId id);
  mret id.

(** The switch of the function below. *)
Definition connected_state (st : ClientState) : bool :=
  match st with
  | CLIENT_STATE_INVALID | CLIENT_STATE_INITIALIZED | CLIENT_STATE_CONNECTING => false
  | CLIENT_STATE_CONNECTED_IDLE
  | CLIENT_STATE_CONNECTED_YIELD_IN_PROGRESS
  | CLIENT_STATE_CONNECTED_PUBLISH_IN_PROGRESS
  | CLIENT_STATE_CONNECTED_SUBSCRIBE_IN_PROGRESS
  | CLIENT_STATE_CONNECTED_UNSUBSCRIBE_IN_PROGRESS
  | CLIENT_STATE_CONNECTED_RESUBSCRIBE_IN_PROGRESS
  | CLIENT_STATE_CONNECTED_WAIT_FOR_CB_RETURN => true
  | CLIENT_STATE_DISCONNECTING
  | CLIENT_STATE_DISCONNECTED_ERROR
  | CLIENT_STATE_DISCONNECTED_MANUALLY
  | CLIENT_STATE_PENDING_RECONNECT => false
  end.

Definition aws_iot_mqtt_is_client_connected (pClient : client_ptr) : M (sys W) bool :=
  match pClient with
  | NullClient => mret false
  | TheClient => c ← get_client; mret (connected_state (clientState (clientStatus c)))
  end.

Definition aws_iot_is_autoreconnect_enabled (pClient : client_ptr) : M (sys W) bool :=
  match pClient with
  | NullClient => mret false
  | TheClient => c ← get_client; mret (isAutoReconnectEnabled (clientStatus c))
  end.

Definition aws_iot_mqtt_autoreconnect_set_status (pClient : client_ptr) (newStatus : bool) :
    M (sys W) IoT_Error_t :=
  match pClient with
  | NullClient => mret NULL_VALUE_ERROR
  | TheClient => _ ← mod_client (set_isAutoReconnectEnabled newStatus); mret SUCCESS
  end.

Definition aws_iot_mqtt_set_disconnect_handler (pClient : client_ptr)
    (pDisconnectHandler : handler) (pDisconnectHandlerData : ptr) : M (sys W) IoT_Error_t :=
  match pClient, pDisconnectHandler with
  | TheClient, Some h =>
      _ ← mod_client (set_disconnectHandler (Some h) pDisconnectHandlerData); mret SUCCESS
  | _, _ => mret NULL_VALUE_ERROR
  end.

Definition aws_iot_mqtt_get_network_disconnected_count : M (sys W) Z :=
  c ← get_client; mret (counterNetworkDisconnected (clientData c)).

Definition aws_iot_mqtt_reset_network_disconnected_count : M (sys W) unit :=
  mod_client (set_counterNetworkDisconnected 0).
End State.

(** ** Frame reasoning

    [pres R m]: every run of [m] that returns relates the client before and after by
    [R]. The operations are proved once against the closure of [R] under the updates
    they make; invariants and frame properties are instances of it. *)
Section Pres.
Context {W : Type} (R : AWS_IoT_Client -> AWS_IoT_Client -> Prop).

Definition pres {A} (m : M (sys W) A) : Prop :=
  forall s, wp any_exn m (fun _ s' => R (client s) (client s')) s.

Context `{!PreOrder R}.

Lemma pres_ret {A} (a : A) : pres (mret a).
Proof. intros s. apply wp_ret. reflexivity. Qed.
Lemma pres_bind {A B} (m : M (sys W) A) (k : A -> M (sys W) B) :
  pres m -> (forall a, pres (k a)) -> pres (m ≫= k).
Proof.
  intros Hm Hk s. apply wp_bind. eapply wp_mono; [apply Hm|]. intros a s' H1.
  eapply wp_mono; [apply Hk|]. intros b s'' H2. exact (transitivity H1 H2).
Qed.
(** The client read in the first step is the client before the second. *)
Lemma pres_get_bind {B} (k : AWS_IoT_Client -> M (sys W) B) :
  (forall s, wp any_exn (k (client s)) (fun _ s' => R (client s) (client s')) s) ->
  pres (get_client ≫= k).
Proof. intros Hk s. apply wp_bind, wp_gets, Hk. Qed.
Lemma pres_raise {A} e : pres (A := A) (raise e).
Proof. done. Qed.
Lemma pres_gets {A} (f : sys W -> A) : pres (gets f).
Proof. intros s. apply wp_gets. reflexivity. Qed.
Lemma pres_mod f : (forall c, R c (f c)) -> pres (mod_client f).
Proof. intros Hf s. apply wp_modify, Hf. Qed.
Lemma pres_on_world {A} (m : M W A) : pres (on_world m).
Proof. intros s. rw /wp /on_world. destruct (m (world s)) as [[a w]|e]; simpl; [reflexivity|done]. Qed.
Lemma pres_lift_outcome {A} (o : outcome A) : pres (lift_outcome o).
Proof. intros s. apply wp_lift_outcome. destruct o; [reflexivity|done]. Qed.
Lemma pres_lift_option {A} e (o : option A) : pres (lift_option e o).
Proof. destruct o; [apply pres_ret|apply pres_raise]. Qed.
End Pres.

Lemma pres_mono {W} (R R' : AWS_IoT_Client -> AWS_IoT_Client -> Prop) {A} (m : M (sys W) A) :
  (forall c c', R c c' -> R' c c') -> pres R m -> pres R' m.
Proof. intros HR Hm s. eapply wp_mono; [apply Hm|]. intros a s'. apply HR. Qed.

(** A step that is only known to preserve [R]. *)
Lemma wp_bind_pres {W} (R : AWS_IoT_Client -> AWS_IoT_Client -> Prop) {A B} (m : M (sys W) A)
    (k : A -> M (sys W) B) Q s :
  pres R m -> (forall a s', R (client s) (client s') -> wp any_exn (k a) Q s') ->
  wp any_exn (m ≫= k) Q s.
Proof. intros Hm Hk. apply wp_bind. eapply wp_mono; [apply Hm|]. exact Hk. Qed.

(** Take a computation apart until only the updates are left. *)
Ltac pres_step :=
  match goal with
  | |- forall _, pres _ _ => intros ?
  | |- pres _ (mret _) => apply pres_ret
  | |- pres _ (_ ≫= _) => apply pres_bind
  | |- pres _ (raise _) => apply pres_raise
  | |- pres _ (gets _) => apply pres_gets
  | |- pres _ get_client => apply pres_gets
  | |- pres _ get_source => apply pres_gets
  | |- pres _ (on_world _) => apply pres_on_world
  | |- pres _ (lift_outcome _) => apply pres_lift_outcome
  | |- pres _ (lift_option _ _) => apply pres_lift_option
  | |- pres _ (expired _) => unfold expired
  | |- pres _ (start_ms _) => unfold start_ms
  | |- pres _ (start_sec _) => unfold start_sec
  | |- pres _ (if ?x then _ else _) => destruct x
  | |- pres _ (match ?x with _ => _ end) => destruct x
  | |- PreOrder _ => apply _
  end.
Ltac pres_auto := repeat (pres_step || solve [eauto with iot]).

(** ** The type invariant of the client *)

(** The arrays have the lengths of their declarations, the size members say so, and
    the packet identifier is a valid one. *)
Record client_ok (c : AWS_IoT_Client) : Prop := {
  ok_writeBuf : Z.of_nat (length (writeBuf (clientData c))) = AWS_IOT_MQTT_TX_BUF_LEN;
  ok_readBuf : Z.of_nat (length (readBuf (clientData c))) = AWS_IOT_MQTT_RX_BUF_LEN;
  ok_writeBufSize : writeBufSize (clientData c) = AWS_IOT_MQTT_TX_BUF_LEN;
  ok_readBufSize : readBufSize (clientData c) = AWS_IOT_MQTT_RX_BUF_LEN;
  ok_handlers : length (messageHandlers (clientData c)) = AWS_IOT_MQTT_NUM_SUBSCRIBE_HANDLERS;
  ok_packetId : 1 <= nextPacketId (clientData c) <= MAX_PACKET_ID }.

(** The preservation of the invariant, as a relation. *)
Definition ok_rel (c c' : AWS_IoT_Client) : Prop := client_ok c -> client_ok c'.
#[export] Instance ok_rel_preorder : PreOrder ok_rel.
Proof. split; rw /ok_rel; [by intros c|by eauto]. Qed.

Lemma next_packet_id_range id : 0 <= id <= MAX_PACKET_ID -> 1 <= next_packet_id id <= MAX_PACKET_ID.
Proof.
  rw /next_packet_id /MAX_PACKET_ID. intros Hid. destruct (Z.eqb_spec 65535 id); [done|].
  rw u16_small; width.
Qed.

(** The identifiers count up and wrap from [MAX_PACKET_ID] to 1. *)
Lemma next_packet_id_mod id : 1 <= id <= MAX_PACKET_ID -> next_packet_id id = id mod MAX_PACKET_ID + 1.
Proof.
  rw /next_packet_id /MAX_PACKET_ID. intros Hid. destruct (Z.eqb_spec 65535 id) as [<-|Hne]; [done|].
  rw u16_small; [|width]. rw Z.mod_small; lia.
Qed.

Lemma next_packet_id_iter n id : 1 <= id <= MAX_PACKET_ID ->
  Nat.iter n next_packet_id id = (id - 1 + Z.of_nat n) mod MAX_PACKET_ID + 1.
Proof.
  intros Hid. induction n as [|n IH].
  - rw /MAX_PACKET_ID in Hid. rw Z.mod_small; [simpl; lia|rw /MAX_PACKET_ID; lia].
  - change (Nat.iter (S n) next_packet_id id) with (next_packet_id (Nat.iter n next_packet_id id)).
    rw IH next_packet_id_mod.
    + rw Zplus_mod_idemp_l. f_equal. f_equal. lia.
    + pose proof (Z.mod_pos_bound (id - 1 + Z.of_nat n) MAX_PACKET_ID ltac:(done)). lia.
Qed.

(** [get_client] followed by an update. *)
Section ClientLemmas.
Context {W : Type} `{!Platform W}.

Lemma set_client_state_run st st' (s : sys W) :
  aws_iot_mqtt_set_client_state TheClient st st' s =
  if decide (st = clientState (clientStatus (client s)))
  then Ret (SUCCESS, Sys (set_clientState st' (client s)) (world s))
  else Ret (MQTT_UNEXPECTED_CLIENT_STATE_ERROR, s).
Proof.
  rw /aws_iot_mqtt_set_client_state /aws_iot_mqtt_get_client_state.
  erewrite bind_run; [|done]. by case_decide.
Qed.

Lemma set_client_state_ok st st' (s : sys W) : clientState (clientStatus (client s)) = st ->
  aws_iot_mqtt_set_client_state TheClient st st' s =
  Ret (SUCCESS, Sys (set_clientState st' (client s)) (world s)).
Proof. intros Hst. by rw set_client_state_run decide_True. Qed.

Lemma get_next_packet_id_run (s : sys W) :
  aws_iot_mqtt_get_next_packet_id s =
  Ret (next_packet_id (nextPacketId (clientData (client s))),
       Sys (set_nextPacketId (next_packet_id (nextPacketId (clientData (client s)))) (client s)) (world s)).
Proof. done. Qed.

Lemma pres_set_client_state R `{!PreOrder R} p st st' :
  (forall c, R c (set_clientState st' c)) -> pres (W := W) R (aws_iot_mqtt_set_client_state p st st').
Proof.
  intros HR. rw /aws_iot_mqtt_set_client_state /aws_iot_mqtt_get_client_state.
  pres_auto. by apply pres_mod.
Qed.

Lemma pres_get_next_packet_id R `{!PreOrder R} :
  (forall c, R c (set_nextPacketId (next_packet_id (nextPacketId (clientData c))) c)) ->
  pres (W := W) R aws_iot_mqtt_get_next_packet_id.
Proof. intros HR s. rw /wp get_next_packet_id_run. apply HR. Qed.
End ClientLemmas.

(** ** Properties *)

(** Packet identifiers are never zero, and any [MAX_PACKET_ID] consecutive
    requests return pairwise different identifiers. *)
Theorem packet_ids_unique id i j :
  1 <= id <= MAX_PACKET_ID -> (i < j)%nat -> Z.of_nat j - Z.of_nat i < MAX_PACKET_ID ->
  1 <= Nat.iter i next_packet_id id <= MAX_PACKET_ID /\
  Nat.iter i next_packet_id id <> Nat.iter j next_packet_id id.
Proof.
  intros Hid Hij Hwin. rw !next_packet_id_iter //. rw /MAX_PACKET_ID in Hid Hwin |- *.
  split; [pose proof (Z.mod_pos_bound (id - 1 + Z.of_nat i) 65535); lia|].
  intros Heq. Z.to_euclidean_division_equations. lia.
Qed.

Lemma packet_ids_unique_witness :
  1 <= Nat.iter 2 next_packet_id 65534 <= MAX_PACKET_ID /\
  Nat.iter 2 next_packet_id 65534 <> Nat.iter 5 next_packet_id 65534.
Proof. apply (packet_ids_unique 65534 2 5); [by rw /MAX_PACKET_ID|lia|by rw /MAX_PACKET_ID]. Defined.
