(* ===== verification/Sim.v ===== *)
(** * A simulated platform

    An executable instance of the interfaces of [Client.v]: a clock that advances by a
    fixed step at every reading, an application memory, a network that delivers a
    given sequence of bytes and records what is written, and handlers that record
    their calls. The concrete runs of the development are runs on this platform. *)
From S2P Require Import Prelude Types Timer Client.

Record sim := Sim {
  sim_now : Z;                              (* microseconds *)
  sim_step : Z;
  sim_mem : memory;
  sim_in : list Z;                          (* bytes that have arrived *)
  sim_out : list (list Z);                  (* writes, the last one first *)
  sim_calls : list (Z * ptr * Z) }.         (* handler calls, the last one first *)

Definition sim_time (u : Z) : timeval := Timeval (u / 1000000) (u mod 1000000).

Definition sim_gettimeofday : M sim timeval := fun w =>
  Ret (sim_time (sim_now w),
       Sim (sim_now w + Z.max 1 (sim_step w)) (sim_step w) (sim_mem w) (sim_in w) (sim_out w) (sim_calls w)).

Definition sim_set_in (l : list Z) (w : sim) : sim :=
  Sim (sim_now w) (sim_step w) (sim_mem w) l (sim_out w) (sim_calls w).

(** A read waits for no byte: it succeeds when enough bytes have arrived. *)
Definition sim_read (n : Z) (t : Timer) : M sim read_result := fun w =>
  if decide (n <= Z.of_nat (length (sim_in w))) then
    Ret (ReadResult SUCCESS (take (Z.to_nat n) (sim_in w)) (Some n),
         sim_set_in (drop (Z.to_nat n) (sim_in w)) w)
  else if decide (sim_in w = []) then Ret (ReadResult NETWORK_SSL_NOTHING_TO_READ [] None, w)
  else Ret (ReadResult NETWORK_SSL_READ_TIMEOUT_ERROR (sim_in w) None, sim_set_in [] w).

Definition sim_write (bs : list Z) (n : Z) (t : Timer) : M sim (IoT_Error_t * option Z) := fun w =>
  Ret ((SUCCESS, Some n),
       Sim (sim_now w) (sim_step w) (sim_mem w) (sim_in w) (take (Z.to_nat n) bs :: sim_out w) (sim_calls w)).

Definition sim_handler (f : Z) (p : ptr) (n : Z) (msg : IoT_Publish_Message_Params) (d : ptr) :
    M (sys sim) IoT_Publish_Message_Params := fun s =>
  Ret (msg, Sys (client s)
         (Sim (sim_now (world s)) (sim_step (world s)) (sim_mem (world s)) (sim_in (world s))
            (sim_out (world s)) ((f, p, n) :: sim_calls (world s)))).

#[export] Instance sim_platform : Platform sim := {
  gettimeofday := sim_gettimeofday;
  app_memory := sim_mem;
  iot_tls_init := fun _ => mret SUCCESS;
  net_connect := mret SUCCESS;
  net_read := sim_read;
  net_write := sim_write;
  net_disconnect := mret SUCCESS;
  net_isConnected := mret NETWORK_PHYSICAL_LAYER_CONNECTED;
  net_destroy := mret SUCCESS }.

#[export] Instance sim_application : Application sim := {
  app_handler := sim_handler;
  app_disconnect_handler := fun _ _ => mret tt }.

(** A client in a given state with [hs] subscribed, and a world. *)
Definition sim_client (st : ClientState) (hs : list MessageHandlers) : AWS_IoT_Client :=
  MkClient init_timer init_timer (MkStatus st false true)
    (MkData 1 2000 20000 60 1000 0 512 512 (replicate 512 0) (replicate 512 0)
       IoT_Client_Connect_Params_initializer
       (take 5 (hs ++ replicate 5 (MkHandler NULL 0 QOS0 None NULL))) None NULL).

(** The texts at the addresses 1 to 4: "dev", "a/b", "a/+", "hello". *)
Definition sim_memory : memory := fun a =>
  match a with
  | 1 => Some [100; 101; 118; 0]
  | 2 => Some [97; 47; 98; 0]
  | 3 => Some [97; 47; 43; 0]
  | 4 => Some [104; 101; 108; 108; 111; 0]
  | _ => None
  end.

Definition sim_world (input : list Z) : sim := Sim 5000000 10 sim_memory input [] [].

Lemma sim_time_valid u : tv_valid (sim_time u).
Proof. rw /tv_valid /=. by apply Z.mod_pos_bound. Qed.

Lemma sim_time_usecs u : usecs (sim_time u) = u.
Proof. rw /usecs /=. pose proof (Z.div_mod u 1000000). lia. Qed.

Lemma sim_client_ok st hs : client_ok (sim_client st hs).
Proof.
  constructor; try done. cbn [messageHandlers clientData sim_client].
  rw length_take length_app length_replicate. unfold AWS_IOT_MQTT_NUM_SUBSCRIBE_HANDLERS. lia.
Qed.
