(* ===== verification/Transport.v ===== *)
(** * Sending and receiving packets

    The transport functions of [src/aws_iot_mqtt_client_common_internal.c]: sending
    the write buffer, reading one packet into the read buffer, delivering incoming
    messages to the handlers, and the read cycle every blocking operation runs.

    [fuel] bounds the iterations of every loop whose end depends on the network or
    the clock; running out of it is the exception [OutOfFuel], never a value. *)
From S2P Require Import Prelude Buffer Types Wire Packets Timer Topic Client Sim.

(** The memory the pointers designate in a state of the system. *)
Definition sys_source {W} `{!Platform W} (s : sys W) : source :=
  deref (app_memory (world s)) (readBuf (clientData (client s))).

Section Transport.
Context {W : Type} `{!Platform W} `{!Application W} (fuel : nat).

(** ** Sending *)

(** The loop of [aws_iot_mqtt_internal_send_packet]; the result is [sent]. Every
    write is asked for [length] bytes from [writeBuf + sent]. *)
Fixpoint send_loop (fuel : nat) (length : Z) (timer : Timer) (sent sentLen : Z) : M (sys W) Z :=
  if decide (sent < length) then
    e ← expired timer;
    if e : bool then mret sent
    else
      match fuel with
      | O => raise OutOfFuel
      | S fuel' =>
          c ← get_client;
          '(rc, n) ← on_world (net_write (drop (Z.to_nat sent) (writeBuf (clientData c))) length timer);
          let sentLen := default sentLen n in
          if decide (SUCCESS <> rc) then mret sent
          else send_loop fuel' length timer (size_t (sent + sentLen)) sentLen
      end
  else mret sent.

Definition aws_iot_mqtt_internal_send_packet (pClient : client_ptr) (length : Z)
    (pTimer : option Timer) : M (sys W) IoT_Error_t :=
  match pClient, pTimer with
  | TheClient, Some timer =>
      c ← get_client;
      if decide (length >= writeBufSize (clientData c)) then mret MQTT_TX_BUFFER_TOO_SHORT_ERROR
      else
        sent ← send_loop fuel length timer 0 0;
        if decide (sent = length) then mret SUCCESS else mret FAILURE
  | _, _ => mret NULL_VALUE_ERROR
  end.

(** ** Receiving one packet *)

(** The loop of the length decoder. [len] is also the variable the network sets to
    the number of bytes read. [encodedByte] is the local of that name; the network
    stores the byte it reads there. *)
Fixpoint decode_packet_len_loop (fuel : nat) (multiplier len rem_len encodedByte : Z)
    (timer : Timer) : M (sys W) (IoT_Error_t * Z) :=
  match fuel with
  | O => raise OutOfFuel
  | S fuel' =>
      let len := size_t (len + 1) in
      if decide (len > MAX_NO_OF_REMAINING_LENGTH_BYTES)
      then mret (MQTT_DECODE_REMAINING_LENGTH_ERROR, rem_len)
      else
        r ← on_world (net_read 1 timer);
        let encodedByte := default encodedByte (head (rd_bytes r)) in
        let len := default len (rd_len r) in
        if decide (SUCCESS <> rd_rc r) then mret (rd_rc r, rem_len)
        else
          let rem_len := size_t (rem_len + Z.land encodedByte 127 * multiplier) in
          let multiplier := size_t (multiplier * 128) in
          if decide (Z.land encodedByte 128 <> 0)
          then decode_packet_len_loop fuel' multiplier len rem_len encodedByte timer
          else mret (rd_rc r, rem_len)
  end.

(** The results are the return code and [*rem_len]. *)
Definition _aws_iot_mqtt_internal_decode_packet_remaining_len (timer : Timer) :
    M (sys W) (IoT_Error_t * Z) :=
  decode_packet_len_loop fuel 1 0 0 0 timer.

(** The network stores [bytes] at [readBuf + off]. *)
Definition store_readBuf (off : nat) (bytes : list Z) : M (sys W) unit :=
  c ← get_client;
  let buf := readBuf (clientData c) in
  if decide (off + length bytes <= length buf)%nat
  then mod_client (set_readBuf (take off buf ++ bytes ++ drop (off + length bytes) buf))
  else raise (Fault OobWrite).

(** [networkStack.read(readBuf + off, n, timer, &read_len)]: the return code and
    [read_len]. *)
Definition read_into_readBuf (off : nat) (n : Z) (timer : Timer) (read_len : Z) :
    M (sys W) (IoT_Error_t * Z) :=
  r ← on_world (net_read n timer);
  _ ← store_readBuf off (rd_bytes r);
  mret (rd_rc r, default read_len (rd_len r)).

(** The loop that reads a packet longer than the buffer and drops it. *)
Fixpoint drop_packet_loop (fuel : nat) (rem_len total_bytes_read bytes_to_be_read read_len : Z)
    (timer : Timer) : M (sys W) unit :=
  match fuel with
  | O => raise OutOfFuel
  | S fuel' =>
      '(rc, read_len) ← read_into_readBuf 0 bytes_to_be_read timer read_len;
      c ← get_client;
      let size := readBufSize (clientData c) in
      if decide (SUCCESS = rc) then
        let total_bytes_read := size_t (total_bytes_read + read_len) in
        let bytes_to_be_read :=
          if decide (size_t (rem_len - total_bytes_read) >= size) then size
          else size_t (rem_len - total_bytes_read) in
        if decide (total_bytes_read < rem_len)
        then drop_packet_loop fuel' rem_len total_bytes_read bytes_to_be_read read_len timer
        else mret tt
      else mret tt
  end.

(** The rest of a packet that fits: its length is written back into the buffer and
    its body read behind it. *)
Definition read_packet_body (rem_len read_len pPacketType : Z) (timer : Timer) :
    M (sys W) (IoT_Error_t * Z) :=
  c ← get_client;
  '(k, cur) ← lift_outcome (aws_iot_mqtt_internal_write_len_to_buffer (u32 rem_len)
                             (Cursor (readBuf (clientData c)) 1));
  _ ← mod_client (set_readBuf (cur_buf cur));
  let len := 1 + k in
  '(rc, read_len) ← (if decide (rem_len > 0)
                     then read_into_readBuf (Z.to_nat len) rem_len timer read_len
                     else mret (SUCCESS, rem_len));
  if decide (SUCCESS <> rc \/ read_len <> rem_len) then mret (FAILURE, pPacketType)
  else
    c ← get_client;
    header ← lift_option (Fault OobRead) (readBuf (clientData c) !! 0%nat);
    mret (rc, hdr_type header).

(** The results are the return code and [*pPacketType]. *)
Definition _aws_iot_mqtt_internal_read_packet (pTimer : Timer) (pPacketType : Z) :
    M (sys W) (IoT_Error_t * Z) :=
  c ← get_client;
  packetTimer ← start_ms (packetTimeoutMs (clientData c));
  '(rc, read_len) ← read_into_readBuf 0 1 pTimer 0;
  if decide (NETWORK_SSL_NOTHING_TO_READ = rc) then mret (MQTT_NOTHING_TO_READ, pPacketType)
  else if decide (SUCCESS <> rc) then mret (rc, pPacketType)
  else
    '(rc, rem_len) ← _aws_iot_mqtt_internal_decode_packet_remaining_len packetTimer;
    if decide (SUCCESS <> rc) then mret (rc, pPacketType)
    else
      c ← get_client;
      if decide (rem_len >= readBufSize (clientData c)) then
        _ ← drop_packet_loop fuel rem_len 0 (readBufSize (clientData c)) read_len packetTimer;
        mret (MQTT_RX_BUFFER_TOO_SHORT_ERROR, pPacketType)
      else read_packet_body rem_len read_len pPacketType packetTimer.

(** ** Delivery *)

(** The test whether handler [h] is called for a topic name. *)
Definition handler_matches (src : source) (h : MessageHandlers) (pTopicName : ptr)
    (topicNameLen : Z) : outcome bool :=
  match src (mh_topicName h), src pTopicName with
  | Some f, Some n =>
      same ← (if decide (topicNameLen = mh_topicNameLen h)
              then strncmp_eq (Z.to_nat topicNameLen) n f else Ret false);
      if same : bool then Ret true
      else if decide (topicNameLen <= Z.of_nat (length n)) then
        m ← _aws_iot_mqtt_internal_is_topic_matched (Some f) (Some (take (Z.to_nat topicNameLen) n));
        Ret (negb (m =? 0))
      else Exn (Fault OobRead)
  | _, _ => Exn (Fault OobRead)
  end.

(** One entry of the table: its handler is called when the name matches. *)
Definition deliver_to (itr : nat) (pTopicName : ptr) (topicNameLen : Z)
    (msg : IoT_Publish_Message_Params) : M (sys W) IoT_Publish_Message_Params :=
  c ← get_client;
  h ← lift_option (Fault OobRead) (messageHandlers (clientData c) !! itr);
  if decide (mh_topicName h <> NULL) then
    src ← get_source;
    m ← lift_outcome (handler_matches src h pTopicName topicNameLen);
    if m : bool then
      match mh_pApplicationHandler h with
      | Some f => app_handler f pTopicName topicNameLen msg (mh_pApplicationHandlerData h)
      | None => mret msg
      end
    else mret msg
  else mret msg.

Fixpoint deliver_loop (itrs : list nat) (pTopicName : ptr) (topicNameLen : Z)
    (msg : IoT_Publish_Message_Params) : M (sys W) IoT_Publish_Message_Params :=
  match itrs with
  | [] => mret msg
  | itr :: itrs' =>
      msg ← deliver_to itr pTopicName topicNameLen msg;
      deliver_loop itrs' pTopicName topicNameLen msg
  end.

Definition _aws_iot_mqtt_internal_deliver_message (pTopicName : ptr) (topicNameLen : Z)
    (pMessageParams : IoT_Publish_Message_Params) :
    M (sys W) (IoT_Error_t * IoT_Publish_Message_Params) :=
  if decide (pTopicName = NULL) then mret (NULL_VALUE_ERROR, pMessageParams)
  else
    st ← aws_iot_mqtt_get_client_state TheClient;
    _ ← aws_iot_mqtt_set_client_state TheClient st CLIENT_STATE_CONNECTED_WAIT_FOR_CB_RETURN;
    msg ← deliver_loop (seq 0 AWS_IOT_MQTT_NUM_SUBSCRIBE_HANDLERS) pTopicName topicNameLen pMessageParams;
    rc ← aws_iot_mqtt_set_client_state TheClient CLIENT_STATE_CONNECTED_WAIT_FOR_CB_RETURN st;
    mret (rc, msg).

(** Run a serializer on the write buffer: its return code and the length. *)
Definition serialize (f : list Z -> Z -> outcome ser_out) (len : Z) : M (sys W) (IoT_Error_t * Z) :=
  c ← get_client;
  o ← lift_outcome (f (writeBuf (clientData c)) (writeBufSize (clientData c)));
  _ ← put_writeBuf (so_buf o);
  mret (so_rc o, default len (so_len o)).

(** [msg] is a local that is not initialized; the fields that are used are set by
    the deserializer. *)
Definition _aws_iot_mqtt_internal_handle_publish (pTimer : Timer) : M (sys W) IoT_Error_t :=
  c ← get_client;
  '(rc, o) ← lift_outcome (aws_iot_mqtt_internal_deserialize_publish true
              (PublishOut 0 QOS0 0 0 NULL 0 NULL 0)
              (readBuf (clientData c)) (readBufSize (clientData c)));
  if decide (SUCCESS <> rc) then mret rc
  else
    '(rc, msg) ← _aws_iot_mqtt_internal_deliver_message (po_topicName o) (po_topicNameLen o)
                   (MsgParams (po_qos o) (po_retained o) (po_dup o) (po_packetId o)
                      (po_payload o) (po_payloadLen o));
    if decide (SUCCESS <> rc) then mret rc
    else if decide (QOS0 = msg_qos msg) then mret SUCCESS
    else
      '(rc, len) ← serialize (fun buf size =>
          aws_iot_mqtt_internal_serialize_ack (Some buf) size PUBACK 0 (msg_id msg) (Some 0)) 0;
      if decide (SUCCESS <> rc) then mret rc
      else
        rc ← aws_iot_mqtt_internal_send_packet TheClient len (Some pTimer);
        if decide (SUCCESS <> rc) then mret rc else mret SUCCESS.

(** ** The read cycle *)

(** What is done with a packet that was read, by its type. *)
Definition dispatch_packet (pTimer : Timer) (rc : IoT_Error_t) (packetType : Z) :
    M (sys W) IoT_Error_t :=
  if decide (packetType ∈ [MessageTypes_val CONNACK; MessageTypes_val PUBACK;
                           MessageTypes_val SUBACK; MessageTypes_val UNSUBACK])
  then mret rc
  else if decide (packetType = MessageTypes_val PUBLISH)
  then _aws_iot_mqtt_internal_handle_publish pTimer
  else if decide (packetType ∈ [MessageTypes_val PUBREC; MessageTypes_val PUBCOMP]) then mret rc
  else if decide (packetType = MessageTypes_val PINGRESP) then
    _ ← mod_client (set_isPingOutstanding false);
    c ← get_client;
    t ← start_sec (keepAliveInterval (clientData c));
    _ ← mod_client (set_pingTimer t);
    mret rc
  else mret MQTT_RX_MESSAGE_PACKET_TYPE_INVALID_ERROR.

Definition aws_iot_mqtt_internal_cycle_read (pClient : client_ptr) (pTimer : option Timer)
    (pPacketType : Z) : M (sys W) (IoT_Error_t * Z) :=
  match pClient, pTimer with
  | TheClient, Some timer =>
      '(rc, packetType) ← _aws_iot_mqtt_internal_read_packet timer pPacketType;
      if decide (MQTT_NOTHING_TO_READ = rc) then mret (SUCCESS, packetType)
      else if decide (SUCCESS <> rc) then mret (rc, packetType)
      else
        rc ← dispatch_packet timer rc packetType;
        mret (rc, packetType)
  | _, _ => mret (NULL_VALUE_ERROR, pPacketType)
  end.

(** The loop of the wait; the results are [rc] and [read_packet_type] after it. *)
Fixpoint wait_loop (fuel : nat) (packetType : Z) (timer : Timer) (read_packet_type : Z) :
    M (sys W) (IoT_Error_t * Z) :=
  e ← expired timer;
  if e : bool then mret (MQTT_REQUEST_TIMEOUT_ERROR, read_packet_type)
  else
    match fuel with
    | O => raise OutOfFuel
    | S fuel' =>
        '(rc, read_packet_type) ← aws_iot_mqtt_internal_cycle_read TheClient (Some timer) read_packet_type;
        if decide (NETWORK_DISCONNECTED_ERROR <> rc /\ read_packet_type <> packetType)
        then wait_loop fuel' packetType timer read_packet_type
        else mret (rc, read_packet_type)
    end.

Definition aws_iot_mqtt_internal_wait_for_read (pClient : client_ptr) (packetType : Z)
    (pTimer : option Timer) : M (sys W) IoT_Error_t :=
  match pClient, pTimer with
  | TheClient, Some timer =>
      '(rc, read_packet_type) ← wait_loop fuel packetType timer 0;
      if decide (MQTT_REQUEST_TIMEOUT_ERROR <> rc /\ NETWORK_DISCONNECTED_ERROR <> rc /\
                 read_packet_type <> packetType)
      then mret FAILURE
      else mret rc
  | _, _ => mret NULL_VALUE_ERROR
  end.
End Transport.

(** ** Frame lemmas *)

(** The relations the transport functions preserve: closed under what they do to the
    client, given what the delivery of a message does. *)
Class TransportFrame {W} `{!Platform W} `{!Application W} (R : AWS_IoT_Client -> AWS_IoT_Client -> Prop) := {
  tf_preorder :: PreOrder R;
  tf_readBuf : forall c b, length b = length (readBuf (clientData c)) -> R c (set_readBuf b c);
  tf_writeBuf : forall c b, length b = length (writeBuf (clientData c)) -> R c (set_writeBuf b c);
  tf_ping : forall c b, R c (set_isPingOutstanding b c);
  tf_pingTimer : forall c t, R c (set_pingTimer t c);
  tf_deliver : forall p n msg, pres (W := W) R (_aws_iot_mqtt_internal_deliver_message p n msg) }.

Section FrameLemmas.
Context {W : Type} `{!Platform W} `{!Application W}.

Lemma pres_send_packet R `{!PreOrder R} fuel p n t :
  pres (W := W) R (aws_iot_mqtt_internal_send_packet fuel p n t).
Proof.
  assert (Hloop : forall f l t sent k, pres (W := W) R (send_loop f l t sent k)).
  { induction f as [|f IH]; intros; cbn [send_loop]; pres_auto. }
  rw /aws_iot_mqtt_internal_send_packet. pres_auto.
Qed.

(** The delivery of a message, from what the handlers do. *)
Lemma pres_deliver_loop R `{!PreOrder R} itrs p n msg :
  (forall f p n msg d, pres (W := W) R (app_handler f p n msg d)) ->
  pres (W := W) R (deliver_loop itrs p n msg).
Proof.
  intros Happ. revert msg. induction itrs as [|i itrs IH]; intros msg; cbn [deliver_loop]; pres_auto.
  rw /deliver_to. pres_auto.
Qed.

Lemma pres_deliver R `{!PreOrder R} p n msg :
  (forall f p n msg d, pres (W := W) R (app_handler f p n msg d)) ->
  (forall c st, R c (set_clientState st c)) ->
  pres (W := W) R (_aws_iot_mqtt_internal_deliver_message p n msg).
Proof.
  intros Happ Hst. rw /_aws_iot_mqtt_internal_deliver_message /aws_iot_mqtt_get_client_state.
  pres_auto; try (apply pres_set_client_state; auto). by apply pres_deliver_loop.
Qed.

Lemma pres_serialize_gen R `{!PreOrder R} (f : list Z -> Z -> outcome ser_out) len :
  (forall c b, length b = length (writeBuf (clientData c)) -> R c (set_writeBuf b c)) ->
  (forall buf n, ser_length (length buf) (f buf n)) -> pres (W := W) R (serialize f len).
Proof.
  intros HR Hf. rw /serialize. apply pres_get_bind. intros s. apply wp_bind, wp_lift_outcome.
  specialize (Hf (writeBuf (clientData (client s))) (writeBufSize (clientData (client s)))).
  destruct (f _ _) as [o|e]; [|done]. apply wp_bind. rw /ser_length in Hf.
  destruct (so_buf o) as [b|]; simpl; [|do 2 apply wp_ret; reflexivity].
  apply wp_modify, wp_ret. cbn [client]. by apply HR.
Qed.

Context (R : AWS_IoT_Client -> AWS_IoT_Client -> Prop) `{!TransportFrame (W := W) R}.

Lemma pres_store_readBuf off bs : pres (W := W) R (store_readBuf off bs).
Proof.
  rw /store_readBuf. apply pres_get_bind. intros s. case_decide; [|done].
  apply wp_modify. apply tf_readBuf. rw !length_app length_take length_drop. lia.
Qed.

Lemma pres_read_into off n t l : pres (W := W) R (read_into_readBuf off n t l).
Proof. rw /read_into_readBuf. pose proof pres_store_readBuf. pres_auto. Qed.

Lemma pres_read_packet_body n l pt t : pres (W := W) R (read_packet_body n l pt t).
Proof.
  rw /read_packet_body. apply pres_get_bind. intros s. apply wp_bind, wp_lift_outcome.
  pose proof (keeps_length_write_len_loop 5 0 (u32 n) (Cursor (readBuf (clientData (client s))) 1)) as Hlen.
  move: Hlen. rw /wp /aws_iot_mqtt_internal_write_len_to_buffer.
  destruct (write_len_loop _ _ _ _) as [[k cur]|e] eqn:Hrun; [|done]. simpl. intros Hlen.
  pose proof (pres_read_into) as Hread.
  match goal with |- match ?m s with _ => _ end => enough (Hp : forall s', client s' = client s -> wp any_exn m (fun _ s'' => R (client s') (client s'')) s') by exact (Hp s eq_refl) end.
  intros s' Hs'. apply wp_bind, wp_modify. cbn [client world].
  match goal with |- wp _ ?m _ _ => assert (Hp : pres (W := W) R m) by pres_auto end.
  eapply wp_mono; [apply Hp|]. cbn [client]. intros _ s'' HR.
  etrans; [|exact HR]. apply tf_readBuf. by rw Hs'.
Qed.

Lemma pres_read_packet fuel t pt : pres (W := W) R (_aws_iot_mqtt_internal_read_packet fuel t pt).
Proof.
  pose proof pres_read_into as Hread. pose proof pres_read_packet_body as Hbody.
  assert (Hdec : forall f m l r e t, pres (W := W) R (decode_packet_len_loop f m l r e t)).
  { induction f as [|f IH]; intros; cbn [decode_packet_len_loop]; pres_auto. }
  assert (Hdrop : forall f a b c d t, pres (W := W) R (drop_packet_loop f a b c d t)).
  { induction f as [|f IH]; intros; cbn [drop_packet_loop]; pres_auto. }
  rw /_aws_iot_mqtt_internal_read_packet /_aws_iot_mqtt_internal_decode_packet_remaining_len. pres_auto.
Qed.

Lemma pres_serialize (f : list Z -> Z -> outcome ser_out) len :
  (forall buf n, ser_length (length buf) (f buf n)) -> pres (W := W) R (serialize f len).
Proof. apply pres_serialize_gen; [apply _|apply tf_writeBuf]. Qed.

Lemma pres_handle_publish fuel t : pres (W := W) R (_aws_iot_mqtt_internal_handle_publish fuel t).
Proof.
  rw /_aws_iot_mqtt_internal_handle_publish. pose proof (tf_deliver (W := W) (R := R)).
  pose proof (pres_send_packet R).
  pres_auto. apply pres_serialize. auto with iot.
Qed.

Lemma pres_cycle_read fuel p t pt : pres (W := W) R (aws_iot_mqtt_internal_cycle_read fuel p t pt).
Proof.
  rw /aws_iot_mqtt_internal_cycle_read /dispatch_packet.
  pose proof pres_read_packet. pose proof pres_handle_publish. pres_auto.
  - apply pres_mod. intros. apply tf_ping.
  - apply pres_mod. intros. apply tf_pingTimer.
Qed.

Lemma pres_wait_for_read fuel p ty t : pres (W := W) R (aws_iot_mqtt_internal_wait_for_read fuel p ty t).
Proof.
  assert (Hloop : forall f ty t pt, pres (W := W) R (wait_loop fuel f ty t pt)).
  { pose proof pres_cycle_read. induction f as [|f IH]; intros; cbn [wait_loop]; pres_auto. }
  rw /aws_iot_mqtt_internal_wait_for_read. pres_auto.
Qed.
End FrameLemmas.
#[export] Hint Resolve pres_send_packet pres_serialize pres_cycle_read pres_wait_for_read : iot.

(** The invariant of the client is such a relation when the handlers keep it. *)
Definition handlers_ok (W : Type) `{!Application W} : Prop :=
  (forall f p n msg d, pres (W := W) ok_rel (app_handler f p n msg d)) /\
  (forall f d, pres (W := W) ok_rel (app_disconnect_handler f d)).

Lemma ok_rel_upd c c' : clientData c' = clientData c -> ok_rel c c'.
Proof. intros Heq []. by constructor; rw Heq. Qed.

Lemma ok_rel_frame W `{!Platform W} `{!Application W} : handlers_ok W -> TransportFrame (W := W) ok_rel.
Proof.
  intros [Happ _]. split; try apply _.
  - intros c b Hb []. constructor; try done. by rw /= Hb.
  - intros c b Hb []. constructor; try done. by rw /= Hb.
  - intros. by apply ok_rel_upd.
  - intros. by apply ok_rel_upd.
  - intros. apply (pres_deliver ok_rel); [exact Happ|]. intros. by apply ok_rel_upd.
Qed.

(** The state is kept, and the table of handlers changes within a relation: what the
    operations do while they wait, when message handlers change the table within it.
    [eq] stands for handlers that leave the table alone, [any_table] for handlers that
    subscribe and unsubscribe at will. *)
Definition table_within (R : relation (list MessageHandlers)) (c c' : AWS_IoT_Client) : Prop :=
  clientState (clientStatus c') = clientState (clientStatus c) /\
  length (messageHandlers (clientData c')) = length (messageHandlers (clientData c)) /\
  R (messageHandlers (clientData c)) (messageHandlers (clientData c')).
#[export] Instance table_within_preorder R `{!PreOrder R} : PreOrder (table_within R).
Proof.
  split; rw /table_within; [by intros c|]. intros c1 c2 c3 (H1 & H2 & H3) (H4 & H5 & H6).
  split; [congruence|]. split; [congruence|]. by etrans.
Qed.

Definition any_table : relation (list MessageHandlers) := fun _ _ => True.
#[export] Instance any_table_preorder : PreOrder any_table.
Proof. by split. Qed.

Definition handlers_within (W : Type) `{!Application W} (R : relation (list MessageHandlers)) : Prop :=
  forall f p n msg d, pres (W := W) (table_within R) (app_handler f p n msg d).

(** The handlers of the simulation only record their calls. *)
Lemma sim_handlers_within R `{!PreOrder R} : handlers_within sim R.
Proof. intros f p n msg d s. split; [done|]. split; [done|]. cbn. reflexivity. Qed.

Lemma pres_deliver_table W `{!Platform W} `{!Application W} R `{!PreOrder R} p n msg : handlers_within W R ->
  pres (W := W) (table_within R) (_aws_iot_mqtt_internal_deliver_message p n msg).
Proof.
  intros Happ s. rw /_aws_iot_mqtt_internal_deliver_message. case_decide; [apply wp_ret; reflexivity|].
  apply wp_bind. eapply wp_known; [done|]. apply wp_bind. eapply wp_known.
  { rw set_client_state_run decide_True //. }
  apply wp_bind. eapply wp_mono; [by apply (pres_deliver_loop (table_within R))|].
  cbn [client]. intros msg' s' (Hst & Hlen & HR). apply wp_bind. eapply wp_known.
  { rw set_client_state_run decide_True //. }
  by apply wp_ret.
Qed.

Lemma table_frame W `{!Platform W} `{!Application W} R `{!PreOrder R} :
  handlers_within W R -> TransportFrame (W := W) (table_within R).
Proof. intros Happ. split; try apply _; try done. intros. by apply pres_deliver_table. Qed.

(** The size of the table alone, which every operation keeps. *)
Definition same_size (c c' : AWS_IoT_Client) : Prop :=
  length (messageHandlers (clientData c')) = length (messageHandlers (clientData c)).
#[export] Instance same_size_preorder : PreOrder same_size.
Proof. split; rw /same_size; [done|]. intros c1 c2 c3 H1 H2. by rw H2. Qed.

Lemma same_size_frame W `{!Platform W} `{!Application W} :
  (forall f p n msg d, pres (W := W) same_size (app_handler f p n msg d)) -> TransportFrame (W := W) same_size.
Proof.
  intros Happ. split; try apply _; try done. intros. apply pres_deliver; [apply _|exact Happ|].
  intros c st. by rw /same_size.
Qed.

(** The client state is kept by message handlers that keep it, whatever else they do, and
    whatever the disconnect handler does. *)
Definition same_state (c c' : AWS_IoT_Client) : Prop :=
  clientState (clientStatus c') = clientState (clientStatus c).
#[export] Instance same_state_preorder : PreOrder same_state.
Proof. split; rw /same_state; [done|]. intros c1 c2 c3 H1 H2. by rw H2. Qed.

Definition handlers_keep_state (W : Type) `{!Application W} : Prop :=
  forall f p n msg d, pres (W := W) same_state (app_handler f p n msg d).

Lemma sim_handlers_keep_state : handlers_keep_state sim.
Proof. intros f p n msg d s. reflexivity. Qed.

Lemma pres_deliver_same_state W `{!Platform W} `{!Application W} p n msg : handlers_keep_state W ->
  pres (W := W) same_state (_aws_iot_mqtt_internal_deliver_message p n msg).
Proof.
  intros Happ s. rw /_aws_iot_mqtt_internal_deliver_message. case_decide; [apply wp_ret; reflexivity|].
  apply wp_bind. eapply wp_known; [done|]. apply wp_bind. eapply wp_known.
  { rw set_client_state_run decide_True //. }
  apply wp_bind. eapply wp_mono; [by apply (pres_deliver_loop same_state)|].
  cbn [client]. intros msg' s' Hq. apply wp_bind. eapply wp_known.
  { rw set_client_state_run decide_True //. }
  by apply wp_ret.
Qed.

Lemma same_state_frame W `{!Platform W} `{!Application W} :
  handlers_keep_state W -> TransportFrame (W := W) same_state.
Proof. intros Happ. split; try apply _; try done. intros. by apply pres_deliver_same_state. Qed.

(** A state change whose expected state is the current one succeeds. *)
Lemma wp_set_client_state {W} `{!Platform W} E st st' (Q : IoT_Error_t -> sys W -> Prop) (s : sys W) :
  clientState (clientStatus (client s)) = st ->
  Q SUCCESS (Sys (set_clientState st' (client s)) (world s)) ->
  wp E (aws_iot_mqtt_set_client_state TheClient st st') Q s.
Proof. intros Hst HQ. eapply wp_known; [by rw set_client_state_run decide_True|done]. Qed.

(** The operations of the interface have a common shape: guards, the move to the
    state of the operation, a body that keeps this state, and the move back. *)
Ltac wp_guards :=
  repeat first
    [ match goal with
      | |- wp _ (aws_iot_mqtt_is_client_connected _ ≫= _) _ _ => apply wp_bind; eapply wp_known; [done|]
      | |- wp _ (aws_iot_mqtt_get_client_state _ ≫= _) _ _ => apply wp_bind; eapply wp_known; [done|]
      | |- wp _ (mret _) _ _ => apply wp_ret; reflexivity
      | |- wp _ (match ?x with _ => _ end) _ _ => destruct x eqn:?
      | |- wp _ (if negb ?b then _ else _) _ _ => destruct b eqn:?; cbn [negb]
      end
    | case_decide ].
Ltac wp_enter := apply wp_bind, wp_set_client_state; [done|]; rc_simpl.
(** From the entry to the exit of an operation; [tac] proves that the body keeps the
    state. *)
Ltac wp_operation tac :=
  wp_guards; wp_enter; apply wp_bind;
  (eapply wp_mono; [tac|]); intros ? ? ?; repeat case_match;
  (apply wp_bind, wp_set_client_state; [done|]); by apply wp_ret.

(** ** Return codes *)

(** Reads do not return the codes by which the client reports a lost connection or an
    attempt to restore it. *)
Class ReadCodes (W : Type) `{!Platform W} : Prop :=
  read_codes : forall n t w r w', net_read n t w = Ret (r, w') -> plain_code (rd_rc r).
#[export] Instance sim_read_codes : ReadCodes sim.
Proof. intros n t w r w'. cbn. rw /sim_read. by repeat case_decide; intros [= <- _]. Qed.

Section ReturnCodes.
Context {W : Type} `{!Platform W} `{!Application W} `{!ReadCodes W} (fuel : nat).

Lemma net_read_returns n t :
  returns (fun r => plain_code (rd_rc r)) (on_world (W := W) (net_read n t)).
Proof.
  intros s. rw /wp /on_world. destruct (net_read n t (world s)) as [[r w]|] eqn:Hr; [|done].
  by apply read_codes in Hr.
Qed.

Lemma read_packet_returns t pt :
  returns (fun r => plain_code r.1) (_aws_iot_mqtt_internal_read_packet (W := W) fuel t pt).
Proof.
  pose proof net_read_returns.
  assert (Hinto : forall off n t l, returns (fun r => plain_code r.1) (read_into_readBuf (W := W) off n t l)).
  { intros. rw /read_into_readBuf. returns_auto; done. }
  assert (Hdec : forall f a b c d t, returns (fun r => plain_code r.1) (decode_packet_len_loop (W := W) f a b c d t)).
  { induction f as [|f IH]; intros; cbn [decode_packet_len_loop]; returns_auto; done. }
  assert (Hbody : forall a b c t, returns (fun r => plain_code r.1) (read_packet_body (W := W) a b c t)).
  { intros. rw /read_packet_body. returns_auto; try done.
    assert (SUCCESS = i) as <- by (apply dec_stable; tauto). done. }
  rw /_aws_iot_mqtt_internal_read_packet /_aws_iot_mqtt_internal_decode_packet_remaining_len.
  returns_auto; done.
Qed.

Lemma set_client_state_returns p st st' :
  returns (fun rc => plain_code rc) (aws_iot_mqtt_set_client_state (W := W) p st st').
Proof. rw /aws_iot_mqtt_set_client_state. returns_auto; done. Qed.

Lemma send_packet_returns p n t :
  returns (fun rc => plain_code rc) (aws_iot_mqtt_internal_send_packet (W := W) fuel p n t).
Proof. rw /aws_iot_mqtt_internal_send_packet. returns_auto; done. Qed.

Lemma handle_publish_returns t :
  returns (fun rc => plain_code rc) (_aws_iot_mqtt_internal_handle_publish (W := W) fuel t).
Proof.
  rw /_aws_iot_mqtt_internal_handle_publish. apply returns_any. intros c.
  eapply returns_bind with (P := fun r => plain_code r.1).
  { apply returns_outcome. intros [rc o]. apply deserialize_publish_codes. }
  intros [rc o] Hrc. case_decide; [by apply returns_ret|].
  eapply returns_bind with (P := fun r => plain_code r.1).
  { rw /_aws_iot_mqtt_internal_deliver_message. pose proof set_client_state_returns. returns_auto; done. }
  intros [rc' msg] Hrc'. case_decide; [by apply returns_ret|]. case_decide; [by apply returns_ret|].
  eapply returns_bind with (P := fun r => plain_code r.1).
  { rw /serialize. apply returns_any. intros c'.
    eapply returns_bind with (P := fun o => plain_code (so_rc o)).
    - apply returns_outcome. intros o' Ho. move: Ho. rw /aws_iot_mqtt_internal_serialize_ack.
      case_decide; [by intros [= <-]|]. rw init_header_spec //. rc_simpl. rw /run_serializer.
      intros Ho. match type of Ho with mbind _ ?x = _ => destruct x as [[[] cur]|]; [|done] end. by injection Ho as <-.
    - intros o' Ho. returns_auto. done. }
  intros [rc'' len] Hrc''. pose proof send_packet_returns. returns_auto; done.
Qed.

Lemma cycle_read_returns p t pt :
  returns (fun r => plain_code r.1) (aws_iot_mqtt_internal_cycle_read (W := W) fuel p t pt).
Proof.
  rw /aws_iot_mqtt_internal_cycle_read /dispatch_packet.
  pose proof read_packet_returns. pose proof handle_publish_returns. destruct p, t; try by apply returns_ret.
  eapply returns_bind; [apply read_packet_returns|]. intros [rc pt'] Hrc.
  case_decide; [by apply returns_ret|]. case_decide; [by apply returns_ret|].
  eapply returns_bind with (P := fun rc => plain_code rc); [|intros; by apply returns_ret].
  returns_auto; done.
Qed.
End ReturnCodes.

(** ** Sending *)

(** A network whose successful writes send all the bytes they are given. *)
Class WritesAll (W : Type) `{!Platform W} : Prop :=
  writes_all : forall bs n t w k w', 0 <= n < 2 ^ 32 -> net_write bs n t w = Ret ((SUCCESS, k), w') -> k = Some n.

(** Reading the clock does not change the memory of the application. *)
Class TimeKeepsMemory (W : Type) `{!Platform W} : Prop :=
  time_keeps_memory : forall w now w', gettimeofday w = Ret (now, w') -> app_memory w' = app_memory w.

Section Sending.
Context {W : Type} `{!Platform W} `{!Application W}.

Lemma on_world_run {A} (m : M W A) (s : sys W) a w' :
  m (world s) = Ret (a, w') -> on_world m s = Ret (a, Sys (client s) w').
Proof. rw /on_world. by intros ->. Qed.

Lemma on_world_inv {A} (m : M W A) (s s' : sys W) a :
  on_world m s = Ret (a, s') -> m (world s) = Ret (a, world s') /\ client s' = client s.
Proof. rw /on_world. destruct (m (world s)) as [[a' w]|]; naive_solver. Qed.

(** Starting a timer reads the clock. *)
Lemma start_ms_inv `{!TimeKeepsMemory W} timeout (s s' : sys W) t :
  start_ms timeout s = Ret (t, s') -> client s' = client s /\ app_memory (world s') = app_memory (world s).
Proof.
  rw /start_ms. intros Hrun. apply bind_inv in Hrun as (now & s1 & Hnow & Hrun).
  injection Hrun as _ <-. apply on_world_inv in Hnow as [Hnow Hc]. split; [done|].
  by eapply time_keeps_memory.
Qed.

(** With such a network a packet is sent by one write of its bytes, unless the timer
    has already expired. *)
Definition send_once (length : Z) (timer : Timer) : M (sys W) IoT_Error_t :=
  e ← expired timer;
  if e : bool then mret FAILURE
  else
    c ← get_client;
    '(rc, _) ← on_world (net_write (writeBuf (clientData c)) length timer);
    mret (if decide (rc = SUCCESS) then SUCCESS else FAILURE).

Lemma send_packet_once `{!WritesAll W} fuel n t (s : sys W) :
  (0 < fuel)%nat -> 0 < n < writeBufSize (clientData (client s)) ->
  writeBufSize (clientData (client s)) <= 2 ^ 32 ->
  aws_iot_mqtt_internal_send_packet fuel TheClient n (Some t) s = send_once n t s.
Proof.
  intros Hf Hn Hsize. rw /aws_iot_mqtt_internal_send_packet /send_once.
  erewrite bind_run; [|done]. rw decide_False; [|lia].
  destruct fuel as [|fuel]; [lia|]. cbn [send_loop]. rw decide_True; [|lia].
  rw /mbind /M_bind. destruct (expired t s) as [[e s1]|]; [|done].
  destruct e; [rw /mret /M_ret decide_False; [done|lia]|].
  rw /get_client /gets /mret /M_ret /= drop_0.
  destruct (on_world _ s1) as [[[rc k] s2]|] eqn:Hw; [|done].
  destruct (decide (SUCCESS <> rc)) as [Hrc|Hrc].
  { rw decide_False; [|lia]. by rw decide_False. }
  assert (rc = SUCCESS) as -> by (destruct rc; try done; exfalso; by apply Hrc).
  apply on_world_inv in Hw as [Hw _]. apply writes_all in Hw as ->; [|lia]. rw /=.
  rw size_t_small; [|width].
  destruct fuel; cbn [send_loop]; rw decide_False /mret /M_ret; try lia; by rw decide_True.
Qed.
(** The write buffer with a packet at its start. *)
Definition with_packet (pkt : list Z) (c : AWS_IoT_Client) : AWS_IoT_Client :=
  set_writeBuf (pkt ++ drop (length pkt) (writeBuf (clientData c))) c.

(** A serializer that meets its specification and succeeds has put the packet at the
    start of the write buffer. *)
Lemma serialize_success f l h body (s s1 : sys W) len :
  f (writeBuf (clientData (client s))) (writeBufSize (clientData (client s))) =
    Ret (ser_spec (writeBuf (clientData (client s))) l h body) ->
  serialize f l s = Ret ((SUCCESS, len), s1) ->
  len = Z.of_nat (length (frame h body)) /\ s1 = Sys (with_packet (frame h body) (client s)) (world s).
Proof.
  intros Hf Hrun. rw /serialize in Hrun. apply bind_inv in Hrun as (c & s2 & Hc & Hrun). injection Hc as <- <-.
  rw Hf in Hrun. apply bind_inv in Hrun as (o & s2 & Ho & Hrun). injection Ho as <- <-.
  move: Hrun. rw /ser_spec. case_decide; cbn [so_buf so_len so_rc put_writeBuf default]; intros Hrun.
  - apply bind_inv in Hrun as (u & s2 & _ & Hrun). discriminate Hrun.
  - apply bind_inv in Hrun as (u & s2 & Hu & Hrun). injection Hu as _ <-. injection Hrun as <- <-. done.
Qed.

Lemma send_once_inv n t (s s' : sys W) rc :
  send_once n t s = Ret (rc, s') ->
  client s' = client s /\
  (rc = SUCCESS -> exists w1 k, net_write (writeBuf (clientData (client s))) n t w1 = Ret ((SUCCESS, k), world s')).
Proof.
  rw /send_once. intros Hrun. apply bind_inv in Hrun as (e & s1 & He & Hrun).
  assert (Hc : client s1 = client s).
  { move: He. rw /expired. intros He. apply bind_inv in He as (now & s2 & Hnow & He).
    injection He as _ <-. by apply on_world_inv in Hnow as [_ ->]. }
  destruct e; [injection Hrun as <- <-; by rw Hc|].
  apply bind_inv in Hrun as (c & s2 & Hget & Hrun). injection Hget as <- <-.
  apply bind_inv in Hrun as ([rc' k] & s3 & Hw & Hrun). injection Hrun as <- <-.
  apply on_world_inv in Hw as [Hw Hc3]. rw Hc3 Hc. split; [done|].
  case_decide as Hrc; [|done]. subst. intros _. rw -Hc. by eexists _, _.
Qed.

(** Whatever the fuel, a packet send that comes to a result is such a single write. *)
Lemma send_packet_is_once `{!WritesAll W} fuel n t (s s' : sys W) rc :
  0 < n < writeBufSize (clientData (client s)) -> writeBufSize (clientData (client s)) <= 2 ^ 32 ->
  aws_iot_mqtt_internal_send_packet fuel TheClient n (Some t) s = Ret (rc, s') -> send_once n t s = Ret (rc, s').
Proof.
  intros Hn Hsize Hrun. destruct fuel as [|fuel]; [|rw send_packet_once in Hrun; [done|lia..]].
  move: Hrun. rw /aws_iot_mqtt_internal_send_packet. erewrite bind_run; [|done].
  rw decide_False; [|lia]. cbn [send_loop]. rw decide_True; [|lia].
  intros Hrun. apply bind_inv in Hrun as (r & s1 & Hr & Hrun).
  apply bind_inv in Hr as ([] & s2 & He & Hr); [|discriminate Hr].
  injection Hr as <- <-. rw decide_False in Hrun; [|lia]. injection Hrun as <- <-.
  rw /send_once. erewrite bind_run; [|exact He]. done.
Qed.

(** The single write takes place at the time of the clock reading before it, when the
    timer has not expired then. *)
Lemma send_once_cases n t (s s' : sys W) rc :
  send_once n t s = Ret (rc, s') ->
  exists now w1, gettimeofday (world s) = Ret (now, w1) /\
    if has_timer_expired now t then rc = FAILURE /\ s' = Sys (client s) w1
    else exists rcw k w2, net_write (writeBuf (clientData (client s))) n t w1 = Ret ((rcw, k), w2) /\
      rc = (if decide (rcw = SUCCESS) then SUCCESS else FAILURE) /\ s' = Sys (client s) w2.
Proof.
  rw /send_once /expired. intros Hrun. apply bind_inv in Hrun as (e & s1 & He & Hrun).
  apply bind_inv in He as (now & s2 & Hnow & He). injection He as <- <-.
  apply on_world_inv in Hnow as [Hnow Hc]. exists now, (world s2). split; [done|].
  destruct (has_timer_expired now t).
  { injection Hrun as <- <-. split; [done|]. rw -Hc. by destruct s2. }
  apply bind_inv in Hrun as (c & s3 & Hget & Hrun). injection Hget as <- <-.
  apply bind_inv in Hrun as ([rcw k] & s3 & Hw & Hrun). injection Hrun as <- <-.
  apply on_world_inv in Hw as [Hw Hc3]. rw Hc in Hw. exists rcw, k, (world s3).
  split; [done|]. split; [done|]. rw -Hc -Hc3. by destruct s3.
Qed.

(** A packet that was sent was written. *)
Lemma send_packet_success `{!WritesAll W} fuel n t (s s' : sys W) :
  0 < n -> writeBufSize (clientData (client s)) <= 2 ^ 32 ->
  aws_iot_mqtt_internal_send_packet fuel TheClient n (Some t) s = Ret (SUCCESS, s') ->
  client s' = client s /\
  exists w1 k, net_write (writeBuf (clientData (client s))) n t w1 = Ret ((SUCCESS, k), world s').
Proof.
  intros Hn Hsize Hrun. destruct (decide (n < writeBufSize (clientData (client s)))) as [Hlt|Hge].
  - apply send_packet_is_once in Hrun; [|done..]. apply send_once_inv in Hrun as [Hc Hw]. auto.
  - move: Hrun. rw /aws_iot_mqtt_internal_send_packet. erewrite bind_run; [|done].
    rw decide_True; [|lia]. intros Hrun. discriminate Hrun.
Qed.
End Sending.

(** Networks in general: progress of every successful write is enough for the loop to
    end. *)
Section SendTermination.
Context {W : Type} `{!Platform W} `{!Application W}.
Context (Htime : forall w, exists r, gettimeofday w = Ret r).
Context (Hwrite : forall bs n t w, 0 < n -> exists rc k w', net_write bs n t w = Ret ((rc, k), w') /\
  (rc = SUCCESS -> exists m, k = Some m /\ 1 <= m <= n)).

Lemma send_loop_ends f : forall n t sent k (s : sys W),
  0 <= sent -> 0 < n < 2 ^ 32 -> sent <= 2 * n -> n - sent <= Z.of_nat f ->
  exists r s', send_loop f n t sent k s = Ret (r, s') /\ client s' = client s /\ sent <= r <= 2 * n.
Proof.
  induction f as [|f IH]; intros n t sent k s Hs Hn Hsn Hf; cbn [send_loop].
  { rw decide_False; [|lia]. eexists _, s. split; [done|]. split; [done|lia]. }
  case_decide; [|eexists _, s; split; [done|]; split; [done|lia]].
  destruct (Htime (world s)) as [[now w1] Hnow].
  erewrite bind_run; [|rw /expired; erewrite bind_run; [|by apply on_world_run]; done].
  case_match; [eexists _, _; split; [done|]; split; [done|lia]|].
  erewrite bind_run; [|done]. cbn [client].
  destruct (Hwrite (drop (Z.to_nat sent) (writeBuf (clientData (client s)))) n t w1) as (rc & m & w2 & Hw & Hok); [lia|].
  erewrite bind_run; [|by apply on_world_run]. cbv beta iota zeta.
  case_decide as Hrc; [eexists _, _; split; [done|]; split; [done|lia]|].
  destruct Hok as (m' & -> & Hm); [by destruct rc|]. change (default k (Some m')) with m'. cbn [client].
  rw size_t_small; [|width].
  destruct (IH n t (sent + m') m' (Sys (client s) w2)) as (r & s' & Hr & Hc & Hle); [lia..|].
  exists r, s'. split; [done|]. split; [done|lia].
Qed.
End SendTermination.

(** ** Receiving *)

(** A network that delivers a stream of bytes: [pending w] are the bytes that have
    arrived and were not read yet. A read for which enough bytes have arrived
    succeeds with exactly those; the clock does not touch the stream. *)
Class Stream (W : Type) `{!Platform W} := {
  pending : W -> list Z;
  stream_read : forall n t w, 0 <= n <= Z.of_nat (length (pending w)) ->
    exists w', net_read n t w =
      Ret (ReadResult SUCCESS (take (Z.to_nat n) (pending w)) (Some n), w') /\
      pending w' = drop (Z.to_nat n) (pending w);
  stream_time : forall w, exists t w', gettimeofday w = Ret (t, w') /\ tv_valid t /\
      pending w' = pending w }.

Section Receiving.
Context {W : Type} `{!Platform W} `{!Application W} `{!Stream W}.

(** A read of [bs], the next bytes of the stream. *)
Lemma stream_read_bytes bs rest t (s : sys W) :
  pending (world s) = bs ++ rest ->
  exists w', on_world (net_read (Z.of_nat (length bs)) t) s =
    Ret (ReadResult SUCCESS bs (Some (Z.of_nat (length bs))), Sys (client s) w') /\
    pending w' = rest.
Proof.
  intros Hp. destruct (stream_read (Z.of_nat (length bs)) t (world s)) as (w' & Hr & Hp').
  { rw Hp length_app. lia. }
  rw Hp Nat2Z.id take_app_length drop_app_length in Hr, Hp'.
  exists w'. split; [by apply on_world_run|done].
Qed.

Lemma start_ms_stream timeout (s : sys W) :
  exists t w', start_ms timeout s = Ret (t, Sys (client s) w') /\ pending w' = pending (world s).
Proof.
  destruct (stream_time (world s)) as (now & w' & Hnow & _ & Hp).
  exists (countdown_ms now timeout), w'. split; [|done].
  rw /start_ms. erewrite bind_run; [|by apply on_world_run]. done.
Qed.

(** The loop over the digits of an encoded length. The variable [len] is at most one
    before every digit: the network sets it to one. *)
Lemma decode_packet_len_stream f : forall n k acc e len t fuel rest (s : sys W),
  (0 < f <= fuel)%nat -> 0 <= n < 128 ^ Z.of_nat f -> 0 <= k -> k + Z.of_nat f <= 4 ->
  0 <= acc < 128 ^ k -> 0 <= len <= 1 ->
  pending (world s) = rl_bytes f n ++ rest ->
  exists w', decode_packet_len_loop fuel (128 ^ k) len acc e t s =
             Ret ((SUCCESS, acc + n * 128 ^ k), Sys (client s) w') /\ pending w' = rest.
Proof.
  induction f as [|f IH]; intros n k acc e len t fuel rest s Hf Hn Hk Hkf Hacc Hlen Hp; [lia|].
  destruct fuel as [|fuel]; [lia|]. rw Nat2Z.inj_succ Z.pow_succ_r in Hn, Hkf; [|lia].
  cbn [decode_packet_len_loop rl_bytes] in Hp |- *.
  assert (Hk1 : 0 < 128 ^ k <= 128 ^ 3)
    by (split; [apply Z.pow_pos_nonneg; lia|apply Z.pow_le_mono_r; lia]).
  rw size_t_small; [|width]. rw decide_False; [|rw /MAX_NO_OF_REMAINING_LENGTH_BYTES; lia].
  assert (Hb : exists b tl, (if n <? 128 then [n] else (n mod 128 + 128) :: rl_bytes f (n / 128)) = b :: tl)
    by (destruct (n <? 128); by eexists _, _).
  destruct Hb as (b & tl & Hb). rw Hb in Hp.
  destruct (stream_read_bytes [b] (tl ++ rest) t s Hp) as (w1 & Hr & Hp1).
  erewrite bind_run; [|exact Hr]. cbn [rd_bytes rd_rc rd_len].
  change (default e (head [b])) with b. rc_simpl.
  destruct (Z.ltb_spec n 128) as [Hlt|Hge]; simplify_eq.
  - pose proof (land_128 b ltac:(width)) as H128. rw (proj2 (Z.ltb_lt _ _)) // in H128.
    apply Z.eqb_eq in H128. rw decide_False; [|lia].
    rw land_127 Z.mod_small; [|lia].
    assert (b * 128 ^ k <= 127 * 128 ^ k) by (apply Z.mul_le_mono_nonneg_r; lia).
    rw size_t_small; [|width]. by exists w1.
  - pose proof (Z.mod_pos_bound n 128 ltac:(lia)) as Hmod.
    pose proof (land_128 (n mod 128 + 128) ltac:(width)) as H128.
    rw (proj2 (Z.ltb_ge _ _)) in H128; [|lia]. apply Z.eqb_neq in H128. rw decide_True; [|lia].
    rw land_127. replace ((n mod 128 + 128) mod 128) with (n mod 128)
      by (rw -Zplus_mod_idemp_r Z_mod_same_full Z.add_0_r Z.mod_mod //).
    assert (n mod 128 * 128 ^ k <= 127 * 128 ^ k) by (apply Z.mul_le_mono_nonneg_r; lia).
    rw size_t_small; [|width]. rw size_t_small; [|width].
    replace (128 ^ k * 128) with (128 ^ (k + 1)) by (rw Z.pow_add_r; lia).
    assert (0 < f)%nat by (eapply digits_left; [eassumption|lia]).
    edestruct (IH (n / 128) (k + 1) (acc + n mod 128 * 128 ^ k) (n mod 128 + 128) 1 t fuel rest
                (Sys (client s) w1)) as (w2 & Hr2 & Hp2); [lia| |lia|lia| |lia|exact Hp1|].
    + split; [apply Z.div_pos; lia|apply Z.div_lt_upper_bound; lia].
    + rw Z.pow_add_r; [|lia..]. nia.
    + exists w2. split; [|done]. change (default _ (Some (Z.of_nat (length [_])))) with 1.
      assert (acc + n mod 128 * 128 ^ k + n / 128 * 128 ^ (k + 1) = acc + n * 128 ^ k) as <-; [|done].
      rw Z.pow_add_r; [|lia..]. pose proof (Z.div_mod n 128 ltac:(lia)). nia.
Qed.

Lemma decode_packet_remaining_len_stream fuel n t rest (s : sys W) :
  (4 <= fuel)%nat -> 0 <= n < 2 ^ 28 -> pending (world s) = remaining_length_bytes n ++ rest ->
  exists w', _aws_iot_mqtt_internal_decode_packet_remaining_len fuel t s =
             Ret ((SUCCESS, n), Sys (client s) w') /\ pending w' = rest.
Proof.
  intros Hf Hn Hp. rw /remaining_length_bytes (rl_bytes_more 4) in Hp; [|simpl; lia|lia].
  destruct (decode_packet_len_stream 4 n 0 0 0 0 t fuel rest s) as (w' & Hr & Hp');
    [lia|simpl; lia|lia|simpl; lia|simpl; lia|lia|done|].
  exists w'. split; [|done]. rw Z.pow_0_r Z.mul_1_r Z.add_0_l in Hr. exact Hr.
Qed.

Lemma store_readBuf_run off bs (s : sys W) :
  store_readBuf off bs s =
  let buf := readBuf (clientData (client s)) in
  if decide (off + length bs <= length buf)%nat
  then Ret (tt, Sys (set_readBuf (take off buf ++ bs ++ drop (off + length bs) buf) (client s)) (world s))
  else Exn (Fault OobWrite).
Proof. rw /store_readBuf. erewrite bind_run; [|done]. cbv zeta. by case_decide. Qed.

Lemma read_into_stream off bs rest t l (s : sys W) :
  pending (world s) = bs ++ rest -> (off + length bs <= length (readBuf (clientData (client s))))%nat ->
  let buf := readBuf (clientData (client s)) in
  exists w', read_into_readBuf off (Z.of_nat (length bs)) t l s =
    Ret ((SUCCESS, Z.of_nat (length bs)),
         Sys (set_readBuf (take off buf ++ bs ++ drop (off + length bs) buf) (client s)) w') /\
    pending w' = rest.
Proof.
  intros Hp Hlen buf. destruct (stream_read_bytes bs rest t s Hp) as (w' & Hr & Hp').
  exists w'. split; [|done]. rw /read_into_readBuf. erewrite bind_run; [|exact Hr].
  erewrite bind_run; [|rw store_readBuf_run; cbv zeta; rw decide_True //]. done.
Qed.

(** The buffer after a frame has been read into it. *)
Lemma read_packet_body_stream h body rest buf0 l pt t (s : sys W) :
  let rl := remaining_length_bytes (Z.of_nat (length body)) in
  readBuf (clientData (client s)) = h :: buf0 -> Z.of_nat (S (length buf0)) <= 2 ^ 28 ->
  (1 + length rl + length body <= S (length buf0))%nat ->
  pending (world s) = body ++ rest ->
  exists w', read_packet_body (Z.of_nat (length body)) l pt t s =
    Ret ((SUCCESS, hdr_type h),
         Sys (set_readBuf (frame h body ++ drop (length rl + length body) buf0) (client s)) w') /\
    pending w' = rest.
Proof.
  intros rl Hbuf Hsize Hfit Hp. rw /read_packet_body. erewrite bind_run; [|done].
  rw u32_small; [|width]. rw Hbuf.
  pose proof (write_len_to_buffer_spec (Z.of_nat (length body)) [h] (take (length rl) buf0)
                (drop (length rl) buf0)) as Hw.
  rw take_drop in Hw. specialize (Hw ltac:(width) ltac:(rw length_take -/rl; lia)).
  change ([h] ++ buf0) with (h :: buf0) in Hw. change (length [h]) with 1%nat in Hw.
  erewrite bind_run; [|rw /lift_outcome Hw; done].
  cbv beta iota. erewrite bind_run; [|done]. cbn [client world].
  set (c2 := set_readBuf _ (client s)).
  assert (Hc2 : readBuf (clientData c2) = [h] ++ rl ++ drop (length rl) buf0) by done.
  assert (Hread : exists w',
    (if decide (Z.of_nat (length body) > 0)
     then read_into_readBuf (Z.to_nat (1 + Z.of_nat (length rl))) (Z.of_nat (length body)) t l
     else mret (SUCCESS, Z.of_nat (length body))) (Sys c2 (world s)) =
    Ret ((SUCCESS, Z.of_nat (length body)),
         Sys (set_readBuf (frame h body ++ drop (length rl + length body) buf0) (client s)) w') /\
    pending w' = rest).
  { case_decide as Hpos.
    - edestruct (read_into_stream (Z.to_nat (1 + Z.of_nat (length rl))) body rest t l (Sys c2 (world s)))
        as (w' & Hr & Hp'); [done|cbn [client]; rw Hc2 !length_app length_drop /=; lia|].
      exists w'. split; [|done]. etrans; [exact Hr|]. cbn [client]. rw Hc2.
      assert (Hoff : Z.to_nat (1 + Z.of_nat (length rl)) = length ([h] ++ rl)) by (simpl; lia).
      rw Hoff app_assoc take_app_length drop_app_add drop_drop.
      by rw /frame -/rl /= -app_assoc.
    - exists (world s). destruct body; [|simpl in Hpos; lia]. split; [|done].
      subst c2. by rw /frame -/rl Nat.add_0_r app_nil_r. }
  destruct Hread as (w' & Hread & Hp'). erewrite bind_run; [|exact Hread].
  cbv beta iota. rw decide_False; [|by intros [[]|[]]].
  exists w'. split; [|done]. done.
Qed.

Lemma read_packet_body_overflow h body rest l pt t (s : sys W) :
  let n := Z.of_nat (length body) in
  let size := length (readBuf (clientData (client s))) in
  (exists buf0, readBuf (clientData (client s)) = h :: buf0) ->
  0 < n -> n < 2 ^ 28 ->
  (1 + length (remaining_length_bytes n) <= size < 1 + length (remaining_length_bytes n) + length body)%nat ->
  pending (world s) = body ++ rest ->
  read_packet_body n l pt t s = Exn (Fault OobWrite).
Proof.
  intros n size [buf0 Hbuf] Hpos Hn Hsize Hp. rw /read_packet_body. erewrite bind_run; [|done].
  subst size. rw Hbuf in Hsize |- *. cbn [length] in Hsize.
  rw u32_small; [|width]. set (rl := remaining_length_bytes n) in *.
  pose proof (write_len_to_buffer_spec n [h] (take (length rl) buf0) (drop (length rl) buf0)) as Hw.
  rw take_drop in Hw. specialize (Hw ltac:(width) ltac:(rw length_take -/rl; lia)).
  change ([h] ++ buf0) with (h :: buf0) in Hw. change (length [h]) with 1%nat in Hw.
  erewrite bind_run; [|rw /lift_outcome Hw; done]. cbv beta iota.
  erewrite bind_run; [|done]. rw decide_True; [|lia]. apply bind_exn. rw /read_into_readBuf.
  destruct (stream_read_bytes body rest t (Sys (set_readBuf ([h] ++ rl ++ drop (length rl) buf0) (client s)) (world s)) Hp)
    as (w' & Hr & _).
  erewrite bind_run; [|exact Hr]. apply bind_exn. rw store_readBuf_run. cbv zeta.
  cbn [client rd_bytes]. change (readBuf _) with ([h] ++ rl ++ drop (length rl) buf0).
  rw decide_False //. rw -/rl !length_app length_drop /=. lia.
Qed.

(** A packet longer than the buffer is read to its end, in pieces. *)
Lemma drop_packet_loop_stream fuel : forall bs rest total rem l t (s : sys W),
  readBufSize (clientData (client s)) = Z.of_nat (length (readBuf (clientData (client s)))) ->
  0 < readBufSize (clientData (client s)) ->
  Z.of_nat (length bs) = rem - total -> 0 <= total < rem -> rem < 2 ^ 32 ->
  rem - total <= readBufSize (clientData (client s)) * Z.of_nat fuel ->
  pending (world s) = bs ++ rest ->
  exists b w',
    drop_packet_loop fuel rem total (Z.min (readBufSize (clientData (client s))) (rem - total)) l t s =
    Ret (tt, Sys (set_readBuf b (client s)) w') /\
    length b = length (readBuf (clientData (client s))) /\ pending w' = rest.
Proof.
  induction fuel as [|fuel IH]; intros bs rest total rem l t s Hsize Hpos Hbs Htot Hrem Hf Hp; [lia|].
  cbn [drop_packet_loop]. set (size := readBufSize (clientData (client s))) in *.
  set (m := Z.to_nat (Z.min size (rem - total))).
  pose proof (read_into_stream 0 (take m bs) (drop m bs ++ rest) t l s) as Hread.
  rw app_assoc take_drop length_take in Hread.
  destruct Hread as (w1 & Hr & Hp1); [done|lia|].
  replace (Z.of_nat (m `min` length bs)) with (Z.min size (rem - total)) in Hr by lia.
  erewrite bind_run; [|exact Hr]. cbv beta iota. erewrite bind_run; [|done]. cbn [client].
  set (b1 := _ ++ _ ++ _) in *.
  assert (Hb1 : length b1 = length (readBuf (clientData (client s)))).
  { subst b1. rw !length_app length_take length_take length_drop. lia. }
  change (readBufSize (clientData (set_readBuf b1 (client s)))) with size.
  destruct (decide (SUCCESS = SUCCESS)) as [_|[]]; [|done].
  rw (size_t_small (total + _)); [|width].
  destruct (decide (total + Z.min size (rem - total) < rem)) as [Hmore|Hdone].
  - rw size_t_small; [|width].
    assert (Hnext : (if decide (rem - (total + Z.min size (rem - total)) >= size) then size
            else rem - (total + Z.min size (rem - total))) =
           Z.min size (rem - (total + Z.min size (rem - total)))) by (case_decide; lia).
    rw Hnext.
    destruct (IH (drop m bs) rest (total + Z.min size (rem - total)) rem (Z.min size (rem - total)) t
                (Sys (set_readBuf b1 (client s)) w1)) as (b & w2 & Hr2 & Hb & Hp2);
      [by rw /= Hb1|done|rw length_drop; lia|lia|done|cbn [client]; change (readBufSize _) with size; nia|done|].
    exists b, w2. split; [exact Hr2|]. split; [by rw Hb|done].
  - exists b1, w1. split; [done|]. split; [done|]. rw Hp1 drop_ge //. lia.
Qed.

(** The first two steps of the packet reader: header byte and length. *)
Lemma read_packet_header fuel h body rest t pt (s : sys W) buf :
  let n := Z.of_nat (length body) in
  readBuf (clientData (client s)) = buf -> (1 <= length buf)%nat ->
  (4 <= fuel)%nat -> n < 2 ^ 28 -> pending (world s) = frame h body ++ rest ->
  exists pktTimer w',
    _aws_iot_mqtt_internal_read_packet fuel t pt s =
    (if decide (n >= readBufSize (clientData (client s)))
     then (_ ← drop_packet_loop fuel n 0 (readBufSize (clientData (client s))) 1 pktTimer;
           mret (MQTT_RX_BUFFER_TOO_SHORT_ERROR, pt))
     else read_packet_body n 1 pt pktTimer)
      (Sys (set_readBuf (h :: drop 1 buf) (client s)) w') /\
    pending w' = body ++ rest.
Proof.
  intros n Hbuf Hlen Hf Hn Hp. rw /_aws_iot_mqtt_internal_read_packet. erewrite bind_run; [|done].
  destruct (start_ms_stream (packetTimeoutMs (clientData (client s))) s) as (pktTimer & w1 & Hst & Hp1).
  erewrite bind_run; [|exact Hst].
  destruct (read_into_stream 0 [h] (remaining_length_bytes n ++ body ++ rest) t 0 (Sys (client s) w1))
    as (w2 & Hr2 & Hp2).
  { cbn [world]. by rw Hp1 Hp frame_app. }
  { cbn [client]. rw Hbuf /=. lia. }
  erewrite bind_run; [|exact Hr2]. cbn [client]. rw Hbuf.
  destruct (decide (NETWORK_SSL_NOTHING_TO_READ = SUCCESS)) as [Hbad|_]; [done|]. rc_simpl.
  set (c1 := set_readBuf _ (client s)).
  destruct (decode_packet_remaining_len_stream fuel n pktTimer (body ++ rest) (Sys c1 w2)) as (w3 & Hr3 & Hp3);
    [done|lia|done|].
  exists pktTimer, w3. split; [|done]. erewrite bind_run; [|exact Hr3]. rc_simpl.
  erewrite bind_run; [|done]. cbn [client]. reflexivity.
Qed.
End Receiving.

(** ** Delivery *)

(** The characters of the C string a handler's topic pointer designates. *)
Definition filter_text (src : source) (h : MessageHandlers) : option (list Z) :=
  if decide (mh_topicName h = NULL) then None else src (mh_topicName h) ≫= cstring.

(** A handler of the table whose filter matches the topic name. *)
Definition topic_selected (src : source) (name : list Z) (h : MessageHandlers) : bool :=
  match filter_text src h with
  | Some f => bool_decide (f = name) || levels_match (levels f) (levels name)
  | None => false
  end.

(** An entry of the table is free, or its topic is a well-formed filter, stored as a C
    string of the recorded length. *)
Definition entry_ok (src : source) (h : MessageHandlers) : Prop :=
  mh_topicName h = NULL \/
  exists f, filter_text src h = Some f /\ mh_topicNameLen h = Z.of_nat (length f) /\ wf_filter (levels f).

Lemma handler_matches_spec src h p name rest f :
  filter_text src h = Some f -> mh_topicNameLen h = Z.of_nat (length f) -> wf_filter (levels f) ->
  src p = Some (name ++ rest) -> Forall (fun b => b <> 0) name ->
  handler_matches src h p (Z.of_nat (length name)) = Ret (topic_selected src name h).
Proof.
  intros Ht Hlen Hwf Hp Hname. rw /topic_selected Ht. rw /filter_text in Ht. case_decide; [done|].
  destruct (src (mh_topicName h)) as [bs|] eqn:Hsrc; [|done]. simpl in Ht.
  apply cstring_spec in Ht as (junk & -> & Hf). rw /handler_matches Hsrc Hp.
  assert (Hsame : (if decide (Z.of_nat (length name) = mh_topicNameLen h)
            then strncmp_eq (Z.to_nat (Z.of_nat (length name))) (name ++ rest) (f ++ 0 :: junk)
            else Ret false) = Ret (bool_decide (f = name))).
  { rw Nat2Z.id. case_decide as Hl; [rw strncmp_eq_spec //; lia|].
    rw bool_decide_false //. intros ->. lia. }
  rw Hsame /mbind /outcome_bind. case_bool_decide; [done|]. cbn [orb].
  rw decide_True; [|rw length_app; lia]. rw Nat2Z.id take_app_length is_topic_matched_levels //.
  by destruct (levels_match _ _).
Qed.

Section Delivery.
Context {W : Type} `{!Platform W} `{!Application W}.

(** What the rest of a delivery depends on: the client state, the table of handlers,
    and the bytes of filters and topic name, in the memory of the application and in
    the read buffer. *)
Definition same_delivery (s s' : sys W) : Prop :=
  clientState (clientStatus (client s')) = clientState (clientStatus (client s)) /\
  messageHandlers (clientData (client s')) = messageHandlers (clientData (client s)) /\
  readBuf (clientData (client s')) = readBuf (clientData (client s)) /\
  app_memory (world s') = app_memory (world s).

#[export] Instance same_delivery_preorder : PreOrder same_delivery.
Proof.
  split; rw /same_delivery; [done|]. intros s1 s2 s3 (H1 & H2 & H3 & H4) (H5 & H6 & H7 & H8).
  repeat split; congruence.
Qed.

Lemma same_delivery_source s s' : same_delivery s s' -> sys_source s' = sys_source s.
Proof. intros (_ & _ & Hr & Hm). by rw /sys_source Hr Hm. Qed.

(** Handlers that keep it. They may change the rest of the client, such as the write
    buffer, the packet identifier and the timers, and the rest of the world. *)
Definition handlers_keep_delivery : Prop := forall f p n msg d (s s' : sys W) msg',
  app_handler f p n msg d s = Ret (msg', s') -> same_delivery s s'.

(** The handlers of a list called one after the other. *)
Fixpoint run_handlers (hs : list MessageHandlers) (p : ptr) (n : Z)
    (msg : IoT_Publish_Message_Params) : M (sys W) IoT_Publish_Message_Params :=
  match hs with
  | [] => mret msg
  | h :: hs' =>
      msg ← (match mh_pApplicationHandler h with
             | Some f => app_handler f p n msg (mh_pApplicationHandlerData h)
             | None => mret msg
             end);
      run_handlers hs' p n msg
  end.

Lemma deliver_loop_selects pre suf p name rest msg (s : sys W) :
  handlers_keep_delivery -> messageHandlers (clientData (client s)) = pre ++ suf ->
  Forall (entry_ok (sys_source s)) suf ->
  sys_source s p = Some (name ++ rest) -> Forall (fun b => b <> 0) name ->
  deliver_loop (seq (length pre) (length suf)) p (Z.of_nat (length name)) msg s =
  run_handlers (filter (fun h => topic_selected (sys_source s) name h = true) suf)
    p (Z.of_nat (length name)) msg s.
Proof.
  intros Hpure. revert pre msg s.
  induction suf as [|h suf IH]; intros pre msg s Htab Hok Hp Hname; [done|].
  apply Forall_cons in Hok as [Hh Hok]. cbn [seq length deliver_loop].
  assert (Hstep : deliver_to (length pre) p (Z.of_nat (length name)) msg s =
    if topic_selected (sys_source s) name h
    then match mh_pApplicationHandler h with
         | Some f => app_handler f p (Z.of_nat (length name)) msg (mh_pApplicationHandlerData h) s
         | None => Ret (msg, s)
         end
    else Ret (msg, s)).
  { rw /deliver_to. erewrite bind_run; [|done]. rw Htab list_lookup_middle //.
    erewrite bind_run; [|done]. destruct Hh as [Hnull|(f & Ht & Hl & Hwf)].
    - rw Hnull. rc_simpl. by rw /topic_selected /filter_text Hnull.
    - rw decide_True; [|intros Hn; by rw /filter_text Hn in Ht]. erewrite bind_run; [|done].
      rw -/(sys_source s). erewrite bind_run.
      2:{ rw /lift_outcome. erewrite handler_matches_spec; [done|done..]. }
      destruct (topic_selected _ _ _); [|done]. by destruct (mh_pApplicationHandler h). }
  assert (Hrest : forall msg' s', same_delivery s s' ->
    deliver_loop (seq (S (length pre)) (length suf)) p (Z.of_nat (length name)) msg' s' =
    run_handlers (filter (fun h => topic_selected (sys_source s) name h = true) suf)
      p (Z.of_nat (length name)) msg' s').
  { intros msg' s' Hkept. pose proof (same_delivery_source _ _ Hkept) as Hsrc. destruct Hkept as (_ & Ht & _).
    specialize (IH (pre ++ [h]) msg' s'). rw length_app /= Nat.add_1_r in IH. rw Hsrc in IH. apply IH; try done.
    rw Ht Htab -app_assoc //. }
  destruct (topic_selected (sys_source s) name h) eqn:Hsel.
  - rw filter_cons_True //. cbn [run_handlers]. rw /mbind /M_bind Hstep.
    destruct (mh_pApplicationHandler h) as [f|]; [|by apply Hrest].
    destruct (app_handler f _ _ _ _ s) as [[msg' s']|] eqn:Hcall; [|done].
    by apply Hrest, (Hpure _ _ _ _ _ _ _ _ Hcall).
  - rw filter_cons_False; [|by rw Hsel]. erewrite bind_run; [|exact Hstep]. by apply Hrest.
Qed.

Lemma run_handlers_keep hs p n msg (s s' : sys W) msg' : handlers_keep_delivery ->
  run_handlers hs p n msg s = Ret (msg', s') -> same_delivery s s'.
Proof.
  intros Hpure. revert msg s. induction hs as [|h hs IH]; intros msg s; cbn [run_handlers].
  { by intros [= _ <-]. }
  intros Hrun. apply bind_inv in Hrun as (m & s1 & H1 & H2). etrans; [|by eapply IH].
  destruct (mh_pApplicationHandler h); [by eapply Hpure|by injection H1 as _ <-].
Qed.
End Delivery.
Arguments handlers_keep_delivery W {_ _}.

(** ** Waiting *)

(** A clock that advances between two readings. *)
Class Clock (W : Type) `{!Platform W} := {
  clock : W -> Z;
  clock_read : forall w, exists now w', gettimeofday w = Ret (now, w') /\ tv_valid now /\
    usecs now = clock w /\ clock w < clock w' }.

Section Waiting.
Context {W : Type} `{!Platform W} `{!Application W} `{!Clock W}.

Lemma expired_clock t (s : sys W) : tv_valid (end_time t) ->
  exists w', expired t s = Ret (bool_decide (usecs (end_time t) <= clock (world s)), Sys (client s) w') /\
    clock (world s) < clock w'.
Proof.
  intros Ht. destruct (clock_read (world s)) as (now & w' & Hnow & Hv & Hu & Hlt).
  exists w'. split; [|done]. rw /expired. erewrite bind_run; [|by apply on_world_run].
  by rw has_timer_expired_spec // Hu.
Qed.

(** A read cycle that finds nothing to read. *)
Lemma cycle_read_nothing fuel t pt (s : sys W) now l w1 w2 :
  gettimeofday (world s) = Ret (now, w1) ->
  net_read 1 t w1 = Ret (ReadResult NETWORK_SSL_NOTHING_TO_READ [] l, w2) ->
  aws_iot_mqtt_internal_cycle_read fuel TheClient (Some t) pt s = Ret ((SUCCESS, pt), Sys (client s) w2).
Proof.
  intros Hnow Hread.
  assert (Hinto : read_into_readBuf 0 1 t 0 (Sys (client s) w1) =
            Ret ((NETWORK_SSL_NOTHING_TO_READ, default 0 l), Sys (client s) w2)).
  { rw /read_into_readBuf. erewrite bind_run; [|by apply on_world_run].
    erewrite bind_run; [|rw store_readBuf_run; reflexivity].
    cbn [client rd_bytes rd_rc rd_len length app]. rw take_0 drop_0 /=.
    by destruct (client s) as [? ? ? []]. }
  assert (Hpk : _aws_iot_mqtt_internal_read_packet fuel t pt s =
            Ret ((MQTT_NOTHING_TO_READ, pt), Sys (client s) w2)).
  { rw /_aws_iot_mqtt_internal_read_packet. erewrite bind_run; [|done].
    erewrite bind_run; [|rw /start_ms; erewrite bind_run; [|by apply on_world_run]; done].
    erewrite bind_run; [|exact Hinto]. done. }
  rw /aws_iot_mqtt_internal_cycle_read. by erewrite bind_run; [|exact Hpk].
Qed.

(** The wait ends when its read cycles do, on states that satisfy [I]. *)
Lemma wait_loop_ends fuel0 ty t (I : sys W -> Prop) fuel :
  tv_valid (end_time t) ->
  (forall pt s now w', I s -> gettimeofday (world s) = Ret (now, w') ->
     exists r s', aws_iot_mqtt_internal_cycle_read fuel0 TheClient (Some t) pt (Sys (client s) w') = Ret (r, s') /\
       I s' /\ clock w' <= clock (world s')) ->
  forall pt s, I s -> usecs (end_time t) - clock (world s) <= Z.of_nat fuel ->
  exists r s', wait_loop fuel0 fuel ty t pt s = Ret (r, s').
Proof.
  intros Ht Hcycle. induction fuel as [|fuel IH]; intros pt s HI Hf; cbn [wait_loop].
  - destruct (expired_clock t s Ht) as (w' & Hex & _). erewrite bind_run; [|exact Hex].
    rw bool_decide_true; [by eexists _, _|lia].
  - destruct (clock_read (world s)) as (now & w' & Hnow & Hv & Hu & Hlt).
    erewrite bind_run; [|rw /expired; erewrite bind_run; [|by apply on_world_run]; done].
    destruct (has_timer_expired now t); [by eexists _, _|].
    destruct (Hcycle pt s now w' HI Hnow) as ([rc pt'] & s' & Hr & HI' & Hc).
    erewrite bind_run; [|exact Hr]. cbv beta iota. case_decide; [|by eexists _, _].
    apply IH; [done|lia].
Qed.

(** Success of the loop comes from a cycle that read the awaited packet. *)
Lemma wait_loop_success fuel0 fuel ty t : forall pt (s s' : sys W) pt',
  wait_loop fuel0 fuel ty t pt s = Ret ((SUCCESS, pt'), s') ->
  exists pt0 s0, aws_iot_mqtt_internal_cycle_read fuel0 TheClient (Some t) pt0 s0 = Ret ((SUCCESS, ty), s').
Proof.
  induction fuel as [|fuel IH]; intros pt s s' pt'; cbn [wait_loop]; intros Hrun;
    apply bind_inv in Hrun as (e & s1 & _ & Hrun); destruct e; try done.
  apply bind_inv in Hrun as ([rc pt1] & s2 & Hcycle & Hrun). case_decide as Hgo; [by eapply IH|].
  injection Hrun as -> -> ->. exists pt, s1.
  destruct (decide (pt' = ty)) as [->|Hne]; [done|]. exfalso. by apply Hgo.
Qed.
Lemma wait_success fuel ty t (s s' : sys W) :
  aws_iot_mqtt_internal_wait_for_read fuel TheClient ty (Some t) s = Ret (SUCCESS, s') ->
  exists pt0 s0, aws_iot_mqtt_internal_cycle_read fuel TheClient (Some t) pt0 s0 = Ret ((SUCCESS, ty), s').
Proof.
  rw /aws_iot_mqtt_internal_wait_for_read. intros Hrun.
  apply bind_inv in Hrun as ([rc pt] & s1 & Hloop & Hrun). case_decide; [done|].
  injection Hrun as -> ->. by eapply wait_loop_success.
Qed.
End Waiting.

(** What is read during a wait that succeeds. *)
Section Awaiting.
Context {W : Type} `{!Platform W} `{!Application W}.

(** A read of a packet either leaves the type it was given or succeeds. *)
Lemma read_packet_type fuel t pt (s s' : sys W) rc pt' :
  _aws_iot_mqtt_internal_read_packet fuel t pt s = Ret ((rc, pt'), s') -> pt' = pt \/ rc = SUCCESS.
Proof.
  rw /_aws_iot_mqtt_internal_read_packet /read_packet_body. intros Hrun.
  apply bind_inv in Hrun as (c & s1 & _ & Hrun). apply bind_inv in Hrun as (t' & s2 & _ & Hrun).
  apply bind_inv in Hrun as ([rc1 l] & s3 & _ & Hrun).
  case_decide; [injection Hrun as _ <- _; by left|]. case_decide; [injection Hrun as _ <- _; by left|].
  apply bind_inv in Hrun as ([rc2 n] & s4 & _ & Hrun). case_decide; [injection Hrun as _ <- _; by left|].
  apply bind_inv in Hrun as (c' & s5 & _ & Hrun). case_decide.
  { apply bind_inv in Hrun as (u & s6 & _ & Hrun). injection Hrun as _ <- _. by left. }
  apply bind_inv in Hrun as (c2 & s6 & _ & Hrun). apply bind_inv in Hrun as ([k cur] & s7 & _ & Hrun).
  apply bind_inv in Hrun as (u & s8 & _ & Hrun). apply bind_inv in Hrun as ([rc3 l3] & s9 & _ & Hrun).
  case_decide as Hd; [injection Hrun as _ <- _; by left|].
  apply bind_inv in Hrun as (c3 & s10 & _ & Hrun). apply bind_inv in Hrun as (h & s11 & _ & Hrun).
  injection Hrun as <- _ _. right. destruct rc3; try done; exfalso; apply Hd; by left.
Qed.

(** The read cycles of a wait that ends with a packet of type [ty], from the type of
    the packet read last and the state, to the state after the wait: any number of
    cycles that read other packets or none, then one in which a packet of type [ty]
    is read and dealt with. Before each cycle the timer is tested. *)
Inductive awaited fuel ty t : Z -> sys W -> sys W -> Prop :=
  | awaited_last pt s s1 s2 s' :
      expired t s = Ret (false, s1) ->
      _aws_iot_mqtt_internal_read_packet fuel t pt s1 = Ret ((SUCCESS, ty), s2) ->
      dispatch_packet fuel t SUCCESS ty s2 = Ret (SUCCESS, s') ->
      awaited fuel ty t pt s s'
  | awaited_other pt s s1 rc pt' s2 s' :
      expired t s = Ret (false, s1) ->
      aws_iot_mqtt_internal_cycle_read fuel TheClient (Some t) pt s1 = Ret ((rc, pt'), s2) ->
      rc <> NETWORK_DISCONNECTED_ERROR -> pt' <> ty ->
      awaited fuel ty t pt' s2 s' -> awaited fuel ty t pt s s'.

Lemma wait_loop_awaited fuel0 fuel ty t : forall pt (s s' : sys W) pt',
  pt <> ty -> wait_loop fuel0 fuel ty t pt s = Ret ((SUCCESS, pt'), s') -> awaited fuel0 ty t pt s s'.
Proof.
  induction fuel as [|fuel IH]; intros pt s s' pt' Hpt; cbn [wait_loop]; intros Hrun;
    apply bind_inv in Hrun as (e & s1 & He & Hrun); destruct e; try done.
  apply bind_inv in Hrun as ([rc pt1] & s2 & Hcycle & Hrun).
  case_decide as Hgo.
  { destruct Hgo as [Hrc Hne]. eapply awaited_other; [exact He|exact Hcycle|by intros ->|done|by eapply IH]. }
  injection Hrun as -> -> ->. destruct (decide (pt' = ty)) as [->|Hne]; [|exfalso; by apply Hgo].
  move: Hcycle. rw /aws_iot_mqtt_internal_cycle_read. intros Hrun.
  apply bind_inv in Hrun as ([rc1 pt1] & s3 & Hread & Hrun).
  pose proof (read_packet_type _ _ _ _ _ _ _ Hread) as Hty.
  case_decide as Hno; [injection Hrun as -> ->; subst rc1; by destruct Hty|].
  case_decide as Herr; [injection Hrun as -> _ _; by destruct Herr|].
  assert (rc1 = SUCCESS) as -> by (destruct rc1; try done; exfalso; by apply Herr).
  apply bind_inv in Hrun as (rc2 & s4 & Hd & Hrun). injection Hrun as -> -> ->.
  by eapply awaited_last.
Qed.

Lemma wait_awaited fuel ty t (s s' : sys W) :
  0 <> ty -> aws_iot_mqtt_internal_wait_for_read fuel TheClient ty (Some t) s = Ret (SUCCESS, s') ->
  awaited fuel ty t 0 s s'.
Proof.
  intros Hty. rw /aws_iot_mqtt_internal_wait_for_read. intros Hrun.
  apply bind_inv in Hrun as ([rc pt] & s1 & Hloop & Hrun). case_decide; [done|].
  injection Hrun as -> ->. by eapply wait_loop_awaited.
Qed.
End Awaiting.

(** ** The simulated platform meets the laws *)

#[export] Instance sim_writes_all : WritesAll sim.
Proof. rw /WritesAll /=. rw /sim_write. by intros bs n t w k w' _ [= <- _]. Qed.

#[export] Instance sim_time_memory : TimeKeepsMemory sim.
Proof. intros w now w' Hw. by injection Hw as _ <-. Qed.

#[export] Program Instance sim_stream : Stream sim := { pending := sim_in }.
Next Obligation.
  intros n t w Hn. exists (sim_set_in (drop (Z.to_nat n) (sim_in w)) w). split; [|done].
  rw /net_read /= /sim_read decide_True; [done|lia].
Qed.
Next Obligation. intros w. eexists _, _. split; [done|]. split; [apply sim_time_valid|done]. Qed.

#[export] Program Instance sim_clock : Clock sim := { clock := sim_now }.
Next Obligation.
  intros w. eexists _, _. split; [done|]. split; [apply sim_time_valid|].
  split; [apply sim_time_usecs|]. cbn [sim_now]. lia.
Qed.

(** ** Properties *)

(** With a network whose successful writes are complete, sending a packet is one
    write of its first [length] bytes: success exactly when the timer had not
    expired and the write succeeded, and nothing else is sent. *)
Theorem send_packet_one_write {W} `{!Platform W} `{!Application W} `{!WritesAll W} fuel n t (s : sys W) :
  (0 < fuel)%nat -> client_ok (client s) -> 0 < n < AWS_IOT_MQTT_TX_BUF_LEN ->
  aws_iot_mqtt_internal_send_packet fuel TheClient n (Some t) s =
  (e ← expired t;
   if e : bool then mret FAILURE
   else
     '(rc, _) ← on_world (net_write (writeBuf (clientData (client s))) n t);
     mret (if decide (rc = SUCCESS) then SUCCESS else FAILURE)) s.
Proof.
  intros Hf Hok Hn. rw send_packet_once //; [|by rw (ok_writeBufSize _ Hok)..].
  rw /send_once /mbind /M_bind. pose proof (pres_on_world eq (W := W) (A := timeval)) as Hp.
  destruct (expired t s) as [[e s1]|] eqn:He; [|done]. destruct e; [done|].
  rw /get_client /gets /=. assert (client s1 = client s) as ->; [|done].
  move: He. rw /expired /mbind /M_bind /on_world.
  destruct (gettimeofday (world s)) as [[now w]|]; [|done]. rw /mret /M_ret. by intros [= _ <-].
Qed.

Lemma send_packet_one_write_witness :
  let s := Sys (set_writeBuf (192 :: 0 :: replicate 510 7) (sim_client CLIENT_STATE_CONNECTED_IDLE []))
             (sim_world []) in
  let t := MkTimer (Timeval 20 0) in
  aws_iot_mqtt_internal_send_packet 1 TheClient 2 (Some t) s =
  (e ← expired t;
   if e : bool then mret FAILURE
   else
     '(rc, _) ← on_world (net_write (192 :: 0 :: replicate 510 7) 2 t);
     mret (if decide (rc = SUCCESS) then SUCCESS else FAILURE)) s.
Proof.
  intros s t. apply (send_packet_one_write 1 2 t s); [lia| |by rw /AWS_IOT_MQTT_TX_BUF_LEN].
  constructor; try done.
Defined.

(** The send loop ends on every network that makes progress: with as much fuel
    as there are bytes it returns success or failure, whatever sizes the writes
    report, and leaves the client unchanged. *)
Theorem send_packet_terminates {W} `{!Platform W} `{!Application W} fuel n t (s : sys W) :
  (forall w, exists r, gettimeofday w = Ret r) ->
  (forall bs n t w, 0 < n -> exists rc k w', net_write bs n t w = Ret ((rc, k), w') /\
     (rc = SUCCESS -> exists m, k = Some m /\ 1 <= m <= n)) ->
  0 < n <= Z.of_nat fuel -> writeBufSize (clientData (client s)) <= 2 ^ 32 ->
  exists rc s', aws_iot_mqtt_internal_send_packet fuel TheClient n (Some t) s = Ret (rc, s') /\
    client s' = client s /\ (rc = SUCCESS \/ rc = FAILURE \/ rc = MQTT_TX_BUFFER_TOO_SHORT_ERROR).
Proof.
  intros Htime Hwrite Hn Hsize. rw /aws_iot_mqtt_internal_send_packet. erewrite bind_run; [|done].
  case_decide; [eexists _, s; eauto|].
  destruct (send_loop_ends Htime Hwrite fuel n t 0 0 s) as (r & s' & Hr & Hc & _); [lia..|].
  erewrite bind_run; [|exact Hr]. case_decide; eexists _, s'; eauto.
Qed.

Lemma send_packet_terminates_witness :
  exists rc s', aws_iot_mqtt_internal_send_packet 2 TheClient 2 (Some init_timer)
      (Sys (sim_client CLIENT_STATE_CONNECTED_IDLE []) (sim_world [])) = Ret (rc, s') /\
    client s' = sim_client CLIENT_STATE_CONNECTED_IDLE [] /\
    (rc = SUCCESS \/ rc = FAILURE \/ rc = MQTT_TX_BUFFER_TOO_SHORT_ERROR).
Proof.
  apply (send_packet_terminates 2 2 init_timer
           (Sys (sim_client CLIENT_STATE_CONNECTED_IDLE []) (sim_world []))); [|..|lia|simpl; lia].
  - intros w. by eexists.
  - intros bs n t w Hn. eexists _, _, _. split; [reflexivity|]. intros _. exists n. split; [done|lia].
Defined.

(** C11: one call of the packet reader consumes exactly one packet of the stream. A
    packet whose body has at most 509 bytes is stored at the start of the read buffer
    as it was sent and its type returned; one with a body of 512 bytes or more is
    read to its end and dropped with an error; for 510 and 511 bytes the body is
    written behind the end of the read buffer. *)
Theorem read_packet_consumes_one {W} `{!Platform W} `{!Application W} `{!Stream W}
    fuel h body rest t pt (s : sys W) :
  let c := client s in
  let n := Z.of_nat (length body) in
  client_ok c -> (4 <= fuel)%nat -> n < 2 ^ 28 -> n <= 512 * Z.of_nat fuel ->
  pending (world s) = frame h body ++ rest ->
  (n <= 509 -> exists w', _aws_iot_mqtt_internal_read_packet fuel t pt s =
     Ret ((SUCCESS, hdr_type h),
          Sys (set_readBuf (frame h body ++ drop (length (frame h body)) (readBuf (clientData c))) c) w') /\
     pending w' = rest) /\
  (512 <= n -> exists b w', _aws_iot_mqtt_internal_read_packet fuel t pt s =
     Ret ((MQTT_RX_BUFFER_TOO_SHORT_ERROR, pt), Sys (set_readBuf b c) w') /\
     length b = length (readBuf (clientData c)) /\ pending w' = rest) /\
  (510 <= n <= 511 -> _aws_iot_mqtt_internal_read_packet fuel t pt s = Exn (Fault OobWrite)).
Proof.
  intros c n Hok Hf Hn Hfn Hp. pose proof Hok as [_ Hrb _ Hrs _ _].
  rw /AWS_IOT_MQTT_RX_BUF_LEN in Hrb, Hrs. subst c.
  pose proof (length_frame h body) as Hfr. rw -/n in Hfr.
  pose proof (remaining_length_bytes_length n ltac:(lia)) as Hrl.
  destruct (read_packet_header fuel h body rest t pt s _ eq_refl) as (pk & w & Hrun & Hpw); [lia|done|done|done|].
  rw Hrun Hrs. split; [|split].
  - intros Hle. rw decide_False; [|lia].
    destruct (read_packet_body_stream h body rest (drop 1 (readBuf (clientData (client s)))) 1 pt pk
      (Sys (set_readBuf (h :: drop 1 (readBuf (clientData (client s)))) (client s)) w))
      as (w' & Hr & Hp'); [done|rw length_drop; lia| |done|].
    { rw length_drop -/n. revert Hrl. destruct (n <? 128); [lia|]. destruct (n <? 16384) eqn:?; lia. }
    exists w'. split; [|done]. etrans; [exact Hr|]. cbn [client]. rw drop_drop.
    assert (length (frame h body) = (1 + (length (remaining_length_bytes n) + length body))%nat) as -> by lia.
    done.
  - intros Hge. rw decide_True; [|lia].
    destruct (drop_packet_loop_stream fuel body rest 0 n 1 pk
      (Sys (set_readBuf (h :: drop 1 (readBuf (clientData (client s)))) (client s)) w))
      as (b & w' & Hr & Hb & Hp'); cbn [client] in *.
    + change (readBufSize _) with (readBufSize (clientData (client s))). rw Hrs /= length_drop. lia.
    + change (readBufSize _) with (readBufSize (clientData (client s))). lia.
    + lia.
    + lia.
    + lia.
    + change (readBufSize _) with (readBufSize (clientData (client s))). lia.
    + done.
    + exists b, w'. change (readBufSize _) with (readBufSize (clientData (client s))) in Hr.
      rw Hrs Z.min_l in Hr; [|lia]. split; [erewrite bind_run; [|exact Hr]; done|].
      split; [rw Hb /= length_drop; lia|done].
  - intros Hmid. rw decide_False; [|lia].
    apply (read_packet_body_overflow h body rest); [by eexists|lia|done| |done].
    cbn [client]. rw /= length_drop -/n. revert Hrl. rw (proj2 (Z.ltb_ge n 128)); [|lia].
    rw (proj2 (Z.ltb_lt n 16384)); lia.
Qed.

(** A PINGRESP packet, followed by the first byte of another packet. *)
Lemma read_packet_consumes_one_witness :
  exists w', _aws_iot_mqtt_internal_read_packet 4 init_timer 0
      (Sys (sim_client CLIENT_STATE_CONNECTED_IDLE []) (sim_world [208; 0; 48])) =
    Ret ((SUCCESS, 13), Sys (set_readBuf ([208; 0] ++ replicate 510 0)
                               (sim_client CLIENT_STATE_CONNECTED_IDLE [])) w') /\ sim_in w' = [48].
Proof.
  apply (proj1 (read_packet_consumes_one 4 208 [] [48] init_timer 0
    (Sys (sim_client CLIENT_STATE_CONNECTED_IDLE []) (sim_world [208; 0; 48]))
    (sim_client_ok _ _) ltac:(lia) ltac:(simpl; lia) ltac:(simpl; lia) eq_refl)). simpl. lia.
Defined.

(** C13: an incoming message is delivered to exactly the subscribed handlers whose
    filter equals or matches the topic name, in the order of the table and each one
    once; during the calls the client is in the state that forbids a nested yield, and
    afterwards it is in the state it was in before, and otherwise as the handlers left
    it. This holds for a client within its invariant whose entries are free or
    well-formed filters stored as C strings of the recorded length, a topic name
    without NUL bytes, and handlers that keep the client state, the table, the read
    buffer and the memory of the application. (Handlers that overwrite the read buffer
    or change the table influence which of the remaining handlers are called.) *)
Theorem deliver_message_selects {W} `{!Platform W} `{!Application W} p name rest msg (s : sys W) :
  handlers_keep_delivery W -> client_ok (client s) -> p <> NULL ->
  Forall (entry_ok (sys_source s)) (messageHandlers (clientData (client s))) ->
  sys_source s p = Some (name ++ rest) -> Forall (fun b => b <> 0) name ->
  _aws_iot_mqtt_internal_deliver_message p (Z.of_nat (length name)) msg s =
  match run_handlers (filter (fun h => topic_selected (sys_source s) name h = true)
                        (messageHandlers (clientData (client s))))
          p (Z.of_nat (length name)) msg
          (Sys (set_clientState CLIENT_STATE_CONNECTED_WAIT_FOR_CB_RETURN (client s)) (world s)) with
  | Ret (msg', s') =>
      Ret ((SUCCESS, msg'), Sys (set_clientState (clientState (clientStatus (client s))) (client s')) (world s'))
  | Exn e => Exn e
  end.
Proof.
  intros Hkeep Hok Hp Hent Hsrc Hname. rw /_aws_iot_mqtt_internal_deliver_message decide_False //.
  erewrite bind_run; [|done]. erewrite bind_run; [|rw set_client_state_run decide_True //].
  set (s1 := Sys (set_clientState _ _) _). rw -(ok_handlers _ Hok).
  change (sys_source s) with (sys_source s1) in *.
  pose proof (deliver_loop_selects [] (messageHandlers (clientData (client s))) p name rest msg s1
                Hkeep eq_refl Hent Hsrc Hname) as Hloop. cbn [length] in Hloop.
  rw /mbind /M_bind Hloop.
  destruct (run_handlers _ _ _ _ s1) as [[msg' s2]|] eqn:Hrun; [|done].
  apply run_handlers_keep in Hrun as (Hst & _); [|done]. rw set_client_state_run Hst.
  case_decide as Hd; [done|by destruct Hd].
Qed.

(** The name "a/b" is delivered to the handlers of "a/b" and "a/+", not to "dev". *)
Definition deliver_demo : sys sim :=
  Sys (sim_client CLIENT_STATE_CONNECTED_IDLE
         [MkHandler (App 1) 3 QOS0 (Some 11) NULL; MkHandler (App 2) 3 QOS0 (Some 12) NULL;
          MkHandler (App 3) 3 QOS1 (Some 13) NULL]) (sim_world []).

Lemma deliver_message_selects_witness :
  exists w', _aws_iot_mqtt_internal_deliver_message (App 2) 3 (MsgParams 0 0 0 0 (App 4) 5) deliver_demo =
    Ret ((SUCCESS, MsgParams 0 0 0 0 (App 4) 5), Sys (client deliver_demo) w') /\
    sim_calls w' = [(13, App 2, 3); (12, App 2, 3)].
Proof.
  rw (deliver_message_selects (App 2) [97; 47; 98] [0] (MsgParams 0 0 0 0 (App 4) 5) deliver_demo).
  - eexists. split; vm_compute; reflexivity.
  - intros f p n msg d s s' msg' [= <- <-]. repeat split; reflexivity.
  - apply sim_client_ok.
  - discriminate.
  - do 3 (apply Forall_cons_2;
      [right; eexists; split; [reflexivity|]; split; [reflexivity|];
       repeat (split; [first [by left|right; right; by repeat constructor]|]); exact I|]).
    do 2 (apply Forall_cons_2; [by left|]). apply Forall_nil_2.
  - reflexivity.
  - repeat constructor; discriminate.
Defined.

(** Waiting for a packet returns success only when its last read cycle read a
    packet of the awaited type without error. *)
Theorem wait_for_read_success {W} `{!Platform W} `{!Application W} fuel ty t (s s' : sys W) :
  aws_iot_mqtt_internal_wait_for_read fuel TheClient ty (Some t) s = Ret (SUCCESS, s') ->
  exists pt0 s0, aws_iot_mqtt_internal_cycle_read fuel TheClient (Some t) pt0 s0 = Ret ((SUCCESS, ty), s').
Proof.
  apply wait_success.
Qed.

(** C18: the loop that waits for a packet ends, provided that the clock advances and that
    each of its read cycles ends (in every state that satisfies an invariant [I], which
    it restores, and without setting the clock back): as many iterations as microseconds
    are left on the timer suffice, whatever the read cycles return. That the cycles end
    is an assumption about the network: the limit of the length decoder never ends one. *)
Theorem wait_for_read_terminates {W} `{!Platform W} `{!Application W} `{!Clock W} fuel ty t
    (I : sys W -> Prop) (s : sys W) :
  tv_valid (end_time t) ->
  (forall pt s now w', I s -> gettimeofday (world s) = Ret (now, w') ->
     exists r s', aws_iot_mqtt_internal_cycle_read fuel TheClient (Some t) pt (Sys (client s) w') = Ret (r, s') /\
       I s' /\ clock w' <= clock (world s')) ->
  I s -> usecs (end_time t) - clock (world s) <= Z.of_nat fuel ->
  exists rc s', aws_iot_mqtt_internal_wait_for_read fuel TheClient ty (Some t) s = Ret (rc, s').
Proof.
  intros Ht Hcycle HI Hf. rw /aws_iot_mqtt_internal_wait_for_read.
  destruct (wait_loop_ends fuel ty t I fuel Ht Hcycle 0 s HI Hf) as ([rc pt] & s' & Hr).
  erewrite bind_run; [|exact Hr]. cbv beta iota. case_decide; by eexists _, _.
Qed.

Lemma wait_for_read_success_witness :
  exists pt0 s0, aws_iot_mqtt_internal_cycle_read 4 TheClient (Some (MkTimer (Timeval 20 0))) pt0 s0 =
    Ret ((SUCCESS, 4), Sys (set_readBuf ([64; 2; 0; 9] ++ replicate 508 0)
                              (sim_client CLIENT_STATE_CONNECTED_IDLE []))
                         (Sim 5000020 10 sim_memory [] [] [])).
Proof.
  apply (wait_for_read_success 4 4 (MkTimer (Timeval 20 0))
           (Sys (sim_client CLIENT_STATE_CONNECTED_IDLE []) (sim_world [64; 2; 0; 9]))).
  vm_compute. reflexivity.
Defined.

(** Nothing arrives: the wait times out. *)
Lemma wait_for_read_terminates_witness :
  exists rc s', aws_iot_mqtt_internal_wait_for_read 100 TheClient 4
      (Some (MkTimer (Timeval 5 90))) (Sys (sim_client CLIENT_STATE_CONNECTED_IDLE []) (sim_world [])) = Ret (rc, s').
Proof.
  apply (wait_for_read_terminates 100 4 (MkTimer (Timeval 5 90))
           (fun s => sim_in (world s) = [] /\ (0 < length (readBuf (clientData (client s))))%nat)).
  - unfold tv_valid. simpl. lia.
  - intros pt [c w] now w' [Hin Hlen] Hnow. injection Hnow as _ <-.
    eexists _, _. split; [eapply cycle_read_nothing; [reflexivity|]|].
    + cbn [net_read sim_platform]. rw /sim_read. cbn [sim_in world] in *. rw Hin. reflexivity.
    + cbn [client world sim_in sim_now clock sim_clock] in *. split; [done|]. lia.
  - split; [reflexivity|]. simpl. lia.
  - simpl. unfold usecs. simpl. lia.
Defined.
