(* ===== verification/Publish.v ===== *)
(** * Publishing

    [aws_iot_mqtt_publish] and its internal function, of
    [src/aws_iot_mqtt_client_publish.c]. *)
From S2P Require Import Prelude Buffer Types Wire Packets Timer Topic Client Sim Transport.

Section Publish.
Context {W : Type} `{!Platform W} `{!Application W} (fuel : nat).

(** [pParams] is updated in place: the result also holds it as it is left. *)
Definition _aws_iot_mqtt_internal_publish (pTopicName : ptr) (topicNameLen : Z)
    (pParams : IoT_Publish_Message_Params) : M (sys W) (IoT_Error_t * IoT_Publish_Message_Params) :=
  c ← get_client;
  timer ← start_ms (commandTimeoutMs (clientData c));
  p ← (if decide (QOS1 = msg_qos pParams) then
         id ← aws_iot_mqtt_get_next_packet_id;
         mret (MsgParams (msg_qos pParams) (msg_isRetained pParams) (msg_isDup pParams) id
                 (msg_payload pParams) (msg_payloadLen pParams))
       else mret pParams);
  src ← get_source;
  '(rc, len) ← serialize (fun buf size =>
      _aws_iot_mqtt_internal_serialize_publish src (Some buf) size 0 (msg_qos p) (msg_isRetained p)
        (msg_id p) pTopicName topicNameLen (msg_payload p) (msg_payloadLen p) (Some 0)) 0;
  if decide (SUCCESS <> rc) then mret (rc, p)
  else
    rc ← aws_iot_mqtt_internal_send_packet fuel TheClient len (Some timer);
    if decide (SUCCESS <> rc) then mret (rc, p)
    else if decide (QOS1 = msg_qos p) then
      rc ← aws_iot_mqtt_internal_wait_for_read fuel TheClient (MessageTypes_val PUBACK) (Some timer);
      if decide (SUCCESS <> rc) then mret (rc, p)
      else
        c ← get_client;
        '(rc, _) ← lift_outcome (aws_iot_mqtt_internal_deserialize_ack true (AckOut 0 0 0)
                     (Some (readBuf (clientData c))) (readBufSize (clientData c)));
        if decide (SUCCESS <> rc) then mret (rc, p) else mret (SUCCESS, p)
    else mret (SUCCESS, p).

Definition aws_iot_mqtt_publish (pClient : client_ptr) (pTopicName : ptr) (topicNameLen : Z)
    (pParams : option IoT_Publish_Message_Params) :
    M (sys W) (IoT_Error_t * option IoT_Publish_Message_Params) :=
  match pClient, pParams with
  | TheClient, Some p =>
      if decide (pTopicName = NULL \/ 0 = topicNameLen) then mret (NULL_VALUE_ERROR, pParams)
      else
        connected ← aws_iot_mqtt_is_client_connected TheClient;
        if negb connected then mret (NETWORK_DISCONNECTED_ERROR, pParams)
        else
          st ← aws_iot_mqtt_get_client_state TheClient;
          if decide (CLIENT_STATE_CONNECTED_IDLE <> st /\ CLIENT_STATE_CONNECTED_WAIT_FOR_CB_RETURN <> st)
          then mret (MQTT_CLIENT_NOT_IDLE_ERROR, pParams)
          else
            rc ← aws_iot_mqtt_set_client_state TheClient st CLIENT_STATE_CONNECTED_PUBLISH_IN_PROGRESS;
            if decide (SUCCESS <> rc) then mret (rc, pParams)
            else
              '(pubRc, p) ← _aws_iot_mqtt_internal_publish pTopicName topicNameLen p;
              rc ← aws_iot_mqtt_set_client_state TheClient CLIENT_STATE_CONNECTED_PUBLISH_IN_PROGRESS st;
              mret (if decide (SUCCESS = pubRc /\ SUCCESS <> rc) then rc else pubRc, Some p)
  | _, _ => mret (NULL_VALUE_ERROR, pParams)
  end.
End Publish.

Section PublishLemmas.
Context {W : Type} `{!Platform W} `{!Application W} (fuel : nat).

Lemma pres_internal_publish R `{!TransportFrame (W := W) R} p n msg :
  (forall c, R c (set_nextPacketId (next_packet_id (nextPacketId (clientData c))) c)) ->
  pres (W := W) R (_aws_iot_mqtt_internal_publish fuel p n msg).
Proof.
  intros Hid. rw /_aws_iot_mqtt_internal_publish.
  pose proof (pres_get_next_packet_id (W := W) R Hid). pose proof (pres_wait_for_read (W := W) R).
  pose proof (pres_send_packet (W := W) R). pres_auto.
Qed.

Lemma pres_publish R `{!TransportFrame (W := W) R} c p n msg :
  (forall c, R c (set_nextPacketId (next_packet_id (nextPacketId (clientData c))) c)) ->
  (forall c st, R c (set_clientState st c)) ->
  pres (W := W) R (aws_iot_mqtt_publish fuel c p n msg).
Proof.
  intros Hid Hst. rw /aws_iot_mqtt_publish /aws_iot_mqtt_is_client_connected /aws_iot_mqtt_get_client_state.
  pose proof (pres_internal_publish R). pres_auto; apply (pres_set_client_state R); auto.
Qed.

(** Publishing leaves the client state as it was, whatever happens. *)
Lemma publish_keeps_state c p n msg : handlers_keep_state W ->
  pres (W := W) same_state (aws_iot_mqtt_publish fuel c p n msg).
Proof.
  intros Hh s. pose proof (same_state_frame W Hh) as Hfr. rw /aws_iot_mqtt_publish.
  wp_operation ltac:(by apply (pres_internal_publish same_state)).
Qed.
End PublishLemmas.
(** ** What a publish sends *)

Section PublishRuns.
Context {W : Type} `{!Platform W} `{!Application W} `{!WritesAll W} `{!TimeKeepsMemory W}.

(** The message parameters with the identifier a publish gives them. *)
Definition with_id (msg : IoT_Publish_Message_Params) (c : AWS_IoT_Client) : IoT_Publish_Message_Params :=
  if decide (QOS1 = msg_qos msg)
  then MsgParams (msg_qos msg) (msg_isRetained msg) (msg_isDup msg)
         (next_packet_id (nextPacketId (clientData c))) (msg_payload msg) (msg_payloadLen msg)
  else msg.
Definition id_taken (msg : IoT_Publish_Message_Params) (c : AWS_IoT_Client) : AWS_IoT_Client :=
  if decide (QOS1 = msg_qos msg)
  then set_nextPacketId (next_packet_id (nextPacketId (clientData c))) c else c.

(** The arguments of a publish that the packet can represent and the write buffer
    hold. *)
Record publish_request (s : sys W) (pT : ptr) (tl : Z) (msg : IoT_Publish_Message_Params)
    (topic payload : list Z) : Prop := {
  pr_ok : client_ok (client s);
  pr_args : publish_args (sys_source s) (msg_qos msg) (msg_id (with_id msg (client s))) pT tl
              (msg_payload msg) (msg_payloadLen msg) topic payload;
  pr_ret : 0 <= msg_isRetained msg <= 1;
  pr_fits : aws_iot_mqtt_internal_get_final_packet_length_from_remaining_length
    (Z.of_nat (length (publish_body (msg_qos msg) (msg_id (with_id msg (client s))) topic payload))) <
    AWS_IOT_MQTT_TX_BUF_LEN }.

Definition request_packet (s : sys W) (msg : IoT_Publish_Message_Params) (topic payload : list Z) : list Z :=
  publish_packet 0 (msg_qos msg) (msg_isRetained msg) (msg_id (with_id msg (client s))) topic payload.

Lemma request_packet_length s pT tl msg topic payload :
  publish_request s pT tl msg topic payload ->
  0 < Z.of_nat (length (request_packet s msg topic payload)) < AWS_IOT_MQTT_TX_BUF_LEN.
Proof.
  intros [_ Hargs _ Hfits]. destruct Hargs as [(Htl & _) Htl16 (Hpl & _) Hpl31 _ Hqos Hid].
  rw /request_packet /publish_packet length_frame.
  set (body := publish_body _ _ _ _) in *.
  assert (Hbody : Z.of_nat (length body) < 2 ^ 32 - 8).
  { subst body. rw /publish_body length_app length_utf8_bytes length_app.
    case_decide; rw ?length_uint16_bytes /=; width. }
  destruct (final_packet_length_fits (Z.of_nat (length body)) (AWS_IOT_MQTT_TX_BUF_LEN - 1)) as [Hs Ht];
    [width|by rw /AWS_IOT_MQTT_TX_BUF_LEN|lia|lia|]. lia.
Qed.

(** The serializer puts the packet at the start of the write buffer. *)
Lemma serialize_publish_run (s : sys W) pT tl msg topic payload :
  publish_request s pT tl msg topic payload ->
  forall s1 : sys W, clientData (client s1) = clientData (id_taken msg (client s)) ->
  let p := with_id msg (client s) in
  let pkt := request_packet s msg topic payload in
  serialize (fun buf size => _aws_iot_mqtt_internal_serialize_publish (sys_source s) (Some buf) size 0
    (msg_qos p) (msg_isRetained p) (msg_id p) pT tl (msg_payload p) (msg_payloadLen p) (Some 0)) 0 s1 =
  Ret ((SUCCESS, Z.of_nat (length pkt)), Sys (with_packet pkt (client s1)) (world s1)).
Proof.
  intros [Hok Hargs Hret Hfits] s1 Hs1 p pkt.
  assert (Hp : msg_qos p = msg_qos msg /\ msg_isRetained p = msg_isRetained msg /\
               msg_payload p = msg_payload msg /\ msg_payloadLen p = msg_payloadLen msg).
  { subst p. rw /with_id. by case_decide. }
  destruct Hp as (-> & -> & -> & ->).
  assert (Hd : Z.of_nat (length (writeBuf (clientData (client s1)))) = AWS_IOT_MQTT_TX_BUF_LEN /\
               writeBufSize (clientData (client s1)) = AWS_IOT_MQTT_TX_BUF_LEN).
  { rw Hs1 /id_taken. destruct Hok. by case_decide. }
  destruct Hd as [Hlen Hsize]. rw /serialize. erewrite bind_run; [|done].
  rw Hsize -Hlen /lift_outcome.
  erewrite bind_run.
  2:{ erewrite serialize_publish_spec; [done|by rw Hlen|done|done|exact Hargs]. }
  rw /ser_spec decide_False; [|subst p; rw Hlen; lia]. by erewrite bind_run.
Qed.

(** The sending half of a publish: the state after it, and how it ends. *)
Lemma internal_publish_run fuel (s : sys W) pT tl msg topic payload :
  publish_request s pT tl msg topic payload -> (0 < fuel)%nat ->
  let p := with_id msg (client s) in
  let pkt := request_packet s msg topic payload in
  _aws_iot_mqtt_internal_publish fuel pT tl msg s =
  (timer ← start_ms (commandTimeoutMs (clientData (client s)));
   _ ← mod_client (fun c => with_packet pkt (id_taken msg c));
   rc ← send_once (Z.of_nat (length pkt)) timer;
   if decide (SUCCESS <> rc) then mret (rc, p)
   else if decide (QOS1 = msg_qos msg) then
     rc ← aws_iot_mqtt_internal_wait_for_read fuel TheClient (MessageTypes_val PUBACK) (Some timer);
     if decide (SUCCESS <> rc) then mret (rc, p)
     else
       c ← get_client;
       '(rc, _) ← lift_outcome (aws_iot_mqtt_internal_deserialize_ack true (AckOut 0 0 0)
                    (Some (readBuf (clientData c))) (readBufSize (clientData c)));
       if decide (SUCCESS <> rc) then mret (rc, p) else mret (SUCCESS, p)
   else mret (SUCCESS, p)) s.
Proof.
  intros Hreq Hf p pkt. rw /_aws_iot_mqtt_internal_publish. erewrite bind_run; [|done].
  destruct (start_ms (commandTimeoutMs (clientData (client s))) s) as [[t s1]|e] eqn:Hst; [|by rw !(bind_exn _ _ _ _ Hst)].
  rw !(bind_run _ _ _ _ _ Hst). apply start_ms_inv in Hst as [Hc Hm].
  assert (Hid : (if decide (QOS1 = msg_qos msg) then
         id ← aws_iot_mqtt_get_next_packet_id;
         mret (MsgParams (msg_qos msg) (msg_isRetained msg) (msg_isDup msg) id
                 (msg_payload msg) (msg_payloadLen msg))
       else mret msg) s1 = Ret (p, Sys (id_taken msg (client s)) (world s1))).
  { subst p. rw /with_id /id_taken -Hc. case_decide; [by erewrite bind_run|].
    rw /mret /M_ret. by destruct s1. }
  erewrite bind_run; [|exact Hid]. erewrite bind_run; [|done]. cbn [client world].
  assert (Hsrc : deref (app_memory (world s1)) (readBuf (clientData (id_taken msg (client s)))) = sys_source s).
  { rw /sys_source Hm /id_taken. by case_decide. }
  rw Hsrc. erewrite bind_run; [|by eapply (serialize_publish_run s)]. rc_simpl.
  erewrite (bind_run (mod_client _)); [|done]. rw Hc. cbn [client world].
  destruct (request_packet_length _ _ _ _ _ _ Hreq) as [Hpos Hlt].
  assert (Hsize : writeBufSize (clientData (id_taken msg (client s))) = AWS_IOT_MQTT_TX_BUF_LEN).
  { rw /id_taken -(ok_writeBufSize _ (pr_ok _ _ _ _ _ _ Hreq)). by case_decide. }
  assert (msg_qos p = msg_qos msg) as -> by (subst p; rw /with_id; by case_decide).
  rw {1}/mbind {5}/mbind /M_bind send_packet_once //; cbn [client];
    change (writeBufSize (clientData (with_packet _ ?c))) with (writeBufSize (clientData c)); rw Hsize //.
Qed.

Lemma publish_request_state s pT tl msg topic payload st :
  publish_request s pT tl msg topic payload ->
  publish_request (Sys (set_clientState st (client s)) (world s)) pT tl msg topic payload.
Proof. intros [Hok Hargs Hret Hfits]. split; try done. by eapply ok_rel_upd; [|exact Hok]. Qed.

(** The guards of a publish on an idle client. *)
Definition can_publish (st : ClientState) : Prop :=
  st = CLIENT_STATE_CONNECTED_IDLE \/ st = CLIENT_STATE_CONNECTED_WAIT_FOR_CB_RETURN.

Lemma publish_guards_pass fuel (s : sys W) pT tl msg :
  let st := clientState (clientStatus (client s)) in
  can_publish st -> pT <> NULL -> 0 <> tl ->
  aws_iot_mqtt_publish fuel TheClient pT tl (Some msg) s =
  ('(pubRc, p) ← _aws_iot_mqtt_internal_publish fuel pT tl msg;
   rc ← aws_iot_mqtt_set_client_state TheClient CLIENT_STATE_CONNECTED_PUBLISH_IN_PROGRESS st;
   mret (if decide (SUCCESS = pubRc /\ SUCCESS <> rc) then rc else pubRc, Some p))
    (Sys (set_clientState CLIENT_STATE_CONNECTED_PUBLISH_IN_PROGRESS (client s)) (world s)).
Proof.
  intros st Hst HpT Htl. rw /aws_iot_mqtt_publish decide_False; [|tauto].
  erewrite bind_run; [|done]. rw -/st.
  assert (connected_state st = true) as -> by (by destruct Hst as [-> | ->]). cbn [negb].
  erewrite bind_run; [|done]. rw -/st decide_False; [|destruct Hst; intuition congruence].
  erewrite bind_run; [|by rw set_client_state_run decide_True]. by rc_simpl.
Qed.
End PublishRuns.

(** A QoS 0 publish, step by step. *)
Lemma publish_qos0_spec {W} `{!Platform W} `{!Application W} `{!WritesAll W} `{!TimeKeepsMemory W}
    fuel (s : sys W) pT tl msg topic payload :
  (0 < fuel)%nat -> can_publish (clientState (clientStatus (client s))) ->
  pT <> NULL -> 0 <> tl -> msg_qos msg = QOS0 -> publish_request s pT tl msg topic payload ->
  let pkt := publish_packet 0 QOS0 (msg_isRetained msg) (msg_id msg) topic payload in
  aws_iot_mqtt_publish fuel TheClient pT tl (Some msg) s =
  (timer ← start_ms (commandTimeoutMs (clientData (client s)));
   _ ← mod_client (with_packet pkt);
   rc ← send_once (Z.of_nat (length pkt)) timer;
   mret (rc, Some msg)) s.
Proof.
  intros Hf Hst HpT Htl Hqos Hreq pkt. rw publish_guards_pass //.
  pose proof (publish_request_state s pT tl msg topic payload CLIENT_STATE_CONNECTED_PUBLISH_IN_PROGRESS Hreq) as Hreq1.
  set (s1 := Sys (set_clientState _ _) _) in *.
  assert (Hwith : with_id msg (client s1) = msg) by (rw /with_id Hqos; by case_decide).
  assert (Hpkt : request_packet s1 msg topic payload = pkt).
  { by rw /request_packet Hwith Hqos. }
  pose proof (internal_publish_run fuel s1 pT tl msg topic payload Hreq1 Hf) as Hrun. cbv zeta in Hrun.
  rw /mbind /M_bind Hrun Hpkt. clear Hrun.
  rw Hwith. rw /start_ms /send_once /expired /id_taken /mbind /M_bind /on_world /mret /M_ret /mod_client /modify /get_client /gets.
  rw Hqos. subst s1. cbn [client world].
  destruct (gettimeofday (world s)) as [[now w1]|]; [|done]. cbn [client world].
  destruct (gettimeofday w1) as [[now2 w2]|]; [|done]. cbn [client world].
  destruct (decide (QOS1 = QOS0)) as [?|_]; [done|].
  change (commandTimeoutMs (clientData (set_clientState _ ?c))) with (commandTimeoutMs (clientData c)).
  assert (Hback : forall w : W, aws_iot_mqtt_set_client_state TheClient CLIENT_STATE_CONNECTED_PUBLISH_IN_PROGRESS
      (clientState (clientStatus (client s)))
      (Sys (with_packet pkt (set_clientState CLIENT_STATE_CONNECTED_PUBLISH_IN_PROGRESS (client s))) w) =
    Ret (SUCCESS, Sys (with_packet pkt (client s)) w)).
  { intros w. rw set_client_state_ok //. by destruct s as [[? ? [] ?] ?]. }
  destruct (has_timer_expired _ _); cbv beta iota; cbn [client world].
  - rc_simpl. by rw Hback.
  - change (clientData (with_packet _ (set_clientState _ ?c))) with (clientData (with_packet pkt c)).
    destruct (net_write _ _ _ w2) as [[[rc k] w3]|]; [|done]. cbv beta iota.
    destruct (decide (rc = SUCCESS)); rc_simpl; by rw Hback.
Qed.

(** A guard on a return code that leaves with a pair. *)
Lemma guard_pair {S A} rc (p q : A) (m : M S (IoT_Error_t * A)) s s' :
  (if decide (SUCCESS <> rc) then mret (rc, p) else m) s = Ret ((SUCCESS, q), s') ->
  rc = SUCCESS /\ m s = Ret ((SUCCESS, q), s').
Proof. case_decide as Hrc; [by intros [= -> _ _]|]. intros Hm. by destruct (decide (rc = SUCCESS)) as [->|?]; [|destruct Hrc]. Qed.

(** Setting the client state leaves the world alone. *)
Lemma set_client_state_world {W} st st' (s s' : sys W) rc :
  aws_iot_mqtt_set_client_state TheClient st st' s = Ret (rc, s') -> world s' = world s.
Proof. rw set_client_state_run. case_decide; by intros [= _ <-]. Qed.

(** ** Properties *)

(** A QoS 0 publish on an idle client is: start the command timer, put the MQTT
    encoding of the message into the write buffer, write it once. It returns what the
    write returned, keeps the client state and takes no packet identifier. *)
Theorem publish_qos0_run {W} `{!Platform W} `{!Application W} `{!WritesAll W} `{!TimeKeepsMemory W}
    fuel (s : sys W) pT tl msg topic payload :
  (0 < fuel)%nat -> can_publish (clientState (clientStatus (client s))) ->
  pT <> NULL -> 0 <> tl -> msg_qos msg = QOS0 -> publish_request s pT tl msg topic payload ->
  let pkt := publish_packet 0 QOS0 (msg_isRetained msg) (msg_id msg) topic payload in
  aws_iot_mqtt_publish fuel TheClient pT tl (Some msg) s =
  (timer ← start_ms (commandTimeoutMs (clientData (client s)));
   _ ← mod_client (with_packet pkt);
   rc ← send_once (Z.of_nat (length pkt)) timer;
   mret (rc, Some msg)) s.
Proof. apply publish_qos0_spec. Qed.

(** "hello" on the topic "a/b". *)
Definition publish_demo_msg (qos : QoS) : IoT_Publish_Message_Params := MsgParams qos 0 0 0 (App 4) 5.
Definition publish_demo (input : list Z) : sys sim :=
  Sys (sim_client CLIENT_STATE_CONNECTED_IDLE []) (sim_world input).

Lemma publish_demo_request qos input : qos = QOS0 \/ qos = QOS1 ->
  publish_request (publish_demo input) (App 2) 3 (publish_demo_msg qos) [97; 47; 98] [104; 101; 108; 108; 111].
Proof.
  intros Hqos. split; [apply sim_client_ok| |done|by destruct Hqos as [-> | ->]].
  split; try done; try (split; [done|by eexists]). by destruct Hqos as [-> | ->].
Qed.

Lemma publish_qos0_run_witness :
  exists s', aws_iot_mqtt_publish 1 TheClient (App 2) 3 (Some (publish_demo_msg QOS0)) (publish_demo []) =
    Ret ((SUCCESS, Some (publish_demo_msg QOS0)), s') /\
    sim_out (world s') = [[48; 10; 0; 3; 97; 47; 98; 104; 101; 108; 108; 111]].
Proof.
  rw (publish_qos0_run 1 (publish_demo []) (App 2) 3 (publish_demo_msg QOS0) [97; 47; 98] [104; 101; 108; 108; 111]);
    [|lia|by left|done|done|done|apply publish_demo_request; by left].
  eexists. split; vm_compute; reflexivity.
Defined.

(** C12: a publish on a client within its invariant, in a state that allows it, with
    readable topic and payload, a retain flag of 0 or 1 and a packet that fits into the
    write buffer, on a network whose successful writes send all their bytes. When it
    returns success, the MQTT encoding of the message, with a fresh identifier at
    QoS 1, was written; from the world the write left on, a publish at QoS 0 does
    nothing more to the world, and one at QoS 1 reads packets until it has read a
    PUBACK, testing the command timer of the write before each read cycle, and then
    does nothing more. *)
Theorem publish_success_sent {W} `{!Platform W} `{!Application W} `{!WritesAll W} `{!TimeKeepsMemory W}
    fuel (s s' : sys W) pT tl msg msg' topic payload :
  (0 < fuel)%nat -> can_publish (clientState (clientStatus (client s))) ->
  pT <> NULL -> 0 <> tl -> publish_request s pT tl msg topic payload ->
  aws_iot_mqtt_publish fuel TheClient pT tl (Some msg) s = Ret ((SUCCESS, msg'), s') ->
  let pkt := publish_packet 0 (msg_qos msg) (msg_isRetained msg) (msg_id (with_id msg (client s))) topic payload in
  msg' = Some (with_id msg (client s)) /\
  exists rest timer w1 k w2,
    net_write (pkt ++ rest) (Z.of_nat (length pkt)) timer w1 = Ret ((SUCCESS, k), w2) /\
    if decide (QOS1 = msg_qos msg) then
      exists c1 s1, awaited fuel (MessageTypes_val PUBACK) timer 0 (Sys c1 w2) s1 /\ world s' = world s1
    else world s' = w2.
Proof.
  intros Hf Hst HpT Htl Hreq. rw publish_guards_pass //. intros Hrun pkt.
  pose proof (publish_request_state s pT tl msg topic payload CLIENT_STATE_CONNECTED_PUBLISH_IN_PROGRESS Hreq) as Hreq1.
  set (s1 := Sys (set_clientState _ _) _) in *.
  change (with_id msg (client s)) with (with_id msg (client s1)) in *.
  apply bind_inv in Hrun as ([pubRc p] & s2 & Hpub & Hrun).
  apply bind_inv in Hrun as (rc & s3 & Hset & Hrun). injection Hrun as Hrc <- <-.
  apply set_client_state_world in Hset as ->.
  assert (pubRc = SUCCESS) as ->.
  { destruct (decide (SUCCESS = pubRc /\ SUCCESS <> rc)) as [[<- ?]|?]; [done|by subst]. }
  rw (internal_publish_run fuel s1 pT tl msg topic payload Hreq1 Hf) in Hpub.
  apply bind_inv in Hpub as (t & s4 & _ & Hpub). apply bind_inv in Hpub as ([] & s5 & Hmod & Hpub).
  injection Hmod as <-. apply bind_inv in Hpub as (rc1 & s6 & Hsend & Hpub).
  apply send_once_inv in Hsend as [_ Hsend]. apply guard_pair in Hpub as [-> Hpub].
  destruct (Hsend eq_refl) as (w1 & k & Hw).
  assert (Hend : p = with_id msg (client s1) /\
    if decide (QOS1 = msg_qos msg) then
      exists c1 s1, awaited fuel (MessageTypes_val PUBACK) t 0 (Sys c1 (world s6)) s1 /\ world s2 = world s1
    else world s2 = world s6).
  { case_decide; [|by injection Hpub as <- <-].
    apply bind_inv in Hpub as (rc2 & s7 & Hwait & Hpub). apply guard_pair in Hpub as [-> Hpub].
    apply bind_inv in Hpub as (c & s8 & Hc & Hpub). injection Hc as _ <-.
    apply bind_inv in Hpub as ([rc3 o] & s9 & Hde & Hpub). apply lift_outcome_inv in Hde as [_ ->].
    apply guard_pair in Hpub as [_ Hpub]. injection Hpub as <- <-. split; [done|].
    apply wait_awaited in Hwait; [|done]. exists (client s6), s7. by destruct s6. }
  destruct Hend as [-> Hack]. split; [done|].
  eexists _, t, w1, k, (world s6). split; [exact Hw|exact Hack].
Qed.

(** A QoS 1 publish, acknowledged by the broker. *)
Lemma publish_success_sent_witness :
  let pkt := publish_packet 0 QOS1 0 2 [97; 47; 98] [104; 101; 108; 108; 111] in
  exists s', aws_iot_mqtt_publish 4 TheClient (App 2) 3 (Some (publish_demo_msg QOS1)) (publish_demo [64; 2; 0; 2]) =
    Ret ((SUCCESS, Some (MsgParams QOS1 0 0 2 (App 4) 5)), s') /\
  exists rest timer w1 k w2,
    net_write (pkt ++ rest) (Z.of_nat (length pkt)) timer w1 = Ret ((SUCCESS, k), w2) /\
    exists c1 s1, awaited 4 4 timer 0 (Sys c1 w2) s1 /\ world s' = world s1.
Proof.
  eexists. split; [vm_compute; reflexivity|].
  refine (proj2 (publish_success_sent 4 (publish_demo [64; 2; 0; 2]) _ (App 2) 3 (publish_demo_msg QOS1)
           (Some (MsgParams QOS1 0 0 2 (App 4) 5)) [97; 47; 98] [104; 101; 108; 108; 111]
           _ _ _ _ _ _)); [lia|by left|done|done|apply publish_demo_request; by right|vm_compute; reflexivity].
Defined.

(** Whatever a publish returns, the client state afterwards is the one before it,
    provided the handlers that run meanwhile keep the state (as publish itself does,
    so that handlers may publish). *)
Theorem publish_restores_state {W} `{!Platform W} `{!Application W} fuel c p n msg (s s' : sys W) r :
  handlers_keep_state W -> aws_iot_mqtt_publish fuel c p n msg s = Ret (r, s') ->
  clientState (clientStatus (client s')) = clientState (clientStatus (client s)).
Proof. intros Hh Hrun. exact (wp_run _ _ _ _ _ _ Hrun (publish_keeps_state fuel c p n msg Hh s)). Qed.

Lemma publish_restores_state_witness :
  exists r s', aws_iot_mqtt_publish 4 TheClient (App 2) 3 (Some (publish_demo_msg QOS1)) (publish_demo [64; 2; 0; 2]) =
    Ret (r, s') /\ clientState (clientStatus (client s')) = CLIENT_STATE_CONNECTED_IDLE.
Proof.
  eexists _, _. split; [vm_compute; reflexivity|].
  refine (publish_restores_state 4 TheClient (App 2) 3 (Some (publish_demo_msg QOS1))
           (publish_demo [64; 2; 0; 2]) _ _ _ _); [|vm_compute; reflexivity].
  intros f p n msg d s. reflexivity.
Defined.
