(* ===== verification/Subscribe.v ===== *)
(** * Subscribing

    [aws_iot_mqtt_subscribe] and [aws_iot_mqtt_resubscribe] of
    [src/aws_iot_mqtt_client_subscribe.c], with the table of message handlers. *)
From S2P Require Import Prelude Buffer Types Wire Packets Timer Topic Client Sim Transport.

(** The index of the first entry without a topic, or the length of the table. *)
Fixpoint free_index (hs : list MessageHandlers) : nat :=
  match hs with
  | [] => 0%nat
  | h :: hs' => if decide (mh_topicName h = NULL) then 0%nat else S (free_index hs')
  end.

Section Subscribe.
Context {W : Type} `{!Platform W} `{!Application W} (fuel : nat).

Definition _aws_iot_mqtt_get_free_message_handler_index : M (sys W) nat :=
  c ← get_client;
  mret (free_index (take AWS_IOT_MQTT_NUM_SUBSCRIBE_HANDLERS (messageHandlers (clientData c)))).

(** Serialize, send and await the acknowledgement of one SUBSCRIBE packet: the part
    the subscribe and resubscribe functions share after the choice of the entry. *)
Definition send_subscribe (serializedLen : Z) (timer : Timer) : M (sys W) IoT_Error_t :=
  rc ← aws_iot_mqtt_internal_send_packet fuel TheClient serializedLen (Some timer);
  if decide (SUCCESS <> rc) then mret rc
  else
    rc ← aws_iot_mqtt_internal_wait_for_read fuel TheClient (MessageTypes_val SUBACK) (Some timer);
    if decide (SUCCESS <> rc) then mret rc
    else
      c ← get_client;
      '(rc, _) ← lift_outcome (_aws_iot_mqtt_deserialize_suback true 1
                   (SubackOut 0 0 [QOS0; QOS0; QOS0])
                   (readBuf (clientData c)) (readBufSize (clientData c)));
      mret rc.

Definition _aws_iot_mqtt_internal_subscribe (pTopicName : ptr) (topicNameLen : Z) (qos : QoS)
    (pApplicationHandler : handler) (pApplicationHandlerData : ptr) : M (sys W) IoT_Error_t :=
  c ← get_client;
  timer ← start_ms (commandTimeoutMs (clientData c));
  txPacketId ← aws_iot_mqtt_get_next_packet_id;
  src ← get_source;
  '(rc, serializedLen) ← serialize (fun buf size =>
      _aws_iot_mqtt_serialize_subscribe src (Some buf) size 0 txPacketId
        [Sub pTopicName topicNameLen qos] (Some 0)) 0;
  if decide (SUCCESS <> rc) then mret rc
  else
    indexOfFreeMessageHandler ← _aws_iot_mqtt_get_free_message_handler_index;
    if decide (AWS_IOT_MQTT_NUM_SUBSCRIBE_HANDLERS <= indexOfFreeMessageHandler)%nat
    then mret MQTT_MAX_SUBSCRIPTIONS_REACHED_ERROR
    else
      rc ← send_subscribe serializedLen timer;
      if decide (SUCCESS <> rc) then mret rc
      else
        _ ← mod_client (fun c => set_messageHandlers
              (<[indexOfFreeMessageHandler :=
                   MkHandler pTopicName topicNameLen qos pApplicationHandler pApplicationHandlerData]>
                 (messageHandlers (clientData c))) c);
        mret SUCCESS.

Definition aws_iot_mqtt_subscribe (pClient : client_ptr) (pTopicName : ptr) (topicNameLen : Z)
    (qos : QoS) (pApplicationHandler : handler) (pApplicationHandlerData : ptr) :
    M (sys W) IoT_Error_t :=
  match pClient with
  | NullClient => mret NULL_VALUE_ERROR
  | TheClient =>
      if decide (pTopicName = NULL \/ pApplicationHandler = None) then mret NULL_VALUE_ERROR
      else
        connected ← aws_iot_mqtt_is_client_connected TheClient;
        if negb connected then mret NETWORK_DISCONNECTED_ERROR
        else
          st ← aws_iot_mqtt_get_client_state TheClient;
          if decide (CLIENT_STATE_CONNECTED_IDLE <> st /\ CLIENT_STATE_CONNECTED_WAIT_FOR_CB_RETURN <> st)
          then mret MQTT_CLIENT_NOT_IDLE_ERROR
          else
            rc ← aws_iot_mqtt_set_client_state TheClient st CLIENT_STATE_CONNECTED_SUBSCRIBE_IN_PROGRESS;
            if decide (SUCCESS <> rc) then mret rc
            else
              subRc ← _aws_iot_mqtt_internal_subscribe pTopicName topicNameLen qos
                        pApplicationHandler pApplicationHandlerData;
              rc ← aws_iot_mqtt_set_client_state TheClient CLIENT_STATE_CONNECTED_SUBSCRIBE_IN_PROGRESS st;
              mret (if decide (SUCCESS = subRc /\ SUCCESS <> rc) then rc else subRc)
  end.

(** The loop over the entries before the first free one. [len] keeps its value from
    one iteration to the next. *)
Fixpoint resubscribe_loop (itrs : list nat) (len : Z) : M (sys W) IoT_Error_t :=
  match itrs with
  | [] => mret SUCCESS
  | itr :: itrs' =>
      c ← get_client;
      timer ← start_ms (commandTimeoutMs (clientData c));
      id ← aws_iot_mqtt_get_next_packet_id;
      src ← get_source;
      h ← lift_option (Fault OobRead) (messageHandlers (clientData c) !! itr);
      '(rc, len) ← serialize (fun buf size =>
          _aws_iot_mqtt_serialize_subscribe src (Some buf) size 0 id
            [Sub (mh_topicName h) (mh_topicNameLen h) (mh_qos h)] (Some len)) len;
      if decide (SUCCESS <> rc) then mret rc
      else
        rc ← send_subscribe len timer;
        if decide (SUCCESS <> rc) then mret rc
        else resubscribe_loop itrs' len
  end.

Definition _aws_iot_mqtt_internal_resubscribe : M (sys W) IoT_Error_t :=
  existingSubCount ← _aws_iot_mqtt_get_free_message_handler_index;
  resubscribe_loop (seq 0 existingSubCount) 0.

Definition aws_iot_mqtt_resubscribe (pClient : client_ptr) : M (sys W) IoT_Error_t :=
  match pClient with
  | NullClient => mret NULL_VALUE_ERROR
  | TheClient =>
      connected ← aws_iot_mqtt_is_client_connected TheClient;
      if negb connected then mret NETWORK_DISCONNECTED_ERROR
      else
        st ← aws_iot_mqtt_get_client_state TheClient;
        if decide (CLIENT_STATE_CONNECTED_IDLE <> st) then mret MQTT_CLIENT_NOT_IDLE_ERROR
        else
          rc ← aws_iot_mqtt_set_client_state TheClient CLIENT_STATE_CONNECTED_IDLE
                 CLIENT_STATE_CONNECTED_RESUBSCRIBE_IN_PROGRESS;
          if decide (SUCCESS <> rc) then mret rc
          else
            resubRc ← _aws_iot_mqtt_internal_resubscribe;
            rc ← aws_iot_mqtt_set_client_state TheClient CLIENT_STATE_CONNECTED_RESUBSCRIBE_IN_PROGRESS
                   CLIENT_STATE_CONNECTED_IDLE;
            mret (if decide (SUCCESS = resubRc /\ SUCCESS <> rc) then rc else resubRc)
  end.
End Subscribe.

Section SubscribeLemmas.
Context {W : Type} `{!Platform W} `{!Application W} (fuel : nat).

Lemma pres_send_subscribe R `{!TransportFrame (W := W) R} n t : pres (W := W) R (send_subscribe fuel n t).
Proof.
  rw /send_subscribe. pose proof (pres_wait_for_read (W := W) R). pose proof (pres_send_packet (W := W) R).
  pres_auto.
Qed.

Lemma pres_internal_subscribe R `{!TransportFrame (W := W) R} p n q h d :
  (forall c, R c (set_nextPacketId (next_packet_id (nextPacketId (clientData c))) c)) ->
  (forall c i h, R c (set_messageHandlers (<[i := h]> (messageHandlers (clientData c))) c)) ->
  pres (W := W) R (_aws_iot_mqtt_internal_subscribe fuel p n q h d).
Proof.
  intros Hid Htab. rw /_aws_iot_mqtt_internal_subscribe /_aws_iot_mqtt_get_free_message_handler_index.
  pose proof (pres_get_next_packet_id (W := W) R Hid). pose proof (pres_send_subscribe R). 
  pres_auto. by apply pres_mod.
Qed.

Lemma pres_subscribe R `{!TransportFrame (W := W) R} c p n q h d :
  (forall c, R c (set_nextPacketId (next_packet_id (nextPacketId (clientData c))) c)) ->
  (forall c i h, R c (set_messageHandlers (<[i := h]> (messageHandlers (clientData c))) c)) ->
  (forall c st, R c (set_clientState st c)) ->
  pres (W := W) R (aws_iot_mqtt_subscribe fuel c p n q h d).
Proof.
  intros Hid Htab Hst. rw /aws_iot_mqtt_subscribe /aws_iot_mqtt_is_client_connected /aws_iot_mqtt_get_client_state.
  pose proof (pres_internal_subscribe R). pres_auto; apply (pres_set_client_state R); auto.
Qed.

Lemma pres_internal_resubscribe R `{!TransportFrame (W := W) R} :
  (forall c, R c (set_nextPacketId (next_packet_id (nextPacketId (clientData c))) c)) ->
  pres (W := W) R (_aws_iot_mqtt_internal_resubscribe fuel).
Proof.
  intros Hid. rw /_aws_iot_mqtt_internal_resubscribe /_aws_iot_mqtt_get_free_message_handler_index.
  pose proof (pres_get_next_packet_id (W := W) R Hid). pose proof (pres_send_subscribe R).
  assert (Hloop : forall itrs len, pres (W := W) R (resubscribe_loop fuel itrs len)).
  { induction itrs as [|i itrs IH]; intros len; cbn [resubscribe_loop]; pres_auto. }
  pres_auto.
Qed.

Lemma pres_resubscribe R `{!TransportFrame (W := W) R} c :
  (forall c, R c (set_nextPacketId (next_packet_id (nextPacketId (clientData c))) c)) ->
  (forall c st, R c (set_clientState st c)) ->
  pres (W := W) R (aws_iot_mqtt_resubscribe fuel c).
Proof.
  intros Hid Hst. rw /aws_iot_mqtt_resubscribe /aws_iot_mqtt_is_client_connected /aws_iot_mqtt_get_client_state.
  pose proof (pres_internal_resubscribe R). pres_auto; apply (pres_set_client_state R); auto.
Qed.

Lemma subscribe_keeps_state c p n q h d : handlers_keep_state W ->
  pres (W := W) same_state (aws_iot_mqtt_subscribe fuel c p n q h d).
Proof.
  intros Hh s. pose proof (same_state_frame W Hh) as Hfr. rw /aws_iot_mqtt_subscribe.
  wp_operation ltac:(by apply (pres_internal_subscribe same_state)).
Qed.

Lemma resubscribe_keeps_state c : handlers_keep_state W ->
  pres (W := W) same_state (aws_iot_mqtt_resubscribe fuel c).
Proof.
  intros Hh s. pose proof (same_state_frame W Hh) as Hfr. rw /aws_iot_mqtt_resubscribe.
  wp_guards; try done.
  assert (Hst : CLIENT_STATE_CONNECTED_IDLE = clientState (clientStatus (client s))) by (by apply dec_stable).
  wp_enter. apply wp_bind. eapply wp_mono; [by apply (pres_internal_resubscribe same_state)|].
  intros rc s' Hs'. apply wp_bind, wp_set_client_state; [done|]. apply wp_ret. exact Hst.
Qed.

Lemma free_index_insert hs h : (free_index hs < length hs)%nat ->
  exists h0, hs !! free_index hs = Some h0 /\ mh_topicName h0 = NULL /\
  forall i h1, (i < free_index hs)%nat -> <[free_index hs := h]> hs !! i = Some h1 -> mh_topicName h1 <> NULL.
Proof.
  induction hs as [|h' hs IH]; cbn [free_index length]; [lia|]. case_decide as Hn; intros Hlt.
  - exists h'. split; [done|]. split; [done|]. lia.
  - destruct IH as (h0 & Hh0 & Hnull & Hbefore); [lia|]. exists h0. split; [done|]. split; [done|].
    intros [|i] h1 Hi; cbn; [by intros [= <-]|]. apply Hbefore. lia.
Qed.

(** What a subscribe does to the table of handlers: it becomes [hs1] while the call
    waits; the index written is the one found in the table before. *)
Lemma internal_subscribe_table R `{!PreOrder R} p n q h d : handlers_within W R -> forall s,
  wp any_exn (_aws_iot_mqtt_internal_subscribe (W := W) fuel p n q h d) (fun rc s' =>
    let hs := messageHandlers (clientData (client s)) in
    let i := free_index (take AWS_IOT_MQTT_NUM_SUBSCRIBE_HANDLERS hs) in
    clientState (clientStatus (client s')) = clientState (clientStatus (client s)) /\
    exists hs1, length hs1 = length hs /\ R hs hs1 /\
    ((AWS_IOT_MQTT_NUM_SUBSCRIBE_HANDLERS <= i)%nat -> hs1 = hs) /\
    ((rc <> SUCCESS /\ messageHandlers (clientData (client s')) = hs1) \/
     (rc = SUCCESS /\ (i < AWS_IOT_MQTT_NUM_SUBSCRIBE_HANDLERS)%nat /\
      messageHandlers (clientData (client s')) = <[i := MkHandler p n q h d]> hs1))) s.
Proof.
  intros Hh s. pose proof (table_frame W R Hh) as Hfr. rw /_aws_iot_mqtt_internal_subscribe.
  apply wp_bind, wp_gets.
  apply (wp_bind_pres (table_within eq)); [pres_auto|]. intros t s1 H1.
  apply (wp_bind_pres (table_within eq)); [by apply (pres_get_next_packet_id (table_within eq))|]. intros id s2 H2.
  apply (wp_bind_pres (table_within eq)); [pres_auto|]. intros src s3 H3.
  apply (wp_bind_pres (table_within eq)); [apply pres_serialize_gen; [apply _|done|auto with iot]|]. intros [rc len] s4 H4.
  assert (H04 : table_within eq (client s) (client s4))
    by (etrans; [exact H1|]; etrans; [exact H2|]; etrans; [exact H3|exact H4]). clear H1 H2 H3 H4.
  destruct H04 as (Hst & _ & Htab). cbv zeta. set (hs := messageHandlers (clientData (client s))) in *.
  case_decide as Hrc.
  { apply wp_ret. split; [done|]. exists hs. split; [done|]. split; [reflexivity|]. auto. }
  apply wp_bind. eapply wp_known; [done|]. cbv beta. rw -Htab. case_decide as Hi.
  { apply wp_ret. split; [done|]. exists hs. split; [done|]. split; [reflexivity|]. by auto. }
  apply (wp_bind_pres (table_within R)); [by apply (pres_send_subscribe (table_within R))|].
  intros rc' s5 (Hst' & Hlen' & HR). rw -Htab in HR, Hlen'. case_decide as Hrc'.
  - apply wp_ret. split; [congruence|]. eexists. split; [exact Hlen'|]. split; [exact HR|]. split; [lia|]. left. by auto.
  - apply wp_bind, wp_modify, wp_ret. split; [by rw -Hst|]. eexists. split; [exact Hlen'|]. split; [exact HR|].
    split; [lia|]. right. split; [done|]. split; [lia|done].
Qed.

(** The exchange with the broker behind a subscribe that succeeds. *)
Lemma send_subscribe_success `{!WritesAll W} n t (s s' : sys W) :
  0 < n -> writeBufSize (clientData (client s)) <= 2 ^ 32 ->
  send_subscribe fuel n t s = Ret (SUCCESS, s') ->
  (exists w1 k w2, net_write (writeBuf (clientData (client s))) n t w1 = Ret ((SUCCESS, k), w2)) /\
  (exists pt0 s0 s1, aws_iot_mqtt_internal_cycle_read fuel TheClient (Some t) pt0 s0 =
     Ret ((SUCCESS, MessageTypes_val SUBACK), s1)).
Proof.
  intros Hn Hsize Hrun. rw /send_subscribe in Hrun.
  apply bind_inv in Hrun as (rc & s1 & Hsend & Hrun). apply guard_success in Hrun as [-> Hrun].
  apply send_packet_success in Hsend as [_ (w1 & k & Hw)]; [|done..].
  apply bind_inv in Hrun as (rc & s2 & Hwait & Hrun). apply guard_success in Hrun as [-> Hrun].
  apply wait_success in Hwait as (pt0 & s0 & Hcyc). eauto 8.
Qed.

Lemma internal_subscribe_sends `{!WritesAll W} `{!TimeKeepsMemory W} p n q h d topic (s s' : sys W) :
  client_ok (client s) -> string_arg (sys_source s) p n topic -> is_u8 q ->
  _aws_iot_mqtt_internal_subscribe fuel p n q h d s = Ret (SUCCESS, s') ->
  let pkt := subscribe_packet 0 (next_packet_id (nextPacketId (clientData (client s)))) [(topic, q)] in
  (exists rest t w1 k w2, net_write (pkt ++ rest) (Z.of_nat (length pkt)) t w1 = Ret ((SUCCESS, k), w2)) /\
  (exists t pt0 s0 s1, aws_iot_mqtt_internal_cycle_read fuel TheClient (Some t) pt0 s0 =
     Ret ((SUCCESS, MessageTypes_val SUBACK), s1)).
Proof.
  intros Hok Harg Hq Hrun pkt. rw /_aws_iot_mqtt_internal_subscribe in Hrun.
  apply bind_inv in Hrun as (c & s1 & Hc & Hrun). injection Hc as <- <-.
  apply bind_inv in Hrun as (t & s1 & Ht & Hrun). apply start_ms_inv in Ht as [Hc Hm].
  rw (bind_run _ _ _ _ _ (get_next_packet_id_run s1)) Hc in Hrun.
  set (id := next_packet_id _) in *.
  assert (Hid : is_u16 id).
  { pose proof (next_packet_id_range (nextPacketId (clientData (client s)))) as Hr.
    destruct Hok as [_ _ _ _ _ Hp]. rw /MAX_PACKET_ID in Hp, Hr. specialize (Hr ltac:(lia)). subst id. width. }
  apply bind_inv in Hrun as (src & s2 & Hsrc & Hrun). injection Hsrc as <- <-. cbn [client world] in Hrun.
  rw Hm in Hrun. change (deref _ _) with (sys_source s) in Hrun.
  apply bind_inv in Hrun as ([rc len] & s2 & Hser & Hrun). apply guard_success in Hrun as [-> Hrun].
  pose proof Hok as [Hwb _ Hws _ _ _]. rw /AWS_IOT_MQTT_TX_BUF_LEN in Hwb, Hws.
  apply (serialize_success _ _ (header_byte 8 1 0 0) (subscribe_body id [(topic, q)])) in Hser as [-> ->].
  2:{ cbn [client clientData set_nextPacketId upd_data writeBuf writeBufSize]. rw Hws -Hwb.
      apply serialize_subscribe_spec; [lia|lia|done|by apply Forall2_cons|].
      destruct Harg as (Hn16 & Hlen & _). rw /subscribe_body length_app length_uint16_bytes.
      cbn [flat_map]. rw app_nil_r /topic_entry_bytes length_app length_utf8_bytes. cbn [length fst]. width. }
  apply bind_inv in Hrun as (i & s2 & Hi & Hrun). injection Hi as _ <-.
  case_decide; [discriminate Hrun|].
  apply bind_inv in Hrun as (rc & s3 & Hsend & Hrun). apply guard_success in Hrun as [-> _].
  apply send_subscribe_success in Hsend as [(w1 & k & w2 & Hw) (pt0 & s0 & s1' & Hcyc)].
  - split; [eexists _, t, w1, k, w2; exact Hw|by eexists t, pt0, s0, s1'].
  - rw length_frame. lia.
  - cbn. lia.
Qed.
End SubscribeLemmas.

Section SubscribeRuns.
Context {W : Type} `{!Platform W} `{!Application W} (fuel : nat).

(** A subscribe that succeeds has passed its guards. *)
Lemma subscribe_success_inv p n q h d (s s' : sys W) :
  aws_iot_mqtt_subscribe fuel TheClient p n q h d s = Ret (SUCCESS, s') ->
  exists s1, _aws_iot_mqtt_internal_subscribe fuel p n q h d
    (Sys (set_clientState CLIENT_STATE_CONNECTED_SUBSCRIBE_IN_PROGRESS (client s)) (world s)) = Ret (SUCCESS, s1).
Proof.
  rw /aws_iot_mqtt_subscribe. case_decide; [done|]. erewrite bind_run; [|done].
  destruct (negb _); [done|]. erewrite bind_run; [|done]. case_decide; [done|].
  erewrite bind_run; [|by apply set_client_state_ok]. rc_simpl. intros Hrun.
  apply bind_inv in Hrun as (rc & s1 & Hsub & Hrun). apply bind_inv in Hrun as (rc' & s2 & _ & Hrun).
  assert (rc = SUCCESS) as ->; [|by eexists].
  rw /mret /M_ret in Hrun. case_decide; simplify_eq; naive_solver.
Qed.
End SubscribeRuns.

(** ** Properties *)

(** C8: what a subscribe on a client within its invariant does to the table of
    handlers. Message handlers run while it waits for the SUBACK; they are assumed to
    keep the client state and to change the table only within a reflexive and
    transitive relation [R] of their own ([eq] when they leave it alone, [any_table] when
    they subscribe and unsubscribe). The call keeps the client state. On an error the
    table is what the handlers made of it. On success the new subscription is stored
    over that table at the index of the entry that was the first free one when the
    call was made, and all other entries are as the handlers left them. When the table
    was full, the call fails and the table is unchanged. *)
Theorem subscribe_table {W} `{!Platform W} `{!Application W} R `{!PreOrder R} fuel p n q h d (s s' : sys W) rc :
  handlers_within W R -> client_ok (client s) ->
  aws_iot_mqtt_subscribe fuel TheClient p n q h d s = Ret (rc, s') ->
  let hs := messageHandlers (clientData (client s)) in
  let i := free_index hs in
  clientState (clientStatus (client s')) = clientState (clientStatus (client s)) /\
  exists hs1, length hs1 = length hs /\ R hs hs1 /\
    (rc <> SUCCESS -> messageHandlers (clientData (client s')) = hs1) /\
    (rc = SUCCESS -> mh_topicName <$> hs !! i = Some NULL /\
       messageHandlers (clientData (client s')) = <[i := MkHandler p n q h d]> hs1) /\
    (i = length hs -> rc <> SUCCESS /\ hs1 = hs).
Proof.
  intros Hh Hok Hrun hs i. by_wp Hrun. pose proof (ok_handlers _ Hok) as Hlen.
  assert (Htake : take AWS_IOT_MQTT_NUM_SUBSCRIBE_HANDLERS hs = hs) by (by apply take_ge; rw -Hlen).
  rw /aws_iot_mqtt_subscribe.
  wp_guards; try done; try (apply wp_ret; split; [done|]; exists hs; split; [done|]; split; [reflexivity|]; naive_solver).
  wp_enter. apply wp_bind. eapply wp_mono; [by apply (internal_subscribe_table fuel R)|]. cbv zeta.
  intros rc' s1 [Hst Htab]. apply wp_bind, wp_set_client_state; [done|]. apply wp_ret.
  split; [done|]. move: Htab. cbn -[AWS_IOT_MQTT_NUM_SUBSCRIBE_HANDLERS free_index]. rw -/hs Htake -Hlen -/hs -/i.
  destruct (decide (SUCCESS = rc' /\ SUCCESS <> SUCCESS)) as [[_ Hrc]|_]; [by destruct Hrc|].
  intros (hs1 & Hl & HR & Hfull & Htab). exists hs1.
  split; [done|]. split; [done|]. destruct Htab as [[Hne Htab]|(-> & Hi & Htab)].
  - split; [done|]. split; [by intros|]. intros ->. split; [done|]. apply Hfull. lia.
  - destruct (free_index_insert hs (MkHandler p n q h d) Hi) as (h0 & Hh0 & Hnull & _).
    split; [done|]. split; [|lia]. intros _. split; [|done]. by rw Hh0 /= Hnull.
Qed.

Definition subscribe_demo (hs : list MessageHandlers) (input : list Z) : sys sim :=
  Sys (sim_client CLIENT_STATE_CONNECTED_IDLE hs) (sim_world input).
Definition demo_handler (a : Z) : MessageHandlers := MkHandler (App a) 3 QOS0 (Some 11) NULL.

(** An application whose handler subscribes to the filter "a/+" in its turn. *)
Definition subscribing_app : Application sim := {|
  app_handler := fun f p n msg d =>
    _ ← aws_iot_mqtt_subscribe (Application0 := sim_application) 4 TheClient (App 3) 3 QOS0 (Some 13) NULL;
    mret msg;
  app_disconnect_handler := fun _ _ => mret tt |}.

Lemma subscribing_within : handlers_within sim (Application0 := subscribing_app) any_table.
Proof.
  intros f p n msg d s. cbn [app_handler subscribing_app]. apply wp_bind.
  pose proof (same_size_frame sim (fun f p n msg d s => eq_refl)) as Hfr.
  eapply wp_mono; [apply wp_conj|].
  - apply (subscribe_keeps_state 4 TheClient (App 3) 3 QOS0 (Some 13) NULL sim_handlers_keep_state).
  - apply (pres_subscribe 4 same_size); try done. intros c i h'. rw /same_size /=. by rw length_insert.
  - intros rc s' [Hst Hlen]. by apply wp_ret.
Qed.

(** A message for its first subscription arrives while a subscribe waits. *)
Definition nested_demo : sys sim :=
  subscribe_demo [demo_handler 2] ([48; 6; 0; 3; 97; 47; 98; 104] ++ [144; 3; 0; 3; 0] ++ [144; 3; 0; 2; 1]).

(** Both SUBSCRIBE packets are sent and acknowledged and the outer call succeeds, but
    the entry of the handler's subscription is overwritten: both calls chose entry 1,
    the outer one before it waited for its SUBACK. *)
Example nested_subscription_lost : exists s',
  aws_iot_mqtt_subscribe (Application0 := subscribing_app) 4 TheClient (App 1) 3 QOS1 (Some 12) NULL nested_demo =
    Ret (SUCCESS, s') /\
  sim_out (world s') = [[130; 8; 0; 3; 0; 3; 97; 47; 43; 0]; [130; 8; 0; 2; 0; 3; 100; 101; 118; 1]] /\
  sim_in (world s') = [] /\
  messageHandlers (clientData (client s')) =
    [demo_handler 2; MkHandler (App 1) 3 QOS1 (Some 12) NULL] ++ replicate 3 (MkHandler NULL 0 QOS0 None NULL).
Proof. eexists. split; [vm_compute; reflexivity|]. repeat split. Qed.

(** The subscription is stored, whatever the handler did in the meantime. *)
Lemma subscribe_table_witness :
  exists s', aws_iot_mqtt_subscribe (Application0 := subscribing_app) 4 TheClient (App 1) 3 QOS1 (Some 12) NULL nested_demo =
      Ret (SUCCESS, s') /\
    clientState (clientStatus (client s')) = CLIENT_STATE_CONNECTED_IDLE /\
    messageHandlers (clientData (client s')) !! 1%nat = Some (MkHandler (App 1) 3 QOS1 (Some 12) NULL).
Proof.
  destruct nested_subscription_lost as (s' & Hrun & _). exists s'. split; [exact Hrun|].
  destruct (subscribe_table (Application0 := subscribing_app) any_table 4 (App 1) 3 QOS1 (Some 12) NULL
    nested_demo s' SUCCESS subscribing_within (sim_client_ok _ _) Hrun) as (Hst & hs1 & Hlen & _ & _ & Htab & _).
  split; [exact Hst|]. destruct (Htab eq_refl) as [_ ->]. apply list_lookup_insert_eq. rw Hlen. change (1 < 5)%nat. lia.
Defined.

(** A subscribe that returns success has written the SUBSCRIBE packet of the
    topic filter and QoS with a fresh packet identifier, and a SUBACK packet was read
    after it. *)
Theorem subscribe_success_sent {W} `{!Platform W} `{!Application W} `{!WritesAll W} `{!TimeKeepsMemory W}
    fuel p n q h d topic (s s' : sys W) :
  client_ok (client s) -> string_arg (sys_source s) p n topic -> is_u8 q ->
  aws_iot_mqtt_subscribe fuel TheClient p n q h d s = Ret (SUCCESS, s') ->
  let pkt := subscribe_packet 0 (next_packet_id (nextPacketId (clientData (client s)))) [(topic, q)] in
  (exists rest t w1 k w2, net_write (pkt ++ rest) (Z.of_nat (length pkt)) t w1 = Ret ((SUCCESS, k), w2)) /\
  (exists t pt0 s0 s1, aws_iot_mqtt_internal_cycle_read fuel TheClient (Some t) pt0 s0 =
     Ret ((SUCCESS, MessageTypes_val SUBACK), s1)).
Proof.
  intros Hok Harg Hq Hrun. apply subscribe_success_inv in Hrun as (s1 & Hrun).
  refine (internal_subscribe_sends fuel p n q h d topic (Sys _ _) s1 _ _ Hq Hrun); [|exact Harg].
  by apply (ok_rel_upd (client s)).
Qed.

Lemma subscribe_success_sent_witness :
  let pkt := [130; 8; 0; 2; 0; 3; 97; 47; 43; 1] in
  (exists rest t w1 k w2, net_write (W := sim) (pkt ++ rest) 10 t w1 = Ret ((SUCCESS, k), w2)) /\
  (exists t pt0 (s0 s1 : sys sim), aws_iot_mqtt_internal_cycle_read 4 TheClient (Some t) pt0 s0 = Ret ((SUCCESS, 9), s1)).
Proof.
  refine (subscribe_success_sent 4 (App 3) 3 QOS1 (Some 12) NULL [97; 47; 43]
    (subscribe_demo [demo_handler 2] [144; 3; 0; 2; 1]) _ (sim_client_ok _ _) _ _ _).
  - split; [rw /is_u16; lia|]. split; [done|by eexists].
  - rw /is_u8 /QOS1. lia.
  - vm_compute. reflexivity.
Defined.

(** Resubscribing, as after a reconnection, covers only the entries before the
    first free one: when the first entry is free, it reports success and sends
    nothing, whatever subscriptions the other entries hold. *)
Theorem resubscribe_stops_at_gap {W} `{!Platform W} `{!Application W} fuel (s : sys W) h hs :
  clientState (clientStatus (client s)) = CLIENT_STATE_CONNECTED_IDLE ->
  messageHandlers (clientData (client s)) = h :: hs -> mh_topicName h = NULL ->
  aws_iot_mqtt_resubscribe fuel TheClient s = Ret (SUCCESS, s).
Proof.
  intros Hst Hhs Hnull. rw /aws_iot_mqtt_resubscribe. erewrite bind_run; [|done]. rw Hst. cbn [connected_state negb].
  erewrite bind_run; [|done]. rw Hst. rc_simpl. erewrite bind_run; [|by apply set_client_state_ok]. rc_simpl.
  erewrite (bind_run (_aws_iot_mqtt_internal_resubscribe fuel)).
  2:{ rw /_aws_iot_mqtt_internal_resubscribe /_aws_iot_mqtt_get_free_message_handler_index.
      erewrite bind_run; [|by erewrite bind_run].
      cbn [client clientData set_clientState upd_status]. rw Hhs. cbn [take AWS_IOT_MQTT_NUM_SUBSCRIBE_HANDLERS free_index].
      rw decide_True; [|done]. reflexivity. }
  erewrite bind_run; [|by apply set_client_state_ok]. rw /mret /M_ret.
  case_decide as Hrc; [by destruct Hrc|]. do 2 f_equal. destruct s as [[? ? [] ?] ?]. cbn in *. by subst.
Qed.

Lemma resubscribe_stops_at_gap_witness :
  let s := subscribe_demo [MkHandler NULL 0 QOS0 None NULL; demo_handler 2] [] in
  aws_iot_mqtt_resubscribe 4 TheClient s = Ret (SUCCESS, s).
Proof.
  exact (resubscribe_stops_at_gap 4 (subscribe_demo [MkHandler NULL 0 QOS0 None NULL; demo_handler 2] [])
    (MkHandler NULL 0 QOS0 None NULL) _ eq_refl eq_refl eq_refl).
Defined.
