(* ===== verification/Unsubscribe.v ===== *)
(** * Unsubscribing

    [aws_iot_mqtt_unsubscribe] of [src/aws_iot_mqtt_client_unsubscribe.c]. *)
From S2P Require Import Prelude Buffer Types Wire Packets Timer Topic Client Sim Transport.

(** The test [topicName != NULL && strcmp(topicName, pTopicFilter) == 0] of an entry. *)
Definition same_topic (src : source) (pTopicFilter : ptr) (h : MessageHandlers) : outcome bool :=
  if decide (mh_topicName h <> NULL) then
    match src (mh_topicName h), src pTopicFilter with
    | Some a, Some b => strcmp_eq a b
    | _, _ => Exn (Fault OobRead)
    end
  else Ret false.

(** The first loop over the table, all of its entries: is there one with this topic? *)
Fixpoint subscription_exists (src : source) (pTopicFilter : ptr) (hs : list MessageHandlers) :
    outcome bool :=
  match hs with
  | [] => Ret false
  | h :: hs' =>
      b ← same_topic src pTopicFilter h;
      r ← subscription_exists src pTopicFilter hs';
      Ret (b || r)
  end.

Definition clear_topic (h : MessageHandlers) : MessageHandlers :=
  MkHandler NULL (mh_topicNameLen h) (mh_qos h) (mh_pApplicationHandler h) (mh_pApplicationHandlerData h).

(** The second loop: the topic of every such entry is cleared. *)
Fixpoint remove_handlers (src : source) (pTopicFilter : ptr) (hs : list MessageHandlers) :
    outcome (list MessageHandlers) :=
  match hs with
  | [] => Ret []
  | h :: hs' =>
      b ← same_topic src pTopicFilter h;
      hs' ← remove_handlers src pTopicFilter hs';
      Ret ((if b : bool then clear_topic h else h) :: hs')
  end.

Section Unsubscribe.
Context {W : Type} `{!Platform W} `{!Application W} (fuel : nat).

(** The end of the function below, after the UNSUBACK packet has been read. *)
Definition unsubscribe_finish (pTopicFilter : ptr) : M (sys W) IoT_Error_t :=
  c ← get_client;
  '(rc, _) ← lift_outcome (_aws_iot_mqtt_deserialize_unsuback 0
               (Some (readBuf (clientData c))) (readBufSize (clientData c)));
  if decide (SUCCESS <> rc) then mret rc
  else
    src ← get_source;
    hs ← lift_outcome (remove_handlers src pTopicFilter (messageHandlers (clientData c)));
    _ ← mod_client (set_messageHandlers hs);
    mret SUCCESS.

Definition _aws_iot_mqtt_internal_unsubscribe (pTopicFilter : ptr) (topicFilterLen : Z) :
    M (sys W) IoT_Error_t :=
  c ← get_client;
  src ← get_source;
  subscriptionExists ← lift_outcome (subscription_exists src pTopicFilter
      (messageHandlers (clientData c)));
  if negb subscriptionExists then mret FAILURE
  else
    timer ← start_ms (commandTimeoutMs (clientData c));
    id ← aws_iot_mqtt_get_next_packet_id;
    src ← get_source;
    '(rc, serializedLen) ← serialize (fun buf size =>
        _aws_iot_mqtt_serialize_unsubscribe src buf size 0 id [(pTopicFilter, topicFilterLen)] 0) 0;
    if decide (SUCCESS <> rc) then mret rc
    else
      rc ← aws_iot_mqtt_internal_send_packet fuel TheClient serializedLen (Some timer);
      if decide (SUCCESS <> rc) then mret rc
      else
        rc ← aws_iot_mqtt_internal_wait_for_read fuel TheClient (MessageTypes_val UNSUBACK) (Some timer);
        if decide (SUCCESS <> rc) then mret rc
        else unsubscribe_finish pTopicFilter.

Definition aws_iot_mqtt_unsubscribe (pClient : client_ptr) (pTopicFilter : ptr) (topicFilterLen : Z) :
    M (sys W) IoT_Error_t :=
  match pClient with
  | NullClient => mret NULL_VALUE_ERROR
  | TheClient =>
      if decide (pTopicFilter = NULL) then mret NULL_VALUE_ERROR
      else
        connected ← aws_iot_mqtt_is_client_connected TheClient;
        if negb connected then mret NETWORK_DISCONNECTED_ERROR
        else
          st ← aws_iot_mqtt_get_client_state TheClient;
          if decide (CLIENT_STATE_CONNECTED_IDLE <> st /\ CLIENT_STATE_CONNECTED_WAIT_FOR_CB_RETURN <> st)
          then mret MQTT_CLIENT_NOT_IDLE_ERROR
          else
            rc ← aws_iot_mqtt_set_client_state TheClient st CLIENT_STATE_CONNECTED_UNSUBSCRIBE_IN_PROGRESS;
            if decide (SUCCESS <> rc) then
              aws_iot_mqtt_set_client_state TheClient CLIENT_STATE_CONNECTED_UNSUBSCRIBE_IN_PROGRESS st
            else
              unsubRc ← _aws_iot_mqtt_internal_unsubscribe pTopicFilter topicFilterLen;
              rc ← aws_iot_mqtt_set_client_state TheClient CLIENT_STATE_CONNECTED_UNSUBSCRIBE_IN_PROGRESS st;
              mret (if decide (SUCCESS = unsubRc /\ SUCCESS <> rc) then rc else unsubRc)
  end.
End Unsubscribe.

(** ** The removal of handlers *)

(** The table after the removal of a filter. *)
Definition without_filter (src : source) (f : list Z) (h : MessageHandlers) : MessageHandlers :=
  if decide (filter_text src h = Some f) then clear_topic h else h.

Lemma same_topic_returned src p f h b : src p ≫= cstring = Some f ->
  same_topic src p h = Ret b -> b = bool_decide (filter_text src h = Some f).
Proof.
  rw /same_topic /filter_text. intros Hp. case_decide as Hn; case_decide; try done; [|by intros [= <-]].
  destruct (src (mh_topicName h)) as [a|]; [|done]. destruct (src p) as [t|]; [|done].
  intros Hb. cbn in Hp. by apply (strcmp_eq_returned a t).
Qed.

(** A removal that comes to a result has cleared the entries of the filter. *)
Lemma remove_handlers_returned src p f hs : forall hs', src p ≫= cstring = Some f ->
  remove_handlers src p hs = Ret hs' -> hs' = without_filter src f <$> hs.
Proof.
  induction hs as [|h hs IH]; cbn [remove_handlers]; intros hs' Hp Hrem; [by injection Hrem|].
  destruct (same_topic src p h) as [b|] eqn:Hb; [|done]. apply (same_topic_returned _ _ f) in Hb; [|done].
  destruct (remove_handlers src p hs) as [hs1|]; [|done]. rw (IH hs1) // in Hrem.
  injection Hrem as <-. cbn. f_equal. rw /without_filter Hb. by do 2 case_decide; case_bool_decide.
Qed.

Lemma subscription_exists_returned src p f hs : forall b, src p ≫= cstring = Some f ->
  subscription_exists src p hs = Ret b -> Forall (fun h => filter_text src h <> Some f) hs -> b = false.
Proof.
  induction hs as [|h hs IH]; cbn [subscription_exists]; intros b Hp Hex Hno; [by injection Hex|].
  apply Forall_cons in Hno as [Hh Hno].
  destruct (same_topic src p h) as [b1|] eqn:Hb; [|done]. apply (same_topic_returned _ _ f) in Hb; [|done].
  destruct (subscription_exists src p hs) as [b2|]; [|done]. rw (IH b2) // in Hex.
  injection Hex as <-. by rw Hb bool_decide_false.
Qed.

Section UnsubscribeLemmas.
Context {W : Type} `{!Platform W} `{!Application W} (fuel : nat).

(** The table after the end of an unsubscribe. *)
Lemma unsubscribe_finish_spec p (s : sys W) :
  wp any_exn (unsubscribe_finish p) (fun rc s' =>
    (rc <> SUCCESS /\ s' = s) \/
    (rc = SUCCESS /\ exists hs, remove_handlers (sys_source s) p (messageHandlers (clientData (client s))) = Ret hs /\
       s' = Sys (set_messageHandlers hs (client s)) (world s))) s.
Proof.
  rw /unsubscribe_finish. apply wp_bind, wp_gets, wp_bind, wp_lift_outcome.
  destruct (_aws_iot_mqtt_deserialize_unsuback _ _ _) as [[rc id]|]; [|done].
  case_decide; [apply wp_ret; left; auto|].
  apply wp_bind, wp_gets, wp_bind, wp_lift_outcome. rw -/(sys_source s).
  destruct (remove_handlers _ _ _) as [hs|] eqn:Hhs; [|done].
  apply wp_bind, wp_modify, wp_ret. right. split; [done|]. by exists hs.
Qed.

Lemma pres_internal_unsubscribe R `{!TransportFrame (W := W) R} p n :
  (forall c, R c (set_nextPacketId (next_packet_id (nextPacketId (clientData c))) c)) ->
  (forall c src hs, remove_handlers src p (messageHandlers (clientData c)) = Ret hs -> R c (set_messageHandlers hs c)) ->
  pres (W := W) R (_aws_iot_mqtt_internal_unsubscribe fuel p n).
Proof.
  intros Hid Htab. rw /_aws_iot_mqtt_internal_unsubscribe.
  pose proof (pres_get_next_packet_id (W := W) R Hid). pose proof (pres_send_packet (W := W) R).
  pose proof (pres_wait_for_read (W := W) R).
  assert (Hfin : pres (W := W) R (unsubscribe_finish p)).
  { intros s. eapply wp_mono; [apply unsubscribe_finish_spec|].
    intros rc s' [[_ ->]|(_ & hs & Hhs & ->)]; [reflexivity|by eapply Htab]. }
  pres_auto.
Qed.

Lemma pres_unsubscribe R `{!TransportFrame (W := W) R} c p n :
  (forall c, R c (set_nextPacketId (next_packet_id (nextPacketId (clientData c))) c)) ->
  (forall c src hs, remove_handlers src p (messageHandlers (clientData c)) = Ret hs -> R c (set_messageHandlers hs c)) ->
  (forall c st, R c (set_clientState st c)) ->
  pres (W := W) R (aws_iot_mqtt_unsubscribe fuel c p n).
Proof.
  intros Hid Htab Hst. rw /aws_iot_mqtt_unsubscribe /aws_iot_mqtt_is_client_connected /aws_iot_mqtt_get_client_state.
  pose proof (pres_internal_unsubscribe R). pres_auto; apply (pres_set_client_state R); auto.
Qed.

Lemma unsubscribe_keeps_state c p n : handlers_keep_state W ->
  pres (W := W) same_state (aws_iot_mqtt_unsubscribe fuel c p n).
Proof.
  intros Hh s. pose proof (same_state_frame W Hh) as Hfr. rw /aws_iot_mqtt_unsubscribe.
  wp_operation ltac:(by apply (pres_internal_unsubscribe same_state)).
Qed.

(** What an unsubscribe does to the table of handlers: it becomes [hs1] while the call
    waits for the UNSUBACK. *)
Lemma internal_unsubscribe_table R `{!PreOrder R} p n : handlers_within W R -> forall s : sys W,
  wp any_exn (_aws_iot_mqtt_internal_unsubscribe fuel p n) (fun rc s' =>
    let hs := messageHandlers (clientData (client s)) in
    clientState (clientStatus (client s')) = clientState (clientStatus (client s)) /\
    exists hs1, length hs1 = length hs /\ R hs hs1 /\
    (subscription_exists (sys_source s) p hs <> Ret true -> rc <> SUCCESS /\ hs1 = hs) /\
    ((rc <> SUCCESS /\ messageHandlers (clientData (client s')) = hs1) \/
     (rc = SUCCESS /\ subscription_exists (sys_source s) p hs = Ret true /\
      remove_handlers (sys_source s') p hs1 = Ret (messageHandlers (clientData (client s')))))) s.
Proof.
  intros Hh s. pose proof (table_frame W R Hh) as Hfr. rw /_aws_iot_mqtt_internal_unsubscribe.
  apply wp_bind, wp_gets, wp_bind, wp_gets, wp_bind, wp_lift_outcome. rw -/(sys_source s).
  destruct (subscription_exists _ _ _) as [[]|] eqn:Hex; [|apply wp_ret|done]; cbn [negb].
  2:{ split; [done|]. eexists. split; [done|]. split; [reflexivity|]. auto. }
  assert (Hkept : forall rc (s' : sys W), rc <> SUCCESS -> table_within R (client s) (client s') ->
    wp any_exn (mret rc : M (sys W) _) (fun rc s' => let hs := messageHandlers (clientData (client s)) in
    clientState (clientStatus (client s')) = clientState (clientStatus (client s)) /\
    exists hs1, length hs1 = length hs /\ R hs hs1 /\
    (Ret true <> Ret true -> rc <> SUCCESS /\ hs1 = hs) /\
    ((rc <> SUCCESS /\ messageHandlers (clientData (client s')) = hs1) \/
     (rc = SUCCESS /\ Ret true = Ret true /\
      remove_handlers (sys_source s') p hs1 = Ret (messageHandlers (clientData (client s')))))) s').
  { intros rc s' Hrc (Hst & Hlen & HR). apply wp_ret. split; [done|]. eexists. split; [exact Hlen|].
    split; [exact HR|]. split; [done|]. by left. }
  apply (wp_bind_pres (table_within R)); [pres_auto|]. intros t s1 H1.
  apply (wp_bind_pres (table_within R)).
  { apply (pres_get_next_packet_id (table_within R)). by intros c. }
  intros id s2 H2.
  apply (wp_bind_pres (table_within R)); [pres_auto|]. intros src s3 H3.
  apply (wp_bind_pres (table_within R)); [apply (pres_serialize (table_within R)); auto with iot|]. intros [rc len] s4 H4.
  assert (H04 : table_within R (client s) (client s4))
    by (etrans; [exact H1|]; etrans; [exact H2|]; etrans; [exact H3|exact H4]). clear H1 H2 H3 H4.
  case_decide; [by apply Hkept; [congruence|]|].
  apply (wp_bind_pres (table_within R)); [by apply (pres_send_packet (table_within R))|]. intros rc1 s5 H5.
  assert (H05 : table_within R (client s) (client s5)) by (etrans; [exact H04|exact H5]).
  case_decide; [by apply Hkept; [congruence|]|].
  apply (wp_bind_pres (table_within R)); [by apply (pres_wait_for_read (table_within R))|]. intros rc2 s6 H6.
  assert (H06 : table_within R (client s) (client s6)) by (etrans; [exact H05|exact H6]).
  case_decide; [by apply Hkept; [congruence|]|].
  eapply wp_mono; [apply unsubscribe_finish_spec|]. cbv zeta. destruct H06 as (Hst & Hlen & HR).
  intros rc' s' [[? ->]|(? & hs & Hhs & ->)]; (split; [done|]; eexists; split; [exact Hlen|]; split; [exact HR|];
    split; [done|]); [by left|right]. split; [done|]. split; [done|]. exact Hhs.
Qed.
End UnsubscribeLemmas.

(** ** Properties *)

(** C9: what an unsubscribe of a filter, a C string, does to the table of handlers.
    Message handlers run while it waits for the UNSUBACK; they are assumed to keep the
    client state and to change the table only within a reflexive and transitive
    relation [R] of their own ([eq] when they leave it alone, [any_table] when they
    subscribe and unsubscribe). The call keeps the client state. On an error the table
    is what the handlers made of it; on success exactly the entries of that table
    whose topic is the filter, as C strings, are cleared and the others kept. When no
    entry had the filter at the time of the call, it fails and the table is
    unchanged. *)
Theorem unsubscribe_table {W} `{!Platform W} `{!Application W} R `{!PreOrder R} fuel p n f (s s' : sys W) rc :
  handlers_within W R ->
  aws_iot_mqtt_unsubscribe fuel TheClient p n s = Ret (rc, s') ->
  let hs := messageHandlers (clientData (client s)) in
  sys_source s' p ≫= cstring = Some f ->
  clientState (clientStatus (client s')) = clientState (clientStatus (client s)) /\
  exists hs1, length hs1 = length hs /\ R hs hs1 /\
    (rc <> SUCCESS -> messageHandlers (clientData (client s')) = hs1) /\
    (rc = SUCCESS -> messageHandlers (clientData (client s')) = without_filter (sys_source s') f <$> hs1) /\
    (forall f0, sys_source s p ≫= cstring = Some f0 ->
       Forall (fun h => filter_text (sys_source s) h <> Some f0) hs -> rc <> SUCCESS /\ hs1 = hs).
Proof.
  intros Hh Hrun hs. by_wp Hrun. rw /aws_iot_mqtt_unsubscribe.
  wp_guards; try done; try (apply wp_ret; intros _; split; [done|]; exists hs; split; [done|]; split; [reflexivity|]; done).
  wp_enter. apply wp_bind. eapply wp_mono; [by apply (internal_unsubscribe_table fuel R)|]. cbv zeta.
  intros rc' s1 [Hst Htab]. apply wp_bind, wp_set_client_state; [done|]. apply wp_ret.
  intros Hf. change (sys_source s1 p ≫= cstring = Some f) in Hf.
  split; [done|]. cbn [client clientData set_clientState upd_status] in *. rw -/hs in Htab.
  change (without_filter _ f) with (without_filter (sys_source s1) f).
  change (sys_source (Sys (set_clientState _ _) _)) with (sys_source s) in Htab.
  destruct (decide (SUCCESS = rc' /\ SUCCESS <> SUCCESS)) as [[_ Hrc]|_]; [by destruct Hrc|].
  destruct Htab as (hs1 & Hlen & HR & Hno & Htab). exists hs1. split; [done|]. split; [done|].
  assert (Hnone : forall f0, sys_source s p ≫= cstring = Some f0 ->
    Forall (fun h => filter_text (sys_source s) h <> Some f0) hs ->
    subscription_exists (sys_source s) p hs <> Ret true).
  { intros f0 Hf0 Hall Hex. by pose proof (subscription_exists_returned _ _ _ _ _ Hf0 Hex Hall). }
  destruct Htab as [[Hne Htab]|(-> & Hex & Hrem)].
  - split; [done|]. split; [done|]. intros f0 Hf0 Hall. apply Hno. by eapply Hnone.
  - split; [done|]. split; [intros _; by eapply remove_handlers_returned|].
    intros f0 Hf0 Hall. by destruct (Hnone f0 Hf0 Hall).
Qed.

(** Two subscriptions, the first one removed. *)
Lemma unsubscribe_table_witness :
  exists s', aws_iot_mqtt_unsubscribe 4 TheClient (App 2) 3
      (Sys (sim_client CLIENT_STATE_CONNECTED_IDLE
              [MkHandler (App 2) 3 QOS0 (Some 11) NULL; MkHandler (App 3) 3 QOS1 (Some 12) NULL])
         (sim_world [176; 2; 0; 2])) = Ret (SUCCESS, s') /\
    mh_topicName <$> messageHandlers (clientData (client s')) = [NULL; App 3; NULL; NULL; NULL].
Proof.
  set (s := Sys _ _).
  assert (Hrun : exists c w, aws_iot_mqtt_unsubscribe 4 TheClient (App 2) 3 s =
    Ret (SUCCESS, Sys c w) /\ app_memory w = sim_memory) by (do 2 eexists; split; vm_compute; reflexivity).
  destruct Hrun as (c & w & Hrun & Hw). exists (Sys c w). split; [exact Hrun|].
  assert (Hsrc : forall a, sys_source (Sys c w) (App a) = sim_memory a) by (intros a; rw /sys_source; cbn [world client]; by rw Hw).
  set (free := MkHandler NULL 0 QOS0 None NULL).
  assert (Hhs : messageHandlers (clientData (client s)) =
    [MkHandler (App 2) 3 QOS0 (Some 11) NULL; MkHandler (App 3) 3 QOS1 (Some 12) NULL; free; free; free]) by reflexivity.
  destruct (unsubscribe_table eq 4 (App 2) 3 [97; 47; 98] s (Sys c w) SUCCESS (sim_handlers_within eq) Hrun)
    as (_ & hs1 & _ & <- & _ & Htab & _); [by rw Hsrc|].
  rw (Htab eq_refl) Hhs. cbn [fmap list_fmap]. rw /without_filter /filter_text. cbn [mh_topicName]. rw !Hsrc. reflexivity.
Defined.
