(* ===== verification/Connect.v ===== *)
(** * Connecting and disconnecting

    The connection functions of [src/aws_iot_mqtt_client_connect.c]. *)
From S2P Require Import Prelude Buffer Types Wire Packets Timer Topic Client Sim Transport Subscribe.

Definition _aws_iot_mqtt_is_client_state_valid_for_connect (st : ClientState) : bool :=
  match st with
  | CLIENT_STATE_INVALID => false
  | CLIENT_STATE_INITIALIZED => true
  | CLIENT_STATE_CONNECTING
  | CLIENT_STATE_CONNECTED_IDLE
  | CLIENT_STATE_CONNECTED_YIELD_IN_PROGRESS
  | CLIENT_STATE_CONNECTED_PUBLISH_IN_PROGRESS
  | CLIENT_STATE_CONNECTED_SUBSCRIBE_IN_PROGRESS
  | CLIENT_STATE_CONNECTED_UNSUBSCRIBE_IN_PROGRESS
  | CLIENT_STATE_CONNECTED_RESUBSCRIBE_IN_PROGRESS
  | CLIENT_STATE_CONNECTED_WAIT_FOR_CB_RETURN
  | CLIENT_STATE_DISCONNECTING => false
  | CLIENT_STATE_DISCONNECTED_ERROR
  | CLIENT_STATE_DISCONNECTED_MANUALLY
  | CLIENT_STATE_PENDING_RECONNECT => true
  end.

Section Connect.
Context {W : Type} `{!Platform W} `{!Application W} (fuel : nat).

(** The part of the connect function from the CONNECT packet on. *)
Definition connect_exchange : M (sys W) IoT_Error_t :=
  c ← get_client;
  connect_timer ← start_ms (commandTimeoutMs (clientData c));
  _ ← mod_client (fun c => set_keepAliveInterval (keepAliveIntervalInSec (options (clientData c))) c);
  c ← get_client;
  src ← get_source;
  '(rc, len) ← serialize (fun buf size =>
      _aws_iot_mqtt_serialize_connect src (Some buf) size (Some (options (clientData c))) (Some 0)) 0;
  if decide (SUCCESS <> rc \/ 0 >= len) then mret rc
  else
    rc ← aws_iot_mqtt_internal_send_packet fuel TheClient len (Some connect_timer);
    if decide (SUCCESS <> rc) then mret rc
    else
      rc ← aws_iot_mqtt_internal_wait_for_read fuel TheClient (MessageTypes_val CONNACK) (Some connect_timer);
      if decide (SUCCESS <> rc) then mret rc
      else
        c ← get_client;
        '(rc, o) ← lift_outcome (_aws_iot_mqtt_deserialize_connack true (ConnackOut 0 FAILURE)
                     (Some (readBuf (clientData c))) (readBufSize (clientData c)));
        if decide (SUCCESS <> rc) then mret rc
        else if decide (MQTT_CONNACK_CONNECTION_ACCEPTED <> co_connackRc o) then mret (co_connackRc o)
        else
          _ ← mod_client (set_isPingOutstanding false);
          t ← start_sec (keepAliveInterval (clientData c));
          _ ← mod_client (set_pingTimer t);
          mret SUCCESS.

Definition _aws_iot_mqtt_internal_connect (pConnectParams : option IoT_Client_Connect_Params) :
    M (sys W) IoT_Error_t :=
  rc ← (match pConnectParams with
        | Some p => aws_iot_mqtt_set_connect_params TheClient (Some p)
        | None => mret SUCCESS
        end);
  if decide (SUCCESS <> rc) then mret MQTT_CONNECTION_ERROR
  else
    rc ← on_world net_connect;
    if decide (SUCCESS <> rc) then mret rc else connect_exchange.

Definition aws_iot_mqtt_connect (pClient : client_ptr) (pConnectParams : option IoT_Client_Connect_Params) :
    M (sys W) IoT_Error_t :=
  match pClient with
  | NullClient => mret NULL_VALUE_ERROR
  | TheClient =>
      st ← aws_iot_mqtt_get_client_state TheClient;
      if negb (_aws_iot_mqtt_is_client_state_valid_for_connect st)
      then mret NETWORK_ALREADY_CONNECTED_ERROR
      else
        _ ← aws_iot_mqtt_set_client_state TheClient st CLIENT_STATE_CONNECTING;
        rc ← _aws_iot_mqtt_internal_connect pConnectParams;
        if decide (SUCCESS <> rc) then
          _ ← on_world net_disconnect;
          _ ← on_world net_destroy;
          _ ← aws_iot_mqtt_set_client_state TheClient CLIENT_STATE_CONNECTING CLIENT_STATE_DISCONNECTED_ERROR;
          mret rc
        else
          _ ← aws_iot_mqtt_set_client_state TheClient CLIENT_STATE_CONNECTING CLIENT_STATE_CONNECTED_IDLE;
          mret rc
  end.

Definition _aws_iot_mqtt_internal_disconnect : M (sys W) IoT_Error_t :=
  '(rc, serialized_len) ← serialize (fun buf size =>
      aws_iot_mqtt_internal_serialize_zero (Some buf) size DISCONNECT (Some 0)) 0;
  if decide (SUCCESS <> rc) then mret rc
  else
    c ← get_client;
    timer ← start_ms (commandTimeoutMs (clientData c));
    rc ← (if decide (serialized_len > 0)
          then aws_iot_mqtt_internal_send_packet fuel TheClient serialized_len (Some timer)
          else mret SUCCESS);
    if decide (SUCCESS <> rc) then mret rc
    else
      _ ← on_world net_disconnect;
      rc ← on_world net_destroy;
      if decide (SUCCESS <> rc) then mret FAILURE else mret SUCCESS.

Definition aws_iot_mqtt_disconnect (pClient : client_ptr) : M (sys W) IoT_Error_t :=
  match pClient with
  | NullClient => mret NULL_VALUE_ERROR
  | TheClient =>
      st ← aws_iot_mqtt_get_client_state TheClient;
      connected ← aws_iot_mqtt_is_client_connected TheClient;
      if negb connected then mret NETWORK_DISCONNECTED_ERROR
      else
        rc ← aws_iot_mqtt_set_client_state TheClient st CLIENT_STATE_DISCONNECTING;
        if decide (SUCCESS <> rc) then mret rc
        else
          rc ← _aws_iot_mqtt_internal_disconnect;
          _ ← (if decide (SUCCESS <> rc) then mod_client (set_clientState st)
               else mod_client (set_clientState CLIENT_STATE_DISCONNECTED_MANUALLY));
          mret rc
  end.

Definition aws_iot_mqtt_attempt_reconnect (pClient : client_ptr) : M (sys W) IoT_Error_t :=
  match pClient with
  | NullClient => mret NULL_VALUE_ERROR
  | TheClient =>
      connected ← aws_iot_mqtt_is_client_connected TheClient;
      if connected : bool then mret NETWORK_ALREADY_CONNECTED_ERROR
      else
        _ ← aws_iot_mqtt_connect TheClient None;
        st ← aws_iot_mqtt_get_client_state TheClient;
        if decide (CLIENT_STATE_CONNECTED_IDLE <> st) then
          _ ← aws_iot_mqtt_set_client_state TheClient CLIENT_STATE_DISCONNECTED_ERROR
                CLIENT_STATE_PENDING_RECONNECT;
          mret NETWORK_ATTEMPTING_RECONNECT
        else
          rc ← aws_iot_mqtt_resubscribe fuel TheClient;
          if decide (SUCCESS <> rc) then mret rc else mret NETWORK_RECONNECTED
  end.
End Connect.

Section ConnectLemmas.
Context {W : Type} `{!Platform W} `{!Application W} (fuel : nat).

Lemma pres_connect_exchange R `{!TransportFrame (W := W) R} :
  (forall c n, R c (set_keepAliveInterval n c)) -> pres (W := W) R (connect_exchange fuel).
Proof.
  intros Hka. rw /connect_exchange. pose proof (pres_send_packet (W := W) R).
  pose proof (pres_wait_for_read (W := W) R). pres_auto; apply pres_mod; intros; auto; by apply tf_ping || by apply tf_pingTimer.
Qed.

Lemma pres_internal_connect R `{!TransportFrame (W := W) R} p :
  (forall c n, R c (set_keepAliveInterval n c)) -> (forall c o, R c (set_options o c)) ->
  pres (W := W) R (_aws_iot_mqtt_internal_connect fuel p).
Proof.
  intros Hka Hopt. rw /_aws_iot_mqtt_internal_connect /aws_iot_mqtt_set_connect_params.
  pose proof (pres_connect_exchange R Hka). pres_auto. by apply pres_mod.
Qed.

Lemma pres_connect R `{!TransportFrame (W := W) R} c p :
  (forall c n, R c (set_keepAliveInterval n c)) -> (forall c o, R c (set_options o c)) ->
  (forall c st, R c (set_clientState st c)) ->
  pres (W := W) R (aws_iot_mqtt_connect fuel c p).
Proof.
  intros Hka Hopt Hst. rw /aws_iot_mqtt_connect /aws_iot_mqtt_get_client_state.
  pose proof (pres_internal_connect R p Hka Hopt).
  pose proof (fun p st st' => pres_set_client_state (W := W) R p st st' (fun c => Hst c st')). pres_auto.
Qed.

Lemma pres_internal_disconnect R `{!PreOrder R} :
  (forall c b, length b = length (writeBuf (clientData c)) -> R c (set_writeBuf b c)) ->
  pres (W := W) R (_aws_iot_mqtt_internal_disconnect fuel).
Proof.
  intros HR. rw /_aws_iot_mqtt_internal_disconnect. pose proof (pres_send_packet (W := W) R).
  pres_auto. apply (pres_serialize_gen R); auto with iot.
Qed.

Lemma pres_disconnect R `{!TransportFrame (W := W) R} c :
  (forall c st, R c (set_clientState st c)) -> pres (W := W) R (aws_iot_mqtt_disconnect fuel c).
Proof.
  intros Hst. rw /aws_iot_mqtt_disconnect /aws_iot_mqtt_get_client_state /aws_iot_mqtt_is_client_connected.
  pose proof (pres_internal_disconnect R tf_writeBuf).
  pose proof (fun p st st' => pres_set_client_state (W := W) R p st st' (fun c => Hst c st')).
  pres_auto; by apply pres_mod.
Qed.

Lemma pres_attempt_reconnect R `{!TransportFrame (W := W) R} c :
  (forall c, R c (set_nextPacketId (next_packet_id (nextPacketId (clientData c))) c)) ->
  (forall c n, R c (set_keepAliveInterval n c)) -> (forall c o, R c (set_options o c)) ->
  (forall c st, R c (set_clientState st c)) ->
  pres (W := W) R (aws_iot_mqtt_attempt_reconnect fuel c).
Proof.
  intros Hid Hka Hopt Hst.
  rw /aws_iot_mqtt_attempt_reconnect /aws_iot_mqtt_get_client_state /aws_iot_mqtt_is_client_connected.
  pose proof (pres_resubscribe (W := W) fuel R TheClient Hid Hst).
  pose proof (pres_connect R TheClient None Hka Hopt Hst).
  pose proof (fun p st st' => pres_set_client_state (W := W) R p st st' (fun c => Hst c st')). pres_auto.
Qed.

(** The client state after a connect. *)
Lemma connect_state p : handlers_keep_state W -> forall s : sys W,
  wp any_exn (aws_iot_mqtt_connect fuel TheClient p) (fun rc s' =>
    if _aws_iot_mqtt_is_client_state_valid_for_connect (clientState (clientStatus (client s))) then
      clientState (clientStatus (client s')) =
        (if decide (rc = SUCCESS) then CLIENT_STATE_CONNECTED_IDLE else CLIENT_STATE_DISCONNECTED_ERROR)
    else rc = NETWORK_ALREADY_CONNECTED_ERROR /\ s' = s) s.
Proof.
  intros Hh s. pose proof (same_state_frame W Hh) as Hfr. rw /aws_iot_mqtt_connect.
  apply wp_bind. eapply wp_known; [done|]. destruct (_aws_iot_mqtt_is_client_state_valid_for_connect _); [|by apply wp_ret].
  cbn [negb]. apply wp_bind, wp_set_client_state; [done|].
  apply (wp_bind_pres same_state); [by apply (pres_internal_connect same_state)|]. intros rc s1 H1.
  case_decide.
  - apply (wp_bind_pres same_state); [pres_auto|]. intros _ s2 H2.
    apply (wp_bind_pres same_state); [pres_auto|]. intros _ s3 H3.
    apply wp_bind, wp_set_client_state; [by rw H3 H2 H1|]. apply wp_ret. case_decide; [by subst|done].
  - apply wp_bind, wp_set_client_state; [by rw H1|]. apply wp_ret. by rw decide_True.
Qed.

(** A disconnect runs no handler: it changes the write buffer and the state. *)
Definition same_but_writeBuf (c c' : AWS_IoT_Client) : Prop := exists b, c' = set_writeBuf b c.
#[local] Instance same_but_writeBuf_preorder : PreOrder same_but_writeBuf.
Proof.
  split; [intros [? ? ? []]; by eexists|]. intros c1 c2 c3 [b ->] [b' ->]. by exists b'.
Qed.

Lemma disconnect_spec (s : sys W) :
  wp any_exn (aws_iot_mqtt_disconnect fuel TheClient) (fun rc s' =>
    if connected_state (clientState (clientStatus (client s))) then
      exists b, client s' = set_writeBuf b (if decide (rc = SUCCESS)
        then set_clientState CLIENT_STATE_DISCONNECTED_MANUALLY (client s) else client s)
    else rc = NETWORK_DISCONNECTED_ERROR /\ s' = s) s.
Proof.
  rw /aws_iot_mqtt_disconnect. apply wp_bind. eapply wp_known; [done|]. apply wp_bind. eapply wp_known; [done|].
  destruct (connected_state _); [|by apply wp_ret]. cbn [negb]. wp_enter.
  apply (wp_bind_pres same_but_writeBuf).
  { apply (pres_internal_disconnect same_but_writeBuf). intros c b _. by exists b. }
  intros rc s1 [b Hb]. cbn [client] in Hb. apply wp_bind. case_decide as Hrc; apply wp_modify, wp_ret; cbn [client]; exists b; rw Hb.
  - rw decide_False; [|auto]. by destruct (client s) as [? ? [] []].
  - rw decide_True; [|auto]. by destruct (client s) as [? ? [] []].
Qed.
End ConnectLemmas.

(** Establishing the network connection does not change the memory of the
    application. *)
Class ConnectKeepsMemory (W : Type) `{!Platform W} : Prop :=
  connect_keeps_memory : forall w r w', net_connect w = Ret (r, w') -> app_memory w' = app_memory w.
#[export] Instance sim_connect_memory : ConnectKeepsMemory sim.
Proof. intros w r w' Hw. by injection Hw as _ <-. Qed.

Section ConnectRuns.
Context {W : Type} `{!Platform W} `{!Application W} `{!WritesAll W} `{!TimeKeepsMemory W} (fuel : nat).

(** The packet of a connect, and the answer that makes it a success. *)
Definition connect_sent (m : connect_msg) : Prop :=
  exists rest t w1 k w2,
    net_write (connect_packet m ++ rest) (Z.of_nat (length (connect_packet m))) t w1 = Ret ((SUCCESS, k), w2).
Definition connect_accepted : Prop :=
  exists t pt0 (s0 s1 : sys W) o,
    aws_iot_mqtt_internal_cycle_read fuel TheClient (Some t) pt0 s0 = Ret ((SUCCESS, MessageTypes_val CONNACK), s1) /\
    _aws_iot_mqtt_deserialize_connack true (ConnackOut 0 FAILURE)
      (Some (readBuf (clientData (client s1)))) (readBufSize (clientData (client s1))) = Ret (SUCCESS, o) /\
    co_connackRc o = MQTT_CONNACK_CONNECTION_ACCEPTED.

Lemma connect_exchange_success m (s s' : sys W) :
  client_ok (client s) -> connect_args (sys_source s) (options (clientData (client s))) m ->
  connect_exchange fuel s = Ret (SUCCESS, s') -> connect_sent m /\ connect_accepted.
Proof.
  intros Hok Hargs Hrun. rw /connect_exchange in Hrun.
  apply bind_inv in Hrun as (c & s1 & Hc & Hrun). injection Hc as <- <-.
  apply bind_inv in Hrun as (t & s1 & Ht & Hrun). apply start_ms_inv in Ht as [Hc Hm].
  apply bind_inv in Hrun as (u & s2 & Hmod & Hrun). injection Hmod as _ <-.
  apply bind_inv in Hrun as (c & s2 & Hget & Hrun). injection Hget as <- <-. cbn [client world] in Hrun.
  apply bind_inv in Hrun as (src & s2 & Hsrc & Hrun). injection Hsrc as <- <-. cbn [client world] in Hrun.
  rw Hm Hc in Hrun. change (deref _ _) with (sys_source s) in Hrun.
  apply bind_inv in Hrun as ([rc len] & s2 & Hser & Hrun).
  pose proof Hok as [Hwb _ Hws _ _ _]. rw /AWS_IOT_MQTT_TX_BUF_LEN in Hwb, Hws.
  assert (rc = SUCCESS) as ->.
  { case_decide as Hd; [by injection Hrun as -> _|]. symmetry. apply dec_stable. tauto. }
  apply (serialize_success _ _ (header_byte 1 0 0 0) (connect_body m)) in Hser as [-> ->].
  2:{ cbn [client clientData set_keepAliveInterval upd_data writeBuf writeBufSize options]. rw Hws -Hwb.
      apply serialize_connect_spec; [lia|done]. }
  rw -/(connect_packet m) in Hrun. pose proof (length_frame (header_byte 1 0 0 0) (connect_body m)) as Hlen.
  rw -/(connect_packet m) in Hlen.
  destruct (decide (SUCCESS <> SUCCESS \/ _)) as [[Hd|Hd]|_]; [by destruct Hd|lia|].
  apply bind_inv in Hrun as (rc & s3 & Hsend & Hrun). apply guard_success in Hrun as [-> Hrun].
  apply send_packet_success in Hsend as [_ (w1 & k & Hw)]; [|lia|cbn; lia].
  apply bind_inv in Hrun as (rc & s4 & Hwait & Hrun). apply guard_success in Hrun as [-> Hrun].
  apply wait_success in Hwait as (pt0 & s0 & Hcyc).
  apply bind_inv in Hrun as (c & s5 & Hget & Hrun). injection Hget as <- <-.
  apply bind_inv in Hrun as ([rc o] & s5 & Hde & Hrun). apply guard_success in Hrun as [-> Hrun].
  assert (Hde' : _aws_iot_mqtt_deserialize_connack true (ConnackOut 0 FAILURE)
    (Some (readBuf (clientData (client s4)))) (readBufSize (clientData (client s4))) = Ret (SUCCESS, o)).
  { by apply lift_outcome_inv in Hde as [? _]. }
  split; [eexists _, t, w1, k, (world s3); exact Hw|].
  eexists t, pt0, s0, s4, o. split; [done|]. split; [done|].
  destruct (deserialize_connack_code _ _ _ _ Hde') as [b Hb].
  case_decide as Hacc; [|done]. injection Hrun as Hrc _. rw Hb in Hrc. by destruct (connack_return_code_nonzero b).
Qed.
End ConnectRuns.

(** ** Properties *)

(** C7: the outcome of a connect. In a state that does not allow it, it is refused and
    nothing changes. Otherwise the client is afterwards connected and idle exactly when
    success is returned, and disconnected with an error on every other return code. *)
Theorem connect_outcome {W} `{!Platform W} `{!Application W} fuel p (s s' : sys W) rc :
  handlers_keep_state W -> aws_iot_mqtt_connect fuel TheClient p s = Ret (rc, s') ->
  if _aws_iot_mqtt_is_client_state_valid_for_connect (clientState (clientStatus (client s))) then
    clientState (clientStatus (client s')) =
      (if decide (rc = SUCCESS) then CLIENT_STATE_CONNECTED_IDLE else CLIENT_STATE_DISCONNECTED_ERROR)
  else rc = NETWORK_ALREADY_CONNECTED_ERROR /\ s' = s.
Proof. intros Hh Hrun. by_wp Hrun. by apply connect_state. Qed.

(** The outcome of a disconnect. A client that is not connected is refused and
    unchanged. Otherwise success marks the client as disconnected by its user, and
    every error leaves the client state as it was; nothing else but the contents of
    the write buffer changes. *)
Theorem disconnect_outcome {W} `{!Platform W} `{!Application W} fuel (s s' : sys W) rc :
  aws_iot_mqtt_disconnect fuel TheClient s = Ret (rc, s') ->
  if connected_state (clientState (clientStatus (client s))) then
    exists b, client s' = set_writeBuf b (if decide (rc = SUCCESS)
      then set_clientState CLIENT_STATE_DISCONNECTED_MANUALLY (client s) else client s)
  else rc = NETWORK_DISCONNECTED_ERROR /\ s' = s.
Proof. intros Hrun. by_wp Hrun. apply disconnect_spec. Qed.

Lemma disconnect_outcome_witness :
  exists s' b, aws_iot_mqtt_disconnect 4 TheClient (Sys (sim_client CLIENT_STATE_CONNECTED_IDLE []) (sim_world [])) =
    Ret (SUCCESS, s') /\ client s' = set_writeBuf b (sim_client CLIENT_STATE_DISCONNECTED_MANUALLY []).
Proof.
  assert (Hrun : exists s', aws_iot_mqtt_disconnect 4 TheClient
    (Sys (sim_client CLIENT_STATE_CONNECTED_IDLE []) (sim_world [])) = Ret (SUCCESS, s')) by (eexists; vm_compute; reflexivity).
  destruct Hrun as [s' Hrun]. destruct (disconnect_outcome 4 _ _ _ Hrun) as [b Hb]. exists s', b.
  split; [exact Hrun|exact Hb].
Defined.

(** The parameters of a connection with the client identifier "dev", the user name
    "a/b" and the password "hello". *)
Definition connect_demo_params : IoT_Client_Connect_Params :=
  ConnectParams MQTT_3_1_1 (App 1) 3 600 true false (WillOptions NULL 0 NULL 0 false 0) (App 2) 3 (App 4) 3.
Definition connect_demo (input : list Z) : sys sim :=
  Sys (sim_client CLIENT_STATE_INITIALIZED []) (sim_world input).

(** The broker refuses the connection with code 5. *)
Lemma connect_outcome_witness :
  exists s', aws_iot_mqtt_connect 4 TheClient (Some connect_demo_params) (connect_demo [32; 2; 0; 5]) =
    Ret (MQTT_CONNACK_NOT_AUTHORIZED_ERROR, s') /\
    clientState (clientStatus (client s')) = CLIENT_STATE_DISCONNECTED_ERROR.
Proof.
  assert (Hrun : exists s', aws_iot_mqtt_connect 4 TheClient (Some connect_demo_params)
    (connect_demo [32; 2; 0; 5]) = Ret (MQTT_CONNACK_NOT_AUTHORIZED_ERROR, s')) by (eexists; vm_compute; reflexivity).
  destruct Hrun as [s' Hrun]. exists s'. split; [exact Hrun|].
  exact (connect_outcome 4 _ _ _ _ sim_handlers_keep_state Hrun).
Defined.

(** C6: a connect that returns success has written the CONNECT packet of the stored
    options and has read a CONNACK packet that accepts the connection. The options
    stored from the caller's parameters have the user name as their password. *)
Theorem connect_success_sent {W} `{!Platform W} `{!Application W} `{!WritesAll W} `{!TimeKeepsMemory W}
    `{!ConnectKeepsMemory W} fuel p m (s s' : sys W) :
  client_ok (client s) ->
  connect_args (sys_source s)
    (match p with Some n => copied_options n | None => options (clientData (client s)) end) m ->
  aws_iot_mqtt_connect fuel TheClient p s = Ret (SUCCESS, s') ->
  connect_sent (W := W) m /\ connect_accepted (W := W) fuel.
Proof.
  intros Hok Hargs. rw /aws_iot_mqtt_connect. erewrite bind_run; [|done]. destruct (negb _); [done|].
  erewrite bind_run; [|by apply set_client_state_ok]. intros Hrun.
  apply bind_inv in Hrun as (rc & s1 & Hcon & Hrun).
  assert (rc = SUCCESS) as ->.
  { case_decide as Hd; [|done]. run_inv. }
  clear Hrun. rw /_aws_iot_mqtt_internal_connect in Hcon.
  set (s2 := Sys (set_clientState _ _) _) in Hcon.
  set (s3 := match p with Some n => Sys (set_options (copied_options n) (client s2)) (world s2) | None => s2 end).
  rw (bind_run _ _ _ SUCCESS s3) in Hcon; [|by destruct p].
  destruct (decide (SUCCESS <> SUCCESS)) as [Hd|_]; [by destruct Hd|].
  apply bind_inv in Hcon as (rc & s4 & Hnet & Hcon). apply guard_success in Hcon as [-> Hcon].
  apply on_world_inv in Hnet as [Hnet Hc]. apply connect_keeps_memory in Hnet.
  apply (connect_exchange_success fuel m s4 s1); [|rw /sys_source Hnet Hc; by destruct p|exact Hcon].
  rw Hc. destruct p; [|by apply (ok_rel_upd (client s))]. destruct Hok. by constructor.
Qed.

(** The accepted connection. The CONNECT packet carries the user name "a/b" twice. *)
Lemma connect_success_sent_witness :
  connect_sent (W := sim) (ConnectMsg true 600 [100; 101; 118] None (Some [97; 47; 98]) (Some [97; 47; 98])) /\
  connect_accepted (W := sim) 4.
Proof.
  assert (Hrun : exists s', aws_iot_mqtt_connect 4 TheClient (Some connect_demo_params) (connect_demo [32; 2; 0; 0]) =
    Ret (SUCCESS, s')) by (eexists; vm_compute; reflexivity).
  destruct Hrun as [s' Hrun].
  refine (connect_success_sent 4 (Some connect_demo_params) _ (connect_demo [32; 2; 0; 0]) s' (sim_client_ok _ _) _ Hrun).
  constructor; try reflexivity.
  - rw /is_u16 /=. lia.
  - right. split; [done|]. split; [done|]. designate.
  - split; [done|]. designate.
  - split; [done|]. designate.
Defined.
