(* ===== verification/Yield.v ===== *)
(** * Yielding: keep alive, disconnection and automatic reconnection

    [aws_iot_mqtt_yield] of [src/aws_iot_mqtt_client_yield.c]. *)
From S2P Require Import Prelude Buffer Types Wire Packets Timer Topic Client Sim Transport Subscribe Connect.

Section Yield.
Context {W : Type} `{!Platform W} `{!Application W} (fuel : nat).

Definition _aws_iot_mqtt_force_client_disconnect : M (sys W) unit :=
  _ ← mod_client (set_clientState CLIENT_STATE_DISCONNECTED_ERROR);
  _ ← on_world net_disconnect;
  _ ← on_world net_destroy;
  mret tt.

Definition _aws_iot_mqtt_handle_disconnect : M (sys W) IoT_Error_t :=
  rc ← aws_iot_mqtt_disconnect fuel TheClient;
  _ ← (if decide (rc <> SUCCESS) then _aws_iot_mqtt_force_client_disconnect else mret tt);
  c ← get_client;
  _ ← (match disconnectHandler (clientData c) with
       | Some h => app_disconnect_handler h (disconnectHandlerData (clientData c))
       | None => mret tt
       end);
  _ ← mod_client (set_clientState CLIENT_STATE_DISCONNECTED_ERROR);
  mret NETWORK_DISCONNECTED_ERROR.

(** The end of the reconnect handler: the waiting interval is doubled, and the
    delay timer restarted unless the interval exceeds its maximum. *)
Definition back_off (rc : IoT_Error_t) : M (sys W) IoT_Error_t :=
  _ ← mod_client (fun c => set_currentReconnectWaitInterval
        (u32 (currentReconnectWaitInterval (clientData c) * 2)) c);
  c ← get_client;
  if decide (AWS_IOT_MQTT_MAX_RECONNECT_WAIT_INTERVAL < currentReconnectWaitInterval (clientData c))
  then mret NETWORK_RECONNECT_TIMED_OUT_ERROR
  else
    t ← start_ms (currentReconnectWaitInterval (clientData c));
    _ ← mod_client (set_reconnectDelayTimer t);
    mret rc.

(** The function pointer [isConnected] is set by the initialization of the network. *)
Definition _aws_iot_mqtt_handle_reconnect : M (sys W) IoT_Error_t :=
  c ← get_client;
  e ← expired (reconnectDelayTimer c);
  if negb e then mret NETWORK_ATTEMPTING_RECONNECT
  else
    rc ← on_world net_isConnected;
    if decide (NETWORK_PHYSICAL_LAYER_CONNECTED = rc) then
      rc ← aws_iot_mqtt_attempt_reconnect fuel TheClient;
      if decide (NETWORK_RECONNECTED = rc) then
        rc ← aws_iot_mqtt_set_client_state TheClient CLIENT_STATE_CONNECTED_IDLE
               CLIENT_STATE_CONNECTED_YIELD_IN_PROGRESS;
        if decide (SUCCESS <> rc) then mret rc else mret NETWORK_RECONNECTED
      else back_off rc
    else back_off rc.

Definition _aws_iot_mqtt_keep_alive (pClient : client_ptr) : M (sys W) IoT_Error_t :=
  match pClient with
  | NullClient => mret NULL_VALUE_ERROR
  | TheClient =>
      c ← get_client;
      if decide (0 = keepAliveInterval (clientData c)) then mret SUCCESS
      else
        e ← expired (pingTimer c);
        if negb e then mret SUCCESS
        else if isPingOutstanding (clientStatus c) then _aws_iot_mqtt_handle_disconnect
        else
          timer ← start_ms (commandTimeoutMs (clientData c));
          '(rc, serialized_len) ← serialize (fun buf size =>
              aws_iot_mqtt_internal_serialize_zero (Some buf) size PINGREQ (Some 0)) 0;
          if decide (SUCCESS <> rc) then mret rc
          else
            rc ← aws_iot_mqtt_internal_send_packet fuel TheClient serialized_len (Some timer);
            if decide (SUCCESS <> rc) then _aws_iot_mqtt_handle_disconnect
            else
              _ ← mod_client (set_isPingOutstanding true);
              t ← start_sec (keepAliveInterval (clientData c));
              _ ← mod_client (set_pingTimer t);
              mret SUCCESS
  end.

(** Where an iteration of the yield loop leaves: at the end of the loop body (the
    timer is tested then), out of the loop, or out of the function. *)
Inductive flow := Continue (rc : IoT_Error_t) | Break (rc : IoT_Error_t).

(** The part of an iteration that reads one packet and keeps the connection alive. *)
Definition yield_cycle (timer : Timer) (packet_type : Z) : M (sys W) (IoT_Error_t * Z) :=
  '(yieldRc, packet_type) ← aws_iot_mqtt_internal_cycle_read fuel TheClient (Some timer) packet_type;
  if decide (SUCCESS = yieldRc) then
    rc ← _aws_iot_mqtt_keep_alive TheClient; mret (rc, packet_type)
  else if decide (yieldRc ∈ [NETWORK_SSL_READ_ERROR; NETWORK_SSL_READ_TIMEOUT_ERROR;
                             NETWORK_SSL_WRITE_ERROR; NETWORK_SSL_WRITE_TIMEOUT_ERROR])
  then rc ← _aws_iot_mqtt_handle_disconnect; mret (rc, packet_type)
  else mret (yieldRc, packet_type).

(** The part that starts the automatic reconnection. *)
Definition after_cycle (yieldRc : IoT_Error_t) : M (sys W) flow :=
  if decide (NETWORK_DISCONNECTED_ERROR = yieldRc) then
    _ ← mod_client (fun c => set_counterNetworkDisconnected
          (u32 (counterNetworkDisconnected (clientData c) + 1)) c);
    c ← get_client;
    if isAutoReconnectEnabled (clientStatus c) then
      rc ← aws_iot_mqtt_set_client_state TheClient CLIENT_STATE_DISCONNECTED_ERROR
             CLIENT_STATE_PENDING_RECONNECT;
      if decide (SUCCESS <> rc) then mret (Break rc)
      else
        _ ← mod_client (set_currentReconnectWaitInterval AWS_IOT_MQTT_MIN_RECONNECT_WAIT_INTERVAL);
        t ← start_ms AWS_IOT_MQTT_MIN_RECONNECT_WAIT_INTERVAL;
        _ ← mod_client (set_reconnectDelayTimer t);
        mret (Continue NETWORK_ATTEMPTING_RECONNECT)
    else mret (Break yieldRc)
  else if decide (SUCCESS <> yieldRc) then mret (Break yieldRc)
  else mret (Continue yieldRc).

Definition yield_iteration (timer : Timer) (packet_type : Z) : M (sys W) (flow * Z) :=
  st ← aws_iot_mqtt_get_client_state TheClient;
  if decide (CLIENT_STATE_PENDING_RECONNECT = st) then
    c ← get_client;
    if decide (AWS_IOT_MQTT_MAX_RECONNECT_WAIT_INTERVAL < currentReconnectWaitInterval (clientData c))
    then mret (Break NETWORK_RECONNECT_TIMED_OUT_ERROR, packet_type)
    else
      rc ← _aws_iot_mqtt_handle_reconnect;
      mret (Continue rc, packet_type)
  else
    '(yieldRc, packet_type) ← yield_cycle timer packet_type;
    f ← after_cycle yieldRc;
    mret (f, packet_type).

Fixpoint yield_loop (fuel : nat) (timer : Timer) (packet_type : Z) : M (sys W) IoT_Error_t :=
  match fuel with
  | O => raise OutOfFuel
  | S fuel' =>
      '(f, packet_type) ← yield_iteration timer packet_type;
      match f with
      | Break rc => mret rc
      | Continue rc =>
          e ← expired timer;
          if e : bool then mret rc else yield_loop fuel' timer packet_type
      end
  end.

(** [packet_type] is a local that is not initialized; it is only tested after a
    packet has been read. *)
Definition _aws_iot_mqtt_internal_yield (timeout_ms : Z) : M (sys W) IoT_Error_t :=
  timer ← start_ms timeout_ms;
  yield_loop fuel timer 0.

Definition aws_iot_mqtt_yield (pClient : client_ptr) (timeout_ms : Z) : M (sys W) IoT_Error_t :=
  match pClient with
  | NullClient => mret NULL_VALUE_ERROR
  | TheClient =>
      if decide (0 = timeout_ms) then mret NULL_VALUE_ERROR
      else
        st ← aws_iot_mqtt_get_client_state TheClient;
        if decide (CLIENT_STATE_DISCONNECTED_MANUALLY = st) then mret NETWORK_MANUALLY_DISCONNECTED
        else
          early ← (if decide (CLIENT_STATE_PENDING_RECONNECT <> st) then
                     connected ← aws_iot_mqtt_is_client_connected TheClient;
                     if negb connected then mret (Some NETWORK_DISCONNECTED_ERROR)
                     else if decide (CLIENT_STATE_CONNECTED_IDLE <> st)
                     then mret (Some MQTT_CLIENT_NOT_IDLE_ERROR)
                     else
                       rc ← aws_iot_mqtt_set_client_state TheClient CLIENT_STATE_CONNECTED_IDLE
                              CLIENT_STATE_CONNECTED_YIELD_IN_PROGRESS;
                       mret (if decide (SUCCESS <> rc) then Some rc else None)
                   else mret None);
          match early with
          | Some rc => mret rc
          | None =>
              yieldRc ← _aws_iot_mqtt_internal_yield timeout_ms;
              if decide (NETWORK_DISCONNECTED_ERROR <> yieldRc /\ NETWORK_ATTEMPTING_RECONNECT <> yieldRc)
              then
                rc ← aws_iot_mqtt_set_client_state TheClient CLIENT_STATE_CONNECTED_YIELD_IN_PROGRESS
                       CLIENT_STATE_CONNECTED_IDLE;
                mret (if decide (SUCCESS = yieldRc /\ SUCCESS <> rc) then rc else yieldRc)
              else mret yieldRc
          end
  end.
End Yield.

Section YieldLemmas.
Context {W : Type} `{!Platform W} `{!Application W} (fuel : nat).

(** What a relation must be closed under, besides the transport, to be kept by a
    yield. *)
Record yield_closed (R : AWS_IoT_Client -> AWS_IoT_Client -> Prop) : Prop := {
  yc_packetId : forall c, R c (set_nextPacketId (next_packet_id (nextPacketId (clientData c))) c);
  yc_keepAlive : forall c n, R c (set_keepAliveInterval n c);
  yc_options : forall c o, R c (set_options o c);
  yc_state : forall c st, R c (set_clientState st c);
  yc_wait : forall c n, R c (set_currentReconnectWaitInterval n c);
  yc_delay : forall c t, R c (set_reconnectDelayTimer t c);
  yc_count : forall c n, R c (set_counterNetworkDisconnected n c);
  yc_handler : forall h d, pres (W := W) R (app_disconnect_handler h d) }.

Context (R : AWS_IoT_Client -> AWS_IoT_Client -> Prop) `{!TransportFrame (W := W) R} (HR : yield_closed R).

Lemma pres_handle_disconnect : pres (W := W) R (_aws_iot_mqtt_handle_disconnect fuel).
Proof.
  rw /_aws_iot_mqtt_handle_disconnect /_aws_iot_mqtt_force_client_disconnect. destruct HR.
  pose proof (pres_disconnect fuel R TheClient yc_state0). pres_auto; by apply pres_mod.
Qed.

Lemma pres_back_off rc : pres (W := W) R (back_off rc).
Proof. rw /back_off. destruct HR. pres_auto; by apply pres_mod. Qed.

Lemma pres_handle_reconnect : pres (W := W) R (_aws_iot_mqtt_handle_reconnect fuel).
Proof.
  rw /_aws_iot_mqtt_handle_reconnect. pose proof pres_back_off. destruct HR.
  pose proof (pres_attempt_reconnect fuel R TheClient yc_packetId0 yc_keepAlive0 yc_options0 yc_state0).
  pose proof (fun p st st' => pres_set_client_state (W := W) R p st st' (fun c => yc_state0 c st')). pres_auto.
Qed.

Lemma pres_keep_alive p : pres (W := W) R (_aws_iot_mqtt_keep_alive fuel p).
Proof.
  rw /_aws_iot_mqtt_keep_alive. pose proof pres_handle_disconnect.
  pose proof (pres_send_packet (W := W) R). pres_auto; apply pres_mod; intros; by apply tf_ping || by apply tf_pingTimer.
Qed.

Lemma pres_yield p n : pres (W := W) R (aws_iot_mqtt_yield fuel p n).
Proof.
  pose proof pres_handle_reconnect. pose proof pres_handle_disconnect. pose proof pres_keep_alive.
  pose proof (pres_cycle_read R). destruct HR.
  pose proof (fun p st st' => pres_set_client_state (W := W) R p st st' (fun c => yc_state0 c st')).
  assert (Hit : forall t pt, pres (W := W) R (yield_iteration fuel t pt)).
  { intros. rw /yield_iteration /yield_cycle /after_cycle /aws_iot_mqtt_get_client_state.
    pres_auto; by apply pres_mod. }
  assert (Hloop : forall f t pt, pres (W := W) R (yield_loop fuel f t pt)).
  { induction f as [|f IH]; intros; cbn [yield_loop]; pres_auto. }
  rw /aws_iot_mqtt_yield /_aws_iot_mqtt_internal_yield /aws_iot_mqtt_get_client_state /aws_iot_mqtt_is_client_connected.
  pres_auto.
Qed.
End YieldLemmas.

(** ** The client state during and after a yield *)

(** The states in which an iteration of the loop starts: yielding, waiting to
    reconnect, and idle after a reconnection whose subscriptions failed. *)
Definition yielding (st : ClientState) : Prop :=
  st = CLIENT_STATE_CONNECTED_YIELD_IN_PROGRESS \/ st = CLIENT_STATE_PENDING_RECONNECT \/
  st = CLIENT_STATE_CONNECTED_IDLE.

(** The states and return codes that go together at the end of an iteration: when the
    code says that the connection is lost, the state is not that of a yield. *)
Definition flow_ok (f : flow) (st : ClientState) : Prop :=
  match f with
  | Continue rc => yielding st /\ (plain_code rc = false -> st <> CLIENT_STATE_CONNECTED_YIELD_IN_PROGRESS)
  | Break rc => (yielding st \/ st = CLIENT_STATE_DISCONNECTED_ERROR) /\
                (plain_code rc = false -> st <> CLIENT_STATE_CONNECTED_YIELD_IN_PROGRESS)
  end.

Lemma waiting_flow rc st :
  st = CLIENT_STATE_PENDING_RECONNECT \/ st = CLIENT_STATE_CONNECTED_IDLE -> flow_ok (Continue rc) st.
Proof. rw /flow_ok /yielding. intros [-> | ->]; auto. Qed.

Abbreviation state_of s := (clientState (clientStatus (client s))).

Section YieldStates.
Context {W : Type} `{!Platform W} `{!Application W} `{!ReadCodes W} (fuel : nat).
Context (Hh : handlers_keep_state W).

#[local] Instance yield_frame : TransportFrame (W := W) same_state.
Proof. by apply same_state_frame. Qed.

Lemma handle_disconnect_state (s : sys W) :
  wp any_exn (_aws_iot_mqtt_handle_disconnect fuel) (fun rc s' =>
    rc = NETWORK_DISCONNECTED_ERROR /\ state_of s' = CLIENT_STATE_DISCONNECTED_ERROR) s.
Proof.
  rw /_aws_iot_mqtt_handle_disconnect. set (R := fun _ _ : AWS_IoT_Client => True).
  assert (Hany : forall A (m : M (sys W) A), pres R m) by (intros A m s1; rw /wp; by repeat case_match).
  do 2 (apply (wp_bind_pres R); [apply Hany|]; intros ? ? _). apply wp_bind, wp_gets.
  apply (wp_bind_pres R); [apply Hany|]. intros _ s3 _. by apply wp_bind, wp_modify, wp_ret.
Qed.

(** Either the state is kept, or the connection is lost. *)
Definition kept_or_lost (s : sys W) (rc : IoT_Error_t) (s' : sys W) : Prop :=
  (plain_code rc /\ state_of s' = state_of s) \/
  (rc = NETWORK_DISCONNECTED_ERROR /\ state_of s' = CLIENT_STATE_DISCONNECTED_ERROR).

Lemma lost_connection (s s0 : sys W) : wp any_exn (_aws_iot_mqtt_handle_disconnect fuel) (kept_or_lost s0) s.
Proof. eapply wp_mono; [apply handle_disconnect_state|]. intros rc s' [? ?]. by right. Qed.

Lemma serialize_zero_returns t len :
  returns (S := sys W) (fun r => plain_code r.1)
    (serialize (fun buf size => aws_iot_mqtt_internal_serialize_zero (Some buf) size t (Some 0)) len).
Proof.
  rw /serialize. apply returns_any. intros c.
  eapply returns_bind with (P := fun o => plain_code (so_rc o)).
  - apply returns_outcome. intros o Ho. move: Ho. rw /aws_iot_mqtt_internal_serialize_zero.
    case_decide; [by intros [= <-]|]. destruct (aws_iot_mqtt_internal_init_header _ _ _ _ _) as [rc h] eqn:Hinit.
    case_decide.
    + intros [= <-]. cbn. move: Hinit. rw /aws_iot_mqtt_internal_init_header. repeat case_match; intros [= <- _]; done.
    + rw /run_serializer. intros Ho. match type of Ho with mbind _ ?x = _ => destruct x as [[[] cur]|]; [|done] end.
      by injection Ho as <-.
  - intros o Ho. returns_auto. done.
Qed.

Lemma keep_alive_state (s : sys W) : wp any_exn (_aws_iot_mqtt_keep_alive fuel TheClient) (kept_or_lost s) s.
Proof.
  rw /_aws_iot_mqtt_keep_alive. apply wp_bind, wp_gets. case_decide; [apply wp_ret; by left|].
  apply (wp_bind_pres same_state); [pres_auto|]. intros e s1 H1.
  destruct e; [|apply wp_ret; by left]. cbn [negb].
  destruct (isPingOutstanding _); [apply lost_connection|].
  apply (wp_bind_pres same_state); [pres_auto|]. intros t s2 H2.
  apply wp_bind. eapply wp_mono; [apply wp_conj; [apply (serialize_zero_returns PINGREQ 0)|apply (pres_serialize same_state)]|].
  { auto with iot. }
  intros [rc len] s3 [Hrc H3]. case_decide; [apply wp_ret; left; split; [done|by rw H3 H2 H1]|].
  apply (wp_bind_pres same_state); [apply (pres_send_packet same_state)|]. intros rc' s4 H4.
  case_decide; [apply lost_connection|]. apply wp_bind, wp_modify.
  apply (wp_bind_pres same_state); [pres_auto|]. intros t' s5 Hs5. apply wp_bind, wp_modify, wp_ret. left.
  split; [done|]. etrans; [exact Hs5|]. etrans; [exact H4|]. by rw H3 H2 H1.
Qed.

Lemma yield_cycle_state t pt (s : sys W) :
  wp any_exn (yield_cycle fuel t pt) (fun r s' => kept_or_lost s r.1 s') s.
Proof.
  rw /yield_cycle. apply wp_bind.
  eapply wp_mono; [apply wp_conj; [apply cycle_read_returns|apply (pres_cycle_read same_state)]|].
  intros [rc pt'] s1 [Hrc H1]. case_decide; [|case_decide].
  - apply wp_bind. eapply wp_mono; [apply keep_alive_state|]. intros rc' s2 H2. apply wp_ret.
    rw /kept_or_lost H1 in H2. exact H2.
  - apply wp_bind. eapply wp_mono; [apply (lost_connection s1 s)|]. intros rc' s2 H2. by apply wp_ret.
  - apply wp_ret. left. by rw H1.
Qed.

Lemma after_cycle_state rc (s0 s : sys W) : state_of s0 <> CLIENT_STATE_PENDING_RECONNECT ->
  yielding (state_of s0) -> kept_or_lost s0 rc s ->
  wp any_exn (after_cycle rc) (fun f s' => flow_ok f (state_of s')) s.
Proof.
  intros Hnp Hy Hk. rw /after_cycle. case_decide as Hrc.
  - subst rc. destruct Hk as [[Hp _]|[_ Hst]]; [done|]. apply wp_bind, wp_modify, wp_bind, wp_gets. cbn [client].
    destruct (isAutoReconnectEnabled _).
    + apply wp_bind, wp_set_client_state; [done|]. rc_simpl. apply wp_bind, wp_modify.
      apply (wp_bind_pres same_state); [pres_auto|]. intros t s1 H1. apply wp_bind, wp_modify, wp_ret.
      cbn in *. rw H1. split; [right; by left|done].
    + apply wp_ret. cbn in *. rw Hst. split; [by right|done].
  - destruct Hk as [[Hp Hst]|[? _]]; [|by subst]. case_decide; apply wp_ret; rw /flow_ok Hst; [|by subst].
    split; [by left|]. intros Hf. by rw Hf in Hp.
Qed.

Lemma attempt_reconnect_state (s : sys W) : state_of s = CLIENT_STATE_PENDING_RECONNECT ->
  wp any_exn (aws_iot_mqtt_attempt_reconnect fuel TheClient) (fun rc s' =>
    state_of s' = CLIENT_STATE_CONNECTED_IDLE \/
    (rc = NETWORK_ATTEMPTING_RECONNECT /\ state_of s' = CLIENT_STATE_PENDING_RECONNECT)) s.
Proof.
  intros Hst. rw /aws_iot_mqtt_attempt_reconnect. apply wp_bind. eapply wp_known; [done|]. rw Hst. cbn [connected_state].
  apply wp_bind. eapply wp_mono; [by apply connect_state|]. cbv beta. rw Hst. cbn [_aws_iot_mqtt_is_client_state_valid_for_connect].
  intros rc s1 H1. apply wp_bind. eapply wp_known; [done|]. cbv beta.
  destruct (decide (rc = SUCCESS)); rw H1; rc_simpl.
  - apply (wp_bind_pres same_state); [by apply resubscribe_keeps_state|]. intros rc' s2 H2.
    assert (state_of s2 = CLIENT_STATE_CONNECTED_IDLE) by (by rw H2 H1). case_decide; apply wp_ret; by left.
  - case_decide as Hd; [|done]. apply wp_bind, wp_set_client_state; [done|]. apply wp_ret. by right.
Qed.

Lemma handle_reconnect_state (s : sys W) : state_of s = CLIENT_STATE_PENDING_RECONNECT ->
  wp any_exn (_aws_iot_mqtt_handle_reconnect fuel) (fun rc s' => flow_ok (Continue rc) (state_of s')) s.
Proof.
  intros Hst. rw /_aws_iot_mqtt_handle_reconnect. apply wp_bind, wp_gets.
  apply (wp_bind_pres same_state); [pres_auto|]. intros e s1 H1.
  assert (Hback : forall rc s2, state_of s2 = CLIENT_STATE_PENDING_RECONNECT \/ state_of s2 = CLIENT_STATE_CONNECTED_IDLE ->
    wp any_exn (back_off rc) (fun rc s' => flow_ok (Continue rc) (state_of s')) s2).
  { intros rc s2 H2. rw /back_off. apply wp_bind, wp_modify, wp_bind, wp_gets.
    case_decide; [by apply wp_ret, waiting_flow|].
    apply (wp_bind_pres same_state); [pres_auto|]. intros t s3 H3. apply wp_bind, wp_modify, wp_ret, waiting_flow.
    by rw -H3 in H2. }
  destruct e; [|apply wp_ret; rw /flow_ok H1 Hst; split; [right; by left|done]]. cbn [negb].
  apply (wp_bind_pres same_state); [pres_auto|]. intros rc s2 H2.
  assert (state_of s2 = CLIENT_STATE_PENDING_RECONNECT) by (by rw H2 H1).
  case_decide; [|apply Hback; auto].
  apply wp_bind. eapply wp_mono; [by apply attempt_reconnect_state|]. intros rc' s3 H3. case_decide as Hrc.
  - subst rc'. destruct H3 as [H3|[? _]]; [|done].
    apply wp_bind, wp_set_client_state; [done|]. rc_simpl. apply wp_ret. split; [by left|done].
  - apply Hback. destruct H3 as [?|[_ ?]]; auto.
Qed.

Lemma yield_iteration_state t pt (s : sys W) : yielding (state_of s) ->
  wp any_exn (yield_iteration fuel t pt) (fun r s' => flow_ok r.1 (state_of s')) s.
Proof.
  intros Hy. rw /yield_iteration. apply wp_bind. eapply wp_known; [done|]. case_decide as Hst.
  - apply wp_bind, wp_gets. case_decide; [apply wp_ret; cbn; rw -Hst; split; [left; right; by left|done]|].
    apply wp_bind. eapply wp_mono; [by apply handle_reconnect_state|]. intros rc s1 H1. by apply wp_ret.
  - apply wp_bind. eapply wp_mono; [apply yield_cycle_state|]. intros [rc pt'] s1 H1.
    apply wp_bind. eapply wp_mono; [by eapply after_cycle_state|]. intros f s2 H2. by apply wp_ret.
Qed.

Lemma yield_loop_state t : forall f pt (s : sys W), yielding (state_of s) ->
  wp any_exn (yield_loop fuel f t pt) (fun rc s' => flow_ok (Break rc) (state_of s')) s.
Proof.
  induction f as [|f IH]; intros pt s Hy; cbn [yield_loop]; [done|].
  apply wp_bind. eapply wp_mono; [by apply yield_iteration_state|]. intros [[rc|rc] pt'] s1 H1; [|by apply wp_ret].
  destruct H1 as [Hy1 Hrc]. apply (wp_bind_pres same_state); [pres_auto|]. intros e s2 H2.
  destruct e; [apply wp_ret|apply IH; by rw H2]. rw /flow_ok H2. auto.
Qed.

(** The states a yield leaves. *)
Definition after_yield (st : ClientState) : Prop :=
  st = CLIENT_STATE_CONNECTED_IDLE \/ st = CLIENT_STATE_PENDING_RECONNECT \/ st = CLIENT_STATE_DISCONNECTED_ERROR.

Lemma yield_state n (s : sys W) :
  wp any_exn (aws_iot_mqtt_yield fuel TheClient n) (fun rc s' =>
    state_of s' = state_of s \/ after_yield (state_of s')) s.
Proof.
  rw /aws_iot_mqtt_yield. case_decide; [apply wp_ret; by left|].
  apply wp_bind. eapply wp_known; [done|]. case_decide; [apply wp_ret; by left|].
  apply wp_bind.
  assert (Htail : forall s1, yielding (state_of s1) -> wp any_exn
    (yieldRc ← _aws_iot_mqtt_internal_yield fuel n;
     if decide (NETWORK_DISCONNECTED_ERROR <> yieldRc /\ NETWORK_ATTEMPTING_RECONNECT <> yieldRc) then
       rc ← aws_iot_mqtt_set_client_state TheClient CLIENT_STATE_CONNECTED_YIELD_IN_PROGRESS CLIENT_STATE_CONNECTED_IDLE;
       mret (if decide (SUCCESS = yieldRc /\ SUCCESS <> rc) then rc else yieldRc)
     else mret yieldRc) (fun rc s' => state_of s' = state_of s \/ after_yield (state_of s')) s1).
  { intros s1 H1. rw /_aws_iot_mqtt_internal_yield. apply wp_bind.
    apply (wp_bind_pres same_state); [pres_auto|]. intros t s2 H2.
    eapply wp_mono; [apply yield_loop_state; by rw H2|]. intros rc s3 [Hst Hrc]. case_decide as Hd.
    - apply wp_bind. destruct (decide (state_of s3 = CLIENT_STATE_CONNECTED_YIELD_IN_PROGRESS)).
      + apply wp_set_client_state; [done|]. apply wp_ret. right. by left.
      + eapply wp_known; [by rw set_client_state_run decide_False|]. apply wp_ret. right.
        rw /after_yield. rw /yielding in Hst. tauto.
    - apply wp_ret. right. assert (plain_code rc = false) as Hp%Hrc by (destruct rc; try done; exfalso; by apply Hd).
      rw /after_yield. rw /yielding in Hst. tauto. }
  case_decide as Hst.
  - apply wp_bind. eapply wp_known; [done|]. destruct (connected_state _); cbn [negb]; [|do 2 apply wp_ret; by left].
    case_decide; [do 2 apply wp_ret; by left|].
    apply wp_bind, wp_set_client_state; [done|]. apply wp_ret. rc_simpl. apply Htail. by left.
  - apply wp_ret. apply Htail. right. by left.
Qed.
End YieldStates.

(** ** Properties *)

(** A yield never leaves the client in the state of a yield in progress: the state
    is unchanged (a refused call among these), or the client is idle, waiting to
    reconnect, or disconnected, whatever packets, errors and reconnections the yield
    went through. *)
Theorem yield_comes_to_rest {W} `{!Platform W} `{!Application W} `{!ReadCodes W} fuel n (s s' : sys W) rc :
  handlers_keep_state W -> aws_iot_mqtt_yield fuel TheClient n s = Ret (rc, s') ->
  state_of s' = state_of s \/ after_yield (state_of s').
Proof. intros Hh Hrun. by_wp Hrun. by apply yield_state. Qed.

(** The connection is lost while the application yields for 100 ms. *)
Definition yield_demo (st : ClientState) (input : list Z) : sys sim :=
  Sys (sim_client st []) (Sim 5000000 100000 sim_memory input [] []).

Lemma yield_comes_to_rest_witness :
  exists rc s', aws_iot_mqtt_yield 10 TheClient 100 (yield_demo CLIENT_STATE_CONNECTED_IDLE [208]) = Ret (rc, s') /\
    (state_of s' = CLIENT_STATE_CONNECTED_IDLE \/ after_yield (state_of s')).
Proof.
  assert (Hrun : exists rc s', aws_iot_mqtt_yield 10 TheClient 100 (yield_demo CLIENT_STATE_CONNECTED_IDLE [208]) = Ret (rc, s'))
    by (do 2 eexists; vm_compute; reflexivity).
  destruct Hrun as (rc & s' & Hrun). exists rc, s'. split; [exact Hrun|].
  exact (yield_comes_to_rest 10 100 _ _ _ sim_handlers_keep_state Hrun).
Defined.

(** While the physical layer is down, every attempt to reconnect doubles the
    waiting interval, from 1 s on, and restarts the delay timer with it; the attempt
    that would wait longer than 128 s gives up instead. *)
Theorem reconnect_backs_off {W} `{!Platform W} `{!Application W} fuel k rc now now' (s : sys W) w1 w2 w3 :
  let c := client s in
  0 <= k <= 7 -> currentReconnectWaitInterval (clientData c) = AWS_IOT_MQTT_MIN_RECONNECT_WAIT_INTERVAL * 2 ^ k ->
  gettimeofday (world s) = Ret (now, w1) -> has_timer_expired now (reconnectDelayTimer c) = true ->
  net_isConnected w1 = Ret (rc, w2) -> rc <> NETWORK_PHYSICAL_LAYER_CONNECTED ->
  gettimeofday w2 = Ret (now', w3) ->
  let wait := AWS_IOT_MQTT_MIN_RECONNECT_WAIT_INTERVAL * 2 ^ (k + 1) in
  let c' := set_currentReconnectWaitInterval wait c in
  _aws_iot_mqtt_handle_reconnect fuel s =
  if decide (k < 7) then Ret (rc, Sys (set_reconnectDelayTimer (countdown_ms now' wait) c') w3)
  else Ret (NETWORK_RECONNECT_TIMED_OUT_ERROR, Sys c' w2).
Proof.
  intros c Hk Hint Hnow Hexp Hphys Hrc Hnow' wait c'. rw /_aws_iot_mqtt_handle_reconnect.
  erewrite bind_run; [|done]. rw /expired. erewrite bind_run.
  2:{ erewrite bind_run; [|by apply on_world_run]. done. }
  rw Hexp. cbn [negb]. erewrite bind_run; [|by apply on_world_run].
  case_decide as Hd; [by destruct Hrc|]. clear Hd.
  rw /back_off. erewrite bind_run; [|done]. erewrite bind_run; [|done]. cbn [client world].
  assert (Hw : u32 (currentReconnectWaitInterval (clientData (client s)) * 2) = wait).
  { rw Hint /wait Z.pow_add_r; [|lia..]. change (2 ^ 1) with 2. rw Z.mul_assoc. apply u32_small.
    assert (2 ^ k <= 2 ^ 7) by (apply Z.pow_le_mono_r; lia).
    assert (0 < 2 ^ k) by (apply Z.pow_pos_nonneg; lia). rw /AWS_IOT_MQTT_MIN_RECONNECT_WAIT_INTERVAL. width. }
  rw Hw. cbn [currentReconnectWaitInterval clientData set_currentReconnectWaitInterval upd_data].
  assert (Hmax : AWS_IOT_MQTT_MAX_RECONNECT_WAIT_INTERVAL < wait <-> ~ k < 7).
  { subst wait. assert (k = 0 \/ k = 1 \/ k = 2 \/ k = 3 \/ k = 4 \/ k = 5 \/ k = 6 \/ k = 7) as Hcases by lia.
    rw /AWS_IOT_MQTT_MAX_RECONNECT_WAIT_INTERVAL /AWS_IOT_MQTT_MIN_RECONNECT_WAIT_INTERVAL.
    destruct Hcases as [-> |[-> |[-> |[-> |[-> |[-> |[-> | ->]]]]]]]; simpl; lia. }
  destruct (decide (k < 7)) as [Hlt|Hge].
  - rw decide_False; [|tauto]. rw /start_ms. erewrite bind_run.
    2:{ erewrite bind_run; [|by apply on_world_run]. done. }
    by erewrite bind_run.
  - rw decide_True; [|tauto]. done.
Qed.

(** The simulated platform with its cable unplugged. *)
Definition sim_unplugged : Platform sim := {|
  gettimeofday := sim_gettimeofday;
  app_memory := sim_mem;
  iot_tls_init := fun _ => mret SUCCESS;
  net_connect := mret NETWORK_ERR_NET_CONNECT_FAILED;
  net_read := sim_read;
  net_write := sim_write;
  net_disconnect := mret SUCCESS;
  net_isConnected := mret NETWORK_PHYSICAL_LAYER_DISCONNECTED;
  net_destroy := mret SUCCESS |}.

Lemma reconnect_backs_off_witness :
  _aws_iot_mqtt_handle_reconnect (Platform0 := sim_unplugged) 4 (yield_demo CLIENT_STATE_PENDING_RECONNECT []) =
  Ret (NETWORK_PHYSICAL_LAYER_DISCONNECTED,
       Sys (set_reconnectDelayTimer (MkTimer (Timeval 7 100000))
              (set_currentReconnectWaitInterval 2000 (sim_client CLIENT_STATE_PENDING_RECONNECT [])))
           (Sim 5200000 100000 sim_memory [] [] [])).
Proof.
  refine (reconnect_backs_off (Platform0 := sim_unplugged) 4 0 NETWORK_PHYSICAL_LAYER_DISCONNECTED
    (Timeval 5 0) (Timeval 5 100000) (yield_demo CLIENT_STATE_PENDING_RECONNECT [])
    (Sim 5100000 100000 sim_memory [] [] []) (Sim 5100000 100000 sim_memory [] [] [])
    (Sim 5200000 100000 sim_memory [] [] []) _ _ _ _ _ _ _); [lia|reflexivity..|discriminate|reflexivity].
Defined.

(** The connection is ended from a client and a world: the disconnect handler of the
    yield runs there, and what it leaves is the result. *)
Definition connection_ended {W} `{!Platform W} `{!Application W} fuel (c : AWS_IoT_Client) (w : W)
    (rc : IoT_Error_t) (s' : sys W) : Prop :=
  rc = NETWORK_DISCONNECTED_ERROR /\ state_of s' = CLIENT_STATE_DISCONNECTED_ERROR /\
  _aws_iot_mqtt_handle_disconnect fuel (Sys c w) = Ret (rc, s').

Lemma connection_ended_intro {W} `{!Platform W} `{!Application W} fuel (s s' : sys W) c w rc :
  _aws_iot_mqtt_handle_disconnect fuel s = Ret (rc, s') -> client s = c -> world s = w ->
  connection_ended fuel c w rc s'.
Proof.
  intros Hrun <- <-. destruct (wp_run any_exn _ _ _ _ _ Hrun (handle_disconnect_state fuel s)).
  split; [done|]. split; [done|]. by destruct s.
Qed.

(** C10: keeping the connection alive, on a client within its invariant and a network
    whose successful writes send all their bytes. With a keep-alive interval of 0
    nothing happens; before the ping timer expires only the clock is read. When it has
    expired there are two cases. A ping that is still unanswered ends the connection.
    Otherwise a command timer is started and the clock read again: if that timer has
    expired already, the connection ends; if not, a PINGREQ packet is written. When
    the write succeeds the call succeeds, the ping is outstanding, and the ping timer
    restarts from a clock reading after the write with the keep-alive interval; when
    the write fails the connection ends. The connection ends in no other case. *)
Theorem keep_alive_outcome {W} `{!Platform W} `{!Application W} `{!WritesAll W} fuel (s s' : sys W) rc :
  client_ok (client s) -> _aws_iot_mqtt_keep_alive fuel TheClient s = Ret (rc, s') ->
  let c := client s in
  let c' := with_packet (zero_packet PINGREQ) c in
  if decide (keepAliveInterval (clientData c) = 0) then rc = SUCCESS /\ s' = s
  else exists now w1, gettimeofday (world s) = Ret (now, w1) /\
    if negb (has_timer_expired now (pingTimer c)) then rc = SUCCESS /\ s' = Sys c w1
    else if isPingOutstanding (clientStatus c) then connection_ended fuel c w1 rc s'
    else exists now2 w2 now3 w3,
      let timer := countdown_ms now2 (commandTimeoutMs (clientData c)) in
      gettimeofday w1 = Ret (now2, w2) /\ gettimeofday w2 = Ret (now3, w3) /\
      if has_timer_expired now3 timer then connection_ended fuel c' w3 rc s'
      else exists rest rcw k w4,
        net_write (zero_packet PINGREQ ++ rest) 2 timer w3 = Ret ((rcw, k), w4) /\
        if decide (rcw = SUCCESS) then
          rc = SUCCESS /\ exists now4, gettimeofday w4 = Ret (now4, world s') /\
          client s' = set_pingTimer (countdown_sec now4 (keepAliveInterval (clientData c)))
            (set_isPingOutstanding true c')
        else connection_ended fuel c' w4 rc s'.
Proof.
  intros Hok Hrun c c'. rw /_aws_iot_mqtt_keep_alive in Hrun.
  apply bind_inv in Hrun as (c0 & s0 & Hc & Hrun). injection Hc as <- <-. fold c in Hrun.
  destruct (decide (keepAliveInterval (clientData c) = 0)) as [Hz|Hnz].
  { rw decide_True in Hrun; [|done]. by injection Hrun as <- <-. }
  rw decide_False in Hrun; [|done].
  apply bind_inv in Hrun as (e & s1 & He & Hrun). rw /expired in He.
  apply bind_inv in He as (now & s1' & Hnow & He). injection He as <- <-.
  apply on_world_inv in Hnow as [Hnow Hc1]. exists now, (world s1'). split; [done|].
  destruct (has_timer_expired now (pingTimer c)); cbn [negb] in *.
  2:{ injection Hrun as <- <-. split; [done|]. destruct s1'. cbn in *. by subst. }
  destruct (isPingOutstanding (clientStatus c)); [by apply (connection_ended_intro _ _ _ _ _ _ Hrun)|].
  apply bind_inv in Hrun as (t & s2 & Ht & Hrun). rw /start_ms in Ht.
  apply bind_inv in Ht as (n2 & s2' & Hn2 & Ht). injection Ht as <- <-. apply on_world_inv in Hn2 as [Hn2 Hc2].
  apply bind_inv in Hrun as ([rc1 len] & s3 & Hser & Hrun).
  pose proof Hok as [Hwb _ Hws _ _ _]. rw /AWS_IOT_MQTT_TX_BUF_LEN in Hwb, Hws.
  assert (Hs3 : rc1 = SUCCESS /\ len = 2 /\ s3 = Sys c' (world s2')).
  { move: Hser. rw /serialize. erewrite bind_run; [|done]. rw Hc2 Hc1 Hws -Hwb serialize_zero_spec //; [|lia].
    intros Hser. injection Hser as <- <- <-. by rw Hc2 Hc1. }
  destruct Hs3 as (-> & -> & ->). destruct (decide (SUCCESS <> SUCCESS)) as [Hd|_]; [by destruct Hd|].
  apply bind_inv in Hrun as (rc2 & s4 & Hsend & Hrun).
  assert (Hws' : writeBufSize (clientData c') = 512) by done.
  apply send_packet_is_once in Hsend; [|cbn [client]; lia..].
  apply send_once_cases in Hsend as (n3 & w3 & Hn3 & Hsend). exists n2, (world s2'), n3, w3.
  split; [done|]. split; [done|]. destruct (has_timer_expired n3 _).
  { destruct Hsend as [-> ->]. by apply (connection_ended_intro _ _ _ _ _ _ Hrun). }
  destruct Hsend as (rcw & k & w4 & Hw & -> & ->). eexists _, rcw, k, w4. split; [exact Hw|].
  destruct (decide (rcw = SUCCESS)) as [->|Hrcw]; [|by apply (connection_ended_intro _ _ _ _ _ _ Hrun)].
  destruct (decide (SUCCESS <> SUCCESS)) as [Hd|_]; [by destruct Hd|].
  apply bind_inv in Hrun as (u & s5 & Hmod & Hrun). injection Hmod as _ <-.
  apply bind_inv in Hrun as (t' & s6 & Ht' & Hrun). rw /start_sec in Ht'.
  apply bind_inv in Ht' as (n6 & s6' & Hn6 & Ht'). injection Ht' as <- <-. apply on_world_inv in Hn6 as [Hn6 Hc6].
  apply bind_inv in Hrun as (u' & s7 & Hmod & Hrun). injection Hmod as _ <-. injection Hrun as <- <-.
  split; [done|]. exists n6. split; [done|]. cbn [client]. by rw Hc6.
Qed.

(** The ping timer of a connected client has expired: a PINGREQ packet is sent and the
    timer restarted. *)
Lemma keep_alive_outcome_witness :
  exists s', _aws_iot_mqtt_keep_alive 4 TheClient (yield_demo CLIENT_STATE_CONNECTED_IDLE []) = Ret (SUCCESS, s') /\
    isPingOutstanding (clientStatus (client s')) = true /\ sim_out (world s') = [zero_packet PINGREQ].
Proof.
  assert (Hrun : exists s', _aws_iot_mqtt_keep_alive 4 TheClient (yield_demo CLIENT_STATE_CONNECTED_IDLE []) = Ret (SUCCESS, s'))
    by (eexists; vm_compute; reflexivity).
  destruct Hrun as [s' Hrun]. exists s'. split; [exact Hrun|].
  destruct (keep_alive_outcome 4 (yield_demo CLIENT_STATE_CONNECTED_IDLE []) _ _ (sim_client_ok _ _) Hrun) as (now & w1 & Hnow & Hcase).
  injection Hnow as <- <-. destruct Hcase as (now2 & w2 & now3 & w3 & Hn2 & Hn3 & Hcase).
  injection Hn2 as <- <-. injection Hn3 as <- <-.
  destruct Hcase as (rest & rcw & k & w4 & Hw & Hcase). injection Hw as <- <- <-.
  destruct Hcase as (_ & now4 & Hn4 & Hc). split; [by rw Hc|]. by injection Hn4 as _ <-.
Defined.
