(* ===== verification/WorldFrame.v ===== *)
(** * What the client does to the world

    The operations of the client work on the world only through the functions of
    [Platform] and the handlers of [Application]: a property of the world that those
    keep is kept by every operation. *)
From S2P Require Import Prelude Buffer Types Wire Packets Timer Topic Client Sim Transport.
From S2P Require Import Publish Subscribe Unsubscribe Connect Yield.

(** The functions of the platform keep [P]. *)
Class PlatformKeeps {W : Type} `{!Platform W} (P : W -> Prop) : Prop := {
  pk_time : keeps P gettimeofday;
  pk_init p : keeps P (iot_tls_init p);
  pk_connect : keeps P net_connect;
  pk_read n t : keeps P (net_read n t);
  pk_write bs n t : keeps P (net_write bs n t);
  pk_disconnect : keeps P net_disconnect;
  pk_isConnected : keeps P net_isConnected;
  pk_destroy : keeps P net_destroy }.

(** So do the handlers of the application. *)
Class HandlersKeep {W : Type} `{!Application W} (P : W -> Prop) : Prop := {
  hk_handler f p n msg d : keeps (fun s : sys W => P (world s)) (app_handler f p n msg d);
  hk_disconnect f d : keeps (fun s : sys W => P (world s)) (app_disconnect_handler f d) }.

Section world.
Context {W : Type} `{!Platform W} (P : W -> Prop) `{!PlatformKeeps P} (fuel : nat).
#[local] Abbreviation I := (fun s : sys W => P (world s)) (only parsing).
Hint Resolve pk_time pk_init pk_connect pk_read pk_write pk_disconnect pk_isConnected pk_destroy : iot.

Lemma wkeeps_on_world {A} (m : M W A) : keeps P m -> keeps I (on_world m).
Proof.
  intros Hm s Hs. specialize (Hm (world s) Hs). rw /wp /on_world. rw /wp in Hm. by destruct (m (world s)) as [[a w]|].
Qed.
Lemma wkeeps_mod f : keeps I (mod_client f).
Proof. by apply keeps_modify. Qed.
Lemma wkeeps_gets {A} (f : sys W -> A) : keeps I (gets f).
Proof. by intros s Hs. Qed.
Hint Resolve wkeeps_on_world wkeeps_mod wkeeps_gets : iot.
Hint Extern 1 (keeps _ get_client) => apply wkeeps_gets : iot.
Hint Extern 1 (keeps _ get_source) => apply wkeeps_gets : iot.

Lemma wkeeps_expired t : keeps I (expired t).
Proof. rw /expired. keeps_auto. Qed.
Lemma wkeeps_start_ms t : keeps I (start_ms t).
Proof. rw /start_ms. keeps_auto. Qed.
Lemma wkeeps_start_sec t : keeps I (start_sec t).
Proof. rw /start_sec. keeps_auto. Qed.
Lemma wkeeps_get_state p : keeps I (aws_iot_mqtt_get_client_state p).
Proof. rw /aws_iot_mqtt_get_client_state. keeps_auto. Qed.
Lemma wkeeps_is_connected p : keeps I (aws_iot_mqtt_is_client_connected p).
Proof. rw /aws_iot_mqtt_is_client_connected. keeps_auto. Qed.
Hint Resolve wkeeps_expired wkeeps_start_ms wkeeps_start_sec wkeeps_get_state wkeeps_is_connected : iot.
Lemma wkeeps_set_state p st st' : keeps I (aws_iot_mqtt_set_client_state p st st').
Proof. rw /aws_iot_mqtt_set_client_state. keeps_auto. Qed.
Lemma wkeeps_set_params p x : keeps I (aws_iot_mqtt_set_connect_params p x).
Proof. rw /aws_iot_mqtt_set_connect_params. keeps_auto. Qed.
Lemma wkeeps_packet_id : keeps I aws_iot_mqtt_get_next_packet_id.
Proof. rw /aws_iot_mqtt_get_next_packet_id. keeps_auto. Qed.
Hint Resolve wkeeps_set_state wkeeps_set_params wkeeps_packet_id : iot.
Lemma wkeeps_serialize f len : keeps I (serialize f len).
Proof. rw /serialize /put_writeBuf. keeps_auto. Qed.
Lemma wkeeps_send p n t : keeps I (aws_iot_mqtt_internal_send_packet fuel p n t).
Proof.
  assert (Hloop : forall f l t sent k, keeps I (send_loop f l t sent k)).
  { induction f as [|f IH]; intros; cbn [send_loop]; keeps_auto. }
  rw /aws_iot_mqtt_internal_send_packet. keeps_auto.
Qed.
Lemma wkeeps_read_into off n t l : keeps I (read_into_readBuf off n t l).
Proof. rw /read_into_readBuf /store_readBuf. keeps_auto. Qed.
Hint Resolve wkeeps_serialize wkeeps_send wkeeps_read_into : iot.
Lemma wkeeps_read_packet t pt : keeps I (_aws_iot_mqtt_internal_read_packet fuel t pt).
Proof.
  assert (Hdec : forall f m l r e t, keeps I (decode_packet_len_loop f m l r e t)).
  { induction f as [|f IH]; intros; cbn [decode_packet_len_loop]; keeps_auto. }
  assert (Hdrop : forall f a b c d t, keeps I (drop_packet_loop f a b c d t)).
  { induction f as [|f IH]; intros; cbn [drop_packet_loop]; keeps_auto. }
  rw /_aws_iot_mqtt_internal_read_packet /_aws_iot_mqtt_internal_decode_packet_remaining_len /read_packet_body. keeps_auto.
Qed.
Hint Resolve wkeeps_read_packet : iot.
Lemma wkeeps_init p x : keeps I (aws_iot_mqtt_init p x).
Proof. rw /aws_iot_mqtt_init. keeps_auto. Qed.

Lemma wkeeps_disconnect p : keeps I (aws_iot_mqtt_disconnect fuel p).
Proof. rw /aws_iot_mqtt_disconnect /_aws_iot_mqtt_internal_disconnect. keeps_auto. Qed.
Hint Resolve wkeeps_disconnect : iot.

Context `{!Application W} `{!HandlersKeep P}.
Hint Resolve hk_handler hk_disconnect : iot.

Lemma wkeeps_deliver p n msg : keeps I (_aws_iot_mqtt_internal_deliver_message p n msg).
Proof.
  assert (Hloop : forall itrs p n msg, keeps I (deliver_loop itrs p n msg)).
  { induction itrs as [|i itrs IH]; intros; cbn [deliver_loop]; keeps_auto. rw /deliver_to. keeps_auto. }
  rw /_aws_iot_mqtt_internal_deliver_message. keeps_auto.
Qed.
Hint Resolve wkeeps_deliver : iot.
Lemma wkeeps_handle_publish t : keeps I (_aws_iot_mqtt_internal_handle_publish fuel t).
Proof. rw /_aws_iot_mqtt_internal_handle_publish. keeps_auto. Qed.
Hint Resolve wkeeps_handle_publish : iot.
Lemma wkeeps_cycle_read p t pt : keeps I (aws_iot_mqtt_internal_cycle_read fuel p t pt).
Proof. rw /aws_iot_mqtt_internal_cycle_read /dispatch_packet. keeps_auto. Qed.
Hint Resolve wkeeps_cycle_read : iot.
Lemma wkeeps_wait p ty t : keeps I (aws_iot_mqtt_internal_wait_for_read fuel p ty t).
Proof.
  assert (Hloop : forall f ty t pt, keeps I (wait_loop fuel f ty t pt)).
  { induction f as [|f IH]; intros; cbn [wait_loop]; keeps_auto. }
  rw /aws_iot_mqtt_internal_wait_for_read. keeps_auto.
Qed.
Hint Resolve wkeeps_wait : iot.

Lemma wkeeps_publish p t n m : keeps I (aws_iot_mqtt_publish fuel p t n m).
Proof. rw /aws_iot_mqtt_publish /_aws_iot_mqtt_internal_publish. keeps_auto. Qed.
Lemma wkeeps_send_subscribe n t : keeps I (send_subscribe fuel n t).
Proof. rw /send_subscribe. keeps_auto. Qed.
Hint Resolve wkeeps_send_subscribe : iot.
Lemma wkeeps_subscribe p t n q h d : keeps I (aws_iot_mqtt_subscribe fuel p t n q h d).
Proof.
  rw /aws_iot_mqtt_subscribe /_aws_iot_mqtt_internal_subscribe /_aws_iot_mqtt_get_free_message_handler_index. keeps_auto.
Qed.
Lemma wkeeps_resubscribe p : keeps I (aws_iot_mqtt_resubscribe fuel p).
Proof.
  assert (Hloop : forall itrs len, keeps I (resubscribe_loop fuel itrs len)).
  { induction itrs as [|i itrs IH]; intros; cbn [resubscribe_loop]; keeps_auto. }
  rw /aws_iot_mqtt_resubscribe /_aws_iot_mqtt_internal_resubscribe /_aws_iot_mqtt_get_free_message_handler_index. keeps_auto.
Qed.
Lemma wkeeps_unsubscribe p t n : keeps I (aws_iot_mqtt_unsubscribe fuel p t n).
Proof. rw /aws_iot_mqtt_unsubscribe /_aws_iot_mqtt_internal_unsubscribe /unsubscribe_finish. keeps_auto. Qed.
Lemma wkeeps_connect p x : keeps I (aws_iot_mqtt_connect fuel p x).
Proof. rw /aws_iot_mqtt_connect /_aws_iot_mqtt_internal_connect /connect_exchange. keeps_auto. Qed.
Hint Resolve wkeeps_resubscribe wkeeps_connect : iot.
Lemma wkeeps_attempt_reconnect p : keeps I (aws_iot_mqtt_attempt_reconnect fuel p).
Proof. rw /aws_iot_mqtt_attempt_reconnect. keeps_auto. Qed.
Hint Resolve wkeeps_attempt_reconnect : iot.

Lemma wkeeps_handle_disconnect : keeps I (_aws_iot_mqtt_handle_disconnect fuel).
Proof. rw /_aws_iot_mqtt_handle_disconnect /_aws_iot_mqtt_force_client_disconnect. keeps_auto. Qed.
Lemma wkeeps_handle_reconnect : keeps I (_aws_iot_mqtt_handle_reconnect fuel).
Proof. rw /_aws_iot_mqtt_handle_reconnect /back_off. keeps_auto. Qed.
Hint Resolve wkeeps_handle_disconnect wkeeps_handle_reconnect : iot.
Lemma wkeeps_keep_alive p : keeps I (_aws_iot_mqtt_keep_alive fuel p).
Proof. rw /_aws_iot_mqtt_keep_alive. keeps_auto. Qed.
Hint Resolve wkeeps_keep_alive : iot.
Lemma wkeeps_yield p n : keeps I (aws_iot_mqtt_yield fuel p n).
Proof.
  assert (Hit : forall t pt, keeps I (yield_iteration fuel t pt)).
  { intros. rw /yield_iteration /yield_cycle /after_cycle. keeps_auto. }
  assert (Hloop : forall f t pt, keeps I (yield_loop fuel f t pt)).
  { induction f as [|f IH]; intros; cbn [yield_loop]; keeps_auto. }
  rw /aws_iot_mqtt_yield /_aws_iot_mqtt_internal_yield. keeps_auto.
Qed.
End world.
#[export] Hint Resolve wkeeps_on_world wkeeps_mod wkeeps_is_connected wkeeps_init wkeeps_disconnect wkeeps_publish
  wkeeps_subscribe wkeeps_unsubscribe wkeeps_connect wkeeps_yield : iot.

(** ** Properties of the client

    A relation that says that [Q] is preserved, as an invariant. *)
Lemma pres_keeps {V} (Q : AWS_IoT_Client -> Prop) {A} (m : M (sys V) A) :
  pres (fun c c' => Q c -> Q c') m -> keeps (fun s => Q (client s)) m.
Proof. intros Hm s Hs. eapply wp_mono; [apply Hm|]. intros a s' H. by apply H. Qed.
Lemma keeps_pres {V} (Q : AWS_IoT_Client -> Prop) {A} (m : M (sys V) A) :
  keeps (fun s => Q (client s)) m -> pres (fun c c' => Q c -> Q c') m.
Proof.
  intros Hm s. specialize (Hm s). rw /wp in Hm. rw /wp. by destruct (m s) as [[a s']|].
Qed.
Lemma client_on_world {V} (Q : AWS_IoT_Client -> Prop) {A} (m : M V A) : keeps (fun s : sys V => Q (client s)) (on_world m).
Proof. intros s Hs. rw /wp /on_world. by destruct (m (world s)) as [[a w]|]. Qed.
Definition in_state (st : ClientState) (c : AWS_IoT_Client) : Prop := clientState (clientStatus c) = st.
Lemma same_state_keeps {V A} (m : M (sys V) A) : pres same_state m <-> forall st, keeps (fun s => in_state st (client s)) m.
Proof.
  split.
  - intros Hm st s Hs. eapply wp_mono; [apply Hm|]. rw /same_state /in_state in Hs |- *. by intros a s' ->.
  - intros Hm s. exact (Hm _ s eq_refl).
Qed.
