(* ===== verification/Api.v ===== *)
(** * The client as a whole

    The calls an application makes, in any order and with any changes of the world
    between them, as a transition system; the invariants of its reachable states. *)
From S2P Require Import Prelude Buffer Types Wire Packets Timer Topic Client Sim Transport.
From S2P Require Import Publish Subscribe Unsubscribe Connect Yield WorldFrame.

(** ** Calls *)

(** The functions of [include/aws_iot_mqtt_client_interface.h] and
    [include/aws_iot_mqtt_client.h] that change the client. *)
Inductive call :=
  | CallInit (p : option IoT_Client_Init_Params)
  | CallConnect (p : option IoT_Client_Connect_Params)
  | CallSetConnectParams (p : option IoT_Client_Connect_Params)
  | CallDisconnect
  | CallPublish (pTopicName : ptr) (topicNameLen : Z) (pParams : option IoT_Publish_Message_Params)
  | CallSubscribe (pTopicName : ptr) (topicNameLen : Z) (qos : QoS) (h : handler) (d : ptr)
  | CallResubscribe
  | CallUnsubscribe (pTopicFilter : ptr) (topicFilterLen : Z)
  | CallYield (timeout_ms : Z)
  | CallAttemptReconnect
  | CallAutoreconnectSetStatus (b : bool)
  | CallSetDisconnectHandler (h : handler) (d : ptr)
  | CallResetNetworkDisconnectedCount.

Section Api.
Context {W : Type} `{!Platform W} `{!Application W} (fuel : nat).

Definition exec (k : call) : M (sys W) IoT_Error_t :=
  match k with
  | CallInit p => aws_iot_mqtt_init TheClient p
  | CallConnect p => aws_iot_mqtt_connect fuel TheClient p
  | CallSetConnectParams p => aws_iot_mqtt_set_connect_params TheClient p
  | CallDisconnect => aws_iot_mqtt_disconnect fuel TheClient
  | CallPublish p n m => r ← aws_iot_mqtt_publish fuel TheClient p n m; mret r.1
  | CallSubscribe p n q h d => aws_iot_mqtt_subscribe fuel TheClient p n q h d
  | CallResubscribe => aws_iot_mqtt_resubscribe fuel TheClient
  | CallUnsubscribe p n => aws_iot_mqtt_unsubscribe fuel TheClient p n
  | CallYield n => aws_iot_mqtt_yield fuel TheClient n
  | CallAttemptReconnect => aws_iot_mqtt_attempt_reconnect fuel TheClient
  | CallAutoreconnectSetStatus b => aws_iot_mqtt_autoreconnect_set_status TheClient b
  | CallSetDisconnectHandler h d => aws_iot_mqtt_set_disconnect_handler TheClient h d
  | CallResetNetworkDisconnectedCount => _ ← aws_iot_mqtt_reset_network_disconnected_count; mret SUCCESS
  end.

(** One step of the system: a call that returns, or a change of the world outside of
    the calls. *)
Inductive step : sys W -> sys W -> Prop :=
  | step_call k s rc s' : exec k s = Ret (rc, s') -> step s s'
  | step_world c w w' : step (Sys c w) (Sys c w').

(** The states after a successful initialization of allocated memory. *)
Record allocated (c : AWS_IoT_Client) : Prop := {
  al_writeBuf : Z.of_nat (length (writeBuf (clientData c))) = AWS_IOT_MQTT_TX_BUF_LEN;
  al_readBuf : Z.of_nat (length (readBuf (clientData c))) = AWS_IOT_MQTT_RX_BUF_LEN;
  al_handlers : length (messageHandlers (clientData c)) = AWS_IOT_MQTT_NUM_SUBSCRIBE_HANDLERS }.

Definition initial (s : sys W) : Prop :=
  exists p s0, allocated (client s0) /\ exec (CallInit p) s0 = Ret (SUCCESS, s).

Definition reachable (s : sys W) : Prop := exists s0, initial s0 /\ rtc step s0 s.

(** ** The type invariant *)

Lemma init_data_ok p c : allocated c -> client_ok (upd_data (init_data p) c).
Proof.
  intros [Hw Hr Hh]. constructor; cbn; try done. by rw length_fmap.
Qed.

Lemma client_ok_allocated c : client_ok c -> allocated c.
Proof. by intros []. Qed.

Lemma init_spec p (s : sys W) :
  wp any_exn (aws_iot_mqtt_init TheClient p) (fun rc s' =>
    (s' = s /\ rc = NULL_VALUE_ERROR) \/
    ((allocated (client s) -> client_ok (client s')) /\
     clientState (clientStatus (client s')) =
       if decide (rc = SUCCESS) then CLIENT_STATE_INITIALIZED else CLIENT_STATE_INVALID)) s.
Proof.
  destruct p as [p|]; [|apply wp_ret; by left]. rw /aws_iot_mqtt_init. case_decide; [apply wp_ret; by left|].
  apply wp_bind, wp_modify, wp_bind. rw /aws_iot_mqtt_set_connect_params. apply wp_bind, wp_modify, wp_ret. rc_simpl.
  do 2 apply wp_bind, wp_modify. apply wp_bind.
  match goal with |- wp _ (on_world ?m) _ ?s1 => set (s2 := s1) end.
  eapply wp_mono; [apply (pres_on_world eq)|]. intros rc s3 H3.
  assert (Hok : allocated (client s) -> client_ok (client s3)).
  { intros Ha. rw -H3. destruct (init_data_ok p _ Ha). by constructor. }
  case_decide; repeat (apply wp_bind, wp_modify); apply wp_ret; right.
  - split; [intros Ha; by apply (ok_rel_upd (client s3)), Hok|]. by rw decide_False.
  - split; [intros Ha; by apply (ok_rel_upd (client s3)), Hok|]. done.
Qed.

(** The updates of the operations keep the type invariant. *)
Lemma ok_rel_data c c' :
  length (writeBuf (clientData c')) = length (writeBuf (clientData c)) ->
  length (readBuf (clientData c')) = length (readBuf (clientData c)) ->
  writeBufSize (clientData c') = writeBufSize (clientData c) ->
  readBufSize (clientData c') = readBufSize (clientData c) ->
  length (messageHandlers (clientData c')) = length (messageHandlers (clientData c)) ->
  (1 <= nextPacketId (clientData c) <= MAX_PACKET_ID -> 1 <= nextPacketId (clientData c') <= MAX_PACKET_ID) ->
  ok_rel c c'.
Proof. intros H1 H2 H3 H4 H5 H6 [? ? ? ? ? ?]. constructor; rw ?H1 ?H2 ?H3 ?H4 ?H5; auto. Qed.

Lemma ok_rel_packetId c : ok_rel c (set_nextPacketId (next_packet_id (nextPacketId (clientData c))) c).
Proof. apply ok_rel_data; try done. intros ?. apply next_packet_id_range. lia. Qed.

Lemma ok_rel_insert c i h : ok_rel c (set_messageHandlers (<[i := h]> (messageHandlers (clientData c))) c).
Proof. apply ok_rel_data; try done. by rw /= length_insert. Qed.

Lemma remove_handlers_length src p hs hs' : remove_handlers src p hs = Ret hs' -> length hs' = length hs.
Proof.
  revert hs'. induction hs as [|h hs IH]; intros hs'; cbn [remove_handlers]; [by intros [= <-]|].
  destruct (same_topic src p h) as [b|]; [|done]. cbn. destruct (remove_handlers src p hs) as [hs1|]; [|done].
  intros [= <-]. cbn. by rw (IH hs1).
Qed.

Lemma ok_rel_remove p c src hs : remove_handlers src p (messageHandlers (clientData c)) = Ret hs ->
  ok_rel c (set_messageHandlers hs c).
Proof. intros Hhs. apply ok_rel_data; try done. by apply remove_handlers_length in Hhs. Qed.

Section Invariant.
Context (Hh : handlers_ok W).
#[local] Instance api_frame : TransportFrame (W := W) ok_rel.
Proof. by apply ok_rel_frame. Qed.

Lemma ok_yield_closed : yield_closed (W := W) ok_rel.
Proof.
  destruct Hh as [_ Hd]. split; try done; intros; try (by apply ok_rel_upd); try (by apply ok_rel_data).
  apply ok_rel_packetId.
Qed.

Lemma exec_ok k : pres (W := W) ok_rel (exec k).
Proof.
  pose proof ok_yield_closed as [Hid Hka Hopt Hst _ _ Hcnt _]. destruct k; cbn [exec].
  - intros s. eapply wp_mono; [apply init_spec|]. intros rc s' [[-> _]|[Hok _]]; [done|].
    intros H. by apply Hok, client_ok_allocated.
  - by apply (pres_connect fuel ok_rel).
  - rw /aws_iot_mqtt_set_connect_params. pres_auto. by apply pres_mod.
  - by apply (pres_disconnect fuel ok_rel).
  - pose proof (pres_publish fuel ok_rel). pres_auto.
  - apply (pres_subscribe fuel ok_rel); auto using ok_rel_insert.
  - by apply (pres_resubscribe fuel ok_rel).
  - apply (pres_unsubscribe fuel ok_rel); auto. intros c src hs. apply ok_rel_remove.
  - apply (pres_yield fuel ok_rel). apply ok_yield_closed.
  - by apply (pres_attempt_reconnect fuel ok_rel).
  - rw /aws_iot_mqtt_autoreconnect_set_status. pres_auto. apply pres_mod. intros. by apply ok_rel_upd.
  - rw /aws_iot_mqtt_set_disconnect_handler. pres_auto. apply pres_mod. intros. by apply ok_rel_data.
  - rw /aws_iot_mqtt_reset_network_disconnected_count. pres_auto. by apply pres_mod.
Qed.
End Invariant.

(** ** The state between calls *)

(** The client states an application sees between its calls. *)
Definition resting (st : ClientState) : bool :=
  match st with
  | CLIENT_STATE_INVALID | CLIENT_STATE_INITIALIZED | CLIENT_STATE_CONNECTED_IDLE
  | CLIENT_STATE_DISCONNECTED_ERROR | CLIENT_STATE_DISCONNECTED_MANUALLY
  | CLIENT_STATE_PENDING_RECONNECT => true
  | _ => false
  end.

Definition rest_rel (c c' : AWS_IoT_Client) : Prop :=
  resting (clientState (clientStatus c)) = true -> resting (clientState (clientStatus c')) = true.
#[local] Instance rest_rel_preorder : PreOrder rest_rel.
Proof. split; rw /rest_rel; [by intros c|by eauto]. Qed.

Lemma same_state_rest A (m : M (sys W) A) : pres (W := W) same_state m -> pres (W := W) rest_rel m.
Proof. apply pres_mono. rw /same_state /rest_rel. by intros c c' ->. Qed.

Section Rest.
Context `{!ReadCodes W} (Hh : handlers_keep_state W).

Lemma connect_rest p : pres (W := W) rest_rel (aws_iot_mqtt_connect fuel TheClient p).
Proof.
  intros s. eapply wp_mono; [by apply connect_state|]. intros rc s'. rw /rest_rel.
  destruct (_aws_iot_mqtt_is_client_state_valid_for_connect _); [|by intros [_ ->]]. intros ->. by case_decide.
Qed.

Lemma exec_rest k : pres (W := W) rest_rel (exec k).
Proof.
  destruct k; cbn [exec].
  - intros s. eapply wp_mono; [apply init_spec|]. intros rc s' [[-> _]|[_ Hst]]; [done|].
    rw /rest_rel Hst. by case_decide.
  - apply connect_rest.
  - apply same_state_rest. rw /aws_iot_mqtt_set_connect_params. pres_auto. by apply pres_mod.
  - intros s. eapply wp_mono; [apply disconnect_spec|]. intros rc s'. rw /rest_rel.
    destruct (connected_state _); [|by intros [_ ->]]. intros [b ->]. by case_decide.
  - apply same_state_rest. pose proof (fun p n m => publish_keeps_state fuel TheClient p n m Hh). pres_auto.
  - by apply same_state_rest, subscribe_keeps_state.
  - by apply same_state_rest, resubscribe_keeps_state.
  - by apply same_state_rest, unsubscribe_keeps_state.
  - intros s. eapply wp_mono; [by apply yield_state|]. intros rc s'. rw /rest_rel.
    intros [-> |[-> |[-> | ->]]]; done.
  - rw /aws_iot_mqtt_attempt_reconnect /aws_iot_mqtt_is_client_connected /aws_iot_mqtt_get_client_state.
    pose proof (connect_rest None). pose proof (same_state_rest _ _ (resubscribe_keeps_state fuel TheClient Hh)).
    pose proof (fun st => pres_set_client_state (W := W) rest_rel TheClient st CLIENT_STATE_PENDING_RECONNECT
                  (fun c _ => eq_refl)).
    pres_auto.
  - apply same_state_rest. rw /aws_iot_mqtt_autoreconnect_set_status. pres_auto. by apply pres_mod.
  - apply same_state_rest. rw /aws_iot_mqtt_set_disconnect_handler. pres_auto. by apply pres_mod.
  - apply same_state_rest. rw /aws_iot_mqtt_reset_network_disconnected_count. pres_auto. by apply pres_mod.
Qed.
End Rest.

(** Invariants of the reachable states from relations the calls preserve. *)
Lemma reachable_ind_rel (P : AWS_IoT_Client -> Prop) :
  (forall s, initial s -> P (client s)) ->
  (forall k, pres (W := W) (fun c c' => P c -> P c') (exec k)) ->
  forall s, reachable s -> P (client s).
Proof.
  intros Hinit Hstep s (s0 & H0 & Hrtc). apply Hinit in H0. clear Hinit.
  induction Hrtc as [s|s1 s2 s3 Hs _ IH]; [done|]. apply IH. destruct Hs as [k s rc s' Hrun|c w w']; [|done].
  exact (wp_run any_exn _ _ _ _ _ Hrun (Hstep k s) H0).
Qed.
End Api.

(** ** Refused calls *)

(** The operations that need an idle connection: the code they refuse with in a
    state. *)
Definition needs_idle (during_callback : bool) (st : ClientState) : option IoT_Error_t :=
  if negb (connected_state st) then Some NETWORK_DISCONNECTED_ERROR
  else match st with
       | CLIENT_STATE_CONNECTED_IDLE => None
       | CLIENT_STATE_CONNECTED_WAIT_FOR_CB_RETURN =>
           if during_callback then None else Some MQTT_CLIENT_NOT_IDLE_ERROR
       | _ => Some MQTT_CLIENT_NOT_IDLE_ERROR
       end.

Definition refused (k : call) (st : ClientState) : option IoT_Error_t :=
  match k with
  | CallConnect _ =>
      if _aws_iot_mqtt_is_client_state_valid_for_connect st then None else Some NETWORK_ALREADY_CONNECTED_ERROR
  | CallDisconnect => if connected_state st then None else Some NETWORK_DISCONNECTED_ERROR
  | CallPublish p n m =>
      if bool_decide (p = NULL \/ n = 0 \/ m = None) then Some NULL_VALUE_ERROR else needs_idle true st
  | CallSubscribe p _ _ h _ =>
      if bool_decide (p = NULL \/ h = None) then Some NULL_VALUE_ERROR else needs_idle true st
  | CallUnsubscribe p _ => if bool_decide (p = NULL) then Some NULL_VALUE_ERROR else needs_idle true st
  | CallResubscribe => needs_idle false st
  | CallYield n =>
      if n =? 0 then Some NULL_VALUE_ERROR
      else match st with
           | CLIENT_STATE_DISCONNECTED_MANUALLY => Some NETWORK_MANUALLY_DISCONNECTED
           | CLIENT_STATE_PENDING_RECONNECT => None
           | _ => needs_idle false st
           end
  | CallAttemptReconnect => if connected_state st then Some NETWORK_ALREADY_CONNECTED_ERROR else None
  | _ => None
  end.

Section Refused.
Context {W : Type} `{!Platform W} `{!Application W} (fuel : nat).

Lemma needs_idle_cases b st rc : needs_idle b st = Some rc ->
  (connected_state st = false /\ rc = NETWORK_DISCONNECTED_ERROR) \/
  (connected_state st = true /\ rc = MQTT_CLIENT_NOT_IDLE_ERROR /\ CLIENT_STATE_CONNECTED_IDLE <> st /\
   (b = true -> CLIENT_STATE_CONNECTED_WAIT_FOR_CB_RETURN <> st)).
Proof. rw /needs_idle. destruct st, b; cbn; intros [= <-]; auto; right; done. Qed.

(** The guards that publish, subscribe and unsubscribe share. *)
Lemma callback_guard {A} (f : IoT_Error_t -> A) (K : ClientState -> M (sys W) A) (s : sys W) rc :
  needs_idle true (state_of s) = Some rc ->
  (connected ← aws_iot_mqtt_is_client_connected TheClient;
   if negb connected then mret (f NETWORK_DISCONNECTED_ERROR)
   else
     st ← aws_iot_mqtt_get_client_state TheClient;
     if decide (CLIENT_STATE_CONNECTED_IDLE <> st /\ CLIENT_STATE_CONNECTED_WAIT_FOR_CB_RETURN <> st)
     then mret (f MQTT_CLIENT_NOT_IDLE_ERROR) else K st) s = Ret (f rc, s).
Proof.
  intros Hn. erewrite bind_run; [|done].
  destruct (needs_idle_cases _ _ _ Hn) as [[-> ->]|(-> & -> & Hi & Hcb)]; [done|]. cbn [negb].
  erewrite bind_run; [|done]. rw decide_True; [done|auto].
Qed.

(** The guards of resubscribe and, in a connected state, of yield. *)
Lemma idle_guard {A} (f : IoT_Error_t -> A) (K : ClientState -> M (sys W) A) (s : sys W) rc :
  needs_idle false (state_of s) = Some rc ->
  (connected ← aws_iot_mqtt_is_client_connected TheClient;
   if negb connected then mret (f NETWORK_DISCONNECTED_ERROR)
   else
     st ← aws_iot_mqtt_get_client_state TheClient;
     if decide (CLIENT_STATE_CONNECTED_IDLE <> st) then mret (f MQTT_CLIENT_NOT_IDLE_ERROR) else K st) s =
  Ret (f rc, s).
Proof.
  intros Hn. erewrite bind_run; [|done].
  destruct (needs_idle_cases _ _ _ Hn) as [[-> ->]|(-> & -> & Hi & Hcb)]; [done|]. cbn [negb].
  erewrite bind_run; [|done]. rw decide_True; [done|auto].
Qed.

Lemma publish_refused p n m (s : sys W) rc : refused (CallPublish p n m) (state_of s) = Some rc ->
  aws_iot_mqtt_publish fuel TheClient p n m s = Ret ((rc, m), s).
Proof.
  cbn [refused]. rw /aws_iot_mqtt_publish. case_bool_decide as Hnull.
  - intros [= <-]. destruct m; [|done]. rw decide_True; [done|]. intuition congruence.
  - destruct m as [m|]; [|tauto]. rw decide_False; [|intuition congruence].
    by apply (callback_guard (fun rc => (rc, Some m))).
Qed.

Lemma subscribe_refused p n q h d (s : sys W) rc : refused (CallSubscribe p n q h d) (state_of s) = Some rc ->
  aws_iot_mqtt_subscribe fuel TheClient p n q h d s = Ret (rc, s).
Proof.
  cbn [refused]. rw /aws_iot_mqtt_subscribe. case_bool_decide as Hnull.
  - intros [= <-]. by rw decide_True.
  - rw decide_False; [|done]. by apply (callback_guard (fun rc => rc)).
Qed.

Lemma unsubscribe_refused p n (s : sys W) rc : refused (CallUnsubscribe p n) (state_of s) = Some rc ->
  aws_iot_mqtt_unsubscribe fuel TheClient p n s = Ret (rc, s).
Proof.
  cbn [refused]. rw /aws_iot_mqtt_unsubscribe. case_bool_decide as Hnull.
  - intros [= <-]. by rw decide_True.
  - rw decide_False; [|done]. by apply (callback_guard (fun rc => rc)).
Qed.

Lemma yield_refused n (s : sys W) rc : refused (CallYield n) (state_of s) = Some rc ->
  aws_iot_mqtt_yield fuel TheClient n s = Ret (rc, s).
Proof.
  cbn [refused]. rw /aws_iot_mqtt_yield. destruct (Z.eqb_spec n 0) as [->|Hn].
  { intros [= <-]. by case_decide. }
  rw decide_False; [|done]. intros Href. erewrite bind_run; [|done]. case_decide as Hman.
  { rw -Hman in Href. by injection Href as <-. }
  assert (Hp : CLIENT_STATE_PENDING_RECONNECT <> state_of s) by (intros Hp; by rw -Hp in Href).
  rw decide_True; [|done].
  assert (Hidle : needs_idle false (state_of s) = Some rc) by (by destruct (state_of s)).
  erewrite bind_run.
  2:{ erewrite bind_run; [|done].
      destruct (needs_idle_cases _ _ _ Hidle) as [[-> Hrc]|(-> & Hrc & Hi & _)]; cbn [negb].
      - instantiate (1 := s). instantiate (1 := Some rc). by rw Hrc.
      - rw decide_True; [by rw Hrc|done]. }
  done.
Qed.
End Refused.

(** Every reachable state is a state of rest. *)
Lemma reachable_rests {W} `{!Platform W} `{!Application W} `{!ReadCodes W} fuel (s : sys W) :
  handlers_keep_state W -> reachable fuel s -> resting (clientState (clientStatus (client s))) = true.
Proof.
  intros Hh. apply (reachable_ind_rel fuel (fun c => resting (clientState (clientStatus c)) = true));
    [|intros k; by apply exec_rest].
  intros s1 (p & s0 & Hal & Hrun). pose proof (init_spec p s0) as Hspec.
  destruct (wp_run any_exn _ _ _ _ _ Hrun Hspec) as [[_ ?]|[_ ->]]; done.
Qed.

(** The client between calls. Every call keeps it so. *)
Definition client_rests (c : AWS_IoT_Client) : Prop := client_ok c /\ resting (clientState (clientStatus c)) = true.
Lemma exec_rests {W} `{!Platform W} `{!ReadCodes W} (a : Application W) fuel k :
  handlers_ok W -> handlers_keep_state W -> keeps (fun s : sys W => client_rests (client s)) (exec fuel k).
Proof.
  intros H1 H2. apply keeps_conj.
  - by apply (pres_keeps client_ok), exec_ok.
  - by apply (pres_keeps (fun c => resting (clientState (clientStatus c)) = true)), exec_rest.
Qed.

(** ** Properties *)

(** C1: the type invariant of the client (the buffers and the table have their
    declared sizes, the packet identifier is between 1 and 65535) holds in every state
    reachable after a successful initialization, by any sequence of calls, whatever
    they return and whatever the network delivers. *)
Theorem client_ok_reachable {W} `{!Platform W} `{!Application W} fuel (s : sys W) :
  handlers_ok W -> reachable fuel s -> client_ok (client s).
Proof.
  intros Hh. apply reachable_ind_rel; [|intros k; by apply exec_ok].
  intros s1 (p & s0 & Hal & Hrun). pose proof (init_spec p s0) as Hspec.
  destruct (wp_run any_exn _ _ _ _ _ Hrun Hspec) as [[_ ?]|[Hok _]]; [done|auto].
Qed.

(** C2: between calls the client is never in a state of an operation in progress:
    every sequence of calls after a successful initialization leaves it invalid,
    initialized, connected and idle, disconnected, or waiting to reconnect. *)
Theorem resting_reachable {W} `{!Platform W} `{!Application W} `{!ReadCodes W} fuel (s : sys W) :
  handlers_keep_state W -> reachable fuel s -> resting (clientState (clientStatus (client s))) = true.
Proof. apply reachable_rests. Qed.

(** C3: a call that the state of the client or its arguments do not allow is refused
    with the code of the interface, at once: neither the client nor the world changes.
    In particular an operation in progress is never disturbed by a nested call, and a
    message handler may publish, subscribe and unsubscribe but not yield. *)
Theorem refused_unchanged {W} `{!Platform W} `{!Application W} fuel k (s : sys W) rc :
  refused k (clientState (clientStatus (client s))) = Some rc -> exec fuel k s = Ret (rc, s).
Proof.
  intros Href. destruct k; try discriminate Href; cbn [exec].
  - move: Href. cbn [refused]. rw /aws_iot_mqtt_connect. erewrite bind_run; [|done].
    destruct (_aws_iot_mqtt_is_client_state_valid_for_connect _); [done|]. by intros [= <-].
  - move: Href. cbn [refused]. rw /aws_iot_mqtt_disconnect. erewrite bind_run; [|done]. erewrite bind_run; [|done].
    destruct (connected_state _); [done|]. by intros [= <-].
  - erewrite bind_run; [|by apply publish_refused]. done.
  - by apply subscribe_refused.
  - by apply (idle_guard (fun rc => rc)).
  - by apply unsubscribe_refused.
  - by apply yield_refused.
  - move: Href. cbn [refused]. rw /aws_iot_mqtt_attempt_reconnect. erewrite bind_run; [|done].
    destruct (connected_state _); [|done]. by intros [= <-].
Qed.

(** A nested yield from a message handler. *)
Lemma refused_unchanged_witness :
  exec 4 (CallYield 100) (Sys (sim_client CLIENT_STATE_CONNECTED_WAIT_FOR_CB_RETURN []) (sim_world [])) =
  Ret (MQTT_CLIENT_NOT_IDLE_ERROR, Sys (sim_client CLIENT_STATE_CONNECTED_WAIT_FOR_CB_RETURN []) (sim_world [])).
Proof. apply (refused_unchanged 4 (CallYield 100)). reflexivity. Defined.

(** Initialization, a connection that the broker accepts, and a message. *)
Definition api_demo_init : IoT_Client_Init_Params :=
  {| enableAutoReconnect := true; pHostURL := App 1; port := 8883; pRootCALocation := App 1;
     pDeviceCertLocation := App 1; pDevicePrivateKeyLocation := App 1; mqttPacketTimeout_ms := 2000;
     mqttCommandTimeout_ms := 20000; tlsHandshakeTimeout_ms := 5000; isSSLHostnameVerify := true;
     init_disconnectHandler := None; init_disconnectHandlerData := NULL |}.
Definition api_demo_start : sys sim := Sys (sim_client CLIENT_STATE_INVALID []) (sim_world [32; 2; 0; 0]).

Lemma api_demo_reachable : exists s, reachable 4 s /\ clientState (clientStatus (client s)) = CLIENT_STATE_CONNECTED_IDLE.
Proof.
  assert (H1 : exists s1 s2 s3, exec 4 (CallInit (Some api_demo_init)) api_demo_start = Ret (SUCCESS, s1) /\
    exec 4 (CallConnect (Some connect_demo_params)) s1 = Ret (SUCCESS, s2) /\
    exec 4 (CallPublish (App 2) 3 (Some (publish_demo_msg QOS0))) s2 = Ret (SUCCESS, s3) /\
    clientState (clientStatus (client s3)) = CLIENT_STATE_CONNECTED_IDLE).
  { do 3 eexists. split; [vm_compute; reflexivity|]. split; [vm_compute; reflexivity|].
    split; [vm_compute; reflexivity|reflexivity]. }
  destruct H1 as (s1 & s2 & s3 & Hi & Hc & Hp & Hst). exists s3. split; [|done]. exists s1. split.
  - exists (Some api_demo_init), api_demo_start. split; [|done].
    apply client_ok_allocated, sim_client_ok.
  - eapply rtc_l; [by eapply step_call|]. eapply rtc_l; [by eapply step_call|]. apply rtc_refl.
Qed.

Lemma sim_handlers_ok : handlers_ok sim.
Proof. split; intros; intros s; [by intros ?|apply wp_ret; reflexivity]. Qed.

Lemma client_ok_reachable_witness :
  exists s : sys sim, clientState (clientStatus (client s)) = CLIENT_STATE_CONNECTED_IDLE /\ client_ok (client s).
Proof.
  destruct api_demo_reachable as (s & Hs & Hst). exists s. split; [exact Hst|].
  exact (client_ok_reachable 4 s sim_handlers_ok Hs).
Defined.

Lemma resting_reachable_witness :
  exists s : sys sim, reachable 4 s /\ resting (clientState (clientStatus (client s))) = true.
Proof.
  destruct api_demo_reachable as (s & Hs & Hst). exists s. split; [exact Hs|].
  exact (resting_reachable 4 s sim_handlers_keep_state Hs).
Defined.
