(* ===== verification/Tls.v ===== *)
(** * The TLS network

    The functions of [platform/linux/mbedtls/network_mbedtls_wrapper.c], which
    implement the network interface of the client on top of mbedTLS and the secure
    element (the build with [MBEDTLS_SE] and [MBEDTLS_DEBUG_LEVEL] above 0; what is
    only printed is left out). The library is the class [Mbedtls]; the wrapper is an
    instance of the interface [Platform] the client is proved against, and the laws
    the theorems on the client need of a platform are proved of it here. *)
From S2P Require Import Prelude Text Types Timer Client Sim Transport Connect.

(** ** The library *)

(** The calls the wrapper makes besides reading and writing, with the arguments that
    vary; they act on the contexts of [TLSDataParams]. *)
Inductive mbed_call :=
  | mbedtls_net_init | mbedtls_ssl_init | mbedtls_ssl_config_init | mbedtls_ctr_drbg_init
  | mbedtls_x509_crt_init_cacert | mbedtls_x509_crt_init_clicert | mbedtls_pk_init
  | mbedtls_entropy_init
  | mbedtls_ctr_drbg_seed (pers : list Z)
  | mbedtls_x509_crt_parse (text : list Z)
  | mbedtls_x509_crt_parse_se (location : ptr)
  | mbedtls_pk_parse_se (location : ptr)
  | mbedtls_net_connect (host : ptr) (port : list Z)
  | mbedtls_net_set_block
  | mbedtls_ssl_config_defaults
  | mbedtls_ssl_conf_verify
  | mbedtls_ssl_conf_dbg
  | mbedtls_debug_set_threshold (level : Z)
  | mbedtls_ssl_conf_authmode (required : bool)
  | mbedtls_ssl_conf_rng
  | mbedtls_ssl_conf_ca_chain
  | mbedtls_ssl_conf_own_cert
  | mbedtls_ssl_conf_read_timeout (timeout : Z)
  | mbedtls_ssl_setup
  | mbedtls_ssl_set_hostname (host : ptr)
  | mbedtls_ssl_set_bio
  | mbedtls_ssl_handshake
  | mbedtls_ssl_get_record_expansion
  | mbedtls_ssl_get_verify_result
  | mbedtls_x509_crt_verify_info (flags : Z)
  | mbedtls_ssl_get_peer_cert
  | mbedtls_x509_crt_info
  | mbedtls_ssl_close_notify
  | mbedtls_net_free | mbedtls_x509_crt_free_clicert | mbedtls_x509_crt_free_cacert | mbedtls_pk_free
  | mbedtls_ssl_free | mbedtls_ssl_config_free | mbedtls_ctr_drbg_free | mbedtls_entropy_free.

(** The result of a read: the bytes that were stored, their number being returned, or
    a code that is not positive. *)
Inductive ssl_result := SslBytes (bs : list Z) | SslCode (code : Z).
Definition ssl_ret (r : ssl_result) : Z :=
  match r with SslBytes bs => Z.of_nat (length bs) | SslCode c => c end.
Definition ssl_stored (r : ssl_result) : list Z :=
  match r with SslBytes bs => bs | SslCode _ => [] end.

Class Mbedtls (E : Type) := {
  mb_time : M E timeval;
  mb_memory : E -> memory;
  mb_call : mbed_call -> M E Z;
  mbedtls_ssl_read : Z -> M E ssl_result;
  mbedtls_ssl_write : list Z -> Z -> M E Z }.

Definition MBEDTLS_ERR_SSL_WANT_READ : Z := -26880.
Definition MBEDTLS_ERR_SSL_WANT_WRITE : Z := -26752.
Definition MBEDTLS_ERR_SSL_TIMEOUT : Z := -26624.
Definition MBEDTLS_ERR_NET_SOCKET_FAILED : Z := -66.
Definition MBEDTLS_ERR_NET_CONNECT_FAILED : Z := -68.
Definition MBEDTLS_ERR_NET_UNKNOWN_HOST : Z := -82.
Definition MBEDTLS_DEBUG_LEVEL : Z := 4.
Definition IOT_SSL_READ_TIMEOUT : Z := 10.

(** ** State *)

Record TLSConnectParams := MkTLSParams {
  tp_pRootCALocation : ptr;
  tp_pDeviceCertLocation : ptr;
  tp_pDevicePrivateKeyLocation : ptr;
  tp_pDestinationURL : ptr;
  tp_DestinationPort : Z;
  tp_timeout_ms : Z;
  tp_ServerVerificationFlag : bool }.

(** The members of [struct Network] that are data of the wrapper, and the library's
    state. The function pointers of the structure are the members of the instance of
    [Platform] below. *)
Record tls (E : Type) := Tls { tlsConnectParams : TLSConnectParams; tls_flags : Z; tls_env : E }.
Arguments Tls {E}.
Arguments tlsConnectParams {E}.
Arguments tls_flags {E}.
Arguments tls_env {E}.

Section Tls.
Context {E : Type} `{!Mbedtls E} (fuel : nat).

Definition on_env {A} (m : M E A) : M (tls E) A := fun w =>
  match m (tls_env w) with
  | Ret (a, e) => Ret (a, Tls (tlsConnectParams w) (tls_flags w) e)
  | Exn x => Exn x
  end.
Definition mbed (c : mbed_call) : M (tls E) Z := on_env (mb_call c).
Definition tls_expired (t : Timer) : M (tls E) bool :=
  now ← on_env mb_time; mret (has_timer_expired now t).

Definition _iot_tls_set_connect_params (p : TLSConnectParams) : M (tls E) unit :=
  modify (fun w => Tls p (tls_flags w) (tls_env w)).

(** The arguments are those of the call in [aws_iot_mqtt_init]. *)
Definition iot_tls_init (p : IoT_Client_Init_Params) : M (tls E) IoT_Error_t :=
  _ ← _iot_tls_set_connect_params
        (MkTLSParams (pRootCALocation p) (pDeviceCertLocation p) (pDevicePrivateKeyLocation p)
           (pHostURL p) (port p) (tlsHandshakeTimeout_ms p) (isSSLHostnameVerify p));
  _ ← modify (fun w => Tls (tlsConnectParams w) 0 (tls_env w));
  mret SUCCESS.

Definition iot_tls_is_connected : M (tls E) IoT_Error_t := mret NETWORK_PHYSICAL_LAYER_CONNECTED.

(** *** Connecting *)

(** What [snprintf] stores for [%d], without the final null. *)
Definition port_text (port : Z) : list Z := decimal_loop 5 port [].

(** "aws_iot_tls_wrapper" *)
Definition pers : list Z :=
  [97; 119; 115; 95; 105; 111; 116; 95; 116; 108; 115; 95; 119; 114; 97; 112; 112; 101; 114].

(** A sequence of calls whose results are not used. *)
Fixpoint mbed_all (cs : list mbed_call) : M (tls E) unit :=
  match cs with
  | [] => mret tt
  | c :: cs' => _ ← mbed c; mbed_all cs'
  end.

(** A call that must return 0. *)
Definition mbed_check (c : mbed_call) (err : IoT_Error_t) (k : M (tls E) IoT_Error_t) :
    M (tls E) IoT_Error_t :=
  ret ← mbed c; if negb (ret =? 0) then mret err else k.

Definition net_connect_error (ret : Z) : IoT_Error_t :=
  if ret =? MBEDTLS_ERR_NET_SOCKET_FAILED then NETWORK_ERR_NET_SOCKET_FAILED
  else if ret =? MBEDTLS_ERR_NET_UNKNOWN_HOST then NETWORK_ERR_NET_UNKNOWN_HOST
  else NETWORK_ERR_NET_CONNECT_FAILED.

(** The loop around the handshake: true when it was completed. *)
Fixpoint handshake_loop (fuel : nat) : M (tls E) bool :=
  match fuel with
  | O => raise OutOfFuel
  | S fuel' =>
      ret ← mbed mbedtls_ssl_handshake;
      if ret =? 0 then mret true
      else if negb (ret =? MBEDTLS_ERR_SSL_WANT_READ) && negb (ret =? MBEDTLS_ERR_SSL_WANT_WRITE)
      then mret false
      else handshake_loop fuel'
  end.

(** The calls that describe the certificate of the peer, when there is one. *)
Definition tls_peer_info : M (tls E) unit :=
  peer ← mbed mbedtls_ssl_get_peer_cert;
  if negb (peer =? 0)
  then _ ← mbed mbedtls_ssl_get_peer_cert; _ ← mbed mbedtls_x509_crt_info; mret tt
  else mret tt.

(** After the handshake: the verification of the peer and the read timeout. *)
Definition tls_verify_peer : M (tls E) IoT_Error_t :=
  _ ← mbed mbedtls_ssl_get_record_expansion;
  w ← get;
  rc ← (if tp_ServerVerificationFlag (tlsConnectParams w) then
          flags ← mbed mbedtls_ssl_get_verify_result;
          _ ← modify (fun w => Tls (tlsConnectParams w) (u32 flags) (tls_env w));
          if negb (u32 flags =? 0)
          then _ ← mbed (mbedtls_x509_crt_verify_info (u32 flags)); mret SSL_CONNECTION_ERROR
          else mret SUCCESS
        else mret SUCCESS);
  _ ← tls_peer_info;
  _ ← mbed (mbedtls_ssl_conf_read_timeout IOT_SSL_READ_TIMEOUT);
  mret rc.

(** From the configuration of TLS to the end of the handshake. *)
Definition tls_setup : M (tls E) IoT_Error_t :=
  w ← get;
  let p := tlsConnectParams w in
  mbed_check mbedtls_net_set_block SSL_CONNECTION_ERROR (
  mbed_check mbedtls_ssl_config_defaults SSL_CONNECTION_ERROR (
  _ ← mbed_all [mbedtls_ssl_conf_verify; mbedtls_ssl_conf_dbg;
                mbedtls_debug_set_threshold MBEDTLS_DEBUG_LEVEL;
                mbedtls_ssl_conf_authmode (tp_ServerVerificationFlag p);
                mbedtls_ssl_conf_rng; mbedtls_ssl_conf_ca_chain];
  mbed_check mbedtls_ssl_conf_own_cert SSL_CONNECTION_ERROR (
  _ ← mbed (mbedtls_ssl_conf_read_timeout (tp_timeout_ms p));
  mbed_check mbedtls_ssl_setup SSL_CONNECTION_ERROR (
  mbed_check (mbedtls_ssl_set_hostname (tp_pDestinationURL p)) SSL_CONNECTION_ERROR (
  _ ← mbed mbedtls_ssl_set_bio;
  done ← handshake_loop fuel;
  if negb done then mret SSL_CONNECTION_ERROR else tls_verify_peer))))).

Definition iot_tls_connect (params : option TLSConnectParams) : M (tls E) IoT_Error_t :=
  _ ← (match params with Some p => _iot_tls_set_connect_params p | None => mret tt end);
  _ ← mbed_all [mbedtls_net_init; mbedtls_ssl_init; mbedtls_ssl_config_init; mbedtls_ctr_drbg_init;
                mbedtls_x509_crt_init_cacert; mbedtls_x509_crt_init_clicert; mbedtls_pk_init;
                mbedtls_entropy_init];
  mbed_check (mbedtls_ctr_drbg_seed pers) NETWORK_MBEDTLS_ERR_CTR_DRBG_ENTROPY_SOURCE_FAILED (
  w ← get;
  let p := tlsConnectParams w in
  ca ← lift_option (Fault OobRead) (mem_cstring (mb_memory (tls_env w)) [] (tp_pRootCALocation p));
  ret ← mbed (mbedtls_x509_crt_parse ca);
  if ret <? 0 then mret NETWORK_X509_ROOT_CRT_PARSE_ERROR
  else
    mbed_check (mbedtls_x509_crt_parse_se (tp_pDeviceCertLocation p)) NETWORK_X509_DEVICE_CRT_PARSE_ERROR (
    mbed_check (mbedtls_pk_parse_se (tp_pDevicePrivateKeyLocation p)) NETWORK_PK_PRIVATE_KEY_PARSE_ERROR (
    ret ← mbed (mbedtls_net_connect (tp_pDestinationURL p) (port_text (tp_DestinationPort p)));
    if negb (ret =? 0) then mret (net_connect_error ret)
    else tls_setup))).

(** *** Writing *)

(** The inner loop of [iot_tls_write]. [ret] is the local of that name, not
    initialized at first; the boolean is [isErrorFlag]. *)
Fixpoint ssl_write_loop (fuel : nat) (timer : Timer) (pMsg : list Z) (len : Z) (ret : option Z) :
    M (tls E) (option Z * bool) :=
  e ← tls_expired timer;
  if e : bool then mret (ret, false)
  else
    match fuel with
    | O => raise OutOfFuel
    | S fuel' =>
        r ← on_env (mbedtls_ssl_write pMsg len);
        if r <=? 0 then
          if negb (r =? MBEDTLS_ERR_SSL_WANT_READ) && negb (r =? MBEDTLS_ERR_SSL_WANT_WRITE)
          then mret (Some r, true)
          else ssl_write_loop fuel' timer pMsg len (Some r)
        else mret (Some r, false)
    end.

(** The outer loop: [written_so_far] and [isErrorFlag] after it. *)
Fixpoint tls_write_loop (fuel0 : nat) (timer : Timer) (pMsg : list Z) (len written_so_far : Z)
    (ret : option Z) : M (tls E) (Z * bool) :=
  if decide (written_so_far < len) then
    e ← tls_expired timer;
    if e : bool then mret (written_so_far, false)
    else
      match fuel0 with
      | O => raise OutOfFuel
      | S fuel' =>
          '(ret, isErrorFlag) ← ssl_write_loop fuel timer (drop (Z.to_nat written_so_far) pMsg)
                                  (size_t (len - written_so_far)) ret;
          if isErrorFlag : bool then mret (written_so_far, true)
          else
            r ← lift_option (Fault UninitRead) ret;
            tls_write_loop fuel' timer pMsg len (size_t (written_so_far + r)) (Some r)
      end
  else mret (written_so_far, false).

(** The results are the return code and [*written_len]. *)
Definition iot_tls_write (pMsg : list Z) (len : Z) (timer : Timer) : M (tls E) (IoT_Error_t * option Z) :=
  '(written_so_far, isErrorFlag) ← tls_write_loop fuel timer pMsg len 0 None;
  if isErrorFlag : bool then mret (NETWORK_SSL_WRITE_ERROR, Some written_so_far)
  else
    e ← tls_expired timer;
    if e && negb (written_so_far =? len)
    then mret (NETWORK_SSL_WRITE_TIMEOUT_ERROR, Some written_so_far)
    else mret (SUCCESS, Some written_so_far).

(** *** Reading *)

Definition read_goes_on (ret : Z) : bool :=
  (ret =? MBEDTLS_ERR_SSL_WANT_READ) || (ret =? MBEDTLS_ERR_SSL_WANT_WRITE) || (ret =? MBEDTLS_ERR_SSL_TIMEOUT).

(** The loop of [iot_tls_read]: the bytes stored so far, [rxLen] and [len] after it,
    or the error return (none). *)
Fixpoint tls_read_loop (fuel : nat) (timer : Timer) (stored : list Z) (rxLen len : Z) :
    M (tls E) (list Z * option (Z * Z)) :=
  if decide (len > 0) then
    match fuel with
    | O => raise OutOfFuel
    | S fuel' =>
        r ← on_env (mbedtls_ssl_read len);
        let ret := ssl_ret r in
        if (ret <=? 0) && ((ret =? 0) || negb (read_goes_on ret)) then mret (stored, None)
        else
          let stored := stored ++ ssl_stored r in
          let rxLen := if 0 <? ret then size_t (rxLen + ret) else rxLen in
          let len := if 0 <? ret then size_t (len - ret) else len in
          e ← tls_expired timer;
          if e : bool then mret (stored, Some (rxLen, len)) else tls_read_loop fuel' timer stored rxLen len
    end
  else mret (stored, Some (rxLen, len)).

Definition iot_tls_read (len : Z) (timer : Timer) : M (tls E) read_result :=
  '(stored, r) ← tls_read_loop fuel timer [] 0 len;
  mret (match r with
        | None => ReadResult NETWORK_SSL_READ_ERROR stored None
        | Some (rxLen, len) =>
            if len =? 0 then ReadResult SUCCESS stored (Some rxLen)
            else if rxLen =? 0 then ReadResult NETWORK_SSL_NOTHING_TO_READ stored None
            else ReadResult NETWORK_SSL_READ_TIMEOUT_ERROR stored None
        end).

(** *** Closing *)

Fixpoint close_loop (fuel : nat) : M (tls E) unit :=
  match fuel with
  | O => raise OutOfFuel
  | S fuel' =>
      ret ← mbed mbedtls_ssl_close_notify;
      if ret =? MBEDTLS_ERR_SSL_WANT_WRITE then close_loop fuel' else mret tt
  end.
Definition iot_tls_disconnect : M (tls E) IoT_Error_t := _ ← close_loop fuel; mret SUCCESS.

Definition iot_tls_destroy : M (tls E) IoT_Error_t :=
  _ ← mbed_all [mbedtls_net_free; mbedtls_x509_crt_free_clicert; mbedtls_x509_crt_free_cacert;
                mbedtls_pk_free; mbedtls_ssl_free; mbedtls_ssl_config_free; mbedtls_ctr_drbg_free;
                mbedtls_entropy_free];
  mret SUCCESS.

(** The network of the client. *)
Definition tls_platform : Platform (tls E) := {|
  gettimeofday := on_env mb_time;
  app_memory := fun w => mb_memory (tls_env w);
  Client.iot_tls_init := iot_tls_init;
  net_connect := iot_tls_connect None;
  net_read := iot_tls_read;
  net_write := iot_tls_write;
  net_disconnect := iot_tls_disconnect;
  net_isConnected := iot_tls_is_connected;
  net_destroy := iot_tls_destroy |}.
End Tls.

(** ** Laws of the library *)

(** What the wrapper relies on: a clock that does not go back; a write accepts a prefix
    of what it is given, in order; a read delivers the next bytes, no more than were
    asked for; nothing else touches the streams or the memory of the application. *)
Class MbedtlsLaws (E : Type) `{!Mbedtls E} := {
  ml_clock : E -> Z;
  ml_sent : E -> list Z;
  ml_received : E -> list Z;
  ml_time : forall e now e', mb_time e = Ret (now, e') ->
    tv_valid now /\ usecs now = ml_clock e /\ ml_clock e <= ml_clock e' /\
    ml_sent e' = ml_sent e /\ ml_received e' = ml_received e /\ mb_memory e' = mb_memory e;
  ml_write : forall bs n e r e', mbedtls_ssl_write bs n e = Ret (r, e') ->
    r <= n /\ ml_sent e' = ml_sent e ++ take (Z.to_nat r) bs /\ ml_clock e <= ml_clock e';
  ml_read : forall n e r e', 0 < n -> mbedtls_ssl_read n e = Ret (r, e') ->
    ssl_ret r <= n /\ ml_received e = ssl_stored r ++ ml_received e' /\ (forall c, r = SslCode c -> c <= 0);
  ml_call_memory : forall c e r e', mb_call c e = Ret (r, e') -> mb_memory e' = mb_memory e }.

Section TlsLemmas.
Context {E : Type} `{!Mbedtls E} `{!MbedtlsLaws E} (fuel : nat).

(** The timer has expired on the clock of the library. *)
Definition late (t : Timer) (e : E) : Prop := has_timer_expired (sim_time (ml_clock e)) t = true.

Lemma late_later t e e' : ml_clock e <= ml_clock e' -> late t e -> late t e'.
Proof.
  intros Hle. rw /late. apply has_timer_expired_mono; [apply sim_time_valid..|]. by rw !sim_time_usecs.
Qed.

Lemma on_env_inv {A} (m : M E A) w a w' : on_env m w = Ret (a, w') ->
  exists e', m (tls_env w) = Ret (a, e') /\ w' = Tls (tlsConnectParams w) (tls_flags w) e'.
Proof. rw /on_env. destruct (m (tls_env w)) as [[a' e']|]; [|done]. intros [= -> <-]. by eexists. Qed.

Lemma tls_expired_inv t w e w' : tls_expired t w = Ret (e, w') ->
  (e = true <-> late t (tls_env w)) /\ ml_clock (tls_env w) <= ml_clock (tls_env w') /\
  ml_sent (tls_env w') = ml_sent (tls_env w) /\ ml_received (tls_env w') = ml_received (tls_env w).
Proof.
  rw /tls_expired. intros Hrun. apply bind_inv in Hrun as (now & w1 & Hnow & Hrun). injection Hrun as <- <-.
  apply on_env_inv in Hnow as (e' & Hnow & ->). apply ml_time in Hnow as (Hv & Hu & Hle & Hs & Hr & _).
  split; [|done]. rw /late. split; apply has_timer_expired_mono; try done; try apply sim_time_valid;
    rw sim_time_usecs; lia.
Qed.

(** The inner loop: a write that was accepted, an error, or a timeout. *)
Lemma ssl_write_loop_spec t bs n : forall f ret w r err w',
  ssl_write_loop f t bs n ret w = Ret ((r, err), w') ->
  ml_clock (tls_env w) <= ml_clock (tls_env w') /\
  (err = true \/
   late t (tls_env w') \/
   exists k, r = Some k /\ 0 < k <= n /\ ml_sent (tls_env w') = ml_sent (tls_env w) ++ take (Z.to_nat k) bs).
Proof.
  induction f as [|f IH]; intros ret w r err w'; cbn [ssl_write_loop]; intros Hrun;
    apply bind_inv in Hrun as (e & w1 & He & Hrun); apply tls_expired_inv in He as (Hl & Hc & Hs & _);
    destruct e; try done.
  1,2: injection Hrun as <- <- <-; split; [done|]; right; left; eapply late_later; [exact Hc|by apply Hl].
  apply bind_inv in Hrun as (k & w2 & Hw & Hrun). apply on_env_inv in Hw as (e2 & Hw & ->).
  apply ml_write in Hw as (Hk & Hs2 & Hc2).
  destruct (Z.leb_spec k 0) as [Hneg|Hpos].
  - destruct (negb _ && negb _); [injection Hrun as <- <- <-; cbn [tls_env]; split; [lia|by left]|].
    apply IH in Hrun as [Hc3 Hcase]. cbn [tls_env] in *. split; [lia|].
    replace (Z.to_nat k) with 0%nat in Hs2 by lia. rw take_0 app_nil_r in Hs2. by rw Hs2 Hs in Hcase.
  - injection Hrun as <- <- <-. cbn [tls_env]. split; [lia|]. right. right. exists k.
    split; [done|]. split; [lia|]. by rw Hs2 Hs.
Qed.

(** The outer loop: all bytes were accepted in order, unless an error or a timeout was
    seen. *)
Lemma tls_write_loop_spec t msg len : 0 <= len < 2 ^ 32 -> forall f wr ret w k err w',
  0 <= wr <= len -> tls_write_loop fuel f t msg len wr ret w = Ret ((k, err), w') ->
  err = true \/ late t (tls_env w') \/
  (k = len /\ ml_sent (tls_env w') = ml_sent (tls_env w) ++ take (Z.to_nat (len - wr)) (drop (Z.to_nat wr) msg)).
Proof.
  intros Hlen. induction f as [|f IH]; intros wr ret w k err w' Hwr; cbn [tls_write_loop]; intros Hrun;
    case_decide as Hlt.
  2,4: injection Hrun as <- <- <-; right; right; assert (wr = len) as -> by lia;
       rw Z.sub_diag take_0 app_nil_r; done.
  all: apply bind_inv in Hrun as (e & w1 & He & Hrun); apply tls_expired_inv in He as (Hl & Hc & Hs & _);
       destruct e; try done.
  1,2: injection Hrun as <- <- <-; right; left; eapply late_later; [exact Hc|by apply Hl].
  apply bind_inv in Hrun as ([r e1] & w2 & Hin & Hrun). apply ssl_write_loop_spec in Hin as [Hc2 Hin].
  destruct e1; [injection Hrun as <- <- <-; by left|].
  apply bind_inv in Hrun as (r1 & w3 & Hr1 & Hrun).
  apply lift_option_inv in Hr1 as [-> ->].
  destruct Hin as [?|[Hlate|(k1 & Hk1 & Hb & Hs2)]]; [done| |].
  - (* a timeout in the inner loop: whatever follows, the timer stays expired *)
    right. left. clear IH. destruct f as [|f]; cbn [tls_write_loop] in Hrun; case_decide;
      try (injection Hrun as <- <- <-; done);
      apply bind_inv in Hrun as (e & w4 & He & Hrun); apply tls_expired_inv in He as (Hl4 & Hc4 & _);
      assert (e = true) as -> by (by apply Hl4); injection Hrun as <- <- <-; by eapply late_later.
  - injection Hk1 as ->. rw size_t_small in Hb; [|width]. rw (size_t_small (wr + k1)) in Hrun; [|width].
    apply IH in Hrun; [|lia]. destruct Hrun as [?|[?|[Hk Hsent]]]; [by left|by right; left|].
    right. right. split; [done|]. rw Hsent Hs2 Hs -app_assoc. f_equal.
    rw Z2Nat.inj_add; [|lia..]. rw -drop_drop.
    replace (Z.to_nat (len - wr)) with (Z.to_nat k1 + Z.to_nat (len - (wr + k1)))%nat by lia.
    by rw take_take_drop.
Qed.

Lemma tls_write_spec msg len t w k w' : 0 <= len < 2 ^ 32 ->
  iot_tls_write fuel msg len t w = Ret ((SUCCESS, k), w') ->
  k = Some len /\
  (~ late t (tls_env w') -> ml_sent (tls_env w') = ml_sent (tls_env w) ++ take (Z.to_nat len) msg).
Proof.
  intros Hlen Hrun. rw /iot_tls_write in Hrun. apply bind_inv in Hrun as ([wr err] & w1 & Hloop & Hrun).
  apply tls_write_loop_spec in Hloop; [|done|lia]. destruct err; [done|].
  apply bind_inv in Hrun as (e & w2 & He & Hrun). apply tls_expired_inv in He as (Hl & Hc & Hs & _).
  destruct Hloop as [?|[Hlate|[-> Hsent]]]; [done| |].
  - assert (e = true) as -> by (by apply Hl). cbn [andb] in Hrun.
    destruct (Z.eqb_spec wr len) as [->|]; [|done]. injection Hrun as <- <-. split; [done|].
    intros Hn. destruct Hn. by eapply late_later.
  - destruct (e && negb (len =? len)); [done|]. injection Hrun as <- <-. split; [done|].
    intros _. by rw Hs Hsent Z.sub_0_r drop_0.
Qed.

(** The read loop: what was stored is the next part of the stream. *)
Lemma tls_read_loop_spec t n : n < 2 ^ 32 -> forall f stored rx len w stored' r w',
  rx = Z.of_nat (length stored) -> 0 <= len -> rx + len = n ->
  tls_read_loop f t stored rx len w = Ret ((stored', r), w') ->
  exists more, stored' = stored ++ more /\ ml_received (tls_env w) = more ++ ml_received (tls_env w') /\
    Z.of_nat (length stored') <= n /\
    forall rx' len', r = Some (rx', len') -> rx' = Z.of_nat (length stored') /\ rx' + len' = n.
Proof.
  intros Hn. induction f as [|f IH]; intros stored rx len w stored' r w' Hrx Hlen Hsum; cbn [tls_read_loop];
    case_decide as Hgt; intros Hrun; try done.
  1,3: injection Hrun as <- <- <-; exists []; rw app_nil_r; split; [done|]; split; [done|]; split; [lia|];
       intros rx' len' [= <- <-]; done.
  apply bind_inv in Hrun as (rd & w1 & Hrd & Hrun). apply on_env_inv in Hrd as (e1 & Hrd & ->).
  apply ml_read in Hrd as (Hle & Hrecv & Hcode); [|lia]. cbv zeta in Hrun.
  destruct ((ssl_ret rd <=? 0) && _) eqn:Herr.
  { injection Hrun as <- <- <-. exists []. rw app_nil_r. cbn [tls_env]. split; [done|].
    split; [|split; [lia|done]].
    destruct rd as [[|b bs]|c]; [done| |done]. apply andb_prop in Herr as [Hz _].
    apply Z.leb_le in Hz. cbn [ssl_ret length] in Hz. lia. }
  apply bind_inv in Hrun as (e & w2 & He & Hrun). apply tls_expired_inv in He as (_ & _ & _ & Hr2).
  cbn [tls_env] in Hr2.
  assert (Hnew : (if 0 <? ssl_ret rd then size_t (rx + ssl_ret rd) else rx) = Z.of_nat (length (stored ++ ssl_stored rd)) /\
                 (if 0 <? ssl_ret rd then size_t (len - ssl_ret rd) else len) = len - Z.of_nat (length (ssl_stored rd)) /\
                 Z.of_nat (length (ssl_stored rd)) <= len).
  { rw length_app. destruct (Z.ltb_spec 0 (ssl_ret rd)) as [Hp|Hz]; destruct rd as [bs|c]; cbn [ssl_ret ssl_stored length] in *.
    - rw !size_t_small; [|width..]. lia.
    - specialize (Hcode c eq_refl). lia.
    - lia.
    - lia. }
  destruct Hnew as (Hrx' & Hlen' & Hb). rw Hrx' Hlen' in Hrun.
  destruct e.
  - injection Hrun as <- <- <-. exists (ssl_stored rd). rw Hr2. split; [done|]. split; [done|].
    rw length_app. split; [lia|]. intros rx' len' [= <- <-]. lia.
  - apply IH in Hrun as (more & -> & Hm & Hl & Hres); [|done|lia|rw length_app; lia].
    exists (ssl_stored rd ++ more). rw Hrecv -Hr2 Hm. split; [by rw app_assoc|]. split; [by rw app_assoc|]. done.
Qed.
End TlsLemmas.

(** ** The wrapper as the platform of the client *)

Section Discharge.
Context {E : Type} `{!Mbedtls E} (fuel : nat).

Lemma tls_read_returns n t : returns (fun r => plain_code (rd_rc r)) (iot_tls_read (E := E) fuel n t).
Proof. rw /iot_tls_read. apply returns_any. intros [st r]. apply returns_ret. by repeat case_match. Qed.

Lemma tls_read_codes : @ReadCodes (tls E) (tls_platform fuel).
Proof. intros n t w r w' Hr. exact (wp_run any_exn _ _ _ _ _ Hr (tls_read_returns n t w)). Qed.

Context `{!MbedtlsLaws E}.

Lemma tls_writes_all : @WritesAll (tls E) (tls_platform fuel).
Proof. intros bs n t w k w' Hn Hw. by apply tls_write_spec in Hw as [-> _]. Qed.

Lemma tls_time_memory : @TimeKeepsMemory (tls E) (tls_platform fuel).
Proof.
  intros w now w' Hw. apply on_env_inv in Hw as (e' & Hw & ->). by apply ml_time in Hw as (_ & _ & _ & _ & _ & ?).
Qed.

(** The calls of the library keep the memory of the application. *)
Definition keeps_memory {A} (m : M (tls E) A) : Prop := forall w,
  wp any_exn m (fun _ w' => mb_memory (tls_env w') = mb_memory (tls_env w)) w.

Lemma keeps_memory_ret {A} (a : A) : keeps_memory (mret a).
Proof. done. Qed.
Lemma keeps_memory_bind {A B} (m : M (tls E) A) (k : A -> M (tls E) B) :
  keeps_memory m -> (forall a, keeps_memory (k a)) -> keeps_memory (m ≫= k).
Proof.
  intros Hm Hk w. apply wp_bind. eapply wp_mono; [apply Hm|]. intros a w1 H1.
  eapply wp_mono; [apply Hk|]. intros b w2 H2. by rw H2.
Qed.
Lemma keeps_memory_mbed c : keeps_memory (mbed c).
Proof.
  intros w. rw /wp /mbed /on_env. destruct (mb_call c (tls_env w)) as [[r e]|] eqn:Hc; [|done].
  by apply ml_call_memory in Hc.
Qed.

Lemma keeps_memory_connect p : keeps_memory (iot_tls_connect fuel p).
Proof.
  assert (Hcheck : forall c err k, keeps_memory k -> keeps_memory (mbed_check c err k)).
  { intros c err k Hk. apply keeps_memory_bind; [apply keeps_memory_mbed|]. intros r. by destruct (negb _). }
  assert (Hall : forall cs, keeps_memory (mbed_all cs)).
  { induction cs; cbn [mbed_all]; [done|]. apply keeps_memory_bind; [apply keeps_memory_mbed|done]. }
  assert (Hhs : forall f, keeps_memory (handshake_loop f)).
  { induction f as [|f IH]; cbn [handshake_loop]; [done|]. apply keeps_memory_bind; [apply keeps_memory_mbed|].
    intros r. destruct (r =? 0); [done|]. by destruct (negb _ && negb _). }
  pose proof keeps_memory_mbed.
  repeat first
    [ progress intros | done | apply Hcheck | apply Hall | apply Hhs | apply keeps_memory_mbed
    | apply keeps_memory_bind | progress (rw /iot_tls_connect) | progress (rw /tls_setup)
    | progress (rw /tls_verify_peer /tls_peer_info) | progress cbv zeta | case_match ].
  rw /lift_option. by case_match.
Qed.

Lemma tls_connect_memory : @ConnectKeepsMemory (tls E) (tls_platform fuel).
Proof. intros w r w' Hw. exact (wp_run any_exn _ _ _ _ _ Hw (keeps_memory_connect None w)). Qed.
End Discharge.

(** ** The calls of a run *)

(** A library whose calls are recorded, each with its result. *)
Section Log.
Context {E : Type} `{!Mbedtls E} (fuel : nat).

Definition logged : Type := E * list (mbed_call * Z).
Definition on_logged {A} (m : M E A) : M logged A := fun l =>
  match m l.1 with Ret (a, e) => Ret (a, (e, l.2)) | Exn x => Exn x end.
Definition logged_call (c : mbed_call) : M logged Z := fun l =>
  match mb_call c l.1 with Ret (r, e) => Ret (r, (e, l.2 ++ [(c, r)])) | Exn x => Exn x end.

#[export] Instance logged_mbedtls : Mbedtls logged := {
  mb_time := on_logged mb_time;
  mb_memory := fun l => mb_memory l.1;
  mb_call := logged_call;
  mbedtls_ssl_read := fun n => on_logged (mbedtls_ssl_read n);
  mbedtls_ssl_write := fun bs n => on_logged (mbedtls_ssl_write bs n) }.

Definition log (w : tls logged) : list (mbed_call * Z) := (tls_env w).2.

Lemma mbed_log c (w w' : tls logged) r : mbed c w = Ret (r, w') ->
  tlsConnectParams w' = tlsConnectParams w /\ log w' = log w ++ [(c, r)].
Proof.
  intros Hm. apply on_env_inv in Hm as (e' & Hm & ->). move: Hm. cbn. rw /logged_call /log.
  destruct (mb_call c _) as [[r' e]|]; [|done]. by intros [= -> <-].
Qed.

Lemma mbed_all_log cs : forall (w w' : tls logged) u, mbed_all cs w = Ret (u, w') ->
  tlsConnectParams w' = tlsConnectParams w /\ exists l, log w' = log w ++ l /\ l.*1 = cs.
Proof.
  induction cs as [|c cs IH]; cbn [mbed_all]; intros w w' u Hrun.
  { injection Hrun as _ <-. split; [done|]. exists []. by rw app_nil_r. }
  apply bind_inv in Hrun as (r & w1 & Hm & Hrun). apply mbed_log in Hm as [Hp Hl].
  apply IH in Hrun as [Hp' (l & Hl' & Hcs)]. split; [congruence|]. exists ((c, r) :: l).
  rw Hl' Hl -app_assoc. split; [done|]. by rw -Hcs.
Qed.

(** A checked call that was passed returned 0. *)
Lemma mbed_check_log c err k (w w' : tls logged) : err <> SUCCESS ->
  mbed_check c err k w = Ret (SUCCESS, w') ->
  exists w1, k w1 = Ret (SUCCESS, w') /\ tlsConnectParams w1 = tlsConnectParams w /\ log w1 = log w ++ [(c, 0)].
Proof.
  intros Herr Hrun. rw /mbed_check in Hrun. apply bind_inv in Hrun as (r & w1 & Hm & Hrun).
  apply mbed_log in Hm as [Hp Hl]. destruct (Z.eqb_spec r 0) as [->|]; cbn [negb] in Hrun; [by exists w1|].
  by injection Hrun as -> _.
Qed.

Lemma handshake_log : forall f (w w' : tls logged), handshake_loop f w = Ret (true, w') ->
  tlsConnectParams w' = tlsConnectParams w /\ exists l, log w' = log w ++ l ++ [(mbedtls_ssl_handshake, 0)].
Proof.
  induction f as [|f IH]; cbn [handshake_loop]; intros w w' Hrun; [done|].
  apply bind_inv in Hrun as (r & w1 & Hm & Hrun). apply mbed_log in Hm as [Hp Hl].
  destruct (Z.eqb_spec r 0) as [->|]; [injection Hrun as <-; split; [done|]; by exists []|].
  destruct (negb _ && negb _); [done|]. apply IH in Hrun as [Hp' (l & Hl')]. split; [congruence|].
  exists ((mbedtls_ssl_handshake, r) :: l). by rw Hl' Hl -!app_assoc.
Qed.

(** A part of a run that only makes calls. *)
Definition only_calls {A} (m : M (tls logged) A) : Prop := forall w a w', m w = Ret (a, w') ->
  tls_flags w' = tls_flags w /\ exists l, log w' = log w ++ l.

Lemma only_calls_ret {A} (a : A) : only_calls (mret a).
Proof. intros w a' w' Hr. injection Hr as _ <-. split; [done|]. exists []. by rw app_nil_r. Qed.
Lemma only_calls_mbed c : only_calls (mbed c).
Proof.
  intros w r w' Hm. pose proof Hm as Hm'. apply on_env_inv in Hm' as (e & _ & ->). split; [done|].
  apply mbed_log in Hm as [_ ->]. by eexists.
Qed.
Lemma only_calls_bind {A B} (m : M (tls logged) A) (k : A -> M (tls logged) B) :
  only_calls m -> (forall a, only_calls (k a)) -> only_calls (m ≫= k).
Proof.
  intros Hm Hk w b w' Hrun. apply bind_inv in Hrun as (a & w1 & H1 & H2).
  apply Hm in H1 as [Hf1 (l1 & Hl1)]. apply Hk in H2 as [Hf2 (l2 & Hl2)]. split; [congruence|].
  exists (l1 ++ l2). by rw Hl2 Hl1 app_assoc.
Qed.
Lemma peer_info_log : only_calls tls_peer_info.
Proof.
  pose proof only_calls_mbed. rw /tls_peer_info. apply only_calls_bind; [done|]. intros r.
  destruct (negb _); [|apply only_calls_ret]. repeat (apply only_calls_bind; [done|intros ?]). apply only_calls_ret.
Qed.

Lemma verify_peer_log (w w' : tls logged) : tp_ServerVerificationFlag (tlsConnectParams w) = true ->
  tls_verify_peer w = Ret (SUCCESS, w') ->
  tls_flags w' = 0 /\ exists l1 flags l2, u32 flags = 0 /\
    log w' = log w ++ l1 ++ [(mbedtls_ssl_get_verify_result, flags)] ++ l2.
Proof.
  intros Hflag Hrun. rw /tls_verify_peer in Hrun. apply bind_inv in Hrun as (r1 & w1 & H1 & Hrun).
  apply mbed_log in H1 as [Hp1 Hl1]. apply bind_inv in Hrun as (w0 & w2 & Hget & Hrun). injection Hget as <- <-.
  rw Hp1 Hflag in Hrun. apply bind_inv in Hrun as (rc & w3 & H3 & Hrun).
  apply bind_inv in H3 as (flags & w4 & H4 & H3). apply mbed_log in H4 as [Hp4 Hl4].
  apply bind_inv in H3 as (u & w5 & Hmod & H3). injection Hmod as _ <-.
  apply bind_inv in Hrun as (v & w6 & H6 & Hrun). apply peer_info_log in H6 as [Hf6 (l6 & Hl6)].
  apply bind_inv in Hrun as (v7 & w7 & H7 & Hrun). apply only_calls_mbed in H7 as [Hf7 (l7 & Hl7)].
  injection Hrun as -> <-.
  destruct (Z.eqb_spec (u32 flags) 0) as [Hz|Hnz]; cbn [negb] in H3.
  2:{ apply bind_inv in H3 as (v8 & w8 & _ & H3). discriminate H3. }
  injection H3 as <-. split; [by rw Hf7 Hf6|].
  exists [(mbedtls_ssl_get_record_expansion, r1)], flags, (l6 ++ l7). split; [done|].
  rw Hl7 Hl6. change (log (Tls _ _ _)) with (log w4). by rw Hl4 Hl1 -!app_assoc.
Qed.

Lemma setup_log (w w' : tls logged) : tp_ServerVerificationFlag (tlsConnectParams w) = true ->
  tls_setup fuel w = Ret (SUCCESS, w') ->
  tls_flags w' = 0 /\ exists l1 r l2 l3 flags l4, u32 flags = 0 /\
    log w' = log w ++ l1 ++ [(mbedtls_ssl_conf_authmode true, r)] ++ l2 ++ [(mbedtls_ssl_handshake, 0)] ++
             l3 ++ [(mbedtls_ssl_get_verify_result, flags)] ++ l4.
Proof.
  intros Hflag Hrun. rw /tls_setup in Hrun. apply bind_inv in Hrun as (w0 & w1 & Hget & Hrun). injection Hget as <- <-.
  cbv zeta in Hrun. apply mbed_check_log in Hrun as (w1 & Hrun & Hp1 & Hl1); [|done].
  apply mbed_check_log in Hrun as (w2 & Hrun & Hp2 & Hl2); [|done].
  apply bind_inv in Hrun as (u & w3 & H3 & Hrun). apply mbed_all_log in H3 as [Hp3 (l & Hl3 & Hcs)].
  apply mbed_check_log in Hrun as (w4 & Hrun & Hp4 & Hl4); [|done].
  apply bind_inv in Hrun as (r5 & w5 & H5 & Hrun). apply mbed_log in H5 as [Hp5 Hl5].
  apply mbed_check_log in Hrun as (w6 & Hrun & Hp6 & Hl6); [|done].
  apply mbed_check_log in Hrun as (w7 & Hrun & Hp7 & Hl7); [|done].
  apply bind_inv in Hrun as (r8 & w8 & H8 & Hrun). apply mbed_log in H8 as [Hp8 Hl8].
  apply bind_inv in Hrun as ([] & w9 & H9 & Hrun); [|discriminate Hrun]. apply handshake_log in H9 as [Hp9 (l9 & Hl9)].
  apply verify_peer_log in Hrun as [Hf (l10 & flags & l11 & Hz & Hl10)]; [|congruence].
  split; [done|]. rw Hflag in Hcs.
  destruct l as [|[c1 a1] [|[c2 a2] [|[c3 a3] [|[c4 a4] [|[c5 a5] [|[c6 a6] [|]]]]]]]; try discriminate Hcs.
  injection Hcs as -> -> -> -> -> ->.
  exists [(mbedtls_net_set_block, 0); (mbedtls_ssl_config_defaults, 0); (mbedtls_ssl_conf_verify, a1);
          (mbedtls_ssl_conf_dbg, a2); (mbedtls_debug_set_threshold MBEDTLS_DEBUG_LEVEL, a3)], a4,
    ([(mbedtls_ssl_conf_rng, a5); (mbedtls_ssl_conf_ca_chain, a6); (mbedtls_ssl_conf_own_cert, 0);
      (mbedtls_ssl_conf_read_timeout (tp_timeout_ms (tlsConnectParams w)), r5); (mbedtls_ssl_setup, 0);
      (mbedtls_ssl_set_hostname (tp_pDestinationURL (tlsConnectParams w)), 0); (mbedtls_ssl_set_bio, r8)] ++ l9),
    l10, flags, l11. split; [done|].
  by rw Hl10 Hl9 Hl8 Hl7 Hl6 Hl5 Hl4 Hl3 Hl2 Hl1 -!app_assoc.
Qed.

(** The start of a connect, up to the setup of TLS. *)
Lemma connect_log p (w w' : tls logged) : iot_tls_connect fuel p w = Ret (SUCCESS, w') ->
  exists w1 l, tls_setup fuel w1 = Ret (SUCCESS, w') /\ log w1 = log w ++ l /\
    tlsConnectParams w1 = default (tlsConnectParams w) p.
Proof.
  intros Hrun. rw /iot_tls_connect in Hrun. apply bind_inv in Hrun as (u & w1 & H1 & Hrun).
  assert (Hw1 : log w1 = log w /\ tlsConnectParams w1 = default (tlsConnectParams w) p).
  { destruct p; injection H1 as _ <-; done. }
  destruct Hw1 as [Hl1 Hp1]. clear H1.
  apply bind_inv in Hrun as (u2 & w2 & H2 & Hrun). apply mbed_all_log in H2 as [Hp2 (l2 & Hl2 & _)].
  apply mbed_check_log in Hrun as (w3 & Hrun & Hp3 & Hl3); [|done].
  apply bind_inv in Hrun as (w0 & w4 & Hget & Hrun). injection Hget as <- <-. cbv zeta in Hrun.
  apply bind_inv in Hrun as (ca & w4 & Hca & Hrun). apply lift_option_inv in Hca as [_ ->].
  apply bind_inv in Hrun as (r5 & w5 & H5 & Hrun). apply mbed_log in H5 as [Hp5 Hl5].
  destruct (r5 <? 0); [discriminate Hrun|].
  apply mbed_check_log in Hrun as (w6 & Hrun & Hp6 & Hl6); [|done].
  apply mbed_check_log in Hrun as (w7 & Hrun & Hp7 & Hl7); [|done].
  apply bind_inv in Hrun as (r8 & w8 & H8 & Hrun). apply mbed_log in H8 as [Hp8 Hl8].
  destruct (negb (r8 =? 0)).
  { exfalso. injection Hrun as Hrc _. move: Hrc. rw /net_connect_error. by repeat case_match. }
  exists w8. rw Hl8 Hl7 Hl6 Hl5 Hl3 Hl2 Hl1 -!app_assoc. eexists. split; [done|]. split; [done|]. congruence.
Qed.
End Log.

(** ** A library for the concrete runs *)

(** A clock that advances by a step at every reading, chunks of bytes to read, the
    results of the next writes (then everything is accepted), and what was written. *)
Record mbed_sim := MbedSim {
  ms_now : Z; ms_step : Z; ms_in : list Z; ms_writes : list Z; ms_out : list Z }.

#[export] Instance mbed_sim_mbedtls : Mbedtls mbed_sim := {
  mb_time := fun e => Ret (sim_time (ms_now e),
    MbedSim (ms_now e + Z.max 0 (ms_step e)) (ms_step e) (ms_in e) (ms_writes e) (ms_out e));
  mb_memory := fun _ => sim_memory;
  mb_call := fun _ e => Ret (0, e);
  mbedtls_ssl_read := fun n e =>
    if decide (ms_in e = []) then Ret (SslCode MBEDTLS_ERR_SSL_TIMEOUT, e)
    else Ret (SslBytes (take (Z.to_nat n) (ms_in e)),
           MbedSim (ms_now e) (ms_step e) (drop (Z.to_nat n) (ms_in e)) (ms_writes e) (ms_out e));
  mbedtls_ssl_write := fun bs n e =>
    let k := Z.min n (default n (head (ms_writes e))) in
    Ret (k, MbedSim (ms_now e) (ms_step e) (ms_in e) (tail (ms_writes e)) (ms_out e ++ take (Z.to_nat k) bs)) }.

#[export] Program Instance mbed_sim_laws : MbedtlsLaws mbed_sim := {
  ml_clock := ms_now; ml_sent := ms_out; ml_received := ms_in }.
Next Obligation.
  intros e now e' Hr. injection Hr as <- <-. split; [apply sim_time_valid|]. split; [apply sim_time_usecs|].
  cbn. split; [lia|done].
Qed.
Next Obligation. intros bs n e r e' Hr. injection Hr as <- <-. cbn. split; [lia|]. split; [done|lia]. Qed.
Next Obligation.
  intros n e r e' Hn. cbn. case_decide as Hin; intros [= <- <-]; cbn [ssl_ret ssl_stored ms_in app].
  - split; [rw /MBEDTLS_ERR_SSL_TIMEOUT; lia|]. split; [done|]. intros c [= <-]. by rw /MBEDTLS_ERR_SSL_TIMEOUT.
  - rw take_drop length_take. split; [lia|]. by split.
Qed.
Next Obligation. intros c e r e' Hr. by injection Hr as _ <-. Qed.

Definition tls_demo (step : Z) (input writes : list Z) : tls mbed_sim :=
  Tls (MkTLSParams (App 1) (App 1) (App 1) (App 2) 8883 5000 true) 0 (MbedSim 5000000 step input writes []).

(** ** Properties *)

(** C20: a read of the TLS network. The bytes it stores are the next bytes of the
    stream; success means that exactly the requested number of them was read and
    reported, "nothing to read" that none was, a timeout that some but not all of them
    were taken from the stream, and there are no other results but the read error. *)
Theorem tls_read_exact {E} `{!Mbedtls E} `{!MbedtlsLaws E} fuel n t (w w' : tls E) r :
  0 <= n < 2 ^ 32 -> iot_tls_read fuel n t w = Ret (r, w') ->
  let k := Z.of_nat (length (rd_bytes r)) in
  ml_received (tls_env w) = rd_bytes r ++ ml_received (tls_env w') /\
  match rd_rc r with
  | SUCCESS => k = n /\ rd_len r = Some n
  | NETWORK_SSL_NOTHING_TO_READ => k = 0
  | NETWORK_SSL_READ_TIMEOUT_ERROR => 0 < k < n
  | NETWORK_SSL_READ_ERROR => k <= n
  | _ => False
  end.
Proof.
  intros Hn Hrun k. rw /iot_tls_read in Hrun. apply bind_inv in Hrun as ([stored res] & w1 & Hloop & Hrun).
  apply (tls_read_loop_spec t n) in Hloop as (more & -> & Hrecv & Hle & Hres); [|lia|done|lia|lia].
  injection Hrun as <- <-. cbn [app] in *. subst k.
  destruct res as [[rx len]|]; [|done]. destruct (Hres rx len eq_refl) as [Hrx Hsum].
  destruct (Z.eqb_spec len 0) as [->|Hlen]; cbn [rd_rc rd_bytes rd_len].
  { split; [done|]. split; [lia|]. f_equal. lia. }
  destruct (Z.eqb_spec rx 0); cbn [rd_rc rd_bytes]; (split; [done|lia]).
Qed.

(** Three of four bytes arrive before the timeout. *)
Lemma tls_read_exact_witness :
  exists w', iot_tls_read 10 4 (MkTimer (Timeval 5 50)) (tls_demo 20 [1; 2; 3] []) =
      Ret (ReadResult NETWORK_SSL_READ_TIMEOUT_ERROR [1; 2; 3] None, w') /\
    [1; 2; 3] = [1; 2; 3] ++ ml_received (tls_env w') /\ 0 < Z.of_nat (length [1; 2; 3]) < 4.
Proof.
  assert (Hrun : exists w', iot_tls_read 10 4 (MkTimer (Timeval 5 50)) (tls_demo 20 [1; 2; 3] []) =
    Ret (ReadResult NETWORK_SSL_READ_TIMEOUT_ERROR [1; 2; 3] None, w')) by (eexists; vm_compute; reflexivity).
  destruct Hrun as [w' Hrun]. exists w'. split; [exact Hrun|].
  exact (tls_read_exact 10 4 _ _ _ _ ltac:(lia) Hrun).
Defined.

(** A write of the TLS network that returns success reports the length it was
    given, and, when its timer has not expired meanwhile, the library has accepted
    exactly the bytes of the message, in order. *)
Theorem tls_write_complete {E} `{!Mbedtls E} `{!MbedtlsLaws E} fuel msg n t (w w' : tls E) k :
  0 <= n < 2 ^ 32 -> iot_tls_write fuel msg n t w = Ret ((SUCCESS, k), w') ->
  k = Some n /\
  (~ late t (tls_env w') -> ml_sent (tls_env w') = ml_sent (tls_env w) ++ take (Z.to_nat n) msg).
Proof. apply tls_write_spec. Qed.

(** A message that is accepted in two parts. *)
Lemma tls_write_complete_witness :
  exists w', iot_tls_write 10 [1; 2; 3; 4] 4 (MkTimer (Timeval 6 0)) (tls_demo 20 [] [MBEDTLS_ERR_SSL_WANT_WRITE; 3]) =
      Ret ((SUCCESS, Some 4), w') /\ ml_sent (tls_env w') = [1; 2; 3; 4].
Proof.
  assert (Hrun : exists w', iot_tls_write 10 [1; 2; 3; 4] 4 (MkTimer (Timeval 6 0))
      (tls_demo 20 [] [MBEDTLS_ERR_SSL_WANT_WRITE; 3]) = Ret ((SUCCESS, Some 4), w') /\ ms_now (tls_env w') = 5000120)
    by (eexists; split; vm_compute; reflexivity).
  destruct Hrun as (w' & Hrun & Hnow). exists w'. split; [exact Hrun|].
  refine (proj2 (tls_write_complete 10 [1; 2; 3; 4] 4 _ _ _ _ _ Hrun) _); [lia|].
  rw /late /=. rw Hnow. by vm_compute.
Defined.

(** When the timer expires between the two tests of it, the variable [ret] still holds
    the result of the previous write and is added again: success is reported although
    only the first half of the message was accepted. *)
Theorem tls_write_half_sent :
  exists w', iot_tls_write 10 [1; 2; 3; 4] 4 (MkTimer (Timeval 5 50)) (tls_demo 20 [] [2]) = Ret ((SUCCESS, Some 4), w') /\
    ml_sent (tls_env w') = [1; 2].
Proof. eexists. split; vm_compute; reflexivity. Qed.

(** C21: a TLS connection with server verification is reported as established only
    when, in this order, the library was told to require the verification, the
    handshake was completed, and the result of the verification was asked for and
    contained no failure. *)
Theorem tls_connect_verified {E} `{!Mbedtls E} fuel p (w w' : tls logged) :
  tp_ServerVerificationFlag (default (tlsConnectParams w) p) = true ->
  iot_tls_connect fuel p w = Ret (SUCCESS, w') ->
  tls_flags w' = 0 /\ exists l1 r l2 l3 flags l4, u32 flags = 0 /\
    log w' = log w ++ l1 ++ [(mbedtls_ssl_conf_authmode true, r)] ++ l2 ++ [(mbedtls_ssl_handshake, 0)] ++
             l3 ++ [(mbedtls_ssl_get_verify_result, flags)] ++ l4.
Proof.
  intros Hflag Hrun. apply connect_log in Hrun as (w1 & l & Hrun & Hl & Hp).
  apply setup_log in Hrun as [Hf (l1 & r & l2 & l3 & flags & l4 & Hz & Hlog)]; [|by rw Hp].
  split; [done|]. exists (l ++ l1), r, l2, l3, flags, l4. split; [done|]. by rw Hlog Hl -!app_assoc.
Qed.

Definition tls_demo_logged : tls (logged (E := mbed_sim)) :=
  Tls (MkTLSParams (App 1) (App 1) (App 1) (App 2) 8883 5000 true) 0 (MbedSim 5000000 20 [] [] [], []).

Lemma tls_connect_verified_witness :
  exists w', iot_tls_connect 10 None tls_demo_logged = Ret (SUCCESS, w') /\ tls_flags w' = 0.
Proof.
  assert (Hrun : exists w', iot_tls_connect 10 None tls_demo_logged = Ret (SUCCESS, w')) by (eexists; vm_compute; reflexivity).
  destruct Hrun as [w' Hrun]. exists w'. split; [exact Hrun|].
  exact (proj1 (tls_connect_verified 10 None tls_demo_logged w' eq_refl Hrun)).
Defined.
