(* ===== verification/Stack.v ===== *)
(** * The client over TLS

    The client of [Api.v] on the platform of [Tls.v]: the theorems on the client are
    proved against the interface [Platform] and its laws, the wrapper discharges the
    laws, and together they describe what an application sends over the TLS
    connection. *)
From S2P Require Import Prelude Buffer Types Wire Packets Timer Topic Client Sim Transport.
From S2P Require Import Publish Subscribe Unsubscribe Connect Yield Api Tls.

Section Stack.
Context {E : Type} `{!Mbedtls E} `{!MbedtlsLaws E} (fuel : nat).

#[local] Instance stack_platform : Platform (tls E) := tls_platform fuel.
#[local] Instance stack_read_codes : ReadCodes (tls E) := tls_read_codes fuel.
#[local] Instance stack_writes_all : WritesAll (tls E) := tls_writes_all fuel.
#[local] Instance stack_time_memory : TimeKeepsMemory (tls E) := tls_time_memory fuel.

(** A platform whose clock and network are those of TLS: [tls_of] is the part of its world
    that belongs to them. *)
Class OnTls (V : Type) `{!Platform V} (tls_of : V -> tls E) : Prop := {
  ot_time v now v' : gettimeofday v = Ret (now, v') -> gettimeofday (tls_of v) = Ret (now, tls_of v');
  ot_write bs n t v r v' : net_write bs n t v = Ret (r, v') -> net_write bs n t (tls_of v) = Ret (r, tls_of v') }.

(** Bytes the library has accepted so far. *)
Definition sent_bytes (w : tls E) : list Z := ml_sent (tls_env w).

Section OnTls.
Context {V : Type} `{!Platform V} `{!Application V} (tls_of : V -> tls E) `{!OnTls V tls_of} `{!TimeKeepsMemory V}.

Lemma on_tls_writes_all : WritesAll V.
Proof. intros bs n t v k v' Hn Hw. apply ot_write in Hw. by eapply writes_all. Qed.

(** One write of a packet over TLS. *)
Lemma send_once_over_tls n t (s s' : sys V) : 0 <= n < 2 ^ 32 ->
  send_once n t s = Ret (SUCCESS, s') ->
  ~ late t (tls_env (tls_of (world s'))) ->
  sent_bytes (tls_of (world s')) = sent_bytes (tls_of (world s)) ++ take (Z.to_nat n) (writeBuf (clientData (client s))).
Proof.
  intros Hn Hrun Hlate. rw /send_once in Hrun. apply bind_inv in Hrun as (e & s1 & He & Hrun).
  rw /expired in He. apply bind_inv in He as (now & s0 & Hnow & He). injection He as <- <-.
  apply on_world_inv in Hnow as [Hnow Hc]. apply (ot_time (tls_of := tls_of)), on_env_inv in Hnow as (e1 & Hnow & Hw0).
  apply ml_time in Hnow as (_ & _ & _ & Hsent & _ & _).
  destruct (has_timer_expired now t); [discriminate Hrun|].
  apply bind_inv in Hrun as (c & s2 & Hget & Hrun). injection Hget as <- <-.
  apply bind_inv in Hrun as ([rc k] & s2 & Hw & Hrun). apply on_world_inv in Hw as [Hw _].
  injection Hrun as Hrc <-. destruct (decide (rc = SUCCESS)) as [->|]; [|discriminate Hrc].
  apply (ot_write (tls_of := tls_of)), tls_write_spec in Hw as [_ Hw]; [|done]. rw /sent_bytes (Hw Hlate) Hc Hw0. cbn [tls_env]. by rw Hsent.
Qed.

(** A publish at QoS 0 of an idle client. *)
Lemma publish_sent n (s s' : sys V) pT tl msg msg' topic payload : (0 < n)%nat ->
  can_publish (clientState (clientStatus (client s))) -> pT <> NULL -> 0 <> tl -> msg_qos msg = QOS0 ->
  publish_request s pT tl msg topic payload ->
  aws_iot_mqtt_publish n TheClient pT tl (Some msg) s = Ret ((SUCCESS, msg'), s') ->
  exists now, usecs now = ml_clock (tls_env (tls_of (world s))) /\
    (~ late (countdown_ms now (commandTimeoutMs (clientData (client s)))) (tls_env (tls_of (world s'))) ->
     sent_bytes (tls_of (world s')) =
       sent_bytes (tls_of (world s)) ++ publish_packet 0 QOS0 (msg_isRetained msg) (msg_id msg) topic payload).
Proof.
  intros Hf Hst HpT Htl Hqos Hreq. pose proof on_tls_writes_all as Hwa.
  rw (publish_qos0_spec n s pT tl msg topic payload Hf Hst HpT Htl Hqos Hreq). intros Hrun.
  set (pkt := publish_packet _ _ _ _ _ _) in *.
  apply bind_inv in Hrun as (t & s1 & Ht & Hrun). rw /start_ms in Ht.
  apply bind_inv in Ht as (now & s0 & Hnow & Ht). injection Ht as <- <-.
  apply on_world_inv in Hnow as [Hnow Hc]. apply (ot_time (tls_of := tls_of)), on_env_inv in Hnow as (e1 & Hnow & Hw0).
  apply ml_time in Hnow as (_ & Hu & _ & Hsent & _ & _). exists now. split; [done|]. intros Hlate.
  apply bind_inv in Hrun as (u & s2 & Hmod & Hrun). injection Hmod as _ <-.
  apply bind_inv in Hrun as (rc & s3 & Hsend & Hrun). injection Hrun as -> _ <-.
  destruct (request_packet_length _ _ _ _ _ _ Hreq) as [Hpos Hlt].
  assert (Hpkt : request_packet s msg topic payload = pkt).
  { rw /request_packet /with_id Hqos. by case_decide. }
  rw Hpkt /AWS_IOT_MQTT_TX_BUF_LEN in Hpos, Hlt.
  apply send_once_over_tls in Hsend; [|lia|done]. rw Hsend. cbn [client]. rw Nat2Z.id. f_equal.
  - rw /sent_bytes. cbn [world]. by rw Hw0 /= Hsent.
  - cbn. by rw take_app_length.
Qed.
End OnTls.

#[export] Instance tls_on_tls : OnTls (tls E) id.
Proof. by split. Qed.
End Stack.

(** Bytes the library has accepted, in a state of the client. *)
Definition sent {E} `{!Mbedtls E} `{!MbedtlsLaws E} (s : sys (tls E)) : list Z := sent_bytes (world s).

(** The resting-state invariant of the client holds over TLS: after any sequence
    of calls and whatever the library returns, the client is not left in the state of
    an operation in progress. *)
Corollary tls_client_rests {E} `{!Mbedtls E} `{!Application (tls E)} fuel n (s : sys (tls E)) :
  let P := tls_platform n in
  handlers_keep_state (tls E) -> reachable fuel s -> resting (clientState (clientStatus (client s))) = true.
Proof.
  intros P Hh Hr. pose proof (tls_read_codes (E := E) n) as Hc. exact (reachable_rests fuel s Hh Hr).
Qed.

(** ** Properties *)

(** C19: a QoS 0 publish of an idle client over TLS. When it returns success within
    the command timeout, the TLS library has accepted exactly the MQTT encoding of the
    message behind what it had accepted before. *)
Theorem publish_over_tls {E} `{!Mbedtls E} `{!MbedtlsLaws E} `{!Application (tls E)}
    fuel (s s' : sys (tls E)) pT tl msg msg' topic payload :
  let P := tls_platform fuel in
  (0 < fuel)%nat -> can_publish (clientState (clientStatus (client s))) ->
  pT <> NULL -> 0 <> tl -> msg_qos msg = QOS0 -> publish_request s pT tl msg topic payload ->
  aws_iot_mqtt_publish fuel TheClient pT tl (Some msg) s = Ret ((SUCCESS, msg'), s') ->
  exists now, usecs now = ml_clock (tls_env (world s)) /\
    (~ late (countdown_ms now (commandTimeoutMs (clientData (client s)))) (tls_env (world s')) ->
     sent s' = sent s ++ publish_packet 0 QOS0 (msg_isRetained msg) (msg_id msg) topic payload).
Proof.
  intros P. pose proof (tls_time_memory (E := E) fuel) as Htm. pose proof (tls_on_tls fuel) as Hon.
  exact (publish_sent fuel id fuel s s' pT tl msg msg' topic payload).
Qed.

#[local] Instance mbed_sim_application : Application (tls mbed_sim) := {
  app_handler := fun _ _ _ msg _ => mret msg;
  app_disconnect_handler := fun _ _ => mret tt }.

#[local] Instance mbed_sim_platform : Platform (tls mbed_sim) := tls_platform 10.

Definition stack_demo : sys (tls mbed_sim) :=
  Sys (sim_client CLIENT_STATE_CONNECTED_IDLE []) (tls_demo 20 [] []).

Lemma stack_demo_request :
  publish_request stack_demo (App 2) 3 (publish_demo_msg QOS0) [97; 47; 98] [104; 101; 108; 108; 111].
Proof.
  split; [apply sim_client_ok| |done|done]. split; try done; try (split; [done|by eexists]). by left.
Qed.

(** "hello" on the topic "a/b". *)
Lemma publish_over_tls_witness :
  exists s', aws_iot_mqtt_publish 10 TheClient (App 2) 3 (Some (publish_demo_msg QOS0)) stack_demo =
      Ret ((SUCCESS, Some (publish_demo_msg QOS0)), s') /\
    exists now, usecs now = 5000000 /\
      (~ late (countdown_ms now 20000) (tls_env (world s')) ->
       sent s' = [48; 10; 0; 3; 97; 47; 98; 104; 101; 108; 108; 111]).
Proof.
  assert (Hrun : exists s', aws_iot_mqtt_publish 10 TheClient (App 2) 3 (Some (publish_demo_msg QOS0)) stack_demo =
      Ret ((SUCCESS, Some (publish_demo_msg QOS0)), s')) by (eexists; vm_compute; reflexivity).
  destruct Hrun as [s' Hrun]. exists s'. split; [exact Hrun|].
  destruct (publish_over_tls 10 stack_demo s' (App 2) 3 (publish_demo_msg QOS0) (Some (publish_demo_msg QOS0))
    [97; 47; 98] [104; 101; 108; 108; 111] (Nat.lt_0_succ 9) (or_introl eq_refl) ltac:(discriminate)
    ltac:(discriminate) eq_refl stack_demo_request Hrun) as (now & Hu & Hsent).
  exists now. split; [exact Hu|]. intros Hl. rw (Hsent Hl). reflexivity.
Defined.
