(* ===== verification/Json.v ===== *)
(** * JSON values

    The functions of [src/aws_iot_json_utils.c] that read the value of a JSON token. A
    token is what the parser of [external_libs/jsmn] produces: a type and the bounds of
    its text. *)
From S2P Require Import Prelude Text Types.

Inductive jsmntype_t := JSMN_UNDEFINED | JSMN_OBJECT | JSMN_ARRAY | JSMN_STRING | JSMN_PRIMITIVE.
#[export] Instance jsmntype_eq_dec : EqDecision jsmntype_t.
Proof. solve_decision. Defined.

Record jsmntok_t := MkTok { tok_type : jsmntype_t; tok_start : Z; tok_end : Z; tok_size : Z }.

(** The conversion to [int], reducing modulo 2^32. *)
Definition s32 (z : Z) : Z := (z + 2 ^ 31) mod 2 ^ 32 - 2 ^ 31.

(** ** Access to the text *)

(** [jsonString[i]] and the bytes from [jsonString + i] on. *)
Definition text_at (json : list Z) (i : Z) : outcome Z :=
  if decide (i < 0) then Exn (Fault OobRead)
  else match json !! Z.to_nat i with Some b => Ret b | None => Exn (Fault OobRead) end.
Definition text_from (json : list Z) (i : Z) : outcome (list Z) :=
  if decide (0 <= i <= Z.of_nat (length json)) then Ret (drop (Z.to_nat i) json) else Exn (Fault OobRead).

(** ** Integer conversions of [sscanf] *)

Definition is_space (b : Z) : bool := (b =? 32) || ((9 <=? b) && (b <=? 13)).

Fixpoint skip_space (s : list Z) : list Z :=
  match s with b :: s' => if is_space b then skip_space s' else s | [] => [] end.

(** The value of a digit, if [b] is one below [base]. *)
Definition digit (base b : Z) : option Z :=
  let v := if (48 <=? b) && (b <=? 57) then b - 48
           else if (97 <=? b) && (b <=? 102) then b - 87
           else if (65 <=? b) && (b <=? 70) then b - 55
           else base in
  if v <? base then Some v else None.

(** The longest sequence of digits: its value, from [acc] on. *)
Fixpoint scan_digits (base acc : Z) (s : list Z) : Z :=
  match s with
  | b :: s' => match digit base b with Some v => scan_digits base (acc * base + v) s' | None => acc end
  | [] => acc
  end.

(** A sequence of at least one digit. *)
Definition scan_number (base : Z) (s : list Z) : option Z :=
  match s with
  | b :: _ => match digit base b with Some _ => Some (scan_digits base 0 s) | None => None end
  | [] => None
  end.

Definition scan_sign (s : list Z) : Z * list Z :=
  match s with
  | 45 :: s' => (-1, s')
  | 43 :: s' => (1, s')
  | _ => (1, s)
  end.

(** The digits of [%i]: hexadecimal after 0x, octal after 0, decimal otherwise. *)
Definition scan_i (s : list Z) : option Z :=
  match s with
  | 48 :: x :: s' => if (x =? 120) || (x =? 88) then scan_number 16 s' else scan_number 8 s
  | _ => scan_number 10 s
  end.

(** The integer a conversion [%u] or [%i] finds at the start of a C string, none when
    there is none. *)
Definition sscanf_u (text : list Z) : option Z :=
  let '(sg, s) := scan_sign (skip_space text) in Z.mul sg <$> scan_number 10 s.
Definition sscanf_i (text : list Z) : option Z :=
  let '(sg, s) := scan_sign (skip_space text) in Z.mul sg <$> scan_i s.

(** [sscanf(jsonString + start, ...)] reads a C string. A value that the object cannot
    represent is undefined behaviour. *)
Definition sscanf_int (conv : list Z -> option Z) (lo hi : Z) (json : list Z) (start : Z) :
    outcome (option Z) :=
  s ← text_from json start;
  match cstring s with
  | None => Exn (Fault OobRead)
  | Some text =>
      match conv text with
      | None => Ret None
      | Some v => if decide (lo <= v < hi) then Ret (Some v) else Exn (Fault BadConversion)
      end
  end.

(** ** The functions *)

(** The three functions differ in the width of the integer; the results are the return
    code and the value stored through the pointer, if any. *)
Definition parse_unsigned (w : Z) (json : list Z) (token : jsmntok_t) : outcome (IoT_Error_t * option Z) :=
  if decide (tok_type token <> JSMN_PRIMITIVE) then Ret (JSON_PARSE_ERROR, None)
  else
    c ← text_at json (tok_start token);
    if c =? 45 then Ret (JSON_PARSE_ERROR, None)
    else
      r ← sscanf_int sscanf_u 0 (2 ^ w) json (tok_start token);
      Ret (match r with Some v => (SUCCESS, Some v) | None => (JSON_PARSE_ERROR, None) end).
Definition parseUnsignedInteger32Value := parse_unsigned 32.
Definition parseUnsignedInteger16Value := parse_unsigned 16.
Definition parseUnsignedInteger8Value := parse_unsigned 8.

Definition parse_signed (w : Z) (json : list Z) (token : jsmntok_t) : outcome (IoT_Error_t * option Z) :=
  if decide (tok_type token <> JSMN_PRIMITIVE) then Ret (JSON_PARSE_ERROR, None)
  else
    r ← sscanf_int sscanf_i (- 2 ^ (w - 1)) (2 ^ (w - 1)) json (tok_start token);
    Ret (match r with Some v => (SUCCESS, Some v) | None => (JSON_PARSE_ERROR, None) end).
Definition parseInteger32Value := parse_signed 32.
Definition parseInteger16Value := parse_signed 16.
Definition parseInteger8Value := parse_signed 8.

(** Floating-point numbers stay uninterpreted: [scan] is the conversion [%f] or [%lf] of
    [sscanf], the number it finds at the start of a C string, if any. *)
Definition parse_real {R : Type} (scan : list Z -> option R) (json : list Z) (token : jsmntok_t) :
    outcome (IoT_Error_t * option R) :=
  if decide (tok_type token <> JSMN_PRIMITIVE) then Ret (JSON_PARSE_ERROR, None)
  else
    s ← text_from json (tok_start token);
    match cstring s with
    | None => Exn (Fault OobRead)
    | Some text => Ret (match scan text with Some v => (SUCCESS, Some v) | None => (JSON_PARSE_ERROR, None) end)
    end.
Definition parseFloatValue {R} := @parse_real R.
Definition parseDoubleValue {R} := @parse_real R.

(** The bytes at [i], [i + 1], ... are those of [word]; the comparison stops at the
    first difference. *)
Fixpoint text_is (json : list Z) (i : Z) (word : list Z) : outcome bool :=
  match word with
  | [] => Ret true
  | x :: word' =>
      c ← text_at json i;
      if c =? x then text_is json (i + 1) word' else Ret false
  end.

Definition parseBooleanValue (json : list Z) (token : jsmntok_t) : outcome (IoT_Error_t * option bool) :=
  if decide (tok_type token <> JSMN_PRIMITIVE) then Ret (JSON_PARSE_ERROR, None)
  else
    t ← text_is json (tok_start token) [116; 114; 117; 101];
    if t : bool then Ret (SUCCESS, Some true)
    else
      f ← text_is json (tok_start token) [102; 97; 108; 115; 101];
      if f : bool then Ret (SUCCESS, Some false) else Ret (JSON_PARSE_ERROR, None).

(** [buf] is the array the caller passes; the results are the return code and its
    contents afterwards. *)
Definition parseStringValue (buf json : list Z) (token : jsmntok_t) : outcome (IoT_Error_t * list Z) :=
  if decide (tok_type token <> JSMN_STRING) then Ret (JSON_PARSE_ERROR, buf)
  else
    let size := Z.to_nat (u16 (tok_end token - tok_start token)) in
    s ← text_from json (tok_start token);
    if decide (length s < size)%nat then Exn (Fault OobRead)
    else if decide (length buf < size + 1)%nat then Exn (Fault OobWrite)
    else Ret (SUCCESS, take size s ++ 0 :: drop (size + 1) buf).

(** [s] is the memory of the C string compared with; the result is 0 or -1. *)
Definition jsoneq (json : list Z) (tok : jsmntok_t) (s : list Z) : outcome Z :=
  if decide (tok_type tok = JSMN_STRING) then
    match cstring s with
    | None => Exn (Fault OobRead)
    | Some text =>
        if decide (Z.of_nat (length text) = tok_end tok - tok_start tok) then
          j ← text_from json (tok_start tok);
          same ← strncmp_eq (Z.to_nat (tok_end tok - tok_start tok)) j s;
          Ret (if same : bool then 0 else -1)
        else Ret (-1)
    end
  else Ret (-1).

(** ** Specification *)

(** No digit follows. *)
Definition ends_number (rest : list Z) : Prop := match rest with b :: _ => digit 10 b = None | [] => True end.

Lemma digit_10 d : 0 <= d < 10 -> digit 10 (48 + d) = Some d.
Proof.
  intros Hd. rw /digit. rw (proj2 (Z.leb_le 48 (48 + d))); [|lia]. rw (proj2 (Z.leb_le (48 + d) 57)); [|lia].
  cbn [andb]. replace (48 + d - 48) with d by lia. by rw (proj2 (Z.ltb_lt d 10)); [|lia].
Qed.

Lemma scan_digits_text ds rest acc : Forall (fun d => 0 <= d < 10) ds -> ends_number rest ->
  scan_digits 10 acc (digits_text ds ++ rest) = fold_left (fun a d => a * 10 + d) ds acc.
Proof.
  intros Hds Hrest. revert acc. induction Hds as [|d ds Hd _ IH]; intros acc.
  - destruct rest as [|b rest]; cbn; [done|]. cbn in Hrest. by rw Hrest.
  - cbn [digits_text fmap list_fmap app scan_digits fold_left]. by rw digit_10.
Qed.

Lemma scan_number_text ds rest : digits_ok ds -> ends_number rest ->
  scan_number 10 (digits_text ds ++ rest) = Some (digits_value ds).
Proof.
  intros [Hne Hds] Hrest. destruct ds as [|d ds]; [done|]. inversion Hds as [|? ? Hd Hds'].
  rw /scan_number. cbn [digits_text fmap list_fmap app]. rw digit_10 //. f_equal.
  exact (scan_digits_text (d :: ds) rest 0 Hds Hrest).
Qed.

Lemma digits_no_space ds rest : digits_ok ds -> skip_space (digits_text ds ++ rest) = digits_text ds ++ rest.
Proof.
  intros [Hne Hds]. destruct ds as [|d ds]; [done|]. inversion Hds as [|? ? Hd _]; subst. cbn.
  assert (is_space (48 + d) = false) as ->; [|done]. rw /is_space.
  rw (proj2 (Z.eqb_neq (48 + d) 32)); [|lia]. rw (proj2 (Z.leb_gt (48 + d) 13)); [|lia]. by rw andb_false_r.
Qed.

(** The character of a digit is not a sign. *)
Lemma scan_sign_digits ds rest : digits_ok ds -> scan_sign (digits_text ds ++ rest) = (1, digits_text ds ++ rest).
Proof.
  intros [Hne Hds]. destruct ds as [|d ds]; [done|]. inversion Hds as [|? ? Hd _]; subst.
  cbn [digits_text fmap list_fmap app]. assert (48 <= 48 + d < 58) as Hb by lia.
  revert Hb. generalize (48 + d). intros b Hb. rw /scan_sign.
  destruct b as [|b|b]; try done. do 6 (destruct b as [b|b|]; try done; try lia).
Qed.

Lemma sscanf_u_digits ds rest : digits_ok ds -> ends_number rest ->
  sscanf_u (digits_text ds ++ rest) = Some (digits_value ds).
Proof.
  intros Hds Hrest. rw /sscanf_u digits_no_space // scan_sign_digits // scan_number_text //. cbn [fmap option_fmap option_map].
  f_equal. lia.
Qed.

Lemma digit_8_none b : digit 10 b = None -> digit 8 b = None.
Proof.
  rw /digit. destruct ((48 <=? b) && (b <=? 57)) eqn:H1.
  - apply andb_prop in H1 as [Ha%Z.leb_le Hb%Z.leb_le]. rw (proj2 (Z.ltb_lt (b - 48) 10)); [|lia]. done.
  - intros _. destruct ((97 <=? b) && (b <=? 102)) eqn:H2.
    { apply andb_prop in H2 as [Ha%Z.leb_le Hb%Z.leb_le]. by rw (proj2 (Z.ltb_ge (b - 87) 8)); [|lia]. }
    destruct ((65 <=? b) && (b <=? 70)) eqn:H3; [|done].
    apply andb_prop in H3 as [Ha%Z.leb_le Hb%Z.leb_le]. by rw (proj2 (Z.ltb_ge (b - 55) 8)); [|lia].
Qed.

Lemma scan_i_digits ds rest : canonical ds -> ends_number rest -> head rest <> Some 120 -> head rest <> Some 88 ->
  scan_i (digits_text ds ++ rest) = Some (digits_value ds).
Proof.
  intros [Hds Hz] Hrest Hx HX. pose proof Hds as [Hne Hall]. destruct ds as [|d ds]; [done|].
  inversion Hall as [|? ? Hd _]; subst.
  destruct (decide (d = 0)) as [->|Hd0].
  - specialize (Hz eq_refl). injection Hz as ->. destruct rest as [|x rest]; [done|].
    change (scan_i (48 :: x :: rest) = Some 0). cbn [scan_i].
    assert (x <> 120 /\ x <> 88) as [Hx1 Hx2] by (cbn in *; split; congruence).
    rw (proj2 (Z.eqb_neq x 120)) // (proj2 (Z.eqb_neq x 88)) //. cbn [orb].
    rw /scan_number. change (digit 8 48) with (Some 0).
    cbn [scan_digits]. change (digit 8 48) with (Some 0). by rw (digit_8_none x).
  - rw -(scan_number_text (d :: ds) rest) //. cbn [digits_text fmap list_fmap app].
    assert (49 <= 48 + d < 58) as Hb by lia. revert Hb. generalize (48 + d). intros b Hb. rw /scan_i.
    destruct b as [|b|b]; try done. do 6 (destruct b as [b|b|]; try done; try lia).
Qed.

Lemma digits_value_nonneg ds : Forall (fun d => 0 <= d < 10) ds -> 0 <= digits_value ds.
Proof.
  rw /digits_value. assert (Hgen : forall acc, 0 <= acc -> Forall (fun d => 0 <= d < 10) ds ->
    0 <= fold_left (fun a d => a * 10 + d) ds acc); [|intros; by apply Hgen].
  induction ds as [|d ds IH]; intros acc Hacc Hds; [done|]. inversion Hds as [|? ? Hd Hds']; subst.
  cbn [fold_left]. apply IH; [lia|done].
Qed.

Lemma text_from_run json i s : 0 <= i <= Z.of_nat (length json) -> drop (Z.to_nat i) json = s -> text_from json i = Ret s.
Proof. intros Hi Hs. rw /text_from decide_True //. by rw Hs. Qed.

Lemma text_at_run json i b s : 0 <= i -> drop (Z.to_nat i) json = b :: s -> text_at json i = Ret b.
Proof.
  intros Hi Hs. rw /text_at decide_False; [|lia].
  assert (json !! Z.to_nat i = Some b) as ->; [|done].
  apply (f_equal (fun l => l !! 0%nat)) in Hs. by rw lookup_drop Nat.add_0_r in Hs.
Qed.

(** ** Properties *)

(** The integer readers on a token that is a decimal number without leading zeros. *)
Lemma parse_integer_tokens w json tok (neg : bool) ds rest tail :
  tok_type tok = JSMN_PRIMITIVE -> 0 <= tok_start tok <= Z.of_nat (length json) ->
  drop (Z.to_nat (tok_start tok)) json = (if neg then [45] else []) ++ digits_text ds ++ rest ->
  canonical ds -> cstring rest = Some tail -> ends_number tail ->
  head tail <> Some 120 -> head tail <> Some 88 ->
  let v := if neg then - digits_value ds else digits_value ds in
  parse_signed w json tok =
    (if decide (- 2 ^ (w - 1) <= v < 2 ^ (w - 1)) then Ret (SUCCESS, Some v) else Exn (Fault BadConversion)) /\
  parse_unsigned w json tok =
    (if neg then Ret (JSON_PARSE_ERROR, None)
     else if decide (v < 2 ^ w) then Ret (SUCCESS, Some v) else Exn (Fault BadConversion)).
Proof.
  intros Hty Hst Hdrop Hcan Hcs Hend Hx HX v. pose proof Hcan as [Hds _]. pose proof Hds as [Hne Hall].
  rw /parse_signed /parse_unsigned Hty. destruct (decide (JSMN_PRIMITIVE <> JSMN_PRIMITIVE)) as [Hd|_]; [by destruct Hd|].
  assert (Hc : cstring (digits_text ds ++ rest) = Some (digits_text ds ++ tail))
    by (apply cstring_app; [by apply digits_nonzero|done]).
  rw /sscanf_int. rw (text_from_run _ _ _ Hst Hdrop). cbn [mbind outcome_bind].
  destruct neg; cbn [app] in *.
  - assert (cstring (45 :: digits_text ds ++ rest) = Some (45 :: digits_text ds ++ tail)) as ->.
    { cbn [cstring]. case_decide; [done|]. by rw Hc. }
    split.
    + rw /sscanf_i. change (scan_sign (skip_space (45 :: ?l))) with (-1, l).
      cbv iota. rw scan_i_digits //. cbn [fmap option_fmap option_map].
      replace (-1 * digits_value ds) with v by (subst v; lia). by case_decide.
    + by erewrite text_at_run; [|lia|exact Hdrop].
  - rw Hc. destruct ds as [|d ds]; [done|]. inversion Hall as [|? ? Hd _]; subst.
    split.
    + rw /sscanf_i digits_no_space // scan_sign_digits // scan_i_digits //. cbn [fmap option_fmap option_map].
      replace (1 * digits_value (d :: ds)) with v by (subst v; lia). by case_decide.
    + erewrite (text_at_run json _ (48 + d)); [|lia|exact Hdrop]. cbn [mbind outcome_bind].
      rw (proj2 (Z.eqb_neq (48 + d) 45)); [|lia]. rw sscanf_u_digits //.
      pose proof (digits_value_nonneg _ Hall) as Hnn. subst v.
      do 2 case_decide; try done; lia.
Qed.

(** *** Printed integers *)

(** Integers printed into a document and read back. Where a token designates the
    decimal text of an integer and no digit or hexadecimal marker follows, the signed
    and unsigned readers of every width return exactly that integer if the type can
    represent it; the unsigned readers refuse a negative number; a value outside of the
    range of the type is not detected. *)
Theorem printed_integer_read_back w z json tok rest tail :
  Z.abs z < 10 ^ 10 ->
  tok_type tok = JSMN_PRIMITIVE -> 0 <= tok_start tok <= Z.of_nat (length json) ->
  drop (Z.to_nat (tok_start tok)) json = print_int z ++ rest ->
  cstring rest = Some tail -> ends_number tail -> head tail <> Some 120 -> head tail <> Some 88 ->
  parse_signed w json tok =
    (if decide (- 2 ^ (w - 1) <= z < 2 ^ (w - 1)) then Ret (SUCCESS, Some z) else Exn (Fault BadConversion)) /\
  parse_unsigned w json tok =
    (if z <? 0 then Ret (JSON_PARSE_ERROR, None)
     else if decide (z < 2 ^ w) then Ret (SUCCESS, Some z) else Exn (Fault BadConversion)).
Proof.
  intros Hz Hty Hst Hdrop Hcs Hend Hx HX.
  destruct (print_int_digits z Hz) as (ds & Hcan & Hv & Hp). rw Hp -app_assoc in Hdrop.
  pose proof (parse_integer_tokens w json tok (z <? 0) ds rest tail Hty Hst Hdrop Hcan Hcs Hend Hx HX) as Hread.
  cbv zeta in Hread. rw Hv in Hread.
  by assert ((if z <? 0 then - Z.abs z else Z.abs z) = z) as Heq by (destruct (z <? 0) eqn:Hs; lia); rw Heq in Hread.
Qed.

(** The value -128 in the array [-128,true]. *)
Definition json_demo : list Z := [91; 45; 49; 50; 56; 44; 116; 114; 117; 101; 93; 0].
Lemma printed_integer_read_back_witness :
  parseInteger8Value json_demo (MkTok JSMN_PRIMITIVE 1 5 0) = Ret (SUCCESS, Some (-128)) /\
  parseUnsignedInteger8Value json_demo (MkTok JSMN_PRIMITIVE 1 5 0) = Ret (JSON_PARSE_ERROR, None).
Proof.
  refine (printed_integer_read_back 8 (-128) json_demo (MkTok JSMN_PRIMITIVE 1 5 0)
           [44; 116; 114; 117; 101; 93; 0] [44; 116; 114; 117; 101; 93] _ _ _ _ _ _ _ _);
    [simpl; lia|reflexivity|simpl; lia|reflexivity|reflexivity|reflexivity|discriminate|discriminate].
Defined.

(** Where the text of a token is. *)
Record tok_text (json : list Z) (tok : jsmntok_t) (text post : list Z) : Prop := TokText {
  tok_here : text_from json (tok_start tok) = Ret (text ++ post);
  tok_long : tok_end tok = tok_start tok + Z.of_nat (length text) }.

Lemma tok_text_intro tok pre text post :
  tok_start tok = Z.of_nat (length pre) -> tok_end tok = tok_start tok + Z.of_nat (length text) ->
  tok_text (pre ++ text ++ post) tok text post.
Proof.
  intros Hst Hen. split; [|done]. apply text_from_run; [rw Hst !length_app; lia|]. by rw Hst Nat2Z.id drop_app_length.
Qed.

Lemma jsoneq_run json tok text post s str : tok_text json tok text post -> tok_type tok = JSMN_STRING ->
  Forall (fun b => b <> 0) text -> cstring s = Some str -> jsoneq json tok s = Ret (if decide (text = str) then 0 else -1).
Proof.
  intros [Hfrom Hen] Hty Hnz Hs. assert (Hsize : tok_end tok - tok_start tok = Z.of_nat (length text)) by lia.
  rw /jsoneq Hty. destruct (decide (JSMN_STRING = JSMN_STRING)) as [_|Hd]; [|by destruct Hd].
  rw Hs Hsize Hfrom Nat2Z.id. destruct (decide (Z.of_nat (length str) = _)) as [Hl|Hl].
  + cbn [mbind outcome_bind]. apply cstring_spec in Hs as (junk & -> & Hstr).
    rw strncmp_eq_spec; [|done|lia]. cbn. case_bool_decide; case_decide; naive_solver.
  + case_decide as He; [|done]. subst. lia.
Qed.

(** String tokens. The reader stores exactly the text of the token and a final
    null, leaves the rest of the caller's array as it was, and writes behind the end
    of an array that is too small; the comparison returns 0 exactly when the text of
    the token is the given string. *)
Theorem json_strings json tok pre text post buf s str :
  tok_type tok = JSMN_STRING -> json = pre ++ text ++ post ->
  tok_start tok = Z.of_nat (length pre) -> tok_end tok = tok_start tok + Z.of_nat (length text) ->
  Z.of_nat (length text) < 2 ^ 16 -> Forall (fun b => b <> 0) text -> cstring s = Some str ->
  parseStringValue buf json tok =
    (if decide (length text < length buf)%nat
     then Ret (SUCCESS, text ++ 0 :: drop (length text + 1) buf) else Exn (Fault OobWrite)) /\
  jsoneq json tok s = Ret (if decide (text = str) then 0 else -1).
Proof.
  intros Hty -> Hst Hen Hlen Hnz Hs. pose proof (tok_text_intro tok pre text post Hst Hen) as Htok.
  split; [|by eapply jsoneq_run]. destruct Htok as [Hfrom _].
  assert (Hsize : tok_end tok - tok_start tok = Z.of_nat (length text)) by lia.
  rw /parseStringValue Hty. destruct (decide (JSMN_STRING <> JSMN_STRING)) as [Hd|_]; [by destruct Hd|].
  rw Hfrom Hsize u16_small; [|width]. rw Nat2Z.id. cbn [mbind outcome_bind].
  rw decide_False; [|rw length_app; lia]. rw take_app_length.
  do 2 case_decide; try done; lia.
Qed.

(** The key of the object {"a":1}, read into an array of four bytes. *)
Lemma json_strings_witness :
  parseStringValue [9; 9; 9; 9] [123; 34; 97; 34; 58; 49; 125; 0] (MkTok JSMN_STRING 2 3 0) = Ret (SUCCESS, [97; 0; 9; 9]) /\
  jsoneq [123; 34; 97; 34; 58; 49; 125; 0] (MkTok JSMN_STRING 2 3 0) [97; 0] = Ret 0.
Proof.
  refine (json_strings [123; 34; 97; 34; 58; 49; 125; 0] (MkTok JSMN_STRING 2 3 0) [123; 34] [97] [34; 58; 49; 125; 0]
           [9; 9; 9; 9] [97; 0] [97] eq_refl eq_refl eq_refl eq_refl _ _ eq_refl); [simpl; lia|].
  repeat constructor. discriminate.
Defined.
