(* ===== verification/Jsmn.v ===== *)
(** * The JSON tokenizer

    [external_libs/jsmn/jsmn.c] as it is built here, without JSMN_STRICT and
    JSMN_PARENT_LINKS. *)
From S2P Require Import Prelude Types Json.

(** ** Data *)

Definition JSMN_ERROR_NOMEM : Z := -1.
Definition JSMN_ERROR_INVAL : Z := -2.
Definition JSMN_ERROR_PART : Z := -3.

Record jsmn_parser := MkParser { pos : Z; toknext : Z; toksuper : Z }.

(** The parser and the array of tokens, none for a null pointer. *)
Record jstate := MkJstate { parser : jsmn_parser; tokens : option (list jsmntok_t) }.

Definition set_pos (p : Z) (s : jstate) : jstate :=
  MkJstate (MkParser p (toknext (parser s)) (toksuper (parser s))) (tokens s).
Definition set_toknext (n : Z) (s : jstate) : jstate :=
  MkJstate (MkParser (pos (parser s)) n (toksuper (parser s))) (tokens s).
Definition set_toksuper (i : Z) (s : jstate) : jstate :=
  MkJstate (MkParser (pos (parser s)) (toknext (parser s)) i) (tokens s).
Definition set_tokens (t : option (list jsmntok_t)) (s : jstate) : jstate := MkJstate (parser s) t.

Definition with_type (ty : jsmntype_t) (t : jsmntok_t) : jsmntok_t := MkTok ty (tok_start t) (tok_end t) (tok_size t).
Definition with_start (z : Z) (t : jsmntok_t) : jsmntok_t := MkTok (tok_type t) z (tok_end t) (tok_size t).
Definition with_end (z : Z) (t : jsmntok_t) : jsmntok_t := MkTok (tok_type t) (tok_start t) z (tok_size t).
Definition with_size (z : Z) (t : jsmntok_t) : jsmntok_t := MkTok (tok_type t) (tok_start t) (tok_end t) z.

Definition get_pos : M jstate Z := gets (fun s => pos (parser s)).
Definition move (p : Z) : M jstate unit := modify (set_pos (u32 p)).

(** [tokens[i]], read and updated. *)
Definition tok_at (ts : list jsmntok_t) (i : Z) : option jsmntok_t := if decide (i < 0) then None else ts !! Z.to_nat i.
Definition get_tok (i : Z) : M jstate jsmntok_t :=
  ts ← gets tokens;
  match ts with
  | None => raise (Fault NullDeref)
  | Some ts => lift_option (Fault OobRead) (tok_at ts i)
  end.
Definition upd_tok (i : Z) (f : jsmntok_t -> jsmntok_t) : M jstate unit :=
  ts ← gets tokens;
  match ts with
  | None => raise (Fault NullDeref)
  | Some ts =>
      match tok_at ts i with
      | None => raise (Fault OobWrite)
      | Some t => modify (set_tokens (Some (<[Z.to_nat i := f t]> ts)))
      end
  end.
Definition no_tokens : M jstate bool := gets (fun s => bool_decide (tokens s = None)).

(** ** The parser *)

Definition jsmn_init (s : jstate) : jstate := MkJstate (MkParser 0 0 (-1)) (tokens s).

(** The index of a fresh token, none for a null pointer. *)
Definition jsmn_alloc_token (num_tokens : Z) : M jstate (option Z) :=
  i ← gets (fun s => toknext (parser s));
  if num_tokens <=? i then mret None
  else
    _ ← modify (set_toknext (u32 (i + 1)));
    _ ← upd_tok i (fun t => with_size 0 (with_start (-1) (with_end (-1) t)));
    mret (Some i).

Definition jsmn_fill_token (i : Z) (type : jsmntype_t) (start e : Z) : M jstate unit :=
  upd_tok i (fun _ => MkTok type (s32 start) (s32 e) 0).

Section parse.
Context (js : list Z) (len : Z) (num_tokens : Z).

(** [parser->pos < len && js[parser->pos] != '\0'], and [js[parser->pos]]. *)
Definition cur : M jstate Z := p ← get_pos; lift_outcome (text_at js p).
Definition more : M jstate bool :=
  p ← get_pos;
  if p <? len then c ← cur; mret (negb (c =? 0)) else mret false.

(** Characters that end a primitive. *)
Definition ends_primitive (c : Z) : bool :=
  (c =? 58) || (c =? 9) || (c =? 13) || (c =? 10) || (c =? 32) || (c =? 44) || (c =? 93) || (c =? 125).

(** The loop over a primitive; the result is false at a character that is not
    allowed. *)
Fixpoint primitive_loop (fuel : nat) : M jstate bool :=
  match fuel with
  | O => raise OutOfFuel
  | S fuel' =>
      m ← more;
      if m : bool then
        c ← cur;
        if ends_primitive c then mret true
        else if (c <? 32) || (127 <=? c) then mret false
        else p ← get_pos; _ ← move (p + 1); primitive_loop fuel'
      else mret true
  end.

Definition jsmn_parse_primitive : M jstate Z :=
  start ← get_pos;
  ok ← primitive_loop (S (length js));
  if ok : bool then
    nt ← no_tokens;
    if nt : bool then p ← get_pos; _ ← move (p - 1); mret 0
    else
      t ← jsmn_alloc_token num_tokens;
      match t with
      | None => _ ← move start; mret JSMN_ERROR_NOMEM
      | Some i =>
          p ← get_pos;
          _ ← jsmn_fill_token i JSMN_PRIMITIVE start p;
          _ ← move (p - 1);
          mret 0
      end
  else _ ← move start; mret JSMN_ERROR_INVAL.

Definition is_hex (c : Z) : bool :=
  ((48 <=? c) && (c <=? 57)) || ((65 <=? c) && (c <=? 70)) || ((97 <=? c) && (c <=? 102)).

(** At most [n] hexadecimal digits; false at another character. *)
Fixpoint hex_loop (n : nat) : M jstate bool :=
  match n with
  | O => mret true
  | S n' =>
      m ← more;
      if m : bool then
        c ← cur;
        if is_hex c then p ← get_pos; _ ← move (p + 1); hex_loop n' else mret false
      else mret true
  end.

Definition is_escaped (c : Z) : bool :=
  (c =? 34) || (c =? 47) || (c =? 92) || (c =? 98) || (c =? 102) || (c =? 114) || (c =? 110) || (c =? 116).

(** The symbol behind a backslash; false when it is not allowed. *)
Definition escape : M jstate bool :=
  p ← get_pos; _ ← move (p + 1);
  e ← cur;
  if is_escaped e then mret true
  else if e =? 117 then
    p ← get_pos; _ ← move (p + 1);
    ok ← hex_loop 4;
    if ok : bool then p ← get_pos; _ ← move (p - 1); mret true else mret false
  else mret false.

Fixpoint string_loop (fuel : nat) (start : Z) : M jstate Z :=
  match fuel with
  | O => raise OutOfFuel
  | S fuel' =>
      m ← more;
      if m : bool then
        c ← cur;
        if c =? 34 then
          nt ← no_tokens;
          if nt : bool then mret 0
          else
            t ← jsmn_alloc_token num_tokens;
            match t with
            | None => _ ← move start; mret JSMN_ERROR_NOMEM
            | Some i => p ← get_pos; _ ← jsmn_fill_token i JSMN_STRING (start + 1) p; mret 0
            end
        else
          p ← get_pos;
          ok ← (if (c =? 92) && (u32 (p + 1) <? len) then escape else mret true);
          if ok : bool then p ← get_pos; _ ← move (p + 1); string_loop fuel' start
          else _ ← move start; mret JSMN_ERROR_INVAL
      else _ ← move start; mret JSMN_ERROR_PART
  end.

Definition jsmn_parse_string : M jstate Z :=
  start ← get_pos;
  _ ← move (start + 1);
  string_loop (S (length js)) start.

(** The searches from token [n - 1] down to token 0 for one that is not yet closed. *)
Definition is_open (t : jsmntok_t) : bool := negb (tok_start t =? -1) && (tok_end t =? -1).
Fixpoint last_such (P : jsmntok_t -> bool) (n : nat) : M jstate (option Z) :=
  match n with
  | O => mret None
  | S n' => t ← get_tok (Z.of_nat n'); if P t then mret (Some (Z.of_nat n')) else last_such P n'
  end.

(** [tokens[parser->toksuper].size++] under the guard of the callers. *)
Definition count_child : M jstate unit :=
  sup ← gets (fun s => toksuper (parser s));
  if decide (sup <> -1) then upd_tok sup (fun t => with_size (tok_size t + 1) t) else mret tt.

Definition open_bracket (c : Z) : M jstate Z :=
  nt ← no_tokens;
  if nt : bool then mret 0
  else
    t ← jsmn_alloc_token num_tokens;
    match t with
    | None => mret JSMN_ERROR_NOMEM
    | Some i =>
        _ ← count_child;
        _ ← upd_tok i (with_type (if c =? 123 then JSMN_OBJECT else JSMN_ARRAY));
        p ← get_pos;
        _ ← upd_tok i (with_start (s32 p));
        n ← gets (fun s => toknext (parser s));
        _ ← modify (set_toksuper (s32 (n - 1)));
        mret 0
    end.

Definition close_bracket (c : Z) : M jstate Z :=
  nt ← no_tokens;
  if nt : bool then mret 0
  else
    let type := if c =? 125 then JSMN_OBJECT else JSMN_ARRAY in
    n ← gets (fun s => toknext (parser s));
    i ← last_such is_open (Z.to_nat n);
    match i with
    | None => mret JSMN_ERROR_INVAL
    | Some i =>
        t ← get_tok i;
        if decide (tok_type t <> type) then mret JSMN_ERROR_INVAL
        else
          _ ← modify (set_toksuper (-1));
          p ← get_pos;
          _ ← upd_tok i (with_end (s32 (p + 1)));
          j ← last_such is_open (Z.to_nat (i + 1));
          match j with
          | Some j => _ ← modify (set_toksuper j); mret 0
          | None => mret 0
          end
    end.

(** The searches of a comma: a container that is not yet closed. *)
Definition is_container (t : jsmntok_t) : bool :=
  bool_decide (tok_type t = JSMN_ARRAY) || bool_decide (tok_type t = JSMN_OBJECT).
Definition comma : M jstate unit :=
  nt ← no_tokens;
  sup ← gets (fun s => toksuper (parser s));
  if nt : bool then mret tt
  else if decide (sup = -1) then mret tt
  else
    t ← get_tok sup;
    if is_container t then mret tt
    else
      n ← gets (fun s => toknext (parser s));
      i ← last_such (fun t => is_container t && is_open t) (Z.to_nat n);
      match i with Some i => modify (set_toksuper i) | None => mret tt end.

Definition count_value : M jstate unit :=
  nt ← no_tokens; if nt : bool then mret tt else count_child.

(** One turn of the main loop on the character [c]: an error code, or the number of
    tokens to count. *)
Definition jsmn_char (c : Z) : M jstate (Z + Z) :=
  if (c =? 123) || (c =? 91) then
    r ← open_bracket c; mret (if r <? 0 then inl r else inr 1)
  else if (c =? 125) || (c =? 93) then
    r ← close_bracket c; mret (if r <? 0 then inl r else inr 0)
  else if c =? 34 then
    r ← jsmn_parse_string;
    if r <? 0 then mret (inl r) else _ ← count_value; mret (inr 1)
  else if (c =? 9) || (c =? 13) || (c =? 10) || (c =? 32) then mret (inr 0)
  else if c =? 58 then
    n ← gets (fun s => toknext (parser s)); _ ← modify (set_toksuper (s32 (n - 1))); mret (inr 0)
  else if c =? 44 then _ ← comma; mret (inr 0)
  else
    r ← jsmn_parse_primitive;
    if r <? 0 then mret (inl r) else _ ← count_value; mret (inr 1).

(** The main loop; the results are an error code or the count. *)
Fixpoint jsmn_loop (fuel : nat) (count : Z) : M jstate (Z + Z) :=
  match fuel with
  | O => raise OutOfFuel
  | S fuel' =>
      m ← more;
      if m : bool then
        c ← cur;
        r ← jsmn_char c;
        match r with
        | inl e => mret (inl e)
        | inr d => p ← get_pos; _ ← move (p + 1); jsmn_loop fuel' (s32 (count + d))
        end
      else mret (inr count)
  end.

Definition jsmn_parse : M jstate Z :=
  count ← gets (fun s => toknext (parser s));
  r ← jsmn_loop (S (length js)) (s32 count);
  match r with
  | inl e => mret e
  | inr count =>
      nt ← no_tokens;
      if nt : bool then mret count
      else
        n ← gets (fun s => toknext (parser s));
        i ← last_such is_open (Z.to_nat n);
        match i with Some _ => mret JSMN_ERROR_PART | None => mret count end
  end.
End parse.

(** The tokens of an object of two members. *)
Example jsmn_example :
  let text := [123; 34; 97; 34; 58; 49; 44; 34; 98; 34; 58; 91; 50; 93; 125; 0] in
  let blank := MkTok JSMN_UNDEFINED 0 0 0 in
  (fun '(r, s) => (r, take 6 <$> tokens s)) <$>
    match jsmn_parse text 15 8 (jsmn_init (MkJstate (MkParser 7 7 7) (Some (replicate 8 blank)))) with
    | Ret x => Some x | Exn _ => None end =
  Some (6, Some [MkTok JSMN_OBJECT 0 15 2; MkTok JSMN_STRING 2 3 1; MkTok JSMN_PRIMITIVE 5 6 0;
                 MkTok JSMN_STRING 8 9 1; MkTok JSMN_ARRAY 11 14 1; MkTok JSMN_PRIMITIVE 12 13 0]).
Proof. vm_compute. reflexivity. Qed.

(** ** Runs of the parser on a C string *)

Lemma s32_small z : - 2 ^ 31 <= z < 2 ^ 31 -> s32 z = z.
Proof. intros Hz. rw /s32 Z.mod_small; lia. Qed.

(** The state at position [p] below the token [sup], where the tokens [used] are
    allocated and [rest] is the rest of the array. *)
Definition jst (p sup : Z) (used rest : list jsmntok_t) : jstate :=
  MkJstate (MkParser p (Z.of_nat (length used)) sup) (Some (used ++ rest)).

(** The pure counterpart of the searches. *)
Fixpoint find_last (P : jsmntok_t -> bool) (used : list jsmntok_t) (n : nat) : option Z :=
  match n with
  | O => None
  | S n' =>
      match used !! n' with
      | Some t => if P t then Some (Z.of_nat n') else find_last P used n'
      | None => None
      end
  end.

(** The size of the token [sup] is increased. *)
Definition bump (sup : Z) (used : list jsmntok_t) : list jsmntok_t :=
  match tok_at used sup with
  | Some t => <[Z.to_nat sup := with_size (tok_size t + 1) t]> used
  | None => used
  end.

Lemma length_bump sup used : length (bump sup used) = length used.
Proof. rw /bump. case_match; [apply length_insert|done]. Qed.

Lemma tok_at_app used rest i : 0 <= i < Z.of_nat (length used) -> tok_at (used ++ rest) i = tok_at used i.
Proof. intros Hi. rw /tok_at. case_decide; [done|]. rw lookup_app_l //. lia. Qed.

Lemma tok_at_lookup used i : 0 <= i < Z.of_nat (length used) -> exists t, tok_at used i = Some t /\ used !! Z.to_nat i = Some t.
Proof.
  intros Hi. rw /tok_at decide_False; [|lia]. destruct (lookup_lt_is_Some_2 used (Z.to_nat i)) as [t Ht]; [lia|].
  by exists t.
Qed.

Lemma get_tok_run p sup used rest i t : 0 <= i < Z.of_nat (length used) -> tok_at used i = Some t ->
  get_tok i (jst p sup used rest) = Ret (t, jst p sup used rest).
Proof. intros Hi Ht. rw /get_tok /mbind /M_bind /gets. cbn [tokens jst]. by rw tok_at_app // Ht. Qed.

Lemma upd_tok_run p sup used rest i t f : 0 <= i < Z.of_nat (length used) -> tok_at used i = Some t ->
  upd_tok i f (jst p sup used rest) = Ret (tt, jst p sup (<[Z.to_nat i := f t]> used) rest).
Proof.
  intros Hi Ht. rw /upd_tok /mbind /M_bind /gets. cbn [tokens jst]. rw tok_at_app // Ht /modify /set_tokens /=.
  rw insert_app_l; [|lia]. by rw /jst length_insert.
Qed.

Lemma count_child_run p sup used rest : -1 <= sup < Z.of_nat (length used) ->
  count_child (jst p sup used rest) = Ret (tt, jst p sup (bump sup used) rest).
Proof.
  intros Hsup. rw /count_child /mbind /M_bind /gets. cbn [parser toksuper jst]. rw /bump.
  case_decide as Hd.
  - destruct (tok_at_lookup used sup) as (t & Ht & _); [lia|]. by rw Ht (upd_tok_run _ _ _ _ _ t) //; lia.
  - assert (sup = -1) as -> by lia. done.
Qed.

Lemma last_such_run P p sup used rest n : (n <= length used)%nat ->
  last_such P n (jst p sup used rest) = Ret (find_last P used n, jst p sup used rest).
Proof.
  induction n as [|n IH]; intros Hn; [done|]. cbn [last_such find_last].
  destruct (lookup_lt_is_Some_2 used n) as [t Ht]; [lia|].
  rw /mbind /M_bind (get_tok_run _ _ _ _ _ t); [|lia|].
  - rw Ht. destruct (P t); [done|]. apply IH. lia.
  - rw /tok_at decide_False; [|lia]. by rw Nat2Z.id.
Qed.

Lemma find_last_some P used n i : find_last P used n = Some i ->
  0 <= i < Z.of_nat n /\ exists t, tok_at used i = Some t /\ P t = true.
Proof.
  induction n as [|n IH]; [done|]. cbn [find_last]. destruct (used !! n) as [t|] eqn:Ht; [|done].
  destruct (P t) eqn:HP; [|intros (Hi & Ht')%IH; split; [lia|done]].
  intros [= <-]. split; [lia|]. exists t. rw /tok_at decide_False; [|lia]. by rw Nat2Z.id.
Qed.

Lemma find_last_none P used n : (n <= length used)%nat -> find_last P used n = None ->
  Forall (fun t => P t = false) (take n used).
Proof.
  induction n as [|n IH]; [intros; constructor|]. intros Hn. cbn [find_last].
  destruct (lookup_lt_is_Some_2 used n) as [t Ht]; [lia|]. rw Ht. destruct (P t) eqn:HP; [done|].
  intros Hf. erewrite take_S_r; [|done]. apply Forall_app. split; [apply IH; [lia|done]|by constructor].
Qed.

(** Allocation of a token. *)
Lemma alloc_run p sup used rest num : num <= Z.of_nat (length used + length rest) -> num < 2 ^ 32 ->
  jsmn_alloc_token num (jst p sup used rest) =
    if num <=? Z.of_nat (length used) then Ret (None, jst p sup used rest)
    else match rest with
         | [] => Exn (Fault OobWrite)
         | r :: rest' => Ret (Some (Z.of_nat (length used)), jst p sup (used ++ [MkTok (tok_type r) (-1) (-1) 0]) rest')
         end.
Proof.
  intros Hnum Hmax. rw /jsmn_alloc_token /mbind /M_bind /gets. cbn [parser toknext jst].
  destruct (num <=? _) eqn:Hle; [done|]. apply Z.leb_gt in Hle.
  destruct rest as [|r rest]; [cbn [length] in Hnum; lia|].
  rw /modify /set_toknext u32_small; [|width]. cbn [parser pos toksuper tokens jst].
  assert (Hj : MkJstate (MkParser p (Z.of_nat (length used) + 1) sup) (Some (used ++ r :: rest)) =
    jst p sup (used ++ [r]) rest).
  { rw /jst length_app -app_assoc. cbn [length app]. do 2 f_equal. lia. }
  rw Hj. rw (upd_tok_run _ _ _ _ _ r); [|rw length_app; cbn [length]; lia|].
  - rw Nat2Z.id insert_app_r_alt // Nat.sub_diag. by cbn.
  - rw /tok_at decide_False; [|lia]. by rw Nat2Z.id list_lookup_middle.
Qed.

Lemma bump_app sup used l : -1 <= sup < Z.of_nat (length used) -> bump sup (used ++ l) = bump sup used ++ l.
Proof.
  intros Hs. rw /bump. destruct (decide (sup = -1)) as [->|Hne]; [done|]. rw tok_at_app; [|lia].
  destruct (tok_at used sup); [|done]. by rw insert_app_l; [|lia].
Qed.

Lemma upd_last_run p sup used t rest f :
  upd_tok (Z.of_nat (length used)) f (jst p sup (used ++ [t]) rest) = Ret (tt, jst p sup (used ++ [f t]) rest).
Proof.
  rw (upd_tok_run _ _ _ _ _ t); [|rw length_app; cbn [length]; lia|].
  - by rw Nat2Z.id insert_app_r_alt // Nat.sub_diag.
  - rw /tok_at decide_False; [|lia]. by rw Nat2Z.id list_lookup_middle.
Qed.

Lemma find_open_default used' n : -1 <= default (-1) (find_last is_open used' n) < Z.of_nat n.
Proof. destruct (find_last is_open used' n) as [i|] eqn:Hf; cbn; [|lia]. apply find_last_some in Hf as [? _]. lia. Qed.

Section run.
Context (text junk : list Z) (num : Z).
Hypothesis Htext : Forall (fun b => b <> 0) text.
Hypothesis Hlen : Z.of_nat (length text) < 2 ^ 31 - 1.
Hypothesis Hnum : 0 <= num < 2 ^ 31.

Definition doc_js : list Z := text ++ 0 :: junk.
Definition doc_len : Z := Z.of_nat (length text).
(** The character at [i]. *)
Definition at_char (i c : Z) : Prop := 0 <= i /\ text !! Z.to_nat i = Some c.

Lemma at_char_bound i c : at_char i c -> 0 <= i < doc_len.
Proof. intros [Hi Hc%lookup_lt_Some]. rw /doc_len. lia. Qed.

Lemma at_char_exists i : 0 <= i < doc_len -> exists c, at_char i c /\ c <> 0.
Proof.
  intros Hi. destruct (lookup_lt_is_Some_2 text (Z.to_nat i)) as [c Hc]; [rw /doc_len in Hi; lia|].
  exists c. split; [split; [lia|done]|]. by eapply Forall_lookup_1 in Htext.
Qed.

Lemma len_u32 i : 0 <= i <= doc_len + 1 -> u32 i = i /\ s32 i = i.
Proof. rw /doc_len. intros Hi. split; [apply u32_small; width|apply s32_small; lia]. Qed.

Lemma text_at_run' i c : at_char i c -> text_at doc_js i = Ret c.
Proof.
  intros [Hi Hc]. rw /text_at decide_False; [|lia]. rw /doc_js lookup_app_l ?Hc //. by eapply lookup_lt_Some.
Qed.

Lemma get_pos_run p sup used rest : get_pos (jst p sup used rest) = Ret (p, jst p sup used rest).
Proof. done. Qed.

Lemma cur_run p sup used rest c : at_char p c -> cur doc_js (jst p sup used rest) = Ret (c, jst p sup used rest).
Proof. intros Hc. rw /cur /mbind /M_bind get_pos_run /lift_outcome. by rw (text_at_run' p c). Qed.

Lemma more_run p sup used rest : 0 <= p <= doc_len + 1 ->
  more doc_js doc_len (jst p sup used rest) = Ret (bool_decide (p < doc_len), jst p sup used rest).
Proof.
  intros Hp. rw /more /mbind /M_bind get_pos_run. destruct (p <? doc_len) eqn:Hlt.
  - apply Z.ltb_lt in Hlt. destruct (at_char_exists p) as (c & Hc & Hnz); [lia|].
    rw (cur_run _ _ _ _ c) // bool_decide_true //. by apply Z.eqb_neq in Hnz as ->.
  - apply Z.ltb_ge in Hlt. rw bool_decide_false //. lia.
Qed.

Lemma move_run p q sup used rest : 0 <= q <= doc_len + 1 -> move q (jst p sup used rest) = Ret (tt, jst q sup used rest).
Proof. intros Hq. rw /move /modify /set_pos. by destruct (len_u32 q) as [-> _]. Qed.

(** What a run leaves unchanged or returns, from the canonical states. *)
Lemma wp_more E Q p sup used rest : 0 <= p <= doc_len + 1 ->
  Q (bool_decide (p < doc_len)) (jst p sup used rest) -> wp E (more doc_js doc_len) Q (jst p sup used rest).
Proof. intros Hp. apply wp_known. by apply more_run. Qed.
Lemma wp_cur E Q p sup used rest c : at_char p c ->
  Q c (jst p sup used rest) -> wp E (cur doc_js) Q (jst p sup used rest).
Proof. intros Hc. apply wp_known. by apply cur_run. Qed.
Lemma wp_move E Q p q sup used rest : 0 <= q <= doc_len + 1 ->
  Q tt (jst q sup used rest) -> wp E (move q) Q (jst p sup used rest).
Proof. intros Hq. apply wp_known. by apply move_run. Qed.
Lemma wp_get_pos E Q p sup used rest : Q p (jst p sup used rest) -> wp E get_pos Q (jst p sup used rest).
Proof. done. Qed.
Lemma wp_no_tokens E Q p sup used rest : Q false (jst p sup used rest) -> wp E no_tokens Q (jst p sup used rest).
Proof. done. Qed.

(** *** Primitives *)

Definition prim_char (c : Z) : Prop := ends_primitive c = false /\ 32 <= c < 127.
Definition chars_between (P : Z -> Prop) (a b : Z) : Prop := forall i c, a <= i < b -> at_char i c -> P c.

Lemma primitive_loop_safe fuel p sup used rest : 0 <= p <= doc_len -> doc_len - p < Z.of_nat fuel ->
  wp no_exn (primitive_loop doc_js doc_len fuel) (fun ok s' => exists p', p <= p' <= doc_len /\ s' = jst p' sup used rest /\
    chars_between prim_char p p' /\
    (forall c, at_char p c -> ends_primitive c = false -> ok = true -> p < p')) (jst p sup used rest).
Proof.
  revert p. induction fuel as [|fuel IH]; intros p Hp Hf; [lia|]. cbn [primitive_loop].
  assert (Hnil : chars_between prim_char p p) by (intros i c Hi; lia).
  apply wp_bind, wp_more; [lia|]. case_bool_decide as Hlt; cbn [negb].
  - destruct (at_char_exists p) as (c & Hc & _); [lia|]. apply wp_bind, (wp_cur _ _ _ _ _ _ c); [done|].
    destruct (ends_primitive c) eqn:He.
    { apply wp_ret. exists p. split_and!; [lia|lia|done|done|].
      intros c' [_ Hc'] He'. destruct Hc as [_ Hc]. congruence. }
    destruct ((c <? 32) || (127 <=? c)) eqn:Hbad.
    { apply wp_ret. exists p. by split_and!; [lia|lia|..]. }
    apply orb_false_iff in Hbad as [Hlo%Z.ltb_ge Hhi%Z.leb_gt].
    apply wp_bind, wp_get_pos, wp_bind, wp_move; [lia|].
    eapply wp_mono; [apply IH; lia|]. intros ok s' (p' & Hp' & -> & Hch & _). exists p'.
    split_and!; [lia|lia|done| |lia]. intros i c' Hi Hc'. destruct (decide (i = p)) as [->|Hne].
    + destruct Hc as [_ Hc], Hc' as [_ Hc']. assert (c' = c) as -> by congruence. done.
    + apply (Hch i); [lia|done].
  - apply wp_ret. exists p. split_and!; [lia|lia|done|done|].
    intros c Hc%at_char_bound. lia.
Qed.

Definition error_code (r : Z) : Prop := r = JSMN_ERROR_NOMEM \/ r = JSMN_ERROR_INVAL \/ r = JSMN_ERROR_PART.

(** The outcome of reading a string or a primitive: an error that leaves the tokens as
    they were, or a new token that satisfies [P]. *)
Definition new_token (sup : Z) (used rest : list jsmntok_t) (P : Z -> jsmntok_t -> Prop) (r : Z) (s' : jstate) : Prop :=
  (error_code r /\ exists p', s' = jst p' sup used rest) \/
  (r = 0 /\ exists p' t x rest', rest = x :: rest' /\ s' = jst p' sup (used ++ [t]) rest' /\ P p' t).

Lemma alloc_safe p sup used rest Q : num <= Z.of_nat (length used + length rest) ->
  Q None (jst p sup used rest) ->
  (forall x rest', rest = x :: rest' ->
    Q (Some (Z.of_nat (length used))) (jst p sup (used ++ [MkTok (tok_type x) (-1) (-1) 0]) rest')) ->
  wp no_exn (jsmn_alloc_token num) Q (jst p sup used rest).
Proof.
  intros Hn HN HS. rw /wp alloc_run //; [|lia]. destruct (num <=? _) eqn:Hle; [done|].
  apply Z.leb_gt in Hle. destruct rest as [|x rest]; [cbn [length] in Hn; lia|]. by apply HS.
Qed.

Lemma fill_run p sup used t rest ty a b : 0 <= a <= doc_len -> 0 <= b <= doc_len ->
  jsmn_fill_token (Z.of_nat (length used)) ty a b (jst p sup (used ++ [t]) rest) =
    Ret (tt, jst p sup (used ++ [MkTok ty a b 0]) rest).
Proof.
  intros Ha Hb. rw /jsmn_fill_token. destruct (len_u32 a) as [_ ->]; [lia|]. destruct (len_u32 b) as [_ ->]; [lia|].
  rw (upd_tok_run _ _ _ _ _ t); [|rw length_app; cbn [length]; lia|].
  - by rw Nat2Z.id insert_app_r_alt // Nat.sub_diag.
  - rw /tok_at decide_False; [|lia]. by rw Nat2Z.id list_lookup_middle.
Qed.

Lemma parse_primitive_safe p sup used rest c : at_char p c -> ends_primitive c = false ->
  num <= Z.of_nat (length used + length rest) ->
  wp no_exn (jsmn_parse_primitive doc_js doc_len num)
    (new_token sup used rest (fun p' t => p <= p' < doc_len /\ t = MkTok JSMN_PRIMITIVE p (p' + 1) 0 /\
       chars_between prim_char p (p' + 1))) (jst p sup used rest).
Proof.
  intros Hc He Hn. pose proof (at_char_bound _ _ Hc) as Hp. rw /jsmn_parse_primitive.
  apply wp_bind, wp_get_pos, wp_bind. eapply wp_mono; [apply primitive_loop_safe; [lia|]|].
  { rw /doc_js length_app. cbn [length]. rw /doc_len. lia. }
  intros ok s' (p' & Hp' & -> & Hch & Hgt). destruct ok; cycle 1.
  { apply wp_bind, wp_move; [lia|]. apply wp_ret. left. split; [by right; left|by eexists]. }
  specialize (Hgt c Hc He eq_refl).
  apply wp_bind, wp_no_tokens, wp_bind, alloc_safe; [done| |].
  { apply wp_bind, wp_move; [lia|]. apply wp_ret. left. split; [by left|by eexists]. }
  intros x rest' ->. apply wp_bind, wp_get_pos, wp_bind. eapply wp_known; [apply fill_run; lia|].
  apply wp_bind, wp_move; [lia|]. apply wp_ret. right. split; [done|].
  exists (p' - 1), (MkTok JSMN_PRIMITIVE p p' 0), x, rest'. split_and!; [done..|lia|lia| |].
  - f_equal. lia.
  - by replace (p' - 1 + 1) with p' by lia.
Qed.

(** *** Strings *)

Lemma hex_loop_safe n p sup used rest : 0 <= p <= doc_len ->
  wp no_exn (hex_loop doc_js doc_len n) (fun _ s' => exists p', p <= p' <= doc_len /\ s' = jst p' sup used rest)
    (jst p sup used rest).
Proof.
  revert p. induction n as [|n IH]; intros p Hp; cbn [hex_loop].
  { apply wp_ret. exists p. split; [lia|done]. }
  apply wp_bind, wp_more; [lia|]. case_bool_decide as Hlt; [|apply wp_ret; exists p; split; [lia|done]].
  destruct (at_char_exists p) as (c & Hc & _); [lia|]. apply wp_bind, (wp_cur _ _ _ _ _ _ c); [done|].
  destruct (is_hex c); [|apply wp_ret; exists p; split; [lia|done]].
  apply wp_bind, wp_get_pos, wp_bind, wp_move; [lia|].
  eapply wp_mono; [apply IH; lia|]. intros ok s' (p' & Hp' & ->). exists p'. split; [lia|done].
Qed.

Lemma escape_safe p sup used rest : 0 <= p -> p + 1 < doc_len ->
  wp no_exn (escape doc_js doc_len) (fun _ s' => exists p', p < p' <= doc_len /\ s' = jst p' sup used rest)
    (jst p sup used rest).
Proof.
  intros Hp0 Hp. rw /escape. apply wp_bind, wp_get_pos, wp_bind, wp_move; [lia|].
  destruct (at_char_exists (p + 1)) as (e & He & _); [lia|]. apply wp_bind, (wp_cur _ _ _ _ _ _ e); [done|].
  destruct (is_escaped e); [apply wp_ret; exists (p + 1); split; [lia|done]|].
  destruct (e =? 117); [|apply wp_ret; exists (p + 1); split; [lia|done]].
  apply wp_bind, wp_get_pos, wp_bind, wp_move; [lia|]. apply wp_bind.
  eapply wp_mono; [apply hex_loop_safe; lia|]. intros ok s' (p' & Hp' & ->).
  destruct ok; [|apply wp_ret; exists p'; split; [lia|done]].
  apply wp_bind, wp_get_pos, wp_bind, wp_move; [lia|]. apply wp_ret. exists (p' - 1). split; [lia|done].
Qed.

Lemma string_loop_safe fuel start p sup used rest : 0 <= start < p -> p <= doc_len + 1 -> doc_len - p < Z.of_nat fuel - 1 ->
  num <= Z.of_nat (length used + length rest) ->
  wp no_exn (string_loop doc_js doc_len num fuel start)
    (new_token sup used rest (fun p' t => start < p' < doc_len /\ t = MkTok JSMN_STRING (start + 1) p' 0 /\ at_char p' 34))
    (jst p sup used rest).
Proof.
  revert p. induction fuel as [|fuel IH]; intros p Hs Hp Hf Hn; [lia|]. cbn [string_loop].
  apply wp_bind, wp_more; [lia|]. case_bool_decide as Hlt; cycle 1.
  { apply wp_bind, wp_move; [lia|]. apply wp_ret. left. split; [by right; right|by eexists]. }
  destruct (at_char_exists p) as (c & Hc & _); [lia|]. apply wp_bind, (wp_cur _ _ _ _ _ _ c); [done|].
  destruct (c =? 34) eqn:Hq.
  - apply Z.eqb_eq in Hq as ->. apply wp_bind, wp_no_tokens, wp_bind, alloc_safe; [done| |].
    { apply wp_bind, wp_move; [lia|]. apply wp_ret. left. split; [by left|by eexists]. }
    intros x rest' ->. apply wp_bind, wp_get_pos, wp_bind. eapply wp_known; [apply fill_run; lia|].
    apply wp_ret. right. split; [done|]. eexists p, _, x, rest'. split_and!; try done; lia.
  - apply wp_bind, wp_get_pos, wp_bind.
    assert (Hgo : forall ok p', p <= p' <= doc_len -> wp no_exn
      (if ok : bool then p ← get_pos; _ ← move (p + 1); string_loop doc_js doc_len num fuel start
       else _ ← move start; mret JSMN_ERROR_INVAL)
      (new_token sup used rest (fun p' t => start < p' < doc_len /\ t = MkTok JSMN_STRING (start + 1) p' 0 /\ at_char p' 34))
      (jst p' sup used rest)).
    { intros [] p' Hp'.
      - apply wp_bind, wp_get_pos, wp_bind, wp_move; [lia|]. apply IH; lia.
      - apply wp_bind, wp_move; [lia|]. apply wp_ret. left. split; [by right; left|by eexists]. }
    destruct (len_u32 (p + 1)) as [-> _]; [lia|].
    destruct ((c =? 92) && (p + 1 <? doc_len)) eqn:Hesc; [|apply wp_ret, (Hgo true); lia].
    apply andb_prop in Hesc as [_ Hb%Z.ltb_lt].
    eapply wp_mono; [apply escape_safe; lia|]. intros ok s' (p' & Hp' & ->). apply Hgo. lia.
Qed.

Lemma parse_string_safe p sup used rest : 0 <= p < doc_len -> num <= Z.of_nat (length used + length rest) ->
  wp no_exn (jsmn_parse_string doc_js doc_len num)
    (new_token sup used rest (fun p' t => p < p' < doc_len /\ t = MkTok JSMN_STRING (p + 1) p' 0 /\ at_char p' 34))
    (jst p sup used rest).
Proof.
  intros Hp Hn. rw /jsmn_parse_string. apply wp_bind, wp_get_pos, wp_bind, wp_move; [lia|].
  apply string_loop_safe; try lia. rw /doc_js length_app. cbn [length]. rw /doc_len. lia.
Qed.

(** *** Brackets and commas *)

Definition open_type (c : Z) : jsmntype_t := if c =? 123 then JSMN_OBJECT else JSMN_ARRAY.
Definition close_type (c : Z) : jsmntype_t := if c =? 125 then JSMN_OBJECT else JSMN_ARRAY.

Lemma open_bracket_run p sup used rest c : 0 <= p < doc_len -> -1 <= sup < Z.of_nat (length used) ->
  num <= Z.of_nat (length used + length rest) ->
  open_bracket num c (jst p sup used rest) =
    if num <=? Z.of_nat (length used) then Ret (JSMN_ERROR_NOMEM, jst p sup used rest)
    else match rest with
         | [] => Exn (Fault OobWrite)
         | _ :: rest' => Ret (0, jst p (Z.of_nat (length used)) (bump sup used ++ [MkTok (open_type c) p (-1) 0]) rest')
         end.
Proof.
  intros Hp Hs Hn. rw /open_bracket /mbind /M_bind.
  change (no_tokens (jst p sup used rest)) with (Ret (false, jst p sup used rest)). cbv beta iota. rw alloc_run //; [|lia].
  destruct (num <=? _) eqn:Hle; [done|]. apply Z.leb_gt in Hle. destruct rest as [|x rest]; [done|].
  rw count_child_run; [|rw length_app; lia]. rw bump_app // -(length_bump sup used) upd_last_run /with_type /=.
  destruct (len_u32 p) as [_ ->]; [lia|]. rw upd_last_run /with_start /= /gets /modify. cbn [parser toknext jst].
  rw length_app !length_bump. cbn [length]. rw /set_toksuper. cbn [parser toknext pos tokens jst].
  rw s32_small; [|lia]. rw /jst length_app length_bump /open_type. cbn [length].
  by replace (Z.of_nat (length used + 1) - 1) with (Z.of_nat (length used)) by lia.
Qed.

Lemma close_bracket_run p sup used rest c i t : 0 <= p < doc_len -> tok_at used i = Some t ->
  find_last is_open used (length used) = Some i ->
  close_bracket c (jst p sup used rest) =
    if decide (tok_type t <> close_type c) then Ret (JSMN_ERROR_INVAL, jst p sup used rest)
    else
      let used' := <[Z.to_nat i := with_end (p + 1) t]> used in
      Ret (0, jst p (default (-1) (find_last is_open used' (Z.to_nat (i + 1)))) used' rest).
Proof.
  intros Hp Ht Hf. pose proof (find_last_some _ _ _ _ Hf) as (Hi & _).
  rw /close_bracket /mbind /M_bind -/(close_type c).
  change (no_tokens (jst p sup used rest)) with (Ret (false, jst p sup used rest)). cbv beta iota.
  rw /gets. cbn [parser toknext jst]. rw Nat2Z.id last_such_run // Hf (get_tok_run _ _ _ _ _ t) //.
  destruct (decide _); [done|]. rw /modify. change (set_toksuper (-1) (jst p sup used rest)) with (jst p (-1) used rest).
  rw get_pos_run (upd_tok_run _ _ _ _ _ t) //. destruct (len_u32 (p + 1)) as [_ ->]; [lia|].
  rw last_such_run; [|rw length_insert; lia]. by destruct (find_last _ _ (Z.to_nat (i + 1))).
Qed.

Lemma close_bracket_none p sup used rest c : find_last is_open used (length used) = None ->
  close_bracket c (jst p sup used rest) = Ret (JSMN_ERROR_INVAL, jst p sup used rest).
Proof.
  intros Hf. rw /close_bracket /mbind /M_bind.
  change (no_tokens (jst p sup used rest)) with (Ret (false, jst p sup used rest)). cbv beta iota.
  rw /gets. cbn [parser toknext jst]. by rw Nat2Z.id last_such_run // Hf.
Qed.

(** The token above the one behind a comma. *)
Definition comma_super (sup : Z) (used : list jsmntok_t) : Z :=
  match tok_at used sup with
  | None => sup
  | Some t => if is_container t then sup
              else default sup (find_last (fun t => is_container t && is_open t) used (length used))
  end.

Lemma comma_run p sup used rest : -1 <= sup < Z.of_nat (length used) ->
  comma (jst p sup used rest) = Ret (tt, jst p (comma_super sup used) used rest).
Proof.
  intros Hs. rw /comma /mbind /M_bind /comma_super.
  change (no_tokens (jst p sup used rest)) with (Ret (false, jst p sup used rest)). cbv beta iota.
  rw /gets. cbn [parser toksuper toknext jst]. case_decide as Hd; [by subst|].
  destruct (tok_at_lookup used sup) as (t & Ht & _); [lia|]. rw Ht (get_tok_run _ _ _ _ _ t) //; [|lia].
  destruct (is_container t); [done|]. rw Nat2Z.id last_such_run //.
  by destruct (find_last _ used (length used)).
Qed.

(** *** The tokens and the text *)

(** A container that is not yet closed, a token that is complete. *)
Definition open_tok (p : Z) (t : jsmntok_t) : Prop :=
  ((tok_type t = JSMN_OBJECT /\ at_char (tok_start t) 123) \/ (tok_type t = JSMN_ARRAY /\ at_char (tok_start t) 91)) /\
  tok_end t = -1 /\ tok_start t < p.
Definition closed_tok (t : jsmntok_t) : Prop :=
  match tok_type t with
  | JSMN_OBJECT => at_char (tok_start t) 123 /\ at_char (tok_end t - 1) 125 /\ tok_start t < tok_end t - 1
  | JSMN_ARRAY => at_char (tok_start t) 91 /\ at_char (tok_end t - 1) 93 /\ tok_start t < tok_end t - 1
  | JSMN_STRING => at_char (tok_start t - 1) 34 /\ at_char (tok_end t) 34 /\ tok_start t <= tok_end t
  | JSMN_PRIMITIVE => 0 <= tok_start t < tok_end t /\ tok_end t <= doc_len /\
                      chars_between prim_char (tok_start t) (tok_end t)
  | JSMN_UNDEFINED => False
  end.
Definition tok_ok (p : Z) (t : jsmntok_t) : Prop := open_tok p t \/ closed_tok t.

Lemma closed_tok_bounds t : closed_tok t -> 0 <= tok_start t <= tok_end t /\ tok_end t <= doc_len.
Proof.
  rw /closed_tok. destruct (tok_type t); [done|..].
  - intros (H1%at_char_bound & H2%at_char_bound & ?). lia.
  - intros (H1%at_char_bound & H2%at_char_bound & ?). lia.
  - intros (H1%at_char_bound & H2%at_char_bound & ?). lia.
  - intros (? & ? & _). lia.
Qed.

Lemma tok_ok_open p t : tok_ok p t -> if is_open t then open_tok p t else closed_tok t.
Proof.
  intros [Ho|Hc].
  - pose proof Ho as (Hs & He & _). assert (0 <= tok_start t) by (destruct Hs as [[_ [? _]]|[_ [? _]]]; done).
    rw /is_open He (proj2 (Z.eqb_neq _ _)) //. lia.
  - pose proof (closed_tok_bounds t Hc). rw /is_open (proj2 (Z.eqb_neq (tok_end t) (-1))); [by rw andb_false_r|lia].
Qed.

Lemma tok_ok_size p t z : tok_ok p t -> tok_ok p (with_size z t).
Proof. by destruct t. Qed.

Lemma tok_ok_mono p p' t : p <= p' -> tok_ok p t -> tok_ok p' t.
Proof. intros Hp [(H1 & H2 & H3)|H]; [left|by right]. split_and!; [done..|lia]. Qed.

Lemma bump_ok p sup used : Forall (tok_ok p) used -> Forall (tok_ok p) (bump sup used).
Proof.
  intros Hok. rw /bump. destruct (tok_at used sup) as [t|] eqn:Ht; [|done].
  apply Forall_insert; [done|]. apply tok_ok_size. rw /tok_at in Ht. case_decide; [done|]. by eapply Forall_lookup_1.
Qed.

(** The invariant of the main loop at position [p], with [total] tokens in the array. *)
Definition jinv (total : nat) (p : Z) (sup : Z) (used rest : list jsmntok_t) : Prop :=
  (length used + length rest = total)%nat /\ -1 <= sup < Z.of_nat (length used) /\ Forall (tok_ok p) used.

(** The outcome of one turn at [p]. *)
Definition turn_ok (total : nat) (p : Z) (n : nat) (r : Z + Z) (s' : jstate) : Prop :=
  match r with
  | inl e => error_code e /\ exists p' sup used rest, s' = jst p' sup used rest /\ (length used + length rest = total)%nat
  | inr d => exists p' sup used rest, s' = jst p' sup used rest /\ p <= p' < doc_len /\
      Z.of_nat (length used) = Z.of_nat n + d /\ 0 <= d <= 1 /\ jinv total (p' + 1) sup used rest
  end.

Section turn.
Context (total : nat) (p sup : Z) (used rest : list jsmntok_t).
Hypothesis Htotal : num <= Z.of_nat total.
Hypothesis Hmax : Z.of_nat total < 2 ^ 31.
Hypothesis Hp : 0 <= p < doc_len.
Hypothesis Hinv : jinv total p sup used rest.

Lemma tokens_later p' : p <= p' -> Forall (tok_ok p') used.
Proof. intros Hle. eapply Forall_impl; [exact (proj2 (proj2 Hinv))|]. intros t. by apply tok_ok_mono. Qed.

Lemma turn_same d : d = 0 -> turn_ok total p (length used) (inr d) (jst p sup used rest).
Proof.
  intros ->. exists p, sup, used, rest. pose proof Hinv as (? & ? & ?). split_and!; try done; try lia.
  split_and!; [done|lia|lia|]. apply tokens_later. lia.
Qed.

(** A new string or primitive is counted as a child of the token above it. *)
Lemma turn_value (m : M jstate Z) P :
  wp no_exn m (new_token sup used rest P) (jst p sup used rest) ->
  (forall p' t, P p' t -> p <= p' < doc_len /\ closed_tok t) ->
  wp no_exn (r ← m; if r <? 0 then mret (inl r) else _ ← count_value; mret (inr 1))
    (turn_ok total p (length used)) (jst p sup used rest).
Proof.
  intros Hm HP. pose proof Hinv as (Ht & Hs & Hok). pose proof tokens_later as Hlater.
  apply wp_bind. eapply wp_mono; [exact Hm|].
  intros r s' [(He & p' & ->)|(-> & p' & t & x & rest' & -> & -> & HPt)].
  - assert ((r <? 0) = true) as ->.
    { apply Z.ltb_lt. by destruct He as [-> | [-> | ->]]. }
    apply wp_ret. split; [done|]. by exists p', sup, used, rest.
  - apply HP in HPt as [Hp' Hc]. cbn [Z.ltb Z.compare]. apply wp_bind, wp_bind, wp_no_tokens.
    eapply wp_known; [apply count_child_run; rw length_app; lia|]. apply wp_ret.
    exists p', sup, (bump sup (used ++ [t])), rest'. cbn [length] in Ht.
    rw /jinv length_bump length_app. cbn [length]. split_and!; try done; try lia.
    apply bump_ok, Forall_app. split; [apply Hlater; lia|]. constructor; [by right|constructor].
Qed.

Lemma turn_open c : c = 123 \/ c = 91 -> at_char p c ->
  wp no_exn (r ← open_bracket num c; mret (if r <? 0 then inl r else inr 1))
    (turn_ok total p (length used)) (jst p sup used rest).
Proof.
  intros Hcc Hc. pose proof Hinv as (Ht & Hs & Hok). pose proof tokens_later as Hlater. apply wp_bind. rw /wp.
  rw open_bracket_run //; [|lia]. destruct (num <=? _) eqn:Hle.
  { split; [by left|]. by exists p, sup, used, rest. }
  apply Z.leb_gt in Hle. destruct rest as [|x rest'] eqn:Hrest; [cbn [length] in Ht; lia|]. cbn [Z.ltb Z.compare].
  exists p, (Z.of_nat (length used)), (bump sup used ++ [MkTok (open_type c) p (-1) 0]), rest'.
  cbn [length] in Ht. rw /jinv length_app length_bump. cbn [length]. split_and!; try done; try lia.
  apply Forall_app. split; [apply bump_ok, Hlater; lia|]. constructor; [|constructor]. left. rw /open_tok. cbn [tok_type tok_start tok_end].
  split_and!; [|done|lia]. destruct Hcc as [-> | ->]; [left|right]; done.
Qed.

Lemma turn_close c : c = 125 \/ c = 93 -> at_char p c ->
  wp no_exn (r ← close_bracket c; mret (if r <? 0 then inl r else inr 0))
    (turn_ok total p (length used)) (jst p sup used rest).
Proof.
  intros Hcc Hc. pose proof Hinv as (Ht & Hs & Hok). apply wp_bind. rw /wp.
  destruct (find_last is_open used (length used)) as [i|] eqn:Hf; cycle 1.
  { rw close_bracket_none //. cbn [Z.ltb]. split; [by right; left|]. by exists p, sup, used, rest. }
  destruct (find_last_some _ _ _ _ Hf) as (Hi & t & Hti & Ho). rw (close_bracket_run _ _ _ _ _ i t) //.
  case_decide as Hty.
  { split; [by right; left|]. by exists p, sup, used, rest. }
  cbn [Z.ltb Z.compare]. set (used' := <[Z.to_nat i := with_end (p + 1) t]> used).
  assert (Htok : tok_ok p t).
  { rw /tok_at in Hti. case_decide; [done|]. by eapply Forall_lookup_1. }
  apply tok_ok_open in Htok. rw Ho in Htok. destruct Htok as (Hty' & He & Hst).
  eexists p, _, used', rest. split; [reflexivity|]. rw /jinv length_insert. split_and!; try done; try lia.
  - apply find_open_default.
  - pose proof (find_open_default used' (Z.to_nat (i + 1))). lia.
  - apply Forall_insert; [apply tokens_later; lia|]. right. rw /closed_tok /with_end. cbn [tok_type tok_start tok_end].
    replace (p + 1 - 1) with p by lia. rw /close_type in Hty.
    destruct Hty' as [[Hto Ha]|[Hto Ha]]; rw Hto in Hty |- *; destruct Hcc as [-> | ->]; cbn in Hty; try done; congruence.
Qed.

Lemma turn_comma : wp no_exn (_ ← comma; mret (inr 0)) (turn_ok total p (length used)) (jst p sup used rest).
Proof.
  pose proof Hinv as (Ht & Hs & Hok). apply wp_bind. eapply wp_known; [by apply comma_run|]. apply wp_ret.
  eexists p, _, used, rest. split; [reflexivity|]. split; [lia|]. split; [lia|]. split; [lia|].
  split; [done|]. split; [|apply tokens_later; lia]. rw /comma_super. case_match; [|done]. case_match; [done|].
  destruct (find_last _ used _) as [i|] eqn:Hf; cbn; [|done]. apply find_last_some in Hf as [? _]. lia.
Qed.

Lemma turn_safe c : at_char p c ->
  wp no_exn (jsmn_char doc_js doc_len num c) (turn_ok total p (length used)) (jst p sup used rest).
Proof.
  intros Hc. pose proof Hinv as (Ht & Hs & Hok). rw /jsmn_char.
  destruct ((c =? 123) || (c =? 91)) eqn:H1.
  { apply turn_open; [|done]. apply orb_prop in H1 as [H1%Z.eqb_eq|H1%Z.eqb_eq]; auto. }
  destruct ((c =? 125) || (c =? 93)) eqn:H2.
  { apply turn_close; [|done]. apply orb_prop in H2 as [H2%Z.eqb_eq|H2%Z.eqb_eq]; auto. }
  destruct (c =? 34) eqn:H3.
  { apply Z.eqb_eq in H3 as ->. eapply turn_value; [apply parse_string_safe; lia|].
    intros p' t (Hp' & -> & Hq). split; [lia|]. rw /closed_tok. cbn [tok_type tok_start tok_end]. replace (p + 1 - 1) with p by lia. split_and!; [done|done|lia]. }
  destruct ((c =? 9) || (c =? 13) || (c =? 10) || (c =? 32)) eqn:H4; [by apply wp_ret, turn_same|].
  destruct (c =? 58) eqn:H5.
  { apply wp_bind, wp_gets, wp_bind, wp_modify, wp_ret. cbn [parser toknext jst]. rw s32_small; [|lia].
    exists p, (Z.of_nat (length used) - 1), used, rest. split_and!; try done; try lia.
    split_and!; [done|lia|lia|apply tokens_later; lia]. }
  destruct (c =? 44) eqn:H6; [apply turn_comma|].
  eapply turn_value; [apply (parse_primitive_safe _ _ _ _ c); [done| |lia]|].
  - rw /ends_primitive. apply orb_false_iff in H1 as [_ _]. apply orb_false_iff in H2 as [-> ->].
    rw H5 H6. apply orb_false_iff in H4 as [H4 ->]. apply orb_false_iff in H4 as [H4 ->].
    by apply orb_false_iff in H4 as [-> ->].
  - intros p' t (Hp' & -> & Hch). split; [lia|]. rw /closed_tok. cbn [tok_type tok_start tok_end]. split_and!; [lia..|done].
Qed.
End turn.

Lemma jsmn_loop_safe total fuel p sup used rest : num <= Z.of_nat total -> 0 <= p <= doc_len ->
  doc_len - p < Z.of_nat fuel -> jinv total p sup used rest -> Z.of_nat (length used) < 2 ^ 31 -> Z.of_nat total < 2 ^ 31 ->
  wp no_exn (jsmn_loop doc_js doc_len num fuel (Z.of_nat (length used))) (fun r s' =>
    match r with
    | inl e => error_code e /\ exists p' sup used rest, s' = jst p' sup used rest /\ (length used + length rest = total)%nat
    | inr n => exists sup used rest, s' = jst doc_len sup used rest /\ n = Z.of_nat (length used) /\ jinv total doc_len sup used rest
    end) (jst p sup used rest).
Proof.
  revert p sup used rest. induction fuel as [|fuel IH]; intros p sup used rest Htot Hp Hf Hinv Hu Htm; [lia|].
  cbn [jsmn_loop]. apply wp_bind, wp_more; [lia|]. case_bool_decide as Hlt; cycle 1.
  { apply wp_ret. assert (p = doc_len) as -> by lia. by exists sup, used, rest. }
  destruct (at_char_exists p) as (c & Hc & _); [lia|]. apply wp_bind, (wp_cur _ _ _ _ _ _ c); [done|].
  apply wp_bind. eapply wp_mono; [apply (turn_safe total); [done|done|lia|done|done]|].
  intros [e|d] s'; [intros (He & Hs'); by apply wp_ret|].
  intros (p' & sup' & used' & rest' & -> & Hp' & Hn & Hd & Hinv').
  apply wp_bind, wp_get_pos, wp_bind, wp_move; [lia|]. rw -Hn. destruct Hinv' as (Ht' & Hs' & Hok').
  rw s32_small; [|lia]. apply IH; try done; try lia.
Qed.
End run.

(** C23: the tokenizer is safe on every C string. From an initialized parser it reads
    no byte behind the string and writes no token behind the array, it always
    terminates, and the result is one of the three error codes or the number of tokens
    written; then every token is complete and lies inside of the text: objects and
    arrays begin and end with their brackets, strings are enclosed in quotes, and
    primitives are nonempty sequences of printable characters without separators. *)
Theorem jsmn_parse_safe text junk num ts par :
  Forall (fun b => b <> 0) text -> Z.of_nat (length text) < 2 ^ 31 - 1 ->
  0 <= num <= Z.of_nat (length ts) -> Z.of_nat (length ts) < 2 ^ 31 ->
  exists r s', jsmn_parse (text ++ 0 :: junk) (Z.of_nat (length text)) num (jsmn_init (MkJstate par (Some ts))) = Ret (r, s') /\
    exists ts', tokens s' = Some ts' /\ length ts' = length ts /\
    (error_code r \/
     0 <= r <= Z.of_nat (length ts) /\ Forall (closed_tok text) (take (Z.to_nat r) ts')).
Proof.
  intros Htext Hlen Hn Hts. apply wp_no_exn_run. rw /jsmn_parse. apply wp_bind, wp_gets.
  change (jsmn_init (MkJstate par (Some ts))) with (jst 0 (-1) [] ts). cbn [parser toknext jst].
  apply wp_bind. change (s32 (Z.of_nat (length ([] : list jsmntok_t)))) with (Z.of_nat (length ([] : list jsmntok_t))).
  eapply wp_mono; [apply (jsmn_loop_safe text junk num Htext Hlen ltac:(lia) (length ts)); [lia|rw /doc_len; lia| |..]|].
  { rw /doc_len length_app. cbn [length]. lia. }
  { split_and!; [done|done|done|constructor]. }
  { done. }
  { done. }
  intros [e|n] s'.
  - intros (He & p' & sup & used & rest & -> & Ht). apply wp_ret. exists (used ++ rest). rw length_app. by auto.
  - intros (sup & used & rest & -> & -> & Ht & _ & Hok). apply wp_bind, wp_no_tokens, wp_bind, wp_gets.
    cbn [parser toknext jst]. rw Nat2Z.id. apply wp_bind. eapply wp_known; [by apply last_such_run|].
    destruct (find_last is_open used (length used)) as [i|] eqn:Hf; apply wp_ret; exists (used ++ rest);
      rw length_app; split_and!; try done.
    + left. by right; right.
    + right. split; [lia|]. rw Nat2Z.id take_app_length.
      pose proof (find_last_none _ _ _ (le_n _) Hf) as Hnone. rw firstn_all in Hnone.
      apply Forall_forall. intros t Ht'. eapply Forall_forall in Hnone; [|done]. eapply Forall_forall in Hok; [|done].
      apply tok_ok_open in Hok. by rw Hnone in Hok.
Qed.

(** An array cut short is an error; a complete one gives two tokens. *)
Lemma jsmn_parse_safe_witness :
  let ts := replicate 4 (MkTok JSMN_UNDEFINED 0 0 0) in
  let run text := jsmn_parse (text ++ [0]) (Z.of_nat (length text)) 4 (jsmn_init (MkJstate (MkParser 9 9 9) (Some ts))) in
  (exists s', run [91; 49] = Ret (JSMN_ERROR_PART, s')) /\
  (exists r s', run [91; 49; 93] = Ret (r, s') /\ exists ts', tokens s' = Some ts' /\ length ts' = length ts /\
     (error_code r \/ 0 <= r <= Z.of_nat (length ts) /\ Forall (closed_tok [91; 49; 93]) (take (Z.to_nat r) ts'))).
Proof.
  cbv zeta beta. split; [eexists; vm_compute; reflexivity|].
  refine (jsmn_parse_safe [91; 49; 93] [] 4 (replicate 4 (MkTok JSMN_UNDEFINED 0 0 0)) (MkParser 9 9 9) _ _ _ _);
    [repeat constructor; discriminate|simpl; lia|simpl; lia|simpl; lia].
Defined.

(** ** The size of the token array *)

Section size.
Context (n : nat).
Definition tokens_of_size (s : jstate) : Prop := exists ts, tokens s = Some ts /\ length ts = n.

Lemma keeps_get_tok i : keeps tokens_of_size (get_tok i).
Proof. rw /get_tok. apply keeps_bind; [by intros s Hs|]. keeps_auto. Qed.
Lemma keeps_upd_tok i f : keeps tokens_of_size (upd_tok i f).
Proof.
  rw /upd_tok. intros s (ts & Hs & Hn). apply wp_bind, wp_gets. rw Hs. destruct (tok_at ts i); [|done].
  apply wp_modify. eexists. split; [done|]. by rw length_insert.
Qed.
Lemma keeps_modify_parser f : (forall s, tokens (f s) = tokens s) -> keeps tokens_of_size (modify f).
Proof. intros Hf. apply keeps_modify. intros s (ts & Hs & Hn). exists ts. by rw Hf. Qed.
Lemma keeps_reads {A} (f : jstate -> A) : keeps tokens_of_size (gets f).
Proof. by intros s Hs. Qed.
Hint Resolve keeps_get_tok keeps_upd_tok keeps_reads : iot.
Hint Extern 1 (keeps _ (modify _)) => (apply keeps_modify_parser; done) : iot.

Lemma keeps_move p : keeps tokens_of_size (move p).
Proof. rw /move. eauto with iot. Qed.
Lemma keeps_get_pos : keeps tokens_of_size get_pos.
Proof. rw /get_pos. eauto with iot. Qed.
Lemma keeps_no_tokens : keeps tokens_of_size no_tokens.
Proof. rw /no_tokens. eauto with iot. Qed.
Hint Resolve keeps_move keeps_get_pos keeps_no_tokens : iot.
Lemma keeps_alloc num : keeps tokens_of_size (jsmn_alloc_token num).
Proof. rw /jsmn_alloc_token. keeps_auto. Qed.
Lemma keeps_fill i ty a b : keeps tokens_of_size (jsmn_fill_token i ty a b).
Proof. rw /jsmn_fill_token. eauto with iot. Qed.
Hint Resolve keeps_alloc keeps_fill : iot.

Context (text : list Z) (len num : Z).
Lemma keeps_cur : keeps tokens_of_size (cur text).
Proof. rw /cur. keeps_auto. Qed.
Hint Resolve keeps_cur : iot.
Lemma keeps_more : keeps tokens_of_size (more text len).
Proof. rw /more. keeps_auto. Qed.
Hint Resolve keeps_more : iot.
Lemma keeps_primitive_loop fuel : keeps tokens_of_size (primitive_loop text len fuel).
Proof. induction fuel; cbn [primitive_loop]; keeps_auto. Qed.
Lemma keeps_hex_loop m : keeps tokens_of_size (hex_loop text len m).
Proof. induction m; cbn [hex_loop]; keeps_auto. Qed.
Hint Resolve keeps_primitive_loop keeps_hex_loop : iot.
Lemma keeps_escape : keeps tokens_of_size (escape text len).
Proof. rw /escape. keeps_auto. Qed.
Hint Resolve keeps_escape : iot.
Lemma keeps_string_loop fuel start : keeps tokens_of_size (string_loop text len num fuel start).
Proof. induction fuel; cbn [string_loop]; keeps_auto. Qed.
Hint Resolve keeps_string_loop : iot.
Lemma keeps_last_such P m : keeps tokens_of_size (last_such P m).
Proof. induction m; cbn [last_such]; keeps_auto. Qed.
Hint Resolve keeps_last_such : iot.
Lemma keeps_count_child : keeps tokens_of_size count_child.
Proof. rw /count_child. keeps_auto. Qed.
Hint Resolve keeps_count_child : iot.
Lemma keeps_jsmn_char c : keeps tokens_of_size (jsmn_char text len num c).
Proof.
  rw /jsmn_char /open_bracket /close_bracket /comma /count_value /jsmn_parse_string /jsmn_parse_primitive. keeps_auto.
Qed.
Hint Resolve keeps_jsmn_char : iot.
Lemma keeps_jsmn_loop fuel count : keeps tokens_of_size (jsmn_loop text len num fuel count).
Proof. revert count. induction fuel; intros count; cbn [jsmn_loop]; keeps_auto. Qed.
Hint Resolve keeps_jsmn_loop : iot.
(** No operation changes the size of the array. *)
Lemma keeps_jsmn_parse : keeps tokens_of_size (jsmn_parse text len num).
Proof. rw /jsmn_parse. keeps_auto. Qed.
End size.
#[export] Hint Resolve keeps_get_tok keeps_jsmn_parse : iot.
