(* ===== verification/JsmnGrammar.v ===== *)
(** * The tokenizer and the grammar of JSON

    The texts of JSON with the tokens they should give, as an inductive definition, and
    the proof that the tokenizer of [Jsmn] produces exactly these tokens. *)
From S2P Require Import Prelude Types Json Jsmn.

(** ** The grammar *)

Definition is_ws (c : Z) : Prop := c = 9 \/ c = 13 \/ c = 10 \/ c = 32.
Definition ws (w : list Z) : Prop := Forall is_ws w.

(** The characters between the quotes of a string. *)
Inductive string_body : list Z -> Prop :=
  | body_nil : string_body []
  | body_char c s : c <> 34 -> c <> 92 -> c <> 0 -> string_body s -> string_body (c :: s)
  | body_escape c s : is_escaped c = true -> string_body s -> string_body (92 :: c :: s)
  | body_unicode a b c d s : is_hex a = true -> is_hex b = true -> is_hex c = true -> is_hex d = true ->
      string_body s -> string_body (92 :: 117 :: a :: b :: c :: d :: s).

(** A number or a literal: printable, without separators, and without the character
    that begins another kind of value. *)
Definition prim_text (s : list Z) : Prop :=
  Forall prim_char s /\ exists c s', s = c :: s' /\ c <> 123 /\ c <> 91 /\ c <> 34.

Definition zlen (l : list Z) : Z := Z.of_nat (length l).

(** [value p text toks]: the value [text] that begins at position [p] has the tokens
    [toks], parents before children and children in order. The counts of [elements] and
    [members] are the sizes of the array and the object around them. *)
Inductive value : Z -> list Z -> list jsmntok_t -> Prop :=
  | value_primitive p s : prim_text s -> value p s [MkTok JSMN_PRIMITIVE p (p + zlen s) 0]
  | value_string p s : string_body s -> value p ([34] ++ s ++ [34]) [MkTok JSMN_STRING (p + 1) (p + 1 + zlen s) 0]
  | value_array p body toks n : elements (p + 1) body toks n ->
      value p ([91] ++ body ++ [93]) (MkTok JSMN_ARRAY p (p + zlen body + 2) (Z.of_nat n) :: toks)
  | value_object p body toks n : members (p + 1) body toks n ->
      value p ([123] ++ body ++ [125]) (MkTok JSMN_OBJECT p (p + zlen body + 2) (Z.of_nat n) :: toks)
with elements : Z -> list Z -> list jsmntok_t -> nat -> Prop :=
  | elements_none p w : ws w -> elements p w [] 0
  | elements_one p w1 v w2 t : ws w1 -> ws w2 -> value (p + zlen w1) v t -> elements p (w1 ++ v ++ w2) t 1
  | elements_more p w1 v w2 t body toks n : ws w1 -> ws w2 -> value (p + zlen w1) v t ->
      elements (p + zlen (w1 ++ v ++ w2) + 1) body toks (S n) ->
      elements p ((w1 ++ v ++ w2) ++ [44] ++ body) (t ++ toks) (S (S n))
with members : Z -> list Z -> list jsmntok_t -> nat -> Prop :=
  | members_none p w : ws w -> members p w [] 0
  | members_one p m t : member p m t -> members p m t 1
  | members_more p m t body toks n : member p m t -> members (p + zlen m + 1) body toks (S n) ->
      members p (m ++ [44] ++ body) (t ++ toks) (S (S n))
with member : Z -> list Z -> list jsmntok_t -> Prop :=
  | member_intro p w1 k w2 w3 v w4 t : ws w1 -> string_body k -> ws w2 -> ws w3 -> ws w4 ->
      value (p + zlen (w1 ++ ([34] ++ k ++ [34]) ++ w2 ++ [58] ++ w3)) v t ->
      member p (w1 ++ ([34] ++ k ++ [34]) ++ w2 ++ [58] ++ w3 ++ v ++ w4)
        (MkTok JSMN_STRING (p + zlen w1 + 1) (p + zlen w1 + 1 + zlen k) 1 :: t).

Scheme value_mut := Minimality for value Sort Prop
with elements_mut := Minimality for elements Sort Prop
with members_mut := Minimality for members Sort Prop
with member_mut := Minimality for member Sort Prop.
Combined Scheme json_mut from value_mut, elements_mut, members_mut, member_mut.

(** All tokens of a text are complete. *)
Definition closed_toks (l : list jsmntok_t) : Prop := Forall (fun t => is_open t = false) l.

Lemma zlen_app a b : zlen (a ++ b) = zlen a + zlen b.
Proof. rw /zlen length_app. lia. Qed.
Lemma zlen_nonneg a : 0 <= zlen a.
Proof. rw /zlen. lia. Qed.

Lemma closed_end ty a b z : 0 <= b -> is_open (MkTok ty a b z) = false.
Proof. intros Hb. rw /is_open /=. rw (proj2 (Z.eqb_neq b (-1))); [by rw andb_false_r|lia]. Qed.

Lemma toks_closed :
  (forall p v toks, value p v toks -> 0 <= p -> closed_toks toks) /\
  (forall p b toks n, elements p b toks n -> 0 <= p -> closed_toks toks) /\
  (forall p b toks n, members p b toks n -> 0 <= p -> closed_toks toks) /\
  (forall p m toks, member p m toks -> 0 <= p -> closed_toks toks).
Proof.
  apply json_mut.
  - intros p s _ Hp. constructor; [apply closed_end; rw /zlen; lia|constructor].
  - intros p s _ Hp. constructor; [apply closed_end; rw /zlen; lia|constructor].
  - intros p body toks n _ IH Hp. constructor; [apply closed_end; rw /zlen; lia|apply IH; lia].
  - intros p body toks n _ IH Hp. constructor; [apply closed_end; rw /zlen; lia|apply IH; lia].
  - intros. constructor.
  - intros p w1 v w2 t _ _ _ IH Hp. apply IH. rw /zlen. lia.
  - intros p w1 v w2 t body toks n _ _ _ IH _ IHs Hp. apply Forall_app. split; [apply IH; rw /zlen; lia|apply IHs; rw /zlen; lia].
  - intros. constructor.
  - intros p m t _ IH Hp. by apply IH.
  - intros p m t body toks n _ IH _ IHs Hp. apply Forall_app. split; [by apply IH|apply IHs; rw /zlen; lia].
  - intros p w1 k w2 w3 v w4 t _ _ _ _ _ _ IH Hp. constructor; [apply closed_end; rw /zlen; lia|apply IH; rw /zlen; lia].
Qed.

(** ** The searches *)

Lemma find_last_prefix P used l n : (n <= length used)%nat -> find_last P (used ++ l) n = find_last P used n.
Proof.
  induction n as [|n IH]; [done|]. intros Hn. cbn [find_last]. rw lookup_app_l; [|lia].
  destruct (used !! n); [|done]. destruct (P j); [done|]. apply IH. lia.
Qed.

Lemma find_last_closed P used l : Forall (fun t => P t = false) l ->
  find_last P (used ++ l) (length (used ++ l)) = find_last P used (length used).
Proof.
  induction l as [|t l IH] using rev_ind; [by rw app_nil_r|]. intros [Hl Ht]%Forall_app.
  rw app_assoc length_app. cbn [length]. rw Nat.add_1_r. cbn [find_last].
  rw lookup_app_r // Nat.sub_diag. cbn [lookup list_lookup]. inversion Ht as [|? ? Hx _]; subst. rw Hx.
  rw find_last_prefix //. by apply IH.
Qed.

Definition ignores_size (P : jsmntok_t -> bool) : Prop := forall z t, P (with_size z t) = P t.

Lemma find_last_bump P sup used n : ignores_size P -> find_last P (bump sup used) n = find_last P used n.
Proof.
  intros HP. rw /bump. destruct (tok_at used sup) as [t|] eqn:Ht; [|done].
  rw /tok_at in Ht. case_decide; [done|]. induction n as [|n IH]; [done|]. cbn [find_last].
  destruct (decide (Z.to_nat sup = n)) as [Heq|Hne].
  - rw Heq list_lookup_insert_eq; [|rw -Heq; by eapply lookup_lt_Some]. rw Heq in Ht. rw Ht HP. rw -Heq in IH |- *. by rw IH.
  - rw list_lookup_insert_ne //. destruct (used !! n); [|done]. by rw IH.
Qed.

Definition last_open (used : list jsmntok_t) : Z := default (-1) (find_last is_open used (length used)).

(** The token [a] is the innermost open container. *)
Definition inside (a : Z) (used : list jsmntok_t) : Prop :=
  find_last is_open used (length used) = Some a /\
  find_last (fun t => is_container t && is_open t) used (length used) = Some a /\
  exists t, tok_at used a = Some t /\ is_container t = true.

Lemma inside_range a used : inside a used -> 0 <= a < Z.of_nat (length used).
Proof. by intros (Hf%find_last_some & _); destruct Hf. Qed.

Lemma tok_at_bump sup used i : is_Some (tok_at used i) ->
  exists t z, tok_at used i = Some t /\ tok_at (bump sup used) i = Some (with_size z t).
Proof.
  intros [t Ht]. exists t. rw /bump. destruct (tok_at used sup) as [u|] eqn:Hu; [|exists (tok_size t); by destruct t].
  rw /tok_at in Ht Hu |- *. case_decide; [done|]. case_decide; [done|].
  destruct (decide (i = sup)) as [->|Hne].
  - rw list_lookup_insert_eq; [|by eapply lookup_lt_Some]. rw Ht in Hu. injection Hu as ->. by eexists.
  - rw list_lookup_insert_ne; [|lia]. rw Ht. exists (tok_size t). by destruct t.
Qed.

Lemma inside_bump sup a used : inside a used -> inside a (bump sup used).
Proof.
  intros (H1 & H2 & t & Ht & Hc). rw /inside length_bump !find_last_bump //. split_and!; [done..|].
  destruct (tok_at_bump sup used a) as (t' & z & Ht' & Hb); [by eexists|]. rw Hb. eexists. split; [done|].
  rw Ht in Ht'. by injection Ht' as <-.
Qed.

Lemma inside_app a used l : inside a used -> closed_toks l -> inside a (used ++ l).
Proof.
  intros Hin Hl. pose proof (inside_range _ _ Hin) as Hr. destruct Hin as (H1 & H2 & t & Ht & Hc). split_and!.
  - by rw find_last_closed.
  - rw find_last_closed //. eapply Forall_impl; [exact Hl|]. intros u Hu. cbn in Hu. by rw Hu andb_false_r.
  - exists t. split; [|done]. by rw tok_at_app.
Qed.

Lemma iter_bump_app n a used l : 0 <= a < Z.of_nat (length used) ->
  Nat.iter n (bump a) (used ++ l) = Nat.iter n (bump a) used ++ l.
Proof.
  intros Ha. induction n as [|n IH]; [done|]. rw !Nat.iter_succ IH bump_app //.
  assert (Hl : length (Nat.iter n (bump a) used) = length used); [|lia].
  clear. induction n as [|n IH]; [done|]. by rw Nat.iter_succ length_bump IH.
Qed.

Lemma iter_bump_last n used ty p e z :
  Nat.iter n (bump (Z.of_nat (length used))) (used ++ [MkTok ty p e z]) = used ++ [MkTok ty p e (z + Z.of_nat n)].
Proof.
  induction n as [|n IH]; [by rw Z.add_0_r|]. rw Nat.iter_succ IH /bump /tok_at decide_False; [|lia].
  rw Nat2Z.id list_lookup_middle // insert_app_r_alt // Nat.sub_diag. rw /with_size. cbn [tok_type tok_start tok_end tok_size insert list_insert].
  by replace (z + Z.of_nat n + 1) with (z + Z.of_nat (S n)) by lia.
Qed.

(** ** Texts from a position on *)

Section grammar.
Context (text junk : list Z) (num : Z).
Hypothesis Htext : Forall (fun b => b <> 0) text.
Hypothesis Hlen : Z.of_nat (length text) < 2 ^ 31 - 1.
Hypothesis Hnum : 0 <= num < 2 ^ 31.
Let js := doc_js text junk.
Let len := doc_len text.

Definition at_text (p : Z) (l : list Z) : Prop := 0 <= p <= len /\ drop (Z.to_nat p) text = l.

Lemma at_text_cons p c l : at_text p (c :: l) -> at_char text p c /\ at_text (p + 1) l.
Proof.
  intros [Hp Hd]. assert (Hc : text !! Z.to_nat p = Some c).
  { rw -(Nat.add_0_r (Z.to_nat p)) -lookup_drop Hd //. }
  pose proof (lookup_lt_Some _ _ _ Hc). split; [split; [lia|done]|].
  split; [rw /len /doc_len; lia|]. replace (Z.to_nat (p + 1)) with (Z.to_nat p + 1)%nat by lia.
  by rw -drop_drop Hd.
Qed.

Lemma at_text_app p a l : at_text p (a ++ l) -> at_text (p + zlen a) l.
Proof.
  revert p. induction a as [|c a IH]; intros p Hp; [by rw Z.add_0_r|].
  apply at_text_cons in Hp as [_ Hp]. apply IH in Hp. rw /zlen. cbn [length].
  by replace (p + Z.of_nat (S (length a))) with (p + 1 + zlen a) by (rw /zlen; lia).
Qed.

Lemma at_text_len p l : at_text p l -> zlen l = len - p.
Proof.
  intros [Hp Hd]. rw /zlen -Hd length_drop /len /doc_len. rw /len /doc_len in Hp. lia.
Qed.

(** ** Strings *)

Lemma at_char_text p c l : at_text p (c :: l) -> at_char text p c.
Proof. by intros [H _]%at_text_cons. Qed.
Lemma at_text_next p c l : at_text p (c :: l) -> at_text (p + 1) l.
Proof. by intros [_ H]%at_text_cons. Qed.

Lemma more_here p c l sup used rest : at_text p (c :: l) ->
  more js len (jst p sup used rest) = Ret (true, jst p sup used rest).
Proof.
  intros Hp%at_char_text. pose proof (at_char_bound _ _ _ Hp). rw (more_run text junk) //; [|lia].
  by rw bool_decide_true; [|lia].
Qed.
Lemma cur_here p c l sup used rest : at_text p (c :: l) ->
  cur js (jst p sup used rest) = Ret (c, jst p sup used rest).
Proof. intros Hp%at_char_text. by apply cur_run. Qed.
Lemma move_here p q sup used rest : 0 <= q <= len -> move q (jst p sup used rest) = Ret (tt, jst q sup used rest).
Proof. intros Hq. apply (move_run text); [done|rw -/len; lia]. Qed.

(** Steps of a run that are known. *)
Ltac run_step :=
  rw /mbind /M_bind;
  repeat first
    [ progress rw get_pos_run
    | erewrite more_here; [|eassumption]
    | erewrite cur_here; [|eassumption]
    | rw move_here; [|lia] ].

Lemma hex_loop_run n hs p l sup used rest : length hs = n -> Forall (fun c => is_hex c = true) hs -> at_text p (hs ++ l) ->
  hex_loop js len n (jst p sup used rest) = Ret (true, jst (p + zlen hs) sup used rest).
Proof.
  revert n p. induction hs as [|h hs IH]; intros n p <- Hhs Hp; cbn [length hex_loop].
  { by rw /zlen Z.add_0_r. }
  inversion Hhs as [|? ? Hh Hhs']; subst. cbn [app] in Hp. pose proof (at_text_next _ _ _ Hp) as Hp1.
  pose proof (proj1 Hp1) as Hb. run_step. rw Hh. run_step. rw (IH _ (p + 1)) //.
  rw /zlen. cbn [length]. do 3 f_equal. lia.
Qed.

Lemma escape_run e l p sup used rest : is_escaped e = true -> at_text p (92 :: e :: l) ->
  escape js len (jst p sup used rest) = Ret (true, jst (p + 1) sup used rest).
Proof.
  intros He Hp. pose proof (at_text_next _ _ _ Hp) as Hp1. pose proof (proj1 Hp1). rw /escape. run_step. by rw He.
Qed.

Lemma unicode_run hs l p sup used rest : length hs = 4%nat -> Forall (fun c => is_hex c = true) hs ->
  at_text p (92 :: 117 :: hs ++ l) ->
  escape js len (jst p sup used rest) = Ret (true, jst (p + 5) sup used rest).
Proof.
  intros Hn Hhs Hp. pose proof (at_text_next _ _ _ Hp) as Hp1. pose proof (at_text_next _ _ _ Hp1) as Hp2.
  pose proof (at_text_app _ _ _ Hp2) as Hp3. pose proof (proj1 Hp1). pose proof (proj1 Hp2). pose proof (proj1 Hp3).
  rw /zlen Hn in H1. rw /escape. run_step. cbn [is_escaped Z.eqb orb Pos.eqb]. run_step.
  rw (hex_loop_run 4 hs _ l) // /zlen Hn. run_step.
  by replace (p + 1 + 1 + Z.of_nat 4 - 1) with (p + 5) by lia.
Qed.

Lemma alloc_here p sup used x rest : Z.of_nat (length used) < num <= Z.of_nat (length used + S (length rest)) ->
  jsmn_alloc_token num (jst p sup used (x :: rest)) =
    Ret (Some (Z.of_nat (length used)), jst p sup (used ++ [MkTok (tok_type x) (-1) (-1) 0]) rest).
Proof.
  intros Hn. rw alloc_run; [|cbn [length]; lia|lia]. by rw (proj2 (Z.leb_gt _ _)); [|lia].
Qed.

Lemma no_tokens_run p sup used rest : no_tokens (jst p sup used rest) = Ret (false, jst p sup used rest).
Proof. done. Qed.

Lemma string_loop_run s : string_body s -> forall fuel p l start sup used x rest,
  at_text p (s ++ 34 :: l) -> 0 <= start < p -> zlen s < Z.of_nat fuel ->
  Z.of_nat (length used) < num <= Z.of_nat (length used + S (length rest)) ->
  string_loop js len num fuel start (jst p sup used (x :: rest)) =
    Ret (0, jst (p + zlen s) sup (used ++ [MkTok JSMN_STRING (start + 1) (p + zlen s) 0]) rest).
Proof.
  induction 1 as [|c s Hq Hb Hz Hs IH|e s He Hs IH|a b c d s Ha Hb Hc Hd Hs IH];
    intros fuel p l start sup used x rest Hp Hst Hf Hn; (destruct fuel as [|fuel]; [rw /zlen in Hf; lia|]);
    cbn [string_loop app] in *.
  - pose proof (at_char_bound _ _ _ (at_char_text _ _ _ Hp)). rw /zlen Z.add_0_r. run_step.
    cbn [Z.eqb Pos.eqb]. rw no_tokens_run alloc_here // get_pos_run. by rw (fill_run text) //; rw -/len; lia.
  - pose proof (at_text_next _ _ _ Hp) as Hp1. pose proof (proj1 Hp1). run_step.
    rw (proj2 (Z.eqb_neq c 34)) // (proj2 (Z.eqb_neq c 92)) //. cbn [andb]. rw /mret /M_ret. run_step.
    rw /zlen in Hf |- *. cbn [length] in Hf |- *.
    rw (IH fuel (p + 1) l) //; [|lia|rw /zlen; lia]. rw /zlen.
    by replace (p + 1 + Z.of_nat (length s)) with (p + Z.of_nat (S (length s))) by lia.
  - pose proof (at_text_next _ _ _ Hp) as Hp1. pose proof (at_text_next _ _ _ Hp1) as Hp2.
    pose proof (proj1 Hp1). pose proof (proj1 Hp2). run_step. cbn [Z.eqb Pos.eqb andb]. run_step.
    destruct (len_u32 text Hlen (p + 1)) as [-> _]; [rw -/len; lia|]. rw (proj2 (Z.ltb_lt (p + 1) len)); [|lia].
    rw (escape_run e (s ++ 34 :: l)) //. run_step. rw /zlen in Hf |- *. cbn [length] in Hf |- *.
    rw (IH fuel (p + 1 + 1) l) //; [|lia|rw /zlen; lia]. rw /zlen.
    by replace (p + 1 + 1 + Z.of_nat (length s)) with (p + Z.of_nat (S (S (length s)))) by lia.
  - pose proof (at_text_next _ _ _ Hp) as Hp1. pose proof (at_text_next _ _ _ Hp1) as Hp2.
    assert (at_text (p + 6) (s ++ 34 :: l)) as Hp6.
    { pose proof (at_text_app (p + 1 + 1) [a; b; c; d] (s ++ 34 :: l) Hp2) as H6. rw /zlen /= in H6.
      by replace (p + 6) with (p + 1 + 1 + 4) by lia. }
    pose proof (proj1 Hp2). pose proof (proj1 Hp6). run_step. cbn [Z.eqb Pos.eqb andb]. run_step.
    destruct (len_u32 text Hlen (p + 1)) as [-> _]; [rw -/len; lia|]. rw (proj2 (Z.ltb_lt (p + 1) len)); [|lia].
    rw (unicode_run [a; b; c; d] (s ++ 34 :: l)) //; [|by repeat constructor]. run_step.
    replace (p + 5 + 1) with (p + 6) by lia. rw /zlen in Hf |- *. cbn [length] in Hf |- *.
    rw (IH fuel (p + 6) l) //; [|lia|rw /zlen; lia]. rw /zlen.
    by replace (p + 6 + Z.of_nat (length s)) with (p + Z.of_nat (S (S (S (S (S (S (length s))))))))  by lia.
Qed.

Lemma js_length : Z.of_nat (length js) = len + 1 + zlen junk.
Proof. rw /js /doc_js /len /doc_len /zlen length_app. cbn [length]. lia. Qed.

Lemma parse_string_run s l p sup used x rest : string_body s -> at_text p ([34] ++ s ++ [34] ++ l) ->
  Z.of_nat (length used) < num <= Z.of_nat (length used + S (length rest)) ->
  jsmn_parse_string js len num (jst p sup used (x :: rest)) =
    Ret (0, jst (p + 1 + zlen s) sup (used ++ [MkTok JSMN_STRING (p + 1) (p + 1 + zlen s) 0]) rest).
Proof.
  intros Hs Hp Hn. pose proof (at_text_next _ _ _ Hp) as Hp1. pose proof (proj1 Hp1). pose proof (proj1 Hp).
  pose proof (at_text_len _ _ Hp1) as Hl. rw /zlen length_app in Hl. pose proof js_length. rw /zlen in H1.
  rw /jsmn_parse_string. run_step. rw (string_loop_run s Hs _ _ l) //; [lia|rw /zlen; lia].
Qed.

(** ** Primitives *)

(** A primitive ends at a separator or at the end of the text. *)
Definition follow (l : list Z) : Prop := match l with [] => True | c :: _ => ends_primitive c = true end.

Lemma primitive_loop_run s fuel p l sup used rest : Forall prim_char s -> at_text p (s ++ l) -> follow l ->
  zlen s < Z.of_nat fuel ->
  primitive_loop js len fuel (jst p sup used rest) = Ret (true, jst (p + zlen s) sup used rest).
Proof.
  revert fuel p. induction s as [|c s IH]; intros fuel p Hs Hp Hfo Hf;
    (destruct fuel as [|fuel]; [rw /zlen in Hf; lia|]); cbn [primitive_loop app] in *.
  - rw /zlen Z.add_0_r. destruct l as [|c l].
    + pose proof (at_text_len _ _ Hp) as Hl. rw /zlen /= in Hl. pose proof (proj1 Hp).
      rw /mbind /M_bind (more_run text junk) //; [|rw -/len; lia]. by rw bool_decide_false; [|rw -/len; lia].
    + run_step. cbn in Hfo. by rw Hfo.
  - inversion Hs as [|? ? [He Hc] Hs']; subst. pose proof (at_text_next _ _ _ Hp) as Hp1. pose proof (proj1 Hp1).
    run_step. rw He (proj2 (Z.ltb_ge c 32)); [|lia]. rw (proj2 (Z.leb_gt 127 c)); [|lia]. cbn [orb]. run_step.
    rw /zlen in Hf |- *. cbn [length] in Hf |- *. rw IH //; [|rw /zlen; lia]. rw /zlen.
    by replace (p + 1 + Z.of_nat (length s)) with (p + Z.of_nat (S (length s))) by lia.
Qed.

Lemma parse_primitive_run s l p sup used x rest : Forall prim_char s -> s <> [] -> at_text p (s ++ l) -> follow l ->
  Z.of_nat (length used) < num <= Z.of_nat (length used + S (length rest)) ->
  jsmn_parse_primitive js len num (jst p sup used (x :: rest)) =
    Ret (0, jst (p + zlen s - 1) sup (used ++ [MkTok JSMN_PRIMITIVE p (p + zlen s) 0]) rest).
Proof.
  intros Hs Hne Hp Hfo Hn. pose proof (proj1 Hp). pose proof (proj1 (at_text_app _ _ _ Hp)).
  assert (1 <= zlen s) by (destruct s; [done|rw /zlen /=; lia]). pose proof js_length.
  rw /jsmn_parse_primitive. run_step. rw (primitive_loop_run s _ _ l) //; [|rw /zlen in H0 H2 |- *; lia].
  rw no_tokens_run alloc_here // get_pos_run. rw (fill_run text) //; [|rw -/len; lia..]. by run_step.
Qed.

(** ** Runs of the main loop *)

(** The loop gets from one state to the other, in at most as many turns as characters. *)
Definition goes (p sup : Z) (used rest : list jsmntok_t) (p' sup' : Z) (used' rest' : list jsmntok_t) : Prop :=
  exists k, Z.of_nat k <= p' - p /\ forall fuel,
    jsmn_loop js len num (k + fuel) (Z.of_nat (length used)) (jst p sup used rest) =
    jsmn_loop js len num fuel (Z.of_nat (length used')) (jst p' sup' used' rest').

Lemma goes_refl p sup used rest : goes p sup used rest p sup used rest.
Proof. exists 0%nat. split; [lia|done]. Qed.

Lemma goes_trans p1 s1 u1 r1 p2 s2 u2 r2 p3 s3 u3 r3 :
  goes p1 s1 u1 r1 p2 s2 u2 r2 -> goes p2 s2 u2 r2 p3 s3 u3 r3 -> goes p1 s1 u1 r1 p3 s3 u3 r3.
Proof.
  intros (k1 & Hk1 & H1) (k2 & Hk2 & H2). exists (k1 + k2)%nat. split; [lia|].
  intros fuel. by rw -Nat.add_assoc H1 H2.
Qed.

Lemma goes_turn p c l sup used rest d p' sup' used' rest' : at_text p (c :: l) ->
  jsmn_char js len num c (jst p sup used rest) = Ret (inr d, jst p' sup' used' rest') ->
  Z.of_nat (length used') = Z.of_nat (length used) + d -> p <= p' < len -> Z.of_nat (length used') < 2 ^ 31 ->
  goes p sup used rest (p' + 1) sup' used' rest'.
Proof.
  intros Hp Hc Hu Hp' Hmax. exists 1%nat. split; [lia|]. intros fuel. cbn [Nat.add jsmn_loop]. pose proof (proj1 Hp).
  run_step. rw Hc. run_step. rw -Hu s32_small //. lia.
Qed.

Lemma goes_ws w p l sup used rest : ws w -> at_text p (w ++ l) -> Z.of_nat (length used) < 2 ^ 31 ->
  goes p sup used rest (p + zlen w) sup used rest.
Proof.
  revert p. induction w as [|c w IH]; intros p Hw Hp Hmax; [rw /zlen Z.add_0_r; apply goes_refl|].
  inversion Hw as [|? ? Hc Hw']; subst. cbn [app] in Hp. pose proof (at_char_bound _ _ _ (at_char_text _ _ _ Hp)).
  eapply goes_trans; [apply (goes_turn p c (w ++ l) sup used rest 0 p sup used rest); [done| |lia|rw /len; lia|done]|].
  - by destruct Hc as [-> | [-> | [-> | ->]]].
  - replace (p + zlen (c :: w)) with (p + 1 + zlen w) by (rw /zlen; cbn [length]; lia).
    apply IH; [done|by eapply at_text_next|done].
Qed.

Lemma follow_ws w l : ws w -> follow l -> follow (w ++ l).
Proof. destruct 1 as [|c w [-> | [-> | [-> | ->]]] _]; done. Qed.

(** Room for [n] more tokens. *)
Definition has_room (n : nat) (used rest : list jsmntok_t) : Prop :=
  Z.of_nat (length used + n) <= num <= Z.of_nat (length used + length rest).

Lemma room_cons n used rest : has_room (S n) used rest -> exists x rest', rest = x :: rest' /\
  Z.of_nat (length used) < num <= Z.of_nat (length used + S (length rest')).
Proof. intros Hr. rw /has_room in Hr. destruct rest as [|x rest]; cbn [length] in *; [lia|]. exists x, rest. split; [done|lia]. Qed.

Lemma count_value_run p sup used t rest : -1 <= sup < Z.of_nat (length used) ->
  count_value (jst p sup (used ++ [t]) rest) = Ret (tt, jst p sup (bump sup used ++ [t]) rest).
Proof.
  intros Hs. rw /count_value /mbind /M_bind no_tokens_run count_child_run; [|rw length_app; lia]. by rw bump_app.
Qed.

Lemma goes_string s l p sup used rest : string_body s -> at_text p ([34] ++ s ++ [34] ++ l) -> has_room 1 used rest ->
  -1 <= sup < Z.of_nat (length used) ->
  goes p sup used rest (p + zlen s + 2) sup (bump sup used ++ [MkTok JSMN_STRING (p + 1) (p + 1 + zlen s) 0]) (drop 1 rest).
Proof.
  intros Hs Hp Hr Hsup. destruct (room_cons _ _ _ Hr) as (x & rest' & -> & Hn). pose proof (proj1 Hp).
  pose proof (at_text_app p ([34] ++ s) ([34] ++ l)) as Hq. rw -!app_assoc in Hq. specialize (Hq Hp).
  assert (zlen ([34] ++ s) = 1 + zlen s) as Hz by (rw /zlen length_app; cbn [length]; lia).
  pose proof (at_char_bound _ _ _ (at_char_text _ _ _ Hq)) as Hb. rw Hz in Hb.
  replace (p + zlen s + 2) with (p + 1 + zlen s + 1) by lia. assert (0 <= zlen s) by (rw /zlen; lia).
  eapply (goes_turn p 34 (s ++ [34] ++ l) sup used (x :: rest') 1); [done| |rw length_app length_bump; cbn [length]; lia
    |rw /len; lia|rw length_app length_bump; cbn [length]; lia].
  rw /jsmn_char /mbind /M_bind. cbn [Z.eqb Pos.eqb orb]. rw (parse_string_run s l) //. cbn [Z.ltb Z.compare].
  by rw count_value_run.
Qed.

Lemma goes_primitive s l p sup used rest : prim_text s -> at_text p (s ++ l) -> follow l -> has_room 1 used rest ->
  -1 <= sup < Z.of_nat (length used) ->
  goes p sup used rest (p + zlen s) sup (bump sup used ++ [MkTok JSMN_PRIMITIVE p (p + zlen s) 0]) (drop 1 rest).
Proof.
  intros [Hs (c & s' & -> & Hc)] Hp Hfo Hr Hsup. destruct (room_cons _ _ _ Hr) as (x & rest' & -> & Hn).
  pose proof (proj1 Hp). pose proof (proj1 (at_text_app _ _ _ Hp)) as Hb. pose proof Hs as Hs0.
  inversion Hs0 as [|? ? [He _] _]; subst. assert (1 <= zlen (c :: s')) by (rw /zlen; cbn [length]; lia).
  set (z := zlen (c :: s')) in *. replace (p + z) with (p + z - 1 + 1) at 1 by lia.
  eapply (goes_turn p c (s' ++ l) sup used (x :: rest') 1); [done| |rw length_app length_bump; cbn [length]; lia
    |lia|rw length_app length_bump; cbn [length]; lia].
  rw /ends_primitive in He. repeat (apply orb_false_iff in He as [He ?]).
  rw /jsmn_char /mbind /M_bind. destruct Hc as (Hc1 & Hc2 & Hc3).
  rw (proj2 (Z.eqb_neq c 123)) // (proj2 (Z.eqb_neq c 91)) // (proj2 (Z.eqb_neq c 34)) //.
  repeat match goal with H : (c =? _) = false |- _ => rw H; clear H end. cbn [orb].
  rw (parse_primitive_run (c :: s') l) //. cbn [Z.ltb Z.compare]. by rw count_value_run.
Qed.

Lemma goes_open p c l sup used rest : at_text p (c :: l) -> c = 123 \/ c = 91 -> has_room 1 used rest ->
  -1 <= sup < Z.of_nat (length used) ->
  goes p sup used rest (p + 1) (Z.of_nat (length used)) (bump sup used ++ [MkTok (open_type c) p (-1) 0]) (drop 1 rest).
Proof.
  intros Hp Hc Hr Hsup. destruct (room_cons _ _ _ Hr) as (x & rest' & -> & Hn).
  pose proof (at_char_bound _ _ _ (at_char_text _ _ _ Hp)).
  eapply (goes_turn p c l sup used (x :: rest') 1); [done| |rw length_app length_bump; cbn [length]; lia
    |rw /len; lia|rw length_app length_bump; cbn [length]; lia].
  assert (jsmn_char js len num c (jst p sup used (x :: rest')) =
    (r ← open_bracket num c; mret (if r <? 0 then inl r else inr 1)) (jst p sup used (x :: rest'))) as ->.
  { by destruct Hc as [-> | ->]. }
  rw /mbind /M_bind (open_bracket_run text) //; [|cbn [length]; lia].
  by rw (proj2 (Z.leb_gt _ _)); [|lia].
Qed.

Lemma goes_colon p l sup used rest : at_text p (58 :: l) -> Z.of_nat (length used) < 2 ^ 31 ->
  goes p sup used rest (p + 1) (Z.of_nat (length used) - 1) used rest.
Proof.
  intros Hp Hmax. pose proof (at_char_bound _ _ _ (at_char_text _ _ _ Hp)).
  eapply (goes_turn p 58 l sup used rest 0); [done| |lia|rw /len; lia|done].
  rw /jsmn_char /mbind /M_bind. cbn [Z.eqb Pos.eqb orb]. rw /gets. cbn [parser toknext jst]. by rw s32_small; [|lia].
Qed.

Lemma goes_comma p l sup used rest : at_text p (44 :: l) -> -1 <= sup < Z.of_nat (length used) ->
  Z.of_nat (length used) < 2 ^ 31 ->
  goes p sup used rest (p + 1) (comma_super sup used) used rest.
Proof.
  intros Hp Hs Hmax. pose proof (at_char_bound _ _ _ (at_char_text _ _ _ Hp)).
  eapply (goes_turn p 44 l sup used rest 0); [done| |lia|rw /len; lia|done].
  rw /jsmn_char /mbind /M_bind. cbn [Z.eqb Pos.eqb orb]. by rw comma_run.
Qed.

(** The bracket that closes the container behind [used], after the tokens [toks]. *)
Lemma goes_close p c l sup used start n toks rest : at_text p (c :: l) -> c = 125 \/ c = 93 ->
  0 <= start -> closed_toks toks -> Z.of_nat (length (used ++ toks)) + 1 < 2 ^ 31 ->
  goes p sup (used ++ MkTok (close_type c) start (-1) n :: toks) rest
    (p + 1) (last_open used) (used ++ MkTok (close_type c) start (p + 1) n :: toks) rest.
Proof.
  intros Hp Hc Hst Htoks Hmax. pose proof (at_char_bound _ _ _ (at_char_text _ _ _ Hp)).
  set (t := MkTok (close_type c) start (-1) n). set (a := Z.of_nat (length used)).
  assert (Ho : is_open t = true) by (rw /is_open /t /=; by rw (proj2 (Z.eqb_neq start (-1))); [|lia]).
  assert (Hat : forall u, tok_at (used ++ u :: toks) a = Some u).
  { intros u. rw /tok_at decide_False; [|lia]. by rw /a Nat2Z.id list_lookup_middle. }
  assert (Hf : find_last is_open (used ++ t :: toks) (length (used ++ t :: toks)) = Some a).
  { rw cons_middle app_assoc find_last_closed // length_app. cbn [length]. rw Nat.add_1_r. cbn [find_last].
    rw list_lookup_middle // Ho //. }
  eapply (goes_turn p c l sup _ rest 0); [done| |rw !length_app; cbn [length]; lia|rw /len; lia
    |revert Hmax; rw !length_app; cbn [length]; lia].
  assert (jsmn_char js len num c (jst p sup (used ++ t :: toks) rest) =
    (r ← close_bracket c; mret (if r <? 0 then inl r else inr 0)) (jst p sup (used ++ t :: toks) rest)) as ->.
  { by destruct Hc as [-> | ->]. }
  rw /mbind /M_bind (close_bracket_run text Hlen _ _ _ _ _ a t) //.
  destruct (decide (tok_type t <> close_type c)) as [Hd|_]; [by destruct Hd|].
  rw /a Nat2Z.id insert_app_r_alt // Nat.sub_diag. cbn [insert list_insert Z.ltb Z.compare].
  do 3 f_equal. rw /last_open. f_equal. replace (Z.to_nat (Z.of_nat (length used) + 1)) with (S (length used)) by lia.
  cbn [find_last]. rw list_lookup_middle //.
  assert (is_open (with_end (p + 1) t) = false) as ->.
  { rw /is_open /with_end /t /=. rw (proj2 (Z.eqb_neq (p + 1) (-1))); [by rw andb_false_r|lia]. }
  by rw find_last_prefix.
Qed.

(** ** Values *)

Definition value_runs (p : Z) (v : list Z) (toks : list jsmntok_t) : Prop := forall l sup used rest,
  at_text p (v ++ l) -> follow l -> has_room (length toks) used rest -> -1 <= sup < Z.of_nat (length used) ->
  exists sup', (sup' = sup \/ sup' = last_open used) /\
    goes p sup used rest (p + zlen v) sup' (bump sup used ++ toks) (drop (length toks) rest).
Definition elements_run (p : Z) (body : list Z) (toks : list jsmntok_t) (n : nat) : Prop := forall l a used rest,
  at_text p (body ++ l) -> follow l -> has_room (length toks) used rest -> inside a used ->
  goes p a used rest (p + zlen body) a (Nat.iter n (bump a) used ++ toks) (drop (length toks) rest).
Definition members_run (p : Z) (body : list Z) (toks : list jsmntok_t) (n : nat) : Prop := forall l a used rest,
  at_text p (body ++ l) -> follow l -> has_room (length toks) used rest -> inside a used ->
  exists sup', goes p a used rest (p + zlen body) sup' (Nat.iter n (bump a) used ++ toks) (drop (length toks) rest).
Definition member_runs (p : Z) (m : list Z) (toks : list jsmntok_t) : Prop := forall l a used rest,
  at_text p (m ++ l) -> follow l -> has_room (length toks) used rest -> inside a used ->
  exists sup', -1 <= sup' < Z.of_nat (length (bump a used ++ toks)) /\ comma_super sup' (bump a used ++ toks) = a /\
    goes p a used rest (p + zlen m) sup' (bump a used ++ toks) (drop (length toks) rest).

Lemma room_max n used rest : has_room n used rest -> Z.of_nat (length used) < 2 ^ 31.
Proof. rw /has_room. lia. Qed.

(** Room after some of the tokens are allocated. *)
Lemma room_after m n used used' rest : has_room (m + n) used rest -> (length used' = length used + m)%nat ->
  has_room n used' (drop m rest).
Proof. rw /has_room length_drop. lia. Qed.

(** A value with white space around it, as an element of [a]. *)
Lemma element_run w1 v w2 t l p a used rest : ws w1 -> ws w2 -> value_runs (p + zlen w1) v t -> closed_toks t ->
  at_text p ((w1 ++ v ++ w2) ++ l) -> follow l -> has_room (length t) used rest -> inside a used ->
  goes p a used rest (p + zlen (w1 ++ v ++ w2)) a (bump a used ++ t) (drop (length t) rest) /\ inside a (bump a used ++ t).
Proof.
  intros Hw1 Hw2 Hv Hcl Hp Hfo Hr Hin. pose proof (inside_range _ _ Hin) as Ha.
  rw -!app_assoc in Hp. pose proof (at_text_app _ _ _ Hp) as Hp1. pose proof (at_text_app _ _ _ Hp1) as Hp2.
  pose proof (room_max _ _ _ Hr) as Hmax.
  destruct (Hv (w2 ++ l) a used rest) as (sup' & Hsup & Hgo); [done|by apply follow_ws|done|lia|].
  assert (sup' = a) as ->. { destruct Hsup as [->|Hs]; [done|]. rw /last_open (proj1 Hin) in Hs. done. }
  split; [|apply inside_app; [by apply inside_bump|done]]. rw !zlen_app.
  eapply goes_trans; [eapply goes_ws; [exact Hw1|exact Hp|done]|]. eapply goes_trans; [exact Hgo|].
  replace (p + (zlen w1 + (zlen v + zlen w2))) with (p + zlen w1 + zlen v + zlen w2) by lia.
  eapply goes_ws; [done|exact Hp2|]. rw length_app length_bump. rw /has_room in Hr. lia.
Qed.

(** The bracketed values: between the brackets the container is the innermost open one. *)
Lemma container_runs (o c : Z) p body toks n :
  (o = 91 /\ c = 93) \/ (o = 123 /\ c = 125) -> 0 <= p -> closed_toks toks ->
  members_run (p + 1) body toks n ->
  value_runs p ([o] ++ body ++ [c]) (MkTok (open_type o) p (p + zlen body + 2) (Z.of_nat n) :: toks).
Proof.
  intros Hoc Hp0 Hcl Hbody l sup used rest Hp Hfo Hr Hsup. cbn [length] in Hr.
  assert (Hty : open_type o = close_type c) by (by destruct Hoc as [[-> ->]|[-> ->]]).
  rw -!app_assoc in Hp. pose proof (at_text_next _ _ _ Hp) as Hp1. pose proof (at_text_app _ _ _ Hp1) as Hp2.
  set (a := Z.of_nat (length used)). set (U := bump sup used). set (t0 := MkTok (open_type o) p (-1) 0).
  assert (Ha : a = Z.of_nat (length U)) by (by rw /U length_bump).
  assert (Hin : inside a (U ++ [t0])).
  { assert (is_container t0 = true /\ is_open t0 = true) as [Hc0 Ho0].
    { split; [by destruct Hoc as [[-> _]|[-> _]]|]. rw /is_open /t0 /=. by rw (proj2 (Z.eqb_neq p (-1))); [|lia]. }
    rw /inside length_app. cbn [length]. rw Nat.add_1_r. cbn [find_last]. rw list_lookup_middle // Hc0 Ho0 -Ha.
    split_and!; [done..|]. exists t0. split; [|done]. rw Ha /tok_at decide_False; [|lia].
    by rw Nat2Z.id list_lookup_middle. }
  assert (Hr1 : has_room (length toks) (U ++ [t0]) (drop 1 rest)).
  { apply (room_after 1 _ used); [done|]. rw length_app /U length_bump. done. }
  destruct (Hbody ([c] ++ l) a (U ++ [t0]) (drop 1 rest)) as (sup2 & Hgo2); [done| |done|done|].
  { by destruct Hoc as [[_ ->]|[_ ->]]. }
  rw {2}Ha iter_bump_last in Hgo2. rw drop_drop -app_assoc in Hgo2. cbn [app] in Hgo2.
  exists (last_open used). split; [by right|].
  eapply goes_trans; [eapply goes_open; [exact Hp| | |done]|].
  { by destruct Hoc as [[-> _]|[-> _]]; [right|left]. }
  { rw /has_room in Hr |- *. lia. }
  eapply goes_trans; [exact Hgo2|]. rw Z.add_0_l Hty.
  replace (last_open used) with (last_open U) by (by rw /last_open /U length_bump find_last_bump).
  rw !zlen_app. change (zlen [o]) with 1. change (zlen [c]) with 1.
  replace (p + (1 + (zlen body + 1))) with (p + 1 + zlen body + 1) by lia.
  replace (p + zlen body + 2) with (p + 1 + zlen body + 1) by lia. cbn [length].
  eapply goes_close; [exact Hp2| |done|done|].
  - by destruct Hoc as [[_ ->]|[_ ->]]; [right|left].
  - rw length_app /U length_bump. rw /has_room in Hr. lia.
Qed.

Lemma elements_members p body toks n : elements_run p body toks n -> members_run p body toks n.
Proof. intros He l a used rest Hp Hfo Hr Hin. exists a. by eapply He. Qed.

(** A comma after the value of a key goes on in the container. *)
Lemma key_comma a sup U key t : inside a (U ++ key :: t) -> is_container key = false -> sup = Z.of_nat (length U) \/ sup = a ->
  comma_super sup (U ++ key :: t) = a.
Proof.
  intros (Hf & Hf2 & ta & Hta & Hca) Hkey [->| ->]; rw /comma_super; [|by rw Hta Hca].
  assert (tok_at (U ++ key :: t) (Z.of_nat (length U)) = Some key) as ->.
  { rw /tok_at decide_False; [|lia]. by rw Nat2Z.id list_lookup_middle. }
  by rw Hkey Hf2.
Qed.
(** A key and its colon, up to the value. *)
Lemma key_run w1 k w2 w3 l p a used rest : ws w1 -> string_body k -> ws w2 -> ws w3 ->
  at_text p (w1 ++ [34] ++ k ++ [34] ++ w2 ++ [58] ++ w3 ++ l) -> has_room 1 used rest ->
  -1 <= a < Z.of_nat (length used) ->
  goes p a used rest (p + zlen w1 + 1 + zlen k + 1 + zlen w2 + 1 + zlen w3) (Z.of_nat (length used))
    (bump a used ++ [MkTok JSMN_STRING (p + zlen w1 + 1) (p + zlen w1 + 1 + zlen k) 0]) (drop 1 rest).
Proof.
  intros Hw1 Hk Hw2 Hw3 Hp Hr Ha. pose proof (room_max _ _ _ Hr) as Hmax.
  pose proof (at_text_app _ _ _ Hp) as Hp1. pose proof (at_text_app _ [34] _ Hp1) as Hp2. pose proof (at_text_app _ k _ Hp2) as Hp3.
  pose proof (at_text_app _ [34] _ Hp3) as Hp4. pose proof (at_text_app _ w2 _ Hp4) as Hp5. pose proof (at_text_app _ [58] _ Hp5) as Hp6.
  change (zlen [34]) with 1 in *. change (zlen [58]) with 1 in *.
  assert (Hk1 : length (bump a used ++ [MkTok JSMN_STRING (p + zlen w1 + 1) (p + zlen w1 + 1 + zlen k) 0]) = S (length used))
    by (rw length_app length_bump; cbn; lia).
  assert (Hm : Z.of_nat (S (length used)) < 2 ^ 31) by (rw /has_room in Hr; lia). rw -Hk1 in Hm.
  eapply goes_trans; [eapply goes_ws; [exact Hw1|exact Hp|done]|].
  eapply goes_trans; [eapply goes_string; [exact Hk|exact Hp1|done|lia]|].
  replace (p + zlen w1 + zlen k + 2) with (p + zlen w1 + 1 + zlen k + 1) by lia.
  eapply goes_trans; [eapply goes_ws; [exact Hw2|exact Hp4|done]|].
  eapply goes_trans; [eapply goes_colon; [exact Hp5|done]|]. rw Hk1.
  replace (Z.of_nat (S (length used)) - 1) with (Z.of_nat (length used)) by lia.
  eapply goes_ws; [exact Hw3|exact Hp6|done].
Qed.

(** A key, its colon and its value. *)
Lemma member_run w1 k w2 w3 v w4 t p : ws w1 -> string_body k -> ws w2 -> ws w3 -> ws w4 ->
  value_runs (p + zlen (w1 ++ ([34] ++ k ++ [34]) ++ w2 ++ [58] ++ w3)) v t -> closed_toks t -> 0 <= p ->
  member_runs p (w1 ++ ([34] ++ k ++ [34]) ++ w2 ++ [58] ++ w3 ++ v ++ w4)
    (MkTok JSMN_STRING (p + zlen w1 + 1) (p + zlen w1 + 1 + zlen k) 1 :: t).
Proof.
  intros Hw1 Hk Hw2 Hw3 Hw4 Hv Hcl Hp0 l a used rest Hp Hfo Hr Hin. cbn [length] in Hr.
  pose proof (inside_range _ _ Hin) as Ha.
  set (q := p + zlen w1) in *. set (key := fun z => MkTok JSMN_STRING (q + 1) (q + 1 + zlen k) z).
  set (U := bump a used). assert (HU : length U = length used) by (by rw /U length_bump).
  assert (Heq : p + zlen (w1 ++ ([34] ++ k ++ [34]) ++ w2 ++ [58] ++ w3) = q + 1 + zlen k + 1 + zlen w2 + 1 + zlen w3).
  { rw !zlen_app /q. change (zlen [34]) with 1. change (zlen [58]) with 1. lia. }
  assert (Hroom1 : has_room 1 used rest) by (rw /has_room in Hr |- *; lia).
  rw -!app_assoc in Hp. pose proof (key_run w1 k w2 w3 (v ++ w4 ++ l) p a used rest Hw1 Hk Hw2 Hw3 Hp Hroom1 ltac:(lia)) as Hgo1.
  assert (Hp7 : at_text (q + 1 + zlen k + 1 + zlen w2 + 1 + zlen w3) (v ++ w4 ++ l)) by (rw -Heq; apply at_text_app; by rw -!app_assoc).
  pose proof (at_text_app _ v _ Hp7) as Hp8. rw Heq in Hv.
  destruct (Hv (w4 ++ l) (Z.of_nat (length used)) (U ++ [key 0]) (drop 1 rest)) as (sup' & Hsup & Hgo);
    [done|by apply follow_ws| | |].
  { apply (room_after 1 _ used); [done|]. by rw length_app HU. }
  { rw length_app HU. cbn [length]. lia. }
  assert (Hkey : bump (Z.of_nat (length used)) (U ++ [key 0]) = U ++ [key 1]).
  { rw -HU. exact (iter_bump_last 1 U JSMN_STRING (q + 1) (q + 1 + zlen k) 0). }
  assert (closed_toks [key 0] /\ closed_toks (key 1 :: t)) as [Hk0 Hk1].
  { pose proof (zlen_nonneg w1). pose proof (zlen_nonneg k). split; constructor; try done; apply closed_end; rw /q; lia. }
  assert (HinU : inside a (U ++ key 1 :: t)) by (apply inside_app; [by apply inside_bump|done]).
  rw Hkey drop_drop -app_assoc in Hgo. cbn [app] in Hgo.
  assert (Hs : sup' = Z.of_nat (length used) \/ sup' = a).
  { destruct Hsup as [->|Hs]; [by left|right].
    rw Hs /last_open find_last_closed // /U length_bump find_last_bump //. by rw (proj1 Hin). }
  exists sup'. split_and!.
  - lia.
  - rw length_app HU. cbn [length]. lia.
  - rw -HU in Hs. by apply (key_comma a sup' U (key 1) t).
  - eapply goes_trans; [exact Hgo1|]. eapply goes_trans; [exact Hgo|].
    replace (p + zlen (w1 ++ ([34] ++ k ++ [34]) ++ w2 ++ [58] ++ w3 ++ v ++ w4)) with
      (q + 1 + zlen k + 1 + zlen w2 + 1 + zlen w3 + zlen v + zlen w4); last first.
    { rw !zlen_app /q. change (zlen [34]) with 1. change (zlen [58]) with 1. lia. }
    eapply goes_ws; [exact Hw4|exact Hp8|]. rw length_app HU. cbn [length]. rw /has_room in Hr. lia.
Qed.

Lemma iter_bump_length n a used : length (Nat.iter n (bump a) used) = length used.
Proof. induction n as [|n IH]; [done|]. by rw Nat.iter_succ length_bump. Qed.

(** The rest of a list behind its first item and a comma. *)
Lemma list_more p q a sup' s2 n used rest m t body toks l :
  at_text p (m ++ [44] ++ body ++ l) -> q = p + zlen m -> inside a used -> closed_toks t ->
  has_room (length t + length toks) used rest ->
  -1 <= sup' < Z.of_nat (length (bump a used ++ t)) -> comma_super sup' (bump a used ++ t) = a ->
  goes p a used rest q sup' (bump a used ++ t) (drop (length t) rest) ->
  goes (q + 1) a (bump a used ++ t) (drop (length t) rest) (q + 1 + zlen body) s2
    (Nat.iter (S n) (bump a) (bump a used ++ t) ++ toks) (drop (length toks) (drop (length t) rest)) ->
  goes p a used rest (p + zlen (m ++ [44] ++ body)) s2
    (Nat.iter (S (S n)) (bump a) used ++ t ++ toks) (drop (length (t ++ toks)) rest).
Proof.
  intros Hp -> Hin Hcl Hr Hsup Hcs Hgo Hgo2. pose proof (inside_range _ _ Hin) as Ha.
  pose proof (at_text_app _ _ _ Hp) as Hp1. rw !zlen_app. change (zlen [44]) with 1.
  replace (p + (zlen m + (1 + zlen body))) with (p + zlen m + 1 + zlen body) by lia.
  rw drop_drop -length_app in Hgo2. rw iter_bump_app in Hgo2; [|by rw length_bump].
  rw -app_assoc -Nat.iter_succ_r in Hgo2.
  eapply goes_trans; [exact Hgo|]. eapply goes_trans; [eapply goes_comma; [exact Hp1|done|]|by rw Hcs].
  rw length_app length_bump. rw /has_room in Hr. lia.
Qed.

(** A first element with more behind its comma, and the same for members. *)
Lemma elements_more_run p w1 v w2 t body toks n : ws w1 -> ws w2 -> closed_toks t -> value_runs (p + zlen w1) v t ->
  elements_run (p + zlen (w1 ++ v ++ w2) + 1) body toks (S n) ->
  elements_run p ((w1 ++ v ++ w2) ++ [44] ++ body) (t ++ toks) (S (S n)).
Proof.
  intros Hw1 Hw2 Hct Hv Hbody l a used rest Ht Hfo Hr Hin.
  pose proof (inside_range _ _ Hin) as Ha. rw length_app in Hr.
  rw -(app_assoc (w1 ++ v ++ w2)) -(app_assoc [44]) in Ht.
  destruct (element_run w1 v w2 t ([44] ++ body ++ l) p a used rest) as [Hgo Hin2]; try done.
  { rw /has_room in Hr |- *. lia. }
  assert (Hcs : comma_super a (bump a used ++ t) = a).
  { destruct Hin2 as (_ & _ & ta & Hta & Hca). by rw /comma_super Hta Hca. }
  apply (list_more p (p + zlen (w1 ++ v ++ w2)) a a a n used rest (w1 ++ v ++ w2) t body toks l); try done.
  - rw length_app length_bump. lia.
  - pose proof (at_text_app _ _ _ Ht) as Ht1. eapply Hbody; [exact (at_text_next _ _ _ Ht1)|done| |done].
    apply (room_after (length t) _ used); [done|]. by rw length_app length_bump.
Qed.
Lemma members_more_run p m t body toks n : closed_toks t -> member_runs p m t ->
  members_run (p + zlen m + 1) body toks (S n) -> members_run p (m ++ [44] ++ body) (t ++ toks) (S (S n)).
Proof.
  intros Hct Hm Hbody l a used rest Ht Hfo Hr Hin. rw length_app in Hr. rw -(app_assoc m) -(app_assoc [44]) in Ht.
  destruct (Hm ([44] ++ body ++ l) a used rest) as (sup' & Hs' & Hcs & Hgo); [done|done| |done|].
  { rw /has_room in Hr |- *. lia. }
  pose proof (at_text_app _ _ _ Ht) as Ht1.
  edestruct (Hbody l a (bump a used ++ t) (drop (length t) rest)) as (s2 & Hgo2).
  - exact (at_text_next _ _ _ Ht1).
  - done.
  - apply (room_after (length t) _ used); [done|]. by rw length_app length_bump.
  - apply inside_app; [by apply inside_bump|done].
  - exists s2. by apply (list_more p (p + zlen m) a sup' s2 n used rest m t body toks l).
Qed.

Lemma json_runs :
  (forall p v toks, value p v toks -> 0 <= p -> value_runs p v toks) /\
  (forall p b toks n, elements p b toks n -> 0 <= p -> elements_run p b toks n) /\
  (forall p b toks n, members p b toks n -> 0 <= p -> members_run p b toks n) /\
  (forall p m toks, member p m toks -> 0 <= p -> member_runs p m toks).
Proof.
  destruct toks_closed as (Cv & Ce & Cm & C1). apply json_mut.
  - intros p s Hs Hp l sup used rest Ht Hfo Hr Hsup. exists sup. split; [by left|]. by eapply goes_primitive.
  - intros p s Hs Hp l sup used rest Ht Hfo Hr Hsup. exists sup. split; [by left|].
    replace (p + zlen ([34] ++ s ++ [34])) with (p + zlen s + 2); last first.
    { rw !zlen_app. change (zlen [34]) with 1. lia. }
    rw -!app_assoc in Ht. by eapply goes_string.
  - intros p body toks n He IH Hp. apply (container_runs 91 93); [by left|done|eapply Ce; [exact He|lia]|].
    apply elements_members, IH. lia.
  - intros p body toks n He IH Hp. apply (container_runs 123 125); [by right|done|eapply Cm; [exact He|lia]|].
    apply IH. lia.
  - intros p w Hw Hp l a used rest Ht Hfo Hr Hin. rw app_nil_r. eapply goes_ws; [done|done|by eapply room_max].
  - intros p w1 v w2 t Hw1 Hw2 Hv IH Hp l a used rest Ht Hfo Hr Hin.
    apply (element_run w1 v w2 t l); try done.
    + apply IH. rw /zlen. lia.
    + eapply Cv; [exact Hv|rw /zlen; lia].
  - intros p w1 v w2 t body toks n Hw1 Hw2 Hv IH He IHs Hp.
    apply elements_more_run; [done|done|eapply Cv; [exact Hv|rw /zlen; lia]|apply IH; rw /zlen; lia|apply IHs; rw /zlen; lia].
  - intros p w Hw Hp l a used rest Ht Hfo Hr Hin. exists a. rw app_nil_r. eapply goes_ws; [done|done|by eapply room_max].
  - intros p m t Hm IH Hp l a used rest Ht Hfo Hr Hin.
    destruct (IH Hp l a used rest) as (sup' & _ & _ & Hgo); [done..|]. by exists sup'.
  - intros p m t body toks n Hm IH He IHs Hp.
    apply members_more_run; [by eapply C1|by apply IH|apply IHs; rw /zlen; lia].
  - intros p w1 k w2 w3 v w4 t Hw1 Hk Hw2 Hw3 Hw4 Hv IH Hp. apply member_run; try done.
    + apply IH. rw /zlen. lia.
    + eapply Cv; [exact Hv|rw /zlen; lia].
Qed.
End grammar.

(** The run of the parser on a text of the grammar. *)
Lemma parse_value_run w1 v w2 toks junk num ts :
  let text := w1 ++ v ++ w2 in
  ws w1 -> ws w2 -> value (zlen w1) v toks ->
  Forall (fun b => b <> 0) text -> Z.of_nat (length text) < 2 ^ 31 - 1 ->
  Z.of_nat (length toks) <= num <= Z.of_nat (length ts) -> num < 2 ^ 31 ->
  exists sup, jsmn_parse (text ++ 0 :: junk) (Z.of_nat (length text)) num (jst 0 (-1) [] ts) =
      Ret (Z.of_nat (length toks), jst (zlen text) sup toks (drop (length toks) ts)).
Proof.
  intros text Hw1 Hw2 Hv Htext Hlen Hn Hmax. assert (Hnum : 0 <= num < 2 ^ 31) by lia.
  assert (H0 : at_text text 0 (w1 ++ v ++ w2)).
  { split; [rw /doc_len; lia|by rw drop_0]. }
  assert (Hz : zlen text = zlen w1 + zlen v + zlen w2) by (rw /zlen /text !length_app; lia). clearbody text.
  pose proof (at_text_app _ _ _ _ H0) as H1. pose proof (at_text_app _ _ _ _ H1) as H2. rw Z.add_0_l in H1 H2.
  destruct (json_runs text junk num Htext Hlen Hnum) as (Hruns & _).
  destruct (Hruns _ _ _ Hv ltac:(rw /zlen; lia) w2 (-1) [] ts) as (sup & _ & Hgo).
  { exact H1. }
  { destruct Hw2 as [|c w [-> | [-> | [-> | ->]]] _]; done. }
  { rw /has_room. cbn [length]. lia. }
  { cbn. lia. }
  assert (Hall : goes text junk num 0 (-1) [] ts (zlen text) sup toks (drop (length toks) ts)).
  { eapply goes_trans; [eapply (goes_ws text junk num Htext Hlen w1 0); [done|exact H0|done]|]. rw Z.add_0_l.
    eapply goes_trans; [exact Hgo|]. rw Hz.
    eapply (goes_ws text junk num Htext Hlen w2 _ []); [done|by rw app_nil_r|cbn; lia]. }
  destruct Hall as (k & Hk & Hrun). exists sup.
  rw /jsmn_parse /mbind /M_bind /gets.
  cbn [parser toknext jst]. change (s32 (Z.of_nat (length ([] : list jsmntok_t)))) with (Z.of_nat (length ([] : list jsmntok_t))).
  assert (exists f : nat, S (length (text ++ 0 :: junk)) = (k + S f)%nat) as [f Hf].
  { exists (length (text ++ 0%Z :: junk) - k)%nat. rw length_app. cbn [length]. rw /zlen in Hk. lia. }
  rw Hf. rw /doc_js /doc_len in Hrun. rw Hrun. cbn [jsmn_loop].
  rw /mbind /M_bind (more_run text junk Htext (zlen text)); [|rw /zlen /doc_len; lia].
  rw bool_decide_false; [|rw /zlen /doc_len; lia]. rw /mret /M_ret no_tokens_run. cbn [parser toknext jst].
  rw Nat2Z.id last_such_run; [|lia].
  destruct toks_closed as (Cv & _). pose proof (Cv _ _ _ Hv ltac:(rw /zlen; lia)) as Hcl.
  pose proof (find_last_closed is_open [] toks Hcl) as Hfl. cbn [app length find_last] in Hfl. by rw Hfl.
Qed.

(** C24: the tokenizer implements the grammar of JSON. On every text that is a JSON
    value with white space around it, it returns the number of tokens of the value and
    writes exactly these tokens into the array, in document order with their bounds and
    sizes, and leaves the rest of the array as it was. *)
Theorem jsmn_parse_grammar w1 v w2 toks junk num ts par :
  let text := w1 ++ v ++ w2 in
  ws w1 -> ws w2 -> value (zlen w1) v toks ->
  Forall (fun b => b <> 0) text -> Z.of_nat (length text) < 2 ^ 31 - 1 ->
  Z.of_nat (length toks) <= num <= Z.of_nat (length ts) -> num < 2 ^ 31 ->
  exists s', jsmn_parse (text ++ 0 :: junk) (Z.of_nat (length text)) num (jsmn_init (MkJstate par (Some ts))) =
      Ret (Z.of_nat (length toks), s') /\
    tokens s' = Some (toks ++ drop (length toks) ts).
Proof.
  intros text Hw1 Hw2 Hv Htext Hlen Hn Hmax.
  destruct (parse_value_run w1 v w2 toks junk num ts Hw1 Hw2 Hv Htext Hlen Hn Hmax) as (sup & Hrun).
  by eexists.
Qed.

(** The object {"a": [1, true], "b":""} between spaces. *)
Definition object_text : list Z :=
  [123; 34; 97; 34; 58; 32; 91; 49; 44; 32; 116; 114; 117; 101; 93; 44; 32; 34; 98; 34; 58; 34; 34; 125].
Definition object_toks : list jsmntok_t :=
  [MkTok JSMN_OBJECT 1 25 2; MkTok JSMN_STRING 3 4 1; MkTok JSMN_ARRAY 7 16 2; MkTok JSMN_PRIMITIVE 8 9 0;
   MkTok JSMN_PRIMITIVE 11 15 0; MkTok JSMN_STRING 19 20 1; MkTok JSMN_STRING 23 23 0].

Lemma prim_text_dec s : forallb (fun c => negb (ends_primitive c) && ((32 <=? c) && (c <? 127))) s = true ->
  match s with c :: _ => negb ((c =? 123) || (c =? 91) || (c =? 34)) | [] => false end = true -> prim_text s.
Proof.
  intros Hs Hh. split.
  - apply Forall_forall. intros c Hc. rw forallb_forall in Hs. specialize (Hs c). rw -list_elem_of_In in Hs.
    specialize (Hs Hc). apply andb_prop in Hs as [H1 H2]. apply andb_prop in H2 as [H2%Z.leb_le H3%Z.ltb_lt].
    split; [by apply negb_true_iff|done].
  - destruct s as [|c s]; [done|]. exists c, s. split; [done|]. apply negb_true_iff in Hh.
    apply orb_false_iff in Hh as [Hh H3%Z.eqb_neq]. apply orb_false_iff in Hh as [H1%Z.eqb_neq H2%Z.eqb_neq]. done.
Qed.

Lemma object_value : value 1 object_text object_toks.
Proof.
  refine (value_object 1 [34; 97; 34; 58; 32; 91; 49; 44; 32; 116; 114; 117; 101; 93; 44; 32; 34; 98; 34; 58; 34; 34]
    (drop 1 object_toks) 2 _).
  refine (members_more 2 ([] ++ ([34] ++ [97] ++ [34]) ++ [] ++ [58] ++ [32] ++ [91; 49; 44; 32; 116; 114; 117; 101; 93] ++ [])
    (take 4 (drop 1 object_toks)) ([32] ++ ([34] ++ [98] ++ [34]) ++ [] ++ [58] ++ [] ++ ([34] ++ [] ++ [34]) ++ []) (drop 5 object_toks) 0 _ _).
  - refine (member_intro 2 [] [97] [] [32] [91; 49; 44; 32; 116; 114; 117; 101; 93] [] (take 3 (drop 2 object_toks)) _ _ _ _ _ _); [constructor|by repeat constructor|constructor|by repeat constructor; right; right; right|constructor|].
    refine (value_array 7 [49; 44; 32; 116; 114; 117; 101] (take 2 (drop 3 object_toks)) 2 _).
    refine (elements_more 8 [] [49] [] [MkTok JSMN_PRIMITIVE 8 9 0] [32; 116; 114; 117; 101] [MkTok JSMN_PRIMITIVE 11 15 0] 0 _ _ _ _); [constructor|constructor| |].
    + refine (value_primitive 8 [49] _). by apply prim_text_dec.
    + refine (elements_one 10 [32] [116; 114; 117; 101] [] [MkTok JSMN_PRIMITIVE 11 15 0] _ _ _); [by repeat constructor; right; right; right|constructor|].
      refine (value_primitive 11 [116; 114; 117; 101] _). by apply prim_text_dec.
  - refine (members_one 17 ([32] ++ ([34] ++ [98] ++ [34]) ++ [] ++ [58] ++ [] ++ ([34] ++ [] ++ [34]) ++ []) (drop 5 object_toks) _).
    refine (member_intro 17 [32] [98] [] [] ([34] ++ [] ++ [34]) [] (drop 6 object_toks) _ _ _ _ _ _);
      [by repeat constructor; right; right; right|by repeat constructor|constructor|constructor|constructor|].
    refine (value_string 22 [] _). constructor.
Qed.

Lemma jsmn_parse_grammar_witness :
  let ts := replicate 9 (MkTok JSMN_UNDEFINED 0 0 0) in
  exists s', jsmn_parse (([32] ++ object_text ++ [10]) ++ [0]) 26 9 (jsmn_init (MkJstate (MkParser 9 9 9) (Some ts))) =
      Ret (7, s') /\ tokens s' = Some (object_toks ++ drop 7 ts).
Proof.
  refine (jsmn_parse_grammar [32] object_text [10] object_toks [] 9 (replicate 9 (MkTok JSMN_UNDEFINED 0 0 0)) (MkParser 9 9 9)
            _ _ object_value _ _ _ _);
    [repeat constructor; right; right; right; reflexivity|repeat constructor; right; right; left; reflexivity
    |repeat constructor; discriminate|simpl; lia|simpl; lia|simpl; lia].
Defined.
