(* ===== verification/ShadowJson.v ===== *)
(** * Shadow documents

    The functions of [src/aws_iot_shadow_json.c] that write the JSON documents of the
    thing shadow into an array of the application. *)
From Stdlib Require Import Ascii String.
From S2P Require Import Prelude Text Types Json.

(** ** Text *)

(** A text in double quotes. *)
Definition quoted (s : list Z) : list Z := [34] ++ s ++ [34].

Definition SHADOW_CLIENT_TOKEN_STRING : list Z := bytes "clientToken".

(** ** Data *)

Inductive JsonPrimitiveType :=
  | SHADOW_JSON_INT32 | SHADOW_JSON_INT16 | SHADOW_JSON_INT8
  | SHADOW_JSON_UINT32 | SHADOW_JSON_UINT16 | SHADOW_JSON_UINT8
  | SHADOW_JSON_FLOAT | SHADOW_JSON_DOUBLE | SHADOW_JSON_BOOL | SHADOW_JSON_STRING | SHADOW_JSON_OBJECT.
#[export] Instance JsonPrimitiveType_eq_dec : EqDecision JsonPrimitiveType.
Proof. solve_decision. Defined.

(** What a pointer to data designates: a number, as it is read with the type of the
    structure (a boolean is a number), a floating-point number by the text [printf]
    gives it with [%f], or characters. *)
Inductive json_data := NumberData (z : Z) | FloatData (text : list Z) | TextData (s : list Z).

(** Pointers are none when they are null; the key is the memory of a C string. The
    callback of the structure plays no role here. *)
Record jsonStruct_t := MkJson { js_pKey : option (list Z); js_pData : option json_data; js_type : JsonPrimitiveType }.

(** The array of the document, none for a null pointer; the array [mqttClientID] and
    the counter [clientTokenNum]. *)
Record sjson := MkSjson { sj_doc : option (list Z); sj_clientID : list Z; sj_tokenNum : Z }.

(** ** The C library *)

Definition get_doc : M sjson (list Z) :=
  d ← gets sj_doc; lift_option (Fault NullDeref) d.
Definition lift_cstring (s : list Z) : M sjson (list Z) := lift_option (Fault OobRead) (cstring s).

(** [strlen(pJsonDocument)]. *)
Definition doc_strlen : M sjson Z :=
  d ← get_doc; s ← lift_cstring d; mret (Z.of_nat (length s)).

(** The bytes [out] are stored at [pJsonDocument + off]. *)
Definition store_doc (off : Z) (out : list Z) : M sjson unit :=
  d ← get_doc;
  let o := Z.to_nat off in
  if decide (0 <= off /\ (o + length out <= length d)%nat) then
    modify (fun s => MkSjson (Some (take o d ++ out ++ drop (o + length out) d)) (sj_clientID s) (sj_tokenNum s))
  else raise (Fault OobWrite).

(** [snprintf(pJsonDocument + off, size, ...)] and [sprintf(pJsonDocument + off, ...)]
    of the text [text]; the result is its length. *)
Definition snprintf_doc (off size : Z) (text : list Z) : M sjson Z :=
  if decide (size = 0) then mret (Z.of_nat (length text))
  else _ ← store_doc off (take (Z.to_nat (size - 1)) text ++ [0]); mret (Z.of_nat (length text)).
Definition sprintf_doc (off : Z) (text : list Z) : M sjson unit := store_doc off (text ++ [0]).

(** ** The functions *)

Definition resetClientTokenSequenceNum : M sjson unit :=
  modify (fun s => MkSjson (sj_doc s) (sj_clientID s) 0).

(** The text of the client token and the increment of the counter. The counter is
    unsigned and printed as a signed integer. *)
Definition next_token : M sjson (list Z) :=
  s ← get;
  id ← lift_cstring (sj_clientID s);
  _ ← put (MkSjson (sj_doc s) (sj_clientID s) (u32 (sj_tokenNum s + 1)));
  mret (id ++ [45] ++ print_int (s32 (sj_tokenNum s))).

Definition FillWithClientToken (off : Z) : M sjson unit :=
  t ← next_token; sprintf_doc off t.

Definition emptyJsonWithClientToken : M sjson unit :=
  _ ← sprintf_doc 0 ([123] ++ quoted SHADOW_CLIENT_TOKEN_STRING ++ [58; 34]);
  n ← doc_strlen;
  _ ← FillWithClientToken n;
  n ← doc_strlen;
  sprintf_doc n [34; 125].
Definition aws_iot_shadow_internal_get_request_json : M sjson unit := emptyJsonWithClientToken.
Definition aws_iot_shadow_internal_delete_request_json : M sjson unit := emptyJsonWithClientToken.

Definition checkReturnValueOfSnPrintf (snPrintfReturn maxSizeOfJsonDocument : Z) : IoT_Error_t :=
  if snPrintfReturn <? 0 then SHADOW_JSON_ERROR
  else if maxSizeOfJsonDocument <=? size_t snPrintfReturn then SHADOW_JSON_BUFFER_TRUNCATED
  else SUCCESS.

(** [snprintf] followed by the check of its result. *)
Definition snprintf_checked (off size : Z) (text : list Z) : M sjson IoT_Error_t :=
  r ← snprintf_doc off size text; mret (checkReturnValueOfSnPrintf r size).

Definition aws_iot_shadow_init_json_document (maxSizeOfJsonDocument : Z) : M sjson IoT_Error_t :=
  d ← gets sj_doc;
  match d with
  | None => mret NULL_VALUE_ERROR
  | Some _ => snprintf_checked 0 maxSizeOfJsonDocument ([123] ++ quoted (bytes "state") ++ [58; 123])
  end.

(** The text [convertDataToString] prints, none when it prints nothing. *)
Definition data_text (type : JsonPrimitiveType) (d : json_data) : outcome (option (list Z)) :=
  match type, d with
  | (SHADOW_JSON_INT32 | SHADOW_JSON_INT16 | SHADOW_JSON_INT8
    | SHADOW_JSON_UINT32 | SHADOW_JSON_UINT16 | SHADOW_JSON_UINT8), NumberData z => Ret (Some (print_int z ++ [44]))
  | (SHADOW_JSON_DOUBLE | SHADOW_JSON_FLOAT), FloatData t => Ret (Some (t ++ [44]))
  | SHADOW_JSON_BOOL, NumberData z => Ret (Some ((if z =? 0 then bytes "false" else bytes "true") ++ [44]))
  | SHADOW_JSON_STRING, TextData s =>
      match cstring s with Some t => Ret (Some (quoted t ++ [44])) | None => Exn (Fault OobRead) end
  | SHADOW_JSON_OBJECT, _ => Ret None
  | _, _ => Exn (Fault OobRead)
  end.

Definition convertDataToString (off maxSizoStringBuffer : Z) (type : JsonPrimitiveType) (pData : json_data) :
    M sjson IoT_Error_t :=
  if decide (maxSizoStringBuffer = 0) then mret SHADOW_JSON_ERROR
  else
    t ← lift_outcome (data_text type pData);
    match t with
    | Some text => snprintf_checked off maxSizoStringBuffer text
    | None => mret (checkReturnValueOfSnPrintf 0 maxSizoStringBuffer)
    end.

(** The body of the loop over the arguments: key and value of one of them. [rem] is
    [remSizeOfJsonBuffer]. *)
Definition add_item (rem : Z) (pTemporary : option jsonStruct_t) : M sjson IoT_Error_t :=
  match pTemporary with
  | None => mret NULL_VALUE_ERROR
  | Some j =>
      len ← doc_strlen;
      key ← lift_option (Fault NullDeref) (js_pKey j);
      k ← lift_cstring key;
      rc ← snprintf_checked len rem (quoted k ++ [58]);
      if decide (rc <> SUCCESS) then mret rc
      else
        match js_pData j with
        | None => mret NULL_VALUE_ERROR
        | Some d => len ← doc_strlen; convertDataToString len rem (js_type j) d
        end
  end.

(** The size that is left for the document, or none when there is no room. *)
Definition room (maxSize : Z) : M sjson (option Z) :=
  len ← doc_strlen;
  let tempSize := size_t (maxSize - len) in
  mret (if decide (tempSize <= 1) then None else Some tempSize).

(** The loop over the variable arguments; its counter is an [int8_t]. The results are
    the return code and [remSizeOfJsonBuffer] after it. *)
Definition s8 (z : Z) : Z := (z + 128) mod 256 - 128.
Fixpoint add_items (args : list (option jsonStruct_t)) (i count maxSize rem : Z) :
    M sjson (IoT_Error_t * Z) :=
  if decide (i < count) then
    r ← room maxSize;
    match r with
    | None => mret (SHADOW_JSON_ERROR, rem)
    | Some rem =>
        match args with
        | [] => raise (Fault OobRead)
        | a :: args' =>
            rc ← add_item rem a;
            if decide (rc <> SUCCESS) then mret (rc, rem)
            else add_items args' (s8 (i + 1)) count maxSize rem
        end
    end
  else mret (SUCCESS, rem).

(** The two functions below differ in the name of the section. *)
Definition add_section (name : list Z) (maxSize count : Z) (args : list (option jsonStruct_t)) :
    M sjson IoT_Error_t :=
  d ← gets sj_doc;
  match d with
  | None => mret NULL_VALUE_ERROR
  | Some _ =>
      r ← room maxSize;
      match r with
      | None => mret SHADOW_JSON_ERROR
      | Some rem =>
          len ← doc_strlen;
          rc ← snprintf_checked len rem (quoted name ++ [58; 123]);
          if decide (rc <> SUCCESS) then mret rc
          else
            '(rc, rem) ← add_items args 0 count maxSize rem;
            if decide (rc <> SUCCESS) then mret rc
            else len ← doc_strlen; snprintf_checked (len - 1) rem [125; 44]
      end
  end.
Definition aws_iot_shadow_add_desired : Z -> Z -> list (option jsonStruct_t) -> M sjson IoT_Error_t :=
  add_section (bytes "desired").
Definition aws_iot_shadow_add_reported : Z -> Z -> list (option jsonStruct_t) -> M sjson IoT_Error_t :=
  add_section (bytes "reported").

Definition FillWithClientTokenSize (off maxSizeOfJsonDocument : Z) : M sjson Z :=
  t ← next_token; snprintf_doc off maxSizeOfJsonDocument t.

Definition aws_iot_fill_with_client_token (off maxSizeOfJsonDocument : Z) : M sjson IoT_Error_t :=
  r ← FillWithClientTokenSize off maxSizeOfJsonDocument;
  mret (checkReturnValueOfSnPrintf r maxSizeOfJsonDocument).

Definition aws_iot_finalize_json_document (maxSizeOfJsonDocument : Z) : M sjson IoT_Error_t :=
  d ← gets sj_doc;
  match d with
  | None => mret NULL_VALUE_ERROR
  | Some _ =>
      r ← room maxSizeOfJsonDocument;
      match r with
      | None => mret SHADOW_JSON_ERROR
      | Some rem =>
          len ← doc_strlen;
          rc ← snprintf_checked (len - 1) rem ([125; 44; 32] ++ quoted SHADOW_CLIENT_TOKEN_STRING ++ [58; 34]);
          if decide (rc <> SUCCESS) then mret rc
          else
            r ← room maxSizeOfJsonDocument;
            match r with
            | None => mret SHADOW_JSON_ERROR
            | Some rem =>
                len ← doc_strlen;
                r ← FillWithClientTokenSize len rem;
                let rc := checkReturnValueOfSnPrintf r rem in
                if decide (rc <> SUCCESS) then mret rc
                else
                  r ← room maxSizeOfJsonDocument;
                  match r with
                  | None => mret SHADOW_JSON_ERROR
                  | Some rem => len ← doc_strlen; snprintf_checked len rem [34; 125]
                  end
            end
      end
  end.

(** ** Specification *)

Definition nonzero (t : list Z) : Prop := Forall (fun b => b <> 0) t.

(** Texts made of literals and texts known to be free of null bytes. *)
Lemma nonzero_app a b : nonzero (a ++ b) <-> nonzero a /\ nonzero b.
Proof. apply Forall_app. Qed.
Lemma nonzero_cons b t : nonzero (b :: t) <-> b <> 0 /\ nonzero t.
Proof. rw /nonzero. by rw Forall_cons. Qed.
Lemma nonzero_literal t : forallb (fun b => negb (b =? 0)) t = true -> nonzero t.
Proof.
  intros Ht. apply Forall_forall. intros b Hb ->. rw forallb_forall in Ht.
  specialize (Ht 0). rw -list_elem_of_In in Ht. by specialize (Ht Hb).
Qed.
Ltac nonzero_auto :=
  rw ?nonzero_app ?nonzero_cons; repeat split; first [assumption | by apply nonzero_literal | lia | idtac].

(** The array of the document has [n] bytes and holds the C string [t]; the client
    identifier is [id] and the counter of the tokens [k]. *)
Record holds (n : nat) (t id : list Z) (k : Z) (s : sjson) : Prop := Holds {
  holds_doc : exists junk, sj_doc s = Some (t ++ 0 :: junk) /\ length (t ++ 0 :: junk) = n;
  holds_text : nonzero t;
  holds_id : cstring (sj_clientID s) = Some id;
  holds_num : sj_tokenNum s = k }.

Lemma cstring_text t junk : nonzero t -> cstring (t ++ 0 :: junk) = Some t.
Proof. intros Ht. rw (cstring_app t (0 :: junk) []) //. by rw app_nil_r. Qed.

Section documents.
Context (n : nat) (id : list Z) (k : Z).

Lemma holds_bound t s : holds n t id k s -> (length t < n)%nat.
Proof. intros [(junk & _ & <-) _ _ _]. rw length_app /=. lia. Qed.

Lemma doc_strlen_run t s : holds n t id k s -> doc_strlen s = Ret (Z.of_nat (length t), s).
Proof.
  intros [(junk & Hd & _) Ht _ _]. rw /doc_strlen /get_doc /lift_cstring.
  rw /mbind /M_bind /gets /lift_option Hd /=. by rw cstring_text.
Qed.

Lemma gets_doc t s : holds n t id k s -> exists d, gets sj_doc s = Ret (Some d, s).
Proof. intros [(junk & Hd & _) _ _ _]. rw /gets Hd. by eexists. Qed.

(** Storing a C string over the end of the text. *)
Lemma store_text pre old text s : holds n (pre ++ old) id k s -> nonzero text ->
  (length pre + length text < n)%nat ->
  exists s', store_doc (Z.of_nat (length pre)) (text ++ [0]) s = Ret (tt, s') /\ holds n (pre ++ text) id k s'.
Proof.
  intros [(junk & Hd & Hn) Ht Hid Hk] Htext Hfit.
  rw /store_doc /get_doc /mbind /M_bind /gets /lift_option Hd /=. rw Nat2Z.id decide_True; last first.
  { split; [lia|]. rw Hn length_app /=. lia. }
  rw -!app_assoc take_app_length. eexists. split; [reflexivity|]. split; cbn [sj_doc sj_clientID sj_tokenNum].
  - eexists. split; [by rw /= app_assoc|].
    rw -Hn !length_app /= length_drop !length_app /=. rw !length_app /= in Hn. lia.
  - apply Forall_app in Ht as [Hpre _]. by apply Forall_app.
  - done.
  - done.
Qed.

Lemma store_overrun t off out s : holds n t id k s -> (n < off + length out)%nat ->
  store_doc (Z.of_nat off) out s = Exn (Fault OobWrite).
Proof.
  intros [(junk & Hd & Hn) _ _ _] Hov.
  rw /store_doc /get_doc /mbind /M_bind /gets /lift_option Hd /=. rw Nat2Z.id decide_False //. lia.
Qed.

(** The three outcomes of printing over the end of the text. *)
Lemma print_fits pre old text size s : holds n (pre ++ old) id k s -> nonzero text ->
  Z.of_nat (length text) < size -> (length pre + length text < n)%nat -> Z.of_nat n < 2 ^ 64 ->
  exists s', snprintf_checked (Z.of_nat (length pre)) size text s = Ret (SUCCESS, s') /\
    holds n (pre ++ text) id k s'.
Proof.
  intros Hh Htext Hsize Hfit Hn. destruct (store_text pre old text s Hh Htext Hfit) as (s' & Hrun & Hh').
  exists s'. split; [|done]. rw /snprintf_checked /snprintf_doc decide_False; [|lia].
  rw take_ge; [|lia]. rw /mbind /M_bind Hrun /= /checkReturnValueOfSnPrintf.
  rw (proj2 (Z.ltb_ge _ 0)); [|lia]. rw size_t_small; [|width]. by rw (proj2 (Z.leb_gt _ _)).
Qed.

Lemma print_truncated pre old text size s : holds n (pre ++ old) id k s -> nonzero text ->
  0 < size <= Z.of_nat (length text) -> Z.of_nat (length pre) + size <= Z.of_nat n ->
  Z.of_nat (length text) < 2 ^ 64 ->
  exists s', snprintf_checked (Z.of_nat (length pre)) size text s = Ret (SHADOW_JSON_BUFFER_TRUNCATED, s') /\
    holds n (pre ++ take (Z.to_nat (size - 1)) text) id k s'.
Proof.
  intros Hh Htext Hsize Hfit Hlen.
  destruct (store_text pre old (take (Z.to_nat (size - 1)) text) s Hh) as (s' & Hrun & Hh').
  { by apply Forall_take. }
  { rw length_take. lia. }
  exists s'. split; [|done]. rw /snprintf_checked /snprintf_doc decide_False; [|lia].
  rw /mbind /M_bind Hrun /= /checkReturnValueOfSnPrintf.
  rw (proj2 (Z.ltb_ge _ 0)); [|lia]. rw size_t_small; [|width]. by rw (proj2 (Z.leb_le _ _)); [|lia].
Qed.

Lemma print_overrun t off text size s : holds n t id k s -> 0 < size ->
  Z.of_nat n < Z.of_nat off + Z.min (Z.of_nat (length text)) (size - 1) + 1 ->
  snprintf_checked (Z.of_nat off) size text s = Exn (Fault OobWrite).
Proof.
  intros Hh Hsize Hov. rw /snprintf_checked /snprintf_doc decide_False; [|lia].
  rw /mbind /M_bind. rw (store_overrun t) //. rw length_app length_take /=. lia.
Qed.

Lemma room_run t m s : holds n t id k s -> Z.of_nat (length t) + 1 < m <= Z.of_nat n -> Z.of_nat n < 2 ^ 64 ->
  room m s = Ret (Some (m - Z.of_nat (length t)), s).
Proof.
  intros Hh Hm Hn. rw /room /mbind /M_bind (doc_strlen_run t) //.
  rw size_t_small; [|width]. by rw decide_False; [|lia].
Qed.

(** *** Members of a section *)

(** The member [j] prints as its key and the text [value]. *)
Record item_ok (j : option jsonStruct_t) (key value : list Z) : Prop := ItemOk {
  item_data : exists p q d ty, j = Some (MkJson (Some p) (Some d) ty) /\ p = key ++ 0 :: q /\
    data_text ty d = Ret (Some (value ++ [44]));
  item_key : nonzero key;
  item_value : nonzero value }.
Definition key_text (key : list Z) : list Z := quoted key ++ [58].

Lemma key_text_nonzero key : nonzero key -> nonzero (key_text key).
Proof. intros Hk. rw /key_text /quoted. by nonzero_auto. Qed.

Lemma key_text_length key : length (key_text key) = (length key + 3)%nat.
Proof. rw /key_text /quoted !length_app /=. lia. Qed.

(** The body of the loop up to the printing of the value. *)
Lemma add_item_key j key value t rem s s1 rc : item_ok j key value -> holds n t id k s ->
  snprintf_checked (Z.of_nat (length t)) rem (key_text key) s = Ret (rc, s1) ->
  (rc <> SUCCESS -> add_item rem j s = Ret (rc, s1)) /\
  (rc = SUCCESS -> 0 < rem -> holds n (t ++ key_text key) id k s1 ->
   add_item rem j s = snprintf_checked (Z.of_nat (length (t ++ key_text key))) rem (value ++ [44]) s1).
Proof.
  intros [(p & q & d & ty & -> & -> & Hd) Hkey _] Hh Hrun.
  assert (add_item rem (Some (MkJson (Some (key ++ 0 :: q)) (Some d) ty)) s =
    (if decide (rc <> SUCCESS) then mret rc else len ← doc_strlen; convertDataToString len rem ty d) s1) as ->.
  { rw /add_item /mbind /M_bind (doc_strlen_run t) // /lift_cstring /= cstring_text // /=. by rw Hrun. }
  split; intros Hrc.
  - by rw decide_True.
  - intros Hrem Hh1. subst. destruct (decide (SUCCESS <> SUCCESS)) as [Hd'|_]; [by destruct Hd'|].
    rw /mbind /M_bind (doc_strlen_run _ s1 Hh1) /convertDataToString decide_False; [|lia].
    by rw Hd.
Qed.

Lemma add_item_fits j key value t m s : item_ok j key value -> holds n t id k s ->
  Z.of_nat (length t + length (key_text key) + length value + 1) < m <= Z.of_nat n -> Z.of_nat n < 2 ^ 64 ->
  exists s', add_item (m - Z.of_nat (length t)) j s = Ret (SUCCESS, s') /\
    holds n (t ++ key_text key ++ value ++ [44]) id k s'.
Proof.
  intros Hj Hh Hm Hn. pose proof Hj as [_ Hkey Hval]. pose proof (key_text_length key).
  destruct (print_fits t [] (key_text key) (m - Z.of_nat (length t)) s) as (s1 & Hrun & Hh1);
    [by rw app_nil_r|by apply key_text_nonzero|lia..|].
  destruct (add_item_key _ _ _ _ _ _ _ _ Hj Hh Hrun) as [_ Hok]. rw Hok //; [|lia].
  rw app_assoc. apply (print_fits _ []); [by rw app_nil_r| | |rw !length_app; cbn [length]; lia|done].
  - by nonzero_auto.
  - rw length_app; cbn [length]; lia.
Qed.

(** The members of a section and the section, as JSON text. *)
Definition member (kv : list Z * list Z) : list Z := key_text kv.1 ++ kv.2.
Fixpoint members (kvs : list (list Z * list Z)) : list Z :=
  match kvs with
  | [] => []
  | [kv] => member kv
  | kv :: kvs' => member kv ++ [44] ++ members kvs'
  end.
Definition section_text (name : list Z) (kvs : list (list Z * list Z)) : list Z :=
  quoted name ++ [58; 123] ++ members kvs ++ [125].

Fixpoint commas (kvs : list (list Z * list Z)) : list Z :=
  match kvs with [] => [] | kv :: kvs' => (member kv ++ [44]) ++ commas kvs' end.

Lemma commas_members kvs : kvs <> [] -> commas kvs = members kvs ++ [44].
Proof.
  induction kvs as [|kv kvs IH]; [done|]. intros _. destruct kvs as [|kv' kvs]; cbn [commas members].
  - by rw app_nil_r.
  - cbn [commas] in IH. rw IH //. by rw -!app_assoc.
Qed.

Definition items_ok : list (option jsonStruct_t) -> list (list Z * list Z) -> Prop :=
  Forall2 (fun j kv => item_ok j kv.1 kv.2).

Lemma add_items_fit args kvs t i count m rem s : items_ok args kvs -> holds n t id k s ->
  0 <= i -> count = i + Z.of_nat (length kvs) -> count <= 127 ->
  Z.of_nat (length (t ++ commas kvs)) < m <= Z.of_nat n -> Z.of_nat n < 2 ^ 64 ->
  exists s' rem', add_items args i count m rem s = Ret ((SUCCESS, rem'), s') /\
    holds n (t ++ commas kvs) id k s' /\ (kvs <> [] \/ 2 < rem -> 2 < rem').
Proof.
  intros Hargs. revert t i rem s. induction Hargs as [|j [key value] args kvs Hj _ IH]; intros t i rem s Hh Hi -> Hc Hm Hn.
  - exists s, rem. rw app_nil_r. cbn [add_items length]. rw decide_False; [|lia]. split_and!; [done|done|by intros [|]].
  - cbn [commas length] in *. rw app_assoc in Hm |- *. set (t' := t ++ member (key, value) ++ [44]) in *.
    assert (Hlen : length t' = (length t + length (key_text key) + length value + 1)%nat).
    { rw /t' /member length_app length_app. cbn [fst snd length]. rw (length_app (key_text key)). lia. }
    pose proof (key_text_length key). rw length_app in Hm.
    destruct (add_item_fits j key value t m s) as (s1 & Hrun & Hh1); [done|done|lia|done|].
    replace (t ++ key_text key ++ value ++ [44]) with t' in Hh1 by (by rw /t' /member -app_assoc).
    destruct (IH t' (i + 1) (m - Z.of_nat (length t)) s1) as (s2 & rem' & Hrun2 & Hh2 & Hrem);
      [done|lia|lia|lia|rw length_app; lia|done|].
    exists s2, rem'. split_and!; [|done|intros _; apply Hrem; right; lia].
    cbn [add_items]. rw decide_True; [|lia]. rw /mbind /M_bind (room_run t) //; [|lia]. rw Hrun.
    destruct (decide (SUCCESS <> SUCCESS)) as [Hd|_]; [by destruct Hd|].
    rw /s8 Z.mod_small; [|lia]. by replace (i + 1 + 128 - 128) with (i + 1) by lia.
Qed.

Lemma section_text_length name kvs :
  length (section_text name kvs) = (length name + length (members kvs) + 5)%nat.
Proof. rw /section_text /quoted !length_app /=. lia. Qed.

Lemma add_section_fits name args kvs t m s : items_ok args kvs -> holds n t id k s -> nonzero name ->
  kvs <> [] -> (length kvs <= 127)%nat ->
  Z.of_nat (length t + length (section_text name kvs) + 1) < m <= Z.of_nat n -> Z.of_nat n < 2 ^ 64 ->
  exists s', add_section name m (Z.of_nat (length kvs)) args s = Ret (SUCCESS, s') /\
    holds n (t ++ section_text name kvs ++ [44]) id k s'.
Proof.
  intros Hargs Hh Hname Hne Hcount Hm Hn. rw section_text_length in Hm.
  remember (quoted name ++ [58; 123]) as head eqn:Hdef. assert (Hhead : length head = (length name + 4)%nat).
  { rw Hdef /quoted !length_app /=. lia. }
  destruct (gets_doc t s Hh) as (d & Hd).
  destruct (print_fits t [] head (m - Z.of_nat (length t)) s) as (s1 & Hrun1 & Hh1);
    [by rw app_nil_r|by rw Hdef /quoted; nonzero_auto|lia..|].
  destruct (add_items_fit args kvs (t ++ head) 0 (Z.of_nat (length kvs)) m (m - Z.of_nat (length t)) s1)
    as (s2 & rem' & Hrun2 & Hh2 & Hrem); [done|done|lia|lia|lia| |done|].
  { rw (commas_members kvs Hne) !length_app Hhead. cbn [length]. lia. }
  rw (commas_members kvs Hne) app_assoc in Hh2. set (pre := (t ++ head) ++ members kvs) in *.
  assert (Hpre : length pre = (length t + length name + 4 + length (members kvs))%nat).
  { rw /pre !length_app Hhead. lia. }
  destruct (print_fits pre [44] [125; 44] rem' s2) as (s3 & Hrun3 & Hh3);
    [done|by nonzero_auto|specialize (Hrem (or_introl Hne)); cbn; lia|cbn [length]; lia|done|].
  exists s3. split.
  - rw /add_section /mbind /M_bind Hd (room_run t) //; [|lia]. rw (doc_strlen_run t) // -Hdef Hrun1.
    destruct (decide (SUCCESS <> SUCCESS)) as [Hx|_]; [by destruct Hx|]. rw Hrun2.
    destruct (decide (SUCCESS <> SUCCESS)) as [Hx|_]; [by destruct Hx|]. rw (doc_strlen_run _ _ Hh2) length_app.
    cbn [length]. by replace (Z.of_nat (length pre + 1) - 1) with (Z.of_nat (length pre)) by lia.
  - revert Hh3. rw /pre Hdef /section_text -!app_assoc. done.
Qed.

(** *** Client tokens *)

Definition token : list Z := id ++ [45] ++ print_int (s32 k).

Lemma token_nonzero s : cstring (sj_clientID s) = Some id -> nonzero token.
Proof.
  intros Hid. destruct (cstring_spec _ _ Hid) as (_ & _ & Hnz). rw /token.
  assert (Z.abs (s32 k) < 10 ^ 10) as Habs by (rw /s32; div_lia).
  destruct (print_int_digits _ Habs) as (ds & [Hds _] & _ & ->). pose proof (digits_nonzero ds Hds).
  destruct (s32 k <? 0); by nonzero_auto.
Qed.

End documents.

(** Printing the token: the text of the counter before its increment. *)
Lemma fill_token_fits n id k t size s : holds n t id k s ->
  Z.of_nat (length (token id k)) < size -> (length t + length (token id k) < n)%nat -> Z.of_nat n < 2 ^ 64 ->
  exists r s', FillWithClientTokenSize (Z.of_nat (length t)) size s = Ret (r, s') /\
    checkReturnValueOfSnPrintf r size = SUCCESS /\
    holds n (t ++ token id k) id (u32 (k + 1)) s'.
Proof.
  intros Hh Hsize Hfit Hn. pose proof Hh as [(junk & Hd & Hl) Ht Hid Hk].
  set (s0 := MkSjson (sj_doc s) (sj_clientID s) (u32 (k + 1))).
  assert (Hh0 : holds n t id (u32 (k + 1)) s0) by (split; [by exists junk|done..]).
  destruct (print_fits n id (u32 (k + 1)) t [] (token id k) size s0) as (s' & Hrun & Hh');
    [by rw app_nil_r|by apply (token_nonzero id k s)|done..|].
  apply bind_inv in Hrun as (r & s1 & Hrun & Hc). injection Hc as Hc <-. exists r, s1. split_and!; [|done|done].
  by rw -Hrun /FillWithClientTokenSize /next_token /mbind /M_bind /get /lift_cstring /lift_option Hid /put Hk.
Qed.

Definition token_member : list Z := [125; 44; 32] ++ quoted SHADOW_CLIENT_TOKEN_STRING ++ [58; 34].

Lemma finalize_fits n id k pre m s : holds n (pre ++ [44]) id k s ->
  Z.of_nat (length (pre ++ token_member ++ token id k ++ [34; 125])) < m <= Z.of_nat n -> Z.of_nat n < 2 ^ 64 ->
  exists s', aws_iot_finalize_json_document m s = Ret (SUCCESS, s') /\
    holds n (pre ++ token_member ++ token id k ++ [34; 125]) id (u32 (k + 1)) s'.
Proof.
  intros Hh Hm Hn. assert (Hl : length token_member = 18%nat) by done.
  rw (length_app pre) (length_app token_member) Hl (length_app (token id k)) in Hm. cbn [length] in Hm.
  assert (1 <= length (token id k))%nat by (rw /token !length_app /=; lia).
  destruct (gets_doc n id k _ s Hh) as (d & Hd).
  destruct (print_fits n id k pre [44] token_member (m - Z.of_nat (length (pre ++ [44]))) s) as (s1 & Hrun1 & Hh1);
    [done|by apply nonzero_literal|rw length_app Hl; cbn [length]; lia|lia|done|].
  assert (Hl1 : length (pre ++ token_member) = (length pre + 18)%nat) by (by rw length_app).
  destruct (fill_token_fits n id k (pre ++ token_member) (m - Z.of_nat (length (pre ++ token_member))) s1)
    as (r & s2 & Hrun2 & Hr & Hh2); [done|lia..|].
  set (pre2 := (pre ++ token_member) ++ token id k) in *.
  assert (Hl2 : length pre2 = (length pre + 18 + length (token id k))%nat) by (by rw /pre2 length_app Hl1).
  destruct (print_fits n id (u32 (k + 1)) pre2 [] [34; 125] (m - Z.of_nat (length pre2)) s2) as (s3 & Hrun3 & Hh3);
    [by rw app_nil_r|by apply nonzero_literal|cbn; lia|cbn; lia|done|].
  exists s3. split; [|by rw /pre2 -(app_assoc (pre ++ token_member)) -(app_assoc pre) in Hh3].
  rw /aws_iot_finalize_json_document /mbind /M_bind Hd (room_run _ _ _ _ _ _ Hh) //; last first.
  { rw length_app. cbn [length]. lia. }
  rw (doc_strlen_run _ _ _ _ _ Hh) -/token_member.
  replace (Z.of_nat (length (pre ++ [44])) - 1) with (Z.of_nat (length pre)) by (rw length_app; cbn [length]; lia).
  rw Hrun1. destruct (decide (SUCCESS <> SUCCESS)) as [Hx|_]; [by destruct Hx|].
  rw (room_run _ _ _ _ _ _ Hh1) //; [|lia]. rw (doc_strlen_run _ _ _ _ _ Hh1) Hrun2 Hr.
  destruct (decide (SUCCESS <> SUCCESS)) as [Hx|_]; [by destruct Hx|].
  rw (room_run _ _ _ _ _ _ Hh2) //; [|lia]. by rw (doc_strlen_run _ _ _ _ _ Hh2) Hrun3.
Qed.

(** *** Properties of the functions *)

(** A member that is added to a section, with the size of the document's array
    given truthfully: the text of key and value is appended when both fit; a key that
    does not fit is reported; when the key fits and the value does not, bytes are
    written behind the end of the array, since the size left is not reduced by the
    length of the key. *)
Theorem add_item_outcome n t id k s j key value :
  holds n t id k s -> item_ok j key value ->
  (length t + 1 < n)%nat -> Z.of_nat n < 2 ^ 64 -> Z.of_nat (length (key_text key)) < 2 ^ 64 ->
  let need := (length t + length (key_text key) + length value + 2)%nat in
  let run := add_item (Z.of_nat (n - length t)) j s in
  if decide (need <= n)%nat then
    exists s', run = Ret (SUCCESS, s') /\ holds n (t ++ key_text key ++ value ++ [44]) id k s'
  else if decide (n <= length t + length (key_text key))%nat then
    exists s', run = Ret (SHADOW_JSON_BUFFER_TRUNCATED, s')
  else run = Exn (Fault OobWrite).
Proof.
  intros Hh Hj Ht Hn Hlen need run. pose proof Hj as [_ Hkey Hval]. subst need run.
  pose proof (holds_bound _ _ _ _ _ Hh). rw Nat2Z.inj_sub; [|lia].
  case_decide; [apply add_item_fits; [done..|lia|done]|]. case_decide.
  - edestruct (print_truncated n id k t [] (key_text key) (Z.of_nat n - Z.of_nat (length t)) s)
      as (s1 & Hrun & _); [by rw app_nil_r|by apply key_text_nonzero|lia..|].
    exists s1. by apply (add_item_key n id k _ _ _ _ _ _ _ _ Hj Hh Hrun).
  - destruct (print_fits n id k t [] (key_text key) (Z.of_nat n - Z.of_nat (length t)) s) as (s1 & Hrun & Hh1);
      [by rw app_nil_r|by apply key_text_nonzero|lia..|].
    destruct (add_item_key n id k _ _ _ _ _ _ _ _ Hj Hh Hrun) as [_ Hok]. rw Hok //; [|lia].
    eapply print_overrun; [exact Hh1|lia|]. pose proof (key_text_length key). rw !length_app. cbn [length]. lia.
Qed.

Definition state_head : list Z := [123] ++ quoted (bytes "state") ++ [58; 123].

Lemma init_fits n id k d m s : sj_doc s = Some d -> length d = n -> cstring (sj_clientID s) = Some id ->
  sj_tokenNum s = k -> 10 < m <= Z.of_nat n -> Z.of_nat n < 2 ^ 64 ->
  exists s', aws_iot_shadow_init_json_document m s = Ret (SUCCESS, s') /\ holds n state_head id k s'.
Proof.
  intros Hd Hlen Hid Hk Hm Hn.
  rw /aws_iot_shadow_init_json_document -/state_head /mbind /M_bind /gets Hd /snprintf_checked /snprintf_doc.
  rw decide_False; [|lia]. rw take_ge; [|cbn; lia].
  rw /store_doc /get_doc /mbind /M_bind /gets /lift_option Hd /mret /M_ret. cbv beta iota zeta.
  rw decide_True; [|split; [done|cbn; lia]].
  rw /modify /checkReturnValueOfSnPrintf. change (Z.of_nat (length state_head)) with 10.
  rw (proj2 (Z.ltb_ge 10 0)); [|lia]. rw (proj2 (Z.leb_gt m (size_t 10))); [|rw size_t_small; [lia|width]].
  eexists. split; [reflexivity|]. split; [|by apply nonzero_literal|done|done].
  eexists. split; [reflexivity|]. cbn. rw length_skipn. lia.
Qed.

(** Storing a C string at the start of any array. *)
Lemma store_start n id k d text s : sj_doc s = Some d -> length d = n -> cstring (sj_clientID s) = Some id ->
  sj_tokenNum s = k -> nonzero text -> (length text < n)%nat ->
  exists s', sprintf_doc 0 text s = Ret (tt, s') /\ holds n text id k s'.
Proof.
  intros Hd Hlen Hid Hk Hnz Hfit. rw /sprintf_doc /store_doc /get_doc /mbind /M_bind /gets /lift_option Hd /mret /M_ret.
  cbv beta iota zeta. rw decide_True; [|split; [done|rw length_app Hlen; cbn [length]; lia]].
  eexists. split; [reflexivity|]. split; [|done|done|done].
  eexists. split; [by rw /= -app_assoc|]. rw length_app. cbn [length app]. rw length_drop length_app. cbn [length]. lia.
Qed.

(** The document of get and delete requests. *)
Definition request_head : list Z := [123] ++ quoted SHADOW_CLIENT_TOKEN_STRING ++ [58; 34].
Definition request_document (id : list Z) (k : Z) : list Z := request_head ++ token id k ++ [34; 125].

Lemma request_run n d id k s : sj_doc s = Some d -> length d = n -> cstring (sj_clientID s) = Some id -> sj_tokenNum s = k ->
  (length (request_document id k) < n)%nat ->
  exists s', emptyJsonWithClientToken s = Ret (tt, s') /\ holds n (request_document id k) id (u32 (k + 1)) s'.
Proof.
  intros Hd Hlen Hid Hk Hfit. rw /request_document in Hfit |- *.
  rw (length_app request_head) (length_app (token id k)) in Hfit. cbn [length] in Hfit.
  destruct (store_start n id k d request_head s) as (s1 & Hrun1 & Hh1); [done..|by apply nonzero_literal|lia|].
  pose proof Hh1 as [(junk & Hd1 & Hl1) Ht1 Hid1 Hk1].
  set (s1' := MkSjson (sj_doc s1) (sj_clientID s1) (u32 (k + 1))).
  assert (Hh1' : holds n (request_head ++ []) id (u32 (k + 1)) s1') by (rw app_nil_r; split; [by exists junk|done..]).
  destruct (store_text n id (u32 (k + 1)) request_head [] (token id k) s1') as (s2 & Hrun2 & Hh2);
    [done|by apply (token_nonzero id k s1)|lia|].
  destruct (store_text n id (u32 (k + 1)) (request_head ++ token id k) [] [34; 125] s2) as (s3 & Hrun3 & Hh3);
    [by rw app_nil_r|by apply nonzero_literal|rw (length_app request_head); cbn [length]; lia|].
  exists s3. split; [|by rw -(app_assoc request_head) in Hh3].
  rw /emptyJsonWithClientToken -/request_head /mbind /M_bind Hrun1 (doc_strlen_run _ _ _ _ _ Hh1).
  rw /FillWithClientToken /next_token /mbind /M_bind /get /lift_cstring /lift_option Hid1 /put Hk1.
  rw -/s1' /sprintf_doc /mret /M_ret -/(token id k) Hrun2. by rw (doc_strlen_run _ _ _ _ _ Hh2).
Qed.

(** The document with the two sections and the client token. *)
Definition document (id : list Z) (k : Z) (desired reported : list (list Z * list Z)) : list Z :=
  (state_head ++ section_text (bytes "desired") desired ++ [44] ++ section_text (bytes "reported") reported) ++
  token_member ++ token id k ++ [34; 125].

(** C22: a complete shadow document, whose two sections have between 1 and 127 members
    each. When the text fits, initializing a document,
    adding the desired and the reported members and finalizing it all succeed, and the
    array holds exactly the JSON object with the two sections, their members in the
    order of the arguments, and the client token made of the client identifier and the
    sequence number, which is increased; whatever the array held before. *)
Theorem shadow_document n d id k s m desired reported kd kr :
  sj_doc s = Some d -> length d = n -> cstring (sj_clientID s) = Some id -> sj_tokenNum s = k ->
  items_ok desired kd -> items_ok reported kr -> kd <> [] -> kr <> [] ->
  (length kd <= 127)%nat -> (length kr <= 127)%nat ->
  Z.of_nat (length (document id k kd kr)) < m <= Z.of_nat n -> Z.of_nat n < 2 ^ 64 ->
  exists s',
    (r1 ← aws_iot_shadow_init_json_document m;
     r2 ← aws_iot_shadow_add_desired m (Z.of_nat (length kd)) desired;
     r3 ← aws_iot_shadow_add_reported m (Z.of_nat (length kr)) reported;
     r4 ← aws_iot_finalize_json_document m;
     mret [r1; r2; r3; r4]) s = Ret ([SUCCESS; SUCCESS; SUCCESS; SUCCESS], s') /\
    holds n (document id k kd kr) id (u32 (k + 1)) s'.
Proof.
  intros Hd Hlen Hid Hk Hdes Hrep Hned Hner Hcd Hcr Hm Hn.
  assert (Hsize : length (document id k kd kr) = (11 + length (section_text (bytes "desired") kd) +
    length (section_text (bytes "reported") kr) + 18 + length (token id k) + 2)%nat).
  { rw /document (length_app (_ ++ _)) (length_app state_head) (length_app (section_text (bytes "desired") kd)) (length_app [44]).
    rw (length_app token_member) (length_app (token id k)). cbn [length].
    change (length state_head) with 10%nat. change (length token_member) with 18%nat. lia. }
  destruct (init_fits n id k d m s Hd Hlen Hid Hk) as (s1 & Hrun1 & Hh1); [lia|done|].
  destruct (add_section_fits n id k (bytes "desired") desired kd state_head m s1) as (s2 & Hrun2 & Hh2);
    [done|done|by apply nonzero_literal|done|done|change (length state_head) with 10%nat; lia|done|].
  destruct (add_section_fits n id k (bytes "reported") reported kr
              (state_head ++ section_text (bytes "desired") kd ++ [44]) m s2) as (s3 & Hrun3 & Hh3);
    [done|done|by apply nonzero_literal|done|done| |done|].
  { rw (length_app state_head) (length_app (section_text (bytes "desired") kd)). cbn [length]. change (length state_head) with 10%nat. lia. }
  destruct (finalize_fits n id k
    (state_head ++ section_text (bytes "desired") kd ++ [44] ++ section_text (bytes "reported") kr) m s3)
    as (s4 & Hrun4 & Hh4).
  { rw -(app_assoc state_head) -(app_assoc (section_text (bytes "desired") kd)) in Hh3.
    by rw -(app_assoc state_head) -(app_assoc (section_text (bytes "desired") kd)) -(app_assoc [44]). }
  { done. }
  { done. }
  exists s4. split; [|done]. rw /aws_iot_shadow_add_desired /aws_iot_shadow_add_reported.
  by rw /mbind /M_bind Hrun1 Hrun2 Hrun3 Hrun4.
Qed.

(** A document of 120 bytes of the client "dev": a desired temperature and a reported
    name. *)
Definition json_array : list Z := repeat 7 120.
Definition sjson_demo : sjson := MkSjson (Some json_array) (bytes "dev" ++ [0; 9]) 4.
Definition temp_item : option jsonStruct_t :=
  Some (MkJson (Some (bytes "t" ++ [0])) (Some (NumberData (-5))) SHADOW_JSON_INT32).
Definition name_item : option jsonStruct_t :=
  Some (MkJson (Some (bytes "n" ++ [0])) (Some (TextData (bytes "ab" ++ [0]))) SHADOW_JSON_STRING).

Lemma temp_item_ok : item_ok temp_item (bytes "t") (bytes "-5").
Proof. split; [|by apply nonzero_literal..]. by exists (bytes "t" ++ [0]), [], (NumberData (-5)), SHADOW_JSON_INT32. Qed.
Lemma name_item_ok : item_ok name_item (bytes "n") (quoted (bytes "ab")).
Proof.
  split; [|by apply nonzero_literal..].
  by exists (bytes "n" ++ [0]), [], (TextData (bytes "ab" ++ [0])), SHADOW_JSON_STRING.
Qed.

Lemma shadow_document_witness :
  exists s', (r1 ← aws_iot_shadow_init_json_document 120;
     r2 ← aws_iot_shadow_add_desired 120 1 [temp_item];
     r3 ← aws_iot_shadow_add_reported 120 1 [name_item];
     r4 ← aws_iot_finalize_json_document 120;
     mret [r1; r2; r3; r4]) sjson_demo = Ret ([SUCCESS; SUCCESS; SUCCESS; SUCCESS], s') /\
    holds 120 (document (bytes "dev") 4 [(bytes "t", bytes "-5")] [(bytes "n", quoted (bytes "ab"))]) (bytes "dev") 5 s'.
Proof.
  refine (shadow_document 120 json_array (bytes "dev") 4 sjson_demo 120 [temp_item] [name_item]
            [(bytes "t", bytes "-5")] [(bytes "n", quoted (bytes "ab"))]
            eq_refl eq_refl eq_refl eq_refl _ _ _ _ _ _ _ _);
    [constructor; [apply temp_item_ok|constructor]|constructor; [apply name_item_ok|constructor]|discriminate|discriminate
    |simpl; lia|simpl; lia|vm_compute; split; congruence|simpl; lia].
Defined.

(** The member "t":-5 behind the opening of a document, in arrays of 18, 13 and 16 bytes. *)
Definition item_state (size : nat) : sjson :=
  MkSjson (Some (state_head ++ [0] ++ repeat 7 (size - 11))) (bytes "dev" ++ [0]) 4.
Lemma item_state_holds size : (11 <= size)%nat -> holds size state_head (bytes "dev") 4 (item_state size).
Proof.
  intros Hs. split; [|by apply nonzero_literal|done|done]. eexists. split; [reflexivity|].
  rw length_app. cbn [length app]. change (length state_head) with 10%nat. rw repeat_length. lia.
Qed.
Lemma add_item_outcome_witness :
  (exists s', add_item 8 temp_item (item_state 18) = Ret (SUCCESS, s') /\
     holds 18 (state_head ++ key_text (bytes "t") ++ bytes "-5" ++ [44]) (bytes "dev") 4 s') /\
  (exists s', add_item 3 temp_item (item_state 13) = Ret (SHADOW_JSON_BUFFER_TRUNCATED, s')) /\
  add_item 6 temp_item (item_state 16) = Exn (Fault OobWrite).
Proof.
  pose proof (add_item_outcome 18 state_head (bytes "dev") 4 (item_state 18) temp_item (bytes "t") (bytes "-5")
    (item_state_holds 18 ltac:(lia)) temp_item_ok ltac:(simpl; lia) ltac:(simpl; lia) ltac:(simpl; lia)) as H1.
  pose proof (add_item_outcome 13 state_head (bytes "dev") 4 (item_state 13) temp_item (bytes "t") (bytes "-5")
    (item_state_holds 13 ltac:(lia)) temp_item_ok ltac:(simpl; lia) ltac:(simpl; lia) ltac:(simpl; lia)) as H2.
  pose proof (add_item_outcome 16 state_head (bytes "dev") 4 (item_state 16) temp_item (bytes "t") (bytes "-5")
    (item_state_holds 16 ltac:(lia)) temp_item_ok ltac:(simpl; lia) ltac:(simpl; lia) ltac:(simpl; lia)) as H3.
  exact (conj H1 (conj H2 H3)).
Defined.
