(* ===== verification/ShadowParse.v ===== *)
(** * Reading shadow documents

    The functions of [src/aws_iot_shadow_json.c] that parse the documents received from
    the thing shadow: validation, the client token, the version, and the values of
    registered keys. *)
From Stdlib Require Import Ascii String.
From S2P Require Import Prelude Text Types Json Jsmn JsmnGrammar ShadowJson.

Definition MAX_JSON_TOKEN_EXPECTED : Z := 120.
Definition SHADOW_VERSION_STRING : list Z := bytes "version".

(** The state is [shadowJsonParser] with [jsonTokenStruct], an array of that many
    tokens. *)
Definition parse_document (doc : list Z) : M jstate Z :=
  _ ← modify jsmn_init;
  text ← lift_option (Fault OobRead) (cstring doc);
  jsmn_parse doc (Z.of_nat (length text)) MAX_JSON_TOKEN_EXPECTED.

Definition json_token (i : Z) : M jstate jsmntok_t := get_tok i.

(** The count stored through [pTokenCount], or none when the result is false. *)
Definition isJsonValidAndParse (doc : list Z) : M jstate (option Z) :=
  tokenCount ← parse_document doc;
  if tokenCount <? 0 then mret None
  else if tokenCount <? 1 then mret None
  else
    t ← json_token 0;
    if decide (tok_type t <> JSMN_OBJECT) then mret None else mret (Some tokenCount).

Definition isReceivedJsonValid (doc : list Z) : M jstate bool :=
  tokenCount ← parse_document doc;
  if tokenCount <? 0 then mret false
  else if tokenCount <? 1 then mret false
  else
    t ← json_token 0;
    if decide (tok_type t <> JSMN_OBJECT) then mret false else mret true.

(** [jsoneq] with a key that may be a null pointer, which only a string token reads. *)
Definition key_eq (doc : list Z) (t : jsmntok_t) (key : option (list Z)) : outcome Z :=
  match key with
  | Some k => jsoneq doc t k
  | None => if decide (tok_type t = JSMN_STRING) then Exn (Fault NullDeref) else Ret (-1)
  end.

(** The loops over the tokens behind the first one: the first index from [i] on whose
    token is the string [key] and for which [found] has a result. *)
Fixpoint key_loop {A} (n : nat) (doc : list Z) (key : option (list Z)) (i : Z) (found : Z -> M jstate (option A)) : M jstate (option A) :=
  match n with
  | O => mret None
  | S n' =>
      t ← json_token i;
      r ← lift_outcome (key_eq doc t key);
      if decide (r = 0) then
        a ← found i;
        match a with Some a => mret (Some a) | None => key_loop n' doc key (i + 1) found end
      else key_loop n' doc key (i + 1) found
  end.
Definition for_key {A} (doc : list Z) (key : option (list Z)) (tokenCount : Z) (found : Z -> M jstate (option A)) : M jstate (option A) :=
  key_loop (Z.to_nat (tokenCount - 1)) doc key 1 found.

(** [strncpy(dst, src, n)] followed by [dst[n] = 0], for an array [dst]. *)
Definition strncpy (dst src : list Z) (n : nat) : outcome (list Z) :=
  if decide (length dst < n)%nat then Exn (Fault OobWrite)
  else
    match cstring (take n src) with
    | Some t => Ret (t ++ replicate (n - length t) 0 ++ drop n dst)
    | None => if decide (length src < n)%nat then Exn (Fault OobRead) else Ret (take n src ++ drop n dst)
    end.
Definition copy_token (dst src : list Z) (n : nat) : outcome (list Z) :=
  d ← strncpy dst src n;
  if decide (n < length d)%nat then Ret (<[n := 0]> d) else Exn (Fault OobWrite).

(** The array of the caller with the token, or none when the result is false. *)
Definition extractClientToken (doc pExtractedClientToken : list Z) : M jstate (option (list Z)) :=
  tokenCount ← parse_document doc;
  if tokenCount <? 0 then mret None
  else if tokenCount <? 1 then mret None
  else
    t ← json_token 0;
    if decide (tok_type t <> JSMN_OBJECT) then mret None
    else
      for_key doc (Some (SHADOW_CLIENT_TOKEN_STRING ++ [0])) tokenCount (fun i =>
        t ← json_token (i + 1);
        let length := u8 (tok_end t - tok_start t) in
        src ← lift_outcome (text_from doc (tok_start t));
        d ← lift_outcome (copy_token pExtractedClientToken src (Z.to_nat length));
        mret (Some d)).

(** The value stored through [pVersionNumber], or none when the result is false. *)
Definition extractVersionNumber (doc : list Z) (tokenCount : Z) : M jstate (option Z) :=
  for_key doc (Some (SHADOW_VERSION_STRING ++ [0])) tokenCount (fun i =>
    t ← json_token (i + 1);
    '(rc, v) ← lift_outcome (parseUnsignedInteger32Value doc t);
    mret (if decide (rc = SUCCESS) then v else None)).

Section update.
(** The conversions [%f] and [%lf] of the C library. *)
Context (scan_float scan_double : list Z -> option (list Z)).

(** The result of a reader, as data of the structure. *)
Definition stored {A} (f : A -> json_data) (o : outcome (IoT_Error_t * option A)) : outcome (IoT_Error_t * option json_data) :=
  match o with
  | Ret (rc, v) => Ret (rc, option_map f v)
  | Exn e => Exn e
  end.

(** The return code and the new contents of [pData], if they change. *)
Definition UpdateValueIfNoObject (doc : list Z) (type : JsonPrimitiveType) (token : jsmntok_t) :
    outcome (IoT_Error_t * option json_data) :=
  match type with
  | SHADOW_JSON_BOOL => stored (fun b : bool => NumberData (if b then 1 else 0)) (parseBooleanValue doc token)
  | SHADOW_JSON_INT32 => stored NumberData (parseInteger32Value doc token)
  | SHADOW_JSON_INT16 => stored NumberData (parseInteger16Value doc token)
  | SHADOW_JSON_INT8 => stored NumberData (parseInteger8Value doc token)
  | SHADOW_JSON_UINT32 => stored NumberData (parseUnsignedInteger32Value doc token)
  | SHADOW_JSON_UINT16 => stored NumberData (parseUnsignedInteger16Value doc token)
  | SHADOW_JSON_UINT8 => stored NumberData (parseUnsignedInteger8Value doc token)
  | SHADOW_JSON_FLOAT => stored FloatData (parseFloatValue scan_float doc token)
  | SHADOW_JSON_DOUBLE => stored FloatData (parseDoubleValue scan_double doc token)
  | SHADOW_JSON_STRING | SHADOW_JSON_OBJECT => Ret (SUCCESS, None)
  end.

(** What a match gives: the new structure, the length and the position of the value. *)
Record matched := MkMatched { m_struct : jsonStruct_t; m_length : Z; m_position : Z }.

Definition with_data (d : option json_data) (j : jsonStruct_t) : jsonStruct_t :=
  match d with Some d => MkJson (js_pKey j) (Some d) (js_type j) | None => j end.

(** The result is none when it is false in the code. *)
Definition isJsonKeyMatchingAndUpdateValue (doc : list Z) (tokenCount : Z) (pDataStruct : jsonStruct_t) :
    M jstate (option matched) :=
  for_key doc (js_pKey pDataStruct) tokenCount (fun i =>
    dataToken ← json_token (i + 1);
    let dataLength := u32 (tok_end dataToken - tok_start dataToken) in
    '(_, d) ← lift_outcome (UpdateValueIfNoObject doc (js_type pDataStruct) dataToken);
    match d, js_pData pDataStruct with
    | Some _, None => raise (Fault NullDeref)
    | _, _ => mret (Some (MkMatched (with_data d pDataStruct) dataLength (tok_start dataToken)))
    end).
End update.

(** ** Specification *)

(** The tokens of the array are [toks], followed by others. *)
Definition holds_tokens (toks : list jsmntok_t) (s : jstate) : Prop :=
  exists rest, tokens s = Some (toks ++ rest).

Lemma json_token_run toks s i t : holds_tokens toks s -> 0 <= i -> toks !! Z.to_nat i = Some t ->
  json_token i s = Ret (t, s).
Proof.
  intros [rest Hs] Hi Ht. rw /json_token /get_tok /mbind /M_bind /gets Hs /tok_at decide_False; [|lia].
  by rw lookup_app_l ?Ht; [|by eapply lookup_lt_Some].
Qed.

(** A document of the grammar in the array of the caller. *)
Lemma parse_document_run text toks junk s ts : value 0 text toks -> nonzero text ->
  Z.of_nat (length text) < 2 ^ 31 - 1 -> tokens s = Some ts -> length ts = 120%nat -> (length toks <= 120)%nat ->
  exists s', parse_document (text ++ 0 :: junk) s = Ret (Z.of_nat (length toks), s') /\
    tokens s' = Some (toks ++ drop (length toks) ts).
Proof.
  intros Hv Hnz Hlen Hts Hts2 Htoks.
  destruct (parse_value_run [] text [] toks junk MAX_JSON_TOKEN_EXPECTED ts) as (sup & Hrun).
  { constructor. }
  { constructor. }
  { done. }
  { by rw app_nil_r. }
  { by rw app_nil_r. }
  { rw /MAX_JSON_TOKEN_EXPECTED. lia. }
  { done. }
  cbn [app] in Hrun. rw app_nil_r in Hrun. exists (jst (zlen text) sup toks (drop (length toks) ts)). rw /parse_document /mbind /M_bind /modify.
  rw (cstring_text text junk Hnz). cbn [lift_option]. rw /mret /M_ret. split; [|reflexivity].
  rw -Hrun. f_equal. by rw /jsmn_init /jst Hts.
Qed.

Lemma copy_token_run dst text rest : nonzero text -> (length text < length dst)%nat ->
  copy_token dst (text ++ rest) (length text) = Ret (text ++ 0 :: drop (length text + 1) dst).
Proof.
  intros Hnz Hlen. rw /copy_token /strncpy decide_False; [|lia]. rw take_app_length.
  assert (cstring text = None) as ->.
  { clear Hlen. induction Hnz as [|b t Hb _ IH]; [done|]. cbn [cstring]. case_decide; [done|]. by rw IH. }
  rw decide_False; [|rw length_app; lia]. cbn [mbind outcome_bind].
  rw decide_True; [|rw length_app length_drop; lia]. f_equal. rw insert_app_r_alt // Nat.sub_diag.
  f_equal. rw -drop_drop. destruct (drop (length text) dst) as [|x l] eqn:Hd; [|done].
  apply (f_equal length) in Hd. rw length_drop /= in Hd. lia.
Qed.

(** *** Searches for keys, on the list of tokens *)

(** The first key of [toks] whose next token [found] has a result for. *)
Fixpoint find_value {A} (doc key : list Z) (found : jsmntok_t -> outcome (option A)) (toks : list jsmntok_t) : outcome (option A) :=
  match toks with
  | [] => Ret None
  | t :: rest =>
      r ← key_eq doc t (Some key);
      if decide (r = 0) then
        match rest with
        | [] => Exn (Fault OobRead)
        | v :: _ =>
            a ← found v;
            match a with Some a => Ret (Some a) | None => find_value doc key found rest end
        end
      else find_value doc key found rest
  end.

Definition version_in (doc : list Z) (toks : list jsmntok_t) : outcome (option Z) :=
  find_value doc (SHADOW_VERSION_STRING ++ [0]) (fun t =>
    '(rc, v) ← parseUnsignedInteger32Value doc t; Ret (if decide (rc = SUCCESS) then v else None)) toks.
Definition token_in (doc dst : list Z) (toks : list jsmntok_t) : outcome (option (list Z)) :=
  find_value doc (SHADOW_CLIENT_TOKEN_STRING ++ [0]) (fun t =>
    src ← text_from doc (tok_start t);
    d ← copy_token dst src (Z.to_nat (u8 (tok_end t - tok_start t)));
    Ret (Some d)) toks.

(** The loop computes what the search on the list does, and leaves the tokens alone. *)
Lemma key_loop_find {A} doc key toks s (found : Z -> M jstate (option A)) found' r i :
  holds_tokens toks s -> (forall i t, json_token (i + 1) s = Ret (t, s) -> found i s = lift_outcome (found' t) s) ->
  find_value doc key found' (drop i toks) = Ret r ->
  key_loop (length toks - i) doc (Some key) (Z.of_nat i) found s = Ret (r, s).
Proof.
  intros Hs Hf. remember (length toks - i)%nat as m eqn:Hm. revert i Hm. induction m as [|m IH]; intros i Hm Hr.
  { rw drop_ge in Hr; [|lia]. by injection Hr as <-. }
  destruct (drop i toks) as [|t rest] eqn:Hd; [apply (f_equal length) in Hd; rw length_drop /= in Hd; lia|].
  assert (Hi : toks !! i = Some t) by (rw -(Nat.add_0_r i) -lookup_drop Hd; done).
  assert (Hrest : drop (S i) toks = rest) by (replace (S i) with (i + 1)%nat by lia; by rw -drop_drop Hd).
  cbn [find_value key_loop] in Hr |- *. rw /mbind /M_bind (json_token_run toks s _ t Hs); [|lia|by rw Nat2Z.id].
  replace (Z.of_nat i + 1) with (Z.of_nat (S i)) by lia.
  rw /lift_outcome. destruct (key_eq doc t (Some key)) as [c|]; [|done]. cbn [mbind outcome_bind] in Hr.
  case_decide as Hc; [|apply IH; [lia|by rw Hrest]].
  destruct rest as [|v rest']; [done|].
  rw (Hf _ v); last first.
  { apply (json_token_run toks s); [done|lia|]. replace (Z.to_nat (Z.of_nat i + 1)) with (i + 1)%nat by lia. by rw -lookup_drop Hd. }
  rw /lift_outcome. destruct (found' v) as [[a|]|]; [|apply IH; [lia|by rw Hrest]|done]. by injection Hr as <-.
Qed.

Lemma extractVersionNumber_run doc t0 toks s r : holds_tokens (t0 :: toks) s -> version_in doc toks = Ret r ->
  extractVersionNumber doc (Z.of_nat (length (t0 :: toks))) s = Ret (r, s).
Proof.
  intros Hs Hr. rw /extractVersionNumber /for_key. replace (Z.to_nat _) with (length (t0 :: toks) - 1)%nat by (cbn; lia).
  change 1 with (Z.of_nat 1). eapply key_loop_find; [done| |done]. intros i t Ht. rw /mbind /M_bind Ht /lift_outcome.
  by destruct (parseUnsignedInteger32Value doc t) as [[]|].
Qed.

Lemma isJsonValid_run text t0 toks junk s ts : value 0 text (t0 :: toks) -> nonzero text ->
  Z.of_nat (length text) < 2 ^ 31 - 1 -> tokens s = Some ts -> length ts = 120%nat -> (length (t0 :: toks) <= 120)%nat ->
  tok_type t0 = JSMN_OBJECT ->
  exists s', isJsonValidAndParse (text ++ 0 :: junk) s = Ret (Some (Z.of_nat (length (t0 :: toks))), s') /\
    tokens s' = Some ((t0 :: toks) ++ drop (length (t0 :: toks)) ts).
Proof.
  intros Hv Hnz Hlen Hts Hts2 Htoks Hobj.
  destruct (parse_document_run text (t0 :: toks) junk s ts) as (s' & Hrun & Hs'); [done..|].
  exists s'. split; [|done]. rw /isJsonValidAndParse /mbind /M_bind Hrun.
  rw (proj2 (Z.ltb_ge _ 0)); [|lia]. rw (proj2 (Z.ltb_ge _ 1)); [|cbn; lia].
  rw (json_token_run (t0 :: toks) s' 0 t0) //; [|by eexists]. by destruct (decide (tok_type t0 <> JSMN_OBJECT)).
Qed.

Lemma extractClientToken_run text t0 toks junk s ts dst r : value 0 text (t0 :: toks) -> nonzero text ->
  Z.of_nat (length text) < 2 ^ 31 - 1 -> tokens s = Some ts -> length ts = 120%nat -> (length (t0 :: toks) <= 120)%nat ->
  tok_type t0 = JSMN_OBJECT -> token_in (text ++ 0 :: junk) dst toks = Ret r ->
  exists s', extractClientToken (text ++ 0 :: junk) dst s = Ret (r, s') /\
    tokens s' = Some ((t0 :: toks) ++ drop (length (t0 :: toks)) ts).
Proof.
  intros Hv Hnz Hlen Hts Hts2 Htoks Hobj Hr.
  destruct (parse_document_run text (t0 :: toks) junk s ts) as (s' & Hrun & Hs'); [done..|].
  exists s'. split; [|done]. assert (Hh : holds_tokens (t0 :: toks) s') by (by eexists). rw /extractClientToken /mbind /M_bind Hrun.
  rw (proj2 (Z.ltb_ge _ 0)); [|lia]. rw (proj2 (Z.ltb_ge _ 1)); [|cbn; lia].
  rw (json_token_run (t0 :: toks) s' 0 t0) //. destruct (decide (tok_type t0 <> JSMN_OBJECT)); [done|].
  rw /for_key. replace (Z.to_nat _) with (length (t0 :: toks) - 1)%nat by (cbn; lia).
  change 1 with (Z.of_nat 1). eapply key_loop_find; [done| |done]. intros i t Ht. rw Ht /lift_outcome.
  destruct (text_from _ _) as [x|]; [|done]. cbn [mbind outcome_bind]. by destruct (copy_token _ _ _).
Qed.

(** *** Client tokens *)

(** Characters that stand for themselves in a JSON string. *)
Definition plain (s : list Z) : Prop := Forall (fun c => c <> 34 /\ c <> 92 /\ c <> 0) s.

Lemma plain_body s : plain s -> string_body s.
Proof. induction 1 as [|c s (H1 & H2 & H3) _ IH]; by constructor. Qed.

Lemma plain_token id k : plain id -> plain (token id k).
Proof.
  intros Hid. rw /token. apply Forall_app. split; [done|]. apply Forall_app. split; [by repeat constructor|].
  assert (Z.abs (s32 k) < 10 ^ 10) as Habs by (rw /s32; div_lia).
  destruct (print_int_digits _ Habs) as (ds & [[_ Hds] _] & _ & ->). apply Forall_app. split.
  - destruct (s32 k <? 0); by repeat constructor.
  - apply Forall_fmap. eapply Forall_impl; [exact Hds|]. intros d Hd. cbn in Hd. cbn. lia.
Qed.

Lemma plain_nonzero s : plain s -> nonzero s.
Proof. intros Hs. eapply Forall_impl; [exact Hs|]. by intros c (_ & _ & ?). Qed.

Definition request_tokens (id : list Z) (k : Z) : list jsmntok_t :=
  let n := Z.of_nat (length (token id k)) in
  [MkTok JSMN_OBJECT 0 (n + 18) 1; MkTok JSMN_STRING 2 13 1; MkTok JSMN_STRING 16 (16 + n) 0].

Lemma request_value id k : plain id -> value 0 (request_document id k) (request_tokens id k).
Proof.
  intros Hid. set (body := [] ++ ([34] ++ SHADOW_CLIENT_TOKEN_STRING ++ [34]) ++ [] ++ [58] ++ [] ++ ([34] ++ token id k ++ [34]) ++ []).
  assert (Hb : zlen body = Z.of_nat (length (token id k)) + 16).
  { rw /body /zlen app_nil_l app_nil_r. rw (length_app (_ ++ _)). cbn [app length].
    rw (length_app (token id k)). cbn [length]. change (length (SHADOW_CLIENT_TOKEN_STRING ++ [34])) with 12%nat. lia. }
  assert (Heq : request_document id k = [123] ++ body ++ [125]).
  { rw /request_document /body app_nil_r. by rw /= -app_assoc. }
  rw Heq /request_tokens. replace (Z.of_nat (length (token id k)) + 18) with (0 + zlen body + 2) by lia.
  apply (value_object 0 body _ 1), members_one, member_intro.
  - constructor.
  - apply plain_body. repeat constructor; done.
  - constructor.
  - constructor.
  - constructor.
  - apply (value_string 15 (token id k)). by apply plain_body, plain_token.
Qed.

Lemma request_token_in id k junk dst : plain id -> (length (token id k) <= 255)%nat -> (length (token id k) < length dst)%nat ->
  token_in (request_document id k ++ 0 :: junk) dst (tail (request_tokens id k)) =
    Ret (Some (token id k ++ 0 :: drop (length (token id k) + 1) dst)).
Proof.
  intros Hplain H255 Hdst. set (doc := request_document id k ++ 0 :: junk).
  assert (Hdoc : doc = request_head ++ token id k ++ [34; 125] ++ 0 :: junk) by (by rw /doc /request_document -!app_assoc).
  assert (Hkey : jsoneq doc (MkTok JSMN_STRING 2 13 1) (SHADOW_CLIENT_TOKEN_STRING ++ [0]) = Ret 0).
  { rw (jsoneq_run _ _ SHADOW_CLIENT_TOKEN_STRING ([34; 58; 34] ++ token id k ++ [34; 125] ++ 0 :: junk) _
      SHADOW_CLIENT_TOKEN_STRING) //; [|by apply nonzero_literal].
    rw Hdoc. by apply (tok_text_intro (MkTok JSMN_STRING 2 13 1) [123; 34] SHADOW_CLIENT_TOKEN_STRING). }
  destruct (tok_text_intro (MkTok JSMN_STRING 16 (16 + Z.of_nat (length (token id k))) 0) request_head (token id k)
    ([34; 125] ++ 0 :: junk) eq_refl eq_refl) as [Hfrom _].
  rw -Hdoc in Hfrom. rw /token_in /request_tokens. cbn [tail find_value key_eq]. rw Hkey Hfrom. cbn [mbind outcome_bind tok_end tok_start].
  destruct (decide (0 = 0)) as [_|Hd]; [|by destruct Hd]. rw Z.add_simpl_l u8_small; [|width].
  rw Nat2Z.id copy_token_run; [done|by apply plain_nonzero, plain_token|done].
Qed.

(** The document of a request is written, and its token found again. *)
Lemma request_roundtrip_run n d id k s ps ts dst :
  sj_doc s = Some d -> length d = n -> cstring (sj_clientID s) = Some id -> sj_tokenNum s = k -> plain id ->
  (length (request_document id k) < n)%nat -> Z.of_nat n < 2 ^ 31 - 1 -> (length (token id k) <= 255)%nat ->
  tokens ps = Some ts -> length ts = 120%nat -> (length (token id k) < length dst)%nat ->
  exists s' doc ps',
    emptyJsonWithClientToken s = Ret (tt, s') /\ sj_doc s' = Some doc /\
    sj_tokenNum s' = u32 (k + 1) /\ cstring doc = Some (request_document id k) /\
    extractClientToken doc dst ps = Ret (Some (token id k ++ 0 :: drop (length (token id k) + 1) dst), ps').
Proof.
  intros Hd Hlen Hid Hk Hplain Hfit Hn H255 Hts Hts2 Hdst.
  destruct (request_run n d id k s Hd Hlen Hid Hk Hfit) as (s' & Hrun & [(junk & Hdoc & Hl) Hnz _ Hnum]).
  exists s', (request_document id k ++ 0 :: junk).
  destruct (extractClientToken_run (request_document id k) (MkTok JSMN_OBJECT 0 (Z.of_nat (length (token id k)) + 18) 1)
    (tail (request_tokens id k)) junk ps ts dst (Some (token id k ++ 0 :: drop (length (token id k) + 1) dst)))
    as (ps' & Hex & _); [by apply request_value|done|lia|done|done|by cbn; lia|done|by apply request_token_in|].
  exists ps'. by split_and!; [..|apply cstring_text|].
Qed.

(** The client token of a request. The document of a get or delete request,
    written into any array that is large enough, is a JSON text from which the parser
    of the responses extracts exactly the token, the client identifier and the sequence
    number, for every identifier of characters that JSON does not escape; whatever the
    tokens of the previous document were. *)
Theorem request_token_roundtrip n d id k s ps ts dst :
  sj_doc s = Some d -> length d = n -> cstring (sj_clientID s) = Some id -> sj_tokenNum s = k -> plain id ->
  (length (request_document id k) < n)%nat -> Z.of_nat n < 2 ^ 31 - 1 -> (length (token id k) <= 255)%nat ->
  tokens ps = Some ts -> length ts = 120%nat -> (length (token id k) < length dst)%nat ->
  exists s' doc ps',
    aws_iot_shadow_internal_get_request_json s = Ret (tt, s') /\ sj_doc s' = Some doc /\
    sj_tokenNum s' = u32 (k + 1) /\ cstring doc = Some (request_document id k) /\
    extractClientToken doc dst ps = Ret (Some (token id k ++ 0 :: drop (length (token id k) + 1) dst), ps').
Proof. apply request_roundtrip_run. Qed.

(** The request of the client "dev" with sequence number 7. *)
Lemma request_token_roundtrip_witness :
  let s := MkSjson (Some (replicate 110 9)) (bytes "dev" ++ [0; 0]) 7 in
  exists s' doc ps',
    aws_iot_shadow_internal_get_request_json s = Ret (tt, s') /\ sj_doc s' = Some doc /\
    sj_tokenNum s' = 8 /\ cstring doc = Some (request_document (bytes "dev") 7) /\
    extractClientToken doc (replicate 90 5) (MkJstate (MkParser 4 4 4) (Some (replicate 120 (MkTok JSMN_ARRAY 1 2 3)))) =
      Ret (Some (bytes "dev-7" ++ 0 :: replicate 84 5), ps').
Proof.
  refine (request_token_roundtrip 110 (replicate 110 9) (bytes "dev") 7 (MkSjson (Some (replicate 110 9)) (bytes "dev" ++ [0; 0]) 7)
    (MkJstate (MkParser 4 4 4) (Some (replicate 120 (MkTok JSMN_ARRAY 1 2 3)))) (replicate 120 (MkTok JSMN_ARRAY 1 2 3))
    (replicate 90 5) eq_refl eq_refl eq_refl eq_refl _ _ _ _ eq_refl eq_refl _);
    [repeat constructor; discriminate|vm_compute; lia|vm_compute; reflexivity|vm_compute; lia|vm_compute; lia].
Defined.

(** ** The size of the token array *)

Section size.
Lemma keeps_parse_document doc : keeps (tokens_of_size 120) (parse_document doc).
Proof. rw /parse_document. apply keeps_bind; [by apply keeps_modify_parser|]. keeps_auto. Qed.
Lemma keeps_json_token i : keeps (tokens_of_size 120) (json_token i).
Proof. apply keeps_get_tok. Qed.
Hint Resolve keeps_parse_document keeps_json_token : iot.
Lemma keeps_key_loop {A} m doc key i (found : Z -> M jstate (option A)) :
  (forall i, keeps (tokens_of_size 120) (found i)) -> keeps (tokens_of_size 120) (key_loop m doc key i found).
Proof. intros Hf. revert i. induction m as [|m IH]; intros i; cbn [key_loop]; keeps_auto. Qed.
Lemma keeps_isJsonValidAndParse doc : keeps (tokens_of_size 120) (isJsonValidAndParse doc).
Proof. rw /isJsonValidAndParse. keeps_auto. Qed.
Lemma keeps_extractClientToken doc dst : keeps (tokens_of_size 120) (extractClientToken doc dst).
Proof. rw /extractClientToken /for_key. keeps_auto. apply keeps_key_loop. keeps_auto. Qed.
Lemma keeps_extractVersionNumber doc n : keeps (tokens_of_size 120) (extractVersionNumber doc n).
Proof. rw /extractVersionNumber /for_key. apply keeps_key_loop. keeps_auto. Qed.
Lemma keeps_isJsonKeyMatching f g doc n j : keeps (tokens_of_size 120) (isJsonKeyMatchingAndUpdateValue f g doc n j).
Proof. rw /isJsonKeyMatchingAndUpdateValue /for_key. apply keeps_key_loop. keeps_auto. Qed.
End size.
#[export] Hint Resolve keeps_isJsonValidAndParse keeps_extractClientToken keeps_extractVersionNumber keeps_isJsonKeyMatching : iot.

(** ** No loop runs out of fuel *)

Section fuel.
Lemma text_at_fuel json i : in_fuel (text_at json i).
Proof. rw /text_at. fuel_auto. Qed.
Lemma text_from_fuel json i : in_fuel (text_from json i).
Proof. rw /text_from. fuel_auto. Qed.
Hint Resolve text_at_fuel text_from_fuel : fuel.
Lemma text_is_fuel json i w : in_fuel (text_is json i w).
Proof. revert i. induction w; intros i; cbn [text_is]; fuel_auto. Qed.
Lemma strncmp_eq_fuel n a b : in_fuel (strncmp_eq n a b).
Proof. revert a b. induction n; intros a b; cbn [strncmp_eq]; fuel_auto. Qed.
Hint Resolve text_is_fuel strncmp_eq_fuel : fuel.
Lemma sscanf_int_fuel conv lo hi json i : in_fuel (sscanf_int conv lo hi json i).
Proof. rw /sscanf_int. fuel_auto. Qed.
Hint Resolve sscanf_int_fuel : fuel.
Lemma key_eq_fuel doc t key : in_fuel (key_eq doc t key).
Proof. rw /key_eq /jsoneq. fuel_auto. Qed.
Lemma stored_fuel {A} (f : A -> json_data) o : in_fuel o -> in_fuel (stored f o).
Proof. rw /in_fuel. destruct o as [[]|]; [done|]. by intros Ho [= ->]. Qed.
Lemma UpdateValue_fuel f g doc type t : in_fuel (UpdateValueIfNoObject f g doc type t).
Proof.
  destruct type; cbn [UpdateValueIfNoObject]; try done; apply stored_fuel;
    cbv delta [parseInteger32Value parseInteger16Value parseInteger8Value parseUnsignedInteger32Value parseUnsignedInteger16Value
      parseUnsignedInteger8Value parse_signed parse_unsigned parseFloatValue parseDoubleValue parse_real parseBooleanValue]; fuel_auto.
Qed.
Lemma json_token_fuel i : fuelled (json_token i).
Proof. rw /json_token /get_tok. fuel_auto. Qed.
Hint Resolve key_eq_fuel UpdateValue_fuel json_token_fuel : fuel.
Lemma key_loop_fuel {A} n doc key i (found : Z -> M jstate (option A)) :
  (forall i, fuelled (found i)) -> fuelled (key_loop n doc key i found).
Proof. intros Hf. revert i. induction n; intros i; cbn [key_loop]; fuel_auto. Qed.
Lemma isJsonKeyMatching_fuel f g doc n j : fuelled (isJsonKeyMatchingAndUpdateValue f g doc n j).
Proof. apply key_loop_fuel. intros i. fuel_auto. Qed.
End fuel.
#[export] Hint Resolve text_from_fuel isJsonKeyMatching_fuel : fuel.
