(* ===== verification/ShadowRecords.v ===== *)
(** * Shadow records

    [src/aws_iot_shadow_records.c]: the requests that wait for a response, the
    subscriptions to the topics of the responses, the keys registered for changes, and
    the handlers of incoming messages. The MQTT client below is an interface. *)
From Stdlib Require Import Ascii String.
From S2P Require Import Prelude Text Types Timer Client Json Jsmn JsmnGrammar ShadowJson ShadowParse.

(** ** Data *)

Inductive ShadowActions_t := SHADOW_GET | SHADOW_UPDATE | SHADOW_DELETE.
Inductive ShadowAckTopicTypes_t := SHADOW_ACCEPTED | SHADOW_REJECTED | SHADOW_ACTION.
Inductive Shadow_Ack_Status_t := SHADOW_ACK_TIMEOUT | SHADOW_ACK_REJECTED | SHADOW_ACK_ACCEPTED.
#[export] Instance ShadowActions_eq_dec : EqDecision ShadowActions_t.
Proof. solve_decision. Defined.

Definition SHADOW_MAX_SIZE_OF_RX_BUFFER : Z := AWS_IOT_MQTT_RX_BUF_LEN + 1.
Definition MAX_SIZE_OF_UNIQUE_CLIENT_ID_BYTES : nat := 80.
Definition MAX_SIZE_CLIENT_ID_WITH_SEQUENCE : nat := 90.
Definition MAX_SIZE_CLIENT_TOKEN_CLIENT_SEQUENCE : nat := 110.
Definition MAX_ACKS_TO_COMEIN_AT_ANY_GIVEN_TIME : nat := 10.
Definition MAX_SIZE_OF_THING_NAME : nat := 20.
Definition MAX_SHADOW_TOPIC_LENGTH_BYTES : nat := 80.
Definition MAX_TOPICS_AT_ANY_GIVEN_TIME : nat := 20.
Definition SUBSCRIBE_SETTLING_TIME : Z := 2.

(** Callbacks are named by their address, none for a null pointer. *)
Record ToBeReceivedAckRecord_t := MkAck {
  ack_clientTokenID : list Z;
  ack_thingName : list Z;
  ack_action : ShadowActions_t;
  ack_callback : option Z;
  ack_pCallbackContext : ptr;
  ack_isFree : bool;
  ack_timer : Timer }.

Record SubscriptionRecord_t := MkSub {
  sub_Topic : list Z; sub_count : Z; sub_isFree : bool; sub_isSticky : bool }.

(** [pStruct] is the index of a structure of the application. *)
Record JsonTokenTable_t := MkEntry {
  tt_pKey : option (list Z); tt_pStruct : nat; tt_callback : option Z; tt_isFree : bool }.

(** A structure of the application, with its callback. *)
Record app_struct := MkAppStruct { as_struct : jsonStruct_t; as_cb : option Z }.

(** The static variables of the shadow, and the structures of the application that are
    registered with it. *)
Record shadow := MkShadow {
  AckWaitList : list ToBeReceivedAckRecord_t;
  SubscriptionList : list SubscriptionRecord_t;
  tokenTable : list JsonTokenTable_t;
  tokenTableIndex : Z;
  deltaTopicSubscribedFlag : bool;
  shadowJsonVersionNum : Z;
  shadowDiscardOldDeltaFlag : bool;
  myThingName : list Z;
  mqttClientID : list Z;
  clientTokenNum : Z;
  shadowDeltaTopic : list Z;
  shadowRxBuf : list Z;
  json : jstate;
  pMqttClient : client_ptr;
  structs : list app_struct }.

Section setters.
Context (s : shadow).
Definition set_acks l := MkShadow l (SubscriptionList s) (tokenTable s) (tokenTableIndex s) (deltaTopicSubscribedFlag s)
  (shadowJsonVersionNum s) (shadowDiscardOldDeltaFlag s) (myThingName s) (mqttClientID s) (clientTokenNum s)
  (shadowDeltaTopic s) (shadowRxBuf s) (json s) (pMqttClient s) (structs s).
Definition set_subs l := MkShadow (AckWaitList s) l (tokenTable s) (tokenTableIndex s) (deltaTopicSubscribedFlag s)
  (shadowJsonVersionNum s) (shadowDiscardOldDeltaFlag s) (myThingName s) (mqttClientID s) (clientTokenNum s)
  (shadowDeltaTopic s) (shadowRxBuf s) (json s) (pMqttClient s) (structs s).
Definition set_table l i b := MkShadow (AckWaitList s) (SubscriptionList s) l i b
  (shadowJsonVersionNum s) (shadowDiscardOldDeltaFlag s) (myThingName s) (mqttClientID s) (clientTokenNum s)
  (shadowDeltaTopic s) (shadowRxBuf s) (json s) (pMqttClient s) (structs s).
Definition set_version v := MkShadow (AckWaitList s) (SubscriptionList s) (tokenTable s) (tokenTableIndex s) (deltaTopicSubscribedFlag s)
  v (shadowDiscardOldDeltaFlag s) (myThingName s) (mqttClientID s) (clientTokenNum s)
  (shadowDeltaTopic s) (shadowRxBuf s) (json s) (pMqttClient s) (structs s).
Definition set_discard b := MkShadow (AckWaitList s) (SubscriptionList s) (tokenTable s) (tokenTableIndex s) (deltaTopicSubscribedFlag s)
  (shadowJsonVersionNum s) b (myThingName s) (mqttClientID s) (clientTokenNum s)
  (shadowDeltaTopic s) (shadowRxBuf s) (json s) (pMqttClient s) (structs s).
Definition set_names t i := MkShadow (AckWaitList s) (SubscriptionList s) (tokenTable s) (tokenTableIndex s) (deltaTopicSubscribedFlag s)
  (shadowJsonVersionNum s) (shadowDiscardOldDeltaFlag s) t i (clientTokenNum s)
  (shadowDeltaTopic s) (shadowRxBuf s) (json s) (pMqttClient s) (structs s).
Definition set_tokenNum z := MkShadow (AckWaitList s) (SubscriptionList s) (tokenTable s) (tokenTableIndex s) (deltaTopicSubscribedFlag s)
  (shadowJsonVersionNum s) (shadowDiscardOldDeltaFlag s) (myThingName s) (mqttClientID s) z
  (shadowDeltaTopic s) (shadowRxBuf s) (json s) (pMqttClient s) (structs s).
Definition set_deltaTopic t := MkShadow (AckWaitList s) (SubscriptionList s) (tokenTable s) (tokenTableIndex s) (deltaTopicSubscribedFlag s)
  (shadowJsonVersionNum s) (shadowDiscardOldDeltaFlag s) (myThingName s) (mqttClientID s) (clientTokenNum s)
  t (shadowRxBuf s) (json s) (pMqttClient s) (structs s).
Definition set_rxBuf b := MkShadow (AckWaitList s) (SubscriptionList s) (tokenTable s) (tokenTableIndex s) (deltaTopicSubscribedFlag s)
  (shadowJsonVersionNum s) (shadowDiscardOldDeltaFlag s) (myThingName s) (mqttClientID s) (clientTokenNum s)
  (shadowDeltaTopic s) b (json s) (pMqttClient s) (structs s).
Definition set_json j := MkShadow (AckWaitList s) (SubscriptionList s) (tokenTable s) (tokenTableIndex s) (deltaTopicSubscribedFlag s)
  (shadowJsonVersionNum s) (shadowDiscardOldDeltaFlag s) (myThingName s) (mqttClientID s) (clientTokenNum s)
  (shadowDeltaTopic s) (shadowRxBuf s) j (pMqttClient s) (structs s).
Definition set_pMqttClient p := MkShadow (AckWaitList s) (SubscriptionList s) (tokenTable s) (tokenTableIndex s) (deltaTopicSubscribedFlag s)
  (shadowJsonVersionNum s) (shadowDiscardOldDeltaFlag s) (myThingName s) (mqttClientID s) (clientTokenNum s)
  (shadowDeltaTopic s) (shadowRxBuf s) (json s) p (structs s).
Definition set_structs l := MkShadow (AckWaitList s) (SubscriptionList s) (tokenTable s) (tokenTableIndex s) (deltaTopicSubscribedFlag s)
  (shadowJsonVersionNum s) (shadowDiscardOldDeltaFlag s) (myThingName s) (mqttClientID s) (clientTokenNum s)
  (shadowDeltaTopic s) (shadowRxBuf s) (json s) (pMqttClient s) l.
End setters.

(** The shadow on top of the client [C]. *)
Record ssys (C : Type) := Ssys { sh : shadow; mq : C }.
Arguments Ssys {C} sh mq.
Arguments sh {C} s.
Arguments mq {C} s.

(** ** Interfaces *)

(** The array a topic lies in: the client keeps a pointer to the topics it subscribes to. *)
Inductive topic_array := SubscriptionTopic (i : nat) | DeltaTopic | StackTopic.
(** The handlers the shadow registers with the client. *)
Inductive shadow_handler := AckHandler | DeltaHandler | DeleteHandler (f : Z).
(** A message to publish; a field that is not set is none. *)
Record shadow_msg := MkMsg {
  sm_qos : QoS; sm_isRetained : option Z; sm_isDup : option Z; sm_id : option Z; sm_payload : list Z }.

(** The operations of the MQTT client and of the clock that the records use. While the
    client waits for an acknowledgement it delivers messages, whose handlers work on the
    shadow. *)
Class Mqtt (C : Type) := {
  mqtt_subscribe : client_ptr -> topic_array -> list Z -> QoS -> shadow_handler -> M (ssys C) IoT_Error_t;
  mqtt_unsubscribe : client_ptr -> topic_array -> list Z -> M (ssys C) IoT_Error_t;
  mqtt_publish : client_ptr -> list Z -> shadow_msg -> M (ssys C) IoT_Error_t;
  mqtt_clock : M C timeval }.

(** The callbacks of the application: they may call the shadow. *)
Class ShadowApp (C : Type) := {
  action_callback : Z -> list Z -> ShadowActions_t -> Shadow_Ack_Status_t -> list Z -> ptr -> M (ssys C) unit;
  delta_callback : Z -> list Z -> Z -> nat -> M (ssys C) unit }.

(** ** Strings of the C library *)

(** The text [snprintf(a, size, ...)] leaves in an array of [size] bytes. *)
Definition print_array (size : nat) (text a : list Z) : list Z :=
  let t := take (size - 1) text in t ++ 0 :: drop (length t + 1) a.
(** The C string it holds. *)
Definition printed (size : nat) (text : list Z) : list Z := take (size - 1) text.

Fixpoint is_prefix (a b : list Z) : bool :=
  match a, b with
  | [], _ => true
  | x :: a', y :: b' => (x =? y) && is_prefix a' b'
  | _, _ => false
  end.
(** [strstr(hay, needle) != NULL] on C strings. *)
Fixpoint strstr (hay needle : list Z) : bool :=
  is_prefix needle hay || match hay with [] => false | _ :: hay' => strstr hay' needle end.

Section records.
Context {C : Type} `{!Mqtt C} `{!ShadowApp C}.

Definition get_sh : M (ssys C) shadow := gets sh.
Definition mod_sh (f : shadow -> shadow) : M (ssys C) unit := modify (fun s => Ssys (f (sh s)) (mq s)).
Definition on_mq {A} (m : M C A) : M (ssys C) A := fun s =>
  match m (mq s) with Ret (a, c) => Ret (a, Ssys (sh s) c) | Exn e => Exn e end.
(** The parser works on its static variables. *)
Definition on_json {A} (m : M jstate A) : M (ssys C) A := fun s =>
  match m (json (sh s)) with Ret (a, j) => Ret (a, Ssys (set_json (sh s) j) (mq s)) | Exn e => Exn e end.
Definition lift_text (s : list Z) : M (ssys C) (list Z) := lift_option (Fault OobRead) (cstring s).

(** [AckWaitList[i]] and [SubscriptionList[i]]. *)
Definition get_ack (i : nat) : M (ssys C) ToBeReceivedAckRecord_t :=
  s ← get_sh; lift_option (Fault OobRead) (AckWaitList s !! i).
Definition upd_ack (i : nat) (f : ToBeReceivedAckRecord_t -> ToBeReceivedAckRecord_t) : M (ssys C) unit :=
  a ← get_ack i; mod_sh (fun s => set_acks s (<[i := f a]> (AckWaitList s))).
Definition get_sub (i : nat) : M (ssys C) SubscriptionRecord_t :=
  s ← get_sh; lift_option (Fault OobRead) (SubscriptionList s !! i).
Definition upd_sub (i : nat) (f : SubscriptionRecord_t -> SubscriptionRecord_t) : M (ssys C) unit :=
  r ← get_sub i; mod_sh (fun s => set_subs s (<[i := f r]> (SubscriptionList s))).

Definition ack_free (b : bool) (a : ToBeReceivedAckRecord_t) : ToBeReceivedAckRecord_t :=
  MkAck (ack_clientTokenID a) (ack_thingName a) (ack_action a) (ack_callback a) (ack_pCallbackContext a) b (ack_timer a).
Definition sub_free (b : bool) (r : SubscriptionRecord_t) : SubscriptionRecord_t :=
  MkSub (sub_Topic r) (sub_count r) b (sub_isSticky r).
Definition sub_set_count (z : Z) (r : SubscriptionRecord_t) : SubscriptionRecord_t :=
  MkSub (sub_Topic r) z (sub_isFree r) (sub_isSticky r).
Definition sub_set_sticky (b : bool) (r : SubscriptionRecord_t) : SubscriptionRecord_t :=
  MkSub (sub_Topic r) (sub_count r) (sub_isFree r) b.
Definition sub_set_topic (t : list Z) (r : SubscriptionRecord_t) : SubscriptionRecord_t :=
  MkSub t (sub_count r) (sub_isFree r) (sub_isSticky r).

(** ** Topics *)

Definition action_text (a : ShadowActions_t) : list Z :=
  match a with SHADOW_GET => bytes "get" | SHADOW_UPDATE => bytes "update" | SHADOW_DELETE => bytes "delete" end.
Definition topic_text (thing : list Z) (action : ShadowActions_t) (ackType : ShadowAckTopicTypes_t) : list Z :=
  bytes "$aws/things/" ++ thing ++ bytes "/shadow/" ++ action_text action ++
  match ackType with
  | SHADOW_ACCEPTED => bytes "/accepted" | SHADOW_REJECTED => bytes "/rejected" | SHADOW_ACTION => []
  end.
(** The C string left in [pTopic]; [thing] is the C string of the thing name. *)
Definition topicNameFromThingAndAction (thing : list Z) (action : ShadowActions_t) (ackType : ShadowAckTopicTypes_t) : list Z :=
  printed MAX_SHADOW_TOPIC_LENGTH_BYTES (topic_text thing action ackType).

(** [topicName] is the memory from the address of the topic on. *)
Definition isAckForMyThingName (topicName : list Z) : M (ssys C) bool :=
  s ← get_sh;
  topic ← lift_text topicName;
  thing ← lift_text (myThingName s);
  mret (strstr topic thing &&
        (strstr topic (bytes "get/accepted") || strstr topic (bytes "update/accepted") || strstr topic (bytes "delta"))).

(** ** Keys registered for changes *)

Definition initDeltaTokens : M (ssys C) unit :=
  mod_sh (fun s => set_table s ((fun e => MkEntry (tt_pKey e) (tt_pStruct e) (tt_callback e) true) <$> tokenTable s) 0 false).

Definition delta_topic (thing : list Z) : list Z := bytes "$aws/things/" ++ thing ++ bytes "/shadow/update/delta".

(** [pStruct] is the index of the structure. *)
Definition registerJsonTokenOnDelta (pStruct : nat) : M (ssys C) IoT_Error_t :=
  s ← get_sh;
  rc ← (if deltaTopicSubscribedFlag s then mret SUCCESS
        else
          thing ← lift_text (myThingName s);
          let text := delta_topic thing in
          _ ← mod_sh (fun s => set_deltaTopic s (print_array MAX_SHADOW_TOPIC_LENGTH_BYTES text (shadowDeltaTopic s)));
          rc ← mqtt_subscribe (pMqttClient s) DeltaTopic (printed MAX_SHADOW_TOPIC_LENGTH_BYTES text) QOS0 DeltaHandler;
          _ ← mod_sh (fun s => set_table s (tokenTable s) (tokenTableIndex s) true);
          mret rc);
  s ← get_sh;
  if MAX_JSON_TOKEN_EXPECTED <=? tokenTableIndex s then mret FAILURE
  else
    st ← lift_option (Fault OobRead) (structs s !! pStruct);
    let i := Z.to_nat (tokenTableIndex s) in
    if decide (i < length (tokenTable s))%nat then
      _ ← mod_sh (fun s => set_table s
            (<[i := MkEntry (js_pKey (as_struct st)) pStruct (as_cb st) false]> (tokenTable s))
            (u32 (tokenTableIndex s + 1)) (deltaTopicSubscribedFlag s));
      mret rc
    else raise (Fault OobWrite).

(** ** Subscriptions to the topics of responses *)

(** The first index of a list whose element satisfies [P]. *)
Fixpoint first_index {A} (P : A -> bool) (l : list A) : option nat :=
  match l with
  | [] => None
  | x :: l' => if P x then Some 0%nat else Datatypes.S <$> first_index P l'
  end.

Definition getNextFreeIndexOfSubscriptionList : M (ssys C) (option nat) :=
  s ← get_sh;
  match first_index sub_isFree (SubscriptionList s) with
  | Some i => _ ← upd_sub i (sub_free false); mret (Some i)
  | None => mret None
  end.

(** The comparison with the topics in use, in the order of the list. *)
Fixpoint find_topic (topic : list Z) (l : list SubscriptionRecord_t) : outcome (option nat) :=
  match l with
  | [] => Ret None
  | r :: l' =>
      same ← (if sub_isFree r then Ret false else strcmp_eq (topic ++ [0]) (sub_Topic r));
      if same : bool then Ret (Some 0%nat) else i ← find_topic topic l'; Ret (option_map Datatypes.S i)
  end.
Definition findIndexOfSubscriptionList (topic : list Z) : M (ssys C) (option nat) :=
  s ← get_sh; lift_outcome (find_topic topic (SubscriptionList s)).

(** One of the two halves of [unsubscribeFromAcceptedAndRejected]. *)
Definition release_topic (topic : list Z) : M (ssys C) unit :=
  indexSubList ← findIndexOfSubscriptionList topic;
  match indexSubList with
  | None => mret tt
  | Some i =>
      r ← get_sub i;
      if negb (sub_isSticky r) && (sub_count r =? 1) then
        s ← get_sh;
        rc ← mqtt_unsubscribe (pMqttClient s) StackTopic topic;
        if decide (rc = SUCCESS) then upd_sub i (sub_free true) else mret tt
      else if 1 <? sub_count r then upd_sub i (sub_set_count (u8 (sub_count r - 1)))
      else mret tt
  end.
Definition unsubscribeFromAcceptedAndRejected (index : nat) : M (ssys C) unit :=
  a ← get_ack index;
  thing ← lift_text (ack_thingName a);
  _ ← release_topic (topicNameFromThingAndAction thing (ack_action a) SHADOW_ACCEPTED);
  release_topic (topicNameFromThingAndAction thing (ack_action a) SHADOW_REJECTED).

Definition initializeRecords (pClient : client_ptr) : M (ssys C) unit :=
  mod_sh (fun s => set_pMqttClient
    (set_subs (set_acks s (ack_free true <$> AckWaitList s))
      ((fun r => MkSub (sub_Topic r) 0 true false) <$> SubscriptionList s)) pClient).

(** Which of the two topics are present, over the list. *)
Fixpoint topics_present (acc rej : list Z) (l : list SubscriptionRecord_t) : outcome (bool * bool) :=
  match l with
  | [] => Ret (false, false)
  | r :: l' =>
      '(a, b) ← (if sub_isFree r then Ret (false, false)
                 else
                   same ← strcmp_eq (acc ++ [0]) (sub_Topic r);
                   if same : bool then Ret (true, false)
                   else same ← strcmp_eq (rej ++ [0]) (sub_Topic r); Ret (false, same : bool));
      '(a', b') ← topics_present acc rej l';
      Ret (a || a', b || b')
  end.
Definition isSubscriptionPresent (thing : list Z) (action : ShadowActions_t) : M (ssys C) bool :=
  s ← get_sh;
  '(a, b) ← lift_outcome (topics_present (topicNameFromThingAndAction thing action SHADOW_ACCEPTED)
                (topicNameFromThingAndAction thing action SHADOW_REJECTED) (SubscriptionList s));
  mret (b && a).

(** [while(!has_timer_expired(&subSettlingtimer));] *)
Fixpoint wait_expired (fuel : nat) (t : Timer) : M (ssys C) unit :=
  match fuel with
  | O => raise OutOfFuel
  | Datatypes.S fuel' =>
      now ← on_mq mqtt_clock;
      if has_timer_expired now t then mret tt else wait_expired fuel' t
  end.

(** The topic is printed into the entry [i] and subscribed to. *)
Definition subscribe_entry (i : nat) (topic : list Z) : M (ssys C) IoT_Error_t :=
  _ ← upd_sub i (fun r => sub_set_topic (print_array MAX_SHADOW_TOPIC_LENGTH_BYTES topic (sub_Topic r)) r);
  s ← get_sh;
  mqtt_subscribe (pMqttClient s) (SubscriptionTopic i) (printed MAX_SHADOW_TOPIC_LENGTH_BYTES topic) QOS0 AckHandler.

(** The two subscriptions; the results are the return code and whether both entries
    stay in the list. *)
Definition subscribe_both (fuel a r : nat) (thing : list Z) (action : ShadowActions_t) (isSticky : bool) :
    M (ssys C) (IoT_Error_t * bool) :=
  rc ← subscribe_entry a (topic_text thing action SHADOW_ACCEPTED);
  if decide (rc <> SUCCESS) then mret (rc, false)
  else
    _ ← upd_sub a (sub_set_count 1);
    _ ← upd_sub a (sub_set_sticky isSticky);
    rc ← subscribe_entry r (topic_text thing action SHADOW_REJECTED);
    if decide (rc <> SUCCESS) then mret (rc, false)
    else
      _ ← upd_sub r (sub_set_count 1);
      _ ← upd_sub r (sub_set_sticky isSticky);
      now ← on_mq mqtt_clock;
      _ ← wait_expired fuel (countdown_sec now SUBSCRIBE_SETTLING_TIME);
      mret (rc, true).

(** An index of -1 is none: then [SubscriptionList[-1]] is read at the end. *)
Definition subscribeToShadowActionAcks (fuel : nat) (thing : list Z) (action : ShadowActions_t) (isSticky : bool) :
    M (ssys C) IoT_Error_t :=
  acc ← getNextFreeIndexOfSubscriptionList;
  rej ← getNextFreeIndexOfSubscriptionList;
  '(rc, keep) ← (match acc, rej with
                 | Some a, Some r => subscribe_both fuel a r thing action isSticky
                 | _, _ => mret (SUCCESS, false)
                 end);
  if keep : bool then mret rc
  else
    _ ← (match acc, rej with
         | Some a, _ => upd_sub a (sub_free true)
         | None, Some r => upd_sub r (sub_free true)
         | None, None => mret tt
         end);
    match acc with
    | None => raise (Fault OobRead)
    | Some a =>
        r ← get_sub a;
        if sub_count r =? 1 then
          s ← get_sh;
          topic ← lift_text (sub_Topic r);
          _ ← mqtt_unsubscribe (pMqttClient s) (SubscriptionTopic a) topic;
          mret rc
        else mret rc
    end.

Fixpoint increment_all (acc rej : list Z) (isSticky : bool) (l : list SubscriptionRecord_t) : outcome (list SubscriptionRecord_t) :=
  match l with
  | [] => Ret []
  | r :: l' =>
      same ← (if sub_isFree r then Ret false
              else
                same ← strcmp_eq (acc ++ [0]) (sub_Topic r);
                if same : bool then Ret true else strcmp_eq (rej ++ [0]) (sub_Topic r));
      l'' ← increment_all acc rej isSticky l';
      Ret ((if same : bool then sub_set_sticky isSticky (sub_set_count (u8 (sub_count r + 1)) r) else r) :: l'')
  end.
Definition incrementSubscriptionCnt (thing : list Z) (action : ShadowActions_t) (isSticky : bool) : M (ssys C) unit :=
  s ← get_sh;
  l ← lift_outcome (increment_all (topicNameFromThingAndAction thing action SHADOW_ACCEPTED)
         (topicNameFromThingAndAction thing action SHADOW_REJECTED) isSticky (SubscriptionList s));
  mod_sh (fun s => set_subs s l).

(** ** Requests *)

(** Pointers are none when they are null, the memory of a C string otherwise. The flags
    and the identifier of the message are not set. *)
Definition publishToShadowAction (pThingName : option (list Z)) (action : ShadowActions_t) (pDoc : option (list Z)) :
    M (ssys C) IoT_Error_t :=
  match pThingName, pDoc with
  | Some name, Some doc =>
      thing ← lift_text name;
      let topic := topicNameFromThingAndAction thing action SHADOW_ACTION in
      payload ← lift_text doc;
      s ← get_sh;
      mqtt_publish (pMqttClient s) topic (MkMsg QOS0 None None None payload)
  | _, _ => mret NULL_VALUE_ERROR
  end.

Definition getNextFreeIndexOfAckWaitList : M (ssys C) (option nat) :=
  s ← get_sh; mret (first_index ack_isFree (AckWaitList s)).

Definition addToAckWaitList (i : nat) (pThingName : list Z) (action : ShadowActions_t) (pExtractedClientToken : list Z)
    (callback : option Z) (pCallbackContext : ptr) (timeout_seconds : Z) : M (ssys C) unit :=
  a ← get_ack i;
  token ← lift_outcome (strncpy (ack_clientTokenID a) pExtractedClientToken MAX_SIZE_CLIENT_ID_WITH_SEQUENCE);
  name ← lift_outcome (strncpy (ack_thingName a) pThingName MAX_SIZE_OF_THING_NAME);
  now ← on_mq mqtt_clock;
  upd_ack i (fun _ => MkAck token name action callback pCallbackContext false (countdown_sec now timeout_seconds)).

(** The callback of the entry [i], if it has one. *)
Definition call_back (i : nat) (status : Shadow_Ack_Status_t) : M (ssys C) unit :=
  a ← get_ack i;
  s ← get_sh;
  match ack_callback a with
  | Some f => action_callback f (ack_thingName a) (ack_action a) status (shadowRxBuf s) (ack_pCallbackContext a)
  | None => mret tt
  end.

(** The body of the loop for entry [i], and the loop from [i] on over [n] entries. *)
Definition expired_entry (i : nat) : M (ssys C) unit :=
  a ← get_ack i;
  if ack_isFree a then mret tt
  else
    now ← on_mq mqtt_clock;
    if has_timer_expired now (ack_timer a) then
      _ ← call_back i SHADOW_ACK_TIMEOUT;
      _ ← upd_ack i (ack_free true);
      unsubscribeFromAcceptedAndRejected i
    else mret tt.
Fixpoint expired_loop (n i : nat) : M (ssys C) unit :=
  match n with
  | O => mret tt
  | Datatypes.S n' => _ ← expired_entry i; expired_loop n' (Datatypes.S i)
  end.
Definition HandleExpiredResponseCallbacks : M (ssys C) unit :=
  expired_loop MAX_ACKS_TO_COMEIN_AT_ANY_GIVEN_TIME 0.

(** ** Incoming messages *)

(** The payload is copied into [shadowRxBuf] with a null behind it; the result is false
    when it is refused. *)
Definition store_payload (payload : list Z) (payloadLen : Z) : M (ssys C) bool :=
  if SHADOW_MAX_SIZE_OF_RX_BUFFER <? payloadLen then mret false
  else if decide (length payload < Z.to_nat payloadLen)%nat then raise (Fault OobRead)
  else
    s ← get_sh;
    let n := Z.to_nat payloadLen in
    if decide (n < length (shadowRxBuf s))%nat then
      _ ← mod_sh (fun s => set_rxBuf s (take n payload ++ 0 :: drop (n + 1) (shadowRxBuf s)));
      mret true
    else raise (Fault OobWrite).

(** The status the topic of a response tells, none when it is left uninitialized. *)
Definition ack_status (topic : list Z) : option Shadow_Ack_Status_t :=
  if strstr topic (bytes "accepted") then Some SHADOW_ACK_ACCEPTED
  else if strstr topic (bytes "rejected") then Some SHADOW_ACK_REJECTED
  else None.

(** The search for the request of a response, from entry [i] on. *)
Fixpoint ack_loop (n i : nat) (topicName token : list Z) : M (ssys C) unit :=
  match n with
  | O => mret tt
  | Datatypes.S n' =>
      a ← get_ack i;
      same ← (if ack_isFree a then mret false else lift_outcome (strcmp_eq (ack_clientTokenID a) token));
      if same : bool then
        topic ← lift_text topicName;
        match ack_status topic with
        | None => raise (Fault UninitRead)
        | Some status =>
            _ ← call_back i status;
            _ ← unsubscribeFromAcceptedAndRejected i;
            upd_ack i (ack_free true)
        end
      else ack_loop n' (Datatypes.S i) topicName token
  end.

(** The version of a response to the own thing. *)
Definition note_version (topicName : list Z) (tokenCount : Z) : M (ssys C) unit :=
  mine ← isAckForMyThingName topicName;
  if mine : bool then
    s ← get_sh;
    v ← on_json (extractVersionNumber (shadowRxBuf s) tokenCount);
    match v with
    | Some v => if shadowJsonVersionNum s <? v then mod_sh (fun s => set_version s v) else mret tt
    | None => mret tt
    end
  else mret tt.

Definition AckStatusCallback (topicName payload : list Z) (payloadLen : Z) : M (ssys C) unit :=
  ok ← store_payload payload payloadLen;
  if ok : bool then
    s ← get_sh;
    c ← on_json (isJsonValidAndParse (shadowRxBuf s));
    match c with
    | None => mret tt
    | Some tokenCount =>
        _ ← note_version topicName tokenCount;
        t ← on_json (extractClientToken (shadowRxBuf s) (replicate MAX_SIZE_CLIENT_TOKEN_CLIENT_SEQUENCE 0));
        match t with
        | None => mret tt
        | Some token => ack_loop MAX_ACKS_TO_COMEIN_AT_ANY_GIVEN_TIME 0 topicName token
        end
    end
  else mret tt.

(** The registered keys from [i] on: the structure of a key that occurs is updated, then
    its callback called, which may register further keys. *)
Section delta.
Context (scan_float scan_double : list Z -> option (list Z)).
Definition delta_entry (i : Z) (tokenCount : Z) : M (ssys C) unit :=
  s ← get_sh;
  e ← lift_option (Fault OobRead) (tokenTable s !! Z.to_nat i);
  if tt_isFree e then mret tt
  else
    st ← lift_option (Fault OobRead) (structs s !! tt_pStruct e);
    m ← on_json (isJsonKeyMatchingAndUpdateValue scan_float scan_double (shadowRxBuf s) tokenCount (as_struct st));
    match m with
    | None => mret tt
    | Some m =>
        _ ← mod_sh (fun s => set_structs s (<[tt_pStruct e := MkAppStruct (m_struct m) (as_cb st)]> (structs s)));
        match tt_callback e with
        | Some f =>
            v ← lift_outcome (text_from (shadowRxBuf s) (m_position m));
            delta_callback f v (m_length m) (tt_pStruct e)
        | None => mret tt
        end
    end.
Fixpoint delta_loop (fuel : nat) (i : Z) (tokenCount : Z) : M (ssys C) unit :=
  match fuel with
  | O => raise OutOfFuel
  | Datatypes.S fuel' =>
      s ← get_sh;
      if i <? tokenTableIndex s then
        _ ← delta_entry i tokenCount;
        delta_loop fuel' (u32 (i + 1)) tokenCount
      else mret tt
  end.
Definition delta_fuel : nat := Datatypes.S (Z.to_nat MAX_JSON_TOKEN_EXPECTED).

Definition shadow_delta_callback (payload : list Z) (payloadLen : Z) : M (ssys C) unit :=
  ok ← store_payload payload payloadLen;
  if ok : bool then
    s ← get_sh;
    c ← on_json (isJsonValidAndParse (shadowRxBuf s));
    match c with
    | None => mret tt
    | Some tokenCount =>
        go ← (if shadowDiscardOldDeltaFlag s then
                v ← on_json (extractVersionNumber (shadowRxBuf s) tokenCount);
                match v with
                | Some v =>
                    if shadowJsonVersionNum s <? v then _ ← mod_sh (fun s => set_version s v); mret true
                    else mret false
                | None => mret true
                end
              else mret true);
        if go : bool then delta_loop delta_fuel 0 tokenCount else mret tt
    end
  else mret tt.
End delta.
End records.

(** ** The invariant of the records *)

(** An array of [n] bytes that holds a C string. *)
Definition text_array (n : nat) (a : list Z) : Prop := length a = n /\ 0 ∈ a.

(** The name of the thing need not be terminated. *)
Record ack_ok (a : ToBeReceivedAckRecord_t) : Prop := AckOk {
  ack_token_ok : text_array MAX_SIZE_CLIENT_ID_WITH_SEQUENCE (ack_clientTokenID a);
  ack_thing_len : length (ack_thingName a) = MAX_SIZE_OF_THING_NAME }.
Record sub_ok (r : SubscriptionRecord_t) : Prop := SubOk {
  sub_topic_ok : text_array MAX_SHADOW_TOPIC_LENGTH_BYTES (sub_Topic r);
  sub_count_u8 : is_u8 (sub_count r) }.

(** The sizes of the arrays, the ranges of the counters, the arrays that hold C strings; the entries of the table in use
    refer to structures of the application. *)
Record shadow_ok (s : shadow) : Prop := ShadowOk {
  ok_acks : length (AckWaitList s) = MAX_ACKS_TO_COMEIN_AT_ANY_GIVEN_TIME /\ Forall ack_ok (AckWaitList s);
  ok_subs : length (SubscriptionList s) = MAX_TOPICS_AT_ANY_GIVEN_TIME /\ Forall sub_ok (SubscriptionList s);
  ok_table : length (tokenTable s) = 120%nat /\ 0 <= tokenTableIndex s <= MAX_JSON_TOKEN_EXPECTED;
  ok_entries : Forall (fun e => (tt_pStruct e < length (structs s))%nat) (take (Z.to_nat (tokenTableIndex s)) (tokenTable s));
  ok_version : is_u32 (shadowJsonVersionNum s);
  ok_names : text_array MAX_SIZE_OF_THING_NAME (myThingName s) /\ text_array MAX_SIZE_OF_UNIQUE_CLIENT_ID_BYTES (mqttClientID s);
  ok_tokenNum : is_u32 (clientTokenNum s);
  ok_deltaTopic : text_array MAX_SHADOW_TOPIC_LENGTH_BYTES (shadowDeltaTopic s);
  ok_rxBuf : length (shadowRxBuf s) = 513%nat;
  ok_json : tokens_of_size 120 (json s) }.

Definition ssys_ok {C} (s : ssys C) : Prop := shadow_ok (sh s).

(** Callbacks of the application keep the invariant. *)
Class ShadowAppOk (C : Type) `{!ShadowApp C} := {
  action_callback_ok f thing a st doc ctx : keeps ssys_ok (action_callback f thing a st doc ctx);
  delta_callback_ok f v n i : keeps ssys_ok (delta_callback f v n i) }.

(** So do the handlers of the messages that arrive during an operation of the client. *)
Class MqttOk (C : Type) `{!Mqtt C} := {
  mqtt_subscribe_ok p a t q h : keeps (@ssys_ok C) (mqtt_subscribe p a t q h);
  mqtt_unsubscribe_ok p a t : keeps (@ssys_ok C) (mqtt_unsubscribe p a t);
  mqtt_publish_ok p t m : keeps (@ssys_ok C) (mqtt_publish p t m) }.
(** No message of the shadow arrives during an operation of the client. *)
Class MqttQuiet (C : Type) `{!Mqtt C} := {
  mqtt_subscribe_quiet x p a t q h : keeps (fun s => sh s = x) (mqtt_subscribe p a t q h);
  mqtt_unsubscribe_quiet x p a t : keeps (fun s => sh s = x) (mqtt_unsubscribe p a t);
  mqtt_publish_quiet x p t m : keeps (fun s => sh s = x) (mqtt_publish p t m) }.

Lemma zeros_ok n : (0 < n)%nat -> text_array n (replicate n 0).
Proof. intros Hn. split; [apply length_replicate|]. destruct n; [lia|]. by left. Qed.
Lemma print_array_ok size text a : length a = size -> (0 < size)%nat -> text_array size (print_array size text a).
Proof.
  intros Ha Hs. split.
  - rw /print_array length_app. cbn [length]. rw length_drop length_take. lia.
  - apply elem_of_app. right. by left.
Qed.
Lemma topic_array_ok text a : text_array MAX_SHADOW_TOPIC_LENGTH_BYTES a ->
  text_array MAX_SHADOW_TOPIC_LENGTH_BYTES (print_array MAX_SHADOW_TOPIC_LENGTH_BYTES text a).
Proof. intros [Ha _]. apply print_array_ok; [done|rw /MAX_SHADOW_TOPIC_LENGTH_BYTES; lia]. Qed.

(** A C string that fits is copied with its NUL byte. *)
Lemma strncpy_text n dst src r : strncpy dst src n = Ret r -> text_array n dst -> text_array n src -> text_array n r.
Proof.
  rw /strncpy. case_decide as Hd; [done|]. intros Hr [Hdst _] [Hsrc H0]. rw take_ge in Hr; [|lia].
  destruct (cstring_terminated src H0) as [t Ht]. rw Ht in Hr. injection Hr as <-.
  apply cstring_spec in Ht as (rest & -> & _). rw length_app /= in Hsrc. split.
  - rw !length_app length_replicate length_drop. lia.
  - apply elem_of_app. right. apply elem_of_app. left. destruct (n - length t)%nat eqn:Hn; [lia|]. by left.
Qed.

Lemma strncpy_length dst src n r : strncpy dst src n = Ret r -> length r = length dst.
Proof.
  rw /strncpy. case_decide as Hd; [done|]. destruct (cstring (take n src)) as [t|] eqn:Hc.
  - intros [= <-]. apply cstring_spec in Hc as (rest & Heq & _). apply (f_equal length) in Heq.
    rw length_take length_app /= in Heq. rw !length_app length_replicate length_drop. lia.
  - case_decide as Hs; [done|]. intros [= <-]. rw length_app length_drop length_take. lia.
Qed.

Lemma parse_unsigned_range w doc t rc v : parse_unsigned w doc t = Ret (rc, Some v) -> 0 <= v < 2 ^ w.
Proof.
  rw /parse_unsigned. case_decide; [done|]. destruct (text_at doc (tok_start t)) as [c|]; [|done]. cbn [mbind outcome_bind].
  destruct (c =? 45); [done|]. rw /sscanf_int. destruct (text_from doc (tok_start t)) as [x|]; [|done]. cbn [mbind outcome_bind].
  destruct (cstring x) as [text|]; [|done]. destruct (sscanf_u text) as [v'|]; [|done].
  case_decide; [|done]. intros [= <- <-]. done.
Qed.

Lemma returns_key_loop {A} (P : A -> Prop) n doc key i found :
  (forall i, returns (fun v => match v with Some v => P v | None => True end) (found i)) ->
  returns (fun v => match v with Some v => P v | None => True end) (key_loop n doc key i found).
Proof.
  intros Hf. revert i. induction n as [|n IH]; intros i; cbn [key_loop]; [done|].
  apply returns_any. intros t. apply returns_any. intros r. case_decide; [|apply IH].
  eapply returns_bind; [apply Hf|]. by intros [v|] Hv; [intros s|apply IH].
Qed.
Lemma extractVersionNumber_range doc n : returns (fun v => match v with Some v => is_u32 v | None => True end) (extractVersionNumber doc n).
Proof.
  apply (returns_key_loop is_u32). intros i. apply returns_any. intros t.
  eapply (returns_bind (fun p => match p.2 with Some v => is_u32 v | None => True end)).
  - apply returns_outcome. intros [rc [v|]] Hp; [|done]. by apply parse_unsigned_range in Hp.
  - intros [rc v] Hv. intros s. rw /wp /mret /M_ret. by case_decide.
Qed.

Section keeps.
Context {C : Type} `{!Mqtt C} `{!ShadowApp C} `{!MqttOk C} `{!ShadowAppOk C}.
#[local] Abbreviation I := (@ssys_ok C) (only parsing).

Lemma keeps_on_mq {A} (m : M C A) : keeps I (on_mq m).
Proof. intros s Hs. rw /wp /on_mq. by destruct (m (mq s)) as [[]|]. Qed.
Lemma keeps_on_json {A} (m : M jstate A) : keeps (tokens_of_size 120) m -> keeps I (on_json m).
Proof.
  intros Hm s Hs. rw /wp /on_json. specialize (Hm (json (sh s)) (ok_json _ Hs)). rw /wp in Hm.
  destruct (m (json (sh s))) as [[a j]|]; [|done]. destruct Hs. by split.
Qed.
Lemma keeps_get_sh {B} (k : shadow -> M (ssys C) B) : (forall s, shadow_ok s -> keeps I (k s)) -> keeps I (get_sh ≫= k).
Proof. intros Hk. apply (keeps_gets I sh shadow_ok); [done|done]. Qed.
Lemma keeps_mod_sh f : (forall s, shadow_ok s -> shadow_ok (f s)) -> keeps I (mod_sh f).
Proof. intros Hf. apply keeps_modify. intros s Hs. by apply Hf. Qed.
Lemma keeps_lift_text t : keeps I (lift_text t).
Proof. apply keeps_lift_option. Qed.
Hint Resolve keeps_on_mq keeps_on_json keeps_lift_text : iot.
Hint Resolve action_callback_ok delta_callback_ok mqtt_subscribe_ok mqtt_unsubscribe_ok mqtt_publish_ok : iot.

Lemma post_get_ack i : forall s, I s -> wp any_exn (get_ack i) (fun a s' => I s' /\ ack_ok a) s.
Proof.
  intros s Hs. apply wp_bind, wp_gets. destruct (AckWaitList (sh s) !! i) as [a|] eqn:Ha; [|done].
  split; [done|]. eapply Forall_lookup_1; [exact (proj2 (ok_acks _ Hs))|done].
Qed.
Lemma post_get_sub i : forall s, I s -> wp any_exn (get_sub i) (fun r s' => I s' /\ sub_ok r) s.
Proof.
  intros s Hs. apply wp_bind, wp_gets. destruct (SubscriptionList (sh s) !! i) as [a|] eqn:Ha; [|done].
  split; [done|]. eapply Forall_lookup_1; [exact (proj2 (ok_subs _ Hs))|done].
Qed.
Hint Resolve post_get_ack post_get_sub : iot.
Lemma keeps_upd_ack i f : (forall a, ack_ok a -> ack_ok (f a)) -> keeps I (upd_ack i f).
Proof.
  intros Hf. rw /upd_ack. eapply keeps_bind_post; [apply post_get_ack|]. intros a Ha. apply keeps_mod_sh. intros s [].
  split; cbn; try done. rw length_insert. split; [by destruct ok_acks0|]. apply Forall_insert; [by destruct ok_acks0|by apply Hf].
Qed.
Lemma keeps_upd_sub i f : (forall a, sub_ok a -> sub_ok (f a)) -> keeps I (upd_sub i f).
Proof.
  intros Hf. rw /upd_sub. eapply keeps_bind_post; [apply post_get_sub|]. intros a Ha. apply keeps_mod_sh. intros s [].
  split; cbn; try done. rw length_insert. split; [by destruct ok_subs0|]. apply Forall_insert; [by destruct ok_subs0|by apply Hf].
Qed.
Lemma keeps_ack_free i b : keeps I (upd_ack i (ack_free b)).
Proof. apply keeps_upd_ack. intros a []. by split. Qed.
Lemma keeps_sub_free i b : keeps I (upd_sub i (sub_free b)).
Proof. apply keeps_upd_sub. intros a []. by split. Qed.
Lemma keeps_sub_count i z : is_u8 z -> keeps I (upd_sub i (sub_set_count z)).
Proof. intros Hz. apply keeps_upd_sub. intros a []. by split. Qed.
Lemma keeps_sub_sticky i b : keeps I (upd_sub i (sub_set_sticky b)).
Proof. apply keeps_upd_sub. intros a []. by split. Qed.
Hint Resolve keeps_ack_free keeps_sub_free keeps_sub_sticky : iot.
Hint Extern 1 (keeps _ (upd_sub _ (sub_set_count _))) => (apply keeps_sub_count; first [apply u8_range | rw /is_u8; lia]) : iot.

Ltac records_step :=
  match goal with
  | |- keeps _ (get_sh ≫= _) => apply keeps_get_sh; intros ? ?
  | |- _ => keeps_step
  end.
Ltac records_auto := repeat (cbv beta iota zeta; records_step).

Lemma keeps_initDeltaTokens : keeps I initDeltaTokens.
Proof.
  apply keeps_mod_sh. intros s []. split; cbn; try done.
  rw length_fmap. destruct ok_table0. split; [done|rw /MAX_JSON_TOKEN_EXPECTED; lia].
Qed.
Lemma keeps_registerJsonTokenOnDelta i : keeps I (registerJsonTokenOnDelta i).
Proof.
  rw /registerJsonTokenOnDelta. apply keeps_get_sh. intros s Hs. apply keeps_bind.
  - records_auto.
    + apply keeps_mod_sh. intros s' []. split; try done. by apply topic_array_ok.
    + apply keeps_mod_sh. intros s' []. by split.
  - intros rc s0 Hs0. apply wp_bind, wp_gets. destruct (MAX_JSON_TOKEN_EXPECTED <=? tokenTableIndex (sh s0)) eqn:Hle; [done|].
    apply Z.leb_gt in Hle. apply wp_bind. destruct (structs (sh s0) !! i) as [st|] eqn:Hst; [|done]. apply wp_ret. case_decide as Hi; [|done].
    apply wp_bind, wp_modify, wp_ret. pose proof (lookup_lt_Some _ _ _ Hst). destruct Hs0. rw /ssys_ok. split; cbn; try done.
    + rw length_insert. destruct ok_table0. split; [done|]. rw /MAX_JSON_TOKEN_EXPECTED in Hle |- *. rw u32_small; [lia|width].
    + rw u32_small; [|width]. replace (Z.to_nat (_ + 1)) with (S (Z.to_nat (tokenTableIndex (sh s0)))) by lia.
      rw (take_S_r _ _ _ (list_lookup_insert_eq _ _ _ Hi)) take_insert_ge //. apply Forall_app. split; [done|by constructor].
Qed.
Lemma keeps_next_sub : keeps I getNextFreeIndexOfSubscriptionList.
Proof. rw /getNextFreeIndexOfSubscriptionList. records_auto. Qed.
Lemma keeps_release_topic t : keeps I (release_topic t).
Proof. rw /release_topic /findIndexOfSubscriptionList. records_auto. Qed.
Hint Resolve keeps_next_sub keeps_release_topic : iot.
Lemma keeps_unsubscribe i : keeps I (unsubscribeFromAcceptedAndRejected i).
Proof. rw /unsubscribeFromAcceptedAndRejected. records_auto. Qed.
Hint Resolve keeps_unsubscribe : iot.
Lemma keeps_initializeRecords p : keeps I (initializeRecords p).
Proof.
  apply keeps_mod_sh. intros s []. split; cbn; try done; rw length_fmap.
  - destruct ok_acks0 as [? Ha]. split; [done|]. apply Forall_fmap. eapply Forall_impl; [exact Ha|]. intros a []. by split.
  - destruct ok_subs0 as [? Ha]. split; [done|]. apply Forall_fmap. eapply Forall_impl; [exact Ha|]. intros a []. by split.
Qed.
Lemma keeps_isSubscriptionPresent t a : keeps I (isSubscriptionPresent t a).
Proof. rw /isSubscriptionPresent. records_auto. Qed.
Lemma keeps_wait_expired fuel t : keeps I (wait_expired fuel t).
Proof. induction fuel; cbn [wait_expired]; records_auto. Qed.
Lemma keeps_subscribe_entry i t : keeps I (subscribe_entry i t).
Proof.
  rw /subscribe_entry. apply keeps_bind; [|records_auto]. apply keeps_upd_sub. intros r []. split; [|done].
  by apply topic_array_ok.
Qed.
Hint Resolve keeps_isSubscriptionPresent keeps_wait_expired keeps_subscribe_entry : iot.
Lemma keeps_subscribeToShadowActionAcks fuel t a b : keeps I (subscribeToShadowActionAcks fuel t a b).
Proof. rw /subscribeToShadowActionAcks /subscribe_both. records_auto. Qed.
Lemma increment_all_ok acc rej b l l' : increment_all acc rej b l = Ret l' -> Forall sub_ok l ->
  length l' = length l /\ Forall sub_ok l'.
Proof.
  revert l'. induction l as [|r l IH]; intros l'; cbn [increment_all]; [by intros [= <-]|].
  intros Hrun Hok. inversion Hok as [|? ? Hr Hl]; subst.
  destruct (if sub_isFree r then _ else _) as [same|]; [|done]. cbn [mbind outcome_bind] in Hrun.
  destruct (increment_all acc rej b l) as [l''|] eqn:Hl''; [|done]. cbn [mbind outcome_bind] in Hrun. injection Hrun as <-.
  destruct (IH l'' eq_refl Hl) as [Hlen Hok'']. split; [cbn; by rw Hlen|]. constructor; [|done].
  destruct same; [|done]. destruct Hr. split; [done|apply u8_range].
Qed.
Lemma keeps_incrementSubscriptionCnt t a b : keeps I (incrementSubscriptionCnt t a b).
Proof.
  rw /incrementSubscriptionCnt. apply keeps_get_sh. intros s Hs. apply keeps_bind_outcome. intros l Hl.
  destruct (ok_subs _ Hs) as [Hlen Hok]. apply increment_all_ok in Hl as [Hl1 Hl2]; [|done].
  apply keeps_mod_sh. intros s' []. split; cbn; try done. by rw Hl1 Hlen.
Qed.
Lemma keeps_publishToShadowAction n a d : keeps I (publishToShadowAction n a d).
Proof. rw /publishToShadowAction. records_auto. Qed.
Lemma keeps_next_ack : keeps I getNextFreeIndexOfAckWaitList.
Proof. rw /getNextFreeIndexOfAckWaitList. records_auto. Qed.
Lemma keeps_addToAckWaitList i n a t c x z : text_array MAX_SIZE_CLIENT_ID_WITH_SEQUENCE t -> keeps I (addToAckWaitList i n a t c x z).
Proof.
  intros Htext. rw /addToAckWaitList. eapply keeps_bind_post; [apply post_get_ack|]. intros r [Hr1 Hr2]. apply keeps_bind_outcome. intros token Ht.
  apply keeps_bind_outcome. intros name Hn. apply keeps_bind; [records_auto|]. intros now. apply keeps_upd_ack. intros _ _.
  split; cbn; [by eapply strncpy_text|by rw (strncpy_length _ _ _ _ Hn)].
Qed.
Lemma keeps_call_back i st : keeps I (call_back i st).
Proof. rw /call_back. records_auto. Qed.
Hint Resolve keeps_call_back : iot.
Lemma keeps_expired_entry i : keeps I (expired_entry i).
Proof. rw /expired_entry. records_auto. Qed.
Hint Resolve keeps_expired_entry : iot.
Lemma keeps_HandleExpired : keeps I HandleExpiredResponseCallbacks.
Proof.
  rw /HandleExpiredResponseCallbacks. generalize 0%nat. induction MAX_ACKS_TO_COMEIN_AT_ANY_GIVEN_TIME; intros i; cbn [expired_loop]; records_auto.
Qed.
Lemma keeps_store_payload p n : keeps I (store_payload p n).
Proof.
  rw /store_payload. destruct (_ <? n) eqn:Hn; [apply keeps_ret|]. case_decide as Hp; [apply keeps_raise|].
  intros s Hs. apply wp_bind, wp_gets. case_decide as Hlt; [|done]. apply wp_bind, wp_modify, wp_ret.
  destruct Hs. rw /ssys_ok. split; cbn; try done. rw length_app. cbn [length]. rw length_take length_drop.
  cbn in Hlt. rw ok_rxBuf0 in Hlt |- *. lia.
Qed.
Hint Resolve keeps_store_payload : iot.
Lemma keeps_ack_loop n i t k : keeps I (ack_loop n i t k).
Proof. revert i. induction n; intros i; cbn [ack_loop]; records_auto. Qed.
Lemma keeps_set_version v : is_u32 v -> keeps I (mod_sh (fun s => set_version s v)).
Proof. intros Hv. apply keeps_mod_sh. intros s []. by split. Qed.
Lemma keeps_bind_version {B} doc n (k : option Z -> M (ssys C) B) :
  (forall v, is_u32 (default 0 v) -> keeps I (k v)) -> keeps I (on_json (extractVersionNumber doc n) ≫= k).
Proof.
  intros Hk. apply (keeps_bind_post I (fun v => is_u32 (default 0 v))); [|done]. intros s Hs.
  apply wp_conj; [by apply keeps_on_json; [apply keeps_extractVersionNumber|]|].
  pose proof (extractVersionNumber_range doc n (json (sh s))) as Hr. rw /wp /on_json. rw /wp in Hr.
  destruct (extractVersionNumber doc n (json (sh s))) as [[v j]|]; [|done]. by destruct v.
Qed.
Hint Resolve keeps_ack_loop : iot.
Hint Extern 1 (keeps _ (mod_sh (fun s => set_version s _))) => (apply keeps_set_version; assumption) : iot.
Ltac version_auto :=
  repeat (cbv beta iota zeta;
    match goal with
    | |- keeps _ (on_json (extractVersionNumber _ _) ≫= _) => apply keeps_bind_version; intros [?|] ?; cbn [default from_option] in *
    | |- _ => records_step
    end).
Lemma keeps_AckStatusCallback t p n : keeps I (AckStatusCallback t p n).
Proof. rw /AckStatusCallback /note_version /isAckForMyThingName. version_auto. Qed.
Lemma keeps_set_struct i st : keeps I (mod_sh (fun s => set_structs s (<[i := st]> (structs s)))).
Proof. apply keeps_mod_sh. intros s []. split; cbn; try done. by rw length_insert. Qed.
Hint Resolve keeps_set_struct : iot.
Lemma keeps_delta_entry f g i n : keeps I (delta_entry f g i n).
Proof. rw /delta_entry. records_auto. Qed.
Hint Resolve keeps_delta_entry : iot.
Lemma keeps_delta_loop f g fuel i n : keeps I (delta_loop f g fuel i n).
Proof. revert i. induction fuel; intros i; cbn [delta_loop]; records_auto. Qed.
Hint Resolve keeps_delta_loop : iot.
Lemma keeps_shadow_delta_callback f g p n : keeps I (shadow_delta_callback f g p n).
Proof. rw /shadow_delta_callback. version_auto. Qed.
End keeps.
#[export] Hint Resolve keeps_on_mq keeps_on_json keeps_lift_text keeps_initDeltaTokens keeps_registerJsonTokenOnDelta
  keeps_initializeRecords keeps_isSubscriptionPresent keeps_subscribeToShadowActionAcks keeps_incrementSubscriptionCnt
  keeps_publishToShadowAction keeps_next_ack keeps_HandleExpired keeps_AckStatusCallback keeps_shadow_delta_callback
  keeps_set_version : iot.

(** ** Specification of the handlers *)

(** The entry waits for the token. *)
Definition waits_for (token : list Z) (a : ToBeReceivedAckRecord_t) : bool :=
  negb (ack_isFree a) && bool_decide (cstring (ack_clientTokenID a) = Some token).

(** A topic of the own thing whose messages carry a version. *)
Definition topic_of_mine (me topic : list Z) : bool :=
  strstr topic me && (strstr topic (bytes "get/accepted") || strstr topic (bytes "update/accepted") || strstr topic (bytes "delta")).

(** The higher of two versions, the second of which may be missing. *)
Definition newer (current : Z) (v : option Z) : Z :=
  match v with Some v => Z.max current v | None => current end.

(** [shadowRxBuf] after the payload [text]. *)
Definition received (text : list Z) (s : shadow) : list Z := text ++ 0 :: drop (length text + 1) (shadowRxBuf s).
(** The state after a payload was parsed and its version noted. *)
Definition after_parse {C} (text : list Z) (j : jstate) (version : Z) (s : ssys C) : ssys C :=
  Ssys (set_version (set_json (set_rxBuf (sh s) (received text (sh s))) j) version) (mq s).

Section handlers.
Context {C : Type} `{!Mqtt C} `{!ShadowApp C}.

Lemma store_payload_run text rest (s : ssys C) : ssys_ok s -> (length text <= 512)%nat ->
  store_payload (text ++ rest) (Z.of_nat (length text)) s =
    Ret (true, Ssys (set_rxBuf (sh s) (received text (sh s))) (mq s)).
Proof.
  intros Hs Hlen. rw /store_payload (proj2 (Z.ltb_ge _ _)); [|rw /SHADOW_MAX_SIZE_OF_RX_BUFFER /AWS_IOT_MQTT_RX_BUF_LEN; lia].
  rw Nat2Z.id decide_False; [|rw length_app; lia]. rw /mbind /M_bind /get_sh /gets decide_True; [|rw (ok_rxBuf _ Hs); lia].
  by rw /mod_sh /modify /received take_app_length.
Qed.

Lemma on_json_run {A} (m : M jstate A) (s : ssys C) a j : m (json (sh s)) = Ret (a, j) ->
  on_json m s = Ret (a, Ssys (set_json (sh s) j) (mq s)).
Proof. intros Hm. by rw /on_json Hm. Qed.

Lemma get_ack_run i a (s : ssys C) : AckWaitList (sh s) !! i = Some a -> get_ack i s = Ret (a, s).
Proof. intros Ha. by rw /get_ack /mbind /M_bind /get_sh /gets Ha. Qed.

(** The search stops at the first entry that waits for the token. *)
Lemma ack_loop_run n i topicName arr token topic (s : ssys C) : Forall ack_ok (AckWaitList (sh s)) ->
  cstring arr = Some token -> cstring topicName = Some topic -> (i + n = length (AckWaitList (sh s)))%nat ->
  ack_loop n i topicName arr s =
    match first_index (waits_for token) (drop i (AckWaitList (sh s))) with
    | None => Ret (tt, s)
    | Some j =>
        match ack_status topic with
        | None => Exn (Fault UninitRead)
        | Some status => (call_back (i + j) status ≫= fun _ => unsubscribeFromAcceptedAndRejected (i + j) ≫= fun _ => upd_ack (i + j) (ack_free true)) s
        end
    end.
Proof.
  intros Hs Harr Htopic. revert i. induction n as [|n IH]; intros i Hlen; cbn [ack_loop].
  { by rw drop_ge; [|lia]. }
  destruct (lookup_lt_is_Some_2 (AckWaitList (sh s)) i ltac:(lia)) as [a Ha].
  rw (drop_S _ a) //. cbn [first_index]. rw /mbind /M_bind (get_ack_run i a) // -/(mbind _).
  assert (Hok : ack_ok a) by (by eapply Forall_lookup_1).
  destruct (cstring_terminated _ (proj2 (ack_token_ok _ Hok))) as [t Ht].
  assert (Hsame : (if ack_isFree a then mret false else lift_outcome (strcmp_eq (ack_clientTokenID a) arr)) s =
    Ret (waits_for token a, s)).
  { rw /waits_for. destruct (ack_isFree a); [done|]. rw /lift_outcome (strcmp_eq_spec _ _ _ _ Ht Harr) Ht. cbn [negb andb].
    do 2 f_equal. apply bool_decide_ext. naive_solver. }
  rw Hsame. destruct (waits_for token a).
  - rw /lift_text Htopic /= Nat.add_0_r. by destruct (ack_status topic).
  - rw IH; [|lia]. destruct (first_index (waits_for token) (drop (S i) (AckWaitList (sh s)))) as [j|]; [|done]. cbn.
    by replace (S (i + j)) with (i + S j)%nat by lia.
Qed.

Lemma newer_if current v : (if current <? v then v else current) = newer current (Some v).
Proof. rw /newer. destruct (Z.ltb_spec current v); lia. Qed.

(** A payload that is a JSON object is stored and parsed. *)
Lemma receive_run text t0 toks rest (s : ssys C) : ssys_ok s -> value 0 text (t0 :: toks) -> nonzero text ->
  (length text <= 512)%nat -> (length (t0 :: toks) <= 120)%nat -> tok_type t0 = JSMN_OBJECT ->
  exists j, tokens_of_size 120 j /\ holds_tokens (t0 :: toks) j /\
    forall B (k : shadow -> Z -> M (ssys C) B) (none : M (ssys C) B), (ok ← store_payload (text ++ rest) (Z.of_nat (length text));
     if ok : bool then
       s ← get_sh; c ← on_json (isJsonValidAndParse (shadowRxBuf s));
       match c with None => none | Some n => k s n end
     else none) s = k (set_rxBuf (sh s) (received text (sh s))) (Z.of_nat (length (t0 :: toks))) (after_parse text j (shadowJsonVersionNum (sh s)) s).
Proof.
  intros Hs Hv Hnz Hlen Htoks Hobj. destruct (ok_json _ Hs) as (ts & Hts & Hts2).
  destruct (isJsonValid_run text t0 toks (drop (length text + 1) (shadowRxBuf (sh s))) (json (sh s)) ts) as (j & Hrun & Hj);
    [done|done|lia|done..|].
  exists j. split; [|split; [by eexists|]].
  - eexists. split; [exact Hj|]. rw length_app length_drop Hts2. lia.
  - intros B k none. rw /mbind /M_bind store_payload_run // /get_sh /gets. cbn [sh shadowRxBuf set_rxBuf].
    rw (on_json_run (isJsonValidAndParse _) _ (Some (Z.of_nat (length (t0 :: toks)))) j); [|exact Hrun].
    rw /after_parse. by destruct s as [[]].
Qed.

Lemma isAck_run topicName topic me (s : ssys C) : cstring topicName = Some topic -> cstring (myThingName (sh s)) = Some me ->
  isAckForMyThingName topicName s = Ret (topic_of_mine me topic, s).
Proof. intros Ht Hm. by rw /isAckForMyThingName /mbind /M_bind /get_sh /gets /lift_text Ht Hm. Qed.

Lemma note_version_run topicName topic me t0 toks v text j (s : ssys C) :
  cstring topicName = Some topic -> cstring (myThingName (sh s)) = Some me ->
  holds_tokens (t0 :: toks) j -> version_in (received text (sh s)) toks = Ret v ->
  note_version topicName (Z.of_nat (length (t0 :: toks))) (after_parse text j (shadowJsonVersionNum (sh s)) s) =
    Ret (tt, after_parse text j (newer (shadowJsonVersionNum (sh s)) (if topic_of_mine me topic then v else None)) s).
Proof.
  intros Htopic Hme Hj Hv. rw /note_version /mbind /M_bind (isAck_run topicName topic me) //.
  destruct (topic_of_mine me topic); [|done]. rw /get_sh /gets.
  rw (on_json_run _ _ v j); [|by apply extractVersionNumber_run]. destruct v as [v|]; [|done].
  cbn [sh shadowJsonVersionNum set_json set_version set_rxBuf after_parse]. rw -newer_if /mod_sh /modify.
  by destruct (shadowJsonVersionNum (sh s) <? v).
Qed.

(** C26: responses. A payload that is any JSON object of the grammar, within the buffer and
    the token array, is stored and parsed; when the topic is one of the own thing, the
    version in it replaces a lower one. Then the first request in the wait list that is
    waiting for the client token in the payload is completed: its callback gets the
    status the topic tells, its subscriptions are released, and its entry is freed; when
    no request is waiting for the token, nothing else happens. The wait list is compared
    by content, whatever lies behind the tokens in their arrays. *)
Theorem response_handled topicName topic me text t0 toks rest v arr token (s : ssys C) :
  ssys_ok s -> value 0 text (t0 :: toks) -> nonzero text ->
  (length text <= 512)%nat -> (length (t0 :: toks) <= 120)%nat -> tok_type t0 = JSMN_OBJECT ->
  cstring topicName = Some topic -> cstring (myThingName (sh s)) = Some me ->
  version_in (received text (sh s)) toks = Ret v ->
  token_in (received text (sh s)) (replicate MAX_SIZE_CLIENT_TOKEN_CLIENT_SEQUENCE 0) toks = Ret (Some arr) ->
  cstring arr = Some token ->
  exists j,
    let s1 := after_parse text j (newer (shadowJsonVersionNum (sh s)) (if topic_of_mine me topic then v else None)) s in
    AckStatusCallback topicName (text ++ rest) (Z.of_nat (length text)) s =
      match first_index (waits_for token) (AckWaitList (sh s)) with
      | None => Ret (tt, s1)
      | Some i =>
          match ack_status topic with
          | None => Exn (Fault UninitRead)
          | Some status =>
              (_ ← call_back i status; _ ← unsubscribeFromAcceptedAndRejected i; upd_ack i (ack_free true)) s1
          end
      end.
Proof.
  intros Hs Hv Hnz Hlen Htoks Hobj Htopic Hme Hver Htok Harr.
  edestruct (receive_run text t0 toks rest s) as (j & Hsize & Hj & Hrun); [done..|].
  destruct Hsize as (ts & Hts & Hts2).
  destruct (extractClientToken_run text t0 toks (drop (length text + 1) (shadowRxBuf (sh s))) j ts
    (replicate MAX_SIZE_CLIENT_TOKEN_CLIENT_SEQUENCE 0) (Some arr)) as (j' & Hex & Hj'); [done|done|lia|done..|].
  exists j'. cbv zeta. rw /AckStatusCallback Hrun.
  rw /mbind /M_bind (note_version_run topicName topic me t0 toks v) //.
  cbn [shadowRxBuf set_rxBuf]. rw (on_json_run _ _ (Some arr) j'); [|exact Hex].
  set (s1 := after_parse text j' (newer (shadowJsonVersionNum (sh s)) (if topic_of_mine me topic then v else None)) s).
  change (Ssys _ _) with s1. destruct (ok_acks _ Hs) as [Hn Hacks].
  by rw (ack_loop_run _ 0 topicName arr token topic s1).
Qed.

(** Changes. A payload that is any JSON object of the grammar, within the buffer and
    the token array, is stored and parsed. While old changes are to be discarded, a
    version that is not above the last one received makes the handler stop there, with
    no structure of the application changed and no callback called; a higher one
    becomes the last version received. In all other cases the registered keys are
    looked up. *)
Theorem delta_handled scan_float scan_double text t0 toks rest v (s : ssys C) :
  ssys_ok s -> value 0 text (t0 :: toks) -> nonzero text ->
  (length text <= 512)%nat -> (length (t0 :: toks) <= 120)%nat -> tok_type t0 = JSMN_OBJECT ->
  version_in (received text (sh s)) toks = Ret v ->
  exists j, forall current, current = shadowJsonVersionNum (sh s) ->
    shadow_delta_callback scan_float scan_double (text ++ rest) (Z.of_nat (length text)) s =
      match (if shadowDiscardOldDeltaFlag (sh s) then v else None) with
      | Some v =>
          if v <=? current then Ret (tt, after_parse text j current s)
          else delta_loop scan_float scan_double delta_fuel 0 (Z.of_nat (length (t0 :: toks))) (after_parse text j v s)
      | None => delta_loop scan_float scan_double delta_fuel 0 (Z.of_nat (length (t0 :: toks))) (after_parse text j current s)
      end.
Proof.
  intros Hs Hv Hnz Hlen Htoks Hobj Hver.
  destruct (receive_run text t0 toks rest s) as (j & Hsize & Hj & Hrun); [done..|].
  exists j. intros current ->. rw /shadow_delta_callback Hrun. cbn [shadowDiscardOldDeltaFlag set_rxBuf shadowRxBuf shadowJsonVersionNum].
  destruct (shadowDiscardOldDeltaFlag (sh s)); [|by rw /mbind /M_bind].
  rw /mbind /M_bind (on_json_run _ _ v j); [|by apply extractVersionNumber_run].
  destruct v as [v|]; [|done]. by rw Z.leb_antisym; destruct (shadowJsonVersionNum (sh s) <? v).
Qed.

Lemma on_json_fuel {A} (m : M jstate A) : fuelled m -> fuelled (on_json (C := C) m).
Proof.
  intros Hm s. specialize (Hm (json (sh s))). rw /on_json. rw /in_fuel in Hm |- *.
  destruct (m (json (sh s))) as [[]|]; [done|]. by intros [= ->].
Qed.
Hint Resolve on_json_fuel : fuel.

(** The loop over the registered keys ends. Whatever keys the callbacks of the
    application register while it runs, the bound of [delta_fuel] iterations is not
    reached: the table holds at most 120 keys, and its index only grows. *)
Theorem delta_loop_terminates `{!ShadowAppOk C} scan_float scan_double n (s : ssys C) : ssys_ok s ->
  (forall f v len i, fuelled (delta_callback f v len i)) ->
  delta_loop scan_float scan_double delta_fuel 0 n s <> Exn OutOfFuel.
Proof.
  intros Hs Hcb. assert (Hentry : forall i, fuelled (delta_entry scan_float scan_double i n)).
  { intros i. rw /delta_entry. fuel_auto. }
  assert (Hloop : forall fuel i s, ssys_ok s -> 0 <= i <= 120 -> 120 < i + Z.of_nat fuel ->
    delta_loop scan_float scan_double fuel i n s <> Exn OutOfFuel).
  { clear s Hs. intros fuel. induction fuel as [|fuel IH]; intros i s Hs Hi Hf; [lia|]. cbn [delta_loop].
    rw /mbind /M_bind /get_sh /gets. destruct (Z.ltb_spec i (tokenTableIndex (sh s))) as [Hlt|]; [|done].
    pose proof (proj2 (ok_table _ Hs)) as Hidx. rw /MAX_JSON_TOKEN_EXPECTED in Hidx.
    pose proof (keeps_delta_entry scan_float scan_double i n s Hs) as Hk. specialize (Hentry i s). rw /wp in Hk. rw /in_fuel in Hentry.
    destruct (delta_entry scan_float scan_double i n s) as [[u s']|]; [|by intros [= ->]].
    apply IH; [done|rw u32_small; [lia|width]|rw u32_small; [lia|width]]. }
  apply Hloop; [done|lia|by vm_compute].
Qed.
End handlers.

(** ** Requests that are not answered in time *)

Section expiry.
Context {C : Type} `{!Mqtt C} `{!ShadowApp C} `{!MqttQuiet C}.

(** The wait list is [l]. *)
Definition wait_list (l : list ToBeReceivedAckRecord_t) (s : ssys C) : Prop := AckWaitList (sh s) = l.
(** Callbacks that make no request. *)
Definition callbacks_quiet : Prop := forall l f thing a st doc ctx, keeps (wait_list l) (action_callback f thing a st doc ctx).

Lemma wait_list_mq {A} l (m : M C A) : keeps (wait_list l) (on_mq m).
Proof. intros s Hs. rw /wp /on_mq. by destruct (m (mq s)) as [[]|]. Qed.
(** The shadow stays as it is. *)
Lemma wait_list_quiet {A} l (m : M (ssys C) A) : (forall x, keeps (fun s => sh s = x) m) -> keeps (wait_list l) m.
Proof.
  intros Hm s Hs. eapply wp_mono; [by apply (Hm (sh s))|]. intros a s' Heq. by rw /wait_list Heq.
Qed.
Lemma wait_list_do_subscribe l p a t q h : keeps (wait_list l) (mqtt_subscribe p a t q h).
Proof. apply wait_list_quiet. intros x. apply mqtt_subscribe_quiet. Qed.
Lemma wait_list_do_unsubscribe l p a t : keeps (wait_list l) (mqtt_unsubscribe p a t).
Proof. apply wait_list_quiet. intros x. apply mqtt_unsubscribe_quiet. Qed.
Lemma wait_list_do_publish l p t m : keeps (wait_list l) (mqtt_publish p t m).
Proof. apply wait_list_quiet. intros x. apply mqtt_publish_quiet. Qed.
Hint Resolve wait_list_do_subscribe wait_list_do_unsubscribe wait_list_do_publish : iot.
Lemma wait_list_get_sh {B} l (k : shadow -> M (ssys C) B) : (forall s, keeps (wait_list l) (k s)) -> keeps (wait_list l) (get_sh ≫= k).
Proof. intros Hk s Hs. apply wp_bind, wp_gets. by apply Hk. Qed.
Lemma wait_list_upd_sub l i f : keeps (wait_list l) (upd_sub i f).
Proof.
  rw /upd_sub /get_sub. apply keeps_bind; [apply wait_list_get_sh; intros s; apply keeps_lift_option|]. intros r.
  by apply keeps_modify.
Qed.
Lemma wait_list_get_sub l i : keeps (wait_list l) (get_sub i).
Proof. apply wait_list_get_sh. intros s. apply keeps_lift_option. Qed.
Lemma wait_list_get_ack l i : keeps (wait_list l) (get_ack i).
Proof. apply wait_list_get_sh. intros s. apply keeps_lift_option. Qed.
Hint Resolve wait_list_mq wait_list_upd_sub wait_list_get_sub wait_list_get_ack : iot.
Ltac wait_auto := repeat (cbv beta iota zeta; match goal with |- keeps _ (get_sh ≫= _) => apply wait_list_get_sh; intros ? | |- _ => keeps_step end).

Lemma wait_list_release l t : keeps (wait_list l) (release_topic t).
Proof. rw /release_topic /findIndexOfSubscriptionList. wait_auto. Qed.
Hint Resolve wait_list_release : iot.
Lemma wait_list_unsubscribe l i : keeps (wait_list l) (unsubscribeFromAcceptedAndRejected i).
Proof. rw /unsubscribeFromAcceptedAndRejected /lift_text. wait_auto. Qed.
Lemma wait_list_call_back l i st : callbacks_quiet -> keeps (wait_list l) (call_back i st).
Proof. intros Hq. rw /call_back. wait_auto. Qed.

Lemma wait_list_mod_subs l g : keeps (wait_list l) (mod_sh (fun s => set_subs s (g s))).
Proof. by apply keeps_modify. Qed.
Hint Resolve wait_list_mod_subs : iot.
Lemma wait_list_present l t a : keeps (wait_list l) (isSubscriptionPresent t a).
Proof. rw /isSubscriptionPresent. wait_auto. Qed.
Lemma wait_list_increment l t a b : keeps (wait_list l) (incrementSubscriptionCnt t a b).
Proof. rw /incrementSubscriptionCnt. wait_auto. Qed.
Lemma wait_list_publish l n a d : keeps (wait_list l) (publishToShadowAction n a d).
Proof. rw /publishToShadowAction /lift_text. wait_auto. Qed.
Lemma wait_list_wait l fuel t : keeps (wait_list l) (wait_expired fuel t).
Proof. induction fuel; cbn [wait_expired]; wait_auto. Qed.
Lemma wait_list_entry l i t : keeps (wait_list l) (subscribe_entry i t).
Proof. rw /subscribe_entry. wait_auto. Qed.
Hint Resolve wait_list_wait wait_list_entry : iot.
Lemma wait_list_subscribe l fuel t a b : keeps (wait_list l) (subscribeToShadowActionAcks fuel t a b).
Proof. rw /subscribeToShadowActionAcks /subscribe_both /getNextFreeIndexOfSubscriptionList /lift_text. wait_auto. Qed.

(** A C string and zeros in an array are copied as they are. *)
Lemma add_request_run i a name thing action arr token f ctx z (s s' : ssys C) : AckWaitList (sh s) !! i = Some a ->
  text_array MAX_SIZE_CLIENT_ID_WITH_SEQUENCE (ack_clientTokenID a) -> text_array MAX_SIZE_CLIENT_ID_WITH_SEQUENCE arr -> cstring arr = Some token ->
  cstring name = Some thing -> addToAckWaitList i name action arr (Some f) ctx z s = Ret (tt, s') ->
  exists a' t, AckWaitList (sh s') = <[i := a']> (AckWaitList (sh s)) /\
    waits_for token a' = true /\ ack_action a' = action /\ ack_callback a' = Some f /\ ack_pCallbackContext a' = ctx /\
    ack_timer a' = countdown_sec t z.
Proof.
  intros Ha [Hlen _] [Hal _] Harr Hname. rw /addToAckWaitList /mbind /M_bind (get_ack_run i a) // /lift_outcome /strncpy Hlen Hal.
  destruct (decide (_ < _)%nat) as [Hd|_]; [lia|]. rw take_ge ?Hal // Harr.
  case_decide as Hd1; [done|]. intros Hrun.
  destruct (match cstring (take MAX_SIZE_OF_THING_NAME name) with Some _ => _ | None => _ end) as [n|] eqn:Hn; [|done].
  rw /on_mq in Hrun. destruct (mqtt_clock (mq s)) as [[now c]|]; [|done].
  rw /upd_ack /mbind /M_bind (get_ack_run i a) // /mod_sh /modify in Hrun. injection Hrun as <-.
  eexists _, now. split; [reflexivity|]. split; [|done]. rw /waits_for. cbn [ack_isFree ack_clientTokenID negb andb].
  apply bool_decide_eq_true. apply cstring_spec in Harr as (rest & -> & Hnz). rw length_app /= in Hal.
  destruct (MAX_SIZE_CLIENT_ID_WITH_SEQUENCE - length token)%nat eqn:He; [lia|]. by rw (cstring_app token _ []) // app_nil_r.
Qed.

(** Every reading of the clock is at or after the time [t]. *)
Definition clock_past (expired : Timer -> Prop) : Prop :=
  forall c now c' t, mqtt_clock c = Ret (now, c') -> expired t -> has_timer_expired now t = true.

(** The entry after the pass: an expired request is free. *)
Definition after_pass (expired : Timer -> Prop) (a a' : ToBeReceivedAckRecord_t) : Prop :=
  (a' = a \/ a' = ack_free true a) /\ (expired (ack_timer a) -> ack_isFree a' = true).

Lemma expired_step expired i a l : callbacks_quiet -> clock_past expired -> l !! i = Some a ->
  forall s, wait_list l s -> wp any_exn (expired_entry i)
    (fun _ s' => exists a', after_pass expired a a' /\ wait_list (<[i := a']> l) s') s.
Proof.
  intros Hq Hclock Ha s Hs. apply wp_bind. eapply wp_known; [apply get_ack_run; by rw Hs|].
  destruct (ack_isFree a) eqn:Hfree.
  { apply wp_ret. exists a. split; [by split; [left|]|]. by rw /wait_list list_insert_id. }
  apply wp_bind. rw {1}/wp /on_mq. destruct (mqtt_clock (mq s)) as [[now c']|] eqn:Hc; [|done].
  destruct (has_timer_expired now (ack_timer a)) eqn:He.
  - apply wp_bind. eapply wp_mono; [by apply (wait_list_call_back l)|]. intros [] s1 Hs1. apply wp_bind.
    assert (Ha1 : AckWaitList (sh s1) !! i = Some a) by (by rw Hs1).
    eapply wp_known; [rw /upd_ack (bind_run _ _ _ _ _ (get_ack_run i a s1 Ha1)); reflexivity|].
    eapply wp_mono; [apply (wait_list_unsubscribe (<[i := ack_free true a]> l)); by rw /wait_list /= Hs1|].
    intros [] s2 Hs2. exists (ack_free true a). by split; [split; [right|]|].
  - exists a. split; [|by rw /wait_list list_insert_id]. split; [by left|]. intros Hexp.
    by rw (Hclock _ _ _ _ Hc Hexp) in He.
Qed.

Lemma expired_loop_run expired n i l : callbacks_quiet -> clock_past expired -> (i + n = length l)%nat ->
  forall s, wait_list l s -> wp any_exn (expired_loop n i)
    (fun _ s' => exists l', wait_list (take i l ++ l') s' /\ Forall2 (after_pass expired) (drop i l) l') s.
Proof.
  intros Hq Hclock. revert i l. induction n as [|n IH]; intros i l Hlen s Hs; cbn [expired_loop].
  { apply wp_ret. exists []. rw app_nil_r drop_ge; [|lia]. rw take_ge; [done|lia]. }
  destruct (lookup_lt_is_Some_2 l i ltac:(lia)) as [a Ha].
  pose proof (expired_step expired i a l Hq Hclock Ha s Hs) as Hstep.
  apply wp_bind. eapply wp_mono; [exact Hstep|]. intros [] s1 (a' & Ha' & Hs1).
  eapply wp_mono; [apply (IH (S i) (<[i := a']> l)); [rw length_insert; lia|exact Hs1]|]. intros [] s2 (l' & Hl' & Hall).
  exists (a' :: l'). rw (drop_S l a i Ha). split.
  - rw /wait_list Hl' (take_S_r _ _ a'); [|apply list_lookup_insert_eq; lia]. rw take_insert_ge; [by rw -app_assoc|lia].
  - constructor; [done|]. by rw drop_insert_lt in Hall; [|lia].
Qed.

(** Requests do not wait forever. When every reading of the clock is past the
    timers in [expired], a pass over the wait list, run at each yield, frees all
    requests with such a timer and leaves every other entry as it was or frees it as
    well; the other fields of an entry are kept. *)
Theorem expired_requests_released expired (s s' : ssys C) : ssys_ok s -> callbacks_quiet -> clock_past expired ->
  HandleExpiredResponseCallbacks s = Ret (tt, s') ->
  Forall2 (after_pass expired) (AckWaitList (sh s)) (AckWaitList (sh s')).
Proof.
  intros Hs Hq Hclock Hrun. pose proof (expired_loop_run expired MAX_ACKS_TO_COMEIN_AT_ANY_GIVEN_TIME 0 (AckWaitList (sh s)) Hq Hclock) as Hwp.
  destruct (wp_run _ _ _ _ _ _ Hrun (Hwp (eq_sym (proj1 (ok_acks _ Hs))) s eq_refl)) as (l' & -> & Hall). exact Hall.
Qed.

(** A clock whose readings are valid times, at least a microsecond apart. *)
Definition clock_runs (time : C -> Z) : Prop := forall c, exists now c',
  mqtt_clock c = Ret (now, c') /\ tv_valid now /\ usecs now = time c /\ time c < time c'.

(** The wait after a subscription ends. With a clock that runs, the loop that polls
    the settling timer returns after at most as many readings as there are microseconds
    left, at a time at or after the end of the timer; nothing but the clock changes. *)
Theorem settling_ends time fuel t (s : ssys C) : clock_runs time -> tv_valid (end_time t) ->
  Z.max 0 (usecs (end_time t) - time (mq s)) < Z.of_nat fuel ->
  exists c', wait_expired fuel t s = Ret (tt, Ssys (sh s) c') /\ usecs (end_time t) < time c'.
Proof.
  intros Hclock Ht. revert s. induction fuel as [|fuel IH]; intros s Hf; cbn [wait_expired];
    destruct (Hclock (mq s)) as (now & c' & Hrun & Hnow & Htime & Hlater).
  - lia.
  - rw /mbind /M_bind /on_mq Hrun has_timer_expired_spec //. case_bool_decide as Hle; [exists c'; split; [done|lia]|].
    destruct (IH (Ssys (sh s) c')) as (c2 & Hrun2 & Hc2); [cbn; lia|]. by exists c2.
Qed.
End expiry.

(** ** A simulated client

    It accepts every operation and keeps a log of them; its clock starts at 200
    seconds and advances by one at each reading. The callbacks of the application write to the log as well. *)
Module Demo.
Inductive event :=
  | Subscribed (topic : list Z) | Unsubscribed (topic : list Z) | Published (topic payload : list Z)
  | Answered (callback : Z) (status : Shadow_Ack_Status_t) | Changed (callback : Z) (pStruct : nat).
Record demo := MkDemo { log : list event; ticks : nat }.
Definition time (d : demo) : Z := 200 + Z.of_nat (ticks d).

Definition note (e : event) (d : demo) : demo := MkDemo (log d ++ [e]) (ticks d).
Definition noting (e : event) : M demo IoT_Error_t := _ ← modify (note e); mret SUCCESS.

#[global] Instance demo_mqtt : Mqtt demo := {
  mqtt_subscribe p a topic q h := on_mq (noting (Subscribed topic));
  mqtt_unsubscribe p a topic := on_mq (noting (Unsubscribed topic));
  mqtt_publish p topic m := on_mq (noting (Published topic (sm_payload m)));
  mqtt_clock := d ← get; _ ← modify (fun d => MkDemo (log d) (S (ticks d))); mret (Timeval (time d) 0) }.
#[global] Instance demo_app : ShadowApp demo := {
  action_callback f thing a st doc ctx := on_mq (modify (note (Answered f st)));
  delta_callback f v n i := on_mq (modify (note (Changed f i))) }.
#[global] Instance demo_mqtt_ok : MqttOk demo.
Proof. split; intros; apply keeps_on_mq. Qed.
#[global] Instance demo_mqtt_quiet : MqttQuiet demo.
Proof. by split; intros; intros s Hs. Qed.
#[global] Instance demo_app_ok : ShadowAppOk demo.
Proof. split; intros; apply keeps_on_mq. Qed.

Definition padded (size : nat) (text : list Z) : list Z := text ++ replicate (size - length text) 0.
Definition no_ack : ToBeReceivedAckRecord_t :=
  MkAck (replicate MAX_SIZE_CLIENT_ID_WITH_SEQUENCE 0) (replicate MAX_SIZE_OF_THING_NAME 0) SHADOW_GET None NULL true init_timer.
Definition no_sub : SubscriptionRecord_t := MkSub (replicate MAX_SHADOW_TOPIC_LENGTH_BYTES 0) 0 true false.
(** A get request for the thing "lamp" that waits for the token "dev-7". *)
Definition waiting : ToBeReceivedAckRecord_t :=
  MkAck (padded MAX_SIZE_CLIENT_ID_WITH_SEQUENCE (bytes "dev-7")) (padded MAX_SIZE_OF_THING_NAME (bytes "lamp"))
    SHADOW_GET (Some 5) NULL false (MkTimer (Timeval 100 0)).
Definition subscribed (t : ShadowAckTopicTypes_t) : SubscriptionRecord_t :=
  MkSub (padded MAX_SHADOW_TOPIC_LENGTH_BYTES (topicNameFromThingAndAction (bytes "lamp") SHADOW_GET t)) 1 false false.

Definition demo_shadow : shadow :=
  MkShadow (no_ack :: waiting :: replicate 8 no_ack)
    (subscribed SHADOW_ACCEPTED :: subscribed SHADOW_REJECTED :: replicate 18 no_sub)
    (replicate 120 (MkEntry None 0 None true)) 0 false 3 true
    (padded MAX_SIZE_OF_THING_NAME (bytes "lamp")) (padded MAX_SIZE_OF_UNIQUE_CLIENT_ID_BYTES (bytes "dev")) 8
    (replicate MAX_SHADOW_TOPIC_LENGTH_BYTES 0) (replicate 513 0)
    (MkJstate (MkParser 0 0 0) (Some (replicate 120 (MkTok JSMN_UNDEFINED 0 0 0)))) TheClient [].
Definition demo_state : ssys demo := Ssys demo_shadow (MkDemo [] 0).

Lemma padded_ok n text : (length text < n)%nat -> text_array n (padded n text).
Proof.
  intros Hn. split; [rw length_app length_replicate; lia|]. apply elem_of_app. right.
  destruct (n - length text)%nat eqn:He; [lia|]. by left.
Qed.
Lemma demo_ok : ssys_ok demo_state.
Proof.
  split; cbn [sh demo_state demo_shadow AckWaitList SubscriptionList tokenTable tokenTableIndex shadowJsonVersionNum myThingName
    mqttClientID clientTokenNum shadowDeltaTopic shadowRxBuf json structs].
  - split; [done|]. apply Forall_cons_2; [|apply Forall_cons_2; [|apply Forall_replicate]].
    1,3: split; [apply zeros_ok; vm_compute; lia|done].
    split; [apply padded_ok; vm_compute; lia|done].
  - split; [done|]. apply Forall_cons_2; [|apply Forall_cons_2; [|apply Forall_replicate]].
    1,2: split; [apply padded_ok; vm_compute; lia|done].
    split; [apply zeros_ok; vm_compute; lia|done].
  - done.
  - constructor.
  - done.
  - split; apply padded_ok; vm_compute; lia.
  - done.
  - apply zeros_ok. vm_compute; lia.
  - done.
  - by eexists.
Qed.

(** The response {"version":9,"clientToken":"dev-7"}. *)
Definition response : list Z :=
  [123; 34] ++ bytes "version" ++ [34; 58; 57; 44; 34] ++ bytes "clientToken" ++ [34; 58; 34] ++ bytes "dev-7" ++ [34; 125].
Definition response_tokens : list jsmntok_t :=
  [MkTok JSMN_STRING 2 9 1; MkTok JSMN_PRIMITIVE 11 12 0; MkTok JSMN_STRING 14 25 1; MkTok JSMN_STRING 28 33 0].
Lemma response_value : value 0 response (MkTok JSMN_OBJECT 0 35 2 :: response_tokens).
Proof.
  set (version := [] ++ ([34] ++ bytes "version" ++ [34]) ++ [] ++ [58] ++ [] ++ [57] ++ []).
  set (token := [] ++ ([34] ++ bytes "clientToken" ++ [34]) ++ [] ++ [58] ++ [] ++ ([34] ++ bytes "dev-7" ++ [34]) ++ []).
  refine (value_object 0 (version ++ [44] ++ token) response_tokens 2 _).
  refine (members_more 1 version (take 2 response_tokens) token (drop 2 response_tokens) 0 _ (members_one 13 token (drop 2 response_tokens) _)).
  - refine (member_intro 1 [] (bytes "version") [] [] [57] [] [MkTok JSMN_PRIMITIVE 11 12 0] _ _ _ _ _ _); try by constructor.
    + by repeat constructor.
    + refine (value_primitive 11 [57] _). by apply prim_text_dec.
  - refine (member_intro 13 [] (bytes "clientToken") [] [] ([34] ++ bytes "dev-7" ++ [34]) [] [MkTok JSMN_STRING 28 33 0] _ _ _ _ _ _); try by constructor.
    + by repeat constructor.
    + refine (value_string 27 (bytes "dev-7") _). by repeat constructor.
Qed.
End Demo.

(** The response to the request of the demonstration: version 9 is noted, its callback is
    called, both topics are unsubscribed, and the entry is freed. *)
Lemma response_handled_witness :
  let topic := topicNameFromThingAndAction (bytes "lamp") SHADOW_GET SHADOW_ACCEPTED in
  exists j,
    AckStatusCallback (topic ++ [0]) (Demo.response ++ [1; 2]) 35 Demo.demo_state =
      (_ ← call_back 1 SHADOW_ACK_ACCEPTED; _ ← unsubscribeFromAcceptedAndRejected 1; upd_ack 1 (ack_free true))
        (after_parse Demo.response j 9 Demo.demo_state).
Proof.
  intros topic.
  destruct (response_handled (topic ++ [0]) topic (bytes "lamp") Demo.response (MkTok JSMN_OBJECT 0 35 2) Demo.response_tokens [1; 2]
    (Some 9) (Demo.padded MAX_SIZE_CLIENT_TOKEN_CLIENT_SEQUENCE (bytes "dev-7")) (bytes "dev-7") Demo.demo_state) as [j Hrun];
    [exact Demo.demo_ok|exact Demo.response_value|repeat constructor; discriminate|vm_compute; lia|vm_compute; lia|vm_compute; reflexivity..|].
  exists j. cbv zeta in Hrun.
  assert (first_index (waits_for (bytes "dev-7")) (AckWaitList (sh Demo.demo_state)) = Some 1%nat) as Hi by (vm_compute; reflexivity).
  assert (ack_status topic = Some SHADOW_ACK_ACCEPTED) as Hst by (vm_compute; reflexivity).
  assert (newer (shadowJsonVersionNum (sh Demo.demo_state)) (if topic_of_mine (bytes "lamp") topic then Some 9 else None) = 9) as Hver
    by (vm_compute; reflexivity).
  rw Hi Hst Hver in Hrun. exact Hrun.
Defined.

(** The response as a change: its version is above the last one, 3. *)
Lemma delta_handled_witness :
  exists j, shadow_delta_callback (fun _ => None) (fun _ => None) Demo.response 35 Demo.demo_state =
    delta_loop (fun _ => None) (fun _ => None) delta_fuel 0 5 (after_parse Demo.response j 9 Demo.demo_state).
Proof.
  destruct (delta_handled (fun _ => None) (fun _ => None) Demo.response (MkTok JSMN_OBJECT 0 35 2) Demo.response_tokens [] (Some 9) Demo.demo_state)
    as [j Hrun]; [exact Demo.demo_ok|exact Demo.response_value|repeat constructor; discriminate|vm_compute; lia|vm_compute; lia|vm_compute; reflexivity..|].
  exists j. exact (Hrun 3 eq_refl).
Defined.

Lemma delta_loop_terminates_witness :
  delta_loop (fun _ => None) (fun _ => None) delta_fuel 0 5 Demo.demo_state <> Exn OutOfFuel.
Proof.
  apply (delta_loop_terminates (C := Demo.demo) (fun _ => None) (fun _ => None) 5 Demo.demo_state Demo.demo_ok).
  intros f v len i s Hs. discriminate Hs.
Defined.

(** The request of the demonstration ended at 100 seconds. *)
Lemma expired_requests_released_witness :
  exists s', HandleExpiredResponseCallbacks Demo.demo_state = Ret (tt, s') /\
    Forall2 (after_pass (fun t => t = MkTimer (Timeval 100 0))) (AckWaitList (sh Demo.demo_state)) (AckWaitList (sh s')).
Proof.
  eexists. split; [vm_compute; reflexivity|].
  apply (expired_requests_released (C := Demo.demo) (fun t => t = MkTimer (Timeval 100 0)) Demo.demo_state); [exact Demo.demo_ok| | |vm_compute; reflexivity].
  - intros l f thing a st doc ctx. apply wait_list_mq.
  - intros c now c' t Hc ->. injection Hc as <- <-. rw has_timer_expired_spec; [|split; cbn; lia..].
    apply bool_decide_eq_true. rw /usecs /Demo.time. cbn. lia.
Defined.

(** Five microseconds of settling. *)
Lemma settling_ends_witness :
  exists c', wait_expired 6 (MkTimer (Timeval 200 5)) Demo.demo_state = Ret (tt, Ssys (sh Demo.demo_state) c') /\
    200000005 < Demo.time c' * 1000000.
Proof.
  apply (settling_ends (fun d => Demo.time d * 1000000) 6 (MkTimer (Timeval 200 5)) Demo.demo_state).
  - intros c. eexists _, _. split; [reflexivity|]. rw /tv_valid /usecs /Demo.time. cbn. lia.
  - rw /tv_valid. cbn. lia.
  - vm_compute. reflexivity.
Defined.
