(* ===== verification/Shadow.v ===== *)
(** * Thing shadow

    [src/aws_iot_shadow_actions.c] and [src/aws_iot_shadow.c]: the operations of the
    thing shadow on top of its records. *)
From Stdlib Require Import Ascii String.
From S2P Require Import Prelude Text Types Timer Client Json Jsmn ShadowJson ShadowParse ShadowRecords.

Record ShadowInitParameters_t := MkShadowInit {
  sip_pHost : ptr; sip_port : Z; sip_pRootCA : ptr; sip_pClientCRT : ptr; sip_pClientKey : ptr;
  sip_enableAutoReconnect : bool; sip_disconnectHandler : option Z }.

Record ShadowConnectParameters_t := MkShadowConnect {
  scp_pMyThingName : list Z; scp_pMqttClientId : option (list Z); scp_mqttClientIdLen : Z;
  scp_deleteActionHandler : option Z }.

(** The parameters passed to the client; those the shadow does not set are none. *)
Record shadow_init_request := MkInitRequest {
  ir_enableAutoReconnect : bool; ir_pHostURL : ptr; ir_port : Z; ir_pRootCALocation : ptr;
  ir_pDeviceCertLocation : ptr; ir_pDevicePrivateKeyLocation : ptr;
  ir_mqttPacketTimeout_ms : option Z; ir_mqttCommandTimeout_ms : Z; ir_tlsHandshakeTimeout_ms : Z;
  ir_isSSLHostnameVerify : bool; ir_disconnectHandler : option Z; ir_disconnectHandlerData : option ptr }.
Record shadow_connect_request := MkConnectRequest {
  cr_keepAliveIntervalInSec : Z; cr_isCleanSession : bool; cr_isWillMsgPresent : bool;
  cr_clientID : list Z; cr_clientIDLen : Z }.

(** The operations of the client that manage the connection. Connecting and yielding run
    the handlers of incoming messages, which work on the shadow. *)
Class MqttConnection (C : Type) := {
  mqtt_init : client_ptr -> shadow_init_request -> M C IoT_Error_t;
  mqtt_connect : client_ptr -> shadow_connect_request -> M (ssys C) IoT_Error_t;
  mqtt_disconnect : client_ptr -> M C IoT_Error_t;
  mqtt_yield : client_ptr -> Z -> M (ssys C) IoT_Error_t;
  mqtt_is_connected : client_ptr -> M C bool;
  mqtt_autoreconnect : client_ptr -> bool -> M C IoT_Error_t }.

Section shadow.
Context {C : Type} `{!Mqtt C} `{!ShadowApp C} `{!MqttConnection C}.

(** ** Actions *)

Definition aws_iot_shadow_internal_action (fuel : nat) (pThingName : option (list Z)) (action : ShadowActions_t)
    (pDoc : option (list Z)) (callback : option Z) (pCallbackContext : ptr) (timeout_seconds : Z) (isSticky : bool) :
    M (ssys C) IoT_Error_t :=
  match pThingName, pDoc with
  | Some name, Some doc =>
      token ← on_json (extractClientToken doc (replicate MAX_SIZE_CLIENT_ID_WITH_SEQUENCE 0));
      let wanted := match token, callback with Some t, Some f => Some (t, f) | _, _ => None end in
      '(rc, slot) ← (match wanted with
        | None => mret (SUCCESS, None)
        | Some _ =>
            i ← getNextFreeIndexOfAckWaitList;
            match i with
            | None => mret (FAILURE, None)
            | Some i =>
                thing ← lift_text name;
                present ← isSubscriptionPresent thing action;
                if present : bool then _ ← incrementSubscriptionCnt thing action isSticky; mret (SUCCESS, Some i)
                else rc ← subscribeToShadowActionAcks fuel thing action isSticky; mret (rc, Some i)
            end
        end);
      rc ← (if decide (rc = SUCCESS) then publishToShadowAction (Some name) action (Some doc) else mret rc);
      match wanted, slot with
      | Some (t, f), Some i =>
          if decide (rc = SUCCESS) then
            _ ← addToAckWaitList i name action t (Some f) pCallbackContext timeout_seconds; mret rc
          else mret rc
      | _, _ => mret rc
      end
  | _, _ => mret NULL_VALUE_ERROR
  end.

(** ** The interface *)

Definition aws_iot_shadow_reset_last_received_version : M (ssys C) unit := mod_sh (fun s => set_version s 0).
Definition aws_iot_shadow_get_last_received_version : M (ssys C) Z := s ← get_sh; mret (shadowJsonVersionNum s).
Definition aws_iot_shadow_enable_discard_old_delta_msgs : M (ssys C) unit := mod_sh (fun s => set_discard s true).
Definition aws_iot_shadow_disable_discard_old_delta_msgs : M (ssys C) unit := mod_sh (fun s => set_discard s false).

(** The functions that write documents, on the array [doc] of the caller; the result is
    its contents afterwards. *)
Definition on_sjson {A} (doc : list Z) (m : M sjson A) : M (ssys C) (A * option (list Z)) := fun s =>
  match m (MkSjson (Some doc) (mqttClientID (sh s)) (clientTokenNum (sh s))) with
  | Ret (a, j) => Ret ((a, sj_doc j), Ssys (set_tokenNum (sh s) (sj_tokenNum j)) (mq s))
  | Exn e => Exn e
  end.

Definition aws_iot_shadow_init (pClient : client_ptr) (pParams : option ShadowInitParameters_t) : M (ssys C) IoT_Error_t :=
  match pClient, pParams with
  | TheClient, Some p =>
      rc ← on_mq (mqtt_init pClient (MkInitRequest (sip_enableAutoReconnect p) (sip_pHost p) (sip_port p) (sip_pRootCA p)
             (sip_pClientCRT p) (sip_pClientKey p) None 20000 5000 true (sip_disconnectHandler p) None));
      if decide (rc <> SUCCESS) then mret rc
      else
        _ ← mod_sh (fun s => set_tokenNum s 0);
        _ ← aws_iot_shadow_reset_last_received_version;
        _ ← initDeltaTokens;
        mret SUCCESS
  | _, _ => mret NULL_VALUE_ERROR
  end.

Definition aws_iot_shadow_connect (pClient : client_ptr) (pParams : option ShadowConnectParameters_t) : M (ssys C) IoT_Error_t :=
  match pClient, pParams with
  | TheClient, Some p =>
      match scp_pMqttClientId p with
      | None => mret NULL_VALUE_ERROR
      | Some id =>
          thing ← lift_text (scp_pMyThingName p);
          cid ← lift_text id;
          _ ← mod_sh (fun s => set_names s (print_array MAX_SIZE_OF_THING_NAME thing (myThingName s))
                                 (print_array MAX_SIZE_OF_UNIQUE_CLIENT_ID_BYTES cid (mqttClientID s)));
          rc ← mqtt_connect pClient (MkConnectRequest 10 true false id (scp_mqttClientIdLen p));
          _ ← (if decide (rc = SUCCESS) then initializeRecords pClient else mret tt);
          match scp_deleteActionHandler p with
          | None => mret rc
          | Some f =>
              s ← get_sh;
              me ← lift_text (myThingName s);
              mqtt_subscribe pClient StackTopic
                (printed MAX_SHADOW_TOPIC_LENGTH_BYTES (topic_text me SHADOW_DELETE SHADOW_ACCEPTED)) QOS1 (DeleteHandler f)
          end
      end
  | _, _ => mret NULL_VALUE_ERROR
  end.

Definition aws_iot_shadow_register_delta (pClient : client_ptr) (pStruct : option nat) : M (ssys C) IoT_Error_t :=
  match pClient, pStruct with
  | TheClient, Some st =>
      c ← on_mq (mqtt_is_connected pClient);
      if c : bool then registerJsonTokenOnDelta st else mret MQTT_CONNECTION_ERROR
  | _, _ => mret NULL_VALUE_ERROR
  end.

Definition aws_iot_shadow_yield (pClient : client_ptr) (timeout : Z) : M (ssys C) IoT_Error_t :=
  match pClient with
  | NullClient => mret NULL_VALUE_ERROR
  | TheClient => _ ← HandleExpiredResponseCallbacks; mqtt_yield pClient timeout
  end.

Definition aws_iot_shadow_disconnect (pClient : client_ptr) : M (ssys C) IoT_Error_t := on_mq (mqtt_disconnect pClient).

(** The guards of the three actions. *)
Definition when_connected (pClient : client_ptr) (m : M (ssys C) IoT_Error_t) : M (ssys C) IoT_Error_t :=
  match pClient with
  | NullClient => mret NULL_VALUE_ERROR
  | TheClient => c ← on_mq (mqtt_is_connected pClient); if c : bool then m else mret MQTT_CONNECTION_ERROR
  end.

Definition aws_iot_shadow_update (fuel : nat) (pClient : client_ptr) (pThingName : option (list Z)) (pJsonString : option (list Z))
    (callback : option Z) (pContextData : ptr) (timeout_seconds : Z) (isPersistentSubscribe : bool) : M (ssys C) IoT_Error_t :=
  when_connected pClient
    (aws_iot_shadow_internal_action fuel pThingName SHADOW_UPDATE pJsonString callback pContextData timeout_seconds isPersistentSubscribe).

Definition aws_iot_shadow_delete (fuel : nat) (pClient : client_ptr) (pThingName : option (list Z))
    (callback : option Z) (pContextData : ptr) (timeout_seconds : Z) (isPersistentSubscribe : bool) : M (ssys C) IoT_Error_t :=
  when_connected pClient (
    '(_, doc) ← on_sjson (replicate MAX_SIZE_CLIENT_TOKEN_CLIENT_SEQUENCE 0) aws_iot_shadow_internal_delete_request_json;
    aws_iot_shadow_internal_action fuel pThingName SHADOW_DELETE doc callback pContextData timeout_seconds isPersistentSubscribe).

Definition aws_iot_shadow_get (fuel : nat) (pClient : client_ptr) (pThingName : option (list Z))
    (callback : option Z) (pContextData : ptr) (timeout_seconds : Z) (isPersistentSubscribe : bool) : M (ssys C) IoT_Error_t :=
  when_connected pClient (
    '(_, doc) ← on_sjson (replicate MAX_SIZE_CLIENT_TOKEN_CLIENT_SEQUENCE 0) aws_iot_shadow_internal_get_request_json;
    aws_iot_shadow_internal_action fuel pThingName SHADOW_GET doc callback pContextData timeout_seconds isPersistentSubscribe).

Definition aws_iot_shadow_set_autoreconnect_status (pClient : client_ptr) (newStatus : bool) : M (ssys C) IoT_Error_t :=
  on_mq (mqtt_autoreconnect pClient newStatus).
End shadow.

(** ** The invariant *)

(** The state of the program at its start: static variables are zero. *)
Definition static_ack : ToBeReceivedAckRecord_t :=
  MkAck (replicate MAX_SIZE_CLIENT_ID_WITH_SEQUENCE 0) (replicate MAX_SIZE_OF_THING_NAME 0) SHADOW_GET None NULL false init_timer.
Definition static_sub : SubscriptionRecord_t := MkSub (replicate MAX_SHADOW_TOPIC_LENGTH_BYTES 0) 0 false false.
Definition static_shadow (l : list app_struct) : shadow :=
  MkShadow (replicate MAX_ACKS_TO_COMEIN_AT_ANY_GIVEN_TIME static_ack) (replicate MAX_TOPICS_AT_ANY_GIVEN_TIME static_sub)
    (replicate 120 (MkEntry None 0 None false)) 0 false 0 true
    (replicate MAX_SIZE_OF_THING_NAME 0) (replicate MAX_SIZE_OF_UNIQUE_CLIENT_ID_BYTES 0) 0
    (replicate MAX_SHADOW_TOPIC_LENGTH_BYTES 0) (replicate 513 0)
    (MkJstate (MkParser 0 0 0) (Some (replicate 120 (MkTok JSMN_UNDEFINED 0 0 0)))) NullClient l.

Lemma static_ok {C} l (c : C) : ssys_ok (Ssys (static_shadow l) c).
Proof.
  split; cbn [sh static_shadow AckWaitList SubscriptionList tokenTable tokenTableIndex shadowJsonVersionNum myThingName
    mqttClientID clientTokenNum shadowDeltaTopic shadowRxBuf json structs]; try done.
  - split; [done|]. apply Forall_replicate. by split; [apply zeros_ok; vm_compute; lia|].
  - split; [done|]. apply Forall_replicate. by split; [apply zeros_ok; vm_compute; lia|].
  - split; apply zeros_ok; vm_compute; lia.
  - apply zeros_ok. vm_compute; lia.
  - by eexists.
Qed.

(** The counter of a document stays in its range. *)
Definition tokenNum_ok (s : sjson) : Prop := is_u32 (sj_tokenNum s).
Lemma keeps_get_doc : keeps tokenNum_ok get_doc.
Proof. intros s Hs. apply wp_bind, wp_gets. by destruct (sj_doc s). Qed.
Lemma keeps_store_doc off out : keeps tokenNum_ok (store_doc off out).
Proof. rw /store_doc. apply keeps_bind; [apply keeps_get_doc|]. intros d. cbv zeta. case_decide; [by apply keeps_modify|done]. Qed.
Lemma keeps_doc_strlen : keeps tokenNum_ok doc_strlen.
Proof. apply keeps_bind; [apply keeps_get_doc|]. intros d. apply keeps_bind; [apply keeps_lift_option|]. intros t. apply keeps_ret. Qed.
Lemma keeps_next_token : keeps tokenNum_ok next_token.
Proof.
  intros s Hs. apply wp_bind, wp_get, wp_bind. rw /wp /lift_cstring. destruct (cstring (sj_clientID s)); [|done].
  apply u32_range.
Qed.
Lemma keeps_request_json : keeps tokenNum_ok emptyJsonWithClientToken.
Proof.
  rw /emptyJsonWithClientToken /FillWithClientToken. repeat first [apply keeps_store_doc | apply keeps_doc_strlen | apply keeps_next_token | apply keeps_bind; [|intros ?]].
Qed.

(** The handlers of the messages that arrive keep the invariant. *)
Class ConnectionOk (C : Type) `{!MqttConnection C} := {
  mqtt_connect_ok p r : keeps (@ssys_ok C) (mqtt_connect p r);
  mqtt_yield_ok p t : keeps (@ssys_ok C) (mqtt_yield p t) }.

Section invariant.
Context {C : Type} `{!Mqtt C} `{!ShadowApp C} `{!MqttConnection C} `{!MqttOk C} `{!ShadowAppOk C} `{!ConnectionOk C}.
Hint Resolve mqtt_subscribe_ok mqtt_connect_ok mqtt_yield_ok : iot.
#[local] Abbreviation I := (@ssys_ok C) (only parsing).

Lemma keeps_on_sjson {A} doc (m : M sjson A) : keeps tokenNum_ok m -> keeps I (on_sjson doc m).
Proof.
  intros Hm s Hs. specialize (Hm (MkSjson (Some doc) (mqttClientID (sh s)) (clientTokenNum (sh s))) (ok_tokenNum _ Hs)).
  rw /wp in Hm. rw /wp /on_sjson. destruct (m _) as [[a j]|]; [|done]. destruct Hs. by split.
Qed.

(** The token of a request is a C string in an array of 90 bytes. *)
Lemma copy_token_text dst src n r : copy_token dst src n = Ret r -> text_array (length dst) r.
Proof.
  rw /copy_token. destruct (strncpy dst src n) as [d|] eqn:Hd; [|done]. cbn [mbind outcome_bind].
  case_decide as Hlt; [|done]. intros [= <-]. apply strncpy_length in Hd. split; [by rw length_insert|].
  apply (list_elem_of_lookup_2 _ n). by apply list_lookup_insert_eq.
Qed.
Lemma extractClientToken_text doc dst : returns (fun t => match t with Some t => text_array (length dst) t | None => True end) (extractClientToken doc dst).
Proof.
  rw /extractClientToken. apply returns_any. intros n. destruct (n <? 0); [done|]. destruct (n <? 1); [done|].
  apply returns_any. intros t. case_decide; [done|]. apply (returns_key_loop (text_array (length dst))). intros i.
  apply returns_any. intros u. apply returns_any. intros src. cbv zeta.
  eapply (returns_bind (text_array (length dst))); [|by intros r Hr s]. apply returns_outcome. intros r. apply copy_token_text.
Qed.

Lemma keeps_internal_action fuel n a d cb x z b : keeps I (aws_iot_shadow_internal_action fuel n a d cb x z b).
Proof.
  rw /aws_iot_shadow_internal_action. destruct n as [n|], d as [d|]; try apply keeps_ret.
  apply (keeps_bind_post I (fun t => match t with Some t => text_array MAX_SIZE_CLIENT_ID_WITH_SEQUENCE t | None => True end)).
  { intros s Hs. apply wp_conj; [by apply keeps_on_json; [apply keeps_extractClientToken|]|].
    pose proof (extractClientToken_text d (replicate MAX_SIZE_CLIENT_ID_WITH_SEQUENCE 0) (json (sh s))) as Hr. rw /wp /on_json. rw /wp in Hr.
    by destruct (extractClientToken d _ (json (sh s))) as [[]|]. }
  intros [t|] Ht; destruct cb as [f|]; cbv zeta beta iota; keeps_auto. by apply keeps_addToAckWaitList.
Qed.
Hint Resolve keeps_internal_action : iot.

Lemma keeps_set_tokenNum z : is_u32 z -> keeps I (mod_sh (fun s => set_tokenNum s z)).
Proof. intros Hz. apply keeps_mod_sh. intros s []. by split. Qed.
Lemma keeps_reset : keeps I aws_iot_shadow_reset_last_received_version.
Proof. by apply keeps_set_version. Qed.
Lemma keeps_set_discard b : keeps I (mod_sh (fun s => set_discard s b)).
Proof. apply keeps_mod_sh. intros s []. by split. Qed.
Lemma keeps_init p x : keeps I (aws_iot_shadow_init p x).
Proof.
  rw /aws_iot_shadow_init. keeps_auto; first [by apply keeps_set_tokenNum | apply keeps_reset].
Qed.
Lemma keeps_set_thing thing cid : keeps I (mod_sh (fun s => set_names s (print_array MAX_SIZE_OF_THING_NAME thing (myThingName s))
  (print_array MAX_SIZE_OF_UNIQUE_CLIENT_ID_BYTES cid (mqttClientID s)))).
Proof.
  apply keeps_mod_sh. intros s []. split; try done. destruct ok_names as [[H1 _] [H2 _]].
  split; apply print_array_ok; [done|vm_compute; lia|done|vm_compute; lia].
Qed.
Lemma keeps_connect p x : keeps I (aws_iot_shadow_connect p x).
Proof.
  rw /aws_iot_shadow_connect. keeps_auto; first [apply keeps_set_thing | apply keeps_lift_option].
Qed.
Lemma keeps_register p i : keeps I (aws_iot_shadow_register_delta p i).
Proof. rw /aws_iot_shadow_register_delta. keeps_auto. Qed.
Lemma keeps_when_connected p m : keeps I m -> keeps I (when_connected p m).
Proof. intros Hm. rw /when_connected. keeps_auto. Qed.
Lemma keeps_request m fuel n a cb x z b : keeps tokenNum_ok m -> keeps I (
  '(_, doc) ← on_sjson (A := unit) (replicate MAX_SIZE_CLIENT_TOKEN_CLIENT_SEQUENCE 0) m;
  aws_iot_shadow_internal_action fuel n a doc cb x z b).
Proof. intros Hm. apply keeps_bind; [by apply keeps_on_sjson|]. intros [_ d]. apply keeps_internal_action. Qed.
End invariant.

(** *** Histories *)

(** The calls of the application, and the messages the client delivers. *)
Inductive shadow_call :=
  | CallInit (p : client_ptr) (params : option ShadowInitParameters_t)
  | CallConnect (p : client_ptr) (params : option ShadowConnectParameters_t)
  | CallRegisterDelta (p : client_ptr) (pStruct : option nat)
  | CallYield (p : client_ptr) (timeout : Z)
  | CallDisconnect (p : client_ptr)
  | CallUpdate (p : client_ptr) (thing doc : option (list Z)) (cb : option Z) (ctx : ptr) (timeout : Z) (sticky : bool)
  | CallDelete (p : client_ptr) (thing : option (list Z)) (cb : option Z) (ctx : ptr) (timeout : Z) (sticky : bool)
  | CallGet (p : client_ptr) (thing : option (list Z)) (cb : option Z) (ctx : ptr) (timeout : Z) (sticky : bool)
  | CallAutoreconnect (p : client_ptr) (b : bool)
  | CallResetVersion
  | CallDiscard (b : bool)
  | ResponseArrives (topicName payload : list Z) (payloadLen : Z)
  | DeltaArrives (payload : list Z) (payloadLen : Z).

Section histories.
Context {C : Type} `{!Mqtt C} `{!ShadowApp C} `{!MqttConnection C}.
Context (scan_float scan_double : list Z -> option (list Z)) (fuel : nat).

Definition ignore {A} (m : M (ssys C) A) : M (ssys C) unit := _ ← m; mret tt.
Definition run_call (c : shadow_call) : M (ssys C) unit :=
  match c with
  | CallInit p x => ignore (aws_iot_shadow_init p x)
  | CallConnect p x => ignore (aws_iot_shadow_connect p x)
  | CallRegisterDelta p i => ignore (aws_iot_shadow_register_delta p i)
  | CallYield p t => ignore (aws_iot_shadow_yield p t)
  | CallDisconnect p => ignore (aws_iot_shadow_disconnect p)
  | CallUpdate p n d cb x t b => ignore (aws_iot_shadow_update fuel p n d cb x t b)
  | CallDelete p n cb x t b => ignore (aws_iot_shadow_delete fuel p n cb x t b)
  | CallGet p n cb x t b => ignore (aws_iot_shadow_get fuel p n cb x t b)
  | CallAutoreconnect p b => ignore (aws_iot_shadow_set_autoreconnect_status p b)
  | CallResetVersion => aws_iot_shadow_reset_last_received_version
  | CallDiscard true => aws_iot_shadow_enable_discard_old_delta_msgs
  | CallDiscard false => aws_iot_shadow_disable_discard_old_delta_msgs
  | ResponseArrives t p n => AckStatusCallback t p n
  | DeltaArrives p n => shadow_delta_callback scan_float scan_double p n
  end.
Fixpoint run_calls (l : list shadow_call) : M (ssys C) unit :=
  match l with [] => mret tt | c :: l' => _ ← run_call c; run_calls l' end.

Context `{!MqttOk C} `{!ShadowAppOk C} `{!ConnectionOk C}.
Hint Resolve mqtt_yield_ok : iot.

Lemma keeps_ignore {A} (m : M (ssys C) A) : keeps ssys_ok m -> keeps ssys_ok (ignore m).
Proof. intros Hm. apply keeps_bind; [done|]. intros a. apply keeps_ret. Qed.

Lemma keeps_run_call c : keeps ssys_ok (run_call c).
Proof.
  destruct c; cbn [run_call]; try apply keeps_ignore.
  - apply keeps_init.
  - apply keeps_connect.
  - apply keeps_register.
  - rw /aws_iot_shadow_yield. keeps_auto.
  - apply keeps_on_mq.
  - apply keeps_when_connected, keeps_internal_action.
  - apply keeps_when_connected, keeps_request, keeps_request_json.
  - apply keeps_when_connected, keeps_request, keeps_request_json.
  - apply keeps_on_mq.
  - apply keeps_reset.
  - destruct b; apply keeps_set_discard.
  - apply keeps_AckStatusCallback.
  - apply keeps_shadow_delta_callback.
Qed.

Lemma keeps_run_calls l : keeps ssys_ok (run_calls l).
Proof.
  induction l as [|x l IH]; cbn [run_calls]; [apply keeps_ret|].
  apply keeps_bind; [apply keeps_run_call|]. by intros _.
Qed.

(** C25: the shadow is well formed at all times. From the zeroed static variables of the
    program, after any sequence of calls of the application and of messages of any
    content, in any order, all arrays have their sizes, the counters are in the range of
    their types, the client tokens and topics of the records are C strings, the registered
    keys refer to structures of the application, and the table of tokens has its size. *)
Theorem shadow_ok_reachable calls l (c : C) s' :
  run_calls calls (Ssys (static_shadow l) c) = Ret (tt, s') -> shadow_ok (sh s').
Proof.
  intros Hrun. exact (wp_run _ _ _ _ _ _ Hrun (keeps_run_calls calls _ (static_ok l c))).
Qed.
End histories.

(** ** Requests *)

Section requests.
Context {C : Type} `{!Mqtt C} `{!ShadowApp C} `{!MqttConnection C} `{!MqttQuiet C}.

(** The array of a token. *)
Definition token_array (t : list Z) : list Z := t ++ 0 :: drop (length t + 1) (replicate MAX_SIZE_CLIENT_ID_WITH_SEQUENCE 0).

(** What a get request does before it looks for an entry: it writes its document, which
    takes the next number, and finds its token in it. *)
Lemma request_start id k (s : ssys C) : ssys_ok s -> cstring (mqttClientID (sh s)) = Some id -> clientTokenNum (sh s) = k -> plain id ->
  (length (token id k) < MAX_SIZE_CLIENT_ID_WITH_SEQUENCE)%nat ->
  exists doc j,
    on_sjson (replicate MAX_SIZE_CLIENT_TOKEN_CLIENT_SEQUENCE 0) emptyJsonWithClientToken s =
      Ret ((tt, Some doc), Ssys (set_tokenNum (sh s) (u32 (k + 1))) (mq s)) /\
    cstring doc = Some (request_document id k) /\
    extractClientToken doc (replicate MAX_SIZE_CLIENT_ID_WITH_SEQUENCE 0) (json (sh s)) = Ret (Some (token_array (token id k)), j).
Proof.
  intros Hs Hid Hk Hplain Hlen. destruct (ok_json _ Hs) as (ts & Hts & Hts2).
  assert (length (request_document id k) = 18 + length (token id k))%nat as Hdoc.
  { rw /request_document (length_app request_head) (length_app (token id k)). cbn [length]. change (length request_head) with 16%nat. lia. }
  destruct (request_roundtrip_run MAX_SIZE_CLIENT_TOKEN_CLIENT_SEQUENCE (replicate MAX_SIZE_CLIENT_TOKEN_CLIENT_SEQUENCE 0) id k
    (MkSjson (Some (replicate MAX_SIZE_CLIENT_TOKEN_CLIENT_SEQUENCE 0)) (mqttClientID (sh s)) (clientTokenNum (sh s)))
    (json (sh s)) ts (replicate MAX_SIZE_CLIENT_ID_WITH_SEQUENCE 0)) as (s' & doc & ps' & Hrun & Hd & Hnum & Htext & Hex);
    rw ?/MAX_SIZE_CLIENT_ID_WITH_SEQUENCE ?/MAX_SIZE_CLIENT_TOKEN_CLIENT_SEQUENCE in Hlen |- *; try done; try lia.
  exists doc, ps'. split; [|done]. by rw /on_sjson Hrun Hd Hnum.
Qed.

Lemma token_array_ok t : nonzero t -> (length t < MAX_SIZE_CLIENT_ID_WITH_SEQUENCE)%nat ->
  text_array MAX_SIZE_CLIENT_ID_WITH_SEQUENCE (token_array t) /\ cstring (token_array t) = Some t.
Proof.
  intros Hnz Hlen. split; [|by apply cstring_text]. split.
  - rw /token_array length_app. cbn [length]. rw length_drop length_replicate. lia.
  - apply elem_of_app. right. by left.
Qed.

Lemma first_index_lookup {A} (P : A -> bool) l i : first_index P l = Some i -> exists a, l !! i = Some a /\ P a = true.
Proof.
  revert i. induction l as [|x l IH]; intros i; cbn [first_index]; [done|]. destruct (P x) eqn:Hx; [intros [= <-]; by exists x|].
  destruct (first_index P l) as [k|]; [|done]. intros [= <-]. by apply IH.
Qed.

(** The entry of a request that was made. *)
Definition registered (i : nat) (l : list ToBeReceivedAckRecord_t) (token : list Z) (action : ShadowActions_t) (f : Z) (ctx : ptr) (z : Z)
    (s : ssys C) : Prop :=
  exists a t, AckWaitList (sh s) = <[i := a]> l /\
    waits_for token a = true /\ ack_action a = action /\ ack_callback a = Some f /\ ack_pCallbackContext a = ctx /\
    ack_timer a = countdown_sec t z.

Lemma action_success fuel name thing action doc f ctx z sticky arr token i (s : ssys C) j : ssys_ok s ->
  cstring name = Some thing ->
  extractClientToken doc (replicate MAX_SIZE_CLIENT_ID_WITH_SEQUENCE 0) (json (sh s)) = Ret (Some arr, j) ->
  text_array MAX_SIZE_CLIENT_ID_WITH_SEQUENCE arr -> cstring arr = Some token ->
  first_index ack_isFree (AckWaitList (sh s)) = Some i ->
  wp any_exn (aws_iot_shadow_internal_action fuel (Some name) action (Some doc) (Some f) ctx z sticky)
    (fun rc s' => rc = SUCCESS -> registered i (AckWaitList (sh s)) token action f ctx z s') s.
Proof.
  intros Hs Hname Hex Harr Htoken Hi. set (l := AckWaitList (sh s)) in *.
  destruct (first_index_lookup ack_isFree l i Hi) as (a & Ha & _).
  assert (Hok : ack_ok a) by (eapply Forall_lookup_1; [exact (proj2 (ok_acks _ Hs))|exact Ha]).
  apply wp_bind. eapply wp_known; [exact (on_json_run _ s _ _ Hex)|]. cbv zeta beta iota.
  assert (Hs0 : wait_list l (Ssys (set_json (sh s) j) (mq s))) by done. revert Hs0.
  generalize (Ssys (set_json (sh s) j) (mq s)). intros s0 Hs0. apply wp_bind.
  apply (wp_mono _ _ (fun p s1 => wait_list l s1 /\ p.2 = Some i)).
  - apply wp_bind. eapply (wp_known _ _ _ _ (Some i) s0); [by rw /getNextFreeIndexOfAckWaitList /mbind /M_bind /get_sh /gets Hs0 Hi|].
    apply wp_bind. rw /lift_text Hname. apply wp_ret, wp_bind. eapply wp_mono; [by apply (wait_list_present l)|].
    intros [] s1 Hs1; apply wp_bind.
    + eapply wp_mono; [by apply (wait_list_increment l)|]. intros [] s2 Hs2. by split.
    + eapply wp_mono; [by apply (wait_list_subscribe l)|]. intros rc s2 Hs2. by split.
  - intros [rc slot] s1 [Hs1 Hslot]. cbn [snd] in Hslot. subst slot. cbv beta iota. apply wp_bind.
    apply (wp_mono _ _ (fun _ s2 => wait_list l s2)); [case_decide; [by apply wait_list_publish|done]|].
    intros rc' s2 Hs2. case_decide as Hrc; [|by apply wp_ret]. apply wp_bind.
    destruct (addToAckWaitList i name action arr (Some f) ctx z s2) as [[[] s3]|] eqn:Hadd; [|by rw /wp Hadd].
    eapply wp_known; [exact Hadd|]. apply wp_ret. intros _.
    destruct (add_request_run i a name thing action arr token f ctx z s2 s3) as (a' & t & Hl & Hrest); [by rw Hs2|apply Hok|done..|].
    exists a', t. by rw Hl Hs2.
Qed.

(** A get request is registered. When the call returns success with a callback, the
    first free entry of the wait list waits for the token of the request, the client
    identifier with the number of the request, and holds the callback, the context, the
    action and the timeout of the call; the other entries are as before. So the response
    with that token completes it. The client's operations leave the shadow alone during
    the call: no message of the shadow arrives meanwhile. *)
Theorem get_registers fuel name thing f ctx z sticky id k i (s s' : ssys C) : ssys_ok s ->
  cstring (mqttClientID (sh s)) = Some id -> clientTokenNum (sh s) = k -> plain id ->
  (length (token id k) < MAX_SIZE_CLIENT_ID_WITH_SEQUENCE)%nat -> cstring name = Some thing ->
  first_index ack_isFree (AckWaitList (sh s)) = Some i ->
  aws_iot_shadow_get fuel TheClient (Some name) (Some f) ctx z sticky s = Ret (SUCCESS, s') ->
  registered i (AckWaitList (sh s)) (token id k) SHADOW_GET f ctx z s'.
Proof.
  intros Hs Hid Hk Hplain Hlen Hname Hi Hrun. revert Hrun. rw /aws_iot_shadow_get /when_connected /mbind /M_bind {1}/on_mq.
  destruct (mqtt_is_connected TheClient (mq s)) as [[[] c]|]; [|done|done].
  destruct (request_start id k (Ssys (sh s) c)) as (doc & j & Hdoc & _ & Hex); [done..|].
  rw Hdoc. intros Hrun.
  destruct (token_array_ok (token id k)) as [Harr Htext]; [by apply plain_nonzero, plain_token|done|].
  refine (wp_run _ _ _ _ _ _ Hrun (action_success fuel name thing SHADOW_GET doc f ctx z sticky (token_array (token id k)) (token id k) i _ j _ _ _ _ _ _) eq_refl);
    try done. destruct Hs. split; try done. apply u32_range.
Qed.

(** A full wait list. When no entry is free, a get request with a callback is
    refused: the result is [FAILURE], no message is published and no subscription made;
    only the number of the next request and the parsed tokens change. *)
Theorem get_refused_when_full fuel name f ctx z sticky id k c (s : ssys C) : ssys_ok s ->
  cstring (mqttClientID (sh s)) = Some id -> clientTokenNum (sh s) = k -> plain id ->
  (length (token id k) < MAX_SIZE_CLIENT_ID_WITH_SEQUENCE)%nat ->
  mqtt_is_connected TheClient (mq s) = Ret (true, c) ->
  Forall (fun a => ack_isFree a = false) (AckWaitList (sh s)) ->
  exists j, aws_iot_shadow_get fuel TheClient (Some name) (Some f) ctx z sticky s =
    Ret (FAILURE, Ssys (set_json (set_tokenNum (sh s) (u32 (k + 1))) j) c).
Proof.
  intros Hs Hid Hk Hplain Hlen Hc Hfull.
  assert (Hnone : first_index ack_isFree (AckWaitList (sh s)) = None).
  { induction Hfull as [|a l Ha _ IH]; [done|]. cbn [first_index]. by rw Ha IH. }
  destruct (request_start id k (Ssys (sh s) c)) as (doc & j & Hdoc & _ & Hex); [done..|]. exists j.
  rw /aws_iot_shadow_get /when_connected /mbind /M_bind {1}/on_mq Hc Hdoc.
  rw /aws_iot_shadow_internal_action /mbind /M_bind.
  rw (on_json_run _ _ (Some (token_array (token id k))) j); [|exact Hex].
  rw /getNextFreeIndexOfAckWaitList /mbind /M_bind /get_sh /gets. cbn [sh set_json set_tokenNum AckWaitList]. by rw Hnone.
Qed.
End requests.

(** ** Runs on the simulated client *)

#[global] Instance demo_connection : MqttConnection Demo.demo := {
  mqtt_init p r := mret SUCCESS;
  mqtt_connect p r := on_mq (mret SUCCESS);
  mqtt_disconnect p := mret SUCCESS;
  mqtt_yield p t := mret SUCCESS;
  mqtt_is_connected p := mret true;
  mqtt_autoreconnect p b := mret SUCCESS }.

#[global] Instance demo_connection_ok : ConnectionOk Demo.demo.
Proof. split; intros; [apply keeps_on_mq|apply keeps_ret]. Qed.

(** The client is set up and connected, requests the shadow of "lamp", and gets the
    response to the request, a change and a payload that is not JSON. *)
Definition demo_calls : list shadow_call :=
  let lamp := bytes "lamp" ++ [0] in let dev := bytes "dev" ++ [0] in
  [CallInit TheClient (Some (MkShadowInit NULL 8883 NULL NULL NULL false None));
   CallConnect TheClient (Some (MkShadowConnect lamp (Some dev) 3 None));
   CallRegisterDelta TheClient (Some 0%nat);
   CallGet TheClient (Some lamp) (Some 5) NULL 10 false;
   ResponseArrives (bytes "$aws/things/lamp/shadow/get/accepted" ++ [0]) (request_document (bytes "dev") 0) 23;
   DeltaArrives Demo.response 35; DeltaArrives [1; 2; 3] 3; CallYield TheClient 100].
Definition demo_structs : list app_struct := [MkAppStruct (MkJson (Some (bytes "level" ++ [0])) (Some (NumberData 4)) SHADOW_JSON_INT32) (Some 6)].

(** The events of this history: the callback of the request gets its response. *)
Example demo_log :
  match run_calls (fun _ => None) (fun _ => None) 5 demo_calls (Ssys (static_shadow demo_structs) (Demo.MkDemo [] 0)) with
  | Ret (_, s) => Demo.log (mq s)
  | Exn _ => []
  end =
  [Demo.Subscribed (bytes "$aws/things/lamp/shadow/update/delta");
   Demo.Subscribed (bytes "$aws/things/lamp/shadow/get/accepted");
   Demo.Subscribed (bytes "$aws/things/lamp/shadow/get/rejected");
   Demo.Published (bytes "$aws/things/lamp/shadow/get") (request_document (bytes "dev") 0);
   Demo.Answered 5 SHADOW_ACK_ACCEPTED;
   Demo.Unsubscribed (bytes "$aws/things/lamp/shadow/get/accepted");
   Demo.Unsubscribed (bytes "$aws/things/lamp/shadow/get/rejected")].
Proof. vm_compute. reflexivity. Qed.

Lemma shadow_ok_reachable_witness :
  exists s', run_calls (fun _ => None) (fun _ => None) 5 demo_calls (Ssys (static_shadow demo_structs) (Demo.MkDemo [] 0)) = Ret (tt, s') /\
    shadow_ok (sh s').
Proof.
  eexists. split; [vm_compute; reflexivity|].
  apply (shadow_ok_reachable (fun _ => None) (fun _ => None) 5 demo_calls demo_structs (Demo.MkDemo [] 0)).
  vm_compute. reflexivity.
Defined.

Lemma get_registers_witness :
  exists s', aws_iot_shadow_get 5 TheClient (Some (bytes "lamp" ++ [0])) (Some 9) NULL 10 false Demo.demo_state = Ret (SUCCESS, s') /\
    registered 0 (AckWaitList (sh Demo.demo_state)) (token (bytes "dev") 8) SHADOW_GET 9 NULL 10 s'.
Proof.
  eexists. split; [vm_compute; reflexivity|].
  apply (get_registers 5 (bytes "lamp" ++ [0]) (bytes "lamp") 9 NULL 10 false (bytes "dev") 8 0 Demo.demo_state); [exact Demo.demo_ok|vm_compute; reflexivity|reflexivity
    |repeat constructor; discriminate|vm_compute; lia|reflexivity|vm_compute; reflexivity|vm_compute; reflexivity].
Defined.

(** The zeroed wait list of the program's start has no free entry. *)
Lemma get_refused_when_full_witness :
  let s := Ssys (set_names (static_shadow []) (replicate 20 0) (Demo.padded 80 (bytes "dev"))) (Demo.MkDemo [] 0) in
  exists j, aws_iot_shadow_get 5 TheClient (Some (bytes "lamp" ++ [0])) (Some 9) NULL 10 false s =
    Ret (FAILURE, Ssys (set_json (set_tokenNum (sh s) 1) j) (Demo.MkDemo [] 0)).
Proof.
  intros s. apply (get_refused_when_full 5 (bytes "lamp" ++ [0]) 9 NULL 10 false (bytes "dev") 0 (Demo.MkDemo [] 0) s);
    [|vm_compute; reflexivity|reflexivity|repeat constructor; discriminate|vm_compute; lia|reflexivity|by apply Forall_replicate].
  destruct (static_ok [] (Demo.MkDemo [] 0)). split; try done. split; [apply zeros_ok; vm_compute; lia|apply Demo.padded_ok; vm_compute; lia].
Defined.
