(* ===== verification/ShadowFrame.v ===== *)
(** * What the shadow does to the client

    The operations of the shadow work on the client below it only through the interfaces
    [Mqtt], [MqttConnection] and [ShadowApp]: a property of the client that those keep is
    kept by every operation and by both handlers. *)
From S2P Require Import Prelude Types Timer Client Json Jsmn ShadowJson ShadowParse ShadowRecords Shadow.

(** The operations of the client keep [Q], and so do the callbacks of the application. *)
Class MqttKeeps {C : Type} `{!Mqtt C} (Q : C -> Prop) : Prop := {
  mk_subscribe p a t q h : keeps (fun s : ssys C => Q (mq s)) (mqtt_subscribe p a t q h);
  mk_unsubscribe p a t : keeps (fun s : ssys C => Q (mq s)) (mqtt_unsubscribe p a t);
  mk_publish p t m : keeps (fun s : ssys C => Q (mq s)) (mqtt_publish p t m);
  mk_clock : keeps Q mqtt_clock }.
Class ShadowAppKeeps {C : Type} `{!ShadowApp C} (Q : C -> Prop) : Prop := {
  ak_action f thing a st doc ctx : keeps (fun s : ssys C => Q (mq s)) (action_callback f thing a st doc ctx);
  ak_delta f v n i : keeps (fun s : ssys C => Q (mq s)) (delta_callback f v n i) }.
Class ConnectionKeeps {C : Type} `{!MqttConnection C} (Q : C -> Prop) : Prop := {
  ck_init p x : keeps Q (mqtt_init p x);
  ck_connect p x : keeps (fun s : ssys C => Q (mq s)) (mqtt_connect p x);
  ck_disconnect p : keeps Q (mqtt_disconnect p);
  ck_yield p t : keeps (fun s : ssys C => Q (mq s)) (mqtt_yield p t);
  ck_is_connected p : keeps Q (mqtt_is_connected p);
  ck_autoreconnect p b : keeps Q (mqtt_autoreconnect p b) }.

Section below.
Context {C : Type} `{!Mqtt C} `{!ShadowApp C} (Q : C -> Prop) `{!MqttKeeps Q} `{!ShadowAppKeeps Q}.
#[local] Abbreviation I := (fun s : ssys C => Q (mq s)) (only parsing).
Hint Resolve mk_subscribe mk_unsubscribe mk_publish mk_clock ak_action ak_delta : iot.

Lemma below_on_mq {A} (m : M C A) : keeps Q m -> keeps I (on_mq m).
Proof.
  intros Hm s Hs. specialize (Hm (mq s) Hs). rw /wp /on_mq. rw /wp in Hm. by destruct (m (mq s)) as [[a c]|].
Qed.
Lemma below_get : keeps I get_sh.
Proof. by intros s Hs. Qed.
Lemma below_mod f : keeps I (mod_sh f).
Proof. by apply keeps_modify. Qed.
Lemma below_json {A} (m : M jstate A) : keeps I (on_json m).
Proof. intros s Hs. rw /wp /on_json. by destruct (m (json (sh s))) as [[a j]|]. Qed.
Lemma below_text t : keeps I (lift_text t).
Proof. apply keeps_lift_option. Qed.
Hint Resolve below_on_mq below_get below_mod below_json below_text : iot.
Lemma below_get_ack i : keeps I (get_ack i).
Proof. rw /get_ack. keeps_auto. Qed.
Lemma below_get_sub i : keeps I (get_sub i).
Proof. rw /get_sub. keeps_auto. Qed.
Hint Resolve below_get_ack below_get_sub : iot.
Lemma below_upd_ack i f : keeps I (upd_ack i f).
Proof. rw /upd_ack. keeps_auto. Qed.
Lemma below_upd_sub i f : keeps I (upd_sub i f).
Proof. rw /upd_sub. keeps_auto. Qed.
Hint Resolve below_upd_ack below_upd_sub : iot.

(** ** The records *)

Lemma below_register i : keeps I (registerJsonTokenOnDelta i).
Proof. rw /registerJsonTokenOnDelta. keeps_auto. Qed.
Lemma below_release_topic t : keeps I (release_topic t).
Proof. rw /release_topic /findIndexOfSubscriptionList. keeps_auto. Qed.
Hint Resolve below_release_topic : iot.
Lemma below_unsubscribe i : keeps I (unsubscribeFromAcceptedAndRejected i).
Proof. rw /unsubscribeFromAcceptedAndRejected. keeps_auto. Qed.
Lemma below_wait_expired fuel t : keeps I (wait_expired fuel t).
Proof. induction fuel; cbn [wait_expired]; keeps_auto. Qed.
Hint Resolve below_unsubscribe below_wait_expired : iot.
Lemma below_subscribe_acks fuel t a b : keeps I (subscribeToShadowActionAcks fuel t a b).
Proof.
  rw /subscribeToShadowActionAcks /subscribe_both /subscribe_entry /getNextFreeIndexOfSubscriptionList. keeps_auto.
Qed.
Lemma below_present t a : keeps I (isSubscriptionPresent t a).
Proof. rw /isSubscriptionPresent. keeps_auto. Qed.
Lemma below_increment t a b : keeps I (incrementSubscriptionCnt t a b).
Proof. rw /incrementSubscriptionCnt. keeps_auto. Qed.
Lemma below_publish n a d : keeps I (publishToShadowAction n a d).
Proof. rw /publishToShadowAction. keeps_auto. Qed.
Lemma below_add i n a t c x z : keeps I (addToAckWaitList i n a t c x z).
Proof. rw /addToAckWaitList. keeps_auto. Qed.
Lemma below_call_back i st : keeps I (call_back i st).
Proof. rw /call_back. keeps_auto. Qed.
Hint Resolve below_register below_subscribe_acks below_present below_increment below_publish below_add below_call_back : iot.
Lemma below_expired : keeps I HandleExpiredResponseCallbacks.
Proof.
  rw /HandleExpiredResponseCallbacks. generalize 0%nat.
  induction MAX_ACKS_TO_COMEIN_AT_ANY_GIVEN_TIME as [|n IH]; intros i; cbn [expired_loop]; [keeps_auto|].
  rw /expired_entry. keeps_auto.
Qed.

(** ** The handlers *)

Lemma below_store p n : keeps I (store_payload p n).
Proof. rw /store_payload. keeps_auto. Qed.
Lemma below_ack_loop n i t k : keeps I (ack_loop n i t k).
Proof. revert i. induction n; intros i; cbn [ack_loop]; keeps_auto. Qed.
Hint Resolve below_store below_ack_loop below_expired : iot.
Lemma below_AckStatusCallback t p n : keeps I (AckStatusCallback t p n).
Proof. rw /AckStatusCallback /note_version /isAckForMyThingName. keeps_auto. Qed.
Lemma below_delta_loop f g fuel i n : keeps I (delta_loop f g fuel i n).
Proof. revert i. induction fuel; intros i; cbn [delta_loop]; [keeps_auto|]. rw /delta_entry. keeps_auto. Qed.
Hint Resolve below_delta_loop : iot.
Lemma below_shadow_delta_callback f g p n : keeps I (shadow_delta_callback f g p n).
Proof. rw /shadow_delta_callback. keeps_auto. Qed.
Hint Resolve below_AckStatusCallback below_shadow_delta_callback : iot.

(** ** The interface *)

Context `{!MqttConnection C} `{!ConnectionKeeps Q}.
Hint Resolve ck_init ck_connect ck_disconnect ck_yield ck_is_connected ck_autoreconnect : iot.

Lemma below_action fuel n a d cb x z b : keeps I (aws_iot_shadow_internal_action fuel n a d cb x z b).
Proof. rw /aws_iot_shadow_internal_action /getNextFreeIndexOfAckWaitList. keeps_auto. Qed.
Lemma below_sjson {A} doc (m : M sjson A) : keeps I (on_sjson doc m).
Proof. intros s Hs. rw /wp /on_sjson. by destruct (m _) as [[a j]|]. Qed.
Lemma below_ignore {A} (m : M (ssys C) A) : keeps I m -> keeps I (ignore m).
Proof. intros Hm. apply keeps_bind; [done|]. intros a. apply keeps_ret. Qed.
Hint Resolve below_action below_sjson : iot.

Lemma below_run_call f g fuel c : keeps I (run_call f g fuel c).
Proof.
  destruct c; cbn [run_call]; try apply below_ignore;
    rw ?/aws_iot_shadow_init ?/aws_iot_shadow_connect ?/aws_iot_shadow_register_delta ?/aws_iot_shadow_yield
      ?/aws_iot_shadow_disconnect ?/aws_iot_shadow_update ?/aws_iot_shadow_delete ?/aws_iot_shadow_get ?/when_connected
      ?/aws_iot_shadow_set_autoreconnect_status ?/aws_iot_shadow_reset_last_received_version /initDeltaTokens /initializeRecords
      /aws_iot_shadow_enable_discard_old_delta_msgs /aws_iot_shadow_disable_discard_old_delta_msgs; keeps_auto.
Qed.
Lemma below_run_calls f g fuel l : keeps I (run_calls f g fuel l).
Proof.
  induction l as [|c l IH]; cbn [run_calls]; [apply keeps_ret|]. apply keeps_bind; [apply below_run_call|]. by intros _.
Qed.
End below.
