(* ===== verification/ShadowClient.v ===== *)
(** * The shadow on the client

    The shadow of [Shadow.v] over the client of [Api.v], on any platform: the operations
    of the client implement the interfaces [Mqtt] and [MqttConnection] of the shadow, and
    the handlers of the shadow are handlers of the client. While an operation of the
    client waits, it delivers messages, so that a handler can run within an operation that
    a handler has called: [stack_app n] has the handlers with at most [n] of these levels. *)
From Stdlib Require Import Ascii String.
From S2P Require Import Prelude Text Buffer Types Wire Packets Timer Topic Client Sim Transport.
From S2P Require Import Publish Subscribe Unsubscribe Connect Yield WorldFrame Api.
From S2P Require Import Json Jsmn ShadowJson ShadowParse ShadowRecords Shadow ShadowFrame.

(** ** Memory

    The pointers the client is given point to arrays of the shadow, to local arrays of its
    functions, which are gone after the return, and to strings of the application, which
    stay. Local arrays and strings have the negative addresses from -23 on, by turns, the
    arrays of the shadow the addresses above, the platform those from 0 on. *)

Record frames (W : Type) := Frames { fr_stack : list (list Z); fr_strings : list (list Z); fr_world : W }.
Arguments Frames {W}.
Arguments fr_stack {W}.
Arguments fr_strings {W}.
Arguments fr_world {W}.
(** The world of the client: the shadow and the world of its platform. *)
Record around (W : Type) := Around { ar_shadow : shadow; ar_frames : frames W }.
Arguments Around {W}.
Arguments ar_shadow {W}.
Arguments ar_frames {W}.

Definition sub_address (i : nat) : Z := -1 - Z.of_nat i.
Definition delta_topic_address : Z := -21.
Definition name_address : Z := -22.
Definition stack_address (j : nat) : Z := -23 - 2 * Z.of_nat j.
Definition string_address (j : nat) : Z := -24 - 2 * Z.of_nat j.

Definition shadow_object (s : shadow) (a : Z) : option (list Z) :=
  if a =? delta_topic_address then Some (shadowDeltaTopic s)
  else if a =? name_address then Some (myThingName s)
  else sub_Topic <$> SubscriptionList s !! Z.to_nat (-1 - a).

(** The functions of the platform on the larger worlds. *)
Definition in_frames {W A} (m : M W A) : M (frames W) A := fun f =>
  match m (fr_world f) with Ret (a, w) => Ret (a, Frames (fr_stack f) (fr_strings f) w) | Exn e => Exn e end.
Definition in_around {W A} (m : M (frames W) A) : M (around W) A := fun r =>
  match m (ar_frames r) with Ret (a, f) => Ret (a, Around (ar_shadow r) f) | Exn e => Exn e end.

Definition frames_memory {W} `{!Platform W} (f : frames W) : memory := fun a =>
  if 0 <=? a then app_memory (fr_world f) a
  else if a <=? -23 then
    let k := Z.to_nat (-23 - a) in
    (if Nat.even k then fr_stack f else fr_strings f) !! Nat.div2 k
  else None.
Definition around_memory {W} `{!Platform W} (r : around W) : memory := fun a =>
  if (-23 <? a) && (a <? 0) then shadow_object (ar_shadow r) a else frames_memory (ar_frames r) a.

#[export] Instance frames_platform {W} `{!Platform W} : Platform (frames W) | 20 := {
  gettimeofday := in_frames gettimeofday;
  app_memory := frames_memory;
  iot_tls_init p := in_frames (iot_tls_init p);
  net_connect := in_frames net_connect;
  net_read n t := in_frames (net_read n t);
  net_write bs n t := in_frames (net_write bs n t);
  net_disconnect := in_frames net_disconnect;
  net_isConnected := in_frames net_isConnected;
  net_destroy := in_frames net_destroy }.
#[export] Instance around_platform {W} `{!Platform W} : Platform (around W) | 20 := {
  gettimeofday := in_around gettimeofday;
  app_memory := around_memory;
  iot_tls_init p := in_around (iot_tls_init p);
  net_connect := in_around net_connect;
  net_read n t := in_around (net_read n t);
  net_write bs n t := in_around (net_write bs n t);
  net_disconnect := in_around net_disconnect;
  net_isConnected := in_around net_isConnected;
  net_destroy := in_around net_destroy }.

(** ** The two views of the state

    The shadow sees the client as its world, the client sees the shadow as part of its
    own. *)
Definition client_view {W} (s : ssys (sys (frames W))) : sys (around W) :=
  Sys (client (mq s)) (Around (sh s) (world (mq s))).
Definition shadow_view {W} (s : sys (around W)) : ssys (sys (frames W)) :=
  Ssys (ar_shadow (world s)) (Sys (client s) (ar_frames (world s))).
Definition on_client {W A} (m : M (sys (around W)) A) : M (ssys (sys (frames W))) A := fun s =>
  match m (client_view s) with Ret (a, s') => Ret (a, shadow_view s') | Exn e => Exn e end.
Definition on_shadow {W A} (m : M (ssys (sys (frames W))) A) : M (sys (around W)) A := fun s =>
  match m (shadow_view s) with Ret (a, s') => Ret (a, client_view s') | Exn e => Exn e end.

(** A local array of a function, and a string of the application. *)
Definition upd_frames {W} (f : frames W -> frames W) (s : sys (around W)) : sys (around W) :=
  Sys (client s) (Around (ar_shadow (world s)) (f (ar_frames (world s)))).
Definition get_frames {W} : M (sys (around W)) (frames W) := gets (fun s => ar_frames (world s)).
Definition with_local {W A} (bytes : list Z) (k : ptr -> M (sys (around W)) A) : M (sys (around W)) A :=
  f ← get_frames;
  let n := length (fr_stack f) in
  _ ← modify (upd_frames (fun f => Frames (fr_stack f ++ [bytes]) (fr_strings f) (fr_world f)));
  a ← k (App (stack_address n));
  _ ← modify (upd_frames (fun f => Frames (take n (fr_stack f)) (fr_strings f) (fr_world f)));
  mret a.
Definition new_string {W} (bytes : list Z) : M (sys (around W)) ptr :=
  f ← get_frames;
  _ ← modify (upd_frames (fun f => Frames (fr_stack f) (fr_strings f ++ [bytes]) (fr_world f)));
  mret (App (string_address (length (fr_strings f)))).

(** What members that are not set hold: any values; the identifier has 16 bits. *)
Class Indeterminate (W : Type) := {
  un_isRetained : W -> Z; un_isDup : W -> Z; un_id : W -> Z;
  un_packetTimeout : W -> Z; un_disconnectData : W -> ptr;
  un_id_range w : is_u16 (un_id w) }.
(** The handlers of the application: the delete handler, a message handler, and the
    disconnect handler. *)
Class ShadowUser (W : Type) := {
  user_handler : Z -> ptr -> Z -> IoT_Publish_Message_Params -> ptr -> M (ssys (sys (frames W))) IoT_Publish_Message_Params;
  user_disconnect : Z -> ptr -> M (ssys (sys (frames W))) unit }.

(** The addresses of the handlers of the shadow; those of the application are not negative. *)
Definition ack_address : Z := -1.
Definition delta_address : Z := -2.
Definition handler_of (h : shadow_handler) : Z :=
  match h with AckHandler => ack_address | DeltaHandler => delta_address | DeleteHandler f => f end.
Definition handler_data (h : shadow_handler) : ptr :=
  match h with AckHandler | DeltaHandler => NULL | DeleteHandler _ => App name_address end.

Section stack.
Context {W : Type} `{!Platform W} `{!Indeterminate W} `{!ShadowApp (sys (frames W))} `{!ShadowUser W}.
Context (scan_float scan_double : list Z -> option (list Z)) (fuel : nat).

Section operations.
Context (app : Application (around W)).

Definition with_topic {A} (a : topic_array) (text : list Z) (k : ptr -> M (sys (around W)) A) : M (sys (around W)) A :=
  match a with
  | SubscriptionTopic i => k (App (sub_address i))
  | DeltaTopic => k (App delta_topic_address)
  | StackTopic => with_local (text ++ [0]) k
  end.
Definition strlen16 (text : list Z) : Z := u16 (Z.of_nat (length text)).

Definition message_of (w : W) (m : shadow_msg) (payload : ptr) : IoT_Publish_Message_Params :=
  MsgParams (sm_qos m) (default (un_isRetained w) (sm_isRetained m)) (default (un_isDup w) (sm_isDup m))
    (default (un_id w) (sm_id m)) payload (Z.of_nat (length (sm_payload m))).
Definition init_params (w : W) (r : shadow_init_request) : IoT_Client_Init_Params :=
  {| enableAutoReconnect := ir_enableAutoReconnect r; pHostURL := ir_pHostURL r; port := ir_port r;
     pRootCALocation := ir_pRootCALocation r; pDeviceCertLocation := ir_pDeviceCertLocation r;
     pDevicePrivateKeyLocation := ir_pDevicePrivateKeyLocation r;
     mqttPacketTimeout_ms := default (un_packetTimeout w) (ir_mqttPacketTimeout_ms r);
     mqttCommandTimeout_ms := ir_mqttCommandTimeout_ms r; tlsHandshakeTimeout_ms := ir_tlsHandshakeTimeout_ms r;
     isSSLHostnameVerify := ir_isSSLHostnameVerify r; init_disconnectHandler := ir_disconnectHandler r;
     init_disconnectHandlerData := default (un_disconnectData w) (ir_disconnectHandlerData r) |}.
Definition connect_params (r : shadow_connect_request) (id : ptr) : IoT_Client_Connect_Params :=
  {| MQTTVersion := MQTT_3_1_1; pClientID := id; clientIDLen := cr_clientIDLen r;
     keepAliveIntervalInSec := cr_keepAliveIntervalInSec r; isCleanSession := cr_isCleanSession r;
     isWillMsgPresent := cr_isWillMsgPresent r; will := IoT_MQTT_Will_Options_Initializer;
     pUsername := NULL; usernameLen := 0; pPassword := NULL; passwordLen := 0 |}.

Definition client_mqtt : Mqtt (sys (frames W)) := {|
  mqtt_subscribe p a text q h := on_client (with_topic a text (fun t =>
    aws_iot_mqtt_subscribe fuel p t (strlen16 text) q (Some (handler_of h)) (handler_data h)));
  mqtt_unsubscribe p a text := on_client (with_topic a text (fun t => aws_iot_mqtt_unsubscribe fuel p t (strlen16 text)));
  mqtt_publish p text m := on_client (with_local (text ++ [0]) (fun t => with_local (sm_payload m ++ [0]) (fun d =>
    f ← get_frames;
    r ← aws_iot_mqtt_publish fuel p t (strlen16 text) (Some (message_of (fr_world f) m d));
    mret r.1)));
  mqtt_clock := on_world gettimeofday |}.

Definition client_connection : MqttConnection (sys (frames W)) := {|
  mqtt_init p r := w ← gets (fun c => fr_world (world c)); aws_iot_mqtt_init p (Some (init_params w r));
  Shadow.mqtt_connect p r := on_client (id ← new_string (cr_clientID r);
    aws_iot_mqtt_connect fuel p (Some (connect_params r id)));
  mqtt_disconnect p := aws_iot_mqtt_disconnect fuel p;
  mqtt_yield p t := on_client (aws_iot_mqtt_yield fuel p t);
  mqtt_is_connected p := aws_iot_mqtt_is_client_connected p;
  mqtt_autoreconnect p b := aws_iot_mqtt_autoreconnect_set_status p b |}.
End operations.

(** The handlers, where at most [n] operations that deliver messages are active. *)
Fixpoint stack_app (n : nat) : Application (around W) := {|
  app_handler f pTopicName topicNameLen msg d :=
    src ← get_source;
    let payload := default [] (src (msg_payload msg)) in
    if f =? ack_address then
      match n with
      | O => raise OutOfFuel
      | S n' =>
          let M := client_mqtt (stack_app n') in
          _ ← on_shadow (AckStatusCallback (default [] (src pTopicName)) payload (msg_payloadLen msg));
          mret msg
      end
    else if f =? delta_address then
      _ ← on_shadow (shadow_delta_callback scan_float scan_double payload (msg_payloadLen msg));
      mret msg
    else on_shadow (user_handler f pTopicName topicNameLen msg d);
  app_disconnect_handler f d := on_shadow (user_disconnect f d) |}.

Definition stack_mqtt (n : nat) : Mqtt (sys (frames W)) := client_mqtt (stack_app n).
Definition stack_connection (n : nat) : MqttConnection (sys (frames W)) := client_connection (stack_app n).
(** A history of the shadow on the client. *)
Definition stack_run (n : nat) (l : list shadow_call) : M (ssys (sys (frames W))) unit :=
  let M := stack_mqtt n in let K := stack_connection n in run_calls scan_float scan_double fuel l.
Definition stack_init (n : nat) (p : ShadowInitParameters_t) : M (ssys (sys (frames W))) IoT_Error_t :=
  let M := stack_mqtt n in let K := stack_connection n in aws_iot_shadow_init TheClient (Some p).
End stack.

(** ** Invariants of the two views *)

Section views.
Context {W : Type}.

Lemma shadow_client_view (s : ssys (sys (frames W))) : shadow_view (client_view s) = s.
Proof. by destruct s as [h [c f]]. Qed.
Lemma client_shadow_view (s : sys (around W)) : client_view (shadow_view s) = s.
Proof. by destruct s as [c [h f]]. Qed.

Lemma keeps_on_client {A} (I : ssys (sys (frames W)) -> Prop) (m : M (sys (around W)) A) :
  keeps (fun s => I (shadow_view s)) m -> keeps I (on_client m).
Proof.
  intros Hm s Hs. specialize (Hm (client_view s)). cbv beta in Hm. rw shadow_client_view in Hm. specialize (Hm Hs).
  rw /wp /on_client. rw /wp in Hm. by destruct (m (client_view s)) as [[a s']|].
Qed.
Lemma keeps_on_shadow {A} (I : sys (around W) -> Prop) (m : M (ssys (sys (frames W))) A) :
  keeps (fun s => I (client_view s)) m -> keeps I (on_shadow m).
Proof.
  intros Hm s Hs. specialize (Hm (shadow_view s)). cbv beta in Hm. rw client_shadow_view in Hm. specialize (Hm Hs).
  rw /wp /on_shadow. rw /wp in Hm. by destruct (m (shadow_view s)) as [[a s']|].
Qed.
Lemma keeps_in_around {A} (h : shadow -> Prop) (m : M (frames W) A) : keeps (fun r => h (ar_shadow r)) (in_around m).
Proof. intros r Hr. rw /wp /in_around. by destruct (m (ar_frames r)) as [[a f]|]. Qed.

(** Properties that do not depend on the arrays. *)
Context (I : sys (around W) -> Prop) (HI : forall s f, I s -> I (upd_frames f s)).
Lemma keeps_with_local {A} bytes (k : ptr -> M (sys (around W)) A) : (forall p, keeps I (k p)) -> keeps I (with_local bytes k).
Proof.
  intros Hk. rw /with_local. apply keeps_bind; [by intros s Hs|]. intros f. cbv zeta.
  apply keeps_bind; [apply keeps_modify; auto|]. intros _. apply keeps_bind; [apply Hk|]. intros a.
  apply keeps_bind; [apply keeps_modify; auto|]. intros _. apply keeps_ret.
Qed.
Lemma keeps_with_topic {A} a text (k : ptr -> M (sys (around W)) A) : (forall p, keeps I (k p)) -> keeps I (with_topic a text k).
Proof. intros Hk. destruct a; cbn [with_topic]; [apply Hk|apply Hk|by apply keeps_with_local]. Qed.
Lemma keeps_new_string bytes : keeps I (new_string bytes).
Proof.
  rw /new_string. apply keeps_bind; [by intros s Hs|]. intros f. apply keeps_bind; [apply keeps_modify; auto|].
  intros _. apply keeps_ret.
Qed.
End views.

(** The handlers of the application keep both invariants and the state of the client. *)
Class ShadowUserOk (W : Type) `{!ShadowUser W} `{!ShadowApp (sys (frames W))} : Prop := {
  user_handler_ok f p n msg d : keeps ssys_ok (user_handler f p n msg d);
  user_disconnect_ok f d : keeps ssys_ok (user_disconnect f d) }.
Class ShadowUserKeeps {W : Type} `{!ShadowUser W} (Q : sys (frames W) -> Prop) : Prop := {
  uk_handler f p n msg d : keeps (fun s => Q (mq s)) (user_handler f p n msg d);
  uk_disconnect f d : keeps (fun s => Q (mq s)) (user_disconnect f d) }.

Section invariants.
Context {W : Type} `{!Platform W} `{!Indeterminate W} `{!ShadowApp (sys (frames W))} `{!ShadowUser W}.
Context (scan_float scan_double : list Z -> option (list Z)) (fuel : nat).

(** *** The shadow *)

Definition around_ok (r : around W) : Prop := shadow_ok (ar_shadow r).
#[local] Instance around_keeps : PlatformKeeps around_ok.
Proof. split; intros; apply (keeps_in_around shadow_ok). Qed.

Section operations.
Context (app : Application (around W)) `{!HandlersKeep around_ok}.
Lemma client_mqtt_ok : @MqttOk _ (client_mqtt fuel app).
Proof.
  split; intros; apply keeps_on_client.
  - apply keeps_with_topic; [done|]. intros ?. by apply (wkeeps_subscribe around_ok).
  - apply keeps_with_topic; [done|]. intros ?. by apply (wkeeps_unsubscribe around_ok).
  - do 2 (apply keeps_with_local; [done|]; intros ?). apply keeps_bind; [by intros s Hs|]. intros f.
    apply keeps_bind; [by apply (wkeeps_publish around_ok)|]. intros r. apply keeps_ret.
Qed.
Lemma client_connection_ok : @ConnectionOk _ (client_connection fuel app).
Proof.
  split; intros; apply keeps_on_client.
  - apply keeps_bind; [by apply keeps_new_string|]. intros id. by apply (wkeeps_connect around_ok).
  - by apply (wkeeps_yield around_ok).
Qed.
End operations.

Context `{!ShadowAppOk (sys (frames W))} `{!ShadowUserOk W}.
Lemma stack_handlers_ok n : @HandlersKeep _ (stack_app scan_float scan_double fuel n) around_ok.
Proof.
  induction n as [|n IH]; split; intros; cbn [app_handler app_disconnect_handler stack_app];
    try (apply (keeps_on_shadow (fun s => around_ok (world s))), user_disconnect_ok);
    (apply keeps_bind; [by intros s Hs|]); intros src; cbv zeta;
    (destruct (f =? ack_address); [try apply keeps_raise|destruct (f =? delta_address)]).
  all: try (apply (keeps_on_shadow (fun s => around_ok (world s))), user_handler_ok).
  all: apply keeps_bind; [apply (keeps_on_shadow (fun s => around_ok (world s)))|intros _; apply keeps_ret].
  - apply keeps_shadow_delta_callback.
  - pose proof (client_mqtt_ok (stack_app scan_float scan_double fuel n)). apply keeps_AckStatusCallback.
  - apply keeps_shadow_delta_callback.
Qed.
End invariants.

(** *** The client *)

Section client_invariants.
Context {W : Type} `{!Platform W} `{!Indeterminate W} `{!ShadowApp (sys (frames W))} `{!ShadowUser W}.
Context (scan_float scan_double : list Z -> option (list Z)) (fuel : nat).

(** The calls the handlers of the shadow make. *)
Definition handler_call (k : call) : bool :=
  match k with CallPublish _ _ _ | CallSubscribe _ _ _ _ _ | CallUnsubscribe _ _ => true | _ => false end.

(** A family of properties of the client that these calls keep when the handlers do is
    kept by the handlers of the shadow. *)
Section family.
Context {X : Type} (Q : X -> AWS_IoT_Client -> Prop).
Definition app_keeps (app : Application (around W)) : Prop :=
  (forall x f p n msg d, keeps (fun s => Q x (client s)) (app_handler (Application := app) f p n msg d)) /\
  (forall x f d, keeps (fun s => Q x (client s)) (app_disconnect_handler (Application := app) f d)).
Context (Hcalls : forall app : Application (around W), app_keeps app ->
  forall x k, handler_call k = true -> keeps (fun s => Q x (client s)) (exec (Application0 := app) fuel k)).
Context `{!forall x, ShadowAppKeeps (fun c : sys (frames W) => Q x (client c))}.
Context `{!forall x, ShadowUserKeeps (fun c : sys (frames W) => Q x (client c))}.

Lemma client_mqtt_keeps app x : app_keeps app -> @MqttKeeps _ (client_mqtt fuel app) (fun c : sys (frames W) => Q x (client c)).
Proof.
  intros Happ. split; intros.
  - apply keeps_on_client, keeps_with_topic; [done|]. intros t'. destruct p; [apply keeps_ret|].
    by apply (Hcalls app Happ x (CallSubscribe t' _ _ _ _)).
  - apply keeps_on_client, keeps_with_topic; [done|]. intros t'. destruct p; [apply keeps_ret|].
    by apply (Hcalls app Happ x (CallUnsubscribe t' _)).
  - apply keeps_on_client. do 2 (apply keeps_with_local; [done|]; intros ?). apply keeps_bind; [by intros s Hs|]. intros f.
    destruct p; [apply keeps_bind; [apply keeps_ret|intros ?; apply keeps_ret]|].
    by apply (Hcalls app Happ x (CallPublish _ _ _)).
  - apply client_on_world.
Qed.

Lemma stack_app_keeps n : app_keeps (stack_app scan_float scan_double fuel n).
Proof.
  induction n as [|n IH]; split; intros; cbn [app_handler app_disconnect_handler stack_app];
    try (apply (keeps_on_shadow (fun s => Q x (client s))), (uk_disconnect (Q := fun c => Q x (client c))));
    (apply keeps_bind; [by intros s Hs|]); intros src; cbv zeta;
    (destruct (f =? ack_address); [try apply keeps_raise|destruct (f =? delta_address)]).
  all: try (apply (keeps_on_shadow (fun s => Q x (client s))), (uk_handler (Q := fun c => Q x (client c)))).
  all: apply keeps_bind; [apply (keeps_on_shadow (fun s => Q x (client s)))|intros _; apply keeps_ret].
  all: try pose proof (client_mqtt_keeps _ x IH).
  1, 3: by apply (below_shadow_delta_callback (fun c : sys (frames W) => Q x (client c))).
  by apply (below_AckStatusCallback (fun c : sys (frames W) => Q x (client c))).
Qed.
End family.
End client_invariants.

(** *** All of it *)


(** The callbacks of the application keep the invariants of the shadow and of the client
    and leave the client in its state. *)
Class CallbacksOk (W : Type) `{!ShadowApp (sys (frames W))} `{!ShadowUser W} : Prop := {
  cb_app :: ShadowAppOk (sys (frames W));
  cb_user :: ShadowUserOk W;
  cb_app_client :: ShadowAppKeeps (fun c : sys (frames W) => client_ok (client c));
  cb_user_client :: ShadowUserKeeps (fun c : sys (frames W) => client_ok (client c));
  cb_app_state st :: ShadowAppKeeps (fun c : sys (frames W) => in_state st (client c));
  cb_user_state st :: ShadowUserKeeps (fun c : sys (frames W) => in_state st (client c)) }.

(** A computation that keeps every state keeps the resting ones. *)
Lemma in_state_rests {T A} (f : T -> AWS_IoT_Client) (m : M T A) :
  (forall st, keeps (fun s => in_state st (f s)) m) -> keeps (fun s => resting (clientState (clientStatus (f s))) = true) m.
Proof.
  intros Hm s Hs. eapply wp_mono; [exact (Hm _ s eq_refl)|]. rw /in_state. by intros a s' ->.
Qed.

Section stack_invariants.
Context {W : Type} `{!Platform W} `{!ReadCodes W} `{!Indeterminate W} `{!ShadowApp (sys (frames W))} `{!ShadowUser W}.
Context `{!CallbacksOk W} (scan_float scan_double : list Z -> option (list Z)) (fuel : nat).
#[local] Abbreviation app := (stack_app scan_float scan_double fuel).

Lemma stack_app_ok n : handlers_ok (around W) (Application0 := app n).
Proof.
  assert (Happ : app_keeps (fun _ : unit => client_ok) (app n)).
  { apply stack_app_keeps; try (intros; apply _). intros a [Ha1 Ha2] x k _. apply (pres_keeps client_ok).
    apply (exec_ok (Application0 := a)). split; intros; apply (keeps_pres client_ok); [apply (Ha1 tt)|apply (Ha2 tt)]. }
  destruct Happ as [H1 H2]. split; intros; apply (keeps_pres client_ok); [apply (H1 tt)|apply (H2 tt)].
Qed.
Lemma stack_app_state n : handlers_keep_state (around W) (Application0 := app n).
Proof.
  assert (Happ : app_keeps in_state (app n)).
  { apply stack_app_keeps; try (intros; apply _). intros a [Ha1 Ha2] st k Hk. revert st. apply same_state_keeps.
    assert (Hh : handlers_keep_state (around W) (Application0 := a)) by (intros ? ? ? ? ?; apply same_state_keeps; intros st; auto).
    destruct k; try discriminate Hk; cbn [exec].
    - apply pres_bind; [apply _|by apply publish_keeps_state|]. intros r. by apply pres_ret, _.
    - by apply subscribe_keeps_state.
    - by apply unsubscribe_keeps_state. }
  destruct Happ as [H1 _]. intros f p m msg d. apply same_state_keeps. intros st. auto.
Qed.

#[local] Instance frames_read_codes : ReadCodes (frames W).
Proof.
  intros n t f x f'. cbn. rw /in_frames. destruct (net_read n t _) as [[x' w]|] eqn:Hn; [|done]. intros [= <- _].
  by apply read_codes in Hn.
Qed.
#[local] Instance around_read_codes : ReadCodes (around W).
Proof.
  intros n t r x r' Hr. change (in_around (net_read n t) r = Ret (x, r')) in Hr. rw /in_around in Hr.
  destruct (net_read n t (ar_frames r)) as [[x' f]|] eqn:Hn; [|done]. injection Hr as <- _. by apply read_codes in Hn.
Qed.
Lemma stack_exec n k : keeps (fun s => client_rests (client s)) (exec (Application0 := app n) fuel k).
Proof. apply exec_rests; [apply stack_app_ok|apply stack_app_state]. Qed.

(** Calls that need no handlers. *)
Definition no_handlers {V} : Application V := {| app_handler _ _ _ _ _ := raise OutOfFuel; app_disconnect_handler _ _ := raise OutOfFuel |}.
Lemma frames_exec k : keeps (fun s : sys (frames W) => client_rests (client s)) (exec (Application0 := no_handlers) fuel k).
Proof. apply exec_rests; [done|done]. Qed.

#[local] Abbreviation Q := (fun c : sys (frames W) => client_rests (client c)).
#[local] Instance app_rests : ShadowAppKeeps Q.
Proof.
  split; intros; (apply (keeps_conj (fun s => client_ok (client (mq s)))); [|apply (in_state_rests (fun s => client (mq s))); intros st0]).
  - apply (ak_action (Q := fun c => client_ok (client c))).
  - apply (ak_action (Q := fun c => in_state st0 (client c))).
  - apply (ak_delta (Q := fun c => client_ok (client c))).
  - apply (ak_delta (Q := fun c => in_state st0 (client c))).
Qed.
Lemma stack_mqtt_rests n : @MqttKeeps _ (stack_mqtt scan_float scan_double fuel n) Q.
Proof.
  split; intros.
  - apply keeps_on_client, keeps_with_topic; [done|]. intros t'. destruct p; [apply keeps_ret|]. apply (stack_exec n (CallSubscribe t' _ _ _ _)).
  - apply keeps_on_client, keeps_with_topic; [done|]. intros t'. destruct p; [apply keeps_ret|]. apply (stack_exec n (CallUnsubscribe t' _)).
  - apply keeps_on_client. do 2 (apply keeps_with_local; [done|]; intros ?). apply keeps_bind; [by intros s Hs|]. intros f.
    destruct p; [apply keeps_bind; [apply keeps_ret|intros ?; apply keeps_ret]|]. apply (stack_exec n (CallPublish _ _ _)).
  - apply client_on_world.
Qed.
Lemma stack_connection_rests n : @ConnectionKeeps _ (stack_connection scan_float scan_double fuel n) Q.
Proof.
  split; intros.
  - apply keeps_bind; [by intros s Hs|]. intros w. destruct p; [apply keeps_ret|]. apply (frames_exec (Api.CallInit (Some _))).
  - apply keeps_on_client, keeps_bind; [by apply keeps_new_string|]. intros id. destruct p; [apply keeps_ret|].
    apply (stack_exec n (Api.CallConnect (Some _))).
  - destruct p; [apply keeps_ret|]. apply (frames_exec Api.CallDisconnect).
  - apply keeps_on_client. destruct p; [apply keeps_ret|]. apply (stack_exec n (Api.CallYield t)).
  - intros s Hs. destruct p; [done|]. exact Hs.
  - destruct p; [apply keeps_ret|]. apply (frames_exec (CallAutoreconnectSetStatus b)).
Qed.

(** A successful initialization of an allocated client. *)
Lemma stack_init_rests n p s : allocated (client (mq s)) ->
  wp any_exn (stack_init scan_float scan_double fuel n p) (fun rc s' => rc = SUCCESS -> client_rests (client (mq s'))) s.
Proof.
  intros Hal. rw /stack_init /aws_iot_shadow_init. apply wp_bind.
  apply (wp_mono _ _ (fun rc s' => rc = SUCCESS -> client_rests (client (mq s')))).
  - rw /wp /on_mq. pose proof (init_spec (Some (init_params (fr_world (world (mq s))) (MkInitRequest (sip_enableAutoReconnect p)
      (sip_pHost p) (sip_port p) (sip_pRootCA p) (sip_pClientCRT p) (sip_pClientKey p) None 20000 5000 true
      (sip_disconnectHandler p) None))) (mq s)) as Hspec.
    rw /wp in Hspec. cbn [mqtt_init stack_connection client_connection]. rw /mbind /M_bind {1}/gets.
    destruct (aws_iot_mqtt_init TheClient _ (mq s)) as [[rc c']|]; [|done]. intros ->. destruct Hspec as [[_ ?]|[Hok Hst]]; [done|].
    split; [by apply Hok|]. cbn [mq]. by rw Hst.
  - intros rc s1 H1. case_decide as Hrc; [by apply wp_ret|]. apply wp_bind, wp_modify, wp_bind, wp_modify, wp_bind, wp_modify, wp_ret.
    intros _. apply H1. destruct (decide (rc = SUCCESS)); tauto.
Qed.

(** C27: the shadow and the client together. From the zeroed static variables of the
    program and an allocated client, after a successful initialization and any sequence of
    calls of the shadow, whatever the network delivers and whenever the messages arrive,
    also while a handler runs, the shadow and the client are well formed, and the client is
    at rest. *)
Theorem stack_reachable n p l c s0 calls s : allocated (client c) ->
  stack_init scan_float scan_double fuel n p (Ssys (static_shadow l) c) = Ret (SUCCESS, s0) ->
  stack_run scan_float scan_double fuel n calls s0 = Ret (tt, s) ->
  shadow_ok (sh s) /\ client_ok (client (mq s)) /\ resting (clientState (clientStatus (client (mq s)))) = true.
Proof.
  intros Hal Hinit Hrun.
  pose proof (stack_handlers_ok scan_float scan_double fuel n) as Hh.
  pose proof (client_mqtt_ok fuel (app n)) as Hm. pose proof (client_connection_ok fuel (app n)) as Hc.
  assert (H0 : shadow_ok (sh s0) /\ client_rests (client (mq s0))).
  { split.
    - exact (wp_run any_exn _ _ _ _ _ Hinit (keeps_init _ _ _ (static_ok l c))).
    - exact (wp_run any_exn _ _ _ _ _ Hinit (stack_init_rests n p (Ssys (static_shadow l) c) Hal) eq_refl). }
  split.
  - exact (wp_run any_exn _ _ _ _ _ Hrun (keeps_run_calls _ _ _ calls _ (proj1 H0))).
  - pose proof (stack_mqtt_rests n). pose proof (stack_connection_rests n).
    exact (wp_run any_exn _ _ _ _ _ Hrun (below_run_calls Q _ _ _ calls _ (proj2 H0))).
Qed.
End stack_invariants.

(** ** A run on the simulated platform *)

Module StackDemo.
Definition log (e : Z * ptr * Z) : M (ssys (sys (frames sim))) unit := on_mq (on_world (in_frames (fun w =>
  Ret (tt, Sim (sim_now w) (sim_step w) (sim_mem w) (sim_in w) (sim_out w) (e :: sim_calls w))))).
#[global] Instance app : ShadowApp (sys (frames sim)) := {
  action_callback f thing a st doc ctx := log (f, ctx, match st with SHADOW_ACK_TIMEOUT => 0 | SHADOW_ACK_REJECTED => 1 | SHADOW_ACK_ACCEPTED => 2 end);
  delta_callback f v n i := log (f, NULL, Z.of_nat i) }.
#[global] Instance user : ShadowUser sim := {
  user_handler f p n msg d := _ ← log (f, p, n); mret msg;
  user_disconnect f d := mret tt }.
#[global] Instance indeterminate : Indeterminate sim := {
  un_isRetained w := 0; un_isDup w := 0; un_id w := 0; un_packetTimeout w := 5000; un_disconnectData w := NULL;
  un_id_range w := conj (Z.le_refl 0) eq_refl }.

Definition start (input : list Z) : sys (frames sim) :=
  Sys (sim_client CLIENT_STATE_INVALID []) (Frames [] [] (Sim 5000000 100000 sim_memory input [] [])).

Definition accepted_topic : list Z := bytes "$aws/things/lamp/shadow/get/accepted".
(** The broker: the connection, two subscriptions, the response, and the ends of the
    subscriptions while the response is handled. *)
Definition broker : list Z :=
  [32; 2; 0; 0] ++ [144; 3; 0; 2; 0] ++ [144; 3; 0; 3; 0] ++
  publish_packet 0 QOS0 0 0 accepted_topic (request_document (bytes "dev") 0) ++ [176; 2; 0; 4; 176; 2; 0; 5].
Definition params : ShadowInitParameters_t := MkShadowInit (App 1) 8883 (App 1) (App 1) (App 1) false None.
Definition calls : list shadow_call :=
  let lamp := bytes "lamp" ++ [0] in let dev := bytes "dev" ++ [0] in
  [Shadow.CallConnect TheClient (Some (MkShadowConnect lamp (Some dev) 3 None));
   CallGet TheClient (Some lamp) (Some 5) NULL 10 false;
   Shadow.CallYield TheClient 1000].
Definition no_scan (l : list Z) : option (list Z) := None.


Lemma log_keeps Q e : keeps (fun s : ssys (sys (frames sim)) => Q (client (mq s))) (log e).
Proof. apply (below_on_mq (fun c => Q (client c))), (client_on_world Q). Qed.
#[global] Instance callbacks_ok : CallbacksOk sim.
Proof.
  assert (Hlog : forall Q e m, keeps (fun s : ssys (sys (frames sim)) => Q (client (mq s)))
    (_ ← log e; mret (M := M (ssys (sys (frames sim)))) (A := IoT_Publish_Message_Params) m)).
  { intros Q e m. apply keeps_bind; [apply log_keeps|]. intros _. apply keeps_ret. }
  split; [| | | |intros st..]; split; intros; try (apply keeps_ret || apply keeps_on_mq).
  - apply keeps_bind; [apply keeps_on_mq|]. intros _. apply keeps_ret.
  - apply (log_keeps client_ok).
  - apply (log_keeps client_ok).
  - apply (Hlog client_ok).
  - apply (log_keeps (in_state st)).
  - apply (log_keeps (in_state st)).
  - apply (Hlog (in_state st)).
Qed.
End StackDemo.

Lemma stack_reachable_witness :
  exists s0 s, stack_init StackDemo.no_scan StackDemo.no_scan 40 1 StackDemo.params (Ssys (static_shadow []) (StackDemo.start StackDemo.broker)) =
      Ret (SUCCESS, s0) /\
    stack_run StackDemo.no_scan StackDemo.no_scan 40 1 StackDemo.calls s0 = Ret (tt, s) /\
    shadow_ok (sh s) /\ client_ok (client (mq s)) /\ resting (clientState (clientStatus (client (mq s)))) = true.
Proof.
  assert (Hrun : exists s0 s, stack_init StackDemo.no_scan StackDemo.no_scan 40 1 StackDemo.params
      (Ssys (static_shadow []) (StackDemo.start StackDemo.broker)) = Ret (SUCCESS, s0) /\
    stack_run StackDemo.no_scan StackDemo.no_scan 40 1 StackDemo.calls s0 = Ret (tt, s)).
  { assert (Hok : match stack_init StackDemo.no_scan StackDemo.no_scan 40 1 StackDemo.params
        (Ssys (static_shadow []) (StackDemo.start StackDemo.broker)) with
      | Ret (rc, s0) => bool_decide (rc = SUCCESS) &&
          match stack_run StackDemo.no_scan StackDemo.no_scan 40 1 StackDemo.calls s0 with Ret _ => true | Exn _ => false end
      | Exn _ => false
      end = true) by (vm_compute; reflexivity).
    destruct (stack_init _ _ _ _ _ _) as [[rc s0]|] eqn:Hi; [|discriminate Hok].
    apply andb_prop in Hok as [Hrc Hok]. apply bool_decide_eq_true in Hrc as ->. exists s0.
    destruct (stack_run _ _ _ _ _ s0) as [[[] s]|]; [|discriminate Hok]. by exists s. }
  destruct Hrun as (s0 & s & Hinit & Hrun). exists s0, s. split; [exact Hinit|]. split; [exact Hrun|].
  refine (stack_reachable StackDemo.no_scan StackDemo.no_scan 40 1 StackDemo.params [] (StackDemo.start StackDemo.broker) s0 StackDemo.calls s _ Hinit Hrun).
  apply client_ok_allocated, sim_client_ok.
Defined.

(** The messages of this history: the request is made and answered, and the answer ends
    its two subscriptions while it is handled. *)
Example stack_messages :
  match stack_init StackDemo.no_scan StackDemo.no_scan 40 1 StackDemo.params (Ssys (static_shadow []) (StackDemo.start StackDemo.broker)) with
  | Ret (_, s0) =>
      match stack_run StackDemo.no_scan StackDemo.no_scan 40 1 StackDemo.calls s0 with
      | Ret (_, s) => let w := fr_world (world (mq s)) in Some (rev (sim_out w), sim_calls w, fr_stack (world (mq s)))
      | Exn _ => None
      end
  | Exn _ => None
  end =
  let rejected := bytes "$aws/things/lamp/shadow/get/rejected" in
  Some ([[16; 15; 0; 4; 77; 81; 84; 84; 4; 2; 0; 10; 0; 3; 100; 101; 118];
         subscribe_packet 0 2 [(StackDemo.accepted_topic, QOS0)]; subscribe_packet 0 3 [(rejected, QOS0)];
         publish_packet 0 QOS0 0 0 (bytes "$aws/things/lamp/shadow/get") (request_document (bytes "dev") 0);
         unsubscribe_packet 0 4 [StackDemo.accepted_topic]; unsubscribe_packet 0 5 [rejected]],
        [(5, NULL, 2)], []).
Proof. vm_compute. reflexivity. Qed.

(** A delete handler: its topic lies in a local array of the connect function, so that
    the next message of any topic is compared with an array that is gone. *)
Example delete_topic_dangles :
  let broker := [32; 2; 0; 0] ++ [144; 3; 0; 2; 1] ++ publish_packet 0 QOS0 0 0 (bytes "a/b") (bytes "hello") in
  let connect := Shadow.CallConnect TheClient (Some (MkShadowConnect (bytes "lamp" ++ [0]) (Some (bytes "dev" ++ [0])) 3 (Some 7))) in
  match stack_init StackDemo.no_scan StackDemo.no_scan 40 1 StackDemo.params (Ssys (static_shadow []) (StackDemo.start broker)) with
  | Ret (_, s0) =>
      match stack_run StackDemo.no_scan StackDemo.no_scan 40 1 [connect] s0 with
      | Ret (_, s) => stack_run StackDemo.no_scan StackDemo.no_scan 40 1 [Shadow.CallYield TheClient 1000] s = Exn (Fault OobRead)
      | Exn _ => False
      end
  | Exn _ => False
  end.
Proof. vm_compute. reflexivity. Qed.
