(* ===== verification/ShadowTls.v ===== *)
(** * Shadow requests over TLS

    The shadow on the client on TLS: what a request of the shadow sends over the
    connection. *)
From Stdlib Require Import Ascii String.
From S2P Require Import Prelude Text Buffer Types Wire Packets Timer Topic Client Sim Transport Publish Api Tls Stack.
From S2P Require Import Json Jsmn ShadowJson ShadowParse ShadowRecords Shadow ShadowFrame ShadowClient.

(** ** The retain flag

    The serializer uses one bit of the flag of the message, which the shadow does not set. *)
Definition retain_bit (r : Z) : Z := if r =? 1 then 1 else 0.
Definition with_retain_bit (m : IoT_Publish_Message_Params) : IoT_Publish_Message_Params :=
  MsgParams (msg_qos m) (retain_bit (msg_isRetained m)) (msg_isDup m) (msg_id m) (msg_payload m) (msg_payloadLen m).

Lemma serialize_publish_retain src buf n dup qos r id pT tl pP pl l :
  _aws_iot_mqtt_internal_serialize_publish src buf n dup qos (retain_bit r) id pT tl pP pl l =
  _aws_iot_mqtt_internal_serialize_publish src buf n dup qos r id pT tl pP pl l.
Proof.
  rw /_aws_iot_mqtt_internal_serialize_publish !init_header_spec //. by rw /retain_bit; destruct (r =? 1).
Qed.

Section retain.
Context {W : Type} `{!Platform W} `{!Application W} (fuel : nat).

(** The same code and state; the parameters are those of the message. *)
Definition same_run {B} (x y : outcome ((IoT_Error_t * B) * sys W)) : Prop :=
  match x, y with
  | Ret ((rc, _), s), Ret ((rc', _), s') => rc = rc' /\ s = s'
  | Exn e, Exn e' => e = e'
  | _, _ => False
  end.
Lemma same_run_bind {A B} (m : M (sys W) A) (k k' : A -> M (sys W) (IoT_Error_t * B)) s :
  (forall a s', same_run (k a s') (k' a s')) -> same_run ((m ≫= k) s) ((m ≫= k') s).
Proof. intros Hk. rw /mbind /M_bind. by destruct (m s) as [[a s']|]. Qed.
Lemma same_run_bind_fst {A B} (m m' : M (sys W) (IoT_Error_t * A)) (k k' : IoT_Error_t * A -> M (sys W) (IoT_Error_t * B)) s :
  same_run (m s) (m' s) -> (forall rc a a' s', same_run (k (rc, a) s') (k' (rc, a') s')) -> same_run ((m ≫= k) s) ((m' ≫= k') s).
Proof.
  intros Hm Hk. rw /mbind /M_bind. rw /same_run in Hm. destruct (m s) as [[[rc a] s1]|], (m' s) as [[[rc' a'] s2]|]; try done.
  destruct Hm as [-> ->]. apply Hk.
Qed.

Lemma internal_publish_retain pT tl m (s : sys W) : msg_qos m = QOS0 ->
  same_run (_aws_iot_mqtt_internal_publish fuel pT tl m s) (_aws_iot_mqtt_internal_publish fuel pT tl (with_retain_bit m) s).
Proof.
  intros Hq. rw /_aws_iot_mqtt_internal_publish. apply same_run_bind. intros c s1. apply same_run_bind. intros t s2.
  cbn [with_retain_bit msg_qos]. rw Hq. destruct (decide (QOS1 = QOS0)) as [?|Hne]; [done|].
  rw /mbind /M_bind /mret /M_ret /get_source. cbv beta iota zeta. cbn [with_retain_bit msg_qos msg_isRetained msg_id msg_payload msg_payloadLen].
  rw Hq /serialize /mbind /M_bind /get_client /gets /lift_outcome. cbv beta iota zeta. rw serialize_publish_retain.
  destruct (_aws_iot_mqtt_internal_serialize_publish _ _ _ _ _ _ _ _ _ _ _ _) as [o|]; [|done].
  destruct (put_writeBuf (so_buf o) s2) as [[u s3]|]; [|done]. rw /mret /M_ret. cbv beta iota.
  destruct (decide (SUCCESS <> so_rc o)); [done|].
  destruct (aws_iot_mqtt_internal_send_packet _ _ _ _ s3) as [[rc s4]|]; [|done]. repeat case_decide; done.
Qed.

Lemma publish_retain pT tl m (s s' : sys W) rc p : msg_qos m = QOS0 ->
  aws_iot_mqtt_publish fuel TheClient pT tl (Some m) s = Ret ((rc, p), s') ->
  exists p', aws_iot_mqtt_publish fuel TheClient pT tl (Some (with_retain_bit m)) s = Ret ((rc, p'), s').
Proof.
  intros Hq Hrun. enough (Hs : same_run (aws_iot_mqtt_publish fuel TheClient pT tl (Some m) s)
    (aws_iot_mqtt_publish fuel TheClient pT tl (Some (with_retain_bit m)) s)).
  { rw Hrun /same_run in Hs. destruct (aws_iot_mqtt_publish _ _ _ _ (Some (with_retain_bit m)) s) as [[[rc' p'] s1]|]; [|done].
    destruct Hs as [-> ->]. by exists p'. }
  rw /aws_iot_mqtt_publish. case_decide; [done|]. apply same_run_bind. intros c s1. case_match; [done|].
  apply same_run_bind. intros st s2. case_decide; [done|]. apply same_run_bind. intros rc1 s3. case_decide; [done|].
  apply same_run_bind_fst; [by apply internal_publish_retain|]. intros rc2 a a' s4. by apply same_run_bind.
Qed.
End retain.

(** ** Local arrays *)

Section frames.
Context {W : Type} `{!Platform W}.

Definition push_frame (b : list Z) (f : frames W) : frames W := Frames (fr_stack f ++ [b]) (fr_strings f) (fr_world f).

Lemma around_stack (r : around W) j : around_memory r (stack_address j) = fr_stack (ar_frames r) !! j.
Proof.
  rw /around_memory /stack_address. replace (-23 <? _) with false by (symmetry; apply Z.ltb_ge; lia). cbn [andb].
  rw /frames_memory. replace (0 <=? _) with false by (symmetry; apply Z.leb_gt; lia).
  replace (_ <=? -23) with true by (symmetry; apply Z.leb_le; lia).
  replace (Z.to_nat _) with (2 * j)%nat by lia. by rw Nat.even_mul /= Nat.div2_double.
Qed.

(** Reading the clock keeps the arrays too. *)
#[export] Instance around_time_memory `{!TimeKeepsMemory W} : TimeKeepsMemory (around W).
Proof.
  intros r now r' Hrun. change (in_around (in_frames gettimeofday) r = Ret (now, r')) in Hrun.
  rw /in_around /in_frames in Hrun. destruct (gettimeofday (fr_world (ar_frames r))) as [[t w]|] eqn:Ht; [|done].
  injection Hrun as _ <-. apply time_keeps_memory in Ht.
  change (around_memory (Around (ar_shadow r) (Frames (fr_stack (ar_frames r)) (fr_strings (ar_frames r)) w)) = around_memory r).
  by rw /around_memory /frames_memory /= Ht.
Qed.

Lemma with_local_inv {A} b (k : ptr -> M (sys (around W)) A) s a s' : with_local b k s = Ret (a, s') ->
  exists s1, k (App (stack_address (length (fr_stack (ar_frames (world s)))))) (upd_frames (push_frame b) s) = Ret (a, s1) /\
    client s' = client s1 /\ ar_shadow (world s') = ar_shadow (world s1) /\
    fr_world (ar_frames (world s')) = fr_world (ar_frames (world s1)).
Proof.
  intros Hrun. rw /with_local in Hrun. apply bind_inv in Hrun as (f & s0 & Hf & Hrun). injection Hf as <- <-.
  cbv zeta in Hrun. apply bind_inv in Hrun as (u & s2 & Hpush & Hrun). injection Hpush as _ <-.
  apply bind_inv in Hrun as (a' & s1 & Hk & Hrun). apply bind_inv in Hrun as (u' & s3 & Hpop & Hrun).
  injection Hpop as _ <-. injection Hrun as <- <-. by exists s1.
Qed.
End frames.

(** ** Publishing *)

Section tls.
Context {E : Type} `{!Mbedtls E} `{!MbedtlsLaws E} (tls_fuel : nat).
#[local] Instance shadow_platform : Platform (tls E) := tls_platform tls_fuel.
#[local] Instance shadow_tls_memory : TimeKeepsMemory (tls E) := tls_time_memory tls_fuel.

(** The TLS connection in the world of the client. *)
Definition tls_part (r : around (tls E)) : tls E := fr_world (ar_frames r).
#[local] Instance around_on_tls : OnTls tls_fuel (around (tls E)) tls_part.
Proof.
  split.
  - intros r now r'. cbn. rw /in_around. cbn. rw /in_frames /tls_part.
    destruct (on_env mb_time _) as [[x w]|]; [|done]. by intros [= <- <-].
  - intros bs n t r x r'. change (net_write bs n t r) with (in_around (net_write bs n t) r). rw /in_around.
    change (net_write bs n t (ar_frames r)) with (in_frames (net_write bs n t) (ar_frames r)). rw /in_frames /tls_part.
      destruct (net_write bs n t (fr_world (ar_frames r))) as [[y w]|]; [|done]. by intros [= <- <-].
Qed.

Context `{!Indeterminate (tls E)} (fuel : nat) (app : Application (around (tls E))).

Lemma length_printed text : (length (printed MAX_SHADOW_TOPIC_LENGTH_BYTES text) < 80)%nat.
Proof. rw /printed length_take /MAX_SHADOW_TOPIC_LENGTH_BYTES. lia. Qed.

Lemma length_publish_qos0 id topic text : Z.of_nat (length (publish_body QOS0 id topic text)) = Z.of_nat (2 + length topic + length text).
Proof. rw /publish_body length_app length_utf8_bytes length_app. cbn. lia. Qed.
Lemma final_length_small n : 0 <= n <= 508 ->
  aws_iot_mqtt_internal_get_final_packet_length_from_remaining_length n < AWS_IOT_MQTT_TX_BUF_LEN.
Proof.
  intros Hn. rw /aws_iot_mqtt_internal_get_final_packet_length_from_remaining_length /AWS_IOT_MQTT_TX_BUF_LEN (u32_small (n + 1)); [|width].
  repeat case_match; rw u32_small; width.
Qed.

(** The message of the shadow is a request the client can send. *)
Lemma shadow_publish_request topic text (s : sys (around (tls E))) w :
  let n := length (fr_stack (ar_frames (world s))) in
  let s2 := upd_frames (push_frame (text ++ [0])) (upd_frames (push_frame (topic ++ [0])) s) in
  let d := App (stack_address (S n)) in
  client_ok (client s) -> (length topic < 80)%nat -> (length topic + length text < 507)%nat ->
  publish_request s2 (App (stack_address n)) (strlen16 topic)
    (with_retain_bit (message_of w (MkMsg QOS0 None None None text) d)) topic text.
Proof.
  intros n s2 d Hok Htopic Hfit.
  assert (Hsrc : sys_source s2 (App (stack_address n)) = Some (topic ++ [0]) /\ sys_source s2 d = Some (text ++ [0])).
  { rw /sys_source /s2 /d /deref. change (app_memory ?r) with (around_memory r). rw !around_stack.
    cbn [upd_frames world ar_frames push_frame fr_stack]. split.
    - rw lookup_app_l; [by rw list_lookup_middle|]. rw length_app /=. lia.
    - rw list_lookup_middle; [done|]. rw length_app /=. lia. }
  assert (Hlen : strlen16 topic = Z.of_nat (length topic)) by (rw /strlen16 u16_small; width).
  split.
  - exact Hok.
  - cbn [with_retain_bit message_of msg_qos msg_payload msg_payloadLen sm_payload]. split.
    + split; [exact Hlen|]. exists [0]%Z. apply Hsrc.
    + rw Hlen. width.
    + split; [done|]. exists [0]%Z. apply Hsrc.
    + width.
    + done.
    + by left.
    + rw /with_id. cbn. apply un_id_range.
  - cbn. rw /retain_bit. by case_match.
  - change (msg_qos _) with QOS0. rw length_publish_qos0. apply final_length_small. lia.
Qed.

(** A publish of the shadow on a client that is idle, or within a handler. *)
Lemma shadow_publish_sent topic text (s s' : ssys (sys (frames (tls E)))) : (0 < fuel)%nat ->
  let c := client (mq s) in let c' := fr_world (world (mq s')) in
  client_ok c -> can_publish (clientState (clientStatus c)) ->
  (0 < length topic < 80)%nat -> (length topic + length text < 507)%nat ->
  mqtt_publish (Mqtt := client_mqtt fuel app) TheClient topic (MkMsg QOS0 None None None text) s = Ret (SUCCESS, s') ->
  exists now, usecs now = ml_clock (tls_env (fr_world (world (mq s)))) /\
    (~ late (countdown_ms now (commandTimeoutMs (clientData c))) (tls_env c') ->
     sent_bytes c' = sent_bytes (fr_world (world (mq s))) ++
       publish_packet 0 QOS0 (retain_bit (un_isRetained (fr_world (world (mq s))))) 0 topic text).
Proof.
  intros Hf c c' Hok Hst [Hpos Htopic] Hfit Hrun. cbn [mqtt_publish client_mqtt] in Hrun. rw /on_client in Hrun.
  destruct (with_local (topic ++ [0]) _ (client_view s)) as [[rc v]|] eqn:Hlocal; [|done]. injection Hrun as -> <-.
  apply with_local_inv in Hlocal as (v1 & Hlocal & Hc1 & _ & Hw1).
  apply with_local_inv in Hlocal as (v2 & Hlocal & Hc2 & _ & Hw2).
  apply bind_inv in Hlocal as (f & s0 & Hg & Hrun). injection Hg as <- <-.
  apply bind_inv in Hrun as ([rc p] & s1 & Hrun & Hret). injection Hret as Hrc <-. cbn [fst] in Hrc. subst rc.
  apply publish_retain in Hrun as [p' Hrun]; [|done].
  assert (Hlen : strlen16 topic = Z.of_nat (length topic)) by (rw /strlen16 u16_small; width).
  set (w := fr_world (world (mq s))) in *.
  pose proof (shadow_publish_request topic text (client_view s) w Hok Htopic Hfit) as Hreq.
  assert (Hne : 0 <> strlen16 topic) by lia.
  assert (Hn : length (fr_stack (ar_frames (world (upd_frames (push_frame (topic ++ [0])) (client_view s))))) =
    S (length (fr_stack (ar_frames (world (client_view s)))))) by (cbn; rw length_app; cbn; lia).
  rw Hn in Hrun.
  assert (Hnull : App (stack_address (length (fr_stack (ar_frames (world (client_view s)))))) <> NULL) by discriminate.
  destruct (publish_sent tls_fuel tls_part fuel _ _ _ _ _ p' topic text Hf (Hst : can_publish (clientState (clientStatus (client
    (upd_frames (push_frame (text ++ [0])) (upd_frames (push_frame (topic ++ [0])) (client_view s))))))) Hnull Hne
    (eq_refl : msg_qos (with_retain_bit (message_of w (MkMsg QOS0 None None None text)
      (App (stack_address (S (length (fr_stack (ar_frames (world (client_view s)))))))))) = QOS0) Hreq Hrun) as (now & Hnow & Hsent). exists now. split; [exact Hnow|]. intros Hlate.
  assert (Hw : tls_part (world s1) = c') by (by rw /c' /tls_part /=; congruence).
  rw Hw in Hsent. rw (Hsent Hlate). done.
Qed.

End tls.

Lemma topic_not_empty thing action kind : (0 < length (topicNameFromThingAndAction thing action kind) < 80)%nat.
Proof.
  rw /topicNameFromThingAndAction. split; [|apply length_printed].
  rw /printed length_take /topic_text length_app. change (length (bytes "$aws/things/")) with 12%nat.
  rw /MAX_SHADOW_TOPIC_LENGTH_BYTES. lia.
Qed.

(** ** Requests without a callback *)

Section requests.
Context {C : Type} `{!Mqtt C} `{!ShadowApp C} `{!MqttConnection C}.

(** Such a request is one publish; of the shadow, only the parsed tokens are different. *)
Lemma action_without_callback wf name action doc ctx z sticky (s s' : ssys C) :
  aws_iot_shadow_internal_action wf (Some name) action (Some doc) None ctx z sticky s = Ret (SUCCESS, s') ->
  exists thing text j, cstring name = Some thing /\ cstring doc = Some text /\
    mqtt_publish (pMqttClient (sh s)) (topicNameFromThingAndAction thing action SHADOW_ACTION)
      (MkMsg QOS0 None None None text) (Ssys (set_json (sh s) j) (mq s)) = Ret (SUCCESS, s').
Proof.
  intros Hrun. rw /aws_iot_shadow_internal_action in Hrun. apply bind_inv in Hrun as (t & s1 & Ht & Hrun).
  rw /on_json in Ht. destruct (extractClientToken _ _ _) as [[t' j]|]; [|done]. injection Ht as -> <-.
  assert (Hw : (match t, @None Z with Some t, Some f => Some (t, f) | _, _ => None end) = None) by (by destruct t).
  rw Hw in Hrun. apply bind_inv in Hrun as ([rc slot] & s2 & Hr & Hrun). injection Hr as <- <- <-.
  rw /publishToShadowAction in Hrun. apply bind_inv in Hrun as (rc & s2 & Hp & Hrun). injection Hrun as -> <-.
  apply bind_inv in Hp as (thing & s3 & Hthing & Hp). rw /lift_text in Hthing.
  destruct (cstring name) as [thing'|]; [|done]. injection Hthing as -> <-.
  apply bind_inv in Hp as (text & s3 & Htext & Hp). rw /lift_text in Htext.
  destruct (cstring doc) as [text'|]; [|done]. injection Htext as -> <-.
  apply bind_inv in Hp as (x & s3 & Hx & Hp). injection Hx as <- <-. by exists thing, text, j.
Qed.
End requests.

(** ** Properties *)

(** C28: an update without a callback over TLS. When it returns success within the
    command timeout, the TLS library has accepted exactly one MQTT message behind what it
    had accepted before: the document, published to the update topic of the thing. *)
Theorem update_over_tls {E} `{!Mbedtls E} `{!MbedtlsLaws E} `{!Indeterminate (tls E)}
    `{!ShadowApp (sys (frames (tls E)))} `{!ShadowUser (tls E)}
    scan_float scan_double tls_fuel fuel n wf name thing doc text ctx z sticky (s s' : ssys (sys (frames (tls E)))) :
  let P := tls_platform tls_fuel in
  let M := stack_mqtt scan_float scan_double fuel n in let K := stack_connection scan_float scan_double fuel n in
  let c := client (mq s) in let w := fr_world (world (mq s)) in let w' := fr_world (world (mq s')) in
  let topic := topicNameFromThingAndAction thing SHADOW_UPDATE SHADOW_ACTION in
  (0 < fuel)%nat -> pMqttClient (sh s) = TheClient -> client_ok c -> can_publish (clientState (clientStatus c)) ->
  cstring name = Some thing -> cstring doc = Some text -> (length topic + length text < 507)%nat ->
  aws_iot_shadow_update wf TheClient (Some name) (Some doc) None ctx z sticky s = Ret (SUCCESS, s') ->
  exists now, usecs now = ml_clock (tls_env w) /\
    (~ late (countdown_ms now (commandTimeoutMs (clientData c))) (tls_env w') ->
     sent_bytes w' = sent_bytes w ++ publish_packet 0 QOS0 (retain_bit (un_isRetained w)) 0 topic text).
Proof.
  intros P M K c w w' topic Hf Hp Hok Hst Hname Hdoc Hfit Hrun. rw /aws_iot_shadow_update /when_connected in Hrun.
  apply bind_inv in Hrun as (b & s0 & Hb & Hrun).
  assert (s0 = s) as -> by (injection Hb as _ <-; by destruct s as [h [? ?]]).
  destruct b; [|discriminate Hrun].
  apply action_without_callback in Hrun as (thing' & text' & j & Hname' & Hdoc' & Hrun).
  rw Hname in Hname'. rw Hdoc in Hdoc'. injection Hname' as <-. injection Hdoc' as <-. rw Hp in Hrun.
  exact (shadow_publish_sent tls_fuel fuel (stack_app scan_float scan_double fuel n) topic text
    (Ssys (set_json (sh s) j) (mq s)) s' Hf Hok Hst (topic_not_empty _ _ _) Hfit Hrun).
Qed.

(** ** A run on the simulated library *)

Module TlsDemo.
#[global] Instance app : ShadowApp (sys (frames (tls mbed_sim))) := {
  action_callback f thing a st doc ctx := mret tt; delta_callback f v n i := mret tt }.
#[global] Instance user : ShadowUser (tls mbed_sim) := { user_handler f p n msg d := mret msg; user_disconnect f d := mret tt }.
#[global] Instance indeterminate : Indeterminate (tls mbed_sim) := {
  un_isRetained w := 204; un_isDup w := 204; un_id w := 0; un_packetTimeout w := 5000; un_disconnectData w := NULL;
  un_id_range w := conj (Z.le_refl 0) eq_refl }.
Definition connected : ssys (sys (frames (tls mbed_sim))) :=
  Ssys (set_pMqttClient (static_shadow []) TheClient)
    (Sys (sim_client CLIENT_STATE_CONNECTED_IDLE []) (Frames [] [] (tls_demo 20 [] []))).
Definition document : list Z := bytes "{}".
Definition no_scan (l : list Z) : option (list Z) := None.
End TlsDemo.

(** The empty document for the thing "lamp". *)
Lemma update_over_tls_witness :
  let P := tls_platform (E := mbed_sim) 10 in
  let M := stack_mqtt TlsDemo.no_scan TlsDemo.no_scan 10 1 in let K := stack_connection TlsDemo.no_scan TlsDemo.no_scan 10 1 in
  exists s', aws_iot_shadow_update 5 TheClient (Some (bytes "lamp" ++ [0])) (Some (TlsDemo.document ++ [0])) None NULL 10 false
      TlsDemo.connected = Ret (SUCCESS, s') /\
    exists now, usecs now = 5000000 /\
      (~ late (countdown_ms now 20000) (tls_env (fr_world (world (mq s')))) ->
       sent_bytes (fr_world (world (mq s'))) =
         [48; 34; 0; 30] ++ bytes "$aws/things/lamp/shadow/update" ++ bytes "{}").
Proof.
  intros P M K. set (run := aws_iot_shadow_update _ _ _ _ _ _ _ _ _).
  assert (Hrun : exists s', run = Ret (SUCCESS, s')).
  { assert (Hok : match run with Ret (rc, _) => bool_decide (rc = SUCCESS) | Exn _ => false end = true) by (vm_compute; reflexivity).
    destruct run as [[rc s']|]; [|discriminate Hok]. apply bool_decide_eq_true in Hok as ->. by exists s'. }
  destruct Hrun as [s' Hrun]. exists s'. split; [exact Hrun|]. subst run.
  destruct (update_over_tls TlsDemo.no_scan TlsDemo.no_scan 10 10 1 5 (bytes "lamp" ++ [0]) (bytes "lamp") (TlsDemo.document ++ [0])
    TlsDemo.document NULL 10 false TlsDemo.connected s' (Nat.lt_0_succ 9) eq_refl (sim_client_ok _ _) (or_introl eq_refl)
    eq_refl eq_refl ltac:(vm_compute; lia) Hrun) as (now & Hu & Hsent).
  exists now. split; [exact Hu|]. intros Hl. rw (Hsent Hl). reflexivity.
Defined.
