(* ===== verification/Threads.v ===== *)
(** * The client with thread support

    The build with [_ENABLE_THREAD_SUPPORT_]: the mutexes of
    [platform/linux/pthread/threads_pthread_wrapper.c], the locked parts of
    [src/aws_iot_mqtt_client.c] and [src/aws_iot_mqtt_client_common_internal.c], and the
    operations that compete for the client. The functions that differ from those of the
    build without threads carry the suffix [_mt]; their pointers are not null.

    A thread is a program whose instructions are the accesses to what threads share;
    what the network answers is an argument of the program. The threads of a client run
    interleaved, an instruction at a time.

    The theorems are about threads that each publish, subscribe or yield once on an idle
    client, while no message arrives and the connection stays: whatever the schedule, the
    accesses of the calls to the buffers and the network are not mixed, there is no
    deadlock, and the client ends idle when the threads block on the mutexes. The examples
    at the end are schedules that break this for what the theorems exclude: mutexes that
    do not block, two unsubscribes, and messages. *)
From stdpp Require Import functions relations well_founded.
From S2P Require Import Prelude Types Client.

(** ** Programs *)

(** The mutexes of the client. *)
Inductive mutex := state_change_mutex | tls_read_mutex | tls_write_mutex.
#[export] Instance mutex_eq_dec : EqDecision mutex.
Proof. solve_decision. Defined.

(** The instructions: calls of the pthread library, whose result is passed on, accesses to
    the client state and to [isBlockOnThreadLockEnabled], and one access to the buffers or
    the network connection of the client. *)
Inductive prog (A : Type) : Type :=
  | Return (a : A)
  | PthreadInit (m : mutex) (k : Z -> prog A)
  | PthreadLock (m : mutex) (k : Z -> prog A)
  | PthreadTrylock (m : mutex) (k : Z -> prog A)
  | PthreadUnlock (m : mutex) (k : Z -> prog A)
  | PthreadDestroy (m : mutex) (k : Z -> prog A)
  | ReadState (k : ClientState -> prog A)
  | WriteState (st : ClientState) (k : prog A)
  | ReadBlocking (k : bool -> prog A)
  | WriteBlocking (b : bool) (k : prog A)
  | Use (k : prog A).
Arguments Return {A} a.
Arguments PthreadInit {A} m k.
Arguments PthreadLock {A} m k.
Arguments PthreadTrylock {A} m k.
Arguments PthreadUnlock {A} m k.
Arguments PthreadDestroy {A} m k.
Arguments ReadState {A} k.
Arguments WriteState {A} st k.
Arguments ReadBlocking {A} k.
Arguments WriteBlocking {A} b k.
Arguments Use {A} k.

#[export] Instance prog_ret : MRet prog := @Return.
Fixpoint prog_bind_go {A B} (f : A -> prog B) (p : prog A) : prog B :=
  match p with
  | Return a => f a
  | PthreadInit m k => PthreadInit m (fun z => prog_bind_go f (k z))
  | PthreadLock m k => PthreadLock m (fun z => prog_bind_go f (k z))
  | PthreadTrylock m k => PthreadTrylock m (fun z => prog_bind_go f (k z))
  | PthreadUnlock m k => PthreadUnlock m (fun z => prog_bind_go f (k z))
  | PthreadDestroy m k => PthreadDestroy m (fun z => prog_bind_go f (k z))
  | ReadState k => ReadState (fun st => prog_bind_go f (k st))
  | WriteState st k => WriteState st (prog_bind_go f k)
  | ReadBlocking k => ReadBlocking (fun b => prog_bind_go f (k b))
  | WriteBlocking b k => WriteBlocking b (prog_bind_go f k)
  | Use k => Use (prog_bind_go f k)
  end.
#[export] Instance prog_bind : MBind prog := @prog_bind_go.

(** [n] accesses to the buffers and the network. *)
Fixpoint uses (n : nat) : prog unit :=
  match n with O => mret tt | S n' => Use (uses n') end.

(** ** The mutex wrapper *)

Definition aws_iot_thread_mutex_init (m : mutex) : prog IoT_Error_t :=
  rc ← PthreadInit m Return;
  mret (if decide (0 <> rc) then MUTEX_INIT_ERROR else SUCCESS).
Definition aws_iot_thread_mutex_lock (m : mutex) : prog IoT_Error_t :=
  rc ← PthreadLock m Return;
  mret (if decide (0 <> rc) then MUTEX_LOCK_ERROR else SUCCESS).
Definition aws_iot_thread_mutex_trylock (m : mutex) : prog IoT_Error_t :=
  rc ← PthreadTrylock m Return;
  mret (if decide (0 <> rc) then MUTEX_LOCK_ERROR else SUCCESS).
Definition aws_iot_thread_mutex_unlock (m : mutex) : prog IoT_Error_t :=
  rc ← PthreadUnlock m Return;
  mret (if decide (0 <> rc) then MUTEX_UNLOCK_ERROR else SUCCESS).
Definition aws_iot_thread_mutex_destroy (m : mutex) : prog IoT_Error_t :=
  rc ← PthreadDestroy m Return;
  mret (if decide (0 <> rc) then MUTEX_DESTROY_ERROR else SUCCESS).

(** ** The locked parts of the client *)

Definition aws_iot_mqtt_client_lock_mutex (m : mutex) : prog IoT_Error_t :=
  b ← ReadBlocking Return;
  threadRc ← (if b : bool then aws_iot_thread_mutex_lock m else aws_iot_thread_mutex_trylock m);
  mret (if decide (SUCCESS <> threadRc) then threadRc else SUCCESS).
Definition aws_iot_mqtt_client_unlock_mutex (m : mutex) : prog IoT_Error_t :=
  aws_iot_thread_mutex_unlock m.

(** The part of [aws_iot_mqtt_init] that thread support adds. *)
Definition init_mutexes (isBlockOnThreadLockEnabled : bool) : prog IoT_Error_t :=
  _ ← WriteBlocking isBlockOnThreadLockEnabled (Return tt);
  rc ← aws_iot_thread_mutex_init state_change_mutex;
  if decide (SUCCESS <> rc) then mret rc
  else
    rc ← aws_iot_thread_mutex_init tls_read_mutex;
    if decide (SUCCESS <> rc) then mret rc
    else
      rc ← aws_iot_thread_mutex_init tls_write_mutex;
      if decide (SUCCESS <> rc) then mret rc else mret SUCCESS.

Definition set_client_state_mt (expectedCurrentState newState : ClientState) : prog IoT_Error_t :=
  rc ← aws_iot_mqtt_client_lock_mutex state_change_mutex;
  if decide (SUCCESS <> rc) then mret rc
  else
    st ← ReadState Return;
    rc ← (if decide (expectedCurrentState = st) then WriteState newState (Return SUCCESS)
          else mret MQTT_UNEXPECTED_CLIENT_STATE_ERROR);
    threadRc ← aws_iot_mqtt_client_unlock_mutex state_change_mutex;
    mret (if decide (SUCCESS = rc /\ SUCCESS <> threadRc) then threadRc else rc).

(** The writes of the network: their return codes and numbers of bytes, until the timer
    expires. *)
Fixpoint send_loop_mt (length sent : Z) (writes : list (IoT_Error_t * Z)) : prog Z :=
  if decide (sent < length) then
    match writes with
    | [] => mret sent
    | (rc, sentLen) :: writes' =>
        Use (if decide (SUCCESS <> rc) then mret sent
             else send_loop_mt length (size_t (sent + sentLen)) writes')
    end
  else mret sent.
Definition send_packet_mt (writeBufSize length : Z) (writes : list (IoT_Error_t * Z)) : prog IoT_Error_t :=
  if decide (length >= writeBufSize) then mret MQTT_TX_BUFFER_TOO_SHORT_ERROR
  else
    rc ← aws_iot_mqtt_client_lock_mutex tls_write_mutex;
    if decide (SUCCESS <> rc) then mret rc
    else
      sent ← send_loop_mt length 0 writes;
      rc ← aws_iot_mqtt_client_unlock_mutex tls_write_mutex;
      if decide (SUCCESS <> rc) then mret rc
      else mret (if decide (sent = length) then SUCCESS else FAILURE).

(** The delivery of a message; [handlers] are the calls of the handlers registered for its
    topic. *)
Definition deliver_message_mt (handlers : prog unit) : prog IoT_Error_t :=
  clientState ← ReadState Return;
  _ ← set_client_state_mt clientState CLIENT_STATE_CONNECTED_WAIT_FOR_CB_RETURN;
  _ ← handlers;
  set_client_state_mt CLIENT_STATE_CONNECTED_WAIT_FOR_CB_RETURN clientState.

Definition handle_publish_mt (deserialized : IoT_Error_t) (handlers : prog unit) (qos1 : bool) (size : Z)
    (serialized : IoT_Error_t * Z) (writes : list (IoT_Error_t * Z)) : prog IoT_Error_t :=
  _ ← uses 1;
  if decide (SUCCESS <> deserialized) then mret deserialized
  else
    rc ← deliver_message_mt handlers;
    if decide (SUCCESS <> rc) then mret rc
    else if negb qos1 then mret SUCCESS
    else
      _ ← uses 1;
      if decide (SUCCESS <> serialized.1) then mret serialized.1
      else
        rc ← send_packet_mt size serialized.2 writes;
        if decide (SUCCESS <> rc) then mret rc else mret SUCCESS.

(** A packet of the network: the number of accesses it takes to read it, without the
    first, the result of reading it, its type, and what a PUBLISH packet leads to
    ([_aws_iot_mqtt_internal_handle_publish]). *)
Record packet := Packet {
  accesses : nat;
  read_rc : IoT_Error_t;
  packet_type : Z;
  handle_publish : prog IoT_Error_t;
}.

Definition dispatch_packet_mt (p : packet) : prog IoT_Error_t :=
  if decide (packet_type p ∈ [MessageTypes_val CONNACK; MessageTypes_val PUBACK;
                              MessageTypes_val SUBACK; MessageTypes_val UNSUBACK])
  then mret (read_rc p)
  else if decide (packet_type p = MessageTypes_val PUBLISH) then handle_publish p
  else if decide (packet_type p ∈ [MessageTypes_val PUBREC; MessageTypes_val PUBCOMP])
  then mret (read_rc p)
  else if decide (packet_type p = MessageTypes_val PINGRESP) then Use (mret (read_rc p))
  else mret MQTT_RX_MESSAGE_PACKET_TYPE_INVALID_ERROR.

(** The results are the return code and [*pPacketType], which only a packet that was read
    changes. *)
Definition cycle_read_mt (p : packet) (pPacketType : Z) : prog (IoT_Error_t * Z) :=
  threadRc ← aws_iot_mqtt_client_lock_mutex tls_read_mutex;
  if decide (SUCCESS <> threadRc) then mret (threadRc, pPacketType)
  else
    _ ← uses (S (accesses p));
    let rc := read_rc p in
    let packetType := if decide (SUCCESS = rc) then packet_type p else pPacketType in
    threadRc ← aws_iot_mqtt_client_unlock_mutex tls_read_mutex;
    if decide (SUCCESS <> threadRc /\ (MQTT_NOTHING_TO_READ = rc \/ SUCCESS = rc)) then mret (threadRc, packetType)
    else if decide (MQTT_NOTHING_TO_READ = rc) then mret (SUCCESS, packetType)
    else if decide (SUCCESS <> rc) then mret (rc, packetType)
    else rc ← dispatch_packet_mt p; mret (rc, packetType).

(** The wait: the timer expires behind the packets. *)
Fixpoint wait_loop_mt (packetType : Z) (ps : list packet) (read_packet_type : Z) : prog (IoT_Error_t * Z) :=
  match ps with
  | [] => mret (MQTT_REQUEST_TIMEOUT_ERROR, read_packet_type)
  | p :: ps' =>
      '(rc, read_packet_type) ← cycle_read_mt p read_packet_type;
      if decide (NETWORK_DISCONNECTED_ERROR <> rc /\ read_packet_type <> packetType)
      then wait_loop_mt packetType ps' read_packet_type
      else mret (rc, read_packet_type)
  end.
Definition wait_for_read_mt (packetType : Z) (ps : list packet) : prog IoT_Error_t :=
  '(rc, read_packet_type) ← wait_loop_mt packetType ps 0;
  mret (if decide (MQTT_REQUEST_TIMEOUT_ERROR <> rc /\ NETWORK_DISCONNECTED_ERROR <> rc /\
                   read_packet_type <> packetType)
        then FAILURE else rc).

(** ** Operations *)

Definition is_client_connected_mt : prog bool := st ← ReadState Return; mret (connected_state st).

(** What the operations have in common: the client is in the state [X] while their internal
    function runs; [refused] is what they do when the first change of the state fails. *)
Definition guarded (X : ClientState) (internal : prog IoT_Error_t)
    (refused : ClientState -> IoT_Error_t -> prog IoT_Error_t) : prog IoT_Error_t :=
  connected ← is_client_connected_mt;
  if negb connected then mret NETWORK_DISCONNECTED_ERROR
  else
    clientState ← ReadState Return;
    if decide (CLIENT_STATE_CONNECTED_IDLE <> clientState /\ CLIENT_STATE_CONNECTED_WAIT_FOR_CB_RETURN <> clientState)
    then mret MQTT_CLIENT_NOT_IDLE_ERROR
    else
      rc ← set_client_state_mt clientState X;
      if decide (SUCCESS <> rc) then refused clientState rc
      else
        opRc ← internal;
        rc ← set_client_state_mt X clientState;
        mret (if decide (SUCCESS = opRc /\ SUCCESS <> rc) then rc else opRc).
Definition publish_mt (internal : prog IoT_Error_t) : prog IoT_Error_t :=
  guarded CLIENT_STATE_CONNECTED_PUBLISH_IN_PROGRESS internal (fun _ rc => mret rc).
Definition subscribe_mt (internal : prog IoT_Error_t) : prog IoT_Error_t :=
  guarded CLIENT_STATE_CONNECTED_SUBSCRIBE_IN_PROGRESS internal (fun _ rc => mret rc).
Definition unsubscribe_mt (internal : prog IoT_Error_t) : prog IoT_Error_t :=
  guarded CLIENT_STATE_CONNECTED_UNSUBSCRIBE_IN_PROGRESS internal
    (fun clientState _ => set_client_state_mt CLIENT_STATE_CONNECTED_UNSUBSCRIBE_IN_PROGRESS clientState).

(** A yield with a nonzero timeout. *)
Definition yield_mt (internal : prog IoT_Error_t) : prog IoT_Error_t :=
  clientState ← ReadState Return;
  if decide (CLIENT_STATE_DISCONNECTED_MANUALLY = clientState) then mret NETWORK_MANUALLY_DISCONNECTED
  else
    let run :=
      yieldRc ← internal;
      if decide (NETWORK_DISCONNECTED_ERROR <> yieldRc /\ NETWORK_ATTEMPTING_RECONNECT <> yieldRc) then
        rc ← set_client_state_mt CLIENT_STATE_CONNECTED_YIELD_IN_PROGRESS CLIENT_STATE_CONNECTED_IDLE;
        mret (if decide (SUCCESS = yieldRc /\ SUCCESS <> rc) then rc else yieldRc)
      else mret yieldRc in
    if decide (CLIENT_STATE_PENDING_RECONNECT <> clientState) then
      connected ← is_client_connected_mt;
      if negb connected then mret NETWORK_DISCONNECTED_ERROR
      else if decide (CLIENT_STATE_CONNECTED_IDLE <> clientState) then mret MQTT_CLIENT_NOT_IDLE_ERROR
      else
        rc ← set_client_state_mt CLIENT_STATE_CONNECTED_IDLE CLIENT_STATE_CONNECTED_YIELD_IN_PROGRESS;
        if decide (SUCCESS <> rc) then mret rc else run
    else run.

(** A round of the loop of a yield: the packet it reads, what the keep-alive does, and
    whether the wait before a reconnection has reached its maximum. *)
Inductive keep_alive := NotDue | PingOutstanding | SendPing (serialized : IoT_Error_t * Z) (writes : list (IoT_Error_t * Z)).
Record round := Round { round_packet : packet; round_keep_alive : keep_alive; round_timed_out : bool }.

Definition keep_alive_mt (size : Z) (handle_disconnect : prog IoT_Error_t) (ka : keep_alive) : prog IoT_Error_t :=
  match ka with
  | NotDue => mret SUCCESS
  | PingOutstanding => handle_disconnect
  | SendPing serialized writes =>
      _ ← uses 1;
      if decide (SUCCESS <> serialized.1) then mret serialized.1
      else
        rc ← send_packet_mt size serialized.2 writes;
        if decide (SUCCESS <> rc) then handle_disconnect else _ ← uses 1; mret SUCCESS
  end.

(** The timer expires behind the rounds, and not before the first one has ended. *)
Fixpoint yield_loop_mt (size : Z) (isAutoReconnectEnabled : bool)
    (handle_reconnect handle_disconnect : prog IoT_Error_t) (rounds : list round) (yieldRc : IoT_Error_t) :
    prog IoT_Error_t :=
  match rounds with
  | [] => mret yieldRc
  | r :: rounds' =>
      let continue := yield_loop_mt size isAutoReconnectEnabled handle_reconnect handle_disconnect rounds' in
      clientState ← ReadState Return;
      if decide (CLIENT_STATE_PENDING_RECONNECT = clientState) then
        if round_timed_out r then mret NETWORK_RECONNECT_TIMED_OUT_ERROR
        else yieldRc ← handle_reconnect; continue yieldRc
      else
        '(yieldRc, _) ← cycle_read_mt (round_packet r) 0;
        yieldRc ← (if decide (SUCCESS = yieldRc) then keep_alive_mt size handle_disconnect (round_keep_alive r)
                   else if decide (yieldRc ∈ [NETWORK_SSL_READ_ERROR; NETWORK_SSL_READ_TIMEOUT_ERROR;
                                              NETWORK_SSL_WRITE_ERROR; NETWORK_SSL_WRITE_TIMEOUT_ERROR])
                   then handle_disconnect
                   else mret yieldRc);
        if decide (NETWORK_DISCONNECTED_ERROR = yieldRc) then
          _ ← uses 1;
          if isAutoReconnectEnabled then
            yieldRc ← set_client_state_mt CLIENT_STATE_DISCONNECTED_ERROR CLIENT_STATE_PENDING_RECONNECT;
            if decide (SUCCESS <> yieldRc) then mret yieldRc
            else _ ← uses 1; continue NETWORK_ATTEMPTING_RECONNECT
          else mret yieldRc
        else if decide (SUCCESS <> yieldRc) then mret yieldRc
        else continue yieldRc
  end.
Definition internal_yield_mt (size : Z) (isAutoReconnectEnabled : bool)
    (handle_reconnect handle_disconnect : prog IoT_Error_t) (first : round) (rounds : list round) : prog IoT_Error_t :=
  yield_loop_mt size isAutoReconnectEnabled handle_reconnect handle_disconnect (first :: rounds) SUCCESS.

(** The other internal functions: [size] is the size of the write buffer, [serialized] the result
    and the length of the packet that is serialized, [room] that the table of the
    subscriptions has a free entry, [found] that it has the topic, [ack] the result of
    deserializing the acknowledgement. *)
Definition internal_publish_mt (size : Z) (qos1 : bool) (serialized : IoT_Error_t * Z)
    (writes : list (IoT_Error_t * Z)) (ps : list packet) (ack : IoT_Error_t) : prog IoT_Error_t :=
  _ ← uses 1;
  if decide (SUCCESS <> serialized.1) then mret serialized.1
  else
    rc ← send_packet_mt size serialized.2 writes;
    if decide (SUCCESS <> rc) then mret rc
    else if qos1 then
      rc ← wait_for_read_mt (MessageTypes_val PUBACK) ps;
      if decide (SUCCESS <> rc) then mret rc
      else
        _ ← uses 1;
        if decide (SUCCESS <> ack) then mret ack else mret SUCCESS
    else mret SUCCESS.
Definition internal_subscribe_mt (size : Z) (serialized : IoT_Error_t * Z) (room : bool)
    (writes : list (IoT_Error_t * Z)) (ps : list packet) (ack : IoT_Error_t) : prog IoT_Error_t :=
  _ ← uses 1;
  if decide (SUCCESS <> serialized.1) then mret serialized.1
  else if negb room then mret MQTT_MAX_SUBSCRIPTIONS_REACHED_ERROR
  else
    rc ← send_packet_mt size serialized.2 writes;
    if decide (SUCCESS <> rc) then mret rc
    else
      rc ← wait_for_read_mt (MessageTypes_val SUBACK) ps;
      if decide (SUCCESS <> rc) then mret rc
      else
        _ ← uses 1;
        if decide (SUCCESS <> ack) then mret ack else _ ← uses 1; mret SUCCESS.
Definition internal_unsubscribe_mt (size : Z) (found : bool) (serialized : IoT_Error_t * Z)
    (writes : list (IoT_Error_t * Z)) (ps : list packet) (ack : IoT_Error_t) : prog IoT_Error_t :=
  _ ← uses 1;
  if negb found then mret FAILURE
  else if decide (SUCCESS <> serialized.1) then mret serialized.1
  else
    rc ← send_packet_mt size serialized.2 writes;
    if decide (SUCCESS <> rc) then mret rc
    else
      rc ← wait_for_read_mt (MessageTypes_val UNSUBACK) ps;
      if decide (SUCCESS <> rc) then mret rc
      else
        _ ← uses 1;
        if decide (SUCCESS <> ack) then mret ack else _ ← uses 1; mret SUCCESS.

(** ** Running threads *)

Inductive mutex_state := Uninitialized | Unlocked | Locked (owner : nat).

(** What the threads share: the state of the client, its mutexes, whether it blocks, what
    initializing a mutex results in, and the threads that accessed the buffers and the
    network so far, in order. *)
Record shared := Shared {
  client_state : ClientState;
  mutexes : mutex -> mutex_state;
  isBlockOnThreadLockEnabled : bool;
  init_result : mutex -> Z;
  trace : list nat;
}.
Definition set_client_state (st : ClientState) (s : shared) :=
  Shared st (mutexes s) (isBlockOnThreadLockEnabled s) (init_result s) (trace s).
Definition set_mutex (m : mutex) (x : mutex_state) (s : shared) :=
  Shared (client_state s) (<[m := x]> (mutexes s)) (isBlockOnThreadLockEnabled s) (init_result s) (trace s).
Definition set_blocking (b : bool) (s : shared) :=
  Shared (client_state s) (mutexes s) b (init_result s) (trace s).
Definition add_access (i : nat) (s : shared) :=
  Shared (client_state s) (mutexes s) (isBlockOnThreadLockEnabled s) (init_result s) (trace s ++ [i]).

Definition EBUSY : Z := 16.

(** What the next instruction of a thread does. The behaviour of the pthread functions is
    that of POSIX; a mutex that is locked by its owner again blocks. *)
Inductive effect (A : Type) := Next (p : prog A) (s : shared) | Blocked | Finished (a : A) | Undefined.
Arguments Next {A} p s.
Arguments Blocked {A}.
Arguments Finished {A} a.
Arguments Undefined {A}.

Definition exec {A} (i : nat) (p : prog A) (s : shared) : effect A :=
  match p with
  | Return a => Finished a
  | PthreadInit m k =>
      match mutexes s m with
      | Uninitialized => Next (k (init_result s m)) (if decide (init_result s m = 0) then set_mutex m Unlocked s else s)
      | _ => Undefined
      end
  | PthreadLock m k =>
      match mutexes s m with
      | Uninitialized => Undefined
      | Unlocked => Next (k 0) (set_mutex m (Locked i) s)
      | Locked _ => Blocked
      end
  | PthreadTrylock m k =>
      match mutexes s m with
      | Uninitialized => Undefined
      | Unlocked => Next (k 0) (set_mutex m (Locked i) s)
      | Locked _ => Next (k EBUSY) s
      end
  | PthreadUnlock m k =>
      match mutexes s m with
      | Locked j => if decide (i = j) then Next (k 0) (set_mutex m Unlocked s) else Undefined
      | _ => Undefined
      end
  | PthreadDestroy m k =>
      match mutexes s m with
      | Unlocked => Next (k 0) (set_mutex m Uninitialized s)
      | _ => Undefined
      end
  | ReadState k => Next (k (client_state s)) s
  | WriteState st k => Next k (set_client_state st s)
  | ReadBlocking k => Next (k (isBlockOnThreadLockEnabled s)) s
  | WriteBlocking b k => Next k (set_blocking b s)
  | Use k => Next k (add_access i s)
  end.

Definition config : Type := shared * list (prog IoT_Error_t).

Inductive step : config -> config -> Prop :=
  | step_thread s pool i p p' s' :
      pool !! i = Some p -> exec i p s = Next p' s' ->
      step (s, pool) (s', <[i := p']> pool).

(** Running the threads of a schedule, one instruction for each of its entries. *)
Fixpoint run_schedule (sched : list nat) (c : config) : option config :=
  match sched with
  | [] => Some c
  | i :: sched' =>
      p ← c.2 !! i;
      match exec i p c.1 with
      | Next p' s' => run_schedule sched' (s', <[i := p']> c.2)
      | _ => None
      end
  end.

Definition results (pool : list (prog IoT_Error_t)) : list (option IoT_Error_t) :=
  (fun p => match p with Return rc => Some rc | _ => None end) <$> pool.

(** A connected client that nobody uses. *)
Definition idle_client (blocking : bool) : shared :=
  Shared CLIENT_STATE_CONNECTED_IDLE (fun _ => Unlocked) blocking (fun _ => 0) [].

(** The schedule language is sound: what a schedule reaches is reachable. *)
Lemma run_schedule_reachable sched c c' : run_schedule sched c = Some c' -> rtc step c c'.
Proof.
  revert c. induction sched as [|i sched IH]; intros [s pool]; cbn [run_schedule]; [by intros [= ->]|].
  cbn [fst snd]. destruct (pool !! i) as [p|] eqn:Hp; [|done]. cbn [mbind option_bind].
  destruct (exec i p s) eqn:Hx; intros H; try done.
  eapply rtc_l; [by econstructor|]. by apply IH.
Qed.

(** ** What a thread may do

    A thread holds at most one mutex, and the client belongs to the thread that changed the
    state from idle to that of its operation, until it changes it back. *)
Inductive phase := Before | Inside (X : ClientState) (used : bool) | After (used : bool).
Record view := View { held : option mutex; known : option ClientState; stage : phase }.

(** The states in which an operation has the client. *)
Definition busy (st : ClientState) : bool :=
  match st with
  | CLIENT_STATE_CONNECTED_YIELD_IN_PROGRESS | CLIENT_STATE_CONNECTED_PUBLISH_IN_PROGRESS
  | CLIENT_STATE_CONNECTED_SUBSCRIBE_IN_PROGRESS => true
  | _ => false
  end.
(** The states a thread can read. *)
Definition can_read (v : view) (st : ClientState) : Prop :=
  (st = CLIENT_STATE_CONNECTED_IDLE \/ busy st = true) /\
  (forall X u, stage v = Inside X u -> st = X) /\ (forall x, known v = Some x -> st = x).

(** [safe blocking v Q p]: from the view [v] the program keeps to the protocol, and the
    view and the result it ends with satisfy [Q]. *)
Fixpoint safe {A} (blocking : bool) (v : view) (Q : view -> A -> Prop) (p : prog A) : Prop :=
  match p with
  | Return a => Q v a
  | PthreadInit _ _ | PthreadDestroy _ _ | WriteBlocking _ _ => False
  | PthreadLock m k => held v = None /\ safe blocking (View (Some m) None (stage v)) Q (k 0)
  | PthreadTrylock m k =>
      held v = None /\ safe blocking (View (Some m) None (stage v)) Q (k 0) /\ safe blocking v Q (k EBUSY)
  | PthreadUnlock m k => held v = Some m /\ safe blocking (View None None (stage v)) Q (k 0)
  | ReadState k =>
      forall st, can_read v st ->
        safe blocking (View (held v) (if decide (held v = Some state_change_mutex) then Some st else None) (stage v)) Q (k st)
  | WriteState st k =>
      held v = Some state_change_mutex /\
      match stage v with
      | Before => known v = Some CLIENT_STATE_CONNECTED_IDLE /\ busy st = true /\
                  safe blocking (View (held v) None (Inside st false)) Q k
      | Inside _ u => st = CLIENT_STATE_CONNECTED_IDLE /\ safe blocking (View (held v) None (After u)) Q k
      | After _ => False
      end
  | ReadBlocking k => safe blocking v Q (k blocking)
  | Use k =>
      match stage v with
      | Inside X _ => safe blocking (View (held v) (known v) (Inside X true)) Q k
      | _ => False
      end
  end.

Lemma safe_bind {A B} b v (Q : view -> B -> Prop) (f : A -> prog B) p :
  safe b v (fun v' a => safe b v' Q (f a)) p -> safe b v Q (p ≫= f).
Proof.
  rw /mbind /prog_bind. revert v. induction p; intros v; cbn [safe prog_bind_go]; try done.
  - intros []. auto.
  - intros (? & ? & ?). auto.
  - intros []. auto.
  - intros Hp st Hst. auto.
  - intros [? Hp]. split; [done|]. destruct (stage v); [destruct Hp as (? & ? & ?); auto|destruct Hp; auto|done].
  - auto.
  - destruct (stage v); try done. auto.
Qed.
Lemma safe_mono {A} b v (Q Q' : view -> A -> Prop) p :
  (forall v' a, Q v' a -> Q' v' a) -> safe b v Q p -> safe b v Q' p.
Proof.
  intros HQ. revert v. induction p; intros v; cbn [safe]; try done.
  - by apply HQ.
  - intros []. auto.
  - intros (? & ? & ?). auto.
  - intros []. auto.
  - intros Hp st Hst. auto.
  - intros [? Hp]. split; [done|]. destruct (stage v); [destruct Hp as (? & ? & ?); auto|destruct Hp; auto|done].
  - auto.
  - destruct (stage v); try done. auto.
Qed.
(** The results of the first part decide what the second part starts from. *)
Lemma safe_seq {A B} b v (P : view -> A -> Prop) (Q : view -> B -> Prop) p (f : A -> prog B) :
  safe b v P p -> (forall v' a, P v' a -> safe b v' Q (f a)) -> safe b v Q (p ≫= f).
Proof. intros Hp Hf. apply safe_bind. revert Hp. apply safe_mono. auto. Qed.

(** ** The protocol of the mutexes and the state *)

Lemma safe_lock b m ph (Q : view -> IoT_Error_t -> Prop) :
  Q (View (Some m) None ph) SUCCESS -> (b = false -> Q (View None None ph) MUTEX_LOCK_ERROR) ->
  safe b (View None None ph) Q (aws_iot_mqtt_client_lock_mutex m).
Proof. intros H1 H2. destruct b; cbn; [done|]. split_and!; auto. Qed.
Lemma safe_unlock b m kn ph (Q : view -> IoT_Error_t -> Prop) :
  Q (View None None ph) SUCCESS -> safe b (View (Some m) kn ph) Q (aws_iot_mqtt_client_unlock_mutex m).
Proof. intros H. by cbn. Qed.
Lemma safe_uses b n h ph X u (Q : view -> unit -> Prop) :
  ph = Inside X u -> Q (View h None (Inside X (u || bool_decide (0 < n)%nat))) tt ->
  safe b (View h None ph) Q (uses n).
Proof.
  intros -> HQ. revert u HQ. induction n as [|n IH]; intros u HQ; cbn [uses safe stage held known].
  - cbn in HQ. by rw orb_false_r in HQ.
  - apply IH. cbn. revert HQ. by rw bool_decide_true ?orb_true_r; [|lia].
Qed.

(** Entering and leaving the client. *)
Lemma safe_enter b X (Q : view -> IoT_Error_t -> Prop) :
  busy X = true -> Q (View None None (Inside X false)) SUCCESS ->
  (forall rc, rc <> SUCCESS -> Q (View None None Before) rc) ->
  safe b (View None None Before) Q (set_client_state_mt CLIENT_STATE_CONNECTED_IDLE X).
Proof.
  intros HX Hin Hout. apply safe_bind, safe_lock; [|by intros; apply Hout].
  cbn. intros st _. destruct (decide (CLIENT_STATE_CONNECTED_IDLE = st)) as [<-|]; cbn; [by rw HX|].
  split; [done|]. by apply Hout.
Qed.
Lemma safe_leave b X u (Q : view -> IoT_Error_t -> Prop) :
  Q (View None None (After u)) SUCCESS ->
  (b = false -> Q (View None None (Inside X u)) MUTEX_LOCK_ERROR) ->
  safe b (View None None (Inside X u)) Q (set_client_state_mt X CLIENT_STATE_CONNECTED_IDLE).
Proof.
  intros Hin Hout. apply safe_bind, safe_lock; [|by intros; apply Hout].
  cbn. intros st (_ & HX & _). rw -(HX X u) //. by rw decide_True.
Qed.

(** What an operation asks of its internal function: the client stays with the operation,
    no mutex is kept, and success is not reported without an access. *)
Definition internal_ok (b : bool) (internal : prog IoT_Error_t) : Prop :=
  forall X u, safe b (View None None (Inside X u))
    (fun v rc => exists u', v = View None None (Inside X u') /\ (rc = SUCCESS -> u' = true)) internal.
(** An operation ends without a mutex; with success only if it accessed the client, and,
    when threads block, outside. *)
Definition op_done (b : bool) (v : view) (rc : IoT_Error_t) : Prop :=
  held v = None /\ (rc = SUCCESS -> stage v = After true) /\
  (b = true -> forall X u, stage v <> Inside X u).

Lemma op_done_error b rc : rc <> SUCCESS -> op_done b (View None None Before) rc.
Proof. by intros. Qed.

(** The end of an operation: the state is restored. *)
Lemma safe_restore b X u opRc :
  (opRc = SUCCESS -> u = true) ->
  safe b (View None None (Inside X u)) (op_done b)
    (rc ← set_client_state_mt X CLIENT_STATE_CONNECTED_IDLE;
     mret (if decide (SUCCESS = opRc /\ SUCCESS <> rc) then rc else opRc)).
Proof.
  intros Hu. apply safe_bind, safe_leave; cbn -[decide]; [|intros ->]; split_and!; try done;
    case_decide as Hd; intros; first [by rw Hu|naive_solver].
Qed.

(** Reading the state from outside: idle, or another operation has the client. *)
Lemma safe_read {A} b (Q : view -> A -> Prop) k :
  (forall st, st = CLIENT_STATE_CONNECTED_IDLE \/ busy st = true -> safe b (View None None Before) Q (k st)) ->
  safe b (View None None Before) Q (ReadState k).
Proof. intros H st (Hst & _). by apply H. Qed.
(** From inside it is that of the operation. *)
Lemma safe_read_inside {A} b (Q : view -> A -> Prop) k X u :
  safe b (View None None (Inside X u)) Q (k X) -> safe b (View None None (Inside X u)) Q (ReadState k).
Proof. intros H st (_ & Hst & _). by rw (Hst X u). Qed.
Lemma live_connected st : st = CLIENT_STATE_CONNECTED_IDLE \/ busy st = true -> connected_state st = true.
Proof. intros [->|]; [done|by destruct st]. Qed.

Lemma guarded_safe b X internal :
  busy X = true -> internal_ok b internal ->
  safe b (View None None Before) (op_done b) (guarded X internal (fun _ rc => mret rc)).
Proof.
  intros HX Hi. rw /guarded. apply safe_read. intros st Hst. cbn -[set_client_state_mt safe].
  rw live_connected //. apply safe_read. intros st' Hst'. case_decide as Hd; [by apply op_done_error|].
  assert (st' = CLIENT_STATE_CONNECTED_IDLE) as -> by (destruct Hst'; [done|]; destruct st'; naive_solver).
  apply safe_bind, safe_enter; [done| |]; cbn beta.
  - case_decide; [done|]. eapply safe_seq; [apply Hi|]. intros v opRc (u' & -> & Hu). by apply safe_restore.
  - intros rc Hrc. case_decide; [by apply op_done_error|congruence].
Qed.
Lemma publish_safe b internal :
  internal_ok b internal -> safe b (View None None Before) (op_done b) (publish_mt internal).
Proof. by apply guarded_safe. Qed.
Lemma subscribe_safe b internal :
  internal_ok b internal -> safe b (View None None Before) (op_done b) (subscribe_mt internal).
Proof. by apply guarded_safe. Qed.

(** A yield of a connection that stays. *)
Definition yield_ok (b : bool) (internal : prog IoT_Error_t) : Prop :=
  forall u, safe b (View None None (Inside CLIENT_STATE_CONNECTED_YIELD_IN_PROGRESS u))
    (fun v rc => (exists u', v = View None None (Inside CLIENT_STATE_CONNECTED_YIELD_IN_PROGRESS u') /\ (rc = SUCCESS -> u' = true)) /\
                 rc <> NETWORK_DISCONNECTED_ERROR /\ rc <> NETWORK_ATTEMPTING_RECONNECT) internal.
Lemma yield_safe b internal :
  yield_ok b internal -> safe b (View None None Before) (op_done b) (yield_mt internal).
Proof.
  intros Hi. rw /yield_mt. apply safe_read. intros st Hst. cbn -[set_client_state_mt safe].
  rw decide_False; [|destruct Hst; [by subst|by intros <-]].
  rw decide_True; [|destruct Hst; [by subst|by intros <-]].
  apply safe_read. intros st' Hst'. cbn -[set_client_state_mt safe]. rw live_connected //.
  case_decide as Hd; [by apply op_done_error|].
  apply safe_bind, safe_enter; [done| |]; cbn beta.
  - case_decide; [done|].
    eapply safe_seq; [apply Hi|]. intros v rc ((u' & -> & Hu) & H1 & H2). cbn beta.
    rw decide_True //. by apply safe_restore.
  - intros rc Hrc. case_decide; [by apply op_done_error|congruence].
Qed.

(** *** The internal functions *)

(** A program that leaves the client with its operation, and the mutexes as they were. *)
Definition stays (b : bool) (h : option mutex) {A} (p : prog A) : Prop :=
  forall X u, safe b (View h None (Inside X u)) (fun v _ => exists u', v = View h None (Inside X (u || u'))) p.

Create HintDb threads discriminated.
Lemma stays_ret b h {A} (a : A) : stays b h (mret a).
Proof. intros X u. exists false. by rw orb_false_r. Qed.
Lemma stays_bind b h {A B} (p : prog A) (f : A -> prog B) :
  stays b h p -> (forall a, stays b h (f a)) -> stays b h (p ≫= f).
Proof.
  intros Hp Hf X u. eapply safe_seq; [apply Hp|]. intros v a (u' & ->).
  eapply safe_mono; [|apply Hf]. intros v _ (u'' & ->). exists (u' || u''). by rw orb_assoc.
Qed.
Lemma stays_uses b h n : stays b h (uses n).
Proof. intros X u. eapply safe_uses; [done|]. by eexists. Qed.
Lemma stays_use b h {A} (p : prog A) : stays b h p -> stays b h (Use p).
Proof. intros Hp X u. eapply safe_mono; [|apply Hp]. intros v _ (u' & ->). exists true. by rw !orb_true_r. Qed.
(** A part of the program under a mutex. *)
Lemma stays_locked b m {A B} (body : prog A) (fail : IoT_Error_t -> B) (rest : A -> IoT_Error_t -> prog B) :
  stays b (Some m) body -> (forall x, stays b None (rest x SUCCESS)) ->
  stays b None
    (rc ← aws_iot_mqtt_client_lock_mutex m;
     if decide (SUCCESS <> rc) then mret (fail rc)
     else x ← body; rc ← aws_iot_mqtt_client_unlock_mutex m; rest x rc).
Proof.
  intros Hbody Hrest X u. apply safe_bind, safe_lock; [|intros _; case_decide; [by apply stays_ret|done]].
  case_decide; [done|]. eapply safe_seq; [apply Hbody|]. intros v x (u' & ->). cbn beta.
  apply safe_bind, safe_unlock. eapply safe_mono; [|apply Hrest].
  intros v _ (u'' & ->). exists (u' || u''). by rw orb_assoc.
Qed.
#[export] Hint Resolve stays_ret stays_bind stays_uses stays_use : threads.
Ltac stays_auto := repeat (intros; first
  [ done | progress eauto with threads | apply stays_bind | case_decide | case_match ]).

Lemma stays_send_packet b size length writes : stays b None (send_packet_mt size length writes).
Proof.
  rw /send_packet_mt. case_decide; [apply stays_ret|].
  apply (stays_locked b tls_write_mutex (send_loop_mt length 0 writes) (fun rc => rc)); [|by stays_auto].
  generalize 0. induction writes as [|[rc n] ws IH]; intros sent; cbn [send_loop_mt]; stays_auto.
Qed.

(** A packet that is no message for a handler. *)
Definition no_message (p : packet) : Prop := packet_type p <> MessageTypes_val PUBLISH.

Lemma stays_cycle_read b p t : no_message p -> stays b None (cycle_read_mt p t).
Proof.
  intros Hp. rw /cycle_read_mt.
  apply (stays_locked b tls_read_mutex (uses (S (accesses p))) (fun rc => (rc, t))); [apply stays_uses|].
  intros _. cbn beta zeta. rw /dispatch_packet_mt. stays_auto. 
Qed.
#[export] Hint Resolve stays_send_packet stays_cycle_read : threads.

Lemma stays_wait_for_read b t ps : Forall no_message ps -> stays b None (wait_for_read_mt t ps).
Proof.
  intros Hps. apply stays_bind; [|by intros []; apply stays_ret]. generalize 0.
  induction Hps as [|p ps Hp Hps IH]; intros r; cbn [wait_loop_mt]; [apply stays_ret|].
  apply stays_bind; [by apply stays_cycle_read|]. intros [rc r']. stays_auto.
Qed.
#[export] Hint Resolve stays_wait_for_read : threads.

(** The internal functions access the client first. *)
Lemma uses_then_stays b (p : prog IoT_Error_t) : stays b None p -> internal_ok b (_ ← uses 1; p).
Proof.
  intros Hp X u. apply safe_bind. eapply safe_uses; [done|]. cbn beta.
  eapply safe_mono; [|apply Hp]. intros v rc (u' & ->). eexists. split; [done|]. by rw bool_decide_true ?orb_true_r; [|lia].
Qed.
Lemma internal_publish_ok b size qos1 ser ws ps ack :
  Forall no_message ps -> internal_ok b (internal_publish_mt size qos1 ser ws ps ack).
Proof. intros. apply uses_then_stays. stays_auto. Qed.
Lemma internal_subscribe_ok b size ser room ws ps ack :
  Forall no_message ps -> internal_ok b (internal_subscribe_mt size ser room ws ps ack).
Proof. intros. apply uses_then_stays. stays_auto. Qed.

(** The number of bytes sent by the writes of the network. *)
Fixpoint sent_by (length sent : Z) (writes : list (IoT_Error_t * Z)) : Z :=
  match writes with
  | [] => sent
  | (rc, sentLen) :: writes' =>
      if decide (sent < length /\ rc = SUCCESS) then sent_by length (size_t (sent + sentLen)) writes' else sent
  end.
Lemma safe_send_loop b h X u length sent writes :
  safe b (View h None (Inside X u))
    (fun v r => exists u', v = View h None (Inside X (u || u')) /\ r = sent_by length sent writes)
    (send_loop_mt length sent writes).
Proof.
  revert u sent. induction writes as [|[rc n] ws IH]; intros u sent; cbn [send_loop_mt sent_by].
  { case_decide; exists false; by rw orb_false_r. }
  destruct (decide (sent < length)) as [Hlt|]; cbn [safe stage held known].
  2: { exists false. rw orb_false_r decide_False; [done|tauto]. }
  destruct (decide (SUCCESS <> rc)) as [Hrc|Hrc].
  - exists true. rw orb_true_r decide_False; [done|]. intros [_ ->]. by destruct Hrc.
  - apply dec_stable in Hrc as <-. rw decide_True; [|done].
    eapply safe_mono; [|apply IH]. intros v r (u' & -> & ->). exists true. by rw orb_true_r.
Qed.

(** A ping that is sent whole; threads have to block on the mutexes, since a ping that
    does not get the write mutex ends the connection. *)
Definition ping_sent (b : bool) (size : Z) (serialized : IoT_Error_t * Z) (writes : list (IoT_Error_t * Z)) : Prop :=
  b = true /\ serialized.1 = SUCCESS /\ serialized.2 < size /\ sent_by serialized.2 0 writes = serialized.2.
Definition quiet_keep_alive (b : bool) (size : Z) (ka : keep_alive) : Prop :=
  match ka with
  | NotDue => True
  | PingOutstanding => False
  | SendPing serialized writes => ping_sent b size serialized writes
  end.
Lemma keep_alive_safe b size disconnect ka X :
  quiet_keep_alive b size ka ->
  safe b (View None None (Inside X true)) (fun v rc => v = View None None (Inside X true) /\ rc = SUCCESS)
    (keep_alive_mt size disconnect ka).
Proof.
  destruct ka as [| |[rc n] ws]; [done..|]. cbn [quiet_keep_alive keep_alive_mt].
  intros (-> & Hrc & Hn & Hsent). cbn [fst snd] in *. subst rc.
  apply safe_bind. eapply safe_uses; [done|]. case_decide as Hd; [by destruct Hd|]. clear Hd.
  apply safe_bind. rw /send_packet_mt decide_False; [|lia].
  apply safe_bind, safe_lock; [|done]. case_decide as Hd; [by destruct Hd|]. clear Hd.
  eapply safe_seq; [apply safe_send_loop|]. intros v r (u' & -> & ->). cbn beta.
  apply safe_bind, safe_unlock. case_decide as Hd; [by destruct Hd|]. clear Hd.
  by rw Hsent decide_True.
Qed.

(** A round in which the connection stays and no message arrives. *)
Definition quiet_round (b : bool) (size : Z) (r : round) : Prop :=
  no_message (round_packet r) /\ quiet_keep_alive b size (round_keep_alive r) /\
  read_rc (round_packet r) ∉ [NETWORK_SSL_READ_ERROR; NETWORK_SSL_READ_TIMEOUT_ERROR;
    NETWORK_SSL_WRITE_ERROR; NETWORK_SSL_WRITE_TIMEOUT_ERROR; NETWORK_DISCONNECTED_ERROR; NETWORK_ATTEMPTING_RECONNECT].
(** The codes after such a round; success only after an access. *)
Definition quiet_code (u : bool) (rc : IoT_Error_t) : Prop :=
  (rc = SUCCESS -> u = true) /\
  rc ∉ [NETWORK_SSL_READ_ERROR; NETWORK_SSL_READ_TIMEOUT_ERROR;
    NETWORK_SSL_WRITE_ERROR; NETWORK_SSL_WRITE_TIMEOUT_ERROR; NETWORK_DISCONNECTED_ERROR; NETWORK_ATTEMPTING_RECONNECT].
Lemma quiet_code_outcome u rc :
  rc = SUCCESS /\ u = true \/ rc = MUTEX_LOCK_ERROR \/ rc = MQTT_RX_MESSAGE_PACKET_TYPE_INVALID_ERROR ->
  quiet_code u rc.
Proof. intros H. split; destruct H as [[-> ->]|[-> | ->]]; try done; by apply (bool_decide_unpack _). Qed.
Lemma quiet_cycle_read b p t X u :
  no_message p -> quiet_code true (read_rc p) ->
  safe b (View None None (Inside X u))
    (fun v r => exists u', v = View None None (Inside X u') /\ quiet_code u' r.1) (cycle_read_mt p t).
Proof.
  intros Hp Hrc. pose proof quiet_code_outcome as Herr.
  rw /cycle_read_mt. apply safe_bind, safe_lock.
  2: { intros _. case_decide; [|done]. exists u. cbn. auto. }
  case_decide; [done|]. apply safe_bind. eapply safe_uses; [done|]. rw (bool_decide_true (0 < S _)%nat) ?orb_true_r; [|lia].
  cbn beta zeta. apply safe_bind, safe_unlock. case_decide; [naive_solver|].
  case_decide; [exists true; cbn; auto|]. case_decide; [exists true; by cbn|].
  apply safe_bind. rw /dispatch_packet_mt. repeat case_decide; try done; exists true; cbn; auto.
Qed.

Lemma quiet_yield_loop b size auto reconnect disconnect rounds X u rc :
  Forall (quiet_round b size) rounds -> busy X = true -> rounds <> [] \/ quiet_code u rc ->
  safe b (View None None (Inside X u))
    (fun v rc => exists u', v = View None None (Inside X u') /\ quiet_code u' rc)
    (yield_loop_mt size auto reconnect disconnect rounds rc).
Proof.
  intros Hr HX. revert u rc. induction Hr as [|r rounds (Hp & Hka & Hrc) Hr IH]; intros u rc Hu; cbn [yield_loop_mt].
  { destruct Hu; [done|]. by exists u. }
  apply safe_read_inside. change (prog_bind_go ?f (Return ?a)) with (f a).
  destruct (decide (CLIENT_STATE_PENDING_RECONNECT = X)) as [<-|_]; [done|].
  eapply safe_seq; [by apply quiet_cycle_read|]. intros v [rc' t] (u' & -> & Hq). cbn [fst] in Hq.
  cbn beta iota. apply safe_bind. destruct (decide (SUCCESS = rc')) as [<-|].
  - rw (proj1 Hq eq_refl). eapply safe_mono; [|by apply keep_alive_safe].
    intros v rc' (-> & ->). cbn. apply IH. right. by split; [|apply (bool_decide_unpack _)].
  - destruct Hq as [Hs Hq]. assert (Hn := Hq). rw !not_elem_of_cons in Hn. destruct Hn as (? & ? & ? & ? & ? & ? & _).
    case_decide as Hin; [rw !elem_of_cons elem_of_nil in Hin; naive_solver|].
    cbn. case_decide; [done|]. case_decide; [|done]. by exists u'.
Qed.
Lemma internal_yield_ok b size auto reconnect disconnect first rounds :
  Forall (quiet_round b size) (first :: rounds) ->
  yield_ok b (internal_yield_mt size auto reconnect disconnect first rounds).
Proof.
  intros Hr u. eapply safe_mono; [|by apply quiet_yield_loop; [| |left]].
  intros v rc (u' & -> & Hs & Hq). rw !not_elem_of_cons in Hq. naive_solver.
Qed.

(** ** The invariant of the threads *)

(** The accesses of a thread are consecutive. *)
Definition serial (l : list nat) : Prop :=
  forall a b c i, (a <= b <= c)%nat -> l !! a = Some i -> l !! c = Some i -> l !! b = Some i.
Lemma serial_nil : serial [].
Proof. by intros ????. Qed.
Lemma serial_snoc l i : serial l -> i ∉ l \/ last l = Some i -> serial (l ++ [i]).
Proof.
  intros Hs Hi a b c j Hle Ha Hc.
  assert (Hlt : (c < length (l ++ [i]))%nat) by by eapply lookup_lt_Some. rw length_app /= in Hlt.
  destruct (decide (c < length l)%nat) as [Hcl|Hcl].
  { rw lookup_app_l // in Hc. rw lookup_app_l in Ha; [|lia]. rw lookup_app_l; [|lia]. by eapply (Hs a b c). }
  assert (c = length l) as -> by lia. rw list_lookup_middle // in Hc. injection Hc as <-.
  destruct (decide (b = length l)) as [->|Hb]; [by rw list_lookup_middle|].
  rw lookup_app_l in Ha; [|lia]. rw lookup_app_l; [|lia]. destruct Hi as [Hi|Hi].
  { destruct Hi. by eapply list_elem_of_lookup_2. }
  rw last_lookup in Hi. eapply (Hs a b (pred (length l))); [lia|done..].
Qed.

Definition used (ph : phase) : bool := match ph with Before => false | Inside _ u | After u => u end.

(** The parts of the invariant; [vs] are the views of the threads. *)
Definition mutex_inv (s : shared) (vs : list view) : Prop :=
  (forall i v m, vs !! i = Some v -> held v = Some m <-> mutexes s m = Locked i) /\
  (forall m, mutexes s m <> Uninitialized) /\
  (forall m i, mutexes s m = Locked i -> is_Some (vs !! i)).
Definition known_inv (s : shared) (vs : list view) : Prop :=
  forall i v st, vs !! i = Some v -> known v = Some st -> held v = Some state_change_mutex /\ client_state s = st.
Definition stage_inv (s : shared) (vs : list view) : Prop :=
  (forall i v X u, vs !! i = Some v -> stage v = Inside X u -> client_state s = X /\ busy X = true) /\
  (forall i j v w X Y u u', vs !! i = Some v -> vs !! j = Some w ->
     stage v = Inside X u -> stage w = Inside Y u' -> i = j) /\
  (client_state s = CLIENT_STATE_CONNECTED_IDLE \/
   exists i v X u, vs !! i = Some v /\ stage v = Inside X u).
Definition trace_inv (s : shared) (vs : list view) : Prop :=
  serial (trace s) /\
  (forall i v, vs !! i = Some v -> used (stage v) = true <-> i ∈ trace s) /\
  (forall i v X, vs !! i = Some v -> stage v = Inside X true -> last (trace s) = Some i).
Record views_inv (s : shared) (vs : list view) : Prop := {
  vi_mutex : mutex_inv s vs;
  vi_known : known_inv s vs;
  vi_stage : stage_inv s vs;
  vi_trace : trace_inv s vs;
}.
Definition threads_inv (b : bool) (c : config) (vs : list view) : Prop :=
  isBlockOnThreadLockEnabled c.1 = b /\ Forall2 (fun v p => safe b v (op_done b) p) vs c.2 /\ views_inv c.1 vs.

(** A case for each entry of an updated list. *)
Ltac lookups := repeat match goal with
  | H : <[_ := _]> _ !! _ = Some _ |- _ => apply list_lookup_insert_Some in H as [(<- & <- & _)|(? & H)]
  end.

Section Updates.
Context (s : shared) (vs : list view) (i : nat) (v : view) (Hv : vs !! i = Some v).

Lemma mutex_inv_same s' v' :
  mutexes s' = mutexes s -> held v' = held v -> mutex_inv s vs -> mutex_inv s' (<[i:=v']> vs).
Proof using Hv.
  intros Hm Hh (H1 & H2 & H3). rw /mutex_inv Hm. split_and!; [|done|].
  - intros j w m Hw. lookups; [rw Hh|]; by apply H1.
  - intros m j Hj. apply lookup_lt_is_Some. rw length_insert. apply lookup_lt_is_Some. by eapply H3.
Qed.
Lemma mutex_inv_lock m :
  held v = None -> mutexes s m = Unlocked -> mutex_inv s vs ->
  mutex_inv (set_mutex m (Locked i) s) (<[i := View (Some m) None (stage v)]> vs).
Proof using Hv.
  intros Hh Hm (H1 & H2 & H3). split_and!; cbn.
  - intros j w m' Hw. lookups; cbn; destruct (decide (m = m')) as [<-|Hne].
    + by rw fn_lookup_insert.
    + rw fn_lookup_insert_ne //. rw -(H1 i v) // Hh. naive_solver.
    + rw fn_lookup_insert (H1 j w) // Hm. naive_solver.
    + rw fn_lookup_insert_ne //. by apply H1.
  - intros m'. destruct (decide (m = m')) as [<-|Hne]; [by rw fn_lookup_insert|by rw fn_lookup_insert_ne].
  - intros m' j. rw lookup_lt_is_Some length_insert -lookup_lt_is_Some.
    destruct (decide (m = m')) as [<-|Hne]; [rw fn_lookup_insert; naive_solver|rw fn_lookup_insert_ne //; apply H3].
Qed.
Lemma mutex_inv_unlock m :
  held v = Some m -> mutex_inv s vs ->
  mutex_inv (set_mutex m Unlocked s) (<[i := View None None (stage v)]> vs).
Proof using Hv.
  intros Hh (H1 & H2 & H3). assert (Hm : mutexes s m = Locked i) by by apply (H1 i v). split_and!; cbn.
  - intros j w m' Hw. lookups; cbn; destruct (decide (m = m')) as [<-|Hne].
    + by rw fn_lookup_insert.
    + rw fn_lookup_insert_ne //. rw -(H1 i v) // Hh. naive_solver.
    + rw fn_lookup_insert (H1 j w) // Hm. naive_solver.
    + rw fn_lookup_insert_ne //. by apply H1.
  - intros m'. destruct (decide (m = m')) as [<-|Hne]; [by rw fn_lookup_insert|by rw fn_lookup_insert_ne].
  - intros m' j. rw lookup_lt_is_Some length_insert -lookup_lt_is_Some.
    destruct (decide (m = m')) as [<-|Hne]; [rw fn_lookup_insert; naive_solver|rw fn_lookup_insert_ne //; apply H3].
Qed.

Lemma known_inv_same s' v' :
  client_state s' = client_state s ->
  (forall st, known v' = Some st -> held v' = Some state_change_mutex /\ client_state s = st) ->
  known_inv s vs -> known_inv s' (<[i:=v']> vs).
Proof. intros Hst Hk H j w st Hw. rw Hst. lookups; [apply Hk|by eapply H]. Qed.
(** The holder of the mutex writes the state: nobody else knows it. *)
Lemma known_inv_write s' v' :
  held v = Some state_change_mutex -> known v' = None -> mutex_inv s vs -> known_inv s vs -> known_inv s' (<[i:=v']> vs).
Proof using Hv.
  intros Hh Hk (H1 & _) H j w st Hw Hst. lookups; [congruence|].
  destruct (H j w st) as [Hj _]; [done..|]. apply (H1 j w) in Hj; [|done]. apply (H1 i v) in Hh; congruence.
Qed.

Lemma stage_inv_same s' v' :
  client_state s' = client_state s -> stage v' = stage v -> stage_inv s vs -> stage_inv s' (<[i:=v']> vs).
Proof using Hv.
  intros Hst Hs (H1 & H2 & H3). rw /stage_inv Hst. split_and!.
  - intros j w X u Hw HX. lookups; [|by eapply H1]. rw Hs in HX. by eapply H1.
  - intros j k w x X Y u u' Hw Hx. lookups; rw ?Hs; eauto.
  - destruct H3 as [|(j & w & X & u & Hw & HX)]; [by left|right].
    destruct (decide (i = j)) as [<-|Hne].
    + exists i, v', X, u. rw list_lookup_insert_eq; [|by eapply lookup_lt_Some]. naive_solver congruence.
    + exists j, w, X, u. by rw list_lookup_insert_ne.
Qed.
Lemma stage_inv_enter X h :
  client_state s = CLIENT_STATE_CONNECTED_IDLE -> busy X = true -> stage_inv s vs ->
  stage_inv (set_client_state X s) (<[i := View h None (Inside X false)]> vs).
Proof using Hv.
  intros Hst HX (H1 & _ & _).
  assert (Hno : forall j w Y u, vs !! j = Some w -> stage w <> Inside Y u).
  { intros j w Y u Hw HY. destruct (H1 j w Y u) as [<- HYb]; [done..|]. by rw Hst in HYb. }
  split_and!; cbn.
  - intros j w Y u Hw HY. lookups; cbn in *; [naive_solver|by destruct (Hno j w Y u)].
  - intros j k w x Y Z u u' Hw Hx HY HZ. lookups; cbn in *; try done; exfalso; by eapply Hno.
  - right. exists i. eexists _, _, _. rw list_lookup_insert_eq; [|by eapply lookup_lt_Some]. by split.
Qed.
Lemma stage_inv_leave X u u' h :
  stage v = Inside X u -> stage_inv s vs ->
  stage_inv (set_client_state CLIENT_STATE_CONNECTED_IDLE s) (<[i := View h None (After u')]> vs).
Proof using Hv.
  intros HX (_ & H2 & _). split_and!; cbn.
  - intros j w Y u'' Hw HY. lookups; [done|]. by edestruct (H2 i j v w).
  - intros j k w x Y Z u1 u2 Hw Hx HY HZ. lookups; try done. by eapply (H2 j k).
  - by left.
Qed.
Lemma stage_inv_use X u h k s' :
  stage v = Inside X u -> client_state s' = client_state s -> stage_inv s vs ->
  stage_inv s' (<[i := View h k (Inside X true)]> vs).
Proof using Hv.
  intros HX Hst (H1 & H2 & _). rw /stage_inv Hst. split_and!.
  - intros j w Y u' Hw HY. lookups; [cbn in HY; injection HY as <- <-|]; by eapply H1.
  - intros j k' w x Y Z u1 u2 Hw Hx HY HZ. lookups; try done; cbn in *; simplify_eq; eauto.
  - right. exists i. eexists _, _, _. rw list_lookup_insert_eq; [|by eapply lookup_lt_Some]. by split.
Qed.

(** A thread that does not access the client. *)
Lemma trace_inv_same s' v' :
  trace s' = trace s -> used (stage v') = used (stage v) ->
  (forall X, stage v' = Inside X true -> stage v = Inside X true) ->
  trace_inv s vs -> trace_inv s' (<[i:=v']> vs).
Proof using Hv.
  intros Ht Hu HX (H1 & H2 & H3). rw /trace_inv Ht. split_and!; [done| |].
  - intros j w Hw. lookups; [rw Hu|]; by apply H2.
  - intros j w X Hw Hs. lookups; [apply (H3 i v X); auto|by eapply H3].
Qed.
Lemma trace_inv_use X u h k :
  stage v = Inside X u -> stage_inv s vs -> trace_inv s vs ->
  trace_inv (add_access i s) (<[i := View h k (Inside X true)]> vs).
Proof using Hv.
  intros HX (_ & Hone & _) (H1 & H2 & H3). split_and!; cbn.
  - apply serial_snoc; [done|]. destruct u; [right; by eapply H3|left].
    rw -(H2 i v) // HX. done.
  - intros j w Hw. rw elem_of_app list_elem_of_singleton. lookups; [cbn; naive_solver|]. rw (H2 j w) //. naive_solver.
  - intros j w Y Hw HY. rw last_snoc. lookups; [done|]. f_equal. by eapply Hone.
Qed.

Lemma views_inv_lock m :
  held v = None -> mutexes s m = Unlocked -> views_inv s vs ->
  views_inv (set_mutex m (Locked i) s) (<[i := View (Some m) None (stage v)]> vs).
Proof using Hv.
  intros Hh Hm [? ? ? ?]. split; [by apply mutex_inv_lock|by apply known_inv_same|by apply stage_inv_same|by apply trace_inv_same].
Qed.
Lemma views_inv_unlock m :
  held v = Some m -> views_inv s vs ->
  views_inv (set_mutex m Unlocked s) (<[i := View None None (stage v)]> vs).
Proof using Hv.
  intros Hh [? ? ? ?]. split; [by apply mutex_inv_unlock|by apply known_inv_same|by apply stage_inv_same|by apply trace_inv_same].
Qed.
Lemma views_inv_read :
  views_inv s vs ->
  views_inv s (<[i := View (held v) (if decide (held v = Some state_change_mutex) then Some (client_state s) else None) (stage v)]> vs).
Proof using Hv.
  intros [? ? ? ?]. split; [by apply mutex_inv_same| |by apply stage_inv_same|by apply trace_inv_same].
  apply known_inv_same; [done| |done]. intros st; cbn. destruct (decide (held v = Some state_change_mutex)) as [Hh|]; [|done]. by intros [= <-].
Qed.
Lemma views_inv_enter X :
  held v = Some state_change_mutex -> stage v = Before -> known v = Some CLIENT_STATE_CONNECTED_IDLE -> busy X = true ->
  views_inv s vs -> views_inv (set_client_state X s) (<[i := View (held v) None (Inside X false)]> vs).
Proof using Hv.
  intros Hh Hb Hkn HX [? Hk ? ?]. destruct (Hk i v _ Hv Hkn) as [_ Hst].
  split; [by apply mutex_inv_same|by apply known_inv_write|by apply stage_inv_enter|apply trace_inv_same; [done|by rw Hb|done|done]].
Qed.
Lemma views_inv_leave X u :
  held v = Some state_change_mutex -> stage v = Inside X u -> views_inv s vs ->
  views_inv (set_client_state CLIENT_STATE_CONNECTED_IDLE s) (<[i := View (held v) None (After u)]> vs).
Proof using Hv.
  intros Hh Hs [? ? ? ?].
  split; [by apply mutex_inv_same|by apply known_inv_write|by eapply stage_inv_leave|apply trace_inv_same; [done|by rw Hs|done|done]].
Qed.
Lemma views_inv_use X u :
  stage v = Inside X u -> views_inv s vs ->
  views_inv (add_access i s) (<[i := View (held v) (known v) (Inside X true)]> vs).
Proof using Hv.
  intros Hs [? Hk ? ?].
  split; [by apply mutex_inv_same|apply known_inv_same; [done| |done]|by eapply stage_inv_use|by eapply trace_inv_use].
  intros st Hst. by apply (Hk i v).
Qed.
(** What a thread reads. *)
Lemma views_can_read : views_inv s vs -> can_read v (client_state s).
Proof using Hv.
  intros [? Hk (H1 & _ & H3) ?]. split_and!.
  - destruct H3 as [|(j & w & X & u & Hw & HX)]; [by left|right]. by destruct (H1 j w X u) as [-> ?].
  - intros X u HX. by eapply H1.
  - intros st Hst. by eapply Hk.
Qed.
End Updates.

(** ** Steps keep the invariant *)

Lemma threads_inv_step b c vs c' : threads_inv b c vs -> step c c' -> exists vs', threads_inv b c' vs'.
Proof.
  intros (Hb & Hs & Hi) Hstep. destruct Hstep as [s pool i p p' s' Hp Hx]. cbn [fst snd] in *.
  destruct (Forall2_lookup_r _ _ _ _ _ Hs Hp) as (v & Hv & Hsafe).
  assert (Hupd : forall v', isBlockOnThreadLockEnabled s' = b -> safe b v' (op_done b) p' ->
                   views_inv s' (<[i:=v']> vs) -> exists vs', threads_inv b (s', <[i:=p']> pool) vs').
  { intros v' ? ? ?. exists (<[i:=v']> vs). split_and!; [done|by apply Forall2_insert|done]. }
  destruct p as [|m k|m k|m k|m k|m k|k|st k|k|x k|k]; cbn [exec safe] in *; try done.
  - case_match; simplify_eq. destruct Hsafe as [Hh Hsafe]. eapply Hupd; [done|done|by apply views_inv_lock].
  - destruct Hsafe as (Hh & Hsafe & Hbusy). case_match; simplify_eq.
    + eapply Hupd; [done|done|by apply views_inv_lock].
    + eapply Hupd; [done|done|]. by rw list_insert_id.
  - destruct Hsafe as [Hh Hsafe]. repeat case_match; simplify_eq. eapply Hupd; [done|done|by apply views_inv_unlock].
  - simplify_eq. eapply Hupd; [done|apply Hsafe; by eapply views_can_read|by apply views_inv_read].
  - simplify_eq. destruct Hsafe as [Hh Hsafe]. destruct (stage v) eqn:Hst; [| |done].
    + destruct Hsafe as (Hk & HX & Hsafe). eapply Hupd; [done|done|by apply views_inv_enter].
    + destruct Hsafe as (-> & Hsafe). eapply Hupd; [done|done|by eapply views_inv_leave].
  - simplify_eq. eapply Hupd; [done|done|]. by rw list_insert_id.
  - simplify_eq. destruct (stage v) eqn:Hst; try done. eapply Hupd; [done|done|by eapply views_inv_use].
Qed.
Lemma threads_inv_reachable b c vs c' : threads_inv b c vs -> rtc step c c' -> exists vs', threads_inv b c' vs'.
Proof.
  intros Hi Hr. revert vs Hi. induction Hr as [|c c1 c' Hstep _ IH]; intros vs Hi; [eauto|].
  destruct (threads_inv_step _ _ _ _ Hi Hstep) as [vs' ?]. by eapply IH.
Qed.

(** The start: programs that keep to the protocol, and an idle client. *)
Lemma threads_inv_idle b pool :
  Forall (safe b (View None None Before) (op_done b)) pool ->
  threads_inv b (idle_client b, pool) (replicate (length pool) (View None None Before)).
Proof.
  intros Hp. split_and!; [done| |split].
  - apply Forall2_replicate_l; [|done]. done.
  - split_and!; [|done|done]. by intros i v m [-> _]%lookup_replicate.
  - by intros i v st [-> _]%lookup_replicate.
  - split_and!; [| |by left]; by intros; repeat match goal with H : _ |- _ => apply lookup_replicate in H as [-> _] end.
  - split_and!; [apply serial_nil| |by intros i v X [-> _]%lookup_replicate].
    intros i v [-> _]%lookup_replicate. cbn. split; [done|by intros ?%not_elem_of_nil].
Qed.

(** ** Termination and progress *)

(** A program after one of its instructions. *)
Definition sub_prog {A} (p' p : prog A) : Prop := exists i s s', exec i p s = Next p' s'.
Lemma sub_prog_acc {A} (p : prog A) : Acc sub_prog p.
Proof.
  induction p; constructor; intros p' (i & s & s' & Hx); cbn [exec] in Hx; repeat case_match; simplify_eq; auto.
Qed.
Definition sub_pool (pool' pool : list (prog IoT_Error_t)) : Prop :=
  exists i p p', pool !! i = Some p /\ sub_prog p' p /\ pool' = <[i := p']> pool.
Lemma sub_pool_acc pool : Acc sub_pool pool.
Proof.
  induction pool as [|p pool IH].
  { constructor. by intros ? (i & p & p' & ? & _). }
  revert pool IH. induction (sub_prog_acc p) as [p _ IHp]. intros pool Hpool.
  induction Hpool as [pool Hpool IHpool]. constructor. intros ? ([|i] & q & q' & Hq & Hsub & ->); cbn in *.
  - injection Hq as ->. apply IHp; [done|]. by constructor.
  - apply IHpool. by exists i, q, q'.
Qed.
Lemma step_acc c : Acc (flip step) c.
Proof.
  destruct c as [s pool]. revert s. induction (sub_pool_acc pool) as [pool _ IH]. intros s.
  constructor. intros c Hstep. inversion Hstep as [? ? i p p' s' Hp Hx]; subst. apply IH.
  exists i, p, p'. split_and!; [done| |done]. by exists i, s, s'.
Qed.

(** A thread that follows the protocol can go on, has ended, or waits for a mutex that
    another one holds. *)
Lemma safe_can_step b i s v p :
  safe b v (op_done b) p -> (forall m, mutexes s m <> Uninitialized) ->
  (forall m, held v = Some m -> mutexes s m = Locked i) ->
  (exists p' s', exec i p s = Next p' s') \/ (exists rc, p = Return rc) \/
  (held v = None /\ exists m j, mutexes s m = Locked j).
Proof.
  intros Hs Hu Hm. destruct p as [a|m k|m k|m k|m k|m k|k|st k|k|x k|k]; cbn [exec safe] in *; try done; eauto.
  - destruct (mutexes s m) eqn:Hl; [by destruct (Hu m)|eauto|]. destruct Hs. right. right. eauto.
  - destruct (mutexes s m) eqn:Hl; [by destruct (Hu m)|eauto|eauto].
  - destruct Hs as [Hh _]. rw (Hm m Hh) decide_True //. eauto.
Qed.

(** It uses the mutexes as POSIX defines it. *)
Lemma safe_defined b i s v p :
  safe b v (op_done b) p -> (forall m, mutexes s m <> Uninitialized) ->
  (forall m, held v = Some m -> mutexes s m = Locked i) -> exec i p s <> Undefined.
Proof.
  intros Hs Hu Hm. destruct p as [a|m k|m k|m k|m k|m k|k|st k|k|x k|k]; cbn [exec safe] in *; try done.
  - destruct (mutexes s m) eqn:Hl; [by destruct (Hu m)|done|done].
  - destruct (mutexes s m) eqn:Hl; [by destruct (Hu m)|done|done].
  - destruct Hs as [Hh _]. by rw (Hm m Hh) decide_True.
Qed.
Lemma threads_defined b c vs i p : threads_inv b c vs -> c.2 !! i = Some p -> exec i p c.1 <> Undefined.
Proof.
  intros (_ & Hs & [(H1 & H2 & _) _ _ _]) Hp. destruct (Forall2_lookup_r _ _ _ _ _ Hs Hp) as (v & Hv & Hsafe).
  eapply safe_defined; [done|done|]. intros m. by apply (H1 i v).
Qed.

(** In a configuration that keeps the invariant every thread has ended or some thread can
    go on: the holder of a mutex never waits. *)
Lemma thread_progress b c vs i p :
  threads_inv b c vs -> c.2 !! i = Some p -> (exists c', step c c') \/ exists rc, p = Return rc.
Proof.
  destruct c as [s pool]. intros (_ & Hs & [(H1 & H2 & H3) _ _ _]) Hp. cbn [fst snd] in *.
  assert (Hgo : forall i v p, vs !! i = Some v -> pool !! i = Some p ->
    (exists c', step (s, pool) c') \/ (exists rc, p = Return rc) \/ (held v = None /\ exists m j, mutexes s m = Locked j)).
  { intros j w q Hw Hq. destruct (safe_can_step b j s w q) as [(q' & s' & Hx)|?]; [| |intros m; by apply H1| |by auto].
    - by eapply (Forall2_lookup_lr _ _ _ _ _ _ Hs).
    - done.
    - left. eexists. by econstructor. }
  destruct (Forall2_lookup_r _ _ _ _ _ Hs Hp) as (v & Hv & _).
  destruct (Hgo i v p Hv Hp) as [?|[?|(_ & m & j & Hm)]]; [by auto..|left].
  destruct (H3 m j Hm) as [w Hw]. assert (Hheld : held w = Some m) by by apply (H1 j w).
  destruct (Forall2_lookup_l _ _ _ _ _ Hs Hw) as (q & Hq & Hsafe).
  destruct (Hgo j w q Hw Hq) as [?|[[rc ->]|[? _]]]; [done| |congruence].
  destruct Hsafe as [? _]. congruence.
Qed.
Lemma threads_progress b c vs :
  threads_inv b c vs -> (exists c', step c c') \/ Forall (fun p => exists rc, p = Return rc) c.2.
Proof.
  intros Hi. pose proof (fun i p => thread_progress b c vs i p Hi) as Hp. revert Hp.
  generalize (exists c', step c c'). intros A. induction (c.2) as [|p pool IH]; intros Hp; [by right|].
  destruct (Hp 0%nat p) as [?|?]; [done|by left|]. destruct IH as [?|?]; [|by left|right; by constructor].
  intros i q Hq. by apply (Hp (S i)).
Qed.

(** When the threads have ended, the mutexes are free; the client is idle if they blocked. *)
Lemma threads_ended b c vs :
  threads_inv b c vs -> Forall (fun p => exists rc, p = Return rc) c.2 ->
  (forall m, mutexes c.1 m = Unlocked) /\ (b = true -> client_state c.1 = CLIENT_STATE_CONNECTED_IDLE).
Proof.
  intros (_ & Hs & [(H1 & H2 & H3) _ (_ & _ & Hst) _]) Hend.
  assert (Hdone : forall i v, vs !! i = Some v -> exists rc, op_done b v rc).
  { intros i v Hv. destruct (Forall2_lookup_l _ _ _ _ _ Hs Hv) as (p & Hp & Hsafe).
    destruct (Forall_lookup_1 _ _ _ _ Hend Hp) as [rc ->]. by exists rc. }
  split.
  - intros m. destruct (mutexes c.1 m) as [| |i] eqn:Hm; [by destruct (H2 m)|done|].
    destruct (H3 m i Hm) as [v Hv]. destruct (Hdone i v Hv) as (rc & Hh & _).
    apply (H1 i v) in Hm; [congruence|done].
  - intros Hb. destruct Hst as [|(i & v & X & u & Hv & HX)]; [done|].
    destruct (Hdone i v Hv) as (rc & _ & _ & Hno). by destruct (Hno Hb X u).
Qed.
(** A thread that reports success accessed the client. *)
Lemma success_accessed b c vs i :
  threads_inv b c vs -> c.2 !! i = Some (Return SUCCESS) -> i ∈ trace c.1.
Proof.
  intros (_ & Hs & [_ _ _ (_ & H2 & _)]) Hp.
  destruct (Forall2_lookup_r _ _ _ _ _ Hs Hp) as (v & Hv & _ & Hsucc & _). apply (H2 i v Hv). by rw Hsucc.
Qed.

(** ** Concurrent operations *)

(** The calls threads make, with what the network answers to them. *)
Inductive operation :=
  | PublishOp (size : Z) (qos1 : bool) (serialized : IoT_Error_t * Z) (writes : list (IoT_Error_t * Z))
      (packets : list packet) (ack : IoT_Error_t)
  | SubscribeOp (size : Z) (serialized : IoT_Error_t * Z) (room : bool) (writes : list (IoT_Error_t * Z))
      (packets : list packet) (ack : IoT_Error_t)
  | YieldOp (size : Z) (autoReconnect : bool) (reconnect disconnect : prog IoT_Error_t) (first : round)
      (rounds : list round).
Definition call (o : operation) : prog IoT_Error_t :=
  match o with
  | PublishOp size qos1 ser ws ps ack => publish_mt (internal_publish_mt size qos1 ser ws ps ack)
  | SubscribeOp size ser room ws ps ack => subscribe_mt (internal_subscribe_mt size ser room ws ps ack)
  | YieldOp size auto reconnect disconnect first rounds =>
      yield_mt (internal_yield_mt size auto reconnect disconnect first rounds)
  end.
(** No message arrives, and the connection of a yield stays: what it reads is no error of
    the connection, and a ping that is due is sent whole. *)
Definition quiet (b : bool) (o : operation) : Prop :=
  match o with
  | PublishOp _ _ _ _ ps _ | SubscribeOp _ _ _ _ ps _ => Forall no_message ps
  | YieldOp size _ _ _ first rounds => Forall (quiet_round b size) (first :: rounds)
  end.

Lemma call_safe b o : quiet b o -> safe b (View None None Before) (op_done b) (call o).
Proof.
  destruct o; intros Hq.
  - by apply publish_safe, internal_publish_ok.
  - by apply subscribe_safe, internal_subscribe_ok.
  - by apply yield_safe, internal_yield_ok.
Qed.
Lemma threads_inv_calls b ops c :
  Forall (quiet b) ops -> rtc step (idle_client b, call <$> ops) c -> exists vs, threads_inv b c vs.
Proof.
  intros Hq Hr. eapply threads_inv_reachable; [|done]. apply threads_inv_idle, Forall_fmap.
  eapply Forall_impl; [done|]. intros o. apply call_safe.
Qed.

(** C4: threads that share a connected client nobody uses, each of them making one call:
    a publish, a subscribe or a yield, whether they block on the mutexes or not. It is
    assumed that no PUBLISH packet arrives during the calls, that what a yield reads is
    no error of the connection, and that a ping that falls due in a yield is sent whole
    (with mutexes that do not block, that none falls due). Then the accesses to the
    buffers and the network are never mixed, in every interleaving of the threads:
    between two accesses of a call no other call accesses; and a call that has reported
    success accessed the client. Lost connections are not covered; with messages or
    unsubscribes the guarantees do not hold: see the schedules below. *)
Theorem accesses_serial b ops c :
  Forall (quiet b) ops -> rtc step (idle_client b, call <$> ops) c ->
  serial (trace c.1) /\ forall i, c.2 !! i = Some (Return SUCCESS) -> i ∈ trace c.1.
Proof.
  intros Hq Hr. destruct (threads_inv_calls b ops c Hq Hr) as [vs Hi].
  split; [apply Hi|]. intros i. by eapply success_accessed.
Qed.

(** C5: the same threads under the same assumptions (one publish, subscribe or yield
    each on a connected client nobody uses; no PUBLISH packet arrives, no error of the
    connection, every ping that is due is sent whole). In every reachable configuration
    either some thread can go on or all calls have returned: there is no deadlock, and
    no thread is about to use a mutex in a way POSIX leaves undefined, such as unlocking
    a mutex it does not hold. When all calls have returned the mutexes are free and, if the threads
    block on them, the client is idle again. Every execution ends; this much follows from
    the calls alone, which are finite programs as their timers expire. *)
Theorem calls_end b ops c :
  Forall (quiet b) ops -> rtc step (idle_client b, call <$> ops) c ->
  Acc (flip step) c /\ (forall i p, c.2 !! i = Some p -> exec i p c.1 <> Undefined) /\
  ((exists c', step c c') \/
   Forall (fun p => exists rc, p = Return rc) c.2 /\ (forall m, mutexes c.1 m = Unlocked) /\
   (b = true -> client_state c.1 = CLIENT_STATE_CONNECTED_IDLE)).
Proof.
  intros Hq Hr. destruct (threads_inv_calls b ops c Hq Hr) as [vs Hi]. split; [apply step_acc|].
  split; [intros i p; by eapply threads_defined|].
  destruct (threads_progress b c vs Hi) as [?|Hend]; [by left|right]. split; [done|]. by eapply threads_ended.
Qed.

(** ** Executions *)

(** A publish at QoS 0 of ten bytes, and a subscribe whose acknowledgement arrives. *)
Definition publish_op : operation := PublishOp 512 false (SUCCESS, 10) [(SUCCESS, 10)] [] SUCCESS.
Definition suback : packet := Packet 2 SUCCESS (MessageTypes_val SUBACK) (mret SUCCESS).
Definition subscribe_op : operation := SubscribeOp 512 (SUCCESS, 20) true [(SUCCESS, 20)] [suback] SUCCESS.
Definition unsuback : packet := Packet 2 SUCCESS (MessageTypes_val UNSUBACK) (mret SUCCESS).
Definition unsubscribe_call : prog IoT_Error_t :=
  unsubscribe_mt (internal_unsubscribe_mt 512 true (SUCCESS, 20) [(SUCCESS, 20)] [unsuback] SUCCESS).
(** A yield that reads a message for a handler which does nothing with the client. *)
Definition message : packet :=
  Packet 2 SUCCESS (MessageTypes_val PUBLISH) (handle_publish_mt SUCCESS (mret tt) false 512 (SUCCESS, 4) []).
Definition yield_call : prog IoT_Error_t :=
  yield_mt (internal_yield_mt 512 false (mret SUCCESS) (mret SUCCESS) (Round message NotDue false) []).

(** What a schedule leads to: the state, the accesses, and the results of the threads. *)
Definition outcome_of (sched : list nat) (b : bool) (pool : list (prog IoT_Error_t)) :
    option (ClientState * list nat * list (option IoT_Error_t)) :=
  (fun c => (client_state c.1, trace c.1, results c.2)) <$> run_schedule sched (idle_client b, pool).

Lemma outcome_reachable sched b pool r :
  outcome_of sched b pool = Some r ->
  exists c, rtc step (idle_client b, pool) c /\ (client_state c.1, trace c.1, results c.2) = r.
Proof. intros (c & Hrun & ->)%fmap_Some. exists c. split; [by eapply run_schedule_reachable|done]. Qed.

(** A publish and a subscribe, one after the other; at the same time, when both found an
    idle client, the second one is refused. *)
Definition one_by_one : list nat := (replicate 17 0 ++ replicate 25 1)%nat.
Example both_succeed :
  outcome_of one_by_one true (call <$> [publish_op; subscribe_op]) =
    Some (CLIENT_STATE_CONNECTED_IDLE, [0; 0; 1; 1; 1; 1; 1; 1; 1]%nat, [Some SUCCESS; Some SUCCESS]).
Proof. vm_compute. reflexivity. Qed.
Example one_refused :
  outcome_of ([1; 1] ++ replicate 10 0 ++ replicate 4 1 ++ replicate 7 0)%nat true [call publish_op; call subscribe_op] =
    Some (CLIENT_STATE_CONNECTED_IDLE, [0; 0]%nat, [Some SUCCESS; Some MQTT_UNEXPECTED_CLIENT_STATE_ERROR]).
Proof. vm_compute. reflexivity. Qed.

(** The two and a yield that reads a response to a ping and sends the next one. *)
Definition pingresp : packet := Packet 1 SUCCESS (MessageTypes_val PINGRESP) (mret SUCCESS).
Definition ping_yield_op : operation :=
  YieldOp 512 false (mret SUCCESS) (mret SUCCESS) (Round pingresp (SendPing (SUCCESS, 2) [(SUCCESS, 2)]) false) [].
Definition three_ops : list operation := [publish_op; subscribe_op; ping_yield_op].
Example three_succeed :
  outcome_of (one_by_one ++ replicate 25 2%nat) true (call <$> three_ops) =
    Some (CLIENT_STATE_CONNECTED_IDLE, [0; 0; 1; 1; 1; 1; 1; 1; 1; 2; 2; 2; 2; 2; 2]%nat,
          [Some SUCCESS; Some SUCCESS; Some SUCCESS]).
Proof. vm_compute. reflexivity. Qed.

(** The initialization leaves three free mutexes, or stops at the first that fails. *)
Definition new_client (failing : list mutex) : shared :=
  Shared CLIENT_STATE_INVALID (fun _ => Uninitialized) true (fun m => if decide (m ∈ failing) then 12 else 0) [].
Example init_mutexes_free :
  (fun c => (results c.2, mutexes c.1 <$> [state_change_mutex; tls_read_mutex; tls_write_mutex],
             isBlockOnThreadLockEnabled c.1)) <$>
    run_schedule (replicate 4 0%nat) (new_client [], [init_mutexes false]) =
    Some ([Some SUCCESS], [Unlocked; Unlocked; Unlocked], false).
Proof. vm_compute. reflexivity. Qed.
Example init_mutexes_fails :
  (fun c => (results c.2, mutexes c.1 <$> [state_change_mutex; tls_read_mutex; tls_write_mutex])) <$>
    run_schedule (replicate 3 0%nat) (new_client [tls_read_mutex], [init_mutexes false]) =
    Some ([Some MUTEX_INIT_ERROR], [Unlocked; Uninitialized; Uninitialized]).
Proof. vm_compute. reflexivity. Qed.

(** *** Outside the theorems *)

(** When threads do not block, a publish that was sent cannot restore the state while
    another thread looks at it: the client stays in the state of the publish for ever. *)
Example state_stuck_without_blocking :
  outcome_of ([1; 1; 1] ++ replicate 13 0 ++ [1; 0; 1; 1])%nat false [call publish_op; call publish_op] =
    Some (CLIENT_STATE_CONNECTED_PUBLISH_IN_PROGRESS, [0; 0]%nat,
          [Some MUTEX_LOCK_ERROR; Some MQTT_UNEXPECTED_CLIENT_STATE_ERROR]).
Proof. vm_compute. reflexivity. Qed.
(** Of two unsubscribes, the one that is refused resets the state of the other one and
    reports success; a publish then accesses the client in the middle of the other one. *)
Example refused_unsubscribe_succeeds :
  outcome_of ([1; 1] ++ replicate 9 0 ++ replicate 9 1 ++ replicate 17 2 ++ replicate 15 0)%nat true
    [unsubscribe_call; unsubscribe_call; call publish_op] =
    Some (CLIENT_STATE_CONNECTED_IDLE, [0; 2; 2; 0; 0; 0; 0; 0; 0]%nat,
          [Some MQTT_UNEXPECTED_CLIENT_STATE_ERROR; Some SUCCESS; Some SUCCESS]).
Proof. vm_compute. reflexivity. Qed.
(** A publish that starts while another thread delivers a message puts the state of the
    delivery back after the delivery has ended: the client never becomes idle again. *)
Example state_stuck_after_message :
  outcome_of (replicate 21 0 ++ replicate 7 1 ++ replicate 8 0 ++ replicate 10 1)%nat true [yield_call; call publish_op] =
    Some (CLIENT_STATE_CONNECTED_WAIT_FOR_CB_RETURN, [0; 0; 0; 0; 1; 1]%nat,
          [Some MQTT_UNEXPECTED_CLIENT_STATE_ERROR; Some SUCCESS]).
Proof. vm_compute. reflexivity. Qed.

(** ** Witnesses *)

Lemma ops_quiet : Forall (quiet true) three_ops.
Proof. repeat first [constructor | done | apply (bool_decide_unpack _)]. Qed.
Lemma all_reachable :
  exists c, rtc step (idle_client true, call <$> three_ops) c /\
    results c.2 = [Some SUCCESS; Some SUCCESS; Some SUCCESS].
Proof.
  destruct (outcome_reachable _ _ _ _ three_succeed) as (c & Hr & [= _ _ Hc]). by exists c.
Qed.

Lemma accesses_serial_witness :
  exists c, results c.2 = [Some SUCCESS; Some SUCCESS; Some SUCCESS] /\ serial (trace c.1).
Proof.
  destruct all_reachable as (c & Hr & Hc). exists c. split; [done|].
  exact (proj1 (accesses_serial true _ c ops_quiet Hr)).
Defined.
Lemma calls_end_witness :
  exists c, results c.2 = [Some SUCCESS; Some SUCCESS; Some SUCCESS] /\
    ((exists c', step c c') \/
     Forall (fun p => exists rc, p = Return rc) c.2 /\ (forall m, mutexes c.1 m = Unlocked) /\
     (true = true -> client_state c.1 = CLIENT_STATE_CONNECTED_IDLE)).
Proof.
  destruct all_reachable as (c & Hr & Hc). exists c. split; [done|].
  exact (proj2 (proj2 (calls_end true _ c ops_quiet Hr))).
Defined.
