(* ===== verification/SecureElement.v ===== *)
(** * Secure element

    [external_libs/gemalto/common]: the exchange of commands with the secure element
    ([SEInterface.cpp]), applets on logical channels ([Applet.cpp]) and the file system
    ([MF.cpp]). The connection to the card is an interface; the build is the one of the
    samples, in C++. *)
From S2P Require Import Prelude.

(** ** Data *)

(** The buffers of the interface. *)
Record SEInterface := MkSE { _apdu : list Z; _apduLen : Z; _apduResponse : list Z; _apduResponseLen : Z }.

(** [_seiface] is null before the call of [init]. *)
Record Applet := MkApplet {
  _seiface : bool; _aid : list Z; _isBasic : bool; _isSelected : bool; _channel : Z }.

(** A connection to the card: it gets the bytes of a command; the results are the return
    value and the bytes of the response, none when the arrays for the response and its
    length are left alone. *)
Class Card (K : Type) := { transmitApdu : list Z -> M K (bool * option (list Z)) }.

(** A key pair of the applet [MIAS], its identifier none while it is not set, and the
    variables of the applet; [_keypairs] is a list, the last
    key found first. *)
Record mias_key_pair_t := MkKeyPair {
  kp_kid : option Z; kp_flags : Z; kp_size_in_bits : Z; kp_pub_file_id : list Z; kp_has_cert : bool }.
Record MIAS_data := MkMias {
  _keypairs : list mias_key_pair_t; _hashAlgo : Z; _signAlgo : Z; _signKey : Z; _decryptAlgo : Z; _decryptKey : Z }.

(** The interface, the two applets, and the card. *)
Record se_sys (K : Type) := SeSys { iface : SEInterface; mf : Applet; mias : Applet; mias_data : MIAS_data; card : K }.
Arguments SeSys {K} iface mf mias mias_data card.
Arguments iface {K} s.
Arguments mf {K} s.
Arguments mias {K} s.
Arguments mias_data {K} s.
Arguments card {K} s.

Inductive applet_id := TheMF | TheMIAS.

(** ** Memory *)

(** An allocated array, whose bytes are none until they are set. *)
Definition heap_array : Type := list (option Z).
Definition write_heap (l : heap_array) (i : Z) (bs : list Z) : outcome heap_array :=
  let i := Z.to_nat i in
  if decide (i + length bs <= length l)%nat then Ret (take i l ++ (Some <$> bs) ++ drop (i + length bs) l) else Exn (Fault OobWrite).
Definition read_heap (l : heap_array) (i : nat) : outcome Z :=
  match l !! i with Some (Some b) => Ret b | Some None => Exn (Fault UninitRead) | None => Exn (Fault OobRead) end.

(** [n] bytes from [off] on, all set. *)
Definition heap_range (buf : heap_array) (off n : nat) : outcome (list Z) :=
  if decide (off + n <= length buf)%nat then
    match mapM id (take n (drop off buf)) with Some bs => Ret bs | None => Exn (Fault UninitRead) end
  else Exn (Fault OobRead).

Lemma mapM_set (bs : list Z) : mapM id (Some <$> bs) = Some bs.
Proof. induction bs as [|b bs IH]; [done|]. by rw fmap_cons /= IH. Qed.
Lemma heap_range_app (pre post : heap_array) mid : heap_range (pre ++ (Some <$> mid) ++ post) (length pre) (length mid) = Ret mid.
Proof.
  rw /heap_range decide_True; [|rw !length_app length_fmap; lia]. rw drop_app_length take_app_le; [|by rw length_fmap].
  rw take_ge; [|by rw length_fmap]. by rw mapM_set.
Qed.
Lemma read_heap_app (pre post : heap_array) b : read_heap (pre ++ Some b :: post) (length pre) = Ret b.
Proof. by rw /read_heap list_lookup_middle. Qed.

Section se.
Context {K : Type} `{!Card K} (fuel : nat).

Definition get_se : M (se_sys K) SEInterface := gets iface.
Definition put_se (x : SEInterface) : M (se_sys K) unit := modify (fun s => SeSys x (mf s) (mias s) (mias_data s) (card s)).
Definition applet_of (a : applet_id) (s : se_sys K) : Applet := match a with TheMF => mf s | TheMIAS => mias s end.
Definition set_applet (a : applet_id) (x : Applet) (s : se_sys K) : se_sys K :=
  match a with TheMF => SeSys (iface s) x (mias s) (mias_data s) (card s) | TheMIAS => SeSys (iface s) (mf s) x (mias_data s) (card s) end.
Definition on_card {A} (m : M K A) : M (se_sys K) A := fun s =>
  match m (card s) with Ret (x, c) => Ret (x, SeSys (iface s) (mf s) (mias s) (mias_data s) c) | Exn e => Exn e end.

(** Bytes [bs] written into the array [l] from [i] on. *)
Definition write_array (l : list Z) (i : nat) (bs : list Z) : outcome (list Z) :=
  if decide (i + length bs <= length l)%nat then Ret (take i l ++ bs ++ drop (i + length bs) l) else Exn (Fault OobWrite).
Definition read_array (l : list Z) (i : Z) : outcome Z :=
  if decide (i < 0) then Exn (Fault OobRead)
  else match l !! Z.to_nat i with Some b => Ret b | None => Exn (Fault OobRead) end.
Definition read_bytes (l : list Z) (n : Z) : outcome (list Z) :=
  if decide (0 <= n <= Z.of_nat (length l)) then Ret (take (Z.to_nat n) l) else Exn (Fault OobRead).

(** ** [SEInterface] *)

(** What is done with a response, in the private function without arguments: [again] is
    its call of itself. *)
Definition handle_response (again : M (se_sys K) bool) (x : SEInterface) : M (se_sys K) bool :=
  sw1 ← lift_outcome (read_array (_apduResponse x) 0);
  sw2 ← lift_outcome (read_array (_apduResponse x) 1);
  if (_apduResponseLen x =? 2) && (sw1 =? 108) then
    a ← lift_outcome (write_array (_apdu x) 4 [sw2]);
    _ ← put_se (MkSE a (_apduLen x) (_apduResponse x) (_apduResponseLen x));
    again
  else if (_apduResponseLen x =? 2) && (sw1 =? 97) then
    cla ← lift_outcome (read_array (_apdu x) 0);
    a ← lift_outcome (write_array (_apdu x) 0 [Z.land cla 3; 192; 0; 0; sw2]);
    _ ← put_se (MkSE a 5 (_apduResponse x) (_apduResponseLen x));
    again
  else mret true.
Fixpoint transmit_loop (n : nat) : M (se_sys K) bool :=
  match n with
  | O => raise OutOfFuel
  | S n' =>
      x ← get_se;
      cmd ← lift_outcome (read_bytes (_apdu x) (_apduLen x));
      '(ok, r) ← on_card (transmitApdu cmd);
      x ← match r with
          | Some r =>
              resp ← lift_outcome (write_array (_apduResponse x) 0 r);
              mret (MkSE (_apdu x) (_apduLen x) resp (u16 (Z.of_nat (length r))))
          | None => mret x
          end;
      _ ← put_se x;
      if negb ok then mret false else handle_response (transmit_loop n') x
  end.

(** The command [bs] is put into the buffer. *)
Definition transmit_bytes (bs : list Z) (len : Z) : M (se_sys K) bool :=
  x ← get_se;
  a ← lift_outcome (write_array (_apdu x) 0 bs);
  _ ← put_se (MkSE a (u16 len) (_apduResponse x) (_apduResponseLen x));
  transmit_loop fuel.
(** The four cases of a command: without data, with a length of the response, with data,
    and with both. The arguments are bytes, [data] holds [dataLen] bytes. *)
Definition se_transmit1 (cla ins p1 p2 : Z) : M (se_sys K) bool := transmit_bytes [cla; ins; p1; p2] 4.
Definition se_transmit2 (cla ins p1 p2 le : Z) : M (se_sys K) bool := transmit_bytes [cla; ins; p1; p2; le] 5.
Definition se_transmit3 (cla ins p1 p2 : Z) (data : list Z) : M (se_sys K) bool :=
  transmit_bytes ([cla; ins; p1; p2; u8 (Z.of_nat (length data))] ++ data) (5 + Z.of_nat (length data)).
Definition se_transmit4 (cla ins p1 p2 : Z) (data : list Z) (le : Z) : M (se_sys K) bool :=
  transmit_bytes ([cla; ins; p1; p2; u8 (Z.of_nat (length data))] ++ data ++ [le]) (5 + Z.of_nat (length data) + 1).

Definition se_getStatusWord : M (se_sys K) Z :=
  x ← get_se;
  if 2 <=? _apduResponseLen x then
    h ← lift_outcome (read_array (_apduResponse x) (_apduResponseLen x - 2));
    l ← lift_outcome (read_array (_apduResponse x) (_apduResponseLen x - 1));
    mret (u16 (Z.lor (Z.shiftl h 8) l))
  else mret 0.
Definition se_getResponseLength : M (se_sys K) Z :=
  x ← get_se; mret (if 2 <? _apduResponseLen x then u16 (_apduResponseLen x - 2) else 0).
(** The bytes that are copied to the caller. *)
Definition se_getResponse : M (se_sys K) (list Z) :=
  x ← get_se;
  if 2 <? _apduResponseLen x then lift_outcome (read_bytes (_apduResponse x) (_apduResponseLen x - 2)) else mret [].

(** ** [Applet] *)

Section applet.
Context (a : applet_id).
Definition get_applet : M (se_sys K) Applet := gets (applet_of a).
Definition mod_applet (f : Applet -> Applet) : M (se_sys K) unit := modify (fun s => set_applet a (f (applet_of a s)) s).
Definition with_selected (basic selected : bool) (x : Applet) : Applet :=
  MkApplet (_seiface x) (_aid x) basic selected (_channel x).
Definition with_channel (c : Z) (x : Applet) : Applet :=
  MkApplet (_seiface x) (_aid x) (_isBasic x) (_isSelected x) c.

(** An applet as it is created, and given an interface. *)
Definition Applet_create (aid : list Z) : Applet := MkApplet false aid false false 0.
Definition Applet_init (seiface : bool) (x : Applet) : Applet :=
  MkApplet seiface (_aid x) (_isBasic x) (_isSelected x) (_channel x).

Definition isSelected : M (se_sys K) bool := x ← get_applet; mret (_isSelected x).

Definition deselect : M (se_sys K) bool :=
  x ← get_applet;
  _ ← (if _seiface x then
         if _isSelected x && negb (_isBasic x) then
           ok ← se_transmit1 0 112 128 (_channel x);
           if ok : bool then
             sw ← se_getStatusWord;
             if sw =? 36864 then mod_applet (fun x => with_selected (_isBasic x) false x) else mret tt
           else mret tt
         else if _isSelected x && _isBasic x then mod_applet (fun x => with_selected (_isBasic x) false x)
         else mret tt
       else mret tt);
  isSelected.
(** The destructor; the memory of the object is not modelled. *)
Definition Applet_destroy : M (se_sys K) unit :=
  b ← isSelected;
  if b : bool then _ ← deselect; mret tt else mret tt.

(** The selection by the identifier of the applet on the channel [c]: whether it worked. *)
Definition select_aid (c : Z) : M (se_sys K) bool :=
  x ← get_applet;
  ok ← se_transmit3 c 164 4 0 (_aid x);
  if ok : bool then
    sw ← se_getStatusWord;
    if sw =? 36864 then mret true
    else sw ← se_getStatusWord; mret (Z.land sw 65280 =? 24832)
  else mret false.
Definition select (isBasic : bool) : M (se_sys K) bool :=
  x ← get_applet;
  if _seiface x then
    _ ← deselect;
    if isBasic then
      _ ← mod_applet (with_channel 0);
      ok ← select_aid 0;
      if ok : bool then _ ← mod_applet (with_selected true true); mret true else mret false
    else
      ok ← se_transmit2 0 112 0 0 1;
      if ok : bool then
        sw ← se_getStatusWord;
        if sw =? 36864 then
          r ← se_getResponse;
          x ← get_applet;
          c ← lift_outcome (write_array [_channel x] 0 r);
          _ ← mod_applet (with_channel (nth 0 c 0));
          x ← get_applet;
          ok ← select_aid (_channel x);
          if ok : bool then _ ← mod_applet (with_selected false true); mret true
          else
            x ← get_applet;
            _ ← se_transmit1 0 112 128 (_channel x);
            mret false
        else mret false
      else mret false
  else mret false.

(** The commands of a selected applet go to its channel. *)
Definition on_channel (send : Z -> M (se_sys K) bool) : M (se_sys K) bool :=
  x ← get_applet; if _isSelected x then send (_channel x) else mret false.
Definition transmit1 (cla ins p1 p2 : Z) := on_channel (fun c => se_transmit1 (Z.lor cla c) ins p1 p2).
Definition transmit2 (cla ins p1 p2 le : Z) := on_channel (fun c => se_transmit2 (Z.lor cla c) ins p1 p2 le).
Definition transmit3 (cla ins p1 p2 : Z) (data : list Z) := on_channel (fun c => se_transmit3 (Z.lor cla c) ins p1 p2 data).
Definition transmit4 (cla ins p1 p2 : Z) (data : list Z) (le : Z) :=
  on_channel (fun c => se_transmit4 (Z.lor cla c) ins p1 p2 data le).
Definition getStatusWord : M (se_sys K) Z := x ← get_applet; if _isSelected x then se_getStatusWord else mret 0.
Definition getResponse : M (se_sys K) (list Z) := x ← get_applet; if _isSelected x then se_getResponse else mret [].
Definition getResponseLength : M (se_sys K) Z := x ← get_applet; if _isSelected x then se_getResponseLength else mret 0.

(** A command that must be answered with 90 00. *)
Definition accepted (send : M (se_sys K) bool) : M (se_sys K) bool :=
  ok ← send; if ok : bool then sw ← getStatusWord; mret (sw =? 36864) else mret false.
End applet.
End se.

(** ** [MF] *)

Section mf.
Context {K : Type} `{!Card K} (fuel : nat).

Definition MF_AID : list Z := [160; 0; 0; 0; 135; 16; 1; 255; 51; 255; 255; 137; 1; 1; 1; 0].

(** The big-endian number in [l] bytes from [i] on. *)
Fixpoint ef_size_bytes (l : nat) (data : list Z) (i size : Z) : outcome Z :=
  match l with
  | O => Ret size
  | S l' => b ← read_array data i; ef_size_bytes l' data (i + 1) (u16 (Z.lor (u16 (Z.shiftl size 8)) b))
  end.
(** The search for the tag 80 in the response to a selection, from [i] on. Every pass
    goes on by two bytes at least. *)
Fixpoint ef_size_loop (n : nat) (data : list Z) (dataLen i : Z) : outcome (option Z) :=
  match n with
  | O => Exn OutOfFuel
  | S n' =>
      if i <? dataLen then
        t ← read_array data i;
        l ← read_array data (u16 (i + 1));
        if t =? 128 then size ← ef_size_bytes (Z.to_nat l) data (u16 (i + 2)) 0; Ret (Some size)
        else ef_size_loop n' data dataLen (u16 (i + 1 + 1 + l))
      else Ret None
  end.
Definition getEFSize (data : list Z) (dataLen : Z) : outcome (option Z) :=
  t ← read_array data 0;
  if t =? 98 then ef_size_loop (S (Z.to_nat dataLen)) data dataLen 2 else Ret None.

Definition verifyPin (pin : list Z) : M (se_sys K) bool :=
  if (8 <? length pin)%nat then mret false
  else accepted TheMF (transmit3 fuel TheMF 0 32 0 1 (pin ++ replicate (8 - length pin) 255)).

Definition changePin (oldPin newPin : list Z) : M (se_sys K) bool :=
  if (8 <? length oldPin)%nat || (8 <? length newPin)%nat then mret false
  else accepted TheMF (transmit3 fuel TheMF 0 36 0 1
         (oldPin ++ replicate (8 - length oldPin) 255 ++ newPin ++ replicate (8 - length newPin) 255)).

(** The loop of [readEF] with the offset [i], over the allocated array [buf]; the results
    are whether the end was reached, the last offset and the array. The bytes of [buf] are
    written before they are read. *)
Fixpoint read_loop (n : nat) (dataLen i : Z) (buf : list Z) : M (se_sys K) (bool * Z * list Z) :=
  match n with
  | O => raise OutOfFuel
  | S n' =>
      if i <? dataLen then
        let toread := if 255 <=? dataLen - i then 255 else u8 (dataLen - i) in
        ok ← accepted TheMF (transmit2 fuel TheMF 0 176 (u8 (Z.shiftr i 8)) (u8 i) toread);
        if ok : bool then
          r ← getResponse TheMF;
          buf ← lift_outcome (write_array buf (Z.to_nat i) r);
          read_loop n' dataLen (u16 (i + Z.of_nat (length r))) buf
        else mret (false, i, buf)
      else mret (true, i, buf)
  end.

(** The array stored through [data], if one was allocated, the length stored through
    [dataLen] in case of success, and the return value. *)
Record read_result := MkRead { rd_data : option (list Z); rd_len : Z; rd_ok : bool }.
Definition readEF (path : list Z) : M (se_sys K) read_result :=
  ok ← accepted TheMF (transmit4 fuel TheMF 0 164 8 4 path 0);
  if ok : bool then
    x ← get_se;
    n ← se_getResponseLength;
    size ← lift_outcome (getEFSize (_apduResponse x) n);
    match size with
    | Some dataLen =>
        let buf := replicate (Z.to_nat (dataLen + 1)) 0 in
        '(ok, i, buf) ← read_loop fuel dataLen 0 buf;
        if ok : bool then
          buf ← lift_outcome (write_array buf (Z.to_nat i) [0]);
          mret (MkRead (Some buf) (u16 (dataLen + 1)) true)
        else mret (MkRead (Some buf) dataLen false)
    | None => mret (MkRead None 0 false)
    end
  else mret (MkRead None 0 false).
End mf.

(** ** Exchanges with the card *)

(** An array of the interface whose first bytes are [bs]. *)
Definition starts_with (bs a : list Z) : Prop := exists rest, a = bs ++ rest.

Record se_ok (x : SEInterface) : Prop := SeOk {
  se_apdu_len : length (_apdu x) = 262%nat; se_response_len : length (_apduResponse x) = 258%nat }.

Lemma write_array_start l bs : (length bs <= length l)%nat ->
  write_array l 0 bs = Ret (bs ++ drop (length bs) l).
Proof. intros Hl. by rw /write_array decide_True; [|lia]. Qed.
Lemma write_array_length l i bs r : write_array l i bs = Ret r -> length r = length l.
Proof.
  rw /write_array. case_decide as Hd; [|done]. intros [= <-]. rw !length_app length_take length_drop. lia.
Qed.
Lemma read_array_app a b i : 0 <= i -> (Z.to_nat i < length a)%nat -> read_array (a ++ b) i = read_array a i.
Proof.
  intros Hi Hl. rw /read_array. case_decide; [done|]. by rw lookup_app_l.
Qed.
Lemma read_bytes_app a b : read_bytes (a ++ b) (Z.of_nat (length a)) = Ret a.
Proof. rw /read_bytes decide_True; [|rw length_app; lia]. by rw Nat2Z.id take_app_length. Qed.

Lemma read_array_0 x l : read_array (x :: l) 0 = Ret x.
Proof. done. Qed.
Lemma read_array_1 x y l : read_array (x :: y :: l) 1 = Ret y.
Proof. done. Qed.

Section exchange.
Context {K : Type} `{!Card K}.

(** A response that needs no further command: not 6C xx and not 61 xx. *)
Definition final_response (r : list Z) : Prop :=
  match r with [x; _] => x <> 108 /\ x <> 97 | _ => True end.

(** The exchange for a command: the card asks for another length (6C xx) or announces
    data to be fetched (61 xx) up to [n] times, then it answers with [r]. *)
Inductive exchange : nat -> K -> list Z -> list Z -> K -> Prop :=
  | exchange_done k cmd r k' : transmitApdu cmd k = Ret ((true, Some r), k') -> final_response r ->
      (length r <= 258)%nat -> exchange 0 k cmd r k'
  | exchange_length n k cmd x k1 r k' : transmitApdu cmd k = Ret ((true, Some [108; x]), k1) ->
      exchange n k1 (<[4%nat := x]> cmd) r k' -> exchange (S n) k cmd r k'
  | exchange_more n k cla cmd x k1 r k' : transmitApdu (cla :: cmd) k = Ret ((true, Some [97; x]), k1) ->
      exchange n k1 [Z.land cla 3; 192; 0; 0; x] r k' -> exchange (S n) k (cla :: cmd) r k'.

(** The state after an exchange. *)
Definition answered (s : se_sys K) (r : list Z) (k : K) (s' : se_sys K) : Prop :=
  se_ok (iface s') /\ starts_with r (_apduResponse (iface s')) /\ _apduResponseLen (iface s') = Z.of_nat (length r) /\
  mf s' = mf s /\ mias s' = mias s /\ mias_data s' = mias_data s /\ card s' = k.

(** The interface after the response [r]. *)
Definition with_response (x : SEInterface) (r : list Z) : SEInterface :=
  MkSE (_apdu x) (_apduLen x) (r ++ drop (length r) (_apduResponse x)) (Z.of_nat (length r)).

Lemma transmit_step fuel (s : se_sys K) cmd r k : se_ok (iface s) -> starts_with cmd (_apdu (iface s)) ->
  _apduLen (iface s) = Z.of_nat (length cmd) -> transmitApdu cmd (card s) = Ret ((true, Some r), k) -> (length r <= 258)%nat ->
  transmit_loop (S fuel) s =
    handle_response (transmit_loop fuel) (with_response (iface s) r) (SeSys (with_response (iface s) r) (mf s) (mias s) (mias_data s) k).
Proof.
  intros [Hal Hrl] [rest Ha] Hlen Hrun Hr. cbn [transmit_loop]. rw /mbind /M_bind /get_se /gets /lift_outcome Hlen Ha read_bytes_app.
  rw /on_card Hrun write_array_start; [|lia]. rw u16_small; [|width]. rw /put_se /modify /with_response. by rw -Ha -Hlen.
Qed.

Lemma transmit_loop_run n k cmd r k' : exchange n k cmd r k' -> forall fuel (s : se_sys K), (n < fuel)%nat ->
  se_ok (iface s) -> starts_with cmd (_apdu (iface s)) -> _apduLen (iface s) = Z.of_nat (length cmd) -> card s = k ->
  (4 <= length cmd <= 262)%nat ->
  exists s', transmit_loop fuel s = Ret (true, s') /\ answered s r k' s'.
Proof.
  induction 1 as [k cmd r k' Hrun Hfinal Hlen|n k cmd x k1 r k' Hrun _ IH|n k cla cmd x k1 r k' Hrun _ IH];
    intros fuel s Hfuel Hok Ha Hlen0 <- H4; (destruct fuel as [|fuel]; [lia|]).
  - rw (transmit_step fuel s cmd r k') //. destruct Hok as [Hal Hrl]. set (resp := r ++ drop (length r) (_apduResponse (iface s))).
    assert (length resp = 258%nat) as Hl by (rw /resp length_app length_drop; lia).
    exists (SeSys (with_response (iface s) r) (mf s) (mias s) (mias_data s) k'). split.
    + rw /handle_response /mbind /M_bind /lift_outcome. cbn [with_response _apduResponse _apduResponseLen]. rw -/resp.
      destruct (lookup_lt_is_Some_2 resp 0 ltac:(lia)) as [b0 Hb0]. destruct (lookup_lt_is_Some_2 resp 1 ltac:(lia)) as [b1 Hb1].
      rw /read_array /= Hb0 Hb1. destruct (Z.eqb_spec (Z.of_nat (length r)) 2) as [H2|]; [|done].
      destruct r as [|y [|z [|]]]; try (cbn in H2; lia). cbn in Hb0. injection Hb0 as <-. cbn in Hfinal. cbn [andb].
      destruct Hfinal as [H108 H97]. by rw (proj2 (Z.eqb_neq y 108) H108) (proj2 (Z.eqb_neq y 97) H97).
    + split; [by split|]. split_and!; try done. eexists. reflexivity.
  - rw (transmit_step fuel s cmd [108; x] k1) //; [|cbn; lia]. destruct Hok as [Hal Hrl]. destruct Ha as [rest Ha].
    rw /handle_response /mbind /M_bind /lift_outcome. cbn [with_response _apduResponse _apduResponseLen app length].
    assert (write_array (_apdu (iface s)) 4 [x] = Ret (<[4%nat := x]> (_apdu (iface s)))) as Hw.
    { rw /write_array decide_True; [|rw Hal; cbn; lia]. f_equal. rw insert_take_drop; [by cbn|lia]. }
    rw read_array_0 read_array_1 Hw. change (Z.of_nat 2 =? 2) with true. cbn [andb Z.eqb Pos.eqb]. rw /put_se /modify.
    edestruct (IH fuel (SeSys (MkSE (<[4%nat := x]> (_apdu (iface s))) (_apduLen (iface s)) (108 :: x :: drop 2 (_apduResponse (iface s))) 2)
      (mf s) (mias s) (mias_data s) k1)) as (s' & Hrun' & Hans); [lia|split; cbn|cbn|cbn|done|by rw length_insert|exists s'; by split].
    + by rw length_insert.
    + cbn. rw length_drop. lia.
    + rw Ha. destruct (decide (4 < length cmd)%nat).
      * rw insert_app_l; [|lia]. by eexists.
      * rw insert_app_r_alt; [|lia]. rw (list_insert_ge cmd); [|lia]. by eexists.
    + by rw length_insert Hlen0.
  - rw (transmit_step fuel s (cla :: cmd) [97; x] k1) //; [|cbn; lia]. destruct Hok as [Hal Hrl]. destruct Ha as [rest Ha].
    rw /handle_response /mbind /M_bind /lift_outcome. cbn [with_response _apduResponse _apduResponseLen app length].
    rw read_array_0 read_array_1. change (Z.of_nat 2 =? 2) with true. cbn [andb Z.eqb Pos.eqb _apdu with_response].
    rw {1}Ha. cbn [app]. rw read_array_0 write_array_start; [|cbn; lia]. rw /put_se /modify.
    edestruct (IH fuel (SeSys (MkSE ([Z.land cla 3; 192; 0; 0; x] ++ drop 5 (_apdu (iface s))) 5 (97 :: x :: drop 2 (_apduResponse (iface s))) 2)
      (mf s) (mias s) (mias_data s) k1)) as (s' & Hrun' & Hans); [lia|split; cbn|by eexists|done|done|cbn; lia|exists s'; by split].
    + rw length_drop. lia.
    + rw length_drop. lia.
Qed.
End exchange.

(** ** Safety of the buffers *)

Section safety.
Context {K : Type} `{!Card K}.

(** Exceptions other than undefined behaviour. *)
Definition no_fault (e : exn) : Prop := forall f, e <> Fault f.
(** The buffers between two commands. *)
Definition buffers_ok (s : se_sys K) : Prop :=
  se_ok (iface s) /\ 0 <= _apduLen (iface s) <= 262 /\ 0 <= _apduResponseLen (iface s) <= 258.
Definition same_applets (s s' : se_sys K) : Prop := mf s' = mf s /\ mias s' = mias s /\ mias_data s' = mias_data s.

Lemma read_array_in l i : 0 <= i < Z.of_nat (length l) -> exists b, read_array l i = Ret b.
Proof.
  intros Hi. rw /read_array decide_False; [|lia]. destruct (lookup_lt_is_Some_2 l (Z.to_nat i) ltac:(lia)) as [b ->]. by exists b.
Qed.
Lemma write_array_in l i bs : (i + length bs <= length l)%nat -> exists l', write_array l i bs = Ret l' /\ length l' = length l.
Proof.
  intros Hi. destruct (write_array l i bs) as [l'|] eqn:Hw; [exists l'; split; [done|by eapply write_array_length]|].
  by rw /write_array decide_True in Hw.
Qed.

Hypothesis card_bounded : forall cmd k, wp no_fault (transmitApdu cmd) (fun x _ => forall r, x.2 = Some r -> (length r <= 258)%nat) k.

Lemma wp_lift_ret {A} (o : outcome A) (a : A) (Q : A -> se_sys K -> Prop) s : o = Ret a -> Q a s -> wp no_fault (lift_outcome o) Q s.
Proof. intros -> HQ. by apply wp_lift_outcome. Qed.

Lemma transmit_loop_safe n (s0 s : se_sys K) : buffers_ok s -> same_applets s0 s ->
  wp no_fault (transmit_loop n) (fun _ s' => buffers_ok s' /\ same_applets s0 s') s.
Proof.
  revert s. induction n as [|n IH]; intros s ([Ha Hr] & Hl & Hrl) Hsame; cbn [transmit_loop]; [by apply wp_raise|].
  wp_step. apply wp_gets. wp_step. eapply wp_lift_ret; [rw /read_bytes decide_True //; lia|].
  wp_step. pose proof (card_bounded (take (Z.to_nat (_apduLen (iface s))) (_apdu (iface s))) (card s)) as Hcard.
  rw /wp /on_card in Hcard |- *. destruct (transmitApdu _ (card s)) as [[[ok r] k]|e]; [|done]. cbn in Hcard.
  apply (wp_bind no_fault). apply (wp_mono no_fault _ (fun x s' => se_ok x /\ _apdu x = _apdu (iface s) /\ _apduLen x = _apduLen (iface s) /\
    0 <= _apduResponseLen x <= 258 /\ s' = SeSys (iface s) (mf s) (mias s) (mias_data s) k)).
  { destruct r as [r|]; [|by apply wp_ret; split_and!; [split|..]; try lia].
    specialize (Hcard r eq_refl). destruct (write_array_in (_apduResponse (iface s)) 0 r) as (resp & Hw & Hlen); [lia|].
    wp_step. eapply wp_lift_ret; [exact Hw|]. apply wp_ret. cbn [_apdu _apduLen _apduResponseLen]. rw u16_small; [|width].
    split_and!; [split; cbn; lia|done|done|lia..|done]. }
  intros x s' ([Hxa Hxr] & Hapdu & Hlen & Hresp & ->). wp_step. apply wp_modify. cbn [mf mias mias_data card].
  destruct ok; [|apply wp_ret; split; [split; [split|]|done]; cbn; lia]. cbn [negb].
  destruct (read_array_in (_apduResponse x) 0) as [b0 H0]; [lia|]. destruct (read_array_in (_apduResponse x) 1) as [b1 H1]; [lia|].
  rw /handle_response. wp_step. eapply wp_lift_ret; [exact H0|].
  wp_step. eapply wp_lift_ret; [exact H1|]. destruct ((_apduResponseLen x =? 2) && (b0 =? 108)).
  { destruct (write_array_in (_apdu x) 4 [b1]) as (a & Hwa & Hla); [rw Hxa; cbn; lia|].
    wp_step. eapply wp_lift_ret; [exact Hwa|]. wp_step. apply wp_modify. apply IH; [split; [split|]; cbn; lia|done]. }
  destruct ((_apduResponseLen x =? 2) && (b0 =? 97)); [|apply wp_ret; split; [split; [split|]|done]; cbn; lia].
  destruct (read_array_in (_apdu x) 0) as [cla Hcla]; [lia|]. wp_step. eapply wp_lift_ret; [exact Hcla|].
  destruct (write_array_in (_apdu x) 0 [Z.land cla 3; 192; 0; 0; b1]) as (a & Hwa & Hla); [rw Hxa; cbn; lia|].
  wp_step. eapply wp_lift_ret; [exact Hwa|]. wp_step. apply wp_modify. apply IH; [split; [split|]; cbn; lia|done].
Qed.

(** C36: the interface never leaves its buffers: whatever the card answers, as long as a
    response fits into the 258 bytes for it, a command of up to 262 bytes and everything the
    interface sends by itself because of the response (the corrected length, the fetching of more
    data) reads and writes the two buffers within their bounds, keeps their sizes and leaves the
    applets alone. *)
Theorem transmit_safe fuel bs (s : se_sys K) : se_ok (iface s) -> (length bs <= 262)%nat -> 0 <= _apduResponseLen (iface s) <= 258 ->
  wp no_fault (transmit_bytes fuel bs (Z.of_nat (length bs))) (fun _ s' => buffers_ok s' /\ same_applets s s') s.
Proof.
  intros [Ha Hr] Hl Hrl. rw /transmit_bytes. wp_step. apply wp_gets.
  destruct (write_array_in (_apdu (iface s)) 0 bs) as (a & Hwa & Hla); [lia|]. wp_step. eapply wp_lift_ret; [exact Hwa|].
  wp_step. apply wp_modify. apply transmit_loop_safe; [|done]. rw u16_small; [|width]. split; [split|]; cbn; lia.
Qed.
End safety.

(** A card that announces its data, for any command but the fetching of the data. *)
Module Announcing.
Definition announcing_reply (cmd : list Z) : list Z := match cmd with [_; 192; 0; 0; _] => [7; 8; 144; 0] | _ => [97; 2] end.
#[global] Instance announcing_card : Card unit := {| transmitApdu cmd := mret (true, Some (announcing_reply cmd)) |}.
Definition announcing_start : se_sys unit :=
  SeSys (MkSE (replicate 262 0) 0 (replicate 258 0) 0) (MkApplet true [] false false 0) (MkApplet true [] false false 0) (MkMias [] 0 0 0 0 0) tt.

Lemma transmit_safe_witness :
  wp no_fault (transmit_bytes 3 [0; 164; 0; 0; 0] 5) (fun _ s' => buffers_ok s' /\ same_applets announcing_start s') announcing_start.
Proof.
  apply (fun H => transmit_safe H 3 [0; 164; 0; 0; 0] announcing_start).
  - intros cmd k. apply wp_ret. cbn [snd]. intros r [= <-]. unfold announcing_reply. repeat case_match; cbn; lia.
  - split; reflexivity.
  - cbn. lia.
  - cbn. lia.
Defined.
End Announcing.

(** ** Reading a file *)

(** Data objects without the tag 80 of the file size. *)
Inductive tlvs : list Z -> Prop :=
  | tlvs_nil : tlvs []
  | tlvs_cons t v l : t <> 128 -> (length v < 256)%nat -> tlvs l -> tlvs (t :: Z.of_nat (length v) :: v ++ l).

(** The description of a file of [size] bytes: a template 62 with its length [l], the file
    size among other objects. *)
Record file_description (size : Z) (fcp : list Z) : Prop := FileDescription {
  fd_parts : exists l before h low after, fcp = 98 :: l :: before ++ [128; 2; h; low] ++ after /\ tlvs before /\
    is_u8 h /\ is_u8 low /\ size = h * 256 + low;
  fd_length : (length fcp <= 254)%nat }.

Lemma read_array_off pre l i k : i = Z.of_nat (length pre) + k -> 0 <= k -> read_array (pre ++ l) i = read_array l k.
Proof.
  intros -> Hk. rw /read_array decide_False; [|lia]. rw decide_False; [|lia]. rw lookup_app_r; [|lia].
  by replace (Z.to_nat (_ + k) - length pre)%nat with (Z.to_nat k) by lia.
Qed.

Lemma lor_bytes h low : 0 <= h -> is_u8 low -> Z.lor (Z.shiftl h 8) low = h * 256 + low.
Proof.
  intros Hh Hl. pose proof (Z.add_lor_land (Z.shiftl h 8) low) as Hadd.
  assert (Z.land (Z.shiftl h 8) low = 0) as H0.
  { apply Z.bits_inj'. intros i Hi. rw Z.land_spec Z.bits_0 Z.shiftl_spec //. destruct (Z.ltb_spec i 8).
    - by rw (Z.testbit_neg_r h); [|lia].
    - rw (Z.testbit_eqb low) // Z.div_small; [by rw andb_false_r|]. split; [apply Hl|].
      eapply Z.lt_le_trans; [apply Hl|]. apply Z.pow_le_mono_r; lia. }
  rw H0 Z.add_0_r in Hadd. rw Hadd Z.shiftl_mul_pow2 //.
Qed.
Lemma two_bytes h low : is_u8 h -> is_u8 low -> u16 (Z.lor (u16 (Z.shiftl (u16 (Z.lor (u16 (Z.shiftl 0 8)) h)) 8)) low) = h * 256 + low.
Proof.
  intros Hh Hl. change (u16 (Z.shiftl 0 8)) with 0. rw Z.lor_0_l (u16_small h); [|width].
  rw (u16_small (Z.shiftl h 8)); [|rw Z.shiftl_mul_pow2 //; width]. rw lor_bytes //; [|width]. rw u16_small //. width.
Qed.

Lemma ef_size_loop_run before : tlvs before -> forall pre n h low after dataLen, is_u8 h -> is_u8 low ->
  (length before < n)%nat -> Z.of_nat (length pre + length before) + 4 <= dataLen -> dataLen < 2 ^ 16 - 1 ->
  ef_size_loop n (pre ++ before ++ [128; 2; h; low] ++ after) dataLen (Z.of_nat (length pre)) = Ret (Some (h * 256 + low)).
Proof.
  induction 1 as [|t v l Ht Hv _ IH]; intros pre n h low after dataLen Hh Hl Hn Hd Hw; (destruct n as [|n]; [cbn in Hn; lia|]); cbn [ef_size_loop length] in *.
  - rw (proj2 (Z.ltb_lt _ _)); [|lia]. cbn [app]. rw !u16_small; [|width..].
    rw (read_array_off pre _ (Z.of_nat (length pre)) 0) //; [|lia]. rw (read_array_off pre _ (_ + 1) 1) //. cbn [mbind outcome_bind read_array].
    rw read_array_0 read_array_1. cbn [mbind outcome_bind]. change (Z.to_nat 2) with 2%nat. cbn [Z.eqb Pos.eqb ef_size_bytes].
    rw (read_array_off pre _ (_ + 2) 2) //. rw (read_array_off pre _ (_ + 2 + 1) 3) //; [|lia].
    cbn [mbind outcome_bind ef_size_bytes]. change (read_array (128 :: 2 :: h :: low :: after) 2) with (Ret h).
    change (read_array (128 :: 2 :: h :: low :: after) 3) with (Ret low). cbn [mbind outcome_bind]. by rw two_bytes.
  - rw length_app in Hd Hn. rw (proj2 (Z.ltb_lt _ _)); [|lia]. cbn [app].
    rw (u16_small (_ + 1)); [|width].
    rw (read_array_off pre _ (Z.of_nat (length pre)) 0) //; [|lia]. rw (read_array_off pre _ (_ + 1) 1) //.
    rw read_array_0 read_array_1. cbn [mbind outcome_bind]. rw (proj2 (Z.eqb_neq t 128)) //.
    assert (pre ++ t :: Z.of_nat (length v) :: (v ++ l) ++ 128 :: 2 :: h :: low :: after =
      (pre ++ t :: Z.of_nat (length v) :: v) ++ l ++ [128; 2; h; low] ++ after) as -> by (by rw -app_assoc /= -app_assoc).
    assert (Z.of_nat (length (pre ++ t :: Z.of_nat (length v) :: v)) = Z.of_nat (length pre) + 1 + 1 + Z.of_nat (length v)) as Hlen
      by (rw length_app; cbn [length]; lia).
    rw u16_small; [|width]. rw -Hlen. apply IH; [done|done|lia|rw length_app; cbn [length]; lia|done].
Qed.

Lemma getEFSize_run size fcp rest : file_description size fcp -> getEFSize (fcp ++ rest) (Z.of_nat (length fcp)) = Ret (Some size).
Proof.
  intros [(l & before & h & low & after & -> & Hb & Hh & Hl & ->) Hlen]. rw /getEFSize. cbn [app].
  rw read_array_0. cbn [mbind outcome_bind]. change (98 =? 98) with true. cbv iota.
  pose proof (ef_size_loop_run before Hb [98; l] (S (Z.to_nat (Z.of_nat (length (98 :: l :: before ++ [128; 2; h; low] ++ after)))))
    h low (after ++ rest) (Z.of_nat (length (98 :: l :: before ++ [128; 2; h; low] ++ after))) Hh Hl) as Hrun.
  rw -Hrun; [by rw /= -!app_assoc|..].
  all: cbn [length] in *; rw length_app in Hlen |- *; cbn [length app] in *; lia.
Qed.

Section reading.
Context {K : Type} `{!Card K} (fuel : nat).

Lemma transmit_bytes_run n cmd r k' (s : se_sys K) : exchange n (card s) cmd r k' -> (n < fuel)%nat -> se_ok (iface s) ->
  (4 <= length cmd <= 262)%nat ->
  exists s', transmit_bytes fuel cmd (Z.of_nat (length cmd)) s = Ret (true, s') /\ answered s r k' s'.
Proof.
  intros Hex Hn [Hal Hrl] Hlen. rw /transmit_bytes /mbind /M_bind /get_se /gets /lift_outcome write_array_start; [|lia].
  rw u16_small; [|width]. rw /put_se /modify.
  edestruct (transmit_loop_run n _ cmd r k' Hex fuel (SeSys (MkSE (cmd ++ drop (length cmd) (_apdu (iface s))) (Z.of_nat (length cmd))
    (_apduResponse (iface s)) (_apduResponseLen (iface s))) (mf s) (mias s) (mias_data s) (card s))) as (s' & Hrun & Hans); [done|split; cbn|by eexists|done|done|done|].
  - rw length_app length_drop. lia.
  - done.
  - by exists s'.
Qed.

(** The applet is [x], selected on a channel. *)
Record session (a : applet_id) (x : Applet) (s : se_sys K) : Prop := Session {
  ses_ok : se_ok (iface s); ses_applet : applet_of a s = x; ses_selected : _isSelected x = true }.

Lemma answered_applet a r k (s s' : se_sys K) : answered s r k s' -> applet_of a s' = applet_of a s.
Proof. intros (_ & _ & _ & ? & ? & _). by destruct a. Qed.
Lemma answered_session a x r k (s s' : se_sys K) : session a x s -> answered s r k s' -> session a x s'.
Proof. intros [? <- ?] Hans. split; [apply Hans|by eapply answered_applet|done]. Qed.


(** The status word and the data of a response. *)
Lemma status_run data k (s s' : se_sys K) : answered s (data ++ [144; 0]) k s' -> se_getStatusWord s' = Ret (36864, s').
Proof.
  intros (_ & [rest Hr] & Hlen & _). rw /se_getStatusWord /mbind /M_bind /get_se /gets Hlen length_app.
  cbn [length]. rw (proj2 (Z.leb_le _ _)); [|lia]. rw /lift_outcome Hr -app_assoc.
  rw (read_array_off data _ _ 0) //; [|lia]. rw (read_array_off data _ _ 1) //. lia.
Qed.
Lemma response_run data sw1 sw2 k (s s' : se_sys K) : answered s (data ++ [sw1; sw2]) k s' -> se_getResponse s' = Ret (data, s').
Proof.
  intros (_ & [rest Hr] & Hlen & _). rw /se_getResponse /mbind /M_bind /get_se /gets Hlen length_app.
  destruct data as [|x data]; [done|]. rw (proj2 (Z.ltb_lt _ _)); [|cbn; lia].
  replace (Z.of_nat _ - 2) with (Z.of_nat (length (x :: data))) by (cbn [length]; lia). by rw Hr -app_assoc /lift_outcome read_bytes_app.
Qed.
Lemma getResponse_run a x data sw1 sw2 k (s s' : se_sys K) : session a x s -> answered s (data ++ [sw1; sw2]) k s' ->
  getResponse a s' = Ret (data, s').
Proof.
  intros Hs Hans. pose proof (answered_session _ _ _ _ _ _ Hs Hans) as [_ Happ Hsel].
  rw /getResponse. eapply bind_step; [done|]. rw Happ Hsel. by eapply response_run.
Qed.
Lemma ok_status_run a x data k (s s' : se_sys K) : session a x s -> answered s (data ++ [144; 0]) k s' ->
  getStatusWord a s' = Ret (36864, s').
Proof.
  intros Hs Hans. pose proof (answered_session _ _ _ _ _ _ Hs Hans) as [_ Happ Hsel].
  rw /getStatusWord. eapply bind_step; [done|]. rw Happ Hsel. by eapply status_run.
Qed.

(** A command that is answered with 90 00. *)
Lemma accepted_run a x send data k (s s' : se_sys K) : session a x s -> send s = Ret (true, s') ->
  answered s (data ++ [144; 0]) k s' -> accepted a send s = Ret (true, s').
Proof.
  intros Hs Hsend Hans. rw /accepted. eapply bind_step; [exact Hsend|]. cbv iota.
  by eapply bind_step; [exact (ok_status_run a x data k s s' Hs Hans)|].
Qed.
(** The commands of a selected applet with data, and with data and a length of the
    response. *)
Definition data_cmd (c ins p1 p2 : Z) (data : list Z) : list Z := c :: [ins; p1; p2; Z.of_nat (length data)] ++ data.
Definition full_cmd (c ins p1 p2 : Z) (data : list Z) (le : Z) : list Z := data_cmd c ins p1 p2 data ++ [le].

Lemma transmit3_run a x n ins p1 p2 data r k (s : se_sys K) : session a x s -> (n < fuel)%nat -> (length data <= 255)%nat ->
  exchange n (card s) (data_cmd (_channel x) ins p1 p2 data) r k ->
  exists s', transmit3 fuel a 0 ins p1 p2 data s = Ret (true, s') /\ answered s r k s'.
Proof.
  intros [Hok Happ Hsel] Hn Hdata Hex.
  destruct (transmit_bytes_run n _ _ k s Hex Hn Hok ltac:(rw /data_cmd; cbn; lia)) as (s1 & Hrun & Hans).
  exists s1. split; [|done]. rw /transmit3 /on_channel. eapply bind_step; [done|]. rw Happ Hsel Z.lor_0_l /se_transmit3 u8_small; [|width].
  replace (5 + _) with (Z.of_nat (length (data_cmd (_channel x) ins p1 p2 data))) by (rw /data_cmd; cbn [length app]; lia). exact Hrun.
Qed.
Lemma transmit4_run a x n ins p1 p2 data le r k (s : se_sys K) : session a x s -> (n < fuel)%nat -> (length data <= 255)%nat ->
  exchange n (card s) (full_cmd (_channel x) ins p1 p2 data le) r k ->
  exists s', transmit4 fuel a 0 ins p1 p2 data le s = Ret (true, s') /\ answered s r k s'.
Proof.
  intros [Hok Happ Hsel] Hn Hdata Hex.
  assert (Hlen : length (full_cmd (_channel x) ins p1 p2 data le) = (5 + length data + 1)%nat)
    by (rw /full_cmd /data_cmd; cbn [length app]; rw length_app; cbn; lia).
  destruct (transmit_bytes_run n _ _ k s Hex Hn Hok ltac:(lia)) as (s1 & Hrun & Hans).
  exists s1. split; [|done]. rw /transmit4 /on_channel. eapply bind_step; [done|]. rw Happ Hsel Z.lor_0_l /se_transmit4 u8_small; [|width].
  replace (5 + _ + 1) with (Z.of_nat (length (full_cmd (_channel x) ins p1 p2 data le))) by lia. exact Hrun.
Qed.
End reading.

Section files.
Context {K : Type} `{!Card K}.

(** A card on which the file [path] holds [content]. In states with [opened], the file is
    selected on channel [c], and any part of it can be read; every exchange takes at most
    [d] further commands. *)
Record holds_file (c : Z) (d : nat) (path content : list Z) (opened : K -> Prop) (k : K) : Prop := HoldsFile {
  hf_size : Z.of_nat (length content) < 2 ^ 16 - 1;
  hf_path : (length path <= 255)%nat;
  hf_select : exists n fcp k', (n <= d)%nat /\ file_description (Z.of_nat (length content)) fcp /\ opened k' /\
    exchange n k (full_cmd c 164 8 4 path 0) (fcp ++ [144; 0]) k';
  hf_read k1 i len : opened k1 -> (0 < len <= 255)%nat -> (i + len <= length content)%nat ->
    exists n k', (n <= d)%nat /\ opened k' /\
      exchange n k1 [c; 176; Z.of_nat i / 256; Z.of_nat i mod 256; Z.of_nat len] (take len (drop i content) ++ [144; 0]) k' }.

Lemma transmit2_run fuel a n x ins p1 p2 le r k' (s : se_sys K) : session a x s -> exchange n (card s) [_channel x; ins; p1; p2; le] r k' -> (n < fuel)%nat ->
  exists s', transmit2 fuel a 0 ins p1 p2 le s = Ret (true, s') /\ answered s r k' s'.
Proof.
  intros [Hok Happ Hsel] Hex Hn. rw /transmit2 /on_channel /mbind /M_bind /get_applet /gets Happ Hsel Z.lor_0_l.
  apply (transmit_bytes_run fuel n [_channel x; ins; p1; p2; le] r k' s); [done..|cbn; lia].
Qed.

Lemma write_next content i len : (i + len <= length content)%nat ->
  write_array (take i content ++ replicate (length content - i + 1) 0) i (take len (drop i content)) =
    Ret (take (i + len) content ++ replicate (length content - (i + len) + 1) 0).
Proof.
  intros Hi. rw /write_array. rw length_app !length_take length_drop length_replicate decide_True; [|lia]. f_equal.
  rw take_app_le; [|rw length_take; lia]. rw take_take Nat.min_id drop_app_ge; [|rw length_take; lia].
  rw length_take drop_replicate app_assoc. f_equal; [|f_equal; lia].
  by rw take_take_drop.
Qed.

(** The remaining blocks, 255 bytes each, are read to the end. *)
Lemma read_loop_run fuel x d path content opened k0 : holds_file (_channel x) d path content opened k0 -> (d < fuel)%nat ->
  forall n i (s : se_sys K), session TheMF x s -> opened (card s) -> (i <= length content)%nat -> (length content - i < n)%nat ->
  exists s', read_loop fuel n (Z.of_nat (length content)) (Z.of_nat i) (take i content ++ replicate (length content - i + 1) 0) s =
      Ret ((true, Z.of_nat (length content), content ++ [0]), s') /\ session TheMF x s' /\ opened (card s').
Proof.
  intros Hf Hd. pose proof (hf_size _ _ _ _ _ _ Hf) as Hsize. induction n as [|n IH]; intros i s Hs Ho Hi Hn; [lia|]. cbn [read_loop].
  destruct (Z.ltb_spec (Z.of_nat i) (Z.of_nat (length content))) as [Hlt|Hge]; last first.
  { assert (i = length content) as -> by lia. exists s. rw Nat.sub_diag take_ge //. }
  set (len := Nat.min 255 (length content - i)).
  assert ((if 255 <=? Z.of_nat (length content) - Z.of_nat i then 255 else u8 (Z.of_nat (length content) - Z.of_nat i)) = Z.of_nat len) as ->.
  { rw /len. destruct (Z.leb_spec 255 (Z.of_nat (length content) - Z.of_nat i)); [lia|]. rw u8_small; [lia|width]. }
  assert (Hlen : (0 < len <= 255)%nat /\ (i + len <= length content)%nat) by (rw /len; lia). clearbody len.
  destruct (hf_read _ _ _ _ _ _ Hf (card s) i len Ho ltac:(lia) ltac:(lia)) as (m & k' & Hm & Ho' & Hex).
  assert (u8 (Z.shiftr (Z.of_nat i) 8) = Z.of_nat i / 256 /\ u8 (Z.of_nat i) = Z.of_nat i mod 256) as [-> ->].
  { rw Z.shiftr_div_pow2 // u8_small; [done|]. change (2 ^ 8) with 256. split; [apply Z.div_pos; lia|apply Z.div_lt_upper_bound; lia]. }
  destruct (transmit2_run fuel TheMF m x 176 _ _ _ _ k' s Hs Hex ltac:(lia)) as (s1 & Hrun1 & Hans1).
  rw /mbind /M_bind (accepted_run TheMF x _ _ k' s s1 Hs Hrun1 Hans1) (getResponse_run TheMF x _ 144 0 k' s s1 Hs Hans1).
  rw /lift_outcome Nat2Z.id write_next; [|lia]. rw length_take length_drop Nat.min_l; [|lia].
  replace (u16 _) with (Z.of_nat (i + len)) by (rw u16_small; [lia|width]).
  apply IH; [by eapply answered_session|by destruct Hans1 as (_ & _ & _ & _ & _ & _ & ->)|lia|lia].
Qed.

Lemma readEF_run fuel x d path content opened (s : se_sys K) : holds_file (_channel x) d path content opened (card s) ->
  session TheMF x s -> (d < fuel)%nat -> (length content < fuel)%nat ->
  exists s', readEF fuel path s = Ret (MkRead (Some (content ++ [0])) (Z.of_nat (length content) + 1) true, s') /\
    session TheMF x s' /\ opened (card s').
Proof.
  intros Hf Hs Hd Hn. pose proof (hf_size _ _ _ _ _ _ Hf) as Hsize. pose proof (hf_path _ _ _ _ _ _ Hf) as Hpath.
  destruct (hf_select _ _ _ _ _ _ Hf) as (n & fcp & k' & Hnd & Hfcp & Ho & Hex).
  destruct (transmit4_run fuel TheMF x n 164 8 4 path 0 _ k' s Hs ltac:(lia) Hpath Hex) as (s1 & Hrun1 & Hans1).
  pose proof (answered_session _ _ _ _ _ _ Hs Hans1) as Hs1.
  rw /readEF /mbind /M_bind (accepted_run TheMF x _ _ k' s s1 Hs Hrun1 Hans1).
  pose proof Hans1 as (_ & [rest Hr] & Hlen & _ & _ & _ & Hcard). rw /get_se /gets /se_getResponseLength /mbind /M_bind /get_se /gets Hlen length_app.
  assert (6 <= length fcp)%nat as Hfl.
  { destruct Hfcp as [(l & before & h & low & after & -> & _) _]. cbn [length]. rw !length_app. cbn [length]. lia. }
  pose proof (fd_length _ _ Hfcp) as Hfl2.
  rw (proj2 (Z.ltb_lt _ _)); [|cbn [length]; lia]. cbn [length]. replace (Z.of_nat _ - 2) with (Z.of_nat (length fcp)) by lia.
  rw u16_small; [|width]. rw /mret /M_ret Hr -app_assoc (getEFSize_run _ _ _ Hfcp). cbn [lift_outcome].
  destruct (read_loop_run fuel x d path content opened (card s) Hf Hd fuel 0 s1 Hs1) as (s2 & Hrun2 & Hs2 & Ho2);
    [by rw Hcard|lia|lia|].
  rw take_0 Nat.sub_0_r in Hrun2. cbn [app] in Hrun2. replace (Z.to_nat (Z.of_nat (length content) + 1)) with (length content + 1)%nat by lia.
  rw Hrun2 Nat2Z.id /write_array decide_True; [|rw length_app; cbn; lia]. cbn [lift_outcome].
  rw take_app_length drop_ge; [|rw length_app; cbn; lia]. rw app_nil_r u16_small; [|width]. by exists s2.
Qed.
End files.

(** ** Sessions *)

Section sessions.
Context {K : Type} `{!Card K} (fuel : nat).

(** A response with more data to be fetched: the status word is 61 xx. *)
Lemma more_status_run a x data y k (s s' : se_sys K) : session a x s -> is_u8 y -> answered s (data ++ [97; y]) k s' ->
  getStatusWord a s' = Ret (24832 + y, s').
Proof.
  intros Hs Hy Hans. pose proof (answered_session _ _ _ _ _ _ Hs Hans) as [_ Happ Hsel]. destruct Hans as (_ & [rest Hr] & Hlen & _).
  rw /getStatusWord. eapply bind_step; [done|]. rw Happ Hsel /se_getStatusWord /mbind /M_bind /get_se /gets Hlen length_app.
  cbn [length]. rw (proj2 (Z.leb_le _ _)); [|lia]. rw /lift_outcome Hr -app_assoc.
  rw (read_array_off data _ _ 0) //; [|lia]. rw (read_array_off data _ _ 1) //; [|lia].
  change (read_array ([97; y] ++ rest) 0) with (Ret 97 : outcome Z). change (read_array ([97; y] ++ rest) 1) with (Ret y : outcome Z).
  cbv beta iota. rw lor_bytes //. by rw u16_small; [|width].
Qed.
Lemma length_run a x data sw1 sw2 k (s s' : se_sys K) : session a x s -> (length data <= 256)%nat -> answered s (data ++ [sw1; sw2]) k s' ->
  getResponseLength a s' = Ret (Z.of_nat (length data), s').
Proof.
  intros Hs Hd Hans. pose proof (answered_session _ _ _ _ _ _ Hs Hans) as [_ Happ Hsel]. destruct Hans as (_ & _ & Hlen & _).
  rw /getResponseLength. eapply bind_step; [done|]. rw Happ Hsel /se_getResponseLength. eapply bind_step; [done|].
  rw Hlen length_app. cbn [length]. destruct (Z.ltb_spec 2 (Z.of_nat (length data + 2))).
  - rw u16_small; [rw /mret /M_ret; repeat f_equal; lia|width].
  - rw /mret /M_ret; repeat f_equal; lia.
Qed.

Lemma applet_set a x (s : se_sys K) : applet_of a (set_applet a x s) = x.
Proof. by destruct a. Qed.
Lemma iface_set a x (s : se_sys K) : iface (set_applet a x s) = iface s.
Proof. by destruct a. Qed.
Lemma card_set a x (s : se_sys K) : card (set_applet a x s) = card s.
Proof. by destruct a. Qed.
Lemma mias_data_set a x (s : se_sys K) : mias_data (set_applet a x s) = mias_data s.
Proof. by destruct a. Qed.
Lemma answered_mias_data r k (s s' : se_sys K) : answered s r k s' -> mias_data s' = mias_data s.
Proof. by intros (_ & _ & _ & _ & _ & -> & _). Qed.

(** An applet that is not selected. *)
Definition idle (x : Applet) : Prop := _seiface x = true /\ _isSelected x = false.
(** An applet on a logical channel. *)
Definition on_logical (x : Applet) : Prop := _seiface x = true /\ _isBasic x = false /\ _isSelected x = true.

(** The [SELECT] command for the applet with the identifier [aid]. *)
Definition select_cmd (c : Z) (aid : list Z) : list Z := c :: [164; 4; 0; Z.of_nat (length aid)] ++ aid.

Lemma select_aid_run a n c fci k (s : se_sys K) : se_ok (iface s) -> (n < fuel)%nat -> (length (_aid (applet_of a s)) <= 255)%nat ->
  exchange n (card s) (select_cmd c (_aid (applet_of a s))) (fci ++ [144; 0]) k ->
  exists s', select_aid fuel a c s = Ret (true, s') /\ answered s (fci ++ [144; 0]) k s'.
Proof.
  intros Hok Hn Haid Hex.
  destruct (transmit_bytes_run fuel n _ _ k s Hex Hn Hok) as (s1 & Hrun & Hans); [rw /select_cmd; cbn; lia|].
  exists s1. split; [|done]. rw /select_aid. eapply bind_step; [done|]. rw /se_transmit3 u8_small; [|width].
  replace (5 + _) with (Z.of_nat (length (select_cmd c (_aid (applet_of a s))))) by (rw /select_cmd; cbn [length app]; lia).
  eapply bind_step; [exact Hrun|]. cbv iota.
  eapply bind_step; [by eapply status_run|]. done.
Qed.

Lemma deselect_none a (s : se_sys K) : idle (applet_of a s) -> deselect fuel a s = Ret (false, s).
Proof.
  intros [Hse Hsel]. rw /deselect. eapply bind_step; [done|]. rw Hse Hsel. cbn [andb].
  eapply bind_step; [done|]. rw /isSelected. eapply bind_step; [done|]. by rw Hsel.
Qed.

(** A logical channel is opened and the applet selected on it. *)
Lemma select_run a n1 n2 ch k1 k2 fci (s : se_sys K) : se_ok (iface s) -> idle (applet_of a s) -> (n1 < fuel)%nat -> (n2 < fuel)%nat ->
  (length (_aid (applet_of a s)) <= 255)%nat -> exchange n1 (card s) [0; 112; 0; 0; 1] [ch; 144; 0] k1 ->
  exchange n2 k1 (select_cmd ch (_aid (applet_of a s))) (fci ++ [144; 0]) k2 ->
  exists s', select fuel a false s = Ret (true, s') /\ card s' = k2 /\
    session a (MkApplet true (_aid (applet_of a s)) false true ch) s' /\ mias_data s' = mias_data s.
Proof.
  intros Hok [Hse Hsel] Hn1 Hn2 Haid Hex1 Hex2.
  destruct (transmit_bytes_run fuel n1 [0; 112; 0; 0; 1] [ch; 144; 0] k1 s Hex1 Hn1 Hok ltac:(cbn; lia)) as (s1 & Hrun1 & Hans1).
  assert (Ha1 : applet_of a s1 = applet_of a s) by (by eapply answered_applet).
  set (s2 := set_applet a (with_channel ch (applet_of a s)) s1).
  assert (Ha2 : applet_of a s2 = with_channel ch (applet_of a s)) by apply applet_set.
  destruct (select_aid_run a n2 ch fci k2 s2) as (s3 & Hrun3 & Hans3).
  { rw iface_set. apply Hans1. }
  { done. }
  { by rw Ha2. }
  { rw Ha2 card_set. by destruct Hans1 as (_ & _ & _ & _ & _ & _ & ->). }
  assert (Ha3 : applet_of a s3 = with_channel ch (applet_of a s)) by (rw -Ha2; by eapply answered_applet).
  exists (set_applet a (MkApplet true (_aid (applet_of a s)) false true ch) s3). split; last first.
  { rw card_set mias_data_set. split_and!; [by destruct Hans3 as (_ & _ & _ & _ & _ & _ & ->)| |].
    - split; [rw iface_set; apply Hans3|by rw applet_set|done].
    - rw (answered_mias_data _ _ _ _ Hans3) mias_data_set. by eapply answered_mias_data. }
  rw /select. eapply bind_step; [done|]. rw Hse.
  eapply bind_step; [by apply deselect_none|]. cbv iota.
  eapply bind_step; [exact Hrun1|]. cbv iota. eapply bind_step; [exact (status_run [ch] k1 s s1 Hans1)|].
  change (36864 =? 36864) with true. cbv iota. eapply bind_step; [exact (response_run [ch] 144 0 k1 s s1 Hans1)|].
  eapply bind_step; [done|]. eapply bind_step; [done|]. eapply bind_step; [done|].
  cbn [nth]. rw Ha1. eapply bind_step; [done|]. rw -/s2 Ha2. eapply bind_step; [exact Hrun3|].
  cbv iota. eapply bind_step; [done|]. by rw Ha3 /with_selected /= Hse.
Qed.

(** The PIN is padded to 8 bytes with FF. *)
Definition verify_cmd (c : Z) (pin : list Z) : list Z := data_cmd c 32 0 1 (pin ++ replicate (8 - length pin) 255).

Lemma verifyPin_run x n pin k (s : se_sys K) : session TheMF x s -> (n < fuel)%nat -> (length pin <= 8)%nat ->
  exchange n (card s) (verify_cmd (_channel x) pin) [144; 0] k ->
  exists s', verifyPin fuel pin s = Ret (true, s') /\ session TheMF x s' /\ card s' = k.
Proof.
  intros Hs Hn Hpin Hex. destruct (transmit3_run fuel TheMF x n 32 0 1 (pin ++ replicate (8 - length pin) 255) _ k s Hs Hn ltac:(rw length_app length_replicate; lia) Hex) as (s1 & Hrun & Hans).
  exists s1. split_and!; [|by eapply answered_session|by destruct Hans as (_ & _ & _ & _ & _ & _ & ->)].
  rw /verifyPin. rw (proj2 (Nat.ltb_ge 8 _)) //. exact (accepted_run TheMF x _ [] k s s1 Hs Hrun Hans).
Qed.

Definition close_cmd (c : Z) : list Z := [0; 112; 128; c].

Lemma deselect_run a x n k (s : se_sys K) : session a x s -> on_logical x -> (n < fuel)%nat ->
  exchange n (card s) (close_cmd (_channel x)) [144; 0] k ->
  exists s', deselect fuel a s = Ret (false, s') /\ se_ok (iface s') /\ applet_of a s' = with_selected false false x /\ card s' = k /\
    mias_data s' = mias_data s.
Proof.
  intros [Hok Happ Hsel] (Hse & Hbasic & _) Hn Hex.
  destruct (transmit_bytes_run fuel n _ _ k s Hex Hn Hok ltac:(cbn; lia)) as (s1 & Hrun & Hans).
  exists (set_applet a (with_selected false false x) s1). rw iface_set applet_set card_set mias_data_set.
  split_and!; [|apply Hans|done|by destruct Hans as (_ & _ & _ & _ & _ & _ & ->)|by eapply answered_mias_data].
  assert (Ha1 : applet_of a s1 = x) by (rw -Happ; by eapply answered_applet).
  rw /deselect. eapply bind_step; [done|]. rw Happ Hse Hsel Hbasic. cbn [andb negb]. eapply bind_step.
  { eapply bind_step; [exact Hrun|]. cbv iota. eapply bind_step; [exact (status_run [] k s s1 Hans)|]. done. }
  rw /isSelected. eapply bind_step; [done|]. by rw applet_set Ha1 Hbasic.
Qed.
(** An applet that is destroyed gives its logical channel back; one that is not selected
    sends nothing. *)
Lemma Applet_destroy_run a x n k (s : se_sys K) : session a x s -> on_logical x -> (n < fuel)%nat ->
  exchange n (card s) (close_cmd (_channel x)) [144; 0] k ->
  exists s', Applet_destroy fuel a s = Ret (tt, s') /\ applet_of a s' = with_selected false false x /\ card s' = k.
Proof.
  intros Hs Hx Hn Hex. destruct (deselect_run a x n k s Hs Hx Hn Hex) as (s' & Hrun & _ & Ha & Hc & _).
  exists s'. split_and!; [|done..]. destruct Hs as [_ Happ Hsel]. rw /Applet_destroy /isSelected.
  eapply bind_step; [by eapply bind_step|]. rw Happ Hsel. by eapply bind_step.
Qed.
Lemma Applet_destroy_idle a (s : se_sys K) : _isSelected (applet_of a s) = false -> Applet_destroy fuel a s = Ret (tt, s).
Proof. intros Hsel. rw /Applet_destroy /isSelected. eapply bind_step; [by eapply bind_step|]. by rw Hsel. Qed.
End sessions.
