(* ===== verification/Mias.v ===== *)
(** * The applet for keys and certificates

    [external_libs/gemalto/common/src/MIAS.cpp]: the operations of the applet that holds
    keys, computes hashes and signatures, decrypts, and stores certificates and other
    objects. [USE_GAT_RESPONSE] is not defined. *)
From Stdlib Require Import Ascii String.
From S2P Require Import Prelude Text Types SecureElement.

Definition MIAS_AID : list Z := [160; 0; 0; 0; 24; 128; 0; 0; 0; 6; 98; 65; 81].

(** The variables of the applet as it is created. *)
Definition MIAS_create : MIAS_data := MkMias [] 0 0 0 0 0.

Definition ALGO_SHA1 : Z := 16.
Definition ALGO_SHA224 : Z := 48.
Definition ALGO_SHA256 : Z := 64.
Definition ALGO_SHA384 : Z := 80.
Definition ALGO_SHA512 : Z := 96.
Definition RSA_PKCS1_PADDING : Z := 2.
Definition ALGO_RSA_PKCS1_PADDING : Z := 26.

Definition RSA_KEY_PAIR_FLAG : Z := 1.
Definition SIGNATURE_KEY_PAIR_FLAG : Z := 4.
Definition DECRYPTION_KEY_PAIR_FLAG : Z := 8.
Definition TAG_FILE_SIZE : Z := 129.

Section mias.
Context {K : Type} `{!Card K} (fuel : nat).

Definition transmit_to := @transmit3 K _ fuel TheMIAS.
Definition mias_accepted := @accepted K TheMIAS.
(** [READ BINARY] of [le] bytes at [offset]. *)
Definition read_binary (offset le : Z) : M (se_sys K) bool :=
  transmit2 fuel TheMIAS 0 176 (u8 (Z.shiftr offset 8)) (u8 offset) (u8 le).
Definition get_mias : M (se_sys K) MIAS_data := gets mias_data.
Definition mod_mias (f : MIAS_data -> MIAS_data) : M (se_sys K) unit :=
  modify (fun s => SeSys (iface s) (mf s) (mias s) (f (mias_data s)) (card s)).
(** [_seiface->_apduResponse[i]]. *)
Definition response_byte (i : Z) : M (se_sys K) Z := x ← get_se; lift_outcome (read_array (_apduResponse x) i).
(** [getResponse] into the array [l] at [i]. *)
Definition getResponse_into (l : list Z) (i : nat) : M (se_sys K) (list Z * Z) :=
  r ← getResponse TheMIAS;
  l ← lift_outcome (write_array l i r);
  mret (l, Z.of_nat (length r)).

(** The destructor: the list of keys is freed, then the applet is destroyed. *)
Definition MIAS_destroy : M (se_sys K) unit :=
  _ ← mod_mias (fun m => MkMias [] (_hashAlgo m) (_signAlgo m) (_signKey m) (_decryptAlgo m) (_decryptKey m));
  Applet_destroy fuel TheMIAS.

(** ** Commands *)

Definition mseSetBeforeHash (algorithm : Z) : M (se_sys K) bool :=
  mias_accepted (transmit_to 0 34 65 170 [128; 1; algorithm]).

(** The blocks of [data]; there is one more pass than blocks at most. *)
Fixpoint hash_blocks (n : nat) (block_size : nat) (data : list Z) : M (se_sys K) bool :=
  match n, data with
  | _, [] => mret true
  | O, _ => raise OutOfFuel
  | S n', _ =>
      ok ← mias_accepted (transmit_to 0 42 144 128 (take block_size data));
      if ok : bool then hash_blocks n' block_size (drop block_size data) else mret false
  end.
Definition psoHashInternally (algorithm : Z) (data : list Z) : M (se_sys K) bool :=
  if (algorithm =? ALGO_SHA1) || (algorithm =? ALGO_SHA224) || (algorithm =? ALGO_SHA256) then hash_blocks (length data) 64 data
  else if (algorithm =? ALGO_SHA384) || (algorithm =? ALGO_SHA512) then hash_blocks (length data) 128 data
  else mret false.

(** The hash, if the command is accepted. *)
Definition psoHashInternallyFinal : M (se_sys K) (option (list Z)) :=
  ok ← mias_accepted (transmit4 fuel TheMIAS 0 42 144 160 [128; 0] 0);
  if ok : bool then r ← getResponse TheMIAS; mret (Some r) else mret None.

Definition hash_size (algorithm : Z) : option nat :=
  if algorithm =? ALGO_SHA1 then Some 20%nat
  else if algorithm =? ALGO_SHA224 then Some 28%nat
  else if algorithm =? ALGO_SHA256 then Some 32%nat
  else if algorithm =? ALGO_SHA384 then Some 48%nat
  else if algorithm =? ALGO_SHA512 then Some 64%nat
  else None.
(** [hash] is the memory from the pointer on; the length passed is not used. *)
Definition psoHashExternally (algorithm : Z) (hash : list Z) : M (se_sys K) bool :=
  match hash_size algorithm with
  | None => mret false
  | Some n =>
      h ← lift_outcome (read_bytes hash (Z.of_nat n));
      mias_accepted (transmit4 fuel TheMIAS 0 42 144 160 ([144; Z.of_nat n] ++ h) 0)
  end.

Definition mseSetBeforeSignature (algorithm key : Z) : M (se_sys K) bool :=
  mias_accepted (transmit_to 0 34 65 182 [128; 1; algorithm; 132; 1; key]).

(** The signature collected so far is [sig]; the buffer of the caller has no size. *)
Fixpoint signature_loop (n : nat) (sig : list Z) : M (se_sys K) (bool * list Z) :=
  match n with
  | O => raise OutOfFuel
  | S n' =>
      len ← getResponseLength TheMIAS;
      if len =? 0 then mret (false, sig)
      else
        r ← getResponse TheMIAS;
        let sig := sig ++ r in
        sw ← getStatusWord TheMIAS;
        if Z.land sw 65280 =? 24832 then
          sw ← getStatusWord TheMIAS;
          ok ← transmit2 fuel TheMIAS 0 192 0 0 (u8 (Z.land sw 255));
          if ok : bool then signature_loop n' sig else mret (false, sig)
        else
          sw ← getStatusWord TheMIAS;
          mret (sw =? 36864, sig)
  end.
Definition psoComputeDigitalSignature : M (se_sys K) (bool * list Z) :=
  ok ← transmit2 fuel TheMIAS 0 42 158 154 0;
  if ok : bool then signature_loop fuel [] else mret (false, []).

Definition mseSetBeforeDecrypt (algorithm key : Z) : M (se_sys K) bool :=
  mias_accepted (transmit_to 0 34 65 184 [128; 1; algorithm; 132; 1; key]).

(** The plain text, if the command is accepted. *)
Definition psoDecipher (data : list Z) : M (se_sys K) (option (list Z)) :=
  ok ← (if (length data <? 255)%nat then transmit_to 0 42 128 134 (129 :: data)
        else
          ok ← mias_accepted (transmit_to 16 42 128 134 (129 :: take 254 data));
          if ok : bool then transmit_to 0 42 128 134 (drop 254 data) else mret false);
  if ok : bool then
    sw ← getStatusWord TheMIAS;
    if sw =? 36864 then r ← getResponse TheMIAS; mret (Some r) else mret None
  else mret None.

(** ** Public operations *)

Definition MIAS_verifyPin (pin : list Z) : M (se_sys K) bool := mias_accepted (transmit_to 0 32 0 129 pin).

(** The new value is stored from the last byte of the old one on, so the last byte that is
    sent is not set, unless the new value is empty. *)
Definition MIAS_changePin (oldPin newPin : list Z) : M (se_sys K) bool :=
  let dataLen := u16 (1 + Z.of_nat (length oldPin) + Z.of_nat (length newPin)) in
  if 17 <? dataLen then mret false
  else if decide (newPin = []) then mias_accepted (transmit_to 128 36 0 129 (Z.of_nat (length oldPin) :: oldPin))
  else raise (Fault UninitRead).

Definition hashInit (algorithm : Z) : M (se_sys K) bool :=
  _ ← mod_mias (fun m => MkMias (_keypairs m) algorithm (_signAlgo m) (_signKey m) (_decryptAlgo m) (_decryptKey m));
  mseSetBeforeHash algorithm.
Definition hashUpdate (data : list Z) : M (se_sys K) bool := m ← get_mias; psoHashInternally (_hashAlgo m) data.
Definition hashFinal : M (se_sys K) (option (list Z)) := psoHashInternallyFinal.
Definition signInit (algorithm key : Z) : M (se_sys K) bool :=
  _ ← mod_mias (fun m => MkMias (_keypairs m) (_hashAlgo m) algorithm key (_decryptAlgo m) (_decryptKey m));
  mseSetBeforeSignature algorithm key.
Definition signFinal (hash : list Z) : M (se_sys K) (bool * list Z) :=
  m ← get_mias;
  ok ← psoHashExternally (Z.land (_signAlgo m) 240) hash;
  if ok : bool then psoComputeDigitalSignature else mret (false, []).
Definition decryptInit (algorithm key : Z) : M (se_sys K) bool :=
  _ ← mod_mias (fun m => MkMias (_keypairs m) (_hashAlgo m) (_signAlgo m) (_signKey m) algorithm key);
  mseSetBeforeDecrypt algorithm key.
Definition decryptFinal (data : list Z) : M (se_sys K) (option (list Z)) := psoDecipher data.

(** ** Key pairs *)

(** The objects of a file description in the response, from [i] on: the last file size
    among them, [size] when there is none. The index has 8 bits and may wrap around. *)
Fixpoint file_size_loop (n : nat) (i len : Z) (size : option Z) : M (se_sys K) (option Z) :=
  match n with
  | O => raise OutOfFuel
  | S n' =>
      if i <? len then
        t ← response_byte i;
        l ← response_byte (i + 1);
        size ← (if t =? TAG_FILE_SIZE then
                  h ← response_byte (i + 2); low ← response_byte (i + 3); mret (Some (Z.lor (Z.shiftl h 8) low))
                else mret size);
        file_size_loop n' (u8 (i + (2 + l))) len size
      else mret size
  end.
Definition described_size (size : option Z) : M (se_sys K) (option Z) :=
  len ← response_byte 1;
  file_size_loop fuel 2 (u8 (len + 2)) size.

(** The entry [i] of the key containers, if there is one. *)
Definition container_entry (i : Z) : M (se_sys K) (option mias_key_pair_t) :=
  used ← response_byte 0;
  if used =? 0 then mret None
  else
    b4 ← response_byte 4; b5 ← response_byte 5;
    let size := Z.lor (Z.shiftl b4 8) b5 in
    '(flags, size) ← (if size =? 0 then
                        b6 ← response_byte 6; b7 ← response_byte 7;
                        mret (Z.lor SIGNATURE_KEY_PAIR_FLAG DECRYPTION_KEY_PAIR_FLAG, Z.lor (Z.shiftl b6 8) b7)
                      else mret (SIGNATURE_KEY_PAIR_FLAG, size));
    let exchange := Z.land flags (Z.lor SIGNATURE_KEY_PAIR_FLAG DECRYPTION_KEY_PAIR_FLAG) =?
                      Z.lor SIGNATURE_KEY_PAIR_FLAG DECRYPTION_KEY_PAIR_FLAG in
    let base := if size =? 1024 then Some (if exchange then 16 else 32)
                else if size =? 2048 then Some (if exchange then 48 else 64) else None in
    mret (Some match base with
               | Some b => MkKeyPair (Some (u8 (Z.lor b (i + 1)))) (Z.lor flags RSA_KEY_PAIR_FLAG) size [0; 0] false
               | None => MkKeyPair None flags size [0; 0] false
               end).
Definition add_keypair (k : mias_key_pair_t) : M (se_sys K) unit :=
  mod_mias (fun m => MkMias (k :: _keypairs m) (_hashAlgo m) (_signAlgo m) (_signKey m) (_decryptAlgo m) (_decryptKey m)).
Fixpoint containers_loop (n : nat) (i offset size : Z) : M (se_sys K) unit :=
  match n with
  | O => raise OutOfFuel
  | S n' =>
      if offset <? size then
        ok ← read_binary offset 11;
        if ok : bool then
          sw ← getStatusWord TheMIAS;
          if sw =? 36864 then
            k ← container_entry i;
            _ ← match k with Some k => add_keypair k | None => mret tt end;
            containers_loop n' (u8 (i + 1)) (u16 (offset + 11)) size
          else mret tt
        else containers_loop n' (u8 (i + 1)) (u16 (offset + 11)) size
      else mret tt
  end.

(** The container a key belongs to. *)
Definition container_of (k : mias_key_pair_t) : outcome Z :=
  match kp_kid k with Some kid => Ret (Z.land kid 15 - 1) | None => Exn (Fault UninitRead) end.
(** The first key of container [id] gets the certificate file [file]. *)
Fixpoint set_cert (id : Z) (file : list Z) (l : list mias_key_pair_t) : outcome (list mias_key_pair_t) :=
  match l with
  | [] => Ret []
  | k :: l' =>
      c ← container_of k;
      if c =? id then Ret (MkKeyPair (kp_kid k) (kp_flags k) (kp_size_in_bits k) file true :: l')
      else l'' ← set_cert id file l'; Ret (k :: l'')
  end.
(** An entry of the file directory: the certificate of an exchange key ("kxc") or of a
    signature key ("ksc") in the directory "mscp". *)
Definition directory_entry : M (se_sys K) unit :=
  r ← get_se;
  r ← lift_outcome (read_bytes (_apduResponse r) 21);
  if decide (take 4 (drop 12 r) = bytes "mscp" /\ (take 3 (drop 4 r) = bytes "kxc" \/ take 3 (drop 4 r) = bytes "ksc")) then
    m ← get_mias;
    let id := (nth 7 r 0 - 48) * 10 + (nth 8 r 0 - 48) in
    l ← lift_outcome (set_cert id (take 2 r) (_keypairs m));
    mod_mias (fun m => MkMias l (_hashAlgo m) (_signAlgo m) (_signKey m) (_decryptAlgo m) (_decryptKey m))
  else mret tt.
Fixpoint directory_loop (n : nat) (offset : Z) : M (se_sys K) unit :=
  match n with
  | O => mret tt
  | S n' =>
      ok ← mias_accepted (read_binary offset 21);
      _ ← (if ok : bool then directory_entry else mret tt);
      directory_loop n' (u16 (offset + 21))
  end.

Definition listKeyPairs : M (se_sys K) bool :=
  m ← get_mias;
  match _keypairs m with
  | _ :: _ => mret true
  | [] =>
      ok ← mias_accepted (transmit4 fuel TheMIAS 0 164 8 4 [0; 2] 21);
      len ← (if ok : bool then getResponseLength TheMIAS else mret 0);
      if 2 <? len then
        t ← response_byte 0;
        if t =? 98 then
          size ← described_size (Some 0);
          _ ← containers_loop fuel 0 0 (default 0 size);
          ok ← mias_accepted (transmit4 fuel TheMIAS 0 164 8 4 [1; 1] 21);
          ok ← (if ok : bool then mias_accepted (read_binary 0 1) else mret false);
          _ ← (if ok : bool then n ← response_byte 0; directory_loop (Z.to_nat n) 1 else mret tt);
          mret true
        else mret false
      else mret false
  end.

(** The first key of the container; none when the pointer is null at the end. *)
Fixpoint find_key (id : Z) (l : list mias_key_pair_t) : outcome (option mias_key_pair_t) :=
  match l with
  | [] => Ret None
  | k :: l' => c ← container_of k; if c =? id then Ret (Some k) else find_key id l'
  end.
Definition getKeyPairByContainerId (container_id : Z) : M (se_sys K) (option mias_key_pair_t) :=
  _ ← listKeyPairs;
  m ← get_mias;
  lift_outcome (find_key container_id (_keypairs m)).

(** ** Certificates and objects *)

(** The certificate of [ef_size] bytes, from [offset] on. A block that cannot be read is
    skipped. *)
Fixpoint certificate_loop (n : nat) (offset ef_size : Z) (cert : heap_array) : M (se_sys K) (Z * heap_array) :=
  match n with
  | O => raise OutOfFuel
  | S n' =>
      if offset <? ef_size then
        let len := if ef_size <? offset + 238 then u8 (ef_size - offset) else 238 in
        ok ← mias_accepted (read_binary offset len);
        '(len, cert) ← (if ok : bool then
                          r ← getResponse TheMIAS;
                          cert ← lift_outcome (write_heap cert offset r);
                          mret (u8 (Z.of_nat (length r)), cert)
                        else mret (len, cert));
        certificate_loop n' (u16 (offset + len)) ef_size cert
      else mret (offset, cert)
  end.
(** The array and its length, if the result is true. *)
Definition getCertificateByContainerId (container_id : Z) : M (se_sys K) (option (heap_array * Z)) :=
  kp ← getKeyPairByContainerId container_id;
  match kp with
  | None => mret None
  | Some kp =>
      if negb (kp_has_cert kp) then mret None
      else
        ok ← mias_accepted (transmit4 fuel TheMIAS 0 164 8 4 (kp_pub_file_id kp) 28);
        if negb ok then mret None
        else
          t ← response_byte 0;
          ef_size ← (if t =? 98 then described_size None else mret None);
          ef_size ← lift_option (Fault UninitRead) ef_size;
          if ef_size =? 0 then mret None
          else
            let certLen := u16 (ef_size + 1) in
            '(offset, cert) ← certificate_loop fuel 0 ef_size (replicate (Z.to_nat certLen) None);
            cert ← lift_outcome (write_heap cert offset [0]);
            c0 ← lift_outcome (read_heap cert 0);
            compressed ← (if c0 =? 1 then c1 ← lift_outcome (read_heap cert 1); mret (c1 =? 0) else mret false);
            mret (if compressed : bool then None else Some (cert, certLen))
  end.

(** An entry of the file directory; the names end with a null. *)
Record mias_file_t := MkFile { mf_efid : Z; mf_dir : list Z; mf_name : list Z; mf_size : Z }.

(** A read of [le] bytes into the array [record]: the array, and whether [want] bytes
    came. *)
Definition read_record (offset le want : Z) (record : list Z) : M (se_sys K) (list Z * bool) :=
  ok ← mias_accepted (read_binary offset le);
  if ok : bool then '(record, n) ← getResponse_into record 0; mret (record, n =? want)
  else mret (record, false).

Definition file_of (r : list Z) : mias_file_t :=
  MkFile (Z.lor (Z.shiftl (nth 0 r 0) 8) (nth 1 r 0)) (take 8 (drop 12 r) ++ [0]) (take 8 (drop 4 r) ++ [0])
    (Z.lor (Z.shiftl (nth 2 r 0) 8) (nth 3 r 0)).
(** The entries from [i] on, before those in [files]. *)
Fixpoint p11_list (n : nat) (i : Z) (record : list Z) (files : list mias_file_t) : M (se_sys K) (list Z * list mias_file_t) :=
  match n with
  | O => mret (record, files)
  | S n' =>
      '(record, ok) ← read_record (u16 (1 + i * 21)) 21 21 record;
      p11_list n' (i + 1) record (if ok : bool then file_of record :: files else files)
  end.

(** The big-endian number in [n] bytes from [record[i]] on, after the digits [size]. *)
Fixpoint value_size (n : nat) (i size : Z) (record : list Z) : outcome Z :=
  match n with
  | O => Ret size
  | S n' => b ← read_array record i; value_size n' (i + 1) (Z.lor (u16 (Z.shiftl size 8)) b) record
  end.
Fixpoint object_loop (n : nat) (offset i size : Z) (obj : heap_array) : M (se_sys K) (Z * heap_array) :=
  match n with
  | O => raise OutOfFuel
  | S n' =>
      if i <? size then
        let len := if size <? i + 238 then u16 (size - i) else 238 in
        ok ← mias_accepted (read_binary offset len);
        '(len, obj) ← (if ok : bool then
                         r ← getResponse TheMIAS;
                         obj ← lift_outcome (write_heap obj i r);
                         mret (u16 (Z.of_nat (length r)), obj)
                       else mret (len, obj));
        object_loop n' (u16 (offset + len)) (u16 (i + len)) size obj
      else mret (i, obj)
  end.

(** The attributes behind the label: the application and the identifier are skipped, the
    value is read. [size0] is what the variable [size] holds before it is set. *)
Definition p11_value (size0 offset : Z) (record : list Z) : M (se_sys K) (list Z * option (heap_array * Z)) :=
  '(record, ok) ← read_record offset 1 1 record;
  if negb ok then mret (record, None)
  else
    let offset := u16 (offset + (1 + nth 0 record 0)) in
    '(record, ok) ← read_record offset 1 1 record;
    if negb ok then mret (record, None)
    else
      let offset := u16 (offset + (1 + nth 0 record 0)) in
      '(record, ok) ← read_record offset 5 5 record;
      if negb ok then mret (record, None)
      else
        let r0 := nth 0 record 0 in
        let n := if r0 <? 128 then 0 else Z.land r0 15 in
        size ← (if r0 <? 128 then mret r0 else lift_outcome (value_size (Z.to_nat n) 1 size0 record));
        let offset := u16 (offset + n + 1) in
        let objectLen := u16 (size + 1) in
        '(i, obj) ← object_loop fuel offset 0 size (replicate (Z.to_nat objectLen) None);
        obj ← lift_outcome (write_heap obj i [0]);
        mret (record, Some (obj, objectLen)).

(** The object of one file, if its label is the one searched for. *)
Definition p11_file (size0 : Z) (label : list Z) (f : mias_file_t) (record : list Z) : M (se_sys K) (list Z * option (heap_array * Z)) :=
  if decide (take 4 (mf_dir f) = bytes "p11" ++ [0] /\
             (take 6 (mf_name f) = bytes "pubdat" \/ take 6 (mf_name f) = bytes "pridat")) then
    ok ← mias_accepted (transmit_to 0 164 8 4 [Z.shiftr (mf_efid f) 8; u8 (mf_efid f)]);
    if negb ok then mret (record, None)
    else
      '(record, ok) ← read_record 16 1 1 record;
      if negb ok then mret (record, None)
      else
        let l := nth 0 record 0 in
        ok ← mias_accepted (read_binary 17 l);
        len ← (if ok : bool then getResponseLength TheMIAS else mret 0);
        if negb (ok && (len =? l)) then mret (record, None)
        else
          '(record, n) ← getResponse_into record 0;
          record ← lift_outcome (write_array record (Z.to_nat len) [0]);
          if decide (take (length label) record = label /\ Z.of_nat (length label) = len) then
            p11_value size0 (u16 (17 + Z.of_nat (length label))) record
          else mret (record, None)
  else mret (record, None).
Fixpoint p11_files (size0 : Z) (label : list Z) (files : list mias_file_t) (record : list Z) : M (se_sys K) (option (heap_array * Z)) :=
  match files with
  | [] => mret None
  | f :: files' =>
      '(record, o) ← p11_file size0 label f record;
      match o with Some o => mret (Some o) | None => p11_files size0 label files' record end
  end.

(** The array [record] is on the stack; its bytes are set before they are read. *)
Definition p11GetObjectByLabel (size0 : Z) (label : list Z) : M (se_sys K) (option (heap_array * Z)) :=
  ok ← mias_accepted (transmit_to 0 164 8 4 [1; 1]);
  ok ← (if ok : bool then mias_accepted (read_binary 0 1) else mret false);
  if negb ok then mret None
  else
    '(nb, n) ← getResponse_into [0] 0;
    if negb (n =? 1) then mret None
    else
      '(record, files) ← p11_list (Z.to_nat (nth 0 nb 0)) 0 (replicate 21 0) [];
      p11_files size0 label files record.
End mias.

(** ** Signing *)

Section signing.
Context {K : Type} `{!Card K} (fuel : nat).

(** The parts of a signature on the channel [c]: every response but the last announces
    more with 61 xx, at most [m] do. *)
Inductive signature_parts (c : Z) : nat -> K -> list Z -> list Z -> K -> Prop :=
  | signature_last m n k cmd r k' : (n < fuel)%nat -> r <> [] -> (length r <= 256)%nat ->
      exchange n k cmd (r ++ [144; 0]) k' -> signature_parts c m k cmd r k'
  | signature_more m n k cmd r x k1 rest k' : (n < fuel)%nat -> r <> [] -> (length r <= 256)%nat -> is_u8 x ->
      exchange n k cmd (r ++ [97; x]) k1 -> signature_parts c m k1 [c; 192; 0; 0; x] rest k' ->
      signature_parts c (S m) k cmd (r ++ rest) k'.

Lemma more_word x : is_u8 x -> Z.land (24832 + x) 65280 = 24832 /\ u8 (Z.land (24832 + x) 255) = x.
Proof.
  intros Hx. pose proof (u8_forall (fun x => (Z.land (24832 + x) 65280 =? 24832) && (u8 (Z.land (24832 + x) 255) =? x))
    ltac:(by vm_compute) x Hx) as Hp. cbn beta in Hp. lia.
Qed.

Lemma nonempty_length {A} (r : list A) : r <> [] -> (Z.of_nat (length r) =? 0) = false.
Proof. by destruct r. Qed.

Lemma signature_loop_run x m k cmd sig k' : signature_parts (_channel x) m k cmd sig k' ->
  forall f acc ins p1 p2 le (s : se_sys K), (m < f)%nat -> session TheMIAS x s -> card s = k -> cmd = [_channel x; ins; p1; p2; le] ->
  exists s', (ok ← transmit2 fuel TheMIAS 0 ins p1 p2 le; if ok : bool then signature_loop fuel f acc else mret (false, acc)) s =
      Ret ((true, acc ++ sig), s') /\ session TheMIAS x s' /\ card s' = k'.
Proof.
  induction 1 as [m n k cmd r k' Hn Hr Hlen Hex|m n k cmd r y k1 rest k' Hn Hr Hlen Hy Hex _ IH];
    intros [|f] acc ins p1 p2 le s Hf Hs <- ->; try lia;
    destruct (transmit2_run fuel TheMIAS n x ins p1 p2 le _ _ s Hs Hex Hn) as (s1 & Hrun1 & Hans1);
    pose proof (answered_session _ _ _ _ _ _ Hs Hans1) as Hs1.
  - exists s1. split_and!; [|done|by destruct Hans1 as (_ & _ & _ & _ & _ & _ & ->)].
    eapply bind_step; [exact Hrun1|]. cbn [signature_loop].
    eapply bind_step; [exact (length_run TheMIAS x _ _ _ _ s s1 Hs Hlen Hans1)|]. rw nonempty_length //.
    eapply bind_step; [exact (getResponse_run TheMIAS x _ _ _ _ s s1 Hs Hans1)|].
    eapply bind_step; [exact (ok_status_run TheMIAS x _ _ s s1 Hs Hans1)|].
    by eapply bind_step; [exact (ok_status_run TheMIAS x _ _ s s1 Hs Hans1)|].
  - destruct (more_word y Hy) as [Hw1 Hw2]. pose proof (more_status_run TheMIAS x _ _ _ s s1 Hs Hy Hans1) as Hsw.
    destruct (IH f (acc ++ r) 192 0 0 y s1) as (s2 & Hrun2 & Hs2 & Hc2); [lia|done|by destruct Hans1 as (_ & _ & _ & _ & _ & _ & ->)|done|].
    exists s2. split_and!; [|done..]. eapply bind_step; [exact Hrun1|]. cbn [signature_loop].
    eapply bind_step; [exact (length_run TheMIAS x _ _ _ _ s s1 Hs Hlen Hans1)|]. rw nonempty_length //.
    eapply bind_step; [exact (getResponse_run TheMIAS x _ _ _ _ s s1 Hs Hans1)|].
    eapply bind_step; [exact Hsw|]. rw Hw1. cbn [Z.eqb Pos.eqb]. eapply bind_step; [exact Hsw|]. rw Hw2 app_assoc. exact Hrun2.
Qed.

Definition mias_verify_cmd (c : Z) (pin : list Z) : list Z := data_cmd c 32 0 129 pin.

(** A command of the applet with data that is accepted. *)
Lemma mias_accepted_run x n ins p1 p2 data r k (s : se_sys K) : session TheMIAS x s -> (n < fuel)%nat -> (length data <= 255)%nat ->
  exchange n (card s) (data_cmd (_channel x) ins p1 p2 data) (r ++ [144; 0]) k ->
  exists s', mias_accepted (transmit_to fuel 0 ins p1 p2 data) s = Ret (true, s') /\ answered s (r ++ [144; 0]) k s'.
Proof.
  intros Hs Hn Hdata Hex. destruct (transmit3_run fuel TheMIAS x n ins p1 p2 data _ k s Hs Hn Hdata Hex) as (s1 & Hrun & Hans).
  exists s1. split; [|done]. exact (accepted_run TheMIAS x _ r k s s1 Hs Hrun Hans).
Qed.

(** The card computes the signature [sig] for [hash] with the key [kid]: the algorithm and
    the key are set, then the hash, then the signature is fetched. *)
Definition card_signs (c alg kid : Z) (n : nat) (hash sig : list Z) (k k' : K) : Prop :=
  exists n1 n2 m r k1 k2, (n1 < fuel)%nat /\ (n2 < fuel)%nat /\ (m < fuel)%nat /\
    exchange n1 k (data_cmd c 34 65 182 [128; 1; alg; 132; 1; kid]) [144; 0] k1 /\
    exchange n2 k1 (full_cmd c 42 144 160 ([144; Z.of_nat n] ++ take n hash) 0) (r ++ [144; 0]) k2 /\
    signature_parts c m k2 [c; 42; 158; 154; 0] sig k'.

Lemma hash_size_bound alg n : hash_size alg = Some n -> (n <= 64)%nat.
Proof. rw /hash_size. repeat case_match; intros [= <-]; lia. Qed.

Lemma sign_run x alg kid n hash sig k (s : se_sys K) : session TheMIAS x s ->
  card_signs (_channel x) alg kid n hash sig (card s) k -> hash_size (Z.land alg 240) = Some n -> (n <= length hash)%nat ->
  exists s', (ok ← signInit fuel alg kid;
      if ok : bool then '(ok, sig) ← signFinal fuel hash; mret (if ok : bool then Some sig else None) else mret None) s = Ret (Some sig, s') /\
    session TheMIAS x s' /\ card s' = k.
Proof.
  intros Hs (n1 & n2 & m & r & k1 & k2 & Hn1 & Hn2 & Hm & Hex1 & Hex2 & Hsig) Hsize Hlen. pose proof (hash_size_bound _ _ Hsize) as Hn.
  set (f := fun d => MkMias (_keypairs d) (_hashAlgo d) alg kid (_decryptAlgo d) (_decryptKey d)).
  set (s0 := SeSys (iface s) (mf s) (mias s) (f (mias_data s)) (card s)).
  assert (Hs0 : session TheMIAS x s0) by (destruct Hs; by split).
  destruct (mias_accepted_run x n1 34 65 182 [128; 1; alg; 132; 1; kid] [] k1 s0 Hs0 Hn1 ltac:(cbn; lia) Hex1) as (s1 & Hrun1 & Hans1).
  pose proof (answered_session _ _ _ _ _ _ Hs0 Hans1) as Hs1. destruct Hans1 as (_ & _ & _ & _ & _ & Hd1 & <-).
  assert (Hl : length ([144; Z.of_nat n] ++ take n hash) = (n + 2)%nat) by (cbn [length app]; rw length_take; lia).
  destruct (transmit4_run fuel TheMIAS x n2 42 144 160 ([144; Z.of_nat n] ++ take n hash) 0 _ k2 s1 Hs1 Hn2 ltac:(lia) Hex2) as (s2 & Hrun2 & Hans2).
  pose proof (answered_session _ _ _ _ _ _ Hs1 Hans2) as Hs2.
  pose proof (accepted_run TheMIAS x _ r k2 s1 s2 Hs1 Hrun2 Hans2) as Hacc2. destruct Hans2 as (_ & _ & _ & _ & _ & _ & <-).
  destruct (signature_loop_run x m (card s2) _ sig k Hsig fuel [] 42 158 154 0 s2 Hm Hs2) as (s3 & Hrun3 & Hs3 & Hc3); [done..|].
  exists s3. split_and!; [|done..]. eapply bind_step.
  { rw /signInit. eapply (bind_step _ _ s tt s0); [done|]. exact Hrun1. }
  cbv iota. apply (bind_step _ _ s1 (true, sig) s3); [|done]. rw /signFinal. eapply bind_step; [done|]. rw Hd1. cbn [mias_data s0 f _signAlgo].
  apply (bind_step _ _ s1 true s2); [|exact Hrun3]. rw /psoHashExternally Hsize. apply (bind_step _ _ s1 (take n hash) s1); [|exact Hacc2].
  rw /lift_outcome /read_bytes decide_True; [|lia]. by rw Nat2Z.id.
Qed.
End signing.
