(* ===== verification/MbedtlsSe.v ===== *)
(** * Keys and certificates of the TLS connection in the secure element

    [external_libs/gemalto/mbedtls/src/mbedtls_se.c]: certificates and private keys are
    read from files or objects of the secure element; a key that stays in the secure
    element is used through its operations. The build is in C++; the functions of mbedTLS
    that are called are an interface. *)
From Stdlib Require Import Ascii String.
From S2P Require Import Prelude Text Types SecureElement Mias.

Definition MBEDTLS_ERR_SE_MIAS_SELECT_ERROR : Z := -21120.
Definition MBEDTLS_ERR_SE_MIAS_VERIFY_PIN_ERROR : Z := -21248.
Definition MBEDTLS_ERR_SE_MIAS_IO_ERROR : Z := -21376.
Definition MBEDTLS_ERR_SE_MIAS_READ_OBJECT_ERROR : Z := -21504.
Definition MBEDTLS_ERR_SE_EF_VERIFY_PIN_ERROR : Z := -21632.
Definition MBEDTLS_ERR_SE_EF_INVALID_NAME_ERROR : Z := -21760.
Definition MBEDTLS_ERR_SE_EF_READ_OBJECT_ERROR : Z := -21888.
Definition MBEDTLS_ERR_SE_BAD_KEY_NAME_ERROR : Z := -22016.
Definition MBEDTLS_ERR_MD_FEATURE_UNAVAILABLE : Z := -20608.

Definition MBEDTLS_SE_EF_KEY_NAME_PREFIX : list Z := bytes "SE://EF/".
Definition MBEDTLS_SE_MIAS_KEY_NAME_PREFIX : list Z := bytes "SE://MIAS/".
Definition MBEDTLS_SE_MIAS_P11_KEY_NAME_PREFIX : list Z := bytes "SE://MIAS_P11/".

(** A key of the applet with the PIN that unlocks it. *)
Record mias_key_t := MkMiasKey { key_pin : list Z; key_kp : mias_key_pair_t }.

(** Message digests of mbedTLS. *)
Inductive mbedtls_md_type_t :=
  MBEDTLS_MD_NONE | MBEDTLS_MD_MD2 | MBEDTLS_MD_MD4 | MBEDTLS_MD_MD5 | MBEDTLS_MD_SHA1 | MBEDTLS_MD_SHA224
  | MBEDTLS_MD_SHA256 | MBEDTLS_MD_SHA384 | MBEDTLS_MD_SHA512 | MBEDTLS_MD_RIPEMD160.

(** The functions of mbedTLS: parsing of a certificate and of a private key, none for a
    null pointer, and a key context for the callbacks below. *)
Class KeyLibrary (K : Type) := {
  mbedtls_x509_crt_parse : list Z -> M K Z;
  mbedtls_pk_parse_key : option (list Z) -> M K Z;
  mbedtls_pk_setup_rsa_alt : mias_key_t -> M K Z }.

Section se.
Context {K : Type} `{!Card K} `{!KeyLibrary K} (fuel : nat).

(** ** Reading *)

(** The return code, none when it is not set, the array stored through the pointer, and
    the size. *)
Record object_result := MkObject { ob_ret : option Z; ob_data : option heap_array; ob_size : Z }.

Definition mbedtls_se_read_ef (efname pin : list Z) : M (se_sys K) object_result :=
  ok ← select fuel TheMF false;
  r ← (if ok : bool then
         ok ← verifyPin fuel pin;
         if ok : bool then
           r ← readEF fuel efname;
           mret (if rd_ok r then MkObject (Some 0) (option_map (fmap Some) (rd_data r)) (rd_len r)
                 else MkObject (Some MBEDTLS_ERR_SE_EF_READ_OBJECT_ERROR) (option_map (fmap Some) (rd_data r)) (-1))
         else mret (MkObject (Some MBEDTLS_ERR_SE_EF_VERIFY_PIN_ERROR) None (-1))
       else mret (MkObject None None (-1)));
  _ ← deselect fuel TheMF;
  mret r.

(** [path] and [pin] are C strings. *)
Definition mbedtls_se_read_object (path pin : list Z) : M (se_sys K) object_result :=
  if Z.odd (Z.of_nat (length path)) then mret (MkObject (Some MBEDTLS_ERR_SE_EF_INVALID_NAME_ERROR) None 0)
  else
    let efname := hex_string_2_bytes_array (take (Z.to_nat (u16 (Z.of_nat (length path)))) path) in
    mbedtls_se_read_ef efname pin.

Definition mbedtls_se_p11_read_object (size0 : Z) (label pin : list Z) : M (se_sys K) object_result :=
  ok ← select fuel TheMIAS false;
  r ← (if ok : bool then
         ok ← MIAS_verifyPin fuel pin;
         if ok : bool then
           o ← p11GetObjectByLabel fuel size0 label;
           mret (match o with
                 | Some (obj, n) => MkObject (Some 0) (Some obj) n
                 | None => MkObject (Some MBEDTLS_ERR_SE_MIAS_READ_OBJECT_ERROR) None 0
                 end)
         else mret (MkObject (Some MBEDTLS_ERR_SE_MIAS_READ_OBJECT_ERROR) None 0)
       else mret (MkObject None None 0));
  _ ← deselect fuel TheMIAS;
  mret r.

(** What follows a read in both functions below: the object is parsed if it was read, and
    its array is freed. *)
Definition parse_object (r : object_result) (parse : list Z -> M K Z) : M (se_sys K) Z :=
  rc ← lift_option (Fault UninitRead) (ob_ret r);
  rc ← (if rc =? 0 then
          obj ← lift_option (Fault UninitRead) (ob_data r);
          bs ← lift_outcome (heap_range obj 0 (Z.to_nat (ob_size r)));
          on_card (parse bs)
        else mret rc);
  match ob_data r with
  | Some _ => mret rc
  | None => raise (Fault UninitRead)
  end.

(** [memcmp(path, prefix, strlen(prefix)) == 0]; [path] is the memory from the pointer
    on. *)
Definition has_prefix (path prefix : list Z) : outcome bool :=
  bs ← read_bytes path (Z.of_nat (length prefix)); Ret (bool_decide (bs = prefix)).
(** The kind of a name, with the text behind its prefix. *)
Inductive key_name := EfName (name : list Z) | P11Name (label : list Z) | ContainerName (number : list Z) | BadName.
Definition key_name_of (path : list Z) : outcome key_name :=
  let behind (prefix : list Z) (f : list Z -> key_name) : outcome key_name :=
    match cstring (drop (length prefix) path) with Some t => Ret (f t) | None => Exn (Fault OobRead) end in
  b ← has_prefix path MBEDTLS_SE_EF_KEY_NAME_PREFIX;
  if b : bool then behind MBEDTLS_SE_EF_KEY_NAME_PREFIX EfName
  else
    b ← has_prefix path MBEDTLS_SE_MIAS_P11_KEY_NAME_PREFIX;
    if b : bool then behind MBEDTLS_SE_MIAS_P11_KEY_NAME_PREFIX P11Name
    else
      b ← has_prefix path MBEDTLS_SE_MIAS_KEY_NAME_PREFIX;
      if b : bool then behind MBEDTLS_SE_MIAS_KEY_NAME_PREFIX ContainerName else Ret BadName.

(** The decimal number of a container. *)
Definition container_number (number : list Z) : Z := fold_left (fun cid c => u8 (u8 (cid * 10) + (c - 48))) number 0.

Definition mbedtls_x509_crt_parse_se (size0 : Z) (path pin : list Z) : M (se_sys K) Z :=
  name ← lift_outcome (key_name_of path);
  match name with
  | EfName name => r ← mbedtls_se_read_object name pin; parse_object r mbedtls_x509_crt_parse
  | P11Name label => r ← mbedtls_se_p11_read_object size0 label pin; parse_object r mbedtls_x509_crt_parse
  | ContainerName number =>
      ok ← select fuel TheMIAS false;
      rc ← (if ok : bool then
              o ← getCertificateByContainerId fuel (container_number number);
              match o with
              | Some (obj, n) => bs ← lift_outcome (heap_range obj 0 (Z.to_nat n)); on_card (mbedtls_x509_crt_parse bs)
              | None => mret MBEDTLS_ERR_SE_BAD_KEY_NAME_ERROR
              end
            else mret MBEDTLS_ERR_SE_BAD_KEY_NAME_ERROR);
      _ ← deselect fuel TheMIAS;
      mret rc
  | BadName => mret MBEDTLS_ERR_SE_BAD_KEY_NAME_ERROR
  end.

Definition mbedtls_pk_parse_se (size0 : Z) (path pin : list Z) : M (se_sys K) Z :=
  name ← lift_outcome (key_name_of path);
  match name with
  | EfName name => r ← mbedtls_se_read_object name pin; parse_object r (fun bs => mbedtls_pk_parse_key (Some bs))
  | P11Name label => r ← mbedtls_se_p11_read_object size0 label pin; parse_object r (fun bs => mbedtls_pk_parse_key (Some bs))
  | ContainerName number =>
      _ ← on_card (mbedtls_pk_parse_key None);
      ok ← select fuel TheMIAS false;
      kp ← (if ok : bool then kp ← getKeyPairByContainerId fuel (container_number number); mret (Some kp) else mret None);
      _ ← deselect fuel TheMIAS;
      kp ← lift_option (Fault UninitRead) kp;
      match kp with
      | Some kp => on_card (mbedtls_pk_setup_rsa_alt (MkMiasKey pin kp))
      | None => mret MBEDTLS_ERR_SE_BAD_KEY_NAME_ERROR
      end
  | BadName => mret MBEDTLS_ERR_SE_BAD_KEY_NAME_ERROR
  end.

(** ** Operations with a key of the applet *)

(** Selection, verification of the PIN, and the operation: its return code and output,
    [none] unless it succeeds. *)
Definition with_key {A} (key : mias_key_t) (none : A) (op : Z -> M (se_sys K) (option A)) : M (se_sys K) (Z * A) :=
  ok ← select fuel TheMIAS false;
  r ← (if ok : bool then
         ok ← MIAS_verifyPin fuel (key_pin key);
         if ok : bool then
           kid ← lift_option (Fault UninitRead) (kp_kid (key_kp key));
           o ← op kid;
           mret (match o with Some a => (0, a) | None => (MBEDTLS_ERR_SE_MIAS_IO_ERROR, none) end)
         else mret (MBEDTLS_ERR_SE_MIAS_VERIFY_PIN_ERROR, none)
       else mret (MBEDTLS_ERR_SE_MIAS_SELECT_ERROR, none));
  _ ← deselect fuel TheMIAS;
  mret r.

(** The length of the output is not stored through [olen]. *)
Definition mbedtls_mias_pk_rsa_alt_decrypt (ctx : mias_key_t) (input : list Z) : M (se_sys K) (Z * list Z) :=
  with_key ctx [] (fun kid =>
    ok ← decryptInit fuel ALGO_RSA_PKCS1_PADDING kid;
    if ok : bool then
      data ← lift_outcome (read_bytes input (kp_size_in_bits (key_kp ctx) / 8));
      decryptFinal fuel data
    else mret None).

Definition mias_alg (md_alg : mbedtls_md_type_t) : option Z :=
  match md_alg with
  | MBEDTLS_MD_SHA1 => Some (Z.lor ALGO_SHA1 RSA_PKCS1_PADDING)
  | MBEDTLS_MD_SHA224 => Some (Z.lor ALGO_SHA224 RSA_PKCS1_PADDING)
  | MBEDTLS_MD_SHA256 => Some (Z.lor ALGO_SHA256 RSA_PKCS1_PADDING)
  | MBEDTLS_MD_SHA384 => Some (Z.lor ALGO_SHA384 RSA_PKCS1_PADDING)
  | MBEDTLS_MD_SHA512 => Some (Z.lor ALGO_SHA512 RSA_PKCS1_PADDING)
  | _ => None
  end.
(** [hash] is the memory from the pointer on. *)
Definition mbedtls_mias_pk_rsa_alt_sign (ctx : mias_key_t) (md_alg : mbedtls_md_type_t) (hash : list Z) : M (se_sys K) (Z * list Z) :=
  match mias_alg md_alg with
  | None => mret (MBEDTLS_ERR_MD_FEATURE_UNAVAILABLE, [])
  | Some alg =>
      with_key ctx [] (fun kid =>
        ok ← signInit fuel alg kid;
        if ok : bool then
          '(ok, sig) ← signFinal fuel hash;
          mret (if ok : bool then Some sig else None)
        else mret None)
  end.

Definition mbedtls_mias_pk_rsa_alt_key_len (ctx : mias_key_t) : Z := kp_size_in_bits (key_kp ctx) / 8.

(** The applets as they are created and given the interface, [seiface] telling whether its
    pointer is not null. *)
Definition mbedtls_se_init (seiface : bool) : M (se_sys K) Z :=
  _ ← modify (fun s => SeSys (iface s) (Applet_init seiface (Applet_create MF_AID)) (Applet_init seiface (Applet_create MIAS_AID))
        MIAS_create (card s));
  mret 0.
End se.

(** ** Sessions *)

Section sessions.
Context {K : Type} `{!Card K} `{!KeyLibrary K} (fuel : nat).

(** The applet with the identifier [aid] is not selected. *)
Definition ready (a : applet_id) (aid : list Z) (s : se_sys K) : Prop :=
  se_ok (iface s) /\ idle (applet_of a s) /\ _aid (applet_of a s) = aid.

(** The card opens a logical channel, selects the applet [aid] on it and accepts the PIN
    with the command [verify]; the states after that satisfy [unlocked], with the number of
    the channel. *)
Definition card_unlocks (aid : list Z) (verify : Z -> list Z) (unlocked : Z -> K -> Prop) (k : K) : Prop :=
  exists n1 n2 n3 ch fci k1 k2 k3, (n1 < fuel)%nat /\ (n2 < fuel)%nat /\ (n3 < fuel)%nat /\
    exchange n1 k [0; 112; 0; 0; 1] [ch; 144; 0] k1 /\ exchange n2 k1 (select_cmd ch aid) (fci ++ [144; 0]) k2 /\
    exchange n3 k2 (verify ch) [144; 0] k3 /\ unlocked ch k3.
(** The channel [ch] is closed in states with [opened]. *)
Definition card_closes (ch : Z) (opened closed : K -> Prop) : Prop :=
  forall k, opened k -> exists n k', (n < fuel)%nat /\ exchange n k (close_cmd ch) [144; 0] k' /\ closed k'.

(** A card with the file [path], protected by [pin], that ends in a state with
    [closed]. *)
Definition file_on_card (path pin content : list Z) (closed : K -> Prop) (k : K) : Prop :=
  card_unlocks MF_AID (fun ch => verify_cmd ch pin) (fun ch k3 => exists d opened, (d < fuel)%nat /\
    holds_file ch d path content opened k3 /\ card_closes ch opened closed) k.

Lemma open_run a aid verify unlocked (s : se_sys K) : card_unlocks aid verify unlocked (card s) -> ready a aid s -> (length aid <= 255)%nat ->
  exists ch n s1 k, select fuel a false s = Ret (true, s1) /\ session a (MkApplet true aid false true ch) s1 /\ (n < fuel)%nat /\
    exchange n (card s1) (verify ch) [144; 0] k /\ unlocked ch k.
Proof.
  intros (n1 & n2 & n3 & ch & fci & k1 & k2 & k3 & Hn1 & Hn2 & Hn3 & Hex1 & Hex2 & Hex3 & Hun) (Hok & Hidle & <-) Haid.
  destruct (select_run fuel a n1 n2 ch k1 k2 fci s Hok Hidle Hn1 Hn2) as (s1 & Hrun1 & <- & Hs1 & _); [done..|].
  by exists ch, n3, s1, k3.
Qed.
Lemma close_run a aid ch opened closed (s : se_sys K) : card_closes ch opened closed -> session a (MkApplet true aid false true ch) s -> opened (card s) ->
  exists s', deselect fuel a s = Ret (false, s') /\ ready a aid s' /\ closed (card s') /\ mias_data s' = mias_data s.
Proof.
  intros Hclose Hs Ho. destruct (Hclose _ Ho) as (n & k & Hn & Hex & Hc).
  destruct (deselect_run fuel a _ n k s Hs) as (s1 & Hrun & Hok & Ha & <- & Hm); [done..|].
  exists s1. by rw /ready Ha.
Qed.

Lemma read_ef_run path pin content closed (s : se_sys K) : file_on_card path pin content closed (card s) ->
  ready TheMF MF_AID s -> (length pin <= 8)%nat -> (length content < fuel)%nat ->
  exists s', mbedtls_se_read_ef fuel path pin s =
      Ret (MkObject (Some 0) (Some (Some <$> content ++ [0])) (Z.of_nat (length content) + 1), s') /\
    ready TheMF MF_AID s' /\ closed (card s').
Proof.
  intros Hcard Hready Hpin Hlen.
  destruct (open_run TheMF MF_AID _ _ s Hcard Hready ltac:(cbn; lia)) as (ch & n & s1 & k & Hrun1 & Hs1 & Hn & Hex & d & opened & Hd & Hf & Hclose).
  destruct (verifyPin_run fuel _ n pin k s1 Hs1 Hn Hpin Hex) as (s2 & Hrun2 & Hs2 & <-).
  destruct (readEF_run fuel (MkApplet true MF_AID false true ch) d path content opened s2 Hf Hs2 Hd Hlen) as (s3 & Hrun3 & Hs3 & Ho3).
  destruct (close_run TheMF MF_AID ch opened closed s3 Hclose Hs3 Ho3) as (s4 & Hrun4 & Hready4 & Hc4 & _).
  exists s4. split_and!; [|done..].
  rw /mbedtls_se_read_ef. eapply bind_step; [exact Hrun1|]. cbv iota. eapply bind_step.
  { eapply bind_step; [exact Hrun2|]. cbv iota. by eapply bind_step; [exact Hrun3|]. }
  by eapply bind_step; [exact Hrun4|].
Qed.

(** A card that accepts [pin] for the applet [MIAS] and carries out an operation that
    takes it from one state to another as [carries_out] tells; the result ends in
    [closed]. *)
Definition key_on_card (pin : list Z) (carries_out : Z -> K -> K -> Prop) (closed : K -> Prop) (k : K) : Prop :=
  card_unlocks MIAS_AID (fun ch => mias_verify_cmd ch pin)
    (fun ch k3 => exists k4, carries_out ch k3 k4 /\ card_closes ch (eq k4) closed) k.

Lemma with_key_run {A} key kid (none a : A) op carries_out closed (s : se_sys K) :
  (forall x k (s : se_sys K), session TheMIAS x s -> carries_out (_channel x) (card s) k ->
    exists s', op kid s = Ret (Some a, s') /\ session TheMIAS x s' /\ card s' = k) ->
  key_on_card (key_pin key) carries_out closed (card s) -> ready TheMIAS MIAS_AID s ->
  kp_kid (key_kp key) = Some kid -> (length (key_pin key) <= 255)%nat ->
  exists s', with_key fuel key none op s = Ret ((0, a), s') /\ ready TheMIAS MIAS_AID s' /\ closed (card s').
Proof.
  intros Hop Hcard Hready Hkid Hpin.
  destruct (open_run TheMIAS MIAS_AID _ _ s Hcard Hready ltac:(cbn; lia)) as (ch & n & s1 & k & Hrun1 & Hs1 & Hn & Hex & k4 & Hout & Hclose).
  destruct (mias_accepted_run fuel _ n 32 0 129 (key_pin key) [] k s1 Hs1 Hn Hpin Hex) as (s2 & Hrun2 & Hans2).
  pose proof (answered_session _ _ _ _ _ _ Hs1 Hans2) as Hs2. destruct Hans2 as (_ & _ & _ & _ & _ & _ & <-).
  destruct (Hop _ k4 s2 Hs2 Hout) as (s3 & Hrun3 & Hs3 & Hc3).
  destruct (close_run TheMIAS MIAS_AID ch (eq k4) closed s3 Hclose Hs3 (eq_sym Hc3)) as (s4 & Hrun4 & Hready4 & Hc4 & _).
  exists s4. split_and!; [|done..]. rw /with_key. eapply bind_step; [exact Hrun1|]. cbv iota. eapply bind_step.
  { eapply bind_step; [exact Hrun2|]. cbv iota. eapply (bind_step _ _ s2 kid s2); [by rw Hkid|]. by eapply bind_step; [exact Hrun3|]. }
  by eapply bind_step; [exact Hrun4|].
Qed.

Lemma heap_bytes_run bs : heap_range (Some <$> bs) 0 (length bs) = Ret bs.
Proof. pose proof (heap_range_app [] [] bs) as Hr. by rw app_nil_r in Hr. Qed.

Lemma on_card_ret (m : M K Z) (s : se_sys K) : (rc ← on_card m; mret rc) s = on_card m s.
Proof. rw /mbind /M_bind. by destruct (on_card m s) as [[]|]. Qed.

Lemma parse_object_run bs (parse : list Z -> M K Z) (s : se_sys K) :
  parse_object (MkObject (Some 0) (Some (Some <$> bs)) (Z.of_nat (length bs))) parse s = on_card (parse bs) s.
Proof.
  rw /parse_object. eapply bind_step; [done|]. cbn [Z.eqb ob_data ob_size].
  rw -on_card_ret. rw /mbind /M_bind /lift_option /mret /M_ret Nat2Z.id heap_bytes_run //.
Qed.

(** The name of a file in the memory behind the prefix. *)
Lemma ef_name_run name rest : Forall (fun c => c <> 0) name ->
  key_name_of (MBEDTLS_SE_EF_KEY_NAME_PREFIX ++ name ++ 0 :: rest) = Ret (EfName name).
Proof.
  intros Hname. rw /key_name_of /has_prefix read_bytes_app. cbn [mbind outcome_bind]. rw bool_decide_true // drop_app_length.
  by rw (cstring_app _ _ []) // app_nil_r.
Qed.

Lemma read_object_run upper name pin (s : se_sys K) : Forall is_u8 name -> (length name <= 255)%nat ->
  mbedtls_se_read_object fuel (hex_text upper name) pin s = mbedtls_se_read_ef fuel name pin s.
Proof.
  intros Hname Hlen. rw /mbedtls_se_read_object hex_text_length.
  replace (Z.odd _) with false by (rw Nat2Z.inj_mul Z.odd_mul; by destruct (Z.odd (Z.of_nat (length name)))).
  rw u16_small; [|width]. rw Nat2Z.id -(hex_text_length upper) firstn_all hex_read //.
Qed.

Lemma file_run size0 upper name pin content rest closed (s : se_sys K) :
  file_on_card name pin content closed (card s) -> ready TheMF MF_AID s -> Forall is_u8 name -> (length name <= 255)%nat ->
  (length pin <= 8)%nat -> (length content < fuel)%nat ->
  let path := MBEDTLS_SE_EF_KEY_NAME_PREFIX ++ hex_text upper name ++ 0 :: rest in
  exists s', ready TheMF MF_AID s' /\ closed (card s') /\
    mbedtls_x509_crt_parse_se fuel size0 path pin s = on_card (mbedtls_x509_crt_parse (content ++ [0])) s' /\
    mbedtls_pk_parse_se fuel size0 path pin s = on_card (mbedtls_pk_parse_key (Some (content ++ [0]))) s'.
Proof.
  intros Hcard Hready Hname Hlen Hpin Hfuel path.
  destruct (read_ef_run name pin content closed s Hcard Hready Hpin Hfuel) as (s' & Hrun & Hready' & Hc').
  exists s'. split_and!; [done..| |].
  all: rw /mbedtls_x509_crt_parse_se /mbedtls_pk_parse_se.
  all: eapply bind_step; [by rw /lift_outcome /path ef_name_run; [|by apply hex_text_nonzero]|]; cbv iota.
  all: eapply bind_step; [rw read_object_run //; exact Hrun|].
  all: replace (Z.of_nat (length content) + 1) with (Z.of_nat (length (content ++ [0]))) by (rw length_app; cbn; lia).
  all: apply (parse_object_run (content ++ [0])).
Qed.

(** The applets after [mbedtls_se_init]. *)
Lemma init_run (s : se_sys K) : se_ok (iface s) ->
  exists s', mbedtls_se_init true s = Ret (0, s') /\ ready TheMF MF_AID s' /\ ready TheMIAS MIAS_AID s' /\ card s' = card s.
Proof. intros Hok. eexists. split; [done|]. by split_and!. Qed.

(** C32: after [mbedtls_se_init], a certificate or a private key named [SE://EF/] with the name of a file in
    hexadecimal digits, in upper or lower case, is parsed by mbedTLS from exactly the bytes
    of that file and the terminating null, whatever the size of the file (blocks of 255
    bytes) and however the card splits its answers (61 xx, 6C xx): both functions do what
    the parser does on these bytes; before, the PIN was verified, and the logical channel
    is closed again, so that the applet is ready for the next call. *)
Theorem file_parsed size0 upper name pin content rest closed (s : se_sys K) :
  file_on_card name pin content closed (card s) -> se_ok (iface s) -> Forall is_u8 name -> (length name <= 255)%nat ->
  (length pin <= 8)%nat -> (length content < fuel)%nat ->
  let path := MBEDTLS_SE_EF_KEY_NAME_PREFIX ++ hex_text upper name ++ 0 :: rest in
  exists s0 s', mbedtls_se_init true s = Ret (0, s0) /\ ready TheMF MF_AID s' /\ closed (card s') /\
    mbedtls_x509_crt_parse_se fuel size0 path pin s0 = on_card (mbedtls_x509_crt_parse (content ++ [0])) s' /\
    mbedtls_pk_parse_se fuel size0 path pin s0 = on_card (mbedtls_pk_parse_key (Some (content ++ [0]))) s'.
Proof.
  intros Hcard Hok Hname Hlen Hpin Hfuel path. destruct (init_run s Hok) as (s0 & Hinit & Hready & _ & Hc). rw -Hc in Hcard.
  destruct (file_run size0 upper name pin content rest closed s0 Hcard Hready Hname Hlen Hpin Hfuel) as (s' & Hrest). by exists s0, s'.
Qed.

Lemma key_sign_run key kid md_alg alg n hash sig closed (s : se_sys K) :
  key_on_card (key_pin key) (fun ch k k' => card_signs fuel ch alg kid n hash sig k k') closed (card s) ->
  ready TheMIAS MIAS_AID s -> kp_kid (key_kp key) = Some kid -> (length (key_pin key) <= 255)%nat ->
  mias_alg md_alg = Some alg -> hash_size (Z.land alg 240) = Some n -> (n <= length hash)%nat ->
  exists s', mbedtls_mias_pk_rsa_alt_sign fuel key md_alg hash s = Ret ((0, sig), s') /\
    ready TheMIAS MIAS_AID s' /\ closed (card s').
Proof.
  intros Hcard Hready Hkid Hpin Halg Hsize Hlen. rw /mbedtls_mias_pk_rsa_alt_sign Halg.
  eapply (with_key_run key kid [] sig); [|exact Hcard|done..].
  intros x k s0 Hs0 Hsigns. exact (sign_run fuel x alg kid n hash sig k s0 Hs0 Hsigns Hsize Hlen).
Qed.

(** C33: a signature with a key of the applet is the one the card computes from the hash:
    with a card that accepts the PIN and signs the bytes of the hash, their number set by the digest algorithm,
    [mbedtls_mias_pk_rsa_alt_sign] returns 0 and the parts of the signature the card
    announced, joined in order, and closes the logical channel. *)
Theorem signed_by_card key kid md_alg alg n hash sig closed (s : se_sys K) :
  key_on_card (key_pin key) (fun ch k k' => card_signs fuel ch alg kid n hash sig k k') closed (card s) ->
  ready TheMIAS MIAS_AID s -> kp_kid (key_kp key) = Some kid -> (length (key_pin key) <= 255)%nat ->
  mias_alg md_alg = Some alg -> hash_size (Z.land alg 240) = Some n -> (n <= length hash)%nat ->
  exists s', mbedtls_mias_pk_rsa_alt_sign fuel key md_alg hash s = Ret ((0, sig), s') /\
    ready TheMIAS MIAS_AID s' /\ closed (card s').
Proof. apply key_sign_run. Qed.

(** An error leaves a pointer that was never set to be freed: when the name of the file has
    an odd number of digits, which [mbedtls_se_read_object] reports as an invalid name,
    neither function returns that error; both free the array that was not allocated. *)
Theorem odd_name_undefined size0 name pin rest (s : se_sys K) :
  Z.odd (Z.of_nat (length name)) = true -> Forall (fun c => c <> 0) name ->
  let path := MBEDTLS_SE_EF_KEY_NAME_PREFIX ++ name ++ 0 :: rest in
  mbedtls_se_read_object fuel name pin s = Ret (MkObject (Some MBEDTLS_ERR_SE_EF_INVALID_NAME_ERROR) None 0, s) /\
  mbedtls_x509_crt_parse_se fuel size0 path pin s = Exn (Fault UninitRead) /\
  mbedtls_pk_parse_se fuel size0 path pin s = Exn (Fault UninitRead).
Proof.
  intros Hodd Hname path.
  assert (Hread : mbedtls_se_read_object fuel name pin s = Ret (MkObject (Some MBEDTLS_ERR_SE_EF_INVALID_NAME_ERROR) None 0, s))
    by (by rw /mbedtls_se_read_object Hodd).
  split_and!; [done| |]; rw /mbedtls_x509_crt_parse_se /mbedtls_pk_parse_se;
    (eapply bind_step; [by rw /lift_outcome ef_name_run|]; cbv iota; by eapply bind_step; [exact Hread|]).
Qed.
End sessions.

(** ** A secure element *)

Module Demo.

(** A card with one file and one key. Its state tells how far the session is: the channel
    1 is open (1), [MF] is selected (2, 3), unlocked (4), the file is selected (5); the
    applet [MIAS] is selected (6), unlocked (7), the key is set (8), the hash (9), a part of the
    signature is left (10). *)
Definition demo_pin : list Z := bytes "1234".
Definition demo_name : list Z := [127; 170; 111; 1].
Definition demo_content : list Z := replicate 300 48.
Definition demo_fcp : list Z := [98; 8; 131; 2; 111; 1; 128; 2; 1; 44].
Definition demo_hash : list Z := replicate 32 5.

(** [READ BINARY]. *)
Definition demo_read (cmd : list Z) (k : nat) : option (list Z) :=
  match cmd with
  | [c; i; h; l; n] =>
      if (c =? 1) && (i =? 176) && bool_decide (k = 5%nat)
      then Some (take (Z.to_nat (Z.min n 255)) (drop (Z.to_nat (h * 256 + l)) demo_content) ++ [144; 0]) else None
  | _ => None
  end.
Definition demo_reply (cmd : list Z) (k : nat) : list Z * nat :=
  let on (n : nat) (c : list Z) : bool := bool_decide (k = n) && bool_decide (cmd = c) in
  match demo_read cmd k with
  | Some r => (r, 5%nat)
  | None =>
  if bool_decide (cmd = close_cmd 1) then ([144; 0], 0%nat)
  else if on 0%nat [0; 112; 0; 0; 1] then ([1; 144; 0], 1%nat)
  else if on 1%nat (select_cmd 1 MF_AID) then ([97; 2], 2%nat)
  else if on 2%nat [1; 192; 0; 0; 2] then ([111; 0; 144; 0], 3%nat)
  else if on 3%nat (verify_cmd 1 demo_pin) then ([144; 0], 4%nat)
  else if on 4%nat (full_cmd 1 164 8 4 demo_name 0) then (demo_fcp ++ [144; 0], 5%nat)
  else if on 1%nat (select_cmd 1 MIAS_AID) then ([144; 0], 6%nat)
  else if on 6%nat (mias_verify_cmd 1 demo_pin) then ([144; 0], 7%nat)
  else if on 7%nat (data_cmd 1 34 65 182 [128; 1; 66; 132; 1; 49]) then ([144; 0], 8%nat)
  else if on 8%nat (full_cmd 1 42 144 160 ([144; 32] ++ demo_hash) 0) then ([144; 0], 9%nat)
  else if on 9%nat [1; 42; 158; 154; 0] then ([10; 20; 30; 97; 2], 10%nat)
  else if on 10%nat [1; 192; 0; 0; 2] then ([40; 50; 144; 0], 7%nat)
  else ([109; 0], k)
  end.

#[global] Instance demo_card : Card nat := {| transmitApdu cmd := fun k => let '(r, k') := demo_reply cmd k in Ret ((true, Some r), k') |}.
(** The parser accepts the contents of the file, with the terminating null. *)
Definition demo_parse (bs : list Z) : Z := if decide (bs = demo_content ++ [0]) then 0 else -1.
#[global] Instance demo_library : KeyLibrary nat := {|
  mbedtls_x509_crt_parse bs := mret (demo_parse bs);
  mbedtls_pk_parse_key o := mret (match o with Some bs => demo_parse bs | None => 0 end);
  mbedtls_pk_setup_rsa_alt _ := mret 0 |}.

Definition demo_iface : SEInterface := MkSE (replicate 262 0) 0 (replicate 258 0) 0.
Definition demo_start : se_sys nat :=
  SeSys demo_iface (MkApplet true MF_AID false false 0) (MkApplet true MIAS_AID false false 0) (MkMias [] 0 0 0 0 0) 0%nat.
Definition demo_key : mias_key_t := MkMiasKey demo_pin (MkKeyPair (Some 49) 13 1024 [0; 0] false).
Definition demo_path : list Z := MBEDTLS_SE_EF_KEY_NAME_PREFIX ++ hex_text true demo_name ++ 0 :: [].

Lemma final_ok data : final_response (data ++ [144; 0]).
Proof. destruct data as [|x [|y [|z data]]]; cbn; try done; lia. Qed.

Lemma demo_ready : ready TheMF MF_AID demo_start /\ ready TheMIAS MIAS_AID demo_start.
Proof. done. Qed.

Lemma demo_closes opened : card_closes 600 1 opened (eq 0%nat).
Proof. intros k _. exists 0%nat, 0%nat. split_and!; [lia| |done]. by apply exchange_done; [|cbn; lia..]. Qed.

Lemma demo_holds : holds_file 1 0 demo_name demo_content (eq 5%nat) 4%nat.
Proof.
  split; [by vm_compute|cbn; lia| |].
  - exists 0%nat, demo_fcp, 5%nat. split_and!; [done| |done|by apply exchange_done; [|done|cbn; lia]].
    split; [|cbn; lia]. exists 8, [131; 2; 111; 1], 1, 44, []. split_and!; [done| |done..].
    apply (tlvs_cons 131 [111; 1] []); [done|cbn; lia|constructor].
  - intros k1 i len <- Hlen Hi. exists 0%nat, 5%nat. split_and!; [done..|]. apply exchange_done.
    + cbn [transmitApdu demo_card]. rw /demo_reply. cbn [demo_read andb Z.eqb Pos.eqb bool_decide decide_rel]. rw Z.min_l; [|lia]. rw Z.mul_comm -Z.div_mod // !Nat2Z.id //.
    + apply final_ok.
    + rw length_app length_take. cbn. lia.
Qed.

Lemma demo_file : file_on_card 600 demo_name demo_pin demo_content (eq 0%nat) 0%nat.
Proof.
  exists 0%nat, 1%nat, 0%nat, 1, [111; 0], 1%nat, 3%nat, 4%nat. split_and!; [lia..| | | |].
  - by apply exchange_done; [|cbn|cbn; lia].
  - eapply exchange_more; [vm_compute; reflexivity|]. by apply exchange_done; [|cbn|cbn; lia].
  - by apply exchange_done; [vm_compute|cbn; lia|cbn; lia].
  - exists 0%nat, (eq 5%nat). split_and!; [lia|apply demo_holds|apply demo_closes].
Qed.

Theorem file_parsed_witness : exists s0 s', mbedtls_se_init true demo_start = Ret (0, s0) /\ ready TheMF MF_AID s' /\ 0%nat = card s' /\
  mbedtls_x509_crt_parse_se 600 0 demo_path demo_pin s0 = on_card (mbedtls_x509_crt_parse (demo_content ++ [0])) s' /\
  mbedtls_pk_parse_se 600 0 demo_path demo_pin s0 = on_card (mbedtls_pk_parse_key (Some (demo_content ++ [0]))) s'.
Proof.
  apply (file_parsed 600 0 true demo_name demo_pin demo_content [] (eq 0%nat) demo_start).
  - exact demo_file.
  - split; reflexivity.
  - repeat constructor; vm_compute; congruence.
  - cbn. lia.
  - cbn. lia.
  - cbn. lia.
Defined.

(** The parser accepts what was read. *)
Example demo_accepted : exists s', mbedtls_x509_crt_parse_se 600 0 demo_path demo_pin demo_start = Ret (0, s').
Proof. eexists. vm_compute. reflexivity. Qed.

Definition demo_signature : list Z := [10; 20; 30] ++ [40; 50].
Lemma demo_signs : key_on_card 600 demo_pin (fun ch k k' => card_signs 600 ch 66 49 32 demo_hash demo_signature k k') (eq 0%nat) 0%nat.
Proof.
  exists 0%nat, 0%nat, 0%nat, 1, [], 1%nat, 6%nat, 7%nat. split_and!; [lia..| | | |].
  - by apply exchange_done; [|cbn|cbn; lia].
  - by apply exchange_done; [vm_compute|cbn; lia|cbn; lia].
  - by apply exchange_done; [vm_compute|cbn; lia|cbn; lia].
  - exists 7%nat. split; [|apply demo_closes]. exists 0%nat, 0%nat, 1%nat, [], 8%nat, 9%nat. split_and!; [lia..| | |].
    + by apply exchange_done; [vm_compute|cbn; lia|cbn; lia].
    + by apply exchange_done; [vm_compute|cbn; lia|cbn; lia].
    + eapply (signature_more 600 1 0 0 9%nat _ [10; 20; 30] 2 10%nat); [lia|done|cbn; lia|by vm_compute|by apply exchange_done; [|cbn|cbn; lia]|].
      eapply (signature_last 600 1 0 0 10%nat); [lia|done|cbn; lia|by apply exchange_done; [|cbn|cbn; lia]].
Qed.

Theorem signed_by_card_witness : exists s', mbedtls_mias_pk_rsa_alt_sign 600 demo_key MBEDTLS_MD_SHA256 demo_hash demo_start = Ret ((0, demo_signature), s') /\
  ready TheMIAS MIAS_AID s' /\ 0%nat = card s'.
Proof.
  apply (signed_by_card 600 demo_key 49 MBEDTLS_MD_SHA256 66 32 demo_hash demo_signature (eq 0%nat) demo_start).
  - exact demo_signs.
  - apply demo_ready.
  - reflexivity.
  - cbn. lia.
  - reflexivity.
  - reflexivity.
  - cbn. lia.
Defined.

Theorem odd_name_undefined_witness :
  mbedtls_se_read_object 600 (bytes "7FA") demo_pin demo_start = Ret (MkObject (Some MBEDTLS_ERR_SE_EF_INVALID_NAME_ERROR) None 0, demo_start) /\
  mbedtls_x509_crt_parse_se 600 0 (MBEDTLS_SE_EF_KEY_NAME_PREFIX ++ bytes "7FA" ++ 0 :: []) demo_pin demo_start = Exn (Fault UninitRead) /\
  mbedtls_pk_parse_se 600 0 (MBEDTLS_SE_EF_KEY_NAME_PREFIX ++ bytes "7FA" ++ 0 :: []) demo_pin demo_start = Exn (Fault UninitRead).
Proof.
  apply (odd_name_undefined 600 0 (bytes "7FA") demo_pin [] demo_start).
  - reflexivity.
  - repeat constructor; vm_compute; congruence.
Defined.
End Demo.
