(* ===== verification/SeFrame.v ===== *)
(** * What the secure element operations do to the card

    The operations of the interface, the applets and the keys work on the card only by
    exchanging commands: what every exchange keeps is kept by all of them. *)
From S2P Require Import Prelude Text SecureElement Mias MbedtlsSe.

(** The exchanges with the card keep [P]. *)
Class CardKeeps {K : Type} `{!Card K} (P : K -> Prop) : Prop := ck_transmit cmd : keeps P (transmitApdu cmd).

Section card.
Context {K : Type} `{!Card K} (P : K -> Prop) `{!CardKeeps P} (fuel : nat).
#[local] Abbreviation I := (fun s : se_sys K => P (card s)) (only parsing).

Lemma skeeps_on_card {A} (m : M K A) : keeps P m -> keeps I (on_card m).
Proof. intros Hm s Hs. specialize (Hm (card s) Hs). rw /wp /on_card. rw /wp in Hm. by destruct (m (card s)) as [[a k]|]. Qed.
Lemma skeeps_gets {A} (f : se_sys K -> A) : keeps I (gets f).
Proof. by intros s Hs. Qed.
Lemma skeeps_put x : keeps I (put_se x).
Proof. by apply keeps_modify. Qed.
Lemma skeeps_mod_applet a f : keeps I (mod_applet a f).
Proof. apply keeps_modify. by destruct a. Qed.
Lemma skeeps_mod_mias f : keeps I (mod_mias f).
Proof. by apply keeps_modify. Qed.
Hint Resolve skeeps_gets skeeps_put skeeps_mod_applet skeeps_mod_mias : iot.
Hint Extern 1 (keeps _ get_se) => apply skeeps_gets : iot.
Hint Extern 1 (keeps _ (get_applet _)) => apply skeeps_gets : iot.
Hint Extern 1 (keeps _ get_mias) => apply skeeps_gets : iot.
Hint Extern 1 (keeps _ (on_card (transmitApdu _))) => apply skeeps_on_card, ck_transmit : iot.

Lemma skeeps_transmit_loop n : keeps I (transmit_loop n).
Proof. induction n as [|n IH]; cbn [transmit_loop]; rw /handle_response; keeps_auto. Qed.
Hint Resolve skeeps_transmit_loop : iot.
Lemma skeeps_transmit_bytes bs len : keeps I (transmit_bytes fuel bs len).
Proof. rw /transmit_bytes. keeps_auto. Qed.
Hint Resolve skeeps_transmit_bytes : iot.
Lemma skeeps_status : keeps I se_getStatusWord.
Proof. rw /se_getStatusWord. keeps_auto. Qed.
Lemma skeeps_length : keeps I se_getResponseLength.
Proof. rw /se_getResponseLength. keeps_auto. Qed.
Lemma skeeps_response : keeps I se_getResponse.
Proof. rw /se_getResponse. keeps_auto. Qed.
Hint Resolve skeeps_status skeeps_length skeeps_response : iot.

Section applet.
Context (a : applet_id).
Lemma skeeps_deselect : keeps I (deselect fuel a).
Proof. rw /deselect /isSelected /se_transmit1. keeps_auto. Qed.
Hint Resolve skeeps_deselect : iot.
Lemma skeeps_select basic : keeps I (select fuel a basic).
Proof. rw /select /select_aid /se_transmit3 /se_transmit2. keeps_auto. Qed.
Lemma skeeps_transmit2 cla ins p1 p2 le : keeps I (transmit2 fuel a cla ins p1 p2 le).
Proof. rw /transmit2 /on_channel /se_transmit2. keeps_auto. Qed.
Lemma skeeps_transmit3 cla ins p1 p2 data : keeps I (transmit3 fuel a cla ins p1 p2 data).
Proof. rw /transmit3 /on_channel /se_transmit3. keeps_auto. Qed.
Lemma skeeps_transmit4 cla ins p1 p2 data le : keeps I (transmit4 fuel a cla ins p1 p2 data le).
Proof. rw /transmit4 /on_channel /se_transmit4. keeps_auto. Qed.
Lemma skeeps_applet_status : keeps I (getStatusWord a).
Proof. rw /getStatusWord. keeps_auto. Qed.
Lemma skeeps_applet_response : keeps I (getResponse a).
Proof. rw /getResponse. keeps_auto. Qed.
Lemma skeeps_applet_length : keeps I (getResponseLength a).
Proof. rw /getResponseLength. keeps_auto. Qed.
Hint Resolve skeeps_applet_status skeeps_applet_response skeeps_applet_length : iot.
Lemma skeeps_accepted send : keeps I send -> keeps I (accepted a send).
Proof. intros Hsend. rw /accepted. keeps_auto. Qed.
End applet.
Hint Resolve skeeps_deselect skeeps_select skeeps_transmit2 skeeps_transmit3 skeeps_transmit4
  skeeps_applet_status skeeps_applet_response skeeps_applet_length skeeps_accepted : iot.
Hint Unfold mias_accepted transmit_to read_binary : iot.

(** *** Keys and certificates *)

Lemma skeeps_byte i : keeps I (response_byte i).
Proof. rw /response_byte. keeps_auto. Qed.
Hint Resolve skeeps_byte : iot.
Lemma skeeps_read_binary offset le : keeps I (read_binary fuel offset le).
Proof. rw /read_binary. keeps_auto. Qed.
Lemma skeeps_mias_accepted send : keeps I send -> keeps I (mias_accepted send).
Proof. apply skeeps_accepted. Qed.
Lemma skeeps_transmit_to cla ins p1 p2 data : keeps I (transmit_to fuel cla ins p1 p2 data).
Proof. apply skeeps_transmit3. Qed.
Hint Resolve skeeps_read_binary skeeps_mias_accepted skeeps_transmit_to : iot.
Lemma skeeps_described_size size : keeps I (described_size fuel size).
Proof.
  assert (Hloop : forall n i len size, keeps I (file_size_loop n i len size)).
  { induction n as [|n IH]; intros; cbn [file_size_loop]; keeps_auto. }
  rw /described_size. keeps_auto.
Qed.
Hint Resolve skeeps_described_size : iot.
Lemma skeeps_key_pair id : keeps I (getKeyPairByContainerId fuel id).
Proof.
  assert (Hcont : forall n i offset size, keeps I (containers_loop fuel n i offset size)).
  { induction n as [|n IH]; intros; cbn [containers_loop]; rw ?/container_entry ?/add_keypair; keeps_auto. }
  assert (Hdir : forall n offset, keeps I (directory_loop fuel n offset)).
  { induction n as [|n IH]; intros; cbn [directory_loop]; rw ?/directory_entry; keeps_auto. }
  rw /getKeyPairByContainerId /listKeyPairs. keeps_auto.
Qed.
Hint Resolve skeeps_key_pair : iot.
Lemma skeeps_certificate id : keeps I (getCertificateByContainerId fuel id).
Proof.
  assert (Hloop : forall n offset size cert, keeps I (certificate_loop fuel n offset size cert)).
  { induction n as [|n IH]; intros; cbn [certificate_loop]; keeps_auto. }
  rw /getCertificateByContainerId. keeps_auto.
Qed.
Lemma skeeps_sign key md_alg hash : keeps I (mbedtls_mias_pk_rsa_alt_sign fuel key md_alg hash).
Proof.
  assert (Hloop : forall n sig, keeps I (signature_loop fuel n sig)).
  { induction n as [|n IH]; intros; cbn [signature_loop]; keeps_auto. }
  rw /mbedtls_mias_pk_rsa_alt_sign /with_key /MIAS_verifyPin /signInit /mseSetBeforeSignature /signFinal /psoHashExternally /psoComputeDigitalSignature.
  keeps_auto.
Qed.
End card.
#[export] Hint Resolve skeeps_select skeeps_deselect skeeps_certificate skeeps_key_pair skeeps_sign : iot.
