(* ===== verification/MiasKeys.v ===== *)
(** * The containers of the applet

    The configuration of the program names the certificate and the key of the device by the
    number of a container of the applet [MIAS]. Its functions find them in two files, the
    table of the containers and the directory of the files: what they do on a card with
    these files, and that the certificate in the container is what mbedTLS gets. *)
From Stdlib Require Import Ascii String.
From S2P Require Import Prelude Text Types SecureElement Mias MbedtlsSe SeFrame.

(** ** Bytes of a response *)

Section responses.
Context {K : Type} `{!Card K} (fuel : nat).

Lemma response_byte_run r k (s s' : se_sys K) i b : answered s r k s' -> r !! i = Some b -> response_byte (Z.of_nat i) s' = Ret (b, s').
Proof.
  intros (_ & [rest Hr] & _) Hi. rw /response_byte. eapply bind_step; [done|]. rw /lift_outcome Hr read_array_app; [|lia|].
  - rw /read_array decide_False; [|lia]. by rw Nat2Z.id Hi.
  - rw Nat2Z.id. by eapply lookup_lt_Some.
Qed.
Lemma response_byte_at r pre b post k (s s' : se_sys K) i : answered s r k s' -> r = pre ++ b :: post -> i = Z.of_nat (length pre) ->
  response_byte i s' = Ret (b, s').
Proof. intros Hans -> ->. eapply response_byte_run; [done|]. by apply list_lookup_middle. Qed.

(** *** The description of a file *)

(** Objects other than a file size. *)
Inductive other_objects : list Z -> Prop :=
  | objects_nil : other_objects []
  | objects_cons t v l : t <> TAG_FILE_SIZE -> other_objects l -> other_objects (t :: Z.of_nat (length v) :: v ++ l).
(** The description of a file of [size] bytes by the applet: among other objects one with
    the file size, in a template 62. *)
Definition mias_description (size : Z) (fcp : list Z) : Prop :=
  exists before h low after, let body := before ++ [TAG_FILE_SIZE; 2; h; low] ++ after in
    fcp = 98 :: Z.of_nat (length body) :: body /\ other_objects before /\ other_objects after /\
    (length body <= 253)%nat /\ is_u8 h /\ is_u8 low /\ size = h * 256 + low.

Lemma objects_run r k (s s' : se_sys K) l : answered s r k s' -> other_objects l -> forall pre post len,
  r = pre ++ l ++ post -> Z.of_nat (length pre + length l) <= len -> len <= 255 ->
  exists m, (m <= length l)%nat /\ forall n size,
    file_size_loop (m + n) (Z.of_nat (length pre)) len size s' = file_size_loop n (Z.of_nat (length pre + length l)) len size s'.
Proof.
  intros Hans. induction 1 as [|t v l Ht _ IH]; intros pre post len Hr Hlen H255.
  { exists O. split; [done|]. intros n size. by rw Nat.add_0_r. }
  cbn [length] in Hlen. rw length_app in Hlen.
  destruct (IH (pre ++ t :: Z.of_nat (length v) :: v) post len) as (m & Hm & Hrun).
  { rw Hr -app_assoc /= -app_assoc //. }
  { rw length_app. cbn [length]. lia. }
  { done. }
  exists (S m). cbn [length]. rw length_app. split; [lia|]. intros n size. cbn [Nat.add file_size_loop].
  rw (proj2 (Z.ltb_lt _ _)); [|lia]. eapply bind_step; [by eapply response_byte_at|].
  eapply bind_step; [eapply (response_byte_at r (pre ++ [t])); [done|by rw Hr /= -!app_assoc|rw length_app; cbn; lia]|].
  rw (proj2 (Z.eqb_neq _ _)) //. eapply bind_step; [done|]. rw u8_small; [|width].
  replace (Z.of_nat (length pre) + _) with (Z.of_nat (length (pre ++ t :: Z.of_nat (length v) :: v))) by (rw length_app; cbn [length]; lia).
  rw Hrun length_app. cbn [length]. f_equal. lia.
Qed.
Lemma described_size_run size fcp sw k (s s' : se_sys K) size0 : mias_description size fcp -> answered s (fcp ++ sw) k s' -> (255 < fuel)%nat ->
  described_size fuel size0 s' = Ret (Some size, s').
Proof.
  intros (before & h & low & after & Hfcp & Hb & Ha & Hlen & Hh & Hl & ->) Hans Hfuel.
  set (body := before ++ _ ++ after) in *.
  assert (Hbody : length body = (length before + 4 + length after)%nat) by (rw /body !length_app; cbn; lia).
  rw /described_size. eapply bind_step; [eapply (response_byte_at _ [98]); [exact Hans|by rw Hfcp|done]|].
  rw u8_small; [|width]. set (len := _ + 2).
  destruct (objects_run _ _ _ _ _ Hans Hb [98; Z.of_nat (length body)] ([TAG_FILE_SIZE; 2; h; low] ++ after ++ sw) len) as (m & Hm & Hrun).
  { rw Hfcp /body /= -!app_assoc //. }
  { rw /len. cbn [length]. lia. }
  { rw /len. lia. }
  destruct (objects_run _ _ _ _ _ Hans Ha ([98; Z.of_nat (length body)] ++ before ++ [TAG_FILE_SIZE; 2; h; low]) sw len) as (m' & Hm' & Hrun').
  { rw Hfcp /body /= -!app_assoc //. }
  { rw /len !length_app. cbn [length]. lia. }
  { rw /len. lia. }
  replace fuel with (m + S (m' + S (fuel - m - m' - 2)))%nat by lia.
  change 2 with (Z.of_nat (length [98; Z.of_nat (length body)])) at 1. rw Hrun. cbn [file_size_loop length Nat.add].
  rw (proj2 (Z.ltb_lt _ _)); [|rw /len; lia].
  set (pre := [98; Z.of_nat (length body)] ++ before).
  assert (Hr : fcp ++ sw = pre ++ [TAG_FILE_SIZE; 2; h; low] ++ after ++ sw) by (rw Hfcp /body /pre /= -!app_assoc //).
  assert (Hpre : length pre = S (S (length before))) by (rw /pre length_app; cbn; lia).
  eapply bind_step; [eapply (response_byte_at _ pre); [exact Hans|exact Hr|lia]|].
  eapply bind_step; [eapply (response_byte_at _ (pre ++ [TAG_FILE_SIZE])); [exact Hans|rw Hr -!app_assoc //|rw length_app; cbn [length]; lia]|].
  change (TAG_FILE_SIZE =? TAG_FILE_SIZE) with true. cbv iota. eapply bind_step.
  { eapply bind_step; [eapply (response_byte_at _ (pre ++ [TAG_FILE_SIZE; 2])); [exact Hans|rw Hr -!app_assoc //|rw length_app; cbn [length]; lia]|].
    eapply bind_step; [eapply (response_byte_at _ (pre ++ [TAG_FILE_SIZE; 2; h])); [exact Hans|rw Hr -!app_assoc //|rw length_app; cbn [length]; lia]|]. done. }
  rw lor_bytes; [|by destruct Hh|done]. rw u8_small; [|width].
  replace (Z.of_nat _ + (2 + 2)) with (Z.of_nat (length (pre ++ [TAG_FILE_SIZE; 2; h; low]))) by (rw length_app; cbn [length]; lia).
  rw /pre -app_assoc Hrun'. cbn [file_size_loop]. rw (proj2 (Z.ltb_ge _ _)) //. rw /len !length_app. cbn [length]. lia.
Qed.
End responses.

(** ** The keys of the containers *)

(** The key that a record of the table describes, for container [i]: its signature key, or
    its exchange key when it has no signature key; the key identifier tells kind and size. *)
Definition key_of_record (i : nat) (r : list Z) : option mias_key_pair_t :=
  match r with
  | used :: _ :: _ :: _ :: b4 :: b5 :: b6 :: b7 :: _ =>
      if used =? 0 then None
      else
        let '(exchange, size) := if b4 * 256 + b5 =? 0 then (true, b6 * 256 + b7) else (false, b4 * 256 + b5) in
        let base := if size =? 1024 then (if exchange : bool then 16 else 32) else (if exchange then 48 else 64) in
        Some (MkKeyPair (Some (base + Z.of_nat (S i))) (if exchange then 13 else 5) size [0; 0] false)
  | _ => None
  end.
(** A record of eleven bytes whose key, if there is one, has 1024 or 2048 bits. *)
Definition record_ok (r : list Z) : Prop :=
  exists used a b c b4 b5 b6 b7 d e f, r = [used; a; b; c; b4; b5; b6; b7; d; e; f] /\ Forall is_u8 r /\
    (used = 0 \/ b4 * 256 + b5 = 1024 \/ b4 * 256 + b5 = 2048 \/
     b4 * 256 + b5 = 0 /\ (b6 * 256 + b7 = 1024 \/ b6 * 256 + b7 = 2048)).

(** An entry of the directory for a certificate: the container and the file. *)
Definition certificate_entry (r : list Z) : option (Z * list Z) :=
  if decide (take 4 (drop 12 r) = bytes "mscp" /\ (take 3 (drop 4 r) = bytes "kxc" \/ take 3 (drop 4 r) = bytes "ksc"))
  then Some ((nth 7 r 0 - 48) * 10 + (nth 8 r 0 - 48), take 2 r) else None.

(** The keys by the number of their container; the last entry for a container tells its
    certificate. *)
Definition keys : Type := Z -> option mias_key_pair_t.
Definition add_record (i : nat) (r : list Z) (f : keys) : keys :=
  match key_of_record i r with Some k => fun j => if j =? Z.of_nat i then Some k else f j | None => f end.
Definition with_cert (file : list Z) (k : mias_key_pair_t) : mias_key_pair_t :=
  MkKeyPair (kp_kid k) (kp_flags k) (kp_size_in_bits k) file true.
Definition add_entry (r : list Z) (f : keys) : keys :=
  match certificate_entry r with Some (id, file) => fun j => if j =? id then with_cert file <$> f j else f j | None => f end.
Fixpoint table_keys (i : nat) (records : list (list Z)) (f : keys) : keys :=
  match records with [] => f | r :: records' => table_keys (S i) records' (add_record i r f) end.
Definition card_keys (records directory : list (list Z)) : keys :=
  fold_left (fun f r => add_entry r f) directory (table_keys 0 records (fun _ => None)).

(** The list of the applet represents the keys. *)
Definition keys_are (l : list mias_key_pair_t) (f : keys) : Prop :=
  Forall (fun k => exists c, container_of k = Ret c) l /\ forall id, find_key id l = Ret (f id).

Lemma keys_none : keys_are [] (fun _ => None).
Proof. by split. Qed.
Lemma keys_add k i l f : keys_are l f -> container_of k = Ret i -> keys_are (k :: l) (fun j => if j =? i then Some k else f j).
Proof.
  intros [Hl Hf] Hk. split; [constructor; [by exists i|done]|]. intros id. cbn [find_key]. rw Hk. cbn [mbind outcome_bind].
  rw Z.eqb_sym Hf. by case_match.
Qed.
Lemma container_with_cert file k : container_of (with_cert file k) = container_of k.
Proof. done. Qed.
Lemma set_cert_run id file l f : keys_are l f ->
  exists l', set_cert id file l = Ret l' /\ keys_are l' (fun j => if j =? id then with_cert file <$> f j else f j).
Proof.
  intros [Hl Hf]. assert (H : exists l', set_cert id file l = Ret l' /\ Forall (fun k => exists c, container_of k = Ret c) l' /\
    forall j, find_key j l' = match find_key j l with Ret o => Ret (if j =? id then with_cert file <$> o else o) | Exn e => Exn e end).
  { clear f Hf. induction Hl as [|k l (c & Hc) Hl IH]; [exists []; split_and!; [done..|]; intros j; cbn [find_key]; by destruct (j =? id)|].
    cbn [set_cert]. rw Hc. cbn [mbind outcome_bind]. destruct (Z.eqb_spec c id) as [->|Hne].
    - exists (with_cert file k :: l). split_and!; [done|constructor; [by exists id|done]|]. intros j. cbn [find_key].
      rw container_with_cert Hc. cbn [mbind outcome_bind]. rw (Z.eqb_sym id j). destruct (j =? id) eqn:Hj; [done|].
      by destruct (find_key j l).
    - destruct IH as (l' & -> & Hl' & Hfind). cbn [mbind outcome_bind]. exists (k :: l').
      split_and!; [done|constructor; [by exists c|done]|]. intros j. cbn [find_key]. rw Hc. cbn [mbind outcome_bind].
      destruct (Z.eqb_spec c j) as [<-|]; [by rw (proj2 (Z.eqb_neq c id))|]. apply Hfind. }
  destruct H as (l' & -> & Hl' & Hfind). exists l'. split; [done|]. split; [done|]. intros j. by rw Hfind Hf.
Qed.

Lemma key_of_record_container i r k : (i < 15)%nat -> record_ok r -> key_of_record i r = Some k -> container_of k = Ret (Z.of_nat i).
Proof.
  intros Hi (used & a & b & c & b4 & b5 & b6 & b7 & d & e & g & -> & _ & _). cbn [key_of_record].
  destruct (used =? 0); [done|]. set (base := fun (x : bool) (size : Z) => if size =? 1024 then (if x then 16 else 32) else if x then 48 else 64).
  assert (Hland : forall x size, Z.land (base x size + Z.of_nat (S i)) 15 - 1 = Z.of_nat i).
  { intros x size. rw /base. change 15 with (Z.ones 4). rw Z.land_ones //. change (2 ^ 4) with 16.
    destruct (size =? 1024), x.
    - rw (Z.add_mod 16) // Z_mod_same_full Z.add_0_l Z.mod_mod // Z.mod_small; lia.
    - change 32 with (2 * 16). rw Z.add_comm Z_mod_plus_full Z.mod_small; lia.
    - change 48 with (3 * 16). rw Z.add_comm Z_mod_plus_full Z.mod_small; lia.
    - change 64 with (4 * 16). rw Z.add_comm Z_mod_plus_full Z.mod_small; lia. }
  destruct (b4 * 256 + b5 =? 0); intros [= <-]; rw /container_of; cbn [kp_kid]; f_equal.
  - apply (Hland true).
  - apply (Hland false).
Qed.

(** ** The files on the card *)

(** A card with the files [content], by their paths. In states with [sel (Some path)] the
    file [path] is selected on channel [c], with [sel None] none; every exchange takes at most
    [d] further commands. *)
Record holds_files {K} `{!Card K} (c : Z) (d : nat) (content : list Z -> option (list Z)) (sel : option (list Z) -> K -> Prop) : Prop := HoldsFiles {
  fs_size path bs : content path = Some bs -> Z.of_nat (length bs) < 2 ^ 16 - 1 /\ (length path <= 255)%nat;
  fs_select q k path bs le : sel q k -> content path = Some bs -> exists n fcp k', (n <= d)%nat /\
    mias_description (Z.of_nat (length bs)) fcp /\ sel (Some path) k' /\ exchange n k (full_cmd c 164 8 4 path le) (fcp ++ [144; 0]) k';
  fs_read k path bs i len : sel (Some path) k -> content path = Some bs -> (0 < len <= 255)%nat -> (i + len <= length bs)%nat ->
    exists n k', (n <= d)%nat /\ sel (Some path) k' /\
      exchange n k [c; 176; Z.of_nat i / 256; Z.of_nat i mod 256; Z.of_nat len] (take len (drop i bs) ++ [144; 0]) k' }.

Lemma concat_length_all {A} w (l : list (list A)) : Forall (fun r => length r = w) l -> length (concat l) = (w * length l)%nat.
Proof. induction 1 as [|r l Hr _ IH]; cbn [concat length]; [lia|]. rw length_app Hr IH. lia. Qed.
Lemma concat_slice {A} w (a : list (list A)) r b : Forall (fun r => length r = w) a -> length r = w ->
  take w (drop (w * length a) (concat (a ++ r :: b))) = r.
Proof.
  intros Ha Hr. rw concat_app -(concat_length_all w a Ha) drop_app_length. cbn [concat]. by rw -Hr take_app_length.
Qed.

Lemma record_length r : record_ok r -> length r = 11%nat.
Proof. by intros (? & ? & ? & ? & ? & ? & ? & ? & ? & ? & ? & -> & _). Qed.
Lemma description_length size fcp : mias_description size fcp -> (2 < length fcp <= 255)%nat /\ exists rest, fcp = 98 :: rest.
Proof.
  intros (before & h & low & after & Hfcp & _ & _ & Hlen & _). set (body := before ++ _ ++ after) in *.
  assert (length body = (length before + 4 + length after)%nat) by (rw /body !length_app; cbn; lia).
  rw Hfcp. cbn [length]. split; [lia|by eexists].
Qed.

Section listing.
Context {K : Type} `{!Card K} (fuel : nat) (x : Applet) (d : nat) (content : list Z -> option (list Z)) (sel : option (list Z) -> K -> Prop).
Hypotheses (Hfiles : holds_files (_channel x) d content sel) (Hd : (d < fuel)%nat).

(** The applet is in use: the state of the card, and the list of keys represents [f]. *)
Record listing (q : option (list Z)) (f : keys) (s : se_sys K) : Prop := Listing {
  ls_session : session TheMIAS x s; ls_card : sel q (card s); ls_keys : keys_are (_keypairs (mias_data s)) f }.

Lemma listing_answered q q' f r (s s' : se_sys K) : listing q f s -> answered s r (card s') s' -> sel q' (card s') -> listing q' f s'.
Proof. intros [Hs _ Hk] Hans Hq. split; [by eapply answered_session|done|]. by destruct Hans as (_ & _ & _ & _ & _ & -> & _). Qed.
Lemma listing_keys q f f' l g (s : se_sys K) : listing q f s -> keys_are l f' -> _keypairs (g (mias_data s)) = l ->
  listing q f' (SeSys (iface s) (mf s) (mias s) (g (mias_data s)) (card s)).
Proof. intros [[? ? ?] Hq _] Hl Hg. split; [by split|done|]. cbn [mias_data]. by rw Hg. Qed.

Lemma files_select q f path bs le (s : se_sys K) : listing q f s -> content path = Some bs ->
  exists fcp s', mias_accepted (transmit4 fuel TheMIAS 0 164 8 4 path le) s = Ret (true, s') /\
    mias_description (Z.of_nat (length bs)) fcp /\ answered s (fcp ++ [144; 0]) (card s') s' /\ listing (Some path) f s'.
Proof using Hfiles Hd.
  intros Hl Hc. destruct (fs_size _ _ _ _ Hfiles _ _ Hc) as [_ Hpath].
  destruct (fs_select _ _ _ _ Hfiles q (card s) path bs le (ls_card _ _ _ Hl) Hc) as (n & fcp & k' & Hn & Hfcp & Hk' & Hex).
  destruct (transmit4_run fuel TheMIAS x n 164 8 4 path le _ k' s (ls_session _ _ _ Hl) ltac:(lia) Hpath Hex) as (s' & Hrun & Hans).
  assert (card s' = k') as <- by by destruct Hans as (_ & _ & _ & _ & _ & _ & ->). exists fcp, s'.
  split_and!; [exact (accepted_run TheMIAS x _ fcp _ s s' (ls_session _ _ _ Hl) Hrun Hans)|done|done|by eapply listing_answered].
Qed.
Lemma files_read f path bs i len (s : se_sys K) : listing (Some path) f s -> content path = Some bs ->
  (0 < len <= 255)%nat -> (i + len <= length bs)%nat ->
  exists s', read_binary fuel (Z.of_nat i) (Z.of_nat len) s = Ret (true, s') /\
    answered s (take len (drop i bs) ++ [144; 0]) (card s') s' /\ listing (Some path) f s'.
Proof using Hfiles Hd.
  intros Hl Hc Hlen Hi. destruct (fs_size _ _ _ _ Hfiles _ _ Hc) as [Hsize _].
  destruct (fs_read _ _ _ _ Hfiles (card s) path bs i len (ls_card _ _ _ Hl) Hc Hlen Hi) as (n & k' & Hn & Hk' & Hex).
  assert (u8 (Z.shiftr (Z.of_nat i) 8) = Z.of_nat i / 256 /\ u8 (Z.of_nat i) = Z.of_nat i mod 256 /\ u8 (Z.of_nat len) = Z.of_nat len) as (H1 & H2 & H3).
  { rw Z.shiftr_div_pow2 //. change (2 ^ 8) with 256. rw (u8_small (_ / 256)); [rw (u8_small (Z.of_nat len)); [done|width]|].
    rw /is_u8. change (2 ^ 8) with 256. split; [apply Z.div_pos; lia|apply Z.div_lt_upper_bound; lia]. }
  rw /read_binary H1 H2 H3.
  destruct (transmit2_run fuel TheMIAS n x 176 _ _ _ _ k' s (ls_session _ _ _ Hl) Hex ltac:(lia)) as (s' & Hrun & Hans).
  assert (card s' = k') as <- by by destruct Hans as (_ & _ & _ & _ & _ & _ & ->). exists s'.
  split_and!; [done|done|by eapply listing_answered].
Qed.
Lemma listing_status q f data (s s' : se_sys K) : listing q f s -> answered s (data ++ [144; 0]) (card s') s' ->
  getStatusWord TheMIAS s' = Ret (36864, s').
Proof. intros Hl. apply (ok_status_run TheMIAS x). apply Hl. Qed.
Lemma files_read_accepted f path bs i len (s : se_sys K) : listing (Some path) f s -> content path = Some bs ->
  (0 < len <= 255)%nat -> (i + len <= length bs)%nat ->
  exists s', mias_accepted (read_binary fuel (Z.of_nat i) (Z.of_nat len)) s = Ret (true, s') /\
    answered s (take len (drop i bs) ++ [144; 0]) (card s') s' /\ listing (Some path) f s'.
Proof using Hfiles Hd.
  intros Hl Hc Hlen Hi. destruct (files_read f path bs i len s Hl Hc Hlen Hi) as (s' & Hrun & Hans & Hl').
  exists s'. split_and!; [|done..]. exact (accepted_run TheMIAS x _ _ _ s s' (ls_session _ _ _ Hl) Hrun Hans).
Qed.

(** *** The table of the containers *)

Lemma record_entry_run i r q f (s s' : se_sys K) : listing q f s -> answered s (r ++ [144; 0]) (card s') s' -> record_ok r -> (i < 15)%nat ->
  container_entry (Z.of_nat i) s' = Ret (key_of_record i r, s').
Proof.
  intros Hl Hans (used & a & b & c & b4 & b5 & b6 & b7 & e & g & h & -> & Hbytes & Hsize) Hi.
  repeat (apply Forall_cons in Hbytes as [? Hbytes]).
  assert (Hbyte : forall j y, ([used; a; b; c; b4; b5; b6; b7; e; g; h] ++ [144; 0]) !! j = Some y -> response_byte (Z.of_nat j) s' = Ret (y, s'))
    by (intros j y; by apply (response_byte_run _ (card s') s)).
  rw /container_entry. eapply bind_step; [by apply (Hbyte 0%nat)|]. cbn [key_of_record]. destruct (Z.eqb_spec used 0) as [|Hused]; [done|].
  eapply bind_step; [by apply (Hbyte 4%nat)|]. eapply bind_step; [by apply (Hbyte 5%nat)|]. cbv zeta.
  rw (lor_bytes b4 b5); [|by destruct H3|done].
  assert (Hkid : forall z, (z = 16 \/ z = 32 \/ z = 48 \/ z = 64) -> u8 (Z.lor z (Z.of_nat i + 1)) = z + Z.of_nat (S i)).
  { intros z Hz. assert (exists n, i = n /\ (n < 15)%nat) as (n & -> & Hn) by by exists i. clear -Hz Hn.
    do 15 (destruct n as [|n]; [by destruct Hz as [->|[->|[->| ->]]]|]). lia. }
  destruct (Z.eqb_spec (b4 * 256 + b5) 0) as [Hz|Hnz].
  - eapply bind_step.
    { eapply bind_step; [by apply (Hbyte 6%nat)|]. eapply bind_step; [by apply (Hbyte 7%nat)|]. done. }
    rw (lor_bytes b6 b7); [|by destruct H5|done]. cbv iota beta. change (Z.land _ _ =? _) with true. cbv iota.
    destruct Hsize as [|[?|[?|[_ [-> | ->]]]]]; [done|lia|lia|..]; cbn [Z.eqb Pos.eqb]; rw Hkid; auto.
  - eapply bind_step; [done|]. cbv iota beta. change (Z.land _ _ =? _) with false. cbv iota.
    destruct Hsize as [|[-> |[-> |[? _]]]]; [done|..|done]; cbn [Z.eqb Pos.eqb]; rw Hkid; auto.
Qed.

Lemma containers_run path rest : forall done n f (s : se_sys K), Forall record_ok (done ++ rest) -> (length (done ++ rest) <= 15)%nat ->
  content path = Some (concat (done ++ rest)) -> listing (Some path) f s -> (length rest < n)%nat ->
  exists s', containers_loop fuel n (Z.of_nat (length done)) (Z.of_nat (11 * length done)) (Z.of_nat (11 * length (done ++ rest))) s = Ret (tt, s') /\
    listing (Some path) (table_keys (length done) rest f) s'.
Proof using Hfiles Hd.
  induction rest as [|r rest IH]; intros before n f s Hok Hlen Hc Hl Hn; (destruct n as [|n]; [cbn in Hn; lia|]); cbn [containers_loop table_keys].
  { rw app_nil_r Z.ltb_irrefl. by exists s. }
  assert (Hw : Forall (fun r => length r = 11%nat) (before ++ r :: rest)).
  { eapply Forall_impl; [exact Hok|]. by intros ? (? & ? & ? & ? & ? & ? & ? & ? & ? & ? & ? & -> & _). }
  pose proof (concat_length_all 11 _ Hw) as Htotal. apply Forall_app in Hw as [Hwb Hw]. apply Forall_cons in Hw as [Hwr _].
  assert (Hsum : length (before ++ r :: rest) = (length before + S (length rest))%nat) by by rw length_app.
  assert (Hr : record_ok r) by (by apply Forall_app in Hok as [_ [? _]%Forall_cons]).
  rw (proj2 (Z.ltb_lt _ _)); [|rw Hsum; lia].
  destruct (files_read f path _ (11 * length before) 11 s Hl Hc) as (s1 & Hrun1 & Hans1 & Hl1); [lia|rw Htotal Hsum; lia|].
  rw concat_slice // in Hans1. change (Z.of_nat 11) with 11 in Hrun1.
  assert (Hadd : exists s2, (k ← container_entry (Z.of_nat (length before)); match k with Some k => add_keypair k | None => mret tt end) s1 = Ret (tt, s2) /\
    listing (Some path) (add_record (length before) r f) s2).
  { rw /mbind /M_bind (record_entry_run (length before) r _ f s s1 Hl Hans1 Hr ltac:(lia)) /add_record.
    destruct (key_of_record (length before) r) as [k|] eqn:Hk; [|by exists s1].
    eexists. split; [done|]. eapply (listing_keys _ f _ _ (fun m => MkMias (k :: _keypairs m) _ _ _ _ _)); [exact Hl1| |done].
    apply keys_add; [apply Hl1|]. by apply (key_of_record_container _ r); [lia|..]. }
  destruct Hadd as (s2 & Hrun2 & Hl2).
  destruct (IH (before ++ [r]) n (add_record (length before) r f) s2) as (s3 & Hrun3 & Hl3); [by rw -app_assoc..|done|cbn in Hn; lia|].
  rw length_app Nat.add_1_r in Hrun3, Hl3. exists s3. split; [|done].
  eapply bind_step; [exact Hrun1|]. cbv iota. eapply bind_step; [exact (listing_status _ f _ s s1 Hl Hans1)|]. cbn [Z.eqb Pos.eqb].
  move: Hrun2. rw /mbind /M_bind (record_entry_run (length before) r _ f s s1 Hl Hans1 Hr ltac:(lia)). intros ->.
  rw u8_small; [|width]. rw u16_small; [|rw /is_u16; lia].
  replace (Z.of_nat (length before) + 1) with (Z.of_nat (S (length before))) by lia.
  replace (Z.of_nat (11 * length before) + 11) with (Z.of_nat (11 * S (length before))) by lia.
  rw -app_assoc in Hrun3. exact Hrun3.
Qed.

(** *** The directory *)

Lemma directory_entry_run r q f (s s' : se_sys K) : listing q f s -> listing q f s' -> answered s (r ++ [144; 0]) (card s') s' -> length r = 21%nat ->
  exists s'', directory_entry s' = Ret (tt, s'') /\ listing q (add_entry r f) s''.
Proof.
  intros Hl Hl' (_ & [rest Hr] & _) Hlen. rw /directory_entry /add_entry /certificate_entry.
  rw (bind_run _ _ s' (iface s') s') //. rw (bind_run _ _ s' r s'); last first.
  { rw /lift_outcome Hr -app_assoc. change 21 with (Z.of_nat 21). by rw -Hlen read_bytes_app. }
  case_decide; [|by exists s']. rw (bind_run _ _ s' (mias_data s') s') //. cbv zeta.
  destruct (set_cert_run ((nth 7 r 0 - 48) * 10 + (nth 8 r 0 - 48)) (take 2 r) _ f (ls_keys _ _ _ Hl')) as (l & Hset & Hk).
  rw (bind_run _ _ s' l s'); [|by rw /lift_outcome Hset]. eexists. split; [done|].
  by eapply (listing_keys _ f _ _ (fun m => MkMias l _ _ _ _ _)).
Qed.
Lemma directory_run path n0 rest : forall done f (s : se_sys K), Forall (fun r => length r = 21%nat) (done ++ rest) -> (length (done ++ rest) <= 255)%nat ->
  content path = Some (n0 :: concat (done ++ rest)) -> listing (Some path) f s ->
  exists s', directory_loop fuel (length rest) (Z.of_nat (1 + 21 * length done)) s = Ret (tt, s') /\
    listing (Some path) (fold_left (fun f r => add_entry r f) rest f) s'.
Proof using Hfiles Hd.
  induction rest as [|r rest IH]; intros before f s Hw Hlen Hc Hl; cbn [length directory_loop fold_left]; [by exists s|].
  pose proof (concat_length_all 21 _ Hw) as Htotal. pose proof Hw as [Hwb [Hwr _]%Forall_cons]%Forall_app.
  assert (Hsum : length (before ++ r :: rest) = (length before + S (length rest))%nat) by by rw length_app.
  destruct (files_read_accepted f path _ (1 + 21 * length before) 21 s Hl Hc) as (s1 & Hrun1 & Hans1 & Hl1);
    [lia|cbn [length]; rw Htotal Hsum; lia|].
  cbn [Nat.add drop] in Hans1. rw concat_slice // in Hans1.
  destruct (directory_entry_run r _ f s s1 Hl Hl1 Hans1 Hwr) as (s2 & Hrun2 & Hl2).
  destruct (IH (before ++ [r]) (add_entry r f) s2) as (s3 & Hrun3 & Hl3); [by rw -app_assoc..|done|].
  exists s3. split; [|done]. eapply bind_step; [exact Hrun1|]. cbv iota. eapply bind_step; [exact Hrun2|].
  rw u16_small; [|rw /is_u16; lia]. rw length_app in Hrun3. cbn [length] in Hrun3.
  replace (Z.of_nat (1 + 21 * length before) + 21) with (Z.of_nat (1 + 21 * (length before + 1))) by lia. exact Hrun3.
Qed.
(** *** The list *)

(** The file with the table, and the file with the directory behind the number of its
    entries. *)
Record container_files (records directory : list (list Z)) : Prop := ContainerFiles {
  cf_records : Forall record_ok records; cf_number : (length records <= 15)%nat;
  cf_entries : Forall (fun r => length r = 21%nat) directory; cf_count : (length directory <= 255)%nat;
  cf_table : content [0; 2] = Some (concat records);
  cf_directory : content [1; 1] = Some (Z.of_nat (length directory) :: concat directory) }.

Lemma list_files_run records directory q (s : se_sys K) : (255 < fuel)%nat -> container_files records directory ->
  listing q (fun _ => None) s -> _keypairs (mias_data s) = [] ->
  exists s', listKeyPairs fuel s = Ret (true, s') /\ listing (Some [1; 1]) (card_keys records directory) s'.
Proof using Hfiles Hd.
  intros Hfuel [Hok Hnum Hent Hcount Htab Hdir] Hl Hnone.
  destruct (files_select q _ _ _ 21 s Hl Htab) as (fcp & s1 & Hrun1 & Hfcp & Hans1 & Hl1).
  destruct (description_length _ _ Hfcp) as [Hflen [rest Hf]].
  assert (Hsize : concat records = concat ([] ++ records)) by done. rw Hsize in Htab.
  destruct (containers_run [0; 2] records [] fuel _ s1 Hok Hnum Htab Hl1 ltac:(lia)) as (s2 & Hrun2 & Hl2).
  destruct (files_select _ _ _ _ 21 s2 Hl2 Hdir) as (fcp' & s3 & Hrun3 & _ & _ & Hl3).
  destruct (files_read_accepted _ _ _ 0 1 s3 Hl3 Hdir) as (s4 & Hrun4 & Hans4 & Hl4); [lia|cbn; lia|].
  destruct (directory_run [1; 1] _ directory [] _ s4 Hent Hcount Hdir Hl4) as (s5 & Hrun5 & Hl5).
  exists s5. split; [|exact Hl5]. rw /listKeyPairs. eapply bind_step; [done|]. rw Hnone.
  eapply bind_step; [exact Hrun1|]. cbv iota.
  eapply bind_step; [eapply (length_run TheMIAS x fcp); [apply Hl|lia|exact Hans1]|].
  rw (proj2 (Z.ltb_lt _ _)); [|lia]. eapply bind_step; [eapply (response_byte_at _ []); [exact Hans1|by rw Hf|done]|].
  cbn [Z.eqb Pos.eqb]. eapply bind_step; [eapply described_size_run; [exact Hfcp|exact Hans1|exact Hfuel]|].
  eapply bind_step.
  { cbn [default id]. rw (concat_length_all 11); [exact Hrun2|]. eapply Forall_impl; [exact Hok|apply record_length]. }
  eapply bind_step; [exact Hrun3|]. cbv iota. eapply bind_step; [exact Hrun4|]. cbv iota. eapply bind_step; [|done].
  eapply bind_step; [eapply (response_byte_at _ []); [exact Hans4|done|done]|]. rw Nat2Z.id. exact Hrun5.
Qed.

(** The list is read once. *)
Lemma list_again_run q f (s : se_sys K) : listing q f s -> _keypairs (mias_data s) <> [] -> listKeyPairs fuel s = Ret (true, s).
Proof. intros _ Hne. rw /listKeyPairs. eapply bind_step; [done|]. by destruct (_keypairs (mias_data s)). Qed.

(** The list is empty, or holds the keys of the files. *)
Definition keys_known (records directory : list (list Z)) (s : se_sys K) : Prop :=
  _keypairs (mias_data s) = [] \/ keys_are (_keypairs (mias_data s)) (card_keys records directory).

Lemma key_pair_run records directory q f id (s : se_sys K) : (255 < fuel)%nat -> container_files records directory ->
  listing q f s -> keys_known records directory s ->
  exists q' s', getKeyPairByContainerId fuel id s = Ret (card_keys records directory id, s') /\
    listing q' (card_keys records directory) s'.
Proof using Hfiles Hd.
  intros Hfuel Hcf Hl Hknown.
  assert (exists q' s', listKeyPairs fuel s = Ret (true, s') /\ listing q' (card_keys records directory) s') as (q' & s' & Hrun & Hl').
  { destruct (decide (_keypairs (mias_data s) = [])) as [Hnone|Hne].
    - exists (Some [1; 1]). eapply list_files_run; [done..| |done]. split; [apply Hl|apply Hl|rw Hnone; apply keys_none].
    - destruct Hknown as [?|Hk]; [done|]. exists q, s. split; [by eapply list_again_run|]. split; [apply Hl|apply Hl|done]. }
  exists q', s'. split; [|done]. rw /getKeyPairByContainerId. eapply bind_step; [exact Hrun|]. eapply bind_step; [done|].
  rw /lift_outcome. by destruct (ls_keys _ _ _ Hl') as [_ ->].
Qed.
End listing.

(** ** The certificate of a container *)

(** The file of a certificate that is not compressed; a compressed one starts with 1, 0. *)
Definition plain (bs : list Z) : Prop :=
  exists b rest, bs = b :: rest /\ (b = 1 -> exists b' rest', rest = b' :: rest' /\ b' <> 0).

(** The array after the first [i] bytes of [bs], with room for the null. *)
Definition filled (bs : list Z) (i : nat) : heap_array := (Some <$> take i bs) ++ replicate (length bs - i + 1) None.
Lemma filled_next bs i len : (i + len <= length bs)%nat ->
  write_heap (filled bs i) (Z.of_nat i) (take len (drop i bs)) = Ret (filled bs (i + len)).
Proof.
  intros Hi. rw /write_heap /filled Nat2Z.id. rw length_app length_fmap !length_take length_drop length_replicate decide_True; [|lia]. f_equal.
  rw take_app_le; [|rw length_fmap length_take; lia]. rw -fmap_take take_take Nat.min_id drop_app_ge; [|rw length_fmap length_take; lia].
  rw length_fmap length_take drop_replicate app_assoc -fmap_app take_take_drop. f_equal. f_equal. lia.
Qed.
Lemma filled_end bs : write_heap (filled bs (length bs)) (Z.of_nat (length bs)) [0] = Ret (Some <$> bs ++ [0]).
Proof.
  rw /write_heap /filled Nat2Z.id Nat.sub_diag firstn_all. rw decide_True; [|rw length_app length_fmap; cbn; lia]. f_equal.
  rw take_app_le; [|by rw length_fmap]. rw take_ge; [|by rw length_fmap]. rw drop_ge; [|rw length_app length_fmap; cbn; lia].
  by rw app_nil_r fmap_app.
Qed.
Lemma plain_read bs : plain bs -> exists b, read_heap (Some <$> bs ++ [0]) 0 = Ret b /\
  (b = 1 -> exists b', read_heap (Some <$> bs ++ [0]) 1 = Ret b' /\ b' <> 0).
Proof.
  intros (b & rest & -> & Hb). exists b. split; [done|]. intros Heq. destruct (Hb Heq) as (b' & rest' & -> & Hne). by exists b'.
Qed.

Section certificate.
Context {K : Type} `{!Card K} (fuel : nat) (x : Applet) (d : nat) (content : list Z -> option (list Z)) (sel : option (list Z) -> K -> Prop).
Hypotheses (Hfiles : holds_files (_channel x) d content sel) (Hd : (d < fuel)%nat).

(** The blocks, 238 bytes each, are read to the end. *)
Lemma certificate_loop_run path bs f : content path = Some bs -> forall n i (s : se_sys K), listing x sel (Some path) f s ->
  (i <= length bs)%nat -> (length bs - i < n)%nat ->
  exists s', certificate_loop fuel n (Z.of_nat i) (Z.of_nat (length bs)) (filled bs i) s =
      Ret ((Z.of_nat (length bs), filled bs (length bs)), s') /\ listing x sel (Some path) f s'.
Proof using Hfiles Hd.
  intros Hc. destruct (fs_size _ _ _ _ Hfiles _ _ Hc) as [Hsize _]. induction n as [|n IH]; intros i s Hl Hi Hn; [lia|].
  cbn [certificate_loop]. destruct (Z.ltb_spec (Z.of_nat i) (Z.of_nat (length bs))) as [Hlt|Hge]; last first.
  { assert (i = length bs) as -> by lia. by exists s. }
  set (len := Nat.min 238 (length bs - i)). cbv zeta.
  assert ((if Z.of_nat (length bs) <? Z.of_nat i + 238 then u8 (Z.of_nat (length bs) - Z.of_nat i) else 238) = Z.of_nat len) as ->.
  { rw /len. destruct (Z.ltb_spec (Z.of_nat (length bs)) (Z.of_nat i + 238)); [rw u8_small; [lia|width]|lia]. }
  assert (Hlen : (0 < len <= 255)%nat /\ (i + len <= length bs)%nat) by (rw /len; lia). clearbody len.
  destruct (files_read_accepted fuel x d content sel Hfiles Hd f path bs i len s Hl Hc) as (s1 & Hrun1 & Hans1 & Hl1); [lia..|].
  destruct (IH (i + len)%nat s1 Hl1) as (s2 & Hrun2 & Hl2); [lia..|]. exists s2. split; [|done].
  eapply bind_step; [exact Hrun1|]. cbv iota. eapply bind_step.
  { eapply bind_step; [exact (getResponse_run TheMIAS x _ 144 0 _ s s1 (ls_session _ _ _ _ _ Hl) Hans1)|].
    eapply bind_step; [by rw /lift_outcome filled_next; [|lia]|]. done. }
  cbv iota beta. rw length_take length_drop Nat.min_l; [|lia]. rw u8_small; [|width]. rw u16_small; [|width].
  rw -Nat2Z.inj_add. exact Hrun2.
Qed.

Lemma container_certificate_run records directory q f id kp bs (s : se_sys K) : (255 < fuel)%nat -> container_files content records directory ->
  listing x sel q f s -> keys_known records directory s -> card_keys records directory id = Some kp -> kp_has_cert kp = true ->
  content (kp_pub_file_id kp) = Some bs -> plain bs -> (length bs < fuel)%nat ->
  exists q' s', getCertificateByContainerId fuel id s = Ret (Some (Some <$> bs ++ [0], Z.of_nat (length bs) + 1), s') /\
    listing x sel q' (card_keys records directory) s'.
Proof using Hfiles Hd.
  intros Hfuel Hcf Hl Hknown Hkp Hcert Hc Hplain Hlen. destruct (fs_size _ _ _ _ Hfiles _ _ Hc) as [Hsize _].
  destruct (key_pair_run fuel x d content sel Hfiles Hd records directory q f id s Hfuel Hcf Hl Hknown) as (q1 & s1 & Hrun1 & Hl1).
  destruct (files_select fuel x d content sel Hfiles Hd q1 _ _ _ 28 s1 Hl1 Hc) as (fcp & s2 & Hrun2 & Hfcp & Hans2 & Hl2).
  destruct (description_length _ _ Hfcp) as [Hflen [rest Hf]].
  destruct (certificate_loop_run _ bs _ Hc fuel 0 s2 Hl2) as (s3 & Hrun3 & Hl3); [lia..|].
  exists (Some (kp_pub_file_id kp)), s3. split; [|done]. rw /getCertificateByContainerId. eapply bind_step; [exact Hrun1|].
  rw Hkp Hcert. cbn [negb]. eapply bind_step; [exact Hrun2|]. cbn [negb].
  eapply bind_step; [eapply (response_byte_at _ []); [exact Hans2|by rw Hf|done]|]. cbn [Z.eqb Pos.eqb].
  eapply bind_step; [eapply described_size_run; [exact Hfcp|exact Hans2|exact Hfuel]|].
  eapply bind_step; [done|]. destruct Hplain as (b & l & -> & Hb). rw (proj2 (Z.eqb_neq _ _)); [|cbn [length]; lia].
  cbv zeta. rw u16_small; [|width].
  eapply bind_step.
  { replace (replicate _ None) with (filled (b :: l) 0); [exact Hrun3|]. rw /filled Nat.sub_0_r. cbn [take fmap list_fmap app]. f_equal. lia. }
  cbv iota beta. eapply bind_step; [by rw /lift_outcome filled_end|].
  destruct (plain_read (b :: l)) as (b0 & Hb0 & Hb1); [by exists b, l|].
  eapply bind_step; [by rw /lift_outcome Hb0|]. destruct (Z.eqb_spec b0 1) as [->|]; [|by eapply bind_step].
  destruct (Hb1 eq_refl) as (b' & Hr & Hne). eapply bind_step; [by eapply bind_step; [rw /lift_outcome Hr|]|].
  by rw (proj2 (Z.eqb_neq b' 0)).
Qed.
End certificate.

(** ** Names of containers *)

(** The number of a container is taken modulo 256. *)
Lemma container_number_digits ds : container_number (digits_text ds) = u8 (digits_value ds).
Proof.
  induction ds as [|d ds IH] using rev_ind; [done|]. rw digits_value_snoc /container_number /digits_text fmap_app fold_left_app.
  cbn [fold_left fmap list_fmap]. change (fold_left _ _ 0) with (container_number (digits_text ds)). rw IH /u8.
  rw Zmult_mod_idemp_l Zplus_mod_idemp_l. f_equal. lia.
Qed.

(** The name of container [ds], with the memory behind it. *)
Definition container_path (ds rest : list Z) : list Z := MBEDTLS_SE_MIAS_KEY_NAME_PREFIX ++ digits_text ds ++ 0 :: rest.

Lemma read_bytes_in l n : (n <= length l)%nat -> read_bytes l (Z.of_nat n) = Ret (take n l).
Proof. intros Hn. pose proof (read_bytes_app (take n l) (drop n l)) as Hr. by rw take_drop length_take_le in Hr. Qed.

(** The comparison with the longest prefix reads 14 bytes, whatever the length of the name. *)
Lemma container_name_run ds rest : Forall (fun d => 0 <= d < 10) ds -> (14 <= length (container_path ds rest))%nat ->
  key_name_of (container_path ds rest) = Ret (ContainerName (digits_text ds)).
Proof.
  intros Hds Hlen. rw /key_name_of /has_prefix.
  change (length MBEDTLS_SE_EF_KEY_NAME_PREFIX) with 8%nat. change (length MBEDTLS_SE_MIAS_P11_KEY_NAME_PREFIX) with 14%nat.
  rw !read_bytes_in; [|lia|lia|]; last first.
  { change (length MBEDTLS_SE_MIAS_KEY_NAME_PREFIX) with 10%nat. lia. }
  cbn [mbind outcome_bind]. rw bool_decide_false; [|done]. rw bool_decide_false; [|done].
  rw /container_path take_app_length bool_decide_true // drop_app_length. rw (cstring_app _ _ []) // ?app_nil_r //.
  apply Forall_fmap. eapply Forall_impl; [exact Hds|]. cbn. lia.
Qed.

(** ** Certificate and key of a container *)

(** A card that opens a logical channel, selects the applet [MIAS] on it, holds the files
    there, [sel] telling by the channel which one is selected, and ends in a state with
    [closed]. *)
Definition containers_on_card {K} `{!Card K} (fuel : nat) (records directory : list (list Z)) (content : list Z -> option (list Z))
  (sel : Z -> option (list Z) -> K -> Prop) (closed : K -> Prop) (k : K) : Prop :=
  exists n1 n2 d ch fci k1 k2, (n1 < fuel)%nat /\ (n2 < fuel)%nat /\ (d < fuel)%nat /\
    exchange n1 k [0; 112; 0; 0; 1] [ch; 144; 0] k1 /\ exchange n2 k1 (select_cmd ch MIAS_AID) (fci ++ [144; 0]) k2 /\
    sel ch None k2 /\ holds_files ch d content (sel ch) /\ card_closes fuel ch (fun k => exists q, sel ch q k) closed.

Section containers.
Context {K : Type} `{!Card K} `{!KeyLibrary K} (fuel : nat) (records directory : list (list Z)) (content : list Z -> option (list Z)).
Context (sel : Z -> option (list Z) -> K -> Prop) (closed : K -> Prop).
Hypotheses (Hfuel : (255 < fuel)%nat) (Hcf : container_files content records directory)
  (Hcard : forall k, closed k -> containers_on_card fuel records directory content sel closed k).

(** The applet is not selected, and the list of keys is empty or the one of the card. *)
Definition at_rest (s : se_sys K) : Prop := ready TheMIAS MIAS_AID s /\ keys_known records directory s /\ closed (card s).

(** What no exchange changes. *)
Definition unchanged_by_card {L} (lib : K -> L) : Prop := forall l, CardKeeps (fun k => lib k = l).
Lemma unchanged_nothing : unchanged_by_card (fun _ => tt).
Proof. intros l cmd k _. rw /wp. by destruct (transmitApdu cmd k) as [[? ?]|], l. Qed.
Lemma unchanged_run {A L} (lib : K -> L) (m : M (se_sys K) A) (s s' : se_sys K) a : unchanged_by_card lib ->
  (forall P : K -> Prop, CardKeeps P -> keeps (fun s => P (card s)) m) -> m s = Ret (a, s') -> lib (card s') = lib (card s).
Proof. intros Hlib Hm Hrun. exact (wp_run any_exn _ _ _ _ _ Hrun (Hm (fun k => lib k = lib (card s)) (Hlib _) s eq_refl)). Qed.

(** An operation with the files of the card, between the selection of the applet and its
    end. *)
Lemma with_files_run {A L} (lib : K -> L) (op : M (se_sys K) A) (Q : A -> se_sys K -> se_sys K -> Prop) (s : se_sys K) :
  unchanged_by_card lib -> at_rest s ->
  (forall x d f (s : se_sys K), holds_files (_channel x) d content (sel (_channel x)) -> (d < fuel)%nat ->
    listing x (sel (_channel x)) None f s -> keys_known records directory s ->
    exists a q s', op s = Ret (a, s') /\ Q a s s' /\ listing x (sel (_channel x)) q (card_keys records directory) s') ->
  exists s1 a s2 s3, select fuel TheMIAS false s = Ret (true, s1) /\ op s1 = Ret (a, s2) /\ Q a s1 s2 /\
    deselect fuel TheMIAS s2 = Ret (false, s3) /\ at_rest s3 /\ lib (card s1) = lib (card s) /\ lib (card s3) = lib (card s2).
Proof using Hcard Hfuel.
  intros Hlib ((Hok & Hidle & Haid) & Hknown & Hclosed) Hop.
  destruct (Hcard _ Hclosed) as (n1 & n2 & d & ch & fci & k1 & k2 & Hn1 & Hn2 & Hd & Hex1 & Hex2 & Hsel & Hfiles & Hclose).
  destruct (select_run fuel TheMIAS n1 n2 ch k1 k2 fci s Hok Hidle Hn1 Hn2) as (s1 & Hrun1 & Hc1 & Hs1 & Hm1);
    [rw Haid; cbn; lia|done|by rw Haid|]. rw Haid in Hs1.
  set (x := MkApplet true MIAS_AID false true ch) in *.
  assert (exists f, keys_are (_keypairs (mias_data s)) f) as [f Hf].
  { destruct Hknown as [->|Hk]; [eexists; apply keys_none|by eexists]. }
  destruct (Hop x d f s1 Hfiles Hd) as (a & q & s2 & Hrun2 & Hq & Hl2).
  { split; [done|by rw Hc1|by rw Hm1]. }
  { by rw /keys_known Hm1. }
  destruct (close_run fuel TheMIAS MIAS_AID ch _ closed s2 Hclose (ls_session _ _ _ _ _ Hl2)) as (s3 & Hrun3 & Hready & Hc3 & Hm3).
  { exists q. apply Hl2. }
  exists s1, a, s2, s3. split_and!; [done..| | |].
  - split_and!; [done| |done]. right. rw Hm3. apply Hl2.
  - eapply (unchanged_run lib); [done| |exact Hrun1]. intros P HP. by apply skeeps_select.
  - eapply (unchanged_run lib); [done| |exact Hrun3]. intros P HP. by apply skeeps_deselect.
Qed.

Section names.
Context (ds rest : list Z).
Hypotheses (Hds : Forall (fun d => 0 <= d < 10) ds) (Hlen : (14 <= length (container_path ds rest))%nat).

(** The certificate: the result is that of the parser, and what it leaves of a part of the
    state that exchanges do not change stays. *)
Lemma certificate_run {L} (lib : K -> L) size0 pin kp bs (s : se_sys K) : unchanged_by_card lib -> at_rest s ->
  card_keys records directory (u8 (digits_value ds)) = Some kp -> kp_has_cert kp = true ->
  content (kp_pub_file_id kp) = Some bs -> plain bs -> (length bs < fuel)%nat ->
  (forall ch q k, sel ch q k -> exists rc k', mbedtls_x509_crt_parse (bs ++ [0]) k = Ret (rc, k') /\ sel ch q k') ->
  exists rc s', mbedtls_x509_crt_parse_se fuel size0 (container_path ds rest) pin s = Ret (rc, s') /\
    (exists k k', mbedtls_x509_crt_parse (bs ++ [0]) k = Ret (rc, k') /\ lib k = lib (card s) /\ lib (card s') = lib k') /\ at_rest s'.
Proof using Hcard Hcf Hds Hfuel Hlen.
  intros Hlib Hs Hkp Hcert Hc Hplain Hn Hparse.
  destruct (with_files_run lib (o ← getCertificateByContainerId fuel (u8 (digits_value ds));
      match o with
      | Some (obj, n) => bs ← lift_outcome (heap_range obj 0 (Z.to_nat n)); on_card (mbedtls_x509_crt_parse bs)
      | None => mret MBEDTLS_ERR_SE_BAD_KEY_NAME_ERROR
      end) (fun rc s s' => exists k, mbedtls_x509_crt_parse (bs ++ [0]) k = Ret (rc, card s') /\ lib k = lib (card s)) s Hlib Hs)
    as (s1 & rc & s2 & s3 & Hrun1 & Hrun2 & (k & Hk & Hkl) & Hrun3 & Hs3 & Hl1 & Hl3).
  { clear s Hs. intros x d f s Hfiles Hd Hl Hk.
    destruct (container_certificate_run fuel x d content _ Hfiles Hd records directory None f _ kp bs s Hfuel Hcf Hl Hk Hkp Hcert Hc Hplain Hn)
      as (q & s1 & Hrun & Hl1).
    destruct (Hparse _ _ _ (ls_card _ _ _ _ _ Hl1)) as (rc & k & Hp & Hk1). eexists rc, q, _. split_and!; [| |].
    - eapply bind_step; [exact Hrun|]. cbv iota.
      replace (Z.to_nat _) with (length (bs ++ [0])) by (rw length_app; cbn [length]; lia).
      eapply bind_step; [by rw /lift_outcome heap_bytes_run|]. by rw /on_card Hp.
    - exists (card s1). split; [done|]. eapply (unchanged_run lib); [done| |exact Hrun]. intros P HP. by apply skeeps_certificate.
    - destruct Hl1 as [[? ? ?] _ ?]. by split; [split| |]. }
  exists rc, s3. split_and!; [|by exists k, (card s2); rw Hkl Hl1|done]. rw /mbedtls_x509_crt_parse_se.
  eapply bind_step; [by rw /lift_outcome container_name_run|]. cbv iota. rw container_number_digits.
  eapply bind_step; [exact Hrun1|]. cbv iota. eapply bind_step; [exact Hrun2|]. by eapply bind_step; [exact Hrun3|].
Qed.

(** The key: a context with the PIN of the caller and the key of the container, or an error
    when there is none. *)
Lemma private_key_run {L} (lib : K -> L) size0 pin rc0 k0 (s : se_sys K) : unchanged_by_card lib -> at_rest s ->
  mbedtls_pk_parse_key None (card s) = Ret (rc0, k0) -> closed k0 ->
  exists s', at_rest s' /\ lib (card s') = lib k0 /\ mbedtls_pk_parse_se fuel size0 (container_path ds rest) pin s =
    match card_keys records directory (u8 (digits_value ds)) with
    | Some kp => on_card (mbedtls_pk_setup_rsa_alt (MkMiasKey pin kp)) s'
    | None => Ret (MBEDTLS_ERR_SE_BAD_KEY_NAME_ERROR, s')
    end.
Proof using Hcard Hcf Hds Hfuel Hlen.
  intros Hlib (Hready & Hknown & _) Hnull Hk0.
  set (s0 := SeSys (iface s) (mf s) (mias s) (mias_data s) k0).
  assert (Hs0 : at_rest s0) by by split_and!.
  destruct (with_files_run lib (getKeyPairByContainerId fuel (u8 (digits_value ds)))
      (fun o s s' => card_keys records directory (u8 (digits_value ds)) = o /\ lib (card s') = lib (card s)) s0 Hlib Hs0)
    as (s1 & o & s2 & s3 & Hrun1 & Hrun2 & (<- & Hl2) & Hrun3 & Hs3 & Hl1 & Hl3).
  { clear s Hready Hknown s0 Hnull Hs0. intros x d f s Hfiles Hd Hl Hk.
    destruct (key_pair_run fuel x d content _ Hfiles Hd records directory None f (u8 (digits_value ds)) s Hfuel Hcf Hl Hk) as (q & s1 & Hrun & Hl1).
    eexists _, q, s1. split_and!; [exact Hrun|done| |done]. eapply (unchanged_run lib); [done| |exact Hrun]. intros P HP. by apply skeeps_key_pair. }
  exists s3. split; [done|]. split; [by rw Hl3 Hl2 Hl1|]. rw /mbedtls_pk_parse_se.
  eapply bind_step; [by rw /lift_outcome container_name_run|]. cbv iota. rw container_number_digits.
  eapply bind_step; [by rw /on_card Hnull|]. eapply bind_step; [exact Hrun1|]. cbv iota.
  eapply bind_step; [by eapply bind_step; [exact Hrun2|]|]. eapply bind_step; [exact Hrun3|].
  eapply bind_step; [done|]. by destruct (card_keys records directory (u8 (digits_value ds))).
Qed.
End names.

(** C34: the certificate and the key of the device, named [SE://MIAS/] with the decimal
    number of a container. It is assumed that at least 14 bytes of memory can be read from
    the start of the name, for its comparison with a prefix of 14 bytes (a name alone in
    its memory, as [SE://MIAS/0] with 12 bytes, is read beyond its end:
    [CardDemo.short_name_read]), and that the certificate file of the container is not
    compressed. After [mbedtls_se_init], mbedTLS then parses exactly the
    bytes of the certificate file that the directory of the card tells for the container,
    and the terminating null, whatever its size (blocks of 238 bytes); the key is set up
    with the key of the container, whose identifier is computed from its number, its size
    and its use in the table of the card, and with the PIN of the caller. The logical
    channel is closed each time, and the applet is ready for the signatures. *)
Theorem container_credentials ds rest size0 size1 pin pin' kp bs (s : se_sys K) :
  Forall (fun d => 0 <= d < 10) ds -> (14 <= length (container_path ds rest))%nat -> se_ok (iface s) -> closed (card s) ->
  card_keys records directory (u8 (digits_value ds)) = Some kp -> kp_has_cert kp = true ->
  content (kp_pub_file_id kp) = Some bs -> plain bs -> (length bs < fuel)%nat ->
  (forall ch q k, sel ch q k -> exists rc k', mbedtls_x509_crt_parse (bs ++ [0]) k = Ret (rc, k') /\ sel ch q k') ->
  (forall k, closed k -> exists rc k', mbedtls_pk_parse_key None k = Ret (rc, k') /\ closed k') ->
  exists s0 rc s1 s2, mbedtls_se_init true s = Ret (0, s0) /\
    mbedtls_x509_crt_parse_se fuel size0 (container_path ds rest) pin s0 = Ret (rc, s1) /\
    (exists k k', mbedtls_x509_crt_parse (bs ++ [0]) k = Ret (rc, k')) /\
    mbedtls_pk_parse_se fuel size1 (container_path ds rest) pin' s1 = on_card (mbedtls_pk_setup_rsa_alt (MkMiasKey pin' kp)) s2 /\
    at_rest s2.
Proof using Hcard Hcf Hfuel.
  intros Hds Hlen Hok Hclosed Hkp Hcert Hc Hplain Hn Hparse Hnull.
  pose proof unchanged_nothing as Hunit.
  eexists. destruct (certificate_run ds rest Hds Hlen (fun _ => tt) size0 pin kp bs
    (SeSys (iface s) (MkApplet true MF_AID false false 0) (MkApplet true MIAS_AID false false 0) (MkMias [] 0 0 0 0 0) (card s)))
    as (rc & s1 & Hrun1 & (k1 & k2 & Hp & _) & Hs1); [done|split_and!; [done|by left|done]|done..|].
  destruct (Hnull (card s1)) as (rc0 & k0 & Hk & Hk0); [apply Hs1|].
  destruct (private_key_run ds rest Hds Hlen (fun _ => tt) size1 pin' rc0 k0 s1 Hunit Hs1 Hk Hk0) as (s2 & Hs2 & _ & Hrun2). rw Hkp in Hrun2.
  exists rc, s1, s2. split_and!; [done|exact Hrun1|by exists k1, k2|exact Hrun2|exact Hs2].
Qed.

(** A container that the card does not have, or without a key, is reported. *)
Theorem container_missing ds rest size pin (s : se_sys K) :
  Forall (fun d => 0 <= d < 10) ds -> (14 <= length (container_path ds rest))%nat -> at_rest s ->
  card_keys records directory (u8 (digits_value ds)) = None ->
  (exists rc k', mbedtls_pk_parse_key None (card s) = Ret (rc, k') /\ closed k') ->
  exists s', at_rest s' /\ mbedtls_pk_parse_se fuel size (container_path ds rest) pin s = Ret (MBEDTLS_ERR_SE_BAD_KEY_NAME_ERROR, s').
Proof using Hcard Hcf Hfuel.
  intros Hds Hlen Hs Hnone (rc0 & k0 & Hk & Hk0).
  pose proof unchanged_nothing as Hunit.
  destruct (private_key_run ds rest Hds Hlen (fun _ => tt) size pin rc0 k0 s Hunit Hs Hk Hk0) as (s' & Hs' & _ & Hrun). rw Hnone in Hrun. by exists s'.
Qed.
End containers.

(** ** A card with a container *)

Module CardDemo.

(** The table has a signature key of 2048 bits in container 0, and container 1 is empty; the
    directory has the certificate of container 0, a file of 300 bytes, and another file. *)
Definition demo_records : list (list Z) := [[1; 0; 0; 0; 8; 0; 0; 0; 0; 0; 0]; [0; 0; 0; 0; 0; 0; 0; 0; 0; 0; 0]].
Definition demo_directory : list (list Z) :=
  [[172; 2; 0; 10] ++ bytes "cardcf" ++ [0; 0] ++ bytes "root" ++ [0; 0; 0; 0; 0];
   [172; 1; 1; 44] ++ bytes "ksc00" ++ [0; 0; 0] ++ bytes "mscp" ++ [0; 0; 0; 0; 0]].
Definition demo_certificate : list Z := replicate 300 48.
Definition demo_content (path : list Z) : option (list Z) :=
  if bool_decide (path = [0; 2]) then Some (concat demo_records)
  else if bool_decide (path = [1; 1]) then Some (Z.of_nat (length demo_directory) :: concat demo_directory)
  else if bool_decide (path = [172; 1]) then Some demo_certificate else None.
Definition demo_kp : mias_key_pair_t := MkKeyPair (Some 65) 5 2048 [172; 1] true.

(** The state: -2 without a channel, -1 with channel 1, 0 when the applet is selected, then
    the number of the file. *)
Definition file_number (path : list Z) : Z := nth 0 path 0 * 256 + nth 1 path 0.
Definition file_content (k : Z) : option (list Z) := demo_content [k / 256; k mod 256].
Definition description (size : Z) : list Z := [98; 8; 131; 2; 0; 0; 129; 2; size / 256; size mod 256].
Definition demo_reply (cmd : list Z) (k : Z) : list Z * Z :=
  if bool_decide (cmd = close_cmd 1) then ([144; 0], -2)
  else if bool_decide (cmd = [0; 112; 0; 0; 1]) then ([1; 144; 0], -1)
  else if bool_decide (cmd = select_cmd 1 MIAS_AID) then ([144; 0], 0)
  else
    match cmd with
    | [1; 164; 8; 4; 2; a; b; _] =>
        match demo_content [a; b] with Some bs => (description (Z.of_nat (length bs)) ++ [144; 0], a * 256 + b) | None => ([106; 130], k) end
    | [1; 176; h; l; n] =>
        match file_content k with Some bs => (take (Z.to_nat n) (drop (Z.to_nat (h * 256 + l)) bs) ++ [144; 0], k) | None => ([105; 134], k) end
    | _ => ([109; 0], k)
    end.
#[global] Instance demo_card : Card Z := {| transmitApdu cmd := fun k => let '(r, k') := demo_reply cmd k in Ret ((true, Some r), k') |}.
#[global] Instance demo_library : KeyLibrary Z := {|
  mbedtls_x509_crt_parse bs := mret (if decide (bs = demo_certificate ++ [0]) then 0 else -1);
  mbedtls_pk_parse_key _ := mret (-1);
  mbedtls_pk_setup_rsa_alt key := mret (if bool_decide (kp_kid (key_kp key) = Some 65) then 0 else -1) |}.
Definition demo_sel (ch : Z) (q : option (list Z)) (k : Z) : Prop :=
  ch = 1 /\ match q with Some path => length path = 2%nat /\ k = file_number path /\ [k / 256; k mod 256] = path | None => True end.
Definition demo_start : se_sys Z :=
  SeSys (MkSE (replicate 262 0) 0 (replicate 258 0) 0) (MkApplet false [] false false 0) (MkApplet false [] false false 0) (MkMias [] 0 0 0 0 0) (-2).

Lemma demo_paths path bs : demo_content path = Some bs ->
  path = [0; 2] /\ bs = concat demo_records \/ path = [1; 1] /\ bs = Z.of_nat (length demo_directory) :: concat demo_directory \/
  path = [172; 1] /\ bs = demo_certificate.
Proof. rw /demo_content. repeat case_bool_decide; intros [= <-]; auto. Qed.

Lemma demo_files : holds_files 1 0 demo_content (demo_sel 1).
Proof.
  split.
  - intros path bs [[-> ->]|[[-> ->]|[-> ->]]]%demo_paths; (split; [done|cbn; lia]).
  - intros q k path bs le _ Hc. exists 0%nat, (description (Z.of_nat (length bs))), (file_number path). split_and!; [done|..].
    + exists [131; 2; 0; 0], (Z.of_nat (length bs) / 256), (Z.of_nat (length bs) mod 256), [].
      assert (0 <= Z.of_nat (length bs) < 2 ^ 16) by (by apply demo_paths in Hc as [[_ ->]|[[_ ->]|[_ ->]]]).
      split_and!; [done| |constructor|cbn; lia|..].
      * by apply (objects_cons 131 [0; 0] []); [|constructor].
      * split; [apply Z.div_pos; lia|]. change (2 ^ 8) with 256. apply Z.div_lt_upper_bound; lia.
      * by apply Z.mod_pos_bound.
      * rw Z.mul_comm. by apply Z.div_mod.
    + by apply demo_paths in Hc as [[-> ->]|[[-> ->]|[-> ->]]].
    + apply exchange_done.
      * by apply demo_paths in Hc as [[-> ->]|[[-> ->]|[-> ->]]].
      * apply Demo.final_ok.
      * rw length_app. cbn. lia.
  - intros k path bs i len (_ & _ & -> & Hpath) Hc Hlen Hi. exists 0%nat, (file_number path). split_and!; [done..| |].
    + split; [done|]. split_and!; [by rw -Hpath|done..].
    + apply exchange_done; [|apply Demo.final_ok|rw length_app length_take; cbn; lia].
      cbn [transmitApdu demo_card]. rw /demo_reply !bool_decide_false; [|done..].
      rw /file_content Hpath Hc. rw Z.mul_comm -Z.div_mod // !Nat2Z.id //.
Qed.
Lemma demo_on_card k : -2 = k -> containers_on_card 600 demo_records demo_directory demo_content demo_sel (eq (-2)) k.
Proof.
  intros <-. exists 0%nat, 0%nat, 0%nat, 1, [], (-1), 0. split_and!; [lia..| | |done|apply demo_files|].
  - by apply exchange_done; [|cbn|cbn; lia].
  - by apply exchange_done; [vm_compute|cbn; lia|cbn; lia].
  - intros k _. exists 0%nat, (-2). split_and!; [lia| |done]. by apply exchange_done; [|cbn; lia..].
Qed.
Lemma demo_container_files : container_files demo_content demo_records demo_directory.
Proof.
  split; [|cbn; lia|by repeat constructor|cbn; lia|done|done].
  repeat (apply Forall_cons; split; [do 11 eexists; (split; [done|]); split; [repeat (apply Forall_cons; split; [by split|]); constructor|by auto]|]). constructor.
Qed.

Theorem container_credentials_witness : exists s0 rc s1 s2, mbedtls_se_init true demo_start = Ret (0, s0) /\
    mbedtls_x509_crt_parse_se 600 0 (container_path [0] [0; 0]) (bytes "0000") s0 = Ret (rc, s1) /\
    (exists k k' : Z, mbedtls_x509_crt_parse (demo_certificate ++ [0]) k = Ret (rc, k')) /\
    mbedtls_pk_parse_se 600 0 (container_path [0] [0; 0]) (bytes "0000") s1 =
      on_card (mbedtls_pk_setup_rsa_alt (MkMiasKey (bytes "0000") demo_kp)) s2 /\
    at_rest demo_records demo_directory (eq (-2)) s2.
Proof.
  apply (container_credentials 600 demo_records demo_directory demo_content demo_sel (eq (-2))).
  - lia.
  - exact demo_container_files.
  - exact demo_on_card.
  - repeat constructor; lia.
  - cbn; lia.
  - split; reflexivity.
  - reflexivity.
  - reflexivity.
  - reflexivity.
  - reflexivity.
  - exists 48, (replicate 299 48). split; [reflexivity|discriminate].
  - cbn; lia.
  - intros ch q k Hk. do 2 eexists. split; [reflexivity|exact Hk].
  - intros k Hk. do 2 eexists. split; [reflexivity|exact Hk].
Defined.

Theorem container_missing_witness : exists s', at_rest demo_records demo_directory (eq (-2)) s' /\
  mbedtls_pk_parse_se 600 0 (container_path [0; 1] [0]) (bytes "0000")
    (SeSys (iface demo_start) (MkApplet true MF_AID false false 0) (MkApplet true MIAS_AID false false 0) (MkMias [] 0 0 0 0 0) (-2)) =
  Ret (MBEDTLS_ERR_SE_BAD_KEY_NAME_ERROR, s').
Proof.
  apply (container_missing 600 demo_records demo_directory demo_content demo_sel (eq (-2))).
  - lia.
  - exact demo_container_files.
  - exact demo_on_card.
  - repeat constructor; lia.
  - cbn; lia.
  - split_and!; [done|by left|done].
  - reflexivity.
  - do 2 eexists. split; reflexivity.
Defined.

(** Both functions succeed on this card; a name of two bytes less than the longest prefix
    is read beyond its end. *)
Definition demo_credentials : outcome (Z * Z * se_sys Z) :=
  (rc ← mbedtls_x509_crt_parse_se 600 0 (container_path [0] [0; 0]) (bytes "0000");
   rc' ← mbedtls_pk_parse_se 600 0 (container_path [0] [0; 0]) (bytes "0000");
   mret (rc, rc'))
    (SeSys (iface demo_start) (MkApplet true MF_AID false false 0) (MkApplet true MIAS_AID false false 0) (MkMias [] 0 0 0 0 0) (-2)).
Example demo_container_accepted : match demo_credentials with Ret (rc, s) => rc = (0, 0) /\ _keypairs (mias_data s) = [demo_kp] | Exn _ => False end.
Proof. vm_compute. by split. Qed.
Example short_name_read : key_name_of (container_path [0] []) = Exn (Fault OobRead).
Proof. reflexivity. Qed.
End CardDemo.
