(* ===== verification/SeTls.v ===== *)
(** * TLS with the keys in the secure element

    The TLS layer of [Tls] on a library whose calls [mbedtls_x509_crt_parse_se] and
    [mbedtls_pk_parse_se] are the functions of [MbedtlsSe] and whose handshake lets the
    secure element sign: the state is the one of the secure element, with the card and the
    library side by side. *)
From Stdlib Require Import Ascii String.
From S2P Require Import Prelude Text Types Timer Client SecureElement Mias MbedtlsSe SeFrame MiasKeys Tls.

Definition SE_CERTIFICATE_PIN : list Z := bytes "0000".
Definition SE_PRIVATE_KEY_PIN : list Z := bytes "0000".

(** ** The library *)

(** The handshake runs until it ends with a code or needs a signature of a hash with a key
    whose operations were set up. *)
Inductive handshake_step :=
  | HsReturn (code : Z)
  | HsSign (key : mias_key_t) (md_alg : mbedtls_md_type_t) (hash : list Z).

(** mbedTLS without the functions of the secure element: its calls, the parsers of the
    certificate and the key of the client, the handshake, which continues when it is given
    the result of a signature, and the data streams. *)
Class SslLibrary (L : Type) := {
  lib_time : M L timeval;
  lib_memory : L -> memory;
  lib_call : mbed_call -> M L Z;
  lib_crt_parse : list Z -> M L Z;
  lib_pk_parse : option (list Z) -> M L Z;
  lib_pk_setup : mias_key_t -> M L Z;
  lib_handshake : M L handshake_step;
  lib_signed : Z * list Z -> M L unit;
  lib_read : Z -> M L ssl_result;
  lib_write : list Z -> Z -> M L Z }.

Section instances.
Context {C L : Type} `{!Card C} `{!SslLibrary L} (fuel : nat).

Definition on_fst {A} (m : M C A) : M (C * L) A := fun k =>
  match m k.1 with Ret (a, c) => Ret (a, (c, k.2)) | Exn e => Exn e end.
Definition on_snd {A} (m : M L A) : M (C * L) A := fun k =>
  match m k.2 with Ret (a, l) => Ret (a, (k.1, l)) | Exn e => Exn e end.
#[local] Instance both_card : Card (C * L) := {| transmitApdu cmd := on_fst (transmitApdu cmd) |}.
#[local] Instance both_library : KeyLibrary (C * L) := {|
  MbedtlsSe.mbedtls_x509_crt_parse bs := on_snd (lib_crt_parse bs);
  mbedtls_pk_parse_key o := on_snd (lib_pk_parse o);
  mbedtls_pk_setup_rsa_alt key := on_snd (lib_pk_setup key) |}.

Definition on_lib {A} (m : M L A) : M (se_sys (C * L)) A := on_card (on_snd m).
(** The memory at a location. *)
Definition location (p : ptr) : M (se_sys (C * L)) (list Z) :=
  mem ← gets (fun s => lib_memory (card s).2); lift_option (Fault OobRead) (deref mem [] p).

(** The handshake with the signatures of the secure element. *)
Fixpoint se_handshake (n : nat) : M (se_sys (C * L)) Z :=
  match n with
  | O => raise OutOfFuel
  | S n' =>
      step ← on_lib lib_handshake;
      match step with
      | HsReturn code => mret code
      | HsSign key md_alg hash =>
          r ← mbedtls_mias_pk_rsa_alt_sign fuel key md_alg hash;
          _ ← on_lib (lib_signed r);
          se_handshake n'
      end
  end.

(** The calls of the TLS layer; the variable [size] of the search for an object holds 0. *)
Definition se_call (c : mbed_call) : M (se_sys (C * L)) Z :=
  match c with
  | Tls.mbedtls_x509_crt_parse_se p => path ← location p; MbedtlsSe.mbedtls_x509_crt_parse_se fuel 0 path SE_CERTIFICATE_PIN
  | Tls.mbedtls_pk_parse_se p => path ← location p; MbedtlsSe.mbedtls_pk_parse_se fuel 0 path SE_PRIVATE_KEY_PIN
  | mbedtls_ssl_handshake => se_handshake fuel
  | c => on_lib (lib_call c)
  end.
Definition se_mbedtls : Mbedtls (se_sys (C * L)) := {|
  mb_time := on_lib lib_time;
  mb_memory s := lib_memory (card s).2;
  mb_call := se_call;
  mbedtls_ssl_read n := on_lib (lib_read n);
  mbedtls_ssl_write bs n := on_lib (lib_write bs n) |}.
End instances.

(** ** Laws of the library *)

(** The calls that reset the certificate or the key of the client. *)
Definition resets (c : mbed_call) : bool :=
  match c with
  | mbedtls_x509_crt_init_clicert | mbedtls_pk_init | mbedtls_x509_crt_free_clicert | mbedtls_pk_free => true
  | _ => false
  end.

(** The certificate and the key that the library presents, and the documented behaviour of
    its functions: nothing changes the memory of the application; a parsed certificate is
    the one presented, a key that was set up is the one used; nothing else changes them
    but the calls that reset them; the handshake signs with the key. *)
Class SslLaws (L : Type) `{!SslLibrary L} := {
  own_cert : L -> option (list Z);
  own_key : L -> option mias_key_t;
  sl_call c m : keeps (fun l => lib_memory l = m) (lib_call c);
  sl_call_own c o k : resets c = false -> keeps (fun l => own_cert l = o /\ own_key l = k) (lib_call c);
  sl_crt bs l rc l' : lib_crt_parse bs l = Ret (rc, l') ->
    lib_memory l' = lib_memory l /\ own_key l' = own_key l /\ (rc = 0 -> own_cert l' = Some bs);
  sl_crt_returns bs l : exists rc l', lib_crt_parse bs l = Ret (rc, l');
  sl_pk o l rc l' : lib_pk_parse o l = Ret (rc, l') -> lib_memory l' = lib_memory l /\ own_cert l' = own_cert l;
  sl_pk_returns o l : exists rc l', lib_pk_parse o l = Ret (rc, l');
  sl_setup key l rc l' : lib_pk_setup key l = Ret (rc, l') ->
    lib_memory l' = lib_memory l /\ own_cert l' = own_cert l /\ (rc = 0 -> own_key l' = Some key);
  sl_handshake l step l' : lib_handshake l = Ret (step, l') ->
    lib_memory l' = lib_memory l /\ own_cert l' = own_cert l /\ own_key l' = own_key l /\
    (forall key md_alg hash, step = HsSign key md_alg hash -> own_key l = Some key);
  sl_signed r l u l' : lib_signed r l = Ret (u, l') ->
    lib_memory l' = lib_memory l /\ own_cert l' = own_cert l /\ own_key l' = own_key l }.

(** ** The card beside the library *)

#[local] Existing Instances both_card both_library.

Section beside.
Context {C L : Type} `{!Card C} `{!SslLibrary L} (fuel : nat).

Lemma exchange_beside n c cmd r c' (l : L) : exchange n c cmd r c' -> exchange n (c, l) cmd r (c', l).
Proof.
  induction 1 as [c cmd r c' Hrun Hfinal Hlen|n c cmd x c1 r c' Hrun _ IH|n c cla cmd x c1 r c' Hrun _ IH].
  - apply exchange_done; [|done..]. by rw /transmitApdu /= /on_fst /= Hrun.
  - eapply exchange_length; [|exact IH]. by rw /transmitApdu /= /on_fst /= Hrun.
  - eapply exchange_more; [|exact IH]. by rw /transmitApdu /= /on_fst /= Hrun.
Qed.

Lemma files_beside ch d content sel : holds_files ch d content sel ->
  holds_files (K := C * L) ch d content (fun q k => sel q k.1).
Proof.
  intros [Hsize Hselect Hread]. split; [done|..].
  - intros q [c l] path bs le Hq Hc. destruct (Hselect q c path bs le Hq Hc) as (n & fcp & c' & ? & ? & ? & ?).
    exists n, fcp, (c', l). split_and!; [done..|by apply exchange_beside].
  - intros [c l] path bs i len Hq Hc Hlen Hi. destruct (Hread c path bs i len Hq Hc Hlen Hi) as (n & c' & ? & ? & ?).
    exists n, (c', l). split_and!; [done..|by apply exchange_beside].
Qed.

Lemma containers_beside records directory content sel closed (c : C) (l : L) :
  containers_on_card fuel records directory content sel closed c ->
  containers_on_card fuel records directory content (fun ch q (k : C * L) => sel ch q k.1) (fun k => closed k.1) (c, l).
Proof.
  intros (n1 & n2 & d & ch & fci & c1 & c2 & ? & ? & ? & Hex1 & Hex2 & ? & Hfiles & Hclose).
  exists n1, n2, d, ch, fci, (c1, l), (c2, l). split_and!; [done..|by apply exchange_beside|by apply exchange_beside|done|by apply files_beside|].
  intros [c3 l3] Hq. destruct (Hclose c3 Hq) as (n & c' & ? & ? & ?). exists n, (c', l3). split_and!; [done|by apply exchange_beside|done].
Qed.

(** The exchanges do not reach the library. *)
Lemma library_unchanged : unchanged_by_card (K := C * L) snd.
Proof.
  intros l cmd [c l'] Heq. rw /wp /transmitApdu /= /on_fst /=. by destruct (transmitApdu cmd c) as [[a c']|].
Qed.

(** *** The calls of the library *)

(** The calls that the secure element takes part in. *)
Definition with_card (c : mbed_call) : bool :=
  match c with Tls.mbedtls_x509_crt_parse_se _ | Tls.mbedtls_pk_parse_se _ | mbedtls_ssl_handshake => true | _ => false end.
Definition with_library (e : se_sys (C * L)) (l : L) : se_sys (C * L) := SeSys (iface e) (mf e) (mias e) (mias_data e) ((card e).1, l).

Lemma on_lib_inv {A} (m : M L A) (e e' : se_sys (C * L)) a : on_lib m e = Ret (a, e') ->
  exists l, m (card e).2 = Ret (a, l) /\ e' = with_library e l.
Proof. rw /on_lib /on_card /on_snd. destruct (m (card e).2) as [[a' l]|]; [|done]. intros [= -> <-]. by exists l. Qed.
Lemma keeps_on_lib {A} (P : L -> Prop) (m : M L A) : keeps P m -> keeps (fun e : se_sys (C * L) => P (card e).2) (on_lib m).
Proof.
  intros Hm e He. specialize (Hm _ He). rw /wp /on_lib /on_card /on_snd. rw /wp in Hm. by destruct (m (card e).2) as [[a l]|].
Qed.
Lemma mbed_params {E} `{!Mbedtls E} c (w w' : tls E) r : mbed c w = Ret (r, w') -> tlsConnectParams w' = tlsConnectParams w.
Proof. intros Hrun. by apply on_env_inv in Hrun as (e & _ & ->). Qed.
Lemma mbed_all_params {E} `{!Mbedtls E} cs : forall (w w' : tls E) u, mbed_all cs w = Ret (u, w') -> tlsConnectParams w' = tlsConnectParams w.
Proof.
  induction cs as [|c cs IH]; cbn [mbed_all]; intros w w' u Hrun; [by injection Hrun as _ <-|].
  apply bind_inv in Hrun as (r & w1 & H1 & Hrun). rw (IH _ _ _ Hrun). by apply mbed_params in H1.
Qed.
(** A checked call that was passed returned 0. *)
Lemma mbed_check_inv {E} `{!Mbedtls E} c err k (w w' : tls E) : err <> SUCCESS -> mbed_check c err k w = Ret (SUCCESS, w') ->
  exists w1, mbed c w = Ret (0, w1) /\ k w1 = Ret (SUCCESS, w').
Proof.
  intros Herr Hrun. apply bind_inv in Hrun as (r & w1 & H1 & Hrun). destruct (Z.eqb_spec r 0) as [->|]; [by exists w1|].
  by injection Hrun as -> _.
Qed.
Lemma plain_call c : with_card c = false -> se_call fuel c = on_lib (C := C) (lib_call c).
Proof. by destruct c. Qed.

Context `{!SslLaws L}.
(** The certificate and the key of the client. *)
Definition presents (o : option (list Z)) (k : option mias_key_t) (l : L) : Prop := own_cert l = o /\ own_key l = k.

Lemma own_card o k : CardKeeps (fun k' : C * L => presents o k k'.2).
Proof. intros cmd [c l] Hl. rw /wp /transmitApdu /= /on_fst /=. by destruct (transmitApdu cmd c) as [[a c']|]. Qed.
#[local] Existing Instance own_card.

Lemma own_handshake o k n : keeps (fun e : se_sys (C * L) => presents o k (card e).2) (se_handshake fuel n).
Proof.
  induction n as [|n IH]; cbn [se_handshake]; [apply keeps_raise|].
  apply keeps_bind; [apply keeps_on_lib|].
  - intros l [Ho Hk]. rw /wp. destruct (lib_handshake l) as [[step l']|] eqn:Hrun; [|done].
    apply sl_handshake in Hrun as (_ & Hc & Hk' & _). split; congruence.
  - intros [code|key md_alg hash]; [apply keeps_ret|]. apply keeps_bind; [by apply (skeeps_sign (fun k0 => presents o k k0.2))|]. intros r.
    apply keeps_bind; [|done]. apply keeps_on_lib. intros l [Ho Hk]. rw /wp. destruct (lib_signed r l) as [[u l']|] eqn:Hrun; [|done].
    apply sl_signed in Hrun as (_ & Hc & Hk'). split; congruence.
Qed.
(** The calls after the key was parsed change neither. *)
Definition own_kept (c : mbed_call) : bool :=
  match c with Tls.mbedtls_x509_crt_parse_se _ | Tls.mbedtls_pk_parse_se _ => false | c => negb (resets c) end.
Lemma own_call o k c : own_kept c = true -> keeps (fun e : se_sys (C * L) => presents o k (card e).2) (se_call fuel c).
Proof.
  intros Hc. destruct (with_card c) eqn:Hw; [destruct c; try done; apply own_handshake|].
  rw plain_call //. apply keeps_on_lib, sl_call_own. by destruct c.
Qed.

(** *** The TLS layer on this library *)

#[local] Instance tls_library : Mbedtls (se_sys (C * L)) := se_mbedtls fuel.
#[local] Abbreviation own o k := (fun w : tls (se_sys (C * L)) => presents o k (card (tls_env w)).2) (only parsing).
Lemma own_mbed o k c : own_kept c = true -> keeps (own o k) (mbed c).
Proof.
  intros Hc w Hw. pose proof (own_call o k c Hc _ Hw) as H. rw /wp /mbed /on_env. rw /wp in H.
  change (mb_call c (tls_env w)) with (se_call fuel c (tls_env w)). by destruct (se_call fuel c (tls_env w)) as [[r e]|].
Qed.
Hint Extern 1 (keeps _ (mbed _)) => apply own_mbed; reflexivity : iot.
Lemma own_check o k c err m : own_kept c = true -> keeps (own o k) m -> keeps (own o k) (mbed_check c err m).
Proof. intros Hc Hm. rw /mbed_check. apply keeps_bind; [by apply own_mbed|]. intros r. destruct (negb _); [apply keeps_ret|done]. Qed.
Lemma own_all o k cs : forallb own_kept cs = true -> keeps (own o k) (mbed_all cs).
Proof.
  induction cs as [|c cs IH]; cbn [mbed_all forallb]; [intros _; apply keeps_ret|]. intros [Hc Hcs]%andb_true_iff.
  apply keeps_bind; [by apply own_mbed|]. intros _. by apply IH.
Qed.
Lemma own_setup o k : keeps (own o k) (tls_setup fuel).
Proof.
  assert (Hloop : forall n, keeps (own o k) (handshake_loop n)) by (induction n as [|n IH]; cbn [handshake_loop]; keeps_auto).
  assert (Hget : keeps (own o k) get) by by intros w Hw.
  assert (Hflags : forall f, keeps (own o k) (modify (fun w => Tls (tlsConnectParams w) f (tls_env w)))) by (by intros f; apply keeps_modify).
  assert (Hverify : keeps (own o k) tls_verify_peer) by (rw /tls_verify_peer /tls_peer_info; keeps_auto).
  rw /tls_setup. apply keeps_get. intros w _. 
  do 2 (apply own_check; [done|]). apply keeps_bind; [by apply own_all|]. intros _. apply own_check; [done|].
  apply keeps_bind; [by apply own_mbed|]. intros r. do 2 (apply own_check; [done|]).
  apply keeps_bind; [by apply own_mbed|]. intros r'. apply keeps_bind; [apply Hloop|]. intros [|]; [exact Hverify|apply keeps_ret].
Qed.

Section credentials.
Context (records directory : list (list Z)) (content : list Z -> option (list Z)) (sel : Z -> option (list Z) -> C -> Prop) (closed : C -> Prop).
Hypotheses (Hfuel : (255 < fuel)%nat) (Hcf : container_files content records directory)
  (Hcard : forall c, closed c -> containers_on_card fuel records directory content sel closed c).

(** The secure element is at rest, and the memory of the application is [m]. *)
Definition at_start (m : memory) (e : se_sys (C * L)) : Prop :=
  at_rest records directory (fun k => closed k.1) e /\ lib_memory (card e).2 = m.

Lemma start_mbed m c : with_card c = false -> keeps (fun w => at_start m (tls_env w)) (mbed c).
Proof.
  intros Hc w [Hrest Hm]. rw /wp /mbed /on_env. change (mb_call c (tls_env w)) with (se_call fuel c (tls_env w)). rw plain_call //.
  destruct (on_lib (lib_call c) (tls_env w)) as [[r e]|] eqn:Hrun; [|done].
  apply on_lib_inv in Hrun as (l & Hl & ->). split; [exact Hrest|].
  exact (wp_run any_exn _ _ _ _ _ Hl (sl_call c m _ Hm)).
Qed.
Lemma start_all m cs : forallb (fun c => negb (with_card c)) cs = true -> keeps (fun w => at_start m (tls_env w)) (mbed_all cs).
Proof.
  induction cs as [|c cs IH]; cbn [mbed_all forallb]; [intros _; apply keeps_ret|]. intros [Hc%negb_true_iff Hcs]%andb_true_iff.
  apply keeps_bind; [by apply start_mbed|]. intros _. by apply IH.
Qed.

Lemma cards_beside (k : C * L) : closed k.1 ->
  containers_on_card fuel records directory content (fun ch q (k : C * L) => sel ch q k.1) (fun k => closed k.1) k.
Proof using Hcard. destruct k as [c l]. intros Hc. by apply containers_beside, Hcard. Qed.

Section names.
Context (ds rest : list Z) (kp : mias_key_pair_t).
Hypotheses (Hds : Forall (fun d => 0 <= d < 10) ds) (Hlen : (14 <= length (container_path ds rest))%nat)
  (Hkp : card_keys records directory (u8 (digits_value ds)) = Some kp).

(** The certificate that was accepted is the one presented. *)
Lemma certificate_call m bs p (e e' : se_sys (C * L)) : at_start m e -> deref m [] p = Some (container_path ds rest) ->
  kp_has_cert kp = true -> content (kp_pub_file_id kp) = Some bs -> plain bs -> (length bs < fuel)%nat ->
  se_call fuel (Tls.mbedtls_x509_crt_parse_se p) e = Ret (0, e') -> at_start m e' /\ own_cert (card e').2 = Some (bs ++ [0]).
Proof using Hcard Hcf Hds Hfuel Hkp Hlen.
  intros [Hrest <-] Hp Hcert Hc Hplain Hn Hrun. cbn [se_call] in Hrun.
  destruct (certificate_run fuel records directory content (fun ch q (k : C * L) => sel ch q k.1) (fun k => closed k.1) Hfuel Hcf cards_beside
    ds rest Hds Hlen snd 0 SE_CERTIFICATE_PIN kp bs e library_unchanged Hrest Hkp Hcert Hc Hplain Hn)
    as (rc & e1 & Hrun1 & (k & k' & Hparse & Hk & Hk') & Hrest').
  { intros ch q [c l] Hq. destruct (sl_crt_returns (bs ++ [0]) l) as (rc & l' & Hl). exists rc, (c, l').
    by rw /mbedtls_x509_crt_parse /= /on_snd /= Hl. }
  rw /location /mbind /M_bind /gets /= Hp /= Hrun1 in Hrun. injection Hrun as -> ->.
  rw /mbedtls_x509_crt_parse /= /on_snd in Hparse. destruct (lib_crt_parse (bs ++ [0]) k.2) as [[rc l]|] eqn:Hl; [|done].
  injection Hparse as -> <-. cbn [snd] in Hk'. apply sl_crt in Hl as (Hm & _ & Hown). split; [|by rw Hk'; apply Hown].
  split; [done|]. by rw Hk' Hm Hk.
Qed.

(** The key that was accepted is the one used; the certificate stays. *)
Lemma key_call m o p (e e' : se_sys (C * L)) : at_start m e -> own_cert (card e).2 = o -> deref m [] p = Some (container_path ds rest) ->
  se_call fuel (Tls.mbedtls_pk_parse_se p) e = Ret (0, e') -> presents o (Some (MkMiasKey SE_PRIVATE_KEY_PIN kp)) (card e').2.
Proof using Hcard Hcf Hds Hfuel Hkp Hlen.
  intros [Hrest <-] <- Hp Hrun. cbn [se_call] in Hrun.
  destruct (sl_pk_returns None (card e).2) as (rc0 & l0 & Hnull).
  destruct (private_key_run fuel records directory content (fun ch q (k : C * L) => sel ch q k.1) (fun k => closed k.1) Hfuel Hcf cards_beside
    ds rest Hds Hlen snd 0 SE_PRIVATE_KEY_PIN rc0 ((card e).1, l0) e library_unchanged Hrest) as (e1 & _ & He1 & Hrun1).
  { by rw /mbedtls_pk_parse_key /= /on_snd Hnull. }
  { apply Hrest. }
  rw /location /mbind /M_bind /gets /= Hp /= Hrun1 Hkp /on_card /mbedtls_pk_setup_rsa_alt /= /on_snd in Hrun.
  destruct (lib_pk_setup (MkMiasKey SE_PRIVATE_KEY_PIN kp) (card e1).2) as [[rc l]|] eqn:Hl; [|done].
  injection Hrun as -> <-. apply sl_pk in Hnull as [_ Hc0]. apply sl_setup in Hl as (_ & Hc & Hown). cbn.
  split; [by rw Hc He1 /= Hc0|by apply Hown].
Qed.
End names.

(** C35: a connection over TLS, when the configuration names the certificate and the key of
    the device by the numbers of containers of the secure element, in names of which at
    least 14 bytes can be read, and the certificate is not compressed. If it is established, the
    certificate that was presented consists of the bytes of the certificate file that the
    directory of the card tells for the first container, and the key that was used is the one
    that the table of the card describes for the second, with the PIN of the
    configuration: to the end of the handshake, whatever signatures it asked the secure
    element for, nothing has put others in their place. *)
Theorem tls_credentials ds rest kp bs ds' rest' kp' p (w w' : tls (se_sys (C * L))) :
  let params := default (tlsConnectParams w) p in let memory := lib_memory (card (tls_env w)).2 in
  Forall (fun d => 0 <= d < 10) ds -> (14 <= length (container_path ds rest))%nat -> card_keys records directory (u8 (digits_value ds)) = Some kp ->
  Forall (fun d => 0 <= d < 10) ds' -> (14 <= length (container_path ds' rest'))%nat -> card_keys records directory (u8 (digits_value ds')) = Some kp' ->
  deref memory [] (tp_pDeviceCertLocation params) = Some (container_path ds rest) ->
  deref memory [] (tp_pDevicePrivateKeyLocation params) = Some (container_path ds' rest') ->
  kp_has_cert kp = true -> content (kp_pub_file_id kp) = Some bs -> plain bs -> (length bs < fuel)%nat ->
  at_rest records directory (fun k => closed k.1) (tls_env w) -> iot_tls_connect fuel p w = Ret (SUCCESS, w') ->
  presents (Some (bs ++ [0])) (Some (MkMiasKey SE_PRIVATE_KEY_PIN kp')) (card (tls_env w')).2.
Proof using Hcard Hcf Hfuel.
  intros params memory Hds Hlen Hkp Hds' Hlen' Hkp' Hp Hp' Hcert Hc Hplain Hn Hrest Hrun.
  rw /iot_tls_connect in Hrun. apply bind_inv in Hrun as (u & w1 & H1 & Hrun).
  assert (Hw1 : tls_env w1 = tls_env w /\ tlsConnectParams w1 = params) by (subst params; destruct p; injection H1 as _ <-; done).
  destruct Hw1 as [He1 Hp1]. clear H1. assert (Hs : at_start memory (tls_env w1)) by by rw He1. clear Hrest He1.
  apply bind_inv in Hrun as (u2 & w2 & H2 & Hrun). pose proof (mbed_all_params _ _ _ _ H2) as Hp2.
  assert (Hs2 : at_start memory (tls_env w2)) by (refine (wp_run any_exn _ _ _ _ _ H2 (start_all _ _ _ _ Hs)); reflexivity). clear H2.
  apply mbed_check_inv in Hrun as (w3 & H3 & Hrun); [|done]. pose proof (mbed_params _ _ _ _ H3) as Hp3.
  assert (Hs3 : at_start memory (tls_env w3)) by (refine (wp_run any_exn _ _ _ _ _ H3 (start_mbed _ _ _ _ Hs2)); reflexivity). clear H3.
  apply bind_inv in Hrun as (w0 & w4 & Hget & Hrun). injection Hget as <- <-. cbv zeta in Hrun.
  apply bind_inv in Hrun as (ca & w4 & Hca & Hrun). apply lift_option_inv in Hca as [_ ->].
  apply bind_inv in Hrun as (r5 & w5 & H5 & Hrun).
  assert (Hs5 : at_start memory (tls_env w5)) by (refine (wp_run any_exn _ _ _ _ _ H5 (start_mbed _ _ _ _ Hs3)); reflexivity). clear H5.
  destruct (r5 <? 0); [discriminate Hrun|]. rw Hp3 Hp2 Hp1 in Hrun.
  apply mbed_check_inv in Hrun as (w6 & H6 & Hrun); [|done]. apply on_env_inv in H6 as (e6 & H6 & ->).
  destruct (certificate_call ds rest kp Hds Hlen Hkp memory bs _ _ _ Hs5 Hp Hcert Hc Hplain Hn H6) as [Hs6 Ho6].
  apply mbed_check_inv in Hrun as (w7 & H7 & Hrun); [|done]. apply on_env_inv in H7 as (e7 & H7 & ->).
  pose proof (key_call ds' rest' kp' Hds' Hlen' Hkp' memory _ _ _ _ Hs6 Ho6 Hp' H7) as Hs7.
  apply bind_inv in Hrun as (r8 & w8 & H8 & Hrun).
  assert (Hs8 : presents (Some (bs ++ [0])) (Some (MkMiasKey SE_PRIVATE_KEY_PIN kp')) (card (tls_env w8)).2)
    by (eapply (wp_run any_exn _ (fun _ w => presents _ _ (card (tls_env w)).2) _ _ _ H8), own_mbed; [reflexivity|exact Hs7]).
  destruct (negb (r8 =? 0)).
  { exfalso. injection Hrun as Hrc _. move: Hrc. rw /net_connect_error. by repeat case_match. }
  exact (wp_run any_exn _ _ _ _ _ Hrun (own_setup _ _ _ Hs8)).
Qed.
End credentials.
End beside.

(** ** A connection with the card of [MiasKeys] *)

Module SeTlsDemo.
Import CardDemo.

(** A library that presents the certificate that was parsed and uses the key that was set
    up; all its other calls succeed. *)
Record demo_ssl := DemoSsl { demo_cert : option (list Z); demo_key : option mias_key_t }.
Definition demo_ssl_call (c : mbed_call) : M demo_ssl Z :=
  _ ← modify (fun l => DemoSsl (match c with mbedtls_x509_crt_init_clicert | mbedtls_x509_crt_free_clicert => None | _ => demo_cert l end)
                         (match c with mbedtls_pk_init | mbedtls_pk_free => None | _ => demo_key l end));
  mret 0.
Definition demo_memory : memory := fun a => if a =? 1 then Some (container_path [0] [0; 0]) else Some (bytes "ca" ++ [0]).
#[global] Instance demo_ssl_library : SslLibrary demo_ssl := {|
  lib_time := mret (Timeval 5 0);
  lib_memory _ := demo_memory;
  lib_call := demo_ssl_call;
  lib_crt_parse bs := _ ← modify (fun l => DemoSsl (Some bs) (demo_key l)); mret 0;
  lib_pk_parse _ := mret (-1);
  lib_pk_setup key := _ ← modify (fun l => DemoSsl (demo_cert l) (Some key)); mret 0;
  lib_handshake := mret (HsReturn 0);
  lib_signed _ := mret tt;
  lib_read _ := mret (SslCode MBEDTLS_ERR_SSL_TIMEOUT);
  lib_write bs n := mret n |}.
#[global] Program Instance demo_ssl_laws : SslLaws demo_ssl := {| own_cert := demo_cert; own_key := demo_key |}.
Next Obligation. by intros c m l Hl. Qed.
Next Obligation. intros c o k Hc l [Ho Hk]. by destruct c. Qed.
Next Obligation. by intros bs l rc l' [= <- <-]. Qed.
Next Obligation. intros bs l. by do 2 eexists. Qed.
Next Obligation. by intros o l rc l' [= <- <-]. Qed.
Next Obligation. intros o l. by do 2 eexists. Qed.
Next Obligation. by intros key l rc l' [= <- <-]. Qed.
Next Obligation. by intros l step l' [= <- <-]. Qed.
Next Obligation. by intros r l u l' [= _ <-]. Qed.

Definition demo_tls : tls (se_sys (Z * demo_ssl)) :=
  Tls (MkTLSParams (App 2) (App 1) (App 1) (App 3) 8883 5000 true) 0
    (SeSys (iface demo_start) (MkApplet true MF_AID false false 0) (MkApplet true MIAS_AID false false 0) (MkMias [] 0 0 0 0 0)
       (-2, DemoSsl None None)).

Theorem tls_credentials_witness : exists w', iot_tls_connect (Mbedtls0 := se_mbedtls 600) 600 None demo_tls = Ret (SUCCESS, w') /\
  presents (Some (demo_certificate ++ [0])) (Some (MkMiasKey (bytes "0000") demo_kp)) (card (tls_env w')).2.
Proof.
  assert (Hrun : exists w', iot_tls_connect (Mbedtls0 := se_mbedtls 600) 600 None demo_tls = Ret (SUCCESS, w')) by (eexists; vm_compute; reflexivity).
  destruct Hrun as [w' Hrun]. exists w'. split; [exact Hrun|].
  apply (tls_credentials 600 demo_records demo_directory demo_content demo_sel (eq (-2)))
    with (ds := [0]) (rest := [0; 0]) (kp := demo_kp) (ds' := [0]) (rest' := [0; 0]) (p := None) (w := demo_tls).
  - lia.
  - exact demo_container_files.
  - exact demo_on_card.
  - repeat constructor; lia.
  - cbn; lia.
  - reflexivity.
  - repeat constructor; lia.
  - cbn; lia.
  - reflexivity.
  - reflexivity.
  - reflexivity.
  - reflexivity.
  - reflexivity.
  - exists 48, (replicate 299 48). split; [reflexivity|discriminate].
  - cbn; lia.
  - split; [|split]; [repeat split; reflexivity|left; reflexivity|reflexivity].
  - exact Hrun.
Defined.
End SeTlsDemo.
