(* ===== verification/Modem.v ===== *)
(** * The modem

    [external_libs/gemalto/platform/concept_board]: the connection to the secure element
    of the SIM through a modem on a serial line. A command for the secure element goes
    out as the text of an [AT+CSIM] command ([ATInterface.cpp]) over the serial line
    ([LSerial.cpp]); [CinterionModem.cpp] gives this to the interface of the secure
    element. The calls of the operating system on the serial device are an interface. *)
From Stdlib Require Import Ascii String.
From S2P Require Import Prelude Text SecureElement.

(** ** The serial line *)

(** The settings of the device that are set. *)
Record termios := MkTermios { c_iflag : Z; c_oflag : Z; c_lflag : Z; c_cflag : Z; c_vmin : Z; c_vtime : Z }.

(** The device: [open], the settings, [read] of at most a number of bytes, [write], none
    for an error, and [close]. *)
Class Uart (K : Type) := {
  uart_open : M K Z;
  uart_getattr : M K termios;
  uart_setattr : termios -> M K unit;
  uart_setfl : Z -> M K unit;
  uart_read : Z -> M K (option (list Z));
  uart_write : list Z -> M K (option Z);
  uart_close : M K unit }.

(** The line with its descriptor. *)
Record LSerial (K : Type) := MkSerial { m_uart : Z; port : K }.
Arguments MkSerial {K} m_uart port.
Arguments m_uart {K} l.
Arguments port {K} l.

(** [B115200 | CS8 | CREAD]. *)
Definition serial_cflag : Z := Z.lor (Z.lor 4098 48) 128.

Section modem.
Context {K : Type} `{!Uart K} (fuel : nat).

Definition on_port {A} (m : M K A) : M (LSerial K) A := fun s =>
  match m (port s) with Ret (x, k) => Ret (x, MkSerial (m_uart s) k) | Exn e => Exn e end.

Definition LSerial_start : M (LSerial K) bool :=
  fd ← on_port uart_open;
  _ ← modify (fun s => MkSerial fd (port s));
  if 0 <=? fd then
    t ← on_port uart_getattr;
    _ ← on_port (uart_setattr (MkTermios 0 0 0 serial_cflag 0 0));
    _ ← on_port (uart_setfl 0);
    mret true
  else mret false.

Fixpoint send_bytes (n : nat) (data : list Z) : M (LSerial K) bool :=
  match n with
  | O => raise OutOfFuel
  | S n' =>
      match data with
      | [] => mret true
      | _ =>
          w ← on_port (uart_write data);
          match w with None => mret false | Some w => send_bytes n' (drop (Z.to_nat w) data) end
      end
  end.
Definition LSerial_send (data : list Z) : M (LSerial K) bool :=
  fd ← gets m_uart;
  if fd <? 0 then mret false else send_bytes fuel data.

(** The bytes read so far are [bs]. *)
Fixpoint recv_bytes (n : nat) (toRead : Z) (bs : list Z) : M (LSerial K) (bool * list Z) :=
  match n with
  | O => raise OutOfFuel
  | S n' =>
      if Z.of_nat (length bs) <? toRead then
        r ← on_port (uart_read (toRead - Z.of_nat (length bs)));
        match r with None => mret (false, bs) | Some r => recv_bytes n' toRead (bs ++ r) end
      else mret (true, bs)
  end.
Definition LSerial_recv (toRead : Z) : M (LSerial K) (bool * list Z) :=
  fd ← gets m_uart;
  if fd <? 0 then mret (false, []) else recv_bytes fuel toRead [].

Definition LSerial_stop : M (LSerial K) bool :=
  fd ← gets m_uart;
  _ ← (if 0 <=? fd then on_port uart_close else mret tt);
  mret true.

(** ** [ATInterface] *)

Definition ATInterface_open : M (LSerial K) bool := LSerial_start.
Definition ATInterface_close : M (LSerial K) unit := _ ← LSerial_stop; mret tt.

(** Two digits of every byte, in upper case. *)
Definition bytesArray2HexString (bs : list Z) : list Z := hex_text true bs.

(** A line is read into [buf] from [off] on. *)
Fixpoint read_line (n : nat) (buf : heap_array) (off : Z) : M (LSerial K) (bool * heap_array) :=
  match n with
  | O => raise OutOfFuel
  | S n' =>
      '(ok, bs) ← LSerial_recv 1;
      buf ← lift_outcome (write_heap buf off bs);
      if negb ok then mret (false, buf)
      else
        c ← lift_outcome (read_heap buf (Z.to_nat off));
        if c =? 10 then mret (true, buf) else read_line n' buf (off + 1)
  end.
Definition readLine (buf : heap_array) : M (LSerial K) (bool * heap_array) := read_line fuel buf 0.

(** [memcmp(buf, text, strlen(text)) == 0]. *)
Definition heap_is (buf : heap_array) (text : list Z) : outcome bool :=
  bs ← heap_range buf 0 (length text); Ret (bool_decide (bs = text)).

(** Lines are read until [+CSIM: ]; false at [ERROR]. What [readLine] returns is not
    used. *)
Fixpoint await_csim (n : nat) (buf : heap_array) : M (LSerial K) (bool * heap_array) :=
  match n with
  | O => raise OutOfFuel
  | S n' =>
      '(_, buf) ← readLine buf;
      e ← lift_outcome (heap_is buf (bytes "ERROR" ++ [13; 10]));
      if e : bool then mret (false, buf)
      else
        c ← lift_outcome (heap_is buf (bytes "+CSIM: "));
        if c : bool then mret (true, buf) else await_csim n' buf
  end.
Fixpoint await_ok (n : nat) (buf : heap_array) : M (LSerial K) unit :=
  match n with
  | O => raise OutOfFuel
  | S n' =>
      '(_, buf) ← readLine buf;
      c ← lift_outcome (heap_is buf (bytes "OK" ++ [13; 10]));
      if c : bool then mret tt else await_ok n' buf
  end.

(** The value of a [char]. *)
Definition s8 (c : Z) : Z := if c <? 128 then c else c - 256.
(** The number of characters, from [off] to a comma. *)
Fixpoint csim_length (n : nat) (buf : heap_array) (off : nat) (len : Z) : outcome (nat * Z) :=
  match n with
  | O => Exn OutOfFuel
  | S n' =>
      c ← read_heap buf off;
      if c =? 44 then Ret (off, len) else csim_length n' buf (S off) (u16 (u16 (len * 10) + (s8 c - 48)))
  end.
Definition is_hex_char (c : Z) : bool := ((48 <=? c) && (c <=? 57)) || ((65 <=? c) && (c <=? 70)) || ((97 <=? c) && (c <=? 102)).
Fixpoint skip_to_hex (n : nat) (buf : heap_array) (off : nat) : outcome nat :=
  match n with
  | O => Exn OutOfFuel
  | S n' => c ← read_heap buf off; if is_hex_char c then Ret off else skip_to_hex n' buf (S off)
  end.
(** The bytes of [len] digits from [off] on, two at a time. *)
Definition hexString2BytesArray (buf : heap_array) (off : nat) (len : Z) : outcome (list Z) :=
  let pairs := Z.to_nat ((len + 1) / 2) in
  text ← heap_range buf off (2 * pairs);
  Ret (hex_string_2_bytes_array text).

(** The text of the command. *)
Definition csim_command (apdu : list Z) : list Z :=
  bytes "AT+CSIM=" ++ print_int (Z.of_nat (length apdu) * 2) ++ [44; 34] ++ hex_text true apdu ++ [34; 13; 10].

(** The array of 537 bytes; the searches in it end with an access outside of it at the
    latest. *)
Definition sendATCSIM (apdu : list Z) : M (LSerial K) (bool * option (list Z)) :=
  let text := csim_command apdu in
  buf ← lift_outcome (write_heap (replicate 537 None) 0 (text ++ [0]));
  _ ← LSerial_send text;
  buf ← lift_outcome (write_heap buf 0 (replicate 8 0));
  '(ok, buf) ← await_csim fuel buf;
  if negb ok then mret (false, None)
  else
    '(off, len) ← lift_outcome (csim_length 538 buf 7 0);
    off ← lift_outcome (skip_to_hex 538 buf off);
    response ← lift_outcome (hexString2BytesArray buf off len);
    _ ← await_ok fuel buf;
    mret (true, Some response).

(** ** [CinterionModem] *)

Definition CinterionModem : Card (LSerial K) := {| transmitApdu := sendATCSIM |}.
End modem.

(** ** Texts *)

(** A line ends with a line feed and fits into the array. *)
Record text_line (l : list Z) : Prop := TextLine {
  tl_line : exists body, l = body ++ [10] /\ 10 ∉ body; tl_length : (length l <= 537)%nat }.

(** The line with a response. *)
Definition csim_response (upper : bool) (r : list Z) : list Z :=
  bytes "+CSIM: " ++ print_int (Z.of_nat (length r) * 2) ++ [44; 34] ++ hex_text upper r ++ [34; 13; 10].

Lemma read_heap_at bs post i b : bs !! i = Some b -> read_heap ((Some <$> bs) ++ post) i = Ret b.
Proof.
  intros Hb. rw /read_heap lookup_app_l; [|rw length_fmap; by eapply lookup_lt_Some]. by rw list_lookup_fmap Hb.
Qed.

Lemma csim_length_run ds tail post : Forall (fun d => 0 <= d < 10) ds -> forall n pre acc, (length ds < n)%nat -> 0 <= acc ->
  fold_left (fun a d => a * 10 + d) ds acc < 2 ^ 16 ->
  csim_length n ((Some <$> (pre ++ digits_text ds ++ 44 :: tail)) ++ post) (length pre) acc =
    Ret ((length pre + length ds)%nat, fold_left (fun a d => a * 10 + d) ds acc).
Proof.
  induction 1 as [|d ds Hd Hds IH]; intros [|n] pre acc Hn Hacc Hlt; cbn [length] in Hn; try lia; cbn [csim_length].
  - rw (read_heap_at _ _ _ 44); [|by apply list_lookup_middle]. cbn [mbind outcome_bind]. change (44 =? 44) with true. by rw Nat.add_0_r.
  - cbn [digits_text fmap list_fmap app fold_left] in *. rw (read_heap_at _ _ _ (48 + d)); [|by apply list_lookup_middle]. cbn [mbind outcome_bind].
    rw (proj2 (Z.eqb_neq (48 + d) 44)); [|lia]. assert (forall l a, Forall (fun d => 0 <= d < 10) l -> 0 <= a -> a <= fold_left (fun a d => a * 10 + d) l a) as Hmono.
    { clear. induction l as [|x l IH]; intros a Hl Ha; cbn [fold_left]; [lia|]. apply Forall_cons in Hl as [Hx Hl].
      etrans; [|apply IH; [done|lia]]. lia. }
    pose proof (Hmono ds (acc * 10 + d) Hds ltac:(lia)). rw /s8. rw (proj2 (Z.ltb_lt _ _)); [|lia].
    replace (u16 (u16 (acc * 10) + (48 + d - 48))) with (acc * 10 + d); last first.
    { rw (u16_small (acc * 10)); [|width]. rw u16_small; [lia|width]. }
    pose proof (IH n (pre ++ [48 + d]) (acc * 10 + d)) as IH'. rw length_app in IH'. cbn [length] in IH'.
    replace (S (length pre)) with (length pre + 1)%nat by lia. rw -app_assoc in IH'. rw IH'; [|lia..]. f_equal. f_equal. cbn. lia.
Qed.

Lemma hex_char_is_hex upper d : 0 <= d < 16 -> is_hex_char (hex_char upper d) = true /\ hex_char upper d <> 10.
Proof.
  intros Hd. assert (exists n, (n < 16)%nat /\ d = Z.of_nat n) as (n & Hn & ->) by (exists (Z.to_nat d); lia).
  do 16 (destruct n as [|n]; [by destruct upper|]). lia.
Qed.
Lemma hex_halves b : is_u8 b -> 0 <= b / 16 < 16 /\ 0 <= b mod 16 < 16.
Proof.
  rw /is_u8. intros Hb. split; [split; [apply Z.div_pos|apply Z.div_lt_upper_bound]; lia|apply Z.mod_pos_bound; lia].
Qed.
Lemma hex_text_no_feed upper bs : Forall is_u8 bs -> 10 ∉ hex_text upper bs.
Proof.
  induction 1 as [|b bs Hb _ IH]; [apply not_elem_of_nil|]. rw /hex_text bind_cons -/(hex_text upper bs).
  destruct (hex_halves b Hb) as [Hh Hl]. pose proof (hex_char_is_hex upper _ Hh) as [_ ?]. pose proof (hex_char_is_hex upper _ Hl) as [_ ?].
  cbn [app]. rw !not_elem_of_cons. split_and!; [congruence..|done].
Qed.

Lemma skip_to_hex_run upper b bs tail pre post n : is_u8 b -> (3 <= n)%nat ->
  skip_to_hex n ((Some <$> (pre ++ [44; 34] ++ hex_text upper (b :: bs) ++ tail)) ++ post) (length pre) = Ret (length pre + 2)%nat.
Proof.
  intros Hb Hn. destruct n as [|[|[|n]]]; try lia. cbn [skip_to_hex].
  assert (forall i l, (pre ++ l) !! (i + length pre)%nat = l !! i) as Hat by (intros i l; rw lookup_app_r; [f_equal; lia|lia]).
  rw (read_heap_at _ _ (length pre) 44); [|apply (Hat 0%nat)]. cbn [mbind outcome_bind]. change (is_hex_char 44) with false. cbv iota.
  rw (read_heap_at _ _ (S (length pre)) 34); [|apply (Hat 1%nat)]. cbn [mbind outcome_bind]. change (is_hex_char 34) with false. cbv iota.
  rw (read_heap_at _ _ (S (S (length pre))) (hex_char upper (b / 16))); [|apply (Hat 2%nat)].
  cbn [mbind outcome_bind]. destruct (hex_halves b Hb) as [Hh _]. pose proof (hex_char_is_hex upper _ Hh) as [-> _]. f_equal. lia.
Qed.

Lemma hexString_run upper r tail pre post : Forall is_u8 r ->
  hexString2BytesArray ((Some <$> (pre ++ hex_text upper r ++ tail)) ++ post) (length pre) (Z.of_nat (length r) * 2) = Ret r.
Proof.
  intros Hr. rw /hexString2BytesArray. replace (Z.to_nat _) with (length r); last first.
  { rw Z.div_add_l // Z.div_small //. lia. }
  rw -(hex_text_length upper) !fmap_app -!app_assoc. rw -(length_fmap Some pre) heap_range_app. cbn [mbind outcome_bind]. by rw hex_read.
Qed.

(** Decimal numbers of at most 520. *)
Lemma short_number n : (n <= 260)%nat -> (length (print_int (Z.of_nat n * 2)) <= 3)%nat /\ 10 ∉ print_int (Z.of_nat n * 2).
Proof.
  intros Hn. pose proof (proj1 (forallb_forall (fun n => (length (print_int (Z.of_nat n * 2)) <=? 3)%nat && bool_decide (10 ∉ print_int (Z.of_nat n * 2)))
    (seq 0 261)) ltac:(by vm_compute) n) as Hall. apply andb_prop in Hall as [Hl Hf]; [|apply in_seq; lia].
  split; [by apply Nat.leb_le|by apply bool_decide_eq_true in Hf].
Qed.

Lemma csim_response_line upper r : Forall is_u8 r -> (length r <= 258)%nat -> text_line (csim_response upper r).
Proof.
  intros Hr Hl. destruct (short_number (length r) ltac:(lia)) as [Hlen Hfeed]. split.
  - exists (bytes "+CSIM: " ++ print_int (Z.of_nat (length r) * 2) ++ [44; 34] ++ hex_text upper r ++ [34; 13]).
    split; [by rw /csim_response -!app_assoc|]. pose proof (hex_text_no_feed upper r Hr).
    rw !not_elem_of_app. split_and!; try done; apply (bool_decide_unpack _); by vm_compute.
  - rw /csim_response !length_app hex_text_length. cbn [length bytes fmap list_fmap]. change (length (bytes "+CSIM: ")) with 7%nat. lia.
Qed.

(** ** A transmission *)

Section transmission.
Context {K : Type} `{!Uart K} (fuel : nat).

(** The device takes [bs], in at most [m] parts. *)
Inductive takes : nat -> K -> list Z -> K -> Prop :=
  | takes_nil m k : takes m k [] k
  | takes_part m k bs w k1 k' : bs <> [] -> uart_write bs k = Ret (Some w, k1) -> takes m k1 (drop (Z.to_nat w) bs) k' -> takes (S m) k bs k'.
(** The device gives the byte [b], after at most [m] reads without one. *)
Inductive gives_byte : nat -> K -> Z -> K -> Prop :=
  | gives_now m k b k' : uart_read 1 k = Ret (Some [b], k') -> gives_byte m k b k'
  | gives_later m k k1 b k' : uart_read 1 k = Ret (Some [], k1) -> gives_byte m k1 b k' -> gives_byte (S m) k b k'.
Inductive gives (m : nat) : K -> list Z -> K -> Prop :=
  | gives_nil k : gives m k [] k
  | gives_cons k b k1 bs k' : gives_byte m k b k1 -> gives m k1 bs k' -> gives m k (b :: bs) k'.

Lemma gives_app m k a b k' : gives m k (a ++ b) k' -> exists k1, gives m k a k1 /\ gives m k1 b k'.
Proof.
  revert k. induction a as [|x a IH]; intros k Hg; [exists k; by split; [constructor|]|].
  inversion Hg; subst. edestruct IH as (k2 & ? & ?); [done|]. exists k2. by split; [econstructor|].
Qed.

Lemma send_run fd m k bs k' : takes m k bs k' -> 0 <= fd -> (m < fuel)%nat ->
  LSerial_send fuel bs (MkSerial fd k) = Ret (true, MkSerial fd k').
Proof.
  intros Ht Hfd Hm. rw /LSerial_send. eapply bind_step; [done|]. cbn [m_uart]. rw (proj2 (Z.ltb_ge fd 0)) //.
  clear Hfd. revert Hm. generalize fuel. induction Ht as [m k|m k bs w k1 k' Hbs Hw _ IH]; intros [|f] Hm; try lia; cbn [send_bytes]; [done|].
  destruct bs as [|b bs]; [done|]. eapply bind_step; [by rw /on_port Hw|]. apply IH. lia.
Qed.

Lemma recv_run fd m k b k' : gives_byte m k b k' -> 0 <= fd -> (m + 1 < fuel)%nat ->
  LSerial_recv fuel 1 (MkSerial fd k) = Ret ((true, [b]), MkSerial fd k').
Proof.
  intros Hg Hfd Hm. rw /LSerial_recv. eapply bind_step; [done|]. cbn [m_uart]. rw (proj2 (Z.ltb_ge fd 0)) //.
  clear Hfd. revert Hm. generalize fuel. induction Hg as [m k b k' Hr|m k k1 b k' Hr _ IH]; intros [|f] Hm; try lia; cbn [recv_bytes length].
  - change (Z.of_nat 0 <? 1) with true. cbv iota. change (1 - Z.of_nat 0) with 1. eapply bind_step; [by rw /on_port Hr|].
    destruct f as [|f]; [lia|]. done.
  - change (Z.of_nat 0 <? 1) with true. cbv iota. change (1 - Z.of_nat 0) with 1. eapply bind_step; [by rw /on_port Hr|].
    cbn [app]. apply IH. lia.
Qed.

(** The array with a line at its start. *)
Definition with_line (l : list Z) (buf : heap_array) : heap_array := (Some <$> l) ++ drop (length l) buf.

Lemma with_line_length l buf : (length l <= length buf)%nat -> length (with_line l buf) = length buf.
Proof. intros Hl. rw /with_line length_app length_fmap length_drop. lia. Qed.

Lemma write_heap_start bs buf : (length bs <= length buf)%nat -> write_heap buf 0 bs = Ret (with_line bs buf).
Proof. intros Hl. by rw /write_heap decide_True. Qed.
Lemma write_next_byte pre b buf : (length pre < length buf)%nat ->
  write_heap (with_line pre buf) (Z.of_nat (length pre)) [b] = Ret (with_line (pre ++ [b]) buf).
Proof.
  intros Hl. rw /write_heap Nat2Z.id decide_True; [|rw with_line_length; cbn; lia]. f_equal. rw /with_line.
  rw take_app_le; [|by rw length_fmap]. rw take_ge; [|by rw length_fmap]. rw drop_app_ge; [|rw length_fmap; cbn; lia].
  rw length_fmap drop_drop fmap_app -app_assoc length_app. cbn [length]. by replace (length pre + (length pre + 1 - length pre))%nat with (length pre + 1)%nat by lia.
Qed.

Lemma read_line_run fd m buf body : 0 <= fd -> (m + 1 < fuel)%nat -> 10 ∉ body -> forall pre n k k', gives m k (body ++ [10]) k' ->
  (length body < n)%nat -> (length pre + length body + 1 <= length buf)%nat ->
  read_line fuel n (with_line pre buf) (Z.of_nat (length pre)) (MkSerial fd k) =
    Ret ((true, with_line (pre ++ body ++ [10]) buf), MkSerial fd k').
Proof.
  intros Hfd Hm. induction body as [|b body IH]; intros Hbody pre [|n] k k' Hg Hn Hlen; cbn [length] in *; try lia; cbn [read_line app] in *;
    inversion Hg as [|? ? k1 ? ? Hb Hrest]; subst; (eapply bind_step; [by eapply recv_run|]).
  - eapply bind_step; [by rw /lift_outcome write_next_byte; [|lia]|]. cbn [negb]. eapply bind_step.
    { rw /lift_outcome Nat2Z.id /with_line fmap_app -app_assoc. cbn [fmap list_fmap app]. rw -(length_fmap Some pre) read_heap_app //. }
    inversion Hrest; subst. done.
  - apply not_elem_of_cons in Hbody as [Hb10 Hbody].
    eapply bind_step; [by rw /lift_outcome write_next_byte; [|lia]|]. cbn [negb]. eapply bind_step.
    { rw /lift_outcome Nat2Z.id /with_line fmap_app -app_assoc. cbn [fmap list_fmap app]. rw -(length_fmap Some pre) read_heap_app //. }
    rw (proj2 (Z.eqb_neq b 10)); [|congruence]. replace (Z.of_nat (length pre) + 1) with (Z.of_nat (length (pre ++ [b]))) by (rw length_app; cbn; lia).
    rw (IH Hbody (pre ++ [b]) n k1 k' Hrest); [by rw -app_assoc|lia|rw length_app; cbn; lia].
Qed.

Section lines.
Context (fd : Z) (m : nat).
Hypotheses (Hfd : 0 <= fd) (Hm : (m + 1 < fuel)%nat) (Hfuel : (537 < fuel)%nat).

(** The array once its first bytes are set. *)
Definition started (buf : heap_array) : Prop :=
  length buf = 537%nat /\ exists bs post, buf = (Some <$> bs) ++ post /\ (7 <= length bs)%nat.
(** The array differs from [text] when it holds the line [l], whatever is behind the line. *)
Definition differs (text l : list Z) : Prop := ~ take (length text) l `prefix_of` text.

Lemma with_line_started l buf : started buf -> (length l <= 537)%nat ->
  started (with_line l buf) /\ exists x post, with_line l buf = (Some <$> (l ++ x)) ++ post /\ (7 <= length (l ++ x))%nat.
Proof.
  intros [Hlen (bs & post & -> & Hbs)] Hl.
  assert (exists x post', with_line l ((Some <$> bs) ++ post) = (Some <$> (l ++ x)) ++ post' /\ (7 <= length (l ++ x))%nat) as (x & post' & Heq & Hx).
  { exists (drop (length l) bs), (drop (length l - length bs) post). rw /with_line drop_app length_fmap fmap_app -app_assoc fmap_drop length_app length_drop. split; [done|lia]. }
  split; [|by exists x, post']. split; [by rw with_line_length Hlen|]. by exists (l ++ x), post'.
Qed.

Lemma heap_is_run bs post text : (length text <= length bs)%nat ->
  heap_is ((Some <$> bs) ++ post) text = Ret (bool_decide (take (length text) bs = text)).
Proof.
  intros Hl. rw /heap_is -{1}(take_drop (length text) bs) fmap_app -app_assoc.
  pose proof (heap_range_app [] ((Some <$> drop (length text) bs) ++ post) (take (length text) bs)) as Hr. cbn [app length] in Hr.
  rw length_take Nat.min_l // in Hr. by rw Hr.
Qed.
Lemma heap_is_differs l buf text : started buf -> (length l <= 537)%nat -> (length text <= 7)%nat -> differs text l ->
  heap_is (with_line l buf) text = Ret false.
Proof.
  intros Hb Hl Ht Hd. destruct (with_line_started l buf Hb Hl) as [_ (x & post & -> & Hx)]. rw heap_is_run; [|lia].
  rw bool_decide_false //. intros Heq. apply Hd. rw -{2}Heq take_app. by eexists.
Qed.
Lemma heap_is_line text rest buf : heap_is (with_line (text ++ rest) buf) text = Ret true.
Proof. rw /with_line heap_is_run; [|rw length_app; lia]. by rw bool_decide_true // take_app_length. Qed.

Lemma readLine_run l buf k k' : text_line l -> length buf = 537%nat -> gives m k l k' ->
  readLine fuel buf (MkSerial fd k) = Ret ((true, with_line l buf), MkSerial fd k').
Proof.
  intros [(body & -> & Hbody) Hl] Hb Hg. rw length_app in Hl. cbn in Hl.
  change buf with (with_line [] buf) at 1. by apply (read_line_run fd m buf body Hfd Hm Hbody [] fuel k k' Hg); [lia|cbn; lia].
Qed.

(** Lines other than the response: echo, empty lines, notices of the modem. *)
Definition other_line (l : list Z) : Prop :=
  text_line l /\ differs (bytes "ERROR" ++ [13; 10]) l /\ differs (bytes "+CSIM: ") l.

Lemma await_csim_run lines rest : Forall other_line lines -> text_line (bytes "+CSIM: " ++ rest) ->
  forall n buf k k', (length lines < n)%nat -> started buf -> gives m k (concat lines ++ bytes "+CSIM: " ++ rest) k' ->
  exists buf', started buf' /\ await_csim fuel n buf (MkSerial fd k) = Ret ((true, with_line (bytes "+CSIM: " ++ rest) buf'), MkSerial fd k').
Proof.
  intros Hlines Hrest. induction Hlines as [|l lines (Hl & He & Hc) _ IH]; intros [|n] buf k k' Hn Hb Hg; cbn [length] in Hn; try lia; cbn [await_csim concat] in *.
  - exists buf. split; [done|]. eapply bind_step; [by apply (readLine_run (bytes "+CSIM: " ++ rest) buf k k'); [|apply Hb|]|]. cbv iota beta.
    eapply bind_step.
    { rw /lift_outcome heap_is_differs; [done|done|apply Hrest|by apply Nat.leb_le|]. intros [x Hx]. by destruct rest as [|? rest]. }
    cbv iota. by eapply bind_step; [rw /lift_outcome heap_is_line|].
  - rw -app_assoc in Hg. apply gives_app in Hg as (k1 & Hg1 & Hg2). pose proof (tl_length _ Hl) as Hlen.
    destruct (IH n (with_line l buf) k1 k') as (buf' & Hb' & Hrun); [lia|by apply with_line_started|done|].
    exists buf'. split; [done|]. eapply bind_step; [by apply (readLine_run l buf k k1); [|apply Hb|]|]. cbv iota beta.
    eapply bind_step; [by rw /lift_outcome heap_is_differs; [..|by apply Nat.leb_le|]|]. cbv iota.
    by eapply bind_step; [by rw /lift_outcome heap_is_differs; [..|by apply Nat.leb_le|]|].
Qed.

Lemma await_ok_run lines : Forall (fun l => text_line l /\ differs (bytes "OK" ++ [13; 10]) l) lines ->
  forall n buf k k', (length lines < n)%nat -> started buf -> gives m k (concat lines ++ bytes "OK" ++ [13; 10]) k' ->
  await_ok fuel n buf (MkSerial fd k) = Ret (tt, MkSerial fd k').
Proof.
  induction 1 as [|l lines [Hl Hd] _ IH]; intros [|n] buf k k' Hn Hb Hg; cbn [length] in Hn; try lia; cbn [await_ok concat] in *.
  - eapply bind_step; [apply (readLine_run (bytes "OK" ++ [13; 10]) buf k k'); [|apply Hb|exact Hg]|].
    { split; [|cbn; lia]. exists (bytes "OK" ++ [13]). split; [done|]. apply (bool_decide_unpack _). by vm_compute. }
    cbv iota beta. pose proof (heap_is_line (bytes "OK" ++ [13; 10]) [] buf) as Hok. rw app_nil_r in Hok.
    by eapply bind_step; [by rw /lift_outcome Hok|].
  - rw -app_assoc in Hg. apply gives_app in Hg as (k1 & Hg1 & Hg2). pose proof (tl_length _ Hl) as Hlen.
    eapply bind_step; [by apply (readLine_run l buf k k1); [|apply Hb|]|]. cbv iota beta.
    eapply bind_step; [by rw /lift_outcome heap_is_differs; [..|by apply Nat.leb_le|]|]. cbv iota.
    apply IH; [lia|by apply with_line_started|done].
Qed.

(** The modem passes the command [cmd] on and reports the response [r] of the secure
    element, among other lines, and [OK]. *)
Definition csim_exchange (cmd r : list Z) (k k' : K) : Prop :=
  exists upper before after k1, Forall other_line before /\ (length before < fuel)%nat /\
    Forall (fun l => text_line l /\ differs (bytes "OK" ++ [13; 10]) l) after /\ (length after < fuel)%nat /\
    takes m k (csim_command cmd) k1 /\ gives m k1 (concat before ++ csim_response upper r ++ concat after ++ bytes "OK" ++ [13; 10]) k'.

Lemma parse_response upper r buf : Forall is_u8 r -> r <> [] -> (length r <= 258)%nat ->
  ('(off, len) ← csim_length 538 (with_line (csim_response upper r) buf) 7 0;
   off ← skip_to_hex 538 (with_line (csim_response upper r) buf) off;
   hexString2BytesArray (with_line (csim_response upper r) buf) off len) = Ret r.
Proof.
  intros Hr Hne Hl. rw /with_line. set (post := drop _ buf).
  destruct (print_int_digits (Z.of_nat (length r) * 2) ltac:(lia)) as (ds & [[_ Hds] _] & Hv & Hp).
  rw (proj2 (Z.ltb_ge _ 0)) in Hp; [|lia]. cbn [app] in Hp. rw Z.abs_eq in Hv; [|lia].
  assert (Hlen : (length ds <= 3)%nat).
  { destruct (short_number (length r) ltac:(lia)) as [Hlen _]. by rw Hp /digits_text length_fmap in Hlen. }
  rw /csim_response Hp.
  rw (csim_length_run ds _ post Hds 538 (bytes "+CSIM: ") 0); [|lia|lia|rw -/(digits_value ds) Hv; lia].
  rw -/(digits_value ds) Hv. cbn [mbind outcome_bind].
  assert (Hoff : (length (bytes "+CSIM: ") + length ds)%nat = length (bytes "+CSIM: " ++ digits_text ds)) by (by rw length_app /digits_text length_fmap).
  rw Hoff. destruct r as [|b r]; [done|]. assert (is_u8 b) as Hb by (by apply Forall_cons in Hr as [? _]).
  pose proof (skip_to_hex_run upper b r [34; 13; 10] (bytes "+CSIM: " ++ digits_text ds) post 538 Hb ltac:(lia)) as Hskip.
  rw -app_assoc in Hskip. rw Hskip. cbn [mbind outcome_bind].
  pose proof (hexString_run upper (b :: r) [34; 13; 10] ((bytes "+CSIM: " ++ digits_text ds) ++ [44; 34]) post Hr) as Hhex.
  rw -!app_assoc in Hhex. rw -Hhex. f_equal. rw !length_app. cbn [length]. lia.
Qed.

Lemma sendATCSIM_run cmd r k k' : csim_exchange cmd r k k' -> (length cmd <= 260)%nat -> Forall is_u8 r -> r <> [] -> (length r <= 258)%nat ->
  sendATCSIM fuel cmd (MkSerial fd k) = Ret ((true, Some r), MkSerial fd k').
Proof.
  intros (upper & before & after & k1 & Hbefore & Hnb & Hafter & Hna & Htakes & Hgives) Hcmd Hr Hne Hl.
  destruct (short_number (length cmd) Hcmd) as [Hnum _].
  assert (Hlen : (length (csim_command cmd ++ [0]%Z) <= 537)%nat).
  { rw /csim_command !length_app hex_text_length. change (length (bytes "AT+CSIM=")) with 8%nat. cbn [length]. lia. }
  rw app_assoc in Hgives. apply gives_app in Hgives as (k2 & Hg1 & Hg2).
  rw /sendATCSIM. cbv zeta. eapply bind_step; [rw /lift_outcome write_heap_start; [done|by rw length_replicate]|].
  eapply bind_step; [apply (send_run fd m k _ k1); [done|done|lia]|]. cbv beta. set (buf := with_line _ _).
  assert (Hbuf : length buf = 537%nat) by (rw /buf with_line_length length_replicate //). clearbody buf.
  eapply bind_step; [rw /lift_outcome write_heap_start; [done|rw length_replicate Hbuf; lia]|].
  cbv beta. set (buf1 := with_line _ _). assert (Hstart : started buf1).
  { split; [rw /buf1 with_line_length Hbuf //; rw length_replicate; lia|]. exists (replicate 8 0), (drop 8 buf). split; [done|cbn; lia]. }
  clearbody buf1. destruct (await_csim_run before _ Hbefore (csim_response_line upper r Hr Hl) fuel buf1 k1 k2 Hnb Hstart Hg1) as (buf2 & Hstart2 & Hrun).
  eapply bind_step; [exact Hrun|]. cbn [negb]. pose proof (parse_response upper r buf2 Hr Hne Hl) as Hparse.
  rw -/(csim_response upper r). destruct (csim_length 538 _ 7 0) as [[off len]|]; [|done]. cbn [mbind outcome_bind] in Hparse.
  eapply bind_step; [done|]. cbv iota beta. destruct (skip_to_hex 538 _ off) as [off'|]; [|done]. cbn [mbind outcome_bind] in Hparse.
  eapply bind_step; [done|]. eapply bind_step; [by rw /lift_outcome Hparse|]. eapply bind_step; [|done].
  apply (await_ok_run after Hafter fuel _ k2 k' Hna); [|done]. apply with_line_started; [done|apply csim_response_line; done].
Qed.
End lines.
End transmission.
