(* ===== verification/SeStack.v ===== *)
(** * The secure element behind the modem

    The functions for keys and certificates run on the connection through the modem: what
    the secure element does in an exchange, the interface sees over the serial line. So
    what holds for a card holds for the card behind the modem. *)
From Stdlib Require Import Ascii String.
From S2P Require Import Prelude Text SecureElement Mias MbedtlsSe Modem.

(** ** A card behind a connection *)

(** The responses of the secure element have the bytes of the status word at least. *)
Definition responds {S : Type} `{!Card S} : Prop := forall cmd (s : S) r (s' : S), transmitApdu cmd s = Ret ((true, Some r), s') ->
  Forall is_u8 r /\ r <> [] /\ (length r <= 258)%nat.
(** A connection in the state [l] reaches a secure element in the state [s]: an exchange
    with it, of commands of up to [limit] bytes and with fewer than [fuel] commands to
    follow, is one through the connection, in which no more commands are sent. *)
Class Passes {S L : Type} {HS : Card S} {HL : Card L} (fuel limit : nat) (behind : L -> S -> Prop) : Prop := {
  passes_limit : (80 <= limit <= 260)%nat;
  passes_exchange n (s : S) cmd r (s' : S) (l : L) : exchange n s cmd r s' -> (n < fuel)%nat -> behind l s ->
    Forall is_u8 cmd -> (length cmd <= limit)%nat ->
    exists n' l', (n' <= n)%nat /\ exchange n' l cmd r l' /\ behind l' s' }.

Section behind.
Context {S L : Type} {HS : Card S} {HL : Card L} (fuel limit : nat) (behind : L -> S -> Prop).
Context (Hresponds : @responds S HS).

Lemma fetch_bytes cla x : is_u8 x -> Forall is_u8 [Z.land cla 3; 192; 0; 0; x].
Proof.
  intros Hx. repeat apply Forall_cons_2; [|width..|done|constructor]. change 3 with (Z.ones 2). rw Z.land_ones //.
  pose proof (Z.mod_pos_bound cla (2 ^ 2) ltac:(lia)). width.
Qed.
Lemma data_cmd_bytes c ins p1 p2 data : is_u8 c -> is_u8 ins -> is_u8 p1 -> is_u8 p2 -> Forall is_u8 data -> (length data <= 255)%nat ->
  Forall is_u8 (data_cmd c ins p1 p2 data).
Proof. intros. rw /data_cmd. cbn [app]. repeat apply Forall_cons_2; try done. width. Qed.
(** The bytes of a command. *)
Ltac all_bytes := repeat first [apply data_cmd_bytes|apply Forall_app; split|apply Forall_cons_2|apply Forall_nil_2]; try done; try width; try (cbn; lia).

Lemma exchange_bytes n (s : S) cmd r (s' : S) : exchange n s cmd r s' -> Forall is_u8 r.
Proof. induction 1 as [s cmd r s' Hrun| |]; [by apply (Hresponds _ _ _ _ Hrun)|done..]. Qed.

Lemma exchange_end n (s : S) cmd r (s' : S) : exchange n s cmd r s' -> final_response r /\ (length r <= 258)%nat.
Proof. by induction 1. Qed.

(** A connection that passes single commands on. *)
Lemma passes_commands : (80 <= limit <= 260)%nat ->
  (forall l (s : S) cmd r (s' : S), behind l s -> Forall is_u8 cmd -> (length cmd <= limit)%nat ->
    transmitApdu cmd s = Ret ((true, Some r), s') ->
    exists l', transmitApdu cmd l = Ret ((true, Some r), l') /\ behind l' s') -> Passes fuel limit behind.
Proof.
  intros Hlimit Hone. split; [done|]. intros n s cmd r s' l Hex _. revert l.
  induction Hex as [s cmd r s' Hrun Hfinal Hlen|n s cmd x s1 r s' Hrun _ IH|n s cla cmd x s1 r s' Hrun _ IH]; intros l Hl Hbytes Hcmd;
    destruct (Hone l _ _ _ _ Hl Hbytes Hcmd Hrun) as (l1 & Hrun1 & Hl1); destruct (Hresponds _ _ _ _ Hrun) as (Hx & _ & _).
  - exists O, l1. split_and!; [done|by apply exchange_done|done].
  - destruct (IH l1 Hl1) as (n' & l2 & Hn' & Hex & Hl2); [by apply Forall_insert; [|apply Forall_cons in Hx as [_ [? _]%Forall_cons]]|by rw length_insert|].
    exists (Datatypes.S n'), l2. split_and!; [lia|by eapply exchange_length|done].
  - destruct (IH l1 Hl1) as (n' & l2 & Hn' & Hex & Hl2); [by apply fetch_bytes; apply Forall_cons in Hx as [_ [? _]%Forall_cons]|cbn; lia|].
    exists (Datatypes.S n'), l2. split_and!; [lia|by eapply exchange_more|done].
Qed.

Context (Hpasses : Passes fuel limit behind).

(** A state of the line, by the state of the secure element behind it. *)
Definition through (P : S -> Prop) (l : L) : Prop := exists s, P s /\ behind l s.

Lemma holds_behind c d path content (opened : S -> Prop) (s : S) (l : L) : holds_file c d path content opened s -> (d < fuel)%nat -> behind l s ->
  is_u8 c -> Forall is_u8 path -> (length path + 6 <= limit)%nat -> holds_file c d path content (through opened) l.
Proof.
  pose proof passes_limit as Hlimit.
  intros [Hsize _ (n & fcp & s' & Hn & Hfcp & Ho & Hex) Hread] Hd Hl Hc Hbytes Hpath. split; [done|lia| |].
  - destruct (passes_exchange _ _ _ _ _ l Hex ltac:(lia) Hl) as (n' & l' & Hn' & Hex' & Hl').
    { rw /full_cmd. all_bytes. }
    { rw /full_cmd /data_cmd length_app. cbn [length app]. lia. }
    exists n', fcp, l'. split_and!; [lia|done|by exists s'|done].
  - intros l1 i len (s1 & Ho1 & Hl1) Hlen Hi. destruct (Hread s1 i len Ho1 Hlen Hi) as (n1 & s2 & Hn1 & Ho2 & Hex2).
    destruct (passes_exchange _ _ _ _ _ l1 Hex2 ltac:(lia) Hl1) as (n' & l2 & Hn' & Hex' & Hl2); [|cbn; lia|].
    { assert (0 <= Z.of_nat i / 256 < 256) by (split; [apply Z.div_pos; lia|apply Z.div_lt_upper_bound; lia]).
      pose proof (Z.mod_pos_bound (Z.of_nat i) 256 ltac:(lia)). all_bytes. }
    exists n', l2. split_and!; [lia|by exists s2|done].
Qed.
Lemma closes_behind ch (opened closed : S -> Prop) : card_closes fuel ch opened closed -> is_u8 ch ->
  card_closes fuel ch (through opened) (through closed).
Proof.
  pose proof passes_limit as Hlimit.
  intros Hc Hch l (s & Ho & Hl). destruct (Hc s Ho) as (n & s' & Hn & Hex & Hc').
  destruct (passes_exchange _ _ _ _ _ l Hex ltac:(lia) Hl) as (n' & l' & Hn' & Hex' & Hl'); [rw /close_cmd; all_bytes|cbn; lia|].
  exists n', l'. split_and!; [lia|done|by exists s'].
Qed.
(** What comes before, for the applet [aid]. *)
Lemma unlocks_behind aid verify (unlocked : Z -> S -> Prop) (unlocked' : Z -> L -> Prop) (s : S) (l : L) :
  card_unlocks fuel aid verify unlocked s -> behind l s -> Forall is_u8 aid -> (length aid <= 20)%nat ->
  (forall ch, is_u8 ch -> Forall is_u8 (verify ch) /\ (length (verify ch) <= limit)%nat) ->
  (forall ch s l, is_u8 ch -> behind l s -> unlocked ch s -> unlocked' ch l) -> card_unlocks fuel aid verify unlocked' l.
Proof.
  pose proof passes_limit as Hlimit.
  intros (n1 & n2 & n3 & ch & fci & s1 & s2 & s3 & Hn1 & Hn2 & Hn3 & Hex1 & Hex2 & Hex3 & Hun) Hl Haid Haidlen Hverify Hunlocked.
  assert (is_u8 ch) as Hch by (by apply exchange_bytes, Forall_cons in Hex1 as [? _]). destruct (Hverify ch Hch) as [Hvb Hvl].
  destruct (passes_exchange _ _ _ _ _ l Hex1 ltac:(lia) Hl) as (m1 & l1 & Hm1 & Hx1 & Hl1); [all_bytes|cbn; lia|].
  destruct (passes_exchange _ _ _ _ _ l1 Hex2 ltac:(lia) Hl1) as (m2 & l2 & Hm2 & Hx2 & Hl2); [rw /select_cmd; all_bytes|cbn; lia|].
  destruct (passes_exchange _ _ _ _ _ l2 Hex3 ltac:(lia) Hl2) as (m3 & l3 & Hm3 & Hx3 & Hl3); [done..|].
  exists m1, m2, m3, ch, fci, l1, l2, l3. split_and!; [lia..|done|done|done|by eapply Hunlocked].
Qed.
Lemma file_behind path pin content closed (s : S) (l : L) : file_on_card fuel path pin content closed s -> behind l s ->
  Forall is_u8 path -> (length path + 6 <= limit)%nat -> Forall is_u8 pin -> (length pin <= 8)%nat -> file_on_card fuel path pin content (through closed) l.
Proof.
  pose proof passes_limit as Hlimit.
  intros Hfile Hl Hpb Hpath Hpinb Hpin. eapply unlocks_behind; [exact Hfile|done|rw /MF_AID; all_bytes|cbn; lia|..].
  - intros ch Hch. rw /verify_cmd /data_cmd. split; [|cbn [length app]; rw length_app length_replicate; lia].
    apply (data_cmd_bytes ch); [done|width..| |rw length_app length_replicate; lia]. all_bytes. apply Forall_replicate. width.
  - intros ch s1 l1 Hch Hl1 (d & opened & Hd & Hf & Hclose). exists d, (through opened).
    split_and!; [done|by eapply holds_behind|by apply closes_behind].
Qed.

(** A signature. *)
Lemma signature_behind c m (s : S) cmd sig (s' : S) : signature_parts fuel c m s cmd sig s' -> forall l, is_u8 c -> behind l s ->
  Forall is_u8 cmd -> (length cmd <= limit)%nat -> exists l', signature_parts fuel c m l cmd sig l' /\ behind l' s'.
Proof.
  pose proof passes_limit as Hlimit.
  induction 1 as [m n s cmd r s' Hn Hr Hlen Hex|m n s cmd r x s1 rest s' Hn Hr Hlen Hx Hex _ IH]; intros l Hc Hl Hbytes Hcmd.
  - destruct (passes_exchange _ _ _ _ _ l Hex Hn Hl Hbytes Hcmd) as (n' & l' & Hn' & Hx' & Hl').
    exists l'. split; [|done]. by apply (signature_last _ _ _ n'); [lia|..].
  - destruct (passes_exchange _ _ _ _ _ l Hex Hn Hl Hbytes Hcmd) as (n' & l1 & Hn' & Hx' & Hl1).
    destruct (IH l1 Hc Hl1) as (l' & Hparts & Hl'); [all_bytes|cbn; lia|].
    exists l'. split; [|done]. by apply (signature_more _ _ _ n' _ _ _ x l1); [lia|..].
Qed.
Lemma signs_behind c alg kid n hash sig (s s' : S) (l : L) : card_signs fuel c alg kid n hash sig s s' -> behind l s ->
  is_u8 c -> is_u8 alg -> is_u8 kid -> Forall is_u8 hash -> (n <= 64)%nat ->
  exists l', card_signs fuel c alg kid n hash sig l l' /\ behind l' s'.
Proof.
  pose proof passes_limit as Hlimit.
  intros (n1 & n2 & m & r & s1 & s2 & Hn1 & Hn2 & Hm & Hex1 & Hex2 & Hparts) Hl Hc Halg Hkid Hhash Hn.
  destruct (passes_exchange _ _ _ _ _ l Hex1 Hn1 Hl) as (m1 & l1 & Hm1 & Hx1 & Hl1); [all_bytes|cbn; lia|].
  assert (Htake : (length (take n hash) <= n)%nat) by (rw length_take; lia).
  destruct (passes_exchange _ _ _ _ _ l1 Hex2 Hn2 Hl1) as (m2 & l2 & Hm2 & Hx2 & Hl2).
  { rw /full_cmd. all_bytes. by apply Forall_take. }
  { rw /full_cmd /data_cmd length_app. cbn [length app]. lia. }
  destruct (signature_behind _ _ _ _ _ _ Hparts l2 Hc Hl2) as (l' & Hparts' & Hl'); [all_bytes|cbn; lia|].
  exists l'. split; [|done]. exists m1, m2, m, r, l1, l2. by split_and!; [lia..| | |].
Qed.
Lemma key_behind pin alg kid n hash sig closed (s : S) (l : L) :
  key_on_card fuel pin (fun ch k k' => card_signs fuel ch alg kid n hash sig k k') closed s -> behind l s ->
  Forall is_u8 pin -> (length pin <= 16)%nat -> is_u8 alg -> is_u8 kid -> Forall is_u8 hash -> (n <= 64)%nat ->
  key_on_card fuel pin (fun ch k k' => card_signs fuel ch alg kid n hash sig k k') (through closed) l.
Proof.
  pose proof passes_limit as Hlimit.
  intros Hkey Hl Hpinb Hpin Halg Hkid Hhash Hn. eapply unlocks_behind; [exact Hkey|done|rw /MIAS_AID; all_bytes|cbn; lia|..].
  - intros ch Hch. rw /mias_verify_cmd. split; [all_bytes; lia|cbn; lia].
  - intros ch s1 l1 Hch Hl1 (s2 & Hsigns & Hclose). destruct (signs_behind _ _ _ _ _ _ _ _ _ Hsigns Hl1) as (l2 & Hsigns' & Hl2); [done..|].
    exists l2. split; [done|]. intros l3 <-. apply (closes_behind ch (eq s2) closed Hclose Hch). by exists s2.
Qed.

(** What a card with the file does, a card behind the connection does as well. *)
Lemma file_parsed_behind `{!KeyLibrary L} size0 upper name pin content rest closed (s : se_sys L) (e : S) :
  behind (card s) e -> file_on_card fuel name pin content closed e ->
  ready TheMF MF_AID s -> Forall is_u8 name -> (length name + 6 <= limit)%nat -> Forall is_u8 pin -> (length pin <= 8)%nat -> (length content < fuel)%nat ->
  let path := MBEDTLS_SE_EF_KEY_NAME_PREFIX ++ hex_text upper name ++ 0 :: rest in
  exists s', ready TheMF MF_AID s' /\ through closed (card s') /\
    mbedtls_x509_crt_parse_se fuel size0 path pin s = on_card (mbedtls_x509_crt_parse (content ++ [0])) s' /\
    mbedtls_pk_parse_se fuel size0 path pin s = on_card (mbedtls_pk_parse_key (Some (content ++ [0]))) s'.
Proof.
  intros Hl Hfile Hready Hname Hlen Hpinb Hpin Hcontent. pose proof passes_limit as Hlimit.
  apply file_run; [by eapply file_behind|done|done|lia|done|done].
Qed.
(** A signature through a connection to the secure element, be it one of the modems or
    the reader: when the secure element computes it from the hash with the key of the
    session, [mbedtls_mias_pk_rsa_alt_sign] returns 0 and exactly this signature, and the
    logical channel is closed. *)
Theorem signed_behind key kid md_alg alg n hash sig closed (s : se_sys L) (e : S) :
  behind (card s) e -> key_on_card fuel (key_pin key) (fun ch k k' => card_signs fuel ch alg kid n hash sig k k') closed e ->
  ready TheMIAS MIAS_AID s -> kp_kid (key_kp key) = Some kid -> is_u8 kid -> Forall is_u8 (key_pin key) -> (length (key_pin key) <= 16)%nat ->
  mias_alg md_alg = Some alg -> hash_size (Z.land alg 240) = Some n -> Forall is_u8 hash -> (n <= length hash)%nat ->
  exists s', mbedtls_mias_pk_rsa_alt_sign fuel key md_alg hash s = Ret ((0, sig), s') /\
    ready TheMIAS MIAS_AID s' /\ through closed (card s').
Proof.
  intros Hl Hkey Hready Hkid Hkidb Hpinb Hpin Halg Hsize Hhash Hlen.
  assert (Halgb : is_u8 alg) by (destruct md_alg; try discriminate; injection Halg as <-; by split; vm_compute).
  eapply key_sign_run; [|exact Hready|exact Hkid|lia|exact Halg|exact Hsize|exact Hlen].
  eapply key_behind; [exact Hkey|done..|by eapply hash_size_bound].
Qed.
End behind.

(** ** Behind the modem *)

Section modem.
Context {S : Type} {HS : Card S} {K : Type} `{!Uart K} (fuel m : nat) (fd : Z).

#[local] Instance modem_card : Card (LSerial K) := CinterionModem fuel.

(** The device in state [k] reaches a secure element in state [s]: it passes every command
    of up to 260 bytes on. *)
Definition reaches (R : K -> S -> Prop) : Prop := forall k (s : S) cmd r (s' : S), R k s -> Forall is_u8 cmd -> (length cmd <= 260)%nat ->
  transmitApdu cmd s = Ret ((true, Some r), s') -> exists k', csim_exchange fuel m cmd r k k' /\ R k' s'.

Context (R : K -> S -> Prop).
Hypotheses (Hresponds : @responds S HS) (Hreaches : reaches R).
Hypotheses (Hfd : 0 <= fd) (Hm : (m + 1 < fuel)%nat) (Hfuel : (537 < fuel)%nat).

Definition behind (l : LSerial K) (s : S) : Prop := m_uart l = fd /\ R (port l) s.

Lemma modem_passes depth : Passes depth 260 behind.
Proof.
  apply passes_commands; [done|lia|]. intros [fd' k] s cmd r s' [Heq HR] Hbytes Hcmd Hrun. cbn in Heq, HR. subst fd'.
  destruct (Hresponds _ _ _ _ Hrun) as (Hr & Hne & Hl). destruct (Hreaches _ _ _ _ _ HR Hbytes Hcmd Hrun) as (k' & Hex & HR').
  exists (MkSerial fd k'). split; [|done]. by apply (sendATCSIM_run fuel fd m Hfd Hm Hfuel).
Qed.

(** C37: a certificate or key in a file of the secure element, with a name of at most 254
    bytes, is read through the modem: with a
    serial device that takes the texts of the commands in parts of any size, gives back the bytes of the
    lines one after another with pauses, and a modem that reports every response among other lines, the
    parsers of mbedTLS get exactly the bytes of the file and a terminating null, as they
    would with the secure element itself, and the logical channel is closed. *)
Theorem file_parsed_by_modem `{!KeyLibrary (LSerial K)} size0 upper name pin content rest closed (s : se_sys (LSerial K)) (e : S) :
  behind (card s) e -> file_on_card fuel name pin content closed e ->
  ready TheMF MF_AID s -> Forall is_u8 name -> (length name <= 254)%nat -> Forall is_u8 pin -> (length pin <= 8)%nat -> (length content < fuel)%nat ->
  let path := MBEDTLS_SE_EF_KEY_NAME_PREFIX ++ hex_text upper name ++ 0 :: rest in
  exists s', ready TheMF MF_AID s' /\ through behind closed (card s') /\
    mbedtls_x509_crt_parse_se fuel size0 path pin s = on_card (mbedtls_x509_crt_parse (content ++ [0])) s' /\
    mbedtls_pk_parse_se fuel size0 path pin s = on_card (mbedtls_pk_parse_key (Some (content ++ [0]))) s'.
Proof.
  intros Hl Hfile Hready Hname Hlen Hpinb Hpin Hcontent.
  apply (file_parsed_behind fuel 260 behind Hresponds (modem_passes fuel) _ _ _ _ _ _ _ s e); try done. lia.
Qed.
End modem.

(** ** A modem *)

Module ModemDemo.
Import MbedtlsSe.Demo.

(** A device with what it has not given yet; every other read gives nothing. *)
Record device := MkDevice { d_out : list Z; d_pause : bool; d_card : nat }.

Fixpoint behind_quote (l : list Z) : list Z := match l with [] => [] | c :: l' => if c =? 34 then l' else behind_quote l' end.
Fixpoint before_quote (l : list Z) : list Z := match l with [] => [] | c :: l' => if c =? 34 then [] else c :: before_quote l' end.
Definition command_of (text : list Z) : list Z := hex_string_2_bytes_array (before_quote (behind_quote text)).

(** The command in the text goes to the card of the other demonstration; an empty line
    is in front of the response and of [OK]. *)
Definition modem_answer (text : list Z) (k : nat) : list Z * nat :=
  let '(r, k') := demo_reply (command_of text) k in
  ([13; 10] ++ csim_response false r ++ [13; 10] ++ bytes "OK" ++ [13; 10], k').

#[global] Instance demo_uart : Uart device := {|
  uart_open := mret 3;
  uart_getattr := mret (MkTermios 0 0 0 0 0 0);
  uart_setattr _ := mret tt;
  uart_setfl _ := mret tt;
  uart_read _ := fun d =>
    match d_out d with
    | b :: out => if d_pause d then Ret (Some [], MkDevice (b :: out) false (d_card d)) else Ret (Some [b], MkDevice out true (d_card d))
    | [] => Ret (Some [], d)
    end;
  uart_write text := fun d =>
    let '(out, k) := modem_answer text (d_card d) in Ret (Some (Z.of_nat (length text)), MkDevice (d_out d ++ out) (d_pause d) k);
  uart_close := mret tt |}.

Lemma device_gives bs rest p k : exists p', gives 1 (MkDevice (bs ++ rest) p k) bs (MkDevice rest p' k).
Proof.
  revert p. induction bs as [|b bs IH]; intros p; [exists p; constructor|]. destruct (IH true) as [p' Hg]. exists p'.
  econstructor; [|exact Hg]. destruct p; [eapply gives_later; [done|]|]; by constructor.
Qed.

Lemma quote_skipped a l : 34 ∉ a -> behind_quote (a ++ 34 :: l) = l.
Proof.
  induction a as [|c a IH]; intros Ha; [done|]. apply not_elem_of_cons in Ha as [Hc Ha]. cbn [app behind_quote].
  rw (proj2 (Z.eqb_neq c 34)); [|congruence]. by apply IH.
Qed.
Lemma quote_found a l : 34 ∉ a -> before_quote (a ++ 34 :: l) = a.
Proof.
  induction a as [|c a IH]; intros Ha; [done|]. apply not_elem_of_cons in Ha as [Hc Ha]. cbn [app before_quote].
  rw (proj2 (Z.eqb_neq c 34)); [|congruence]. by rw IH.
Qed.
Lemma no_quote_number n : (n <= 260)%nat -> 34 ∉ print_int (Z.of_nat n * 2).
Proof.
  intros Hn. pose proof (proj1 (forallb_forall (fun n => bool_decide (34 ∉ print_int (Z.of_nat n * 2))) (seq 0 261)) ltac:(by vm_compute) n) as Hall.
  by apply bool_decide_eq_true in Hall; [|apply in_seq; lia].
Qed.
Lemma no_quote_hex bs : Forall is_u8 bs -> 34 ∉ hex_text true bs.
Proof.
  induction 1 as [|b bs Hb _ IH]; [apply not_elem_of_nil|]. rw /hex_text bind_cons -/(hex_text true bs).
  destruct (hex_halves b Hb) as [Hh Hl]. cbn [app]. rw !not_elem_of_cons. rw /hex_char. split_and!; [case_match; lia..|done].
Qed.

Lemma command_of_text cmd : Forall is_u8 cmd -> (length cmd <= 260)%nat -> command_of (csim_command cmd) = cmd.
Proof.
  intros Hcmd Hl. rw /command_of /csim_command. rw app_assoc. change ([44; 34] ++ ?l) with ([44] ++ 34 :: l). rw app_assoc quote_skipped.
  - change [34; 13; 10] with ([] ++ 34 :: [13; 10]). rw app_nil_l quote_found; [|by apply no_quote_hex]. by apply hex_read.
  - rw !not_elem_of_app. split_and!; [apply (bool_decide_unpack _); by vm_compute|by apply no_quote_number|apply (bool_decide_unpack _); by vm_compute].
Qed.

Definition proper_response (r : list Z) : Prop := Forall is_u8 r /\ r <> [] /\ (length r <= 258)%nat.
Lemma demo_read_proper cmd k r : demo_read cmd k = Some r -> proper_response r.
Proof.
  rw /demo_read. repeat case_match; intros [= <-]. split_and!.
  - apply Forall_app. split; [apply Forall_take, Forall_drop, Forall_replicate; width|by repeat constructor].
  - by destruct (take _ _).
  - rw length_app length_take. cbn [length]. lia.
Qed.
Lemma demo_responds : @responds nat demo_card.
Proof.
  intros cmd k r k' Hrun. cbn [transmitApdu demo_card] in Hrun. destruct (demo_reply cmd k) as [r0 k0] eqn:Hreply. injection Hrun as -> ->.
  unfold demo_reply in Hreply. cbv zeta in Hreply. destruct (demo_read cmd k) as [r1|] eqn:Hread.
  { injection Hreply as <- <-. by eapply demo_read_proper. }
  repeat case_match; injection Hreply as <- <-; by split_and!; [repeat constructor|done|cbn; lia].
Qed.

Definition idle_device (d : device) (k : nat) : Prop := d_out d = [] /\ d_card d = k.

Lemma demo_other_line : other_line [13; 10] /\ differs (bytes "OK" ++ [13; 10]) [13; 10].
Proof.
  split; [split; [split; [exists [13]; split; [done|apply (bool_decide_unpack _); by vm_compute]|cbn; lia]|split]|]; intros [x Hx]; discriminate.
Qed.

Lemma demo_reaches : @reaches nat demo_card device demo_uart 600 1 (fun d k => idle_device d k).
Proof.
  intros [out p k0] k cmd r k' [Hout Hk] Hbytes Hl Hrun. cbn in Hout, Hk. subst out k0. cbn [transmitApdu demo_card] in Hrun.
  destruct (demo_reply cmd k) as [r0 k1] eqn:Hreply. injection Hrun as -> ->.
  destruct (device_gives (concat [[13; 10]] ++ csim_response false r ++ concat [[13; 10]] ++ bytes "OK" ++ [13; 10]) [] p k') as [p' Hg].
  rw app_nil_r in Hg. destruct demo_other_line as [Hother Hok].
  exists (MkDevice [] p' k'). split; [|done]. exists false, [[13; 10]], [[13; 10]].
  eexists. split_and!; [by constructor|cbn; lia| |cbn; lia| |exact Hg].
  - repeat constructor; [apply Hother|done].
  - eapply (takes_part 0); [by destruct cmd|..].
    + cbn [uart_write demo_uart d_card]. rw /modem_answer command_of_text // Hreply. done.
    + rw Nat2Z.id drop_all. constructor.
Qed.

#[local] Instance demo_modem : Card (LSerial device) := CinterionModem 600.
#[global] Instance modem_library : KeyLibrary (LSerial device) := {|
  mbedtls_x509_crt_parse bs := mret (demo_parse bs);
  mbedtls_pk_parse_key o := mret (match o with Some bs => demo_parse bs | None => 0 end);
  mbedtls_pk_setup_rsa_alt _ := mret 0 |}.
Definition modem_start : se_sys (LSerial device) :=
  SeSys demo_iface (MkApplet true MF_AID false false 0) (MkApplet true MIAS_AID false false 0) (MkMias [] 0 0 0 0 0)
    (MkSerial 3 (MkDevice [] false 0)).

Lemma file_parsed_by_modem_witness : exists s', ready TheMF MF_AID s' /\
  through (behind 3 idle_device) (eq 0%nat) (card s') /\
  mbedtls_x509_crt_parse_se 600 0 demo_path demo_pin modem_start = on_card (mbedtls_x509_crt_parse (demo_content ++ [0])) s' /\
  mbedtls_pk_parse_se 600 0 demo_path demo_pin modem_start = on_card (mbedtls_pk_parse_key (Some (demo_content ++ [0]))) s'.
Proof.
  apply (@file_parsed_by_modem nat demo_card device demo_uart 600 1 3 idle_device demo_responds demo_reaches ltac:(lia) ltac:(lia) ltac:(lia)
    modem_library 0 true demo_name demo_pin demo_content [] (eq 0%nat) modem_start 0%nat).
  - split; [reflexivity|split; reflexivity].
  - exact demo_file.
  - done.
  - repeat constructor; vm_compute; congruence.
  - cbn. lia.
  - repeat constructor; vm_compute; congruence.
  - cbn. lia.
  - cbn. lia.
Defined.
(** The signature of the demonstration, through the modem. *)
Lemma signed_behind_witness : exists s', mbedtls_mias_pk_rsa_alt_sign 600 demo_key MBEDTLS_MD_SHA256 demo_hash modem_start = Ret ((0, demo_signature), s') /\
  ready TheMIAS MIAS_AID s' /\ through (behind 3 idle_device) (eq 0%nat) (card s').
Proof.
  apply (@signed_behind nat (LSerial device) demo_card demo_modem 600 260 (behind 3 idle_device) demo_responds
    (modem_passes 600 1 3 idle_device demo_responds demo_reaches ltac:(lia) ltac:(lia) ltac:(lia) 600)
    demo_key 49 MBEDTLS_MD_SHA256 66 32%nat demo_hash demo_signature (eq 0%nat) modem_start 0%nat).
  - split; [reflexivity|split; reflexivity].
  - exact demo_signs.
  - done.
  - reflexivity.
  - split; vm_compute; congruence.
  - repeat constructor; vm_compute; congruence.
  - cbn. lia.
  - reflexivity.
  - reflexivity.
  - repeat constructor; vm_compute; congruence.
  - cbn. lia.
Defined.
End ModemDemo.
