(* ===== verification/Usart.v ===== *)
(** * The serial ports of the shield

    [external_libs/gemalto/platform/connect_shield/src/stm32l476rg/usart.c]: three serial
    ports with a ring buffer in each direction, filled and emptied by the interrupt handler
    on one side and by [usart_read] and [usart_write] on the other. Of the registers of a
    port the model has what the functions use; the pins are in [Board]. What the ports
    read and write is also sent to the debug port.

    The ring buffers are shown to be bounded queues, in any order of interrupts and calls. *)
From S2P Require Import Prelude.

(** ** Ring buffers *)

Record ring := Ring { rb_head : Z; rb_tail : Z; rb_size : Z; rb_data : list Z }.

(** [(i + 1) % size]. *)
Definition ring_next (r : ring) (i : Z) : outcome Z :=
  if decide (rb_size r = 0) then Exn (Fault DivByZero) else Ret ((i + 1) mod rb_size r).
Definition ring_store (r : ring) (i b : Z) : outcome (list Z) :=
  if decide (0 <= i < Z.of_nat (length (rb_data r))) then Ret (<[Z.to_nat i := b]> (rb_data r))
  else Exn (Fault OobWrite).
Definition ring_load (r : ring) (i : Z) : outcome Z :=
  match rb_data r !! Z.to_nat i with Some b => Ret b | None => Exn (Fault OobRead) end.

(** One byte in, unless the buffer is full: false then. *)
Definition ring_put (b : Z) (r : ring) : outcome (bool * ring) :=
  head ← ring_next r (rb_head r);
  if decide (head = rb_tail r) then Ret (false, r)
  else data ← ring_store r (rb_head r) b; Ret (true, Ring head (rb_tail r) (rb_size r) data).
(** One byte out, unless it is empty. *)
Definition ring_get (r : ring) : outcome (option Z * ring) :=
  if decide (rb_tail r = rb_head r) then Ret (None, r)
  else
    b ← ring_load r (rb_tail r);
    tail ← ring_next r (rb_tail r);
    Ret (Some b, Ring (rb_head r) tail (rb_size r) (rb_data r)).

(** The loops of [usart_read] and [usart_write]: at most [n] bytes out; the number of bytes
    that go in. *)
Fixpoint ring_read (n : nat) (r : ring) : outcome (list Z * ring) :=
  match n with
  | O => Ret ([], r)
  | S n' =>
      '(b, r') ← ring_get r;
      match b with
      | None => Ret ([], r')
      | Some b => '(bs, r'') ← ring_read n' r'; Ret (b :: bs, r'')
      end
  end.
Fixpoint ring_write (bs : list Z) (r : ring) : outcome (nat * ring) :=
  match bs with
  | [] => Ret (O, r)
  | b :: bs' =>
      '(ok, r') ← ring_put b r;
      if ok : bool then '(n, r'') ← ring_write bs' r'; Ret (S n, r'') else Ret (O, r')
  end.

(** ** The ports *)

(** The bits and the register of a port: [USART_CR1_UE], [USART_CR1_TXEIE], the bits of
    [CR1] for receiving, sending and the receive interrupt, and [BRR]. *)
Record hardware := Hardware { cr1_UE : bool; cr1_TXEIE : bool; cr1_enabled : bool; hw_BRR : Z }.
Record usart_t := Usart { us_hw : option hardware; us_baudrate : Z; us_rx : ring; us_tx : ring }.
Definition bank : Type := list usart_t.

Definition set_UE (b : bool) (h : hardware) := Hardware b (cr1_TXEIE h) (cr1_enabled h) (hw_BRR h).
Definition set_TXEIE (b : bool) (h : hardware) := Hardware (cr1_UE h) b (cr1_enabled h) (hw_BRR h).
Definition set_BRR (z : Z) (h : hardware) := Hardware (cr1_UE h) (cr1_TXEIE h) (cr1_enabled h) z.
Definition set_rx (r : ring) (u : usart_t) := Usart (us_hw u) (us_baudrate u) r (us_tx u).
Definition set_tx (r : ring) (u : usart_t) := Usart (us_hw u) (us_baudrate u) (us_rx u) r.
Definition set_hw (h : hardware) (u : usart_t) := Usart (Some h) (us_baudrate u) (us_rx u) (us_tx u).

Definition USART_DBG : Z := 3.
(** Before the initialization; the first entry has no port. *)
Definition m_usart : bank :=
  let closed := Ring 0 0 0 [] in
  let off := Some (Hardware false false false 0) in
  [Usart None 0 closed closed; Usart off 0 closed closed; Usart off 0 closed closed; Usart off 0 closed closed].

(** The comparison with the number of entries lets the handle 4 through. *)
Definition usart_get_by_handle (handle : Z) : option nat :=
  if decide (handle <> 0 /\ handle <= 4) then Some (Z.to_nat handle) else None.
Definition get_usart (i : nat) : M bank usart_t := u ← gets (.!! i); lift_option (Fault OobRead) u.
Definition get_hw (u : usart_t) : M bank hardware := lift_option (Fault NullDeref) (us_hw u).
Definition put_usart (i : nat) (u : usart_t) : M bank unit := modify <[i := u]>.

(** The handler, for the flags of the status register and the received byte; the byte for
    the transmit register. *)
Definition USART_IRQHandler (i : nat) (rxne txe : bool) (rdr : Z) : M bank (option Z) :=
  u ← get_usart i;
  hw ← get_hw u;
  u ← (if rxne then '(_, rx) ← lift_outcome (ring_put rdr (us_rx u)); mret (set_rx rx u) else mret u);
  if txe && cr1_TXEIE hw then
    '(b, tx) ← lift_outcome (ring_get (us_tx u));
    _ ← put_usart i (match b with Some _ => set_tx tx u | None => set_hw (set_TXEIE false hw) u end);
    mret b
  else _ ← put_usart i u; mret None.

Definition usart_open (handle : Z) : M bank unit :=
  match usart_get_by_handle handle with
  | None => mret tt
  | Some i =>
      u ← get_usart i;
      hw ← get_hw u;
      let empty r := Ring 0 0 (rb_size r) (replicate (Z.to_nat (rb_size r)) 0) in
      put_usart i (set_hw (set_UE true hw) (set_tx (empty (us_tx u)) (set_rx (empty (us_rx u)) u)))
  end.
Definition usart_close (handle : Z) : M bank unit :=
  match usart_get_by_handle handle with
  | None => mret tt
  | Some i =>
      u ← get_usart i;
      hw ← get_hw u;
      let freed r := Ring 0 0 (rb_size r) [] in
      put_usart i (set_hw (set_UE false hw) (set_tx (freed (us_tx u)) (set_rx (freed (us_rx u)) u)))
  end.

(** The write to one port; none for the result -1. *)
Definition usart_write_port (handle : Z) (bs : list Z) : M bank (option nat) :=
  match usart_get_by_handle handle with
  | None => mret None
  | Some i =>
      u ← get_usart i;
      hw ← get_hw u;
      if negb (cr1_UE hw) then mret None
      else
        '(n, tx) ← lift_outcome (ring_write bs (us_tx u));
        _ ← put_usart i (set_hw (if decide (n = O) then hw else set_TXEIE true hw) (set_tx tx u));
        mret (Some n)
  end.
(** What the debug port is sent. *)
Definition echo (handle : Z) (bs : list Z) : M bank unit :=
  if decide (bs <> [] /\ handle <> USART_DBG) then _ ← usart_write_port USART_DBG bs; mret tt else mret tt.
Definition usart_write (handle : Z) (bs : list Z) : M bank (option nat) :=
  n ← usart_write_port handle bs;
  match n with Some n => _ ← echo handle (take n bs); mret (Some n) | None => mret None end.
Definition usart_read (handle : Z) (len : nat) : M bank (option (list Z)) :=
  match usart_get_by_handle handle with
  | None => mret None
  | Some i =>
      u ← get_usart i;
      hw ← get_hw u;
      if negb (cr1_UE hw) then mret None
      else
        '(bs, rx) ← lift_outcome (ring_read len (us_rx u));
        _ ← put_usart i (set_rx rx u);
        _ ← echo handle bs;
        mret (Some bs)
  end.

(** [clock] is [SystemCoreClock]. The ports are configured alike; port 0 has none. With the
    pins and the clocks of the port it is [Board.usart_init_board]. *)
Definition usart_init (clock handle baudrate rx_size tx_size : Z) : M bank unit :=
  match usart_get_by_handle handle with
  | None => mret tt
  | Some i =>
      u ← get_usart i;
      let ring_of s r := Ring (rb_head r) (rb_tail r) s (rb_data r) in
      let u := Usart (us_hw u) baudrate (ring_of rx_size (us_rx u)) (ring_of tx_size (us_tx u)) in
      match us_hw u with
      | None => put_usart i u
      | Some hw =>
          if decide (baudrate = 0) then raise (Fault DivByZero)
          else put_usart i (set_hw (Hardware false false true (clock / baudrate)) u)
      end
  end.
Definition usart_change_baudrate (clock handle baudrate : Z) : M bank unit :=
  match usart_get_by_handle handle with
  | None => mret tt
  | Some i =>
      u ← get_usart i;
      if decide (us_baudrate u <> baudrate) then
        hw ← get_hw u;
        if decide (baudrate = 0) then raise (Fault DivByZero)
        else put_usart i (Usart (Some (set_UE true (set_BRR (clock / baudrate) hw))) baudrate (us_rx u) (us_tx u))
      else mret tt
  end.

(** ** Ring buffers are queues *)

Record ring_ok (r : ring) : Prop := RingOk {
  ro_size : 0 < rb_size r;
  ro_head : 0 <= rb_head r < rb_size r;
  ro_tail : 0 <= rb_tail r < rb_size r;
  ro_data : Z.of_nat (length (rb_data r)) = rb_size r }.

(** The next position, and the number of bytes between two positions. *)
Definition succ_in (size i : Z) : Z := if decide (i + 1 = size) then 0 else i + 1.
Definition distance (size tail head : Z) : Z := if decide (tail <= head) then head - tail else head - tail + size.

(** [n] bytes from position [i] on. *)
Fixpoint slice (data : list Z) (size i : Z) (n : nat) : list Z :=
  match n with
  | O => []
  | S n' => data !!! Z.to_nat i :: slice data size (succ_in size i) n'
  end.
Definition contents (r : ring) : list Z :=
  slice (rb_data r) (rb_size r) (rb_tail r) (Z.to_nat (distance (rb_size r) (rb_tail r) (rb_head r))).

Lemma ring_next_succ r i : 0 <= i < rb_size r -> ring_next r i = Ret (succ_in (rb_size r) i).
Proof.
  intros Hi. rw /ring_next decide_False; [|lia]. f_equal. rw /succ_in. case_decide as Hd.
  - by rw Hd Z_mod_same_full.
  - rw Z.mod_small //; lia.
Qed.
Lemma succ_in_range size i : 0 <= i < size -> 0 <= succ_in size i < size.
Proof. intros Hi. rw /succ_in. case_decide; lia. Qed.
Lemma slice_length data size i n : length (slice data size i n) = n.
Proof. revert i. induction n as [|n IH]; intros i; cbn; [done|by rw IH]. Qed.
Lemma contents_length r : ring_ok r ->
  Z.of_nat (length (contents r)) = distance (rb_size r) (rb_tail r) (rb_head r) /\
  Z.of_nat (length (contents r)) < rb_size r.
Proof. intros [? ? ? ?]. rw /contents slice_length /distance. case_decide; lia. Qed.

(** One more byte behind a slice; a store outside of it. *)
Fixpoint advance (size i : Z) (n : nat) : Z :=
  match n with O => i | S n' => advance size (succ_in size i) n' end.
Lemma slice_snoc data size i n :
  slice data size i (S n) = slice data size i n ++ [data !!! Z.to_nat (advance size i n)].
Proof.
  revert i. induction n as [|n IH]; intros i; [done|].
  change (slice data size i (S (S n))) with (data !!! Z.to_nat i :: slice data size (succ_in size i) (S n)). by rw IH.
Qed.
Lemma advance_distance size i n : 0 <= i < size -> Z.of_nat n < size ->
  advance size i n = if decide (i + Z.of_nat n < size) then i + Z.of_nat n else i + Z.of_nat n - size.
Proof.
  revert i. induction n as [|n IH]; intros i Hi Hn; cbn [advance]; [rw decide_True; lia|].
  rw IH; [|by apply succ_in_range|lia]. rw /succ_in. repeat case_decide; lia.
Qed.
Lemma slice_store data size i n j b :
  0 <= i < size -> Z.of_nat n < size -> 0 <= j -> (forall k, (k < n)%nat -> advance size i k <> j) ->
  slice (<[Z.to_nat j := b]> data) size i n = slice data size i n.
Proof.
  revert i. induction n as [|n IH]; intros i Hi Hn Hj Hne; cbn [slice]; [done|]. f_equal.
  - apply list_lookup_total_insert_ne. pose proof (Hne O ltac:(lia)) as H. cbn in H. lia.
  - apply IH; [by apply succ_in_range|lia|done|]. intros k Hk. by apply (Hne (S k)); lia.
Qed.

(** A byte goes in behind the others, unless the buffer has room for one byte only. *)
Lemma ring_put_run b r : ring_ok r ->
  exists r', ring_ok r' /\ rb_size r' = rb_size r /\
    ring_put b r = Ret (bool_decide (Z.of_nat (length (contents r)) < rb_size r - 1), r') /\
    contents r' = if decide (Z.of_nat (length (contents r)) < rb_size r - 1) then contents r ++ [b] else contents r.
Proof.
  intros Hr. destruct (contents_length r Hr) as [Hlen Hlt]. destruct Hr as [Hs Hh Ht Hd].
  rw /ring_put ring_next_succ //. cbn [mbind outcome_bind].
  assert (Hfull : succ_in (rb_size r) (rb_head r) = rb_tail r <-> ~ Z.of_nat (length (contents r)) < rb_size r - 1).
  { rw Hlen /succ_in /distance. repeat case_decide; lia. }
  destruct (decide (succ_in (rb_size r) (rb_head r) = rb_tail r)) as [Heq|Hne].
  - exists r. rw bool_decide_false; [|by apply Hfull]. rw decide_False; [|by apply Hfull]. done.
  - assert (Hroom : Z.of_nat (length (contents r)) < rb_size r - 1) by lia.
    rw /ring_store decide_True; [|lia]. cbn [mbind outcome_bind]. eexists. split_and!.
    3: by rw bool_decide_true. 2: done.
    + split; cbn; [done|by apply succ_in_range|done|by rw length_insert].
    + rw decide_True // /contents. cbn [rb_data rb_size rb_tail rb_head].
      assert (Hadv : advance (rb_size r) (rb_tail r) (length (contents r)) = rb_head r).
      { rw advance_distance //. rw Hlen /distance. repeat case_decide; lia. }
      assert (Hcount : Z.to_nat (distance (rb_size r) (rb_tail r) (succ_in (rb_size r) (rb_head r))) = S (length (contents r))).
      { apply Nat2Z.inj. rw Z2Nat.id; [|rw /distance; case_decide; [lia|]; pose proof (succ_in_range _ _ Hh); lia].
        rw Nat2Z.inj_succ Hlen. rw Hlen in Hroom. revert Hroom Hne. rw /succ_in /distance. repeat case_decide; lia. }
      rw Hcount slice_snoc Hadv list_lookup_total_insert_eq; [|lia].
      rw slice_store; [by rw /contents slice_length|done|lia|lia|].
      intros k Hk. rw advance_distance; [|done|lia]. revert Hk Hlen Hroom. rw /distance. repeat case_decide; lia.
Qed.

(** The first byte goes out. *)
Lemma ring_get_run r : ring_ok r ->
  exists r', ring_ok r' /\ rb_size r' = rb_size r /\ ring_get r = Ret (head (contents r), r') /\
    contents r' = tail (contents r).
Proof.
  intros Hr. destruct (contents_length r Hr) as [Hlen Hlt]. assert (Hr' := Hr). destruct Hr as [Hs Hh Ht Hd].
  rw /ring_get. case_decide as He.
  - assert (Hnil : contents r = []) by (destruct (contents r); [done|]; cbn [length] in Hlen; revert Hlen; rw /distance; case_decide; lia).
    exists r. by rw Hnil.
  - assert (Hpos : 0 < distance (rb_size r) (rb_tail r) (rb_head r)) by (rw /distance; case_decide; lia).
    destruct (Z.to_nat (distance (rb_size r) (rb_tail r) (rb_head r))) as [|n] eqn:Hn; [lia|].
    rw /ring_load (list_lookup_lookup_total_lt (rb_data r)); [|lia]. cbn [mbind outcome_bind].
    rw ring_next_succ //. cbn [mbind outcome_bind].
    exists (Ring (rb_head r) (succ_in (rb_size r) (rb_tail r)) (rb_size r) (rb_data r)). split_and!; last first.
    { rw /contents Hn. cbn [slice tail]. cbn [rb_data rb_size rb_tail rb_head].
      replace (Z.to_nat (distance (rb_size r) (succ_in (rb_size r) (rb_tail r)) (rb_head r))) with n; [done|].
      apply Nat2Z.inj. assert (Z.of_nat (S n) = distance (rb_size r) (rb_tail r) (rb_head r)) as Hn' by lia.
      revert Hn'. rw /distance /succ_in. repeat case_decide; lia. }
    { by rw /contents Hn. }
    { done. }
    split; cbn; [done|done|by apply succ_in_range|done].
Qed.

(** Several bytes out, several in. *)
Lemma ring_read_run n r : ring_ok r ->
  exists r', ring_ok r' /\ rb_size r' = rb_size r /\
    ring_read n r = Ret (take n (contents r), r') /\ contents r' = drop n (contents r).
Proof.
  revert r. induction n as [|n IH]; intros r Hr; cbn [ring_read]; [by exists r|].
  destruct (ring_get_run r Hr) as (r1 & Hr1 & Hs1 & -> & Hc1). cbn [mbind outcome_bind].
  destruct (contents r) as [|b bs]; cbn [head tail] in *.
  { exists r1. by rw Hc1. }
  destruct (IH r1 Hr1) as (r2 & Hr2 & Hs2 & -> & Hc2). cbn [mbind outcome_bind]. exists r2.
  split_and!; [done|by rw Hs2| |by rw Hc2 Hc1]. by rw Hc1.
Qed.
Lemma ring_write_run bs r : ring_ok r ->
  exists r', let room := Z.to_nat (rb_size r - 1 - Z.of_nat (length (contents r))) in
    ring_ok r' /\ rb_size r' = rb_size r /\
    ring_write bs r = Ret (min (length bs) room, r') /\ contents r' = contents r ++ take room bs.
Proof.
  revert r. induction bs as [|b bs IH]; intros r Hr; cbn [ring_write].
  { exists r. by rw take_nil app_nil_r. }
  destruct (ring_put_run b r Hr) as (r1 & Hr1 & Hs1 & -> & Hc1). cbn [mbind outcome_bind].
  destruct (contents_length r Hr) as [_ Hlt]. case_decide as Hroom.
  - rw bool_decide_true //. destruct (IH r1 Hr1) as (r2 & Hr2 & Hs2 & -> & Hc2). cbn [mbind outcome_bind].
    rw Hc1 length_app Hs1 in Hc2 |- *. cbn [length] in *. exists r2.
    replace (Z.to_nat (rb_size r - 1 - Z.of_nat (length (contents r)))) with
      (S (Z.to_nat (rb_size r - 1 - Z.of_nat (length (contents r) + 1)))) by lia.
    split_and!; [done|by rw Hs2|done|]. rw Hc2. by rw -app_assoc.
  - rw bool_decide_false //. exists r1.
    replace (Z.to_nat (rb_size r - 1 - Z.of_nat (length (contents r)))) with O by lia.
    split_and!; [done|done|by rw Nat.min_0_r|]. by rw Hc1 app_nil_r.
Qed.

(** ** The ports as queues *)

(** An open port: whether the transmit interrupt is enabled, the bytes received and to be
    sent, and how many of each find room. *)
Record port := Port { p_txe : bool; p_rx : list Z; p_tx : list Z; p_rx_room : nat; p_tx_room : nat }.
(** The three ports, none while closed. *)
Definition ports : Type := list (option port).

Definition q_interrupt (j : nat) (rxne txe : bool) (rdr : Z) (ps : ports) : option Z * ports :=
  match ps !! j with
  | Some (Some p) =>
      let rx := if rxne && bool_decide (length (p_rx p) < p_rx_room p)%nat then p_rx p ++ [rdr] else p_rx p in
      if txe && p_txe p then
        (head (p_tx p),
         <[j := Some (Port (match p_tx p with [] => false | _ => true end) rx (tail (p_tx p)) (p_rx_room p) (p_tx_room p))]> ps)
      else (None, <[j := Some (Port (p_txe p) rx (p_tx p) (p_rx_room p) (p_tx_room p))]> ps)
  | _ => (None, ps)
  end.
Definition q_write_port (j : nat) (bs : list Z) (ps : ports) : option nat * ports :=
  match ps !! j with
  | Some (Some p) =>
      let n := min (length bs) (p_tx_room p - length (p_tx p)) in
      (Some n, <[j := Some (Port (if decide (n = O) then p_txe p else true) (p_rx p) (p_tx p ++ take n bs) (p_rx_room p) (p_tx_room p))]> ps)
  | _ => (None, ps)
  end.
(** The debug port is the last one. *)
Definition q_echo (j : nat) (bs : list Z) (ps : ports) : ports :=
  if decide (bs <> [] /\ j <> 2%nat) then (q_write_port 2 bs ps).2 else ps.
Definition q_write (j : nat) (bs : list Z) (ps : ports) : option nat * ports :=
  match q_write_port j bs ps with
  | (Some n, ps) => (Some n, q_echo j (take n bs) ps)
  | (None, ps) => (None, ps)
  end.
Definition q_read (j n : nat) (ps : ports) : option (list Z) * ports :=
  match ps !! j with
  | Some (Some p) =>
      (Some (take n (p_rx p)),
       q_echo j (take n (p_rx p)) (<[j := Some (Port (p_txe p) (drop n (p_rx p)) (p_tx p) (p_rx_room p) (p_tx_room p))]> ps))
  | _ => (None, ps)
  end.

(** What happens at the port [j]: an interrupt, a call; and what is seen of it. *)
Inductive usart_event :=
  | Interrupt (j : nat) (rxne txe : bool) (rdr : Z) | ReadCall (j n : nat) | WriteCall (j : nat) (bs : list Z).
Inductive usart_result := Sent (b : option Z) | BytesRead (bs : option (list Z)) | BytesWritten (n : option nat).
Definition run_event (e : usart_event) : M bank usart_result :=
  match e with
  | Interrupt j rxne txe rdr => b ← USART_IRQHandler (S j) rxne txe rdr; mret (Sent b)
  | ReadCall j n => bs ← usart_read (Z.of_nat (S j)) n; mret (BytesRead bs)
  | WriteCall j bs => n ← usart_write (Z.of_nat (S j)) bs; mret (BytesWritten n)
  end.
Definition q_event (e : usart_event) (ps : ports) : usart_result * ports :=
  match e with
  | Interrupt j rxne txe rdr => let '(b, ps) := q_interrupt j rxne txe rdr ps in (Sent b, ps)
  | ReadCall j n => let '(bs, ps) := q_read j n ps in (BytesRead bs, ps)
  | WriteCall j bs => let '(n, ps) := q_write j bs ps in (BytesWritten n, ps)
  end.
Fixpoint run_events (es : list usart_event) : M bank (list usart_result) :=
  match es with
  | [] => mret []
  | e :: es' => x ← run_event e; xs ← run_events es'; mret (x :: xs)
  end.
Fixpoint q_events (es : list usart_event) (ps : ports) : list usart_result * ports :=
  match es with
  | [] => ([], ps)
  | e :: es' => let '(x, ps) := q_event e ps in let '(xs, ps) := q_events es' ps in (x :: xs, ps)
  end.

(** A ring buffer holds the queue. *)
Definition holds (r : ring) (q : list Z) (room : nat) : Prop :=
  ring_ok r /\ contents r = q /\ rb_size r = Z.of_nat (S room).
Definition usart_is (u : usart_t) (p : option port) : Prop :=
  exists hw, us_hw u = Some hw /\
    match p with
    | None => cr1_UE hw = false
    | Some p => cr1_UE hw = true /\ cr1_TXEIE hw = p_txe p /\
        holds (us_rx u) (p_rx p) (p_rx_room p) /\ holds (us_tx u) (p_tx p) (p_tx_room p)
    end.
Definition bank_is (b : bank) (ps : ports) : Prop :=
  exists u0 us, b = u0 :: us /\ Forall2 usart_is us ps /\ length ps = 3%nat.

(** Only open ports raise interrupts. *)
Definition event_ok (ps : ports) (e : usart_event) : Prop :=
  match e with
  | Interrupt j _ _ _ => exists p, ps !! j = Some (Some p)
  | ReadCall j _ | WriteCall j _ => (j < 3)%nat
  end.

(** A call on a port of the bank. *)
Lemma bank_lookup b ps j p : bank_is b ps -> ps !! j = Some p ->
  exists u, b !! S j = Some u /\ usart_is u p.
Proof. intros (u0 & us & -> & Hus & _) Hp. by apply (Forall2_lookup_r _ _ _ _ _ Hus). Qed.
Lemma bank_update b ps j u p : bank_is b ps -> usart_is u p -> bank_is (<[S j := u]> b) (<[j := p]> ps).
Proof.
  intros (u0 & us & -> & Hus & Hl) Hu. exists u0, (<[j := u]> us).
  split_and!; [done|by apply Forall2_insert|by rw length_insert].
Qed.
Lemma handle_of j : (j < 3)%nat -> usart_get_by_handle (Z.of_nat (S j)) = Some (S j).
Proof. intros Hj. rw /usart_get_by_handle decide_True; [by rw Nat2Z.id|lia]. Qed.
Lemma ports_lookup b ps j : bank_is b ps -> (j < 3)%nat -> exists p, ps !! j = Some p.
Proof. intros (u0 & us & _ & _ & Hl) Hj. apply lookup_lt_is_Some. lia. Qed.

Lemma holds_room r q room : holds r q room -> (length q <= room)%nat.
Proof. intros (Hr & <- & Hs). destruct (contents_length r Hr). lia. Qed.

Lemma holds_put b r q room : holds r q room ->
  exists x r', ring_put b r = Ret (x, r') /\ holds r' (if bool_decide (length q < room)%nat then q ++ [b] else q) room.
Proof.
  intros (Hr & <- & Hs). destruct (ring_put_run b r Hr) as (r' & Hr' & Hs' & -> & Hc). do 2 eexists.
  split; [done|]. split_and!; [done| |by rw Hs']. rw Hc. case_decide; case_bool_decide; try done; lia.
Qed.
Lemma holds_get r q room : holds r q room -> exists r', ring_get r = Ret (head q, r') /\ holds r' (tail q) room.
Proof.
  intros (Hr & <- & Hs). destruct (ring_get_run r Hr) as (r' & Hr' & Hs' & -> & Hc). eexists. split; [done|].
  split_and!; [done|done|by rw Hs'].
Qed.
Lemma holds_read n r q room : holds r q room ->
  exists r', ring_read n r = Ret (take n q, r') /\ holds r' (drop n q) room.
Proof.
  intros (Hr & <- & Hs). destruct (ring_read_run n r Hr) as (r' & Hr' & Hs' & -> & Hc). eexists. split; [done|].
  split_and!; [done|done|by rw Hs'].
Qed.
Lemma holds_write bs r q room : holds r q room ->
  exists r', ring_write bs r = Ret (min (length bs) (room - length q), r') /\
    holds r' (q ++ take (min (length bs) (room - length q)) bs) room.
Proof.
  intros (Hr & <- & Hs). destruct (ring_write_run bs r Hr) as (r' & Hr' & Hs' & -> & Hc).
  replace (Z.to_nat (rb_size r - 1 - Z.of_nat (length (contents r)))) with (room - length (contents r))%nat in * by lia.
  eexists. split; [done|]. split_and!; [done| |by rw Hs']. rw Hc. f_equal.
  destruct (decide (length bs <= room - length (contents r))%nat).
  - rw Nat.min_l // !take_ge //; lia.
  - rw Nat.min_r //; lia.
Qed.

Lemma write_port_is j bs b ps : bank_is b ps -> (j < 3)%nat ->
  exists b', usart_write_port (Z.of_nat (S j)) bs b = Ret ((q_write_port j bs ps).1, b') /\
    bank_is b' (q_write_port j bs ps).2.
Proof.
  intros Hb Hj. destruct (ports_lookup b ps j Hb Hj) as [p Hp].
  destruct (bank_lookup b ps j p Hb Hp) as (u & Hu & hw & Hhw & Hport).
  rw /usart_write_port handle_of // /q_write_port Hp /get_usart /get_hw. rw (bind_run _ _ b u b); [|by rw /mbind /M_bind /gets Hu].
  rw Hhw. rw (bind_run _ _ b hw b) //. destruct p as [p|]; [|by rw Hport; exists b].
  destruct Hport as (HUE & HTXE & Hrx & Htx). rw HUE. cbn [negb].
  destruct (holds_write bs _ _ _ Htx) as (r' & Hw & Hr').
  erewrite (bind_run _ _ b _ b); [|by rw /lift_outcome Hw].
  eexists. split; [done|]. apply bank_update; [done|]. eexists. split; [done|]. cbn. case_decide; by split_and!.
Qed.
Lemma echo_is j bs b ps : bank_is b ps -> (j < 3)%nat ->
  exists b', echo (Z.of_nat (S j)) bs b = Ret (tt, b') /\ bank_is b' (q_echo j bs ps).
Proof.
  intros Hb Hj. rw /echo /q_echo /USART_DBG.
  destruct (write_port_is 2 bs b ps Hb) as (b' & Hw & Hb'); [lia|].
  case_decide as H1; case_decide as H2; [| | |by exists b].
  - exists b'. split; [|done]. by rw (bind_run _ _ b _ b' Hw).
  - destruct H1, H2. split; [done|lia].
  - destruct H1. destruct H2. split; [done|lia].
Qed.
Lemma write_is j bs b ps : bank_is b ps -> (j < 3)%nat ->
  exists b', usart_write (Z.of_nat (S j)) bs b = Ret ((q_write j bs ps).1, b') /\ bank_is b' (q_write j bs ps).2.
Proof.
  intros Hb Hj. rw /usart_write /q_write. destruct (write_port_is j bs b ps Hb Hj) as (b1 & Hw & Hb1).
  rw (bind_run _ _ b _ b1 Hw). destruct (q_write_port j bs ps) as [[n|] ps1]; cbn [fst snd] in *; [|by exists b1].
  destruct (echo_is j (take n bs) b1 ps1 Hb1 Hj) as (b2 & He & Hb2). exists b2. split; [|done]. by rw (bind_run _ _ b1 _ b2 He).
Qed.
Lemma read_is j n b ps : bank_is b ps -> (j < 3)%nat ->
  exists b', usart_read (Z.of_nat (S j)) n b = Ret ((q_read j n ps).1, b') /\ bank_is b' (q_read j n ps).2.
Proof.
  intros Hb Hj. destruct (ports_lookup b ps j Hb Hj) as [p Hp].
  destruct (bank_lookup b ps j p Hb Hp) as (u & Hu & hw & Hhw & Hport).
  rw /usart_read handle_of // /q_read Hp /get_usart /get_hw. rw (bind_run _ _ b u b); [|by rw /mbind /M_bind /gets Hu].
  rw Hhw. rw (bind_run _ _ b hw b) //. destruct p as [p|]; [|by rw Hport; exists b].
  destruct Hport as (HUE & HTXE & Hrx & Htx). rw HUE. cbn [negb].
  destruct (holds_read n _ _ _ Hrx) as (r' & Hr & Hr'). cbn [fst snd].
  set (b1 := <[S j := set_rx r' u]> b).
  destruct (echo_is j (take n (p_rx p)) b1 (<[j := Some (Port (p_txe p) (drop n (p_rx p)) (p_tx p) (p_rx_room p) (p_tx_room p))]> ps))
    as (b2 & He & Hb2); [|done|].
  - apply bank_update; [done|]. exists hw. split; [done|]. by split_and!.
  - exists b2. split; [|done]. rw (bind_run _ _ b (take n (p_rx p), r') b); [|by rw /lift_outcome Hr]. rw (bind_run _ _ b tt b1) //.
    by rw (bind_run _ _ b1 _ b2 He).
Qed.
Lemma interrupt_is j rxne txe rdr b ps p : bank_is b ps -> ps !! j = Some (Some p) ->
  exists b', USART_IRQHandler (S j) rxne txe rdr b = Ret ((q_interrupt j rxne txe rdr ps).1, b') /\
    bank_is b' (q_interrupt j rxne txe rdr ps).2.
Proof.
  intros Hb Hp. destruct (bank_lookup b ps j _ Hb Hp) as (u & Hu & hw & Hhw & HUE & HTXE & Hrx & Htx).
  rw /USART_IRQHandler /q_interrupt Hp /get_usart /get_hw. rw (bind_run _ _ b u b); [|by rw /mbind /M_bind /gets Hu].
  rw Hhw. rw (bind_run _ _ b hw b) //.
  destruct (holds_put rdr _ _ _ Hrx) as (x & r1 & Hput & Hr1). destruct (holds_get _ _ _ Htx) as (r2 & Hget & Hr2).
  set (rx' := if rxne then r1 else us_rx u).
  rw (bind_run _ _ b (set_rx rx' u) b); [|by destruct rxne; [rw /mbind /M_bind /lift_outcome Hput|destruct u]].
  assert (Hrx' : holds rx' (if rxne && bool_decide (length (p_rx p) < p_rx_room p)%nat then p_rx p ++ [rdr] else p_rx p) (p_rx_room p))
    by by destruct rxne.
  rw HTXE. destruct (txe && p_txe p) eqn:Hen.
  - cbn [us_tx set_rx]. rw (bind_run _ _ b (head (p_tx p), r2) b); [|by rw /lift_outcome Hget].
    eexists. split; [done|]. apply bank_update; [done|].
    revert HTXE Htx Hr2. destruct (p_tx p) as [|y tx]; cbn [head tail]; intros HTXE Htx Hr2.
    + eexists. split; [done|]. by split_and!.
    + exists hw. split; [done|]. split_and!; [done| |done|done]. cbn. by apply andb_prop in Hen as [_ <-].
  - eexists. split; [done|]. apply bank_update; [done|]. exists hw. split; [done|]. by split_and!.
Qed.

Lemma event_is e b ps : bank_is b ps -> event_ok ps e ->
  exists b', run_event e b = Ret ((q_event e ps).1, b') /\ bank_is b' (q_event e ps).2.
Proof.
  intros Hb He. destruct e as [j rxne txe rdr|j n|j bs]; cbn [run_event q_event event_ok] in *.
  - destruct He as [p Hp]. destruct (interrupt_is j rxne txe rdr b ps p Hb Hp) as (b' & Hrun & Hb').
    rw (bind_run _ _ b _ b' Hrun). destruct (q_interrupt _ _ _ _ _). by exists b'.
  - destruct (read_is j n b ps Hb He) as (b' & Hrun & Hb'). rw (bind_run _ _ b _ b' Hrun). destruct (q_read _ _ _). by exists b'.
  - destruct (write_is j bs b ps Hb He) as (b' & Hrun & Hb'). rw (bind_run _ _ b _ b' Hrun). destruct (q_write _ _ _). by exists b'.
Qed.

(** The open ports stay open. *)
Definition opened_in (ps ps' : ports) : Prop := forall j p, ps !! j = Some (Some p) -> exists p', ps' !! j = Some (Some p').
#[export] Instance opened_in_preorder : PreOrder opened_in.
Proof. split; [by intros ps j p ?; exists p|]. intros a b c H1 H2 j p Hp. destruct (H1 j p Hp) as [p' Hp']. eauto. Qed.
Lemma opened_in_insert ps j p p' : ps !! j = Some (Some p) -> opened_in ps (<[j := Some p']> ps).
Proof.
  intros Hp k q Hq. destruct (decide (j = k)) as [<-|Hne]; [|by rw list_lookup_insert_ne //; exists q].
  exists p'. apply list_lookup_insert_eq. by eapply lookup_lt_Some.
Qed.
Lemma opened_in_write_port j bs ps : opened_in ps (q_write_port j bs ps).2.
Proof. rw /q_write_port. destruct (ps !! j) as [[p|]|] eqn:Hp; [by eapply opened_in_insert|done..]. Qed.
Lemma opened_in_echo j bs ps : opened_in ps (q_echo j bs ps).
Proof. rw /q_echo. case_decide; [apply opened_in_write_port|done]. Qed.
Lemma opened_in_event e ps : opened_in ps (q_event e ps).2.
Proof.
  destruct e as [j rxne txe rdr|j n|j bs]; cbn [q_event].
  - rw /q_interrupt. destruct (ps !! j) as [[p|]|] eqn:Hp; [|done..]. destruct (txe && p_txe p); by eapply opened_in_insert.
  - rw /q_read. destruct (ps !! j) as [[p|]|] eqn:Hp; [|done..]. etrans; [by eapply opened_in_insert|apply opened_in_echo].
  - rw /q_write. pose proof (opened_in_write_port j bs ps) as H. destruct (q_write_port j bs ps) as [[n|] ps1]; [|done].
    etrans; [exact H|apply opened_in_echo].
Qed.

Lemma events_are es b ps : bank_is b ps -> Forall (event_ok ps) es ->
  exists b', run_events es b = Ret ((q_events es ps).1, b') /\ bank_is b' (q_events es ps).2.
Proof.
  revert b ps. induction es as [|e es IH]; intros b ps Hb Hes; cbn [run_events q_events]; [by exists b|].
  apply Forall_cons in Hes as [He Hes]. destruct (event_is e b ps Hb He) as (b1 & Hrun & Hb1).
  pose proof (opened_in_event e ps) as Hopen. rw (bind_run _ _ b _ b1 Hrun). destruct (q_event e ps) as [x ps1]. cbn [fst snd] in *.
  destruct (IH b1 ps1 Hb1) as (b2 & Hrest & Hb2).
  { eapply Forall_impl; [exact Hes|]. intros [j ? ? ?|j ?|j ?]; cbn; [|done..]. intros [p Hp]. by eapply Hopen. }
  rw (bind_run _ _ b1 _ b2 Hrest). destruct (q_events es ps1). by exists b2.
Qed.

(** C40: in any order of interrupts, reads and writes at the open ports the ring buffers
    are bounded queues: every call and interrupt has the result it has on queues, nothing
    is read or written outside of the buffers, bytes come out in the order they went in,
    and a byte is lost only when its queue is full. *)
Theorem usart_queues es b ps : bank_is b ps -> Forall (event_ok ps) es ->
  exists b', run_events es b = Ret ((q_events es ps).1, b') /\ bank_is b' (q_events es ps).2.
Proof. apply events_are. Qed.

(** ** Waiting until everything is sent *)

(** [turns] are the calls and interrupts between one look at the buffer and the next. *)
Fixpoint usart_flush (handle : Z) (turns : list (list usart_event)) : M bank unit :=
  match usart_get_by_handle handle with
  | None => mret tt
  | Some i =>
      u ← get_usart i;
      if decide (rb_head (us_tx u) = rb_tail (us_tx u)) then mret tt
      else match turns with
           | [] => raise OutOfFuel
           | es :: turns' => _ ← run_events es; usart_flush handle turns'
           end
  end.

Lemma holds_nil r q room : holds r q room -> rb_head r = rb_tail r <-> q = [].
Proof.
  intros (Hr & <- & _). destruct (contents_length r Hr) as [Hlen _]. rw -length_zero_iff_nil. destruct Hr as [? ? ? ?].
  revert Hlen. rw /distance. case_decide; lia.
Qed.
(** The wait ends with the last byte, when as many transmit interrupts come as there are
    bytes in the buffer; nothing but the buffer changes. *)
Lemma flush_ends p : forall j b ps, bank_is b ps -> ps !! j = Some (Some p) -> p_tx p = [] \/ p_txe p = true ->
  exists b', usart_flush (Z.of_nat (S j)) (replicate (length (p_tx p)) [Interrupt j false true 0]) b = Ret (tt, b') /\
    bank_is b' (<[j := Some (Port (p_txe p) (p_rx p) [] (p_rx_room p) (p_tx_room p))]> ps).
Proof.
  destruct p as [txe rx tx rxr txr]. cbn [p_tx p_txe p_rx p_rx_room p_tx_room].
  induction tx as [|x tx IH]; intros j b ps Hb Hp Hen.
  all: assert (Hj : (j < 3)%nat) by (destruct Hb as (? & ? & _ & _ & <-); by eapply lookup_lt_Some).
  all: destruct (bank_lookup b ps j _ Hb Hp) as (u & Hu & hw & _ & _ & _ & _ & Htx).
  all: cbn [length replicate usart_flush]; rw handle_of // /get_usart (bind_run _ _ b u b); [|by rw /mbind /M_bind /gets Hu].
  - rw decide_True; [by rw list_insert_id; [exists b|]|]. by apply (holds_nil _ _ _ Htx).
  - rw decide_False; [|by rw (holds_nil _ _ _ Htx)]. destruct Hen as [Hen|Hen]; [done|subst txe].
    destruct (events_are [Interrupt j false true 0] b ps Hb) as (b1 & Hrun & Hb1); [by repeat econstructor|].
    rw (bind_run _ _ b _ b1 Hrun). revert Hb1. cbn [q_events q_event]. rw /q_interrupt Hp. cbn [p_txe p_tx p_rx p_rx_room p_tx_room andb fst snd head tail].
    intros Hb1. destruct (IH j b1 _ Hb1) as (b2 & Hflush & Hb2).
    { apply list_lookup_insert_eq. by eapply lookup_lt_Some. }
    { by right. }
    exists b2. split; [done|]. by rw list_insert_insert_eq in Hb2.
Qed.

(** ** Opening ports *)

Lemma holds_empty n : holds (Ring 0 0 (Z.of_nat (S n)) (replicate (Z.to_nat (Z.of_nat (S n))) 0)) [] n.
Proof.
  split_and!; [|done|done]. split; cbn [rb_size rb_head rb_tail rb_data]; [lia..|]. rw length_replicate. lia.
Qed.
(** A port that is initialized and opened is a pair of empty queues; a buffer of [size]
    bytes has room for one less. *)
Lemma open_is clock h baud rx tx b ps j : bank_is b ps -> h = Z.of_nat (S j) -> ps !! j = Some None -> baud <> 0 ->
  exists b', (_ ← usart_init clock h baud (Z.of_nat (S rx)) (Z.of_nat (S tx)); usart_open h) b = Ret (tt, b') /\
    bank_is b' (<[j := Some (Port false [] [] rx tx)]> ps).
Proof.
  intros Hb -> Hp Hbaud. assert (Hj : (j < 3)%nat).
  { destruct Hb as (? & ? & _ & _ & <-). by eapply lookup_lt_Some. }
  destruct (bank_lookup b ps j _ Hb Hp) as (u & Hu & hw & Hhw & Hoff).
  rw /usart_init /usart_open !handle_of // /get_usart.
  set (u1 := Usart (Some (Hardware false false true (clock / baud))) baud
    (Ring (rb_head (us_rx u)) (rb_tail (us_rx u)) (Z.of_nat (S rx)) (rb_data (us_rx u)))
    (Ring (rb_head (us_tx u)) (rb_tail (us_tx u)) (Z.of_nat (S tx)) (rb_data (us_tx u)))).
  rw (bind_run _ _ b tt (<[S j := u1]> b)); last first.
  { rw (bind_run _ _ b u b); [|by rw /mbind /M_bind /gets Hu]. cbn [us_hw]. rw Hhw decide_False //. }
  set (b1 := <[S j := u1]> b).
  assert (Hu1 : b1 !! S j = Some u1) by by (apply list_lookup_insert_eq; eapply lookup_lt_Some).
  rw (bind_run _ _ b1 u1 b1); [|by rw /mbind /M_bind /gets Hu1]. eexists. split; [done|].
  rw /b1 list_insert_insert_eq. apply bank_update; [done|]. eexists. split; [done|].
  split; [done|]. split; [done|]. split; apply holds_empty.
Qed.

Lemma m_usart_is : bank_is m_usart [None; None; None].
Proof. do 2 eexists. split_and!; [done| |done]. by repeat constructor; eexists. Qed.

(** Port 1 and the debug port, with room for three and two bytes: a byte of five is not
    taken any more, the others are read in order and sent to the debug port. *)
Definition two_ports : M bank unit :=
  _ ← (_ ← usart_init 80000000 1 115200 4 4; usart_open 1);
  (_ ← usart_init 80000000 3 115200 3 3; usart_open 3).
Definition demo_events : list usart_event :=
  [Interrupt 0 true false 65; Interrupt 0 true false 66; Interrupt 0 true false 67; Interrupt 0 true false 68;
   ReadCall 0 2; Interrupt 2 false true 0; WriteCall 0 [1; 2; 3; 4]; Interrupt 0 false true 0; ReadCall 0 5].
Definition demo_ports : ports := [Some (Port false [] [] 3 3); None; Some (Port false [] [] 2 2)].
Example demo_run : exists b, (_ ← two_ports; run_events demo_events) m_usart =
  Ret ([Sent None; Sent None; Sent None; Sent None; BytesRead (Some [65; 66]); Sent (Some 65);
        BytesWritten (Some 3%nat); Sent (Some 1); BytesRead (Some [67])], b).
Proof. eexists. vm_compute. reflexivity. Qed.
(** A handle behind the ports is taken for one. *)
Example handle_behind : usart_read 4 1 m_usart = Exn (Fault OobRead).
Proof. reflexivity. Qed.

Lemma demo_ports_is : exists b, two_ports m_usart = Ret (tt, b) /\ bank_is b demo_ports.
Proof.
  destruct (open_is 80000000 1 115200 3 3 _ _ 0 m_usart_is) as (b1 & H1 & Hb1); [done..|].
  destruct (open_is 80000000 3 115200 2 2 _ _ 2 Hb1) as (b2 & H2 & Hb2); [done..|].
  exists b2. split; [|done]. rw /two_ports. by rw (bind_run _ _ m_usart _ b1 H1).
Qed.
Lemma usart_queues_witness : exists b b', two_ports m_usart = Ret (tt, b) /\
  run_events demo_events b = Ret ((q_events demo_events demo_ports).1, b').
Proof.
  destruct demo_ports_is as (b & Hb & His).
  destruct (usart_queues demo_events b demo_ports His) as (b' & Hrun & _).
  - repeat (apply Forall_cons_2; [first [by eexists | cbn; lia]|]). apply Forall_nil_2.
  - exists b, b'. split; [exact Hb|exact Hrun].
Defined.
