(* ===== verification/Shield.v ===== *)
(** * The modem of the shield

    [external_libs/gemalto/platform/connect_shield]: the second way to the secure element,
    and to the network. [at_parser.c] recognizes the answers of the modem by the DJB2 hashes
    of their first words; [modem.c] makes commands for the secure element and TCP sockets
    of it; [ConnectShield_SE.cpp] and [ConnectShield_Net.cpp] give them to their interfaces.
    The serial port is an interface, which [Usart] implements; formatted output to the port
    is part of the C library. *)
From Stdlib Require Import Ascii String.
From S2P Require Import Prelude Text SecureElement Modem Usart.

(** ** The port *)

(** [usart_read], none for -1; [usart_write]; [fprintf]; [delay_ms]; the clock of the
    modem. *)
Class ShieldPort (K : Type) := {
  port_read : nat -> M K (option (list Z));
  port_write : list Z -> M K (option nat);
  port_print : list Z -> M K unit;
  delay_ms : Z -> M K unit;
  pwm_start : M K unit }.

(** ** The parser *)

Definition AT_GENERIC_EVENT_MASK : Z := 128.
Definition AT_SPECIFIC_EVENT_MASK : Z := 64.
Definition AT_NO_EVENT : Z := Z.lor AT_GENERIC_EVENT_MASK 0.
Definition AT_IDLE_EVENT : Z := Z.lor AT_GENERIC_EVENT_MASK 1.
Definition AT_TIMEOUT_EVENT : Z := Z.lor AT_GENERIC_EVENT_MASK 2.
Definition AT_COMMAND_SUCCESS_EVENT : Z := Z.lor AT_GENERIC_EVENT_MASK 3.
Definition AT_COMMAND_FAILURE_EVENT : Z := Z.lor AT_GENERIC_EVENT_MASK 4.
Definition AT_COMMAND_NOTIFICATION_EVENT : Z := Z.lor AT_GENERIC_EVENT_MASK 5.

(** An entry of a table; callbacks act outside of the parser. *)
Record at_map_entry_t (K : Type) := AtEntry { entry_hash : Z; entry_evt : Z; entry_cb : option (Z -> M K unit) }.
Arguments AtEntry {K}.
Arguments entry_hash {K} a.
Arguments entry_evt {K} a.
Arguments entry_cb {K} a.
Record at_t (K : Type) := At {
  at_locked : bool;
  generic_table : list (at_map_entry_t K);
  specific_table : list (at_map_entry_t K);
  async_cb : option (Z -> M K unit);
  at_io : K }.
Arguments At {K}.
Arguments at_locked {K} a.
Arguments generic_table {K} a.
Arguments specific_table {K} a.
Arguments async_cb {K} a.
Arguments at_io {K} a.

Definition is_response (evt : Z) : bool := (evt =? AT_COMMAND_SUCCESS_EVENT) || (evt =? AT_COMMAND_FAILURE_EVENT).
(** The characters a word ends with, and those skipped in front of one. *)
Definition is_delimiter (c : Z) : bool := (c =? 10) || (c =? 62) || (c =? 44) || (c =? 58).
Definition is_blank (c : Z) : bool := (c =? 32) || (c =? 13) || (c =? 10).
(** [((hash << 5) + hash) + c]. *)
Definition djb2_step (hash c : Z) : Z := u32 (u32 (u32 (Z.shiftl hash 5) + hash) + c).

Section parser.
Context {K : Type} `{!ShieldPort K} (fuel : nat).

Definition on_io {A} (m : M K A) : M (at_t K) A := fun a =>
  match m (at_io a) with
  | Ret (x, k) => Ret (x, At (at_locked a) (generic_table a) (specific_table a) (async_cb a) k)
  | Exn e => Exn e
  end.
Definition set_locked (b : bool) : M (at_t K) unit :=
  modify (fun a => At b (generic_table a) (specific_table a) (async_cb a) (at_io a)).
Definition set_async (f : option (Z -> M K unit)) : M (at_t K) unit :=
  modify (fun a => At (at_locked a) (generic_table a) (specific_table a) f (at_io a)).

(** [async_cb] is left as it is. *)
Definition at_init (table : list (at_map_entry_t K)) : M (at_t K) unit :=
  modify (fun a => At false table [] (async_cb a) (at_io a)).
Definition at_unlock : M (at_t K) unit :=
  modify (fun a => At false (generic_table a) [] (async_cb a) (at_io a)).

Definition at_hash_map_contains (hash : Z) (a : at_t K) : option (at_map_entry_t K) :=
  match list_find (fun e => hash = entry_hash e) (generic_table a) with
  | Some (_, e) => Some e
  | None => snd <$> list_find (fun e => hash = entry_hash e) (specific_table a)
  end.

(** One character, if there is one. *)
Definition at_read_c : M (at_t K) (option Z) :=
  r ← on_io (port_read 1);
  mret (match r with Some [c] => Some c | _ => None end).

(** What is done about a known word. *)
Definition at_found (e : at_map_entry_t K) : M (at_t K) unit :=
  let evt := entry_evt e in
  _ ← (if is_response evt then _ ← on_io (delay_ms 100); at_unlock else mret tt);
  _ ← (match entry_cb e with Some f => on_io (f evt) | None => mret tt end);
  f ← gets async_cb;
  match f with
  | Some f =>
      if is_response evt then _ ← on_io (f evt); set_async None
      else if evt =? AT_COMMAND_NOTIFICATION_EVENT then on_io (f evt)
      else mret tt
  | None => mret tt
  end.

(** The loop; [c] is the last character, which is not looked at while [read] is zero. *)
Fixpoint recv_loop (n : nat) (read hash c : Z) : M (at_t K) Z :=
  match n with
  | O => raise OutOfFuel
  | S n' =>
      let loop read hash c :=
        if negb (read =? 0) && negb (c =? 10) then recv_loop n' read hash c else mret AT_TIMEOUT_EVENT in
      r ← at_read_c;
      match r with
      | None => loop read hash c
      | Some c =>
          let read := u16 (read + 1) in
          if (read =? 1) && is_blank c then loop 0 hash c
          else
            let hash := djb2_step hash c in
            if is_delimiter c then
              a ← get;
              match at_hash_map_contains hash a with
              | Some e => _ ← at_found e; mret (entry_evt e)
              | None => loop read hash c
              end
            else loop read hash c
      end
  end.
Definition at_process_recv : M (at_t K) Z := recv_loop fuel 0 5381 0.

(** Events are awaited until [p] holds of one. *)
Fixpoint wait_until (n : nat) (p : Z -> bool) : M (at_t K) Z :=
  match n with
  | O => raise OutOfFuel
  | S n' => evt ← at_process_recv; if p evt then mret evt else wait_until n' p
  end.
Fixpoint wait_unlocked (n : nat) : M (at_t K) unit :=
  match n with
  | O => raise OutOfFuel
  | S n' => l ← gets at_locked; if l : bool then _ ← at_process_recv; wait_unlocked n' else mret tt
  end.
Definition at_lock : M (at_t K) unit :=
  _ ← wait_unlocked fuel;
  _ ← wait_until fuel (fun evt => evt =? AT_TIMEOUT_EVENT);
  set_locked true.
Definition at_wait_for_timeout : M (at_t K) unit :=
  _ ← wait_until fuel (fun evt => evt =? AT_TIMEOUT_EVENT); mret tt.
Definition at_wait_for_notification : M (at_t K) Z := wait_until fuel (fun evt => evt =? AT_COMMAND_NOTIFICATION_EVENT).
Definition at_wait_for_response : M (at_t K) Z := wait_until fuel is_response.
Definition at_wait_for_event (evt : Z) : M (at_t K) Z := wait_until fuel (fun e => e =? evt).

(** The bytes that are read; fewer than [len] after an error. The length returned is [len]
    in any case. *)
Fixpoint at_read_loop (n : nat) (len : nat) : M (at_t K) (list Z) :=
  match n with
  | O => raise OutOfFuel
  | S n' =>
      match len with
      | O => mret []
      | _ =>
          r ← on_io (port_read len);
          match r with
          | None => mret []
          | Some bs => rest ← at_read_loop n' (len - length bs); mret (bs ++ rest)
          end
      end
  end.
Definition at_read (len : nat) : M (at_t K) (list Z) := at_read_loop fuel len.
Fixpoint write_loop (n : nat) (bs : list Z) : M (at_t K) unit :=
  match n with
  | O => raise OutOfFuel
  | S n' =>
      match bs with
      | [] => mret tt
      | _ => r ← on_io (port_write bs); match r with None => mret tt | Some w => write_loop n' (drop w bs) end
      end
  end.
Definition at_write (bs : list Z) : M (at_t K) nat := _ ← write_loop fuel bs; mret (length bs).
Definition at_print (text : list Z) : M (at_t K) unit := on_io (port_print text).

(** A character into a variable that holds [c]. *)
Definition at_getc (c : Z) : M (at_t K) Z := bs ← at_read 1; mret (default c (head bs)).
End parser.

(** ** The modem *)

Definition MODEM_SYSLOADING_EVENT : Z := Z.lor AT_SPECIFIC_EVENT_MASK 0.
Definition MODEM_SYSSTART_EVENT : Z := Z.lor AT_SPECIFIC_EVENT_MASK 1.
Definition MODEM_CME_ERROR_EVENT : Z := Z.lor AT_SPECIFIC_EVENT_MASK 2.
Definition MODEM_CPIN_READY_EVENT : Z := Z.lor AT_SPECIFIC_EVENT_MASK 3.
Definition MODEM_CPIN_SIM_PIN_EVENT : Z := Z.lor AT_SPECIFIC_EVENT_MASK 4.
Definition MODEM_CREG_EVENT : Z := Z.lor AT_SPECIFIC_EVENT_MASK 5.
Definition MODEM_SISI_1_EVENT : Z := Z.lor AT_SPECIFIC_EVENT_MASK 6.
Definition MODEM_SISR_1_EVENT : Z := Z.lor AT_SPECIFIC_EVENT_MASK 7.
Definition MODEM_SISW_1_EVENT : Z := Z.lor AT_SPECIFIC_EVENT_MASK 8.
Definition MODEM_CSIM_EVENT : Z := Z.lor AT_SPECIFIC_EVENT_MASK 9.
Definition MODEM_MAX_PACKET_SIZE : Z := 1500.

(** The hashes and events of the table, without callbacks. *)
Definition m_modem_generic_table {K} : list (at_map_entry_t K) :=
  (fun '(h, e) => AtEntry h e None) <$>
  [(0x7c89a236, AT_COMMAND_SUCCESS_EVENT); (0x88718ac6, AT_COMMAND_FAILURE_EVENT);
   (0xca2f91d7, MODEM_SYSLOADING_EVENT); (0x09565007, MODEM_SYSSTART_EVENT);
   (0x5e224a29, AT_COMMAND_FAILURE_EVENT);
   (0x8f0ad8e0, MODEM_CPIN_READY_EVENT); (0xe9e8a4fb, MODEM_CPIN_SIM_PIN_EVENT);
   (0x7117678b, MODEM_CREG_EVENT);
   (0x0b66e692, MODEM_SISI_1_EVENT); (0x0c09c31b, MODEM_SISR_1_EVENT); (0x0c643da0, MODEM_SISW_1_EVENT);
   (0x711805b6, MODEM_CSIM_EVENT)].

Definition is_digit (c : Z) : bool := (48 <=? c) && (c <=? 57).
Definition is_hex_digit (c : Z) : bool := is_digit c || ((65 <=? c) && (c <=? 70)) || ((97 <=? c) && (c <=? 102)).
Definition digit_value (c : Z) : Z := if is_digit c then c - 48 else if 97 <=? c then c - 97 + 10 else c - 65 + 10.
Definition crlf : list Z := [13; 10].

Section modem.
Context {K : Type} `{!ShieldPort K} (fuel : nat).

Definition modem_send_at_command_no_wait_response (cmd : list Z) : M (at_t K) unit :=
  _ ← at_lock fuel; at_print cmd.
Definition modem_send_at_command (cmd : list Z) : M (at_t K) unit :=
  _ ← modem_send_at_command_no_wait_response cmd; _ ← at_wait_for_response fuel; mret tt.

(** The loops that read an answer; [c] is the last character. [None] is the return at the
    end of the line. *)
Fixpoint skip_to (n : nat) (p : Z -> bool) (c : Z) : M (at_t K) (option Z) :=
  match n with
  | O => raise OutOfFuel
  | S n' =>
      if p c then mret (Some c)
      else c ← at_getc fuel c; if c =? 10 then mret None else skip_to n' p c
  end.
(** The value of a number, of type [w]. *)
Fixpoint number_checked (n : nat) (w : Z -> Z) (c acc : Z) : M (at_t K) (option (Z * Z)) :=
  match n with
  | O => raise OutOfFuel
  | S n' =>
      if is_digit c then
        let acc := w (w (acc * 10) + (c - 48)) in
        c ← at_getc fuel c; if c =? 10 then mret None else number_checked n' w c acc
      else mret (Some (c, acc))
  end.
Fixpoint number (n : nat) (w : Z -> Z) (c acc : Z) : M (at_t K) (Z * Z) :=
  match n with
  | O => raise OutOfFuel
  | S n' =>
      if is_digit c then
        let acc := w (w (acc * 10) + (c - 48)) in
        c ← at_getc fuel c; number n' w c acc
      else mret (c, acc)
  end.
Fixpoint to_line_end (n : nat) (c : Z) : M (at_t K) Z :=
  match n with
  | O => raise OutOfFuel
  | S n' => if c =? 10 then mret c else c ← at_getc fuel c; to_line_end n' c
  end.

(** A number and the rest of its line; [c0] is what the variable for the characters holds
    before. *)
Definition number_line (w : Z -> Z) (c0 : Z) : M (at_t K) (Z * Z) :=
  c ← at_getc fuel c0;
  '(c, v) ← number fuel w c 0;
  c ← to_line_end fuel c;
  mret (v, c).

(** The state of the connection. The results are true, since every event is not zero, and
    [*srv_state]. *)
Fixpoint sisi_loop (n : nat) (c srv_state : Z) : M (at_t K) (bool * Z) :=
  match n with
  | O => raise OutOfFuel
  | S n' =>
      evt ← at_process_recv fuel;
      '(srv_state, c) ← (if evt =? MODEM_SISI_1_EVENT then
                           c ← at_getc fuel c;
                           '(c, v) ← number fuel u8 c srv_state;
                           c ← to_line_end fuel c;
                           mret (v, c)
                         else mret (srv_state, c));
      if is_response evt then mret (negb (evt =? 0), srv_state) else sisi_loop n' c srv_state
  end.
Definition modem_send_query_at_sisi (c0 : Z) : M (at_t K) (bool * Z) :=
  _ ← modem_send_at_command_no_wait_response (bytes "AT^SISI?" ++ crlf);
  sisi_loop fuel c0 0.

Definition quote : list Z := [34].
(** The answer to the question for the PIN of the SIM. *)
Fixpoint cpin_loop (n : nat) : M (at_t K) unit :=
  match n with
  | O => raise OutOfFuel
  | S n' =>
      evt ← at_process_recv fuel;
      evt ← (if evt =? MODEM_CPIN_SIM_PIN_EVENT then
               r ← at_wait_for_response fuel;
               if r =? AT_COMMAND_SUCCESS_EVENT then
                 _ ← modem_send_at_command (bytes "AT+CPIN=" ++ quote ++ bytes "1111" ++ quote ++ crlf);
                 mret AT_COMMAND_SUCCESS_EVENT
               else mret evt
             else if evt =? MODEM_CPIN_READY_EVENT then at_wait_for_response fuel
             else mret evt);
      if is_response evt then mret tt else cpin_loop n'
  end.
(** [first] is the static variable of the function. *)
Definition modem_init (first : bool) : M (at_t K) bool :=
  if negb first then mret false
  else
    _ ← at_init m_modem_generic_table;
    _ ← on_io pwm_start;
    _ ← wait_until fuel fuel (fun evt => evt =? MODEM_SYSSTART_EVENT);
    _ ← modem_send_at_command (bytes "AT" ++ crlf);
    _ ← modem_send_at_command (bytes "ATE0" ++ crlf);
    _ ← modem_send_at_command (bytes "AT^SPOW=1,0,0" ++ crlf);
    _ ← modem_send_at_command (bytes "AT+CMEE=2" ++ crlf);
    _ ← modem_send_at_command_no_wait_response (bytes "AT+CPIN?" ++ crlf);
    _ ← cpin_loop fuel;
    let quoted s := quote ++ bytes s ++ quote in
    _ ← modem_send_at_command (bytes "AT^SCFG=" ++ quoted "Tcp/WithURCs"%string ++ bytes "," ++ quoted "off"%string ++ crlf);
    _ ← modem_send_at_command (bytes "AT^SICS=1," ++ quoted "conType"%string ++ bytes "," ++ quoted "GPRS0"%string ++ crlf);
    _ ← modem_send_at_command (bytes "AT^SICS=1," ++ quoted "alphabet"%string ++ bytes "," ++ quoted "1"%string ++ crlf);
    _ ← modem_send_at_command (bytes "AT^SICS=1," ++ quoted "APN"%string ++ bytes "," ++ quoted "internet"%string ++ crlf);
    mret false.

(** An answer to the question for the registration, added to [mode] and [status]: the
    numbers and the last character; none for the return of false. *)
Definition creg_line (mode status c : Z) : M (at_t K) (option (Z * Z * Z)) :=
  r ← skip_to fuel is_digit c;
  match r with
  | None => mret None
  | Some c =>
      r ← number_checked fuel u8 c mode;
      match r with
      | None => mret None
      | Some (c, mode) =>
          r ← skip_to fuel is_digit c;
          match r with
          | None => mret None
          | Some c =>
              r ← number_checked fuel u8 c status;
              match r with
              | None => mret None
              | Some (c, status) => c ← to_line_end fuel c; mret (Some (mode, status, c))
              end
          end
      end
  end.
(** One question: none for the return of false, else the status and the last character. *)
Fixpoint creg_loop (n : nat) (mode status c : Z) : M (at_t K) (option (Z * Z)) :=
  match n with
  | O => raise OutOfFuel
  | S n' =>
      evt ← at_process_recv fuel;
      r ← (if evt =? MODEM_CREG_EVENT then creg_line mode status c else mret (Some (mode, status, c)));
      match r with
      | None => mret None
      | Some (mode, status, c) => if is_response evt then mret (Some (status, c)) else creg_loop n' mode status c
      end
  end.
Fixpoint bring_up_loop (n : nat) (c : Z) : M (at_t K) bool :=
  match n with
  | O => raise OutOfFuel
  | S n' =>
      _ ← modem_send_at_command_no_wait_response (bytes "AT+CREG?" ++ crlf);
      r ← creg_loop fuel 0 0 c;
      match r with
      | None => mret false
      | Some (status, c) => if (status =? 1) || (status =? 5) then mret true else bring_up_loop n' c
      end
  end.
(** [c0] is what the variable for the characters, which is not initialized, holds. *)
Definition modem_bring_up (c0 : Z) : M (at_t K) bool := bring_up_loop fuel c0.

(** *** Sockets *)

(** The state of the service ends the wait for a connection. The last result is -1. *)
Fixpoint open_loop (n : nat) (c0 : Z) : M (at_t K) bool :=
  match n with
  | O => raise OutOfFuel
  | S n' =>
      '(_, srv_state) ← modem_send_query_at_sisi c0;
      if (srv_state =? 5) || (srv_state =? 6) then mret false
      else if srv_state =? 4 then mret true else open_loop n' c0
  end.
(** [address] is the C string without its end. *)
Definition modem_open_tcp_socket (c0 : Z) (address : list Z) (port : Z) : M (at_t K) Z :=
  let handle := 1 in
  let command what value := bytes "AT^SISS=" ++ print_int 1 ++ bytes "," ++ quote ++ what ++ quote ++ bytes "," ++ quote ++ value ++ quote ++ crlf in
  _ ← modem_send_at_command (command (bytes "srvtype") (bytes "socket"));
  _ ← modem_send_at_command (command (bytes "address") (bytes "socktcp://" ++ address ++ bytes ":" ++ print_int port));
  _ ← modem_send_at_command (command (bytes "conId") (print_int handle));
  _ ← modem_send_at_command (bytes "AT^SISO=" ++ print_int handle ++ crlf);
  ok ← open_loop fuel c0;
  mret (if ok : bool then handle else -1).

(** Events are awaited until the one with [answer]; false at a failure. With another handle
    than 1 the first event ends the wait. *)
Fixpoint await_answer (n : nat) (handle answer : Z) : M (at_t K) bool :=
  match n with
  | O => raise OutOfFuel
  | S n' =>
      evt ← at_process_recv fuel;
      if (evt =? MODEM_CME_ERROR_EVENT) || (evt =? AT_COMMAND_FAILURE_EVENT) then mret false
      else if (handle =? 1) && negb (evt =? answer) then await_answer n' handle answer
      else mret true
  end.

(** The array [data] is written from [i] on. *)
Definition write_data (data : list Z) (i : Z) (bs : list Z) : outcome (list Z) :=
  let k := Z.to_nat i in
  if decide (k + length bs <= length data)%nat then Ret (take k data ++ bs ++ drop (k + length bs) data)
  else Exn (Fault OobWrite).

(** The results are the value returned and the array. *)
Fixpoint read_socket_loop (n : nat) (c0 handle len i read : Z) (data : list Z) : M (at_t K) (Z * list Z) :=
  match n with
  | O => raise OutOfFuel
  | S n' =>
      if i <? len then
        '(_, srv_state) ← modem_send_query_at_sisi c0;
        if (srv_state =? 5) || (srv_state =? 6) then mret (-1, data)
        else
          let toread := Z.min (u16 (len - i)) MODEM_MAX_PACKET_SIZE in
          _ ← modem_send_at_command_no_wait_response
                (bytes "AT^SISR=" ++ print_int handle ++ bytes "," ++ print_int toread ++ crlf);
          ok ← await_answer fuel handle MODEM_SISR_1_EVENT;
          if negb ok then mret (-1, data)
          else
            '(toread, c) ← number_line u16 c0;
            bs ← (if decide (toread <> 0) then at_read fuel (Z.to_nat toread) else mret []);
            data ← lift_outcome (write_data data i bs);
            evt ← at_wait_for_response fuel;
            if evt =? AT_COMMAND_FAILURE_EVENT then mret (-1, data)
            else read_socket_loop n' c handle len (u16 (i + toread)) (read + toread) data
      else mret (read, data)
  end.
Definition modem_read_socket (c0 handle len : Z) (data : list Z) : M (at_t K) (Z * list Z) :=
  if negb (handle =? 1) then mret (-1, data) else read_socket_loop fuel c0 handle len 0 0 data.

Fixpoint write_socket_loop (n : nat) (c0 handle len i written : Z) (data : list Z) : M (at_t K) Z :=
  match n with
  | O => raise OutOfFuel
  | S n' =>
      if i <? len then
        '(_, srv_state) ← modem_send_query_at_sisi c0;
        if (srv_state =? 5) || (srv_state =? 6) then mret (-1)
        else
          let towrite := Z.min (u16 (len - i)) MODEM_MAX_PACKET_SIZE in
          _ ← modem_send_at_command_no_wait_response
                (bytes "AT^SISW=" ++ print_int handle ++ bytes "," ++ print_int towrite ++ crlf);
          ok ← await_answer fuel handle MODEM_SISW_1_EVENT;
          if negb ok then mret (-1)
          else
            '(towrite, c) ← number_line u16 c0;
            _ ← (if decide (towrite <> 0) then
                   if decide (i + towrite <= Z.of_nat (length data)) then
                     _ ← at_write fuel (take (Z.to_nat towrite) (drop (Z.to_nat i) data)); mret tt
                   else raise (Fault OobRead)
                 else mret tt);
            evt ← at_wait_for_response fuel;
            if evt =? AT_COMMAND_FAILURE_EVENT then mret (-1)
            else write_socket_loop n' c handle len (u16 (i + towrite)) (written + towrite) data
      else mret written
  end.
Definition modem_write_socket (c0 handle len : Z) (data : list Z) : M (at_t K) Z :=
  write_socket_loop fuel c0 handle len 0 0 data.
Definition modem_close_socket (handle : Z) : M (at_t K) unit :=
  if negb (handle =? 1) then mret tt
  else modem_send_at_command (bytes "AT^SISC=" ++ print_int handle ++ crlf).

(** *** Commands for the secure element *)

(** The pairs of digits of a response, behind the bytes [bs]: the bytes and the last
    character; none for the return at the end of the line. *)
Fixpoint response_loop (n : nat) (c : Z) (bs : list Z) : M (at_t K) (option Z * list Z) :=
  match n with
  | O => raise OutOfFuel
  | S n' =>
      if is_hex_digit c then
        let high := digit_value c in
        c ← at_getc fuel c;
        if c =? 10 then mret (None, bs)
        else
          let low := if is_hex_digit c then digit_value c else 0 in
          let bs := bs ++ [Z.lor (u8 (Z.shiftl high 4)) low] in
          c ← at_getc fuel c;
          if c =? 10 then mret (None, bs) else response_loop n' c bs
      else mret (Some c, bs)
  end.
(** A line with a response; false for the return of false. *)
Definition csim_line (bs : list Z) : M (at_t K) (bool * list Z) :=
  c ← skip_to fuel is_digit 0;
  match c with
  | None => mret (false, bs)
  | Some c =>
      r ← number_checked fuel u16 c 0;
      match r with
      | None => mret (false, bs)
      | Some (c, _) =>
          r ← skip_to fuel is_hex_digit c;
          match r with
          | None => mret (false, bs)
          | Some c =>
              '(c, bs) ← response_loop fuel c bs;
              match c with
              | None => mret (false, bs)
              | Some c => _ ← to_line_end fuel c; mret (true, bs)
              end
          end
      end
  end.
Fixpoint csim_loop (n : nat) (bs : list Z) : M (at_t K) (bool * list Z) :=
  match n with
  | O => raise OutOfFuel
  | S n' =>
      evt ← at_process_recv fuel;
      '(ok, bs) ← (if evt =? MODEM_CSIM_EVENT then csim_line bs else mret (true, bs));
      if negb ok then mret (false, bs)
      else if is_response evt then mret (negb (evt =? 0), bs)
      else csim_loop n' bs
  end.
Fixpoint print_hex (apdu : list Z) : M (at_t K) unit :=
  match apdu with [] => mret tt | b :: apdu' => _ ← at_print (hex_text true [b]); print_hex apdu' end.
(** The result and the bytes of the response; its array is the one of the caller. *)
Definition modem_send_apdu (apdu : list Z) : M (at_t K) (bool * option (list Z)) :=
  if decide (Z.of_nat (length apdu) > 256) then mret (false, Some [])
  else
    _ ← at_lock fuel;
    _ ← at_print (bytes "AT+CSIM=" ++ print_int (Z.of_nat (length apdu) * 2) ++ bytes "," ++ quote);
    _ ← print_hex apdu;
    _ ← at_print (quote ++ crlf);
    '(ok, bs) ← csim_loop fuel [];
    mret (ok, Some bs).

(** ** The interfaces *)

Definition ConnectShieldSE : Card (at_t K) := {| transmitApdu := modem_send_apdu |}.
Definition ConnectShieldNet_up (c0 : Z) : M (at_t K) bool := modem_bring_up c0.
Definition ConnectShieldNet_down : M (at_t K) bool := mret false.
Definition ConnectShieldNet_isSocketClosed (handle : Z) : M (at_t K) bool := mret false.
End modem.

(** ** Sockets *)

Section sockets.
Context {K : Type} `{!ShieldPort K} (fuel : nat).

Lemma u16_at_most z : 0 <= z -> 0 <= u16 z <= z.
Proof. intros Hz. rw /u16. split; [by apply Z.mod_pos_bound|by apply Z.mod_le]. Qed.
Lemma number_line_nonneg c0 : returns (fun r : Z * Z => 0 <= r.1) (number_line fuel u16 c0).
Proof.
  assert (Hnumber : forall n c acc, 0 <= acc -> returns (fun r : Z * Z => 0 <= r.2) (number fuel n u16 c acc)).
  { induction n as [|n IH]; intros c acc Hacc; cbn [number]; [apply returns_raise|].
    returns_step; [apply returns_any; intros ?|by apply returns_ret]. apply IH. by apply Z.mod_pos_bound. }
  rw /number_line. apply returns_any; intros c. eapply returns_bind; [by apply Hnumber|]. intros [c1 v] Hv.
  apply returns_any; intros ?. by apply returns_ret.
Qed.

(** Reading and writing go on until as many bytes as asked for are counted, unless -1 is
    returned; there is no partial result, and the array keeps its size. *)
Lemma read_socket_whole c0 handle len data :
  returns (fun r : Z * list Z => length r.2 = length data /\ (r.1 = -1 \/ len <= r.1)) (modem_read_socket fuel c0 handle len data).
Proof.
  assert (Hloop : forall n c i read d, 0 <= i <= read -> length d = length data ->
    returns (fun r : Z * list Z => length r.2 = length data /\ (r.1 = -1 \/ len <= r.1)) (read_socket_loop fuel n c handle len i read d)).
  { induction n as [|n IH]; intros c i read d Hi Hd; cbn [read_socket_loop]; [apply returns_raise|].
    destruct (Z.ltb_spec i len); [|apply returns_ret; cbn; split; [done|lia]].
    apply returns_any; intros [? st]. case_match; [by apply returns_ret; auto|].
    apply returns_any; intros ?. apply returns_any; intros ok. case_match; [by apply returns_ret; auto|].
    eapply returns_bind; [apply number_line_nonneg|]. intros [toread c1] Hto. cbn in Hto.
    apply returns_any; intros bs. eapply (returns_bind (fun d' => length d' = length data)).
    { apply returns_outcome. intros d'. rw /write_data. case_decide; [|done]. intros [= <-].
      rw !length_app length_take length_drop. lia. }
    intros d' Hd'. apply returns_any; intros evt. case_match; [by apply returns_ret; auto|].
    apply IH; [|done]. pose proof (u16_at_most (i + toread)). lia. }
  rw /modem_read_socket. case_match; [by apply returns_ret; auto|]. by apply Hloop.
Qed.
Lemma write_socket_whole c0 handle len data :
  returns (fun r => r = -1 \/ len <= r) (modem_write_socket fuel c0 handle len data).
Proof.
  assert (Hloop : forall n c i written, 0 <= i <= written ->
    returns (fun r => r = -1 \/ len <= r) (write_socket_loop fuel n c handle len i written data)).
  { induction n as [|n IH]; intros c i written Hi; cbn [write_socket_loop]; [apply returns_raise|].
    destruct (Z.ltb_spec i len); [|apply returns_ret; lia].
    apply returns_any; intros [? st]. case_match; [by apply returns_ret; auto|].
    apply returns_any; intros ?. apply returns_any; intros ok. case_match; [by apply returns_ret; auto|].
    eapply returns_bind; [apply number_line_nonneg|]. intros [towrite c1] Hto. cbn in Hto.
    apply returns_any; intros ?. apply returns_any; intros evt. case_match; [by apply returns_ret; auto|].
    apply IH. pose proof (u16_at_most (i + towrite)). lia. }
  by apply Hloop.
Qed.
End sockets.

(** ** The words of the modem *)

Definition djb2 (text : list Z) : Z := fold_left djb2_step text 5381.
(** The words named at the entries of the table. *)
Definition table_words : list (list Z) :=
  [bytes "OK" ++ crlf; bytes "ERROR" ++ crlf; bytes "^SYSLOADING" ++ crlf; bytes "^SYSSTART" ++ crlf;
   bytes "+CME ERROR:"; bytes "+CPIN: READY" ++ crlf; bytes "+CPIN: SIM PIN" ++ crlf; bytes "+CREG:";
   bytes "^SISI: 1,"; bytes "^SISR: 1,"; bytes "^SISW: 1,"; bytes "+CSIM:"].
Lemma table_hashes {K} : entry_hash <$> m_modem_generic_table (K := K) = djb2 <$> table_words.
Proof. vm_compute. reflexivity. Qed.
Lemma table_hashes_distinct {K} : NoDup (entry_hash <$> m_modem_generic_table (K := K)).
Proof. apply (bool_decide_unpack _). vm_compute. exact I. Qed.

(** ** Recognizing a word *)

(** The event of a text that ends where the parser stops: at a known word or at the end of
    the line. *)
Fixpoint word_event (lookup : Z -> option Z) (hash : Z) (text : list Z) : option Z :=
  match text with
  | [] => None
  | c :: text' =>
      let hash := djb2_step hash c in
      if is_delimiter c then
        match lookup hash with
        | Some e => match text' with [] => Some e | _ => None end
        | None => if c =? 10 then match text' with [] => Some AT_TIMEOUT_EVENT | _ => None end
                  else word_event lookup hash text'
        end
      else word_event lookup hash text'
  end.
Definition modem_lookup (hash : Z) : option Z :=
  entry_evt ∘ snd <$> list_find (fun e => hash = entry_hash e) (m_modem_generic_table (K := unit)).
(** A chunk is a blank at the start of a word, or a text up to where the parser stops. *)
Definition chunk_event (text : list Z) : option Z :=
  match text with
  | [] => None
  | c :: text' =>
      if is_blank c then match text' with [] => Some AT_TIMEOUT_EVENT | _ => None end
      else word_event modem_lookup 5381 text
  end.

Example ok_event : chunk_event (bytes "OK" ++ crlf) = Some AT_COMMAND_SUCCESS_EVENT.
Proof. reflexivity. Qed.
Example csim_event : chunk_event (bytes "+CSIM:") = Some MODEM_CSIM_EVENT.
Proof. reflexivity. Qed.
Example error_event : chunk_event (bytes "ERROR" ++ crlf) = Some AT_COMMAND_FAILURE_EVENT.
Proof. reflexivity. Qed.
(** An unknown line is reported like the absence of one. *)
Example unknown_event : chunk_event (bytes "+CREX: 1" ++ crlf) = Some AT_TIMEOUT_EVENT.
Proof. reflexivity. Qed.

Section recognition.
Context {K : Type} `{!ShieldPort K} (fuel : nat).

(** The port gives the character [b], after at most [m] reads without one. *)
Inductive port_gives_char : nat -> K -> Z -> K -> Prop :=
  | char_now m k b k' : port_read 1 k = Ret (Some [b], k') -> port_gives_char m k b k'
  | char_later m k k1 b k' : port_read 1 k = Ret (Some [], k1) -> port_gives_char m k1 b k' -> port_gives_char (S m) k b k'.
Inductive port_gives (m : nat) : K -> list Z -> K -> Prop :=
  | port_gives_nil k : port_gives m k [] k
  | port_gives_cons k b k1 bs k' : port_gives_char m k b k1 -> port_gives m k1 bs k' -> port_gives m k (b :: bs) k'.

Lemma port_gives_app m k a b k' : port_gives m k (a ++ b) k' -> exists k1, port_gives m k a k1 /\ port_gives m k1 b k'.
Proof.
  revert k. induction a as [|x a IH]; intros k Hg; [exists k; by split; [constructor|]|].
  inversion Hg; subst. edestruct IH as (k2 & ? & ?); [done|]. exists k2. by split; [econstructor|].
Qed.

(** The parser of the modem, with no callbacks. *)
Definition modem_at (locked : bool) (k : K) : at_t K := At locked m_modem_generic_table [] None k.

Lemma getc_run m k b k' l c : port_gives_char m k b k' -> (m + 1 < fuel)%nat ->
  at_getc fuel c (modem_at l k) = Ret (b, modem_at l k').
Proof.
  intros Hg Hm. rw /at_getc /at_read. eapply (bind_step _ _ _ [b]); [|done]. revert Hm. generalize fuel.
  induction Hg as [m k b k' Hr|m k k1 b k' Hr _ IH]; intros [|f] Hm; try lia; cbn [at_read_loop].
  - eapply bind_step; [by rw /on_io Hr|]. cbn [at_locked generic_table specific_table async_cb modem_at length].
    destruct f as [|f]; [lia|]. done.
  - eapply bind_step; [by rw /on_io Hr|]. cbn [length]. eapply bind_step; [apply IH; lia|]. done.
Qed.

Lemma contains_lookup h l k :
  at_hash_map_contains h (modem_at l k) = (fun e => AtEntry h e None) <$> modem_lookup h.
Proof.
  rw /at_hash_map_contains /modem_lookup /modem_at. cbn [generic_table specific_table m_modem_generic_table fmap list_fmap list_find].
  cbn [entry_hash]. repeat (case_decide; [by subst|]). done.
Qed.
(** What an event leaves: a response unlocks the parser after a delay. *)
Definition settles (e : Z) (l : bool) (k : K) (a : at_t K) : Prop :=
  if is_response e then exists k', delay_ms 100 k = Ret (tt, k') /\ a = modem_at false k' else a = modem_at l k.
Lemma found_run h e l k a : settles e l k a -> at_found (AtEntry h e None) (modem_at l k) = Ret (tt, a).
Proof.
  rw /settles /at_found. cbn [entry_evt entry_cb]. destruct (is_response e).
  - intros (k' & Hd & ->). eapply bind_step; [eapply bind_step; [by rw /on_io Hd|done]|]. done.
  - by intros ->.
Qed.

(** A character read now; one that is waited for behind the start of a word. *)
Lemma recv_step n read hash c b l k k' :
  port_read 1 k = Ret (Some [b], k') ->
  recv_loop (S n) read hash c (modem_at l k) =
    (let loop read hash c := if negb (read =? 0) && negb (c =? 10) then recv_loop n read hash c else mret AT_TIMEOUT_EVENT in
     let read := u16 (read + 1) in
     if (read =? 1) && is_blank b then loop 0 hash b
     else
       let hash := djb2_step hash b in
       if is_delimiter b then
         match modem_lookup hash with
         | Some e => _ ← at_found (AtEntry hash e None); mret e
         | None => loop read hash b
         end
       else loop read hash b) (modem_at l k').
Proof.
  intros Hr. cbn [recv_loop]. eapply bind_step.
  { rw /at_read_c. eapply bind_step; [by rw /on_io Hr|]. done. }
  cbn [at_locked generic_table specific_table async_cb]. change (At l m_modem_generic_table [] None k') with (modem_at l k').
  cbv zeta. destruct ((_ =? 1) && _); [done|]. destruct (is_delimiter b); [|done].
  eapply bind_step; [done|]. rw contains_lookup. by destruct (modem_lookup _).
Qed.
Lemma recv_wait n read hash c l k k1 :
  port_read 1 k = Ret (Some [], k1) -> read <> 0 -> c <> 10 ->
  recv_loop (S n) read hash c (modem_at l k) = recv_loop n read hash c (modem_at l k1).
Proof.
  intros Hr Hread Hc. cbn [recv_loop]. eapply bind_step.
  { rw /at_read_c. eapply bind_step; [by rw /on_io Hr|]. done. }
  cbn [at_locked generic_table specific_table async_cb]. rw (proj2 (Z.eqb_neq read 0)) // (proj2 (Z.eqb_neq c 10)) //.
Qed.

(** The rest of a word. *)
Definition runs_word (text : list Z) : Prop := forall m k k' l read hash c e a n,
  port_gives m k text k' -> word_event modem_lookup hash text = Some e -> settles e l k' a ->
  0 < read -> read + Z.of_nat (length text) < 2 ^ 16 -> c <> 10 -> (length text * (m + 1) <= n)%nat ->
  recv_loop n read hash c (modem_at l k) = Ret (e, a).
Lemma word_first b text : runs_word text -> forall m k k1 k' l read hash c e a n,
  port_read 1 k = Ret (Some [b], k1) -> port_gives m k1 text k' ->
  word_event modem_lookup hash (b :: text) = Some e -> settles e l k' a ->
  0 <= read -> (read = 0 -> is_blank b = false) -> read + Z.of_nat (S (length text)) < 2 ^ 16 ->
  (length text * (m + 1) <= n)%nat ->
  recv_loop (S n) read hash c (modem_at l k) = Ret (e, a).
Proof.
  intros Htext m k k1 k' l read hash c e a n Hr Hg He Hs Hread Hblank Hlen Hn.
  rw (recv_step _ _ _ _ _ _ _ _ Hr). cbv zeta. rw (u16_small (read + 1)); [|width].
  assert ((read + 1 =? 1) && is_blank b = false) as ->.
  { destruct (decide (read = 0)) as [->|]; [by rw Hblank|]. rw (proj2 (Z.eqb_neq (read + 1) 1)) //; lia. }
  rw (proj2 (Z.eqb_neq (read + 1) 0)); [|lia]. cbn [word_event] in He. cbv zeta in He.
  assert (Hrest : b <> 10 -> word_event modem_lookup (djb2_step hash b) text = Some e ->
    (if negb false && negb (b =? 10) then recv_loop n (read + 1) (djb2_step hash b) b else mret AT_TIMEOUT_EVENT) (modem_at l k1) = Ret (e, a)).
  { intros Hb He'. rw (proj2 (Z.eqb_neq b 10)) //. eapply Htext; [done|done|done|lia|lia|done|lia]. }
  destruct (is_delimiter b) eqn:Hd; [|apply Hrest; [by intros ->|done]].
  destruct (modem_lookup (djb2_step hash b)) as [e'|].
  - destruct text; [|done]. injection He as ->. inversion Hg; subst. eapply bind_step; [by apply found_run|done].
  - destruct (b =? 10) eqn:Hb; [|apply Hrest; [by apply Z.eqb_neq|done]].
    destruct text; [|done]. injection He as <-. inversion Hg; subst. by assert (a = modem_at l k') as -> by exact Hs.
Qed.
Lemma word_run text : runs_word text.
Proof.
  induction text as [|b text IH]; intros m k k' l read hash c e a n Hg He Hs Hread Hlen Hc Hn; [done|].
  inversion Hg as [|? ? k1 ? ? Hb Hrest]; subst. cbn [length] in Hlen, Hn.
  assert (Hwait : forall j n, port_gives_char j k b k1 -> (j + length text * (m + 1) < n)%nat ->
    recv_loop n read hash c (modem_at l k) = Ret (e, a)); last (eapply Hwait; [done|lia]).
  clear Hb Hg Hn n. intros j n Hb. revert n. induction Hb as [j k b k1 Hr|j k k0 b k1 Hr _ IHj]; intros [|n] Hn; try lia.
  - eapply word_first; [done|done|done|done|done|lia|lia|lia|lia].
  - rw (recv_wait _ _ _ _ _ _ _ Hr); [|lia|done]. by apply IHj; [..|lia].
Qed.

(** A text ready at the port, its first character at once. *)
Inductive port_ready (m : nat) : K -> list Z -> K -> Prop :=
  port_ready_cons k b k1 text k' : port_read 1 k = Ret (Some [b], k1) -> port_gives m k1 text k' -> port_ready m k (b :: text) k'.
Lemma chunk_run m k text k' l e a : chunk_event text = Some e -> port_ready m k text k' -> settles e l k' a ->
  Z.of_nat (length text) < 2 ^ 16 -> (length text * (m + 1) < fuel)%nat ->
  at_process_recv fuel (modem_at l k) = Ret (e, a).
Proof.
  intros He Hg Hs Hlen Hfuel. inversion Hg as [? b k1 text' ? Hr Hrest]; subst. cbn [length] in *. cbn [chunk_event] in He.
  rw /at_process_recv. destruct fuel as [|n]; [lia|]. destruct (is_blank b) eqn:Hb.
  - destruct text'; [|done]. injection He as <-. inversion Hrest; subst.
    assert (a = modem_at l k') as -> by exact Hs.
    rw (recv_step _ _ _ _ _ _ _ _ Hr). cbv zeta. by rw Hb.
  - eapply word_first; [apply word_run|done|done|done|done|lia|done|lia|lia].
Qed.
(** Nothing at the port. *)
Lemma idle_run k k' l : port_read 1 k = Ret (Some [], k') -> (0 < fuel)%nat ->
  at_process_recv fuel (modem_at l k) = Ret (AT_TIMEOUT_EVENT, modem_at l k').
Proof.
  intros Hr Hfuel. rw /at_process_recv. destruct fuel as [|n]; [lia|]. cbn [recv_loop]. eapply bind_step.
  { rw /at_read_c. eapply bind_step; [by rw /on_io Hr|]. done. }
  done.
Qed.

(** ** Reading a response *)

Context (m : nat) (Hm : (m + 1 < fuel)%nat).

Lemma skip_to_run p pre b l : Forall (fun x => p x = false /\ x <> 10) pre -> p b = true -> b <> 10 ->
  forall n c k k', p c = false -> port_gives m k (pre ++ [b]) k' -> (length pre + 1 < n)%nat ->
  skip_to fuel n p c (modem_at l k) = Ret (Some b, modem_at l k').
Proof using Hm.
  intros Hpre Hb Hb10. induction Hpre as [|x pre [Hx Hx10] _ IH]; intros [|n] c k k' Hc Hg Hn; try (cbn in Hn; lia);
    cbn [skip_to app] in *; rw Hc; inversion Hg as [|? ? k1 ? ? Hchar Hrest]; subst;
    (eapply bind_step; [by eapply getc_run|]); cbn beta.
  - rw (proj2 (Z.eqb_neq b 10)) //. inversion Hrest; subst. destruct n as [|n]; [cbn in Hn; lia|]. cbn [skip_to]. by rw Hb.
  - rw (proj2 (Z.eqb_neq x 10)) //. apply IH; [done|done|cbn in Hn; lia].
Qed.
Lemma number_checked_run w ds b l : Forall (fun x => x <> 10) ds -> is_digit b = false -> b <> 10 ->
  forall n c acc k k', Forall (fun x => is_digit x = true) (c :: ds) -> port_gives m k (ds ++ [b]) k' -> (length ds + 1 < n)%nat ->
  exists v, number_checked fuel n w c acc (modem_at l k) = Ret (Some (b, v), modem_at l k').
Proof using Hm.
  intros Hds Hb Hb10. induction Hds as [|x ds Hx _ IH]; intros [|n] c acc k k' Hdig Hg Hn; try (cbn in Hn; lia);
    apply Forall_cons in Hdig as [Hc Hdig]; cbn [number_checked app] in *; rw Hc; cbv zeta;
    inversion Hg as [|? ? k1 ? ? Hchar Hrest]; subst.
  - eexists. eapply bind_step; [by eapply getc_run|]. cbn beta. rw (proj2 (Z.eqb_neq b 10)) //. inversion Hrest; subst.
    destruct n as [|n]; [cbn in Hn; lia|]. cbn [number_checked]. by rw Hb.
  - destruct (IH n x (w (w (acc * 10) + (c - 48))) k1 k') as [v Hv]; [done|done|cbn in Hn; lia|].
    exists v. eapply bind_step; [by eapply getc_run|]. cbn beta. by rw (proj2 (Z.eqb_neq x 10)).
Qed.
Lemma to_line_end_run l pre : Forall (fun x => x <> 10) pre ->
  forall n c k k', c <> 10 -> port_gives m k (pre ++ [10]) k' -> (length pre + 1 < n)%nat ->
  to_line_end fuel n c (modem_at l k) = Ret (10, modem_at l k').
Proof using Hm.
  induction 1 as [|x pre Hx _ IH]; intros [|n] c k k' Hc Hg Hn; try (cbn in Hn; lia);
    cbn [to_line_end app] in *; rw (proj2 (Z.eqb_neq c 10)) //; inversion Hg as [|? ? k1 ? ? Hchar Hrest]; subst;
    (eapply bind_step; [by eapply getc_run|]); cbn beta.
  - inversion Hrest; subst. by destruct n as [|n]; [cbn in Hn; lia|].
  - apply IH; [done|done|cbn in Hn; lia].
Qed.

Lemma hex_char_digit upper d : 0 <= d < 16 ->
  is_hex_digit (hex_char upper d) = true /\ digit_value (hex_char upper d) = d /\ hex_char upper d <> 10.
Proof.
  intros Hd. assert (exists n, (n < 16)%nat /\ d = Z.of_nat n) as (n & Hn & ->) by (exists (Z.to_nat d); lia).
  do 16 (destruct n as [|n]; [by destruct upper|]). lia.
Qed.
Lemma join_digits b : is_u8 b -> Z.lor (u8 (Z.shiftl (b / 16) 4)) (b mod 16) = b.
Proof.
  rw /is_u8. intros Hb.
  pose proof (proj1 (forallb_forall (fun n => Z.lor (u8 (Z.shiftl (Z.of_nat n / 16) 4)) (Z.of_nat n mod 16) =? Z.of_nat n)
    (seq 0 256)) ltac:(by vm_compute) (Z.to_nat b)) as H. rw Z2Nat.id in H; [|lia]. apply Z.eqb_eq, H, in_seq. lia.
Qed.

(** The digits of the bytes [r], up to the quotation mark behind them; [c] is the first
    character. *)
Lemma response_loop_run upper l r : Forall is_u8 r -> forall n c text bs k k',
  hex_text upper r ++ [34] = c :: text -> port_gives m k text k' -> (length r < n)%nat ->
  response_loop fuel n c bs (modem_at l k) = Ret ((Some 34, bs ++ r), modem_at l k').
Proof using Hm.
  induction 1 as [|x r Hx Hr IH]; intros [|n] c text bs k k' Htext Hg Hn; try (cbn in Hn; lia); cbn [response_loop].
  - injection Htext as <- <-. inversion Hg; subst. by rw app_nil_r.
  - rw /hex_text bind_cons -/(hex_text upper r) in Htext. cbn [app] in Htext. injection Htext as <- <-.
    destruct (hex_halves x Hx) as [Hh Hl]. destruct (hex_char_digit upper _ Hh) as (Hh1 & Hh2 & _).
    destruct (hex_char_digit upper _ Hl) as (Hl1 & Hl2 & Hl3). rw Hh1. cbv zeta.
    inversion Hg as [|? ? k1 ? ? Hchar Hrest]; subst. eapply bind_step; [by eapply getc_run|]. cbn beta.
    rw (proj2 (Z.eqb_neq _ 10)) // Hl1 Hl2 Hh2 join_digits //.
    destruct (hex_text upper r ++ [34]) as [|c' text'] eqn:Htext; [by destruct (hex_text upper r)|].
    inversion Hrest as [|? ? k2 ? ? Hchar' Hrest']; subst. eapply bind_step; [by eapply getc_run|]. cbn beta.
    assert (c' <> 10) as Hc'.
    { destruct r as [|y r]; [by injection Htext as <- _|]. rw /hex_text bind_cons in Htext. cbn [app] in Htext.
      injection Htext as <- _. apply Forall_cons in Hr as [Hy _]. destruct (hex_halves y Hy) as [Hyh _].
      by destruct (hex_char_digit upper _ Hyh) as (_ & _ & ?). }
    rw (proj2 (Z.eqb_neq c' 10)) //. rw (IH n c' text' _ k2 k'); [by rw -app_assoc|done|done|cbn in Hn; lia].
Qed.

(** The line of a response behind its first word. *)
Definition csim_rest (upper : bool) (r : list Z) : list Z :=
  [32] ++ print_int (Z.of_nat (length r) * 2) ++ [44; 34] ++ hex_text upper r ++ [34; 13; 10].
Lemma digit_text ds : Forall (fun d => 0 <= d < 10) ds -> Forall (fun x => is_digit x = true /\ x <> 10) (digits_text ds).
Proof.
  intros Hds. apply Forall_fmap. eapply Forall_impl; [exact Hds|]. intros d Hd. rw /compose /is_digit.
  cbn beta in *. split; [|lia]. apply andb_true_intro. split; apply Z.leb_le; lia.
Qed.
Lemma csim_line_run upper l r k k' : Forall is_u8 r -> r <> [] -> (length r <= 258)%nat -> (300 < fuel)%nat ->
  port_gives m k (csim_rest upper r) k' ->
  csim_line fuel [] (modem_at l k) = Ret ((true, r), modem_at l k').
Proof using Hm.
  intros Hr Hne Hlen Hfuel Hg. rw /csim_rest in Hg. destruct (short_number (length r) ltac:(lia)) as [Hdlen _].
  destruct (print_int_digits (Z.of_nat (length r) * 2) ltac:(lia)) as (ds & [[Hdne Hds] _] & _ & Hp).
  rw (proj2 (Z.ltb_ge _ 0)) in Hp; [|lia]. rw Hp in Hg, Hdlen. clear Hp. cbn [app] in Hg, Hdlen. apply digit_text in Hds.
  destruct (digits_text ds) as [|d ds'] eqn:Hd; [by destruct ds|]. apply Forall_cons in Hds as [[Hd1 Hd2] Hds'].
  destruct (hex_text upper r ++ [34]) as [|h hs] eqn:Hh; [by destruct (hex_text upper r)|].
  assert (is_hex_digit h = true /\ h <> 10) as [Hhex Hh10].
  { destruct r as [|y r]; [done|]. rw /hex_text bind_cons in Hh. cbn [app] in Hh. injection Hh as <- _.
    apply Forall_cons in Hr as [Hy _]. destruct (hex_halves y Hy) as [Hyh _].
    by destruct (hex_char_digit upper _ Hyh) as (? & _ & ?). }
  replace (hex_text upper r ++ [34; 13; 10]) with ((h :: hs) ++ [13; 10]) in Hg by by rw -Hh -app_assoc.
  change (32 :: (d :: ds') ++ 44 :: 34 :: (h :: hs) ++ [13; 10])
    with ([32; d] ++ ds' ++ [44] ++ [34; h] ++ hs ++ [13; 10]) in Hg.
  apply port_gives_app in Hg as (k1 & Hg1 & Hg). rw (assoc_L app) in Hg. apply port_gives_app in Hg as (k2 & Hg2 & Hg).
  apply port_gives_app in Hg as (k3 & Hg3 & Hg). apply port_gives_app in Hg as (k4 & Hg4 & Hg5).
  assert (Hone : forall p x, p x = false -> x <> 10 -> Forall (fun x => p x = false /\ x <> 10) [x]).
  { intros p x Hx Hx10. apply Forall_cons_2; [done|apply Forall_nil_2]. }
  rw /csim_line. eapply bind_step.
  { eapply (skip_to_run is_digit [32] d); [by apply Hone|done|done|done|done|cbn; lia]. }
  destruct (number_checked_run u16 ds' 44 l) with (n := fuel) (c := d) (acc := 0) (k := k1) (k' := k2) as [v Hv].
  { eapply Forall_impl; [exact Hds'|]. by intros x []. }
  { done. }
  { done. }
  { apply Forall_cons_2; [done|]. eapply Forall_impl; [exact Hds'|]. by intros x []. }
  { done. }
  { cbn in Hdlen. lia. }
  cbn beta iota. eapply bind_step; [exact Hv|]. cbn beta iota. eapply bind_step.
  { eapply (skip_to_run is_hex_digit [34] h); [by apply Hone|done|done|done|done|cbn; lia]. }
  cbn beta iota. eapply bind_step; [eapply (response_loop_run upper l r Hr); [exact Hh|exact Hg4|lia]|]. cbn beta iota.
  eapply bind_step; [by eapply (to_line_end_run l [13]); [apply Forall_cons_2; [|apply Forall_nil_2]|..|cbn; lia]|]. done.
Qed.

(** ** A transmission *)

(** Up to [j] readings of nothing or of chunks that are neither an answer nor a response. *)
Inductive noise : nat -> K -> K -> Prop :=
  | noise_nil j k : noise j k k
  | noise_idle j k k1 k' : port_read 1 k = Ret (Some [], k1) -> noise j k1 k' -> noise (S j) k k'
  | noise_chunk j k text e k1 k' : chunk_event text = Some e -> is_response e = false -> e <> MODEM_CSIM_EVENT ->
      (length text <= 300)%nat -> port_ready m k text k1 -> noise j k1 k' -> noise (S j) k k'.
(** What is printed. *)
Inductive prints : K -> list Z -> K -> Prop :=
  | prints_nil k : prints k [] k
  | prints_byte k b k1 bs k' : port_print (hex_text true [b]) k = Ret (tt, k1) -> prints k1 bs k' -> prints k (b :: bs) k'.
(** The command goes out over a quiet line. *)
Definition asks (cmd : list Z) (k k' : K) : Prop :=
  exists k0 k1 k2, port_read 1 k = Ret (Some [], k0) /\
    port_print (bytes "AT+CSIM=" ++ print_int (Z.of_nat (length cmd) * 2) ++ bytes "," ++ quote) k0 = Ret (tt, k1) /\
    prints k1 cmd k2 /\ port_print (quote ++ crlf) k2 = Ret (tt, k').
(** The modem reports the response [r], among other lines, and [OK]; or an error. *)
Definition reports (upper : bool) (j : nat) (r : list Z) (k k' : K) : Prop :=
  exists k1 k2 k3 k4 k5, noise j k k1 /\ port_ready m k1 (bytes "+CSIM:") k2 /\ port_gives m k2 (csim_rest upper r) k3 /\
    noise j k3 k4 /\ port_ready m k4 (bytes "OK" ++ crlf) k5 /\ delay_ms 100 k5 = Ret (tt, k').
Definition refuses (j : nat) (k k' : K) : Prop :=
  exists k1 k2, noise j k k1 /\ port_ready m k1 (bytes "ERROR" ++ crlf) k2 /\ delay_ms 100 k2 = Ret (tt, k').

Context (Hlong : (300 * (m + 1) < fuel)%nat).

Lemma noise_run j l k k' : noise j k k' -> exists i, (i <= j)%nat /\ forall n bs,
  csim_loop fuel (i + n) bs (modem_at l k) = csim_loop fuel n bs (modem_at l k').
Proof using Hm Hlong.
  induction 1 as [j k|j k k1 k' Hr _ IH|j k text e k1 k' He Hresp Hcsim Hlen Hg _ IH].
  - exists O. split; [lia|done].
  - destruct IH as (i & Hi & Hrun). exists (S i). split; [lia|]. intros n bs. rw -Hrun. cbn [Nat.add csim_loop].
    eapply bind_step; [eapply idle_run; [done|lia]|]. done.
  - destruct IH as (i & Hi & Hrun). exists (S i). split; [lia|]. intros n bs. rw -Hrun. cbn [Nat.add csim_loop].
    eapply bind_step.
    { eapply chunk_run; [done|done|by rw /settles Hresp|lia|]. nia. }
    cbn beta. rw (proj2 (Z.eqb_neq e MODEM_CSIM_EVENT)) //. eapply bind_step; [done|]. cbn beta iota. by rw Hresp.
Qed.
Lemma wait_unlocked_run n k : (0 < n)%nat -> wait_unlocked fuel n (modem_at false k) = Ret (tt, modem_at false k).
Proof. by destruct n; [lia|]. Qed.
Lemma wait_timeout_run n l k k' : port_read 1 k = Ret (Some [], k') -> (0 < n)%nat -> (0 < fuel)%nat ->
  wait_until fuel n (fun evt => evt =? AT_TIMEOUT_EVENT) (modem_at l k) = Ret (AT_TIMEOUT_EVENT, modem_at l k').
Proof. intros Hr Hn Hf. destruct n; [lia|]. cbn [wait_until]. eapply bind_step; [by eapply idle_run|]. done. Qed.
Lemma asks_run cmd k k' : asks cmd k k' -> forall A (f : M (at_t K) A),
  (_ ← at_lock fuel;
   _ ← at_print (bytes "AT+CSIM=" ++ print_int (Z.of_nat (length cmd) * 2) ++ bytes "," ++ quote);
   _ ← print_hex cmd; _ ← at_print (quote ++ crlf); f) (modem_at false k) = f (modem_at true k').
Proof using Hm Hlong.
  intros (k0 & k1 & k2 & Hquiet & H1 & H2 & H3) A f. eapply bind_step.
  { rw /at_lock. eapply bind_step; [by apply wait_unlocked_run; lia|]. cbn beta.
    eapply bind_step; [by eapply wait_timeout_run; [|lia..]|]. done. }
  cbn beta.
  eapply bind_step; [by rw /at_print /on_io H1|]. cbn [at_locked generic_table specific_table async_cb].
  change (At true m_modem_generic_table [] None k1) with (modem_at true k1). eapply bind_step.
  { instantiate (1 := modem_at true k2). clear H1 H3. induction H2 as [k1|k1 b k1' bs k2 Hp _ IH]; cbn [print_hex]; [done|].
    eapply bind_step; [by rw /at_print /on_io Hp|]. exact IH. }
  eapply bind_step; [by rw /at_print /on_io H3|]. done.
Qed.

(** A command that the modem reports a response for, over a quiet line and among other lines:
    the response is read back, and the parser is free again. *)
Lemma modem_send_apdu_run upper j cmd r k k1 k' :
  asks cmd k k1 -> reports upper j r k1 k' -> (length cmd <= 256)%nat -> Forall is_u8 r -> r <> [] -> (length r <= 258)%nat ->
  (2 * j + 2 < fuel)%nat ->
  modem_send_apdu fuel cmd (modem_at false k) = Ret ((true, Some r), modem_at false k').
Proof using Hm Hlong.
  intros Hask (k2 & k3 & k4 & k5 & k6 & Hn1 & Hcsim & Hrest & Hn2 & Hok & Hdelay) Hcmd Hr Hne Hlen Hj.
  rw /modem_send_apdu decide_False; [|lia]. rw (asks_run _ _ _ Hask). eapply (bind_step _ _ _ (true, r)); [|done].
  destruct (noise_run j true _ _ Hn1) as (i1 & Hi1 & Hrun1). destruct (noise_run j true _ _ Hn2) as (i2 & Hi2 & Hrun2).
  replace (csim_loop fuel fuel) with (csim_loop fuel (i1 + S (i2 + S (fuel - i1 - i2 - 2)))) by (f_equal; lia).
  rw Hrun1. cbn [csim_loop]. eapply bind_step.
  { eapply chunk_run; [exact csim_event|done|done|done|cbn; lia]. }
  cbn beta. change (MODEM_CSIM_EVENT =? MODEM_CSIM_EVENT) with true. cbv iota. eapply bind_step.
  { eapply csim_line_run; [done|done|done|lia|done]. }
  cbn beta iota. change (negb true) with false. change (is_response MODEM_CSIM_EVENT) with false. cbv iota.
  rw Hrun2. cbn [csim_loop]. eapply bind_step.
  { eapply chunk_run; [exact ok_event|done|by exists k'|done|cbn; lia]. }
  done.
Qed.

(** An error of the modem is reported as a success without a response. *)
Lemma modem_send_apdu_error j cmd k k1 k' :
  asks cmd k k1 -> refuses j k1 k' -> (length cmd <= 256)%nat -> (j + 1 < fuel)%nat ->
  modem_send_apdu fuel cmd (modem_at false k) = Ret ((true, Some []), modem_at false k').
Proof using Hm Hlong.
  intros Hask (k2 & k3 & Hn & Herr & Hdelay) Hcmd Hj.
  rw /modem_send_apdu decide_False; [|lia]. rw (asks_run _ _ _ Hask). eapply (bind_step _ _ _ (true, [])); [|done].
  destruct (noise_run j true _ _ Hn) as (i & Hi & Hrun).
  replace (csim_loop fuel fuel) with (csim_loop fuel (i + S (fuel - i - 1))) by (f_equal; lia).
  rw Hrun. cbn [csim_loop]. eapply bind_step.
  { eapply chunk_run; [exact error_event|done|by exists k'|done|cbn; lia]. }
  done.
Qed.
End recognition.
