(* ===== verification/ShieldStack.v ===== *)
(** * The secure element behind the shield

    The functions for keys and certificates on the connection through the modem of the
    shield; the serial ports as its port; and what happens when the modem answers in other
    ways than expected. *)
From Stdlib Require Import Ascii String.
From S2P Require Import Prelude Text SecureElement Mias MbedtlsSe Modem SeStack Usart Shield.

(** ** The serial port *)

(** A port of the board, and the interrupts that are raised before each of the next calls;
    what the C library prints goes to [printed]. *)
Record board := Board { b_bank : bank; b_interrupts : list (list usart_event); b_printed : list Z }.
Definition on_bank {A} (m : M bank A) : M board A := fun b =>
  let now := default [] (head (b_interrupts b)) in
  match (_ ← run_events now; m) (b_bank b) with
  | Ret (x, k) => Ret (x, Board k (tail (b_interrupts b)) (b_printed b))
  | Exn e => Exn e
  end.
Definition usart_port (io : Z) : ShieldPort board := {|
  port_read n := on_bank (usart_read io n);
  port_write bs := on_bank (usart_write io bs);
  port_print text := modify (fun b => Board (b_bank b) (b_interrupts b) (b_printed b ++ text));
  delay_ms _ := mret tt;
  pwm_start := mret tt |}.

(** A call on the board is the call on the queues of the ports, behind the interrupts. *)
Lemma port_read_queues j n b ps : bank_is (b_bank b) ps -> (j < 3)%nat ->
  Forall (event_ok ps) (default [] (head (b_interrupts b))) ->
  let ps1 := (q_events (default [] (head (b_interrupts b))) ps).2 in
  exists k, @port_read _ (usart_port (Z.of_nat (S j))) n b =
      Ret ((q_read j n ps1).1, Board k (tail (b_interrupts b)) (b_printed b)) /\
    bank_is k (q_read j n ps1).2.
Proof.
  intros Hb Hj Hes ps1. cbn [port_read usart_port]. rw /on_bank.
  destruct (events_are _ _ _ Hb Hes) as (k1 & Hrun & Hk1). destruct (read_is j n k1 _ Hk1 Hj) as (k2 & Hread & Hk2).
  exists k2. split; [|done]. by rw (bind_run _ _ _ _ _ Hrun) Hread.
Qed.

(** [OK] arrives a byte at a time, between the calls of the parser. *)
Definition ok_board : board :=
  match two_ports m_usart with
  | Ret (_, k) => Board k ((fun c => [Interrupt 0 true false c]) <$> bytes "OK" ++ crlf) []
  | Exn _ => Board [] [] []
  end.
Example ok_received :
  match @at_process_recv board (usart_port 1) 10 (modem_at true ok_board) with
  | Ret (e, a) => (e, at_locked a)
  | Exn _ => (0, true)
  end = (AT_COMMAND_SUCCESS_EVENT, false).
Proof. vm_compute. reflexivity. Qed.

(** ** Behind the shield *)

Section shield.
Context {S : Type} {HS : Card S} {K : Type} `{!ShieldPort K} (fuel m : nat).

#[local] Instance shield_card : Card (at_t K) := ConnectShieldSE fuel.

(** The port in state [k] reaches a secure element in state [s]: commands of up to 256 bytes
    are reported the responses of the secure element. *)
Definition shield_reaches (R : K -> S -> Prop) : Prop := forall k (s : S) cmd r (s' : S),
  R k s -> Forall is_u8 cmd -> (length cmd <= 256)%nat -> transmitApdu cmd s = Ret ((true, Some r), s') ->
  exists upper j k1 k', asks cmd k k1 /\ reports m upper j r k1 k' /\ (2 * j + 2 < fuel)%nat /\ R k' s'.

Context (R : K -> S -> Prop).
Hypotheses (Hresponds : @responds S HS) (Hreaches : shield_reaches R).
Hypotheses (Hfuel : (300 * (m + 1) < fuel)%nat).

Definition behind_shield (a : at_t K) (s : S) : Prop := exists k, a = modem_at false k /\ R k s.

Lemma shield_passes depth : Passes depth 256 behind_shield.
Proof.
  apply passes_commands; [done|lia|]. intros a s cmd r s' (k & -> & HR) Hbytes Hcmd Hrun.
  destruct (Hresponds _ _ _ _ Hrun) as (Hr & Hne & Hl).
  destruct (Hreaches _ _ _ _ _ HR Hbytes Hcmd Hrun) as (upper & j & k1 & k' & Hask & Hrep & Hj & HR').
  exists (modem_at false k'). split; [|by exists k']. eapply (modem_send_apdu_run fuel m); [lia|done|done|done|done|done|done|done|done].
Qed.

(** C38: a certificate or key in a file of the secure element, with a name of at most 250
    bytes, is read through the modem of the shield: over a port that gives characters with
    pauses and has nothing waiting when a command is sent, and a modem that reports
    every response among other lines of which none is taken for an answer, the parsers of
    mbedTLS get exactly the bytes of the file and a terminating null, and the logical
    channel is closed. *)
Theorem file_parsed_by_shield `{!KeyLibrary (at_t K)} size0 upper name pin content rest closed (s : se_sys (at_t K)) (e : S) :
  behind_shield (card s) e -> file_on_card fuel name pin content closed e ->
  ready TheMF MF_AID s -> Forall is_u8 name -> (length name <= 250)%nat -> Forall is_u8 pin -> (length pin <= 8)%nat -> (length content < fuel)%nat ->
  let path := MBEDTLS_SE_EF_KEY_NAME_PREFIX ++ hex_text upper name ++ 0 :: rest in
  exists s', ready TheMF MF_AID s' /\ through behind_shield closed (card s') /\
    mbedtls_x509_crt_parse_se fuel size0 path pin s = on_card (mbedtls_x509_crt_parse (content ++ [0])) s' /\
    mbedtls_pk_parse_se fuel size0 path pin s = on_card (mbedtls_pk_parse_key (Some (content ++ [0]))) s'.
Proof.
  intros Hl Hfile Hready Hname Hlen Hpinb Hpin Hcontent.
  apply (file_parsed_behind fuel 256 behind_shield Hresponds (shield_passes fuel) _ _ _ _ _ _ _ s e); try done. lia.
Qed.
End shield.

(** ** A modem *)

Module ShieldDemo.
Import MbedtlsSe.Demo SeStack.ModemDemo.

(** A modem that answers a command when its line is complete; what it answers depends on the
    line and on its state. *)
Record modem := MkModem { m_out : list Z; m_typed : list Z; m_state : nat }.
Definition demo_port (answer : list Z -> nat -> list Z * nat) : ShieldPort modem := {|
  port_read n := fun d => Ret (Some (take n (m_out d)), MkModem (drop n (m_out d)) (m_typed d) (m_state d));
  port_write bs := mret (Some (length bs));
  port_print text := fun d =>
    if bool_decide (10 ∈ text) then
      let '(out, k) := answer (m_typed d ++ text) (m_state d) in Ret (tt, MkModem (m_out d ++ out) [] k)
    else Ret (tt, MkModem (m_out d) (m_typed d ++ text) (m_state d));
  delay_ms _ := mret tt;
  pwm_start := mret tt |}.

(** A modem in front of the card of the other demonstrations. *)
Definition card_answer (text : list Z) (k : nat) : list Z * nat :=
  let '(r, k') := demo_reply (command_of text) k in
  (crlf ++ bytes "+CSIM:" ++ csim_rest false r ++ crlf ++ bytes "OK" ++ crlf, k').
#[local] Instance card_port : ShieldPort modem := demo_port card_answer.

Definition resting (d : modem) (k : nat) : Prop := d = MkModem [] [] k.

Lemma modem_char b out t k : port_gives_char 0 (MkModem (b :: out) t k) b (MkModem out t k).
Proof. by constructor. Qed.
Lemma modem_gives text out t k : port_gives 0 (MkModem (text ++ out) t k) text (MkModem out t k).
Proof. induction text as [|b text IH]; [constructor|]. econstructor; [apply modem_char|exact IH]. Qed.
Lemma modem_ready b text out t k : port_ready 0 (MkModem (b :: text ++ out) t k) (b :: text) (MkModem out t k).
Proof. econstructor; [done|apply modem_gives]. Qed.
Lemma crlf_noise out t k : noise 0 2 (MkModem (crlf ++ out) t k) (MkModem out t k).
Proof.
  eapply (noise_chunk 0 1 _ [13] AT_TIMEOUT_EVENT); [done|done|done|cbn; lia|apply (modem_ready 13 [])|].
  eapply (noise_chunk 0 0 _ [10] AT_TIMEOUT_EVENT); [done|done|done|cbn; lia|apply (modem_ready 10 [])|]. constructor.
Qed.
Lemma typed_prints cmd t k : Forall is_u8 cmd ->
  prints (MkModem [] t k) cmd (MkModem [] (t ++ hex_text true cmd) k).
Proof.
  intros Hcmd. revert t. induction Hcmd as [|b cmd Hb _ IH]; intros t; [rw app_nil_r; constructor|].
  econstructor; [|rw /hex_text bind_cons -/(hex_text true cmd) app_assoc; apply IH].
  cbn [port_print card_port demo_port]. rw bool_decide_false //. apply hex_text_no_feed. by apply Forall_cons_2.
Qed.

Lemma card_reaches : @shield_reaches nat demo_card modem card_port 600 0 resting.
Proof.
  intros d k cmd r k' -> Hbytes Hl Hrun. cbn [transmitApdu demo_card] in Hrun.
  destruct (demo_reply cmd k) as [r0 k1] eqn:Hreply. injection Hrun as -> ->.
  set (out := crlf ++ bytes "+CSIM:" ++ csim_rest false r ++ crlf ++ bytes "OK" ++ crlf).
  exists false, 2%nat, (MkModem out [] k'), (MkModem [] [] k'). split_and!; [| |lia|done].
  - set (start := bytes "AT+CSIM=" ++ print_int (Z.of_nat (length cmd) * 2) ++ bytes "," ++ quote).
    exists (MkModem [] [] k), (MkModem [] start k), (MkModem [] (start ++ hex_text true cmd) k). split_and!.
    + done.
    + cbn [port_print card_port demo_port]. rw bool_decide_false //. rw /start !not_elem_of_app. destruct (short_number (length cmd)) as [_ ?]; [lia|].
      split_and!; [apply (bool_decide_unpack _); by vm_compute|done|apply (bool_decide_unpack _); by vm_compute..].
    + by apply typed_prints.
    + cbn [port_print card_port demo_port m_typed m_state m_out]. rw bool_decide_true; [|apply (bool_decide_unpack _); by vm_compute].
      rw /card_answer. replace ((start ++ hex_text true cmd) ++ quote ++ crlf) with (csim_command cmd).
      { rw command_of_text //; [|lia]. by rw Hreply. }
      rw /csim_command /start /quote /crlf -!app_assoc. done.
  - eexists _, _, _, _, _. split_and!; [apply crlf_noise|apply (modem_ready 43 (bytes "CSIM:"))|apply modem_gives|apply crlf_noise|
      apply (modem_ready 79 [75; 13; 10] [])|done].
Qed.

#[global] Instance shield_library : KeyLibrary (at_t modem) := {|
  mbedtls_x509_crt_parse bs := mret (demo_parse bs);
  mbedtls_pk_parse_key o := mret (match o with Some bs => demo_parse bs | None => 0 end);
  mbedtls_pk_setup_rsa_alt _ := mret 0 |}.
Definition shield_start : se_sys (at_t modem) :=
  SeSys demo_iface (MkApplet true MF_AID false false 0) (MkApplet true MIAS_AID false false 0) (MkMias [] 0 0 0 0 0)
    (modem_at false (MkModem [] [] 0)).
#[local] Instance demo_shield : Card (at_t modem) := ConnectShieldSE 600.

Lemma file_parsed_by_shield_witness : exists s', ready TheMF MF_AID s' /\
  through (behind_shield resting) (eq 0%nat) (card s') /\
  mbedtls_x509_crt_parse_se 600 0 demo_path demo_pin shield_start = on_card (mbedtls_x509_crt_parse (demo_content ++ [0])) s' /\
  mbedtls_pk_parse_se 600 0 demo_path demo_pin shield_start = on_card (mbedtls_pk_parse_key (Some (demo_content ++ [0]))) s'.
Proof.
  apply (@file_parsed_by_shield nat demo_card modem card_port 600 0 resting demo_responds card_reaches ltac:(lia)
    shield_library 0 true demo_name demo_pin demo_content [] (eq 0%nat) shield_start 0%nat).
  - by eexists.
  - exact demo_file.
  - done.
  - repeat constructor; vm_compute; congruence.
  - cbn. lia.
  - repeat constructor; vm_compute; congruence.
  - cbn. lia.
  - cbn. lia.
Defined.

(** *** Other answers *)

(** A modem that gives the same answer to every command. *)
Definition answers (answer : list Z) : ShieldPort modem := demo_port (fun _ k => (answer, k)).
Definition line (s : string) : list Z := bytes s ++ crlf.

(** An error is reported as a success without a response. *)
Example error_is_success :
  match @modem_send_apdu modem (answers (line "ERROR")) 400 [0; 176; 0; 0; 16] (modem_at false (MkModem [] [] 0)) with
  | Ret (r, _) => r | Exn _ => (false, None) end = (true, Some []).
Proof. vm_compute. reflexivity. Qed.
(** The character variable of [modem_bring_up] holds a digit by chance: the mode is taken for
    the status, and a modem that is not registered counts as registered. *)
Example mode_taken_for_status :
  match @modem_bring_up modem (answers (line "+CREG: 1,0" ++ line "OK")) 60 53 (modem_at false (MkModem [] [] 0)) with
  | Ret (r, _) => r | Exn _ => false end = true.
Proof. vm_compute. reflexivity. Qed.
Example not_registered :
  match @modem_bring_up modem (answers (line "+CREG: 1,0" ++ line "OK")) 60 0 (modem_at false (MkModem [] [] 0)) with
  | Ret _ => None | Exn e => Some e end = Some OutOfFuel.
Proof. vm_compute. reflexivity. Qed.

(** The number of bytes a modem announces is not compared with those that were asked for. *)
Definition socket_answer (n : string) (data : list Z) (text : list Z) (k : nat) : list Z * nat :=
  (if bool_decide (text = line "AT^SISI?") then line "^SISI: 1,4,0,0,0,0" ++ line "OK"
   else line ("^SISR: 1," ++ n) ++ data ++ crlf ++ line "OK", k).
Example socket_read :
  match @modem_read_socket modem (demo_port (socket_answer "4" (bytes "data"))) 60 0 1 4 (replicate 4 0) (modem_at false (MkModem [] [] 0)) with
  | Ret (r, _) => r | Exn _ => (0, []) end = (4, bytes "data").
Proof. vm_compute. reflexivity. Qed.
Example socket_overflow :
  match @modem_read_socket modem (demo_port (socket_answer "8" (bytes "too long"))) 60 0 1 4 (replicate 4 0) (modem_at false (MkModem [] [] 0)) with
  | Ret _ => None | Exn e => Some e end = Some (Fault OobWrite).
Proof. vm_compute. reflexivity. Qed.
End ShieldDemo.
