(* ===== verification/Board.v ===== *)
(** * Clock, delays, pins and network interface of the shield

    [external_libs/gemalto/platform/connect_shield/src/stm32l476rg/delay.c] and [pwm.c]: busy
    waits, and the clock of the modem made by a timer of the processor; the pins of the
    serial ports in [usart_init] of [usart.c]; the interface
    [external_libs/gemalto/common/src/NetInterface.cpp] that the network of the shield
    implements. The block of [nop] instructions and the masks of the header of the
    processor are parameters. *)
From S2P Require Import Prelude Usart Shield.

(** ** Delays *)

Section delays.
Context {K : Type} (nops : M K unit).

(** [while(v--) body]. *)
Fixpoint while_down (n : nat) (v : Z) (body : M K unit) : M K unit :=
  match n with
  | O => raise OutOfFuel
  | S n' => if v =? 0 then mret tt else _ ← body; while_down n' (v - 1) body
  end.
Definition delay_us (n : nat) (us : Z) : M K unit := while_down n us nops.
Definition delay_ms (n : nat) (ms : Z) : M K unit := while_down n ms (delay_us n 1000).
Definition delay_s (n : nat) (s : Z) : M K unit := while_down n s (delay_ms n 1000).

(** The loop runs its body [v] times. *)
Lemma while_down_run body (f : K -> K) : (forall k, body k = Ret (tt, f k)) -> forall v n k, (v < n)%nat ->
  while_down n (Z.of_nat v) body k = Ret (tt, Nat.iter v f k).
Proof.
  intros Hb. induction v as [|v IH]; intros [|n] k Hn; try lia; cbn [while_down]; [done|].
  rw (proj2 (Z.eqb_neq _ 0)); [|lia]. eapply bind_step; [apply Hb|].
  replace (Z.of_nat (S v) - 1) with (Z.of_nat v) by lia. rw IH; [|lia]. by rw -Nat.iter_succ_r.
Qed.
Lemma iter_mul (f : K -> K) a b k : Nat.iter a (Nat.iter b f) k = Nat.iter (a * b) f k.
Proof.
  induction a as [|a IH]; [done|]. cbn [Nat.iter nat_rect Nat.mul]. change (Nat.iter b f (Nat.iter a (Nat.iter b f) k) = Nat.iter (b + a * b) f k).
  by rw IH Nat.iter_add.
Qed.

(** The delays end, and wait for as many blocks as they have microseconds: a million for a
    second. *)
Theorem delay_s_waits (f : K -> K) s n k : (forall k, nops k = Ret (tt, f k)) -> (s < n)%nat -> (1000 < n)%nat ->
  delay_s n (Z.of_nat s) k = Ret (tt, Nat.iter (s * (1000 * 1000)) f k).
Proof.
  intros Hf Hs Hn. rw -(iter_mul f s). apply while_down_run; [|done]. intros k1. rw -(iter_mul f 1000 1000).
  apply (while_down_run _ (Nat.iter 1000 f)) with (v := 1000%nat); [|done]. intros k2. by apply (while_down_run _ f) with (v := 1000%nat).
Qed.
End delays.

(** ** The clock *)

(** The registers of the timer and of the pin. *)
Record pwm_registers := PwmRegisters {
  RCC_APB1ENR1 : Z; RCC_AHB2ENR : Z; TIM2_CR1 : Z; TIM2_ARR : Z; TIM2_PSC : Z; TIM2_EGR : Z; TIM2_SMCR : Z; TIM2_CR2 : Z;
  TIM2_CCMR1 : Z; TIM2_CCR2 : Z; TIM2_CCER : Z; GPIOB_AFR0 : Z; GPIOB_MODER : Z; GPIOB_OSPEEDR : Z }.
(** The masks that the functions use. *)
Record pwm_masks := PwmMasks {
  TIM2EN : Z; GPIOBEN : Z; TIM_EGR_UG : Z; OC2M_2 : Z; OC2M_1 : Z; OC2PE : Z; AFSEL3 : Z; AFSEL3_0 : Z; MODE3 : Z; MODE3_1 : Z;
  OSPEED3 : Z; CC2E : Z; CEN : Z }.

Section clock.
Context (m : pwm_masks).
(** [r |= x] and [r &= ~x] on registers of 32 bits. *)
Definition set_bits (r x : Z) : Z := Z.lor r x.
Definition clear_bits (r x : Z) : Z := Z.land r (u32 (Z.lnot x)).

Definition pwm_init (r : pwm_registers) : pwm_registers := {|
  RCC_APB1ENR1 := set_bits (RCC_APB1ENR1 r) (TIM2EN m); RCC_AHB2ENR := set_bits (RCC_AHB2ENR r) (GPIOBEN m);
  TIM2_CR1 := 0; TIM2_ARR := 8000; TIM2_PSC := 1000; TIM2_EGR := TIM_EGR_UG m; TIM2_SMCR := 0; TIM2_CR2 := 0;
  TIM2_CCMR1 := set_bits (Z.lor (OC2M_2 m) (OC2M_1 m)) (OC2PE m); TIM2_CCR2 := 8000 / 2; TIM2_CCER := 0;
  GPIOB_AFR0 := set_bits (clear_bits (GPIOB_AFR0 r) (AFSEL3 m)) (AFSEL3_0 m);
  GPIOB_MODER := set_bits (clear_bits (GPIOB_MODER r) (MODE3 m)) (MODE3_1 m);
  GPIOB_OSPEEDR := clear_bits (GPIOB_OSPEEDR r) (OSPEED3 m) |}.
Definition with_timer (ccer cr1 : Z) (r : pwm_registers) : pwm_registers :=
  PwmRegisters (RCC_APB1ENR1 r) (RCC_AHB2ENR r) cr1 (TIM2_ARR r) (TIM2_PSC r) (TIM2_EGR r) (TIM2_SMCR r) (TIM2_CR2 r)
    (TIM2_CCMR1 r) (TIM2_CCR2 r) ccer (GPIOB_AFR0 r) (GPIOB_MODER r) (GPIOB_OSPEEDR r).
Definition pwm_start (r : pwm_registers) : pwm_registers := with_timer (set_bits (TIM2_CCER r) (CC2E m)) (set_bits (TIM2_CR1 r) (CEN m)) r.
Definition pwm_stop (r : pwm_registers) : pwm_registers := with_timer (clear_bits (TIM2_CCER r) (CC2E m)) (clear_bits (TIM2_CR1 r) (CEN m)) r.

Lemma clear_set x : is_u32 x -> clear_bits (set_bits 0 x) x = 0.
Proof.
  intros Hx. rw /clear_bits /set_bits Z.lor_0_l. apply Z.bits_inj'. intros i Hi. rw Z.land_spec Z.bits_0 /u32.
  destruct (Z.ltb_spec i 32).
  - rw Z.mod_pow2_bits_low // Z.lnot_spec //. by destruct (Z.testbit x i).
  - rw Z.mod_pow2_bits_high ?andb_false_r //.
Qed.
(** Stopping takes back starting: the clock that was set up is as before. *)
Lemma pwm_stop_start r : is_u32 (CC2E m) -> is_u32 (CEN m) -> pwm_stop (pwm_start (pwm_init r)) = pwm_init r.
Proof. intros H1 H2. rw /pwm_stop /pwm_start /with_timer /=. by rw !clear_set. Qed.
End clock.

(** ** The pins of the serial ports

    The part of [usart_init] in [usart.c] that does not concern the ring buffers and the
    registers of [Usart.hardware]. *)

(** The registers of a group of pins, and those of the clocks, the groups A and C, the
    second and third control registers of the ports, and the interrupt controller. *)
Record gpio := Gpio { AFR0 : Z; AFR1 : Z; MODER : Z; OSPEEDR : Z }.
Record pin_registers := PinRegisters {
  AHB2ENR : Z; APB1ENR1 : Z; APB2ENR : Z; GPIOA : gpio; GPIOC : gpio; CR2 : list Z; CR3 : list Z; ISER : list Z }.
(** The masks of a pin; those of a port, with the number of its interrupt. *)
Record pin_masks := PinMasks {
  AFSEL : Z; AFSEL_2 : Z; AFSEL_1 : Z; AFSEL_0 : Z; MODE : Z; MODE_1 : Z; OSPEED : Z; OSPEED_1 : Z; OSPEED_0 : Z }.
Record port_masks := PortMasks { GPIOEN : Z; USARTEN : Z; rx_pin : pin_masks; tx_pin : pin_masks; USART_IRQn : Z }.

(** Alternate function 7, alternate function mode, very high speed. *)
Definition pin_function (m : pin_masks) (r : Z) : Z :=
  set_bits (clear_bits r (AFSEL m)) (Z.lor (Z.lor (AFSEL_2 m) (AFSEL_1 m)) (AFSEL_0 m)).
Definition configure_pin (high : bool) (m : pin_masks) (g : gpio) : gpio := {|
  AFR0 := if high then AFR0 g else pin_function m (AFR0 g);
  AFR1 := if high then pin_function m (AFR1 g) else AFR1 g;
  MODER := set_bits (clear_bits (MODER g) (MODE m)) (MODE_1 m);
  OSPEEDR := set_bits (clear_bits (OSPEEDR g) (OSPEED m)) (Z.lor (OSPEED_1 m) (OSPEED_0 m)) |}.
Definition configure_pins (high : bool) (m : port_masks) (g : gpio) : gpio := configure_pin high (tx_pin m) (configure_pin high (rx_pin m) g).

Section pins.
Context (masks : nat -> port_masks).

(** Port 1 uses the pins A10 and A9, port 2 A3 and A2, port 3 C11 and C10. *)
Definition enable_clocks (i : nat) (r : pin_registers) : pin_registers :=
  let m := masks i in
  PinRegisters (set_bits (AHB2ENR r) (GPIOEN m))
    (if decide (i = 1%nat) then APB1ENR1 r else set_bits (APB1ENR1 r) (USARTEN m))
    (if decide (i = 1%nat) then set_bits (APB2ENR r) (USARTEN m) else APB2ENR r)
    (GPIOA r) (GPIOC r) (CR2 r) (CR3 r) (ISER r).
Definition set_pins (i : nat) (r : pin_registers) : pin_registers :=
  let m := masks i in
  PinRegisters (AHB2ENR r) (APB1ENR1 r) (APB2ENR r)
    (if decide (i = 3%nat) then GPIOA r else configure_pins (bool_decide (i = 1%nat)) m (GPIOA r))
    (if decide (i = 3%nat) then configure_pins true m (GPIOC r) else GPIOC r)
    (CR2 r) (CR3 r) (ISER r).
Definition set_control (i : nat) (r : pin_registers) : outcome pin_registers :=
  let n := USART_IRQn (masks i) in
  let word := Z.to_nat (Z.shiftr n 5) in
  if decide (word < length (ISER r))%nat then
    Ret (PinRegisters (AHB2ENR r) (APB1ENR1 r) (APB2ENR r) (GPIOA r) (GPIOC r) (<[i := 0]> (CR2 r)) (<[i := 0]> (CR3 r))
           (<[word := u32 (Z.shiftl 1 (Z.land n 31))]> (ISER r)))
  else Exn (Fault OobWrite).

(** The ports with their pins; all of [usart_init]. *)
Record board_state := Ports { pt_bank : bank; pt_pins : pin_registers }.
Definition on_bank {A} (x : M bank A) : M board_state A := fun s =>
  match x (pt_bank s) with Ret (a, b) => Ret (a, Ports b (pt_pins s)) | Exn e => Exn e end.
Definition usart_init_board (clock handle baudrate rx_size tx_size : Z) : M board_state unit :=
  match usart_get_by_handle handle with
  | None => mret tt
  | Some i =>
      u ← on_bank (get_usart i);
      _ ← (match us_hw u with
           | Some _ =>
               r ← gets pt_pins;
               r ← lift_outcome (set_control i (set_pins i (enable_clocks i r)));
               modify (fun s => Ports (pt_bank s) r)
           | None => mret tt
           end);
      on_bank (usart_init clock handle baudrate rx_size tx_size)
  end.

(** A bit outside of the masks of the two pins stays, in each register. *)
Definition outside (k : Z) (m : pin_masks) (bits : pin_masks -> list Z) : Prop := Forall (fun x => Z.testbit x k = false) (bits m).
Lemma clear_bits_other r x k : 0 <= k < 32 -> Z.testbit x k = false -> Z.testbit (clear_bits r x) k = Z.testbit r k.
Proof. intros Hk Hx. rw /clear_bits Z.land_spec /u32 Z.mod_pow2_bits_low; [|lia]. rw Z.lnot_spec; [|lia]. by rw Hx andb_true_r. Qed.
Lemma pin_function_other m r k : 0 <= k < 32 -> outside k m (fun m => [AFSEL m; AFSEL_2 m; AFSEL_1 m; AFSEL_0 m]) ->
  Z.testbit (pin_function m r) k = Z.testbit r k.
Proof.
  intros Hk Hm. rw /outside !Forall_cons in Hm. destruct Hm as (H1 & H2 & H3 & H4 & _).
  rw /pin_function /set_bits !Z.lor_spec clear_bits_other // H2 H3 H4 !orb_false_r //.
Qed.
Lemma configure_pin_other high m g k : 0 <= k < 32 ->
  outside k m (fun m => [AFSEL m; AFSEL_2 m; AFSEL_1 m; AFSEL_0 m; MODE m; MODE_1 m; OSPEED m; OSPEED_1 m; OSPEED_0 m]) ->
  (fun x => Z.testbit x k) <$> [AFR0 (configure_pin high m g); AFR1 (configure_pin high m g); MODER (configure_pin high m g); OSPEEDR (configure_pin high m g)] =
  (fun x => Z.testbit x k) <$> [AFR0 g; AFR1 g; MODER g; OSPEEDR g].
Proof.
  intros Hk Hm. rw /outside !Forall_cons in Hm. destruct Hm as (H1 & H2 & H3 & H4 & H5 & H6 & H7 & H8 & H9 & _).
  assert (Hf : forall r, Z.testbit (pin_function m r) k = Z.testbit r k) by (intros r; apply pin_function_other; [done|by repeat constructor]).
  cbn [fmap list_fmap configure_pin AFR0 AFR1 MODER OSPEEDR]. rw /set_bits !Z.lor_spec !clear_bits_other // H6 H8 H9 !orb_false_r.
  by destruct high; rw Hf.
Qed.

(** The ports change as by [usart_init] alone; an error comes only from there, or from an
    interrupt number beyond the registers. *)
Theorem usart_init_board_ports clock handle baud rx tx (s : board_state) :
  (forall i, (Z.to_nat (Z.shiftr (USART_IRQn (masks i)) 5) < length (ISER (pt_pins s)))%nat) ->
  match usart_init_board clock handle baud rx tx s with
  | Ret (_, s') => usart_init clock handle baud rx tx (pt_bank s) = Ret (tt, pt_bank s')
  | Exn e => usart_init clock handle baud rx tx (pt_bank s) = Exn e
  end.
Proof.
  intros Hirq. rw /usart_init_board. destruct (usart_get_by_handle handle) as [i|] eqn:Hh; [|by rw /usart_init Hh].
  rw /on_bank /mbind /M_bind. assert (Hget : get_usart i (pt_bank s) = match pt_bank s !! i with Some u => Ret (u, pt_bank s) | None => Exn (Fault OobRead) end).
  { rw /get_usart /mbind /M_bind /gets. by destruct (pt_bank s !! i). }
  rw Hget. destruct (pt_bank s !! i) as [u|] eqn:Hu; [|by rw /usart_init Hh /mbind /M_bind Hget].
  destruct (us_hw u) as [hw|] eqn:Hhw; cbn [pt_bank pt_pins].
  - rw /gets /lift_outcome /set_control decide_True; [|exact (Hirq i)]. cbn [modify pt_bank].
    by destruct (usart_init clock handle baud rx tx (pt_bank s)) as [[[] b]|].
  - cbn. by destruct (usart_init clock handle baud rx tx (pt_bank s)) as [[[] b]|].
Qed.
End pins.

(** ** The network interface *)

(** The virtual functions of the class. [readSocket] is given the array and its length, and
    leaves the array as in the result. *)
Class NetInterface (S : Type) := {
  up : M S bool;
  down : M S bool;
  openTCPSocket : list Z -> Z -> M S Z;
  readSocket : Z -> list Z -> Z -> M S (Z * list Z);
  writeSocket : Z -> list Z -> Z -> M S Z;
  closeSocket : Z -> M S unit;
  isSocketClosed : Z -> M S bool }.

Section accessors.
Context {S : Type} `{!NetInterface S}.
Definition NetInterface_up : M S bool := up.
Definition NetInterface_down : M S bool := down.
Definition NetInterface_open_tcp_socket (address : list Z) (port : Z) : M S Z := openTCPSocket address port.
Definition NetInterface_read_socket (handle : Z) (data : list Z) (len : Z) : M S (Z * list Z) := readSocket handle data len.
Definition NetInterface_write_socket (handle : Z) (data : list Z) (len : Z) : M S Z := writeSocket handle data len.
Definition NetInterface_close_socket (handle : Z) : M S unit := closeSocket handle.
End accessors.

(** The network of the shield; [c0] is what the variable [c] of the functions of the modem
    holds before it is set. *)
Definition ConnectShieldNet {K : Type} `{!ShieldPort K} (fuel : nat) (c0 : Z) : NetInterface (at_t K) := {|
  up := ConnectShieldNet_up fuel c0;
  down := ConnectShieldNet_down;
  openTCPSocket := modem_open_tcp_socket fuel c0;
  readSocket handle data len := modem_read_socket fuel c0 handle len data;
  writeSocket handle data len := modem_write_socket fuel c0 handle len data;
  closeSocket := modem_close_socket fuel;
  isSocketClosed := ConnectShieldNet_isSocketClosed |}.
