(* ===== verification/Pcsc.v ===== *)
(** * The card reader

    [external_libs/gemalto/platform/pcsc/src/PCSCAccess.cpp]: the connection to the secure
    element through the PC/SC service of the system, whose calls are an interface. This
    connection follows up announced lengths itself. *)
From Stdlib Require Import Ascii String.
From S2P Require Import Prelude Text SecureElement Mias MbedtlsSe SeStack.

(** The calls of the service: their codes, the names of the readers, the bytes of a
    response. *)
Class Scard (K : Type) := {
  SCardEstablishContext : M K Z;
  SCardListReaders : M K (Z * list (list Z));
  (** Whether there is memory for the table of readers. *)
  calloc_readers : nat -> M K bool;
  SCardConnect : list Z -> M K Z;
  SCardStatus : M K Z;
  SCardBeginTransaction : M K Z;
  SCardEndTransaction : M K Z;
  SCardDisconnect : M K Z;
  SCardReleaseContext : M K Z;
  SCardTransmit : list Z -> M K (Z * list Z) }.

Definition SCARD_S_SUCCESS : Z := 0.

Section pcsc.
Context {K : Type} `{!Scard K} (fuel : nat).

(** The names in the list that the service returns are not empty. *)
Definition PCSCAccess_open : M K bool :=
  rv ← SCardEstablishContext;
  if decide (rv <> SCARD_S_SUCCESS) then mret false
  else
    '(rv, readers) ← SCardListReaders;
    if decide (rv <> SCARD_S_SUCCESS) then mret false
    else
      match readers with
      | [] => mret false
      | reader :: _ =>
          ok ← calloc_readers (length readers);
          if negb ok then mret false
          else
            rv ← SCardConnect reader;
            if decide (rv <> SCARD_S_SUCCESS) then mret false
            else
              rv ← SCardStatus;
              if decide (rv <> SCARD_S_SUCCESS) then mret false
              else
                rv ← SCardBeginTransaction;
                if decide (rv <> SCARD_S_SUCCESS) then mret false else mret true
      end.
Definition PCSCAccess_close : M K unit :=
  _ ← SCardEndTransaction; _ ← SCardDisconnect; _ ← SCardReleaseContext; mret tt.

(** [apdu] is the array of the caller, of which [apduLen] bytes are sent; its bytes are
    changed for the next command. The response has up to 258 bytes. *)
Fixpoint transmit_pcsc (n : nat) (apdu : list Z) (apduLen : nat) : M K (bool * option (list Z)) :=
  match n with
  | O => raise OutOfFuel
  | S n' =>
      '(rv, response) ← SCardTransmit (take apduLen apdu);
      if decide (rv <> SCARD_S_SUCCESS) then mret (false, Some response)
      else
        match response with
        | [sw1; sw2] =>
            if sw1 =? 108 then transmit_pcsc n' (<[4%nat := sw2]> apdu) apduLen
            else if sw1 =? 97 then
              transmit_pcsc n' ([Z.land (default 0 (apdu !! O)) 3; 192; 0; 0; sw2] ++ drop 5 apdu) 5
            else mret (true, Some response)
        | _ => mret (true, Some response)
        end
  end.
(** The array of the caller has room for five bytes. *)
Definition PCSCAccess : Card K := {|
  transmitApdu cmd := transmit_pcsc fuel (cmd ++ replicate (5 - length cmd) 0) (length cmd) |}.
End pcsc.

(** ** Behind the reader *)

Section reader.
Context {S : Type} {HS : Card S} {K : Type} `{!Scard K} (fuel : nat).

#[local] Instance reader_card : Card K := PCSCAccess fuel.

(** The service in state [k] reaches a secure element in state [s]: it passes every command
    of up to 260 bytes on. *)
Definition reader_reaches (R : K -> S -> Prop) : Prop := forall k (s : S) cmd r (s' : S),
  R k s -> Forall is_u8 cmd -> (length cmd <= 260)%nat -> transmitApdu cmd s = Ret ((true, Some r), s') ->
  exists k', SCardTransmit cmd k = Ret ((SCARD_S_SUCCESS, r), k') /\ R k' s'.

Context (R : K -> S -> Prop).
Hypotheses (Hresponds : @responds S HS) (Hreaches : reader_reaches R).

Lemma transmit_pcsc_step n cmd tail r k k1 : SCardTransmit cmd k = Ret ((SCARD_S_SUCCESS, r), k1) ->
  transmit_pcsc (Datatypes.S n) (cmd ++ tail) (length cmd) k =
    match r with
    | [sw1; sw2] =>
        if sw1 =? 108 then transmit_pcsc n (<[4%nat := sw2]> (cmd ++ tail)) (length cmd)
        else if sw1 =? 97 then
          transmit_pcsc n ([Z.land (default 0 ((cmd ++ tail) !! O)) 3; 192; 0; 0; sw2] ++ drop 5 (cmd ++ tail)) 5
        else mret (true, Some r)
    | _ => mret (true, Some r)
    end k1.
Proof. intros Hrun. cbn [transmit_pcsc]. rw take_app_length. by rw (bind_run _ _ _ _ _ Hrun). Qed.

(** Where the secure element needs further commands for its response, one call does all. *)
Lemma transmit_pcsc_run n (s : S) cmd r (s' : S) : exchange n s cmd r s' -> forall m k tail, (n < m)%nat ->
  R k s -> Forall is_u8 cmd -> (length cmd <= 260)%nat ->
  exists k', transmit_pcsc m (cmd ++ tail) (length cmd) k = Ret ((true, Some r), k') /\ R k' s'.
Proof.
  induction 1 as [s cmd r s' Hrun Hfinal Hlen|n s cmd x s1 r s' Hrun _ IH|n s cla cmd x s1 r s' Hrun _ IH]; intros [|m] k tail Hm HR Hbytes Hcmd; try lia;
    destruct (Hreaches _ _ _ _ _ HR Hbytes Hcmd Hrun) as (k1 & Hrun1 & HR1); rw (transmit_pcsc_step _ _ _ _ _ _ Hrun1).
  - exists k1. split; [|done]. destruct r as [|x [|y [|z r]]]; try done. destruct Hfinal as [H1 H2].
    rw (proj2 (Z.eqb_neq _ _) H1) (proj2 (Z.eqb_neq _ _) H2) //.
  - destruct (Hresponds _ _ _ _ Hrun) as ([_ [Hx _]%Forall_cons]%Forall_cons & _). cbn [Z.eqb Pos.eqb].
    destruct (decide (4 < length cmd)%nat) as [H4|H4].
    + rw insert_app_l //. rw -(length_insert cmd 4 x). apply IH; [lia|done|by apply Forall_insert|by rw length_insert].
    + rw insert_app_r_alt; [|lia]. rw list_insert_ge in IH; [|lia]. apply IH; [lia|done..].
  - destruct (Hresponds _ _ _ _ Hrun) as ([_ [Hx _]%Forall_cons]%Forall_cons & _). cbn [Z.eqb Pos.eqb app lookup list_lookup default].
    apply (IH m k1); [lia|done|by apply fetch_bytes|cbn; lia].
Qed.

Lemma reader_passes : Passes fuel 260 R.
Proof.
  split; [lia|]. intros n s cmd r s' k Hex Hn HR Hbytes Hcmd.
  destruct (transmit_pcsc_run _ _ _ _ _ Hex fuel k (replicate (5 - length cmd) 0) Hn HR Hbytes Hcmd) as (k' & Hrun & HR').
  destruct (exchange_end _ _ _ _ _ Hex) as [Hfinal Hlen]. exists O, k'. split_and!; [lia|by apply exchange_done|done].
Qed.

(** C39: a certificate or key in a file of the secure element, with a name of at most 254
    bytes, is read through a card reader:
    the reader's connection follows up the lengths and announcements of the secure element
    itself, and the parsers of mbedTLS get exactly the bytes of the file and a terminating
    null, and the logical channel is closed. *)
Theorem file_parsed_by_reader `{!KeyLibrary K} size0 upper name pin content rest closed (s : se_sys K) (e : S) :
  R (card s) e -> file_on_card fuel name pin content closed e ->
  ready TheMF MF_AID s -> Forall is_u8 name -> (length name <= 254)%nat -> Forall is_u8 pin -> (length pin <= 8)%nat -> (length content < fuel)%nat ->
  let path := MBEDTLS_SE_EF_KEY_NAME_PREFIX ++ hex_text upper name ++ 0 :: rest in
  exists s', ready TheMF MF_AID s' /\ through R closed (card s') /\
    mbedtls_x509_crt_parse_se fuel size0 path pin s = on_card (mbedtls_x509_crt_parse (content ++ [0])) s' /\
    mbedtls_pk_parse_se fuel size0 path pin s = on_card (mbedtls_pk_parse_key (Some (content ++ [0]))) s'.
Proof.
  intros Hl Hfile Hready Hname Hlen Hpinb Hpin Hcontent.
  apply (file_parsed_behind fuel 260 R Hresponds reader_passes _ _ _ _ _ _ _ s e); try done. lia.
Qed.
End reader.

(** ** A reader *)

Module ReaderDemo.
Import MbedtlsSe.Demo SeStack.ModemDemo.

(** A reader with the card of the other demonstrations. *)
#[global] Instance demo_scard : Scard nat := {|
  SCardEstablishContext := mret 0;
  SCardListReaders := mret (0, [bytes "reader"]);
  calloc_readers _ := mret true;
  SCardConnect _ := mret 0;
  SCardStatus := mret 0;
  SCardBeginTransaction := mret 0;
  SCardEndTransaction := mret 0;
  SCardDisconnect := mret 0;
  SCardReleaseContext := mret 0;
  SCardTransmit cmd := fun k => let '(r, k') := demo_reply cmd k in Ret ((0, r), k') |}.
Example demo_opens : PCSCAccess_open 0%nat = Ret (true, 0%nat).
Proof. reflexivity. Qed.

Lemma demo_reader_reaches : @reader_reaches nat demo_card nat demo_scard eq.
Proof.
  intros k s cmd r s' -> _ _ Hrun. cbn [transmitApdu demo_card] in Hrun. exists s'. split; [|done].
  cbn [SCardTransmit demo_scard]. destruct (demo_reply cmd s) as [r0 k0]. by injection Hrun as -> ->.
Qed.

#[local] Instance demo_reader : Card nat := PCSCAccess 600.
Lemma file_parsed_by_reader_witness : exists s', ready TheMF MF_AID s' /\
  through eq (eq 0%nat) (card s') /\
  mbedtls_x509_crt_parse_se 600 0 demo_path demo_pin demo_start = on_card (mbedtls_x509_crt_parse (demo_content ++ [0])) s' /\
  mbedtls_pk_parse_se 600 0 demo_path demo_pin demo_start = on_card (mbedtls_pk_parse_key (Some (demo_content ++ [0]))) s'.
Proof.
  apply (@file_parsed_by_reader nat demo_card nat demo_scard 600 eq demo_responds demo_reader_reaches
    demo_library 0 true demo_name demo_pin demo_content [] (eq 0%nat) demo_start 0%nat).
  - done.
  - exact demo_file.
  - done.
  - repeat constructor; vm_compute; congruence.
  - cbn. lia.
  - repeat constructor; vm_compute; congruence.
  - cbn. lia.
  - cbn. lia.
Defined.
End ReaderDemo.
