(* ===== verification/Sample.v ===== *)
(** * The program of the repository

    [samples/linux/aws/subscribe_publish_cpp_sample.cpp]: the program that opens the modem,
    connects, subscribes and publishes numbered messages, and its callbacks, over the
    client. What it prints with the macros of [aws_iot_log.h] is part of its state. The
    modem, the secure element behind it and [sleep] are an interface. *)
From Stdlib Require Import Ascii String.
From S2P Require Import Prelude Text Buffer Types Wire Packets Timer Topic Client Sim Transport.
From S2P Require Import Publish Subscribe Unsubscribe Connect Yield WorldFrame Api.
From S2P Require Import Json Jsmn JsmnGrammar.

(** ** Constants *)

(** Lines of text, each with its line feed. *)
Definition text_lines (l : list (list Z)) : list Z := t ← l; t ++ [10].
Definition AWS_IOT_ROOT_CA : list Z := text_lines
  [bytes "-----BEGIN CERTIFICATE-----";
   bytes "MIIE0zCCA7ugAwIBAgIQGNrRniZ96LtKIVjNzGs7SjANBgkqhkiG9w0BAQUFADCB";
   bytes "yjELMAkGA1UEBhMCVVMxFzAVBgNVBAoTDlZlcmlTaWduLCBJbmMuMR8wHQYDVQQL";
   bytes "ExZWZXJpU2lnbiBUcnVzdCBOZXR3b3JrMTowOAYDVQQLEzEoYykgMjAwNiBWZXJp";
   bytes "U2lnbiwgSW5jLiAtIEZvciBhdXRob3JpemVkIHVzZSBvbmx5MUUwQwYDVQQDEzxW";
   bytes "ZXJpU2lnbiBDbGFzcyAzIFB1YmxpYyBQcmltYXJ5IENlcnRpZmljYXRpb24gQXV0";
   bytes "aG9yaXR5IC0gRzUwHhcNMDYxMTA4MDAwMDAwWhcNMzYwNzE2MjM1OTU5WjCByjEL";
   bytes "MAkGA1UEBhMCVVMxFzAVBgNVBAoTDlZlcmlTaWduLCBJbmMuMR8wHQYDVQQLExZW";
   bytes "ZXJpU2lnbiBUcnVzdCBOZXR3b3JrMTowOAYDVQQLEzEoYykgMjAwNiBWZXJpU2ln";
   bytes "biwgSW5jLiAtIEZvciBhdXRob3JpemVkIHVzZSBvbmx5MUUwQwYDVQQDEzxWZXJp";
   bytes "U2lnbiBDbGFzcyAzIFB1YmxpYyBQcmltYXJ5IENlcnRpZmljYXRpb24gQXV0aG9y";
   bytes "aXR5IC0gRzUwggEiMA0GCSqGSIb3DQEBAQUAA4IBDwAwggEKAoIBAQCvJAgIKXo1";
   bytes "nmAMqudLO07cfLw8RRy7K+D+KQL5VwijZIUVJ/XxrcgxiV0i6CqqpkKzj/i5Vbex";
   bytes "t0uz/o9+B1fs70PbZmIVYc9gDaTY3vjgw2IIPVQT60nKWVSFJuUrjxuf6/WhkcIz";
   bytes "SdhDY2pSS9KP6HBRTdGJaXvHcPaz3BJ023tdS1bTlr8Vd6Gw9KIl8q8ckmcY5fQG";
   bytes "BO+QueQA5N06tRn/Arr0PO7gi+s3i+z016zy9vA9r911kTMZHRxAy3QkGSGT2RT+";
   bytes "rCpSx4/VBEnkjWNHiDxpg8v+R70rfk/Fla4OndTRQ8Bnc+MUCH7lP59zuDMKz10/";
   bytes "NIeWiu5T6CUVAgMBAAGjgbIwga8wDwYDVR0TAQH/BAUwAwEB/zAOBgNVHQ8BAf8E";
   bytes "BAMCAQYwbQYIKwYBBQUHAQwEYTBfoV2gWzBZMFcwVRYJaW1hZ2UvZ2lmMCEwHzAH";
   bytes "BgUrDgMCGgQUj+XTGoasjY5rw8+AatRIGCx7GS4wJRYjaHR0cDovL2xvZ28udmVy";
   bytes "aXNpZ24uY29tL3ZzbG9nby5naWYwHQYDVR0OBBYEFH/TZafC3ey78DAJ80M5+gKv";
   bytes "MzEzMA0GCSqGSIb3DQEBBQUAA4IBAQCTJEowX2LP2BqYLz3q3JktvXf2pXkiOOzE";
   bytes "p6B4Eq1iDkVwZMXnl2YtmAl+X6/WzChl8gGqCBpH3vn5fJJaCGkgDdk+bW48DW7Y";
   bytes "5gaRQBi5+MHt39tBquCWIMnNZBU4gcmU7qKEKQsTb47bDN0lAtukixlE0kF6BWlK";
   bytes "WE9gyn6CagsCqiUXObXbf+eEZSqVir2G3l6BFoMtEMze/aiCKm0oHw0LxOXnGiYZ";
   bytes "4fQRbxC1lfznQgUy286dUV4otp6F01vvpX1FQHKOtw5rDgb7MzVIcbidJ4vEZV8N";
   bytes "hnacRHr2lVz2XTIIM6RUthg/aFzyQkqFOFSDX9HoLPKsEdao7WNq";
   bytes "-----END CERTIFICATE-----"].
Definition HostAddress : list Z := bytes "your-aws-account.amazonaws.com".
Definition AWS_IOT_MQTT_PORT : Z := 8883.
Definition AWS_IOT_MQTT_CLIENT_ID : list Z := bytes "c-sdk-client-id".
Definition AWS_IOT_CERTIFICATE_FILENAME : list Z := bytes "SE://MIAS/0".
Definition AWS_IOT_PRIVATE_KEY_FILENAME : list Z := bytes "SE://MIAS/0".
Definition topic_name : list Z := bytes "RPI/Test".
Definition VERSION_MAJOR : Z := 2.
Definition VERSION_MINOR : Z := 1.
Definition VERSION_PATCH : Z := 1.
Definition VERSION_TAG : list Z := [].

(** ** State *)

(** A text that the program prints with one of the macros, by the line of the macro. *)
Record log_entry := Log { log_line : Z; log_text : list Z }.

(** The array [cPayload] of [main], the variable [publishCount], what was printed, and the
    world of the platform. *)
Record sample (W : Type) := Sample { cPayload : list Z; publishCount : Z; printed : list log_entry; sp_world : W }.
Arguments Sample {W}.
Arguments cPayload {W}.
Arguments publishCount {W}.
Arguments printed {W}.
Arguments sp_world {W}.

(** The modem, the applets of the secure element behind it, [sleep], and what members of
    local variables hold that are never set: [isDup] and [id] of the parameters for QoS 0
    and QoS 1. *)
Class SampleEnv (W : Type) := {
  modem_open : M W bool;
  modem_close : M W unit;
  se_init : M W Z;
  sleep : Z -> M W unit;
  un_isDup : W -> Z * Z;
  un_id : W -> Z * Z;
  un_id_range w : is_u16 (un_id w).1 /\ is_u16 (un_id w).2 }.

(** *** Memory

    The strings and the array the client is given have the addresses from -1 to -7. *)
Definition host_address : Z := -1.
Definition root_ca_address : Z := -2.
Definition certificate_address : Z := -3.
Definition private_key_address : Z := -4.
Definition client_id_address : Z := -5.
Definition topic_address : Z := -6.
Definition payload_address : Z := -7.
Definition sample_memory {W} `{!Platform W} (w : sample W) : memory := fun a =>
  if 0 <=? a then app_memory (sp_world w) a
  else if a =? host_address then Some (HostAddress ++ [0])
  else if a =? root_ca_address then Some (AWS_IOT_ROOT_CA ++ [0])
  else if a =? certificate_address then Some (AWS_IOT_CERTIFICATE_FILENAME ++ [0])
  else if a =? private_key_address then Some (AWS_IOT_PRIVATE_KEY_FILENAME ++ [0])
  else if a =? client_id_address then Some (AWS_IOT_MQTT_CLIENT_ID ++ [0])
  else if a =? topic_address then Some (topic_name ++ [0])
  else if a =? payload_address then Some (cPayload w)
  else None.

Definition in_sample {W A} (m : M W A) : M (sample W) A := fun w =>
  match m (sp_world w) with Ret (a, x) => Ret (a, Sample (cPayload w) (publishCount w) (printed w) x) | Exn e => Exn e end.
#[export] Instance sample_platform {W} `{!Platform W} : Platform (sample W) | 20 := {
  gettimeofday := in_sample gettimeofday;
  app_memory := sample_memory;
  iot_tls_init p := in_sample (iot_tls_init p);
  net_connect := in_sample net_connect;
  net_read n t := in_sample (net_read n t);
  net_write bs n t := in_sample (net_write bs n t);
  net_disconnect := in_sample net_disconnect;
  net_isConnected := in_sample net_isConnected;
  net_destroy := in_sample net_destroy }.

Section program.
Context {W : Type} `{!Platform W} `{!SampleEnv W}.

Definition on_sample {A} (m : M W A) : M (sys (sample W)) A := on_world (in_sample m).
Definition mod_sample (f : sample W -> sample W) : M (sys (sample W)) unit := modify (fun s => Sys (client s) (f (world s))).
Definition get_sample : M (sys (sample W)) (sample W) := gets world.

(** ** Printing *)

Definition print (line : Z) (text : list Z) : M (sys (sample W)) unit :=
  mod_sample (fun w => Sample (cPayload w) (publishCount w) (printed w ++ [Log line text]) (sp_world w)).
Definition IOT_INFO (line : Z) (text : list Z) : M (sys (sample W)) unit := print line (text ++ [10]).
(** The prefix names the function and the line. *)
Definition IOT_WARN (func : list Z) (line : Z) (text : list Z) : M (sys (sample W)) unit :=
  print line (bytes "WARN:  " ++ func ++ bytes " L#" ++ print_int line ++ bytes " " ++ text ++ [10]).
Definition IOT_ERROR (func : list Z) (line : Z) (text : list Z) : M (sys (sample W)) unit :=
  print line (bytes "ERROR: " ++ func ++ bytes " L#" ++ print_int line ++ bytes " " ++ text ++ [10]).

(** [%.*s]: at most [n] characters of a string, all of them when [n] is negative. *)
Definition print_precision (n : Z) (memory : option (list Z)) : outcome (list Z) :=
  match memory with
  | None => Exn (Fault OobRead)
  | Some bs =>
      let l := if n <? 0 then bs else take (Z.to_nat n) bs in
      match cstring l with
      | Some t => Ret t
      | None => if (n <? 0) || (Z.of_nat (length bs) <? n) then Exn (Fault OobRead) else Ret l
      end
  end.
(** [%s] of the array [cPayload], and its [strlen]. *)
Definition payload_string : M (sys (sample W)) (list Z) :=
  w ← get_sample; lift_option (Fault OobRead) (cstring (cPayload w)).

(** ** Callbacks *)

Definition iot_subscribe_callback_handler (pClient : client_ptr) (topicName : ptr) (topicNameLen : Z)
    (params : IoT_Publish_Message_Params) (pData : ptr) : M (sys (sample W)) IoT_Publish_Message_Params :=
  _ ← IOT_INFO 149 (bytes "Subscribe callback");
  src ← get_source;
  topic ← lift_outcome (print_precision topicNameLen (src topicName));
  payload ← lift_outcome (print_precision (s32 (msg_payloadLen params)) (src (msg_payload params)));
  _ ← IOT_INFO 150 (topic ++ [9] ++ payload);
  mret params.

Definition disconnectCallbackHandler `{!Application (sample W)} (fuel : nat) (pClient : client_ptr) (data : ptr) : M (sys (sample W)) unit :=
  let warn := IOT_WARN (bytes "disconnectCallbackHandler") in
  _ ← warn 154 (bytes "MQTT Disconnect");
  match pClient with
  | NullClient => mret tt
  | TheClient =>
      b ← aws_iot_is_autoreconnect_enabled pClient;
      if b : bool then IOT_INFO 164 (bytes "Auto Reconnect is enabled, Reconnecting attempt will start now")
      else
        _ ← warn 166 (bytes "Auto Reconnect not enabled. Starting manual reconnect...");
        rc ← aws_iot_mqtt_attempt_reconnect fuel pClient;
        if decide (NETWORK_RECONNECTED = rc) then warn 169 (bytes "Manual Reconnect Successful")
        else warn 171 (bytes "Manual Reconnect Failed - " ++ print_int (IoT_Error_val rc))
  end.

(** The callbacks as handlers of the client; a disconnect handler may run within an
    operation that a disconnect handler calls, with at most [n] levels. *)
Fixpoint sample_app (fuel n : nat) : Application (sample W) := {|
  app_handler _ topicName topicNameLen params pData := iot_subscribe_callback_handler TheClient topicName topicNameLen params pData;
  app_disconnect_handler _ data :=
    match n with
    | O => raise OutOfFuel
    | S n' => let app := sample_app fuel n' in disconnectCallbackHandler fuel TheClient data
    end |}.
Definition subscribe_callback : handler := Some 0.
Definition disconnect_callback : handler := Some 0.

(** The handler of the signals, up to [exit(0)]. *)
Definition intHandler : M (sys (sample W)) unit :=
  _ ← IOT_INFO 177 ([10] ++ bytes "Bye bye" ++ [10]);
  on_sample modem_close.

(** ** The program *)

(** The text that [sprintf] makes of a message and a number. *)
Definition payload_text (message : list Z) (num : Z) : list Z :=
  [123; 34] ++ bytes "message" ++ [34; 58; 34] ++ message ++ [34; 44; 34] ++ bytes "num" ++ [34; 58; 32] ++ print_int num ++ [125].
Definition sprintf_payload (message : list Z) (num : Z) : M (sys (sample W)) unit :=
  let t := payload_text message num ++ [0] in
  w ← get_sample;
  if decide (length t <= length (cPayload w))%nat then
    mod_sample (fun w => Sample (t ++ drop (length t) (cPayload w)) (publishCount w) (printed w) (sp_world w))
  else raise (Fault OobWrite).
(** [i++] on [int32_t]. *)
Definition increment (i : Z) : M (sys (sample W)) Z := if i <? 2 ^ 31 - 1 then mret (i + 1) else raise (Fault IntOverflow).
(** [if(publishCount > 0) publishCount--]. *)
Definition count_down : M (sys (sample W)) unit :=
  mod_sample (fun w => Sample (cPayload w) (if 0 <? publishCount w then publishCount w - 1 else publishCount w) (printed w) (sp_world w)).

Definition message_qos0 : list Z := bytes "Hello from Raspberry Pi! (QS0)!".
Definition message_qos1 : list Z := bytes "Hello from Raspberry Pi! (QS1)!".
Definition goes_on (rc : IoT_Error_t) : bool :=
  bool_decide (NETWORK_ATTEMPTING_RECONNECT = rc \/ NETWORK_RECONNECTED = rc \/ SUCCESS = rc).

Section main.
Context `{!Application (sample W)} (fuel : nat).

(** One message: its payload and the result of the publish, with the parameters as they are
    left. *)
Definition publish_message (message : list Z) (line i : Z) (params : IoT_Publish_Message_Params) :
    M (sys (sample W)) (IoT_Error_t * Z * IoT_Publish_Message_Params) :=
  next ← increment i;
  _ ← sprintf_payload message i;
  t ← payload_string;
  _ ← IOT_INFO line (bytes "Sending " ++ t);
  let params := MsgParams (msg_qos params) (msg_isRetained params) (msg_isDup params) (msg_id params) (msg_payload params) (Z.of_nat (length t)) in
  '(rc, p) ← aws_iot_mqtt_publish fuel TheClient (App topic_address) 8 (Some params);
  mret (rc, next, default params p).

(** What follows the yield in the body of the loop. *)
Definition publish_pair (i : Z) (qos0 qos1 : IoT_Publish_Message_Params) :
    M (sys (sample W)) (IoT_Error_t * Z * IoT_Publish_Message_Params * IoT_Publish_Message_Params) :=
  _ ← IOT_INFO 302 (bytes "-->sleep");
  _ ← on_sample (sleep 1);
  '(_, i, qos0) ← publish_message message_qos0 306 i qos0;
  _ ← count_down;
  '(rc, i, qos1) ← publish_message message_qos1 316 i qos1;
  rc ← (if decide (rc = MQTT_REQUEST_TIMEOUT_ERROR)
        then _ ← IOT_WARN (bytes "main") 319 (bytes "QOS1 publish ack not received." ++ [10]); mret SUCCESS
        else mret rc);
  _ ← count_down;
  mret (rc, i, qos0, qos1).

Fixpoint publish_loop (n : nat) (infinitePublishFlag : bool) (rc : IoT_Error_t) (i : Z) (qos0 qos1 : IoT_Publish_Message_Params) :
    M (sys (sample W)) IoT_Error_t :=
  match n with
  | O => raise OutOfFuel
  | S n' =>
      w ← get_sample;
      if goes_on rc && ((0 <? publishCount w) || infinitePublishFlag) then
        rc ← aws_iot_mqtt_yield fuel TheClient 100;
        if decide (NETWORK_ATTEMPTING_RECONNECT = rc) then publish_loop n' infinitePublishFlag rc i qos0 qos1
        else
          '(rc, i, qos0, qos1) ← publish_pair i qos0 qos1;
          publish_loop n' infinitePublishFlag rc i qos0 qos1
      else mret rc
  end.

Definition mqttInitParams : IoT_Client_Init_Params := {|
  enableAutoReconnect := false; pHostURL := App host_address; port := AWS_IOT_MQTT_PORT;
  pRootCALocation := App root_ca_address; pDeviceCertLocation := App certificate_address;
  pDevicePrivateKeyLocation := App private_key_address; mqttPacketTimeout_ms := 2000;
  mqttCommandTimeout_ms := 20000; tlsHandshakeTimeout_ms := 5000; isSSLHostnameVerify := true;
  init_disconnectHandler := disconnect_callback; init_disconnectHandlerData := NULL |}.
Definition connectParams : IoT_Client_Connect_Params :=
  let d := IoT_Client_Connect_Params_initializer in
  ConnectParams MQTT_3_1_1 (App client_id_address) (u16 (Z.of_nat (length AWS_IOT_MQTT_CLIENT_ID))) 10 true false (will d)
    (pUsername d) (usernameLen d) (pPassword d) (passwordLen d).

Definition print_settings : M (sys (sample W)) unit :=
  _ ← IOT_INFO 213 (bytes "Setting initial init params");
  _ ← IOT_INFO 214 (bytes "enableAutoReconnect = false");
  _ ← IOT_INFO 215 (bytes "pHostURL = " ++ HostAddress);
  _ ← IOT_INFO 216 (bytes "port = " ++ print_int AWS_IOT_MQTT_PORT);
  _ ← IOT_INFO 217 (bytes "pRootCALocation = " ++ AWS_IOT_ROOT_CA);
  _ ← IOT_INFO 218 (bytes "pDeviceCertLocation = " ++ AWS_IOT_CERTIFICATE_FILENAME);
  IOT_INFO 219 (bytes "pDevicePrivateKeyLocation = " ++ AWS_IOT_PRIVATE_KEY_FILENAME).

(** From the subscription to the end of the loop, and the end of the program. *)
Definition publish_messages (n : nat) (rc : IoT_Error_t) : M (sys (sample W)) IoT_Error_t :=
  _ ← sprintf_payload (bytes "Hello from Raspberry Pi!") 0;
  w ← get_sample;
  let '(dup0, dup1) := un_isDup (sp_world w) in
  let '(id0, id1) := un_id (sp_world w) in
  let qos0 := MsgParams QOS0 0 dup0 id0 (App payload_address) 0 in
  let qos1 := MsgParams QOS1 0 dup1 id1 (App payload_address) 0 in
  rc ← publish_loop n (publishCount w =? 0) rc 0 qos0 qos1;
  _ ← (if decide (SUCCESS <> rc) then IOT_ERROR (bytes "main") 328 (bytes "An error occurred in the loop." ++ [10])
       else IOT_INFO 330 (bytes "Publish done" ++ [10]));
  _ ← on_sample modem_close;
  mret rc.

(** [main]: the exit code. An operation that fails ends the program with its code. *)
Definition main (n : nat) : M (sys (sample W)) Z :=
  _ ← IOT_INFO 203 ([10] ++ bytes "AWS IoT SDK Version " ++ print_int VERSION_MAJOR ++ bytes "." ++ print_int VERSION_MINOR ++
        bytes "." ++ print_int VERSION_PATCH ++ bytes "-" ++ VERSION_TAG ++ [10]);
  ok ← on_sample modem_open;
  if negb ok then _ ← IOT_ERROR (bytes "main") 207 ([10] ++ bytes "Error modem not found!" ++ [10]); mret (-1)
  else
    _ ← on_sample se_init;
    _ ← print_settings;
    _ ← IOT_INFO 234 (bytes "clientCRT " ++ AWS_IOT_CERTIFICATE_FILENAME);
    _ ← IOT_INFO 235 (bytes "clientKey " ++ AWS_IOT_PRIVATE_KEY_FILENAME);
    _ ← IOT_INFO 238 (bytes "Initializing MQTT with connections params" ++ [10]);
    rc ← aws_iot_mqtt_init TheClient (Some mqttInitParams);
    if decide (SUCCESS <> rc) then
      _ ← IOT_ERROR (bytes "main") 241 (bytes "aws_iot_mqtt_init returned error : " ++ print_int (IoT_Error_val rc) ++ bytes " ");
      mret (IoT_Error_val rc)
    else
      _ ← IOT_INFO 252 (bytes "Connecting...");
      rc ← aws_iot_mqtt_connect fuel TheClient (Some connectParams);
      _ ← IOT_INFO 254 (bytes "After connecting");
      if decide (SUCCESS <> rc) then
        _ ← IOT_ERROR (bytes "main") 256 (bytes "Error(" ++ print_int (IoT_Error_val rc) ++ bytes ") connecting to " ++ HostAddress ++ bytes ":" ++ print_int AWS_IOT_MQTT_PORT);
        mret (IoT_Error_val rc)
      else
        _ ← IOT_INFO 259 (bytes "Connecting complete! setting auto-reconnect");
        rc ← aws_iot_mqtt_autoreconnect_set_status TheClient true;
        if decide (SUCCESS <> rc) then
          _ ← IOT_ERROR (bytes "main") 267 (bytes "Unable to set Auto Reconnect to true - " ++ print_int (IoT_Error_val rc));
          mret (IoT_Error_val rc)
        else
          _ ← IOT_INFO 271 (bytes "Subscribing...");
          rc ← aws_iot_mqtt_subscribe fuel TheClient (App topic_address) 8 QOS0 subscribe_callback NULL;
          if decide (SUCCESS <> rc) then
            _ ← IOT_ERROR (bytes "main") 274 (bytes "Error subscribing : " ++ print_int (IoT_Error_val rc) ++ bytes " ");
            mret (IoT_Error_val rc)
          else
            rc ← publish_messages n rc;
            mret (IoT_Error_val rc).
End main.
End program.

(** ** What the program announces *)

(** The texts of the calls that announce a message. *)
Definition announces (e : log_entry) : bool := (log_line e =? 306) || (log_line e =? 316).
Definition announced (l : list log_entry) : list log_entry := filter (fun e => announces e = true) l.
(** The announcement of message number [k]: QoS 0 and QoS 1 by turns. *)
Definition announcement (k : nat) : log_entry :=
  Log (if Nat.even k then 306 else 316)
    (bytes "Sending " ++ payload_text (if Nat.even k then message_qos0 else message_qos1) (Z.of_nat k) ++ [10]).
Definition announcements (m : nat) : list log_entry := announcement <$> seq 0 m.

Lemma announcements_next m : announcements (S m) = announcements m ++ [announcement m].
Proof. by rw /announcements seq_S fmap_app. Qed.

Lemma print_int_nonzero z : Z.abs z < 10 ^ 10 -> Forall (fun b => b <> 0) (print_int z).
Proof.
  intros Hz. destruct (print_int_digits z Hz) as (ds & [Hok _] & _ & ->). apply Forall_app. split; [by destruct (z <? 0); repeat constructor|].
  by apply digits_nonzero.
Qed.
Lemma bytes_nonzero s : forallb (fun b => negb (b =? 0)) (bytes s) = true -> Forall (fun b => b <> 0) (bytes s).
Proof. intros Hs. apply Forall_forall. intros b Hb. rw forallb_forall in Hs. apply list_elem_of_In, Hs in Hb. by apply negb_true_iff, Z.eqb_neq in Hb. Qed.
Lemma payload_nonzero message num : Forall (fun b => b <> 0) message -> Z.abs num < 10 ^ 10 -> Forall (fun b => b <> 0) (payload_text message num).
Proof.
  intros Hm Hn. pose proof (print_int_nonzero num Hn). rw /payload_text.
  repeat (apply Forall_app; split); try done; try (by apply bytes_nonzero); by repeat constructor.
Qed.

Section announcing.
Context {W : Type} `{!Platform W} `{!SampleEnv W} (fuel : nat).

(** After [m] announcements, with [c] messages to be sent. *)
Definition progress (m : nat) (c : Z) (w : sample W) : Prop := announced (printed w) = announcements m /\ publishCount w = c.

Section step.
Context (m : nat) (c : Z).
#[local] Abbreviation I := (fun s : sys (sample W) => progress m c (world s)) (only parsing).

Lemma keeps_in_sample {A} (x : M W A) : keeps (progress m c) (in_sample x).
Proof. intros w Hw. rw /wp /in_sample. by destruct (x (sp_world w)) as [[a w']|]. Qed.
#[local] Instance sample_keeps : PlatformKeeps (progress m c).
Proof. split; intros; apply keeps_in_sample. Qed.
Lemma keeps_on_sample {A} (x : M W A) : keeps I (on_sample x).
Proof. by apply (wkeeps_on_world (progress m c)), keeps_in_sample. Qed.
Lemma keeps_get_sample : keeps I get_sample.
Proof. by intros s Hs. Qed.

Lemma keeps_print line text : announces (Log line text) = false -> keeps I (print line text).
Proof.
  intros Hl. apply keeps_modify. intros s [Hp Hc]. split; [|done]. rw /announced filter_app /= in Hp |- *.
  by rw filter_cons_False ?filter_nil ?app_nil_r // Hl.
Qed.
Lemma keeps_callback p t n params d : keeps I (iot_subscribe_callback_handler p t n params d).
Proof.
  rw /iot_subscribe_callback_handler /IOT_INFO. pose proof keeps_print.
  assert (keeps I get_source) by by intros s Hs.
  keeps_auto.
Qed.
Lemma sample_app_keeps n : @HandlersKeep _ (sample_app fuel n) (progress m c).
Proof.
  induction n as [|n IH]; split; intros; cbn [app_handler app_disconnect_handler sample_app];
    [apply keeps_callback|apply keeps_raise|apply keeps_callback|].
  rw /disconnectCallbackHandler /IOT_WARN /IOT_INFO /aws_iot_is_autoreconnect_enabled. pose proof keeps_print.
  pose proof (wkeeps_attempt_reconnect (Application0 := sample_app fuel n) (progress m c) fuel TheClient).
  assert (keeps I get_client) by by intros s Hs.
  keeps_auto.
Qed.
End step.
Context (levels : nat).
#[local] Instance announcing_app : Application (sample W) := sample_app fuel levels.

(** A part that keeps the progress. *)
Lemma wp_progress {A} m c (x : M (sys (sample W)) A) (Q : A -> sys (sample W) -> Prop) s :
  keeps (fun s => progress m c (world s)) x -> progress m c (world s) ->
  (forall a s', progress m c (world s') -> Q a s') -> wp any_exn x Q s.
Proof. intros Hx Hs HQ. eapply wp_mono; [by apply Hx|]. intros a s' Hs'. by apply HQ. Qed.
Lemma client_keeps m c : PlatformKeeps (progress m c) /\ @HandlersKeep _ announcing_app (progress m c).
Proof. split; [apply sample_keeps|apply sample_app_keeps]. Qed.

Lemma publish_message_progress m c message line params (s : sys (sample W)) :
  announcement m = Log line (bytes "Sending " ++ payload_text message (Z.of_nat m) ++ [10]) ->
  Forall (fun b => b <> 0) message -> progress m c (world s) ->
  wp any_exn (publish_message fuel message line (Z.of_nat m) params) (fun r s' =>
    r.1.2 = Z.of_nat (S m) /\ progress (S m) c (world s')) s.
Proof.
  intros Hann Hmsg Hs. rw /publish_message /increment. apply wp_bind. destruct (Z.ltb_spec (Z.of_nat m) (2 ^ 31 - 1)) as [Hm|]; [|done].
  apply wp_ret, wp_bind. rw /sprintf_payload. apply wp_bind, wp_gets. case_decide; [|done]. apply wp_modify.
  apply wp_bind. rw /payload_string. apply wp_bind, wp_gets. cbn [world cPayload].
  rw -app_assoc (cstring_app _ _ []); [|apply payload_nonzero; [done|lia]|done]. rw app_nil_r.
  apply wp_ret, wp_bind. rw /IOT_INFO /print. apply wp_modify. cbn [world cPayload publishCount printed sp_world client].
  apply wp_bind. destruct (client_keeps (S m) c) as [? ?].
  eapply (wp_progress (S m) c); [by apply wkeeps_publish| |].
  - destruct Hs as [Hp Hc]. split; [|exact Hc]. cbn [world printed]. rw announcements_next -Hp /announced filter_app Hann -app_assoc.
    f_equal. rw -Hann filter_cons_True ?filter_nil //. rw /announcement /announces. by destruct (Nat.even m).
  - intros [rc p] s' Hs'. apply wp_ret. split; [cbn [fst snd]; lia|done].
Qed.

Definition counted_down (c : Z) : Z := if 0 <? c then c - 1 else c.
Lemma count_down_progress m c (Q : unit -> sys (sample W) -> Prop) s : progress m c (world s) ->
  (forall s', progress m (counted_down c) (world s') -> Q tt s') -> wp any_exn count_down Q s.
Proof. intros [Hp Hc] HQ. apply wp_modify, HQ. split; [done|]. cbn [world publishCount]. by rw Hc. Qed.

Lemma publish_pair_progress m c qos0 qos1 (s : sys (sample W)) : Nat.even m = true -> progress m c (world s) ->
  wp any_exn (publish_pair fuel (Z.of_nat m) qos0 qos1) (fun r s' =>
    r.1.1.2 = Z.of_nat (S (S m)) /\ progress (S (S m)) (counted_down (counted_down c)) (world s')) s.
Proof.
  intros Hm Hs. rw /publish_pair.
  apply wp_bind, (wp_progress m c); [by apply keeps_print|done|]. intros _ s1 Hs1.
  apply wp_bind, (wp_progress m c); [apply keeps_on_sample|done|]. intros _ s2 Hs2.
  apply wp_bind. eapply wp_mono; [apply (publish_message_progress m c); [by rw /announcement Hm|by apply bytes_nonzero|done]|].
  intros [[rc i] q0] s3 [Hi Hs3]. cbn [fst snd] in Hi. subst i. apply wp_bind, (count_down_progress (S m) c); [done|]. intros s4 Hs4.
  apply wp_bind. eapply wp_mono; [eapply (publish_message_progress (S m)); [|by apply bytes_nonzero|exact Hs4]|].
  { rw /announcement Nat.even_succ -Nat.negb_even Hm //. }
  intros [[rc' i] q1] s5 [Hi Hs5]. cbn [fst snd] in Hi. subst i. apply wp_bind.
  apply (wp_progress (S (S m)) (counted_down c)); [|done|].
  { case_decide; [apply keeps_bind; [by apply keeps_print|intros _]|]; apply keeps_ret. }
  intros rc2 s6 Hs6. apply wp_bind, (count_down_progress (S (S m)) (counted_down c)); [done|]. intros s7 Hs7. by apply wp_ret.
Qed.

(** The count rounded up to an even number. *)
Definition pairs_of (c : Z) : Z := 2 * ((c + 1) / 2).
Lemma pairs_step c : 0 < c -> pairs_of c = 2 + pairs_of (counted_down (counted_down c)).
Proof. intros Hc. rw /pairs_of /counted_down. repeat match goal with |- context [0 <? ?x] => destruct (Z.ltb_spec 0 x) end; Z.div_mod_to_equations; lia. Qed.

Lemma publish_loop_progress n infinite rc m c qos0 qos1 (s : sys (sample W)) :
  Nat.even m = true -> progress m c (world s) -> 0 <= c -> (infinite = true -> c = 0) ->
  wp any_exn (publish_loop fuel n infinite rc (Z.of_nat m) qos0 qos1) (fun rc' s' => exists m' c',
    progress m' c' (world s') /\ Nat.even m' = true /\ (m <= m')%nat /\ c' = Z.max 0 (c - Z.of_nat (m' - m)) /\
    (infinite = false -> Z.of_nat (m' - m) <= pairs_of c) /\ (goes_on rc' = true -> infinite = false /\ c' = 0)) s.
Proof.
  revert rc m c qos0 qos1 s. induction n as [|n IH]; intros rc m c q0 q1 s Hm Hs Hc Hinf; cbn [publish_loop]; [done|].
  apply wp_bind, wp_gets. pose proof Hs as [_ ->].
  destruct (goes_on rc && ((0 <? c) || infinite)) eqn:Hgo; last first.
  { apply wp_ret. exists m, c. rw Nat.sub_diag. split_and!; [done|done|done|lia| |].
    - intros _. rw /pairs_of. cbn. assert (0 <= (c + 1) / 2) by (apply Z.div_pos; lia). lia.
    - intros Hg. rw Hg /= in Hgo. apply orb_false_iff in Hgo as [Hneg%Z.ltb_ge ->]. split; [done|lia]. }
  destruct (client_keeps m c) as [? ?].
  apply wp_bind, (wp_progress m c); [by apply wkeeps_yield|done|]. intros rc1 s1 Hs1. case_decide; [by apply IH|].
  apply wp_bind. eapply wp_mono; [by apply (publish_pair_progress m c)|]. intros [[[rc2 i] q0'] q1'] s2 [Hi Hs2]. cbn [fst snd] in Hi. subst i.
  assert (Hcd : 0 <= counted_down (counted_down c) /\ (infinite = true -> counted_down (counted_down c) = 0) /\
    counted_down (counted_down c) = Z.max 0 (c - 2)).
  { rw /counted_down. repeat match goal with |- context [0 <? ?x] => destruct (Z.ltb_spec 0 x) end; (split_and!; [lia|intros Hi; specialize (Hinf Hi); lia|lia]). }
  destruct Hcd as (Hcd0 & Hcdi & Hcd). eapply wp_mono; [by apply IH|].
  intros rc3 s3 (m' & c' & Hp & He & Hle & Hc' & Hb & Hg). exists m', c'. split_and!; [done|done|lia|lia| |done].
  intros Hf. specialize (Hb Hf). rw Hf orb_false_r in Hgo. apply andb_prop in Hgo as [_ Hpos%Z.ltb_lt]. rw (pairs_step c Hpos). lia.
Qed.
End announcing.

Section program_announces.
Context {W : Type} `{!Platform W} `{!SampleEnv W} (fuel levels : nat).
#[local] Instance program_app : Application (sample W) := sample_app fuel levels.

(** What the exit code tells about the number of messages, from [c] on. *)
Definition announced_all (c : Z) (ok : bool) (s' : sys (sample W)) : Prop :=
  exists m, announced (printed (world s')) = announcements m /\ Nat.even m = true /\
    publishCount (world s') = Z.max 0 (c - Z.of_nat m) /\ (0 < c -> Z.of_nat m <= pairs_of c) /\
    (ok = true -> 0 < c /\ Z.of_nat m = pairs_of c).

Lemma announced_none c (s : sys (sample W)) : 0 <= c -> progress 0 c (world s) -> announced_all c false s.
Proof.
  intros Hc [Hp Hcount]. exists 0%nat. split_and!; [done|done|lia| |done].
  intros _. rw /pairs_of. assert (0 <= (c + 1) / 2) by (apply Z.div_pos; lia). lia.
Qed.
Lemma keeps_sprintf m c message num : keeps (fun s : sys (sample W) => progress m c (world s)) (sprintf_payload message num).
Proof.
  rw /sprintf_payload. apply keeps_bind; [apply keeps_get_sample|]. intros w. case_decide; [|apply keeps_raise].
  by apply keeps_modify.
Qed.

Lemma publish_messages_progress n c rc (s : sys (sample W)) : 0 <= c -> progress 0 c (world s) ->
  wp any_exn (publish_messages fuel n rc) (fun rc' => announced_all c (bool_decide (rc' = SUCCESS))) s.
Proof.
  intros Hc Hs. rw /publish_messages. apply wp_bind, (wp_progress 0 c); [apply keeps_sprintf|done|]. intros _ s1 Hs1.
  apply wp_bind, wp_gets. destruct (un_isDup (sp_world (world s1))) as [d0 d1]. destruct (un_id (sp_world (world s1))) as [i0 i1].
  pose proof Hs1 as [_ ->]. cbv zeta. apply wp_bind. eapply wp_mono.
  { apply (publish_loop_progress fuel levels n _ rc 0 c); [done|done|done|]. by intros Hz%Z.eqb_eq. }
  intros rc' s2 (m & c' & Hp & He & _ & Hc' & Hb & Hg). rw Nat.sub_0_r in Hc', Hb.
  assert (Hall : forall s3 : sys (sample W), progress m c' (world s3) -> announced_all c (bool_decide (rc' = SUCCESS)) s3).
  { intros s3 [Hp3 Hc3]. exists m. split_and!; [done|done|lia|intros Hpos; apply Hb; by apply Z.eqb_neq; lia|].
    intros ->%bool_decide_eq_true. destruct (Hg eq_refl) as [Hi Hz]. specialize (Hb Hi). apply Z.eqb_neq in Hi. split; [lia|].
    apply Nat.even_spec in He as [k Hk]. rw /pairs_of in Hb |- *. Z.div_mod_to_equations. lia. }
  apply wp_bind, (wp_progress m c'); [by destruct (decide (SUCCESS <> rc')); apply keeps_print|done|]. intros _ s3 Hs3.
  apply wp_bind, (wp_progress m c'); [apply keeps_on_sample|done|]. intros _ s4 Hs4. by apply wp_ret, Hall.
Qed.

Lemma error_value rc : (IoT_Error_val rc =? 0) = bool_decide (rc = SUCCESS).
Proof. by destruct rc. Qed.
Ltac keep_step c := apply wp_bind, (wp_progress 0 c); [|done|intros ? ? ?].

(** C29: the messages of the program, from its start, when nothing has been announced, and
    with a [publishCount] that is not negative. It announces the messages 0, 1, 2, ... in order, at
    QoS 0 and QoS 1 by turns, and always in pairs: with a [publishCount] that is not 0 it
    announces at most this number rounded up to an even one, and exactly this many when it
    ends with exit code 0; with 0 it publishes until an error, so it never ends with
    exit code 0. This holds whatever the broker, the network, reconnections and received
    messages do. *)
Theorem messages_announced n code (s s' : sys (sample W)) :
  main fuel n s = Ret (code, s') -> announced (printed (world s)) = [] -> 0 <= publishCount (world s) ->
  announced_all (publishCount (world s)) (code =? 0) s'.
Proof.
  set (c := publishCount (world s)). intros Hrun Hnone Hc. assert (Hs : progress 0 c (world s)) by done. clearbody c.
  destruct (client_keeps fuel levels 0 c) as [? ?]. by_wp Hrun. rw /main /print_settings.
  keep_step c; [by apply keeps_print|]. keep_step c; [apply keeps_on_sample|].
  match goal with |- context [negb ?b] => destruct b end; cbn [negb]; last first.
  { keep_step c; [by apply keeps_print|]. apply wp_ret. by apply announced_none. }
  keep_step c; [apply keeps_on_sample|]. do 4 (keep_step c; [repeat (apply keeps_bind; [by apply keeps_print|intros _]); by apply keeps_print|]).
  assert (Hfail : forall func line text rc (s1 : sys (sample W)), rc <> SUCCESS -> announces (Log line []) = false -> progress 0 c (world s1) ->
    wp any_exn (_ ← IOT_ERROR func line text; mret (IoT_Error_val rc)) (fun code => announced_all c (code =? 0)) s1).
  { intros func line text rc s1 Hrc Hl Hs1. keep_step c; [by apply keeps_print|]. apply wp_ret. rw error_value bool_decide_false //. by apply announced_none. }
  keep_step c; [by apply wkeeps_init|]. case_decide; [by apply Hfail|].
  keep_step c; [by apply keeps_print|]. keep_step c; [by apply wkeeps_connect|]. keep_step c; [by apply keeps_print|]. case_decide; [by apply Hfail|].
  keep_step c; [by apply keeps_print|].
  keep_step c; [apply keeps_bind; [by apply (wkeeps_mod (progress 0 c))|intros _; apply keeps_ret]|]. case_decide; [by apply Hfail|].
  keep_step c; [by apply keeps_print|]. keep_step c; [by apply wkeeps_subscribe|]. case_decide; [by apply Hfail|].
  apply wp_bind. eapply wp_mono; [by apply (publish_messages_progress n c)|]. intros rc s2 Hs2. apply wp_ret. by rw error_value.
Qed.
End program_announces.

(** ** The client of the program *)

Section client.
Context {W : Type} `{!Platform W} `{!ReadCodes W} `{!SampleEnv W} (fuel : nat).

Section property.
Context (Q : AWS_IoT_Client -> Prop).
#[local] Abbreviation I := (fun s : sys (sample W) => Q (client s)) (only parsing).
Lemma client_print line text : keeps I (print line text).
Proof. by apply keeps_modify. Qed.
Lemma client_callback p t n params d : keeps I (iot_subscribe_callback_handler p t n params d).
Proof.
  rw /iot_subscribe_callback_handler /IOT_INFO. pose proof client_print.
  assert (keeps I get_source) by by intros s Hs.
  keeps_auto.
Qed.
Lemma client_on_sample {A} (x : M W A) : keeps I (on_sample x).
Proof. apply client_on_world. Qed.
Lemma client_sprintf message num : keeps I (sprintf_payload message num).
Proof.
  rw /sprintf_payload. apply keeps_bind; [by intros s Hs|]. intros w. case_decide; [|apply keeps_raise]. by apply keeps_modify.
Qed.
Lemma client_string : keeps I payload_string.
Proof. rw /payload_string. apply keeps_bind; [by intros s Hs|]. intros w. apply keeps_lift_option. Qed.
Lemma client_count_down : keeps I count_down.
Proof. by apply keeps_modify. Qed.
End property.

Lemma sample_app_ok n : handlers_ok (sample W) (Application0 := sample_app fuel n).
Proof.
  induction n as [|n IH]; split; intros; apply (keeps_pres client_ok); cbn [app_handler app_disconnect_handler sample_app];
    [apply client_callback|apply keeps_raise|apply client_callback|].
  rw /disconnectCallbackHandler /IOT_WARN /IOT_INFO /aws_iot_is_autoreconnect_enabled. pose proof (client_print client_ok).
  pose proof (pres_keeps client_ok _ (exec_ok fuel IH CallAttemptReconnect)) as Hre. cbn [exec] in Hre.
  assert (keeps (fun s : sys (sample W) => client_ok (client s)) get_client) by by intros s Hs.
  keeps_auto.
Qed.
Lemma sample_app_state n : handlers_keep_state (sample W) (Application0 := sample_app fuel n).
Proof. intros f p m msg d. apply same_state_keeps. intros st. destruct n; cbn [app_handler sample_app]; apply (client_callback (in_state st)). Qed.
#[local] Instance sample_read_codes : ReadCodes (sample W).
Proof.
  intros n t w r w' Hr. change (in_sample (net_read n t) w = Ret (r, w')) in Hr. rw /in_sample in Hr.
  destruct (net_read n t (sp_world w)) as [[x v]|] eqn:Hn; [|done]. injection Hr as <- _. by apply read_codes in Hn.
Qed.

Context (levels : nat).
#[local] Instance rest_app : Application (sample W) := sample_app fuel levels.
#[local] Abbreviation R := (fun s : sys (sample W) => client_rests (client s)) (only parsing).

Lemma exec_keeps k : keeps R (exec fuel k).
Proof. apply exec_rests; [apply sample_app_ok|apply sample_app_state]. Qed.
Lemma rests_publish p n m : keeps R (aws_iot_mqtt_publish fuel TheClient p n m).
Proof.
  intros s Hs. pose proof (exec_keeps (CallPublish p n m) s Hs) as He. cbn [exec] in He. rw /wp /mbind /M_bind in He.
  rw /wp. by destruct (aws_iot_mqtt_publish fuel TheClient p n m s) as [[r s']|].
Qed.
Hint Resolve client_print client_on_sample client_sprintf client_string client_count_down rests_publish : iot.
Hint Extern 1 (keeps _ get_sample) => (intros ? ?; assumption) : iot.
Hint Extern 1 (keeps _ (aws_iot_mqtt_yield _ _ ?n)) => exact (exec_keeps (CallYield n)) : iot.
Hint Extern 1 (keeps _ (aws_iot_mqtt_connect _ _ ?p)) => exact (exec_keeps (CallConnect p)) : iot.
Hint Extern 1 (keeps _ (aws_iot_mqtt_autoreconnect_set_status _ ?b)) => exact (exec_keeps (CallAutoreconnectSetStatus b)) : iot.
Hint Extern 1 (keeps _ (aws_iot_mqtt_subscribe _ _ ?p ?n ?q ?h ?d)) => exact (exec_keeps (CallSubscribe p n q h d)) : iot.

Lemma rests_publish_message message line i params : keeps R (publish_message fuel message line i params).
Proof. rw /publish_message /increment /IOT_INFO. keeps_auto. Qed.
Hint Resolve rests_publish_message : iot.
Lemma rests_publish_pair i q0 q1 : keeps R (publish_pair fuel i q0 q1).
Proof. rw /publish_pair /IOT_INFO /IOT_WARN. keeps_auto. Qed.
Hint Resolve rests_publish_pair : iot.
Lemma rests_publish_loop n : forall infinite rc i q0 q1, keeps R (publish_loop fuel n infinite rc i q0 q1).
Proof. induction n as [|n IH]; intros; cbn [publish_loop]; keeps_auto. Qed.
Hint Resolve rests_publish_loop : iot.
Lemma rests_publish_messages n rc : keeps R (publish_messages fuel n rc).
Proof. rw /publish_messages /IOT_INFO /IOT_ERROR. keeps_auto. Qed.
Hint Resolve rests_publish_messages : iot.

(** From the memory of the structure on, the initialization makes a client at rest. *)
Definition begun (c : AWS_IoT_Client) (s' : sys (sample W)) : Prop := client s' = c \/ client_rests (client s').
Lemma init_rests p (s : sys (sample W)) : allocated (client s) ->
  wp any_exn (aws_iot_mqtt_init TheClient (Some p)) (fun rc s' => (rc <> SUCCESS /\ client s' = client s) \/ client_rests (client s')) s.
Proof.
  intros Ha. eapply wp_mono; [apply init_spec|]. intros rc s' [[-> ->]|[Hok Hst]]; [by left|]. right. split; [by apply Hok|].
  rw Hst. by case_decide.
Qed.
Lemma wp_client {A} (Q : AWS_IoT_Client -> Prop) (x : M (sys (sample W)) A) (T : A -> sys (sample W) -> Prop) s :
  keeps (fun s => Q (client s)) x -> Q (client s) -> (forall a s', Q (client s') -> T a s') -> wp any_exn x T s.
Proof. intros Hx Hs HT. eapply wp_mono; [by apply Hx|]. intros a s' Hs'. by apply HT. Qed.

Ltac same_client c := apply wp_bind, (wp_client (eq c)); [first [apply client_print|apply client_on_sample|
  repeat (apply keeps_bind; [apply client_print|intros _]); apply client_print]|done|intros ? ? ?].

(** C30: the client of the program. From the memory of the client object on, and however
    the program ends, its client is as it was before the initialization, or it is well
    formed and in none of the states of an operation in progress, with the callbacks of the
    program, which reconnect and print. *)
Theorem program_client n code (s s' : sys (sample W)) : allocated (client s) -> main fuel n s = Ret (code, s') ->
  client s' = client s \/ client_rests (client s').
Proof.
  intros Ha Hrun. change (begun (client s) s'). by_wp Hrun. rw /main /print_settings.
  set (c := client s) in *. assert (Hs : c = client s) by done. clearbody c.
  do 2 same_client c. match goal with |- context [negb ?b] => destruct b end; cbn [negb]; last first.
  { same_client c. by apply wp_ret; left. }
  do 5 same_client c. apply wp_bind. eapply wp_mono; [apply init_rests; congruence|cbv beta]. intros rc s1 Hinit.
  assert (Hfail : forall func line text code s2, begun c s2 -> wp any_exn (_ ← IOT_ERROR func line text; mret code) (fun (_ : Z) => begun c) s2).
  { intros func line text code0 s2 Hs2. apply wp_bind, (wp_client (fun d => d = c \/ client_rests d)); [apply (client_print (fun d => d = c \/ client_rests d))|done|].
    intros _ s3 Hs3. by apply wp_ret. }
  case_decide as Hrc; [apply Hfail; destruct Hinit as [[_ ?]|?]; [left; congruence|by right]|].
  destruct Hinit as [[? _]|Hinit]; [by destruct rc|].
  eapply (wp_client client_rests); [|exact Hinit|intros ? ? ?; by right]. rw /IOT_INFO /IOT_ERROR. keeps_auto.
Qed.
End client.

(** ** The payload *)

Lemma string_body_dec s : forallb (fun c => negb (c =? 34) && negb (c =? 92) && negb (c =? 0)) s = true -> string_body s.
Proof.
  induction s as [|c s IH]; [constructor|]. cbn [forallb]. intros [[[H1 H2]%andb_prop H3]%andb_prop Hs]%andb_prop.
  apply negb_true_iff in H1, H2, H3. constructor; [by apply Z.eqb_neq|by apply Z.eqb_neq|by apply Z.eqb_neq|by apply IH].
Qed.
Lemma print_int_length z : (length (print_int z) <= 11)%nat.
Proof.
  rw /print_int. assert (Hd : forall f n acc, (length (decimal_loop f n acc) <= f + length acc)%nat).
  { induction f as [|f IH]; intros n acc; cbn [decimal_loop]; [done|]. case_match; [cbn [length]; lia|].
    etrans; [apply IH|]. cbn [length]. lia. }
  destruct (z <? 0); cbn [length]; (etrans; [|apply (Nat.add_le_mono (10 + 0) 10 1 1); lia]);
    [rw Nat.add_1_r; apply le_n_S|etrans; [|by apply Nat.le_add_r]]; apply Hd.
Qed.
Lemma print_int_prim z : Z.abs z < 10 ^ 10 -> prim_text (print_int z).
Proof.
  intros Hz. destruct (print_int_digits z Hz) as (ds & [[Hne Hds] _] & _ & ->).
  assert (Hchars : Forall (fun c => 48 <= c < 58) (digits_text ds)).
  { apply Forall_fmap. eapply Forall_impl; [exact Hds|]. cbn. lia. }
  apply prim_text_dec.
  - rw forallb_app. apply andb_true_intro. split; [by destruct (z <? 0)|]. apply forallb_forall. intros c Hc%list_elem_of_In.
    rw Forall_forall in Hchars. specialize (Hchars c Hc). rw /ends_primitive.
    repeat (apply andb_true_intro; split); lia.
  - destruct (z <? 0); [done|]. destruct ds as [|d ds]; [done|]. apply Forall_cons in Hds as [Hd _]. cbn. lia.
Qed.

(** The tokens of the payload: the object, its keys, the message and the number. *)
Definition payload_tokens (message : list Z) (num : Z) : list jsmntok_t :=
  let m := zlen message in
  [MkTok JSMN_OBJECT 0 (22 + m + zlen (print_int num)) 2; MkTok JSMN_STRING 2 9 1; MkTok JSMN_STRING 12 (12 + m) 0;
   MkTok JSMN_STRING (15 + m) (18 + m) 1; MkTok JSMN_PRIMITIVE (21 + m) (21 + m + zlen (print_int num)) 0].

Lemma value_at p p' text toks toks' : value p text toks -> p = p' -> toks = toks' -> value p' text toks'.
Proof. by intros ? <- <-. Qed.
Lemma payload_value message num : string_body message -> Z.abs num < 10 ^ 10 -> value 0 (payload_text message num) (payload_tokens message num).
Proof.
  intros Hm Hn. set (t := print_int num).
  set (m1 := [] ++ ([34] ++ bytes "message" ++ [34]) ++ [] ++ [58] ++ [] ++ ([34] ++ message ++ [34]) ++ []).
  set (m2 := [] ++ ([34] ++ bytes "num" ++ [34]) ++ [] ++ [58] ++ [32] ++ t ++ []).
  assert (payload_text message num = [123] ++ (m1 ++ [44] ++ m2) ++ [125]) as ->.
  { rw /m1 /m2 /payload_text -/t !app_nil_l !app_nil_r. by repeat (rw -!app_assoc /=; f_equal). }
  assert (Hl1 : zlen m1 = 12 + zlen message) by (rw /m1 /zlen !length_app; cbn; lia).
  assert (Hl2 : zlen m2 = 7 + zlen t) by (rw /m2 /zlen !length_app; cbn; lia).
  eapply value_at; [apply (value_object 0 (m1 ++ [44] ++ m2) (drop 1 (payload_tokens message num)) 2)|done|].
  - apply (members_more 1 m1 (take 2 (drop 1 (payload_tokens message num))) m2 (drop 3 (payload_tokens message num)) 0).
    + apply (member_intro 1 [] (bytes "message") [] [] ([34] ++ message ++ [34]) [] [MkTok JSMN_STRING 12 (12 + zlen message) 0]); try by constructor.
      by apply string_body_dec.
    + rw Hl1. apply members_one.
      eapply eq_ind; [apply (member_intro (1 + (12 + zlen message) + 1) [] (bytes "num") [] [32] t [] [MkTok JSMN_PRIMITIVE (21 + zlen message) (21 + zlen message + zlen t) 0]);
        try by constructor|].
      * by apply string_body_dec.
      * constructor; [by right; right; right|constructor].
      * eapply (value_at (21 + zlen message)); [apply value_primitive, print_int_prim, Hn| |done]. rw /zlen. cbn. lia.
      * rw /payload_tokens -/t. cbn [drop]. change (zlen []) with 0. change (zlen (bytes "num")) with 3.
        replace (1 + (12 + zlen message) + 1 + 0 + 1) with (15 + zlen message) by lia. by replace (15 + zlen message + 3) with (18 + zlen message) by lia.
  - rw (zlen_app m1) (zlen_app [44]) Hl1 Hl2 /payload_tokens -/t. cbn [drop]. change (zlen [44]) with 1.
    by replace (0 + (12 + zlen message + (1 + (7 + zlen t))) + 2) with (22 + zlen message + zlen t) by lia.
Qed.

Definition program_messages : list (list Z) := [message_qos0; message_qos1; bytes "Hello from Raspberry Pi!"].
Lemma program_message message : message ∈ program_messages -> string_body message /\ Forall (fun b => b <> 0) message /\ (length message <= 31)%nat.
Proof.
  rw /program_messages. intros Hm. repeat (apply elem_of_cons in Hm as [->|Hm]); [..|by apply elem_of_nil in Hm];
    (split_and!; [by apply string_body_dec|by apply bytes_nonzero|cbn; lia]).
Qed.

Lemma payload_fits message num : (length message <= 31)%nat -> (length (payload_text message num) < 100)%nat.
Proof. intros Hm. pose proof (print_int_length num). rw /payload_text !length_app. cbn [length bytes fmap list_fmap list_ascii_of_string]. lia. Qed.

Lemma key_here json tok pre key post : json = pre ++ key ++ post -> tok_type tok = JSMN_STRING -> tok_start tok = zlen pre ->
  tok_end tok = tok_start tok + zlen key -> Forall (fun b => b <> 0) key -> jsoneq json tok (key ++ [0]) = Ret 0.
Proof.
  intros -> Hty Hst Hen Hk. rw (jsoneq_run _ _ _ _ _ key (tok_text_intro _ _ _ post Hst Hen)) ?decide_True // (cstring_app _ _ []) // app_nil_r //.
Qed.

(** C31: the payload. The text of a message, with any number of 32 bits, fits into the array of
    100 bytes with its final null, whatever the array held; the tokenizer of the
    repository reads it as an object of two members, and the readers of values find the
    message under its key and exactly the number under the key [num]. *)
Theorem payload_read_back {W} `{!Platform W} `{!SampleEnv W} message num (s : sys (sample W)) par ts buf :
  message ∈ program_messages -> - 2 ^ 31 <= num < 2 ^ 31 -> length (cPayload (world s)) = 100%nat ->
  length ts = 5%nat -> (31 < length buf)%nat ->
  exists s' p' o k1 v1 k2 v2, sprintf_payload message num s = Ret (tt, s') /\ client s' = client s /\
    let json := cPayload (world s') in
    length json = 100%nat /\ cstring json = Some (payload_text message num) /\
    jsmn_parse json (zlen (payload_text message num)) 5 (jsmn_init (MkJstate par (Some ts))) = Ret (5, p') /\
    tokens p' = Some [o; k1; v1; k2; v2] /\ tok_type o = JSMN_OBJECT /\ tok_size o = 2 /\
    jsoneq json k1 (bytes "message" ++ [0]) = Ret 0 /\ jsoneq json k2 (bytes "num" ++ [0]) = Ret 0 /\
    parseStringValue buf json v1 = Ret (SUCCESS, message ++ 0 :: drop (length message + 1) buf) /\
    parseInteger32Value json v2 = Ret (SUCCESS, Some num).
Proof.
  intros Hmsg Hnum Harr Hts Hbuf. destruct (program_message message Hmsg) as (Hbody & Hnz & Hlen).
  assert (Hn : Z.abs num < 10 ^ 10) by lia. pose proof (payload_fits message num Hlen) as Hfit.
  remember (payload_text message num) as t eqn:Htext. set (junk := drop (length (t ++ [0])) (cPayload (world s))).
  assert (Ht : Forall (fun b => b <> 0) t) by (rw Htext; by apply payload_nonzero).
  destruct (parse_value_run [] t [] (payload_tokens message num) junk 5 ts) as (sup & Hparse);
    [constructor|constructor|rw Htext; by apply payload_value|by rw app_nil_r|rw app_nil_r; change ([] ++ t) with t; lia|rw Hts; cbn; lia|lia|].
  assert (Hjson : (t ++ [0]) ++ junk = t ++ 0 :: junk) by by rw -app_assoc.
  eexists (Sys (client s) (Sample ((t ++ [0]) ++ junk) (publishCount (world s)) (printed (world s)) (sp_world (world s)))), _, _, _, _, _, _.
  split_and!; [|done|]; cbn [world cPayload].
  { rw /sprintf_payload -Htext. eapply bind_step; [done|]. rw decide_True; [done|]. rw length_app. cbn [length]. lia. }
  rw Hjson. split_and!.
  - rw length_app /= length_drop length_app. cbn [length]. lia.
  - rw (cstring_app _ _ []) // ?app_nil_r //.
  - rw app_nil_r in Hparse. exact Hparse.
  - cbn [tokens jst]. rw drop_ge ?app_nil_r; [done|cbn; lia].
  - done.
  - done.
  - eapply (key_here _ _ [123; 34] (bytes "message")); [|done..|by apply bytes_nonzero]. rw Htext /payload_text -!app_assoc. done.
  - eapply (key_here _ _ ([123; 34] ++ bytes "message" ++ [34; 58; 34] ++ message ++ [34; 44; 34]) (bytes "num")); [|done|..|by apply bytes_nonzero].
    + rw Htext /payload_text -!app_assoc. done.
    + rw /zlen !length_app. cbn. lia.
    + cbn [tok_start tok_end]. change (zlen (bytes "num")) with 3. lia.
  - assert (exists pre post, t ++ 0 :: junk = pre ++ message ++ post /\ zlen pre = 12) as (pre & post & Heq & Hpre).
    { exists ([123; 34] ++ bytes "message" ++ [34; 58; 34]). eexists. split; [|done]. rw Htext /payload_text -!app_assoc. done. }
    destruct (json_strings (t ++ 0 :: junk) (MkTok JSMN_STRING 12 (12 + zlen message) 0) pre message post buf (message ++ [0]) message)
      as [Hread _]; [done|exact Heq|exact (eq_sym Hpre)|done|lia|exact Hnz|by rw (cstring_app _ _ []) // app_nil_r|].
    rw Hread decide_True; [done|lia].
  - assert (exists pre, t ++ 0 :: junk = pre ++ print_int num ++ 125 :: 0 :: junk /\ zlen pre = 21 + zlen message) as (pre & Heq & Hpre).
    { exists ([123; 34] ++ bytes "message" ++ [34; 58; 34] ++ message ++ [34; 44; 34] ++ bytes "num" ++ [34; 58; 32]). split.
      - rw Htext /payload_text -!app_assoc. done.
      - rw /zlen !length_app. cbn. lia. }
    destruct (printed_integer_read_back 32 num (t ++ 0 :: junk)
      (MkTok JSMN_PRIMITIVE (21 + zlen message) (21 + zlen message + zlen (print_int num)) 0) (125 :: 0 :: junk) [125]) as [Hread _];
      cbn [tok_type tok_start]; [lia|done| | |done|done|done|done|].
    + rw -Hpre Heq length_app /zlen. lia.
    + rw -Hpre Heq /zlen Nat2Z.id drop_app_length //.
    + rw /parseInteger32Value Hread decide_True //.
Qed.

(** ** A run of the program *)

Module SampleDemo.

(** A broker behind the network of [Sim]: it accepts the connection, grants subscriptions,
    acknowledges messages at QoS 1 and sends messages at QoS 0 back; and a modem, open or not. *)
Record broker := Broker { br_net : sim; br_open : bool }.
Definition broker_reply (pkt : list Z) : list Z :=
  match pkt with
  | 16 :: _ => [32; 2; 0; 0]
  | 130 :: _ :: h :: l :: _ => [144; 3; h; l; 0]
  | 50 :: _ :: th :: tl :: rest => [64; 2] ++ take 2 (drop (Z.to_nat (th * 256 + tl)) rest)
  | 48 :: _ => pkt
  | _ => []
  end.
Definition on_net {A} (m : M sim A) : M broker A := fun b =>
  match m (br_net b) with Ret (a, w) => Ret (a, Broker w (br_open b)) | Exn e => Exn e end.
#[export] Instance broker_platform : Platform broker := {
  gettimeofday := on_net gettimeofday;
  app_memory b := app_memory (br_net b);
  iot_tls_init p := on_net (iot_tls_init p);
  net_connect := on_net net_connect;
  net_read n t := on_net (net_read n t);
  net_write bs n t := on_net (r ← net_write bs n t; _ ← modify (fun w => sim_set_in (sim_in w ++ broker_reply (take (Z.to_nat n) bs)) w); mret r);
  net_disconnect := on_net net_disconnect;
  net_isConnected := on_net net_isConnected;
  net_destroy := on_net net_destroy }.
#[export] Instance broker_env : SampleEnv broker.
Proof.
  refine {|
    modem_open := fun b => Ret (true, Broker (br_net b) true);
    modem_close := fun b => Ret (tt, Broker (br_net b) false);
    se_init := mret 0;
    sleep n := fun b => let w := br_net b in
      Ret (tt, Broker (Sim (sim_now w + n * 1000000) (sim_step w) (sim_mem w) (sim_in w) (sim_out w) (sim_calls w)) (br_open b));
    un_isDup _ := (0, 1); un_id _ := (7, 9) |}.
  by intros _.
Defined.
#[export] Instance broker_codes : ReadCodes broker.
Proof.
  intros n t b r b' Hr. change (on_net (net_read n t) b = Ret (r, b')) in Hr. rw /on_net in Hr.
  destruct (net_read n t (br_net b)) as [[x v]|] eqn:Hn; [|done]. injection Hr as <- _. by apply read_codes in Hn.
Qed.

Definition demo_world (count : Z) : sample broker :=
  Sample (replicate 100 170) count [] (Broker (Sim 5000000 20000 (fun _ => None) [] [] []) false).
Definition demo_start (count : Z) : sys (sample broker) := Sys (sim_client CLIENT_STATE_INVALID []) (demo_world count).
#[export] Instance demo_app : Application (sample broker) := sample_app 60 2.

(** With a count of 3 there are four messages; those at QoS 0 come back and are printed. *)
Definition received : log_entry -> bool := fun e => log_line e =? 150.
Definition demo_run : outcome (Z * sys (sample broker)) := main 60 10 (demo_start 3).
Example demo_result : match demo_run with
  | Ret (code, s') => code = 0 /\ length (filter (fun e => received e = true) (printed (world s'))) = 2%nat /\ br_open (sp_world (world s')) = false /\
      clientState (clientStatus (client s')) = CLIENT_STATE_CONNECTED_IDLE
  | Exn _ => False
  end.
Proof. vm_compute. by split_and!. Qed.

Lemma demo_returns : exists s', main 60 10 (demo_start 3) = Ret (0, s').
Proof. eexists. vm_compute. reflexivity. Qed.

Theorem messages_announced_witness : exists s', main 60 10 (demo_start 3) = Ret (0, s') /\ announced_all 3 true s'.
Proof.
  destruct demo_returns as [s' Hrun]. exists s'. split; [exact Hrun|].
  refine (messages_announced 60 2 10 0 (demo_start 3) s' Hrun _ _).
  - reflexivity.
  - simpl. lia.
Defined.

Theorem program_client_witness : exists s', main 60 10 (demo_start 3) = Ret (0, s') /\
  (client s' = client (demo_start 3) \/ client_rests (client s')).
Proof.
  destruct demo_returns as [s' Hrun]. exists s'. split; [exact Hrun|].
  refine (program_client 60 2 10 0 (demo_start 3) s' _ Hrun). split; reflexivity.
Defined.

Theorem payload_read_back_witness : exists s' p' o k1 v1 k2 v2, sprintf_payload message_qos0 (-2147483648) (demo_start 3) = Ret (tt, s') /\
  client s' = client (demo_start 3) /\
  let json := cPayload (world s') in
  length json = 100%nat /\ cstring json = Some (payload_text message_qos0 (-2147483648)) /\
  jsmn_parse json (zlen (payload_text message_qos0 (-2147483648))) 5 (jsmn_init (MkJstate (MkParser 0 0 0) (Some (replicate 5 (MkTok JSMN_UNDEFINED 0 0 0))))) = Ret (5, p') /\
  tokens p' = Some [o; k1; v1; k2; v2] /\ tok_type o = JSMN_OBJECT /\ tok_size o = 2 /\
  jsoneq json k1 (bytes "message" ++ [0]) = Ret 0 /\ jsoneq json k2 (bytes "num" ++ [0]) = Ret 0 /\
  parseStringValue (replicate 40 7) json v1 = Ret (SUCCESS, message_qos0 ++ 0 :: drop (length message_qos0 + 1) (replicate 40 7)) /\
  parseInteger32Value json v2 = Ret (SUCCESS, Some (-2147483648)).
Proof.
  refine (payload_read_back message_qos0 (-2147483648) (demo_start 3) _ _ _ _ _ _ _ _).
  - apply elem_of_cons. left. reflexivity.
  - lia.
  - reflexivity.
  - reflexivity.
  - simpl. lia.
Defined.

(** A connection is lost while automatic reconnection is disabled: the callback connects
    again and says so, but the client is left disconnected. *)
Definition lost_start : sys (sample broker) :=
  Sys (set_disconnectHandler disconnect_callback NULL
         (MkClient init_timer init_timer (MkStatus CLIENT_STATE_CONNECTED_IDLE true false) (clientData (sim_client CLIENT_STATE_CONNECTED_IDLE []))))
    (demo_world 3).
Example manual_reconnect_lost : match aws_iot_mqtt_yield 60 TheClient 100 lost_start with
  | Ret (rc, s') => rc = NETWORK_DISCONNECTED_ERROR /\ 169 ∈ (log_line <$> printed (world s')) /\
      clientState (clientStatus (client s')) = CLIENT_STATE_DISCONNECTED_ERROR
  | Exn _ => False
  end.
Proof. vm_compute. split_and!; [done| |done]. by repeat constructor. Qed.
End SampleDemo.
